(* ===== verification/_CoqProject ===== *)
-Q . S2P
Prelude.v
Riscv.v
State.v
Spinlock.v
Str.v
Circ.v
Kalloc.v
Vm.v
Uvm.v
UvmCopy.v
UvmFree.v
Copy.v
Sched.v
Scheduler.v
UserMem.v
Sleeplock.v
Csr.v
Kvm.v
Uart.v
Printf.v
UartTx.v
Pipe.v
Console.v
ConsoleLine.v
FsLayout.v
Ring.v
Bio.v
Log.v
Tx.v
Fs.v
FsAlloc.v
FsInode.v
FsDir.v
Mkfs.v
File.v
Proc.v
ProcMem.v
Fork.v
Wait.v
Syscall.v
Exec.v
Sysfile.v
Trap.v
Virtio.v
Main.v
Asm.v
UserCycle.v
Ulib.v
Grep.v
Umalloc.v
Sh.v
