(* ===== verification/Prelude.v ===== *)
(** * A verification development of xv6 for RISC-V

    The program is the xv6 teaching kernel for RISC-V with the user programs
    that come with it.  The kernel (src/kernel) multiplexes a machine of
    several harts: it keeps page tables ([vm.c]) in pages from a page
    allocator ([kalloc.c]), runs processes ([proc.c]) that enter it through
    traps and system calls ([trap.c], [syscall.c], [sysproc.c], [sysfile.c]),
    and stores files in a logging file system ([fs.c] over [log.c] over
    [bio.c]) on a virtio disk ([virtio_disk.c]); pipes, the console and the
    serial line are its other devices.  Spinlocks ([spinlock.c]) protect the
    shared data, sleep locks ([sleeplock.c]) the buffers and inodes.  The user
    programs (src/user) call the kernel and share a small library.

    ** How code is modelled

    A C integer is a [Z] with its wrap-around written out ([u8] to [u64],
    [i16] to [i64], below).  Physical memory is a map from addresses to bytes.
    All kernel code is written in one monad ([State.M]) over one record
    ([State.kstate]) that has a field for every global variable of the
    kernel: locks, CPUs, harts, process table, buffer cache, inode table,
    file table, log, rings of the disk and serial line.  A computation returns
    [Ok], or [Fail] with the [panic] it calls, the lock it spins on and the
    state the other harts see meanwhile, or the pointer it may not follow, or
    [Swtch]: it gives up the CPU in [sched], and goes on with the continuation
    in whatever state the CPU comes back.  A pointer into a static array is an
    index; a lock, a sleep lock or a sleep channel has a name instead of an
    address.  Linked structures are kept as
    the code has them: the free list is threaded through memory, page tables
    are 512-word pages in memory, the LRU list of buffers is its [prev] and
    [next] fields.  User programs have a memory of their own.

    ** Files

    Foundations:
    - [Prelude]: machine integers, arrays indexed by [Z], byte memory, fields
      in little-endian order, the tactics and hints of the development.
    - [Riscv]: the macros of [riscv.h], [memlayout.h] and [param.h], with the
      arithmetic of page rounding, Sv39 indices and page-table entries.
    - [State]: the structs of the headers, [kstate], the monad, loops.
    - [Csr]: the control-register accessors of [riscv.h].

    Locks and scheduling ([spinlock.c], [sleeplock.c], [proc.c]):
    - [Spinlock]: [acquire], [release], [push_off], [pop_off].  In every
      interleaving of the harts a lock has at most one holder, which has
      interrupts off, and another hart that wants the lock spins; a critical
      section returns the CPU as it was.
    - [Sched]: [sched], [yield], [sleep], [wakeup], [kill].  [sleep] takes the
      process lock before it gives up the other one, and no [wakeup] gets past
      that lock until the process sleeps; [wakeup] and [kill] change exactly
      the processes they should.  [waits] states how a loop around [sleep]
      waits: each time it is resumed it looks at its condition again.
    - [Scheduler]: [scheduler] comes to run a process that stays runnable.
    - [Sleeplock]: mutual exclusion of sleep locks in every interleaving of the
      processes that take, wait for and release one ([sl_trace]); release
      wakes the waiters, and a waiter sleeps for as long as the lock is held.

    Memory ([kalloc.c], [string.c], [vm.c]):
    - [Str]: the routines of [string.c]; overlapping [memmove].
    - [Kalloc]: the free list; no page is handed out twice, none is lost.
    - [Vm]: [walk] and [mappages] against the Sv39 walk of the hardware.
    - [Uvm], [UvmCopy], [UvmFree]: growing, shrinking, copying and freeing an
      address space: [uspace] describes it by the list of its pages; every
      function returns with all of its pages or with none, and leaves other
      address spaces alone.
    - [Copy], [UserMem]: [copyout], [copyin], [copyinstr] access exactly the
      bytes that the permissions of the user allow.
    - [Kvm]: the kernel page table.  It maps devices and memory to themselves
      and a guarded stack per process; nothing is writable and executable.

    Devices ([uart.c], [printf.c], [console.c], [pipe.c], [virtio_disk.c],
    [plic.c]):
    - [Circ]: circular buffers with wrapping counters as queues, for the next
      three.
    - [Uart], [UartTx]: the serial driver; its output is a bounded queue whose
      characters reach the device in order, and a caller that finds the queue
      full sleeps for as long as it is.
    - [Printf]: [printf] sends the rendering of its arguments; [printint]
      overflows its buffer for long numbers.
    - [Console], [ConsoleLine]: the console; [consoleintr] is a line editor,
      and [consoleread] returns the lines that have been entered.
    - [Pipe]: a pipe is a bounded queue of bytes.
    - [Virtio]: a disk request runs through the descriptor ring, the device,
      the interrupt and the wakeup to its return; the device is a parameter
      with the documented protocol as its laws.

    File system ([bio.c], [log.c], [fs.c], [fs.h], [file.c], [sysfile.c]):
    - [FsLayout]: dinodes, directory entries and the superblock as bytes.
    - [Ring], [Bio]: the LRU list and the buffer cache over the interface
      [DiskDriver] with its laws [DiskLaws]; [bread] returns the current
      contents, the cache keeps one buffer per block.
    - [Log]: transactions; [commit] and recovery are atomic with respect to a
      crash at any point of the sequence of disk writes; the reservation of
      [begin_op] does not match the limit of [log_write].
    - [Tx]: the operations on blocks inside a transaction, for the layers
      above.
    - [Fs], [FsAlloc], [FsInode]: all of [fs.c]; the block allocator; reading
      and writing the contents of inodes; mounting the file system.
    - [FsDir]: directories; [dirlookup] finds the first entry of a name, and
      [dirlink] adds one entry and changes no other.
    - [Mkfs]: the program that makes the disk image; the image is one that
      [fsinit] mounts, with exactly the files that were put into it.
    - [File], [Sysfile]: open files and the system calls on files.

    Processes and entry ([proc.c], [exec.c], [syscall.c], [sysproc.c],
    [trap.c], [plic.c], [start.c], [main.c]):
    - [Proc], [Syscall], [Exec], [Trap], [Main]: allocation, [fork], [exit],
      [wait], arguments of system calls, program loading, trap handlers and
      the boot sequence.
    - [ProcMem], [Fork], [Wait]: the life of a process.  [pspace] describes its
      memory, page table and trapframe.  [allocproc] and [fork] make all of a
      process or nothing, [fork] makes a copy of its caller, and [wait] gives
      back exactly what the child had.
    - [Asm]: the assembly code as lists of instructions with a semantics on
      registers and translated memory.  A trap and the return from it keep all
      user registers, [swtch] changes from one kernel thread to another, an
      interrupt in the kernel is transparent, and the machine code of the
      first process calls [exec].
    - [UserCycle]: [usertrapret] of [Trap] and the trampoline of [Asm] together:
      whatever the user program does, the next trap finds the kernel's stack,
      page table and hart, and every user register saved.

    User programs:
    - [Ulib]: the string and memory routines of [ulib.c].
    - [Grep]: the matcher decides the language of its pattern; [grep] prints
      exactly the matching lines however [read] cuts the input.
    - [Umalloc]: the free list of [umalloc.c]; blocks in use never overlap,
      freed blocks are joined.  [sbrk] is an interface.
    - [Sh]: the parser of the shell accepts exactly its language and builds
      the command that the line denotes.

    ** Interfaces and parameters

    [KernelImage] has the symbols that the linker places.  [Mmio] is what
    device registers return.  [DiskDriver] is the contract between the buffer
    cache and the disk driver.  [Sbrk], [Reader] and the success of [malloc]
    stand for system calls in the user programs.  Every theorem with such a
    parameter has a witness with a concrete instance.

    ** Bounds and fuel

    Loops over arrays run for the length of the array.  A loop that waits for
    another hart or for the device has a number of turns, [patience]; its
    exhaustion is the outcome [Fail], and the theorems that the code returns
    hold for every number of turns that the waiting needs.  [freewalk] has the
    depth of a page table as fuel, list walks of [Umalloc] the number of
    headers, the parser of [Sh] four times the length of the line, and loops
    over strings the size of their buffer; [iappend] of [Mkfs] has one turn
    per byte to write, and [until_ecall] of [Asm] is given the number of
    instructions it executes.  The theorems show that each is enough.

    ** Not modelled

    The linker scripts and usys.pl, whose stubs are generated.  The fetch of
    instructions: [Asm] executes a list of instructions, not the bytes behind
    the program counter, except for the array of the first process.  In the
    kernel monad a switch of contexts is the outcome [Swtch].  The TLB and the
    memory model: an atomic operation is a step of the monad, and harts
    interleave at the granularity of the step relations stated in [Spinlock]
    and [Sleeplock].
    Padding bytes of structures.  The test programs (usertests.c, grind.c,
    forktest.c, stressfs.c) only drive the kernel, and the small programs
    (cat, echo, kill, ln, ls, mkdir, rm, wc, zombie, init), [runcmd] and
    [main] of the shell are sequences of system calls of which no part is more
    than the calls themselves. *)

From Stdlib Require Import ZArith Lia Bool.
From stdpp Require Export base numbers list gmap strings.

#[global] Open Scope Z_scope.
#[global] Set Default Goal Selector "1".

Create HintDb xv6.

(** ** Machine integers

    A C integer is a [Z]; the conversions below are the ones the compiler
    inserts (reduction modulo [2^w] for unsigned types, two's complement for
    signed types).  On RISC-V [char] is unsigned. *)

Definition u8 (x : Z) : Z := x mod 2 ^ 8.
Definition u16 (x : Z) : Z := x mod 2 ^ 16.
Definition u32 (x : Z) : Z := x mod 2 ^ 32.
Definition u64 (x : Z) : Z := x mod 2 ^ 64.
Definition signed (w x : Z) : Z :=
  let y := x mod 2 ^ w in if y <? 2 ^ (w - 1) then y else y - 2 ^ w.
Definition i16 (x : Z) : Z := signed 16 x.
Definition i32 (x : Z) : Z := signed 32 x.
Definition i64 (x : Z) : Z := signed 64 x.

(** C truth values of [int] expressions. *)
Definition truth (x : Z) : bool := negb (x =? 0).

(** ** Z-indexed lists: C arrays *)

Definition lookupZ {A} (l : list A) (i : Z) : option A :=
  if i <? 0 then None else l !! Z.to_nat i.
Definition insertZ {A} (i : Z) (x : A) (l : list A) : list A :=
  if i <? 0 then l else <[Z.to_nat i := x]> l.
Definition lenZ {A} (l : list A) : Z := Z.of_nat (length l).

(** [seqZ' a n] is [a, a+1, ..., a+n-1]. *)
Fixpoint rangeZ (a : Z) (n : nat) : list Z :=
  match n with O => [] | S n' => a :: rangeZ (a + 1) n' end.

(** ** Little-endian encodings *)

Fixpoint le_split (n : nat) (z : Z) : list Z :=
  match n with
  | O => []
  | S n' => z mod 256 :: le_split n' (z / 256)
  end.

Fixpoint le_combine (bs : list Z) : Z :=
  match bs with
  | [] => 0
  | b :: bs' => b mod 256 + 256 * le_combine bs'
  end.

(** ** Byte-addressed memory

    A memory is a finite map from addresses to byte values; an address that
    is not in the map holds 0.  Reading reduces modulo 256, so every byte
    read is in range whatever the map holds. *)

Notation mem := (gmap Z Z) (only parsing).

Definition mget (m : mem) (a : Z) : Z := default 0 (m !! a) mod 256.
Definition mput (m : mem) (a v : Z) : mem := <[a := v mod 256]> m.

Fixpoint load_bytes (m : mem) (a : Z) (n : nat) : list Z :=
  match n with
  | O => []
  | S n' => mget m a :: load_bytes m (a + 1) n'
  end.

Fixpoint store_bytes (m : mem) (a : Z) (bs : list Z) : mem :=
  match bs with
  | [] => m
  | b :: bs' => store_bytes (mput m a b) (a + 1) bs'
  end.

Definition load64 (m : mem) (a : Z) : Z := le_combine (load_bytes m a 8).
Definition store64 (m : mem) (a v : Z) : mem := store_bytes m a (le_split 8 v).
Definition load32 (m : mem) (a : Z) : Z := le_combine (load_bytes m a 4).
Definition store32 (m : mem) (a v : Z) : mem := store_bytes m a (le_split 4 v).

(** Two memories agree on a set of addresses. *)
Definition mem_agree (P : Z -> Prop) (m m' : mem) : Prop :=
  forall a, P a -> mget m a = mget m' a.

(** ** Tactics *)

(** Turn boolean tests in the hypotheses and the goal into propositions. *)
Ltac zbool :=
  repeat match goal with
  | H : _ && _ = true |- _ => apply andb_prop in H; destruct H
  | H : _ || _ = false |- _ => apply orb_false_elim in H; destruct H
  | H : negb _ = true |- _ => apply negb_true_iff in H
  | H : negb _ = false |- _ => apply negb_false_iff in H
  | H : (_ =? _) = true |- _ => apply Z.eqb_eq in H
  | H : (_ =? _) = false |- _ => apply Z.eqb_neq in H
  | H : (_ <? _) = true |- _ => apply Z.ltb_lt in H
  | H : (_ <? _) = false |- _ => apply Z.ltb_ge in H
  | H : (_ <=? _) = true |- _ => apply Z.leb_le in H
  | H : (_ <=? _) = false |- _ => apply Z.leb_gt in H
  end.

(** Case on a boolean integer test and translate it. *)
Ltac zcase b := destruct b eqn:?; zbool; try done; try lia.

(** Case on the first integer test of the goal. *)
Ltac zif :=
  match goal with
  | |- context [if ?b then _ else _] => zcase b
  end.



(** ** Integers: lemmas *)

Lemma u64_range x : 0 <= u64 x < 2 ^ 64.
Proof. apply Z.mod_pos_bound. lia. Qed.

Lemma u32_range x : 0 <= u32 x < 2 ^ 32.
Proof. apply Z.mod_pos_bound. lia. Qed.

Lemma u64_small x : 0 <= x < 2 ^ 64 -> u64 x = x.
Proof. apply Z.mod_small. Qed.

Lemma u32_small x : 0 <= x < 2 ^ 32 -> u32 x = x.
Proof. apply Z.mod_small. Qed.

Lemma u8_small x : 0 <= x < 256 -> u8 x = x.
Proof. apply Z.mod_small. Qed.

Lemma i32_small x : 0 <= x < 2 ^ 31 -> i32 x = x.
Proof.
  intros H. unfold i32, signed. rewrite Z.mod_small by lia.
  change (2 ^ (32 - 1)) with (2 ^ 31). zcase (x <? 2 ^ 31).
Qed.

Lemma i32_range x : - 2 ^ 31 <= i32 x < 2 ^ 31.
Proof.
  unfold i32, signed. pose proof (Z.mod_pos_bound x (2 ^ 32) ltac:(lia)).
  change (2 ^ (32 - 1)) with (2 ^ 31). zcase (x mod 2 ^ 32 <? 2 ^ 31).
Qed.

Lemma i64_range x : - 2 ^ 63 <= i64 x < 2 ^ 63.
Proof.
  unfold i64, signed. pose proof (Z.mod_pos_bound x (2 ^ 64) ltac:(lia)).
  change (2 ^ (64 - 1)) with (2 ^ 63). zcase (x mod 2 ^ 64 <? 2 ^ 63).
Qed.

Lemma u64_i64 x : u64 (i64 x) = u64 x.
Proof.
  unfold u64, i64, signed. change (2 ^ (64 - 1)) with (2 ^ 63). zcase (x mod 2 ^ 64 <? 2 ^ 63).
  - by rewrite Z.mod_mod.
  - by rewrite <- (Z.mod_add _ 1), Z.sub_add, Z.mod_mod by lia.
Qed.

(** ** Z-indexed lists: lemmas *)

Section ZLists.
Context {A : Type}.
Implicit Types (l : list A) (x : A).

Lemma lookupZ_Some_range l i x : lookupZ l i = Some x -> 0 <= i < lenZ l.
Proof.
  unfold lookupZ, lenZ. zcase (i <? 0). intros H.
  apply lookup_lt_Some in H. lia.
Qed.

Lemma lookupZ_is_Some l i : 0 <= i < lenZ l -> exists x, lookupZ l i = Some x.
Proof.
  unfold lookupZ, lenZ. intros H. zcase (i <? 0).
  destruct (lookup_lt_is_Some_2 l (Z.to_nat i)) as [x Hx]; [lia|eauto].
Qed.

Lemma lookupZ_None l i : ~ (0 <= i < lenZ l) -> lookupZ l i = None.
Proof.
  unfold lookupZ, lenZ. intros H. zcase (i <? 0).
  apply lookup_ge_None. lia.
Qed.

Lemma lenZ_insertZ i x l : lenZ (insertZ i x l) = lenZ l.
Proof. unfold lenZ, insertZ. zcase (i <? 0). by rewrite length_insert. Qed.

Lemma lookupZ_insertZ_eq i x l : 0 <= i < lenZ l -> lookupZ (insertZ i x l) i = Some x.
Proof.
  unfold lookupZ, insertZ, lenZ. intros H. zcase (i <? 0).
  apply list_lookup_insert_eq. lia.
Qed.

Lemma lookupZ_insertZ_ne i j x l : i <> j -> lookupZ (insertZ i x l) j = lookupZ l j.
Proof.
  unfold lookupZ, insertZ. intros H. zcase (j <? 0). zcase (i <? 0).
  apply list_lookup_insert_ne. lia.
Qed.

Lemma insertZ_id i x l : lookupZ l i = Some x -> insertZ i x l = l.
Proof.
  unfold lookupZ, insertZ. zcase (i <? 0). apply list_insert_id.
Qed.

Lemma insertZ_insertZ i x y l : insertZ i x (insertZ i y l) = insertZ i x l.
Proof. unfold insertZ. zcase (i <? 0). apply list_insert_insert_eq. Qed.

Lemma insertZ_comm i j x y l :
  i <> j -> insertZ i x (insertZ j y l) = insertZ j y (insertZ i x l).
Proof.
  unfold insertZ. intros. zcase (i <? 0). zcase (j <? 0).
  apply list_insert_insert_ne. lia.
Qed.

Lemma lenZ_nonneg l : 0 <= lenZ l.
Proof. unfold lenZ. lia. Qed.

Lemma lenZ_app l l' : lenZ (l ++ l') = lenZ l + lenZ l'.
Proof. unfold lenZ. rewrite length_app. lia. Qed.

Lemma lenZ_cons x l : lenZ (x :: l) = 1 + lenZ l.
Proof. unfold lenZ. simpl length. lia. Qed.

End ZLists.

Lemma lookupZ_app {B} (k k' : list B) i :
  lookupZ (k ++ k') i = if i <? lenZ k then lookupZ k i else lookupZ k' (i - lenZ k).
Proof.
  unfold lookupZ, lenZ. destruct (Z.ltb_spec i 0); [by zcase (i <? Z.of_nat (length k))|].
  destruct (Z.ltb_spec i (Z.of_nat (length k))).
  - by rewrite lookup_app_l by lia.
  - zcase (i - Z.of_nat (length k) <? 0). rewrite lookup_app_r by lia. f_equal. lia.
Qed.

Lemma elem_of_rev {B} (x : B) k : x ∈ rev k <-> x ∈ k.
Proof. by rewrite !list_elem_of_In, <- in_rev. Qed.

Lemma lookup_app_shift {B} (k k' : list B) i : (k ++ k') !! (length k + i)%nat = k' !! i.
Proof. rewrite lookup_app_r by lia. f_equal. lia. Qed.

Lemma length_rangeZ a n : length (rangeZ a n) = n.
Proof. revert a. induction n; simpl; auto. Qed.

Lemma elem_of_rangeZ a n x : x ∈ rangeZ a n <-> a <= x < a + Z.of_nat n.
Proof.
  revert a. induction n as [|n IH]; intros a; cbn [rangeZ].
  - split; [intros H; inversion H|lia].
  - rewrite elem_of_cons, IH. lia.
Qed.

Lemma rangeZ_fmap a n : rangeZ a n = (fun i => a + i) <$> rangeZ 0 n.
Proof.
  assert (H : forall b, rangeZ (a + b) n = (fun i => a + i) <$> rangeZ b n).
  { induction n as [|n IH]; intros b; [done|]. cbn [rangeZ]. rewrite fmap_cons. f_equal.
    rewrite <- IH. f_equal. lia. }
  specialize (H 0). by rewrite Z.add_0_r in H.
Qed.

Lemma NoDup_rangeZ a n : NoDup (rangeZ a n).
Proof.
  revert a. induction n as [|n IH]; intros a; cbn [rangeZ]; constructor; auto.
  rewrite elem_of_rangeZ. lia.
Qed.

Lemma lenZ_fmap {A B} (f : A -> B) l : lenZ (f <$> l) = lenZ l.
Proof. unfold lenZ. by rewrite length_fmap. Qed.

Lemma lenZ_rangeZ a n : lenZ (rangeZ a n) = Z.of_nat n.
Proof. unfold lenZ. by rewrite length_rangeZ. Qed.

Lemma rangeZ_S a n : rangeZ a (S n) = rangeZ a n ++ [a + Z.of_nat n].
Proof.
  revert a. induction n as [|n IH]; intros a; [cbn; by rewrite Z.add_0_r|].
  change (rangeZ a (S (S n))) with (a :: rangeZ (a + 1) (S n)). rewrite IH. cbn [rangeZ app].
  do 3 f_equal. lia.
Qed.

Lemma lookup_rangeZ a n i : (i < n)%nat -> rangeZ a n !! i = Some (a + Z.of_nat i).
Proof.
  revert a i. induction n as [|n IH]; intros a i Hi; [lia|]. destruct i as [|i]; cbn [rangeZ].
  - cbn. f_equal. lia.
  - cbn. rewrite IH by lia. f_equal. lia.
Qed.

Lemma lookupZ_fmap {A B} (f : A -> B) l i : lookupZ (f <$> l) i = f <$> lookupZ l i.
Proof. unfold lookupZ. destruct (i <? 0); [done|]. apply list_lookup_fmap. Qed.

Lemma lookupZ_rangeZ a n i : 0 <= i < Z.of_nat n -> lookupZ (rangeZ a n) i = Some (a + i).
Proof.
  intros Hi. unfold lookupZ. destruct (Z.ltb_spec i 0); [lia|]. rewrite lookup_rangeZ by lia. f_equal. lia.
Qed.

(** Two functions that agree on the range have the same image. *)
Lemma fmap_rangeZ_ext {A} (f g : Z -> A) a n :
  (forall i, a <= i < a + Z.of_nat n -> f i = g i) -> f <$> rangeZ a n = g <$> rangeZ a n.
Proof.
  intros H. apply list_fmap_ext. intros i x Hx. apply H, elem_of_rangeZ. by eapply list_elem_of_lookup_2.
Qed.

Lemma lookupZ_take {A} (l : list A) n i : lookupZ (take n l) i = if i <? Z.of_nat n then lookupZ l i else None.
Proof.
  unfold lookupZ. destruct (Z.ltb_spec i 0); [by destruct (_ <? _)|]. destruct (Z.ltb_spec i (Z.of_nat n)).
  - by rewrite lookup_take_lt by lia.
  - by rewrite lookup_take_ge by lia.
Qed.

Lemma lookupZ_drop {A} (l : list A) n i :
  lookupZ (drop n l) i = if i <? 0 then None else lookupZ l (Z.of_nat n + i).
Proof.
  unfold lookupZ. destruct (Z.ltb_spec i 0); [done|]. destruct (Z.ltb_spec (Z.of_nat n + i) 0); [lia|].
  rewrite lookup_drop. f_equal. lia.
Qed.

Lemma lenZ_take {A} (l : list A) n : lenZ (take n l) = Z.min (Z.of_nat n) (lenZ l).
Proof. unfold lenZ. rewrite length_take. lia. Qed.

Lemma lenZ_drop {A} (l : list A) n : lenZ (drop n l) = Z.max 0 (lenZ l - Z.of_nat n).
Proof. unfold lenZ. rewrite length_drop. lia. Qed.

Lemma lenZ_replicate {A} n (x : A) : lenZ (replicate n x) = Z.of_nat n.
Proof. unfold lenZ. by rewrite length_replicate. Qed.

Lemma lookupZ_replicate {A} n (x : A) i : 0 <= i < Z.of_nat n -> lookupZ (replicate n x) i = Some x.
Proof. intros Hi. unfold lookupZ. destruct (Z.ltb_spec i 0); [lia|]. apply lookup_replicate_2. lia. Qed.

Lemma lookupZ_elem {A} (l : list A) i x : lookupZ l i = Some x -> x ∈ l.
Proof. unfold lookupZ. destruct (i <? 0); [done|]. apply list_elem_of_lookup_2. Qed.

Lemma lookupZ_insertZ {A} i j (x : A) l :
  0 <= i < lenZ l -> lookupZ (insertZ i x l) j = if j =? i then Some x else lookupZ l j.
Proof.
  intros Hi. destruct (Z.eqb_spec j i) as [->|]; [by apply lookupZ_insertZ_eq|by apply lookupZ_insertZ_ne].
Qed.

Lemma list_eqZ {A} (l l' : list A) :
  lenZ l = lenZ l' -> (forall i, 0 <= i < lenZ l -> lookupZ l i = lookupZ l' i) -> l = l'.
Proof.
  intros Hl H. apply list_eq_same_length with (length l); [unfold lenZ in Hl; lia|done|].
  intros i x y Hi Hx Hy. specialize (H (Z.of_nat i)). unfold lookupZ, lenZ in H.
  destruct (Z.ltb_spec (Z.of_nat i) 0); [lia|]. rewrite Nat2Z.id in H. rewrite H in Hx by lia. congruence.
Qed.

(** ** Little-endian encodings: lemmas *)

Lemma length_le_split n z : length (le_split n z) = n.
Proof. revert z. induction n; simpl; auto. Qed.

Lemma le_combine_split n z : le_combine (le_split n z) = z mod 256 ^ Z.of_nat n.
Proof.
  revert z. induction n as [|n IH]; intros z; cbn [le_split le_combine].
  - by rewrite Z.mod_1_r.
  - rewrite IH, Zmod_mod, Nat2Z.inj_succ, Z.pow_succ_r by lia.
    rewrite Z.rem_mul_r by lia. lia.
Qed.

Lemma le_combine_bound bs : 0 <= le_combine bs < 256 ^ lenZ bs.
Proof.
  induction bs as [|b bs IH]; cbn [le_combine]; [unfold lenZ; simpl; lia|].
  rewrite lenZ_cons, Z.pow_add_r by (try apply lenZ_nonneg; lia).
  pose proof (Z.mod_pos_bound b 256). lia.
Qed.

Lemma le_split_combine bs :
  Forall (fun b => 0 <= b < 256) bs -> le_split (length bs) (le_combine bs) = bs.
Proof.
  induction 1 as [|b bs Hb _ IH]; [done|]. cbn [length le_split le_combine].
  rewrite (Z.mod_small b) by lia. f_equal.
  - rewrite Z.mul_comm, Z.mod_add, Z.mod_small; lia.
  - rewrite Z.mul_comm, Z.div_add, Z.div_small by lia. apply IH.
Qed.

(** ** Memory: lemmas *)

Lemma mget_range m a : 0 <= mget m a < 256.
Proof. apply Z.mod_pos_bound. lia. Qed.

Lemma mget_mput_eq m a v : mget (mput m a v) a = v mod 256.
Proof. unfold mget, mput. rewrite lookup_insert_eq. simpl. apply Zmod_mod. Qed.

Lemma mget_mput_ne m a b v : a <> b -> mget (mput m a v) b = mget m b.
Proof. intros. unfold mget, mput. by rewrite lookup_insert_ne. Qed.

Lemma length_load_bytes m a n : length (load_bytes m a n) = n.
Proof. revert a. induction n; simpl; auto. Qed.

Lemma load_bytes_ext m m' a n :
  (forall x, a <= x < a + Z.of_nat n -> mget m x = mget m' x) ->
  load_bytes m a n = load_bytes m' a n.
Proof.
  revert a. induction n as [|n IH]; intros a H; cbn [load_bytes]; [done|].
  f_equal; [apply H; lia|]. apply IH. intros x Hx. apply H. lia.
Qed.

Lemma load_bytes_range m a n : Forall (fun b => 0 <= b < 256) (load_bytes m a n).
Proof.
  revert a. induction n; intros a; cbn [load_bytes]; constructor; auto using mget_range.
Qed.

Lemma lookup_load_bytes m a n i :
  (i < n)%nat -> load_bytes m a n !! i = Some (mget m (a + Z.of_nat i)).
Proof.
  revert a i. induction n as [|n IH]; intros a [|i] H; cbn [load_bytes]; simpl; try lia.
  - by rewrite Z.add_0_r.
  - rewrite IH by lia. do 2 f_equal. lia.
Qed.

Lemma mget_store_bytes_out m a bs x :
  ~ (a <= x < a + lenZ bs) -> mget (store_bytes m a bs) x = mget m x.
Proof.
  revert m a. induction bs as [|b bs IH]; intros m a H; cbn [store_bytes]; [done|].
  rewrite lenZ_cons in H. rewrite IH by lia.
  apply mget_mput_ne. pose proof (lenZ_nonneg bs). lia.
Qed.

Lemma mget_store_bytes_in m a bs i b :
  bs !! i = Some b -> mget (store_bytes m a bs) (a + Z.of_nat i) = b mod 256.
Proof.
  revert m a i. induction bs as [|c bs IH]; intros m a [|i] H; cbn [store_bytes];
    simpl in H; try discriminate.
  - injection H as ->. rewrite mget_store_bytes_out by lia.
    rewrite Z.add_0_r. apply mget_mput_eq.
  - replace (a + Z.of_nat (S i)) with (a + 1 + Z.of_nat i) by lia. by apply IH.
Qed.

Lemma load_store_bytes m a bs :
  Forall (fun b => 0 <= b < 256) bs -> load_bytes (store_bytes m a bs) a (length bs) = bs.
Proof.
  intros HF. apply list_eq. intros i.
  destruct (decide (i < length bs)%nat) as [Hi|Hi].
  - rewrite lookup_load_bytes by done.
    destruct (lookup_lt_is_Some_2 bs i Hi) as [b Hb]. rewrite Hb.
    rewrite (mget_store_bytes_in _ _ _ _ _ Hb).
    pose proof (Forall_lookup_1 _ _ _ _ HF Hb). by rewrite Z.mod_small.
  - rewrite !lookup_ge_None_2; [done|lia|rewrite length_load_bytes; lia].
Qed.

Lemma load64_range m a : 0 <= load64 m a < 2 ^ 64.
Proof.
  unfold load64. pose proof (le_combine_bound (load_bytes m a 8)) as H.
  unfold lenZ in H. rewrite length_load_bytes in H. exact H.
Qed.

Lemma le_split_range n z : Forall (fun b => 0 <= b < 256) (le_split n z).
Proof.
  revert z. induction n; intros z; cbn [le_split]; constructor; auto.
  apply Z.mod_pos_bound. lia.
Qed.

Lemma load64_store64 m a v : load64 (store64 m a v) a = u64 v.
Proof.
  unfold load64, store64.
  pose proof (load_store_bytes m a (le_split 8 v) (le_split_range 8 v)) as H.
  rewrite length_le_split in H. rewrite H. apply le_combine_split.
Qed.

Lemma load64_ext m m' a :
  (forall x, a <= x < a + 8 -> mget m x = mget m' x) -> load64 m a = load64 m' a.
Proof. intros H. unfold load64. f_equal. apply load_bytes_ext. exact H. Qed.

Lemma mget_store64_out m a v x : ~ (a <= x < a + 8) -> mget (store64 m a v) x = mget m x.
Proof.
  intros. unfold store64. apply mget_store_bytes_out. unfold lenZ.
  rewrite length_le_split. lia.
Qed.

Lemma load64_zero m a : (forall x, a <= x < a + 8 -> mget m x = 0) -> load64 m a = 0.
Proof.
  intros H. unfold load64. assert (load_bytes m a 8 = replicate 8 0) as ->; [|done].
  apply list_eq. intros k. destruct (decide (k < 8)%nat) as [Hk|Hk].
  - rewrite lookup_load_bytes by done. rewrite lookup_replicate_2 by done.
    by rewrite H by lia.
  - rewrite !lookup_ge_None_2; [done|by rewrite length_replicate; lia|by rewrite length_load_bytes; lia].
Qed.

Lemma load64_store64_ne m a b v :
  a + 8 <= b \/ b + 8 <= a -> load64 (store64 m a v) b = load64 m b.
Proof. intros. apply load64_ext. intros. apply mget_store64_out. lia. Qed.

#[global] Opaque load64 store64.

#[export] Hint Rewrite load64_store64 : xv6.
#[export] Hint Resolve u64_range u32_range load64_range mget_range lenZ_nonneg : xv6.
