(* ===== verification/Riscv.v ===== *)
(** * Constants and address arithmetic: [kernel/riscv.h], [kernel/memlayout.h],
    [kernel/param.h]

    The macros of the three headers on [Z], with the 64-bit wrap-around of
    the C expressions written out, and their arithmetic meaning: page
    rounding, the three 9-bit indices of an Sv39 virtual address, and the
    encoding of a physical address and flags in a page-table entry. *)

From S2P Require Import Prelude.

(** ** [param.h] *)

Definition NPROC : Z := 64.
Definition NCPU : Z := 8.
Definition NOFILE : Z := 16.
Definition NFILE : Z := 100.
Definition NINODE : Z := 50.
Definition NDEV : Z := 10.
Definition ROOTDEV : Z := 1.
Definition MAXARG : Z := 32.
Definition MAXOPBLOCKS : Z := 10.
Definition LOGSIZE : Z := MAXOPBLOCKS * 3.
Definition NBUF : Z := MAXOPBLOCKS * 3.
Definition FSSIZE : Z := 2000.
Definition MAXPATH : Z := 128.
Definition USERSTACK : Z := 1.

(** ** Page size and rounding ([riscv.h]) *)

Definition PGSIZE : Z := 4096.
Definition PGSHIFT : Z := 12.

Definition PGROUNDUP (sz : Z) : Z := Z.land (u64 (sz + PGSIZE - 1)) (u64 (Z.lnot (PGSIZE - 1))).
Definition PGROUNDDOWN (a : Z) : Z := Z.land a (u64 (Z.lnot (PGSIZE - 1))).

(** ** Page-table entries *)

Definition PTE_V : Z := Z.shiftl 1 0.
Definition PTE_R : Z := Z.shiftl 1 1.
Definition PTE_W : Z := Z.shiftl 1 2.
Definition PTE_X : Z := Z.shiftl 1 3.
Definition PTE_U : Z := Z.shiftl 1 4.

Definition PA2PTE (pa : Z) : Z := u64 (Z.shiftl (Z.shiftr pa 12) 10).
Definition PTE2PA (pte : Z) : Z := u64 (Z.shiftl (Z.shiftr pte 10) 12).
Definition PTE_FLAGS (pte : Z) : Z := Z.land pte 0x3FF.

Definition PXMASK : Z := 0x1FF.
Definition PXSHIFT (level : Z) : Z := PGSHIFT + 9 * level.
Definition PX (level va : Z) : Z := Z.land (Z.shiftr va (PXSHIFT level)) PXMASK.

Definition MAXVA : Z := Z.shiftl 1 (9 + 9 + 9 + 12 - 1).

Definition SATP_SV39 : Z := Z.shiftl 8 60.
Definition MAKE_SATP (pagetable : Z) : Z := Z.lor SATP_SV39 (Z.shiftr pagetable 12).

(** ** Status bits *)

Definition SSTATUS_SPP : Z := Z.shiftl 1 8.
Definition SSTATUS_SPIE : Z := Z.shiftl 1 5.
Definition SSTATUS_SIE : Z := Z.shiftl 1 1.

(** ** [memlayout.h] *)

Definition UART0 : Z := 0x10000000.
Definition UART0_IRQ : Z := 10.
Definition VIRTIO0 : Z := 0x10001000.
Definition VIRTIO0_IRQ : Z := 1.
Definition PLIC : Z := 0x0c000000.
Definition KERNBASE : Z := 0x80000000.
Definition PHYSTOP : Z := KERNBASE + 128 * 1024 * 1024.
Definition TRAMPOLINE : Z := MAXVA - PGSIZE.
Definition KSTACK (p : Z) : Z := TRAMPOLINE - (p + 1) * 2 * PGSIZE.
Definition TRAPFRAME : Z := TRAMPOLINE - PGSIZE.

(** Page-aligned physical addresses of 56 bits, page-aligned virtual addresses
    of 39 bits, and the flag bits of an entry. *)
Definition pa_ok (pa : Z) : Prop := pa mod PGSIZE = 0 /\ 0 <= pa < 2 ^ 56.
Definition va_ok (va : Z) : Prop := va mod PGSIZE = 0 /\ 0 <= va < 2 ^ 39.
Definition flags_ok (fl : Z) : Prop := 0 <= fl < 1024.

(** The symbols [kernel/kernel.ld] defines: where the trampoline page, the
    end of the kernel text and the end of the kernel image are.  Their values
    depend on the size of the compiled kernel; the linker script fixes their
    order and alignment. *)
Class KernelImage := {
  ld_trampoline : Z;
  ld_etext : Z;
  ld_end : Z;
  ld_trampoline_aligned : ld_trampoline mod PGSIZE = 0;
  ld_trampoline_base : KERNBASE <= ld_trampoline;
  ld_etext_eq : ld_etext = ld_trampoline + PGSIZE;
  ld_end_etext : ld_etext <= ld_end;
  ld_end_phystop : ld_end <= PHYSTOP;
}.

Create HintDb consts.
#[export] Hint Unfold NPROC NCPU NOFILE NFILE NINODE NDEV ROOTDEV MAXARG MAXOPBLOCKS
  LOGSIZE NBUF FSSIZE MAXPATH USERSTACK PGSIZE PGSHIFT PXMASK PXSHIFT
  KERNBASE PHYSTOP TRAMPOLINE TRAPFRAME KSTACK : consts.

(** [lia] after unfolding the constants of the headers. *)
Ltac lz := autounfold with consts in *; try change MAXVA with (2 ^ 38) in *; lia.

(** ** Bit operations as arithmetic *)

Lemma land_lor_zero a b n :
  0 <= n -> 0 <= b < 2 ^ n -> Z.land (a * 2 ^ n) b = 0.
Proof.
  intros Hn Hb. apply Z.bits_inj'. intros i Hi.
  rewrite Z.land_spec, Z.bits_0, andb_false_iff.
  destruct (Z.lt_ge_cases i n) as [Hin|Hin].
  - left. by apply Z.mul_pow2_bits_low.
  - right. destruct (Z.eq_dec b 0) as [->|Hb0]; [apply Z.bits_0|].
    apply Z.bits_above_log2; [lia|]. apply Z.log2_lt_pow2; [lia|].
    apply Z.lt_le_trans with (2 ^ n); [lia|]. apply Z.pow_le_mono_r; lia.
Qed.

(** Disjoint bits: [|] is [+]. *)
Lemma lor_shifted a b n :
  0 <= n -> 0 <= b < 2 ^ n -> Z.lor (a * 2 ^ n) b = a * 2 ^ n + b.
Proof.
  intros Hn Hb. pose proof (land_lor_zero a b n Hn Hb) as H.
  by rewrite <- Z.lxor_lor, <- Z.add_nocarry_lxor.
Qed.

Lemma land_ones_low a n : 0 <= n -> Z.land a (2 ^ n - 1) = a mod 2 ^ n.
Proof. intros. rewrite <- Z.land_ones, Z.ones_equiv by lia. f_equal. Qed.

Lemma MAKE_SATP_eq root : pa_ok root -> MAKE_SATP root = 8 * 2 ^ 60 + root / PGSIZE.
Proof.
  intros [Ha Hr]. unfold MAKE_SATP, SATP_SV39, PGSIZE in *. rewrite Z.shiftl_mul_pow2, Z.shiftr_div_pow2 by lia. apply lor_shifted; [lia|].
  Z.div_mod_to_equations. lia.
Qed.

(** Masking with the 64-bit [~(PGSIZE - 1)] clears the low 12 bits. *)
Lemma land_page_mask a : 0 <= a < 2 ^ 64 -> Z.land a (u64 (Z.lnot (PGSIZE - 1))) = a / PGSIZE * PGSIZE.
Proof.
  intros Ha. apply Z.bits_inj'. intros i Hi.
  change (u64 (Z.lnot (PGSIZE - 1))) with (Z.shiftl (Z.ones 52) 12).
  change PGSIZE with (2 ^ 12). rewrite Z.land_spec, Z.shiftl_spec by lia.
  destruct (Z.lt_ge_cases i 12) as [H12|H12].
  - rewrite Z.mul_pow2_bits_low, (Z.testbit_neg_r _ (i - 12)) by lia. apply andb_false_r.
  - rewrite Z.mul_pow2_bits by lia. rewrite Z.div_pow2_bits by lia.
    replace (i - 12 + 12) with i by lia.
    destruct (Z.lt_ge_cases i 64) as [H64|H64].
    + rewrite Z.ones_spec_low by lia. apply andb_true_r.
    + rewrite Z.ones_spec_high by lia. rewrite andb_false_r. symmetry.
      destruct (Z.eq_dec a 0) as [->|]; [apply Z.bits_0|].
      apply Z.bits_above_log2; [lia|]. apply Z.log2_lt_pow2; [lia|].
      apply Z.lt_le_trans with (2 ^ 64); [lia|]. apply Z.pow_le_mono_r; lia.
Qed.

(** ** Page rounding *)

Lemma PGROUNDDOWN_eq a : 0 <= a < 2 ^ 64 -> PGROUNDDOWN a = a / PGSIZE * PGSIZE.
Proof. apply land_page_mask. Qed.

Lemma PGROUNDUP_eq sz :
  0 <= sz -> sz + PGSIZE - 1 < 2 ^ 64 -> PGROUNDUP sz = (sz + PGSIZE - 1) / PGSIZE * PGSIZE.
Proof.
  intros. unfold PGROUNDUP. rewrite u64_small by lz. apply land_page_mask. lz.
Qed.

Lemma PGROUNDUP_aligned sz : 0 <= sz -> sz + PGSIZE - 1 < 2 ^ 64 -> PGROUNDUP sz mod PGSIZE = 0.
Proof. intros. rewrite PGROUNDUP_eq by done. apply Z_mod_mult. Qed.

Lemma PGROUNDUP_bounds sz :
  0 <= sz -> sz + PGSIZE - 1 < 2 ^ 64 -> sz <= PGROUNDUP sz < sz + PGSIZE.
Proof.
  intros. rewrite PGROUNDUP_eq by done.
  pose proof (Z.div_mod (sz + PGSIZE - 1) PGSIZE ltac:(lz)).
  pose proof (Z.mod_pos_bound (sz + PGSIZE - 1) PGSIZE ltac:(lz)). lz.
Qed.

Lemma PGROUNDUP_id sz : sz mod PGSIZE = 0 -> 0 <= sz -> sz + PGSIZE - 1 < 2 ^ 64 -> PGROUNDUP sz = sz.
Proof.
  intros Hm ? ?. rewrite PGROUNDUP_eq by done.
  pose proof (Z.div_mod sz PGSIZE ltac:(lz)) as Hd. rewrite Hm in Hd.
  replace (sz + PGSIZE - 1) with (PGSIZE - 1 + sz / PGSIZE * PGSIZE) by lz.
  rewrite Z.div_add by lz. rewrite (Z.div_small (PGSIZE - 1)) by lz. lz.
Qed.

Lemma PGROUNDDOWN_bounds a :
  0 <= a < 2 ^ 64 -> PGROUNDDOWN a <= a < PGROUNDDOWN a + PGSIZE.
Proof.
  intros. rewrite PGROUNDDOWN_eq by done.
  pose proof (Z.div_mod a PGSIZE ltac:(lz)).
  pose proof (Z.mod_pos_bound a PGSIZE ltac:(lz)). lz.
Qed.

Lemma PGROUNDDOWN_aligned a : 0 <= a < 2 ^ 64 -> PGROUNDDOWN a mod PGSIZE = 0.
Proof. intros. rewrite PGROUNDDOWN_eq by done. apply Z_mod_mult. Qed.

Lemma next_page_aligned a : a mod PGSIZE = 0 -> (a + PGSIZE) mod PGSIZE = 0.
Proof. intros H. rewrite <- (Z_mod_plus_full a 1) in H. by rewrite Z.mul_1_l in H. Qed.

(** ** Virtual addresses: the three indices *)

Lemma PX_eq level va : 0 <= level -> PX level va = va / 2 ^ (12 + 9 * level) mod 512.
Proof.
  intros. unfold PX, PXMASK, PXSHIFT, PGSHIFT.
  rewrite Z.shiftr_div_pow2 by lia. apply (land_ones_low _ 9). lia.
Qed.

Lemma PX_range level va : 0 <= level -> 0 <= PX level va < 512.
Proof. intros. rewrite PX_eq by done. apply Z.mod_pos_bound. lia. Qed.

(** A page-aligned address of 39 bits is determined by its indices. *)
Lemma va_of_PX va :
  va mod PGSIZE = 0 -> 0 <= va < 2 ^ 39 ->
  va = PX 2 va * 2 ^ 30 + PX 1 va * 2 ^ 21 + PX 0 va * 2 ^ 12.
Proof.
  intros Hm Hr. rewrite !PX_eq by lia.
  change (12 + 9 * 2) with 30. change (12 + 9 * 1) with 21. change (12 + 9 * 0) with 12.
  change PGSIZE with (2 ^ 12) in Hm.
  replace (2 ^ 30) with (2 ^ 12 * 512 * 512) by reflexivity.
  replace (2 ^ 21) with (2 ^ 12 * 512) by reflexivity.
  rewrite <- !Z.div_div by lia.
  set (n := va / 2 ^ 12). assert (Hn : va = 2 ^ 12 * n) by (unfold n; pose proof (Z.div_mod va (2 ^ 12)); lia).
  assert (Hnr : 0 <= n < 2 ^ 27) by lia.
  pose proof (Z.div_mod n 512 ltac:(lia)). pose proof (Z.div_mod (n / 512) 512 ltac:(lia)).
  rewrite (Z.mod_small (n / 512 / 512)); [lia|].
  split; [apply Z.div_pos; [apply Z.div_pos|]; lia|].
  apply Z.div_lt_upper_bound; [lia|]. apply Z.div_lt_upper_bound; lia.
Qed.

Lemma PX_inj va va' :
  va_ok va -> va_ok va' -> PX 2 va = PX 2 va' -> PX 1 va = PX 1 va' -> PX 0 va = PX 0 va' -> va = va'.
Proof.
  intros [? ?] [? ?] E2 E1 E0. rewrite (va_of_PX va), (va_of_PX va') by done. congruence.
Qed.

(** The indices of an address are those of its page. *)
Lemma PX_PGROUNDDOWN level va :
  0 <= level -> 0 <= va < 2 ^ 64 -> PX level (PGROUNDDOWN va) = PX level va.
Proof.
  intros. rewrite !PX_eq, PGROUNDDOWN_eq by done. f_equal.
  rewrite Z.pow_add_r by lia. change (2 ^ 12) with PGSIZE.
  rewrite <- !Z.div_div by (try apply Z.pow_nonzero; try apply Z.pow_pos_nonneg; lz).
  rewrite Z.div_mul by lz. done.
Qed.

(** Every triple of indices is that of a page. *)
Lemma va_ok_of_indices i2 i1 i0 :
  0 <= i2 < 512 -> 0 <= i1 < 512 -> 0 <= i0 < 512 -> va_ok (i2 * 2 ^ 30 + i1 * 2 ^ 21 + i0 * 2 ^ 12).
Proof.
  intros. split; [|lia]. replace (i2 * 2 ^ 30 + i1 * 2 ^ 21 + i0 * 2 ^ 12) with ((i2 * 2 ^ 18 + i1 * 2 ^ 9 + i0) * PGSIZE) by lz.
  apply Z_mod_mult.
Qed.

Lemma PX_of_indices i2 i1 i0 :
  0 <= i2 < 512 -> 0 <= i1 < 512 -> 0 <= i0 < 512 ->
  let va := i2 * 2 ^ 30 + i1 * 2 ^ 21 + i0 * 2 ^ 12 in PX 2 va = i2 /\ PX 1 va = i1 /\ PX 0 va = i0.
Proof.
  intros. unfold va. rewrite !PX_eq by lia.
  change (12 + 9 * 2) with 30. change (12 + 9 * 1) with 21. change (12 + 9 * 0) with 12. split_and!.
  - rewrite <- (Z.div_unique _ (2 ^ 30) i2 (i1 * 2 ^ 21 + i0 * 2 ^ 12)) by lia. by apply Z.mod_small.
  - rewrite <- (Z.div_unique _ (2 ^ 21) (i2 * 512 + i1) (i0 * 2 ^ 12)) by lia.
    rewrite Z.add_comm, Z_mod_plus_full. by apply Z.mod_small.
  - rewrite <- (Z.div_unique _ (2 ^ 12) ((i2 * 512 + i1) * 512 + i0) 0) by lia.
    rewrite Z.add_comm, Z_mod_plus_full. by apply Z.mod_small.
Qed.

(** ** Page-table entries *)

Lemma flags_ok_lor a b : flags_ok a -> flags_ok b -> flags_ok (Z.lor a b).
Proof.
  unfold flags_ok. intros [Ha Ha'] [Hb Hb']. split; [by apply Z.lor_nonneg|].
  destruct (Z.eq_dec (Z.lor a b) 0) as [->|Hne]; [lia|].
  assert (0 <= Z.lor a b) by (by apply Z.lor_nonneg). change 1024 with (2 ^ 10).
  apply Z.log2_lt_pow2; [lia|]. rewrite Z.log2_lor by done. apply Z.max_lub_lt.
  - destruct (Z.eq_dec a 0) as [->|]; [by vm_compute|]. apply Z.log2_lt_pow2; lia.
  - destruct (Z.eq_dec b 0) as [->|]; [by vm_compute|]. apply Z.log2_lt_pow2; lia.
Qed.

Lemma PA2PTE_eq pa : 0 <= pa < 2 ^ 56 -> PA2PTE pa = pa / PGSIZE * 1024.
Proof.
  intros H. unfold PA2PTE. rewrite Z.shiftr_div_pow2, Z.shiftl_mul_pow2 by lia.
  apply u64_small. change (2 ^ 12) with PGSIZE.
  pose proof (Z.div_pos pa PGSIZE). pose proof (Z.div_lt_upper_bound pa PGSIZE (2 ^ 44)). lz.
Qed.

Lemma pte_eq pa fl : pa_ok pa -> flags_ok fl -> Z.lor (PA2PTE pa) fl = pa / PGSIZE * 1024 + fl.
Proof.
  intros [? ?] ?. rewrite PA2PTE_eq by done. apply (lor_shifted (pa / PGSIZE) fl 10); [lia|].
  unfold flags_ok in *. lia.
Qed.

Lemma pte_range pa fl : pa_ok pa -> flags_ok fl -> 0 <= Z.lor (PA2PTE pa) fl < 2 ^ 54.
Proof.
  intros Hpa Hfl. rewrite pte_eq by done. destruct Hpa as [? ?]. unfold flags_ok in *.
  pose proof (Z.div_pos pa PGSIZE). pose proof (Z.div_lt_upper_bound pa PGSIZE (2 ^ 44)). lz.
Qed.

Lemma PTE2PA_pte pa fl : pa_ok pa -> flags_ok fl -> PTE2PA (Z.lor (PA2PTE pa) fl) = pa.
Proof.
  intros Hpa Hfl. unfold PTE2PA. rewrite pte_eq by done. unfold flags_ok in Hfl.
  rewrite Z.shiftr_div_pow2, Z.shiftl_mul_pow2 by lia. change (2 ^ 10) with 1024.
  rewrite Z.add_comm, Z.div_add by lia. rewrite (Z.div_small fl) by lia. rewrite Z.add_0_l.
  destruct Hpa as [Hm Hr]. pose proof (Z.div_mod pa PGSIZE ltac:(lz)) as Hd. rewrite Hm in Hd.
  change (2 ^ 12) with PGSIZE. rewrite u64_small; lz.
Qed.

Lemma PTE_FLAGS_pte pa fl : pa_ok pa -> flags_ok fl -> PTE_FLAGS (Z.lor (PA2PTE pa) fl) = fl.
Proof.
  intros Hpa Hfl. unfold PTE_FLAGS. rewrite pte_eq by done. unfold flags_ok in Hfl.
  change 0x3FF with (2 ^ 10 - 1). rewrite land_ones_low by lia. change (2 ^ 10) with 1024.
  rewrite Z.add_comm, Z.mod_add by lia. apply Z.mod_small. lia.
Qed.

(** Testing a flag of an entry is testing it in its flag bits. *)
Lemma land_flags v f : flags_ok f -> Z.land v f = Z.land (PTE_FLAGS v) f.
Proof.
  intros Hf. unfold PTE_FLAGS. rewrite <- Z.land_assoc, (Z.land_comm 0x3FF f).
  change 0x3FF with (2 ^ 10 - 1). rewrite (land_ones_low f) by lia.
  unfold flags_ok in Hf. by rewrite (Z.mod_small f).
Qed.
