(* ===== verification/State.v ===== *)
(** * The kernel's data and the monad of kernel code

    The structs of the kernel headers, the global state they make up, and the
    monad in which every kernel function is written.

    A spinlock is named by a [lockid], a sleep lock by a [sleepid] and a
    sleep channel by a [chan] instead of by its address; a pointer into one of
    the kernel's static arrays ([proc], [bcache.buf], [itable.inode],
    [ftable.file], [cpus]) is the index of the element, and a pointer to a
    page that [kalloc] returned is the physical address of the page. *)

From S2P Require Import Prelude Riscv.

(** ** Names of locks and sleep channels *)

(** The sleep locks: [b->lock] and [ip->lock]. *)
Inductive sleepid :=
| SL_buf (i : Z)
| SL_inode (i : Z).

(** The spinlocks of the kernel. *)
Inductive lockid :=
| L_kmem | L_pid | L_wait | L_bcache | L_log | L_itable | L_ftable
| L_cons | L_uart_tx | L_pr | L_tickslock | L_vdisk
| L_proc (i : Z)
| L_pipe (pa : Z)
| L_sleep (l : sleepid).

(** The addresses processes sleep on. *)
Inductive chan :=
| C_sleeplock (l : sleepid)   (* lk, in acquiresleep *)
| C_log                       (* &log *)
| C_proc (i : Z)              (* p, in wait *)
| C_ticks                     (* &ticks *)
| C_pipe_nread (pa : Z)       (* &pi->nread *)
| C_pipe_nwrite (pa : Z)      (* &pi->nwrite *)
| C_cons_r                    (* &cons.r *)
| C_uart_tx_r                 (* &uart_tx_r *)
| C_vdisk_free                (* &disk.free[0] *)
| C_buf (i : Z).              (* b, in virtio_disk_rw *)

#[global] Instance sleepid_eq_dec : EqDecision sleepid.
Proof. solve_decision. Defined.
#[global] Instance lockid_eq_dec : EqDecision lockid.
Proof. solve_decision. Defined.
#[global] Instance chan_eq_dec : EqDecision chan.
Proof. solve_decision. Defined.

Definition sleepid_enc (l : sleepid) : bool * Z :=
  match l with SL_buf i => (true, i) | SL_inode i => (false, i) end.
Definition sleepid_dec (e : bool * Z) : sleepid :=
  if fst e then SL_buf (snd e) else SL_inode (snd e).
#[global] Instance sleepid_countable : Countable sleepid.
Proof. apply (inj_countable' sleepid_enc sleepid_dec). by intros []. Defined.

Definition lockid_enc (l : lockid) : Z * (Z + sleepid) :=
  match l with
  | L_kmem => (0, inl 0) | L_pid => (1, inl 0) | L_wait => (2, inl 0)
  | L_bcache => (3, inl 0) | L_log => (4, inl 0) | L_itable => (5, inl 0)
  | L_ftable => (6, inl 0) | L_cons => (7, inl 0) | L_uart_tx => (8, inl 0)
  | L_pr => (9, inl 0) | L_tickslock => (10, inl 0) | L_vdisk => (11, inl 0)
  | L_proc i => (12, inl i) | L_pipe pa => (13, inl pa) | L_sleep l => (14, inr l)
  end.
Definition lockid_dec (e : Z * (Z + sleepid)) : lockid :=
  match e with
  | (0, _) => L_kmem | (1, _) => L_pid | (2, _) => L_wait
  | (3, _) => L_bcache | (4, _) => L_log | (5, _) => L_itable
  | (6, _) => L_ftable | (7, _) => L_cons | (8, _) => L_uart_tx
  | (9, _) => L_pr | (10, _) => L_tickslock | (11, _) => L_vdisk
  | (12, inl i) => L_proc i | (_, inl pa) => L_pipe pa | (_, inr l) => L_sleep l
  end.
#[global] Instance lockid_countable : Countable lockid.
Proof. apply (inj_countable' lockid_enc lockid_dec). by intros []. Defined.

(** ** Names of device memory and functions *)

(** The addresses the disk driver hands to the device: [&disk.ops[i]],
    [b->data] and [&disk.info[i].status]. *)
Inductive dma :=
| DMA_null
| DMA_op (i : Z)
| DMA_data (b : Z)
| DMA_status (i : Z).
#[global] Instance dma_eq_dec : EqDecision dma.
Proof. solve_decision. Defined.

(** The functions installed in [devsw]. *)
Inductive devfn := F_consoleread | F_consolewrite.

(** An access of a memory-mapped device register. *)
Inductive mmio_event :=
| MRead (addr : Z)
| MWrite (addr v : Z).

(** ** The structs of the headers *)

(** [enum procstate] *)
Inductive procstate := UNUSED | USED | SLEEPING | RUNNABLE | RUNNING | ZOMBIE.
#[global] Instance procstate_eq_dec : EqDecision procstate.
Proof. solve_decision. Defined.

(** The [type] of a [struct file] *)
Inductive filetype := FD_NONE | FD_PIPE | FD_INODE | FD_DEVICE.
#[global] Instance filetype_eq_dec : EqDecision filetype.
Proof. solve_decision. Defined.

(** [struct spinlock]: [lk_cpu] is the index in [cpus], [None] the null pointer. *)
Record spinlock := mkSpinlock {
  lk_locked : Z;  (* is the lock held? *)
  lk_name : string;  (* name of lock, for debugging *)
  lk_cpu : option Z;  (* the cpu holding the lock *)
}.

(** [struct sleeplock]; its inner spinlock is the lock [L_sleep] of the lock map. *)
Record sleeplock := mkSleeplock {
  sl_locked : Z;
  sl_name : string;
  sl_pid : Z;  (* process holding lock *)
}.

(** [struct context]: the callee-saved registers of a kernel thread. *)
Record context := mkContext {
  ctx_ra : Z;
  ctx_sp : Z;
  ctx_s : list Z;  (* s0 .. s11 *)
}.

(** [struct cpu] *)
Record cpu := mkCpu {
  cpu_proc : option Z;  (* the process running on this cpu, or null *)
  cpu_context : context;  (* swtch() here to enter scheduler() *)
  cpu_noff : Z;  (* depth of push_off() nesting *)
  cpu_intena : Z;  (* were interrupts enabled before push_off()? *)
}.

(** The control registers of a hart that the kernel reads and writes. *)
Record hart := mkHart {
  h_sstatus : Z;
  h_stvec : Z;
  h_sepc : Z;
  h_scause : Z;
  h_stval : Z;
  h_satp : Z;
  h_stimecmp : Z;
  h_time : Z;
  h_sie : Z;
  h_mstatus : Z;
  h_mepc : Z;
  h_medeleg : Z;
  h_mideleg : Z;
  h_mie : Z;
  h_menvcfg : Z;
  h_mcounteren : Z;
  h_pmpcfg0 : Z;
  h_pmpaddr0 : Z;
  h_mhartid : Z;
}.

(** [struct proc]; its spinlock is [L_proc]. *)
Record proc := mkProc {
  p_state : procstate;
  p_chan : option chan;  (* if non-zero, sleeping on chan *)
  p_killed : Z;
  p_xstate : Z;  (* exit status *)
  p_pid : Z;
  p_parent : option Z;
  p_kstack : Z;
  p_sz : Z;  (* size of process memory *)
  p_pagetable : Z;
  p_trapframe : Z;  (* page of the trapframe *)
  p_context : context;
  p_ofile : list (option Z);  (* open files, indices in ftable *)
  p_cwd : option Z;  (* index in itable *)
  p_name : list Z;  (* 16 bytes *)
}.

(** [struct buf]; a pointer to a buffer is its index in [bcache.buf], and [NBUF] is the address of [bcache.head]. *)
Record buf := mkBuf {
  b_valid : Z;
  b_disk : Z;
  b_dev : Z;
  b_blockno : Z;
  b_refcnt : Z;
  b_prev : Z;
  b_next : Z;
  b_data : list Z;  (* BSIZE bytes *)
}.

(** [struct superblock] *)
Record superblock := mkSuperblock {
  sb_magic : Z;
  sb_size : Z;
  sb_nblocks : Z;
  sb_ninodes : Z;
  sb_nlog : Z;
  sb_logstart : Z;
  sb_inodestart : Z;
  sb_bmapstart : Z;
}.

(** [struct logheader] *)
Record logheader := mkLogheader {
  lh_n : Z;
  lh_block : list Z;  (* LOGSIZE entries *)
}.

(** [struct log]; its spinlock is [L_log]. *)
Record logst := mkLog {
  log_start : Z;
  log_size : Z;
  log_outstanding : Z;  (* how many FS sys calls are executing *)
  log_committing : Z;  (* in commit(), please wait *)
  log_dev : Z;
  log_lh : logheader;
}.

(** [struct inode] *)
Record inode := mkInode {
  i_dev : Z;
  i_inum : Z;
  i_ref : Z;
  i_valid : Z;
  i_type : Z;
  i_major : Z;
  i_minor : Z;
  i_nlink : Z;
  i_size : Z;
  i_addrs : list Z;  (* NDIRECT+1 block addresses *)
}.

(** [struct file] *)
Record file := mkFile {
  f_type : filetype;
  f_ref : Z;
  f_readable : Z;
  f_writable : Z;
  f_pipe : Z;
  f_ip : option Z;
  f_off : Z;
  f_major : Z;
}.

(** [struct pipe]; its spinlock is [L_pipe]. *)
Record pipe := mkPipe {
  pi_data : list Z;  (* PIPESIZE bytes *)
  pi_nread : Z;  (* number of bytes read *)
  pi_nwrite : Z;  (* number of bytes written *)
  pi_readopen : Z;
  pi_writeopen : Z;
}.

(** The anonymous struct [cons] of [console.c]; its spinlock is [L_cons]. *)
Record consst := mkCons {
  cons_buf : list Z;  (* INPUT_BUF_SIZE bytes *)
  cons_r : Z;  (* read index *)
  cons_w : Z;  (* write index *)
  cons_e : Z;  (* edit index *)
}.

(** The transmit buffer of [uart.c]; its spinlock is [L_uart_tx]. *)
Record uartst := mkUart {
  uart_tx_buf : list Z;  (* UART_TX_BUF_SIZE bytes *)
  uart_tx_w : Z;  (* write next to uart_tx_buf[uart_tx_w % UART_TX_BUF_SIZE] *)
  uart_tx_r : Z;  (* read next from uart_tx_buf[uart_tx_r % UART_TX_BUF_SIZE] *)
}.

(** [struct virtq_desc] *)
Record virtq_desc := mkDesc {
  vq_addr : dma;
  vq_len : Z;
  vq_flags : Z;
  vq_next : Z;
}.

(** [struct virtq_avail] *)
Record virtq_avail := mkAvail {
  av_flags : Z;  (* always zero *)
  av_idx : Z;  (* driver will write ring[idx] next *)
  av_ring : list Z;  (* descriptor numbers of chain heads *)
  av_unused : Z;
}.

(** [struct virtq_used_elem] *)
Record virtq_used_elem := mkUsedElem {
  ue_id : Z;  (* index of start of completed descriptor chain *)
  ue_len : Z;
}.

(** [struct virtq_used] *)
Record virtq_used := mkUsed {
  ud_flags : Z;  (* always zero *)
  ud_idx : Z;  (* device increments when it adds a ring[] entry *)
  ud_ring : list virtq_used_elem;
}.

(** [struct virtio_blk_req] *)
Record virtio_blk_req := mkBlkReq {
  req_type : Z;
  req_reserved : Z;
  req_sector : Z;
}.

(** [struct disk] of [virtio_disk.c] with the three pages it points to; its
    spinlock is [L_vdisk]. *)
Record vdisk := mkVdisk {
  vd_desc_page : Z;
  vd_avail_page : Z;
  vd_used_page : Z;
  vd_desc : list virtq_desc;  (* *disk.desc *)
  vd_avail : virtq_avail;  (* *disk.avail *)
  vd_used : virtq_used;  (* *disk.used *)
  vd_free : list Z;  (* is a descriptor free? *)
  vd_used_idx : Z;  (* we've looked this far in used *)
  vd_info_b : list (option Z);  (* info[i].b *)
  vd_info_status : list Z;  (* info[i].status *)
  vd_ops : list virtio_blk_req;
}.

(** The disk: the contents of each block, and the block writes the device has
    completed, oldest first. *)
Record disk_dev := mkDisk {
  d_blocks : gmap Z (list Z);
  d_writes : list (Z * list Z);
}.

(** The kernel's global variables, physical memory and devices. *)
Record kstate := mkKstate {
  k_tp : Z;  (* the hart that executes *)
  k_harts : list hart;
  k_cpus : list cpu;
  k_locks : gmap lockid spinlock;
  k_sleeplocks : gmap sleepid sleeplock;
  k_proc : list proc;
  k_initproc : option Z;
  k_nextpid : Z;
  k_ticks : Z;
  k_mem : gmap Z Z;  (* physical memory *)
  k_freelist : Z;  (* kmem.freelist *)
  k_kpagetable : Z;
  k_bcache : list buf;  (* bcache.buf, then bcache.head *)
  k_disk : disk_dev;
  k_log : logst;
  k_sb : superblock;
  k_itable : list inode;
  k_ftable : list file;
  k_pipes : gmap Z pipe;
  k_cons : consst;
  k_uart : uartst;
  k_panicked : Z;
  k_pr_locking : Z;
  k_forkret_first : Z;
  k_vdisk : vdisk;
  k_devsw : list (option devfn * option devfn);  (* devsw[].read, devsw[].write *)
  k_started : Z;  (* of main.c *)
  k_mmio : list mmio_event;  (* accesses of device registers, latest first *)
}.

#[global] Instance spinlock_eq_dec : EqDecision spinlock.
Proof. solve_decision. Defined.
#[global] Instance sleeplock_eq_dec : EqDecision sleeplock.
Proof. solve_decision. Defined.

(** ** Field updates *)

Definition set_lk_locked (v : Z) (r : spinlock) : spinlock :=
  mkSpinlock v (lk_name r) (lk_cpu r).
Definition set_lk_name (v : string) (r : spinlock) : spinlock :=
  mkSpinlock (lk_locked r) v (lk_cpu r).
Definition set_lk_cpu (v : option Z) (r : spinlock) : spinlock :=
  mkSpinlock (lk_locked r) (lk_name r) v.

Definition set_sl_locked (v : Z) (r : sleeplock) : sleeplock :=
  mkSleeplock v (sl_name r) (sl_pid r).
Definition set_sl_name (v : string) (r : sleeplock) : sleeplock :=
  mkSleeplock (sl_locked r) v (sl_pid r).
Definition set_sl_pid (v : Z) (r : sleeplock) : sleeplock :=
  mkSleeplock (sl_locked r) (sl_name r) v.

Definition set_ctx_ra (v : Z) (r : context) : context :=
  mkContext v (ctx_sp r) (ctx_s r).
Definition set_ctx_sp (v : Z) (r : context) : context :=
  mkContext (ctx_ra r) v (ctx_s r).
Definition set_ctx_s (v : list Z) (r : context) : context :=
  mkContext (ctx_ra r) (ctx_sp r) v.

Definition set_cpu_proc (v : option Z) (r : cpu) : cpu :=
  mkCpu v (cpu_context r) (cpu_noff r) (cpu_intena r).
Definition set_cpu_context (v : context) (r : cpu) : cpu :=
  mkCpu (cpu_proc r) v (cpu_noff r) (cpu_intena r).
Definition set_cpu_noff (v : Z) (r : cpu) : cpu :=
  mkCpu (cpu_proc r) (cpu_context r) v (cpu_intena r).
Definition set_cpu_intena (v : Z) (r : cpu) : cpu :=
  mkCpu (cpu_proc r) (cpu_context r) (cpu_noff r) v.

Definition set_h_sstatus (v : Z) (r : hart) : hart :=
  mkHart v (h_stvec r) (h_sepc r) (h_scause r) (h_stval r) (h_satp r) (h_stimecmp r) (h_time r)
    (h_sie r) (h_mstatus r) (h_mepc r) (h_medeleg r) (h_mideleg r) (h_mie r) (h_menvcfg r)
    (h_mcounteren r) (h_pmpcfg0 r) (h_pmpaddr0 r) (h_mhartid r).
Definition set_h_stvec (v : Z) (r : hart) : hart :=
  mkHart (h_sstatus r) v (h_sepc r) (h_scause r) (h_stval r) (h_satp r) (h_stimecmp r) (h_time r)
    (h_sie r) (h_mstatus r) (h_mepc r) (h_medeleg r) (h_mideleg r) (h_mie r) (h_menvcfg r)
    (h_mcounteren r) (h_pmpcfg0 r) (h_pmpaddr0 r) (h_mhartid r).
Definition set_h_sepc (v : Z) (r : hart) : hart :=
  mkHart (h_sstatus r) (h_stvec r) v (h_scause r) (h_stval r) (h_satp r) (h_stimecmp r) (h_time r)
    (h_sie r) (h_mstatus r) (h_mepc r) (h_medeleg r) (h_mideleg r) (h_mie r) (h_menvcfg r)
    (h_mcounteren r) (h_pmpcfg0 r) (h_pmpaddr0 r) (h_mhartid r).
Definition set_h_scause (v : Z) (r : hart) : hart :=
  mkHart (h_sstatus r) (h_stvec r) (h_sepc r) v (h_stval r) (h_satp r) (h_stimecmp r) (h_time r)
    (h_sie r) (h_mstatus r) (h_mepc r) (h_medeleg r) (h_mideleg r) (h_mie r) (h_menvcfg r)
    (h_mcounteren r) (h_pmpcfg0 r) (h_pmpaddr0 r) (h_mhartid r).
Definition set_h_stval (v : Z) (r : hart) : hart :=
  mkHart (h_sstatus r) (h_stvec r) (h_sepc r) (h_scause r) v (h_satp r) (h_stimecmp r) (h_time r)
    (h_sie r) (h_mstatus r) (h_mepc r) (h_medeleg r) (h_mideleg r) (h_mie r) (h_menvcfg r)
    (h_mcounteren r) (h_pmpcfg0 r) (h_pmpaddr0 r) (h_mhartid r).
Definition set_h_satp (v : Z) (r : hart) : hart :=
  mkHart (h_sstatus r) (h_stvec r) (h_sepc r) (h_scause r) (h_stval r) v (h_stimecmp r) (h_time r)
    (h_sie r) (h_mstatus r) (h_mepc r) (h_medeleg r) (h_mideleg r) (h_mie r) (h_menvcfg r)
    (h_mcounteren r) (h_pmpcfg0 r) (h_pmpaddr0 r) (h_mhartid r).
Definition set_h_stimecmp (v : Z) (r : hart) : hart :=
  mkHart (h_sstatus r) (h_stvec r) (h_sepc r) (h_scause r) (h_stval r) (h_satp r) v (h_time r)
    (h_sie r) (h_mstatus r) (h_mepc r) (h_medeleg r) (h_mideleg r) (h_mie r) (h_menvcfg r)
    (h_mcounteren r) (h_pmpcfg0 r) (h_pmpaddr0 r) (h_mhartid r).
Definition set_h_time (v : Z) (r : hart) : hart :=
  mkHart (h_sstatus r) (h_stvec r) (h_sepc r) (h_scause r) (h_stval r) (h_satp r) (h_stimecmp r) v
    (h_sie r) (h_mstatus r) (h_mepc r) (h_medeleg r) (h_mideleg r) (h_mie r) (h_menvcfg r)
    (h_mcounteren r) (h_pmpcfg0 r) (h_pmpaddr0 r) (h_mhartid r).
Definition set_h_sie (v : Z) (r : hart) : hart :=
  mkHart (h_sstatus r) (h_stvec r) (h_sepc r) (h_scause r) (h_stval r) (h_satp r) (h_stimecmp r)
    (h_time r) v (h_mstatus r) (h_mepc r) (h_medeleg r) (h_mideleg r) (h_mie r) (h_menvcfg r)
    (h_mcounteren r) (h_pmpcfg0 r) (h_pmpaddr0 r) (h_mhartid r).
Definition set_h_mstatus (v : Z) (r : hart) : hart :=
  mkHart (h_sstatus r) (h_stvec r) (h_sepc r) (h_scause r) (h_stval r) (h_satp r) (h_stimecmp r)
    (h_time r) (h_sie r) v (h_mepc r) (h_medeleg r) (h_mideleg r) (h_mie r) (h_menvcfg r)
    (h_mcounteren r) (h_pmpcfg0 r) (h_pmpaddr0 r) (h_mhartid r).
Definition set_h_mepc (v : Z) (r : hart) : hart :=
  mkHart (h_sstatus r) (h_stvec r) (h_sepc r) (h_scause r) (h_stval r) (h_satp r) (h_stimecmp r)
    (h_time r) (h_sie r) (h_mstatus r) v (h_medeleg r) (h_mideleg r) (h_mie r) (h_menvcfg r)
    (h_mcounteren r) (h_pmpcfg0 r) (h_pmpaddr0 r) (h_mhartid r).
Definition set_h_medeleg (v : Z) (r : hart) : hart :=
  mkHart (h_sstatus r) (h_stvec r) (h_sepc r) (h_scause r) (h_stval r) (h_satp r) (h_stimecmp r)
    (h_time r) (h_sie r) (h_mstatus r) (h_mepc r) v (h_mideleg r) (h_mie r) (h_menvcfg r)
    (h_mcounteren r) (h_pmpcfg0 r) (h_pmpaddr0 r) (h_mhartid r).
Definition set_h_mideleg (v : Z) (r : hart) : hart :=
  mkHart (h_sstatus r) (h_stvec r) (h_sepc r) (h_scause r) (h_stval r) (h_satp r) (h_stimecmp r)
    (h_time r) (h_sie r) (h_mstatus r) (h_mepc r) (h_medeleg r) v (h_mie r) (h_menvcfg r)
    (h_mcounteren r) (h_pmpcfg0 r) (h_pmpaddr0 r) (h_mhartid r).
Definition set_h_mie (v : Z) (r : hart) : hart :=
  mkHart (h_sstatus r) (h_stvec r) (h_sepc r) (h_scause r) (h_stval r) (h_satp r) (h_stimecmp r)
    (h_time r) (h_sie r) (h_mstatus r) (h_mepc r) (h_medeleg r) (h_mideleg r) v (h_menvcfg r)
    (h_mcounteren r) (h_pmpcfg0 r) (h_pmpaddr0 r) (h_mhartid r).
Definition set_h_menvcfg (v : Z) (r : hart) : hart :=
  mkHart (h_sstatus r) (h_stvec r) (h_sepc r) (h_scause r) (h_stval r) (h_satp r) (h_stimecmp r)
    (h_time r) (h_sie r) (h_mstatus r) (h_mepc r) (h_medeleg r) (h_mideleg r) (h_mie r) v
    (h_mcounteren r) (h_pmpcfg0 r) (h_pmpaddr0 r) (h_mhartid r).
Definition set_h_mcounteren (v : Z) (r : hart) : hart :=
  mkHart (h_sstatus r) (h_stvec r) (h_sepc r) (h_scause r) (h_stval r) (h_satp r) (h_stimecmp r)
    (h_time r) (h_sie r) (h_mstatus r) (h_mepc r) (h_medeleg r) (h_mideleg r) (h_mie r)
    (h_menvcfg r) v (h_pmpcfg0 r) (h_pmpaddr0 r) (h_mhartid r).
Definition set_h_pmpcfg0 (v : Z) (r : hart) : hart :=
  mkHart (h_sstatus r) (h_stvec r) (h_sepc r) (h_scause r) (h_stval r) (h_satp r) (h_stimecmp r)
    (h_time r) (h_sie r) (h_mstatus r) (h_mepc r) (h_medeleg r) (h_mideleg r) (h_mie r)
    (h_menvcfg r) (h_mcounteren r) v (h_pmpaddr0 r) (h_mhartid r).
Definition set_h_pmpaddr0 (v : Z) (r : hart) : hart :=
  mkHart (h_sstatus r) (h_stvec r) (h_sepc r) (h_scause r) (h_stval r) (h_satp r) (h_stimecmp r)
    (h_time r) (h_sie r) (h_mstatus r) (h_mepc r) (h_medeleg r) (h_mideleg r) (h_mie r)
    (h_menvcfg r) (h_mcounteren r) (h_pmpcfg0 r) v (h_mhartid r).
Definition set_h_mhartid (v : Z) (r : hart) : hart :=
  mkHart (h_sstatus r) (h_stvec r) (h_sepc r) (h_scause r) (h_stval r) (h_satp r) (h_stimecmp r)
    (h_time r) (h_sie r) (h_mstatus r) (h_mepc r) (h_medeleg r) (h_mideleg r) (h_mie r)
    (h_menvcfg r) (h_mcounteren r) (h_pmpcfg0 r) (h_pmpaddr0 r) v.

Definition set_p_state (v : procstate) (r : proc) : proc :=
  mkProc v (p_chan r) (p_killed r) (p_xstate r) (p_pid r) (p_parent r) (p_kstack r) (p_sz r)
    (p_pagetable r) (p_trapframe r) (p_context r) (p_ofile r) (p_cwd r) (p_name r).
Definition set_p_chan (v : option chan) (r : proc) : proc :=
  mkProc (p_state r) v (p_killed r) (p_xstate r) (p_pid r) (p_parent r) (p_kstack r) (p_sz r)
    (p_pagetable r) (p_trapframe r) (p_context r) (p_ofile r) (p_cwd r) (p_name r).
Definition set_p_killed (v : Z) (r : proc) : proc :=
  mkProc (p_state r) (p_chan r) v (p_xstate r) (p_pid r) (p_parent r) (p_kstack r) (p_sz r)
    (p_pagetable r) (p_trapframe r) (p_context r) (p_ofile r) (p_cwd r) (p_name r).
Definition set_p_xstate (v : Z) (r : proc) : proc :=
  mkProc (p_state r) (p_chan r) (p_killed r) v (p_pid r) (p_parent r) (p_kstack r) (p_sz r)
    (p_pagetable r) (p_trapframe r) (p_context r) (p_ofile r) (p_cwd r) (p_name r).
Definition set_p_pid (v : Z) (r : proc) : proc :=
  mkProc (p_state r) (p_chan r) (p_killed r) (p_xstate r) v (p_parent r) (p_kstack r) (p_sz r)
    (p_pagetable r) (p_trapframe r) (p_context r) (p_ofile r) (p_cwd r) (p_name r).
Definition set_p_parent (v : option Z) (r : proc) : proc :=
  mkProc (p_state r) (p_chan r) (p_killed r) (p_xstate r) (p_pid r) v (p_kstack r) (p_sz r)
    (p_pagetable r) (p_trapframe r) (p_context r) (p_ofile r) (p_cwd r) (p_name r).
Definition set_p_kstack (v : Z) (r : proc) : proc :=
  mkProc (p_state r) (p_chan r) (p_killed r) (p_xstate r) (p_pid r) (p_parent r) v (p_sz r)
    (p_pagetable r) (p_trapframe r) (p_context r) (p_ofile r) (p_cwd r) (p_name r).
Definition set_p_sz (v : Z) (r : proc) : proc :=
  mkProc (p_state r) (p_chan r) (p_killed r) (p_xstate r) (p_pid r) (p_parent r) (p_kstack r) v
    (p_pagetable r) (p_trapframe r) (p_context r) (p_ofile r) (p_cwd r) (p_name r).
Definition set_p_pagetable (v : Z) (r : proc) : proc :=
  mkProc (p_state r) (p_chan r) (p_killed r) (p_xstate r) (p_pid r) (p_parent r) (p_kstack r)
    (p_sz r) v (p_trapframe r) (p_context r) (p_ofile r) (p_cwd r) (p_name r).
Definition set_p_trapframe (v : Z) (r : proc) : proc :=
  mkProc (p_state r) (p_chan r) (p_killed r) (p_xstate r) (p_pid r) (p_parent r) (p_kstack r)
    (p_sz r) (p_pagetable r) v (p_context r) (p_ofile r) (p_cwd r) (p_name r).
Definition set_p_context (v : context) (r : proc) : proc :=
  mkProc (p_state r) (p_chan r) (p_killed r) (p_xstate r) (p_pid r) (p_parent r) (p_kstack r)
    (p_sz r) (p_pagetable r) (p_trapframe r) v (p_ofile r) (p_cwd r) (p_name r).
Definition set_p_ofile (v : list (option Z)) (r : proc) : proc :=
  mkProc (p_state r) (p_chan r) (p_killed r) (p_xstate r) (p_pid r) (p_parent r) (p_kstack r)
    (p_sz r) (p_pagetable r) (p_trapframe r) (p_context r) v (p_cwd r) (p_name r).
Definition set_p_cwd (v : option Z) (r : proc) : proc :=
  mkProc (p_state r) (p_chan r) (p_killed r) (p_xstate r) (p_pid r) (p_parent r) (p_kstack r)
    (p_sz r) (p_pagetable r) (p_trapframe r) (p_context r) (p_ofile r) v (p_name r).
Definition set_p_name (v : list Z) (r : proc) : proc :=
  mkProc (p_state r) (p_chan r) (p_killed r) (p_xstate r) (p_pid r) (p_parent r) (p_kstack r)
    (p_sz r) (p_pagetable r) (p_trapframe r) (p_context r) (p_ofile r) (p_cwd r) v.

Definition set_b_valid (v : Z) (r : buf) : buf :=
  mkBuf v (b_disk r) (b_dev r) (b_blockno r) (b_refcnt r) (b_prev r) (b_next r) (b_data r).
Definition set_b_disk (v : Z) (r : buf) : buf :=
  mkBuf (b_valid r) v (b_dev r) (b_blockno r) (b_refcnt r) (b_prev r) (b_next r) (b_data r).
Definition set_b_dev (v : Z) (r : buf) : buf :=
  mkBuf (b_valid r) (b_disk r) v (b_blockno r) (b_refcnt r) (b_prev r) (b_next r) (b_data r).
Definition set_b_blockno (v : Z) (r : buf) : buf :=
  mkBuf (b_valid r) (b_disk r) (b_dev r) v (b_refcnt r) (b_prev r) (b_next r) (b_data r).
Definition set_b_refcnt (v : Z) (r : buf) : buf :=
  mkBuf (b_valid r) (b_disk r) (b_dev r) (b_blockno r) v (b_prev r) (b_next r) (b_data r).
Definition set_b_prev (v : Z) (r : buf) : buf :=
  mkBuf (b_valid r) (b_disk r) (b_dev r) (b_blockno r) (b_refcnt r) v (b_next r) (b_data r).
Definition set_b_next (v : Z) (r : buf) : buf :=
  mkBuf (b_valid r) (b_disk r) (b_dev r) (b_blockno r) (b_refcnt r) (b_prev r) v (b_data r).
Definition set_b_data (v : list Z) (r : buf) : buf :=
  mkBuf (b_valid r) (b_disk r) (b_dev r) (b_blockno r) (b_refcnt r) (b_prev r) (b_next r) v.

Definition set_sb_magic (v : Z) (r : superblock) : superblock :=
  mkSuperblock v (sb_size r) (sb_nblocks r) (sb_ninodes r) (sb_nlog r) (sb_logstart r)
    (sb_inodestart r) (sb_bmapstart r).
Definition set_sb_size (v : Z) (r : superblock) : superblock :=
  mkSuperblock (sb_magic r) v (sb_nblocks r) (sb_ninodes r) (sb_nlog r) (sb_logstart r)
    (sb_inodestart r) (sb_bmapstart r).
Definition set_sb_nblocks (v : Z) (r : superblock) : superblock :=
  mkSuperblock (sb_magic r) (sb_size r) v (sb_ninodes r) (sb_nlog r) (sb_logstart r)
    (sb_inodestart r) (sb_bmapstart r).
Definition set_sb_ninodes (v : Z) (r : superblock) : superblock :=
  mkSuperblock (sb_magic r) (sb_size r) (sb_nblocks r) v (sb_nlog r) (sb_logstart r)
    (sb_inodestart r) (sb_bmapstart r).
Definition set_sb_nlog (v : Z) (r : superblock) : superblock :=
  mkSuperblock (sb_magic r) (sb_size r) (sb_nblocks r) (sb_ninodes r) v (sb_logstart r)
    (sb_inodestart r) (sb_bmapstart r).
Definition set_sb_logstart (v : Z) (r : superblock) : superblock :=
  mkSuperblock (sb_magic r) (sb_size r) (sb_nblocks r) (sb_ninodes r) (sb_nlog r) v
    (sb_inodestart r) (sb_bmapstart r).
Definition set_sb_inodestart (v : Z) (r : superblock) : superblock :=
  mkSuperblock (sb_magic r) (sb_size r) (sb_nblocks r) (sb_ninodes r) (sb_nlog r) (sb_logstart r)
    v (sb_bmapstart r).
Definition set_sb_bmapstart (v : Z) (r : superblock) : superblock :=
  mkSuperblock (sb_magic r) (sb_size r) (sb_nblocks r) (sb_ninodes r) (sb_nlog r) (sb_logstart r)
    (sb_inodestart r) v.

Definition set_lh_n (v : Z) (r : logheader) : logheader :=
  mkLogheader v (lh_block r).
Definition set_lh_block (v : list Z) (r : logheader) : logheader :=
  mkLogheader (lh_n r) v.

Definition set_log_start (v : Z) (r : logst) : logst :=
  mkLog v (log_size r) (log_outstanding r) (log_committing r) (log_dev r) (log_lh r).
Definition set_log_size (v : Z) (r : logst) : logst :=
  mkLog (log_start r) v (log_outstanding r) (log_committing r) (log_dev r) (log_lh r).
Definition set_log_outstanding (v : Z) (r : logst) : logst :=
  mkLog (log_start r) (log_size r) v (log_committing r) (log_dev r) (log_lh r).
Definition set_log_committing (v : Z) (r : logst) : logst :=
  mkLog (log_start r) (log_size r) (log_outstanding r) v (log_dev r) (log_lh r).
Definition set_log_dev (v : Z) (r : logst) : logst :=
  mkLog (log_start r) (log_size r) (log_outstanding r) (log_committing r) v (log_lh r).
Definition set_log_lh (v : logheader) (r : logst) : logst :=
  mkLog (log_start r) (log_size r) (log_outstanding r) (log_committing r) (log_dev r) v.

Definition set_i_dev (v : Z) (r : inode) : inode :=
  mkInode v (i_inum r) (i_ref r) (i_valid r) (i_type r) (i_major r) (i_minor r) (i_nlink r)
    (i_size r) (i_addrs r).
Definition set_i_inum (v : Z) (r : inode) : inode :=
  mkInode (i_dev r) v (i_ref r) (i_valid r) (i_type r) (i_major r) (i_minor r) (i_nlink r)
    (i_size r) (i_addrs r).
Definition set_i_ref (v : Z) (r : inode) : inode :=
  mkInode (i_dev r) (i_inum r) v (i_valid r) (i_type r) (i_major r) (i_minor r) (i_nlink r)
    (i_size r) (i_addrs r).
Definition set_i_valid (v : Z) (r : inode) : inode :=
  mkInode (i_dev r) (i_inum r) (i_ref r) v (i_type r) (i_major r) (i_minor r) (i_nlink r)
    (i_size r) (i_addrs r).
Definition set_i_type (v : Z) (r : inode) : inode :=
  mkInode (i_dev r) (i_inum r) (i_ref r) (i_valid r) v (i_major r) (i_minor r) (i_nlink r)
    (i_size r) (i_addrs r).
Definition set_i_major (v : Z) (r : inode) : inode :=
  mkInode (i_dev r) (i_inum r) (i_ref r) (i_valid r) (i_type r) v (i_minor r) (i_nlink r)
    (i_size r) (i_addrs r).
Definition set_i_minor (v : Z) (r : inode) : inode :=
  mkInode (i_dev r) (i_inum r) (i_ref r) (i_valid r) (i_type r) (i_major r) v (i_nlink r)
    (i_size r) (i_addrs r).
Definition set_i_nlink (v : Z) (r : inode) : inode :=
  mkInode (i_dev r) (i_inum r) (i_ref r) (i_valid r) (i_type r) (i_major r) (i_minor r) v
    (i_size r) (i_addrs r).
Definition set_i_size (v : Z) (r : inode) : inode :=
  mkInode (i_dev r) (i_inum r) (i_ref r) (i_valid r) (i_type r) (i_major r) (i_minor r)
    (i_nlink r) v (i_addrs r).
Definition set_i_addrs (v : list Z) (r : inode) : inode :=
  mkInode (i_dev r) (i_inum r) (i_ref r) (i_valid r) (i_type r) (i_major r) (i_minor r)
    (i_nlink r) (i_size r) v.

Definition set_f_type (v : filetype) (r : file) : file :=
  mkFile v (f_ref r) (f_readable r) (f_writable r) (f_pipe r) (f_ip r) (f_off r) (f_major r).
Definition set_f_ref (v : Z) (r : file) : file :=
  mkFile (f_type r) v (f_readable r) (f_writable r) (f_pipe r) (f_ip r) (f_off r) (f_major r).
Definition set_f_readable (v : Z) (r : file) : file :=
  mkFile (f_type r) (f_ref r) v (f_writable r) (f_pipe r) (f_ip r) (f_off r) (f_major r).
Definition set_f_writable (v : Z) (r : file) : file :=
  mkFile (f_type r) (f_ref r) (f_readable r) v (f_pipe r) (f_ip r) (f_off r) (f_major r).
Definition set_f_pipe (v : Z) (r : file) : file :=
  mkFile (f_type r) (f_ref r) (f_readable r) (f_writable r) v (f_ip r) (f_off r) (f_major r).
Definition set_f_ip (v : option Z) (r : file) : file :=
  mkFile (f_type r) (f_ref r) (f_readable r) (f_writable r) (f_pipe r) v (f_off r) (f_major r).
Definition set_f_off (v : Z) (r : file) : file :=
  mkFile (f_type r) (f_ref r) (f_readable r) (f_writable r) (f_pipe r) (f_ip r) v (f_major r).
Definition set_f_major (v : Z) (r : file) : file :=
  mkFile (f_type r) (f_ref r) (f_readable r) (f_writable r) (f_pipe r) (f_ip r) (f_off r) v.

Definition set_pi_data (v : list Z) (r : pipe) : pipe :=
  mkPipe v (pi_nread r) (pi_nwrite r) (pi_readopen r) (pi_writeopen r).
Definition set_pi_nread (v : Z) (r : pipe) : pipe :=
  mkPipe (pi_data r) v (pi_nwrite r) (pi_readopen r) (pi_writeopen r).
Definition set_pi_nwrite (v : Z) (r : pipe) : pipe :=
  mkPipe (pi_data r) (pi_nread r) v (pi_readopen r) (pi_writeopen r).
Definition set_pi_readopen (v : Z) (r : pipe) : pipe :=
  mkPipe (pi_data r) (pi_nread r) (pi_nwrite r) v (pi_writeopen r).
Definition set_pi_writeopen (v : Z) (r : pipe) : pipe :=
  mkPipe (pi_data r) (pi_nread r) (pi_nwrite r) (pi_readopen r) v.

Definition set_cons_buf (v : list Z) (r : consst) : consst :=
  mkCons v (cons_r r) (cons_w r) (cons_e r).
Definition set_cons_r (v : Z) (r : consst) : consst :=
  mkCons (cons_buf r) v (cons_w r) (cons_e r).
Definition set_cons_w (v : Z) (r : consst) : consst :=
  mkCons (cons_buf r) (cons_r r) v (cons_e r).
Definition set_cons_e (v : Z) (r : consst) : consst :=
  mkCons (cons_buf r) (cons_r r) (cons_w r) v.

Definition set_uart_tx_buf (v : list Z) (r : uartst) : uartst :=
  mkUart v (uart_tx_w r) (uart_tx_r r).
Definition set_uart_tx_w (v : Z) (r : uartst) : uartst :=
  mkUart (uart_tx_buf r) v (uart_tx_r r).
Definition set_uart_tx_r (v : Z) (r : uartst) : uartst :=
  mkUart (uart_tx_buf r) (uart_tx_w r) v.

Definition set_vq_addr (v : dma) (r : virtq_desc) : virtq_desc :=
  mkDesc v (vq_len r) (vq_flags r) (vq_next r).
Definition set_vq_len (v : Z) (r : virtq_desc) : virtq_desc :=
  mkDesc (vq_addr r) v (vq_flags r) (vq_next r).
Definition set_vq_flags (v : Z) (r : virtq_desc) : virtq_desc :=
  mkDesc (vq_addr r) (vq_len r) v (vq_next r).
Definition set_vq_next (v : Z) (r : virtq_desc) : virtq_desc :=
  mkDesc (vq_addr r) (vq_len r) (vq_flags r) v.

Definition set_av_flags (v : Z) (r : virtq_avail) : virtq_avail :=
  mkAvail v (av_idx r) (av_ring r) (av_unused r).
Definition set_av_idx (v : Z) (r : virtq_avail) : virtq_avail :=
  mkAvail (av_flags r) v (av_ring r) (av_unused r).
Definition set_av_ring (v : list Z) (r : virtq_avail) : virtq_avail :=
  mkAvail (av_flags r) (av_idx r) v (av_unused r).
Definition set_av_unused (v : Z) (r : virtq_avail) : virtq_avail :=
  mkAvail (av_flags r) (av_idx r) (av_ring r) v.

Definition set_ue_id (v : Z) (r : virtq_used_elem) : virtq_used_elem :=
  mkUsedElem v (ue_len r).
Definition set_ue_len (v : Z) (r : virtq_used_elem) : virtq_used_elem :=
  mkUsedElem (ue_id r) v.

Definition set_ud_flags (v : Z) (r : virtq_used) : virtq_used :=
  mkUsed v (ud_idx r) (ud_ring r).
Definition set_ud_idx (v : Z) (r : virtq_used) : virtq_used :=
  mkUsed (ud_flags r) v (ud_ring r).
Definition set_ud_ring (v : list virtq_used_elem) (r : virtq_used) : virtq_used :=
  mkUsed (ud_flags r) (ud_idx r) v.

Definition set_req_type (v : Z) (r : virtio_blk_req) : virtio_blk_req :=
  mkBlkReq v (req_reserved r) (req_sector r).
Definition set_req_reserved (v : Z) (r : virtio_blk_req) : virtio_blk_req :=
  mkBlkReq (req_type r) v (req_sector r).
Definition set_req_sector (v : Z) (r : virtio_blk_req) : virtio_blk_req :=
  mkBlkReq (req_type r) (req_reserved r) v.

Definition set_vd_desc_page (v : Z) (r : vdisk) : vdisk :=
  mkVdisk v (vd_avail_page r) (vd_used_page r) (vd_desc r) (vd_avail r) (vd_used r) (vd_free r)
    (vd_used_idx r) (vd_info_b r) (vd_info_status r) (vd_ops r).
Definition set_vd_avail_page (v : Z) (r : vdisk) : vdisk :=
  mkVdisk (vd_desc_page r) v (vd_used_page r) (vd_desc r) (vd_avail r) (vd_used r) (vd_free r)
    (vd_used_idx r) (vd_info_b r) (vd_info_status r) (vd_ops r).
Definition set_vd_used_page (v : Z) (r : vdisk) : vdisk :=
  mkVdisk (vd_desc_page r) (vd_avail_page r) v (vd_desc r) (vd_avail r) (vd_used r) (vd_free r)
    (vd_used_idx r) (vd_info_b r) (vd_info_status r) (vd_ops r).
Definition set_vd_desc (v : list virtq_desc) (r : vdisk) : vdisk :=
  mkVdisk (vd_desc_page r) (vd_avail_page r) (vd_used_page r) v (vd_avail r) (vd_used r)
    (vd_free r) (vd_used_idx r) (vd_info_b r) (vd_info_status r) (vd_ops r).
Definition set_vd_avail (v : virtq_avail) (r : vdisk) : vdisk :=
  mkVdisk (vd_desc_page r) (vd_avail_page r) (vd_used_page r) (vd_desc r) v (vd_used r)
    (vd_free r) (vd_used_idx r) (vd_info_b r) (vd_info_status r) (vd_ops r).
Definition set_vd_used (v : virtq_used) (r : vdisk) : vdisk :=
  mkVdisk (vd_desc_page r) (vd_avail_page r) (vd_used_page r) (vd_desc r) (vd_avail r) v
    (vd_free r) (vd_used_idx r) (vd_info_b r) (vd_info_status r) (vd_ops r).
Definition set_vd_free (v : list Z) (r : vdisk) : vdisk :=
  mkVdisk (vd_desc_page r) (vd_avail_page r) (vd_used_page r) (vd_desc r) (vd_avail r) (vd_used r)
    v (vd_used_idx r) (vd_info_b r) (vd_info_status r) (vd_ops r).
Definition set_vd_used_idx (v : Z) (r : vdisk) : vdisk :=
  mkVdisk (vd_desc_page r) (vd_avail_page r) (vd_used_page r) (vd_desc r) (vd_avail r) (vd_used r)
    (vd_free r) v (vd_info_b r) (vd_info_status r) (vd_ops r).
Definition set_vd_info_b (v : list (option Z)) (r : vdisk) : vdisk :=
  mkVdisk (vd_desc_page r) (vd_avail_page r) (vd_used_page r) (vd_desc r) (vd_avail r) (vd_used r)
    (vd_free r) (vd_used_idx r) v (vd_info_status r) (vd_ops r).
Definition set_vd_info_status (v : list Z) (r : vdisk) : vdisk :=
  mkVdisk (vd_desc_page r) (vd_avail_page r) (vd_used_page r) (vd_desc r) (vd_avail r) (vd_used r)
    (vd_free r) (vd_used_idx r) (vd_info_b r) v (vd_ops r).
Definition set_vd_ops (v : list virtio_blk_req) (r : vdisk) : vdisk :=
  mkVdisk (vd_desc_page r) (vd_avail_page r) (vd_used_page r) (vd_desc r) (vd_avail r) (vd_used r)
    (vd_free r) (vd_used_idx r) (vd_info_b r) (vd_info_status r) v.

Definition set_d_blocks (v : gmap Z (list Z)) (r : disk_dev) : disk_dev :=
  mkDisk v (d_writes r).
Definition set_d_writes (v : list (Z * list Z)) (r : disk_dev) : disk_dev :=
  mkDisk (d_blocks r) v.

Definition set_k_tp (v : Z) (r : kstate) : kstate :=
  mkKstate v (k_harts r) (k_cpus r) (k_locks r) (k_sleeplocks r) (k_proc r) (k_initproc r)
    (k_nextpid r) (k_ticks r) (k_mem r) (k_freelist r) (k_kpagetable r) (k_bcache r) (k_disk r)
    (k_log r) (k_sb r) (k_itable r) (k_ftable r) (k_pipes r) (k_cons r) (k_uart r) (k_panicked r)
    (k_pr_locking r) (k_forkret_first r) (k_vdisk r) (k_devsw r) (k_started r) (k_mmio r).
Definition set_k_harts (v : list hart) (r : kstate) : kstate :=
  mkKstate (k_tp r) v (k_cpus r) (k_locks r) (k_sleeplocks r) (k_proc r) (k_initproc r)
    (k_nextpid r) (k_ticks r) (k_mem r) (k_freelist r) (k_kpagetable r) (k_bcache r) (k_disk r)
    (k_log r) (k_sb r) (k_itable r) (k_ftable r) (k_pipes r) (k_cons r) (k_uart r) (k_panicked r)
    (k_pr_locking r) (k_forkret_first r) (k_vdisk r) (k_devsw r) (k_started r) (k_mmio r).
Definition set_k_cpus (v : list cpu) (r : kstate) : kstate :=
  mkKstate (k_tp r) (k_harts r) v (k_locks r) (k_sleeplocks r) (k_proc r) (k_initproc r)
    (k_nextpid r) (k_ticks r) (k_mem r) (k_freelist r) (k_kpagetable r) (k_bcache r) (k_disk r)
    (k_log r) (k_sb r) (k_itable r) (k_ftable r) (k_pipes r) (k_cons r) (k_uart r) (k_panicked r)
    (k_pr_locking r) (k_forkret_first r) (k_vdisk r) (k_devsw r) (k_started r) (k_mmio r).
Definition set_k_locks (v : gmap lockid spinlock) (r : kstate) : kstate :=
  mkKstate (k_tp r) (k_harts r) (k_cpus r) v (k_sleeplocks r) (k_proc r) (k_initproc r)
    (k_nextpid r) (k_ticks r) (k_mem r) (k_freelist r) (k_kpagetable r) (k_bcache r) (k_disk r)
    (k_log r) (k_sb r) (k_itable r) (k_ftable r) (k_pipes r) (k_cons r) (k_uart r) (k_panicked r)
    (k_pr_locking r) (k_forkret_first r) (k_vdisk r) (k_devsw r) (k_started r) (k_mmio r).
Definition set_k_sleeplocks (v : gmap sleepid sleeplock) (r : kstate) : kstate :=
  mkKstate (k_tp r) (k_harts r) (k_cpus r) (k_locks r) v (k_proc r) (k_initproc r) (k_nextpid r)
    (k_ticks r) (k_mem r) (k_freelist r) (k_kpagetable r) (k_bcache r) (k_disk r) (k_log r)
    (k_sb r) (k_itable r) (k_ftable r) (k_pipes r) (k_cons r) (k_uart r) (k_panicked r)
    (k_pr_locking r) (k_forkret_first r) (k_vdisk r) (k_devsw r) (k_started r) (k_mmio r).
Definition set_k_proc (v : list proc) (r : kstate) : kstate :=
  mkKstate (k_tp r) (k_harts r) (k_cpus r) (k_locks r) (k_sleeplocks r) v (k_initproc r)
    (k_nextpid r) (k_ticks r) (k_mem r) (k_freelist r) (k_kpagetable r) (k_bcache r) (k_disk r)
    (k_log r) (k_sb r) (k_itable r) (k_ftable r) (k_pipes r) (k_cons r) (k_uart r) (k_panicked r)
    (k_pr_locking r) (k_forkret_first r) (k_vdisk r) (k_devsw r) (k_started r) (k_mmio r).
Definition set_k_initproc (v : option Z) (r : kstate) : kstate :=
  mkKstate (k_tp r) (k_harts r) (k_cpus r) (k_locks r) (k_sleeplocks r) (k_proc r) v (k_nextpid r)
    (k_ticks r) (k_mem r) (k_freelist r) (k_kpagetable r) (k_bcache r) (k_disk r) (k_log r)
    (k_sb r) (k_itable r) (k_ftable r) (k_pipes r) (k_cons r) (k_uart r) (k_panicked r)
    (k_pr_locking r) (k_forkret_first r) (k_vdisk r) (k_devsw r) (k_started r) (k_mmio r).
Definition set_k_nextpid (v : Z) (r : kstate) : kstate :=
  mkKstate (k_tp r) (k_harts r) (k_cpus r) (k_locks r) (k_sleeplocks r) (k_proc r) (k_initproc r)
    v (k_ticks r) (k_mem r) (k_freelist r) (k_kpagetable r) (k_bcache r) (k_disk r) (k_log r)
    (k_sb r) (k_itable r) (k_ftable r) (k_pipes r) (k_cons r) (k_uart r) (k_panicked r)
    (k_pr_locking r) (k_forkret_first r) (k_vdisk r) (k_devsw r) (k_started r) (k_mmio r).
Definition set_k_ticks (v : Z) (r : kstate) : kstate :=
  mkKstate (k_tp r) (k_harts r) (k_cpus r) (k_locks r) (k_sleeplocks r) (k_proc r) (k_initproc r)
    (k_nextpid r) v (k_mem r) (k_freelist r) (k_kpagetable r) (k_bcache r) (k_disk r) (k_log r)
    (k_sb r) (k_itable r) (k_ftable r) (k_pipes r) (k_cons r) (k_uart r) (k_panicked r)
    (k_pr_locking r) (k_forkret_first r) (k_vdisk r) (k_devsw r) (k_started r) (k_mmio r).
Definition set_k_mem (v : gmap Z Z) (r : kstate) : kstate :=
  mkKstate (k_tp r) (k_harts r) (k_cpus r) (k_locks r) (k_sleeplocks r) (k_proc r) (k_initproc r)
    (k_nextpid r) (k_ticks r) v (k_freelist r) (k_kpagetable r) (k_bcache r) (k_disk r) (k_log r)
    (k_sb r) (k_itable r) (k_ftable r) (k_pipes r) (k_cons r) (k_uart r) (k_panicked r)
    (k_pr_locking r) (k_forkret_first r) (k_vdisk r) (k_devsw r) (k_started r) (k_mmio r).
Definition set_k_freelist (v : Z) (r : kstate) : kstate :=
  mkKstate (k_tp r) (k_harts r) (k_cpus r) (k_locks r) (k_sleeplocks r) (k_proc r) (k_initproc r)
    (k_nextpid r) (k_ticks r) (k_mem r) v (k_kpagetable r) (k_bcache r) (k_disk r) (k_log r)
    (k_sb r) (k_itable r) (k_ftable r) (k_pipes r) (k_cons r) (k_uart r) (k_panicked r)
    (k_pr_locking r) (k_forkret_first r) (k_vdisk r) (k_devsw r) (k_started r) (k_mmio r).
Definition set_k_kpagetable (v : Z) (r : kstate) : kstate :=
  mkKstate (k_tp r) (k_harts r) (k_cpus r) (k_locks r) (k_sleeplocks r) (k_proc r) (k_initproc r)
    (k_nextpid r) (k_ticks r) (k_mem r) (k_freelist r) v (k_bcache r) (k_disk r) (k_log r)
    (k_sb r) (k_itable r) (k_ftable r) (k_pipes r) (k_cons r) (k_uart r) (k_panicked r)
    (k_pr_locking r) (k_forkret_first r) (k_vdisk r) (k_devsw r) (k_started r) (k_mmio r).
Definition set_k_bcache (v : list buf) (r : kstate) : kstate :=
  mkKstate (k_tp r) (k_harts r) (k_cpus r) (k_locks r) (k_sleeplocks r) (k_proc r) (k_initproc r)
    (k_nextpid r) (k_ticks r) (k_mem r) (k_freelist r) (k_kpagetable r) v (k_disk r) (k_log r)
    (k_sb r) (k_itable r) (k_ftable r) (k_pipes r) (k_cons r) (k_uart r) (k_panicked r)
    (k_pr_locking r) (k_forkret_first r) (k_vdisk r) (k_devsw r) (k_started r) (k_mmio r).
Definition set_k_disk (v : disk_dev) (r : kstate) : kstate :=
  mkKstate (k_tp r) (k_harts r) (k_cpus r) (k_locks r) (k_sleeplocks r) (k_proc r) (k_initproc r)
    (k_nextpid r) (k_ticks r) (k_mem r) (k_freelist r) (k_kpagetable r) (k_bcache r) v (k_log r)
    (k_sb r) (k_itable r) (k_ftable r) (k_pipes r) (k_cons r) (k_uart r) (k_panicked r)
    (k_pr_locking r) (k_forkret_first r) (k_vdisk r) (k_devsw r) (k_started r) (k_mmio r).
Definition set_k_log (v : logst) (r : kstate) : kstate :=
  mkKstate (k_tp r) (k_harts r) (k_cpus r) (k_locks r) (k_sleeplocks r) (k_proc r) (k_initproc r)
    (k_nextpid r) (k_ticks r) (k_mem r) (k_freelist r) (k_kpagetable r) (k_bcache r) (k_disk r) v
    (k_sb r) (k_itable r) (k_ftable r) (k_pipes r) (k_cons r) (k_uart r) (k_panicked r)
    (k_pr_locking r) (k_forkret_first r) (k_vdisk r) (k_devsw r) (k_started r) (k_mmio r).
Definition set_k_sb (v : superblock) (r : kstate) : kstate :=
  mkKstate (k_tp r) (k_harts r) (k_cpus r) (k_locks r) (k_sleeplocks r) (k_proc r) (k_initproc r)
    (k_nextpid r) (k_ticks r) (k_mem r) (k_freelist r) (k_kpagetable r) (k_bcache r) (k_disk r)
    (k_log r) v (k_itable r) (k_ftable r) (k_pipes r) (k_cons r) (k_uart r) (k_panicked r)
    (k_pr_locking r) (k_forkret_first r) (k_vdisk r) (k_devsw r) (k_started r) (k_mmio r).
Definition set_k_itable (v : list inode) (r : kstate) : kstate :=
  mkKstate (k_tp r) (k_harts r) (k_cpus r) (k_locks r) (k_sleeplocks r) (k_proc r) (k_initproc r)
    (k_nextpid r) (k_ticks r) (k_mem r) (k_freelist r) (k_kpagetable r) (k_bcache r) (k_disk r)
    (k_log r) (k_sb r) v (k_ftable r) (k_pipes r) (k_cons r) (k_uart r) (k_panicked r)
    (k_pr_locking r) (k_forkret_first r) (k_vdisk r) (k_devsw r) (k_started r) (k_mmio r).
Definition set_k_ftable (v : list file) (r : kstate) : kstate :=
  mkKstate (k_tp r) (k_harts r) (k_cpus r) (k_locks r) (k_sleeplocks r) (k_proc r) (k_initproc r)
    (k_nextpid r) (k_ticks r) (k_mem r) (k_freelist r) (k_kpagetable r) (k_bcache r) (k_disk r)
    (k_log r) (k_sb r) (k_itable r) v (k_pipes r) (k_cons r) (k_uart r) (k_panicked r)
    (k_pr_locking r) (k_forkret_first r) (k_vdisk r) (k_devsw r) (k_started r) (k_mmio r).
Definition set_k_pipes (v : gmap Z pipe) (r : kstate) : kstate :=
  mkKstate (k_tp r) (k_harts r) (k_cpus r) (k_locks r) (k_sleeplocks r) (k_proc r) (k_initproc r)
    (k_nextpid r) (k_ticks r) (k_mem r) (k_freelist r) (k_kpagetable r) (k_bcache r) (k_disk r)
    (k_log r) (k_sb r) (k_itable r) (k_ftable r) v (k_cons r) (k_uart r) (k_panicked r)
    (k_pr_locking r) (k_forkret_first r) (k_vdisk r) (k_devsw r) (k_started r) (k_mmio r).
Definition set_k_cons (v : consst) (r : kstate) : kstate :=
  mkKstate (k_tp r) (k_harts r) (k_cpus r) (k_locks r) (k_sleeplocks r) (k_proc r) (k_initproc r)
    (k_nextpid r) (k_ticks r) (k_mem r) (k_freelist r) (k_kpagetable r) (k_bcache r) (k_disk r)
    (k_log r) (k_sb r) (k_itable r) (k_ftable r) (k_pipes r) v (k_uart r) (k_panicked r)
    (k_pr_locking r) (k_forkret_first r) (k_vdisk r) (k_devsw r) (k_started r) (k_mmio r).
Definition set_k_uart (v : uartst) (r : kstate) : kstate :=
  mkKstate (k_tp r) (k_harts r) (k_cpus r) (k_locks r) (k_sleeplocks r) (k_proc r) (k_initproc r)
    (k_nextpid r) (k_ticks r) (k_mem r) (k_freelist r) (k_kpagetable r) (k_bcache r) (k_disk r)
    (k_log r) (k_sb r) (k_itable r) (k_ftable r) (k_pipes r) (k_cons r) v (k_panicked r)
    (k_pr_locking r) (k_forkret_first r) (k_vdisk r) (k_devsw r) (k_started r) (k_mmio r).
Definition set_k_panicked (v : Z) (r : kstate) : kstate :=
  mkKstate (k_tp r) (k_harts r) (k_cpus r) (k_locks r) (k_sleeplocks r) (k_proc r) (k_initproc r)
    (k_nextpid r) (k_ticks r) (k_mem r) (k_freelist r) (k_kpagetable r) (k_bcache r) (k_disk r)
    (k_log r) (k_sb r) (k_itable r) (k_ftable r) (k_pipes r) (k_cons r) (k_uart r) v
    (k_pr_locking r) (k_forkret_first r) (k_vdisk r) (k_devsw r) (k_started r) (k_mmio r).
Definition set_k_pr_locking (v : Z) (r : kstate) : kstate :=
  mkKstate (k_tp r) (k_harts r) (k_cpus r) (k_locks r) (k_sleeplocks r) (k_proc r) (k_initproc r)
    (k_nextpid r) (k_ticks r) (k_mem r) (k_freelist r) (k_kpagetable r) (k_bcache r) (k_disk r)
    (k_log r) (k_sb r) (k_itable r) (k_ftable r) (k_pipes r) (k_cons r) (k_uart r) (k_panicked r)
    v (k_forkret_first r) (k_vdisk r) (k_devsw r) (k_started r) (k_mmio r).
Definition set_k_forkret_first (v : Z) (r : kstate) : kstate :=
  mkKstate (k_tp r) (k_harts r) (k_cpus r) (k_locks r) (k_sleeplocks r) (k_proc r) (k_initproc r)
    (k_nextpid r) (k_ticks r) (k_mem r) (k_freelist r) (k_kpagetable r) (k_bcache r) (k_disk r)
    (k_log r) (k_sb r) (k_itable r) (k_ftable r) (k_pipes r) (k_cons r) (k_uart r) (k_panicked r)
    (k_pr_locking r) v (k_vdisk r) (k_devsw r) (k_started r) (k_mmio r).
Definition set_k_vdisk (v : vdisk) (r : kstate) : kstate :=
  mkKstate (k_tp r) (k_harts r) (k_cpus r) (k_locks r) (k_sleeplocks r) (k_proc r) (k_initproc r)
    (k_nextpid r) (k_ticks r) (k_mem r) (k_freelist r) (k_kpagetable r) (k_bcache r) (k_disk r)
    (k_log r) (k_sb r) (k_itable r) (k_ftable r) (k_pipes r) (k_cons r) (k_uart r) (k_panicked r)
    (k_pr_locking r) (k_forkret_first r) v (k_devsw r) (k_started r) (k_mmio r).
Definition set_k_devsw (v : list (option devfn * option devfn)) (r : kstate) : kstate :=
  mkKstate (k_tp r) (k_harts r) (k_cpus r) (k_locks r) (k_sleeplocks r) (k_proc r) (k_initproc r)
    (k_nextpid r) (k_ticks r) (k_mem r) (k_freelist r) (k_kpagetable r) (k_bcache r) (k_disk r)
    (k_log r) (k_sb r) (k_itable r) (k_ftable r) (k_pipes r) (k_cons r) (k_uart r) (k_panicked r)
    (k_pr_locking r) (k_forkret_first r) (k_vdisk r) v (k_started r) (k_mmio r).
Definition set_k_started (v : Z) (r : kstate) : kstate :=
  mkKstate (k_tp r) (k_harts r) (k_cpus r) (k_locks r) (k_sleeplocks r) (k_proc r) (k_initproc r)
    (k_nextpid r) (k_ticks r) (k_mem r) (k_freelist r) (k_kpagetable r) (k_bcache r) (k_disk r)
    (k_log r) (k_sb r) (k_itable r) (k_ftable r) (k_pipes r) (k_cons r) (k_uart r) (k_panicked r)
    (k_pr_locking r) (k_forkret_first r) (k_vdisk r) (k_devsw r) v (k_mmio r).
Definition set_k_mmio (v : list mmio_event) (r : kstate) : kstate :=
  mkKstate (k_tp r) (k_harts r) (k_cpus r) (k_locks r) (k_sleeplocks r) (k_proc r) (k_initproc r)
    (k_nextpid r) (k_ticks r) (k_mem r) (k_freelist r) (k_kpagetable r) (k_bcache r) (k_disk r)
    (k_log r) (k_sb r) (k_itable r) (k_ftable r) (k_pipes r) (k_cons r) (k_uart r) (k_panicked r)
    (k_pr_locking r) (k_forkret_first r) (k_vdisk r) (k_devsw r) (k_started r) v.

(** ** An idle kernel

    The initial contents of the kernel's static variables (zero, except
    [nextpid] and [forkret]'s [first]) on harts that run with interrupts
    enabled and outside any critical section; the locks are those of the
    static variables, as [initlock] leaves them. *)
Definition zero_context : context := mkContext 0 0 (replicate 12 0).
Definition zero_cpu : cpu := mkCpu None zero_context 0 1.
Definition zero_hart : hart := mkHart SSTATUS_SIE 0 0 0 0 0 0 0 0 0 0 0 0 0 0 0 0 0 0.
Definition zero_proc : proc :=
  mkProc UNUSED None 0 0 0 None 0 0 0 0 zero_context (replicate 16 None) None (replicate 16 0).
Definition zero_buf : buf := mkBuf 0 0 0 0 0 0 0 (replicate 1024 0).
Definition zero_inode : inode := mkInode 0 0 0 0 0 0 0 0 0 (replicate 13 0).
Definition zero_file : file := mkFile FD_NONE 0 0 0 0 None 0 0.
Definition zero_desc : virtq_desc := mkDesc DMA_null 0 0 0.
Definition zero_vdisk : vdisk :=
  mkVdisk 0 0 0 (replicate 8 zero_desc) (mkAvail 0 0 (replicate 8 0) 0)
    (mkUsed 0 0 (replicate 8 (mkUsedElem 0 0))) (replicate 8 0) 0 (replicate 8 None) (replicate 8 0)
    (replicate 8 (mkBlkReq 0 0 0)).
Definition static_locks : list lockid :=
  [L_kmem; L_pid; L_wait; L_bcache; L_log; L_itable; L_ftable; L_cons; L_uart_tx; L_pr;
   L_tickslock; L_vdisk] ++ (L_proc <$> rangeZ 0 64) ++
  ((fun i => L_sleep (SL_buf i)) <$> rangeZ 0 30) ++ ((fun i => L_sleep (SL_inode i)) <$> rangeZ 0 50).
Definition zero_locks : gmap lockid spinlock :=
  list_to_map ((fun l => (l, mkSpinlock 0 "lock" None)) <$> static_locks).
Definition zero_sleeplocks : gmap sleepid sleeplock :=
  list_to_map ((fun l => (l, mkSleeplock 0 "sleep lock" 0)) <$>
    ((SL_buf <$> rangeZ 0 30) ++ (SL_inode <$> rangeZ 0 50))).
Definition zero_kstate : kstate :=
  mkKstate 0 (replicate 8 zero_hart) (replicate 8 zero_cpu) zero_locks zero_sleeplocks
    (replicate 64 zero_proc) None 1 0 ∅ 0 0
    (replicate 31 zero_buf) (mkDisk ∅ []) (mkLog 0 0 0 0 0 (mkLogheader 0 (replicate 30 0)))
    (mkSuperblock 0 0 0 0 0 0 0 0) (replicate 50 zero_inode) (replicate 100 zero_file) ∅
    (mkCons (replicate 128 0) 0 0 0) (mkUart (replicate 32 0) 0 0) 0 0 1
    zero_vdisk (replicate 10 (None, None)) 0 [].

(** ** The monad of kernel code

    A kernel function run from a state either returns a value and a state,
    fails, or gives up the CPU: [Swtch s k] is a kernel thread that has
    switched to the scheduler in state [s] and continues as [k] when the
    scheduler switches back to it.  A failure is a call of [panic], a C
    operation whose behaviour is undefined (a null or out-of-range access), an
    [acquire] that spins on a lock another CPU holds, a [for (;;);], or a loop
    that has not ended within the fuel given to it.  [Spins l s] keeps the
    state [s] in which the CPU spins: it is the one the other CPUs see until
    the lock is released. *)

Inductive failure :=
| Panic (msg : string)
| UB (msg : string)
| Spins (l : lockid) (s : kstate)
| Hangs
| OutOfFuel.

Inductive res (A : Type) :=
| Ok (a : A) (s : kstate)
| Fail (e : failure)
| Swtch (s : kstate) (k : kstate -> res A).
Arguments Ok {A} a s.
Arguments Fail {A} e.
Arguments Swtch {A} s k.

Definition M (A : Type) : Type := kstate -> res A.

Definition ret {A} (a : A) : M A := fun s => Ok a s.
Definition fail {A} (e : failure) : M A := fun _ => Fail e.
Definition panic {A} (msg : string) : M A := fail (Panic msg).
Definition ub {A} (msg : string) : M A := fail (UB msg).
Definition spin {A} (l : lockid) : M A := fun s => Fail (Spins l s).

Fixpoint bind_res {A B} (r : res A) (f : A -> M B) : res B :=
  match r with
  | Ok a s => f a s
  | Fail e => Fail e
  | Swtch s k => Swtch s (fun s' => bind_res (k s') f)
  end.
Definition bind {A B} (m : M A) (f : A -> M B) : M B := fun s => bind_res (m s) f.

Declare Scope kernel_scope.
Delimit Scope kernel_scope with kernel.
#[global] Open Scope kernel_scope.

Notation "x <- m ;; k" := (bind m (fun x => k))
  (at level 100, m at next level, k at level 200, right associativity) : kernel_scope.
Notation "m ;; k" := (bind m (fun _ => k))
  (at level 100, k at level 200, right associativity) : kernel_scope.

Definition gets {A} (f : kstate -> A) : M A := fun s => Ok (f s) s.
Definition modify (f : kstate -> kstate) : M unit := fun s => Ok tt (f s).

(** Dereference a pointer that may be null or out of range. *)
Definition deref {A} (o : option A) : M A :=
  match o with Some a => ret a | None => ub "bad pointer" end.

Definition when (b : bool) (m : M unit) : M unit := if b then m else ret tt.

(** [for (i = a; i < a + n; i++) body(i)], where [body] may leave the loop
    early with a result. *)
Fixpoint for_loop {R} (n : nat) (i : Z) (body : Z -> M (option R)) : M (option R) :=
  match n with
  | O => ret None
  | S n' =>
      r <- body i;;
      match r with
      | Some x => ret (Some x)
      | None => for_loop n' (i + 1) body
      end
  end.

(** A loop whose local variables are [st]: the body either continues with new
    locals or leaves the loop with a result. *)
Fixpoint loop {St R} (fuel : nat) (body : St -> M (St + R)) (st : St) : M R :=
  match fuel with
  | O => fail OutOfFuel
  | S fuel' =>
      r <- body st;;
      match r with
      | inl st' => loop fuel' body st'
      | inr x => ret x
      end
  end.

(** *** Access to memory and to the static arrays *)

Definition read64 (a : Z) : M Z := gets (fun s => load64 (k_mem s) a).
Definition write64 (a v : Z) : M unit := modify (fun s => set_k_mem (store64 (k_mem s) a v) s).
Definition read8 (a : Z) : M Z := gets (fun s => mget (k_mem s) a).
Definition write8 (a v : Z) : M unit := modify (fun s => set_k_mem (mput (k_mem s) a v) s).

Definition get_hart (i : Z) : M hart := o <- gets (fun s => lookupZ (k_harts s) i);; deref o.
Definition put_hart (i : Z) (h : hart) : M unit :=
  modify (fun s => set_k_harts (insertZ i h (k_harts s)) s).
Definition get_cpu (i : Z) : M cpu := o <- gets (fun s => lookupZ (k_cpus s) i);; deref o.
Definition put_cpu (i : Z) (c : cpu) : M unit :=
  modify (fun s => set_k_cpus (insertZ i c (k_cpus s)) s).
Definition get_lock (l : lockid) : M spinlock := o <- gets (fun s => k_locks s !! l);; deref o.
Definition put_lock (l : lockid) (k : spinlock) : M unit :=
  modify (fun s => set_k_locks (<[l := k]> (k_locks s)) s).
Definition get_sleeplock (l : sleepid) : M sleeplock := o <- gets (fun s => k_sleeplocks s !! l);; deref o.
Definition put_sleeplock (l : sleepid) (k : sleeplock) : M unit :=
  modify (fun s => set_k_sleeplocks (<[l := k]> (k_sleeplocks s)) s).
Definition get_proc (i : Z) : M proc := o <- gets (fun s => lookupZ (k_proc s) i);; deref o.
Definition put_proc (i : Z) (p : proc) : M unit :=
  modify (fun s => set_k_proc (insertZ i p (k_proc s)) s).
Definition get_buf (i : Z) : M buf := o <- gets (fun s => lookupZ (k_bcache s) i);; deref o.
Definition put_buf (i : Z) (b : buf) : M unit :=
  modify (fun s => set_k_bcache (insertZ i b (k_bcache s)) s).
Definition get_inode (i : Z) : M inode := o <- gets (fun s => lookupZ (k_itable s) i);; deref o.
Definition put_inode (i : Z) (x : inode) : M unit :=
  modify (fun s => set_k_itable (insertZ i x (k_itable s)) s).
Definition get_file (i : Z) : M file := o <- gets (fun s => lookupZ (k_ftable s) i);; deref o.
Definition put_file (i : Z) (x : file) : M unit :=
  modify (fun s => set_k_ftable (insertZ i x (k_ftable s)) s).
Definition get_pipe (pa : Z) : M pipe := o <- gets (fun s => k_pipes s !! pa);; deref o.
Definition put_pipe (pa : Z) (x : pipe) : M unit :=
  modify (fun s => set_k_pipes (<[pa := x]> (k_pipes s)) s).

(** ** Reasoning about monadic code *)

Lemma bind_ok {A B} (m : M A) (f : A -> M B) s a s' :
  m s = Ok a s' -> bind m f s = f a s'.
Proof. unfold bind. by intros ->. Qed.

Lemma bind_fail {A B} (m : M A) (f : A -> M B) s e :
  m s = Fail e -> bind m f s = Fail e.
Proof. unfold bind. by intros ->. Qed.

Lemma bind_ret {A B} (a : A) (f : A -> M B) s : bind (ret a) f s = f a s.
Proof. done. Qed.

Lemma bind_gets {A B} (g : kstate -> A) (f : A -> M B) s : bind (gets g) f s = f (g s) s.
Proof. done. Qed.

Lemma bind_modify {B} (g : kstate -> kstate) (f : unit -> M B) s :
  bind (modify g) f s = f tt (g s).
Proof. done. Qed.

Lemma bind_ok_inv {A B} (m : M A) (f : A -> M B) s b s' :
  bind m f s = Ok b s' -> exists a s1, m s = Ok a s1 /\ f a s1 = Ok b s'.
Proof. unfold bind. destruct (m s) eqn:E; simpl; intros H; try discriminate. eauto. Qed.

Lemma deref_ok {A} (o : option A) s a : o = Some a -> deref o s = Ok a s.
Proof. by intros ->. Qed.

(** Running the accessors: the equations that [mstep] rewrites with. *)
Create HintDb run.

Section Run.
Context {B : Type}.
Implicit Types (s : kstate).

Lemma run_get_hart s i h : lookupZ (k_harts s) i = Some h -> get_hart i s = Ok h s.
Proof. intros H. unfold get_hart, bind, gets. simpl. by rewrite H. Qed.
Lemma run_get_cpu s i h : lookupZ (k_cpus s) i = Some h -> get_cpu i s = Ok h s.
Proof. intros H. unfold get_cpu, bind, gets. simpl. by rewrite H. Qed.
Lemma run_get_lock s i h : k_locks s !! i = Some h -> get_lock i s = Ok h s.
Proof. intros H. unfold get_lock, bind, gets. simpl. by rewrite H. Qed.
Lemma run_get_sleeplock s i h : k_sleeplocks s !! i = Some h -> get_sleeplock i s = Ok h s.
Proof. intros H. unfold get_sleeplock, bind, gets. simpl. by rewrite H. Qed.
Lemma run_get_proc s i h : lookupZ (k_proc s) i = Some h -> get_proc i s = Ok h s.
Proof. intros H. unfold get_proc, bind, gets. simpl. by rewrite H. Qed.
Lemma run_get_buf s i h : lookupZ (k_bcache s) i = Some h -> get_buf i s = Ok h s.
Proof. intros H. unfold get_buf, bind, gets. simpl. by rewrite H. Qed.
Lemma run_get_inode s i h : lookupZ (k_itable s) i = Some h -> get_inode i s = Ok h s.
Proof. intros H. unfold get_inode, bind, gets. simpl. by rewrite H. Qed.
Lemma run_get_file s i h : lookupZ (k_ftable s) i = Some h -> get_file i s = Ok h s.
Proof. intros H. unfold get_file, bind, gets. simpl. by rewrite H. Qed.
Lemma run_get_pipe s i h : k_pipes s !! i = Some h -> get_pipe i s = Ok h s.
Proof. intros H. unfold get_pipe, bind, gets. simpl. by rewrite H. Qed.
Lemma run_ret s (a : B) : ret a s = Ok a s.
Proof. done. Qed.
Lemma run_gets s (f : kstate -> B) : gets f s = Ok (f s) s.
Proof. done. Qed.
Lemma run_modify s f : modify f s = Ok tt (f s).
Proof. done. Qed.

End Run.

#[export] Hint Resolve run_get_hart run_get_cpu run_get_lock run_get_sleeplock run_get_proc
  run_get_buf run_get_inode run_get_file run_get_pipe run_ret run_gets run_modify : run.

(** One step of a sequence: run its first command with the equations of [run]. *)
Ltac mstep :=
  first
    [ rewrite bind_ret | rewrite bind_gets | rewrite bind_modify
    | erewrite bind_ok by (eauto with run nocore) ].
Ltac msteps := repeat (mstep; cbn beta iota).

(** One turn of a loop. *)
Lemma for_loop_stop {R} n i (body : Z -> M (option R)) s r s' :
  body i s = Ok (Some r) s' -> for_loop (S n) i body s = Ok (Some r) s'.
Proof. intros H. cbn [for_loop]. by erewrite bind_ok by exact H. Qed.

Lemma for_loop_next {R} n i (body : Z -> M (option R)) s s' :
  body i s = Ok None s' -> for_loop (S n) i body s = for_loop n (i + 1) body s'.
Proof. intros H. cbn [for_loop]. by erewrite bind_ok by exact H. Qed.

Lemma for_loop_fail {R} n i (body : Z -> M (option R)) s e :
  body i s = Fail e -> for_loop (S n) i body s = Fail e.
Proof. intros H. cbn [for_loop]. by apply bind_fail. Qed.

Lemma loop_stop {St R} n (body : St -> M (St + R)) st s r s' :
  body st s = Ok (inr r) s' -> loop (S n) body st s = Ok r s'.
Proof. intros H. cbn [loop]. by erewrite bind_ok by exact H. Qed.

Lemma loop_next {St R} n (body : St -> M (St + R)) st s st' s' :
  body st s = Ok (inl st') s' -> loop (S n) body st s = loop n body st' s'.
Proof. intros H. cbn [loop]. by erewrite bind_ok by exact H. Qed.

Lemma loop_fail {St R} n (body : St -> M (St + R)) st s e :
  body st s = Fail e -> loop (S n) body st s = Fail e.
Proof. intros H. cbn [loop]. by apply bind_fail. Qed.

Lemma bind_swtch {A B} (m : M A) (f : A -> M B) s s1 k :
  m s = Swtch s1 k -> bind m f s = Swtch s1 (fun s' => bind k f s').
Proof. unfold bind. by intros ->. Qed.

Lemma deref_inv {A} (o : option A) s a s' : deref o s = Ok a s' -> o = Some a /\ s' = s.
Proof. destruct o; simpl; unfold ret, ub, fail; intros H; by inversion H. Qed.

(** Read off what a run that returned did: one equation per command. *)
Ltac minv :=
  repeat match goal with
  | H : bind _ _ _ = Ok _ _ |- _ => apply bind_ok_inv in H; destruct H as (?&?&?&H)
  | H : gets _ _ = Ok _ _ |- _ => unfold gets in H; injection H as <- <-
  | H : modify _ _ = Ok _ _ |- _ => unfold modify in H; injection H as <- <-
  | H : ret _ _ = Ok _ _ |- _ => unfold ret in H; injection H as <- <-
  | H : deref _ _ = Ok _ _ |- _ => apply deref_inv in H; destruct H as [? ->]
  | H : fail _ _ = Ok _ _ |- _ => discriminate H
  | H : panic _ _ = Ok _ _ |- _ => discriminate H
  | H : ub _ _ = Ok _ _ |- _ => discriminate H
  end.
