(* ===== verification/Spinlock.v ===== *)
(** * Spinlocks and interrupt nesting: [kernel/spinlock.c]

    [acquire], [release], [push_off] and [pop_off] on the lock map, the
    per-CPU records and the [sstatus] register of the executing hart, with
    the accessors of [riscv.h] and [proc.c] they use.  A [lock_free] lock
    taken and released from a [settled] CPU leaves the state as it was; the
    lemmas [acquire_ok] and [release_acq] are how the other files run a
    critical section. *)

From S2P Require Import Prelude Riscv State.

(** ** Definitions *)

(** [r_tp] and [cpuid]: the thread pointer of the executing hart. *)
Definition r_tp : M Z := gets k_tp.
Definition cpuid : M Z := id <- r_tp;; ret id.

(** [mycpu]: a pointer to a [struct cpu] is its index in [cpus]. *)
Definition mycpu : M Z := id <- cpuid;; ret id.

Definition r_sstatus : M Z := t <- r_tp;; h <- get_hart t;; ret (h_sstatus h).
Definition w_sstatus (x : Z) : M unit := t <- r_tp;; h <- get_hart t;; put_hart t (set_h_sstatus x h).

Definition intr_on : M unit := x <- r_sstatus;; w_sstatus (Z.lor x SSTATUS_SIE).
Definition intr_off : M unit := x <- r_sstatus;; w_sstatus (Z.land x (Z.lnot SSTATUS_SIE)).
Definition intr_get : M Z :=
  x <- r_sstatus;; ret (if truth (Z.land x SSTATUS_SIE) then 1 else 0).

Definition push_off : M unit :=
  old <- intr_get;;
  intr_off;;
  id <- mycpu;;
  c <- get_cpu id;;
  when (cpu_noff c =? 0) (put_cpu id (set_cpu_intena old c));;
  id <- mycpu;;
  c <- get_cpu id;;
  put_cpu id (set_cpu_noff (cpu_noff c + 1) c).

Definition pop_off : M unit :=
  id <- mycpu;;
  i <- intr_get;;
  if truth i then panic "pop_off - interruptible" else
  c <- get_cpu id;;
  if cpu_noff c <? 1 then panic "pop_off" else
  put_cpu id (set_cpu_noff (cpu_noff c - 1) c);;
  c <- get_cpu id;;
  when ((cpu_noff c =? 0) && truth (cpu_intena c)) intr_on.

Definition initlock (lk : lockid) (name : string) : M unit :=
  put_lock lk (mkSpinlock 0 name None).

Definition holding (lk : lockid) : M bool :=
  l <- get_lock lk;;
  id <- mycpu;;
  ret (truth (lk_locked l) && bool_decide (lk_cpu l = Some id)).

(** [while (__sync_lock_test_and_set(&lk->locked, 1) != 0);]: the swap writes
    1 and returns the old value; while another CPU holds the lock the loop
    does not end. *)
Definition acquire (lk : lockid) : M unit :=
  push_off;;
  h <- holding lk;;
  if (h : bool) then panic "acquire" else
  l <- get_lock lk;;
  (if truth (lk_locked l) then spin lk else put_lock lk (set_lk_locked 1 l));;
  id <- mycpu;;
  l <- get_lock lk;;
  put_lock lk (set_lk_cpu (Some id) l).

Definition release (lk : lockid) : M unit :=
  h <- holding lk;;
  if negb h then panic "release" else
  l <- get_lock lk;;
  put_lock lk (set_lk_cpu None l);;
  l <- get_lock lk;;
  put_lock lk (set_lk_locked 0 l);;
  pop_off.

(** *** Predicates on states *)

Definition intr_enabled (h : hart) : bool := truth (Z.land (h_sstatus h) SSTATUS_SIE).

(** The executing CPU exists, its interrupts are off whenever it is inside a
    [push_off], and [intena] is up to date outside one. *)
Definition settled (s : kstate) : Prop :=
  exists h c, lookupZ (k_harts s) (k_tp s) = Some h /\ lookupZ (k_cpus s) (k_tp s) = Some c /\
    0 <= cpu_noff c /\
    (cpu_noff c = 0 -> cpu_intena c = if intr_enabled h then 1 else 0) /\
    (0 < cpu_noff c -> intr_enabled h = false).

Definition lock_free (lk : lockid) (s : kstate) : Prop :=
  exists name, k_locks s !! lk = Some (mkSpinlock 0 name None).

(** The CPU and hart records inside one more [push_off]. *)
Definition push_cpu (h : hart) (c : cpu) : cpu :=
  set_cpu_noff (cpu_noff c + 1)
    (if cpu_noff c =? 0 then set_cpu_intena (if intr_enabled h then 1 else 0) c else c).
Definition push_hart (h : hart) : hart :=
  set_h_sstatus (Z.land (h_sstatus h) (Z.lnot SSTATUS_SIE)) h.

(** The state inside [push_off], and inside [acquire lk]. *)
Definition push_st (s : kstate) : kstate :=
  set_k_cpus
    (match lookupZ (k_harts s) (k_tp s), lookupZ (k_cpus s) (k_tp s) with
     | Some h, Some c => insertZ (k_tp s) (push_cpu h c) (k_cpus s)
     | _, _ => k_cpus s
     end)
    (set_k_harts
      (match lookupZ (k_harts s) (k_tp s) with
       | Some h => insertZ (k_tp s) (push_hart h) (k_harts s)
       | None => k_harts s
       end) s).
Definition acq (lk : lockid) (s : kstate) : kstate :=
  set_k_locks
    (alter (fun l => mkSpinlock 1 (lk_name l) (Some (k_tp s))) lk (k_locks s)) (push_st s).

(** *** Several CPUs

    The CPUs interleave their operations on the locks: a step is one
    operation that CPU [i] completes, run from the shared state with hart [i]
    executing.  Code turns interrupts on only outside every [push_off]
    ([scheduler], [usertrap]). *)
Inductive lock_op :=
| OpAcquire (lk : lockid)
| OpRelease (lk : lockid)
| OpIntrOn
| OpIntrOff.

#[global] Instance lock_op_eq_dec : EqDecision lock_op.
Proof. solve_decision. Defined.

Definition run_op (o : lock_op) : M unit :=
  match o with
  | OpAcquire lk => acquire lk
  | OpRelease lk => release lk
  | OpIntrOn => id <- mycpu;; c <- get_cpu id;; if cpu_noff c =? 0 then intr_on else panic "nested"
  | OpIntrOff => intr_off
  end.

Inductive lock_step (s : kstate) : Z * lock_op -> kstate -> Prop :=
| LockStep i o s' : run_op o (set_k_tp i s) = Ok tt s' -> lock_step s (i, o) s'.

Inductive lock_trace (s : kstate) : list (Z * lock_op) -> kstate -> Prop :=
| TraceNil : lock_trace s [] s
| TraceCons e s1 es s' : lock_step s e s1 -> lock_trace s1 es s' -> lock_trace s (e :: es) s'.

(** The locks CPU [i] holds. *)
Definition held_by (i : Z) (s : kstate) : gmap lockid spinlock :=
  filter (fun kv => lk_cpu (snd kv) = Some i) (k_locks s).

(** A lock is either free or held by one CPU, a CPU's nesting depth is the
    number of locks it holds, and its interrupts are off while it holds any. *)
Definition lock_wf (l : spinlock) : Prop :=
  (lk_locked l = 0 /\ lk_cpu l = None) \/ (lk_locked l = 1 /\ exists i, lk_cpu l = Some i).
Definition locks_inv (s : kstate) : Prop :=
  map_Forall (fun _ l => lock_wf l) (k_locks s) /\
  forall i c h, lookupZ (k_cpus s) i = Some c -> lookupZ (k_harts s) i = Some h ->
    cpu_noff c = Z.of_nat (size (held_by i s)) /\ (0 < cpu_noff c -> intr_enabled h = false).

(** CPU [i] holds [lk]. *)
Definition holds (i : Z) (lk : lockid) (s : kstate) : Prop :=
  exists l, k_locks s !! lk = Some l /\ truth (lk_locked l) = true /\ lk_cpu l = Some i.

(** ** The [sstatus] bit *)

Lemma SIE_eq : SSTATUS_SIE = 2 ^ 1.
Proof. reflexivity. Qed.

Lemma land_SIE x : truth (Z.land x SSTATUS_SIE) = Z.testbit x 1.
Proof.
  unfold truth. destruct (Z.testbit x 1) eqn:E.
  - apply negb_true_iff, Z.eqb_neq. intros H.
    assert (Z.testbit (Z.land x SSTATUS_SIE) 1 = true) as H1
      by (rewrite Z.land_spec, E; reflexivity).
    rewrite H in H1. discriminate.
  - apply negb_false_iff, Z.eqb_eq. apply Z.bits_inj'. intros n Hn.
    rewrite Z.land_spec, Z.bits_0, SIE_eq, Z.pow2_bits_eqb by lia.
    destruct (Z.eqb_spec 1 n) as [<-|]; [by rewrite E|apply andb_false_r].
Qed.

Lemma intr_enabled_off x : Z.testbit (Z.land x (Z.lnot SSTATUS_SIE)) 1 = false.
Proof. rewrite Z.land_spec, Z.lnot_spec by lia. apply andb_false_r. Qed.

Lemma lor_land_SIE x :
  Z.testbit x 1 = true -> Z.lor (Z.land x (Z.lnot SSTATUS_SIE)) SSTATUS_SIE = x.
Proof.
  intros H. apply Z.bits_inj'. intros n Hn.
  rewrite Z.lor_spec, Z.land_spec, Z.lnot_spec, SIE_eq, Z.pow2_bits_eqb by lia.
  destruct (Z.eqb_spec 1 n) as [<-|]; [by rewrite H|].
  simpl. by rewrite andb_true_r, orb_false_r.
Qed.

Lemma land_SIE_idem x :
  Z.testbit x 1 = false -> Z.land x (Z.lnot SSTATUS_SIE) = x.
Proof.
  intros H. apply Z.bits_inj'. intros n Hn.
  rewrite Z.land_spec, Z.lnot_spec, SIE_eq, Z.pow2_bits_eqb by lia.
  destruct (Z.eqb_spec 1 n) as [<-|]; [by rewrite H|]. apply andb_true_r.
Qed.

(** ** [push_off] and [pop_off] *)

Lemma run_mycpu s : mycpu s = Ok (k_tp s) s.
Proof. done. Qed.

Section PushOff.
Context (s : kstate) (h : hart) (c : cpu).
Hypothesis Hh : lookupZ (k_harts s) (k_tp s) = Some h.
Hypothesis Hc : lookupZ (k_cpus s) (k_tp s) = Some c.

Lemma run_r_sstatus : r_sstatus s = Ok (h_sstatus h) s.
Proof. unfold r_sstatus, r_tp. by msteps. Qed.

Lemma run_w_sstatus x :
  w_sstatus x s = Ok tt (set_k_harts (insertZ (k_tp s) (set_h_sstatus x h) (k_harts s)) s).
Proof. unfold w_sstatus, r_tp. by msteps. Qed.

Lemma run_intr_get : intr_get s = Ok (if intr_enabled h then 1 else 0) s.
Proof. unfold intr_get. erewrite bind_ok by apply run_r_sstatus. done. Qed.

Lemma run_intr_off :
  intr_off s = Ok tt (set_k_harts (insertZ (k_tp s) (push_hart h) (k_harts s)) s).
Proof. unfold intr_off. erewrite bind_ok by apply run_r_sstatus. apply run_w_sstatus. Qed.

Lemma run_intr_on :
  intr_on s = Ok tt (set_k_harts (insertZ (k_tp s)
    (set_h_sstatus (Z.lor (h_sstatus h) SSTATUS_SIE) h) (k_harts s)) s).
Proof. unfold intr_on. erewrite bind_ok by apply run_r_sstatus. apply run_w_sstatus. Qed.

Lemma push_off_ok : push_off s = Ok tt (push_st s).
Proof.
  pose proof (lookupZ_Some_range _ _ _ Hc) as Hr.
  unfold push_off, push_st. rewrite Hh, Hc.
  erewrite bind_ok by apply run_intr_get. erewrite bind_ok by apply run_intr_off.
  erewrite bind_ok by apply run_mycpu. erewrite bind_ok by (by apply run_get_cpu).
  unfold push_cpu. destruct (cpu_noff c =? 0); cbn [when].
  - unfold put_cpu. rewrite bind_modify. erewrite bind_ok by apply run_mycpu. simpl k_tp.
    erewrite bind_ok by (apply run_get_cpu; by apply lookupZ_insertZ_eq). rewrite run_modify.
    simpl. by rewrite insertZ_insertZ.
  - rewrite bind_ret. erewrite bind_ok by apply run_mycpu.
    by erewrite bind_ok by (by apply run_get_cpu).
Qed.

End PushOff.

Lemma set_k_cpus_self s : set_k_cpus (k_cpus s) s = s.
Proof. by destruct s. Qed.
Lemma set_k_harts_self s : set_k_harts (k_harts s) s = s.
Proof. by destruct s. Qed.
Lemma set_k_locks_self s : set_k_locks (k_locks s) s = s.
Proof. by destruct s. Qed.

(** Putting back the CPU record gives the state back when interrupts were off. *)
Lemma restore_off s h c c' :
  lookupZ (k_harts s) (k_tp s) = Some h -> lookupZ (k_cpus s) (k_tp s) = Some c ->
  Z.testbit (h_sstatus h) 1 = false ->
  set_k_cpus (insertZ (k_tp s) c (insertZ (k_tp s) c' (k_cpus s)))
    (set_k_cpus (insertZ (k_tp s) c' (k_cpus s))
      (set_k_harts (insertZ (k_tp s) (push_hart h) (k_harts s)) s)) = s.
Proof.
  intros Hh Hc Hb. rewrite insertZ_insertZ, insertZ_id by done.
  unfold push_hart. rewrite land_SIE_idem by done.
  rewrite (insertZ_id _ _ (k_harts s)) by (rewrite Hh; by destruct h). by destruct s.
Qed.

(** [pop_off] undoes [push_off]. *)
Lemma pop_off_push s : settled s -> pop_off (push_st s) = Ok tt s.
Proof.
  intros (h & c & Hh & Hc & Hn & H0 & H1).
  pose proof (lookupZ_Some_range _ _ _ Hc). pose proof (lookupZ_Some_range _ _ _ Hh).
  unfold push_st. rewrite Hh, Hc.
  set (s1 := set_k_cpus _ _).
  assert (E1 : lookupZ (k_harts s1) (k_tp s1) = Some (push_hart h)) by by apply lookupZ_insertZ_eq.
  assert (E2 : lookupZ (k_cpus s1) (k_tp s1) = Some (push_cpu h c)) by by apply lookupZ_insertZ_eq.
  unfold pop_off. erewrite bind_ok by apply run_mycpu.
  erewrite bind_ok by (by eapply run_intr_get).
  assert (intr_enabled (push_hart h) = false) as ->.
  { unfold intr_enabled. rewrite land_SIE. apply intr_enabled_off. }
  cbn [truth negb Z.eqb]. erewrite bind_ok by (by eapply run_get_cpu).
  replace (cpu_noff (push_cpu h c)) with (cpu_noff c + 1) by reflexivity.
  zcase (cpu_noff c + 1 <? 1). rewrite Z.add_simpl_r.
  unfold put_cpu at 1. rewrite bind_modify.
  erewrite bind_ok by (apply run_get_cpu; apply lookupZ_insertZ_eq; simpl; by rewrite lenZ_insertZ).
  cbn beta iota. change (k_tp s1) with (k_tp s).
  unfold intr_enabled in *. rewrite land_SIE in *.
  assert (Hcp : set_cpu_noff (cpu_noff c) (push_cpu h c) = c).
  { unfold push_cpu, intr_enabled. rewrite land_SIE. destruct c as [? ? n ie]; simpl in *.
    zcase (n =? 0). simpl. by rewrite <- H0 by lia. }
  rewrite Hcp. zcase (cpu_noff c =? 0); cbn [andb when].
  - rewrite H0 by lia. destruct (Z.testbit (h_sstatus h) 1) eqn:E; cbn [truth negb Z.eqb].
    + erewrite run_intr_on by exact E1. f_equal. unfold s1. simpl.
      rewrite lor_land_SIE, !insertZ_insertZ by done.
      rewrite (insertZ_id _ c) by done.
      rewrite (insertZ_id _ _ (k_harts s)) by (rewrite Hh; by destruct h).
      by destruct s.
    + cbn [when]. rewrite run_ret. f_equal. unfold s1. simpl. apply restore_off; done.
  - rewrite run_ret. f_equal. unfold s1. simpl. apply restore_off; auto with lia.
Qed.

Lemma settled_push s : settled s -> settled (push_st s).
Proof.
  intros (h & c & Hh & Hc & Hn & H0 & H1).
  pose proof (lookupZ_Some_range _ _ _ Hc). pose proof (lookupZ_Some_range _ _ _ Hh).
  unfold push_st. rewrite Hh, Hc. exists (push_hart h), (push_cpu h c).
  split; [by apply lookupZ_insertZ_eq|]. split; [by apply lookupZ_insertZ_eq|].
  replace (cpu_noff (push_cpu h c)) with (cpu_noff c + 1) by reflexivity.
  split_and!; try lia. intros _. unfold intr_enabled. rewrite land_SIE. apply intr_enabled_off.
Qed.

(** ** [acquire] and [release] *)

Lemma push_st_locks s : k_locks (push_st s) = k_locks s.
Proof. done. Qed.
Lemma push_st_tp s : k_tp (push_st s) = k_tp s.
Proof. done. Qed.

Lemma settled_push_off s : settled s -> push_off s = Ok tt (push_st s).
Proof. intros (h & c & Hh & Hc & _). by eapply push_off_ok. Qed.

Lemma run_holding s lk l :
  k_locks s !! lk = Some l ->
  holding lk s = Ok (truth (lk_locked l) && bool_decide (lk_cpu l = Some (k_tp s))) s.
Proof.
  intros H. unfold holding. erewrite bind_ok by (by apply run_get_lock).
  by erewrite bind_ok by apply run_mycpu.
Qed.

Lemma acquire_ok lk s : settled s -> lock_free lk s -> acquire lk s = Ok tt (acq lk s).
Proof.
  intros Hs [name Hl]. unfold acquire, acq.
  erewrite bind_ok by (by apply settled_push_off).
  erewrite bind_ok by (apply run_holding; by rewrite ?push_st_locks). cbn [lk_locked truth negb andb Z.eqb].
  erewrite bind_ok by (apply run_get_lock; by rewrite ?push_st_locks). cbn [lk_locked truth negb Z.eqb].
  unfold put_lock. rewrite bind_modify. erewrite bind_ok by apply run_mycpu.
  erewrite bind_ok by (apply run_get_lock; apply lookup_insert_eq). rewrite run_modify. f_equal.
  simpl. rewrite ?push_st_locks, ?push_st_tp, insert_insert_eq.
  assert (alter (fun l => mkSpinlock 1 (lk_name l) (Some (k_tp s))) lk (k_locks s)
    = <[lk := mkSpinlock 1 name (Some (k_tp s))]> (k_locks s)) as ->.
  { apply map_eq. intros i. rewrite lookup_alter, lookup_insert.
    case_decide; [subst; by rewrite Hl|done]. }
  by destruct (push_st s).
Qed.

Lemma release_acq lk s : settled s -> lock_free lk s -> release lk (acq lk s) = Ok tt s.
Proof.
  intros Hs [name Hl].
  assert (HL : k_locks (acq lk s) !! lk = Some (mkSpinlock 1 name (Some (k_tp s)))).
  { simpl. rewrite lookup_alter_eq, Hl. done. }
  unfold release. erewrite bind_ok by (by apply run_holding).
  assert (Ht : k_tp (acq lk s) = k_tp s) by (simpl; apply push_st_tp).
  rewrite Ht. cbn [lk_locked lk_cpu]. rewrite bool_decide_true by done. cbn [truth negb andb Z.eqb].
  erewrite bind_ok by (by apply run_get_lock). unfold put_lock. rewrite bind_modify.
  erewrite bind_ok by (apply run_get_lock; apply lookup_insert_eq). rewrite bind_modify. simpl.
  match goal with |- pop_off ?st = _ => assert (st = push_st s) as -> end; [|by apply pop_off_push].
  rewrite insert_insert_eq.
  assert (<[lk := mkSpinlock 0 name None]>
    (alter (fun l => mkSpinlock 1 (lk_name l) (Some (k_tp s))) lk (k_locks s)) = k_locks s) as HE.
  { apply map_eq. intros i. rewrite lookup_insert, lookup_alter.
    case_decide; [by subst|done]. }
  unfold set_lk_locked, set_lk_cpu. simpl. rewrite HE.
  transitivity (set_k_locks (k_locks s) (push_st s)); [done|].
  rewrite <- (push_st_locks s). apply set_k_locks_self.
Qed.

Lemma settled_acq lk s : settled s -> settled (acq lk s).
Proof. intros H. exact (settled_push s H). Qed.

Lemma lock_free_acq lk lk' s : lk <> lk' -> lock_free lk' s -> lock_free lk' (acq lk s).
Proof. intros Hne [n H]. exists n. simpl. by rewrite lookup_alter_ne. Qed.

(** Inside a critical section the rest of the state is untouched, and updates
    of it commute with taking the lock. *)
Section AcqCommute.
Context (lk : lockid) (s : kstate).

Lemma acq_k_sleeplocks : k_sleeplocks (acq lk s) = k_sleeplocks s.
Proof. done. Qed.
Lemma acq_set_k_sleeplocks v : set_k_sleeplocks v (acq lk s) = acq lk (set_k_sleeplocks v s).
Proof. done. Qed.
Lemma acq_k_proc : k_proc (acq lk s) = k_proc s.
Proof. done. Qed.
Lemma acq_set_k_proc v : set_k_proc v (acq lk s) = acq lk (set_k_proc v s).
Proof. done. Qed.
Lemma acq_k_initproc : k_initproc (acq lk s) = k_initproc s.
Proof. done. Qed.
Lemma acq_set_k_initproc v : set_k_initproc v (acq lk s) = acq lk (set_k_initproc v s).
Proof. done. Qed.
Lemma acq_k_nextpid : k_nextpid (acq lk s) = k_nextpid s.
Proof. done. Qed.
Lemma acq_set_k_nextpid v : set_k_nextpid v (acq lk s) = acq lk (set_k_nextpid v s).
Proof. done. Qed.
Lemma acq_k_ticks : k_ticks (acq lk s) = k_ticks s.
Proof. done. Qed.
Lemma acq_set_k_ticks v : set_k_ticks v (acq lk s) = acq lk (set_k_ticks v s).
Proof. done. Qed.
Lemma acq_k_mem : k_mem (acq lk s) = k_mem s.
Proof. done. Qed.
Lemma acq_set_k_mem v : set_k_mem v (acq lk s) = acq lk (set_k_mem v s).
Proof. done. Qed.
Lemma acq_k_freelist : k_freelist (acq lk s) = k_freelist s.
Proof. done. Qed.
Lemma acq_set_k_freelist v : set_k_freelist v (acq lk s) = acq lk (set_k_freelist v s).
Proof. done. Qed.
Lemma acq_k_kpagetable : k_kpagetable (acq lk s) = k_kpagetable s.
Proof. done. Qed.
Lemma acq_set_k_kpagetable v : set_k_kpagetable v (acq lk s) = acq lk (set_k_kpagetable v s).
Proof. done. Qed.
Lemma acq_k_bcache : k_bcache (acq lk s) = k_bcache s.
Proof. done. Qed.
Lemma acq_set_k_bcache v : set_k_bcache v (acq lk s) = acq lk (set_k_bcache v s).
Proof. done. Qed.
Lemma acq_k_disk : k_disk (acq lk s) = k_disk s.
Proof. done. Qed.
Lemma acq_set_k_disk v : set_k_disk v (acq lk s) = acq lk (set_k_disk v s).
Proof. done. Qed.
Lemma acq_k_log : k_log (acq lk s) = k_log s.
Proof. done. Qed.
Lemma acq_set_k_log v : set_k_log v (acq lk s) = acq lk (set_k_log v s).
Proof. done. Qed.
Lemma acq_k_sb : k_sb (acq lk s) = k_sb s.
Proof. done. Qed.
Lemma acq_set_k_sb v : set_k_sb v (acq lk s) = acq lk (set_k_sb v s).
Proof. done. Qed.
Lemma acq_k_itable : k_itable (acq lk s) = k_itable s.
Proof. done. Qed.
Lemma acq_set_k_itable v : set_k_itable v (acq lk s) = acq lk (set_k_itable v s).
Proof. done. Qed.
Lemma acq_k_ftable : k_ftable (acq lk s) = k_ftable s.
Proof. done. Qed.
Lemma acq_set_k_ftable v : set_k_ftable v (acq lk s) = acq lk (set_k_ftable v s).
Proof. done. Qed.
Lemma acq_k_pipes : k_pipes (acq lk s) = k_pipes s.
Proof. done. Qed.
Lemma acq_set_k_pipes v : set_k_pipes v (acq lk s) = acq lk (set_k_pipes v s).
Proof. done. Qed.
Lemma acq_k_cons : k_cons (acq lk s) = k_cons s.
Proof. done. Qed.
Lemma acq_set_k_cons v : set_k_cons v (acq lk s) = acq lk (set_k_cons v s).
Proof. done. Qed.
Lemma acq_k_uart : k_uart (acq lk s) = k_uart s.
Proof. done. Qed.
Lemma acq_set_k_uart v : set_k_uart v (acq lk s) = acq lk (set_k_uart v s).
Proof. done. Qed.
Lemma acq_k_panicked : k_panicked (acq lk s) = k_panicked s.
Proof. done. Qed.
Lemma acq_set_k_panicked v : set_k_panicked v (acq lk s) = acq lk (set_k_panicked v s).
Proof. done. Qed.
Lemma acq_k_pr_locking : k_pr_locking (acq lk s) = k_pr_locking s.
Proof. done. Qed.
Lemma acq_set_k_pr_locking v : set_k_pr_locking v (acq lk s) = acq lk (set_k_pr_locking v s).
Proof. done. Qed.
Lemma acq_k_forkret_first : k_forkret_first (acq lk s) = k_forkret_first s.
Proof. done. Qed.
Lemma acq_set_k_forkret_first v : set_k_forkret_first v (acq lk s) = acq lk (set_k_forkret_first v s).
Proof. done. Qed.
Lemma acq_k_vdisk : k_vdisk (acq lk s) = k_vdisk s.
Proof. done. Qed.
Lemma acq_set_k_vdisk v : set_k_vdisk v (acq lk s) = acq lk (set_k_vdisk v s).
Proof. done. Qed.
Lemma acq_k_devsw : k_devsw (acq lk s) = k_devsw s.
Proof. done. Qed.
Lemma acq_set_k_devsw v : set_k_devsw v (acq lk s) = acq lk (set_k_devsw v s).
Proof. done. Qed.
Lemma acq_k_started : k_started (acq lk s) = k_started s.
Proof. done. Qed.
Lemma acq_set_k_started v : set_k_started v (acq lk s) = acq lk (set_k_started v s).
Proof. done. Qed.
Lemma acq_k_mmio : k_mmio (acq lk s) = k_mmio s.
Proof. done. Qed.
Lemma acq_set_k_mmio v : set_k_mmio v (acq lk s) = acq lk (set_k_mmio v s).
Proof. done. Qed.
Lemma acq_k_tp : k_tp (acq lk s) = k_tp s.
Proof. done. Qed.

End AcqCommute.

Create HintDb acq.
#[export] Hint Rewrite acq_k_tp acq_k_sleeplocks acq_set_k_sleeplocks acq_k_proc acq_set_k_proc
  acq_k_initproc acq_set_k_initproc acq_k_nextpid acq_set_k_nextpid acq_k_ticks acq_set_k_ticks
  acq_k_mem acq_set_k_mem acq_k_freelist acq_set_k_freelist acq_k_kpagetable
  acq_set_k_kpagetable acq_k_bcache acq_set_k_bcache acq_k_disk acq_set_k_disk acq_k_log
  acq_set_k_log acq_k_sb acq_set_k_sb acq_k_itable acq_set_k_itable acq_k_ftable
  acq_set_k_ftable acq_k_pipes acq_set_k_pipes acq_k_cons acq_set_k_cons acq_k_uart
  acq_set_k_uart acq_k_panicked acq_set_k_panicked acq_k_pr_locking acq_set_k_pr_locking
  acq_k_forkret_first acq_set_k_forkret_first acq_k_vdisk acq_set_k_vdisk acq_k_devsw
  acq_set_k_devsw acq_k_started acq_set_k_started acq_k_mmio acq_set_k_mmio : acq.

(** A lock the CPU already holds: [acquire] panics. *)
Lemma acquire_again lk s : settled s -> lock_free lk s -> acquire lk (acq lk s) = Fail (Panic "acquire").
Proof.
  intros Hs [name Hl]. unfold acquire.
  erewrite bind_ok by (apply settled_push_off; by apply settled_acq).
  erewrite bind_ok; last first.
  { apply run_holding. rewrite ?push_st_locks. simpl. rewrite lookup_alter_eq, Hl. done. }
  cbn [lk_locked lk_cpu]. rewrite ?push_st_tp. simpl. rewrite ?push_st_tp, bool_decide_true by done. done.
Qed.

(** A lock a CPU holds: [acquire] panics on that CPU and spins, with
    interrupts off, on another one. *)
Lemma acquire_held lk s i :
  settled s -> holds i lk s ->
  acquire lk s = Fail (if bool_decide (k_tp s = i) then Panic "acquire" else Spins lk (push_st s)).
Proof.
  intros Hs (l & Hl & Hlk & Hc). unfold acquire.
  erewrite bind_ok by (by apply settled_push_off).
  erewrite bind_ok by (apply run_holding; by rewrite ?push_st_locks).
  rewrite Hc, ?push_st_tp, Hlk. cbn [andb]. case_bool_decide as E; case_bool_decide; try congruence; [done|].
  erewrite bind_ok by (apply run_get_lock; by rewrite ?push_st_locks). by rewrite Hlk.
Qed.

(** [myproc] of [proc.c] is a [push_off]/[pop_off] pair; see [Sched]. *)
Lemma push_pop s : settled s -> (push_off;; pop_off) s = Ok tt s.
Proof.
  intros H. erewrite bind_ok by (by apply settled_push_off). by apply pop_off_push.
Qed.

(** ** Several CPUs *)

Lemma push_off_inv s a s' :
  push_off s = Ok a s' ->
  exists h c, lookupZ (k_harts s) (k_tp s) = Some h /\ lookupZ (k_cpus s) (k_tp s) = Some c /\
    s' = push_st s.
Proof.
  intros H. destruct (lookupZ (k_harts s) (k_tp s)) as [h|] eqn:Hh.
  - destruct (lookupZ (k_cpus s) (k_tp s)) as [c|] eqn:Hc.
    + exists h, c. split_and!; [done..|]. erewrite push_off_ok in H by done. by inversion H.
    + exfalso. unfold push_off in H. erewrite bind_ok in H by (by eapply run_intr_get).
      erewrite bind_ok in H by (by eapply run_intr_off).
      erewrite bind_ok in H by apply run_mycpu. simpl in H. unfold get_cpu in H. minv. simpl in *. congruence.
  - exfalso. unfold push_off, intr_get, r_sstatus, r_tp, get_hart in H. minv. congruence.
Qed.

Lemma holding_inv lk s b s' :
  holding lk s = Ok b s' -> exists l, k_locks s !! lk = Some l /\ s' = s /\
    b = truth (lk_locked l) && bool_decide (lk_cpu l = Some (k_tp s)).
Proof. unfold holding, get_lock, mycpu, cpuid, r_tp. intros H. minv. eauto. Qed.

(** A successful [acquire] found the lock free. *)
Lemma acquire_inv lk s a s' :
  acquire lk s = Ok a s' -> exists l h c, k_locks s !! lk = Some l /\ truth (lk_locked l) = false /\
    lookupZ (k_harts s) (k_tp s) = Some h /\ lookupZ (k_cpus s) (k_tp s) = Some c /\
    s' = set_k_locks (<[lk := mkSpinlock 1 (lk_name l) (Some (k_tp s))]> (k_locks s)) (push_st s).
Proof.
  unfold acquire. intros H. apply bind_ok_inv in H as (? & s1 & H1 & H).
  apply push_off_inv in H1 as (h & c & Hh & Hc & ->).
  apply bind_ok_inv in H as (b & s2 & H1 & H). apply holding_inv in H1 as (l & Hl & -> & ->).
  rewrite ?push_st_locks in Hl.
  destruct (truth (lk_locked l) && _); [by minv|].
  unfold get_lock, mycpu, cpuid, r_tp, put_lock in H. minv.
  simplify_eq. rewrite ?push_st_locks in *. simplify_eq.
  destruct (truth (lk_locked l)) eqn:E; [by minv|]. minv.
  exists l, h, c. split_and!; [done..|]. simpl in *.
  rewrite lookup_insert_eq in *. simplify_eq. simpl.
  rewrite ?push_st_tp, ?push_st_locks, insert_insert_eq. done.
Qed.

Lemma intr_on_inv s a s' :
  intr_on s = Ok a s' -> exists h, lookupZ (k_harts s) (k_tp s) = Some h /\
    s' = set_k_harts (insertZ (k_tp s) (set_h_sstatus (Z.lor (h_sstatus h) SSTATUS_SIE) h) (k_harts s)) s.
Proof.
  intros H. destruct (lookupZ (k_harts s) (k_tp s)) as [h|] eqn:Hh.
  - exists h. erewrite run_intr_on in H by done. by simplify_eq.
  - exfalso. unfold intr_on, r_sstatus, r_tp, get_hart in H. minv. congruence.
Qed.

Lemma intr_off_inv s a s' :
  intr_off s = Ok a s' -> exists h, lookupZ (k_harts s) (k_tp s) = Some h /\
    s' = set_k_harts (insertZ (k_tp s) (push_hart h) (k_harts s)) s.
Proof.
  intros H. destruct (lookupZ (k_harts s) (k_tp s)) as [h|] eqn:Hh.
  - exists h. erewrite run_intr_off in H by done. by simplify_eq.
  - exfalso. unfold intr_off, r_sstatus, r_tp, get_hart in H. minv. congruence.
Qed.

(** What [pop_off] did to the CPU record and to the hart. *)
Lemma pop_off_inv s a s' :
  pop_off s = Ok a s' -> exists h h' c, lookupZ (k_harts s) (k_tp s) = Some h /\
    lookupZ (k_cpus s) (k_tp s) = Some c /\ 1 <= cpu_noff c /\ intr_enabled h = false /\
    k_locks s' = k_locks s /\ k_cpus s' = insertZ (k_tp s) (set_cpu_noff (cpu_noff c - 1) c) (k_cpus s) /\
    k_harts s' = insertZ (k_tp s) h' (k_harts s) /\ (1 < cpu_noff c -> h' = h).
Proof.
  intros H. unfold pop_off in H. apply bind_ok_inv in H as (? & ? & E & H).
  rewrite run_mycpu in E. injection E as <- <-. apply bind_ok_inv in H as (i & s1 & E & H).
  destruct (lookupZ (k_harts s) (k_tp s)) as [h|] eqn:Hh; last first.
  { unfold intr_get, r_sstatus, r_tp, get_hart in E. minv. congruence. }
  erewrite run_intr_get in E by done. injection E as <- <-.
  destruct (intr_enabled h) eqn:Ei; [by minv|]. cbn [truth negb Z.eqb] in H.
  apply bind_ok_inv in H as (c & s2 & E & H). unfold get_cpu in E. minv.
  zcase (cpu_noff c <? 1). unfold put_cpu, get_cpu in H. minv. simpl in *. rewrite lookupZ_insertZ_eq in * by (by eapply lookupZ_Some_range). simplify_eq. simpl in *.
  zcase (cpu_noff c - 1 =? 0); cbn [andb] in *; [destruct (truth _)|]; cbn [when] in H.
  - apply intr_on_inv in H as (h2 & Hh2 & ->). simpl in *.
    eexists _, _, c. split_and!; try done. lia.
  - minv. exists h, h, c. split_and!; try done. simpl. by rewrite insertZ_id.
  - minv. exists h, h, c. split_and!; try done. simpl. by rewrite insertZ_id.
Qed.

(** A successful [release] was called by the CPU that held the lock. *)
Lemma release_inv lk s a s' :
  release lk s = Ok a s' -> exists l h h' c, k_locks s !! lk = Some l /\
    truth (lk_locked l) = true /\ lk_cpu l = Some (k_tp s) /\
    k_locks s' = <[lk := mkSpinlock 0 (lk_name l) None]> (k_locks s) /\
    lookupZ (k_harts s) (k_tp s) = Some h /\ lookupZ (k_cpus s) (k_tp s) = Some c /\
    intr_enabled h = false /\
    k_cpus s' = insertZ (k_tp s) (set_cpu_noff (cpu_noff c - 1) c) (k_cpus s) /\
    k_harts s' = insertZ (k_tp s) h' (k_harts s) /\ (1 < cpu_noff c -> h' = h).
Proof.
  unfold release. intros H. apply bind_ok_inv in H as (b & s1 & E & H).
  apply holding_inv in E as (l & Hl & -> & ->).
  destruct (truth (lk_locked l)) eqn:El; [|by minv].
  case_bool_decide as Ec; [|by minv]. cbn [andb negb] in H.
  unfold get_lock, put_lock in H. minv.
  apply pop_off_inv in H as (h & h' & c & Hh & Hc & _ & Hi & HL & HC & HH & Hm). simpl in *.
  rewrite lookup_insert_eq in *. simplify_eq. exists l, h, h', c. split_and!; try done.
  rewrite HL. simpl. by rewrite insert_insert_eq.
Qed.

Lemma insert_held_by i lk l s :
  lk_cpu l <> Some i -> (forall l0, k_locks s !! lk = Some l0 -> lk_cpu l0 <> Some i) ->
  filter (fun kv => lk_cpu (snd kv) = Some i) (<[lk := l]> (k_locks s)) = held_by i s.
Proof.
  intros Hl H0. unfold held_by. rewrite map_filter_insert_False by done.
  apply map_eq. intros j. rewrite !map_lookup_filter.
  destruct (decide (j = lk)) as [->|Hj].
  - rewrite lookup_delete_eq. simpl. destruct (k_locks s !! lk) eqn:E; [|done]. simpl.
    rewrite option_guard_False; [done|]. by apply H0.
  - by rewrite lookup_delete_ne.
Qed.

Lemma size_held_insert i lk l s :
  lk_cpu l = Some i -> (forall l0, k_locks s !! lk = Some l0 -> lk_cpu l0 <> Some i) ->
  size (filter (fun kv => lk_cpu (snd kv) = Some i) (<[lk := l]> (k_locks s)))
    = S (size (held_by i s)).
Proof.
  intros Hl H0. unfold held_by. rewrite map_filter_insert_True by done.
  apply map_size_insert_None. rewrite map_lookup_filter.
  destruct (k_locks s !! lk) eqn:E; [|done]. simpl. rewrite option_guard_False; [done|]. by apply H0.
Qed.

Lemma size_held_delete i lk l0 l s :
  lk_cpu l <> Some i -> k_locks s !! lk = Some l0 -> lk_cpu l0 = Some i ->
  S (size (filter (fun kv => lk_cpu (snd kv) = Some i) (<[lk := l]> (k_locks s))))
    = size (held_by i s).
Proof.
  intros Hl H0 Hc. unfold held_by. rewrite map_filter_insert_False, map_filter_delete by done.
  assert (Hin : filter (fun kv => lk_cpu (snd kv) = Some i) (k_locks s) !! lk = Some l0).
  { rewrite map_lookup_filter, H0. simpl. by rewrite option_guard_True. }
  rewrite map_size_delete_Some by eauto. pose proof (map_size_ne_0_lookup_2 _ lk ltac:(eauto)). lia.
Qed.

Lemma run_OpIntrOn_inv s a s' :
  run_op OpIntrOn s = Ok a s' -> exists c h, lookupZ (k_cpus s) (k_tp s) = Some c /\ cpu_noff c = 0 /\
    lookupZ (k_harts s) (k_tp s) = Some h /\
    s' = set_k_harts (insertZ (k_tp s) (set_h_sstatus (Z.lor (h_sstatus h) SSTATUS_SIE) h) (k_harts s)) s.
Proof.
  unfold run_op. intros H. apply bind_ok_inv in H as (? & ? & E & H).
  rewrite run_mycpu in E. injection E as <- <-. apply bind_ok_inv in H as (c & ? & E & H).
  unfold get_cpu in E. minv. zcase (cpu_noff c =? 0). apply intr_on_inv in H as (h & Hh & ->). eauto 6.
Qed.

(** Every step of a CPU keeps [locks_inv]. *)
Lemma acquire_inv_locks i lk s s' :
  locks_inv s -> acquire lk (set_k_tp i s) = Ok tt s' -> locks_inv s'.
Proof.
  intros [Hwf Hinv] H. apply acquire_inv in H as (l & h & c & Hl & Hf & Hh & Hc & ->). simpl in *.
  assert (Hfree : lk_cpu l = None).
  { destruct (Hwf _ _ Hl) as [[_ ?]|[E _]]; [done|]. rewrite E in Hf. done. }
  split.
  - simpl. apply map_Forall_insert_2; [|done]. right. simpl. eauto.
  - intros j c' h'. simpl. unfold push_st. simpl. rewrite Hh, Hc. simpl. intros Hc' Hh'.
    pose proof (lookupZ_Some_range _ _ _ Hc). pose proof (lookupZ_Some_range _ _ _ Hh).
    unfold held_by. simpl. destruct (decide (j = i)) as [->|Hj].
    + rewrite lookupZ_insertZ_eq in Hc' by done. rewrite lookupZ_insertZ_eq in Hh' by done. simplify_eq.
      destruct (Hinv _ _ _ Hc Hh) as [Hn Hi]. rewrite size_held_insert by (done || congruence).
      split; [simpl; lia|]. intros _. unfold intr_enabled. rewrite land_SIE. apply intr_enabled_off.
    + rewrite lookupZ_insertZ_ne in Hc' by done. rewrite lookupZ_insertZ_ne in Hh' by done.
      rewrite insert_held_by; [by apply Hinv| |]; simpl; congruence.
Qed.

Lemma release_inv_locks i lk s s' :
  locks_inv s -> release lk (set_k_tp i s) = Ok tt s' -> locks_inv s'.
Proof.
  intros [Hwf Hinv] H.
  apply release_inv in H as (l & h & h' & c & Hl & Hf & Hlc & HL & Hh & Hc & Hie & HC & HH & Hm). simpl in *.
  pose proof (lookupZ_Some_range _ _ _ Hc). pose proof (lookupZ_Some_range _ _ _ Hh).
  split.
  - rewrite HL. apply map_Forall_insert_2; [|done]. by left.
  - intros j c2 h2. rewrite HC, HH. intros Hc2 Hh2. unfold held_by. rewrite HL.
    destruct (decide (j = i)) as [->|Hj].
    + rewrite lookupZ_insertZ_eq in Hc2 by done. rewrite lookupZ_insertZ_eq in Hh2 by done. simplify_eq.
      destruct (Hinv _ _ _ Hc Hh) as [Hn Hi].
      pose proof (size_held_delete i lk l (mkSpinlock 0 (lk_name l) None) s ltac:(done) Hl Hlc).
      split; [simpl; lia|]. simpl. intros ?. by rewrite Hm by lia.
    + rewrite lookupZ_insertZ_ne in Hc2 by done. rewrite lookupZ_insertZ_ne in Hh2 by done.
      rewrite insert_held_by; [by apply Hinv|done|]. simpl. congruence.
Qed.

Lemma intr_inv_locks i s h' c :
  locks_inv s -> lookupZ (k_cpus s) i = Some c -> (0 < cpu_noff c -> intr_enabled h' = false) ->
  locks_inv (set_k_harts (insertZ i h' (k_harts s)) (set_k_tp i s)).
Proof.
  intros [Hwf Hinv] Hc Hi. split; [done|]. intros j c2 h2. simpl. intros Hc2 Hh2.
  change (held_by j _) with (held_by j s).
  destruct (decide (j = i)) as [->|Hj].
  - pose proof (lookupZ_Some_range _ _ _ Hh2) as Hr. rewrite lenZ_insertZ in Hr.
    destruct (lookupZ_is_Some _ _ Hr) as [h Hh]. rewrite lookupZ_insertZ_eq in Hh2 by done.
    simplify_eq. split; [by destruct (Hinv _ _ _ Hc Hh)|done].
  - rewrite lookupZ_insertZ_ne in Hh2 by done. by apply Hinv.
Qed.

Lemma lock_step_inv s e s' : locks_inv s -> lock_step s e s' -> locks_inv s'.
Proof.
  intros Hinv [i [lk|lk| |] s2 H].
  - by eapply acquire_inv_locks.
  - by eapply release_inv_locks.
  - apply run_OpIntrOn_inv in H as (c & h & Hc & Hn & Hh & ->). simpl in *.
    eapply intr_inv_locks; [done|done|]. lia.
  - apply intr_off_inv in H as (h & Hh & ->). simpl in *.
    destruct (lookupZ (k_cpus s) i) as [c|] eqn:Hc.
    + eapply intr_inv_locks; [done|done|]. intros _. unfold intr_enabled.
      rewrite land_SIE. apply intr_enabled_off.
    + destruct Hinv as [Hwf Hinv]. split; [done|]. intros j c2 h2. simpl. intros Hc2 Hh2.
      change (held_by j _) with (held_by j s). rewrite lookupZ_insertZ_ne in Hh2 by congruence.
      by apply Hinv.
Qed.

Lemma lock_trace_inv s es s' : locks_inv s -> lock_trace s es s' -> locks_inv s'.
Proof. intros H. induction 1; eauto using lock_step_inv. Qed.

Lemma holds_step i lk s e s' :
  holds i lk s -> lock_step s e s' -> e <> (i, OpRelease lk) ->
  holds i lk s' /\ forall j, e <> (j, OpAcquire lk).
Proof.
  intros (l & Hl & Hk & Hc) [j o s2 H] Hne.
  assert (Hkeep : k_locks s2 !! lk = k_locks s !! lk -> holds i lk s2) by (intros E; exists l; by rewrite E).
  destruct o as [lk2|lk2| |].
  - apply acquire_inv in H as (l2 & h & c & Hl2 & Hf & _ & _ & ->). simpl in *.
    assert (lk2 <> lk) by congruence. split; [|congruence]. apply Hkeep. simpl. by apply lookup_insert_ne.
  - apply release_inv in H as (l2 & h & h' & c & Hl2 & _ & Hlc & HL & _). simpl in *.
    assert (lk2 <> lk) by congruence. split; [|congruence]. apply Hkeep. rewrite HL.
    by apply lookup_insert_ne.
  - split; [|congruence]. by apply run_OpIntrOn_inv in H as (c & h & _ & _ & _ & ->); apply Hkeep.
  - split; [|congruence]. by apply intr_off_inv in H as (h & _ & ->); apply Hkeep.
Qed.

Lemma holds_trace i lk s es s' :
  holds i lk s -> lock_trace s es s' -> (i, OpRelease lk) ∉ es -> holds i lk s'.
Proof.
  intros Hh Ht. induction Ht as [s|s e s1 es s' He Ht IH]; intros Hn; [done|].
  rewrite not_elem_of_cons in Hn. destruct Hn as [Hn1 Hn2].
  apply IH; [|done]. eapply (holds_step _ _ _ _ _ Hh He). congruence.
Qed.

Lemma lock_trace_app s es1 es2 s' :
  lock_trace s (es1 ++ es2) s' -> exists s1, lock_trace s es1 s1 /\ lock_trace s1 es2 s'.
Proof.
  revert s. induction es1 as [|e es1 IH]; intros s H.
  - exists s. split; [constructor|done].
  - inversion H as [|e' s1 es s2 He Hr]; subst. destruct (IH _ Hr) as (s3 & Ha & Hb).
    exists s3. split; [by econstructor|done].
Qed.

(** Once CPU [i] has acquired a lock it holds it until it releases it. *)
Lemma acquired_holds s es i lk mid s' :
  lock_trace s (es ++ (i, OpAcquire lk) :: mid) s' -> (i, OpRelease lk) ∉ mid -> holds i lk s'.
Proof.
  intros H Hn. apply lock_trace_app in H as (s1 & _ & H).
  inversion H as [|e s2 es' s3 He Hr]; subst. inversion He as [k o s4 Ha]; subst. simpl in Ha.
  apply acquire_inv in Ha as (l & h & c & _ & _ & _ & _ & ->).
  refine (holds_trace _ _ _ _ _ _ Hr Hn). eexists. simpl. by rewrite lookup_insert_eq.
Qed.

(** C3: mutual exclusion.  In every interleaving of the CPUs' operations on
    the locks, between two completed [acquire]s of a lock there is a
    [release] of it by the CPU that acquired it first.  As long as the CPU
    that acquired the lock has not released it, it is the holder; an
    [acquire] by another CPU then spins, in a state in which the lock still
    has its holder, and one by the holder itself panics. *)
Theorem spinlock_mutual_exclusion s s' i lk pre mid :
  lock_trace s (pre ++ (i, OpAcquire lk) :: mid) s' ->
  (forall j m post, mid = m ++ (j, OpAcquire lk) :: post -> (i, OpRelease lk) ∈ m) /\
  ((i, OpRelease lk) ∉ mid -> holds i lk s' /\
    forall j, settled (set_k_tp j s') ->
      (j = i -> acquire lk (set_k_tp j s') = Fail (Panic "acquire")) /\
      (j <> i -> exists s1, acquire lk (set_k_tp j s') = Fail (Spins lk s1) /\ holds i lk s1)).
Proof.
  intros H. split.
  - intros j m post ->. destruct (decide ((i, OpRelease lk) ∈ m)) as [|Hn]; [done|]. exfalso.
    rewrite app_comm_cons, app_assoc in H. apply lock_trace_app in H as (s1 & H1 & H2).
    pose proof (acquired_holds _ _ _ _ _ _ H1 Hn) as Hh.
    inversion H2 as [|e s2 es s3 He _]; subst.
    assert (Hj : (j, OpAcquire lk) <> (i, OpRelease lk)) by congruence.
    destruct (holds_step _ _ _ _ _ Hh He Hj) as [_ Hc]. by eapply Hc.
  - intros Hn. pose proof (acquired_holds _ _ _ _ _ _ H Hn) as Hh. split; [done|]. intros j Hs.
    rewrite (acquire_held lk (set_k_tp j s') i Hs Hh). simpl. split; intros E.
    + by rewrite bool_decide_true.
    + rewrite bool_decide_false by done. eexists. split; [done|]. exact Hh.
Qed.

(** C37: in every state the CPUs reach from one that satisfies [locks_inv], a
    CPU that holds a lock has interrupts disabled, so no interrupt handler on
    it can try to take the lock; and its [release] of that lock succeeds. *)
Theorem spinlock_interrupts_off s es s' i lk h c :
  locks_inv s -> lock_trace s es s' -> holds i lk s' ->
  lookupZ (k_harts s') i = Some h -> lookupZ (k_cpus s') i = Some c ->
  intr_enabled h = false /\ exists s2, release lk (set_k_tp i s') = Ok tt s2.
Proof.
  intros Hinv Ht (l & Hl & Hk & Hlc) Hh Hc.
  destruct (lock_trace_inv _ _ _ Hinv Ht) as [Hwf Hall].
  destruct (Hall _ _ _ Hc Hh) as [Hn Hi].
  assert (Hpos : (0 < size (held_by i s'))%nat).
  { apply Nat.neq_0_lt_0. apply (map_size_ne_0_lookup_2 _ lk). exists l.
    unfold held_by. rewrite map_lookup_filter, Hl. simpl. by rewrite option_guard_True. }
  assert (Hoff : intr_enabled h = false) by (apply Hi; lia). split; [done|].
  pose proof (lookupZ_Some_range _ _ _ Hc). unfold release.
  erewrite bind_ok by (apply run_holding; exact Hl). rewrite Hk. cbn [andb].
  rewrite bool_decide_true by done. cbn [negb].
  erewrite bind_ok by (apply run_get_lock; exact Hl). unfold put_lock. rewrite bind_modify.
  erewrite bind_ok by (apply run_get_lock; apply lookup_insert_eq). rewrite bind_modify.
  unfold pop_off. erewrite bind_ok by apply run_mycpu.
  erewrite bind_ok by (eapply run_intr_get; exact Hh). rewrite Hoff. cbn [truth negb Z.eqb].
  erewrite bind_ok by (apply run_get_cpu; exact Hc). zcase (cpu_noff c <? 1).
  unfold put_cpu. rewrite bind_modify.
  erewrite bind_ok by (apply run_get_cpu; simpl; by apply lookupZ_insertZ_eq).
  destruct (_ && _); cbn [when]; [|eauto using run_ret]. erewrite run_intr_on by exact Hh. eauto.
Qed.

(** a critical section is transparent.  From a settled CPU, taking a free
    lock and releasing it again restores the whole state (nesting depth,
    saved interrupt flag and interrupt enable included), and inside it the
    lock is held by the CPU, acquiring it again panics and every other lock
    is still free. *)
Theorem spinlock_critical_section lk s :
  settled s -> lock_free lk s ->
  acquire lk s = Ok tt (acq lk s) /\ release lk (acq lk s) = Ok tt s /\
  holds (k_tp s) lk (acq lk s) /\ settled (acq lk s) /\
  acquire lk (acq lk s) = Fail (Panic "acquire") /\
  forall lk', lk' <> lk -> lock_free lk' s -> lock_free lk' (acq lk s).
Proof.
  intros Hs Hf. split_and!; eauto using acquire_ok, release_acq, settled_acq, acquire_again.
  - destruct Hf as [n Hn]. eexists. simpl. rewrite lookup_alter_eq, Hn. simpl. done.
  - intros lk' Hne Hf'. by apply lock_free_acq.
Qed.

(** Witnesses: two CPUs of the booted kernel take turns on [kmem.lock]. *)

Lemma zero_lock_free lk : bool_decide (k_locks zero_kstate !! lk = Some (mkSpinlock 0 "lock" None)) = true ->
  lock_free lk zero_kstate.
Proof. intros H. exists "lock". by apply bool_decide_eq_true in H. Qed.

Lemma zero_locks_static lk : lk ∈ static_locks -> zero_locks !! lk = Some (mkSpinlock 0 "lock" None).
Proof.
  intros H. apply elem_of_list_to_map_1'.
  - intros y Hy. apply list_elem_of_fmap in Hy as (? & E & _). by simplify_eq.
  - apply list_elem_of_fmap. eauto.
Qed.

Lemma zero_settled i : 0 <= i < 8 -> settled (set_k_tp i zero_kstate).
Proof.
  intros Hi. exists zero_hart, zero_cpu. unfold lookupZ.
  change (k_harts _) with (replicate 8 zero_hart). change (k_cpus _) with (replicate 8 zero_cpu).
  change (k_tp _) with i. zcase (i <? 0). rewrite !lookup_replicate_2 by lia. split_and!; done.
Qed.

Lemma zero_trace : exists s', lock_trace zero_kstate
  [(0, OpAcquire L_kmem); (0, OpRelease L_kmem); (1, OpAcquire L_kmem)] s'.
Proof.
  assert (Hf : lock_free L_kmem zero_kstate) by (apply zero_lock_free; vm_compute; reflexivity).
  eexists. eapply TraceCons.
  { apply LockStep. apply (acquire_ok L_kmem (set_k_tp 0 zero_kstate)); [by apply zero_settled|exact Hf]. }
  eapply TraceCons.
  { apply LockStep. apply (release_acq L_kmem (set_k_tp 0 zero_kstate)); [by apply zero_settled|exact Hf]. }
  eapply TraceCons; [|apply TraceNil].
  apply LockStep. apply (acquire_ok L_kmem (set_k_tp 1 zero_kstate)); [by apply zero_settled|exact Hf].
Qed.

Lemma zero_trace_held : lock_trace zero_kstate [(0, OpAcquire L_kmem)] (acq L_kmem zero_kstate).
Proof.
  eapply TraceCons; [|apply TraceNil]. apply LockStep.
  apply (acquire_ok L_kmem (set_k_tp 0 zero_kstate)); [by apply zero_settled|].
  apply (zero_lock_free L_kmem). vm_compute. reflexivity.
Qed.

(** While CPU 0 holds [kmem.lock], CPU 1 spins on it; it gets it after the
    [release]. *)
Lemma spinlock_mutual_exclusion_witness :
  (0, OpRelease L_kmem) ∈ [(0, OpRelease L_kmem)] /\
  exists s1, acquire L_kmem (set_k_tp 1 (acq L_kmem zero_kstate)) = Fail (Spins L_kmem s1) /\ holds 0 L_kmem s1.
Proof.
  destruct zero_trace as [s' H]. split.
  - apply (proj1 (spinlock_mutual_exclusion zero_kstate s' 0 L_kmem []
      ([(0, OpRelease L_kmem)] ++ [(1, OpAcquire L_kmem)]) H) 1 [(0, OpRelease L_kmem)] []). reflexivity.
  - destruct (proj2 (spinlock_mutual_exclusion zero_kstate (acq L_kmem zero_kstate) 0 L_kmem [] [] zero_trace_held)) as [_ Hj].
    { apply not_elem_of_nil. }
    destruct (Hj 1) as [_ Hs]; [|by apply Hs].
    exists zero_hart, zero_cpu. vm_compute. split_and!; try reflexivity; try done; discriminate.
Defined.

Lemma zero_locks_lookup lk l : k_locks zero_kstate !! lk = Some l -> l = mkSpinlock 0 "lock" None.
Proof.
  change (k_locks zero_kstate) with zero_locks. intros H.
  apply elem_of_list_to_map_2, list_elem_of_fmap in H as (? & E & _). by simplify_eq.
Qed.

Lemma zero_locks_inv : locks_inv zero_kstate.
Proof.
  split.
  - apply map_Forall_lookup_2. intros lk l ->%zero_locks_lookup. by left.
  - intros i c h Hc Hh. unfold lookupZ in *. change (k_harts _) with (replicate 8 zero_hart) in Hh.
    change (k_cpus _) with (replicate 8 zero_cpu) in Hc.
    zcase (i <? 0). apply lookup_replicate in Hc as [-> _]. apply lookup_replicate in Hh as [-> _].
    split; [|done]. change (cpu_noff zero_cpu) with 0. unfold held_by.
    rewrite (proj2 (map_empty_filter _ _)); [done|]. intros lk l ->%zero_locks_lookup. done.
Qed.

Lemma spinlock_interrupts_off_witness :
  intr_enabled (push_hart zero_hart) = false /\
  exists s2, release L_kmem (set_k_tp 0 (acq L_kmem zero_kstate)) = Ok tt s2.
Proof.
  apply (spinlock_interrupts_off zero_kstate [(0, OpAcquire L_kmem)] (acq L_kmem zero_kstate) 0 L_kmem
    (push_hart zero_hart) (push_cpu zero_hart zero_cpu)).
  - exact zero_locks_inv.
  - exact zero_trace_held.
  - exists (mkSpinlock 1 "lock" (Some 0)). split_and!; vm_compute; reflexivity.
  - vm_compute. reflexivity.
  - vm_compute. reflexivity.
Defined.

Lemma spinlock_critical_section_witness :
  acquire L_log zero_kstate = Ok tt (acq L_log zero_kstate) /\
  release L_log (acq L_log zero_kstate) = Ok tt zero_kstate /\
  acquire L_log (acq L_log zero_kstate) = Fail (Panic "acquire").
Proof.
  destruct (spinlock_critical_section L_log zero_kstate (zero_settled 0 ltac:(lia))
    (zero_lock_free L_log ltac:(vm_compute; reflexivity)))
    as (H1 & H2 & _ & _ & H3 & _). auto.
Defined.
