(* ===== verification/Str.v ===== *)
(** * [kernel/string.c]

    The memory functions work on a byte memory; a [const char *] argument of
    the string functions is the function that reads the byte at an offset
    from it, and a function that fills a buffer returns the bytes it stores,
    first to last.  Loops run in the order of the source, so the overlap
    behaviour of [memmove] is a theorem. *)

From S2P Require Import Prelude Riscv State.

(** ** Definitions *)

(** [for (i = 0; i < n; i++) cdst[i] = c;] *)
Fixpoint memset_loop (n : nat) (m : mem) (a c : Z) : mem :=
  match n with
  | O => m
  | S n' => memset_loop n' (mput m a (u8 c)) (a + 1) c
  end.
Definition memset (m : mem) (dst c n : Z) : mem := memset_loop (Z.to_nat n) m dst c.

Fixpoint memcmp_loop (n : nat) (m : mem) (s1 s2 : Z) : Z :=
  match n with
  | O => 0
  | S n' =>
      if negb (mget m s1 =? mget m s2) then mget m s1 - mget m s2
      else memcmp_loop n' m (s1 + 1) (s2 + 1)
  end.
Definition memcmp (m : mem) (v1 v2 n : Z) : Z := memcmp_loop (Z.to_nat n) m v1 v2.

(** [while (n-- > 0) *d++ = *s++;] *)
Fixpoint copy_forward (n : nat) (m : mem) (d s : Z) : mem :=
  match n with
  | O => m
  | S n' => copy_forward n' (mput m d (mget m s)) (d + 1) (s + 1)
  end.
(** [while (n-- > 0) *--d = *--s;] *)
Fixpoint copy_backward (n : nat) (m : mem) (d s : Z) : mem :=
  match n with
  | O => m
  | S n' => copy_backward n' (mput m (d - 1) (mget m (s - 1))) (d - 1) (s - 1)
  end.
Definition memmove (m : mem) (dst src n : Z) : mem :=
  if n =? 0 then m else
  if (src <? dst) && (dst <? src + n) then copy_backward (Z.to_nat n) m (dst + n) (src + n)
  else copy_forward (Z.to_nat n) m dst src.
Definition memcpy (m : mem) (dst src n : Z) : mem := memmove m dst src n.

(** [while (n > 0 && *p && *p == *q) n--, p++, q++;] *)
Fixpoint strncmp_loop (n : nat) (p q : Z -> Z) (i : Z) : Z :=
  match n with
  | O => 0
  | S n' =>
      if truth (p i) && (p i =? q i) then strncmp_loop n' p q (i + 1) else u8 (p i) - u8 (q i)
  end.
Definition strncmp (p q : Z -> Z) (n : Z) : Z := strncmp_loop (Z.to_nat n) p q 0.

(** The bytes [strncpy] stores at [s]: [t] up to its NUL or [n] bytes, then NULs. *)
Fixpoint strncpy_loop (n : nat) (t : Z -> Z) (i : Z) : list Z :=
  match n with
  | O => []
  | S n' => t i :: (if truth (t i) then strncpy_loop n' t (i + 1) else replicate n' 0)
  end.
Definition strncpy (t : Z -> Z) (n : Z) : list Z := strncpy_loop (Z.to_nat n) t 0.

(** The bytes [safestrcpy] stores at [s]: [k] is the [n] of the loop test
    [--n > 0]; after the loop [*s = 0] stores one more byte. *)
Fixpoint safestrcpy_loop (k : nat) (t : Z -> Z) (i : Z) : list Z :=
  match k with
  | O => [0]
  | S k' => if truth (t i) then t i :: safestrcpy_loop k' t (i + 1) else [t i; 0]
  end.
Definition safestrcpy (t : Z -> Z) (n : Z) : list Z :=
  if n <=? 0 then [] else safestrcpy_loop (Z.to_nat (n - 1)) t 0.

(** [for (n = 0; s[n]; n++);] *)
Fixpoint strlen_loop (fuel : nat) (s : Z -> Z) (n : Z) : option Z :=
  match fuel with
  | O => None
  | S f => if truth (s n) then strlen_loop f s (n + 1) else Some n
  end.
Definition strlen (fuel : nat) (s : Z -> Z) : option Z := strlen_loop fuel s 0.

(** Readers: a byte list padded with NULs, and a place in memory. *)
Definition str_of (l : list Z) (i : Z) : Z := default 0 (lookupZ l i).
Definition str_at (m : mem) (a i : Z) : Z := mget m (a + i).

(** [buf[0..]] overwritten by the bytes [bs]. *)
Definition overwrite (bs buf : list Z) : list Z := bs ++ drop (length bs) buf.

(** The memory functions on physical memory. *)
Definition memset_m (dst c n : Z) : M unit :=
  modify (fun s => set_k_mem (memset (k_mem s) dst c n) s).
Definition memmove_m (dst src n : Z) : M unit :=
  modify (fun s => set_k_mem (memmove (k_mem s) dst src n) s).

(** [s] has its first NUL at [k]. *)
Definition nul_at (s : Z -> Z) (k : Z) : Prop :=
  0 <= k /\ s k = 0 /\ forall i, 0 <= i < k -> s i <> 0.

(** The strings agree on their first [n] characters (up to a common NUL). *)
Definition str_agree (p q : Z -> Z) (n : Z) : Prop :=
  forall i, 0 <= i < n -> (forall j, 0 <= j < i -> p j <> 0) -> p i = q i.

(** ** [memset] and [memcmp] *)

Lemma mget_memset_loop n m a c x :
  mget (memset_loop n m a c) x = if (a <=? x) && (x <? a + Z.of_nat n) then u8 c else mget m x.
Proof.
  revert m a. induction n as [|n IH]; intros m a; cbn [memset_loop].
  - zcase (a <=? x); zcase (x <? a + Z.of_nat 0).
  - rewrite IH. zcase (a + 1 <=? x); zcase (x <? a + 1 + Z.of_nat n); zcase (a <=? x);
      zcase (x <? a + Z.of_nat (S n)); simpl; try lia; try (rewrite mget_mput_ne by lia; done).
    assert (x = a) as -> by lia. rewrite mget_mput_eq. apply Zmod_mod.
Qed.

Lemma mget_memset m dst c n x :
  0 <= n ->
  mget (memset m dst c n) x = if (dst <=? x) && (x <? dst + n) then u8 c else mget m x.
Proof. intros. unfold memset. rewrite mget_memset_loop. by rewrite Z2Nat.id. Qed.

Lemma mget_memset_in m dst c n x : dst <= x < dst + n -> mget (memset m dst c n) x = u8 c.
Proof. intros. rewrite mget_memset by lia. zcase (dst <=? x); zcase (x <? dst + n). Qed.

Lemma mget_memset_out m dst c n x :
  0 <= n -> ~ (dst <= x < dst + n) -> mget (memset m dst c n) x = mget m x.
Proof. intros. rewrite mget_memset by lia. zcase (dst <=? x); zcase (x <? dst + n). Qed.

Lemma memcmp_loop_zero n m a b :
  memcmp_loop n m a b = 0 <-> load_bytes m a n = load_bytes m b n.
Proof.
  revert a b. induction n as [|n IH]; intros a b; cbn [memcmp_loop load_bytes]; [done|].
  zcase (mget m a =? mget m b); cbn [negb].
  - rewrite IH. split; [congruence|]. intros H. by inversion H.
  - split; [lia|]. intros H. by inversion H.
Qed.

(** ** [memmove] *)

Lemma mget_copy_forward n m d s x :
  d <= s \/ s + Z.of_nat n <= d ->
  mget (copy_forward n m d s) x =
    if (d <=? x) && (x <? d + Z.of_nat n) then mget m (s + (x - d)) else mget m x.
Proof.
  revert m d s. induction n as [|n IH]; intros m d s H; cbn [copy_forward].
  - zcase (d <=? x); zcase (x <? d + Z.of_nat 0).
  - rewrite IH by lia. zcase (d + 1 <=? x); zcase (x <? d + 1 + Z.of_nat n); zcase (d <=? x);
      zcase (x <? d + Z.of_nat (S n)); simpl; try lia; try (rewrite mget_mput_ne by lia; done).
    + rewrite mget_mput_ne by lia. f_equal. lia.
    + assert (x = d) as -> by lia. rewrite mget_mput_eq, Z.mod_small by apply mget_range.
      f_equal. lia.
Qed.

Lemma mget_copy_backward n m d s x :
  s <= d ->
  mget (copy_backward n m d s) x =
    if (d - Z.of_nat n <=? x) && (x <? d) then mget m (s + (x - d)) else mget m x.
Proof.
  revert m d s. induction n as [|n IH]; intros m d s H; cbn [copy_backward].
  - zcase (d - Z.of_nat 0 <=? x); zcase (x <? d).
  - rewrite IH by lia. zcase (d - 1 - Z.of_nat n <=? x); zcase (x <? d - 1);
      zcase (d - Z.of_nat (S n) <=? x); zcase (x <? d); simpl; try lia;
      try (rewrite mget_mput_ne by lia; done).
    + rewrite mget_mput_ne by lia. f_equal. lia.
    + assert (x = d - 1) as -> by lia. rewrite mget_mput_eq, Z.mod_small by apply mget_range.
      f_equal. lia.
Qed.

Lemma mget_memmove m dst src n x :
  0 <= n ->
  mget (memmove m dst src n) x =
    if (dst <=? x) && (x <? dst + n) then mget m (src + (x - dst)) else mget m x.
Proof.
  intros Hn. unfold memmove. zcase (n =? 0).
  - zcase (dst <=? x); zcase (x <? dst + n).
  - destruct ((src <? dst) && (dst <? src + n)) eqn:E.
    + rewrite mget_copy_backward by (zbool; lia). rewrite Z2Nat.id by lia.
      replace (dst + n - n) with dst by lia. replace (src + n + (x - (dst + n))) with (src + (x - dst)) by lia.
      done.
    + rewrite mget_copy_forward by (apply andb_false_iff in E as [?|?]; zbool; lia).
      by rewrite Z2Nat.id by lia.
Qed.

Lemma mget_memmove_in m dst src n x :
  dst <= x < dst + n -> mget (memmove m dst src n) x = mget m (src + (x - dst)).
Proof. intros. rewrite mget_memmove by lia. zcase (dst <=? x); zcase (x <? dst + n). Qed.

Lemma mget_memmove_out m dst src n x :
  0 <= n -> ~ (dst <= x < dst + n) -> mget (memmove m dst src n) x = mget m x.
Proof. intros. rewrite mget_memmove by lia. zcase (dst <=? x); zcase (x <? dst + n). Qed.

(** ** Strings *)

Lemma strncmp_loop_zero n p q i :
  (forall j, 0 <= p j < 256) -> (forall j, 0 <= q j < 256) ->
  strncmp_loop n p q i = 0 <->
  forall j, i <= j < i + Z.of_nat n -> (forall k, i <= k < j -> p k <> 0) -> p j = q j.
Proof.
  intros Hp Hq. revert i. induction n as [|n IH]; intros i; cbn [strncmp_loop]; [split; [lia|done]|].
  unfold truth. zcase (p i =? 0); cbn [negb andb].
  - rewrite !u8_small by auto. split.
    + intros H j Hj Hk. destruct (Z.eq_dec j i) as [->|]; [lia|]. exfalso. apply (Hk i); lia.
    + intros H. rewrite (H i); lia.
  - zcase (p i =? q i).
    + rewrite IH. split; intros H j Hj Hk.
      * destruct (Z.eq_dec j i) as [->|]; [done|]. apply H; [lia|]. intros k Hk'. apply Hk. lia.
      * apply H; [lia|]. intros k Hk'. destruct (Z.eq_dec k i) as [->|]; [done|]. apply Hk. lia.
    + rewrite !u8_small by auto. split; [lia|]. intros H. rewrite (H i); [lia|lia|intros; lia].
Qed.

Lemma strncmp_zero p q n :
  0 <= n -> (forall j, 0 <= p j < 256) -> (forall j, 0 <= q j < 256) ->
  strncmp p q n = 0 <-> str_agree p q n.
Proof.
  intros Hn Hp Hq. unfold strncmp, str_agree. rewrite strncmp_loop_zero by done.
  rewrite Z2Nat.id by lia. done.
Qed.

Lemma length_strncpy_loop n t i : length (strncpy_loop n t i) = n.
Proof.
  revert i. induction n as [|n IH]; intros i; cbn [strncpy_loop]; [done|].
  simpl. destruct (truth (t i)); [by rewrite IH|by rewrite length_replicate].
Qed.

(** Byte [i] of the copy is the byte of the source, or NUL past its end. *)
Lemma lookup_strncpy_loop n t i j :
  (j < n)%nat ->
  exists b, strncpy_loop n t i !! j = Some b /\
    ((forall k, i <= k < i + Z.of_nat j -> t k <> 0) -> b = t (i + Z.of_nat j)) /\
    ((exists k, i <= k < i + Z.of_nat j /\ t k = 0) -> b = 0).
Proof.
  revert i j. induction n as [|n IH]; intros i j Hj; [lia|]. cbn [strncpy_loop].
  destruct j as [|j].
  - exists (t i). split_and!; [done| |].
    + intros _. f_equal. lia.
    + intros (k & Hk & _). lia.
  - unfold truth. zcase (t i =? 0); cbn [negb].
    + exists 0. simpl. rewrite lookup_replicate_2 by lia. split_and!; [done| |done].
      intros H. exfalso. apply (H i); lia.
    + destruct (IH (i + 1) j ltac:(lia)) as (b & Hb & H1 & H2). exists b. simpl. split_and!; [done| |].
      * intros H. rewrite H1; [f_equal; lia|]. intros k Hk. apply H. lia.
      * intros (k & Hk & Hk0). apply H2. exists k. split; [|done].
        destruct (Z.eq_dec k i) as [->|]; [done|lia].
Qed.

Lemma length_safestrcpy_loop k t i : (1 <= length (safestrcpy_loop k t i) <= S k)%nat.
Proof.
  revert i. induction k as [|k IH]; intros i; cbn [safestrcpy_loop]; [simpl; lia|].
  destruct (truth (t i)); simpl; [|lia]. specialize (IH (i + 1)). lia.
Qed.

Lemma safestrcpy_loop_nul k t i : last (safestrcpy_loop k t i) = Some 0.
Proof.
  revert i. induction k as [|k IH]; intros i; cbn [safestrcpy_loop]; [done|].
  destruct (truth (t i)); [|done]. specialize (IH (i + 1)).
  destruct (safestrcpy_loop k t (i + 1)) eqn:E; [done|]. simpl in *. done.
Qed.

Lemma strlen_loop_spec fuel s n k :
  n <= k < n + Z.of_nat fuel -> s k = 0 -> (forall i, n <= i < k -> s i <> 0) ->
  strlen_loop fuel s n = Some k.
Proof.
  revert n. induction fuel as [|f IH]; intros n Hk H0 Hn; [lia|]. cbn [strlen_loop].
  unfold truth. zcase (s n =? 0); cbn [negb].
  - destruct (Z.eq_dec n k) as [->|]; [done|]. exfalso. apply (Hn n); lia.
  - apply IH; [|done|]; [|intros i Hi; apply Hn; lia].
    destruct (Z.eq_dec n k) as [->|]; [done|lia].
Qed.

Lemma strlen_spec fuel s k : nul_at s k -> k < Z.of_nat fuel -> strlen fuel s = Some k.
Proof. intros (? & ? & ?) ?. apply strlen_loop_spec; [lia|done..]. Qed.

#[global] Opaque memset memmove.

(** ** Properties *)

(** [memmove] copies correctly whether or not the regions overlap: every
    byte of the destination is the byte the source region held before the
    call, and no other byte changes. *)
Theorem memmove_correct m dst src n x :
  0 <= n ->
  mget (memmove m dst src n) x =
    if (dst <=? x) && (x <? dst + n) then mget m (src + (x - dst)) else mget m x.
Proof. apply mget_memmove. Qed.

Lemma memmove_correct_witness :
  let m := store_bytes ∅ 10 [1; 2; 3; 4] in
  load_bytes (memmove m 11 10 4) 10 5 = [1; 1; 2; 3; 4] /\
  mget (memmove m 11 10 4) 13 = mget m 12.
Proof.
  intros m. split; [vm_compute; reflexivity|].
  rewrite (memmove_correct m 11 10 4 13 ltac:(lia)). reflexivity.
Defined.

(** [safestrcpy] into a buffer of [n > 0] bytes stores at least one and at
    most [n] bytes and ends them with a NUL, and [strncpy] stores exactly [n]
    bytes: the string up to its NUL, then NULs. *)
Theorem string_copies_in_bounds t n :
  0 < n ->
  (1 <= lenZ (safestrcpy t n) <= n /\ last (safestrcpy t n) = Some 0) /\
  lenZ (strncpy t n) = n /\
  (forall j, 0 <= j < n -> (forall k, 0 <= k < j -> t k <> 0) -> lookupZ (strncpy t n) j = Some (t j)) /\
  (forall j, 0 <= j < n -> (exists k, 0 <= k < j /\ t k = 0) -> lookupZ (strncpy t n) j = Some 0).
Proof.
  intros Hn. unfold safestrcpy, strncpy, lenZ, lookupZ. zcase (n <=? 0).
  pose proof (length_safestrcpy_loop (Z.to_nat (n - 1)) t 0). rewrite length_strncpy_loop.
  split_and!; [lia|lia|apply safestrcpy_loop_nul|lia| |]; intros j Hj Hk; zcase (j <? 0);
    destruct (lookup_strncpy_loop (Z.to_nat n) t 0 (Z.to_nat j) ltac:(lia)) as (b & -> & H1 & H2);
    rewrite Z2Nat.id in * by lia; f_equal.
  - rewrite H1; [f_equal; lia|]. intros k Hk'. apply Hk. lia.
  - apply H2. done.
Qed.

Lemma string_copies_in_bounds_witness :
  let t := str_of [104; 105; 0; 7] in
  strncpy t 4 = [104; 105; 0; 0] /\ safestrcpy t 2 = [104; 0] /\ lenZ (strncpy t 4) = 4.
Proof.
  intros t. split; [reflexivity|]. split; [reflexivity|].
  exact (proj1 (proj2 (string_copies_in_bounds t 4 ltac:(lia)))).
Defined.
