(* ===== verification/Circ.v ===== *)
(** * Circular buffers

    The pipe, the console and the serial line keep their bytes in an array of
    [N] bytes, addressed by counters of [W] values that only grow and wrap
    around; [N] divides [W].  This is what they have in common: the queue of
    the bytes from the counter [r] to the counter [w]. *)

From S2P Require Import Prelude.

(** ** Definitions *)

Section Circ.
Context (N W : Z).

Definition clen (r w : Z) : Z := (w - r) mod W.
Definition cbyte (buf : list Z) (r k : Z) : Z := default 0 (lookupZ buf ((r + k) mod N)).
Definition cqueue (buf : list Z) (r w : Z) : list Z := cbyte buf r <$> rangeZ 0 (Z.to_nat (clen r w)).

(** ** Lemmas *)

Lemma rangeZ_add a n m : rangeZ a (n + m) = rangeZ a n ++ rangeZ (a + Z.of_nat n) m.
Proof. revert a. induction n as [|n IH]; intros a; cbn [rangeZ Nat.add app]; [f_equal; lia|]. rewrite IH. do 3 f_equal. lia. Qed.

Context (HN : 0 < N) (HW : N < W) (Hdiv : (N | W)).

(** The counters wrap at a multiple of the buffer size. *)
Lemma wrap_slot x : (x mod W) mod N = x mod N.
Proof. by apply Z.mod_mod_divide. Qed.

Lemma clen_range r w : 0 <= clen r w < W.
Proof. apply Z.mod_pos_bound. lia. Qed.

Lemma lenZ_cqueue buf r w : lenZ (cqueue buf r w) = clen r w.
Proof. unfold cqueue. rewrite lenZ_fmap, lenZ_rangeZ. pose proof (clen_range r w). lia. Qed.

Lemma clen_full r w : 0 <= r < W -> 0 <= w < W -> (w =? (r + N) mod W) = (clen r w =? N).
Proof.
  intros Hr Hw. apply eq_true_iff_eq. rewrite !Z.eqb_eq. unfold clen. split; intros H.
  - rewrite H, Zminus_mod_idemp_l. replace (r + N - r) with N by lia. apply Z.mod_small. lia.
  - rewrite <- (Z.mod_small w W) at 1 by done. replace w with (r + (w - r)) at 1 by lia.
    by rewrite <- Zplus_mod_idemp_r, H.
Qed.

Lemma clen_empty r w : 0 <= r < W -> 0 <= w < W -> (w =? r) = (clen r w =? 0).
Proof.
  intros Hr Hw. apply eq_true_iff_eq. rewrite !Z.eqb_eq. unfold clen. split; intros H; [rewrite H, Z.sub_diag; apply Z.mod_0_l; lia|].
  apply Z.mod_divide in H as [k Hk]; [|lia]. assert (k = 0) by nia. nia.
Qed.

Lemma clen_put r w : clen r w < N -> clen r ((w + 1) mod W) = clen r w + 1.
Proof.
  unfold clen. intros H. rewrite Zminus_mod_idemp_l. replace (w + 1 - r) with (w - r + 1) by lia.
  rewrite <- Zplus_mod_idemp_l. apply Z.mod_small. pose proof (Z.mod_pos_bound (w - r) W). lia.
Qed.

Lemma clen_get r w : 0 < clen r w -> clen ((r + 1) mod W) w = clen r w - 1.
Proof.
  unfold clen. intros H. rewrite Zminus_mod_idemp_r. replace (w - (r + 1)) with (w - r - 1) by lia.
  rewrite <- Zminus_mod_idemp_l. apply Z.mod_small. pose proof (Z.mod_pos_bound (w - r) W). lia.
Qed.

Lemma clen_unput r w : 0 < clen r w -> clen r ((w - 1) mod W) = clen r w - 1.
Proof.
  unfold clen. intros H. rewrite Zminus_mod_idemp_l. replace (w - 1 - r) with (w - r - 1) by lia.
  rewrite <- Zminus_mod_idemp_l. apply Z.mod_small. pose proof (Z.mod_pos_bound (w - r) W). lia.
Qed.

(** The slot of [w] is the one after the last byte of the queue. *)
Lemma clen_slot r w : w mod N = (r + clen r w) mod N.
Proof. rewrite <- Zplus_mod_idemp_r. unfold clen. rewrite wrap_slot, Zplus_mod_idemp_r. f_equal. lia. Qed.

Lemma slots_ne a b x : 0 <= a < b -> b - a < N -> (x + a) mod N <> (x + b) mod N.
Proof.
  intros Hab Hd E. pose proof (Z.div_mod (x + a) N ltac:(lia)). pose proof (Z.div_mod (x + b) N ltac:(lia)).
  rewrite E in *. set (d := (x + b) / N - (x + a) / N). assert (N * d = b - a) by (unfold d; lia). clearbody d. destruct (Z_le_gt_dec d 0); nia.
Qed.

Lemma cqueue_put buf r w c : lenZ buf = N -> clen r w < N -> cqueue (insertZ (w mod N) c buf) r ((w + 1) mod W) = cqueue buf r w ++ [c].
Proof.
  intros Hb Hlen. unfold cqueue. rewrite clen_put by done. pose proof (clen_range r w).
  replace (Z.to_nat (clen r w + 1)) with (S (Z.to_nat (clen r w))) by lia. rewrite rangeZ_S, fmap_app. f_equal.
  - apply fmap_rangeZ_ext. intros i Hi. unfold cbyte. rewrite lookupZ_insertZ_ne; [done|]. rewrite (clen_slot r). intros E. symmetry in E. revert E.
    apply slots_ne; lia.
  - cbn [fmap list_fmap]. f_equal. unfold cbyte. rewrite Z.add_0_l, Z2Nat.id, (clen_slot r) by lia.
    rewrite lookupZ_insertZ_eq; [done|]. rewrite Hb. apply Z.mod_pos_bound. lia.
Qed.

Lemma cqueue_get buf r w : 0 < clen r w -> cqueue buf r w = cbyte buf r 0 :: cqueue buf ((r + 1) mod W) w.
Proof.
  intros Hlen. unfold cqueue. rewrite clen_get by done. replace (Z.to_nat (clen r w)) with (S (Z.to_nat (clen r w - 1))) by lia.
  cbn [rangeZ fmap list_fmap]. f_equal. rewrite rangeZ_fmap, <- list_fmap_compose. apply fmap_rangeZ_ext. intros i Hi. unfold cbyte. simpl. do 2 f_equal.
  rewrite <- (Zplus_mod_idemp_l ((r + 1) mod W)), wrap_slot, Zplus_mod_idemp_l. f_equal. lia.
Qed.

(** The byte put last. *)
Lemma cqueue_unput buf r w : 0 < clen r w -> cqueue buf r w = cqueue buf r ((w - 1) mod W) ++ [default 0 (lookupZ buf ((w - 1) mod W mod N))].
Proof.
  intros Hlen. unfold cqueue. rewrite clen_unput by done. replace (Z.to_nat (clen r w)) with (S (Z.to_nat (clen r w - 1))) by lia.
  rewrite rangeZ_S, fmap_app. f_equal. cbn [fmap list_fmap]. do 2 f_equal. unfold cbyte. f_equal. rewrite Z.add_0_l, Z2Nat.id by lia.
  f_equal. by rewrite (clen_slot r ((w - 1) mod W)), clen_unput.
Qed.

(** Two queues one after the other. *)
Lemma clen_split r w e : clen r w + clen w e < W -> clen r e = clen r w + clen w e.
Proof.
  intros H. pose proof (clen_range r w). pose proof (clen_range w e). unfold clen in *.
  transitivity (((w - r) mod W + (e - w) mod W) mod W); [rewrite <- Zplus_mod; f_equal; lia|apply Z.mod_small; lia].
Qed.

Lemma cqueue_split buf r w e : clen r w + clen w e < W -> cqueue buf r e = cqueue buf r w ++ cqueue buf w e.
Proof.
  intros H. unfold cqueue. rewrite (clen_split r w e H). pose proof (clen_range r w). pose proof (clen_range w e). rewrite Z2Nat.inj_add, rangeZ_add, fmap_app by lia. f_equal.
  rewrite Z2Nat.id, (rangeZ_fmap (0 + clen r w)), <- list_fmap_compose by lia. apply fmap_rangeZ_ext. intros i Hi. unfold cbyte. simpl. do 2 f_equal.
  replace (r + (0 + clen r w + i)) with (r + clen r w + i) by lia. by rewrite <- Zplus_mod_idemp_l, <- clen_slot, Zplus_mod_idemp_l.
Qed.

(** A byte put behind the queue. *)
Lemma cqueue_frame buf r w e c : clen r w <= clen r e -> clen r e < N -> cqueue (insertZ (e mod N) c buf) r w = cqueue buf r w.
Proof.
  intros H1 H2. apply fmap_rangeZ_ext. intros i Hi. pose proof (clen_range r w). unfold cbyte. rewrite lookupZ_insertZ_ne; [done|]. rewrite (clen_slot r). intros E. symmetry in E. revert E.
  apply slots_ne; lia.
Qed.

Lemma cbyte_lookup buf r : lenZ buf = N -> lookupZ buf (r mod N) = Some (cbyte buf r 0).
Proof.
  intros Hb. unfold cbyte. rewrite Z.add_0_r. destruct (lookupZ_is_Some buf (r mod N)) as [b ->]; [|done]. rewrite Hb. apply Z.mod_pos_bound. lia.
Qed.

End Circ.
