(* ===== verification/Kalloc.v ===== *)
(** * The physical page allocator: [kernel/kalloc.c]

    The free list is the linked list the code threads through the first word
    of each free page of physical memory; [kfree] and [kalloc] are the C
    functions, locking and junk-filling included.  [kmem_inv fl] says that
    the list in memory is [fl], without repetition and made of whole pages
    between [end] and [PHYSTOP]. *)

From S2P Require Import Prelude Riscv State Spinlock Str.

Section Kalloc.
Context {KI : KernelImage}.

(** ** Definitions *)

Definition kfree (pa : Z) : M unit :=
  if negb (pa mod PGSIZE =? 0) || (pa <? ld_end) || (PHYSTOP <=? pa) then panic "kfree" else
  memset_m pa 1 PGSIZE;;
  acquire L_kmem;;
  fl <- gets k_freelist;;
  write64 pa fl;;
  modify (set_k_freelist pa);;
  release L_kmem.

Definition kalloc : M Z :=
  acquire L_kmem;;
  r <- gets k_freelist;;
  when (truth r) (next <- read64 r;; modify (set_k_freelist next));;
  release L_kmem;;
  when (truth r) (memset_m r 5 PGSIZE);;
  ret r.

(** [for (; p + PGSIZE <= pa_end; p += PGSIZE) kfree(p);] with fuel for the
    pages between [pa_start] and [pa_end]. *)
Definition freerange (pa_start pa_end : Z) : M unit :=
  loop (S (Z.to_nat ((pa_end - pa_start) / PGSIZE)))
    (fun p => if p + PGSIZE <=? pa_end then kfree p;; ret (inl (p + PGSIZE)) else ret (inr tt))
    (PGROUNDUP pa_start).

Definition kinit : M unit :=
  initlock L_kmem "kmem";;
  freerange ld_end PHYSTOP.

(** *** The invariant *)

(** The chain of free pages that starts at [r]. *)
Fixpoint free_chain (m : mem) (r : Z) (fl : list Z) : Prop :=
  match fl with
  | [] => r = 0
  | p :: fl' => r = p /\ free_chain m (load64 m p) fl'
  end.

(** A page the allocator manages. *)
Definition page_ok (pa : Z) : Prop := pa mod PGSIZE = 0 /\ ld_end <= pa < PHYSTOP.

Definition kmem_inv (fl : list Z) (s : kstate) : Prop :=
  free_chain (k_mem s) (k_freelist s) fl /\ NoDup fl /\ Forall page_ok fl.

(** The precondition of the functions that take [kmem.lock]. *)
Definition kmem_ready (s : kstate) : Prop := settled s /\ lock_free L_kmem s.

(** The addresses of a page. *)
Definition in_page (pa x : Z) : Prop := pa <= x < pa + PGSIZE.

(** The pages [freerange(end, PHYSTOP)] frees, in increasing order. *)
Definition all_pages : list Z :=
  (fun i => PGROUNDUP ld_end + i * PGSIZE) <$>
    rangeZ 0 (Z.to_nat ((PHYSTOP - PGROUNDUP ld_end) / PGSIZE)).

(** *** Clients of the allocator

    A client owns the pages it was given and has not returned; it calls
    [kalloc], returns one of its pages, or writes to memory inside its pages. *)
Inductive kstep : kstate * gset Z -> kstate * gset Z -> Prop :=
| KAlloc s r s' own :
    kalloc s = Ok r s' -> kstep (s, own) (s', if r =? 0 then own else {[r]} ∪ own)
| KFree s pa s' own :
    pa ∈ own -> kfree pa s = Ok tt s' -> kstep (s, own) (s', own ∖ {[pa]})
| KWrite s m own :
    (forall x, (forall pa, pa ∈ own -> ~ in_page pa x) -> mget m x = mget (k_mem s) x) ->
    kstep (s, own) (set_k_mem m s, own).

(** Every page is either free or owned by the client, and not both. *)
Definition client_inv (st : kstate * gset Z) : Prop :=
  kmem_ready (fst st) /\ exists fl, kmem_inv fl (fst st) /\
    (forall p, p ∈ fl -> p ∉ snd st) /\ (forall p, page_ok p <-> p ∈ fl \/ p ∈ snd st).

(** ** Pages *)

Lemma PHYSTOP_aligned : PHYSTOP mod PGSIZE = 0.
Proof. reflexivity. Qed.

Lemma end_nonneg : KERNBASE + PGSIZE <= ld_end.
Proof.
  pose proof ld_trampoline_base. pose proof ld_etext_eq. pose proof ld_end_etext. lia.
Qed.

Lemma page_ok_bounds pa : page_ok pa -> 0 < pa /\ pa + PGSIZE <= PHYSTOP /\ pa < 2 ^ 56.
Proof.
  intros [Hm Hr]. pose proof end_nonneg. pose proof PHYSTOP_aligned as HP.
  pose proof (Z.div_mod pa PGSIZE ltac:(lz)) as H1. rewrite Hm in H1.
  pose proof (Z.div_mod PHYSTOP PGSIZE ltac:(lz)) as H2. rewrite HP in H2.
  split_and!; try lz.
Qed.

Lemma aligned_disjoint a b :
  a mod PGSIZE = 0 -> b mod PGSIZE = 0 -> a <> b -> a + PGSIZE <= b \/ b + PGSIZE <= a.
Proof.
  intros Ha Hb Hne.
  pose proof (Z.div_mod a PGSIZE ltac:(lz)) as H1. rewrite Ha in H1.
  pose proof (Z.div_mod b PGSIZE ltac:(lz)) as H2. rewrite Hb in H2.
  assert (a / PGSIZE <> b / PGSIZE) by (intros E; rewrite E in H1; lia). lz.
Qed.

Lemma pages_disjoint a b x :
  a mod PGSIZE = 0 -> b mod PGSIZE = 0 -> a <> b -> in_page a x -> ~ in_page b x.
Proof. intros Ha Hb Hne H1 H2. destruct (aligned_disjoint a b Ha Hb Hne); unfold in_page in *; lia. Qed.

Lemma page_ok_disjoint p q x : page_ok p -> page_ok q -> p <> q -> in_page p x -> ~ in_page q x.
Proof. intros [Hp _] [Hq _]. by apply pages_disjoint. Qed.

(** ** The chain *)

Lemma free_chain_ext m m' r fl :
  (forall p, p ∈ fl -> load64 m' p = load64 m p) -> free_chain m r fl -> free_chain m' r fl.
Proof.
  revert r. induction fl as [|p fl IH]; intros r H; cbn [free_chain]; [done|].
  intros [-> Hc]. split; [done|]. rewrite H by left. apply IH; [|done].
  intros q Hq. apply H. by right.
Qed.

Lemma load64_page_ext m m' p :
  (forall x, in_page p x -> mget m' x = mget m x) -> load64 m' p = load64 m p.
Proof. intros H. apply load64_ext. intros x Hx. apply H. unfold in_page. lz. Qed.

(** Writing outside the free pages keeps the free list. *)
Lemma kmem_inv_mem fl s m :
  kmem_inv fl s -> (forall p x, p ∈ fl -> in_page p x -> mget m x = mget (k_mem s) x) ->
  kmem_inv fl (set_k_mem m s).
Proof.
  intros (Hc & Hnd & Hok) H. split_and!; [|done..]. simpl.
  eapply free_chain_ext; [|done]. intros p Hp. apply load64_page_ext. eauto.
Qed.

(** ** [kfree] and [kalloc] *)

Lemma kfree_run pa s :
  kmem_ready s -> page_ok pa ->
  kfree pa s = Ok tt (set_k_freelist pa
    (set_k_mem (store64 (memset (k_mem s) pa 1 PGSIZE) pa (k_freelist s)) s)).
Proof.
  intros [Hs Hl] [Ha Hb]. unfold kfree. rewrite Ha. cbn [Z.eqb negb orb].
  zcase (pa <? ld_end). zcase (PHYSTOP <=? pa). cbn [orb].
  unfold memset_m. rewrite bind_modify. erewrite bind_ok by (by apply acquire_ok).
  rewrite bind_gets. unfold write64. rewrite !bind_modify. autorewrite with acq.
  by rewrite release_acq.
Qed.

Lemma kalloc_run_empty s : kmem_ready s -> k_freelist s = 0 -> kalloc s = Ok 0 s.
Proof.
  intros [Hs Hl] H0. unfold kalloc. erewrite bind_ok by (by apply acquire_ok).
  rewrite bind_gets. change (k_freelist (acq L_kmem s)) with (k_freelist s). rewrite H0. cbn [truth negb Z.eqb when].
  rewrite bind_ret. erewrite bind_ok by (by apply release_acq). done.
Qed.

Lemma kalloc_run s :
  kmem_ready s -> k_freelist s <> 0 ->
  kalloc s = Ok (k_freelist s) (set_k_mem (memset (k_mem s) (k_freelist s) 5 PGSIZE)
    (set_k_freelist (load64 (k_mem s) (k_freelist s)) s)).
Proof.
  intros [Hs Hl] H0. unfold kalloc. erewrite bind_ok by (by apply acquire_ok).
  rewrite bind_gets. change (k_freelist (acq L_kmem s)) with (k_freelist s).
  assert (truth (k_freelist s) = true) as -> by (unfold truth; zcase (k_freelist s =? 0)).
  cbn [when]. erewrite bind_ok; [|unfold read64; rewrite bind_gets; apply run_modify].
  autorewrite with acq. erewrite bind_ok by (by apply release_acq). done.
Qed.

Lemma mget_kfree_page m pa v x :
  ~ in_page pa x -> mget (store64 (memset m pa 1 PGSIZE) pa v) x = mget m x.
Proof.
  unfold in_page. intros H. rewrite mget_store64_out, mget_memset_out by lz. done.
Qed.

Lemma kfree_ok pa s fl :
  kmem_ready s -> kmem_inv fl s -> page_ok pa -> pa ∉ fl ->
  exists m, kfree pa s = Ok tt (set_k_freelist pa (set_k_mem m s)) /\
    kmem_inv (pa :: fl) (set_k_freelist pa (set_k_mem m s)) /\
    forall x, ~ in_page pa x -> mget m x = mget (k_mem s) x.
Proof.
  intros Hr (Hc & Hnd & Hok) Hpa Hn. eexists. split; [by apply kfree_run|].
  split; [|intros; by apply mget_kfree_page].
  split_and!; [|by constructor|by constructor]. simpl. split; [done|].
  rewrite load64_store64. rewrite u64_small.
  - eapply free_chain_ext; [|done]. intros p Hp. rewrite Forall_forall in Hok.
    apply load64_page_ext. intros x Hx. apply mget_kfree_page.
    apply (pages_disjoint p pa); try done; [apply (Hok p Hp)|apply Hpa|congruence].
  - destruct fl as [|p fl]; cbn [free_chain] in Hc; [rewrite Hc; lia|]. destruct Hc as [-> _].
    inversion Hok as [|? ? Hp]; subst. pose proof (page_ok_bounds p Hp). lia.
Qed.

Lemma kalloc_ok s fl :
  kmem_ready s -> kmem_inv fl s ->
  match fl with
  | [] => kalloc s = Ok 0 s
  | r :: fl' =>
      exists m f, kalloc s = Ok r (set_k_mem m (set_k_freelist f s)) /\
        kmem_inv fl' (set_k_mem m (set_k_freelist f s)) /\ page_ok r /\ r ∉ fl' /\
        (forall x, in_page r x -> mget m x = 5) /\
        (forall x, ~ in_page r x -> mget m x = mget (k_mem s) x)
  end.
Proof.
  intros Hr (Hc & Hnd & Hok). destruct fl as [|r fl]; cbn [free_chain] in Hc.
  - by apply kalloc_run_empty.
  - destruct Hc as [Hf Hc]. inversion Hok as [|? ? Hp Hok']; subst. inversion Hnd as [|? ? Hn Hnd']; subst.
    pose proof (page_ok_bounds _ Hp). do 2 eexists. split; [apply kalloc_run; [done|lia]|].
    split_and!; [split_and!; [|done..]|done|done|..].
    + simpl. eapply free_chain_ext; [|done]. intros p Hpin. rewrite Forall_forall in Hok'.
      apply load64_page_ext. intros x Hx. apply mget_memset_out; [lz|].
      apply (pages_disjoint p (k_freelist s)); try done; [apply (Hok' p Hpin)|apply Hp|congruence].
    + intros x Hx. by rewrite mget_memset_in by (unfold in_page in *; lz).
    + intros x Hx. by rewrite mget_memset_out by (unfold in_page in *; lz).
Qed.

(** ** Initialisation *)

Lemma freerange_loop_ok n p pa_end s fl fuel :
  kmem_ready s -> kmem_inv fl s -> (n < fuel)%nat ->
  p mod PGSIZE = 0 -> ld_end <= p -> pa_end <= PHYSTOP ->
  p + Z.of_nat n * PGSIZE <= pa_end < p + Z.of_nat n * PGSIZE + PGSIZE ->
  (forall q, q ∈ fl -> q < p) ->
  exists m f, loop fuel
    (fun p => if p + PGSIZE <=? pa_end then kfree p;; ret (inl (p + PGSIZE)) else ret (inr tt)) p s
      = Ok tt (set_k_mem m (set_k_freelist f s)) /\
    kmem_inv (rev ((fun i => p + i * PGSIZE) <$> rangeZ 0 n) ++ fl) (set_k_mem m (set_k_freelist f s)).
Proof.
  revert p s fl fuel. induction n as [|n IH]; intros p s fl [|fuel] Hr Hi Hf Hp He Hb Hn Hlt; try lia.
  - cbn [loop]. zcase (p + PGSIZE <=? pa_end). exists (k_mem s), (k_freelist s).
    split; [by destruct s|by destruct s].
  - cbn [loop]. zcase (p + PGSIZE <=? pa_end); [|lz].
    destruct (kfree_ok p s fl) as (m & Hk & Hi2 & _); [done..|split; [done|lz]| |].
    { intros Hin. specialize (Hlt _ Hin). lia. }
    erewrite bind_ok; [|erewrite bind_ok by exact Hk; apply run_ret]. cbn beta iota.
    destruct (IH (p + PGSIZE) (set_k_freelist p (set_k_mem m s)) (p :: fl) fuel) as (m' & f & Hl & Hi3);
      try done; try lz.
    + rewrite Z.add_mod, Hp by lz. reflexivity.
    + intros q [->|Hq]%elem_of_cons; [lz|]. specialize (Hlt _ Hq). lz.
    + exists m', f. split; [exact Hl|].
      replace (rev _ ++ fl) with (rev ((fun i => p + PGSIZE + i * PGSIZE) <$> rangeZ 0 n) ++ p :: fl); [done|].
      cbn [rangeZ]. rewrite fmap_cons. cbn [rev]. rewrite <- app_assoc. simpl. f_equal.
      * f_equal. rewrite (rangeZ_fmap (0 + 1) n), <- list_fmap_compose. apply list_fmap_ext. intros ? i _. simpl. lia.
      * f_equal. lia.
Qed.

Lemma PGROUNDUP_end : PGROUNDUP ld_end mod PGSIZE = 0 /\ ld_end <= PGROUNDUP ld_end <= PHYSTOP.
Proof.
  pose proof end_nonneg. pose proof ld_end_phystop.
  assert (Hr : PGROUNDUP ld_end mod PGSIZE = 0) by (apply PGROUNDUP_aligned; lz).
  destruct (PGROUNDUP_bounds ld_end) as [Hlo Hhi]; [lz|lz|]. split; [done|].
  pose proof (Z.div_mod (PGROUNDUP ld_end) PGSIZE ltac:(lz)) as E1. rewrite Hr in E1.
  pose proof (Z.div_mod PHYSTOP PGSIZE ltac:(lz)) as E2. rewrite PHYSTOP_aligned in E2.
  destruct (Z.le_gt_cases (PGROUNDUP ld_end) PHYSTOP); [lia|]. exfalso.
  assert (PHYSTOP / PGSIZE < PGROUNDUP ld_end / PGSIZE) by lz. lz.
Qed.

Lemma kinit_all s :
  settled s -> k_freelist s = 0 -> exists m f l, kinit s = Ok tt (set_k_mem m (set_k_freelist f (set_k_locks l s))) /\
    kmem_ready (set_k_mem m (set_k_freelist f (set_k_locks l s))) /\
    kmem_inv (rev all_pages) (set_k_mem m (set_k_freelist f (set_k_locks l s))).
Proof.
  intros Hs H0. unfold kinit, initlock, put_lock. rewrite bind_modify.
  destruct PGROUNDUP_end as [Hpa Hpb].
  set (s1 := set_k_locks _ s). set (n := Z.to_nat ((PHYSTOP - PGROUNDUP ld_end) / PGSIZE)).
  assert (Hn : PGROUNDUP ld_end + Z.of_nat n * PGSIZE = PHYSTOP).
  { unfold n. rewrite Z2Nat.id by (apply Z.div_pos; lz).
    assert ((PHYSTOP - PGROUNDUP ld_end) mod PGSIZE = 0) as Hm.
    { rewrite Zminus_mod, Hpa, PHYSTOP_aligned. done. }
    pose proof (Z.div_mod (PHYSTOP - PGROUNDUP ld_end) PGSIZE ltac:(lz)) as H. rewrite Hm in H. lia. }
  destruct (freerange_loop_ok n (PGROUNDUP ld_end) PHYSTOP s1 []
    (S (Z.to_nat ((PHYSTOP - ld_end) / PGSIZE)))) as (m & f & Hl & Hi); try done; try lz.
  - split; [done|]. exists "kmem". apply lookup_insert_eq.
  - split_and!; [done|constructor..].
  - unfold n. apply Nat.lt_succ_r, Z2Nat.inj_le; [apply Z.div_pos; lz..|]. apply Z.div_le_mono; lz.
  - intros q Hq. inversion Hq.
  - exists m, f, (k_locks s1). split; [exact Hl|]. split.
    + split; [done|]. exists "kmem". apply lookup_insert_eq.
    + by rewrite app_nil_r in Hi.
Qed.

Lemma elem_of_all_pages p : p ∈ all_pages <-> page_ok p.
Proof.
  destruct PGROUNDUP_end as [Hpa Hpb]. pose proof end_nonneg. pose proof ld_end_phystop.
  assert (Hq : forall i, PGROUNDUP ld_end + i * PGSIZE = (PGROUNDUP ld_end / PGSIZE + i) * PGSIZE).
  { intros i. pose proof (Z.div_mod (PGROUNDUP ld_end) PGSIZE ltac:(lz)) as E. rewrite Hpa in E. lia. }
  unfold all_pages. rewrite list_elem_of_fmap. split.
  - intros (i & -> & Hi). apply elem_of_rangeZ in Hi. rewrite Z2Nat.id in Hi by (apply Z.div_pos; lz).
    split; [rewrite Hq; apply Z_mod_mult|]. split; [lz|].
    pose proof (Z.mul_div_le (PHYSTOP - PGROUNDUP ld_end) PGSIZE ltac:(lz)). lz.
  - intros [Hm Hr]. exists ((p - PGROUNDUP ld_end) / PGSIZE).
    assert (Hd : (p - PGROUNDUP ld_end) mod PGSIZE = 0) by (rewrite Zminus_mod, Hm, Hpa; done).
    assert (Hge : PGROUNDUP ld_end <= p).
    { rewrite PGROUNDUP_eq in * by lz. pose proof (Z.div_mod p PGSIZE ltac:(lz)) as E. rewrite Hm in E.
      assert ((ld_end + PGSIZE - 1) / PGSIZE <= p / PGSIZE); [|lz].
      apply Z.lt_succ_r, Z.div_lt_upper_bound; lz. }
    pose proof (Z.div_mod (p - PGROUNDUP ld_end) PGSIZE ltac:(lz)) as E. rewrite Hd in E.
    split; [lia|]. apply elem_of_rangeZ. rewrite Z2Nat.id by (apply Z.div_pos; lz).
    split; [apply Z.div_pos; lz|]. simpl. apply Z.div_lt_upper_bound; [lz|].
    assert (Hd2 : (PHYSTOP - PGROUNDUP ld_end) mod PGSIZE = 0) by (rewrite Zminus_mod, PHYSTOP_aligned, Hpa; done).
    pose proof (Z.div_mod (PHYSTOP - PGROUNDUP ld_end) PGSIZE ltac:(lz)) as E2. rewrite Hd2 in E2. lia.
Qed.

(** ** Clients *)

Lemma kalloc_client s own :
  client_inv (s, own) ->
  exists r s', kalloc s = Ok r s' /\ client_inv (s', if r =? 0 then own else {[r]} ∪ own) /\
    (r = 0 -> forall p, page_ok p -> p ∈ own) /\
    (r <> 0 -> page_ok r /\ r ∉ own /\ (forall x, in_page r x -> mget (k_mem s') x = 5)).
Proof.
  intros (Hr & fl & Hi & Hdis & Hall). simpl in *. pose proof (kalloc_ok s fl Hr Hi) as H.
  destruct fl as [|r fl].
  - exists 0, s. split_and!; try done.
    + split; [done|]. exists []. split_and!; [done|done|done].
    + intros _ p Hp. apply Hall in Hp as [Hp|Hp]; [by inversion Hp|done].
  - destruct H as (m & f & Hk & Hi' & Hp & Hn & H5 & _).
    pose proof (page_ok_bounds _ Hp). exists r. eexists. split; [exact Hk|].
    assert (Hro : r ∉ own) by (apply Hdis; left). zcase (r =? 0). split_and!; try done.
    split; [done|]. exists fl. simpl. split_and!; [done| |].
    + intros p Hpf. rewrite not_elem_of_union, not_elem_of_singleton. split; [congruence|].
      apply Hdis. by right.
    + intros p. rewrite Hall, elem_of_cons, elem_of_union, elem_of_singleton. tauto.
Qed.

Lemma kfree_client s own pa :
  client_inv (s, own) -> pa ∈ own -> exists s', kfree pa s = Ok tt s' /\ client_inv (s', own ∖ {[pa]}).
Proof.
  intros (Hr & fl & Hi & Hdis & Hall) Hpa. simpl in *.
  destruct (kfree_ok pa s fl) as (m & Hk & Hi' & _); [done|done|apply Hall; by right| |].
  { intros Hin. by apply (Hdis pa). }
  eexists. split; [exact Hk|]. split; [done|]. exists (pa :: fl). simpl. split_and!; [done| |].
  - intros p. rewrite elem_of_cons, elem_of_difference, not_elem_of_singleton. intros [->|Hp] [? ?]; [done|].
    by eapply Hdis.
  - intros p. rewrite Hall, elem_of_cons, elem_of_difference, elem_of_singleton.
    destruct (decide (p = pa)) as [->|]; tauto.
Qed.

Lemma kstep_inv st st' : client_inv st -> kstep st st' -> client_inv st'.
Proof.
  intros Hi Hs. inversion Hs as [s r s' own Hk|s pa s' own Hpa Hk|s m own Hm]; subst.
  - destruct (kalloc_client _ _ Hi) as (r' & s2 & Hk' & Hi' & _).
    rewrite Hk in Hk'. by injection Hk' as <- <-.
  - destruct (kfree_client _ _ _ Hi Hpa) as (s2 & Hk' & Hi').
    rewrite Hk in Hk'. by injection Hk' as <-.
  - destruct Hi as (Hr & fl & Hi & Hdis & Hall). simpl in *. split; [done|]. exists fl.
    split_and!; [|done|done]. apply kmem_inv_mem; [done|]. intros p x Hp Hx. apply Hm.
    intros pa Hpa Hx'. pose proof Hi as (_ & _ & Hok). rewrite Forall_forall in Hok.
    refine (pages_disjoint p pa x _ _ _ Hx Hx'); [apply (Hok p Hp)|apply Hall; by right|].
    intros ->. by eapply Hdis.
Qed.

(** Just after [kinit] every page is free. *)
Lemma all_free_client s : kmem_ready s -> kmem_inv (rev all_pages) s -> client_inv (s, ∅).
Proof.
  intros Hr Hi. split; [done|]. exists (rev all_pages). split; [done|]. simpl. split; [set_solver|].
  intros p. rewrite <- elem_of_all_pages, !list_elem_of_In, <- in_rev. set_solver.
Qed.

(** ** Properties *)

(** C4: the allocator never hands out a page twice.  However a client
    interleaves [kalloc], [kfree] of pages it owns and writes to its pages,
    [kalloc] always returns: either a page of the managed range, aligned, not
    owned by the client and filled with 5s, or 0 when every page is already
    owned; and [kfree] of an owned page never panics. *)
Theorem kalloc_no_double_allocation st st' :
  client_inv st -> rtc kstep st st' ->
  (exists r s2, kalloc (fst st') = Ok r s2 /\
     (r = 0 -> forall p, page_ok p -> p ∈ snd st') /\
     (r <> 0 -> page_ok r /\ r ∉ snd st' /\ forall x, in_page r x -> mget (k_mem s2) x = 5)) /\
  (forall pa, pa ∈ snd st' -> exists s2, kfree pa (fst st') = Ok tt s2).
Proof.
  intros Hi Hs. assert (Hi' : client_inv st') by (induction Hs; eauto using kstep_inv).
  destruct st' as [s own]. simpl. split.
  - destruct (kalloc_client _ _ Hi') as (r & s2 & Hk & _ & H0 & H1). eauto 10.
  - intros pa Hpa. destruct (kfree_client _ _ _ Hi' Hpa) as (s2 & Hk & _). eauto.
Qed.

(** [kinit] from the zero-initialised free list terminates without a panic
    and establishes the invariant of the allocator with every page between
    [end] and [PHYSTOP] free and none owned. *)
Theorem kinit_establishes s :
  settled s -> k_freelist s = 0 ->
  exists s', kinit s = Ok tt s' /\ client_inv (s', ∅) /\ kmem_inv (rev all_pages) s'.
Proof.
  intros Hs H0. destruct (kinit_all s Hs H0) as (m & f & l & Hk & Hr & Hi).
  eexists. split; [exact Hk|]. split; [by apply all_free_client|done].
Qed.

End Kalloc.

(** A kernel image of 135 KB, for the witnesses. *)
#[export, refine] Instance image : KernelImage := {|
  ld_trampoline := 0x80007000; ld_etext := 0x80008000; ld_end := 0x80021d90 |}.
Proof. all: vm_compute; done. Defined.

Lemma demo_kmem : exists fl s, kmem_ready s /\ kmem_inv fl s /\ client_inv (s, ∅) /\ lenZ fl = 32734.
Proof.
  destruct (kinit_all zero_kstate (zero_settled 0 ltac:(lia)) eq_refl) as (m & f & l & Hk & Hr & Hi).
  exists (rev all_pages). eexists. split; [exact Hr|]. split; [exact Hi|]. split; [by apply all_free_client|].
  unfold lenZ, all_pages. rewrite length_rev, length_fmap, length_rangeZ. rewrite Z2Nat.id; [reflexivity|].
  apply Z.div_pos; [|lz]. by vm_compute.
Qed.

Lemma kinit_establishes_witness :
  exists s', kinit zero_kstate = Ok tt s' /\ client_inv (s', ∅) /\ kmem_inv (rev all_pages) s'.
Proof.
  apply (kinit_establishes zero_kstate); [exact (zero_settled 0 ltac:(lia))|reflexivity].
Defined.

Lemma kalloc_no_double_allocation_witness : exists r s s2, kalloc s = Ok r s2 /\ client_inv (s, ∅) /\
  (r <> 0 -> page_ok r).
Proof.
  destruct demo_kmem as (fl & s' & Hr & Hi & Hc & _).
  destruct (kalloc_no_double_allocation (s', ∅) (s', ∅) Hc (rtc_refl _ _)) as ((r & s2 & H1 & _ & H2) & _).
  exists r, s', s2. split; [exact H1|]. split; [exact Hc|]. intros Hne. by apply H2.
Defined.
