(* ===== verification/Vm.v ===== *)
(** * Page tables: [walk], [walkaddr], [mappages] and [kvmmap] of [kernel/vm.c]

    Page tables are the bytes of physical memory the C code reads and writes.
    [table_at m root path] is the page-table page the hardware reaches from
    [root] by the indices of [path] (at most two), and [pte_of m root va] the
    level-0 entry it finds for a virtual address; the theorems relate the C
    functions to this Sv39 walk.  [pt_wf] says that the tables form a tree of
    distinct pages, and [grows] what creating page-table pages may change. *)

From S2P Require Import Prelude Riscv State Spinlock Str Kalloc.

(** ** Definitions *)

Section Vm.
Context {KI : KernelImage}.

(** The loop of [walk] over the levels that are left, then the address of the
    level-0 entry; [pagetable[i]] is the 64-bit word at [pagetable + 8 * i]. *)
Fixpoint walk_levels (levels : list Z) (pagetable va alloc : Z) : M Z :=
  match levels with
  | [] => ret (pagetable + 8 * PX 0 va)
  | level :: levels' =>
      let pte := pagetable + 8 * PX level va in
      v <- read64 pte;;
      if truth (Z.land v PTE_V) then walk_levels levels' (PTE2PA v) va alloc
      else if negb (truth alloc) then ret 0 else
        pg <- kalloc;;
        if pg =? 0 then ret 0 else
        memset_m pg 0 PGSIZE;;
        write64 pte (Z.lor (PA2PTE pg) PTE_V);;
        walk_levels levels' pg va alloc
  end.

Definition walk (pagetable va alloc : Z) : M Z :=
  if MAXVA <=? va then panic "walk" else walk_levels [2; 1] pagetable va alloc.

Definition walkaddr (pagetable va : Z) : M Z :=
  if MAXVA <=? va then ret 0 else
  pte <- walk pagetable va 0;;
  if pte =? 0 then ret 0 else
  v <- read64 pte;;
  if Z.land v PTE_V =? 0 then ret 0 else
  if Z.land v PTE_U =? 0 then ret 0 else
  ret (PTE2PA v).

(** One turn of the loop of [mappages] at virtual address [a]; [inl] goes on
    with the next page. *)
Definition mappages_body (pagetable last perm : Z) (st : Z * Z) : M (Z * Z + Z) :=
  let '(a, pa) := st in
  pte <- walk pagetable a 1;;
  if pte =? 0 then ret (inr (-1)) else
  v <- read64 pte;;
  if truth (Z.land v PTE_V) then panic "mappages: remap" else
  write64 pte (Z.lor (Z.lor (PA2PTE pa) perm) PTE_V);;
  if a =? last then ret (inr 0) else ret (inl (u64 (a + PGSIZE), u64 (pa + PGSIZE))).

(** The fuel is the number of pages; see [mappages_ok]. *)
Definition mappages (pagetable va size pa perm : Z) : M Z :=
  if negb (va mod PGSIZE =? 0) then panic "mappages: va not aligned" else
  if negb (size mod PGSIZE =? 0) then panic "mappages: size not aligned" else
  if size =? 0 then panic "mappages: size" else
  loop (Z.to_nat (size / PGSIZE)) (mappages_body pagetable (u64 (va + size - PGSIZE)) perm) (va, pa).

Definition kvmmap (kpgtbl va pa sz perm : Z) : M unit :=
  r <- mappages kpgtbl va sz pa perm;;
  if negb (r =? 0) then panic "kvmmap" else ret tt.

Definition uvmcreate : M Z :=
  pagetable <- kalloc;;
  if pagetable =? 0 then ret 0 else
  memset_m pagetable 0 PGSIZE;;
  ret pagetable.

(** *** The hardware's view of a page table *)

(** The entry that points to the page-table page [p]. *)
Definition dir_pte (p : Z) : Z := Z.lor (PA2PTE p) PTE_V.

(** The page-table page that entry [i] of page [p] points to. *)
Definition next_table (m : mem) (p i : Z) : option Z :=
  let v := load64 m (p + 8 * i) in if truth (Z.land v PTE_V) then Some (PTE2PA v) else None.

Definition table_at (m : mem) (root : Z) (path : list Z) : option Z :=
  foldl (fun o i => o ≫= fun p => next_table m p i) (Some root) path.

Definition dir_path (va : Z) : list Z := [PX 2 va; PX 1 va].

(** The level-0 entry for [va], 0 when a table on the way is missing. *)
Definition pte_of (m : mem) (root va : Z) : Z :=
  match table_at m root (dir_path va) with
  | Some p => load64 m (p + 8 * PX 0 va)
  | None => 0
  end.

(** The physical page that user mode reaches at [va], 0 when there is none. *)
Definition user_pa (m : mem) (root va : Z) : Z :=
  let v := pte_of m root va in
  if (va <? MAXVA) && truth (Z.land v PTE_V) && truth (Z.land v PTE_U) then PTE2PA v else 0.

Definition path_ok (path : list Z) : Prop :=
  (length path <= 2)%nat /\ Forall (fun i => 0 <= i < 512) path.

Definition is_table (m : mem) (root p : Z) : Prop :=
  exists path, path_ok path /\ table_at m root path = Some p.

Record pt_wf (m : mem) (root : Z) : Prop := {
  wf_page path p : path_ok path -> table_at m root path = Some p -> page_ok p;
  wf_inj path path' p :
    path_ok path -> path_ok path' -> table_at m root path = Some p ->
    table_at m root path' = Some p -> path = path';
  wf_dir path p i c :
    path_ok (path ++ [i]) -> table_at m root path = Some p ->
    next_table m p i = Some c -> load64 m (p + 8 * i) = dir_pte c
}.

(** A page table beside the free list. *)
Record pt_state (root : Z) (fl : list Z) (s : kstate) : Prop := {
  ps_ready : kmem_ready s;
  ps_inv : kmem_inv fl s;
  ps_wf : pt_wf (k_mem s) root;
  ps_disj p : is_table (k_mem s) root p -> p ∉ fl
}.

(** The pages of [ps] and memory outside them. *)
Definition off_pages (ps : Z -> Prop) (x : Z) : Prop := forall p, ps p -> ~ in_page p x.

(** [s'] is [s] after page-table pages were taken from the free list: only the
    tables and the pages taken changed. *)
Record grows (root : Z) (fl : list Z) (s : kstate) (fl' : list Z) (s' : kstate) : Prop := {
  gr_state : exists m f, s' = set_k_mem m (set_k_freelist f s);
  gr_ps : pt_state root fl' s';
  gr_new : exists new, fl = new ++ fl' /\
    forall p, is_table (k_mem s') root p <-> is_table (k_mem s) root p \/ p ∈ new;
  gr_frame x : off_pages (is_table (k_mem s) root) x -> off_pages (fun p => p ∈ fl) x ->
    mget (k_mem s') x = mget (k_mem s) x
}.

Definition same_ptes (root : Z) (s s' : kstate) : Prop :=
  forall va, pte_of (k_mem s') root va = pte_of (k_mem s) root va.

(** The level-0 entry that maps a page to [pa]. *)
Definition leaf_pte (pa perm : Z) : Z := Z.lor (Z.lor (PA2PTE pa) perm) PTE_V.

(** The translation [f] after the [n] pages from [va] were mapped to [pa]. *)
Definition map_range (va n pa perm : Z) (f : Z -> Z) (a : Z) : Z :=
  if (va <=? a) && (a <? va + n * PGSIZE) then leaf_pte (pa + (a - va)) perm else f a.

(** ** Entries and paths *)

Lemma page_ok_pa_ok p : page_ok p -> pa_ok p.
Proof. intros H. pose proof (page_ok_bounds p H). destruct H. split; [done|lia]. Qed.

Lemma dir_pte_V p : page_ok p -> truth (Z.land (dir_pte p) PTE_V) = true.
Proof.
  intros H%page_ok_pa_ok. unfold dir_pte. rewrite Z.land_lor_distr_l, Z.land_diag. unfold truth.
  zcase (Z.lor (Z.land (PA2PTE p) PTE_V) PTE_V =? 0).
  assert (Hb : Z.testbit (Z.lor (Z.land (PA2PTE p) PTE_V) PTE_V) 0 = true).
  { rewrite Z.lor_spec. change (Z.testbit PTE_V 0) with true. by rewrite orb_true_r. }
  rewrite Heqb in Hb. discriminate.
Qed.

Lemma dir_pte_pa p : page_ok p -> PTE2PA (dir_pte p) = p.
Proof. intros H%page_ok_pa_ok. unfold dir_pte. apply (PTE2PA_pte p PTE_V H). by vm_compute. Qed.

Lemma dir_pte_range p : page_ok p -> 0 <= dir_pte p < 2 ^ 64.
Proof.
  intros H%page_ok_pa_ok. unfold dir_pte.
  assert (flags_ok PTE_V) by by vm_compute. pose proof (pte_range p PTE_V H H0). lia.
Qed.

Lemma leaf_pte_eq pa perm : leaf_pte pa perm = Z.lor (PA2PTE pa) (Z.lor perm PTE_V).
Proof. unfold leaf_pte. by rewrite Z.lor_assoc. Qed.

Lemma flags_ok_V perm : flags_ok perm -> flags_ok (Z.lor perm PTE_V).
Proof. intros H. apply flags_ok_lor; [done|]. by vm_compute. Qed.

Lemma leaf_pte_range pa perm : pa_ok pa -> flags_ok perm -> 0 <= leaf_pte pa perm < 2 ^ 64.
Proof.
  intros Hpa Hfl. rewrite leaf_pte_eq. pose proof (pte_range pa _ Hpa (flags_ok_V _ Hfl)). lia.
Qed.

Lemma leaf_pte_pa pa perm : pa_ok pa -> flags_ok perm -> PTE2PA (leaf_pte pa perm) = pa.
Proof. intros. rewrite leaf_pte_eq. apply PTE2PA_pte; [done|]. by apply flags_ok_V. Qed.

Lemma leaf_pte_flags pa perm : pa_ok pa -> flags_ok perm -> PTE_FLAGS (leaf_pte pa perm) = Z.lor perm PTE_V.
Proof. intros. rewrite leaf_pte_eq. apply PTE_FLAGS_pte; [done|]. by apply flags_ok_V. Qed.

Lemma leaf_pte_land pa perm f :
  pa_ok pa -> flags_ok perm -> flags_ok f -> Z.land (leaf_pte pa perm) f = Z.land (Z.lor perm PTE_V) f.
Proof. intros Hpa Hp Hf. by rewrite (land_flags (leaf_pte pa perm)), leaf_pte_flags. Qed.

Lemma leaf_pte_V pa perm : pa_ok pa -> flags_ok perm -> truth (Z.land (leaf_pte pa perm) PTE_V) = true.
Proof.
  intros Hpa Hp. rewrite leaf_pte_land by (done || by vm_compute). rewrite Z.land_lor_distr_l, Z.land_diag.
  unfold truth. zcase (Z.lor (Z.land perm PTE_V) PTE_V =? 0).
  apply (f_equal (fun z => Z.testbit z 0)) in Heqb. rewrite Z.lor_spec in Heqb.
  change (Z.testbit PTE_V 0) with true in Heqb. by rewrite orb_true_r in Heqb.
Qed.

Lemma leaf_pte_U pa perm :
  pa_ok pa -> flags_ok perm -> truth (Z.land (leaf_pte pa perm) PTE_U) = truth (Z.land perm PTE_U).
Proof.
  intros Hpa Hp. rewrite leaf_pte_land by (done || by vm_compute). rewrite Z.land_lor_distr_l.
  change (Z.land PTE_V PTE_U) with 0. by rewrite Z.lor_0_r.
Qed.

Lemma table_at_snoc m root path i :
  table_at m root (path ++ [i]) = table_at m root path ≫= fun p => next_table m p i.
Proof. unfold table_at. by rewrite foldl_app. Qed.

Lemma path_ok_snoc path i : path_ok (path ++ [i]) -> path_ok path /\ 0 <= i < 512.
Proof.
  intros [Hl Hf]. rewrite length_app in Hl. simpl in Hl. apply Forall_app in Hf as [Hf Hi].
  inversion Hi; subst. split; [split; [lia|done]|done].
Qed.

Lemma path_ok_nil : path_ok [].
Proof. split; [simpl; lia|constructor]. Qed.

Lemma dir_path_ok va : path_ok (dir_path va).
Proof. split; [done|]. repeat constructor; apply PX_range; lia. Qed.

Lemma is_table_intro m root path p : path_ok path -> table_at m root path = Some p -> is_table m root p.
Proof. intros Hok H. exists path. split; [exact Hok|exact H]. Qed.

Lemma next_table_ext m m' p i :
  load64 m' (p + 8 * i) = load64 m (p + 8 * i) -> next_table m' p i = next_table m p i.
Proof. unfold next_table. by intros ->. Qed.

Lemma next_table_zero m p i : load64 m (p + 8 * i) = 0 -> next_table m p i = None.
Proof. unfold next_table. by intros ->. Qed.

Lemma next_table_dir m p i c :
  page_ok c -> load64 m (p + 8 * i) = dir_pte c -> next_table m p i = Some c.
Proof.
  intros Hc. unfold next_table. intros ->. rewrite dir_pte_V by done. by rewrite dir_pte_pa.
Qed.

Lemma entry_in_page p i x : 0 <= i < 512 -> p + 8 * i <= x < p + 8 * i + 8 -> in_page p x.
Proof. unfold in_page. lz. Qed.

Lemma load64_page_zero m p i :
  (forall x, in_page p x -> mget m x = 0) -> 0 <= i < 512 -> load64 m (p + 8 * i) = 0.
Proof.
  intros H Hi. apply load64_zero. intros x Hx. apply H. by eapply entry_in_page.
Qed.

(** A memory that agrees on the tables of [root] has the same tables. *)
Lemma table_at_ext m m' root :
  (forall p x, is_table m root p -> in_page p x -> mget m' x = mget m x) ->
  forall path, path_ok path -> table_at m' root path = table_at m root path.
Proof.
  intros Hm path. induction path as [|i path IH] using rev_ind; intros Hok; [done|].
  destruct (path_ok_snoc _ _ Hok) as [Hok' Hi]. rewrite !table_at_snoc, IH by done.
  destruct (table_at m root path) as [p|] eqn:E; [|done]. simpl. apply next_table_ext.
  apply load64_ext. intros x Hx. apply (Hm p); [by exists path|]. by eapply entry_in_page.
Qed.

Lemma is_table_ext m m' root p :
  (forall p x, is_table m root p -> in_page p x -> mget m' x = mget m x) ->
  is_table m' root p <-> is_table m root p.
Proof.
  intros Hm. split; intros (path & Hok & H); exists path; (split; [done|]);
    rewrite <- H; [symmetry|]; by apply table_at_ext.
Qed.

Lemma pte_of_ext m m' root va :
  (forall p x, is_table m root p -> in_page p x -> mget m' x = mget m x) ->
  pte_of m' root va = pte_of m root va.
Proof.
  intros Hm. unfold pte_of. rewrite (table_at_ext m m') by (done || apply dir_path_ok).
  destruct (table_at m root (dir_path va)) as [p|] eqn:E; [|done].
  apply load64_ext. intros x Hx. apply (Hm p); [exists (dir_path va); split; [apply dir_path_ok|done]|].
  eapply entry_in_page; [|done]. apply PX_range. lia.
Qed.

Lemma pt_wf_ext m m' root :
  (forall p x, is_table m root p -> in_page p x -> mget m' x = mget m x) ->
  pt_wf m root -> pt_wf m' root.
Proof.
  intros Hm [H1 H2 H3]. pose proof (table_at_ext m m' root Hm) as He. split.
  - intros path p Hok. rewrite He by done. eauto.
  - intros path path' p Hok Hok'. rewrite !He by done. eauto.
  - intros path p i c Hok. destruct (path_ok_snoc _ _ Hok) as [Hok' Hi]. rewrite He by done. intros Hp.
    assert (Hl : load64 m' (p + 8 * i) = load64 m (p + 8 * i)).
    { apply load64_ext. intros x Hx. apply (Hm p); [by exists path|]. by eapply entry_in_page. }
    rewrite (next_table_ext m m'), Hl by done. eauto.
Qed.

(** ** Adding a page-table page *)

Section AddTable.
Context (m m' : mem) (root d i r : Z) (dpath : list Z).
Hypothesis Hwf : pt_wf m root.
Hypothesis Hpath : path_ok (dpath ++ [i]).
Hypothesis Hd : table_at m root dpath = Some d.
Hypothesis Hnone : next_table m d i = None.
Hypothesis Hr : page_ok r.
Hypothesis Hfresh : ~ is_table m root r.
Hypothesis Hentry : load64 m' (d + 8 * i) = dir_pte r.
Hypothesis Hzero : forall x, in_page r x -> mget m' x = 0.
Hypothesis Hrest : forall p j, is_table m root p -> 0 <= j < 512 -> (p, j) <> (d, i) ->
  load64 m' (p + 8 * j) = load64 m (p + 8 * j).

Lemma table_at_add path :
  path_ok path ->
  table_at m' root path = if decide (path = dpath ++ [i]) then Some r else table_at m root path.
Proof.
  induction path as [|j q IH] using rev_ind; intros Hok.
  { rewrite decide_False; [done|]. by destruct dpath. }
  destruct (path_ok_snoc _ _ Hok) as [Hok' Hj]. rewrite !table_at_snoc, IH by done.
  destruct (decide (q = dpath ++ [i])) as [->|Hq].
  - rewrite decide_False by (intros [= E]%(f_equal length); rewrite !length_app in E; simpl in E; lia).
    rewrite table_at_snoc, Hd. simpl. rewrite Hnone. simpl. apply next_table_zero.
    by apply load64_page_zero.
  - destruct (table_at m root q) as [p|] eqn:Ep; simpl.
    + destruct (decide (q ++ [j] = dpath ++ [i])) as [[-> ->]%app_inj_tail|Hne].
      * rewrite Hd in Ep. injection Ep as <-. by apply next_table_dir.
      * apply next_table_ext, Hrest; [by exists q|done|]. intros [= -> ->]. apply Hne. f_equal.
        apply (wf_inj _ _ Hwf _ _ d); try done. by eapply path_ok_snoc.
    + rewrite decide_False; [done|]. intros [-> _]%app_inj_tail. congruence.
Qed.

Lemma add_None : table_at m root (dpath ++ [i]) = None.
Proof. rewrite table_at_snoc, Hd. done. Qed.

Lemma is_table_add p : is_table m' root p <-> is_table m root p \/ p = r.
Proof.
  split.
  - intros (path & Hok & H). rewrite table_at_add in H by done. case_decide; [right; congruence|left].
    by exists path.
  - intros [(path & Hok & H)| ->].
    + exists path. split; [done|]. rewrite table_at_add by done. case_decide as E; [|done].
      rewrite E, add_None in H. done.
    + exists (dpath ++ [i]). split; [done|]. rewrite table_at_add by done. by rewrite decide_True.
Qed.

Lemma pt_wf_add : pt_wf m' root.
Proof.
  split.
  - intros path p Hok. rewrite table_at_add by done. case_decide; [by intros [= <-]|].
    by apply (wf_page _ _ Hwf).
  - intros path path' p Hok Hok'. rewrite !table_at_add by done.
    assert (Hfr : forall q, path_ok q -> table_at m root q = Some r -> False).
    { intros q Hq Hr'. apply Hfresh. by exists q. }
    do 2 case_decide; subst; try done; intros; simplify_eq; try (by exfalso; eauto).
    by eapply (wf_inj _ _ Hwf).
  - intros path p j c Hok. destruct (path_ok_snoc _ _ Hok) as [Hok' Hj]. rewrite table_at_add by done.
    case_decide as E.
    + intros [= <-]. rewrite next_table_zero by (by apply load64_page_zero). done.
    + intros Hp. destruct (decide ((p, j) = (d, i))) as [[= -> ->]|Hne].
      * rewrite (next_table_dir _ _ _ r) by done. by intros [= <-].
      * assert (Hl : load64 m' (p + 8 * j) = load64 m (p + 8 * j)) by (apply Hrest; [by exists path|done..]).
        rewrite (next_table_ext m m'), Hl by done. by apply (wf_dir _ _ Hwf path).
Qed.

Lemma pte_of_add va : pte_of m' root va = pte_of m root va.
Proof.
  unfold pte_of. rewrite table_at_add by apply dir_path_ok. case_decide as E.
  - rewrite E, add_None. apply load64_page_zero; [done|]. apply PX_range. lia.
  - destruct (table_at m root (dir_path va)) as [p|] eqn:Ep; [|done]. apply Hrest.
    + exists (dir_path va). split; [apply dir_path_ok|done].
    + apply PX_range. lia.
    + intros [= -> _]. assert (Hdp : dir_path va = dpath).
      { apply (wf_inj _ _ Hwf _ _ d); try done; [apply dir_path_ok|]. by eapply path_ok_snoc. }
      destruct Hpath as [Hlen _]. rewrite <- Hdp in Hlen. simpl in Hlen. lia.
Qed.

End AddTable.

(** ** [grows] *)

Lemma grows_refl root fl s : pt_state root fl s -> grows root fl s fl s.
Proof.
  intros H. split; [|done| |done].
  - exists (k_mem s), (k_freelist s). by destruct s.
  - exists []. split; [done|]. set_solver.
Qed.

Lemma grows_trans root fl s fl1 s1 fl2 s2 :
  grows root fl s fl1 s1 -> grows root fl1 s1 fl2 s2 -> grows root fl s fl2 s2.
Proof.
  intros [(m & f & ->) Hps (n1 & -> & Ht1) Hf1] [(m' & f' & ->) Hps2 (n2 & -> & Ht2) Hf2].
  split; [by exists m', f'|done| |].
  - exists (n1 ++ n2). rewrite app_assoc. split; [done|]. intros p. rewrite Ht2, Ht1, elem_of_app. tauto.
  - intros x Hx Hy. rewrite Hf2, Hf1; [done|done|done| |].
    + intros p [Hp|Hp]%Ht1; [by apply Hx|]. apply Hy. set_solver.
    + intros p Hp. apply Hy. set_solver.
Qed.

(** ** [walk] *)

Definition px_path (levels : list Z) (va : Z) : list Z := (fun l => PX l va) <$> levels.

Lemma walk_levels_0 levels p va s :
  walk_levels levels p va 0 s =
    Ok (match table_at (k_mem s) p (px_path levels va) with Some q => q + 8 * PX 0 va | None => 0 end) s.
Proof.
  revert p. induction levels as [|l levels IH]; intros p; [done|].
  cbn [walk_levels]. unfold read64. rewrite bind_gets.
  unfold table_at, px_path. rewrite fmap_cons. cbn [foldl mbind option_bind].
  unfold next_table. destruct (truth (Z.land (load64 (k_mem s) (p + 8 * PX l va)) PTE_V)); [apply IH|].
  cbn [truth Z.eqb negb]. unfold ret. f_equal. clear IH. by induction levels.
Qed.

Lemma walk_0 root va s :
  va < MAXVA ->
  walk root va 0 s =
    Ok (match table_at (k_mem s) root (dir_path va) with Some q => q + 8 * PX 0 va | None => 0 end) s.
Proof. intros H. unfold walk. zcase (MAXVA <=? va). apply (walk_levels_0 [2; 1]). Qed.

Lemma load64_entries_ne m p q i j v :
  page_ok p -> page_ok q -> 0 <= i < 512 -> 0 <= j < 512 -> (p, i) <> (q, j) ->
  load64 (store64 m (q + 8 * j) v) (p + 8 * i) = load64 m (p + 8 * i).
Proof.
  intros [Hp _] [Hq _] Hi Hj Hne. apply load64_store64_ne.
  destruct (decide (p = q)) as [->|Hpq].
  - assert (i <> j) by congruence. lia.
  - destruct (aligned_disjoint p q Hp Hq Hpq); lz.
Qed.

(** The memory after [walk] linked the new page [r] into entry [i] of the
    table [d]; [m] is the memory [kalloc] left. *)
Section NewTable.
Context (root d i r f : Z) (fl dpath : list Z) (s : kstate) (m : mem).
Hypothesis Hps : pt_state root (r :: fl) s.
Hypothesis Hpath : path_ok (dpath ++ [i]).
Hypothesis Hd : table_at (k_mem s) root dpath = Some d.
Hypothesis Hnone : next_table (k_mem s) d i = None.
Hypothesis Hi' : kmem_inv fl (set_k_mem m (set_k_freelist f s)).
Hypothesis Hrp : page_ok r.
Hypothesis Hrn : r ∉ fl.
Hypothesis Hm : forall x, ~ in_page r x -> mget m x = mget (k_mem s) x.

Let m' : mem := store64 (memset m r 0 PGSIZE) (d + 8 * i) (dir_pte r).

Lemma new_parent : is_table (k_mem s) root d /\ page_ok d /\ 0 <= i < 512.
Proof.
  destruct (path_ok_snoc _ _ Hpath) as [Hdok Hix]. split; [by eapply is_table_intro|split; [|done]].
  by apply (wf_page _ _ (ps_wf _ _ _ Hps) dpath).
Qed.

Lemma new_fresh : ~ is_table (k_mem s) root r.
Proof. intros Ht. apply (ps_disj _ _ _ Hps r Ht). left. Qed.

Lemma new_ne_parent : r <> d.
Proof. intros E. apply new_fresh. rewrite E. apply new_parent. Qed.

Lemma new_entry : load64 m' (d + 8 * i) = dir_pte r.
Proof. unfold m'. rewrite load64_store64. apply u64_small. by apply dir_pte_range. Qed.

Lemma new_zero x : in_page r x -> mget m' x = 0.
Proof.
  destruct new_parent as (_ & Hdp & Hix). intros Hx. unfold m'. rewrite mget_store64_out, mget_memset_in; [done| |].
  - unfold in_page in Hx. lz.
  - intros Hin%entry_in_page; [|done]. exact (page_ok_disjoint r d x Hrp Hdp new_ne_parent Hx Hin).
Qed.

Lemma new_rest p j : is_table (k_mem s) root p -> 0 <= j < 512 -> (p, j) <> (d, i) ->
  load64 m' (p + 8 * j) = load64 (k_mem s) (p + 8 * j).
Proof.
  destruct new_parent as (_ & Hdp & Hix). intros Ht Hj Hne.
  assert (Hpp : page_ok p) by (destruct Ht as (q & Hq & Hp); by apply (wf_page _ _ (ps_wf _ _ _ Hps) q)).
  unfold m'. rewrite load64_entries_ne by done. apply load64_ext. intros x Hx%entry_in_page; [|done].
  assert (Hnr : ~ in_page r x).
  { apply (page_ok_disjoint p r x Hpp Hrp); [|exact Hx]. intros ->. by apply new_fresh. }
  rewrite mget_memset_out; [by apply Hm|lz|exact Hnr].
Qed.

Lemma new_free : kmem_inv fl (set_k_mem m' (set_k_freelist f s)).
Proof.
  destruct new_parent as (Hdt & Hdp & Hix).
  apply (kmem_inv_mem fl (set_k_mem m (set_k_freelist f s))) with (m := m') in Hi'; [exact Hi'|].
  intros p x Hp Hx. simpl. pose proof Hi' as (_ & _ & Hok). rewrite Forall_forall in Hok.
  pose proof (Hok p Hp) as Hpp. unfold m'. rewrite mget_store64_out, mget_memset_out; [done|lz| |].
  - apply (page_ok_disjoint p r x Hpp Hrp); [congruence|exact Hx].
  - intros Hin%entry_in_page; [|done]. refine (page_ok_disjoint p d x Hpp Hdp _ Hx Hin).
    intros ->. apply (ps_disj _ _ _ Hps d Hdt). by right.
Qed.

Lemma new_is_table p : is_table m' root p <-> is_table (k_mem s) root p \/ p = r.
Proof.
  pose proof (ps_wf _ _ _ Hps).
  apply (is_table_add (k_mem s) m' root d i r dpath); auto using new_fresh, new_entry, new_zero, new_rest.
Qed.

Lemma new_table_grows :
  grows root (r :: fl) s fl (set_k_mem m' (set_k_freelist f s)) /\
  same_ptes root s (set_k_mem m' (set_k_freelist f s)) /\
  table_at m' root (dpath ++ [i]) = Some r.
Proof.
  destruct new_parent as (Hdt & Hdp & Hix). pose proof (ps_wf _ _ _ Hps) as Hwf. split; [split|split].
  - by exists m', f.
  - split; [apply (ps_ready _ _ _ Hps)|exact new_free| |].
    + apply (pt_wf_add (k_mem s) m' root d i r dpath); auto using new_fresh, new_entry, new_zero, new_rest.
    + simpl. intros p [Ht| ->]%new_is_table; [|done]. intros Hin. apply (ps_disj _ _ _ Hps p Ht). by right.
  - exists [r]. split; [done|]. intros p. simpl. by rewrite new_is_table, list_elem_of_singleton.
  - intros x Hx Hy. simpl. unfold m'. rewrite mget_store64_out, mget_memset_out, Hm; [done| |lz| |].
    + apply Hy. left.
    + apply (Hy r). left.
    + intros Hin%entry_in_page; [|done]. by apply (Hx d).
  - intros va. apply (pte_of_add (k_mem s) m' root d i r dpath); auto using new_fresh, new_entry, new_zero, new_rest.
  - rewrite (table_at_add (k_mem s) m' root d i r dpath); auto using new_fresh, new_entry, new_zero, new_rest.
    by rewrite decide_True.
Qed.

End NewTable.

(** The [else] branch of the loop of [walk]: a new table, or no memory. *)
Lemma walk_alloc root fl s dpath d i (k : Z -> M Z) :
  pt_state root fl s -> path_ok (dpath ++ [i]) -> table_at (k_mem s) root dpath = Some d ->
  next_table (k_mem s) d i = None ->
  let run := (pg <- kalloc;; if pg =? 0 then ret 0 else
    memset_m pg 0 PGSIZE;; write64 (d + 8 * i) (Z.lor (PA2PTE pg) PTE_V);; k pg) s in
  (fl = [] /\ run = Ok 0 s) \/
  (exists r fl' s', fl = r :: fl' /\ run = k r s' /\ grows root fl s fl' s' /\ same_ptes root s s' /\
     table_at (k_mem s') root (dpath ++ [i]) = Some r).
Proof.
  intros Hps Hpath Hd Hnone run. pose proof (kalloc_ok s fl (ps_ready _ _ _ Hps) (ps_inv _ _ _ Hps)) as Hk.
  destruct fl as [|r fl]; [left; split; [done|]; unfold run; erewrite bind_ok by exact Hk; done|right].
  destruct Hk as (m & f & Hk & Hi' & Hrp & Hrn & _ & Hm). pose proof (page_ok_bounds r Hrp) as Hrb.
  destruct (new_table_grows root d i r f fl dpath s m) as (Hg & Hsp & Ht); try done.
  do 3 eexists. split; [done|]. split; [|split; [exact Hg|split; [exact Hsp|exact Ht]]].
  unfold run. erewrite bind_ok by exact Hk. destruct (Z.eqb_spec r 0) as [|_]; [lia|].
  unfold memset_m, write64. rewrite !bind_modify. reflexivity.
Qed.

(** [walk] with [alloc] set: the address of the entry, or 0 when the
    allocator has no page left. *)
Lemma walk_levels_1 root va levels : Forall (fun l => 0 <= l) levels -> forall dpath d fl s,
  pt_state root fl s -> table_at (k_mem s) root dpath = Some d ->
  (length dpath + length levels <= 2)%nat -> Forall (fun i => 0 <= i < 512) dpath ->
  exists fl' s' pte, walk_levels levels d va 1 s = Ok pte s' /\ grows root fl s fl' s' /\ same_ptes root s s' /\
    (length fl <= length fl' + length levels)%nat /\
    ((pte = 0 /\ fl' = []) \/
     exists p, table_at (k_mem s') root (dpath ++ px_path levels va) = Some p /\ pte = p + 8 * PX 0 va).
Proof.
  induction 1 as [|l levels Hl Hls IH]; intros dpath d fl s Hps Hd Hlen Hf.
  - exists fl, s, (d + 8 * PX 0 va). split_and!; [done|by apply grows_refl|done|simpl; lia|]. right. exists d.
    by rewrite app_nil_r.
  - assert (Hpath : path_ok (dpath ++ [PX l va])).
    { simpl in Hlen. split; [rewrite length_app; simpl; lia|]. apply Forall_app. split; [done|].
      repeat constructor; by apply PX_range. }
    cbn [walk_levels]. unfold read64. rewrite bind_gets. cbn beta zeta.
    assert (E : px_path (l :: levels) va = [PX l va] ++ px_path levels va) by done. rewrite E, app_assoc.
    destruct (truth (Z.land (load64 (k_mem s) (d + 8 * PX l va)) PTE_V)) eqn:Hv.
    + destruct (IH (dpath ++ [PX l va]) (PTE2PA (load64 (k_mem s) (d + 8 * PX l va))) fl s)
        as (fl' & s' & pte & Hw & Hg & Hsp & Hlen' & Hp); try done.
      * rewrite table_at_snoc, Hd. simpl. unfold next_table. by rewrite Hv.
      * rewrite length_app. simpl in *. lia.
      * by destruct Hpath.
      * exists fl', s', pte. split_and!; try done. simpl. lia.
    + cbn [truth Z.eqb negb].
      destruct (walk_alloc root fl s dpath d (PX l va) (fun pg => walk_levels levels pg va 1))
        as [[-> Hrun]|(r & fl1 & s1 & -> & Hrun & Hg & Hsp & Ht)]; try done.
      { unfold next_table. by rewrite Hv. }
      * exists [], s, 0. split_and!; [exact Hrun|by apply grows_refl|done|simpl; lia|by left].
      * destruct (IH (dpath ++ [PX l va]) r fl1 s1) as (fl' & s' & pte & Hw & Hg' & Hsp' & Hlen' & Hp); try done.
        -- apply (gr_ps _ _ _ _ _ Hg).
        -- rewrite length_app. simpl in *. lia.
        -- by destruct Hpath.
        -- exists fl', s', pte. split_and!; [by rewrite Hrun|by eapply grows_trans| |simpl; lia|done].
           intros va'. by rewrite Hsp', Hsp.
Qed.

Lemma walk_1 root va fl s :
  pt_state root fl s -> va < MAXVA ->
  exists fl' s' pte, walk root va 1 s = Ok pte s' /\ grows root fl s fl' s' /\ same_ptes root s s' /\
    (length fl <= length fl' + 2)%nat /\
    ((pte = 0 /\ fl' = []) \/
     exists p, table_at (k_mem s') root (dir_path va) = Some p /\ pte = p + 8 * PX 0 va).
Proof.
  intros Hps Hva. unfold walk. zcase (MAXVA <=? va).
  apply (walk_levels_1 root va [2; 1]) with (dpath := []); try done. repeat constructor; lia.
Qed.

(** When the tables of [va] exist, [walk] allocates none. *)
Lemma walk_levels_present levels alloc va s : forall p q, table_at (k_mem s) p (px_path levels va) = Some q ->
  walk_levels levels p va alloc s = Ok (q + 8 * PX 0 va) s.
Proof.
  induction levels as [|l levels IH]; intros p q Hq; [by injection Hq as <-|].
  cbn [walk_levels]. unfold read64. rewrite bind_gets. unfold table_at, px_path in Hq. rewrite fmap_cons in Hq.
  cbn [foldl mbind option_bind] in Hq. unfold next_table in Hq.
  destruct (truth (Z.land (load64 (k_mem s) (p + 8 * PX l va)) PTE_V)); [by apply IH|].
  exfalso. clear IH. by induction levels.
Qed.

Lemma walk_present root alloc va s q : va < MAXVA -> table_at (k_mem s) root (dir_path va) = Some q ->
  walk root va alloc s = Ok (q + 8 * PX 0 va) s.
Proof. intros H Hq. unfold walk. zcase (MAXVA <=? va). by apply (walk_levels_present [2; 1]). Qed.

(** The tables that [walk] may have to allocate for [va]. *)
Definition missing (m : mem) (root va : Z) : nat := match table_at m root (dir_path va) with Some _ => 0 | None => 2 end.

Lemma walk_missing root va fl s :
  pt_state root fl s -> va < MAXVA ->
  exists fl' s' pte, walk root va 1 s = Ok pte s' /\ grows root fl s fl' s' /\ same_ptes root s s' /\
    (length fl <= length fl' + missing (k_mem s) root va)%nat /\
    ((pte = 0 /\ fl' = []) \/
     exists p, table_at (k_mem s') root (dir_path va) = Some p /\ pte = p + 8 * PX 0 va).
Proof.
  intros Hps Hva. unfold missing. destruct (table_at (k_mem s) root (dir_path va)) as [q|] eqn:Hq; [|by apply walk_1].
  exists fl, s, (q + 8 * PX 0 va). split; [by apply walk_present|]. split; [by apply grows_refl|]. split; [done|]. split; [lia|].
  right. by exists q.
Qed.

(** ** Writing a level-0 entry *)

Section SetLeaf.
Context (m : mem) (root va p v : Z).
Hypothesis Hwf : pt_wf m root.
Hypothesis Hp : table_at m root (dir_path va) = Some p.

Let m' : mem := store64 m (p + 8 * PX 0 va) v.

Lemma set_leaf_dirs path q j :
  path_ok (path ++ [j]) -> table_at m root path = Some q -> load64 m' (q + 8 * j) = load64 m (q + 8 * j).
Proof.
  intros Hok Hq. destruct (path_ok_snoc _ _ Hok) as [Hok' Hj].
  apply load64_entries_ne; [by apply (wf_page _ _ Hwf path)| |done|apply PX_range; lia|].
  - apply (wf_page _ _ Hwf (dir_path va)); [apply dir_path_ok|done].
  - intros [= -> ->]. assert (E : path = dir_path va) by (apply (wf_inj _ _ Hwf _ _ p); auto using dir_path_ok).
    destruct Hok as [Hlen _]. rewrite E in Hlen. simpl in Hlen. lia.
Qed.

Lemma set_leaf_table_at path : path_ok path -> table_at m' root path = table_at m root path.
Proof.
  induction path as [|j q IH] using rev_ind; intros Hok; [done|].
  destruct (path_ok_snoc _ _ Hok) as [Hok' Hj]. rewrite !table_at_snoc, IH by done.
  destruct (table_at m root q) as [d|] eqn:E; [|done]. simpl. apply next_table_ext.
  by apply (set_leaf_dirs q).
Qed.

Lemma set_leaf_is_table q : is_table m' root q <-> is_table m root q.
Proof.
  split; intros (path & Hok & H); exists path; (split; [done|]); rewrite <- H; [symmetry|];
    by apply set_leaf_table_at.
Qed.

Lemma set_leaf_wf : pt_wf m' root.
Proof.
  split.
  - intros path q Hok. rewrite set_leaf_table_at by done. by apply (wf_page _ _ Hwf).
  - intros path path' q Hok Hok'. rewrite !set_leaf_table_at by done. by apply (wf_inj _ _ Hwf).
  - intros path q j c Hok. destruct (path_ok_snoc _ _ Hok) as [Hok' Hj]. rewrite set_leaf_table_at by done.
    intros Hq. pose proof (set_leaf_dirs path q j Hok Hq) as E.
    rewrite (next_table_ext m m') by done. rewrite E. by apply (wf_dir _ _ Hwf path).
Qed.

Lemma set_leaf_pte va' :
  va_ok va -> va_ok va' -> pte_of m' root va' = if decide (va' = va) then u64 v else pte_of m root va'.
Proof.
  intros Ha Ha'. unfold pte_of. rewrite set_leaf_table_at by apply dir_path_ok.
  case_decide as E; [subst va'; rewrite Hp; apply load64_store64|].
  destruct (table_at m root (dir_path va')) as [q|] eqn:Hq; [|done].
  apply load64_entries_ne; [..|apply PX_range; lia|apply PX_range; lia|].
  - apply (wf_page _ _ Hwf (dir_path va')); [apply dir_path_ok|done].
  - apply (wf_page _ _ Hwf (dir_path va)); [apply dir_path_ok|done].
  - intros [= -> E0]. apply E. assert (Ep : dir_path va' = dir_path va).
    { apply (wf_inj _ _ Hwf _ _ p); auto using dir_path_ok. }
    injection Ep as E2 E1. by apply PX_inj.
Qed.

Lemma set_leaf_frame x : off_pages (is_table m root) x -> mget m' x = mget m x.
Proof.
  intros Hx. apply mget_store64_out. intros Hin%entry_in_page; [|apply PX_range; lia].
  apply (Hx p); [|done]. apply (is_table_intro _ _ (dir_path va)); [apply dir_path_ok|done].
Qed.

End SetLeaf.

(** Writing one entry of a page table that stays beside the free list. *)
Lemma set_leaf_grows root fl s va p v :
  pt_state root fl s -> table_at (k_mem s) root (dir_path va) = Some p ->
  grows root fl s fl (set_k_mem (store64 (k_mem s) (p + 8 * PX 0 va) v) s).
Proof.
  intros Hps Hp. pose proof (ps_wf _ _ _ Hps) as Hwf. split.
  - exists (store64 (k_mem s) (p + 8 * PX 0 va) v), (k_freelist s). by destruct s.
  - split; [apply (ps_ready _ _ _ Hps)| |by apply set_leaf_wf|].
    + apply kmem_inv_mem; [apply (ps_inv _ _ _ Hps)|]. intros q x Hq Hx. apply (set_leaf_frame _ root); [done|].
      intros q' Hq' Hx'. pose proof (ps_inv _ _ _ Hps) as (_ & _ & Hok). rewrite Forall_forall in Hok.
      assert (page_ok q') by (destruct Hq' as (path & ? & ?); by apply (wf_page _ _ Hwf path)).
      refine (page_ok_disjoint q q' x (Hok q Hq) _ _ Hx Hx'); [done|].
      intros ->. by apply (ps_disj _ _ _ Hps q').
    + intros q Hq%set_leaf_is_table; [|done..]. by apply (ps_disj _ _ _ Hps).
  - exists []. split; [done|]. intros q. simpl. rewrite set_leaf_is_table by done. set_solver.
  - intros x Hx _. by apply (set_leaf_frame _ root).
Qed.

(** ** [mappages] *)

Lemma pte_of_Some m root va p :
  table_at m root (dir_path va) = Some p -> pte_of m root va = load64 m (p + 8 * PX 0 va).
Proof. unfold pte_of. by intros ->. Qed.

Lemma entry_nonzero m root va p :
  pt_wf m root -> table_at m root (dir_path va) = Some p -> p + 8 * PX 0 va <> 0.
Proof.
  intros Hwf Hp. pose proof (page_ok_bounds p (wf_page _ _ Hwf _ _ (dir_path_ok va) Hp)).
  pose proof (PX_range 0 va ltac:(lia)). lia.
Qed.

Lemma map_range_0 va pa perm f a : map_range va 0 pa perm f a = f a.
Proof. unfold map_range. zcase (va <=? a); zcase (a <? va + 0 * PGSIZE). Qed.

Lemma map_range_S va n pa perm f a :
  va_ok a -> va mod PGSIZE = 0 -> 0 <= n ->
  map_range va (1 + n) pa perm f a =
    map_range (va + PGSIZE) n (pa + PGSIZE) perm (fun a => if decide (a = va) then leaf_pte pa perm else f a) a.
Proof.
  intros [Ha _] Hva Hn. unfold map_range.
  destruct (decide (a = va)) as [->|Hne].
  - zcase (va <=? va). zcase (va <? va + (1 + n) * PGSIZE); try lz. zcase (va + PGSIZE <=? va); try lz. simpl.
    by rewrite Z.sub_diag, Z.add_0_r.
  - assert (va <= a -> va + PGSIZE <= a).
    { intros. destruct (aligned_disjoint va a Hva Ha); [congruence|lz..]. }
    zcase (va <=? a); zcase (va + PGSIZE <=? a); try lz; cbn [andb].
    replace (va + (1 + n) * PGSIZE) with (va + PGSIZE + n * PGSIZE) by lia.
    zcase (a <? va + PGSIZE + n * PGSIZE). f_equal. lia.
Qed.

Lemma map_range_1 va pa perm f a :
  va_ok a -> va mod PGSIZE = 0 ->
  map_range va 1 pa perm f a = if decide (a = va) then leaf_pte pa perm else f a.
Proof. intros. change 1 with (1 + 0). rewrite map_range_S by (done || lia). by rewrite map_range_0. Qed.

Lemma map_range_ext va n pa perm f g a : f a = g a -> map_range va n pa perm f a = map_range va n pa perm g a.
Proof. unfold map_range. by intros ->. Qed.

Lemma mappages_body_ok root last perm a pa fl s :
  pt_state root fl s -> va_ok a -> a < MAXVA -> pa_ok pa -> flags_ok perm ->
  Z.land (pte_of (k_mem s) root a) PTE_V = 0 ->
  exists fl' s', grows root fl s fl' s' /\ (length fl <= length fl' + missing (k_mem s) root a)%nat /\
    ((fl' = [] /\ mappages_body root last perm (a, pa) s = Ok (inr (-1)) s' /\ same_ptes root s s') \/
     (mappages_body root last perm (a, pa) s =
        Ok (if a =? last then inr 0 else inl (u64 (a + PGSIZE), u64 (pa + PGSIZE))) s' /\
      missing (k_mem s') root a = 0%nat /\
      forall a', va_ok a' -> pte_of (k_mem s') root a' =
        if decide (a' = a) then leaf_pte pa perm else pte_of (k_mem s) root a')).
Proof.
  intros Hps Ha Hmax Hpa Hfl H0. unfold mappages_body.
  destruct (walk_missing root a fl s Hps) as (fl' & s' & pte & Hw & Hg & Hsp & Hlen & Hpte); [done|].
  pose proof (gr_ps _ _ _ _ _ Hg) as Hps'. destruct Hpte as [[-> ->]|(p & Hp & ->)].
  - exists [], s'. split; [done|]. split; [done|]. left. split_and!; [done|by erewrite bind_ok by exact Hw|done].
  - pose proof (entry_nonzero _ _ _ _ (ps_wf _ _ _ Hps') Hp) as Hne.
    exists fl', (set_k_mem (store64 (k_mem s') (p + 8 * PX 0 a) (leaf_pte pa perm)) s').
    split; [eapply grows_trans; [exact Hg|by apply set_leaf_grows]|]. split; [done|]. right. split; [|split].
    + erewrite bind_ok by exact Hw. destruct (Z.eqb_spec (p + 8 * PX 0 a) 0) as [|_]; [done|].
      unfold read64, write64. rewrite bind_gets. rewrite <- (pte_of_Some _ root) by done.
      rewrite Hsp, H0. cbn [truth Z.eqb negb]. rewrite bind_modify. by destruct (a =? last).
    + unfold missing. cbn [k_mem set_k_mem]. rewrite (set_leaf_table_at _ root a p); [by rewrite Hp|apply (ps_wf _ _ _ Hps')|done|apply dir_path_ok].
    + intros a' Ha'. simpl. rewrite (set_leaf_pte _ root a p) by (done || apply (ps_wf _ _ _ Hps')).
      rewrite Hsp. case_decide; [|done]. apply u64_small. by apply leaf_pte_range.
Qed.

(** The two megabytes that a table at level 0 maps. *)
Definition region (va : Z) : Z := va / 2 ^ 21.

Lemma region_mono a b : a <= b -> region a <= region b.
Proof. intros H. apply Z.div_le_mono; lia. Qed.

Lemma missing_region m root a b : 0 <= a -> 0 <= b -> region a = region b -> missing m root a = missing m root b.
Proof.
  intros Ha Hb H. unfold missing, dir_path. assert (E : forall l, 1 <= l <= 2 -> PX l a = PX l b); [|by rewrite !E by lia].
  intros l Hl. unfold PX, PXSHIFT. f_equal. rewrite !Z.shiftr_div_pow2 by (unfold PGSHIFT; lia). unfold region, PGSHIFT in *.
  replace (12 + 9 * l) with (21 + (9 * l - 9)) by lia. rewrite Z.pow_add_r by lia. rewrite <- !Z.div_div by lia. by rewrite H.
Qed.

Lemma missing_next m root a : 0 <= a -> missing m root a = 0%nat ->
  Z.of_nat (missing m root (a + PGSIZE)) <= 2 * (region (a + PGSIZE) - region a).
Proof.
  intros Ha H0. pose proof (region_mono a (a + PGSIZE) ltac:(lz)). destruct (decide (region a = region (a + PGSIZE))) as [E|].
  - rewrite <- (missing_region m root a) by (done || lz). lia.
  - unfold missing. destruct (table_at _ _ _); lia.
Qed.

Lemma mappages_loop root perm n : flags_ok perm -> forall a pa fl s,
  pt_state root fl s -> a mod PGSIZE = 0 -> pa mod PGSIZE = 0 -> 0 <= a -> 0 <= pa ->
  a + Z.of_nat (S n) * PGSIZE <= MAXVA -> pa + Z.of_nat (S n) * PGSIZE <= 2 ^ 56 ->
  (forall a', va_ok a' -> a <= a' < a + Z.of_nat (S n) * PGSIZE -> Z.land (pte_of (k_mem s) root a') PTE_V = 0) ->
  exists r k fl' s', loop (S n) (mappages_body root (a + Z.of_nat n * PGSIZE) perm) (a, pa) s = Ok r s' /\
    grows root fl s fl' s' /\
    lenZ fl <= lenZ fl' + 2 * (region (a + Z.of_nat n * PGSIZE) - region a) + Z.of_nat (missing (k_mem s) root a) /\
    ((r = 0 /\ k = Z.of_nat (S n)) \/ (r = -1 /\ 0 <= k < Z.of_nat (S n) /\ fl' = [])) /\
    forall a', va_ok a' -> pte_of (k_mem s') root a' = map_range a k pa perm (pte_of (k_mem s) root) a'.
Proof.
  intros Hfl. induction n as [|n IH]; intros a pa fl s Hps Ha Hpa Ha0 Hpa0 Hb Hpb Hfree.
  - destruct (mappages_body_ok root (a + Z.of_nat 0 * PGSIZE) perm a pa fl s)
      as (fl1 & s1 & Hg & Hlen & [(-> & Hrun & Hsp)|(Hrun & Hmis & Hpt)]); try done;
      [split; [done|lz]|lz|split; [done|lz]|apply Hfree; [split; [done|lz]|lz]| |].
    + exists (-1), 0, [], s1. split_and!; [cbn [loop]; by erewrite bind_ok by exact Hrun|done|pose proof (region_mono a (a + Z.of_nat 0 * PGSIZE) ltac:(lia)); unfold lenZ; lia|right; split; [done|split; [lia|done]]|].
      intros a' _. by rewrite map_range_0, Hsp.
    + exists 0, 1, fl1, s1. zcase (a =? a + Z.of_nat 0 * PGSIZE).
      split_and!; [cbn [loop]; by erewrite bind_ok by exact Hrun|done|pose proof (region_mono a (a + Z.of_nat 0 * PGSIZE) ltac:(lia)); unfold lenZ; lia|left; lia|].
      intros a' Ha'. rewrite map_range_1 by done. by apply Hpt.
  - destruct (mappages_body_ok root (a + Z.of_nat (S n) * PGSIZE) perm a pa fl s)
      as (fl1 & s1 & Hg & Hlen & [(-> & Hrun & Hsp)|(Hrun & Hmis & Hpt)]); try done;
      [split; [done|lz]|lz|split; [done|lz]|apply Hfree; [split; [done|lz]|lz]| |].
    + exists (-1), 0, [], s1. split_and!; [cbn [loop]; by erewrite bind_ok by exact Hrun|done|pose proof (region_mono a (a + Z.of_nat (S n) * PGSIZE) ltac:(lz)); unfold lenZ; lia|right; split; [done|split; [lia|done]]|].
      intros a' _. by rewrite map_range_0, Hsp.
    + assert (E : (a =? a + Z.of_nat (S n) * PGSIZE) = false) by (apply Z.eqb_neq; lz). rewrite E in Hrun.
      rewrite !u64_small in Hrun by lz.
      destruct (IH (a + PGSIZE) (pa + PGSIZE) fl1 s1) as (r & k & fl' & s' & Hl & Hg' & Hlen' & Hr & Hpt'); try lz.
      * apply (gr_ps _ _ _ _ _ Hg).
      * by apply next_page_aligned.
      * by apply next_page_aligned.
      * intros a' Ha' Hr. rewrite Hpt by done. rewrite decide_False by lz. apply Hfree; [done|lz].
      * exists r, (1 + k), fl', s'. split_and!; [|by eapply grows_trans| | |].
        -- remember (S n) as n1. cbn [loop]. erewrite bind_ok by exact Hrun. cbn beta iota. subst n1.
           replace (a + Z.of_nat (S n) * PGSIZE) with (a + PGSIZE + Z.of_nat n * PGSIZE) by lz. exact Hl.
        -- pose proof (missing_next (k_mem s1) root a Ha0 Hmis). replace (a + Z.of_nat (S n) * PGSIZE) with (a + PGSIZE + Z.of_nat n * PGSIZE) by lz. unfold lenZ in *. lia.
        -- destruct Hr as [[-> ->]|(-> & ? & ->)]; [left; lia|right; split; [done|split; [lia|done]]].
        -- intros a' Ha'. rewrite Hpt' by done. rewrite (map_range_S a) by (done || lia).
           apply map_range_ext. by apply Hpt.
Qed.

(** [mappages] over a free part of the address space maps all its pages, or
    runs out of memory after a prefix of them.  It needs at most two tables
    for every two megabytes. *)
Lemma mappages_run root va size pa perm fl s :
  pt_state root fl s -> va mod PGSIZE = 0 -> size mod PGSIZE = 0 -> pa mod PGSIZE = 0 -> flags_ok perm ->
  0 <= va -> 0 < size -> va + size <= MAXVA -> 0 <= pa -> pa + size <= 2 ^ 56 ->
  (forall a, va_ok a -> va <= a < va + size -> Z.land (pte_of (k_mem s) root a) PTE_V = 0) ->
  exists r k fl' s', mappages root va size pa perm s = Ok r s' /\ grows root fl s fl' s' /\
    lenZ fl <= lenZ fl' + 2 * (region (va + size - PGSIZE) - region va + 1) /\
    ((r = 0 /\ k = size / PGSIZE) \/ (r = -1 /\ 0 <= k < size / PGSIZE /\ fl' = [])) /\
    forall a, va_ok a -> pte_of (k_mem s') root a = map_range va k pa perm (pte_of (k_mem s) root) a.
Proof.
  intros Hps Hva Hsz Hpa Hfl Hva0 Hsz0 Hb Hpa0 Hpb Hfree. unfold mappages. rewrite Hva, Hsz. cbn [Z.eqb negb].
  zcase (size =? 0). pose proof (Z.div_mod size PGSIZE ltac:(lz)) as E. rewrite Hsz, Z.add_0_r in E.
  assert (Hn : 0 < size / PGSIZE) by lz. destruct (Z.to_nat (size / PGSIZE)) as [|n] eqn:En; [lia|].
  assert (En' : size / PGSIZE = Z.of_nat (S n)) by lia. rewrite En' in E |- *.
  destruct (mappages_loop root perm n Hfl va pa fl s) as (r & k & fl' & s' & Hl & Hg & Hlen & Hr & Hpt); try done; try lz.
  { intros a Ha Har. apply Hfree; [done|lz]. }
  assert (Elast : va + size - PGSIZE = va + Z.of_nat n * PGSIZE) by lz. exists r, k, fl', s'. split_and!; [|done| |done..].
  - rewrite u64_small by lz. rewrite Elast. exact Hl.
  - rewrite Elast. assert (missing (k_mem s) root va <= 2)%nat by (unfold missing; destruct (table_at _ _ _); lia). lia.
Qed.

Lemma mappages_ok root va size pa perm fl s :
  pt_state root fl s -> va mod PGSIZE = 0 -> size mod PGSIZE = 0 -> pa mod PGSIZE = 0 -> flags_ok perm ->
  0 <= va -> 0 < size -> va + size <= MAXVA -> 0 <= pa -> pa + size <= 2 ^ 56 ->
  (forall a, va_ok a -> va <= a < va + size -> Z.land (pte_of (k_mem s) root a) PTE_V = 0) ->
  exists r k fl' s', mappages root va size pa perm s = Ok r s' /\ grows root fl s fl' s' /\
    lenZ fl <= lenZ fl' + 2 * (size / PGSIZE) /\
    ((r = 0 /\ k = size / PGSIZE) \/ (r = -1 /\ 0 <= k < size / PGSIZE /\ fl' = [])) /\
    forall a, va_ok a -> pte_of (k_mem s') root a = map_range va k pa perm (pte_of (k_mem s) root) a.
Proof.
  intros Hps Hva Hsz Hpa Hfl Hva0 Hsz0 Hb Hpa0 Hpb Hfree.
  destruct (mappages_run root va size pa perm fl s) as (r & k & fl' & s' & Hm & Hg & Hlen & Hr & Hpt); try done.
  exists r, k, fl', s'. split_and!; try done. apply (Z.le_trans _ _ _ Hlen). apply Z.add_le_mono_l, Z.mul_le_mono_nonneg_l; [lia|].
  unfold region, PGSIZE in *. Z.div_mod_to_equations. lia.
Qed.

Lemma kvmmap_ok root va pa sz perm s s' :
  mappages root va sz pa perm s = Ok 0 s' -> kvmmap root va pa sz perm s = Ok tt s'.
Proof. intros H. unfold kvmmap. by erewrite bind_ok by exact H. Qed.

(** ** [walkaddr] *)

Lemma walkaddr_ok root va s :
  pt_wf (k_mem s) root -> walkaddr root va s = Ok (user_pa (k_mem s) root va) s.
Proof.
  intros Hwf. unfold walkaddr, user_pa. destruct (Z.leb_spec MAXVA va) as [Hge|Hlt].
  { by zcase (va <? MAXVA). }
  zcase (va <? MAXVA). erewrite bind_ok by (by apply walk_0). unfold pte_of. cbn [andb].
  destruct (table_at (k_mem s) root (dir_path va)) as [p|] eqn:Hp; [|done].
  pose proof (entry_nonzero _ _ _ _ Hwf Hp) as Hne.
  destruct (Z.eqb_spec (p + 8 * PX 0 va) 0) as [|_]; [done|]. unfold read64. rewrite bind_gets. unfold truth.
  destruct (Z.land (load64 (k_mem s) (p + 8 * PX 0 va)) PTE_V =? 0); [done|].
  by destruct (Z.land (load64 (k_mem s) (p + 8 * PX 0 va)) PTE_U =? 0).
Qed.

(** ** [uvmcreate] *)

Lemma table_at_zero m r :
  (forall x, in_page r x -> mget m x = 0) -> forall path, path_ok path -> path <> [] -> table_at m r path = None.
Proof.
  intros Hz path. induction path as [|i path IH] using rev_ind; intros Hok Hne; [done|].
  destruct (path_ok_snoc _ _ Hok) as [Hok' Hi]. rewrite table_at_snoc.
  destruct (decide (path = [])) as [->|]; [|by rewrite IH]. simpl.
  by apply next_table_zero, load64_page_zero.
Qed.

Lemma empty_pt m r :
  page_ok r -> (forall x, in_page r x -> mget m x = 0) ->
  pt_wf m r /\ (forall p, is_table m r p <-> p = r) /\ (forall va, pte_of m r va = 0).
Proof.
  intros Hr Hz. pose proof (table_at_zero m r Hz) as Hn. split; [split|split].
  - intros path p Hok Hp. destruct (decide (path = [])) as [->|]; [|by rewrite Hn in Hp].
    injection Hp as <-. done.
  - intros path path' p Hok Hok' Hp Hp'. destruct (decide (path = [])) as [->|]; [|by rewrite Hn in Hp].
    destruct (decide (path' = [])) as [->|]; [done|by rewrite Hn in Hp'].
  - intros path p i c Hok Hp Hc. assert (Hs : table_at m r (path ++ [i]) = Some c).
    { rewrite table_at_snoc, Hp. exact Hc. }
    rewrite Hn in Hs; [done|done|by destruct path].
  - intros p. split.
    + intros (path & Hok & Hp). destruct (decide (path = [])) as [->|]; [by injection Hp|by rewrite Hn in Hp].
    + intros ->. exists []. split; [apply path_ok_nil|done].
  - intros va. unfold pte_of. by rewrite Hn by (apply dir_path_ok || done).
Qed.

Lemma uvmcreate_ok fl s :
  kmem_ready s -> kmem_inv fl s ->
  (fl = [] /\ uvmcreate s = Ok 0 s) \/
  exists r fl' m f, fl = r :: fl' /\ uvmcreate s = Ok r (set_k_mem m (set_k_freelist f s)) /\
    pt_state r fl' (set_k_mem m (set_k_freelist f s)) /\ page_ok r /\
    (forall p, is_table m r p <-> p = r) /\ (forall va, pte_of m r va = 0) /\
    (forall x, ~ in_page r x -> mget m x = mget (k_mem s) x).
Proof.
  intros Hr Hi. pose proof (kalloc_ok s fl Hr Hi) as Hk. destruct fl as [|r fl'].
  { left. split; [done|]. unfold uvmcreate. by erewrite bind_ok by exact Hk. }
  destruct Hk as (m & f & Hk & Hi' & Hrp & Hrn & _ & Hm). right.
  pose proof (page_ok_bounds r Hrp). set (m' := memset m r 0 PGSIZE).
  assert (Hz : forall x, in_page r x -> mget m' x = 0).
  { intros x Hx. unfold m'. by rewrite mget_memset_in. }
  assert (Hout : forall x, ~ in_page r x -> mget m' x = mget m x).
  { intros x Hx. unfold m'. apply mget_memset_out; [lz|done]. }
  destruct (empty_pt m' r Hrp Hz) as (Hwf & Htab & Hpte).
  exists r, fl', m', f. split; [done|]. split.
  { unfold uvmcreate. erewrite bind_ok by exact Hk. destruct (Z.eqb_spec r 0) as [|_]; [lia|].
    unfold memset_m. by rewrite bind_modify. }
  split; [|split; [done|split; [done|split; [done|]]]].
  - split; [done| |done|].
    + change (set_k_mem m' _) with (set_k_mem m' (set_k_mem m (set_k_freelist f s))).
      apply kmem_inv_mem; [done|]. intros p x Hp Hx. simpl. apply Hout.
      destruct Hi' as (_ & _ & Hok). rewrite Forall_forall in Hok.
      apply (page_ok_disjoint p r x (Hok p Hp) Hrp); [congruence|done].
    + intros p ->%Htab. done.
  - intros x Hx. by rewrite Hout, Hm.
Qed.

(** ** Properties *)

(** [walk] implements the Sv39 walk.  Below [MAXVA] it returns the address
    of the level-0 entry that the hardware finds for [va], and changes no
    translation; with [alloc] = 0 it leaves the state alone and returns 0
    exactly when the hardware finds no level-0 table, and with [alloc] = 1 it
    returns 0 only when the allocator ran out of pages. *)
Theorem walk_finds_entry root va fl s :
  pt_state root fl s -> 0 <= va < MAXVA ->
  (exists pte, walk root va 0 s = Ok pte s /\
     (pte = 0 <-> table_at (k_mem s) root (dir_path va) = None) /\
     (pte <> 0 -> load64 (k_mem s) pte = pte_of (k_mem s) root va)) /\
  (exists pte fl' s', walk root va 1 s = Ok pte s' /\ grows root fl s fl' s' /\ same_ptes root s s' /\
     (pte = 0 -> fl' = []) /\
     (pte <> 0 -> load64 (k_mem s') pte = pte_of (k_mem s') root va)).
Proof.
  intros Hps [_ Hva]. split.
  - eexists. split; [by apply walk_0|]. destruct (table_at (k_mem s) root (dir_path va)) as [p|] eqn:Hp.
    + pose proof (entry_nonzero _ _ _ _ (ps_wf _ _ _ Hps) Hp). split; [done|]. intros _. by rewrite (pte_of_Some _ _ _ p).
    + done.
  - destruct (walk_1 root va fl s Hps Hva) as (fl' & s' & pte & Hw & Hg & Hsp & _ & Hpte).
    exists pte, fl', s'. split_and!; try done; destruct Hpte as [[-> ->]|(p & Hp & ->)]; try done.
    + intros E. by destruct (entry_nonzero _ _ _ _ (ps_wf _ _ _ (gr_ps _ _ _ _ _ Hg)) Hp).
    + intros _. by rewrite (pte_of_Some _ _ _ p).
Qed.

(** [mappages] over unmapped pages never panics.  It returns 0 with every
    page of the range mapped to the page of [pa] at the same offset with the
    permissions [perm], or -1 out of memory with a proper prefix mapped so,
    which needs at most two new page-table pages for each page; the other
    translations are unchanged, memory outside the page table and the
    free list is untouched, and [walkaddr] then finds the pages mapped for
    user mode. *)
Theorem mappages_maps root va size pa perm fl s :
  pt_state root fl s -> va mod PGSIZE = 0 -> size mod PGSIZE = 0 -> pa mod PGSIZE = 0 -> flags_ok perm ->
  0 <= va -> 0 < size -> va + size <= MAXVA -> 0 <= pa -> pa + size <= 2 ^ 56 ->
  (forall a, va_ok a -> va <= a < va + size -> Z.land (pte_of (k_mem s) root a) PTE_V = 0) ->
  exists r k fl' s', mappages root va size pa perm s = Ok r s' /\ grows root fl s fl' s' /\
    lenZ fl <= lenZ fl' + 2 * (size / PGSIZE) /\
    ((r = 0 /\ k = size / PGSIZE) \/ (r = -1 /\ 0 <= k < size / PGSIZE /\ fl' = [])) /\
    (forall a, va_ok a -> pte_of (k_mem s') root a = map_range va k pa perm (pte_of (k_mem s) root) a) /\
    (forall a, va_ok a -> va <= a < va + k * PGSIZE -> truth (Z.land perm PTE_U) = true ->
       walkaddr root a s' = Ok (pa + (a - va)) s').
Proof.
  intros Hps Hva Hsz Hpa Hfl Hva0 Hsz0 Hb Hpa0 Hpb Hfree.
  destruct (mappages_ok root va size pa perm fl s) as (r & k & fl' & s' & Hm & Hg & Hn & Hr & Hpt); try done.
  exists r, k, fl', s'. split_and!; try done. intros a Ha Har HU.
  rewrite walkaddr_ok by apply (ps_wf _ _ _ (gr_ps _ _ _ _ _ Hg)). f_equal. unfold user_pa.
  rewrite Hpt by done. unfold map_range. zcase (va <=? a). zcase (a <? va + k * PGSIZE). cbn [andb].
  pose proof (Z.div_mod size PGSIZE ltac:(lz)) as E. rewrite Hsz in E.
  assert (Hpa' : pa_ok (pa + (a - va))).
  { split; [|assert (k <= size / PGSIZE) by lia; lz].
    rewrite Z.add_mod, Hpa, Zminus_mod, Hva by lz. destruct Ha as [-> _]. done. }
  rewrite leaf_pte_V, leaf_pte_U, HU, leaf_pte_pa by done.
  destruct Ha as [_ Ha]. assert (k <= size / PGSIZE) by lia. zcase (a <? MAXVA). lz.
Qed.

End Vm.

(** A fresh page table in the state [kinit] leaves, for the witnesses. *)
Lemma demo_pt : exists root fl s, pt_state root fl s /\ (forall va, pte_of (k_mem s) root va = 0) /\
  (forall p, is_table (k_mem s) root p <-> p = root) /\ lenZ fl = 32733.
Proof.
  destruct demo_kmem as (fl & s & Hr & Hi & _ & Hn).
  destruct (uvmcreate_ok fl s Hr Hi) as [[-> _]|(r & fl' & m & f & -> & _ & Hps & _ & Ht & Hpte & _)]; [done|].
  rewrite lenZ_cons in Hn. exists r, fl', (set_k_mem m (set_k_freelist f s)). split_and!; [exact Hps|exact Hpte|exact Ht|lia].
Qed.

Lemma walk_finds_entry_witness : exists root s pte,
  pte_of (k_mem s) root 0x3000 = 0 /\ walk root 0x3000 0 s = Ok pte s.
Proof.
  destruct demo_pt as (root & fl & s & Hps & H0 & _).
  destruct (walk_finds_entry root 0x3000 fl s Hps ltac:(vm_compute; done)) as [(pte & Hw & _) _].
  exists root, s, pte. by split.
Defined.

Lemma mappages_maps_witness : exists root s r s',
  mappages root 0x1000 0x2000 0x80100000 (Z.lor PTE_R PTE_U) s = Ok r s'.
Proof.
  destruct demo_pt as (root & fl & s & Hps & H0 & _).
  destruct (mappages_maps root 0x1000 0x2000 0x80100000 (Z.lor PTE_R PTE_U) fl s Hps)
    as (r & k & fl' & s' & Hm & _); [reflexivity..|by vm_compute|lz|lz|lz|lz|lz| |].
  - intros a _ _. by rewrite H0.
  - exists root, s, r, s'. exact Hm.
Defined.
