(* ===== verification/Uvm.v ===== *)
(** * User address spaces: the [uvm*] functions of [kernel/vm.c]

    [uspace root l fl s] describes the user part of the page table [root]: page
    [i] of the address space is mapped to the physical page and with the
    permissions of entry [i] of [l], nothing is mapped between the end of [l]
    and the trapframe, and the data pages, the page-table pages and the free
    list [fl] are disjoint.  The theorems say how each function changes [l],
    that no page is lost or shared, and that memory outside these pages is
    untouched. *)

From S2P Require Import Prelude Riscv State Spinlock Str Kalloc Vm.

(** ** Definitions *)

Section Uvm.
Context {KI : KernelImage}.

Definition uvmunmap_body (pagetable stop do_free a : Z) : M (Z + unit) :=
  if a <? stop then
    pte <- walk pagetable a 0;;
    if pte =? 0 then panic "uvmunmap: walk" else
    v <- read64 pte;;
    if Z.land v PTE_V =? 0 then panic "uvmunmap: not mapped" else
    if PTE_FLAGS v =? PTE_V then panic "uvmunmap: not a leaf" else
    when (truth do_free) (kfree (PTE2PA v));;
    write64 pte 0;;
    ret (inl (u64 (a + PGSIZE)))
  else ret (inr tt).

(** The loop makes one turn for each page and a last one that leaves it. *)
Definition uvmunmap (pagetable va npages do_free : Z) : M unit :=
  if negb (va mod PGSIZE =? 0) then panic "uvmunmap: not aligned" else
  loop (S (Z.to_nat npages)) (uvmunmap_body pagetable (u64 (va + npages * PGSIZE)) do_free) va.

(** [npages] is an [int] that is then converted to [uint64]. *)
Definition uvmdealloc (pagetable oldsz newsz : Z) : M Z :=
  if oldsz <=? newsz then ret oldsz else
  when (PGROUNDUP newsz <? PGROUNDUP oldsz)
    (let npages := i32 ((PGROUNDUP oldsz - PGROUNDUP newsz) / PGSIZE) in
     uvmunmap pagetable (PGROUNDUP newsz) (u64 npages) 1);;
  ret newsz.

(** The permissions [uvmalloc] maps with. *)
Definition alloc_perm (xperm : Z) : Z := Z.lor (Z.lor PTE_R PTE_U) xperm.

Definition uvmalloc_body (pagetable oldsz newsz xperm a : Z) : M (Z + Z) :=
  if a <? newsz then
    pg <- kalloc;;
    if pg =? 0 then uvmdealloc pagetable a oldsz;; ret (inr 0) else
    memset_m pg 0 PGSIZE;;
    r <- mappages pagetable a PGSIZE pg (alloc_perm xperm);;
    if negb (r =? 0) then kfree pg;; uvmdealloc pagetable a oldsz;; ret (inr 0) else
    ret (inl (u64 (a + PGSIZE)))
  else ret (inr newsz).

(** At most [newsz / PGSIZE + 1] pages start below [newsz]. *)
Definition uvmalloc (pagetable oldsz newsz xperm : Z) : M Z :=
  if newsz <? oldsz then ret oldsz else
  loop (2 + Z.to_nat (newsz / PGSIZE)) (uvmalloc_body pagetable (PGROUNDUP oldsz) newsz xperm)
    (PGROUNDUP oldsz).

Definition uvmclear (pagetable va : Z) : M unit :=
  pte <- walk pagetable va 0;;
  if pte =? 0 then panic "uvmclear" else
  v <- read64 pte;;
  write64 pte (Z.land v (u64 (Z.lnot PTE_U))).

(** [src] is the contents of the init code; a null [mem] is not a page that
    [memset] may write. *)
Definition uvmfirst (pagetable : Z) (src : list Z) : M unit :=
  if PGSIZE <=? lenZ src then panic "uvmfirst: more than a page" else
  pg <- kalloc;;
  if pg =? 0 then ub "null page" else
  memset_m pg 0 PGSIZE;;
  mappages pagetable 0 PGSIZE pg (Z.lor (Z.lor (Z.lor PTE_W PTE_R) PTE_X) PTE_U);;
  modify (fun s => set_k_mem (store_bytes (k_mem s) pg src) s).

(** *** Address spaces *)

(** The permissions of a leaf: some of R, W and X. *)
Definition perm_ok (perm : Z) : Prop :=
  flags_ok perm /\ Z.land perm (Z.lor PTE_R (Z.lor PTE_W PTE_X)) <> 0.

(** The pages from [va] are mapped as the list says, to distinct pages that
    are neither free nor tables. *)
Record maps_at (root va : Z) (l : list (Z * Z)) (fl : list Z) (s : kstate) : Prop := {
  ma_pte i pa perm : l !! i = Some (pa, perm) ->
    pte_of (k_mem s) root (va + Z.of_nat i * PGSIZE) = leaf_pte pa perm;
  ma_ok i pa perm : l !! i = Some (pa, perm) -> page_ok pa /\ perm_ok perm;
  ma_inj i j pa perm perm' : l !! i = Some (pa, perm) -> l !! j = Some (pa, perm') -> i = j;
  ma_disj i pa perm : l !! i = Some (pa, perm) -> pa ∉ fl /\ ~ is_table (k_mem s) root pa
}.

Record uspace (root : Z) (l : list (Z * Z)) (fl : list Z) (s : kstate) : Prop := {
  us_ps : pt_state root fl s;
  us_maps : maps_at root 0 l fl s;
  us_len : lenZ l * PGSIZE <= TRAPFRAME;
  us_free a : va_ok a -> lenZ l * PGSIZE <= a < TRAPFRAME -> pte_of (k_mem s) root a = 0
}.

(** The pages of the address space: tables, data and the free list. *)
Definition space_pages (root : Z) (ds fl : list Z) (s : kstate) (p : Z) : Prop :=
  is_table (k_mem s) root p \/ p ∈ ds \/ p ∈ fl.

(** The mappings of the trapframe and the trampoline are the same. *)
Definition same_top (root : Z) (s s' : kstate) : Prop :=
  forall a, va_ok a -> TRAPFRAME <= a -> pte_of (k_mem s') root a = pte_of (k_mem s) root a.

(** A step that takes pages from the free list or from the data pages [ds] and
    puts them on the free list, among the data pages [ds'] or in the page
    table: it leaves the trapframe and the trampoline mapped, and every other
    page and every other global variable alone, and neither loses nor gains a
    page. *)
Record uframe (root : Z) (ds fl : list Z) (s : kstate) (ds' fl' : list Z) (s' : kstate) : Prop := {
  uf_state : exists m f, s' = set_k_mem m (set_k_freelist f s);
  uf_pages p : space_pages root ds' fl' s' p <-> space_pages root ds fl s p;
  uf_top : same_top root s s';
  uf_frame x : off_pages (space_pages root ds fl s) x -> mget (k_mem s') x = mget (k_mem s) x
}.

(** [s'] is [s] after the pages [pas] went back to the free list. *)
Record releases (root : Z) (fl : list Z) (s : kstate) (pas : list Z) (s' : kstate) : Prop := {
  rl_state : exists m f, s' = set_k_mem m (set_k_freelist f s);
  rl_ps : pt_state root (pas ++ fl) s';
  rl_table p : is_table (k_mem s') root p <-> is_table (k_mem s) root p;
  rl_frame x : off_pages (is_table (k_mem s) root) x -> off_pages (fun p => p ∈ pas) x ->
    mget (k_mem s') x = mget (k_mem s) x
}.

(** The translation [f] with the [n] pages from [va] unmapped. *)
Definition unmap_range (va n : Z) (f : Z -> Z) (a : Z) : Z :=
  if (va <=? a) && (a <? va + n * PGSIZE) then 0 else f a.

(** ** Freeing the pages of an address space *)

Lemma is_table_page m root p : pt_wf m root -> is_table m root p -> page_ok p.
Proof. intros Hwf (path & Hok & H). by apply (wf_page _ _ Hwf path). Qed.

Lemma kfree_pt root fl s pa :
  pt_state root fl s -> page_ok pa -> pa ∉ fl -> ~ is_table (k_mem s) root pa ->
  exists s', kfree pa s = Ok tt s' /\ releases root fl s [pa] s' /\ same_ptes root s s' /\
    (forall path, path_ok path -> table_at (k_mem s') root path = table_at (k_mem s) root path) /\
    forall x, ~ in_page pa x -> mget (k_mem s') x = mget (k_mem s) x.
Proof.
  intros [Hr Hi Hwf Hdis] Hpa Hn Hnt. destruct (kfree_ok pa s fl Hr Hi Hpa Hn) as (m & Hk & Hi' & Hm).
  exists (set_k_freelist pa (set_k_mem m s)). split; [done|].
  assert (Hext : forall p x, is_table (k_mem s) root p -> in_page p x -> mget m x = mget (k_mem s) x).
  { intros p x Hp Hx. apply Hm. apply (page_ok_disjoint p pa x); [by eapply is_table_page|done| |done].
    intros ->. done. }
  split; [split|split; [|split]].
  - by exists m, pa.
  - split; [done|done|by eapply pt_wf_ext|]. simpl. intros p Hp%(is_table_ext (k_mem s)); [|done].
    rewrite not_elem_of_cons. split; [by intros ->|by apply Hdis].
  - intros p. by apply is_table_ext.
  - intros x _ Hx. apply Hm. apply Hx. by left.
  - intros va. by apply pte_of_ext.
  - by apply table_at_ext.
  - done.
Qed.

Lemma releases_nil root fl s : pt_state root fl s -> releases root fl s [] s.
Proof.
  intros H. split; try done. exists (k_mem s), (k_freelist s). by destruct s.
Qed.

Lemma releases_app root fl s pas s1 pas' s2 :
  releases root fl s pas s1 -> releases root (pas ++ fl) s1 pas' s2 -> releases root fl s (pas' ++ pas) s2.
Proof.
  intros [(m & f & ->) Hps Ht Hf] [(m' & f' & ->) Hps' Ht' Hf']. split.
  - by exists m', f'.
  - by rewrite <- app_assoc.
  - intros p. by rewrite Ht', Ht.
  - intros x Hx Hy. rewrite Hf', Hf; [done|done| | |].
    + intros p Hp. apply Hy. set_solver.
    + intros p Hp%Ht. by apply Hx.
    + intros p Hp. apply Hy. set_solver.
Qed.

Lemma releases_set_leaf root fl s pas s1 a p v :
  releases root fl s pas s1 -> table_at (k_mem s1) root (dir_path a) = Some p ->
  releases root fl s pas (set_k_mem (store64 (k_mem s1) (p + 8 * PX 0 a) v) s1).
Proof.
  intros [(m & f & ->) Hps Ht Hf] Hp. pose proof (ps_wf _ _ _ Hps) as Hwf. split.
  - by eexists _, f.
  - apply (gr_ps _ _ _ _ _ (set_leaf_grows _ _ _ _ _ v Hps Hp)).
  - intros q. rewrite <- Ht. by apply set_leaf_is_table.
  - intros x Hx Hy. simpl. rewrite (set_leaf_frame _ root) by (done || intros q Hq%Ht; by apply Hx).
    by apply Hf.
Qed.

(** ** [uvmunmap] *)

Lemma pte_of_nonzero m root va :
  pte_of m root va <> 0 -> exists p, table_at m root (dir_path va) = Some p.
Proof. unfold pte_of. destruct (table_at m root (dir_path va)); [eauto|done]. Qed.

Lemma leaf_pte_nonzero pa perm : pa_ok pa -> flags_ok perm -> leaf_pte pa perm <> 0.
Proof. intros Hpa Hp E. pose proof (leaf_pte_V pa perm Hpa Hp) as H. by rewrite E in H. Qed.

Lemma leaf_pte_not_dir pa perm :
  pa_ok pa -> perm_ok perm -> PTE_FLAGS (leaf_pte pa perm) <> PTE_V.
Proof.
  intros Hpa [Hp Hne]. rewrite leaf_pte_flags by done. intros E. apply Hne.
  apply (f_equal (fun z => Z.land z (Z.lor PTE_R (Z.lor PTE_W PTE_X)))) in E.
  rewrite Z.land_lor_distr_l in E. change (Z.land PTE_V _) with 0 in E. by rewrite Z.lor_0_r in E.
Qed.

Lemma unmap_body_ok root fl s stop a pa perm :
  pt_state root fl s -> va_ok a -> a < MAXVA -> a < stop ->
  pte_of (k_mem s) root a = leaf_pte pa perm -> page_ok pa -> perm_ok perm ->
  pa ∉ fl -> ~ is_table (k_mem s) root pa ->
  exists s', uvmunmap_body root stop 1 a s = Ok (inl (a + PGSIZE)) s' /\ releases root fl s [pa] s' /\
    forall a', va_ok a' -> pte_of (k_mem s') root a' = unmap_range a 1 (pte_of (k_mem s) root) a'.
Proof.
  intros Hps Ha Hmax Hstop Hpte Hpa Hperm Hn Hnt. pose proof (page_ok_pa_ok pa Hpa) as Hpa'.
  destruct (pte_of_nonzero (k_mem s) root a) as [p Hp].
  { rewrite Hpte. apply leaf_pte_nonzero; [done|apply Hperm]. }
  destruct (kfree_pt root fl s pa Hps Hpa Hn Hnt) as (s1 & Hk & Hrel & Hsp & Htab & Hm).
  assert (Hp1 : table_at (k_mem s1) root (dir_path a) = Some p) by (by rewrite Htab by apply dir_path_ok).
  exists (set_k_mem (store64 (k_mem s1) (p + 8 * PX 0 a) 0) s1). split; [|split].
  - unfold uvmunmap_body. zcase (a <? stop). erewrite bind_ok by (by apply walk_0). rewrite Hp.
    pose proof (entry_nonzero _ _ _ _ (ps_wf _ _ _ Hps) Hp) as Hne.
    destruct (Z.eqb_spec (p + 8 * PX 0 a) 0) as [|_]; [done|]. unfold read64, write64. rewrite bind_gets.
    rewrite <- (pte_of_Some _ root) by done. rewrite Hpte.
    pose proof (leaf_pte_V pa perm Hpa' (proj1 Hperm)) as HV. unfold truth in HV.
    destruct (Z.land (leaf_pte pa perm) PTE_V =? 0); [done|].
    destruct (Z.eqb_spec (PTE_FLAGS (leaf_pte pa perm)) PTE_V) as [E|_].
    { by apply leaf_pte_not_dir in E. }
    cbn [truth Z.eqb negb when]. rewrite leaf_pte_pa by (done || apply Hperm).
    erewrite bind_ok by exact Hk. rewrite bind_modify. destruct Ha. rewrite u64_small by lz. done.
  - by apply releases_set_leaf.
  - intros a' Ha'. simpl. rewrite (set_leaf_pte _ root a p) by (done || apply (ps_wf _ _ _ (rl_ps _ _ _ _ _ Hrel))).
    rewrite Hsp. unfold unmap_range. case_decide as E.
    + subst. zcase (a <=? a). zcase (a <? a + 1 * PGSIZE). lz.
    + destruct Ha as [Ha _], Ha' as [Ha' _]. destruct (aligned_disjoint a a' Ha Ha'); [congruence|..];
        zcase (a <=? a'); zcase (a' <? a + 1 * PGSIZE); lz.
Qed.

Lemma va_ok_step va i n : va mod PGSIZE = 0 -> 0 <= va -> 0 <= i < n -> va + n * PGSIZE <= MAXVA -> va_ok (va + i * PGSIZE).
Proof. intros Ha H0 Hi Hb. split; [by rewrite Z_mod_plus_full|lz]. Qed.

Lemma unmap_range_0 va f a : unmap_range va 0 f a = f a.
Proof. unfold unmap_range. zcase (va <=? a); zcase (a <? va + 0 * PGSIZE). Qed.

Lemma unmap_range_S va n f a :
  va_ok a -> va mod PGSIZE = 0 -> 0 <= n ->
  unmap_range va (1 + n) f a = unmap_range (va + PGSIZE) n (unmap_range va 1 f) a.
Proof.
  intros [Ha _] Hva Hn. unfold unmap_range. destruct (decide (a = va)) as [->|Hne].
  - zcase (va <=? va). zcase (va <? va + (1 + n) * PGSIZE); try lz.
    zcase (va <? va + 1 * PGSIZE); try lz. zcase (va + PGSIZE <=? va).
  - assert (va + PGSIZE <= a \/ a + PGSIZE <= va) as [?|?] by (by apply aligned_disjoint);
      zcase (va <=? a); zcase (va + PGSIZE <=? a); try lz; cbn [andb]; try done.
    replace (va + (1 + n) * PGSIZE) with (va + PGSIZE + n * PGSIZE) by lia.
    destruct (a <? va + PGSIZE + n * PGSIZE); [done|]. zcase (a <? va + 1 * PGSIZE); lz.
Qed.

Lemma maps_at_tail root va pa perm l fl s s1 :
  maps_at root va ((pa, perm) :: l) fl s -> va mod PGSIZE = 0 -> 0 <= va ->
  va + (1 + lenZ l) * PGSIZE <= MAXVA ->
  releases root fl s [pa] s1 ->
  (forall a', va_ok a' -> pte_of (k_mem s1) root a' = unmap_range va 1 (pte_of (k_mem s) root) a') ->
  maps_at root (va + PGSIZE) l (pa :: fl) s1.
Proof.
  intros Hma Hva H0 Hb Hrel Hpt. split.
  - intros i q perm' Hi. pose proof (ma_pte _ _ _ _ _ Hma (S i) q perm' Hi) as E.
    pose proof (lookup_lt_Some _ _ _ Hi) as Hlt.
    replace (va + Z.of_nat (S i) * PGSIZE) with (va + PGSIZE + Z.of_nat i * PGSIZE) in E by lia.
    rewrite Hpt.
    + unfold unmap_range. destruct (Z.ltb_spec (va + PGSIZE + Z.of_nat i * PGSIZE) (va + 1 * PGSIZE)); [lz|].
      by rewrite andb_false_r.
    + replace (va + PGSIZE + Z.of_nat i * PGSIZE) with (va + (1 + Z.of_nat i) * PGSIZE) by lia.
      apply (va_ok_step va _ (1 + lenZ l)); [done|done|unfold lenZ; lia|done].
  - intros i q perm' Hi. by apply (ma_ok _ _ _ _ _ Hma (S i)).
  - intros i j q perm1 perm2 Hi Hj. pose proof (ma_inj _ _ _ _ _ Hma (S i) (S j) q perm1 perm2 Hi Hj). lia.
  - intros i q perm' Hi. destruct (ma_disj _ _ _ _ _ Hma (S i) q perm' Hi) as [Hq Hqt]. split.
    + rewrite not_elem_of_cons. split; [|done]. intros ->.
      by pose proof (ma_inj _ _ _ _ _ Hma 0 (S i) pa perm perm' eq_refl Hi).
    + by rewrite (rl_table _ _ _ _ _ Hrel).
Qed.

Lemma unmap_loop_ok root l : forall va fl s,
  pt_state root fl s -> maps_at root va l fl s -> va mod PGSIZE = 0 -> 0 <= va ->
  va + lenZ l * PGSIZE <= MAXVA ->
  exists s', loop (S (length l)) (uvmunmap_body root (va + lenZ l * PGSIZE) 1) va s = Ok tt s' /\
    releases root fl s (rev l.*1) s' /\
    forall a', va_ok a' -> pte_of (k_mem s') root a' = unmap_range va (lenZ l) (pte_of (k_mem s) root) a'.
Proof.
  induction l as [|[pa perm] l IH]; intros va fl s Hps Hma Hva H0 Hb.
  - exists s. split; [|split; [by apply releases_nil|]].
    + cbn [length loop]. unfold uvmunmap_body. zcase (va <? va + lenZ (A := Z * Z) [] * PGSIZE).
      unfold lenZ in *. simpl in *. lia.
    + intros a' _. by rewrite unmap_range_0.
  - rewrite lenZ_cons in *. pose proof (lenZ_nonneg l).
    destruct (ma_ok _ _ _ _ _ Hma 0 pa perm eq_refl) as [Hpa Hperm].
    destruct (ma_disj _ _ _ _ _ Hma 0 pa perm eq_refl) as [Hn Hnt].
    pose proof (ma_pte _ _ _ _ _ Hma 0 pa perm eq_refl) as Hpte. rewrite Z.add_0_r in Hpte.
    assert (Hva' : va_ok va) by (split; [done|lz]).
    destruct (unmap_body_ok root fl s (va + (1 + lenZ l) * PGSIZE) va pa perm)
      as (s1 & Hrun & Hrel & Hpt); try done; [lz..|].
    destruct (IH (va + PGSIZE) (pa :: fl) s1) as (s' & Hl & Hrel' & Hpt'); try lz.
    + apply (rl_ps _ _ _ _ _ Hrel).
    + by apply (maps_at_tail root va pa perm l fl s).
    + by apply next_page_aligned.
    + exists s'. split; [|split].
      * cbn [length]. remember (S (length l)) as n. cbn [loop]. erewrite bind_ok by exact Hrun. cbn beta iota. subst n.
        replace (va + (1 + lenZ l) * PGSIZE) with (va + PGSIZE + lenZ l * PGSIZE) by lia. exact Hl.
      * cbn [fmap list_fmap rev fst]. by eapply (releases_app _ _ _ [pa]).
      * intros a' Ha'. rewrite unmap_range_S by (done || lia). rewrite Hpt' by done.
        unfold unmap_range at 1 2. destruct (_ && _); [done|]. by apply Hpt.
Qed.

Lemma uvmunmap_ok root va l fl s :
  pt_state root fl s -> maps_at root va l fl s -> va mod PGSIZE = 0 -> 0 <= va ->
  va + lenZ l * PGSIZE <= MAXVA ->
  exists s', uvmunmap root va (lenZ l) 1 s = Ok tt s' /\ releases root fl s (rev l.*1) s' /\
    forall a', va_ok a' -> pte_of (k_mem s') root a' = unmap_range va (lenZ l) (pte_of (k_mem s) root) a'.
Proof.
  intros Hps Hma Hva H0 Hb. destruct (unmap_loop_ok root l va fl s) as (s' & Hl & H); try done.
  exists s'. split; [|done]. unfold uvmunmap. rewrite Hva. cbn [Z.eqb negb].
  pose proof (lenZ_nonneg l). rewrite u64_small by lz. unfold lenZ at 1. by rewrite Nat2Z.id.
Qed.

(** ** Frames *)

Lemma uframe_refl root l fl s : uframe root l fl s l fl s.
Proof. split; try done. exists (k_mem s), (k_freelist s). by destruct s. Qed.

Lemma off_pages_iff (P Q : Z -> Prop) x : (forall p, P p <-> Q p) -> off_pages P x -> off_pages Q x.
Proof. intros H Hx p Hp. apply Hx. by apply H. Qed.

Lemma uframe_trans root l fl s l1 fl1 s1 l2 fl2 s2 :
  uframe root l fl s l1 fl1 s1 -> uframe root l1 fl1 s1 l2 fl2 s2 -> uframe root l fl s l2 fl2 s2.
Proof.
  intros [(m & f & ->) Hp Ht Hf] [(m' & f' & ->) Hp' Ht' Hf']. split.
  - by exists m', f'.
  - intros p. by rewrite Hp', Hp.
  - intros a Ha Hge. by rewrite Ht', Ht.
  - intros x Hx. rewrite Hf', Hf; [done|done|]. eapply off_pages_iff; [|exact Hx]. intros p. by rewrite Hp.
Qed.

Lemma uframe_releases root l fl s s' :
  releases root fl s (rev l) s' -> same_top root s s' -> uframe root l fl s [] (rev l ++ fl) s'.
Proof.
  intros [Hst Hps Ht Hf] Htop. split; [done| |done|].
  - intros p. unfold space_pages. rewrite Ht, elem_of_app, elem_of_rev.
    simpl. rewrite elem_of_nil. tauto.
  - intros x Hx. apply Hf; intros p Hp; apply Hx; [by left|right; left].
    by rewrite <- elem_of_rev.
Qed.

Lemma uframe_grows root l fl s fl' s' :
  grows root fl s fl' s' -> same_top root s s' -> uframe root l fl s l fl' s'.
Proof.
  intros [Hst Hps (new & -> & Ht) Hf] Htop. split; [done| |done|].
  - intros p. unfold space_pages. rewrite Ht, elem_of_app. tauto.
  - intros x Hx. apply Hf; intros p Hp; apply Hx; [by left|by right; right].
Qed.

(** A state whose memory agrees on the tables of [root]. *)
Lemma uspace_ext root l fl s fl' s' :
  uspace root l fl s -> kmem_ready s' -> kmem_inv fl' s' ->
  (forall p, p ∈ fl' -> ~ is_table (k_mem s) root p /\ p ∉ l.*1) ->
  (forall p x, is_table (k_mem s) root p -> in_page p x -> mget (k_mem s') x = mget (k_mem s) x) ->
  uspace root l fl' s'.
Proof.
  intros [Hps Hma Hlen Hfree] Hr Hi Hsub Hm. split.
  - split; [done|done|by eapply pt_wf_ext, (ps_wf _ _ _ Hps)|].
    intros p Hp%(is_table_ext (k_mem s)); [|done]. intros Hin. by destruct (Hsub p Hin).
  - split; intros.
    + rewrite (pte_of_ext (k_mem s)) by done. by eapply ma_pte.
    + by eapply ma_ok.
    + by eapply ma_inj.
    + rewrite (is_table_ext (k_mem s)) by done. destruct (ma_disj _ _ _ _ _ Hma i pa perm) as [? ?]; [done|].
      split; [|done]. intros Hin. destruct (Hsub pa Hin) as [_ Hl]. apply Hl, list_elem_of_fmap.
      exists (pa, perm). split; [done|]. by eapply list_elem_of_lookup_2.
  - done.
  - intros a Ha Hr'. rewrite (pte_of_ext (k_mem s)) by done. by apply Hfree.
Qed.

(** ** [uvmdealloc] *)

Lemma maps_at_app_l root va l1 l2 fl s : maps_at root va (l1 ++ l2) fl s -> maps_at root va l1 fl s.
Proof.
  intros [H1 H2 H3 H4]. split; intros; eauto using lookup_app_l_Some.
Qed.

Lemma maps_at_app_r root va l1 l2 fl s :
  maps_at root va (l1 ++ l2) fl s -> maps_at root (va + lenZ l1 * PGSIZE) l2 fl s.
Proof.
  intros [H1 H2 H3 H4]. split; intros i; intros.
  - rewrite <- (H1 (length l1 + i)%nat) by (by rewrite lookup_app_shift). f_equal. unfold lenZ. lia.
  - apply (H2 (length l1 + i)%nat). by rewrite lookup_app_shift.
  - assert (length l1 + i = length l1 + j)%nat; [|lia].
    eapply H3; rewrite lookup_app_shift; eassumption.
  - apply (H4 (length l1 + i)%nat pa perm). by rewrite lookup_app_shift.
Qed.

(** The mappings of [l] survive when other pages are released. *)
Lemma maps_at_releases root va l fl s pas s' :
  maps_at root va l fl s -> releases root fl s pas s' ->
  (forall i pa perm, l !! i = Some (pa, perm) -> pa ∉ pas /\
     pte_of (k_mem s') root (va + Z.of_nat i * PGSIZE) = pte_of (k_mem s) root (va + Z.of_nat i * PGSIZE)) ->
  maps_at root va l (pas ++ fl) s'.
Proof.
  intros [H1 H2 H3 H4] Hrel H. split; intros i; intros.
  - destruct (H i pa perm) as [_ ->]; eauto.
  - eauto.
  - eauto.
  - rewrite (rl_table _ _ _ _ _ Hrel), not_elem_of_app. destruct (H i pa perm), (H4 i pa perm); eauto.
Qed.

Lemma uspace_unmap root l1 l2 fl s :
  uspace root (l1 ++ l2) fl s ->
  exists s', uvmunmap root (lenZ l1 * PGSIZE) (lenZ l2) 1 s = Ok tt s' /\
    uspace root l1 (rev l2.*1 ++ fl) s' /\ uframe root l2.*1 fl s [] (rev l2.*1 ++ fl) s'.
Proof.
  intros [Hps Hma Hlen Hfree]. rewrite lenZ_app in Hlen, Hfree.
  pose proof (lenZ_nonneg l1). pose proof (lenZ_nonneg l2).
  destruct (uvmunmap_ok root (lenZ l1 * PGSIZE) l2 fl s) as (s' & Hrun & Hrel & Hpt).
  { done. } { by apply (maps_at_app_r root 0). } { apply Z_mod_mult. } { lz. } { lz. }
  exists s'. split; [done|]. split; [split|apply uframe_releases; [done|]].
  - apply (rl_ps _ _ _ _ _ Hrel).
  - apply (maps_at_releases _ _ _ _ s); [by eapply maps_at_app_l|done|]. intros i pa perm Hi.
    pose proof (lookup_lt_Some _ _ _ Hi). split.
    + rewrite elem_of_rev, list_elem_of_fmap. intros ([pa' perm'] & -> & (j & Hj)%list_elem_of_lookup).
      assert (i = length l1 + j)%nat; [|lia].
      eapply (ma_inj _ _ _ _ _ Hma); [by apply lookup_app_l_Some|]. rewrite lookup_app_shift. exact Hj.
    + rewrite Hpt by (apply (va_ok_step 0 _ (lenZ l1)); [done|lia|unfold lenZ; lia|lz]).
      unfold unmap_range. destruct (Z.leb_spec (lenZ l1 * PGSIZE) (0 + Z.of_nat i * PGSIZE)); [|done].
      unfold lenZ in *. lz.
  - lz.
  - intros a Ha Hr. rewrite Hpt by done. unfold unmap_range.
    zcase (lenZ l1 * PGSIZE <=? a). zcase (a <? lenZ l1 * PGSIZE + lenZ l2 * PGSIZE). simpl. apply Hfree; [done|lz].
  - intros a Ha Hge. rewrite Hpt by done. unfold unmap_range.
    destruct (Z.ltb_spec a (lenZ l1 * PGSIZE + lenZ l2 * PGSIZE)); [lz|]. by rewrite andb_false_r.
Qed.

(** ** [uvmdealloc] *)

Lemma uvmdealloc_ok root l1 l2 fl s oldsz newsz :
  uspace root (l1 ++ l2) fl s -> 0 <= newsz < oldsz -> oldsz <= TRAPFRAME ->
  PGROUNDUP oldsz = lenZ (l1 ++ l2) * PGSIZE -> PGROUNDUP newsz = lenZ l1 * PGSIZE ->
  exists s', uvmdealloc root oldsz newsz s = Ok newsz s' /\
    uspace root l1 (rev l2.*1 ++ fl) s' /\ uframe root l2.*1 fl s [] (rev l2.*1 ++ fl) s'.
Proof.
  intros Hus Hsz Htop Eo En. unfold uvmdealloc. zcase (oldsz <=? newsz). rewrite Eo, En, lenZ_app.
  pose proof (lenZ_nonneg l1). pose proof (lenZ_nonneg l2). pose proof (us_len _ _ _ _ Hus) as Hlen.
  rewrite lenZ_app in Hlen. destruct (Z.ltb_spec (lenZ l1 * PGSIZE) ((lenZ l1 + lenZ l2) * PGSIZE)).
  - replace ((lenZ l1 + lenZ l2) * PGSIZE - lenZ l1 * PGSIZE) with (lenZ l2 * PGSIZE) by lia.
    rewrite Z.div_mul by lz. rewrite i32_small, u64_small by lz.
    destruct (uspace_unmap root l1 l2 fl s Hus) as (s' & Hrun & H'). exists s'. split; [|done].
    cbn [when]. by erewrite bind_ok by exact Hrun.
  - assert (l2 = []) as -> by (destruct l2; [done|rewrite lenZ_cons in *; pose proof (lenZ_nonneg l2); lz]).
    exists s. split; [done|]. split; [by rewrite app_nil_r in Hus|apply uframe_refl].
Qed.

(** ** New data pages *)

(** [fill] is what the caller of [kalloc] writes to its new page. *)
Definition fills (r : Z) (m m' : mem) : Prop := forall x, ~ in_page r x -> mget m' x = mget m x.

Lemma kalloc_space root l fl s :
  uspace root l fl s ->
  (fl = [] /\ kalloc s = Ok 0 s) \/
  exists r fl' s1, fl = r :: fl' /\ kalloc s = Ok r s1 /\ page_ok r /\ r <> 0 /\
    (forall x, ~ in_page r x -> mget (k_mem s1) x = mget (k_mem s) x) /\
    forall m, fills r (k_mem s1) m ->
      uspace root l fl' (set_k_mem m s1) /\ r ∉ fl' /\ r ∉ l.*1 /\ ~ is_table m root r /\
      uframe root [] fl s [r] fl' (set_k_mem m s1).
Proof.
  intros Hus. pose proof (us_ps _ _ _ _ Hus) as Hps. destruct (Hps) as [Hr Hi Hwf Hdis].
  pose proof (kalloc_ok s fl Hr Hi) as Hk. destruct fl as [|r fl']; [by left|right].
  destruct Hk as (m1 & f & Hk & Hi' & Hrp & Hrn & _ & Hm1). pose proof (page_ok_bounds r Hrp).
  exists r, fl', (set_k_mem m1 (set_k_freelist f s)). split_and!; try done; [apply Hrp..|lia|].
  intros m Hm. assert (Hnt : ~ is_table (k_mem s) root r) by (intros Ht; apply (Hdis r Ht); left).
  assert (Hout : forall x, ~ in_page r x -> mget m x = mget (k_mem s) x) by (intros x Hx; by rewrite Hm, <- Hm1).
  assert (Hext : forall p x, is_table (k_mem s) root p -> in_page p x -> mget m x = mget (k_mem s) x).
  { intros p x Hp Hx. apply Hout, (page_ok_disjoint p r x); [by eapply is_table_page|done|congruence|done]. }
  split_and!.
  - apply (uspace_ext root l (r :: fl') s); [done|done| | |done].
    2: { intros p Hp. split; [intros Ht; apply (Hdis p Ht); by right|].
      intros ([pa perm] & -> & (i & Hi2)%list_elem_of_lookup)%list_elem_of_fmap.
      destruct (ma_disj _ _ _ _ _ (us_maps _ _ _ _ Hus) i pa perm Hi2) as [Hn _]. apply Hn. by right. }
    apply (kmem_inv_mem fl' (set_k_mem m1 (set_k_freelist f s))); [done|]. intros p x Hp Hx. apply Hm.
    destruct Hi' as (_ & _ & Hok). rewrite Forall_forall in Hok.
    apply (page_ok_disjoint p r x (Hok p Hp) Hrp); [congruence|done].
  - done.
  - rewrite list_elem_of_fmap. intros ([pa perm] & -> & (i & Hi2)%list_elem_of_lookup).
    destruct (ma_disj _ _ _ _ _ (us_maps _ _ _ _ Hus) i pa perm Hi2) as [Hn _]. apply Hn. left.
  - by rewrite (is_table_ext (k_mem s)).
  - split; [by exists m, f| | |].
    + intros p. unfold space_pages. simpl. rewrite (is_table_ext (k_mem s)) by done. set_solver.
    + intros a _ _. by apply pte_of_ext.
    + intros x Hx. apply Hout. apply Hx. right. right. left.
Qed.

(** An address space keeps its mappings while its page table grows. *)
Lemma maps_at_grows root va l fl s fl' s' :
  maps_at root va l fl s -> grows root fl s fl' s' ->
  (forall i, (i < length l)%nat ->
     pte_of (k_mem s') root (va + Z.of_nat i * PGSIZE) = pte_of (k_mem s) root (va + Z.of_nat i * PGSIZE)) ->
  maps_at root va l fl' s'.
Proof.
  intros [H1 H2 H3 H4] [_ _ (new & -> & Ht) _] H. split; intros i; intros.
  - rewrite H; [eauto|]. by eapply lookup_lt_Some.
  - eauto.
  - eauto.
  - destruct (H4 i pa perm) as [Hn ?]; [done|]. rewrite not_elem_of_app in Hn. rewrite Ht. tauto.
Qed.

Lemma uspace_grows root l fl s fl' s' :
  uspace root l fl s -> grows root fl s fl' s' ->
  (forall a, va_ok a -> pte_of (k_mem s') root a = pte_of (k_mem s) root a) -> uspace root l fl' s'.
Proof.
  intros [Hps Hma Hlen Hfree] Hg Hpt. split; [apply (gr_ps _ _ _ _ _ Hg)| |done|].
  - eapply maps_at_grows; [done..|]. intros i Hi. apply Hpt.
    apply (va_ok_step 0 _ (lenZ l)); [done|lia|unfold lenZ; lia|lz].
  - intros a Ha Hr. rewrite Hpt by done. by apply Hfree.
Qed.

Lemma maps_at_snoc root va l fl s r perm :
  maps_at root va l fl s -> pte_of (k_mem s) root (va + lenZ l * PGSIZE) = leaf_pte r perm ->
  page_ok r -> perm_ok perm -> r ∉ l.*1 -> r ∉ fl -> ~ is_table (k_mem s) root r ->
  maps_at root va (l ++ [(r, perm)]) fl s.
Proof.
  intros [H1 H2 H3 H4] Hpte Hr Hperm Hrl Hrf Hrt.
  assert (Hl : forall i pa perm', (l ++ [(r, perm)]) !! i = Some (pa, perm') ->
    l !! i = Some (pa, perm') \/ (i = length l /\ pa = r /\ perm' = perm)).
  { intros i pa perm' [Hi|[Hi Hs]]%lookup_app_Some; [by left|right].
    destruct (i - length l)%nat eqn:E; simpl in Hs; [|done]. injection Hs as <- <-. split; [lia|done]. }
  assert (Hne : forall i perm', l !! i = Some (r, perm') -> False).
  { intros i perm' Hi. apply Hrl. apply list_elem_of_fmap. exists (r, perm'). split; [done|].
    by eapply list_elem_of_lookup_2. }
  split.
  - intros i pa perm' [Hi|(-> & -> & ->)]%Hl; [by apply H1|exact Hpte].
  - intros i pa perm' [Hi|(-> & -> & ->)]%Hl; [by eapply H2|done].
  - intros i j pa p1 p2 [Hi|(-> & -> & ->)]%Hl [Hj|(-> & ? & ->)]%Hl; subst; try done; try (by exfalso; eauto).
    by eapply H3.
  - intros i pa perm' [Hi|(-> & -> & ->)]%Hl; [by eapply H4|done].
Qed.

(** Mapping the new page at the end of the address space. *)
Lemma uspace_push root l fl s r perm :
  uspace root l fl s -> page_ok r -> perm_ok perm -> r ∉ fl -> r ∉ l.*1 -> ~ is_table (k_mem s) root r ->
  lenZ l * PGSIZE + PGSIZE <= TRAPFRAME ->
  exists c fl' s', mappages root (lenZ l * PGSIZE) PGSIZE r perm s = Ok c s' /\ grows root fl s fl' s' /\
    (length fl <= length fl' + 2)%nat /\ same_top root s s' /\
    ((c = 0 /\ uspace root (l ++ [(r, perm)]) fl' s') \/ (c = -1 /\ fl' = [] /\ uspace root l fl' s')) /\
    r ∉ fl' /\ ~ is_table (k_mem s') root r.
Proof.
  intros Hus Hr Hperm Hrf Hrl Hrt Htop. pose proof (lenZ_nonneg l).
  pose proof (page_ok_pa_ok r Hr) as [Hra Hrb]. pose proof (page_ok_bounds r Hr).
  destruct (mappages_ok root (lenZ l * PGSIZE) PGSIZE r perm fl s) as (c & k & fl' & s' & Hrun & Hg & Hn & Hc & Hpt).
  { apply Hus. } { apply Z_mod_mult. } { done. } { done. } { apply Hperm. } { lz. } { lz. } { lz. } { lz. } { lz. }
  { intros a Ha Hr'. rewrite (us_free _ _ _ _ Hus) by (done || lz). done. }
  change (PGSIZE / PGSIZE) with 1 in *. exists c, fl', s'. split; [done|]. split; [done|].
  split; [unfold lenZ in *; lia|]. split.
  { intros a Ha Hge. rewrite Hpt by done. unfold map_range. destruct Hc as [[-> ->]|(-> & Hk & ->)].
    - destruct (Z.ltb_spec a (lenZ l * PGSIZE + 1 * PGSIZE)); [lz|]. by rewrite andb_false_r.
    - assert (k = 0) as -> by lia. destruct (Z.ltb_spec a (lenZ l * PGSIZE + 0 * PGSIZE)); [lz|]. by rewrite andb_false_r. }
  assert (Hrn : r ∉ fl' /\ ~ is_table (k_mem s') root r).
  { pose proof Hg as [_ _ (new & -> & Ht) _]. rewrite not_elem_of_app in Hrf. rewrite Ht. tauto. }
  split; [|done]. destruct Hc as [[-> ->]|(-> & Hk & ->)]; [left; split; [done|]|right; split; [done|split; [done|]]].
  - assert (Hva : va_ok (lenZ l * PGSIZE)) by (split; [apply Z_mod_mult|lz]). split.
    + apply (gr_ps _ _ _ _ _ Hg).
    + apply maps_at_snoc; try done; try apply Hrn.
      * eapply maps_at_grows; [apply (us_maps _ _ _ _ Hus)|done|]. intros i Hi.
        rewrite Hpt by (apply (va_ok_step 0 _ (lenZ l)); [done|lia|unfold lenZ; lia|lz]).
        unfold map_range. destruct (Z.leb_spec (lenZ l * PGSIZE) (0 + Z.of_nat i * PGSIZE)); [|done].
        unfold lenZ in *. lz.
      * rewrite Z.add_0_l, Hpt, map_range_1 by (done || apply Z_mod_mult). by rewrite decide_True.
    + rewrite lenZ_app. unfold lenZ at 2. simpl. lia.
    + intros a Ha Hr'. rewrite lenZ_app in Hr'. unfold lenZ at 2 in Hr'. simpl in Hr'.
      rewrite Hpt, map_range_1 by (done || apply Z_mod_mult). rewrite decide_False by lz.
      apply (us_free _ _ _ _ Hus); [done|lz].
  - apply (uspace_grows root l fl s); [done..|]. intros a Ha. rewrite Hpt by done.
    assert (k = 0) as -> by lia. apply map_range_0.
Qed.

(** ** [uvmalloc] *)

Lemma uframe_app root ds ds0 ds1 fl s fl' s' :
  uframe root ds0 fl s ds1 fl' s' -> uframe root (ds ++ ds0) fl s (ds ++ ds1) fl' s'.
Proof.
  intros [Hst Hp Ht Hf]. split; [done| |done|].
  - intros p. specialize (Hp p). unfold space_pages in *. rewrite !elem_of_app.
    clear -Hp. naive_solver.
  - intros x Hx. apply Hf. intros p Hp'. apply Hx. unfold space_pages in *. rewrite elem_of_app. tauto.
Qed.

Lemma uspace_data_page root l fl s pa : uspace root l fl s -> pa ∈ l.*1 -> page_ok pa /\ pa ∉ fl /\ ~ is_table (k_mem s) root pa.
Proof.
  intros Hus ([pa' perm] & -> & (i & Hi)%list_elem_of_lookup)%list_elem_of_fmap. simpl.
  pose proof (us_maps _ _ _ _ Hus) as Hma. split; [by eapply (ma_ok _ _ _ _ _ Hma)|by eapply (ma_disj _ _ _ _ _ Hma)].
Qed.

(** A page that is neither free nor a table is not touched by growth. *)
Lemma page_off_tables root fl s pa x :
  pt_state root fl s -> page_ok pa -> pa ∉ fl -> ~ is_table (k_mem s) root pa -> in_page pa x ->
  off_pages (is_table (k_mem s) root) x /\ off_pages (fun p => p ∈ fl) x.
Proof.
  intros Hps Hpa Hn Hnt Hx. pose proof (ps_inv _ _ _ Hps) as (_ & _ & Hok). rewrite Forall_forall in Hok.
  split; intros p Hp; apply (page_ok_disjoint pa p x); try done; try congruence; try (by apply Hok).
  by eapply is_table_page, Hp; apply Hps.
Qed.

Lemma grows_page root fl s fl' s' pa x :
  grows root fl s fl' s' -> pt_state root fl s -> page_ok pa -> pa ∉ fl -> ~ is_table (k_mem s) root pa ->
  in_page pa x -> mget (k_mem s') x = mget (k_mem s) x.
Proof.
  intros Hg Hps Hpa Hn Hnt Hx. destruct (page_off_tables root fl s pa x) as [H1 H2]; try done.
  by apply (gr_frame _ _ _ _ _ Hg).
Qed.

Lemma uspace_kfree root l fl s r :
  uspace root l fl s -> page_ok r -> r ∉ fl -> r ∉ l.*1 -> ~ is_table (k_mem s) root r ->
  exists s', kfree r s = Ok tt s' /\ uspace root l (r :: fl) s' /\ uframe root [r] fl s [] (r :: fl) s'.
Proof.
  intros [Hps Hma Hlen Hfree] Hr Hn Hnl Hnt.
  destruct (kfree_pt root fl s r Hps Hr Hn Hnt) as (s' & Hk & Hrel & Hsp & _).
  exists s'. split; [done|]. split; [split|apply (uframe_releases root [r]); [done|intros a _ _; apply Hsp]].
  - apply (rl_ps _ _ _ _ _ Hrel).
  - apply (maps_at_releases _ _ _ _ s _ _ Hma Hrel). intros i pa perm Hi. split; [|apply Hsp].
    rewrite list_elem_of_singleton. intros ->. apply Hnl, list_elem_of_fmap. exists (r, perm).
    split; [done|]. by eapply list_elem_of_lookup_2.
  - done.
  - intros a Ha Hr'. rewrite Hsp. by apply Hfree.
Qed.

Lemma uvmdealloc_pages root l new fl s :
  uspace root (l ++ new) fl s ->
  exists c s', uvmdealloc root (lenZ (l ++ new) * PGSIZE) (lenZ l * PGSIZE) s = Ok c s' /\
    uspace root l (rev new.*1 ++ fl) s' /\ uframe root new.*1 fl s [] (rev new.*1 ++ fl) s'.
Proof.
  intros Hus. pose proof (us_len _ _ _ _ Hus) as Hlen. rewrite lenZ_app in Hlen.
  pose proof (lenZ_nonneg l). pose proof (lenZ_nonneg new). destruct new as [|d new].
  - exists (lenZ (l ++ []) * PGSIZE), s. rewrite app_nil_r in *. split_and!; [|done|apply uframe_refl].
    unfold uvmdealloc. by destruct (Z.leb_spec (lenZ l * PGSIZE) (lenZ l * PGSIZE)); [|lia].
  - rewrite lenZ_cons in Hlen. pose proof (lenZ_nonneg new).
    destruct (uvmdealloc_ok root l (d :: new) fl s (lenZ (l ++ d :: new) * PGSIZE) (lenZ l * PGSIZE)) as (s' & Hrun & H');
      try done; rewrite ?lenZ_app, ?lenZ_cons; try lz.
    + rewrite PGROUNDUP_id; [done|apply Z_mod_mult|lz..].
    + rewrite PGROUNDUP_id; [done|apply Z_mod_mult|lz..].
    + exists (lenZ l * PGSIZE), s'. by rewrite lenZ_app, lenZ_cons in Hrun.
Qed.

(** The new pages are zero-filled and mapped with [perm]. *)
Definition zero_pages (perm : Z) (new : list (Z * Z)) (s : kstate) : Prop :=
  forall r p, (r, p) ∈ new -> p = perm /\ forall x, in_page r x -> mget (k_mem s) x = 0.

Lemma zero_fills m r : page_ok r -> fills r m (memset m r 0 PGSIZE).
Proof. intros Hr x Hx. apply mget_memset_out; [lz|exact Hx]. Qed.

Lemma zero_pages_push perm new fl s s2 fl' s3 root r l :
  uspace root (l ++ new) (r :: fl) s -> zero_pages perm new s -> page_ok r ->
  pt_state root fl s2 -> r ∉ fl -> ~ is_table (k_mem s2) root r ->
  (forall p, p ∈ fl -> p ∈ r :: fl) -> (forall p, is_table (k_mem s2) root p -> is_table (k_mem s) root p) ->
  (forall x, in_page r x -> mget (k_mem s2) x = 0) ->
  (forall x, ~ in_page r x -> mget (k_mem s2) x = mget (k_mem s) x) ->
  grows root fl s2 fl' s3 -> zero_pages perm (new ++ [(r, perm)]) s3.
Proof.
  intros Hus Hz Hr Hps2 Hrf Hrt Hsub Htab Hzr Hout Hg q p [Hq|Hq]%elem_of_app.
  - destruct (Hz q p Hq) as [-> Hzq]. split; [done|]. intros x Hx.
    destruct (uspace_data_page root _ _ s q Hus) as (Hqp & Hqn & Hqt).
    { rewrite fmap_app, elem_of_app. right. apply list_elem_of_fmap. by exists (q, perm). }
    rewrite not_elem_of_cons in Hqn. destruct Hqn as [Hqr Hqf].
    rewrite (grows_page root fl s2 fl' s3 q) by (done || (intros Ht; by apply Hqt, Htab)).
    rewrite Hout; [by apply Hzq|]. by apply (page_ok_disjoint q r x).
  - apply list_elem_of_singleton in Hq. injection Hq as -> ->. split; [done|]. intros x Hx.
    rewrite (grows_page root fl s2 fl' s3 r) by done. by apply Hzr.
Qed.

(** One turn of the loop of [uvmalloc]. *)
Lemma uvmalloc_body_ok root l new fl s newsz xperm :
  uspace root (l ++ new) fl s -> zero_pages (alloc_perm xperm) new s -> perm_ok (alloc_perm xperm) ->
  lenZ (l ++ new) * PGSIZE < newsz -> lenZ (l ++ new) * PGSIZE + PGSIZE <= TRAPFRAME ->
  let run := uvmalloc_body root (lenZ l * PGSIZE) newsz xperm (lenZ (l ++ new) * PGSIZE) s in
  exists fl' s',
    (run = Ok (inr 0) s' /\ uspace root l fl' s' /\ uframe root new.*1 fl s [] fl' s' /\ lenZ fl <= 3) \/
    (exists r, let new' := new ++ [(r, alloc_perm xperm)] in lenZ fl <= lenZ fl' + 3 /\
       run = Ok (inl (lenZ (l ++ new') * PGSIZE)) s' /\ uspace root (l ++ new') fl' s' /\
       zero_pages (alloc_perm xperm) new' s' /\ uframe root new.*1 fl s new'.*1 fl' s').
Proof.
  intros Hus Hzero Hperm Hlt Htop run. pose proof (lenZ_nonneg (l ++ new)).
  assert (Hrun0 : run = (pg <- kalloc;; if pg =? 0 then uvmdealloc root (lenZ (l ++ new) * PGSIZE) (lenZ l * PGSIZE);; ret (inr 0) else
    memset_m pg 0 PGSIZE;;
    c <- mappages root (lenZ (l ++ new) * PGSIZE) PGSIZE pg (alloc_perm xperm);;
    if negb (c =? 0) then kfree pg;; uvmdealloc root (lenZ (l ++ new) * PGSIZE) (lenZ l * PGSIZE);; ret (inr 0) else
    ret (inl (u64 (lenZ (l ++ new) * PGSIZE + PGSIZE)))) s).
  { unfold run, uvmalloc_body. by destruct (Z.ltb_spec (lenZ (l ++ new) * PGSIZE) newsz); [|lia]. }
  destruct (kalloc_space root (l ++ new) fl s Hus)
    as [[-> Hk]|(r & fl1 & s1 & -> & Hk & Hr & Hr0 & Hs1 & Hfill)].
  - destruct (uvmdealloc_pages root l new [] s Hus) as (c & s' & Hrun & Hus' & Hf).
    exists (rev new.*1 ++ []), s'. left. split; [|split; [done|split; [done|unfold lenZ; simpl; lia]]].
    rewrite Hrun0. erewrite bind_ok by exact Hk. cbn [Z.eqb]. by erewrite bind_ok by exact Hrun.
  - set (s2 := set_k_mem (memset (k_mem s1) r 0 PGSIZE) s1).
    destruct (Hfill (memset (k_mem s1) r 0 PGSIZE)) as (Hus2 & Hrf & Hrl & Hrt & Hf2); [by apply zero_fills|].
    assert (Hout : forall x, ~ in_page r x -> mget (k_mem s2) x = mget (k_mem s) x).
    { intros x Hx. simpl. rewrite (zero_fills _ r Hr x Hx). by apply Hs1. }
    destruct (uspace_push root (l ++ new) fl1 s2 r (alloc_perm xperm)) as (c & fl2 & s3 & Hrun & Hg & Hn & Htp & Hc & Hrf3 & Hrt3); try done.
    apply (uframe_app _ new.*1) in Hf2. rewrite app_nil_r in Hf2.
    pose proof (uframe_trans _ _ _ _ _ _ _ _ _ _ Hf2 (uframe_grows _ (new.*1 ++ [r]) _ _ _ _ Hg Htp)) as Hf3.
    rewrite Hrun0. clear Hrun0. destruct Hc as [[-> Hus3]|(-> & -> & Hus3)].
    + exists fl2, s3. right. exists r. split_and!.
      * unfold lenZ. simpl. lia.
      * erewrite bind_ok by exact Hk. destruct (Z.eqb_spec r 0) as [|_]; [done|]. unfold memset_m. rewrite bind_modify.
        erewrite bind_ok by exact Hrun. cbn [Z.eqb negb]. rewrite u64_small by lz. unfold ret. do 2 f_equal.
        rewrite app_assoc, (lenZ_app _ [_]). unfold lenZ at 3. simpl. lia.
      * by rewrite app_assoc.
      * apply (zero_pages_push _ _ fl1 s s2 fl2 s3 root r l);
          [exact Hus|exact Hzero|exact Hr|apply Hus2|exact Hrf|exact Hrt|by right| | |exact Hout|exact Hg].
        -- intros p. apply (is_table_ext (k_mem s)). intros q x Hq Hx. apply Hout.
           apply (page_ok_disjoint q r x); [eapply is_table_page, Hq; apply Hus|done| |done].
           intros ->. apply (ps_disj _ _ _ (us_ps _ _ _ _ Hus) r Hq). left.
        -- intros x Hx. simpl. by rewrite mget_memset_in.
      * by rewrite fmap_app.
    + destruct (uspace_kfree root (l ++ new) [] s3 r) as (s4 & Hkf & Hus4 & Hf4); try done.
      destruct (uvmdealloc_pages root l new [r] s4 Hus4) as (c & s5 & Hrun5 & Hus5 & Hf5).
      exists (rev new.*1 ++ [r]), s5. left. split_and!; [|done| |unfold lenZ; simpl in *; lia].
      * erewrite bind_ok by exact Hk. destruct (Z.eqb_spec r 0) as [|_]; [done|]. unfold memset_m. rewrite bind_modify.
        erewrite bind_ok by exact Hrun. cbn [Z.eqb negb]. erewrite bind_ok by exact Hkf. by erewrite bind_ok by exact Hrun5.
      * apply (uframe_app _ new.*1) in Hf4. rewrite app_nil_r in Hf4.
        exact (uframe_trans _ _ _ _ _ _ _ _ _ _ Hf3 (uframe_trans _ _ _ _ _ _ _ _ _ _ Hf4 Hf5)).
Qed.

Lemma PGROUNDUP_unique sz k : 0 <= sz -> sz + PGSIZE - 1 < 2 ^ 64 -> 0 <= k ->
  sz <= k * PGSIZE < sz + PGSIZE -> PGROUNDUP sz = k * PGSIZE.
Proof.
  intros H0 H1 Hk Hr. rewrite PGROUNDUP_eq by lz. f_equal. symmetry.
  apply (Z.div_unique _ _ _ (sz + PGSIZE - 1 - PGSIZE * k)); lz.
Qed.

Lemma uvmalloc_loop_ok root l newsz xperm n : perm_ok (alloc_perm xperm) -> 0 <= newsz <= TRAPFRAME ->
  forall new fl s fuel,
  uspace root (l ++ new) fl s -> zero_pages (alloc_perm xperm) new s -> (n < fuel)%nat ->
  newsz <= (lenZ (l ++ new) + Z.of_nat n) * PGSIZE ->
  lenZ (l ++ new) * PGSIZE < newsz + PGSIZE ->
  exists c new' fl' s',
    loop fuel (uvmalloc_body root (lenZ l * PGSIZE) newsz xperm) (lenZ (l ++ new) * PGSIZE) s = Ok c s' /\
    uframe root new.*1 fl s new'.*1 fl' s' /\ uspace root (l ++ new') fl' s' /\
    ((c = 0 /\ new' = [] /\ lenZ fl <= 3 * Z.of_nat n) \/
     (c = newsz /\ zero_pages (alloc_perm xperm) new' s' /\ PGROUNDUP newsz = lenZ (l ++ new') * PGSIZE /\
      lenZ fl <= lenZ fl' + 3 * Z.of_nat n)).
Proof.
  intros Hperm Hsz. induction n as [|n IH]; intros new fl s [|fuel] Hus Hz Hf Hn Hlt; try lia; cbn [loop];
    pose proof (lenZ_nonneg (l ++ new));
    destruct (Z.ltb_spec (lenZ (l ++ new) * PGSIZE) newsz) as [Hl|Hl]; try lz.
  1, 3: exists newsz, new, fl, s; split_and!; [|apply uframe_refl|done|right; split_and!; [done|done| |lia]];
    [unfold bind, uvmalloc_body; by destruct (Z.ltb_spec (lenZ (l ++ new) * PGSIZE) newsz); [lia|]
    |apply PGROUNDUP_unique; lz].
  assert (Htop : lenZ (l ++ new) * PGSIZE + PGSIZE <= TRAPFRAME).
  { change TRAPFRAME with ((2 ^ 26 - 2) * 4096) in *. change PGSIZE with 4096 in *. lia. }
  destruct (uvmalloc_body_ok root l new fl s newsz xperm) as (fl1 & s1 & [(Hrun & Hus1 & Hf1 & Hn1)|(r & Hn1 & Hrun & Hus1 & Hz1 & Hf1)]); try done.
  - exists 0, [], fl1, s1. split_and!; [by erewrite bind_ok by exact Hrun|done|by rewrite app_nil_r|left; split_and!; [done|done|lia]].
  - assert (Hlen : lenZ (l ++ new ++ [(r, alloc_perm xperm)]) = lenZ (l ++ new) + 1) by (rewrite app_assoc, lenZ_app; done).
    destruct (IH (new ++ [(r, alloc_perm xperm)]) fl1 s1 fuel) as (c & new' & fl' & s' & Hl' & Hf' & Hus' & Hc); try done; try lz.
    exists c, new', fl', s'. split_and!; [|by eapply uframe_trans|done|].
    + erewrite bind_ok by exact Hrun. exact Hl'.
    + destruct Hc as [(-> & -> & ?)|Hc]; [left; split_and!; [done|done|lia]|right].
      destruct Hc as (-> & ? & ? & ?). split_and!; try done. lia.
Qed.

Lemma uvmalloc_ok root l fl s oldsz newsz xperm :
  uspace root l fl s -> PGROUNDUP oldsz = lenZ l * PGSIZE -> 0 <= oldsz <= newsz -> newsz <= TRAPFRAME ->
  perm_ok (alloc_perm xperm) ->
  exists c new fl' s', uvmalloc root oldsz newsz xperm s = Ok c s' /\
    uframe root [] fl s new.*1 fl' s' /\ uspace root (l ++ new) fl' s' /\
    ((c = 0 /\ new = [] /\ lenZ fl <= 3 * (newsz / PGSIZE + 1)) \/
     (c = newsz /\ zero_pages (alloc_perm xperm) new s' /\ PGROUNDUP newsz = lenZ (l ++ new) * PGSIZE /\
      lenZ fl <= lenZ fl' + 3 * (newsz / PGSIZE + 1))).
Proof.
  intros Hus Eo Ho Htop Hperm. unfold uvmalloc. zcase (newsz <? oldsz). rewrite Eo.
  pose proof (lenZ_nonneg l). destruct (PGROUNDUP_bounds oldsz) as [Hb1 Hb2]; [lz..|].
  destruct (uvmalloc_loop_ok root l newsz xperm (1 + Z.to_nat (newsz / PGSIZE)) Hperm ltac:(lia) [] fl s
    (2 + Z.to_nat (newsz / PGSIZE))) as (c & new & fl' & s' & Hl & H'); rewrite ?app_nil_r; try done; try lia.
  - intros r p Hr. by inversion Hr.
  - rewrite Nat2Z.inj_add, Z2Nat.id by (apply Z.div_pos; lz).
    pose proof (Z.div_mod newsz PGSIZE ltac:(lz)). pose proof (Z.mod_pos_bound newsz PGSIZE ltac:(lz)). lz.
  - exists c, new, fl', s'. destruct H' as (Hf & Hus' & Hc). split_and!; [by rewrite app_nil_r in Hl|done..|].
    destruct Hc as [(-> & -> & Hn)|(-> & Hz & Hpg & Hn)]; [left|right];
      rewrite Nat2Z.inj_add, Z2Nat.id in Hn by (apply Z.div_pos; lz); split_and!; try done; lia.
Qed.

(** ** Isolation *)

(** Pages of the address space [old] that are no pages of [new]. *)
Definition apart (old : Z) (lo : list (Z * Z)) (new : Z) (ds : list Z) (s : kstate) : Prop :=
  forall p, is_table (k_mem s) old p \/ p ∈ lo.*1 -> ~ is_table (k_mem s) new p /\ p ∉ ds.

(** What happens to [new] does not change [old], its tables or its memory. *)
Lemma uspace_other old lo fl s new ds ds' fl' s' :
  uspace old lo fl s -> uframe new ds fl s ds' fl' s' -> kmem_inv fl s -> pt_wf (k_mem s) new ->
  Forall page_ok ds -> apart old lo new ds s -> kmem_ready s' -> kmem_inv fl' s' ->
  uspace old lo fl' s' /\ apart old lo new ds' s' /\
  forall p x, is_table (k_mem s) old p \/ p ∈ lo.*1 -> in_page p x -> mget (k_mem s') x = mget (k_mem s) x.
Proof.
  intros Hus Huf (_ & _ & Hfl) Hwf Hds Hap Hr' Hi'. rewrite Forall_forall in Hfl, Hds.
  pose proof (ps_wf _ _ _ (us_ps _ _ _ _ Hus)) as Hwfo.
  assert (Hown : forall p, is_table (k_mem s) old p \/ p ∈ lo.*1 -> page_ok p /\ ~ space_pages new ds fl s p).
  { intros p Hp. destruct (Hap p Hp) as [H1 H2]. destruct Hp as [Hp|Hp].
    - split; [exact (is_table_page _ _ _ Hwfo Hp)|]. intros [?|[?|?]]; try done.
      by apply (ps_disj _ _ _ (us_ps _ _ _ _ Hus) p).
    - destruct (uspace_data_page _ _ _ _ _ Hus Hp) as (? & ? & ?). split; [done|]. by intros [?|[?|?]]. }
  assert (Hmem : forall p x, is_table (k_mem s) old p \/ p ∈ lo.*1 -> in_page p x -> mget (k_mem s') x = mget (k_mem s) x).
  { intros p x Hp Hx. destruct (Hown p Hp) as [Hok Hno]. apply (uf_frame _ _ _ _ _ _ _ Huf).
    intros q Hq. apply (page_ok_disjoint p q x); [done| |congruence|done].
    destruct Hq as [Hq|[Hq|Hq]]; [exact (is_table_page _ _ _ Hwf Hq)|by apply Hds|by apply Hfl]. }
  split; [|split; [|done]].
  - apply (uspace_ext old lo fl s); [done..| |by eauto].
    intros p Hp. assert (space_pages new ds fl s p) as Hsp by (apply (uf_pages _ _ _ _ _ _ _ Huf); by right; right).
    split; intros Hq; destruct (Hown p); auto.
  - intros p Hp. rewrite (is_table_ext (k_mem s)) in Hp by eauto. destruct (Hown p Hp) as [_ Hno].
    rewrite <- (uf_pages _ _ _ _ _ _ _ Huf) in Hno. unfold space_pages in Hno. tauto.
Qed.

Lemma uspace_empty root fl s :
  pt_state root fl s -> (forall va, pte_of (k_mem s) root va = 0) -> uspace root [] fl s.
Proof.
  intros Hps H0. split; [done|split; intros i; intros; by destruct i|by vm_compute|]. intros. apply H0.
Qed.

(** ** Properties *)

(** C5: [uvmalloc] grows an address space or rolls back.  On success the
    address space is extended by zero-filled pages mapped for the user with
    the requested permissions up to [PGROUNDUP(newsz)]; on failure, which needs
    the free list to be short, it returns 0 and the address space is as before.  In both cases the memory of the
    old pages is unchanged, no page is lost, and pages outside this page
    table and the free list are untouched. *)
Theorem uvmalloc_grows_or_rolls_back root l fl s oldsz newsz xperm :
  uspace root l fl s -> PGROUNDUP oldsz = lenZ l * PGSIZE -> 0 <= oldsz <= newsz -> newsz <= TRAPFRAME ->
  perm_ok (alloc_perm xperm) ->
  exists c new fl' s', uvmalloc root oldsz newsz xperm s = Ok c s' /\
    uspace root (l ++ new) fl' s' /\ uframe root [] fl s new.*1 fl' s' /\
    (forall pa x, pa ∈ l.*1 -> in_page pa x -> mget (k_mem s') x = mget (k_mem s) x) /\
    ((c = 0 /\ new = [] /\ lenZ fl <= 3 * (newsz / PGSIZE + 1)) \/
     (c = newsz /\ zero_pages (alloc_perm xperm) new s' /\ PGROUNDUP newsz = lenZ (l ++ new) * PGSIZE)).
Proof.
  intros Hus Eo Ho Htop Hperm.
  destruct (uvmalloc_ok root l fl s oldsz newsz xperm) as (c & new & fl' & s' & Hrun & Huf & Hus' & Hc); try done.
  exists c, new, fl', s'. split_and!; try done; [|tauto]. intros pa x Hpa Hx. apply (uf_frame _ _ _ _ _ _ _ Huf).
  destruct (uspace_data_page _ _ _ _ _ Hus Hpa) as (Hok & Hn & Hnt).
  destruct (page_off_tables root fl s pa x) as [H1 H2]; try done; [apply Hus|].
  intros p [Hp|[Hp|Hp]]; [by apply H1|by inversion Hp|by apply H2].
Qed.

(** [uvmdealloc] to a smaller size unmaps exactly the pages above
    [PGROUNDUP(newsz)] and puts each of them on the free list; the address
    space below keeps its mappings and its memory. *)
Theorem uvmdealloc_frees root l1 l2 fl s oldsz newsz :
  uspace root (l1 ++ l2) fl s -> 0 <= newsz < oldsz -> oldsz <= TRAPFRAME ->
  PGROUNDUP oldsz = lenZ (l1 ++ l2) * PGSIZE -> PGROUNDUP newsz = lenZ l1 * PGSIZE ->
  exists s', uvmdealloc root oldsz newsz s = Ok newsz s' /\
    uspace root l1 (rev l2.*1 ++ fl) s' /\ uframe root l2.*1 fl s [] (rev l2.*1 ++ fl) s' /\
    forall pa x, pa ∈ l1.*1 -> in_page pa x -> mget (k_mem s') x = mget (k_mem s) x.
Proof.
  intros Hus Hsz Htop Eo En. destruct (uvmdealloc_ok root l1 l2 fl s oldsz newsz) as (s' & Hrun & Hus' & Huf); try done.
  exists s'. split_and!; try done. intros pa x Hpa Hx. apply (uf_frame _ _ _ _ _ _ _ Huf).
  assert (Hpa' : pa ∈ (l1 ++ l2).*1) by (rewrite fmap_app; set_solver).
  destruct (uspace_data_page _ _ _ _ _ Hus Hpa') as (Hok & Hn & Hnt).
  destruct (page_off_tables root fl s pa x) as [H1 H2]; try done; [apply Hus|].
  intros p [Hp|[Hp|Hp]]; [by apply H1| |by apply H2].
  assert (Hp' : p ∈ (l1 ++ l2).*1) by (rewrite fmap_app; set_solver).
  destruct (uspace_data_page _ _ _ _ _ Hus Hp') as (Hpok & _).
  apply (page_ok_disjoint pa p x); [done..| |done]. intros ->.
  apply list_elem_of_fmap in Hpa as ([p1 q1] & E1 & (i & Hi)%list_elem_of_lookup).
  apply list_elem_of_fmap in Hp as ([p2 q2] & E2 & (j & Hj)%list_elem_of_lookup). simpl in *. subst p1 p2.
  assert (i = length l1 + j)%nat.
  { eapply (ma_inj _ _ _ _ _ (us_maps _ _ _ _ Hus)); [by apply lookup_app_l_Some|by rewrite lookup_app_shift]. }
  apply lookup_lt_Some in Hi. lia.
Qed.

(** address spaces are isolated.  Growing one address space, whether it
    succeeds or not, leaves every other one with its mappings, its page
    table and the contents of its memory. *)
Theorem uvmalloc_isolation root l other lo fl s oldsz newsz xperm :
  uspace root l fl s -> PGROUNDUP oldsz = lenZ l * PGSIZE -> 0 <= oldsz <= newsz -> newsz <= TRAPFRAME ->
  perm_ok (alloc_perm xperm) ->
  uspace other lo fl s -> apart other lo root l.*1 s ->
  exists c fl' s', uvmalloc root oldsz newsz xperm s = Ok c s' /\ uspace other lo fl' s' /\
    (forall va, pte_of (k_mem s') other va = pte_of (k_mem s) other va) /\
    forall pa x, pa ∈ lo.*1 -> in_page pa x -> mget (k_mem s') x = mget (k_mem s) x.
Proof.
  intros Hus Eo Ho Htop Hperm Huo Hap.
  destruct (uvmalloc_ok root l fl s oldsz newsz xperm) as (c & new & fl' & s' & Hrun & Huf & Hus' & Hc); try done.
  destruct (uspace_other other lo fl s root [] new.*1 fl' s') as (Huo' & _ & Hmem); try done.
  - apply (ps_inv _ _ _ (us_ps _ _ _ _ Hus)).
  - apply (ps_wf _ _ _ (us_ps _ _ _ _ Hus)).
  - intros p Hp. split; [by apply Hap|apply not_elem_of_nil].
  - apply (ps_ready _ _ _ (us_ps _ _ _ _ Hus')).
  - apply (ps_inv _ _ _ (us_ps _ _ _ _ Hus')).
  - exists c, fl', s'. split_and!; try done; [|by eauto].
    intros va. apply pte_of_ext. eauto.
Qed.

End Uvm.

(** Two fresh address spaces in the state [kinit] leaves, for the witnesses. *)
Lemma demo_spaces : exists root other fl s,
  uspace root [] fl s /\ uspace other [] fl s /\ apart other [] root [] s /\ lenZ fl = 32732 /\
  forall va, pte_of (k_mem s) root va = 0.
Proof.
  destruct demo_pt as (other & fl & s & Hps & H0 & Ht & Hn). pose proof (uspace_empty _ _ _ Hps H0) as Huo.
  destruct (uvmcreate_ok fl s (ps_ready _ _ _ Hps) (ps_inv _ _ _ Hps))
    as [[-> _]|(r & fl' & m & f & -> & _ & Hps' & Hr & Ht' & Hpte & Hm)]; [done|]. rewrite lenZ_cons in Hn.
  assert (Hne : r <> other). { intros ->. apply (ps_disj _ _ _ Hps other); [by apply Ht|left]. }
  assert (Hext : forall p x, is_table (k_mem s) other p -> in_page p x -> mget m x = mget (k_mem s) x).
  { intros p x Hp Hx. apply Hm, (page_ok_disjoint p r x); [|done| |done].
    - exact (is_table_page _ _ _ (ps_wf _ _ _ Hps) Hp).
    - apply Ht in Hp. congruence. }
  exists r, other, fl', (set_k_mem m (set_k_freelist f s)). split_and!.
  - by apply uspace_empty.
  - apply (uspace_ext other [] (r :: fl') s); [done|apply Hps'|apply Hps'| |done].
    intros p Hp. split; [|apply not_elem_of_nil]. intros Hpt. apply (ps_disj _ _ _ Hps p Hpt). by right.
  - intros p [Hp|Hp]; [|by inversion Hp]. split; [|apply not_elem_of_nil]. simpl in *.
    rewrite Ht'. apply (is_table_ext (k_mem s)) in Hp; [|done]. apply Ht in Hp. congruence.
  - lia.
  - exact Hpte.
Qed.

(** An address space with three pages the user may write. *)
Lemma demo_user : exists root l fl s, uspace root l fl s /\ lenZ l = 3 /\
  (forall i pa perm, l !! i = Some (pa, perm) -> perm = alloc_perm PTE_W) /\
  forall a, va_ok a -> TRAPFRAME <= a -> pte_of (k_mem s) root a = 0.
Proof.
  destruct demo_spaces as (root & _ & fl & s & Hus & _ & _ & Hn & H0).
  destruct (uvmalloc_ok root [] fl s 0 0x3000 PTE_W Hus)
    as (c & l & fl' & s' & _ & Huf & Hus' & [(_ & _ & Hle)|(_ & Hz & Hsz & _)]); [reflexivity|lia|lz|by vm_compute|..].
  - exfalso. change (0x3000 / PGSIZE) with 3 in Hle. lia.
  - change ([] ++ l) with l in *. change (PGROUNDUP 0x3000) with (3 * PGSIZE) in Hsz.
    exists root, l, fl', s'. split; [exact Hus'|]. split; [lz|]. split.
    + intros i pa perm Hi. apply list_elem_of_lookup_2 in Hi. by destruct (Hz pa perm Hi).
    + intros a Ha Hge. rewrite (uf_top _ _ _ _ _ _ _ Huf) by done. apply H0.
Qed.

Lemma uvmalloc_grows_or_rolls_back_witness : exists root s s', uvmalloc root 0 0x3000 PTE_W s = Ok 0x3000 s'.
Proof.
  destruct demo_spaces as (root & _ & fl & s & Hus & _ & _ & Hn & _).
  destruct (uvmalloc_grows_or_rolls_back root [] fl s 0 0x3000 PTE_W Hus)
    as (c & new & fl' & s' & Hrun & _ & _ & _ & [(_ & _ & Hle)|(-> & _)]); [reflexivity|lia|lz|by vm_compute| |].
  - exfalso. change (0x3000 / PGSIZE) with 3 in Hle. lia.
  - exists root, s, s'. exact Hrun.
Defined.

Lemma uvmdealloc_frees_witness : exists root s s', uvmdealloc root 0x3000 0 s = Ok 0 s'.
Proof.
  destruct demo_user as (root & l & fl & s & Hus & Hl & _).
  destruct (uvmdealloc_frees root [] l fl s 0x3000 0 Hus) as (s' & Hrun & _); [lia|lz| |reflexivity|].
  - change ([] ++ l) with l. rewrite Hl. reflexivity.
  - exists root, s, s'. exact Hrun.
Defined.

Lemma uvmalloc_isolation_witness : exists root other s c s', uvmalloc root 0 0x3000 PTE_W s = Ok c s' /\
  forall va, pte_of (k_mem s') other va = pte_of (k_mem s) other va.
Proof.
  destruct demo_spaces as (root & other & fl & s & Hus & Huo & Hap & Hn & _).
  destruct (uvmalloc_isolation root [] other [] fl s 0 0x3000 PTE_W Hus)
    as (c & fl' & s' & Hrun & _ & Hpte & _); [reflexivity|lia|lz|by vm_compute|exact Huo|exact Hap|].
  exists root, other, s, c, s'. split; [exact Hrun|exact Hpte].
Defined.
