(* ===== verification/UvmCopy.v ===== *)
(** * Copying an address space: [uvmcopy] of [kernel/vm.c]

    [fork] copies the parent's pages one by one into the child's page table.
    The theorem says that the child gets the same number of pages with the
    same contents and permissions in pages of its own, or nothing at all, and
    that the parent is untouched. *)

From S2P Require Import Prelude Riscv State Spinlock Str Kalloc Vm Uvm.

(** ** Definitions *)

Section UvmCopy.
Context {KI : KernelImage}.

(** One turn of the loop of [uvmcopy]; the label [err] is the second half. *)
Definition uvmcopy_body (old new sz i : Z) : M (Z + Z) :=
  if i <? sz then
    pte <- walk old i 0;;
    if pte =? 0 then panic "uvmcopy: pte should exist" else
    v <- read64 pte;;
    if Z.land v PTE_V =? 0 then panic "uvmcopy: page not present" else
    let pa := PTE2PA v in
    let flags := PTE_FLAGS v in
    let err := (uvmunmap new 0 (i / PGSIZE) 1;; ret (inr (-1))) in
    pg <- kalloc;;
    if pg =? 0 then err else
    memmove_m pg pa PGSIZE;;
    r <- mappages new i PGSIZE pg flags;;
    if negb (r =? 0) then kfree pg;; err else
    ret (inl (u64 (i + PGSIZE)))
  else ret (inr 0).

Definition uvmcopy (old new sz : Z) : M Z :=
  loop (2 + Z.to_nat (sz / PGSIZE)) (uvmcopy_body old new sz) 0.

(** Page [j] of [ln] is a copy of page [j] of [lo]: the same bytes and the same
    flags ([PTE_FLAGS] includes the valid bit). *)
Definition copied (lo ln : list (Z * Z)) (s : kstate) : Prop :=
  forall j pa perm pa' perm', lo !! j = Some (pa, perm) -> ln !! j = Some (pa', perm') ->
    perm' = Z.lor perm PTE_V /\
    forall i, 0 <= i < PGSIZE -> mget (k_mem s) (pa' + i) = mget (k_mem s) (pa + i).

(** ** One page *)

Lemma perm_ok_V perm : perm_ok perm -> perm_ok (Z.lor perm PTE_V).
Proof.
  intros [H1 H2]. split; [by apply flags_ok_V|]. rewrite Z.land_lor_distr_l. change (Z.land PTE_V _) with 0.
  by rewrite Z.lor_0_r.
Qed.

Lemma memmove_fills m r pa : fills r m (memmove m r pa PGSIZE).
Proof. intros x Hx. apply mget_memmove_out; [lz|exact Hx]. Qed.

Lemma lookup_data (l : list (Z * Z)) i pa perm : l !! i = Some (pa, perm) -> pa ∈ l.*1.
Proof.
  intros Hi. apply list_elem_of_fmap. exists (pa, perm). split; [done|]. by eapply list_elem_of_lookup_2.
Qed.

(** The pages of [ln] and [lo] are not touched while the page table [new]
    grows; the new page [r] is a copy of page [pa]. *)
Lemma copied_push old lo new ln fl s s2 s3 fl' r pa perm :
  uspace old lo (r :: fl) s -> uspace new ln (r :: fl) s -> apart old lo new ln.*1 s ->
  copied lo ln s -> lo !! length ln = Some (pa, perm) -> page_ok r ->
  uspace new ln fl s2 -> r ∉ fl -> ~ is_table (k_mem s2) new r ->
  (forall p, is_table (k_mem s2) new p -> is_table (k_mem s) new p) ->
  (forall i, 0 <= i < PGSIZE -> mget (k_mem s2) (r + i) = mget (k_mem s) (pa + i)) ->
  (forall x, ~ in_page r x -> mget (k_mem s2) x = mget (k_mem s) x) ->
  grows new fl s2 fl' s3 -> copied lo (ln ++ [(r, Z.lor perm PTE_V)]) s3.
Proof.
  intros Huo Hun Hap Hc Hpa Hr Hun2 Hrf Hrt Htab Hcp Hout Hg.
  assert (Hkeep : forall q i, page_ok q -> q <> r -> q ∉ fl -> ~ is_table (k_mem s) new q -> 0 <= i < PGSIZE ->
    mget (k_mem s3) (q + i) = mget (k_mem s) (q + i)).
  { intros q i Hq Hne Hqf Hqt Hi. assert (Hx : in_page q (q + i)) by (unfold in_page; lia).
    rewrite (grows_page new fl s2 fl' s3 q) by (done || apply Hun2 || (intros Ht; by apply Hqt, Htab)).
    apply Hout. by apply (page_ok_disjoint q r (q + i)). }
  assert (Hsrc : forall j q perm', lo !! j = Some (q, perm') -> forall i, 0 <= i < PGSIZE ->
    mget (k_mem s3) (q + i) = mget (k_mem s) (q + i)).
  { intros j q perm' Hj i Hi. destruct (uspace_data_page _ _ _ _ q Huo (lookup_data _ _ _ _ Hj)) as (Hq & Hqf & _).
    rewrite not_elem_of_cons in Hqf. apply Hkeep; try done; try apply Hqf.
    apply Hap. right. by eapply lookup_data. }
  intros j q perm' q' perm'' Hj Hj'. apply lookup_app_Some in Hj' as [Hj'|[Hle Hj']].
  - destruct (Hc j q perm' q' perm'' Hj Hj') as [-> Hb]. split; [done|]. intros i Hi.
    rewrite (Hsrc j q perm' Hj i Hi). rewrite <- Hb by done.
    destruct (uspace_data_page _ _ _ _ q' Hun (lookup_data _ _ _ _ Hj')) as (Hq & Hqf & Hqt).
    rewrite not_elem_of_cons in Hqf. apply Hkeep; try done; apply Hqf.
  - destruct (j - length ln)%nat eqn:E; [|done]. simpl in Hj'. injection Hj' as <- <-.
    assert (j = length ln) as -> by lia. rewrite Hpa in Hj. injection Hj as <- <-. split; [done|].
    intros i Hi. rewrite (Hsrc _ _ _ Hpa i Hi), <- Hcp by done.
    apply (grows_page new fl s2 fl' s3 r); try done; [apply Hun2|unfold in_page; lia].
Qed.

(** The label [err]: the pages copied so far are freed. *)
Lemma uvmcopy_err new ln fl s :
  uspace new ln fl s ->
  exists s', (uvmunmap new 0 (lenZ ln * PGSIZE / PGSIZE) 1;; ret (inr (A := Z) (-1))) s = Ok (inr (-1)) s' /\
    uspace new [] (rev ln.*1 ++ fl) s' /\ uframe new ln.*1 fl s [] (rev ln.*1 ++ fl) s'.
Proof.
  intros Hus. destruct (uspace_unmap new [] ln fl s Hus) as (s' & Hrun & H'). exists s'. split; [|done].
  rewrite Z.div_mul by lz. by erewrite bind_ok by exact Hrun.
Qed.

(** The part of the body before [kalloc]. *)
Lemma uvmcopy_body_read old lo new ln fl s sz pa perm :
  uspace old lo fl s -> lo !! length ln = Some (pa, perm) -> lenZ ln * PGSIZE < sz ->
  uvmcopy_body old new sz (lenZ (A := Z * Z) ln * PGSIZE) s =
    (let err := (uvmunmap new 0 (lenZ ln * PGSIZE / PGSIZE) 1;; ret (inr (-1))) in
     pg <- kalloc;;
     if pg =? 0 then err else
     memmove_m pg pa PGSIZE;;
     r <- mappages new (lenZ ln * PGSIZE) PGSIZE pg (Z.lor perm PTE_V);;
     if negb (r =? 0) then kfree pg;; err else
     ret (inl (u64 (lenZ ln * PGSIZE + PGSIZE)))) s.
Proof.
  intros Huo Hlo Hlt. pose proof (us_maps _ _ _ _ Huo) as Hma.
  pose proof (ma_pte _ _ _ _ _ Hma _ _ _ Hlo) as Hpte. destruct (ma_ok _ _ _ _ _ Hma _ _ _ Hlo) as [Hpa [Hperm _]].
  apply page_ok_pa_ok in Hpa. rewrite Z.add_0_l in Hpte. fold (lenZ ln) in Hpte.
  pose proof (lookup_lt_Some _ _ _ Hlo) as Hl. pose proof (us_len _ _ _ _ Huo) as Htop.
  destruct (pte_of_nonzero (k_mem s) old (lenZ ln * PGSIZE)) as [p Hp].
  { rewrite Hpte. by apply leaf_pte_nonzero. }
  unfold uvmcopy_body. destruct (Z.ltb_spec (lenZ ln * PGSIZE) sz); [|lia].
  erewrite bind_ok by (apply walk_0; unfold lenZ in *; lz). rewrite Hp.
  pose proof (entry_nonzero _ _ _ _ (ps_wf _ _ _ (us_ps _ _ _ _ Huo)) Hp) as Hne.
  destruct (Z.eqb_spec (p + 8 * PX 0 (lenZ ln * PGSIZE)) 0) as [|_]; [done|]. unfold read64. rewrite bind_gets.
  rewrite <- (pte_of_Some _ old) by done. rewrite Hpte.
  pose proof (leaf_pte_V pa perm Hpa Hperm) as HV. unfold truth in HV.
  destruct (Z.land (leaf_pte pa perm) PTE_V =? 0); [done|].
  by rewrite leaf_pte_pa, leaf_pte_flags by done.
Qed.

Lemma uvmcopy_body_ok old lo new ln fl s sz :
  uspace old lo fl s -> uspace new ln fl s -> apart old lo new ln.*1 s -> copied lo ln s ->
  (length ln < length lo)%nat -> lenZ ln * PGSIZE < sz ->
  let run := uvmcopy_body old new sz (lenZ ln * PGSIZE) s in
  exists fl' s',
    (run = Ok (inr (-1)) s' /\ uspace new [] fl' s' /\ uframe new ln.*1 fl s [] fl' s' /\ lenZ fl <= 3) \/
    (exists d, run = Ok (inl (lenZ (ln ++ [d]) * PGSIZE)) s' /\ uspace new (ln ++ [d]) fl' s' /\
       copied lo (ln ++ [d]) s' /\ uframe new ln.*1 fl s (ln ++ [d]).*1 fl' s' /\ lenZ fl <= lenZ fl' + 3).
Proof.
  intros Huo Hun Hap Hc Hlen Hsz run. destruct (lookup_lt_is_Some_2 lo (length ln) Hlen) as [[pa perm] Hlo].
  unfold run. rewrite (uvmcopy_body_read old lo new ln fl s sz pa perm) by done. clear run.
  destruct (ma_ok _ _ _ _ _ (us_maps _ _ _ _ Huo) _ _ _ Hlo) as [Hpa Hperm]. pose proof (us_len _ _ _ _ Huo) as Htop.
  destruct (kalloc_space new ln fl s Hun) as [[-> Hk]|(r & fl1 & s1 & -> & Hk & Hr & Hr0 & Hs1 & Hfill)].
  - destruct (uvmcopy_err new ln [] s Hun) as (s' & Hrun & Hus' & Hf).
    exists (rev ln.*1 ++ []), s'. left. split_and!; [|done|done|done].
    cbv zeta. erewrite bind_ok by exact Hk. exact Hrun.
  - set (m2 := memmove (k_mem s1) r pa PGSIZE).
    destruct (Hfill m2) as (Hun2 & Hrf & Hrl & Hrt & Hf2); [apply memmove_fills|].
    assert (Hout : forall x, ~ in_page r x -> mget m2 x = mget (k_mem s) x).
    { intros x Hx. unfold m2. rewrite (memmove_fills _ r pa x Hx). by apply Hs1. }
    assert (Hpar : pa <> r).
    { intros ->. destruct (ma_disj _ _ _ _ _ (us_maps _ _ _ _ Huo) _ _ _ Hlo) as [Hn _]. apply Hn. left. }
    assert (Hcp : forall i, 0 <= i < PGSIZE -> mget m2 (r + i) = mget (k_mem s) (pa + i)).
    { intros i Hi. unfold m2. rewrite mget_memmove_in by lia. rewrite Hs1; [f_equal; lia|].
      apply (page_ok_disjoint pa r); [done..|unfold in_page; lia]. }
    assert (Htab : forall p, is_table m2 new p -> is_table (k_mem s) new p).
    { intros p. apply (is_table_ext (k_mem s)). intros q x Hq Hx. apply Hout.
      apply (page_ok_disjoint q r x); [eapply is_table_page, Hq; apply Hun|done| |done].
      intros ->. apply (ps_disj _ _ _ (us_ps _ _ _ _ Hun) r Hq). left. }
    destruct (uspace_push new ln fl1 (set_k_mem m2 s1) r (Z.lor perm PTE_V))
      as (c & fl2 & s3 & Hrun & Hg & Hn & Htp & Hc' & Hrf3 & Hrt3); try done; [by apply perm_ok_V|unfold lenZ in *; lz|].
    apply (uframe_app _ ln.*1) in Hf2. rewrite app_nil_r in Hf2.
    pose proof (uframe_trans _ _ _ _ _ _ _ _ _ _ Hf2 (uframe_grows _ (ln.*1 ++ [r]) _ _ _ _ Hg Htp)) as Hf3.
    cbv zeta. erewrite bind_ok by exact Hk. destruct (Z.eqb_spec r 0) as [|_]; [done|].
    unfold memmove_m. rewrite bind_modify. erewrite bind_ok by exact Hrun.
    destruct Hc' as [[-> Hun3]|(-> & -> & Hun3)].
    + exists fl2, s3. right. exists (r, Z.lor perm PTE_V). split_and!.
      * cbn [Z.eqb negb]. pose proof (lenZ_nonneg ln). rewrite u64_small by (unfold lenZ in *; lz). unfold ret. do 2 f_equal.
        rewrite lenZ_app. unfold lenZ at 3. simpl. lia.
      * done.
      * by apply (copied_push old lo new ln fl1 s (set_k_mem m2 s1) s3 fl2 r pa perm).
      * by rewrite fmap_app.
      * unfold lenZ. simpl. lia.
    + destruct (uspace_kfree new ln [] s3 r) as (s4 & Hkf & Hun4 & Hf4); try done.
      destruct (uvmcopy_err new ln [r] s4 Hun4) as (s5 & Hrun5 & Hun5 & Hf5).
      exists (rev ln.*1 ++ [r]), s5. left. split_and!; [|done| |unfold lenZ; simpl in *; lia].
      * cbn [Z.eqb negb]. erewrite bind_ok by exact Hkf. exact Hrun5.
      * apply (uframe_app _ ln.*1) in Hf4. rewrite app_nil_r in Hf4.
        exact (uframe_trans _ _ _ _ _ _ _ _ _ _ Hf3 (uframe_trans _ _ _ _ _ _ _ _ _ _ Hf4 Hf5)).
Qed.

(** ** The loop *)

(** The parent is kept by whatever happens to the child's address space. *)
Lemma parent_kept old lo new ln fl s ln' fl' s' :
  uspace old lo fl s -> uspace new ln fl s -> apart old lo new ln.*1 s ->
  uframe new ln.*1 fl s ln'.*1 fl' s' -> uspace new ln' fl' s' ->
  uspace old lo fl' s' /\ apart old lo new ln'.*1 s' /\
  forall p x, is_table (k_mem s) old p \/ p ∈ lo.*1 -> in_page p x -> mget (k_mem s') x = mget (k_mem s) x.
Proof.
  intros Huo Hun Hap Huf Hun'. pose proof (us_ps _ _ _ _ Hun) as Hps. pose proof (us_ps _ _ _ _ Hun') as Hps'.
  apply (uspace_other old lo fl s new ln.*1 ln'.*1 fl' s'); try done; try apply Hps; try apply Hps'.
  apply Forall_forall. intros p Hp. by destruct (uspace_data_page _ _ _ _ p Hun Hp).
Qed.

Lemma uvmcopy_loop_ok old lo new sz n : 0 <= sz <= TRAPFRAME -> PGROUNDUP sz = lenZ lo * PGSIZE ->
  forall ln fl s fuel,
  uspace old lo fl s -> uspace new ln fl s -> apart old lo new ln.*1 s -> copied lo ln s ->
  (length ln + n = length lo)%nat -> (n < fuel)%nat ->
  exists c ln' fl' s', loop fuel (uvmcopy_body old new sz) (lenZ ln * PGSIZE) s = Ok c s' /\
    uframe new ln.*1 fl s ln'.*1 fl' s' /\ uspace new ln' fl' s' /\ uspace old lo fl' s' /\
    (forall p x, is_table (k_mem s) old p \/ p ∈ lo.*1 -> in_page p x -> mget (k_mem s') x = mget (k_mem s) x) /\
    ((c = 0 /\ length ln' = length lo /\ copied lo ln' s') \/ (c = -1 /\ ln' = [] /\ lenZ fl <= 3 * Z.of_nat n)).
Proof.
  intros Hsz Er. destruct (PGROUNDUP_bounds sz) as [Hb1 Hb2]; [lz..|].
  induction n as [|n IH]; intros ln fl s [|fuel] Huo Hun Hap Hc Hlen Hfuel; try lia; cbn [loop].
  - exists 0, ln, fl, s. split_and!; [|apply uframe_refl|done|done|done|left; split_and!; [done|lia|done]].
    unfold bind, uvmcopy_body. destruct (Z.ltb_spec (lenZ ln * PGSIZE) sz); [|done]. unfold lenZ in *. lz.
  - destruct (uvmcopy_body_ok old lo new ln fl s sz) as (fl1 & s1 & [(Hrun & Hun1 & Hf1 & Hn1)|(d & Hrun & Hun1 & Hc1 & Hf1 & Hn1)]);
      try done; [lia|unfold lenZ in *; lz| |].
    + destruct (parent_kept old lo new ln fl s [] fl1 s1) as (Huo1 & Hap1 & Hk1); try done.
      exists (-1), [], fl1, s1. split_and!; try done; [by erewrite bind_ok by exact Hrun|].
      right. split_and!; [done|done|lia].
    + destruct (parent_kept old lo new ln fl s (ln ++ [d]) fl1 s1) as (Huo1 & Hap1 & Hk1); try done.
      destruct (IH (ln ++ [d]) fl1 s1 fuel) as (c & ln' & fl' & s' & Hl' & Hf' & Hun' & Huo' & Hk' & Hc'); try done.
      { rewrite length_app. simpl. lia. } { lia. }
      exists c, ln', fl', s'. split_and!; try done; [by erewrite bind_ok by exact Hrun|by eapply uframe_trans| |].
      * intros p x Hp Hx. rewrite (Hk' p x); [by apply (Hk1 p)| |done].
        destruct Hp as [Hp|Hp]; [left|by right]. apply (is_table_ext (k_mem s)); eauto.
      * destruct Hc' as [?|(-> & -> & ?)]; [by left|right]. split_and!; [done|done|lia].
Qed.

Lemma uvmcopy_ok old lo new fl s sz :
  uspace old lo fl s -> uspace new [] fl s -> apart old lo new [] s ->
  0 <= sz <= TRAPFRAME -> PGROUNDUP sz = lenZ lo * PGSIZE ->
  exists c ln fl' s', uvmcopy old new sz s = Ok c s' /\
    uframe new [] fl s ln.*1 fl' s' /\ uspace new ln fl' s' /\ uspace old lo fl' s' /\
    (forall p x, is_table (k_mem s) old p \/ p ∈ lo.*1 -> in_page p x -> mget (k_mem s') x = mget (k_mem s) x) /\
    ((c = 0 /\ length ln = length lo /\ copied lo ln s') \/ (c = -1 /\ ln = [] /\ lenZ fl <= 3 * lenZ lo)).
Proof.
  intros Huo Hun Hap Hsz Er. destruct (PGROUNDUP_bounds sz) as [Hb1 Hb2]; [lz..|].
  apply (uvmcopy_loop_ok old lo new sz (length lo) Hsz Er []); try done.
  rewrite Er in Hb2. unfold lenZ in Hb2.
  pose proof (Z.div_mod sz PGSIZE ltac:(lz)). pose proof (Z.mod_pos_bound sz PGSIZE ltac:(lz)).
  pose proof (Z.div_pos sz PGSIZE ltac:(lia) ltac:(lz)). lz.
Qed.

(** ** Property *)

(** [uvmcopy] duplicates an address space.  On success the child has one
    page of its own for each page of the parent, with the same contents and
    flags; on failure, which needs the free list to be short, it returns -1
    and the child has no page.  In both cases the parent's address space,
    page table and memory are unchanged, and no page is lost. *)
Theorem uvmcopy_duplicates old lo new fl s sz :
  uspace old lo fl s -> uspace new [] fl s -> apart old lo new [] s ->
  0 <= sz <= TRAPFRAME -> PGROUNDUP sz = lenZ lo * PGSIZE ->
  exists c ln fl' s', uvmcopy old new sz s = Ok c s' /\
    uframe new [] fl s ln.*1 fl' s' /\ uspace new ln fl' s' /\ uspace old lo fl' s' /\
    (forall p x, is_table (k_mem s) old p \/ p ∈ lo.*1 -> in_page p x -> mget (k_mem s') x = mget (k_mem s) x) /\
    ((c = 0 /\ length ln = length lo /\ copied lo ln s') \/ (c = -1 /\ ln = [] /\ lenZ fl <= 3 * lenZ lo)).
Proof. apply uvmcopy_ok. Qed.

End UvmCopy.

Lemma uvmcopy_duplicates_witness : exists old new s s' s'',
  uvmalloc old 0 0x3000 PTE_W s = Ok 0x3000 s' /\ uvmcopy old new 0x3000 s' = Ok 0 s''.
Proof.
  destruct demo_spaces as (new & old & fl & s & Hun & Huo & Hap & Hn & _).
  destruct (uvmalloc_ok old [] fl s 0 0x3000 PTE_W Huo)
    as (c & lo & fl' & s' & Hrun & Huf & Huo' & [(_ & _ & Hle)|(-> & _ & Hsz & Hle)]); [reflexivity|lia|lz|by vm_compute|..];
    change (0x3000 / PGSIZE) with 3 in Hle; [lia|]. change ([] ++ lo) with lo in *.
  assert (Hap' : apart new [] old [] s).
  { intros p [Hp|Hp]; [|by inversion Hp]. split; [|apply not_elem_of_nil]. intros Hq. by destruct (Hap p (or_introl Hq)). }
  destruct (parent_kept new [] old [] fl s lo fl' s' Hun Huo Hap' Huf Huo') as (Hun' & Hap'' & _).
  assert (Hapo : apart old lo new [] s').
  { intros p Hp. split; [|apply not_elem_of_nil]. intros Hq. destruct (Hap'' p (or_introl Hq)) as [H1 H2].
    by destruct Hp. }
  destruct (uvmcopy_duplicates old lo new fl' s' 0x3000 Huo' Hun' Hapo ltac:(lz) Hsz)
    as (c & ln & fl'' & s'' & Hcp & _ & _ & _ & _ & [(-> & _)|(_ & _ & Hle')]).
  - exists old, new, s, s', s''. split; [exact Hrun|exact Hcp].
  - exfalso. change (PGROUNDUP 0x3000) with (3 * PGSIZE) in Hsz. lz.
Defined.
