(* ===== verification/UvmFree.v ===== *)
(** * Freeing an address space: [freewalk] and [uvmfree] of [kernel/vm.c]

    [freewalk] recurses over the three levels of page-table pages.  The
    theorem says that [uvmfree] returns every data page and every page-table
    page of an address space to the free list, and touches nothing else. *)

From S2P Require Import Prelude Riscv State Spinlock Str Kalloc Vm Uvm.

(** ** Definitions *)

Section UvmFree.
Context {KI : KernelImage}.

(** The fuel is the depth of the recursion: three levels of tables. *)
Fixpoint freewalk (fuel : nat) (pagetable : Z) : M unit :=
  match fuel with
  | O => fail OutOfFuel
  | S fuel' =>
      for_loop 512 0 (fun i =>
        pte <- read64 (pagetable + 8 * i);;
        if truth (Z.land pte PTE_V) && (Z.land pte (Z.lor PTE_R (Z.lor PTE_W PTE_X)) =? 0) then
          freewalk fuel' (PTE2PA pte);;
          write64 (pagetable + 8 * i) 0;;
          ret None
        else if truth (Z.land pte PTE_V) then panic "freewalk: leaf"
        else ret (None (A := unit)));;
      kfree pagetable
  end.

Definition uvmfree (pagetable sz : Z) : M unit :=
  when (0 <? sz) (uvmunmap pagetable 0 (PGROUNDUP sz / PGSIZE) 1);;
  freewalk 3 pagetable.

(** *** Trees of page-table pages of depth [n] *)

Definition path_in (n : nat) (path : list Z) : Prop :=
  (length path <= n)%nat /\ Forall (fun i => 0 <= i < 512) path.

Definition sub_table (n : nat) (m : mem) (p q : Z) : Prop :=
  exists path, path_in n path /\ table_at m p path = Some q.

(** The tables below [p] are distinct pages, and those at depth [n] are empty. *)
Record tree_wf (n : nat) (m : mem) (p : Z) : Prop := {
  tw_page path q : path_in n path -> table_at m p path = Some q -> page_ok q;
  tw_inj path path' q : path_in n path -> path_in n path' ->
    table_at m p path = Some q -> table_at m p path' = Some q -> path = path';
  tw_dir path q i c : path_in n (path ++ [i]) -> table_at m p path = Some q ->
    next_table m q i = Some c -> load64 m (q + 8 * i) = dir_pte c;
  tw_leaf path q i : path_in n path -> length path = n -> 0 <= i < 512 ->
    table_at m p path = Some q -> next_table m q i = None
}.

(** The body of the loop of [freewalk] at entry [i]. *)
Definition freewalk_body (fuel : nat) (pagetable i : Z) : M (option unit) :=
  pte <- read64 (pagetable + 8 * i);;
  if truth (Z.land pte PTE_V) && (Z.land pte (Z.lor PTE_R (Z.lor PTE_W PTE_X)) =? 0) then
    freewalk fuel (PTE2PA pte);;
    write64 (pagetable + 8 * i) 0;;
    ret None
  else if truth (Z.land pte PTE_V) then panic "freewalk: leaf"
  else ret None.

(** What [freewalk] does to a tree of depth [n]. *)
Definition frees_tree (n : nat) : Prop := forall p fl s,
  kmem_ready s -> kmem_inv fl s -> tree_wf n (k_mem s) p ->
  (forall q, sub_table n (k_mem s) p q -> q ∉ fl) ->
  exists fl' s', freewalk (S n) p s = Ok tt s' /\ (exists m f, s' = set_k_mem m (set_k_freelist f s)) /\
    kmem_inv fl' s' /\ (forall q, q ∈ fl' <-> q ∈ fl \/ sub_table n (k_mem s) p q) /\
    forall x, off_pages (sub_table n (k_mem s) p) x -> mget (k_mem s') x = mget (k_mem s) x.

(** The state [si] of the loop over the table [p] of a tree of depth [S n]
    before entry [i]; the loop started in [s]. *)
Record walk_inv (n : nat) (p : Z) (fl : list Z) (s : kstate) (i : Z) (fli : list Z) (si : kstate) : Prop := {
  wi_state : exists m f, si = set_k_mem m (set_k_freelist f s);
  wi_inv : kmem_inv fli si;
  wi_entry j : i <= j < 512 -> load64 (k_mem si) (p + 8 * j) = load64 (k_mem s) (p + 8 * j);
  wi_child j c q x : i <= j < 512 -> next_table (k_mem s) p j = Some c -> sub_table n (k_mem s) c q ->
    in_page q x -> mget (k_mem si) x = mget (k_mem s) x;
  wi_fl q : q ∈ fli <-> q ∈ fl \/
    exists j c, 0 <= j < i /\ next_table (k_mem s) p j = Some c /\ sub_table n (k_mem s) c q;
  wi_frame x : off_pages (sub_table (S n) (k_mem s) p) x -> mget (k_mem si) x = mget (k_mem s) x
}.

(** ** Subtrees *)

Lemma table_at_None m path : foldl (fun o i => o ≫= fun p => next_table m p i) None path = None.
Proof. by induction path. Qed.

Lemma table_at_cons m p i path :
  table_at m p (i :: path) = next_table m p i ≫= fun c => table_at m c path.
Proof.
  unfold table_at. cbn [foldl mbind option_bind]. destruct (next_table m p i); [done|apply table_at_None].
Qed.

Lemma path_in_cons n i path : path_in (S n) (i :: path) <-> 0 <= i < 512 /\ path_in n path.
Proof.
  unfold path_in. simpl. rewrite Forall_cons. intuition lia.
Qed.

Lemma path_in_nil n : path_in n [].
Proof. split; [simpl; lia|constructor]. Qed.

Lemma sub_table_root n m p : sub_table n m p p.
Proof. exists []. split; [apply path_in_nil|done]. Qed.

Lemma sub_table_child n m p i c q :
  next_table m p i = Some c -> 0 <= i < 512 -> sub_table n m c q -> sub_table (S n) m p q.
Proof.
  intros Hc Hi (path & Hp & Hq). exists (i :: path). split; [by apply path_in_cons|].
  rewrite table_at_cons, Hc. exact Hq.
Qed.

Lemma sub_table_inv n m p q :
  sub_table (S n) m p q -> q = p \/ exists i c, 0 <= i < 512 /\ next_table m p i = Some c /\ sub_table n m c q.
Proof.
  intros ([|i path] & Hp & Hq); [left; by injection Hq|right]. apply path_in_cons in Hp as [Hi Hp].
  rewrite table_at_cons in Hq. destruct (next_table m p i) as [c|] eqn:Hc; [|done].
  exists i, c. split_and!; try done; [apply Hi..|]. by exists path.
Qed.

Lemma tree_wf_child n m p i c : tree_wf (S n) m p -> next_table m p i = Some c -> 0 <= i < 512 -> tree_wf n m c.
Proof.
  intros [H1 H2 H3 H4] Hc Hi.
  assert (E : forall path, table_at m c path = table_at m p (i :: path)).
  { intros path. by rewrite table_at_cons, Hc. }
  split.
  - intros path q Hp. rewrite E. apply H1. by apply path_in_cons.
  - intros path path' q Hp Hp'. rewrite !E. intros Hq Hq'.
    assert (i :: path = i :: path') as [= ->]; [|done]. eapply H2; try done; by apply path_in_cons.
  - intros path q j d Hp. rewrite E. apply H3. cbn [app]. by apply path_in_cons.
  - intros path q j Hp Hl Hj. rewrite E. apply H4; [by apply path_in_cons|simpl; lia|done].
Qed.

Lemma child_ne_root n m p i c q :
  tree_wf (S n) m p -> next_table m p i = Some c -> 0 <= i < 512 -> sub_table n m c q -> q <> p.
Proof.
  intros Hwf Hc Hi (path & Hp & Hq) ->.
  assert (i :: path = []); [|done]. apply (tw_inj _ _ _ Hwf _ _ p); [by apply path_in_cons|apply path_in_nil| |done].
  by rewrite table_at_cons, Hc.
Qed.

Lemma children_disjoint n m p i c j d q :
  tree_wf (S n) m p -> next_table m p i = Some c -> next_table m p j = Some d -> 0 <= i < 512 -> 0 <= j < 512 ->
  sub_table n m c q -> sub_table n m d q -> i = j.
Proof.
  intros Hwf Hc Hd Hi Hj (path & Hp & Hq) (path' & Hp' & Hq').
  assert (i :: path = j :: path') as [= ->]; [|done].
  apply (tw_inj _ _ _ Hwf _ _ q); [by apply path_in_cons..| |]; by rewrite table_at_cons, ?Hc, ?Hd.
Qed.

Lemma tree_ext n m m' p :
  (forall q x, sub_table n m p q -> in_page q x -> mget m' x = mget m x) ->
  forall path, path_in n path -> table_at m' p path = table_at m p path.
Proof.
  intros Hm path. induction path as [|i path IH] using rev_ind; intros [Hl Hf]; [done|].
  rewrite length_app in Hl. simpl in Hl. apply Forall_app in Hf as [Hf Hi]. inversion Hi; subst.
  assert (Hp : path_in n path) by (split; [lia|done]). rewrite !table_at_snoc, IH by done.
  destruct (table_at m p path) as [q|] eqn:E; [|done]. simpl. apply next_table_ext, load64_ext. intros x Hx.
  apply (Hm q); [by exists path|]. by eapply entry_in_page.
Qed.

Lemma sub_table_ext n m m' p q :
  (forall q x, sub_table n m p q -> in_page q x -> mget m' x = mget m x) -> sub_table n m' p q <-> sub_table n m p q.
Proof.
  intros Hm. split; intros (path & Hp & Hq); exists path; (split; [done|]); rewrite <- Hq; [symmetry|]; by apply (tree_ext n).
Qed.

Lemma tree_wf_ext n m m' p :
  (forall q x, sub_table n m p q -> in_page q x -> mget m' x = mget m x) -> tree_wf n m p -> tree_wf n m' p.
Proof.
  intros Hm [H1 H2 H3 H4]. pose proof (tree_ext n m m' p Hm) as E.
  assert (Hl : forall path q i, path_in n path -> 0 <= i < 512 -> table_at m p path = Some q ->
    load64 m' (q + 8 * i) = load64 m (q + 8 * i)).
  { intros path q i Hp Hi Hq. apply load64_ext. intros x Hx. apply (Hm q); [by exists path|]. by eapply entry_in_page. }
  split.
  - intros path q Hp. rewrite E by done. by apply H1.
  - intros path path' q Hp Hp'. rewrite !E by done. by apply H2.
  - intros path q i c Hp. assert (Hp' : path_in n path /\ 0 <= i < 512).
    { destruct Hp as [Hlen Hf]. rewrite length_app in Hlen. apply Forall_app in Hf as [Hf Hi]. inversion Hi; subst.
      simpl in Hlen. split; [split; [lia|done]|done]. }
    rewrite E by apply Hp'. intros Hq. rewrite (next_table_ext m m'), (Hl path) by (apply Hp' || done || by eapply Hl, Hq; apply Hp').
    by apply (H3 path).
  - intros path q i Hp Hlen Hi. rewrite E by done. intros Hq. rewrite (next_table_ext m m') by (by eapply Hl).
    by apply (H4 path).
Qed.

(** ** The loop *)

Lemma dir_pte_no_rwx c : page_ok c -> Z.land (dir_pte c) (Z.lor PTE_R (Z.lor PTE_W PTE_X)) = 0.
Proof.
  intros Hc%page_ok_pa_ok. rewrite land_flags by by vm_compute. unfold dir_pte.
  rewrite PTE_FLAGS_pte by (done || by vm_compute). reflexivity.
Qed.

Lemma next_table_None_V m p i : next_table m p i = None -> truth (Z.land (load64 m (p + 8 * i)) PTE_V) = false.
Proof. unfold next_table. by destruct (truth _). Qed.

Lemma walk_inv_start n p fl s : kmem_inv fl s -> walk_inv n p fl s 0 fl s.
Proof.
  intros Hi. split; try done.
  - exists (k_mem s), (k_freelist s). by destruct s.
  - intros q. split; [by left|]. intros [?|(j & c & ? & _)]; [done|lia].
Qed.

Lemma freewalk_skip n p fl s i fli si :
  walk_inv n p fl s i fli si -> 0 <= i < 512 -> next_table (k_mem s) p i = None ->
  freewalk_body (S n) p i si = Ok None si /\ walk_inv n p fl s (i + 1) fli si.
Proof.
  intros [H1 H2 H3 H4 H5 H6] Hi Hn. split.
  - unfold freewalk_body, read64. rewrite bind_gets, H3 by lia.
    apply next_table_None_V in Hn. rewrite Hn. done.
  - split; try done.
    + intros j Hj. apply H3. lia.
    + intros j c q x Hj. apply H4. lia.
    + intros q. rewrite H5. split; (intros [?|(j & c & ? & ? & ?)]; [by left|right]); exists j, c; [split_and!; try done; lia|].
      assert (j <> i) by congruence. split_and!; try done; lia.
Qed.

Lemma root_not_free n p fl s i fli si :
  tree_wf (S n) (k_mem s) p -> (forall q, sub_table (S n) (k_mem s) p q -> q ∉ fl) ->
  walk_inv n p fl s i fli si -> i <= 512 -> p ∉ fli.
Proof.
  intros Hwf Hfree Hinv Hi. rewrite (wi_fl _ _ _ _ _ _ _ Hinv). intros [Hf|(j & d & Hj & Hd & Hqd)].
  - apply (Hfree p); [apply sub_table_root|done].
  - apply (child_ne_root n (k_mem s) p j d p Hwf Hd); try done; lia.
Qed.

Section Child.
Context (n : nat) (p i c : Z) (fl fli : list Z) (s si : kstate).
Hypothesis IH : frees_tree n.
Hypothesis Hready : kmem_ready s.
Hypothesis Hwf : tree_wf (S n) (k_mem s) p.
Hypothesis Hfree : forall q, sub_table (S n) (k_mem s) p q -> q ∉ fl.
Hypothesis Hinv : walk_inv n p fl s i fli si.
Hypothesis Hi : 0 <= i < 512.
Hypothesis Hc : next_table (k_mem s) p i = Some c.

Lemma child_page : page_ok c.
Proof. apply (tw_page _ _ _ Hwf [i]); [apply path_in_cons; split; [done|apply path_in_nil]|]. by rewrite table_at_cons, Hc. Qed.

Lemma root_page : page_ok p.
Proof. apply (tw_page _ _ _ Hwf []); [apply path_in_nil|done]. Qed.

Lemma tree_page q : sub_table (S n) (k_mem s) p q -> page_ok q.
Proof. intros (path & Hp & Hq). by apply (tw_page _ _ _ Hwf path). Qed.

Lemma child_entry : load64 (k_mem s) (p + 8 * i) = dir_pte c.
Proof. apply (tw_dir _ _ _ Hwf []); [apply path_in_cons; split; [done|apply path_in_nil]|done|done]. Qed.

(** The subtree of the child is still intact and is not yet free. *)
Lemma child_ext q x : sub_table n (k_mem s) c q -> in_page q x -> mget (k_mem si) x = mget (k_mem s) x.
Proof. intros Hq Hx. apply (wi_child _ _ _ _ _ _ _ Hinv i c q x); try done; lia. Qed.

Lemma child_not_free q : sub_table n (k_mem s) c q -> q ∉ fli.
Proof.
  intros Hq. rewrite (wi_fl _ _ _ _ _ _ _ Hinv). intros [Hf|(j & d & Hj & Hd & Hqd)].
  - apply (Hfree q); [by eapply sub_table_child|done].
  - assert (i = j); [|lia]. apply (children_disjoint n (k_mem s) p i c j d q); try done; lia.
Qed.

Lemma freewalk_child : exists fl' s',
  freewalk_body (S n) p i si = Ok None s' /\ walk_inv n p fl s (i + 1) fl' s'.
Proof.
  assert (Hready' : kmem_ready si) by (destruct (wi_state _ _ _ _ _ _ _ Hinv) as (m & f & ->); done).
  destruct (IH c fli si) as (fl1 & s1 & Hrun & Hst & Hi1 & Hfl1 & Hm1);
    [done|apply (wi_inv _ _ _ _ _ _ _ Hinv)|apply (tree_wf_ext n (k_mem s)); [exact child_ext|by eapply tree_wf_child]| |].
  { intros q Hq. apply child_not_free. by apply (sub_table_ext n (k_mem s) (k_mem si)); [exact child_ext|]. }
  assert (Hsub : forall q, sub_table n (k_mem si) c q <-> sub_table n (k_mem s) c q).
  { intros q. apply sub_table_ext. exact child_ext. }
  assert (Hp1 : p ∉ fl1).
  { rewrite Hfl1, Hsub. intros [Hf|Hf]; [apply (root_not_free n p fl s i fli si) in Hf; try done; lia|].
    by apply (child_ne_root n (k_mem s) p i c p). }
  exists fl1, (set_k_mem (store64 (k_mem s1) (p + 8 * i) 0) s1). split; [|].
  - unfold freewalk_body, read64, write64. rewrite bind_gets, (wi_entry _ _ _ _ _ _ _ Hinv), child_entry by lia.
    rewrite dir_pte_V, dir_pte_no_rwx, dir_pte_pa by apply child_page. cbn [Z.eqb andb].
    erewrite bind_ok by exact Hrun. by rewrite bind_modify.
  - assert (Hoff : forall q x, page_ok q -> ~ sub_table n (k_mem s) c q -> in_page q x ->
      mget (k_mem s1) x = mget (k_mem si) x).
    { intros q x Hq Hnq Hx. apply Hm1. intros q' Hq'%Hsub. apply (page_ok_disjoint q q' x); [done| |congruence|done].
      apply tree_page. by eapply sub_table_child. }
    split.
    + destruct (wi_state _ _ _ _ _ _ _ Hinv) as (m & f & ->), Hst as (m' & f' & ->). by eexists _, f'.
    + apply kmem_inv_mem; [done|]. intros q x Hq Hx. apply mget_store64_out. intros Hin%entry_in_page; [|done].
      destruct Hi1 as (_ & _ & Hok). rewrite Forall_forall in Hok.
      refine (page_ok_disjoint q p x (Hok q Hq) root_page _ Hx Hin). congruence.
    + intros j Hj. simpl. rewrite load64_store64_ne by lia. rewrite <- (wi_entry _ _ _ _ _ _ _ Hinv) by lia.
      apply load64_ext. intros x Hx%entry_in_page; [|lia]. apply (Hoff p); [exact root_page| |done].
      intros Hf. by apply (child_ne_root n (k_mem s) p i c p).
    + intros j d q x Hj Hd Hq Hx. simpl. assert (Hqp : q <> p) by (apply (child_ne_root n (k_mem s) p j d); try done; lia).
      assert (Hqo : page_ok q) by (apply tree_page; eapply sub_table_child; try done; lia).
      rewrite mget_store64_out.
      * rewrite (Hoff q); [|done| |done]; [apply (wi_child _ _ _ _ _ _ _ Hinv j d q x); try done; lia|].
        intros Hq'. assert (j = i); [|lia]. apply (children_disjoint n (k_mem s) p j d i c q); try done; lia.
      * intros Hin%entry_in_page; [|done]. by apply (page_ok_disjoint q p x Hqo root_page Hqp Hx).
    + intros q. rewrite Hfl1, Hsub, (wi_fl _ _ _ _ _ _ _ Hinv). split.
      * intros [[?|(j & d & ? & ? & ?)]|?]; [by left|right; exists j, d; split_and!; try done; lia|right].
        exists i, c. split_and!; try done; lia.
      * intros [?|(j & d & ? & Hd & ?)]; [by left; left|]. destruct (decide (j = i)) as [->|].
        -- right. rewrite Hc in Hd. by injection Hd as ->.
        -- left. right. exists j, d. split_and!; try done; lia.
    + intros x Hx. simpl. rewrite mget_store64_out.
      * rewrite Hm1; [by apply (wi_frame _ _ _ _ _ _ _ Hinv)|]. intros q Hq%Hsub. apply Hx. by eapply sub_table_child.
      * intros Hin%entry_in_page; [|done]. apply (Hx p); [apply sub_table_root|done].
Qed.

End Child.

Lemma freewalk_loop n p fl s k :
  frees_tree n -> kmem_ready s -> tree_wf (S n) (k_mem s) p ->
  (forall q, sub_table (S n) (k_mem s) p q -> q ∉ fl) ->
  forall i fli si, walk_inv n p fl s i fli si -> 0 <= i -> i + Z.of_nat k = 512 ->
  exists fl' s', for_loop k i (freewalk_body (S n) p) si = Ok None s' /\ walk_inv n p fl s 512 fl' s'.
Proof.
  intros IH Hr Hwf Hfree. induction k as [|k IHk]; intros i fli si Hinv H0 Hi.
  - exists fli, si. split; [done|]. by replace 512 with i by lia.
  - assert (Hstep : exists fl1 s1, freewalk_body (S n) p i si = Ok None s1 /\ walk_inv n p fl s (i + 1) fl1 s1).
    { destruct (next_table (k_mem s) p i) as [c|] eqn:Hc.
      - apply (freewalk_child n p i c fl fli s si); try done. lia.
      - exists fli, si. apply freewalk_skip; [done|lia|done]. }
    destruct Hstep as (fl1 & s1 & Hrun & Hinv1).
    destruct (IHk (i + 1) fl1 s1 Hinv1) as (fl' & s' & Hl & H'); [lia|lia|].
    exists fl', s'. split; [|done]. cbn [for_loop]. by erewrite bind_ok by exact Hrun.
Qed.

Lemma freewalk_S n p : freewalk (S n) p = (for_loop 512 0 (freewalk_body n p);; kfree p).
Proof. reflexivity. Qed.

Lemma for_loop_noop {R} k i (body : Z -> M (option R)) s :
  (forall j, i <= j < i + Z.of_nat k -> body j s = Ok None s) -> for_loop k i body s = Ok None s.
Proof.
  revert i. induction k as [|k IH]; intros i H; [done|]. cbn [for_loop].
  erewrite bind_ok by (apply H; lia). cbn beta iota. apply IH. intros j Hj. apply H. lia.
Qed.

Lemma frees_tree_0 : frees_tree 0.
Proof.
  intros p fl s Hr Hi Hwf Hfree.
  assert (Hsub : forall q, sub_table 0 (k_mem s) p q <-> q = p).
  { intros q. split; [|intros ->; apply sub_table_root]. intros ([|i path] & [Hl _] & Hq); [by injection Hq|].
    simpl in Hl. lia. }
  assert (Hpp : page_ok p) by (apply (tw_page _ _ _ Hwf []); [apply path_in_nil|done]).
  destruct (kfree_ok p s fl) as (m & Hk & Hi' & Hm); try done; [apply Hfree, sub_table_root|].
  exists (p :: fl), (set_k_freelist p (set_k_mem m s)). split_and!; [|by exists m, p|done|..].
  - rewrite freewalk_S. erewrite bind_ok; [exact Hk|]. apply for_loop_noop. intros j Hj.
    unfold freewalk_body, read64. rewrite bind_gets.
    assert (Hn : next_table (k_mem s) p j = None) by (apply (tw_leaf _ _ _ Hwf []); [apply path_in_nil|done|lia|done]).
    apply next_table_None_V in Hn. rewrite Hn. done.
  - intros q. rewrite elem_of_cons, Hsub. tauto.
  - intros x Hx. apply Hm. apply Hx. by apply Hsub.
Qed.

Lemma frees_tree_S n : frees_tree n -> frees_tree (S n).
Proof.
  intros IH p fl s Hr Hi Hwf Hfree.
  destruct (freewalk_loop n p fl s 512 IH Hr Hwf Hfree 0 fl s) as (fl1 & s1 & Hl & Hinv); [by apply walk_inv_start|lia|lia|].
  pose proof (root_not_free n p fl s 512 fl1 s1 Hwf Hfree Hinv ltac:(lia)) as Hpn.
  assert (Hpp : page_ok p) by (apply (tw_page _ _ _ Hwf []); [apply path_in_nil|done]).
  destruct (wi_state _ _ _ _ _ _ _ Hinv) as (m1 & f1 & E).
  destruct (kfree_ok p s1 fl1) as (m & Hk & Hi' & Hm); [by rewrite E|apply (wi_inv _ _ _ _ _ _ _ Hinv)|done|done|].
  exists (p :: fl1), (set_k_freelist p (set_k_mem m s1)). split_and!; [|by rewrite E; exists m, p|done|..].
  - rewrite freewalk_S. erewrite bind_ok; [exact Hk|exact Hl].
  - intros q. rewrite elem_of_cons, (wi_fl _ _ _ _ _ _ _ Hinv). split.
    + intros [->|[?|(j & c & Hj & Hc & Hq)]]; [right; apply sub_table_root|by left|right]. by eapply sub_table_child.
    + intros [?|Hq]; [by right; left|]. apply sub_table_inv in Hq as [->|(j & c & Hj & Hc & Hq)]; [by left|].
      right. right. exists j, c. done.
  - intros x Hx. simpl. rewrite Hm by (apply Hx, sub_table_root). by apply (wi_frame _ _ _ _ _ _ _ Hinv).
Qed.

(** ** [uvmfree] *)

Lemma freewalk_ok root fl s :
  pt_state root fl s -> (forall va, va_ok va -> pte_of (k_mem s) root va = 0) ->
  exists fl' s', freewalk 3 root s = Ok tt s' /\ (exists m f, s' = set_k_mem m (set_k_freelist f s)) /\
    kmem_inv fl' s' /\ (forall q, q ∈ fl' <-> q ∈ fl \/ is_table (k_mem s) root q) /\
    forall x, off_pages (is_table (k_mem s) root) x -> mget (k_mem s') x = mget (k_mem s) x.
Proof.
  intros [Hr Hi Hwf Hdis] H0. assert (Hft : frees_tree 2) by (do 2 apply frees_tree_S; apply frees_tree_0).
  apply (Hft root fl s); try done. destruct Hwf as [H1 H2 H3]. split; try done.
  intros [|i2 [|i1 [|? ?]]] q i [_ Hf] Hl Hi' Hq; try done.
  inversion Hf as [|? ? Hi2 Hf']; subst. inversion Hf' as [|? ? Hi1 _]; subst.
  set (va := i2 * 2 ^ 30 + i1 * 2 ^ 21 + i * 2 ^ 12).
  assert (Hpx : PX 2 va = i2 /\ PX 1 va = i1 /\ PX 0 va = i) by (by apply PX_of_indices).
  destruct Hpx as (E2 & E1 & E0). specialize (H0 va). unfold pte_of, dir_path in H0. rewrite E2, E1, Hq, E0 in H0.
  apply next_table_zero, H0. by apply va_ok_of_indices.
Qed.

(** The pages of the user part are unmapped and freed first. *)
Lemma uvmfree_unmap root l fl s sz :
  uspace root l fl s -> (forall a, va_ok a -> TRAPFRAME <= a -> pte_of (k_mem s) root a = 0) ->
  0 <= sz <= TRAPFRAME -> PGROUNDUP sz = lenZ l * PGSIZE ->
  exists s', when (0 <? sz) (uvmunmap root 0 (PGROUNDUP sz / PGSIZE) 1) s = Ok tt s' /\
    releases root fl s (rev l.*1) s' /\ forall va, va_ok va -> pte_of (k_mem s') root va = 0.
Proof.
  intros Hus Hhi Hsz Er. rewrite Er, Z.div_mul by lz. pose proof (us_len _ _ _ _ Hus) as Hlen.
  assert (Hz : forall a, va_ok a -> lenZ l * PGSIZE <= a -> pte_of (k_mem s) root a = 0).
  { intros a Ha Hle. destruct (Z.lt_ge_cases a TRAPFRAME); [by apply (us_free _ _ _ _ Hus)|by apply Hhi]. }
  pose proof (lenZ_nonneg l). destruct (Z.ltb_spec 0 sz).
  - destruct (uvmunmap_ok root 0 l fl s) as (s' & Hrun & Hrel & Hpt); [apply Hus|apply Hus|done|lia|lz|].
    exists s'. split_and!; [done|done|]. intros va Hva. rewrite Hpt by done. unfold unmap_range.
    destruct (Z.leb_spec 0 va); [|destruct Hva; lia]. destruct (Z.ltb_spec va (0 + lenZ l * PGSIZE)); [done|].
    apply Hz; [done|lia].
  - assert (sz = 0) as -> by lia. change (PGROUNDUP 0) with 0 in Er.
    assert (l = []) as -> by (destruct l; [done|rewrite lenZ_cons in *; pose proof (lenZ_nonneg l); lz]).
    exists s. split_and!; [done|by apply releases_nil, Hus|]. intros va Hva. apply Hz; [done|]. destruct Hva. unfold lenZ. simpl. lia.
Qed.

Lemma uvmfree_ok root l fl s sz :
  uspace root l fl s -> (forall a, va_ok a -> TRAPFRAME <= a -> pte_of (k_mem s) root a = 0) ->
  0 <= sz <= TRAPFRAME -> PGROUNDUP sz = lenZ l * PGSIZE ->
  exists fl' s', uvmfree root sz s = Ok tt s' /\ (exists m f, s' = set_k_mem m (set_k_freelist f s)) /\
    kmem_inv fl' s' /\ (forall p, p ∈ fl' <-> space_pages root l.*1 fl s p) /\
    forall x, off_pages (space_pages root l.*1 fl s) x -> mget (k_mem s') x = mget (k_mem s) x.
Proof.
  intros Hus Hhi Hsz Er. destruct (uvmfree_unmap root l fl s sz) as (s1 & Hrun & Hrel & H0); try done.
  destruct (freewalk_ok root (rev l.*1 ++ fl) s1) as (fl' & s' & Hfw & Hst & Hi & Hfl & Hm); [apply Hrel|done|].
  exists fl', s'. split_and!; [unfold uvmfree; by erewrite bind_ok by exact Hrun| |done|..].
  - destruct (rl_state _ _ _ _ _ Hrel) as (m & f & ->), Hst as (m' & f' & ->). by exists m', f'.
  - intros p. rewrite Hfl, (rl_table _ _ _ _ _ Hrel), elem_of_app, elem_of_rev. unfold space_pages. tauto.
  - intros x Hx. rewrite Hm.
    + apply (rl_frame _ _ _ _ _ Hrel); intros p Hp; apply Hx; [by left|right; left; by rewrite <- elem_of_rev].
    + intros p Hp. apply Hx. left. by apply (rl_table _ _ _ _ _ Hrel).
Qed.

(** ** Property *)

(** [uvmfree] leaks nothing.  Once the trampoline and the trapframe are
    unmapped, it terminates without a panic and afterwards the free list holds
    exactly the pages it held before, the data pages and the page-table pages
    of the address space; all other memory is untouched. *)
Theorem uvmfree_leaks_nothing root l fl s sz :
  uspace root l fl s -> (forall a, va_ok a -> TRAPFRAME <= a -> pte_of (k_mem s) root a = 0) ->
  0 <= sz <= TRAPFRAME -> PGROUNDUP sz = lenZ l * PGSIZE ->
  exists fl' s', uvmfree root sz s = Ok tt s' /\ (exists m f, s' = set_k_mem m (set_k_freelist f s)) /\
    kmem_inv fl' s' /\ (forall p, p ∈ fl' <-> space_pages root l.*1 fl s p) /\
    forall x, off_pages (space_pages root l.*1 fl s) x -> mget (k_mem s') x = mget (k_mem s) x.
Proof. apply uvmfree_ok. Qed.

End UvmFree.

Lemma uvmfree_leaks_nothing_witness : exists root s s', uvmfree root 0 s = Ok tt s'.
Proof.
  destruct demo_pt as (root & fl & s & Hps & H0 & _ & _).
  destruct (uvmfree_leaks_nothing root [] fl s 0 (uspace_empty _ _ _ Hps H0)) as (fl' & s' & Hrun & _);
    [intros a _ _; apply H0|lz|reflexivity|].
  exists root, s, s'. exact Hrun.
Defined.
