(* ===== verification/Copy.v ===== *)
(** * Copying between kernel and user memory: [copyout], [copyin] and
    [copyinstr] of [kernel/vm.c]

    A kernel buffer is the list of its bytes: [copyout] takes the bytes to
    write, and [copyin] and [copyinstr] return with their result the bytes
    they stored at [dst].  [uaddr l need va] is the physical address of the
    user byte [va] of the address space [l], if its page has the permissions
    [need]; the theorems say that the functions access exactly these bytes. *)

From S2P Require Import Prelude Riscv State Spinlock Str Kalloc Vm Uvm.

(** ** Definitions *)

Section Copy.
Context {KI : KernelImage}.

(** One turn of the loop of [copyout], with the address and the bytes left. *)
Definition copyout_body (pagetable : Z) (st : Z * list Z) : M (Z * list Z + Z) :=
  let '(dstva, src) := st in
  if 0 <? lenZ src then
    let va0 := PGROUNDDOWN dstva in
    if MAXVA <=? va0 then ret (inr (-1)) else
    pte <- walk pagetable va0 0;;
    if pte =? 0 then ret (inr (-1)) else
    v <- read64 pte;;
    if (Z.land v PTE_V =? 0) || (Z.land v PTE_U =? 0) || (Z.land v PTE_W =? 0) then ret (inr (-1)) else
    let pa0 := PTE2PA v in
    let n := Z.min (PGSIZE - (dstva - va0)) (lenZ src) in
    modify (fun s => set_k_mem (store_bytes (k_mem s) (pa0 + (dstva - va0)) (take (Z.to_nat n) src)) s);;
    ret (inl (u64 (va0 + PGSIZE), drop (Z.to_nat n) src))
  else ret (inr 0).

(** The pages that [len] bytes can span, and the turn that leaves the loop. *)
Definition copy_fuel (len : Z) : nat := 3 + Z.to_nat (len / PGSIZE).

Definition copyout (pagetable dstva : Z) (src : list Z) : M Z :=
  loop (copy_fuel (lenZ src)) (copyout_body pagetable) (dstva, src).

(** The loop of [copyin], with the bytes stored so far. *)
Definition copyin_body (pagetable : Z) (st : Z * Z * list Z) : M (Z * Z * list Z + Z * list Z) :=
  let '(srcva, len, dst) := st in
  if 0 <? len then
    let va0 := PGROUNDDOWN srcva in
    pa0 <- walkaddr pagetable va0;;
    if pa0 =? 0 then ret (inr (-1, dst)) else
    let n := Z.min (PGSIZE - (srcva - va0)) len in
    bs <- gets (fun s => load_bytes (k_mem s) (pa0 + (srcva - va0)) (Z.to_nat n));;
    ret (inl (u64 (va0 + PGSIZE), len - n, dst ++ bs))
  else ret (inr (0, dst)).

Definition copyin (pagetable srcva len : Z) : M (Z * list Z) :=
  loop (copy_fuel len) (copyin_body pagetable) (srcva, len, []).

(** The inner loop of [copyinstr]: the bytes up to a NUL among the next [n],
    and whether there was one. *)
Fixpoint scan_str (n : nat) (m : mem) (p : Z) : list Z * bool :=
  match n with
  | O => ([], false)
  | S n' =>
      if mget m p =? 0 then ([0], true)
      else let '(bs, got) := scan_str n' m (p + 1) in (mget m p :: bs, got)
  end.

Definition copyinstr_body (pagetable : Z) (st : Z * Z * list Z) : M (Z * Z * list Z + Z * list Z) :=
  let '(srcva, max, dst) := st in
  if 0 <? max then
    let va0 := PGROUNDDOWN srcva in
    pa0 <- walkaddr pagetable va0;;
    if pa0 =? 0 then ret (inr (-1, dst)) else
    let n := Z.min (PGSIZE - (srcva - va0)) max in
    r <- gets (fun s => scan_str (Z.to_nat n) (k_mem s) (pa0 + (srcva - va0)));;
    let '(bs, got_null) := r in
    if got_null : bool then ret (inr (0, dst ++ bs))
    else ret (inl (u64 (va0 + PGSIZE), max - n, dst ++ bs))
  else ret (inr (-1, dst)).

Definition copyinstr (pagetable srcva max : Z) : M (Z * list Z) :=
  loop (copy_fuel max) (copyinstr_body pagetable) (srcva, max, []).

(** *** User memory *)

Definition upage (l : list (Z * Z)) (need va : Z) : option Z :=
  match lookupZ l (va / PGSIZE) with
  | Some (pa, perm) => if Z.land perm need =? need then Some pa else None
  | None => None
  end.

Definition uaddr (l : list (Z * Z)) (need va : Z) : option Z :=
  match upage l need va with Some pa => Some (pa + va mod PGSIZE) | None => None end.

(** Nothing from the trapframe upwards is accessible to the user. *)
Definition no_user_top (root : Z) (s : kstate) : Prop :=
  forall a, va_ok a -> TRAPFRAME <= a -> Z.land (pte_of (k_mem s) root a) PTE_U = 0.

(** [bs] are the user bytes from [va]. *)
Definition user_bytes (l : list (Z * Z)) (m : mem) (va : Z) (bs : list Z) : Prop :=
  forall i b, lookupZ bs i = Some b -> exists x, uaddr l PTE_U (va + i) = Some x /\ mget m x = b.

(** A C string: non-zero bytes and the NUL. *)
Definition c_string (bs : list Z) : Prop := exists t, bs = t ++ [0] /\ Forall (fun b => b <> 0) t.

(** [m'] is [m] after the bytes [src] were written from the user address [va]. *)
Definition written (l : list (Z * Z)) (va : Z) (src : list Z) (m m' : mem) : Prop :=
  (forall i b, lookupZ src i = Some b ->
     exists x, uaddr l (Z.lor PTE_U PTE_W) (va + i) = Some x /\ mget m' x = b) /\
  (forall x, (forall i, 0 <= i < lenZ src -> uaddr l (Z.lor PTE_U PTE_W) (va + i) <> Some x) ->
     mget m' x = mget m x).

(** ** Permissions and pages *)

Lemma land_pow2 a k : 0 <= k -> Z.land a (2 ^ k) = 0 \/ Z.land a (2 ^ k) = 2 ^ k.
Proof.
  intros Hk. destruct (Z.testbit a k) eqn:E; [right|left]; apply Z.bits_inj'; intros i Hi;
    rewrite Z.land_spec, ?Z.bits_0, Z.pow2_bits_eqb by done; destruct (Z.eqb_spec k i) as [->|];
    rewrite ?E, ?andb_false_r; done.
Qed.

Lemma land_U a : Z.land a PTE_U = 0 \/ Z.land a PTE_U = PTE_U.
Proof. apply (land_pow2 a 4). lia. Qed.

Lemma land_W a : Z.land a PTE_W = 0 \/ Z.land a PTE_W = PTE_W.
Proof. apply (land_pow2 a 2). lia. Qed.

Lemma need_U perm : (Z.land perm PTE_U =? PTE_U) = truth (Z.land perm PTE_U).
Proof. by destruct (land_U perm) as [-> | ->]. Qed.

Lemma need_UW perm :
  (Z.land perm (Z.lor PTE_U PTE_W) =? Z.lor PTE_U PTE_W) = truth (Z.land perm PTE_U) && truth (Z.land perm PTE_W).
Proof.
  rewrite Z.land_lor_distr_r. by destruct (land_U perm) as [-> | ->], (land_W perm) as [-> | ->].
Qed.

Lemma leaf_pte_W pa perm :
  pa_ok pa -> flags_ok perm -> truth (Z.land (leaf_pte pa perm) PTE_W) = truth (Z.land perm PTE_W).
Proof.
  intros Hpa Hp. rewrite leaf_pte_land by (done || by vm_compute). rewrite Z.land_lor_distr_l.
  change (Z.land PTE_V PTE_W) with 0. by rewrite Z.lor_0_r.
Qed.

(** The page of a user address. *)
Lemma page_of va : 0 <= va < 2 ^ 64 ->
  PGROUNDDOWN va mod PGSIZE = 0 /\ PGROUNDDOWN va / PGSIZE = va / PGSIZE /\ va - PGROUNDDOWN va = va mod PGSIZE /\
  0 <= va mod PGSIZE < PGSIZE /\ 0 <= PGROUNDDOWN va <= va.
Proof.
  intros H. rewrite PGROUNDDOWN_eq by done. pose proof (Z.div_mod va PGSIZE ltac:(lz)).
  pose proof (Z.mod_pos_bound va PGSIZE ltac:(lz)). pose proof (Z.div_pos va PGSIZE ltac:(lia) ltac:(lz)).
  split_and!; [apply Z_mod_mult|by apply Z.div_mul|lz..].
Qed.

Section Space.
Context (root : Z) (l : list (Z * Z)) (fl : list Z) (s : kstate).
Hypothesis Hus : uspace root l fl s.
Hypothesis Htop : no_user_top root s.

Lemma upage_ok need va pa : upage l need va = Some pa -> page_ok pa /\ pa <> 0.
Proof.
  unfold upage. destruct (lookupZ l (va / PGSIZE)) as [[q perm]|] eqn:E; [|done].
  destruct (_ =? _); [|done]. intros [= ->]. unfold lookupZ in E. destruct (_ <? 0) in E; [done|].
  destruct (ma_ok _ _ _ _ _ (us_maps _ _ _ _ Hus) _ _ _ E) as [Hp _]. split; [done|].
  pose proof (page_ok_bounds pa Hp). lia.
Qed.

(** The entry of the page of [va]: that of the list, none, or one the user
    may not use. *)
Lemma space_pte va : 0 <= va < 2 ^ 64 -> PGROUNDDOWN va < MAXVA ->
  let v := pte_of (k_mem s) root (PGROUNDDOWN va) in
  match lookupZ l (va / PGSIZE) with
  | Some (pa, perm) => v = leaf_pte pa perm /\ pa_ok pa /\ flags_ok perm
  | None => Z.land v PTE_U = 0
  end.
Proof.
  intros Hva Hmax v. destruct (page_of va Hva) as (Ha & Hd & _ & _ & H0).
  assert (Hok : va_ok (PGROUNDDOWN va)) by (split; [done|lz]).
  pose proof (Z.div_mod (PGROUNDDOWN va) PGSIZE ltac:(lz)) as E. rewrite Ha, Hd, Z.add_0_r in E.
  destruct (lookupZ l (va / PGSIZE)) as [[pa perm]|] eqn:El.
  - pose proof (lookupZ_Some_range _ _ _ El). unfold lookupZ in El. destruct (Z.ltb_spec (va / PGSIZE) 0); [done|].
    pose proof (us_maps _ _ _ _ Hus) as Hma. pose proof (ma_pte _ _ _ _ _ Hma _ _ _ El) as Hp.
    rewrite Z2Nat.id, Z.add_0_l in Hp by lia. destruct (ma_ok _ _ _ _ _ Hma _ _ _ El) as [Hpa [Hpe _]].
    split; [|split; [by apply page_ok_pa_ok|done]]. rewrite <- Hp. unfold v. f_equal. lia.
  - destruct (Z.lt_ge_cases (PGROUNDDOWN va) TRAPFRAME) as [Hlt|Hge]; [|by apply Htop].
    unfold v. rewrite (us_free _ _ _ _ Hus); [done|done|]. split; [|done].
    destruct (Z.lt_ge_cases (va / PGSIZE) (lenZ l)) as [Hl|Hl]; [|lz]. exfalso.
    destruct (lookupZ_is_Some l (va / PGSIZE)) as [d Hd']; [lz|]. congruence.
Qed.

Lemma upage_None_top need va : 0 <= va < 2 ^ 64 -> MAXVA <= PGROUNDDOWN va -> upage l need va = None.
Proof.
  intros Hva Hmax. destruct (page_of va Hva) as (Ha & Hd & _ & _ & H0). unfold upage.
  rewrite lookupZ_None; [done|]. pose proof (us_len _ _ _ _ Hus).
  pose proof (Z.div_mod (PGROUNDDOWN va) PGSIZE ltac:(lz)) as E. rewrite Ha, Hd in E. lz.
Qed.

Lemma user_pa_space va : 0 <= va < 2 ^ 64 ->
  user_pa (k_mem s) root (PGROUNDDOWN va) = default 0 (upage l PTE_U va).
Proof.
  intros Hva. unfold user_pa. destruct (Z.ltb_spec (PGROUNDDOWN va) MAXVA) as [Hlt|Hge].
  - pose proof (space_pte va Hva Hlt) as H. cbv zeta in H. unfold upage. destruct (lookupZ l (va / PGSIZE)) as [[pa perm]|].
    + destruct H as (-> & Hpa & Hpe). rewrite leaf_pte_V, leaf_pte_U, need_U, leaf_pte_pa by done. by destruct (truth _).
    + rewrite H. cbn [truth Z.eqb negb]. by rewrite andb_false_r.
  - by rewrite upage_None_top.
Qed.

(** The test of [copyout] before it writes to a page. *)
Lemma copyout_test va (k : Z -> M (Z * list Z + Z)) : 0 <= va < 2 ^ 64 ->
  (if MAXVA <=? PGROUNDDOWN va then ret (inr (-1)) else
   pte <- walk root (PGROUNDDOWN va) 0;;
   if pte =? 0 then ret (inr (-1)) else
   v <- read64 pte;;
   if (Z.land v PTE_V =? 0) || (Z.land v PTE_U =? 0) || (Z.land v PTE_W =? 0) then ret (inr (-1)) else k (PTE2PA v)) s =
  match upage l (Z.lor PTE_U PTE_W) va with Some pa => k pa s | None => Ok (inr (-1)) s end.
Proof.
  intros Hva. destruct (Z.leb_spec MAXVA (PGROUNDDOWN va)) as [Hge|Hlt]; [by rewrite upage_None_top|].
  erewrite bind_ok by (by apply walk_0). pose proof (space_pte va Hva Hlt) as H. cbv zeta in H.
  unfold upage. destruct (table_at (k_mem s) root (dir_path (PGROUNDDOWN va))) as [p|] eqn:Hp.
  - pose proof (entry_nonzero _ _ _ _ (ps_wf _ _ _ (us_ps _ _ _ _ Hus)) Hp).
    destruct (Z.eqb_spec (p + 8 * PX 0 (PGROUNDDOWN va)) 0) as [|_]; [done|]. unfold read64. rewrite bind_gets.
    rewrite <- (pte_of_Some _ root) by done. destruct (lookupZ l (va / PGSIZE)) as [[pa perm]|].
    + destruct H as (-> & Hpa & Hpe). pose proof (leaf_pte_V pa perm Hpa Hpe) as HV.
      pose proof (leaf_pte_U pa perm Hpa Hpe) as HU. pose proof (leaf_pte_W pa perm Hpa Hpe) as HW.
      rewrite need_UW, leaf_pte_pa by done. rewrite <- HU, <- HW. unfold truth in *.
      destruct (Z.land (leaf_pte pa perm) PTE_V =? 0); [done|].
      by destruct (Z.land (leaf_pte pa perm) PTE_U =? 0), (Z.land (leaf_pte pa perm) PTE_W =? 0).
    + rewrite H. cbn [Z.eqb]. by rewrite orb_true_r.
  - unfold pte_of in H. rewrite Hp in H. destruct (lookupZ l (va / PGSIZE)) as [[pa perm]|]; [|done].
    destruct H as (E & Hpa & Hpe). by destruct (leaf_pte_nonzero pa perm Hpa Hpe).
Qed.

(** ** [copyin] *)

(** The bytes of one page. *)
Lemma uaddr_chunk need va pa i : 0 <= va < 2 ^ 64 -> upage l need va = Some pa ->
  0 <= i < PGSIZE - va mod PGSIZE -> uaddr l need (va + i) = Some (pa + va mod PGSIZE + i).
Proof.
  intros Hva Hu Hi. unfold uaddr, upage in *. pose proof (Z.div_mod va PGSIZE ltac:(lz)) as E.
  pose proof (Z.mod_pos_bound va PGSIZE ltac:(lz)).
  assert (Ed : (va + i) / PGSIZE = va / PGSIZE) by (symmetry; apply (Z.div_unique _ _ _ (va mod PGSIZE + i)); lz).
  assert (Em : (va + i) mod PGSIZE = va mod PGSIZE + i) by (symmetry; apply (Z.mod_unique _ _ (va / PGSIZE)); lz).
  rewrite Ed, Em, Hu. f_equal. lia.
Qed.

Lemma uaddr_None need va : upage l need va = None -> uaddr l need va = None.
Proof. unfold uaddr. by intros ->. Qed.

(** The bytes of the page at [va], and the next address. *)
Lemma chunk_user_bytes va n pa :
  0 <= va < 2 ^ 64 -> upage l PTE_U va = Some pa -> n <= PGSIZE - va mod PGSIZE ->
  user_bytes l (k_mem s) va (load_bytes (k_mem s) (pa + va mod PGSIZE) (Z.to_nat n)).
Proof.
  intros Hva Hu Hn i b Hi. pose proof (lookupZ_Some_range _ _ _ Hi) as Hr.
  unfold lenZ in Hr. rewrite length_load_bytes in Hr. unfold lookupZ in Hi.
  destruct (Z.ltb_spec i 0); [done|]. rewrite lookup_load_bytes in Hi by lia. injection Hi as <-.
  exists (pa + va mod PGSIZE + i). split; [apply uaddr_chunk; [done|done|lia]|]. f_equal. lia.
Qed.

Lemma user_bytes_nil va : user_bytes l (k_mem s) va [].
Proof. intros i b Hi. apply lookupZ_Some_range in Hi. unfold lenZ in Hi. simpl in Hi. lia. Qed.

Lemma user_bytes_app va bs bs' :
  user_bytes l (k_mem s) va bs -> user_bytes l (k_mem s) (va + lenZ bs) bs' ->
  user_bytes l (k_mem s) va (bs ++ bs').
Proof.
  intros H1 H2 i b Hi. rewrite lookupZ_app in Hi. destruct (Z.ltb_spec i (lenZ bs)); [by apply H1|].
  destruct (H2 (i - lenZ bs) b Hi) as (x & Hx & Hb). exists x. split; [|done]. rewrite <- Hx. f_equal. lia.
Qed.

(** The address of the next page. *)
Lemma next_chunk need va pa :
  0 <= va < 2 ^ 64 -> upage l need va = Some pa ->
  u64 (PGROUNDDOWN va + PGSIZE) = va + (PGSIZE - va mod PGSIZE) /\ va + (PGSIZE - va mod PGSIZE) < 2 ^ 64 /\
  (va + (PGSIZE - va mod PGSIZE)) mod PGSIZE = 0.
Proof.
  intros Hva Hu. destruct (page_of va Hva) as (Ha & Hd & Hm & Hmr & H0).
  destruct (Z.lt_ge_cases (PGROUNDDOWN va) MAXVA) as [Hlt|Hge]; [|by rewrite upage_None_top in Hu].
  rewrite u64_small by lz. split_and!; [lia|lz|].
  replace (va + (PGSIZE - va mod PGSIZE)) with (PGROUNDDOWN va + PGSIZE) by lia. by apply next_page_aligned.
Qed.

Lemma copyin_body_ok va len dst : 0 <= va < 2 ^ 64 -> 0 < len ->
  copyin_body root (va, len, dst) s =
    match upage l PTE_U va with
    | Some pa =>
        let n := Z.min (PGSIZE - va mod PGSIZE) len in
        Ok (inl (va + (PGSIZE - va mod PGSIZE), len - n, dst ++ load_bytes (k_mem s) (pa + va mod PGSIZE) (Z.to_nat n))) s
    | None => Ok (inr (-1, dst)) s
    end.
Proof.
  intros Hva Hlen. destruct (page_of va Hva) as (_ & _ & Hm & _ & _). unfold copyin_body.
  destruct (Z.ltb_spec 0 len); [|lia]. erewrite bind_ok by (apply walkaddr_ok, Hus). rewrite user_pa_space, Hm by done.
  destruct (upage l PTE_U va) as [pa|] eqn:Hu; [|done].
  destruct (upage_ok _ _ _ Hu) as [_ Hpa0]. destruct (next_chunk PTE_U va pa Hva Hu) as (En & _ & _).
  change (default 0 (Some pa)) with pa. destruct (Z.eqb_spec pa 0) as [|_]; [done|]. cbv zeta. rewrite bind_gets. by rewrite En.
Qed.

Lemma copyin_loop_ok fuel : forall va len va0 dst,
  0 <= va < 2 ^ 64 -> 0 <= len -> va mod PGSIZE + len <= PGSIZE * (Z.of_nat fuel - 1) -> va = va0 + lenZ dst ->
  user_bytes l (k_mem s) va0 dst ->
  exists c bs, loop fuel (copyin_body root) (va, len, dst) s = Ok (c, bs) s /\ user_bytes l (k_mem s) va0 bs /\
    ((c = 0 /\ lenZ bs = lenZ dst + len) \/
     (c = -1 /\ exists i, 0 <= i < len /\ uaddr l PTE_U (va + i) = None)).
Proof.
  induction fuel as [|fuel IH]; intros va len va0 dst Hva Hlen Hf Hd Hub;
    pose proof (Z.mod_pos_bound va PGSIZE ltac:(lz)) as Hmr; [lz|].
  cbn [loop]. destruct (Z.eq_dec len 0) as [->|Hne].
  { exists 0, dst. split_and!; [done|done|]. left. split; [done|lia]. }
  pose proof (copyin_body_ok va len dst Hva ltac:(lia)) as Hbody.
  destruct (upage l PTE_U va) as [pa|] eqn:Hu.
  - destruct (next_chunk PTE_U va pa Hva Hu) as (_ & Hlt & Eal). set (n := Z.min (PGSIZE - va mod PGSIZE) len) in *.
    set (bs := load_bytes (k_mem s) (pa + va mod PGSIZE) (Z.to_nat n)) in *.
    assert (Hbs : lenZ bs = n) by (unfold lenZ, bs; rewrite length_load_bytes; lia).
    erewrite bind_ok by exact Hbody. cbn beta iota. destruct (Z.eq_dec n len) as [En|En].
    + (* the last chunk *)
      exists 0, (dst ++ bs). split_and!.
      * destruct fuel as [|fuel]; [lz|]. cbn [loop]. unfold bind, copyin_body.
        destruct (Z.ltb_spec 0 (len - n)); [lia|done].
      * apply user_bytes_app; [done|]. rewrite <- Hd. apply chunk_user_bytes; [done|done|lia].
      * left. split; [done|]. rewrite lenZ_app. lia.
    + assert (Hn : n = PGSIZE - va mod PGSIZE) by lia.
      destruct (IH (va + (PGSIZE - va mod PGSIZE)) (len - n) va0 (dst ++ bs)) as (c & bs' & Hl & Hub' & Hc); try lia.
      * rewrite lenZ_app. lia.
      * apply user_bytes_app; [done|]. rewrite <- Hd. apply chunk_user_bytes; [done|done|lia].
      * exists c, bs'. split_and!; [done|done|]. destruct Hc as [[-> E]|(-> & i & Hi & E)].
        -- left. split; [done|]. rewrite lenZ_app in E. lia.
        -- right. split; [done|]. exists (n + i). split; [lia|]. rewrite <- E. f_equal. lia.
  - exists (-1), dst. split_and!; [by erewrite bind_ok by exact Hbody|done|]. right. split; [done|]. exists 0.
    rewrite Z.add_0_r. split; [lia|by apply uaddr_None].
Qed.

Lemma copy_fuel_enough va len : 0 <= len -> va mod PGSIZE + len <= PGSIZE * (Z.of_nat (copy_fuel len) - 1).
Proof.
  intros Hlen. unfold copy_fuel. pose proof (Z.mod_pos_bound va PGSIZE ltac:(lz)).
  pose proof (Z.div_mod len PGSIZE ltac:(lz)). pose proof (Z.mod_pos_bound len PGSIZE ltac:(lz)).
  pose proof (Z.div_pos len PGSIZE Hlen ltac:(lz)). rewrite Nat2Z.inj_add, Z2Nat.id by done. lia.
Qed.

Lemma copyin_ok srcva len : 0 <= srcva < 2 ^ 64 -> 0 <= len ->
  exists c bs, copyin root srcva len s = Ok (c, bs) s /\ user_bytes l (k_mem s) srcva bs /\
    ((c = 0 /\ lenZ bs = len) \/ (c = -1 /\ exists i, 0 <= i < len /\ uaddr l PTE_U (srcva + i) = None)).
Proof.
  intros Hva Hlen. apply (copyin_loop_ok _ srcva len srcva []); try done.
  - by apply copy_fuel_enough.
  - unfold lenZ. simpl. lia.
  - apply user_bytes_nil.
Qed.

(** ** [copyinstr] *)

Lemma scan_str_spec n m p :
  let '(bs, got) := scan_str n m p in
  if got : bool then exists k, (k < n)%nat /\ bs = load_bytes m p (S k) /\ c_string bs
  else bs = load_bytes m p n /\ Forall (fun b => b <> 0) bs.
Proof.
  revert p. induction n as [|n IH]; intros p; cbn [scan_str]; [done|].
  destruct (Z.eqb_spec (mget m p) 0) as [E|E].
  - exists O. split; [lia|]. cbn [load_bytes]. rewrite E. split; [done|]. exists []. by split.
  - specialize (IH (p + 1)). destruct (scan_str n m (p + 1)) as [bs [|]].
    + destruct IH as (k & Hk & -> & (t & Ht & Hnz)). exists (S k). split; [lia|]. split; [done|].
      exists (mget m p :: t). split; [by rewrite Ht|by constructor].
    + destruct IH as [-> Hnz]. split; [done|by constructor].
Qed.

Lemma copyinstr_body_ok va max dst : 0 <= va < 2 ^ 64 -> 0 < max ->
  copyinstr_body root (va, max, dst) s =
    match upage l PTE_U va with
    | Some pa =>
        let n := Z.min (PGSIZE - va mod PGSIZE) max in
        let '(bs, got) := scan_str (Z.to_nat n) (k_mem s) (pa + va mod PGSIZE) in
        Ok (if got : bool then inr (0, dst ++ bs) else inl (va + (PGSIZE - va mod PGSIZE), max - n, dst ++ bs)) s
    | None => Ok (inr (-1, dst)) s
    end.
Proof.
  intros Hva Hmax. destruct (page_of va Hva) as (_ & _ & Hm & _ & _). unfold copyinstr_body.
  destruct (Z.ltb_spec 0 max); [|lia]. erewrite bind_ok by (apply walkaddr_ok, Hus). rewrite user_pa_space, Hm by done.
  destruct (upage l PTE_U va) as [pa|] eqn:Hu; [|done].
  destruct (upage_ok _ _ _ Hu) as [_ Hpa0]. destruct (next_chunk PTE_U va pa Hva Hu) as (En & _ & _).
  change (default 0 (Some pa)) with pa. destruct (Z.eqb_spec pa 0) as [|_]; [done|]. cbv zeta. rewrite bind_gets, En.
  by destruct (scan_str _ _ _) as [bs [|]].
Qed.

Lemma copyinstr_loop_ok fuel : forall va max va0 dst,
  0 <= va < 2 ^ 64 -> 0 <= max -> va mod PGSIZE + max <= PGSIZE * (Z.of_nat fuel - 1) -> va = va0 + lenZ dst ->
  user_bytes l (k_mem s) va0 dst -> Forall (fun b => b <> 0) dst ->
  exists c bs, loop fuel (copyinstr_body root) (va, max, dst) s = Ok (c, bs) s /\ user_bytes l (k_mem s) va0 bs /\
    lenZ bs <= lenZ dst + max /\
    ((c = 0 /\ c_string bs) \/
     (c = -1 /\ Forall (fun b => b <> 0) bs /\
      (lenZ bs = lenZ dst + max \/ uaddr l PTE_U (va0 + lenZ bs) = None))).
Proof.
  induction fuel as [|fuel IH]; intros va max va0 dst Hva Hmax Hf Hd Hub Hnz;
    pose proof (Z.mod_pos_bound va PGSIZE ltac:(lz)) as Hmr; [lz|].
  cbn [loop]. destruct (Z.eq_dec max 0) as [->|Hne].
  { exists (-1), dst. split_and!; [done|done|lia|]. right. split_and!; [done|done|left; lia]. }
  pose proof (copyinstr_body_ok va max dst Hva ltac:(lia)) as Hbody.
  destruct (upage l PTE_U va) as [pa|] eqn:Hu.
  2: { exists (-1), dst. split_and!; [by erewrite bind_ok by exact Hbody|done|lia|]. right. split_and!; [done|done|].
       right. rewrite <- Hd. by apply uaddr_None. }
  destruct (next_chunk PTE_U va pa Hva Hu) as (_ & Hlt & Eal). set (n := Z.min (PGSIZE - va mod PGSIZE) max) in *.
  pose proof (chunk_user_bytes va) as Hck.
  pose proof (scan_str_spec (Z.to_nat n) (k_mem s) (pa + va mod PGSIZE)) as Hscan. cbv zeta in Hbody.
  destruct (scan_str (Z.to_nat n) (k_mem s) (pa + va mod PGSIZE)) as [bs [|]]; erewrite bind_ok by exact Hbody; cbn beta iota.
  - destruct Hscan as (k & Hk & Ebs & (t & Et & Htz)). exists 0, (dst ++ bs).
    assert (Hlen : lenZ bs = Z.of_nat (S k)) by (unfold lenZ; by rewrite Ebs, length_load_bytes).
    split_and!; [done| |rewrite lenZ_app; lia|].
    + apply user_bytes_app; [done|]. rewrite <- Hd, Ebs, <- (Nat2Z.id (S k)). apply Hck; [done|done|lia].
    + left. split; [done|]. exists (dst ++ t). split; [by rewrite Et, app_assoc|]. by apply Forall_app.
  - destruct Hscan as [Ebs Hbz]. assert (Hlen : lenZ bs = n) by (unfold lenZ; rewrite Ebs, length_load_bytes; lia).
    assert (Hub' : user_bytes l (k_mem s) va0 (dst ++ bs)).
    { apply user_bytes_app; [done|]. rewrite <- Hd, Ebs. apply Hck; [done|done|lia]. }
    assert (Hnz' : Forall (fun b => b <> 0) (dst ++ bs)) by (by apply Forall_app).
    destruct (Z.eq_dec n max) as [En|En].
    + exists (-1), (dst ++ bs). split_and!; [|done|rewrite lenZ_app; lia|].
      * destruct fuel as [|fuel]; [lz|]. cbn [loop]. unfold bind, copyinstr_body.
        destruct (Z.ltb_spec 0 (max - n)); [lia|done].
      * right. split_and!; [done|done|left]. rewrite lenZ_app. lia.
    + assert (Hn : n = PGSIZE - va mod PGSIZE) by lia.
      destruct (IH (va + (PGSIZE - va mod PGSIZE)) (max - n) va0 (dst ++ bs)) as (c & bs' & Hl & Hub'' & Hle & Hc);
        try done; try lia; [rewrite lenZ_app; lia|]. rewrite lenZ_app in Hle, Hc.
      exists c, bs'. split_and!; [done|done|lia|]. destruct Hc as [?|(-> & ? & [?|?])]; [by left|right..]; split_and!; try done.
      * left. lia.
      * by right.
Qed.

Lemma copyinstr_ok srcva max : 0 <= srcva < 2 ^ 64 -> 0 <= max ->
  exists c bs, copyinstr root srcva max s = Ok (c, bs) s /\ user_bytes l (k_mem s) srcva bs /\ lenZ bs <= max /\
    ((c = 0 /\ c_string bs) \/
     (c = -1 /\ Forall (fun b => b <> 0) bs /\ (lenZ bs = max \/ uaddr l PTE_U (srcva + lenZ bs) = None))).
Proof.
  intros Hva Hmax. apply (copyinstr_loop_ok _ srcva max srcva []); try done.
  - by apply copy_fuel_enough.
  - unfold lenZ. simpl. lia.
  - apply user_bytes_nil.
Qed.

Lemma uaddr_inv need va x : uaddr l need va = Some x ->
  exists pa perm, lookupZ l (va / PGSIZE) = Some (pa, perm) /\ page_ok pa /\ x = pa + va mod PGSIZE /\ in_page pa x.
Proof.
  unfold uaddr. destruct (upage l need va) as [pa|] eqn:Hu; [|done]. intros [= <-].
  destruct (upage_ok _ _ _ Hu) as [Hpa _]. unfold upage in Hu.
  destruct (lookupZ l (va / PGSIZE)) as [[q perm]|]; [|done]. destruct (_ =? _); [|done]. injection Hu as ->.
  exists pa, perm. pose proof (Z.mod_pos_bound va PGSIZE ltac:(lz)). split; [done|]. split; [done|]. split; [done|].
  unfold in_page. lia.
Qed.

Lemma uaddr_inj need need' va va' x : uaddr l need va = Some x -> uaddr l need' va' = Some x -> va = va'.
Proof.
  intros (pa & perm & Hl & Hpa & E & Hx)%uaddr_inv (pa' & perm' & Hl' & Hpa' & E' & Hx')%uaddr_inv.
  destruct (decide (pa = pa')) as [->|Hne].
  - unfold lookupZ in Hl, Hl'. destruct (Z.ltb_spec (va / PGSIZE) 0), (Z.ltb_spec (va' / PGSIZE) 0); try done.
    pose proof (ma_inj _ _ _ _ _ (us_maps _ _ _ _ Hus) _ _ _ _ _ Hl Hl').
    pose proof (Z.div_mod va PGSIZE ltac:(lz)). pose proof (Z.div_mod va' PGSIZE ltac:(lz)).
    assert (va / PGSIZE = va' / PGSIZE) by lia. lia.
  - by destruct (page_ok_disjoint pa pa' x Hpa Hpa' Hne Hx).
Qed.

(** Writing to a user page keeps the address space. *)
Lemma write_user_page need va pa m' : upage l need va = Some pa ->
  (forall x, ~ in_page pa x -> mget m' x = mget (k_mem s) x) ->
  uspace root l fl (set_k_mem m' s) /\ no_user_top root (set_k_mem m' s).
Proof.
  intros Hu Hm. destruct (upage_ok _ _ _ Hu) as [Hpa _].
  assert (Hin : pa ∈ l.*1).
  { unfold upage in Hu. destruct (lookupZ l (va / PGSIZE)) as [[q perm]|] eqn:E; [|done]. destruct (_ =? _); [|done].
    injection Hu as ->. unfold lookupZ in E. destruct (_ <? 0); [done|]. apply list_elem_of_fmap.
    exists (pa, perm). split; [done|]. by eapply list_elem_of_lookup_2. }
  destruct (uspace_data_page _ _ _ _ _ Hus Hin) as (_ & Hn & Hnt).
  assert (Hext : forall p x, is_table (k_mem s) root p -> in_page p x -> mget m' x = mget (k_mem s) x).
  { intros p x Hp Hx. apply Hm, (page_ok_disjoint p pa x); [|done|congruence|done].
    exact (is_table_page _ _ _ (ps_wf _ _ _ (us_ps _ _ _ _ Hus)) Hp). }
  pose proof (us_ps _ _ _ _ Hus) as Hps. split.
  - apply (uspace_ext root l fl s); [done|apply Hps| | |done].
    + apply kmem_inv_mem; [apply Hps|]. intros p x Hp Hx. apply Hm.
      pose proof (ps_inv _ _ _ Hps) as (_ & _ & Hok). rewrite Forall_forall in Hok.
      apply (page_ok_disjoint p pa x); [by apply Hok|done|congruence|done].
    + intros p Hp. split; [intros Ht; by apply (ps_disj _ _ _ Hps p)|].
      intros Hp'. by destruct (uspace_data_page _ _ _ _ _ Hus Hp') as (_ & ? & _).
  - intros a Ha Hge. simpl. rewrite (pte_of_ext (k_mem s)) by done. by apply Htop.
Qed.

Lemma chunk_written va n src pa :
  0 <= va < 2 ^ 64 -> upage l (Z.lor PTE_U PTE_W) va = Some pa -> 0 <= n <= PGSIZE - va mod PGSIZE -> n <= lenZ src ->
  Forall (fun b => 0 <= b < 256) src ->
  written l va (take (Z.to_nat n) src) (k_mem s)
    (store_bytes (k_mem s) (pa + va mod PGSIZE) (take (Z.to_nat n) src)).
Proof.
  intros Hva Hu Hn Hsrc Hb. assert (Hlen : lenZ (take (Z.to_nat n) src) = n).
  { unfold lenZ in *. rewrite length_take. lia. }
  split.
  - intros i b Hi. pose proof (lookupZ_Some_range _ _ _ Hi) as Hr. rewrite Hlen in Hr.
    exists (pa + va mod PGSIZE + i). split; [apply uaddr_chunk; [done|done|lia]|].
    unfold lookupZ in Hi. destruct (Z.ltb_spec i 0); [done|].
    replace i with (Z.of_nat (Z.to_nat i)) at 1 by lia. rewrite (mget_store_bytes_in _ _ _ _ b) by done.
    apply Z.mod_small. rewrite Forall_forall in Hb. apply Hb.
    apply (list_elem_of_lookup_2 _ (Z.to_nat i)). rewrite lookup_take_Some in Hi. apply Hi.
  - intros x Hx. apply mget_store_bytes_out. rewrite Hlen. intros Hr.
    apply (Hx (x - (pa + va mod PGSIZE))); [rewrite Hlen; lia|].
    rewrite (uaddr_chunk _ _ pa) by (done || lia). f_equal. lia.
Qed.

End Space.

Lemma written_app root l fl s va w w' m m1 m2 :
  uspace root l fl s -> written l va w m m1 -> written l (va + lenZ w) w' m1 m2 -> written l va (w ++ w') m m2.
Proof.
  intros Hus [H1 H2] [H3 H4]. split.
  - intros i b Hi. rewrite lookupZ_app in Hi. destruct (Z.ltb_spec i (lenZ w)).
    + destruct (H1 i b Hi) as (x & Hx & Hb). exists x. split; [done|]. rewrite H4; [done|].
      intros j Hj Hx'. pose proof (uaddr_inj root l fl s Hus _ _ _ _ _ Hx Hx'). lia.
    + destruct (H3 (i - lenZ w) b Hi) as (x & Hx & Hb). exists x. split; [|done]. rewrite <- Hx. f_equal. lia.
  - intros x Hx. rewrite lenZ_app in Hx. pose proof (lenZ_nonneg w). pose proof (lenZ_nonneg w').
    rewrite H4, H2; [done| |].
    + intros i Hi. apply Hx. lia.
    + intros i Hi. replace (va + lenZ w + i) with (va + (lenZ w + i)) by lia. apply Hx. lia.
Qed.

(** ** [copyout] *)

Lemma copyout_body_ok root l fl s va src :
  uspace root l fl s -> no_user_top root s -> 0 <= va < 2 ^ 64 -> 0 < lenZ src ->
  copyout_body root (va, src) s =
    match upage l (Z.lor PTE_U PTE_W) va with
    | Some pa =>
        let n := Z.to_nat (Z.min (PGSIZE - va mod PGSIZE) (lenZ src)) in
        Ok (inl (va + (PGSIZE - va mod PGSIZE), drop n src))
          (set_k_mem (store_bytes (k_mem s) (pa + va mod PGSIZE) (take n src)) s)
    | None => Ok (inr (-1)) s
    end.
Proof.
  intros Hus Htop Hva Hlen. destruct (page_of va Hva) as (_ & _ & Hm & _ & _). unfold copyout_body.
  destruct (Z.ltb_spec 0 (lenZ src)); [|lia]. cbv zeta. rewrite Hm.
  rewrite (copyout_test root l fl s Hus Htop va (fun pa0 =>
    (modify (fun s => set_k_mem (store_bytes (k_mem s) (pa0 + va mod PGSIZE)
       (take (Z.to_nat (Z.min (PGSIZE - va mod PGSIZE) (lenZ src))) src)) s);;
     ret (inl (u64 (PGROUNDDOWN va + PGSIZE), drop (Z.to_nat (Z.min (PGSIZE - va mod PGSIZE) (lenZ src))) src))))) by done.
  destruct (upage l (Z.lor PTE_U PTE_W) va) as [pa|] eqn:Hu; [|done]. rewrite bind_modify.
  destruct (page_of va Hva) as (Ha & _ & _ & _ & H0).
  destruct (Z.lt_ge_cases (PGROUNDDOWN va) MAXVA) as [Hlt|Hge];
    [|by rewrite (upage_None_top root l fl s Hus) in Hu].
  unfold ret. rewrite u64_small by lz. do 3 f_equal. lia.
Qed.

Lemma copyout_loop_ok root l fl fuel : forall va src s,
  uspace root l fl s -> no_user_top root s -> 0 <= va < 2 ^ 64 -> Forall (fun b => 0 <= b < 256) src ->
  va mod PGSIZE + lenZ src <= PGSIZE * (Z.of_nat fuel - 1) ->
  exists c w rest m', loop fuel (copyout_body root) (va, src) s = Ok c (set_k_mem m' s) /\ src = w ++ rest /\
    written l va w (k_mem s) m' /\ uspace root l fl (set_k_mem m' s) /\ no_user_top root (set_k_mem m' s) /\
    ((c = 0 /\ rest = []) \/ (c = -1 /\ rest <> [] /\ uaddr l (Z.lor PTE_U PTE_W) (va + lenZ w) = None)).
Proof.
  induction fuel as [|fuel IH]; intros va src s Hus Htop Hva Hb Hf;
    pose proof (Z.mod_pos_bound va PGSIZE ltac:(lz)) as Hmr; pose proof (lenZ_nonneg src); [lz|].
  assert (Hw0 : written l va [] (k_mem s) (k_mem s)).
  { split; [|done]. intros i b Hi. apply lookupZ_Some_range in Hi. unfold lenZ in Hi. simpl in Hi. lia. }
  assert (Es : set_k_mem (k_mem s) s = s) by by destruct s.
  cbn [loop]. destruct (Z.eq_dec (lenZ src) 0) as [Hz|Hne].
  { assert (src = []) as -> by (destruct src; [done|rewrite lenZ_cons in Hz; pose proof (lenZ_nonneg src); lia]).
    exists 0, [], [], (k_mem s). rewrite Es. split_and!; try done. by left. }
  pose proof (copyout_body_ok root l fl s va src Hus Htop Hva ltac:(lia)) as Hbody.
  destruct (upage l (Z.lor PTE_U PTE_W) va) as [pa|] eqn:Hu.
  2: { exists (-1), [], src, (k_mem s). rewrite Es. split_and!; try done; [by erewrite bind_ok by exact Hbody|].
       right. split_and!; [done|by intros ->|]. change (lenZ []) with 0. rewrite Z.add_0_r. by apply uaddr_None. }
  destruct (next_chunk root l fl s Hus _ va pa Hva Hu) as (_ & Hlt & Eal).
  set (n := Z.min (PGSIZE - va mod PGSIZE) (lenZ src)) in *. cbv zeta in Hbody.
  set (m1 := store_bytes (k_mem s) (pa + va mod PGSIZE) (take (Z.to_nat n) src)) in *.
  assert (Hw1 : written l va (take (Z.to_nat n) src) (k_mem s) m1) by (eapply chunk_written; try done; lia).
  destruct (write_user_page root l fl s Hus Htop _ va pa m1 Hu) as [Hus1 Htop1].
  { intros x Hx. apply mget_store_bytes_out. intros Hr. apply Hx. unfold in_page. unfold lenZ in Hr. rewrite length_take in Hr. lia. }
  assert (Hlen : lenZ (take (Z.to_nat n) src) = n) by (unfold lenZ in *; rewrite length_take; lia).
  assert (Hlen' : lenZ (drop (Z.to_nat n) src) = lenZ src - n) by (unfold lenZ in *; rewrite length_drop; lia).
  erewrite bind_ok by exact Hbody. cbn beta iota. destruct (Z.eq_dec n (lenZ src)) as [En|En].
  - exists 0, src, [], m1. rewrite app_nil_r. rewrite firstn_all2 in Hw1 by (unfold lenZ in *; lia). split_and!; try done; [|by left].
    destruct fuel as [|fuel]; [lz|]. cbn [loop]. unfold bind, copyout_body. rewrite Hlen'.
    destruct (Z.ltb_spec 0 (lenZ src - n)); [lia|done].
  - assert (Hn : n = PGSIZE - va mod PGSIZE) by lia.
    destruct (IH (va + (PGSIZE - va mod PGSIZE)) (drop (Z.to_nat n) src) (set_k_mem m1 s))
      as (c & w & rest & m2 & Hl & Ew & Hw2 & Hus2 & Htop2 & Hc); try done; try lia; [by apply Forall_drop|].
    exists c, (take (Z.to_nat n) src ++ w), rest, m2. split_and!; try done.
    + by rewrite <- app_assoc, <- Ew, take_drop.
    + eapply (written_app root); [exact Hus|exact Hw1|]. by rewrite Hlen, Hn.
    + destruct Hc as [?|(-> & ? & E)]; [by left|right]. split_and!; try done. rewrite lenZ_app, Hlen, <- E. f_equal. lia.
Qed.

Lemma copyout_ok root l fl s dstva src :
  uspace root l fl s -> no_user_top root s -> 0 <= dstva < 2 ^ 64 -> Forall (fun b => 0 <= b < 256) src ->
  exists c w rest m', copyout root dstva src s = Ok c (set_k_mem m' s) /\ src = w ++ rest /\
    written l dstva w (k_mem s) m' /\ uspace root l fl (set_k_mem m' s) /\ no_user_top root (set_k_mem m' s) /\
    ((c = 0 /\ rest = []) \/ (c = -1 /\ rest <> [] /\ uaddr l (Z.lor PTE_U PTE_W) (dstva + lenZ w) = None)).
Proof.
  intros Hus Htop Hva Hb. apply copyout_loop_ok; try done. apply copy_fuel_enough, lenZ_nonneg.
Qed.

(** A page the user may write is one the user may read. *)
Lemma uaddr_UW l va x : uaddr l (Z.lor PTE_U PTE_W) va = Some x -> uaddr l PTE_U va = Some x.
Proof.
  unfold uaddr, upage. destruct (lookupZ l (va / PGSIZE)) as [[pa perm]|]; [|done].
  rewrite need_UW, need_U. by destruct (truth (Z.land perm PTE_U)), (truth (Z.land perm PTE_W)).
Qed.

(** ** Properties *)

(** C28: [copyout] writes only where the user may write.  It writes a prefix of
    the bytes, each to the user byte at its address; it returns 0 exactly when
    it wrote them all, and otherwise stopped at the first byte that lies in a
    page the user may not write.  No other byte of memory changes, whatever
    the 64-bit address the user passed. *)
Theorem copyout_writes_user_pages root l fl s dstva src :
  uspace root l fl s -> no_user_top root s -> 0 <= dstva < 2 ^ 64 -> Forall (fun b => 0 <= b < 256) src ->
  exists c w rest m', copyout root dstva src s = Ok c (set_k_mem m' s) /\ src = w ++ rest /\
    written l dstva w (k_mem s) m' /\ uspace root l fl (set_k_mem m' s) /\
    ((c = 0 /\ rest = []) \/ (c = -1 /\ rest <> [] /\ uaddr l (Z.lor PTE_U PTE_W) (dstva + lenZ w) = None)).
Proof.
  intros Hus Htop Hva Hb. destruct (copyout_ok root l fl s dstva src) as (c & w & rest & m' & ? & ? & ? & ? & _ & ?); try done.
  by exists c, w, rest, m'.
Qed.

(** what the kernel copies out, it copies in.  After a [copyout] that
    returned 0, [copyin] from the same address and of the same length returns
    0 and the same bytes. *)
Theorem copyout_copyin_roundtrip root l fl s dstva src s' :
  uspace root l fl s -> no_user_top root s -> 0 <= dstva < 2 ^ 64 -> Forall (fun b => 0 <= b < 256) src ->
  copyout root dstva src s = Ok 0 s' -> copyin root dstva (lenZ src) s' = Ok (0, src) s'.
Proof.
  intros Hus Htop Hva Hb Hrun.
  destruct (copyout_ok root l fl s dstva src) as (c & w & rest & m' & Hrun' & Ew & [Hw _] & Hus' & Htop' & Hc); try done.
  rewrite Hrun in Hrun'. injection Hrun' as <- ->. destruct Hc as [[_ ->]|[? _]]; [|done]. rewrite app_nil_r in Ew. subst w.
  destruct (copyin_ok root l fl (set_k_mem m' s) Hus' Htop' dstva (lenZ src) Hva (lenZ_nonneg _))
    as (c & bs & Hin & Hub & [[-> Hlen]|(-> & i & Hi & Hnone)]).
  - rewrite Hin. do 2 f_equal. apply list_eqZ; [lia|]. intros i Hi'. assert (Hi : 0 <= i < lenZ src) by lia.
    destruct (lookupZ_is_Some src i Hi) as [b Hb1]. destruct (lookupZ_is_Some bs i) as [b' Hb2]; [lia|].
    destruct (Hw i b Hb1) as (x & Hx & Hbx). destruct (Hub i b' Hb2) as (x' & Hx' & Hbx').
    apply uaddr_UW in Hx. rewrite Hx in Hx'. injection Hx' as <-. simpl in Hbx'. congruence.
  - destruct (lookupZ_is_Some src i Hi) as [b Hb1]. destruct (Hw i b Hb1) as (x & Hx & _).
    apply uaddr_UW in Hx. congruence.
Qed.

(** C29: [copyinstr] fetches a string and nothing else.  It leaves the state
    alone and stores at most [max] bytes, those of the user's memory; it
    returns 0 exactly when they end with the first NUL, and otherwise -1 with
    [max] bytes without a NUL, or with the bytes before the first one that
    the user may not read. *)
Theorem copyinstr_fetches_string root l fl s srcva max :
  uspace root l fl s -> no_user_top root s -> 0 <= srcva < 2 ^ 64 -> 0 <= max ->
  exists c bs, copyinstr root srcva max s = Ok (c, bs) s /\ user_bytes l (k_mem s) srcva bs /\ lenZ bs <= max /\
    ((c = 0 /\ c_string bs) \/
     (c = -1 /\ Forall (fun b => b <> 0) bs /\ (lenZ bs = max \/ uaddr l PTE_U (srcva + lenZ bs) = None))).
Proof. intros Hus Htop. by apply (copyinstr_ok root l fl s). Qed.

End Copy.

(** An address space of three writable pages, for the witnesses. *)
Lemma demo_writable : exists root l fl s, uspace root l fl s /\ no_user_top root s /\
  forall va, 0 <= va < 3 * PGSIZE -> uaddr l (Z.lor PTE_U PTE_W) va <> None.
Proof.
  destruct demo_user as (root & l & fl & s & Hus & Hl & Hperm & H0). exists root, l, fl, s. split; [exact Hus|]. split.
  - intros a Ha Hge. by rewrite H0.
  - intros va Hva. unfold uaddr, upage. pose proof (Z.div_lt_upper_bound va PGSIZE 3 ltac:(lz) ltac:(lz)).
    pose proof (Z.div_pos va PGSIZE ltac:(lz) ltac:(lz)).
    destruct (lookupZ_is_Some l (va / PGSIZE)) as [[pa perm] E]; [lia|]. rewrite E.
    unfold lookupZ in E. destruct (_ <? 0) in E; [done|]. by rewrite (Hperm _ _ _ E).
Qed.

Lemma copyout_writes_user_pages_witness : exists root s s', copyout root 0xfff [104; 105; 0] s = Ok 0 s'.
Proof.
  destruct demo_writable as (root & l & fl & s & Hus & Htop & Hmap).
  destruct (copyout_writes_user_pages root l fl s 0xfff [104; 105; 0] Hus Htop ltac:(lia) ltac:(repeat constructor; lia))
    as (c & w & rest & m' & Hrun & Ew & _ & _ & [[-> _]|(_ & Hne & Hnone)]).
  - exists root, s, (set_k_mem m' s). exact Hrun.
  - exfalso. apply (Hmap (0xfff + lenZ w)); [|exact Hnone]. apply (f_equal lenZ) in Ew. rewrite lenZ_app in Ew.
    pose proof (lenZ_nonneg w). pose proof (lenZ_nonneg rest). change (lenZ [104; 105; 0]) with 3 in Ew. lz.
Defined.

Lemma copyout_copyin_roundtrip_witness : exists root s s',
  copyout root 0xfff [104; 105; 0] s = Ok 0 s' /\ copyin root 0xfff 3 s' = Ok (0, [104; 105; 0]) s'.
Proof.
  destruct demo_writable as (root & l & fl & s & Hus & Htop & Hmap).
  destruct (copyout_ok root l fl s 0xfff [104; 105; 0] Hus Htop ltac:(lia) ltac:(repeat constructor; lia))
    as (c & w & rest & m' & Hrun & Ew & _ & _ & _ & [[-> _]|(_ & Hne & Hnone)]).
  - exists root, s, (set_k_mem m' s). split; [exact Hrun|].
    apply (copyout_copyin_roundtrip root l fl s 0xfff [104; 105; 0]); [exact Hus|exact Htop|lia|repeat constructor; lia|exact Hrun].
  - exfalso. apply (Hmap (0xfff + lenZ w)); [|exact Hnone]. apply (f_equal lenZ) in Ew. rewrite lenZ_app in Ew.
    pose proof (lenZ_nonneg w). pose proof (lenZ_nonneg rest). change (lenZ [104; 105; 0]) with 3 in Ew. lz.
Defined.

Lemma copyinstr_fetches_string_witness : exists root s c bs, copyinstr root 0x2ffe 128 s = Ok (c, bs) s.
Proof.
  destruct demo_writable as (root & l & fl & s & Hus & Htop & _).
  destruct (copyinstr_fetches_string root l fl s 0x2ffe 128 Hus Htop ltac:(lia) ltac:(lia)) as (c & bs & Hrun & _).
  exists root, s, c, bs. exact Hrun.
Defined.
