(* ===== verification/Sched.v ===== *)
(** * Scheduling primitives of [kernel/proc.c]

    [myproc], [sched], [yield], [sleep], [wakeup], [kill], [killed],
    [setkilled], [allocpid] and the copies to user or kernel memory.  A kernel
    thread that gives up the CPU in [sched] does so with the outcome [Swtch] of
    the monad; its continuation runs when [scheduler] switches back. *)

From S2P Require Import Prelude Riscv State Spinlock Str Kalloc Vm Uvm Copy.

(** ** Definitions *)

(** Null when no process runs on this CPU. *)
Definition myproc : M (option Z) :=
  push_off;;
  id <- mycpu;;
  c <- get_cpu id;;
  pop_off;;
  ret (cpu_proc c).

(** The fields of the current process are read through a non-null pointer. *)
Definition curproc : M Z := p <- myproc;; deref p.

Definition allocpid : M Z :=
  acquire L_pid;;
  pid <- gets k_nextpid;;
  modify (set_k_nextpid (i32 (pid + 1)));;
  release L_pid;;
  ret pid.

(** [swtch(&p->context, &mycpu()->context)] *)
Definition swtch : M unit := fun s => Swtch s (fun s' => Ok tt s').

Definition sched : M unit :=
  p <- curproc;;
  h <- holding (L_proc p);;
  if negb h then panic "sched p->lock" else
  id <- mycpu;;
  c <- get_cpu id;;
  if negb (cpu_noff c =? 1) then panic "sched locks" else
  pr <- get_proc p;;
  if bool_decide (p_state pr = RUNNING) then panic "sched running" else
  intr <- intr_get;;
  if truth intr then panic "sched interruptible" else
  id <- mycpu;;
  c <- get_cpu id;;
  let intena := cpu_intena c in
  swtch;;
  id <- mycpu;;
  c <- get_cpu id;;
  put_cpu id (set_cpu_intena intena c).

Definition yield : M unit :=
  p <- curproc;;
  acquire (L_proc p);;
  pr <- get_proc p;;
  put_proc p (set_p_state RUNNABLE pr);;
  sched;;
  release (L_proc p).

Definition sleep (ch : chan) (lk : lockid) : M unit :=
  p <- curproc;;
  acquire (L_proc p);;
  release lk;;
  pr <- get_proc p;;
  put_proc p (set_p_state SLEEPING (set_p_chan (Some ch) pr));;
  sched;;
  pr <- get_proc p;;
  put_proc p (set_p_chan None pr);;
  release (L_proc p);;
  acquire lk.

(** [while (cond) sleep(ch, lk)]: how often a thread is woken in vain is up to
    the other threads; the loops end within [patience] turns. *)
Class Patience := {
  patience : nat;
  patience_pos : (0 < patience)%nat;
}.

Definition while_sleep {PT : Patience} (cond : M bool) (ch : chan) (lk : lockid) : M unit :=
  loop patience (fun _ : unit =>
    b <- cond;;
    if (b : bool) then sleep ch lk;; ret (inl tt) else ret (inr tt)) tt.

(** One turn of the loop of [wakeup]. *)
Definition wakeup_body (ch : option chan) (p : Z) : M (option unit) :=
  me <- myproc;;
  when (negb (bool_decide (Some p = me)))
    (acquire (L_proc p);;
     pr <- get_proc p;;
     when (bool_decide (p_state pr = SLEEPING /\ p_chan pr = ch)) (put_proc p (set_p_state RUNNABLE pr));;
     release (L_proc p));;
  ret None.

Definition wakeup (ch : option chan) : M unit :=
  for_loop (Z.to_nat NPROC) 0 (wakeup_body ch);;
  ret tt.

Definition kill_body (pid p : Z) : M (option Z) :=
  acquire (L_proc p);;
  pr <- get_proc p;;
  if p_pid pr =? pid then
    put_proc p (set_p_state (if bool_decide (p_state pr = SLEEPING) then RUNNABLE else p_state pr)
      (set_p_killed 1 pr));;
    release (L_proc p);;
    ret (Some 0)
  else
    release (L_proc p);;
    ret None.

Definition kill (pid : Z) : M Z :=
  r <- for_loop (Z.to_nat NPROC) 0 (kill_body pid);;
  ret (default (-1) r).

Definition setkilled (p : Z) : M unit :=
  acquire (L_proc p);;
  pr <- get_proc p;;
  put_proc p (set_p_killed 1 pr);;
  release (L_proc p).

Definition killed (p : Z) : M Z :=
  acquire (L_proc p);;
  pr <- get_proc p;;
  release (L_proc p);;
  ret (p_killed pr).

Section Either.
Context {KI : KernelImage}.

(** The bytes stored at a kernel [dst] are returned with the result. *)
Definition either_copyout (user_dst dst : Z) (src : list Z) : M (Z * list Z) :=
  p <- myproc;;
  if truth user_dst then
    p <- deref p;;
    pr <- get_proc p;;
    r <- copyout (p_pagetable pr) dst src;;
    ret (r, [])
  else ret (0, src).

(** A kernel source is passed as its bytes; the bytes stored at [dst] are
    returned with the result. *)
Definition either_copyin (user_src src : Z) (bytes : list Z) (len : Z) : M (Z * list Z) :=
  p <- myproc;;
  if truth user_src then
    p <- deref p;;
    pr <- get_proc p;;
    copyin (p_pagetable pr) src len
  else ret (0, take (Z.to_nat len) bytes).

End Either.

(** *** The process table with all locks free *)

Definition proc_locks_free (s : kstate) : Prop :=
  lenZ (k_proc s) = NPROC /\ forall i, 0 <= i < NPROC -> lock_free (L_proc i) s.

(** The process of the executing CPU. *)
Definition cur (s : kstate) : option Z := lookupZ (k_cpus s) (k_tp s) ≫= cpu_proc.

(** What [wakeup] does to a process. *)
Definition woken (ch : option chan) (me : option Z) (i : Z) (pr : proc) : proc :=
  if negb (bool_decide (Some i = me)) && bool_decide (p_state pr = SLEEPING /\ p_chan pr = ch)
  then set_p_state RUNNABLE pr else pr.

(** [f] applied to the elements from index [i] on, with their index. *)
Definition map_from {A} (f : Z -> A -> A) (i : Z) (l : list A) : list A :=
  imap (fun k x => if i <=? Z.of_nat k then f (Z.of_nat k) x else x) l.

(** Some sleeping processes other than [me] have become [RUNNABLE]. *)
Definition woken_by (me : option Z) (l l' : list proc) : Prop :=
  lenZ l' = lenZ l /\ forall i pr, lookupZ l i = Some pr ->
    lookupZ l' i = Some pr \/
    (Some i <> me /\ p_state pr = SLEEPING /\ lookupZ l' i = Some (set_p_state RUNNABLE pr)).

(** The state after process [p] has called [wakeup(ch)]. *)
Definition wake_st (ch : option chan) (p : Z) (s : kstate) : kstate :=
  set_k_proc (map_from (woken ch (Some p)) 0 (k_proc s)) s.

(** Process [p] runs kernel code on the executing CPU, and none of the
    kernel's spinlocks is held. *)
Record kthread (p : Z) (s : kstate) : Prop := {
  kt_settled : settled s;
  kt_cur : cur s = Some p;
  kt_len : lenZ (k_proc s) = NPROC;
  kt_range : 0 <= p < NPROC;
  kt_free : forall lk, lk ∈ static_locks -> lock_free lk s;
}.

(** What [kill] does to the process it finds. *)
Definition killed_proc (pr : proc) : proc :=
  set_p_state (if bool_decide (p_state pr = SLEEPING) then RUNNABLE else p_state pr) (set_p_killed 1 pr).

(** The process in [sched], asleep on [ch]. *)
Definition asleep (ch : chan) (pr : proc) : proc := set_p_state SLEEPING (set_p_chan (Some ch) pr).

(** The executing CPU is in no critical section, with interrupts as [en]. *)
Definition outside (en : bool) (s : kstate) : Prop :=
  exists h c, lookupZ (k_harts s) (k_tp s) = Some h /\ lookupZ (k_cpus s) (k_tp s) = Some c /\
    cpu_noff c = 0 /\ intr_enabled h = en /\ cpu_intena c = if en then 1 else 0.

(** What [sleep] does from the [swtch] back to it on. *)
Definition sleep_resume (p : Z) (lk : lockid) (intena : Z) : M unit :=
  (id <- mycpu;; c <- get_cpu id;; put_cpu id (set_cpu_intena intena c));;
  pr <- get_proc p;;
  put_proc p (set_p_chan None pr);;
  release (L_proc p);;
  acquire lk.

(** How a [while (cond) sleep(ch, lk)] of process [p] waits.  The outcome [r] of
    the call, from [s], is that [p] has given up the CPU, asleep on [ch], with
    nothing but [p->lock] held.  It can be resumed in any state that satisfies
    [can]; it leaves the channel and looks at the condition again: if it has
    become [free], the outcome is one of [fin], and if it is still [busy], [p]
    sleeps again and waits in the same way.  [n] bounds the number of turns. *)
Fixpoint waits {A} (n : nat) (p : Z) (ch : chan) (can free busy : kstate -> Prop)
  (fin : kstate -> res A -> Prop) (s : kstate) (r : res A) : Prop :=
  exists pr k, lookupZ (k_proc s) p = Some pr /\
    r = Swtch (acq (L_proc p) (set_k_proc (insertZ p (asleep ch pr) (k_proc s)) s)) k /\
    forall s2 pr2, can s2 -> lookupZ (k_proc s2) p = Some pr2 ->
      let s3 := set_k_proc (insertZ p (set_p_chan None pr2) (k_proc s2)) s2 in
      let r3 := k (acq (L_proc p) s2) in
      match n with
      | O => r3 = Fail OutOfFuel
      | S n' => (free s3 -> fin s3 r3) /\ (busy s3 -> waits n' p ch can free busy fin s3 r3)
      end.

(** ** The process table *)

Lemma map_from_step {A} (f : Z -> A -> A) i l x :
  lookupZ l i = Some x -> map_from f (i + 1) (insertZ i (f i x) l) = map_from f i l.
Proof.
  intros Hx. pose proof (lookupZ_Some_range _ _ _ Hx) as Hr. apply list_eq. intros k.
  unfold map_from. rewrite !list_lookup_imap. unfold insertZ, lookupZ in *.
  destruct (Z.ltb_spec i 0); [lia|]. destruct (decide (k = Z.to_nat i)) as [->|Hk].
  - rewrite list_lookup_insert_eq by (by eapply lookup_lt_Some).
    rewrite Hx. cbn [fmap option_fmap option_map]. rewrite Z2Nat.id by lia.
    destruct (Z.leb_spec (i + 1) i); [lia|]. by destruct (Z.leb_spec i i); [|lia].
  - rewrite list_lookup_insert_ne by done. destruct (l !! k); [|done]. simpl.
    destruct (Z.leb_spec (i + 1) (Z.of_nat k)), (Z.leb_spec i (Z.of_nat k)); try done; lia.
Qed.

Lemma map_from_end {A} (f : Z -> A -> A) i l : lenZ l <= i -> map_from f i l = l.
Proof.
  intros Hi. apply list_eq. intros k. unfold map_from. rewrite list_lookup_imap.
  destruct (l !! k) as [x|] eqn:E; [|done]. simpl. apply lookup_lt_Some in E. unfold lenZ in Hi.
  by destruct (Z.leb_spec i (Z.of_nat k)); [lia|].
Qed.

Lemma length_map_from {A} (f : Z -> A -> A) i l : lenZ (map_from f i l) = lenZ l.
Proof. unfold lenZ, map_from. by rewrite length_imap. Qed.

Lemma lookupZ_map_from {A} (f : Z -> A -> A) i l :
  0 <= i -> lookupZ (map_from f 0 l) i = f i <$> lookupZ l i.
Proof.
  intros Hi. unfold lookupZ, map_from. destruct (Z.ltb_spec i 0); [lia|].
  rewrite list_lookup_imap, Z2Nat.id by lia. destruct (l !! Z.to_nat i); [|done]. simpl.
  by destruct (Z.leb_spec 0 i); [|lia].
Qed.

(** [k_proc] is not among what [settled], [lock_free] and [cur] look at. *)
Lemma set_k_proc_self s : set_k_proc (k_proc s) s = s.
Proof. by destruct s. Qed.

Lemma run_myproc s : settled s -> myproc s = Ok (cur s) s.
Proof.
  intros Hs. unfold myproc. erewrite bind_ok by (by apply settled_push_off).
  erewrite bind_ok by apply run_mycpu. pose proof Hs as (h & c & Hh & Hc & _).
  pose proof (lookupZ_Some_range _ _ _ Hc).
  erewrite bind_ok.
  2:{ apply run_get_cpu. rewrite push_st_tp. unfold push_st. rewrite Hh, Hc. simpl.
      by apply lookupZ_insertZ_eq. }
  erewrite bind_ok by (by apply pop_off_push). unfold cur. rewrite Hc. cbn [mbind option_bind].
  unfold push_cpu. by destruct (cpu_noff c =? 0).
Qed.

Lemma wakeup_body_ok ch s i pr :
  settled s -> lock_free (L_proc i) s -> lookupZ (k_proc s) i = Some pr ->
  wakeup_body ch i s = Ok None (set_k_proc (insertZ i (woken ch (cur s) i pr) (k_proc s)) s).
Proof.
  intros Hs Hl Hp. unfold wakeup_body, woken. erewrite bind_ok by (by apply run_myproc).
  destruct (bool_decide (Some i = cur s)); cbn [negb when andb].
  { rewrite bind_ret, insertZ_id by done. by rewrite set_k_proc_self. }
  erewrite bind_ok; [done|]. erewrite bind_ok by (by apply acquire_ok).
  erewrite bind_ok by (apply run_get_proc; by autorewrite with acq).
  destruct (bool_decide _); cbn [when].
  - unfold put_proc. rewrite bind_modify. autorewrite with acq. by apply release_acq.
  - rewrite bind_ret, insertZ_id, set_k_proc_self by done. by apply release_acq.
Qed.

Lemma wakeup_loop ch n : forall i s,
  settled s -> proc_locks_free s -> 0 <= i -> i + Z.of_nat n = NPROC ->
  for_loop n i (wakeup_body ch) s =
  Ok None (set_k_proc (map_from (woken ch (cur s)) i (k_proc s)) s).
Proof.
  induction n as [|n IH]; intros i s Hs [Hlen Hf] Hi Hn; cbn [for_loop].
  - rewrite map_from_end by lia. by rewrite set_k_proc_self.
  - destruct (lookupZ_is_Some (k_proc s) i ltac:(lia)) as [pr Hp].
    erewrite bind_ok by (apply wakeup_body_ok; [done|apply Hf; lia|done]). cbv iota.
    rewrite IH; [|exact Hs| |lia..].
    + simpl. f_equal. change (cur (set_k_proc _ s)) with (cur s).
      rewrite (map_from_step (woken ch (cur s))) by done. by destruct s.
    + split; [simpl; by rewrite lenZ_insertZ|exact Hf].
Qed.

Lemma wakeup_ok ch s :
  settled s -> proc_locks_free s ->
  wakeup ch s = Ok tt (set_k_proc (map_from (woken ch (cur s)) 0 (k_proc s)) s).
Proof.
  intros Hs Hf. unfold wakeup. erewrite bind_ok; [done|].
  by apply wakeup_loop.
Qed.

Lemma run_curproc s p : settled s -> cur s = Some p -> curproc s = Ok p s.
Proof. intros Hs Hp. unfold curproc. erewrite bind_ok by (by apply run_myproc). by rewrite Hp. Qed.

Lemma cur_acq lk s : settled s -> cur (acq lk s) = cur s.
Proof.
  intros (h & c & Hh & Hc & _). unfold cur, acq, push_st. rewrite Hh, Hc. simpl.
  pose proof (lookupZ_Some_range _ _ _ Hc). rewrite lookupZ_insertZ_eq by done. simpl.
  unfold push_cpu. by destruct (cpu_noff c =? 0).
Qed.

#[global] Instance woken_by_preorder me : PreOrder (woken_by me).
Proof.
  split.
  - intros l. split; [done|]. auto.
  - intros l1 l2 l3 [H1 H12] [H2 H23]. split; [lia|]. intros i pr Hi.
    destruct (H12 i pr Hi) as [H|(Hne & Hs & H)].
    + by apply H23.
    + right. split; [done|]. split; [done|].
      destruct (H23 _ _ H) as [|(_ & E & _)]; [done|]. discriminate.
Qed.

Lemma woken_by_woken ch me l : woken_by me l (map_from (woken ch me) 0 l).
Proof.
  split; [apply length_map_from|]. intros i pr Hi. pose proof (lookupZ_Some_range _ _ _ Hi).
  rewrite lookupZ_map_from, Hi by lia. cbn [fmap option_fmap option_map]. unfold woken.
  repeat case_bool_decide; simpl; intuition.
Qed.

Lemma woken_by_cur i l l' : woken_by (Some i) l l' -> lookupZ l' i = lookupZ l i.
Proof.
  intros [Hl H]. destruct (lookupZ l i) as [pr|] eqn:E.
  - destruct (H _ _ E) as [|[? _]]; done.
  - apply lookupZ_None. intros Hi. rewrite Hl in Hi. destruct (lookupZ_is_Some _ _ Hi). congruence.
Qed.

Lemma kthread_locks p s : kthread p s -> proc_locks_free s.
Proof.
  intros H. split; [apply H|]. intros i Hi. apply H. unfold static_locks. rewrite !elem_of_app.
  right. left. apply list_elem_of_fmap. exists i. split; [done|]. apply elem_of_rangeZ. exact Hi.
Qed.

(** Waking processes leaves the current thread where it is. *)
Lemma kthread_woken p s ps : kthread p s -> woken_by (Some p) (k_proc s) ps -> kthread p (set_k_proc ps s).
Proof. intros [] [Hl _]. split; try done. simpl. lia. Qed.

Lemma kthread_wakeup ch p s : kthread p s -> wakeup ch s = Ok tt (wake_st ch p s).
Proof.
  intros H. rewrite wakeup_ok; [|apply H|by eapply kthread_locks]. by rewrite (kt_cur _ _ H).
Qed.

(** Inside one critical section the other locks are still free. *)
Lemma wakeup_acq ch lk p s :
  kthread p s -> (forall i, lk <> L_proc i) -> wakeup ch (acq lk s) = Ok tt (acq lk (wake_st ch p s)).
Proof.
  intros H Hlk. destruct (kthread_locks _ _ H) as [Hl Hf]. unfold wake_st.
  rewrite wakeup_ok; [|by apply settled_acq, H|].
  - autorewrite with acq. by rewrite cur_acq, (kt_cur _ _ H) by apply H.
  - split; [exact Hl|]. intros i Hi. apply lock_free_acq; [apply Hlk|by apply Hf].
Qed.

Lemma kthread_wake_st ch p s : kthread p s -> kthread p (wake_st ch p s).
Proof. intros H. apply kthread_woken; [done|]. apply woken_by_woken. Qed.

(** A thread is not disturbed by changes of the other variables. *)
Lemma kthread_ext p s s' :
  k_tp s' = k_tp s -> k_harts s' = k_harts s -> k_cpus s' = k_cpus s -> k_locks s' = k_locks s ->
  lenZ (k_proc s') = lenZ (k_proc s) -> kthread p s -> kthread p s'.
Proof.
  intros E1 E2 E3 E4 E5 [H1 H2 H3 H4 H5]. split; unfold settled, cur, lock_free in *;
    rewrite ?E1, ?E2, ?E3, ?E4, ?E5; auto.
Qed.

Section ThreadSet.
Context (p : Z) (s : kstate).
Hypothesis Hk : kthread p s.

Lemma kthread_set_k_sleeplocks v : kthread p (set_k_sleeplocks v s).
Proof. by apply (kthread_ext p s). Qed.
Lemma kthread_set_k_mem v : kthread p (set_k_mem v s).
Proof. by apply (kthread_ext p s). Qed.
Lemma kthread_set_k_freelist v : kthread p (set_k_freelist v s).
Proof. by apply (kthread_ext p s). Qed.
Lemma kthread_set_k_kpagetable v : kthread p (set_k_kpagetable v s).
Proof. by apply (kthread_ext p s). Qed.
Lemma kthread_set_k_bcache v : kthread p (set_k_bcache v s).
Proof. by apply (kthread_ext p s). Qed.
Lemma kthread_set_k_disk v : kthread p (set_k_disk v s).
Proof. by apply (kthread_ext p s). Qed.
Lemma kthread_set_k_log v : kthread p (set_k_log v s).
Proof. by apply (kthread_ext p s). Qed.
Lemma kthread_set_k_sb v : kthread p (set_k_sb v s).
Proof. by apply (kthread_ext p s). Qed.
Lemma kthread_set_k_itable v : kthread p (set_k_itable v s).
Proof. by apply (kthread_ext p s). Qed.
Lemma kthread_set_k_ftable v : kthread p (set_k_ftable v s).
Proof. by apply (kthread_ext p s). Qed.
Lemma kthread_set_k_pipes v : kthread p (set_k_pipes v s).
Proof. by apply (kthread_ext p s). Qed.
Lemma kthread_set_k_cons v : kthread p (set_k_cons v s).
Proof. by apply (kthread_ext p s). Qed.
Lemma kthread_set_k_uart v : kthread p (set_k_uart v s).
Proof. by apply (kthread_ext p s). Qed.
Lemma kthread_set_k_vdisk v : kthread p (set_k_vdisk v s).
Proof. by apply (kthread_ext p s). Qed.
Lemma kthread_set_k_mmio v : kthread p (set_k_mmio v s).
Proof. by apply (kthread_ext p s). Qed.
Lemma kthread_set_k_ticks v : kthread p (set_k_ticks v s).
Proof. by apply (kthread_ext p s). Qed.
Lemma kthread_set_k_nextpid v : kthread p (set_k_nextpid v s).
Proof. by apply (kthread_ext p s). Qed.

End ThreadSet.

Create HintDb kt.
#[export] Hint Resolve kthread_set_k_sleeplocks kthread_set_k_mem kthread_set_k_freelist
  kthread_set_k_kpagetable kthread_set_k_bcache kthread_set_k_disk kthread_set_k_log
  kthread_set_k_sb kthread_set_k_itable kthread_set_k_ftable kthread_set_k_pipes
  kthread_set_k_cons kthread_set_k_uart kthread_set_k_vdisk kthread_set_k_mmio kthread_set_k_ticks
  kthread_set_k_nextpid kthread_wake_st : kt.

Lemma kthread_curproc lk p s : kthread p s -> curproc (acq lk s) = Ok p (acq lk s).
Proof. intros H. apply run_curproc; [by apply settled_acq, H|]. rewrite cur_acq; apply H. Qed.

Lemma kthread_proc_free p s : kthread p s -> lock_free (L_proc p) s.
Proof. intros H. destruct (kthread_locks _ _ H) as [_ Hf]. apply Hf, H. Qed.

Lemma kthread_set_proc p s pr : kthread p s -> kthread p (set_k_proc (insertZ p pr (k_proc s)) s).
Proof. intros H. apply (kthread_ext p s); try done. apply lenZ_insertZ. Qed.

(** [kill]: the loop stops at the first process with the pid. *)
Lemma kill_body_ok pid s i pr :
  settled s -> lock_free (L_proc i) s -> lookupZ (k_proc s) i = Some pr ->
  kill_body pid i s =
  if p_pid pr =? pid then Ok (Some 0) (set_k_proc (insertZ i (killed_proc pr) (k_proc s)) s)
  else Ok None s.
Proof.
  intros Hs Hl Hp. unfold kill_body. erewrite bind_ok by (by apply acquire_ok).
  erewrite bind_ok by (apply run_get_proc; by autorewrite with acq).
  destruct (p_pid pr =? pid).
  - unfold put_proc. rewrite bind_modify. autorewrite with acq.
    erewrite bind_ok; [done|]. by apply release_acq.
  - erewrite bind_ok; [done|]. by apply release_acq.
Qed.

Lemma kill_loop pid n : forall i s,
  settled s -> proc_locks_free s -> 0 <= i -> i + Z.of_nat n = NPROC ->
  (exists j pr, i <= j /\ lookupZ (k_proc s) j = Some pr /\ p_pid pr = pid /\
    (forall k q, i <= k < j -> lookupZ (k_proc s) k = Some q -> p_pid q <> pid) /\
    for_loop n i (kill_body pid) s = Ok (Some 0) (set_k_proc (insertZ j (killed_proc pr) (k_proc s)) s))
  \/ ((forall k q, i <= k -> lookupZ (k_proc s) k = Some q -> p_pid q <> pid) /\
      for_loop n i (kill_body pid) s = Ok None s).
Proof.
  induction n as [|n IH]; intros i s Hs [Hlen Hf] Hi Hn; cbn [for_loop].
  - right. split; [|done]. intros k q Hk Hq. apply lookupZ_Some_range in Hq. lia.
  - destruct (lookupZ_is_Some (k_proc s) i ltac:(lia)) as [pr Hp].
    assert (HB := kill_body_ok pid s i pr Hs (Hf i ltac:(lia)) Hp).
    destruct (Z.eqb_spec (p_pid pr) pid) as [E|E].
    + left. exists i, pr. split; [lia|]. split; [done|]. split; [done|]. split; [lia|].
      by erewrite bind_ok by exact HB.
    + erewrite !(bind_ok _ _ s) by exact HB. cbv iota.
      destruct (IH (i + 1) s Hs (conj Hlen Hf) ltac:(lia) ltac:(lia))
        as [(j & pr' & Hj & Hl & Hpid & Hbefore & HE)|[Hno HE]].
      * left. exists j, pr'. split; [lia|]. split; [done|]. split; [done|]. split; [|exact HE].
        intros k q Hk Hq. destruct (decide (k = i)) as [->|]; [congruence|]. apply (Hbefore k q); [lia|done].
      * right. split; [|exact HE]. intros k q Hk Hq.
        destruct (decide (k = i)) as [->|]; [congruence|]. apply (Hno k q); [lia|done].
Qed.

(** ** [sched] and [sleep] *)

Lemma acq_comm lk1 lk2 s : lk1 <> lk2 -> acq lk1 (acq lk2 s) = acq lk2 (acq lk1 s).
Proof.
  intros Hne. set (f := fun l => mkSpinlock 1 (lk_name l) (Some (k_tp s))).
  assert (HE : alter f lk1 (alter f lk2 (k_locks s)) = alter f lk2 (alter f lk1 (k_locks s))).
  { apply map_eq. intros k. rewrite !lookup_alter. repeat case_decide; congruence. }
  change (set_k_locks (alter f lk1 (alter f lk2 (k_locks s))) (push_st (push_st s))
    = set_k_locks (alter f lk2 (alter f lk1 (k_locks s))) (push_st (push_st s))).
  by rewrite HE.
Qed.

Lemma outside_settled en s : outside en s -> settled s.
Proof.
  intros (h & c & Hh & Hc & Hn & Hi & Hie). exists h, c. rewrite Hi. split_and!; auto with lia.
Qed.

Lemma outside_acq_cpu en lk s : outside en s -> exists c h,
  lookupZ (k_cpus (acq lk s)) (k_tp s) = Some c /\ lookupZ (k_harts (acq lk s)) (k_tp s) = Some h /\
  cpu_noff c = 1 /\ cpu_intena c = (if en then 1 else 0) /\ intr_enabled h = false.
Proof.
  intros (h & c & Hh & Hc & Hn & Hi & Hie). unfold acq, push_st. rewrite Hh, Hc. simpl.
  pose proof (lookupZ_Some_range _ _ _ Hc). pose proof (lookupZ_Some_range _ _ _ Hh).
  exists (push_cpu h c), (push_hart h). rewrite !lookupZ_insertZ_eq by done.
  split; [done|]. split; [done|]. unfold push_cpu. rewrite Hn, Hi. simpl.
  split; [done|]. split; [done|]. unfold intr_enabled. rewrite land_SIE. apply intr_enabled_off.
Qed.

Lemma holding_acq lk s : lock_free lk s -> holding lk (acq lk s) = Ok true (acq lk s).
Proof.
  intros [n Hl]. erewrite run_holding by (simpl; by rewrite lookup_alter_eq, Hl).
  simpl. by rewrite bool_decide_true by done.
Qed.

(** [sched] from inside [p->lock] alone, by a process that is not [RUNNING]. *)
Lemma sched_ok en s p pr :
  outside en s -> cur s = Some p -> lock_free (L_proc p) s -> lookupZ (k_proc s) p = Some pr ->
  p_state pr <> RUNNING ->
  sched (acq (L_proc p) s) = Swtch (acq (L_proc p) s) (fun s' =>
    (id <- mycpu;; c <- get_cpu id;; put_cpu id (set_cpu_intena (if en then 1 else 0) c)) s').
Proof.
  intros Ho Hp Hl Hpr Hst. pose proof (outside_settled _ _ Ho) as Hs.
  destruct (outside_acq_cpu _ (L_proc p) _ Ho) as (c & h & Hc & Hh & Hn & Hi & Hie).
  unfold sched. erewrite bind_ok by (apply run_curproc; [by apply settled_acq|by rewrite cur_acq]).
  erewrite bind_ok by (by apply holding_acq). cbn [negb].
  erewrite bind_ok by apply run_mycpu. erewrite bind_ok by (apply run_get_cpu; exact Hc).
  rewrite Hn. cbn [Z.eqb negb Pos.eqb].
  erewrite bind_ok by (apply run_get_proc; by autorewrite with acq).
  rewrite bool_decide_false by done.
  erewrite bind_ok by (eapply run_intr_get; exact Hh). rewrite Hie. cbn [truth Z.eqb negb].
  erewrite bind_ok by apply run_mycpu. erewrite bind_ok by (apply run_get_cpu; exact Hc).
  rewrite Hi. reflexivity.
Qed.

Lemma sleep_ok en ch lk s p pr :
  outside en s -> cur s = Some p -> lock_free (L_proc p) s -> lock_free lk s -> lk <> L_proc p ->
  lookupZ (k_proc s) p = Some pr ->
  sleep ch lk (acq lk s) =
  Swtch (acq (L_proc p) (set_k_proc (insertZ p (asleep ch pr) (k_proc s)) s))
    (sleep_resume p lk (if en then 1 else 0)).
Proof.
  intros Ho Hp Hlp Hl Hne Hpr. pose proof (outside_settled _ _ Ho) as Hs.
  pose proof (lookupZ_Some_range _ _ _ Hpr). unfold sleep.
  erewrite bind_ok by (apply run_curproc; [by apply settled_acq|by rewrite cur_acq]).
  erewrite bind_ok by (apply acquire_ok; [by apply settled_acq|by apply lock_free_acq]).
  rewrite acq_comm by done.
  erewrite bind_ok by (apply release_acq; [by apply settled_acq|by apply lock_free_acq]).
  erewrite bind_ok by (apply run_get_proc; by autorewrite with acq).
  unfold put_proc at 1. rewrite bind_modify. autorewrite with acq.
  change (set_p_state SLEEPING (set_p_chan (Some ch) pr)) with (asleep ch pr).
  unfold bind at 1. rewrite (sched_ok en _ p (asleep ch pr)); try done.
  simpl. by rewrite lookupZ_insertZ_eq.
Qed.

Lemma while_sleep_no {PT : Patience} (cond : M bool) ch lk s s' :
  cond s = Ok false s' -> while_sleep cond ch lk s = Ok tt s'.
Proof.
  intros H. unfold while_sleep. pose proof patience_pos. destruct patience as [|n]; [lia|].
  cbn [loop]. rewrite (bind_ok _ _ s (inr tt) s'); [done|]. by erewrite bind_ok by exact H.
Qed.

Lemma set_intena_ok en lk s :
  outside en s ->
  (id <- mycpu;; c <- get_cpu id;; put_cpu id (set_cpu_intena (if en then 1 else 0) c)) (acq lk s)
  = Ok tt (acq lk s).
Proof.
  intros Ho. destruct (outside_acq_cpu _ lk _ Ho) as (c & h & Hc & Hh & Hn & Hi & Hie).
  erewrite bind_ok by apply run_mycpu. erewrite bind_ok by (apply run_get_cpu; exact Hc).
  unfold put_cpu. rewrite run_modify. f_equal. autorewrite with acq. rewrite insertZ_id.
  - apply set_k_cpus_self.
  - rewrite Hc. destruct c. simpl in *. by subst.
Qed.

Lemma sleep_resume_ok en s p lk pr :
  outside en s -> lock_free (L_proc p) s -> lock_free lk s -> lookupZ (k_proc s) p = Some pr ->
  sleep_resume p lk (if en then 1 else 0) (acq (L_proc p) s) =
  Ok tt (acq lk (set_k_proc (insertZ p (set_p_chan None pr) (k_proc s)) s)).
Proof.
  intros Ho Hlp Hl Hpr. pose proof (outside_settled _ _ Ho) as Hs. unfold sleep_resume.
  erewrite bind_ok by (by apply set_intena_ok).
  erewrite bind_ok by (apply run_get_proc; by autorewrite with acq).
  unfold put_proc. rewrite bind_modify. autorewrite with acq.
  erewrite bind_ok by (by apply release_acq). by apply acquire_ok.
Qed.

(** *** [p->lock] and [wakeup] *)

Lemma acq_holds lk s : lock_free lk s -> holds (k_tp s) lk (acq lk s).
Proof. intros [n Hn]. eexists. simpl. rewrite lookup_alter_eq, Hn. done. Qed.

(** [sleep] waits for [p->lock] with [lk] still held. *)
Lemma sleep_spins ch lk s p i :
  settled s -> cur s = Some p -> lock_free lk s -> lk <> L_proc p -> holds i (L_proc p) s -> i <> k_tp s ->
  exists s1, sleep ch lk (acq lk s) = Fail (Spins (L_proc p) s1) /\ holds (k_tp s) lk s1 /\ k_proc s1 = k_proc s.
Proof.
  intros Hs Hp Hl Hne (l & Hh & Hlk & Hc) Hi. exists (push_st (acq lk s)). split; [|split; [|done]].
  - unfold sleep. erewrite bind_ok by (apply run_curproc; [by apply settled_acq|by rewrite cur_acq]).
    apply bind_fail. rewrite (acquire_held _ _ i).
    + by rewrite acq_k_tp, bool_decide_false by done.
    + by apply settled_acq.
    + exists l. simpl. by rewrite lookup_alter_ne.
  - destruct (acq_holds lk s Hl) as (l' & H). by exists l'.
Qed.

(** [wakeup] gets no further than a process lock another CPU holds. *)
Lemma wakeup_blocked ch p j n : forall i s,
  settled s -> lenZ (k_proc s) = NPROC -> (forall i, 0 <= i < p -> lock_free (L_proc i) s) ->
  holds j (L_proc p) s -> j <> k_tp s -> cur s <> Some p -> 0 <= i <= p -> p < NPROC -> p < i + Z.of_nat n ->
  exists s', for_loop n i (wakeup_body ch) s = Fail (Spins (L_proc p) s').
Proof.
  induction n as [|n IH]; intros i s Hs Hlen Hf Hh Hj Hc Hi HN Hn; [lia|]. cbn [for_loop].
  destruct (decide (i = p)) as [->|Hne].
  - exists (push_st s). apply bind_fail. unfold wakeup_body. erewrite bind_ok by (by apply run_myproc).
    rewrite bool_decide_false by congruence. cbn [negb when]. do 2 apply bind_fail.
    by rewrite (acquire_held _ _ j), bool_decide_false by done.
  - destruct (lookupZ_is_Some (k_proc s) i ltac:(lia)) as [pr Hp].
    erewrite bind_ok by (apply wakeup_body_ok; [done|apply Hf; lia|done]). cbv iota.
    apply IH; try done; [simpl; by rewrite lenZ_insertZ|lia..].
Qed.

(** A thread that finds the condition true sleeps, and looks again when it is
    resumed. *)
Lemma while_sleep_once {PT : Patience} (cond : M bool) en ch lk s p pr :
  (1 < patience)%nat -> outside en s -> cur s = Some p -> lock_free (L_proc p) s -> lock_free lk s ->
  lk <> L_proc p -> lookupZ (k_proc s) p = Some pr -> cond (acq lk s) = Ok true (acq lk s) ->
  exists k, while_sleep cond ch lk (acq lk s) =
    Swtch (acq (L_proc p) (set_k_proc (insertZ p (asleep ch pr) (k_proc s)) s)) k /\
    forall s2 pr2, outside en s2 -> lock_free (L_proc p) s2 -> lock_free lk s2 ->
      lookupZ (k_proc s2) p = Some pr2 ->
      let s3 := acq lk (set_k_proc (insertZ p (set_p_chan None pr2) (k_proc s2)) s2) in
      cond s3 = Ok false s3 -> k (acq (L_proc p) s2) = Ok tt s3.
Proof.
  intros Hpat Ho Hc Hlp Hl Hne Hp Hcond. unfold while_sleep.
  destruct patience as [|[|n]]; [lia..|]. cbn [loop]. eexists. split.
  - apply bind_swtch. erewrite bind_ok by exact Hcond. apply bind_swtch. by apply sleep_ok.
  - cbv zeta beta. intros s2 pr2 Ho2 Hlp2 Hl2 Hp2 H3.
    match type of H3 with _ = Ok _ ?st => set (s3 := st) in * end.
    rewrite (bind_ok _ _ _ (inl tt) s3); last first.
    { erewrite bind_ok by (by apply sleep_resume_ok). reflexivity. }
    rewrite (bind_ok _ _ _ (inr tt) s3); [done|]. by erewrite bind_ok by exact H3.
Qed.

(** In general: a thread that finds the condition true waits, for as long as
    it is woken in vain, and goes on as [rest] when it finds it false. *)
Section Waits.
Context {A : Type} (cond : M bool) (rest : unit -> M A) (en : bool) (p : Z) (ch : chan) (lk : lockid).
Context (can free busy : kstate -> Prop) (fin : kstate -> res A -> Prop).
Hypothesis Hlk : lk <> L_proc p.
Hypothesis Hcan : forall s, can s ->
  outside en s /\ cur s = Some p /\ lock_free (L_proc p) s /\ lock_free lk s.
Hypothesis Hkeep : forall s pr, can s -> lookupZ (k_proc s) p = Some pr ->
  can (set_k_proc (insertZ p (set_p_chan None pr) (k_proc s)) s).
Hypothesis Hbusy : forall s, can s -> busy s -> cond (acq lk s) = Ok true (acq lk s).
Hypothesis Hfree : forall s, can s -> free s -> cond (acq lk s) = Ok false (acq lk s).
Hypothesis Hfin : forall s, can s -> free s -> fin s (rest tt (acq lk s)).

Let turn : unit -> M (unit + unit) := fun _ =>
  b <- cond;; if (b : bool) then sleep ch lk;; ret (inl tt) else ret (inr tt).

(** One turn of the loop, from the test of the condition to the next one. *)
Lemma loop_sleeps n s pr : can s -> lookupZ (k_proc s) p = Some pr -> busy s ->
  exists k, (x <- loop (S n) turn tt;; rest x) (acq lk s)
    = Swtch (acq (L_proc p) (set_k_proc (insertZ p (asleep ch pr) (k_proc s)) s)) k /\
  forall s2 pr2, can s2 -> lookupZ (k_proc s2) p = Some pr2 ->
    k (acq (L_proc p) s2) = (x <- loop n turn tt;; rest x)
      (acq lk (set_k_proc (insertZ p (set_p_chan None pr2) (k_proc s2)) s2)).
Proof using Hlk Hcan Hbusy.
  intros Hc Hp Hb. destruct (Hcan s Hc) as (Ho & Hcu & Hlp & Hl). eexists. split.
  - cbn [loop]. do 2 apply bind_swtch. unfold turn. erewrite bind_ok by (by apply Hbusy).
    apply bind_swtch. by apply sleep_ok.
  - cbv beta. intros s2 pr2 Hc2 Hp2. destruct (Hcan s2 Hc2) as (Ho2 & _ & Hlp2 & Hl2).
    set (s3 := set_k_proc _ s2).
    assert (HR : sleep_resume p lk (if en then 1 else 0) (acq (L_proc p) s2) = Ok tt (acq lk s3))
      by (by apply sleep_resume_ok).
    unfold bind. by rewrite HR.
Qed.

Lemma loop_waits n : forall s pr, can s -> lookupZ (k_proc s) p = Some pr -> busy s ->
  waits n p ch can free busy fin s ((x <- loop (S n) turn tt;; rest x) (acq lk s)).
Proof using Hlk Hcan Hkeep Hbusy Hfree Hfin.
  induction n as [|n IH]; intros s pr Hc Hp Hb;
    [destruct (loop_sleeps 0 s pr Hc Hp Hb) as (k & HE & Hk)
    |destruct (loop_sleeps (S n) s pr Hc Hp Hb) as (k & HE & Hk)]; exists pr, k; (split; [done|]);
    (split; [exact HE|]); cbv zeta; intros s2 pr2 Hc2 Hp2; rewrite (Hk s2 pr2 Hc2 Hp2); [done|].
  set (s3 := set_k_proc _ s2). assert (Hc3 : can s3) by (by apply Hkeep). split; intros H3.
  - rewrite (bind_ok _ _ _ tt (acq lk s3)); [by apply Hfin|]. cbn [loop].
    rewrite (bind_ok _ _ _ (inr tt) (acq lk s3)); [done|]. unfold turn. by erewrite bind_ok by (by apply Hfree).
  - pose proof (lookupZ_Some_range _ _ _ Hp2).
    apply (IH s3 (set_p_chan None pr2)); [done| |done]. simpl. by rewrite lookupZ_insertZ_eq.
Qed.

Lemma while_sleep_waits {PT : Patience} s pr : can s -> lookupZ (k_proc s) p = Some pr -> busy s ->
  waits (pred patience) p ch can free busy fin s ((x <- while_sleep cond ch lk;; rest x) (acq lk s)).
Proof using Hlk Hcan Hkeep Hbusy Hfree Hfin.
  intros Hc Hp Hb. unfold while_sleep. pose proof patience_pos. destruct patience as [|n]; [lia|].
  by apply (loop_waits n s pr).
Qed.

End Waits.

(** ** Properties *)

(** [wakeup(chan)] returns when no process lock is held by another CPU, and
    makes [RUNNABLE] exactly the processes, other than the caller, that sleep
    on [chan]; everything else in the process table, and the rest of the
    kernel state, is unchanged. *)
Theorem wakeup_wakes_sleepers ch s :
  settled s -> proc_locks_free s ->
  exists ps, wakeup ch s = Ok tt (set_k_proc ps s) /\ lenZ ps = NPROC /\
  forall i pr, lookupZ (k_proc s) i = Some pr ->
    (p_state pr = SLEEPING -> p_chan pr = ch -> cur s <> Some i ->
      lookupZ ps i = Some (set_p_state RUNNABLE pr)) /\
    (p_state pr <> SLEEPING \/ p_chan pr <> ch \/ cur s = Some i -> lookupZ ps i = Some pr).
Proof.
  intros Hs Hf. eexists. split; [by apply wakeup_ok|]. split; [rewrite length_map_from; apply Hf|].
  intros i pr Hi. pose proof (lookupZ_Some_range _ _ _ Hi).
  rewrite lookupZ_map_from, Hi by lia. cbn [fmap option_fmap option_map]. unfold woken.
  split; intros; repeat case_bool_decide; simpl; intuition congruence.
Qed.

(** [kill(pid)] returns 0 exactly when a process has that pid; it then marks
    the first such process killed and makes it [RUNNABLE] if it was asleep,
    and changes nothing else.  With no such process it returns -1 and changes
    nothing. *)
Theorem kill_marks_process pid s :
  settled s -> proc_locks_free s ->
  (exists j pr, lookupZ (k_proc s) j = Some pr /\ p_pid pr = pid /\
    (forall k q, k < j -> lookupZ (k_proc s) k = Some q -> p_pid q <> pid) /\
    exists pr', kill pid s = Ok 0 (set_k_proc (insertZ j pr' (k_proc s)) s) /\
      p_killed pr' = 1 /\ p_pid pr' = pid /\ p_state pr' <> SLEEPING /\
      (p_state pr <> SLEEPING -> p_state pr' = p_state pr) /\
      (p_state pr = SLEEPING -> p_state pr' = RUNNABLE))
  \/ ((forall k q, lookupZ (k_proc s) k = Some q -> p_pid q <> pid) /\ kill pid s = Ok (-1) s).
Proof.
  intros Hs Hf.
  destruct (kill_loop pid (Z.to_nat NPROC) 0 s Hs Hf ltac:(lia) eq_refl)
    as [(j & pr & Hj & Hp & Hpid & Hb & HE)|[Hno HE]].
  - left. exists j, pr. split; [done|]. split; [done|]. split.
    + intros k q Hk Hq. pose proof (lookupZ_Some_range _ _ _ Hq). apply (Hb k q); [lia|done].
    + exists (killed_proc pr). split; [unfold kill; by erewrite bind_ok by exact HE|].
      unfold killed_proc. simpl. case_bool_decide; intuition congruence.
  - right. split.
    + intros k q Hq. pose proof (lookupZ_Some_range _ _ _ Hq). apply (Hno k q); [lia|done].
    + unfold kill. by erewrite bind_ok by exact HE.
Qed.

(** C24: [sleep(chan, lk)] loses no wakeup.  Called by a process [p] that holds
    [lk] alone, it first takes [p->lock]: as long as another CPU holds
    [p->lock] it spins there with [lk] still held and nothing done.  With
    [p->lock] free it gives the CPU up in a state where [lk] is free, the
    process is [SLEEPING] on [chan] and [p->lock] is still held.  In that
    state a [wakeup] on another CPU gets no further than [p->lock]; once the
    scheduler has released [p->lock], a [wakeup] of [chan] makes the process
    [RUNNABLE].  When the scheduler resumes it, inside [p->lock] on any CPU
    with the interrupt state it had, it returns with [lk] held again, off the
    channel and with nothing else changed. *)
Theorem sleep_atomic en ch lk s p pr :
  outside en s -> cur s = Some p -> lock_free lk s -> lk <> L_proc p -> lookupZ (k_proc s) p = Some pr ->
  (forall i, i <> k_tp s -> holds i (L_proc p) s -> exists s1,
    sleep ch lk (acq lk s) = Fail (Spins (L_proc p) s1) /\ holds (k_tp s) lk s1 /\ k_proc s1 = k_proc s) /\
  (lock_free (L_proc p) s -> exists s1 k, sleep ch lk (acq lk s) = Swtch s1 k /\
    lock_free lk s1 /\ holds (k_tp s) (L_proc p) s1 /\
    (exists q, lookupZ (k_proc s1) p = Some q /\ p_state q = SLEEPING /\ p_chan q = Some ch) /\
    (proc_locks_free s -> exists s1', release (L_proc p) s1 = Ok tt s1' /\
      forall j, j <> k_tp s ->
        (settled (set_k_tp j s1) -> cur (set_k_tp j s1) <> Some p -> exists s',
          wakeup (Some ch) (set_k_tp j s1) = Fail (Spins (L_proc p) s')) /\
        (settled (set_k_tp j s1') -> cur (set_k_tp j s1') <> Some p -> exists s' q,
          wakeup (Some ch) (set_k_tp j s1') = Ok tt s' /\ lookupZ (k_proc s') p = Some q /\ p_state q = RUNNABLE)) /\
    forall s2 pr2, outside en s2 -> lock_free (L_proc p) s2 -> lock_free lk s2 ->
      lookupZ (k_proc s2) p = Some pr2 ->
      k (acq (L_proc p) s2) = Ok tt (acq lk (set_k_proc (insertZ p (set_p_chan None pr2) (k_proc s2)) s2))).
Proof.
  intros Ho Hp Hl Hne Hpr. pose proof (lookupZ_Some_range _ _ _ Hpr) as Hr.
  pose proof (outside_settled _ _ Ho) as Hs. split; [intros i Hi Hh; by eapply sleep_spins|]. intros Hlp.
  set (s0 := set_k_proc (insertZ p (asleep ch pr) (k_proc s)) s).
  assert (Hp0 : lookupZ (k_proc s0) p = Some (asleep ch pr)) by (simpl; by rewrite lookupZ_insertZ_eq).
  exists (acq (L_proc p) s0). eexists. split; [by apply sleep_ok|]. split; [by apply lock_free_acq|].
  split; [by apply (acq_holds (L_proc p) s0)|]. split; [by exists (asleep ch pr)|]. split.
  - intros [Hlen Hf]. exists s0. split; [by apply release_acq|]. intros j Hj.
    assert (Hlen0 : lenZ (k_proc s0) = NPROC) by (simpl; by rewrite lenZ_insertZ). split; intros Hsj Hcj.
    + destruct (wakeup_blocked (Some ch) p (k_tp s) (Z.to_nat NPROC) 0 (set_k_tp j (acq (L_proc p) s0)))
        as [s' E]; try done; try lia.
      * intros i Hi. apply (lock_free_acq (L_proc p) (L_proc i) s0); [injection; lia|apply Hf; lia].
      * apply (acq_holds (L_proc p) s0 Hlp).
      * exists s'. unfold wakeup. by apply bind_fail.
    + rewrite wakeup_ok by done. eexists _, _. split; [reflexivity|]. cbn [k_proc set_k_proc].
      rewrite lookupZ_map_from by lia. change (k_proc (set_k_tp j s0)) with (k_proc s0). rewrite Hp0. cbn [fmap option_fmap option_map]. unfold woken.
      rewrite bool_decide_false, bool_decide_true by (done || congruence). done.
  - intros. by apply sleep_resume_ok.
Qed.

(** Witnesses: process 5 runs on CPU 0, process 3 sleeps on [ticks]. *)
Definition demo_proc : proc := set_p_pid 7 (set_p_state SLEEPING (set_p_chan (Some C_ticks) zero_proc)).
Definition demo_sched : kstate :=
  set_k_cpus (insertZ 0 (set_cpu_proc (Some 5) zero_cpu) (k_cpus zero_kstate))
    (set_k_proc (insertZ 3 demo_proc (k_proc zero_kstate)) zero_kstate).

Lemma demo_sched_outside : outside true demo_sched.
Proof. eexists _, _. split; [reflexivity|]. split; [reflexivity|]. vm_compute. auto. Qed.

Lemma demo_locks s : k_locks s = zero_locks -> lenZ (k_proc s) = NPROC -> proc_locks_free s.
Proof.
  intros E Hl. split; [done|]. intros i Hi. exists "lock". rewrite E. apply zero_locks_static.
  unfold static_locks. rewrite !elem_of_app. right. left. apply list_elem_of_fmap. exists i.
  split; [done|]. apply elem_of_rangeZ. exact Hi.
Qed.

Lemma wakeup_wakes_sleepers_witness : exists ps,
  wakeup (Some C_ticks) demo_sched = Ok tt (set_k_proc ps demo_sched) /\
  lookupZ ps 3 = Some (set_p_state RUNNABLE demo_proc) /\ lookupZ ps 4 = Some zero_proc.
Proof.
  destruct (wakeup_wakes_sleepers (Some C_ticks) demo_sched
    (outside_settled _ _ demo_sched_outside) (demo_locks demo_sched eq_refl eq_refl)) as (ps & HE & _ & Hp).
  exists ps. split; [exact HE|]. split.
  - apply (Hp 3 demo_proc); [reflexivity..|discriminate].
  - apply (Hp 4 zero_proc); [reflexivity|]. left. discriminate.
Defined.

Lemma demo_pid j pr : lookupZ (k_proc demo_sched) j = Some pr -> p_pid pr = 7 -> j = 3.
Proof.
  change (k_proc demo_sched) with (insertZ 3 demo_proc (replicate 64 zero_proc)). intros Hj Hp.
  destruct (decide (j = 3)) as [|Hne]; [done|]. exfalso. rewrite lookupZ_insertZ_ne in Hj by done.
  unfold lookupZ in Hj. destruct (j <? 0); [done|]. apply lookup_replicate in Hj as [-> _]. discriminate.
Qed.

Lemma kill_marks_process_witness : exists pr,
  kill 7 demo_sched = Ok 0 (set_k_proc (insertZ 3 pr (k_proc demo_sched)) demo_sched) /\
  p_killed pr = 1 /\ p_state pr = RUNNABLE.
Proof.
  destruct (kill_marks_process 7 demo_sched (outside_settled _ _ demo_sched_outside)
    (demo_locks demo_sched eq_refl eq_refl)) as [(j & pr & Hj & Hpid & Hb & pr' & HE & Hk & _ & _ & _ & Hr)|[Hno _]].
  - assert (j = 3) as -> by exact (demo_pid _ _ Hj Hpid).
    injection Hj as <-. exists pr'. split; [exact HE|]. split; [exact Hk|]. by apply Hr.
  - exfalso. exact (Hno 3 demo_proc eq_refl eq_refl).
Defined.

Lemma sleep_atomic_witness : exists s1 k,
  sleep C_cons_r L_cons (acq L_cons demo_sched) = Swtch s1 k /\
  k (acq (L_proc 5) demo_sched) = Ok tt (acq L_cons demo_sched).
Proof.
  assert (Hc : lock_free L_cons demo_sched) by (exists "lock"; vm_compute; reflexivity).
  assert (Hp : lock_free (L_proc 5) demo_sched) by (exists "lock"; vm_compute; reflexivity).
  destruct (sleep_atomic true C_cons_r L_cons demo_sched 5 zero_proc demo_sched_outside eq_refl Hc
    ltac:(discriminate) eq_refl) as [_ H]. destruct (H Hp) as (s1 & k & HE & _ & _ & _ & _ & Hk).
  exists s1, k. split; [exact HE|]. rewrite (Hk demo_sched zero_proc demo_sched_outside Hp Hc eq_refl).
  reflexivity.
Defined.

(** A thread of process 5 and a bound on waiting, for the witnesses of the
    files to come. *)
Definition demo_patience : Patience := {| patience := 2; patience_pos := ltac:(lia) |}.

Lemma demo_thread : kthread 5 demo_sched.
Proof.
  split.
  - exact (outside_settled _ _ demo_sched_outside).
  - reflexivity.
  - reflexivity.
  - split; reflexivity || done.
  - intros lk H. exists "lock". exact (zero_locks_static lk H).
Qed.

(** Process [p], with its [pid], runs kernel code outside any critical section. *)
Record running (en : bool) (p pid : Z) (s : kstate) : Prop := {
  rn_thread : kthread p s;
  rn_outside : outside en s;
  rn_proc : exists pr, lookupZ (k_proc s) p = Some pr /\ p_pid pr = pid /\ p_state pr = RUNNING /\ p_chan pr = None;
}.

Lemma running_ext en p pid s s' :
  k_tp s' = k_tp s -> k_harts s' = k_harts s -> k_cpus s' = k_cpus s -> k_locks s' = k_locks s ->
  woken_by (Some p) (k_proc s) (k_proc s') -> running en p pid s -> running en p pid s'.
Proof.
  intros E1 E2 E3 E4 Hw [Hk Ho (pr & Hp & Hpr)]. split.
  - apply (kthread_ext p s); try done. apply Hw.
  - unfold outside in *. by rewrite E1, E2, E3.
  - exists pr. by rewrite (woken_by_cur _ _ _ Hw).
Qed.
