(* ===== verification/Scheduler.v ===== *)
(** * The scheduler ([scheduler] of [kernel/proc.c])

    The scheduler of a CPU is a thread of its own: it switches to a process
    with [swtch] and goes on when the process switches back, whatever the
    state is by then. *)

From S2P Require Import Prelude Riscv State Spinlock Sched.

(** ** Definitions *)

(** The scan at process [p], [found] so far. *)
Definition scheduler_body (c : Z) (st : Z * bool) : M (Z * bool + bool) :=
  let '(p, found) := st in
  if p <? NPROC then
    acquire (L_proc p);;
    pr <- get_proc p;;
    found <-
      (if bool_decide (p_state pr = RUNNABLE) then
         put_proc p (set_p_state RUNNING pr);;
         cc <- get_cpu c;;
         put_cpu c (set_cpu_proc (Some p) cc);;
         swtch;;
         cc <- get_cpu c;;
         put_cpu c (set_cpu_proc None cc);;
         ret true
       else ret found);;
    release (L_proc p);;
    ret (inl (p + 1, found))
  else ret (inr found).

(** One turn of [for (;;)]; [wfi] waits for an interrupt. *)
Definition scheduler_turn (c : Z) (_ : unit) : M (unit + unit) :=
  intr_on;;
  found <- loop (S (Z.to_nat NPROC)) (scheduler_body c) (0, false);;
  when (negb found) intr_on;;
  ret (inl tt).

(** [n] turns of the scheduler, which never returns. *)
Definition scheduler (n : nat) : M unit :=
  c <- mycpu;;
  cc <- get_cpu c;;
  put_cpu c (set_cpu_proc None cc);;
  loop n (scheduler_turn c) tt.

(** *** Switching *)

(** The executing CPU runs process [o], or none. *)
Definition with_cur (o : option Z) (s : kstate) : kstate :=
  match lookupZ (k_cpus s) (k_tp s) with
  | Some c => set_k_cpus (insertZ (k_tp s) (set_cpu_proc o c) (k_cpus s)) s
  | None => s
  end.

(** The scheduler once process [p] has switched back to it. *)
Definition switch_back (p : Z) : M (Z * bool + bool) :=
  modify (with_cur None);;
  release (L_proc p);;
  ret (inl (p + 1, true)).

(** The scheduler's CPU is in no critical section and no process is locked. *)
Record idle (s : kstate) : Prop := {
  id_settled : settled s;
  id_locks : proc_locks_free s;
}.

(** [r] comes to switch to process [j]: it switches to [j], or to some other
    process [q] after which it will, however the state has changed when [q]
    switches back with its lock held, as long as [j] is still [RUNNABLE]. *)
Inductive reaches {A} (j : Z) : res A -> Prop :=
| reaches_now s k pr :
    cur s = Some j -> lookupZ (k_proc s) j = Some pr -> p_state pr = RUNNING -> reaches j (Swtch s k)
| reaches_later s k q :
    cur s = Some q ->
    (forall s' pr, idle s' -> k_tp s' = k_tp s -> cur s' = Some q -> lookupZ (k_proc s') j = Some pr ->
      p_state pr = RUNNABLE -> reaches j (k (acq (L_proc q) s'))) ->
    reaches j (Swtch s k).

(** ** Lemmas *)

Lemma cpu_settled s : settled s -> exists c, lookupZ (k_cpus s) (k_tp s) = Some c.
Proof. intros (h & c & _ & Hc & _). by exists c. Qed.

Lemma settled_with_cur o s : settled s -> settled (with_cur o s).
Proof.
  intros (h & c & Hh & Hc & H). unfold with_cur. rewrite Hc. exists h, (set_cpu_proc o c). split; [done|].
  split; [|done]. simpl. apply lookupZ_insertZ_eq. by apply lookupZ_Some_range in Hc.
Qed.

Lemma with_cur_locks o s : k_locks (with_cur o s) = k_locks s.
Proof. unfold with_cur. by destruct (lookupZ _ _). Qed.
Lemma with_cur_tp o s : k_tp (with_cur o s) = k_tp s.
Proof. unfold with_cur. by destruct (lookupZ _ _). Qed.
Lemma with_cur_proc o s : k_proc (with_cur o s) = k_proc s.
Proof. unfold with_cur. by destruct (lookupZ _ _). Qed.

Lemma with_cur_cur o s : settled s -> cur (with_cur o s) = o.
Proof.
  intros Hs. destruct (cpu_settled s Hs) as [c Hc]. unfold cur, with_cur. rewrite Hc. simpl.
  rewrite lookupZ_insertZ_eq; [done|]. by apply lookupZ_Some_range in Hc.
Qed.

Lemma with_cur_acq o lk s : settled s -> with_cur o (acq lk s) = acq lk (with_cur o s).
Proof.
  intros (h & c & Hh & Hc & H). pose proof (lookupZ_Some_range _ _ _ Hc) as Hr.
  assert (E1 : acq lk s = set_k_locks (alter (fun l => mkSpinlock 1 (lk_name l) (Some (k_tp s))) lk (k_locks s))
    (set_k_cpus (insertZ (k_tp s) (push_cpu h c) (k_cpus s)) (set_k_harts (insertZ (k_tp s) (push_hart h) (k_harts s)) s))).
  { unfold acq, push_st. by rewrite Hh, Hc. }
  assert (E2 : with_cur o s = set_k_cpus (insertZ (k_tp s) (set_cpu_proc o c) (k_cpus s)) s) by (unfold with_cur; by rewrite Hc).
  rewrite E1, E2. unfold with_cur, acq, push_st. cbn [k_cpus k_tp k_harts k_locks set_k_locks set_k_cpus set_k_harts].
  rewrite !lookupZ_insertZ_eq, Hh by done.
  rewrite !insertZ_insertZ. do 3 f_equal. unfold push_cpu. simpl. by destruct (cpu_noff c =? 0).
Qed.

Lemma idle_with_cur o s : idle s -> idle (with_cur o s).
Proof.
  intros [Hs [Hl Hf]]. split; [by apply settled_with_cur|]. split; [by rewrite with_cur_proc|].
  intros i Hi. destruct (Hf i Hi) as [nm Hn]. exists nm. by rewrite with_cur_locks.
Qed.

Lemma put_cpu_cur c o s : lookupZ (k_cpus s) (k_tp s) = Some c ->
  put_cpu (k_tp s) (set_cpu_proc o c) s = Ok tt (with_cur o s).
Proof. intros Hc. unfold with_cur. rewrite Hc. done. Qed.

(** What the scan does at one process. *)
Lemma scheduler_skips s p f pr : idle s -> 0 <= p < NPROC -> lookupZ (k_proc s) p = Some pr -> p_state pr <> RUNNABLE ->
  scheduler_body (k_tp s) (p, f) s = Ok (inl (p + 1, f)) s.
Proof.
  intros [Hs [_ Hf]] Hp Hpr Hst. unfold scheduler_body. destruct (Z.ltb_spec p NPROC); [|lia].
  erewrite bind_ok by (apply acquire_ok; [done|by apply Hf]).
  erewrite bind_ok by (apply run_get_proc; by autorewrite with acq). rewrite bool_decide_false by done. rewrite bind_ret.
  by erewrite bind_ok by (apply release_acq; [done|by apply Hf]).
Qed.

Lemma scheduler_picks s p f pr : idle s -> 0 <= p < NPROC -> lookupZ (k_proc s) p = Some pr -> p_state pr = RUNNABLE ->
  exists k, scheduler_body (k_tp s) (p, f) s =
    Swtch (acq (L_proc p) (with_cur (Some p) (set_k_proc (insertZ p (set_p_state RUNNING pr) (k_proc s)) s))) k /\
  forall s', idle s' -> k_tp s' = k_tp s -> k (acq (L_proc p) s') = Ok (inl (p + 1, true)) (with_cur None s').
Proof.
  intros [Hs [_ Hf]] Hp Hpr Hst. unfold scheduler_body. destruct (Z.ltb_spec p NPROC); [|lia]. eexists. split.
  - erewrite bind_ok by (apply acquire_ok; [done|by apply Hf]).
    erewrite bind_ok by (apply run_get_proc; by autorewrite with acq). rewrite bool_decide_true by done.
    apply bind_swtch. unfold put_proc. rewrite bind_modify. autorewrite with acq.
    set (s1 := set_k_proc _ s). assert (Hs1 : settled s1) by exact Hs.
    destruct (cpu_settled (acq (L_proc p) s1)) as [c Hc]; [by apply settled_acq|].
    change (k_tp (acq (L_proc p) s1)) with (k_tp s) in Hc.
    erewrite bind_ok by (apply run_get_cpu; exact Hc).
    erewrite bind_ok by (exact (put_cpu_cur c (Some p) (acq (L_proc p) s1) Hc)). rewrite with_cur_acq by done.
    apply bind_swtch. reflexivity.
  - intros s' [Hs' [_ Hf']] Htp. cbn beta.
    destruct (cpu_settled (acq (L_proc p) s')) as [c Hc]; [by apply settled_acq|].
    change (k_tp (acq (L_proc p) s')) with (k_tp s') in Hc. rewrite <- Htp.
    rewrite (bind_ok _ _ _ true (acq (L_proc p) (with_cur None s'))).
    + erewrite bind_ok by (apply release_acq; [by apply settled_with_cur|]; destruct (Hf' p Hp) as [nm Hn]; exists nm; by rewrite with_cur_locks).
      done.
    + rewrite bind_ret. erewrite bind_ok by (apply run_get_cpu; exact Hc).
      erewrite bind_ok by (exact (put_cpu_cur c None (acq (L_proc p) s') Hc)). by rewrite with_cur_acq.
Qed.

Lemma idle_cur_none s : idle s -> idle (with_cur None s).
Proof. apply idle_with_cur. Qed.

Lemma scan_reaches j fuel : forall i s f pr, idle s -> 0 <= i <= j -> j < NPROC -> lookupZ (k_proc s) j = Some pr ->
  p_state pr = RUNNABLE -> (Z.to_nat (j - i) < fuel)%nat -> reaches j (loop fuel (scheduler_body (k_tp s)) (i, f) s).
Proof.
  induction fuel as [|fuel IH]; intros i s f pr Hi Hij Hj Hpr Hst Hf; [lia|].
  destruct (lookupZ_is_Some (k_proc s) i) as [q Hq]; [rewrite (proj1 (id_locks _ Hi)); lia|].
  pose proof (lookupZ_Some_range _ _ _ Hq) as Hr.
  destruct (decide (p_state q = RUNNABLE)) as [Hrun|Hnot].
  - destruct (scheduler_picks s i f q Hi ltac:(lia) Hq Hrun) as (k & HE & Hk).
    set (s1 := set_k_proc (insertZ i (set_p_state RUNNING q) (k_proc s)) s) in *. assert (Hs1 : settled s1) by apply Hi.
    assert (Hcur : cur (acq (L_proc i) (with_cur (Some i) s1)) = Some i).
    { rewrite cur_acq by (by apply settled_with_cur). by apply with_cur_cur. }
    cbn [loop]. erewrite bind_swtch by exact HE. destruct (decide (i = j)) as [->|Hne].
    + apply (reaches_now _ _ _ (set_p_state RUNNING q)); [done| |done]. autorewrite with acq. rewrite with_cur_proc.
      simpl. by apply lookupZ_insertZ_eq.
    + apply (reaches_later _ _ _ i); [done|]. intros s' pr' Hi' Htp _ Hpr' Hst'.
      assert (Htp' : k_tp s' = k_tp s).
      { rewrite Htp. change (k_tp (acq (L_proc i) (with_cur (Some i) s1))) with (k_tp (with_cur (Some i) s1)). by rewrite with_cur_tp. }
      rewrite (bind_ok _ _ _ _ _ (Hk s' Hi' Htp')). rewrite <- Htp', <- (with_cur_tp None s').
      apply (IH (i + 1) (with_cur None s') true pr'); [by apply idle_cur_none|lia|done|by rewrite with_cur_proc|done|lia].
  - assert (Hne : i <> j) by (intros ->; congruence).
    erewrite loop_next by (by apply (scheduler_skips s i f q); [done|lia|done|]).
    apply (IH (i + 1) s f pr); try done; lia.
Qed.

Lemma scan_idle fuel : forall i s f, idle s -> 0 <= i <= NPROC -> (Z.to_nat (NPROC - i) < fuel)%nat ->
  (forall j pr, i <= j -> lookupZ (k_proc s) j = Some pr -> p_state pr <> RUNNABLE) ->
  loop fuel (scheduler_body (k_tp s)) (i, f) s = Ok f s.
Proof.
  induction fuel as [|fuel IH]; intros i s f Hi Hr Hf Hno; [lia|]. destruct (decide (i = NPROC)) as [->|Hne].
  - apply loop_stop. unfold scheduler_body. rewrite Z.ltb_irrefl. done.
  - destruct (lookupZ_is_Some (k_proc s) i) as [q Hq]; [rewrite (proj1 (id_locks _ Hi)); lia|].
    erewrite loop_next by (apply (scheduler_skips s i f q); [done|lia|done|apply (Hno i q); [lia|done]]).
    apply IH; [done|lia|lia|]. intros j pr Hj. apply Hno. lia.
Qed.

(** ** Properties *)

(** C30: Every runnable process runs.  One scan of the process table by the
    scheduler switches to each process [j] that is [RUNNABLE] when the scan
    starts, with [j] then [RUNNING], its lock held and the CPU's current
    process: whatever the processes it switches to before that do to the
    kernel state, provided each of them switches back with its lock held and
    [j] is still [RUNNABLE] then.  When no process is runnable the scan ends,
    reports that it found none and leaves the state as it was. *)
Theorem scheduler_runs_runnable s j pr :
  idle s -> lookupZ (k_proc s) j = Some pr ->
  (p_state pr = RUNNABLE -> reaches j (loop (S (Z.to_nat NPROC)) (scheduler_body (k_tp s)) (0, false) s)) /\
  ((forall i q, lookupZ (k_proc s) i = Some q -> p_state q <> RUNNABLE) ->
    loop (S (Z.to_nat NPROC)) (scheduler_body (k_tp s)) (0, false) s = Ok false s).
Proof.
  intros Hi Hj. pose proof (lookupZ_Some_range _ _ _ Hj) as Hr. rewrite (proj1 (id_locks _ Hi)) in Hr. split.
  - intros Hst. apply (scan_reaches j _ 0 s false pr); try done; lia.
  - intros Hno. apply scan_idle; [done|lia|lia|]. intros i q _. apply Hno.
Qed.

Definition demo_ready : kstate := set_k_proc (insertZ 9 (set_p_state RUNNABLE zero_proc) (k_proc zero_kstate)) zero_kstate.

Lemma scheduler_runs_runnable_witness :
  reaches 9 (loop (S (Z.to_nat NPROC)) (scheduler_body 0) (0, false) demo_ready).
Proof.
  apply (scheduler_runs_runnable demo_ready 9 (set_p_state RUNNABLE zero_proc)); [|reflexivity|reflexivity].
  split; [exact (zero_settled 0 ltac:(lia))|]. by apply demo_locks.
Defined.
