(* ===== verification/UserMem.v ===== *)
(** * User memory as kernel threads see it

    What the clients of [copyin] and [copyout] use of [Copy]: the memory of an
    address space survives changes of the other kernel variables, and a
    single byte is read or written, or the copy fails, by the address alone. *)

From S2P Require Import Prelude Riscv State Spinlock Kalloc Vm Uvm Copy Sched.

(** ** Definitions *)

Section UserMem.
Context {KI : KernelImage}.

(** The page table [pt] maps the user pages [l], and no user page from the
    trapframe up. *)
Definition umem (pt : Z) (l : list (Z * Z)) (s : kstate) : Prop :=
  (exists fl, uspace pt l fl s) /\ no_user_top pt s.

(** ** Lemmas *)

Lemma umem_same pt l s s' :
  umem pt l s -> k_mem s' = k_mem s -> k_freelist s' = k_freelist s -> kmem_ready s' -> umem pt l s'.
Proof.
  intros [[fl [Hps Hma Hlen Hfree]] Htop] Em Ef Hr. split; [exists fl|].
  - split; [|destruct Hma; split|done|]; rewrite ?Em; try done.
    destruct Hps as [_ Hi Hwf Hd]. split; rewrite ?Em; try done. unfold kmem_inv in *. by rewrite Em, Ef.
  - unfold no_user_top. by rewrite Em.
Qed.

Lemma kthread_kmem p s : kthread p s -> kmem_ready s.
Proof. intros H. split; [apply H|]. apply H. unfold static_locks. apply elem_of_app. left. set_solver. Qed.

Lemma kthread_kmem_acq lk p s : kthread p s -> lk <> L_kmem -> kmem_ready (acq lk s).
Proof.
  intros H Hne. destruct (kthread_kmem p s H) as [Hs Hf].
  split; [by apply settled_acq|by apply lock_free_acq].
Qed.

Lemma umem_acq lk p pt l s : kthread p s -> lk <> L_kmem -> umem pt l s -> umem pt l (acq lk s).
Proof. intros Hk Hne Hu. apply (umem_same pt l s); try done. by eapply kthread_kmem_acq. Qed.

Lemma umem_copyin1 pt l s va :
  umem pt l s -> 0 <= va < 2 ^ 64 ->
  (exists x, uaddr l PTE_U va = Some x /\ copyin pt va 1 s = Ok (0, [mget (k_mem s) x]) s) \/
  (uaddr l PTE_U va = None /\ exists bs, copyin pt va 1 s = Ok (-1, bs) s).
Proof.
  intros [[fl Hus] Htop] Hva.
  destruct (copyin_ok pt l fl s Hus Htop va 1 Hva ltac:(lia))
    as (c & bs & Hrun & Hub & [[-> Hlen]|(-> & i & Hi & Hn)]).
  - left. destruct bs as [|b [|b' bs]].
    + discriminate.
    + destruct (Hub 0 b eq_refl) as (x & Hx & <-). exists x. rewrite Z.add_0_r in Hx. by split.
    + unfold lenZ in Hlen. simpl in Hlen. lia.
  - right. assert (i = 0) as -> by lia. rewrite Z.add_0_r in Hn. eauto.
Qed.

Lemma umem_copyout1 pt l s va c :
  umem pt l s -> 0 <= va < 2 ^ 64 -> 0 <= c < 256 ->
  (exists x m', uaddr l (Z.lor PTE_U PTE_W) va = Some x /\ copyout pt va [c] s = Ok 0 (set_k_mem m' s) /\
     written l va [c] (k_mem s) m' /\ umem pt l (set_k_mem m' s)) \/
  (uaddr l (Z.lor PTE_U PTE_W) va = None /\ exists m', copyout pt va [c] s = Ok (-1) (set_k_mem m' s) /\
     (forall x, mget m' x = mget (k_mem s) x) /\ umem pt l (set_k_mem m' s)).
Proof.
  intros [[fl Hus] Htop] Hva Hc.
  destruct (copyout_ok pt l fl s va [c] Hus Htop Hva (proj2 (Forall_singleton _ _) Hc))
    as (r & w & rest & m' & Hrun & Ew & Hw & Hus' & Htop' & [[-> ->]|(-> & Hne & Hnone)]).
  - left. rewrite app_nil_r in Ew. subst w. destruct (proj1 Hw 0 c eq_refl) as (x & Hx & _).
    rewrite Z.add_0_r in Hx. exists x, m'. split; [done|]. split; [done|]. split; [done|]. split; [eauto|done].
  - right. destruct w as [|b w].
    + unfold lenZ in Hnone. simpl in Hnone. rewrite Z.add_0_r in Hnone. split; [done|].
      exists m'. split; [done|]. split; [|split; [eauto|done]].
      intros x. apply Hw. unfold lenZ. simpl. lia.
    + destruct rest as [|b' rest]; [done|]. destruct w; discriminate.
Qed.

End UserMem.

(** Process 5 of [demo_sched] with three writable pages, for the witnesses. *)
Definition demo_user_state (pt : Z) (m : mem) (fl : Z) : kstate :=
  set_k_proc (insertZ 5 (set_p_pagetable pt zero_proc) (k_proc demo_sched))
    (set_k_mem m (set_k_freelist fl demo_sched)).

Lemma demo_user_thread : exists pt m fl l, let s := demo_user_state pt m fl in
  kthread 5 s /\ outside true s /\ lookupZ (k_proc s) 5 = Some (set_p_pagetable pt zero_proc) /\
  umem pt l s /\ forall va, 0 <= va < 3 * PGSIZE -> uaddr l (Z.lor PTE_U PTE_W) va <> None.
Proof.
  destruct demo_writable as (pt & l & fl & s & Hus & Htop & Hmap).
  exists pt, (k_mem s), (k_freelist s), l. cbv zeta.
  assert (Hk : kthread 5 (demo_user_state pt (k_mem s) (k_freelist s))).
  { apply (kthread_ext 5 demo_sched); try reflexivity. exact demo_thread. }
  split; [exact Hk|]. split; [exact demo_sched_outside|]. split; [reflexivity|]. split; [|exact Hmap].
  apply (umem_same pt l s); [split; [by exists fl|exact Htop]|reflexivity|reflexivity|].
  exact (kthread_kmem _ _ Hk).
Qed.
