(* ===== verification/Sleeplock.v ===== *)
(** * Sleep locks ([kernel/sleeplock.c])

    [acquiresleep], [releasesleep] and [holdingsleep], on the spinlock
    [lk->lk] ([L_sleep lk]) and the sleep channel [lk]; how a process waits for
    a lock ([sl_waits]) and how several processes share one ([sl_trace]). *)

From S2P Require Import Prelude Riscv State Spinlock Sched.

(** ** Definitions *)

Definition initsleeplock (lk : sleepid) (name : string) : M unit :=
  initlock (L_sleep lk) "sleep lock";;
  put_sleeplock lk (mkSleeplock 0 name 0).

Section Sleep.
Context {PT : Patience}.

Definition acquiresleep (lk : sleepid) : M unit :=
  acquire (L_sleep lk);;
  while_sleep (l <- get_sleeplock lk;; ret (truth (sl_locked l))) (C_sleeplock lk) (L_sleep lk);;
  l <- get_sleeplock lk;;
  put_sleeplock lk (set_sl_locked 1 l);;
  p <- curproc;;
  pr <- get_proc p;;
  l <- get_sleeplock lk;;
  put_sleeplock lk (set_sl_pid (p_pid pr) l);;
  release (L_sleep lk).

End Sleep.

Definition releasesleep (lk : sleepid) : M unit :=
  acquire (L_sleep lk);;
  l <- get_sleeplock lk;;
  put_sleeplock lk (set_sl_pid 0 (set_sl_locked 0 l));;
  wakeup (Some (C_sleeplock lk));;
  release (L_sleep lk).

Definition holdingsleep (lk : sleepid) : M bool :=
  acquire (L_sleep lk);;
  l <- get_sleeplock lk;;
  r <- (if truth (sl_locked l) then
          p <- curproc;;
          pr <- get_proc p;;
          ret (sl_pid l =? p_pid pr)
        else ret false);;
  release (L_sleep lk);;
  ret r.

(** *** States of a sleep lock *)

Definition sleep_free (lk : sleepid) (s : kstate) : Prop :=
  exists l, k_sleeplocks s !! lk = Some l /\ sl_locked l = 0.
Definition sleep_held (lk : sleepid) (pid : Z) (s : kstate) : Prop :=
  exists name, k_sleeplocks s !! lk = Some (mkSleeplock 1 name pid).

Definition sleep_busy (lk : sleepid) (s : kstate) : Prop :=
  exists l, k_sleeplocks s !! lk = Some l /\ truth (sl_locked l) = true.

(** The table after a process with [pid] has taken, or given up, [lk]. *)
Definition sl_take (lk : sleepid) (pid : Z) (s : kstate) : kstate :=
  set_k_sleeplocks (alter (fun l => mkSleeplock 1 (sl_name l) pid) lk (k_sleeplocks s)) s.
Definition sl_drop (lk : sleepid) (s : kstate) : kstate :=
  set_k_sleeplocks (alter (fun l => mkSleeplock 0 (sl_name l) 0) lk (k_sleeplocks s)) s.

(** The pid of process [p]. *)
Definition pid_of (p : Z) (s : kstate) : option Z := p_pid <$> lookupZ (k_proc s) p.

(** The two sleep locks of [static_locks]. *)
Definition sleep_static (lk : sleepid) : Prop :=
  match lk with SL_buf i => 0 <= i < 30 | SL_inode i => 0 <= i < 50 end.

(** Process [p] with its [pid] runs and may be resumed. *)
Definition sl_runs (en : bool) (p pid : Z) (s : kstate) : Prop :=
  outside en s /\ kthread p s /\ pid_of p s = Some pid.

(** How [acquiresleep] waits for [lk]: each time the process is resumed it
    takes the lock if the lock is free and sleeps again if it is not. *)
Definition sl_waits (n : nat) (en : bool) (p pid : Z) (lk : sleepid) : kstate -> res unit -> Prop :=
  waits n p (C_sleeplock lk) (sl_runs en p pid) (sleep_free lk) (sleep_busy lk)
    (fun s r => r = Ok tt (sl_take lk pid s)).

(** *** Several processes

    The processes that use [lk], and whatever else the kernel does between
    their steps.  A process calls [acquiresleep], which returns or leaves it
    waiting; a waiting process is resumed where it left off and returns from
    [acquiresleep] or waits again; a process calls [releasesleep].  All other
    steps are free to change the state, but for the lock: only the functions
    above write it. *)
Record waiter := mkWaiter {
  w_en : bool;
  w_pid : Z;
  w_k : kstate -> res unit;
}.

Definition sl_conf : Type := kstate * gmap Z waiter.

Inductive sl_event :=
| Acquired (p : Z)
| Slept (p : Z)
| Released (p : Z)
| Other.

Inductive sl_step {PT : Patience} (lk : sleepid) : sl_conf -> sl_event -> sl_conf -> Prop :=
| SlAcquire en p pid s s' W :
    sl_runs en p pid s -> W !! p = None -> acquiresleep lk s = Ok tt s' ->
    sl_step lk (s, W) (Acquired p) (s', W)
| SlAcquireSleep en p pid s s' k W :
    sl_runs en p pid s -> W !! p = None -> acquiresleep lk s = Swtch s' k ->
    sl_step lk (s, W) (Slept p) (s', <[p := mkWaiter en pid k]> W)
| SlResume p w s s' W :
    W !! p = Some w -> sl_runs (w_en w) p (w_pid w) s -> w_k w (acq (L_proc p) s) = Ok tt s' ->
    sl_step lk (s, W) (Acquired p) (s', delete p W)
| SlResumeSleep p w s s' k W :
    W !! p = Some w -> sl_runs (w_en w) p (w_pid w) s -> w_k w (acq (L_proc p) s) = Swtch s' k ->
    sl_step lk (s, W) (Slept p) (s', <[p := mkWaiter (w_en w) (w_pid w) k]> W)
| SlRelease en p pid s s' W :
    sl_runs en p pid s -> W !! p = None -> releasesleep lk s = Ok tt s' ->
    sl_step lk (s, W) (Released p) (s', W)
| SlOther s s' W :
    k_sleeplocks s' !! lk = k_sleeplocks s !! lk ->
    sl_step lk (s, W) Other (s', W).

Inductive sl_trace {PT : Patience} (lk : sleepid) : sl_conf -> list sl_event -> sl_conf -> Prop :=
| SlNil c : sl_trace lk c [] c
| SlCons c e c1 es c' : sl_step lk c e c1 -> sl_trace lk c1 es c' -> sl_trace lk c (e :: es) c'.

(** The lock exists, and every waiting process waits for it as [sl_waits]. *)
Definition sl_wf (lk : sleepid) (c : sl_conf) : Prop :=
  is_Some (k_sleeplocks c.1 !! lk) /\
  forall p w, c.2 !! p = Some w -> exists n s0 s1, sl_waits n (w_en w) p (w_pid w) lk s0 (Swtch s1 (w_k w)).

(** ** Lemmas *)

Lemma alter_as_insert {K A} `{Countable K} (f : A -> A) (m : gmap K A) k x :
  m !! k = Some x -> alter f k m = <[k := f x]> m.
Proof.
  intros Hx. apply map_eq. intros j. rewrite lookup_alter, lookup_insert.
  case_decide; [subst; by rewrite Hx|done].
Qed.

Lemma sleep_static_lock lk : sleep_static lk -> L_sleep lk ∈ static_locks.
Proof.
  unfold static_locks, sleep_static. intros H. rewrite !elem_of_app, !list_elem_of_fmap.
  do 2 right. destruct lk as [i|i]; [left|right]; exists i; (split; [done|]); apply elem_of_rangeZ; lia.
Qed.

Section Sleep.
Context {PT : Patience}.
Context (p pid : Z) (s : kstate) (lk : sleepid).
Hypothesis Hk : kthread p s.
Hypothesis Hpid : pid_of p s = Some pid.
Hypothesis Hst : sleep_static lk.

Lemma sleep_spin_free : lock_free (L_sleep lk) s.
Proof. apply Hk. by apply sleep_static_lock. Qed.

Lemma pid_proc : exists pr, lookupZ (k_proc s) p = Some pr /\ p_pid pr = pid.
Proof. unfold pid_of in Hpid. destruct (lookupZ (k_proc s) p) as [pr|]; [|done]. by simplify_eq/=; eauto. Qed.

(** [acquiresleep] from the end of its waiting loop on. *)
Lemma take_ok l :
  k_sleeplocks s !! lk = Some l ->
  (l <- get_sleeplock lk;;
   put_sleeplock lk (set_sl_locked 1 l);;
   p <- curproc;;
   pr <- get_proc p;;
   l <- get_sleeplock lk;;
   put_sleeplock lk (set_sl_pid (p_pid pr) l);;
   release (L_sleep lk)) (acq (L_sleep lk) s) = Ok tt (sl_take lk pid s).
Proof.
  intros Hl. erewrite bind_ok by (apply run_get_sleeplock; by autorewrite with acq).
  unfold put_sleeplock at 1. rewrite bind_modify. autorewrite with acq.
  destruct pid_proc as (pr & Hp & Hpp).
  erewrite bind_ok by (apply (kthread_curproc _ p); auto with kt).
  erewrite bind_ok by (apply run_get_proc; by autorewrite with acq).
  erewrite bind_ok by (apply run_get_sleeplock; autorewrite with acq; apply lookup_insert_eq).
  unfold put_sleeplock. rewrite bind_modify. autorewrite with acq.
  rewrite release_acq; [|apply Hk|apply sleep_spin_free]. f_equal. unfold sl_take. simpl.
  rewrite insert_insert_eq. rewrite (alter_as_insert _ _ _ _ Hl), Hpp. done.
Qed.

Lemma acquiresleep_ok : sleep_free lk s -> acquiresleep lk s = Ok tt (sl_take lk pid s).
Proof.
  intros (l & Hl & H0). unfold acquiresleep.
  erewrite bind_ok by (apply acquire_ok; [apply Hk|apply sleep_spin_free]).
  erewrite bind_ok; [by apply (take_ok l)|]. apply while_sleep_no.
  erewrite bind_ok by (apply run_get_sleeplock; by autorewrite with acq). by rewrite H0.
Qed.

Lemma holdingsleep_ok l :
  k_sleeplocks s !! lk = Some l ->
  holdingsleep lk s = Ok (truth (sl_locked l) && (sl_pid l =? pid)) s.
Proof.
  intros Hl. unfold holdingsleep.
  erewrite bind_ok by (apply acquire_ok; [apply Hk|apply sleep_spin_free]).
  erewrite bind_ok by (apply run_get_sleeplock; by autorewrite with acq).
  destruct pid_proc as (pr & Hp & Hpp). destruct (truth (sl_locked l)).
  - erewrite bind_ok.
    2:{ erewrite bind_ok by (apply (kthread_curproc _ p); auto with kt). erewrite bind_ok by (apply run_get_proc; by autorewrite with acq).
        apply run_ret. }
    erewrite bind_ok by (apply release_acq; [apply Hk|apply sleep_spin_free]). by rewrite Hpp.
  - rewrite bind_ret. by erewrite bind_ok by (apply release_acq; [apply Hk|apply sleep_spin_free]).
Qed.

Lemma releasesleep_ok : is_Some (k_sleeplocks s !! lk) ->
  releasesleep lk s = Ok tt (wake_st (Some (C_sleeplock lk)) p (sl_drop lk s)).
Proof.
  intros [l Hl]. unfold releasesleep.
  erewrite bind_ok by (apply acquire_ok; [apply Hk|apply sleep_spin_free]).
  erewrite bind_ok by (apply run_get_sleeplock; by autorewrite with acq).
  unfold put_sleeplock at 1. rewrite bind_modify. autorewrite with acq.
  erewrite bind_ok by (apply (wakeup_acq _ _ p); auto with kt). unfold sl_drop.
  rewrite (alter_as_insert _ _ _ _ Hl). apply release_acq; [apply Hk|apply sleep_spin_free].
Qed.

End Sleep.

Lemma sleep_cases lk s : is_Some (k_sleeplocks s !! lk) -> sleep_free lk s \/ sleep_busy lk s.
Proof.
  intros [l Hl]. destruct (truth (sl_locked l)) eqn:E; [by right; exists l|]. left. exists l.
  split; [done|]. unfold truth in E. apply negb_false_iff, Z.eqb_eq in E. done.
Qed.

Lemma sleep_free_not_busy lk s : sleep_free lk s -> sleep_busy lk s -> False.
Proof. intros (l & Hl & E) (l' & Hl' & E'). rewrite Hl in Hl'. injection Hl' as <-. by rewrite E in E'. Qed.

Lemma sl_take_busy lk pid s : is_Some (k_sleeplocks s !! lk) -> sleep_busy lk (sl_take lk pid s).
Proof. intros [l Hl]. eexists. simpl. by rewrite lookup_alter_eq, Hl. Qed.

Lemma sl_drop_free lk s : is_Some (k_sleeplocks s !! lk) -> sleep_free lk (sl_drop lk s).
Proof. intros [l Hl]. eexists. simpl. by rewrite lookup_alter_eq, Hl. Qed.

Lemma sl_runs_set_chan en p pid s pr :
  sl_runs en p pid s -> lookupZ (k_proc s) p = Some pr ->
  sl_runs en p pid (set_k_proc (insertZ p (set_p_chan None pr) (k_proc s)) s).
Proof.
  intros (Ho & Hk & Hpid) Hp. pose proof (lookupZ_Some_range _ _ _ Hp). split; [exact Ho|].
  split; [by apply kthread_set_proc|]. unfold pid_of in *. simpl. rewrite lookupZ_insertZ_eq by done.
  rewrite Hp in Hpid. exact Hpid.
Qed.

Lemma acquiresleep_waits {PT : Patience} en p pid s lk :
  sl_runs en p pid s -> sleep_static lk -> sleep_busy lk s ->
  sl_waits (pred patience) en p pid lk s (acquiresleep lk s).
Proof.
  intros Hr Hst Hb. pose proof Hr as (Ho & Hk & Hpid). destruct (pid_proc p pid s Hpid) as (pr & Hp & _).
  unfold acquiresleep. erewrite bind_ok by (apply acquire_ok; [apply Hk|by eapply sleep_spin_free]).
  eapply while_sleep_waits with (en := en); try done; [| | | |].
  - intros s2 (Ho2 & Hk2 & _). split; [done|]. split; [apply Hk2|].
    split; [by apply kthread_proc_free|by eapply sleep_spin_free].
  - intros s2 pr2. apply sl_runs_set_chan.
  - intros s2 _ (l & Hl & E). erewrite bind_ok by (apply run_get_sleeplock; by autorewrite with acq). by rewrite E.
  - intros s2 _ (l & Hl & E). erewrite bind_ok by (apply run_get_sleeplock; by autorewrite with acq). by rewrite E.
  - intros s2 (_ & Hk2 & Hpid2) (l & Hl & _). by apply (take_ok p pid s2 lk) with (l := l).
Qed.

(** A waiting process that is resumed: it has the lock only if the lock was
    free. *)
Lemma sl_waits_resume n en p pid lk s0 s1 k s :
  sl_waits n en p pid lk s0 (Swtch s1 k) -> sl_runs en p pid s -> is_Some (k_sleeplocks s !! lk) ->
  (forall s', k (acq (L_proc p) s) = Ok tt s' -> sleep_free lk s /\ sleep_busy lk s') /\
  (forall s' k', k (acq (L_proc p) s) = Swtch s' k' ->
    (exists m s2, sl_waits m en p pid lk s2 (Swtch s' k')) /\ k_sleeplocks s' = k_sleeplocks s /\ sleep_busy lk s).
Proof.
  intros Hw Hr Hl. destruct n as [|n]; destruct Hw as (pr & k0 & _ & E & Hw); injection E as _ <-;
    destruct (pid_proc p pid s (proj2 (proj2 Hr))) as (pr2 & Hp2 & _); specialize (Hw s pr2 Hr Hp2).
  { rewrite Hw. by split. }
  cbv zeta in Hw. set (s3 := set_k_proc (insertZ p (set_p_chan None pr2) (k_proc s)) s) in *.
  destruct Hw as [Hf Hb], (sleep_cases lk s Hl) as [H|H].
  - rewrite (Hf H). split; [|done]. intros s' [= <-]. split; [done|]. by apply (sl_take_busy lk pid s3).
  - pose proof (Hb H) as Hw. assert (HE : exists pr3 k3, k (acq (L_proc p) s)
      = Swtch (acq (L_proc p) (set_k_proc (insertZ p (asleep (C_sleeplock lk) pr3) (k_proc s3)) s3)) k3).
    { destruct n; destruct Hw as (pr3 & k3 & _ & HE & _); eauto. }
    destruct HE as (pr3 & k3 & HE). split; [by rewrite HE|]. intros s' k' E. rewrite E in HE.
    injection HE as -> _. split; [|done]. exists n, s3. by rewrite <- E.
Qed.

Lemma running_pid en p pid s : running en p pid s -> pid_of p s = Some pid.
Proof. intros [_ _ (pr & Hp & Hpid & _)]. unfold pid_of. by rewrite Hp, <- Hpid. Qed.

(** The lock is free: it is taken at once, and given back. *)
Lemma sleeplock_uncontended {PT : Patience} en p pid s lk :
  sl_runs en p pid s -> sleep_static lk -> sleep_free lk s -> exists s1 s2,
    acquiresleep lk s = Ok tt s1 /\ sleep_held lk pid s1 /\ ~ sleep_free lk s1 /\
    (forall s1' q qid, k_sleeplocks s1' = k_sleeplocks s1 -> kthread q s1' -> pid_of q s1' = Some qid ->
      holdingsleep lk s1' = Ok (qid =? pid) s1') /\
    releasesleep lk s1 = Ok tt s2 /\ sleep_free lk s2 /\
    (forall lk', lk' <> lk -> k_sleeplocks s2 !! lk' = k_sleeplocks s !! lk') /\
    forall i pr, i <> p -> lookupZ (k_proc s) i = Some pr -> p_state pr = SLEEPING ->
      p_chan pr = Some (C_sleeplock lk) -> lookupZ (k_proc s2) i = Some (set_p_state RUNNABLE pr).
Proof.
  intros (Ho & Hk & Hpid) Hst Hf. pose proof Hf as (l & Hl & H0).
  assert (Hs1 : k_sleeplocks (sl_take lk pid s) !! lk = Some (mkSleeplock 1 (sl_name l) pid))
    by (simpl; by rewrite lookup_alter_eq, Hl).
  assert (Hk1 : kthread p (sl_take lk pid s)) by (unfold sl_take; auto with kt).
  eexists _, _. split; [by apply (acquiresleep_ok p)|]. split; [by eexists|].
  split; [intros (l' & Hl' & E); rewrite Hs1 in Hl'; injection Hl' as <-; discriminate|].
  split.
  { intros s1' q qid E Hq Hqid. rewrite <- E in Hs1.
    rewrite (holdingsleep_ok q qid s1' lk Hq Hqid Hst _ Hs1). simpl. by rewrite Z.eqb_sym. }
  split; [eapply releasesleep_ok; eauto|]. split; [|split].
  + eexists. simpl. rewrite !lookup_alter_eq, Hl. simpl. done.
  + intros lk' Hne. simpl. by rewrite !lookup_alter_ne.
  + intros i pr Hi Hpr Hsl Hch. pose proof (lookupZ_Some_range _ _ _ Hpr). simpl.
    rewrite lookupZ_map_from, Hpr by lia. simpl. unfold woken.
    rewrite (bool_decide_false (Some i = Some p)), bool_decide_true by (done || congruence). done.
Qed.

(** What each step of the processes needs and leaves of the lock. *)
Lemma sl_step_lock {PT : Patience} lk c e c' :
  sleep_static lk -> sl_wf lk c -> sl_step lk c e c' ->
  sl_wf lk c' /\
  match e with
  | Acquired _ => sleep_free lk c.1 /\ sleep_busy lk c'.1
  | Released _ => sleep_free lk c'.1
  | Slept _ | Other => k_sleeplocks c'.1 !! lk = k_sleeplocks c.1 !! lk
  end.
Proof.
  intros Hst Hwf Hs. revert Hwf.
  destruct Hs as [en p pid s s' W Hr Hn E|en p pid s s' k W Hr Hn E|p w s s' W Hn Hr E|p w s s' k W Hn Hr E
    |en p pid s s' W Hr Hn E|s s' W E]; intros [Hl Hw]; simpl in *.
  - destruct (sleep_cases lk s Hl) as [Hf|Hb].
    + rewrite (acquiresleep_ok p pid s lk (proj1 (proj2 Hr)) (proj2 (proj2 Hr)) Hst Hf) in E. injection E as <-.
      pose proof (sl_take_busy lk pid s Hl) as Hb. pose proof Hb as (l & Hl' & _). by split; [split; eauto|].
    + exfalso. pose proof (acquiresleep_waits en p pid s lk Hr Hst Hb) as H. rewrite E in H.
      destruct (pred patience); by destruct H as (? & ? & _ & ? & _).
  - destruct (sleep_cases lk s Hl) as [Hf|Hb].
    + by rewrite (acquiresleep_ok p pid s lk (proj1 (proj2 Hr)) (proj2 (proj2 Hr)) Hst Hf) in E.
    + pose proof (acquiresleep_waits en p pid s lk Hr Hst Hb) as H. rewrite E in H.
      assert (Es : k_sleeplocks s' = k_sleeplocks s)
        by (destruct (pred patience); destruct H as (? & ? & _ & [= -> _] & _); done).
      rewrite Es. split; [|done]. split; [simpl; by rewrite Es|]. simpl. intros q w'.
      rewrite lookup_insert. case_decide as Eq; [|apply Hw]. subst. intros [= <-]. simpl. eauto.
  - destruct (Hw p w Hn) as (n & s0 & s1 & Hs). destruct (sl_waits_resume _ _ _ _ _ _ _ _ s Hs Hr Hl) as [H _].
    destruct (H s' E) as [Hf Hb]. split; [|done]. pose proof Hb as (l & Hl' & _). split; [by exists l|]. simpl.
    intros q w' Hq. apply lookup_delete_Some in Hq as [_ Hq]. by apply Hw.
  - destruct (Hw p w Hn) as (n & s0 & s1 & Hs). destruct (sl_waits_resume _ _ _ _ _ _ _ _ s Hs Hr Hl) as [_ H].
    destruct (H s' k E) as [(m & s2 & Hs2) [Es Hb]]. rewrite Es. split; [|done].
    split; [simpl; by rewrite Es|]. simpl. intros q w'.
    rewrite lookup_insert. case_decide as Eq; [|apply Hw]. subst. intros [= <-]. simpl. eauto.
  - rewrite (releasesleep_ok p s lk (proj1 (proj2 Hr)) Hst Hl) in E. injection E as <-.
    assert (Hf : sleep_free lk (wake_st (Some (C_sleeplock lk)) p (sl_drop lk s))).
    { exact (sl_drop_free lk s Hl). }
    split; [|done]. pose proof Hf as (l & Hl' & _). split; [by exists l|done].
  - split; [|done]. split; [simpl; by rewrite E|done].
Qed.

Lemma sl_trace_app {PT : Patience} lk c es1 es2 c' :
  sl_trace lk c (es1 ++ es2) c' -> exists c1, sl_trace lk c es1 c1 /\ sl_trace lk c1 es2 c'.
Proof.
  revert c. induction es1 as [|e es1 IH]; intros c H.
  - exists c. split; [constructor|done].
  - inversion H as [|c0 e' c1 es c2 He Hr]; subst. destruct (IH _ Hr) as (c3 & Ha & Hb).
    exists c3. split; [by econstructor|done].
Qed.

Lemma sl_trace_wf {PT : Patience} lk c es c' :
  sleep_static lk -> sl_wf lk c -> sl_trace lk c es c' -> sl_wf lk c'.
Proof. intros Hst Hw. induction 1 as [|c e c1 es c' He _ IH]; [done|]. apply IH. by eapply sl_step_lock. Qed.

(** Until some process releases it, a lock that is taken stays taken. *)
Lemma sl_trace_busy {PT : Patience} lk c es c' :
  sleep_static lk -> sl_wf lk c -> sl_trace lk c es c' -> sleep_busy lk c.1 ->
  (forall r, Released r ∉ es) -> sleep_busy lk c'.1 /\ forall p, Acquired p ∉ es.
Proof.
  intros Hst Hw. induction 1 as [c|c e c1 es c' He _ IH]; intros Hb Hn.
  - split; [done|]. intros p. apply not_elem_of_nil.
  - destruct (sl_step_lock lk c e c1 Hst Hw He) as [Hw1 H]. setoid_rewrite not_elem_of_cons in Hn.
    assert (Hb1 : sleep_busy lk c1.1 /\ forall p, Acquired p <> e).
    { destruct e as [p|p|p|].
      - exfalso. exact (sleep_free_not_busy _ _ (proj1 H) Hb).
      - unfold sleep_busy. by rewrite H.
      - exfalso. by destruct (Hn p).
      - unfold sleep_busy. by rewrite H. }
    destruct (IH Hw1 (proj1 Hb1)) as [Hb' Ha]; [intros r; apply Hn|]. split; [done|]. intros p.
    apply not_elem_of_cons. split; [apply Hb1|apply Ha].
Qed.

Lemma released_in (es : list sl_event) : (exists r, Released r ∈ es) \/ forall r, Released r ∉ es.
Proof.
  induction es as [|e es [[r IH]|IH]].
  - right. intros r. apply not_elem_of_nil.
  - left. exists r. by right.
  - destruct e as [p|p|p|]; try (by right; intros r; apply not_elem_of_cons). left. exists p. by left.
Qed.

Lemma sl_trace_exclusion {PT : Patience} lk s c' p q pre mid post :
  sleep_static lk -> is_Some (k_sleeplocks s !! lk) ->
  sl_trace lk (s, ∅) (pre ++ Acquired p :: mid ++ Acquired q :: post) c' -> exists r, Released r ∈ mid.
Proof.
  intros Hst Hl H. destruct (released_in mid) as [|He]; [done|]. exfalso. apply sl_trace_app in H as (c1 & H1 & H).
  assert (Hw1 : sl_wf lk c1) by (eapply sl_trace_wf; [done| |exact H1]; by split).
  inversion H as [|c0 e c2 es c3 Hs Hr]; subst. destruct (sl_step_lock lk _ _ _ Hst Hw1 Hs) as [Hw2 [_ Hb]].
  apply sl_trace_app in Hr as (c4 & Hm & Hq).
  destruct (sl_trace_busy lk _ _ _ Hst Hw2 Hm Hb) as [Hb4 _].
  { exact He. }
  inversion Hq as [|c0 e c5 es c6 Hs4 _]; subst.
  destruct (sl_step_lock lk _ _ _ Hst (sl_trace_wf _ _ _ _ Hst Hw2 Hm) Hs4) as [_ [Hf _]].
  exact (sleep_free_not_busy _ _ Hf Hb4).
Qed.

(** ** Properties *)

(** C31: A sleep lock is held by one process at a time.  A process that finds
    it free gets it without sleeping; from then on [holdingsleep] is true for
    it and false for every other pid, and its [releasesleep] makes the lock
    free again and makes every process that sleeps on it runnable.  A process
    that finds the lock held gives up the CPU, asleep on the lock, with the
    lock as it was; each time it is resumed it sleeps again as long as the
    lock is held, and when the lock is free it takes it.  In every
    interleaving of the processes that use the lock, including those that
    wait for it, between two completed [acquiresleep]s there is a
    [releasesleep]. *)
Theorem sleeplock_exclusion {PT : Patience} lk :
  (1 < patience)%nat -> sleep_static lk ->
  (forall en p pid s, outside en s -> kthread p s -> pid_of p s = Some pid ->
    (sleep_free lk s -> exists s1 s2,
      acquiresleep lk s = Ok tt s1 /\ sleep_held lk pid s1 /\ ~ sleep_free lk s1 /\
      (forall s1' q qid, k_sleeplocks s1' = k_sleeplocks s1 -> kthread q s1' -> pid_of q s1' = Some qid ->
        holdingsleep lk s1' = Ok (qid =? pid) s1') /\
      releasesleep lk s1 = Ok tt s2 /\ sleep_free lk s2 /\
      (forall lk', lk' <> lk -> k_sleeplocks s2 !! lk' = k_sleeplocks s !! lk') /\
      forall i pr, i <> p -> lookupZ (k_proc s) i = Some pr -> p_state pr = SLEEPING ->
        p_chan pr = Some (C_sleeplock lk) -> lookupZ (k_proc s2) i = Some (set_p_state RUNNABLE pr)) /\
    ((exists holder, sleep_held lk holder s) ->
      sl_waits (pred patience) en p pid lk s (acquiresleep lk s) /\ exists s1 k,
      acquiresleep lk s = Swtch s1 k /\ k_sleeplocks s1 = k_sleeplocks s /\ lock_free (L_sleep lk) s1 /\
      (exists q, lookupZ (k_proc s1) p = Some q /\ p_state q = SLEEPING /\ p_chan q = Some (C_sleeplock lk)) /\
      forall s2, outside en s2 -> kthread p s2 -> pid_of p s2 = Some pid ->
        (sleep_free lk s2 -> exists s3, k (acq (L_proc p) s2) = Ok tt s3 /\ sleep_held lk pid s3 /\ kthread p s3) /\
        (sleep_busy lk s2 -> exists s3 k3, k (acq (L_proc p) s2) = Swtch s3 k3 /\ k_sleeplocks s3 = k_sleeplocks s2))) /\
  (forall s c' p q pre mid post, is_Some (k_sleeplocks s !! lk) ->
    sl_trace lk (s, ∅) (pre ++ Acquired p :: mid ++ Acquired q :: post) c' -> exists r, Released r ∈ mid).
Proof.
  intros Hpat Hst. split; [|intros; by eapply sl_trace_exclusion].
  intros en p pid s Ho Hk Hpid. assert (Hr : sl_runs en p pid s) by done.
  split; [by apply (sleeplock_uncontended en)|]. intros (holder & name & Hl).
  assert (Hw : sl_waits (pred patience) en p pid lk s (acquiresleep lk s))
    by (apply acquiresleep_waits; [done|done|by eexists]).
  split; [done|]. destruct patience as [|[|n]]; [lia..|]. destruct Hw as (pr & k & Hp & HE & Hres).
  pose proof (lookupZ_Some_range _ _ _ Hp). eexists _, _. split; [exact HE|]. split; [done|].
  split; [apply lock_free_acq; [done|exact (sleep_spin_free p s lk Hk Hst)]|]. split.
  { exists (asleep (C_sleeplock lk) pr). simpl. by rewrite lookupZ_insertZ_eq. }
  intros s2 Ho2 Hk2 Hpid2. destruct (pid_proc p pid s2 Hpid2) as (pr2 & Hp2 & Hpp2).
  destruct (Hres s2 pr2 (conj Ho2 (conj Hk2 Hpid2)) Hp2) as [Hf Hb]. split.
  - intros Hf2. eexists. split; [by apply Hf|]. destruct Hf2 as (l2 & Hl2 & _). split.
    + eexists. simpl. rewrite lookup_alter_eq, Hl2. done.
    + apply kthread_set_k_sleeplocks. by apply kthread_set_proc.
  - intros Hb2. specialize (Hb Hb2). destruct n; destruct Hb as (? & ? & _ & HE2 & _); eexists _, _; (split; [exact HE2|done]).
Qed.

(** Witness: processes 5 and 3 share the lock of a buffer on CPU 0; process 3
    waits until process 5 has released it. *)
Definition on_cpu (p : Z) (s : kstate) : kstate :=
  set_k_sleeplocks (k_sleeplocks s)
    (set_k_cpus (insertZ 0 (set_cpu_proc (Some p) zero_cpu) (k_cpus zero_kstate)) zero_kstate).

Lemma on_cpu_runs p s : p = 3 \/ p = 5 -> sl_runs true p 0 (on_cpu p s).
Proof.
  intros Hp. assert (Ho : outside true (on_cpu p s)).
  { eexists _, _. split; [reflexivity|]. split; [reflexivity|]. vm_compute. auto. }
  split; [exact Ho|]. split.
  - split; [exact (outside_settled _ _ Ho)|reflexivity|reflexivity|unfold NPROC; lia|].
    intros lk H. exists "lock". exact (zero_locks_static lk H).
  - by destruct Hp as [-> | ->].
Qed.

Lemma on_cpu_other {PT : Patience} lk p s W : sl_step lk (s, W) Other (on_cpu p s, W).
Proof. by apply SlOther. Qed.

Lemma demo_sl_trace : exists c',
  @sl_trace demo_patience (SL_buf 4) (on_cpu 5 zero_kstate, ∅)
    ([] ++ Acquired 5 :: [Other; Slept 3; Other; Released 5; Other] ++ Acquired 3 :: []) c'.
Proof.
  set (PT := demo_patience). set (lk := SL_buf 4). assert (Hst : sleep_static lk) by (simpl; lia).
  pose proof (on_cpu_runs 5 zero_kstate (or_intror eq_refl)) as H5. set (s0 := on_cpu 5 zero_kstate) in *.
  assert (Hf0 : sleep_free lk s0) by (exists (mkSleeplock 0 "sleep lock" 0); split; vm_compute; reflexivity).
  assert (Hl0 : is_Some (k_sleeplocks s0 !! lk)) by (destruct Hf0 as (l & Hl & _); eauto).
  pose proof (acquiresleep_ok 5 0 s0 lk (proj1 (proj2 H5)) (proj2 (proj2 H5)) Hst Hf0) as E1.
  pose proof (sl_take_busy lk 0 s0 Hl0) as Hb1. set (s1 := sl_take lk 0 s0) in *.
  pose proof (on_cpu_runs 3 s1 (or_introl eq_refl)) as H3.
  pose proof (acquiresleep_waits true 3 0 (on_cpu 3 s1) lk H3 Hst Hb1) as Hw.
  destruct Hw as (pr & k & Hp & E2 & Hres). set (s2 := acq (L_proc 3) _) in E2.
  pose proof (on_cpu_runs 5 s2 (or_intror eq_refl)) as H5'.
  assert (Hl2 : is_Some (k_sleeplocks (on_cpu 5 s2) !! lk)) by (destruct Hb1 as (l & Hl & _); eauto).
  pose proof (releasesleep_ok 5 (on_cpu 5 s2) lk (proj1 (proj2 H5')) Hst Hl2) as E3. set (s3 := wake_st _ _ _) in E3.
  assert (Hf3 : sleep_free lk (on_cpu 3 s3)).
  { exact (sl_drop_free lk (on_cpu 5 s2) Hl2). }
  pose proof (on_cpu_runs 3 s3 (or_introl eq_refl)) as H3'.
  destruct (pid_proc 3 0 _ (proj2 (proj2 H3'))) as (pr3 & Hp3 & _).
  destruct (Hres _ pr3 H3' Hp3) as [E4 _]. specialize (E4 Hf3). eexists.
  eapply SlCons; [eapply SlAcquire; [exact H5|apply lookup_empty|exact E1]|].
  eapply SlCons; [apply (on_cpu_other lk 3)|].
  eapply SlCons; [eapply SlAcquireSleep; [exact H3|apply lookup_empty|exact E2]|].
  eapply SlCons; [apply (on_cpu_other lk 5)|].
  eapply SlCons; [eapply SlRelease; [exact H5'|by rewrite lookup_insert_ne|exact E3]|].
  eapply SlCons; [apply (on_cpu_other lk 3)|].
  eapply SlCons; [|apply SlNil]. eapply SlResume; [apply lookup_insert_eq|exact H3'|exact E4].
Qed.

Lemma sleeplock_exclusion_witness :
  (exists s1 s2, @acquiresleep demo_patience (SL_buf 4) demo_sched = Ok tt s1 /\
    releasesleep (SL_buf 4) s1 = Ok tt s2 /\ sleep_free (SL_buf 4) s2) /\
  exists r, Released r ∈ [Other; Slept 3; Other; Released 5; Other].
Proof.
  destruct (@sleeplock_exclusion demo_patience (SL_buf 4) ltac:(simpl; lia) ltac:(simpl; lia)) as [H Ht]. split.
  - destruct (H true 5 0 demo_sched demo_sched_outside demo_thread eq_refl) as [H1 _].
    destruct H1 as (s1 & s2 & H1 & _ & _ & _ & H2 & H3 & _).
    { exists (mkSleeplock 0 "sleep lock" 0). split; vm_compute; reflexivity. }
    exists s1, s2. split; [exact H1|]. split; [exact H2|exact H3].
  - destruct demo_sl_trace as [c' HT]. refine (Ht (on_cpu 5 zero_kstate) c' 5 3 [] _ [] _ HT).
    exists (mkSleeplock 0 "sleep lock" 0). vm_compute. reflexivity.
Defined.
