(* ===== verification/Csr.v ===== *)
(** * Control registers of a hart ([kernel/riscv.h]) and symbols of the kernel

    The [csrr] and [csrw] accessors read and write the record of the executing
    hart.  The addresses of kernel functions are fixed by the linker. *)

From S2P Require Import Prelude Riscv State Spinlock.

(** ** Definitions *)

Definition csr_read (f : hart -> Z) : M Z := i <- r_tp;; h <- get_hart i;; ret (f h).
Definition csr_write (set : Z -> hart -> hart) (x : Z) : M unit :=
  i <- r_tp;; h <- get_hart i;; put_hart i (set (u64 x) h).

Definition r_mhartid : M Z := csr_read h_mhartid.
Definition r_mstatus : M Z := csr_read h_mstatus.
Definition r_sie : M Z := csr_read h_sie.
Definition r_mie : M Z := csr_read h_mie.
Definition r_sepc : M Z := csr_read h_sepc.
Definition r_medeleg : M Z := csr_read h_medeleg.
Definition r_mideleg : M Z := csr_read h_mideleg.
Definition r_stvec : M Z := csr_read h_stvec.
Definition r_stimecmp : M Z := csr_read h_stimecmp.
Definition r_menvcfg : M Z := csr_read h_menvcfg.
Definition r_satp : M Z := csr_read h_satp.
Definition r_scause : M Z := csr_read h_scause.
Definition r_stval : M Z := csr_read h_stval.
Definition r_mcounteren : M Z := csr_read h_mcounteren.
Definition r_time : M Z := csr_read h_time.
Definition w_mstatus : Z -> M unit := csr_write set_h_mstatus.
Definition w_mepc : Z -> M unit := csr_write set_h_mepc.
Definition w_sie : Z -> M unit := csr_write set_h_sie.
Definition w_mie : Z -> M unit := csr_write set_h_mie.
Definition w_sepc : Z -> M unit := csr_write set_h_sepc.
Definition w_medeleg : Z -> M unit := csr_write set_h_medeleg.
Definition w_mideleg : Z -> M unit := csr_write set_h_mideleg.
Definition w_stvec : Z -> M unit := csr_write set_h_stvec.
Definition w_stimecmp : Z -> M unit := csr_write set_h_stimecmp.
Definition w_menvcfg : Z -> M unit := csr_write set_h_menvcfg.
Definition w_pmpcfg0 : Z -> M unit := csr_write set_h_pmpcfg0.
Definition w_pmpaddr0 : Z -> M unit := csr_write set_h_pmpaddr0.
Definition w_satp : Z -> M unit := csr_write set_h_satp.
Definition w_mcounteren : Z -> M unit := csr_write set_h_mcounteren.
Definition w_tp (x : Z) : M unit := modify (set_k_tp x).
(** The TLB is not modelled: every translation is the page table's. *)
Definition sfence_vma : M unit := ret tt.

Definition MSTATUS_MPP_MASK : Z := Z.shiftl 3 11.
Definition MSTATUS_MPP_S : Z := Z.shiftl 1 11.
Definition SIE_SEIE : Z := Z.shiftl 1 9.
Definition SIE_STIE : Z := Z.shiftl 1 5.
Definition SIE_SSIE : Z := Z.shiftl 1 1.
Definition MIE_STIE : Z := Z.shiftl 1 5.

(** Addresses the linker gives to code. *)
Class KernelText := {
  ld_kernelvec : Z;
  ld_usertrap : Z;
  ld_uservec : Z;
  ld_userret : Z;
  ld_forkret : Z;
  ld_main : Z;
}.

(** ** Lemmas *)

(** The executing hart is [h]. *)
Definition on_hart (h : hart) (s : kstate) : Prop := lookupZ (k_harts s) (k_tp s) = Some h.

(** The state with the record of the executing hart replaced. *)
Definition with_hart (h : hart) (s : kstate) : kstate := set_k_harts (insertZ (k_tp s) h (k_harts s)) s.

Lemma on_with_hart h h' s : on_hart h s -> on_hart h' (with_hart h' s).
Proof. intros H. unfold on_hart, with_hart. cbn. apply lookupZ_insertZ_eq. by apply (lookupZ_Some_range _ _ h). Qed.

Lemma with_with_hart h h' s : with_hart h' (with_hart h s) = with_hart h' s.
Proof. unfold with_hart. cbn. by rewrite insertZ_insertZ. Qed.

Lemma run_csr_read f h s : on_hart h s -> csr_read f s = Ok (f h) s.
Proof. intros H. unfold csr_read, r_tp. rewrite bind_gets. by erewrite bind_ok by (by apply run_get_hart). Qed.

Lemma run_csr_write set x h s : on_hart h s -> csr_write set x s = Ok tt (with_hart (set (u64 x) h) s).
Proof. intros H. unfold csr_write, r_tp. rewrite bind_gets. by erewrite bind_ok by (by apply run_get_hart). Qed.
