(* ===== verification/Kvm.v ===== *)
(** * The kernel page table ([kernel/vm.c], [proc_mapstacks] of
    [kernel/proc.c]) *)

From S2P Require Import Prelude Riscv State Spinlock Str Kalloc Vm Uvm Csr.

(** ** Definitions *)

Section Kvm.
Context {KI : KernelImage}.

Definition proc_mapstacks_body (kpgtbl p : Z) : M (option unit) :=
  pa <- kalloc;;
  if pa =? 0 then panic "kalloc" else
  let va := KSTACK p in
  kvmmap kpgtbl va pa PGSIZE (Z.lor PTE_R PTE_W);;
  ret None.

Definition proc_mapstacks (kpgtbl : Z) : M unit :=
  for_loop (Z.to_nat NPROC) 0 (proc_mapstacks_body kpgtbl);;
  ret tt.

Definition kvmmake : M Z :=
  kpgtbl <- kalloc;;
  memset_m kpgtbl 0 PGSIZE;;
  kvmmap kpgtbl UART0 UART0 PGSIZE (Z.lor PTE_R PTE_W);;
  kvmmap kpgtbl VIRTIO0 VIRTIO0 PGSIZE (Z.lor PTE_R PTE_W);;
  kvmmap kpgtbl PLIC PLIC 0x4000000 (Z.lor PTE_R PTE_W);;
  kvmmap kpgtbl KERNBASE KERNBASE (ld_etext - KERNBASE) (Z.lor PTE_R PTE_X);;
  kvmmap kpgtbl ld_etext ld_etext (PHYSTOP - ld_etext) (Z.lor PTE_R PTE_W);;
  kvmmap kpgtbl TRAMPOLINE ld_trampoline PGSIZE (Z.lor PTE_R PTE_X);;
  proc_mapstacks kpgtbl;;
  ret kpgtbl.

Definition kvminit : M unit :=
  kpgtbl <- kvmmake;;
  modify (set_k_kpagetable kpgtbl).

End Kvm.

Definition kvminithart : M unit :=
  sfence_vma;;
  kpgtbl <- gets k_kpagetable;;
  w_satp (MAKE_SATP kpgtbl);;
  sfence_vma.

(** ** Specification *)

Definition RW : Z := Z.lor PTE_R PTE_W.
Definition RX : Z := Z.lor PTE_R PTE_X.

Section Theory.
Context {KI : KernelImage}.

(** A page table that maps as [f] says, beside the pages [st] of the stacks and
    the free list. *)
Record kvm (root : Z) (fl : list Z) (f : Z -> Z) (st : list Z) (s : kstate) : Prop := {
  kv_ps : pt_state root fl s;
  kv_map a : va_ok a -> pte_of (k_mem s) root a = f a;
  kv_pages : Forall page_ok st;
  kv_nodup : NoDup st;
  kv_apart p : p ∈ st -> p ∉ fl /\ ~ is_table (k_mem s) root p;
}.

(** Only memory and the free list changed. *)
Definition mem_only (s s' : kstate) : Prop := exists m f, s' = set_k_mem m (set_k_freelist f s).

Lemma mem_only_trans s s1 s2 : mem_only s s1 -> mem_only s1 s2 -> mem_only s s2.
Proof. intros (m & f & ->) (m' & f' & ->). by exists m', f'. Qed.

(** The tables that mapping [size] bytes at [va] may need. *)
Definition tables (va size : Z) : Z := 2 * (region (va + size - PGSIZE) - region va + 1).

(** ** Mapping *)

Lemma kvmmap_step root fl f st s va pa size perm : kvm root fl f st s ->
  va mod PGSIZE = 0 -> size mod PGSIZE = 0 -> pa mod PGSIZE = 0 -> flags_ok perm ->
  0 <= va -> 0 < size -> va + size <= MAXVA -> 0 <= pa -> pa + size <= 2 ^ 56 ->
  (forall a, va_ok a -> va <= a < va + size -> f a = 0) -> tables va size < lenZ fl ->
  exists fl' s', kvmmap root va pa size perm s = Ok tt s' /\ kvm root fl' (map_range va (size / PGSIZE) pa perm f) st s' /\
    mem_only s s' /\ lenZ fl - tables va size <= lenZ fl'.
Proof.
  intros [Hps Hf Hp Hn Ha] Hva Hsz Hpa Hfl Hva0 Hsz0 Hb Hpa0 Hpb Hfree Hlen.
  destruct (mappages_run root va size pa perm fl s) as (r & k & fl' & s' & Hm & Hg & Hl & Hr & Hpt); try done.
  { intros a Hao Har. by rewrite Hf, Hfree. }
  fold (tables va size) in Hl. destruct Hr as [[-> ->]|(_ & _ & ->)]; [|change (lenZ (@nil Z)) with 0 in Hl; lia].
  exists fl', s'. split; [by apply kvmmap_ok|]. split; [|split; [apply (gr_state _ _ _ _ _ Hg)|lia]]. split; [apply (gr_ps _ _ _ _ _ Hg)| |done|done|].
  - intros a Hao. rewrite Hpt by done. apply map_range_ext. by apply Hf.
  - intros p Hin. destruct (Ha p Hin) as [H1 H2]. destruct (gr_new _ _ _ _ _ Hg) as (new & -> & Ht). rewrite not_elem_of_app in H1. rewrite Ht. tauto.
Qed.

(** A page for a stack. *)
Lemma kalloc_step root r fl f st s : kvm root (r :: fl) f st s ->
  exists s', kalloc s = Ok r s' /\ kvm root fl f (st ++ [r]) s' /\ mem_only s s' /\ page_ok r.
Proof.
  intros [[Hr Hi Hwf Hd] Hf Hp Hn Ha]. destruct (kalloc_ok s (r :: fl) Hr Hi) as (m & g & Hk & Hi' & Hrp & Hrn & _ & Hm).
  assert (Hext : forall p x, is_table (k_mem s) root p -> in_page p x -> mget m x = mget (k_mem s) x).
  { intros p x Ht Hx. apply Hm, (page_ok_disjoint p r x); [by eapply is_table_page|done| |done]. intros ->. apply (Hd r Ht). left. }
  assert (Et : forall p, is_table m root p <-> is_table (k_mem s) root p) by (intros p; by apply is_table_ext).
  eexists. split; [exact Hk|]. split; [|split; [by exists m, g|done]]. split.
  - split; [exact Hr|exact Hi'|by apply (pt_wf_ext (k_mem s))|]. intros p Ht. apply Et in Ht. specialize (Hd p Ht). by apply not_elem_of_cons in Hd as [_ Hd].
  - intros a Hao. rewrite <- Hf by done. by apply pte_of_ext.
  - apply Forall_app. split; [done|by constructor].
  - apply NoDup_app. split; [done|]. split; [|apply NoDup_singleton]. intros p Hin ->%list_elem_of_singleton. destruct (Ha r Hin) as [H1 _]. apply H1. left.
  - intros p [Hin| ->%list_elem_of_singleton]%elem_of_app; change (k_mem (set_k_mem m (set_k_freelist g s))) with m; rewrite Et.
    + destruct (Ha p Hin) as [H1 H2]. by apply not_elem_of_cons in H1 as [_ H1].
    + split; [done|]. intros Ht. apply (Hd r Ht). left.
Qed.

Lemma lookupZ_snoc {A} (l : list A) x i : lookupZ (l ++ [x]) i = if decide (i = lenZ l) then Some x else lookupZ l i.
Proof.
  pose proof (lenZ_nonneg l). case_decide as E.
  - subst i. rewrite lookupZ_app. zcase (lenZ l <? lenZ l). by rewrite Z.sub_diag.
  - rewrite lookupZ_app. zcase (i <? lenZ l). rewrite !lookupZ_None; [done|try change (lenZ [x]) with 1; lia..].
Qed.

Lemma kvm_ext root fl f g st s : (forall a, va_ok a -> f a = g a) -> kvm root fl f st s -> kvm root fl g st s.
Proof. intros H [Hps Hf Hp Hn Ha]. split; [done| |done|done|done]. intros a Hao. by rewrite <- H, Hf. Qed.

(** The stack of process [p] is the page [st !! p]. *)
Definition stack_map (f : Z -> Z) (st : list Z) (a : Z) : Z :=
  if (TRAMPOLINE - a) mod (2 * PGSIZE) =? 0 then
    match lookupZ st ((TRAMPOLINE - a) / (2 * PGSIZE) - 1) with Some pa => leaf_pte pa RW | None => f a end
  else f a.

Lemma KSTACK_index p : (TRAMPOLINE - KSTACK p) mod (2 * PGSIZE) = 0 /\ (TRAMPOLINE - KSTACK p) / (2 * PGSIZE) - 1 = p.
Proof. unfold KSTACK, PGSIZE. Z.div_mod_to_equations. lia. Qed.

Lemma stack_map_at f st p : stack_map f st (KSTACK p) = match lookupZ st p with Some pa => leaf_pte pa RW | None => f (KSTACK p) end.
Proof. unfold stack_map. destruct (KSTACK_index p) as [-> ->]. done. Qed.

Lemma stack_map_other f st a : (forall p, 0 <= p < lenZ st -> a <> KSTACK p) -> stack_map f st a = f a.
Proof.
  intros H. unfold stack_map. destruct (Z.eqb_spec ((TRAMPOLINE - a) mod (2 * PGSIZE)) 0) as [E|]; [|done].
  destruct (lookupZ st ((TRAMPOLINE - a) / (2 * PGSIZE) - 1)) eqn:El; [|done]. exfalso. apply lookupZ_Some_range in El. apply (H ((TRAMPOLINE - a) / (2 * PGSIZE) - 1)); [lia|].
  unfold KSTACK. unfold PGSIZE in *. Z.div_mod_to_equations. lia.
Qed.

Lemma KSTACK_ok p : 0 <= p < NPROC -> KSTACK p mod PGSIZE = 0 /\ va_ok (KSTACK p) /\ PHYSTOP <= KSTACK p - PGSIZE /\ KSTACK p + PGSIZE <= TRAMPOLINE - PGSIZE /\ tables (KSTACK p) PGSIZE = 2.
Proof.
  intros Hp. assert (E : KSTACK p mod PGSIZE = 0) by (unfold KSTACK, TRAMPOLINE, PGSIZE; change MAXVA with (2 ^ 38); Z.div_mod_to_equations; lia).
  unfold tables, va_ok. replace (KSTACK p + PGSIZE - PGSIZE) with (KSTACK p) by lia. split_and!; [done|done|lz|lz|lz|lz|lia].
Qed.

Lemma mapstacks_step root fl f st s : kvm root fl (stack_map f st) st s -> lenZ st < NPROC -> f (KSTACK (lenZ st)) = 0 -> 3 < lenZ fl ->
  exists r fl' s', proc_mapstacks_body root (lenZ st) s = Ok None s' /\ kvm root fl' (stack_map f (st ++ [r])) (st ++ [r]) s' /\ mem_only s s' /\ lenZ fl - 3 <= lenZ fl'.
Proof.
  intros K Hn H0 Hlen. destruct fl as [|r fl]; [change (lenZ (@nil Z)) with 0 in Hlen; lia|]. rewrite lenZ_cons in Hlen. pose proof (lenZ_nonneg st) as Hst.
  destruct (kalloc_step _ _ _ _ _ _ K) as (s1 & E1 & K1 & M1 & Hr). pose proof (page_ok_bounds r Hr) as Hrb. destruct Hr as [Hra Hrr].
  destruct (KSTACK_ok (lenZ st) ltac:(lia)) as (Hal & Hva & Hlo & Hhi & Ht).
  destruct (kvmmap_step root fl _ _ s1 (KSTACK (lenZ st)) r PGSIZE RW K1) as (fl' & s2 & E2 & K2 & M2 & L2); [done|done|done|by vm_compute|lz|lz|lz|lz|lz| |lia|].
  { intros a Hao Har. assert (a = KSTACK (lenZ st)) as ->.
    { destruct (decide (a = KSTACK (lenZ st))) as [|Hne]; [done|exfalso]. destruct (aligned_disjoint (KSTACK (lenZ st)) a Hal (proj1 Hao)); [congruence|lz|lz]. }
    rewrite stack_map_at. by rewrite lookupZ_None by lia. }
  exists r, fl', s2. split; [|split; [|split; [by eapply mem_only_trans|rewrite lenZ_cons; lia]]].
  - unfold proc_mapstacks_body. erewrite bind_ok by exact E1. destruct (Z.eqb_spec r 0) as [|_]; [lia|]. cbv zeta. by erewrite bind_ok by exact E2.
  - eapply kvm_ext; [|exact K2]. intros a Hao. change (PGSIZE / PGSIZE) with 1. rewrite map_range_1 by done. case_decide as Ea.
    + subst a. by rewrite stack_map_at, lookupZ_snoc, decide_True.
    + unfold stack_map. destruct (Z.eqb_spec ((TRAMPOLINE - a) mod (2 * PGSIZE)) 0) as [E|]; [|done]. rewrite lookupZ_snoc, decide_False; [done|]. intros Ei. apply Ea. unfold KSTACK. rewrite <- Ei. unfold PGSIZE in *. Z.div_mod_to_equations. lia.
Qed.

Lemma mapstacks_loop root f n : (forall p, 0 <= p < NPROC -> f (KSTACK p) = 0) -> forall st fl s,
  kvm root fl (stack_map f st) st s -> lenZ st + Z.of_nat n = NPROC -> 3 * Z.of_nat n < lenZ fl ->
  exists st' fl' s', for_loop n (lenZ st) (proc_mapstacks_body root) s = Ok None s' /\ kvm root fl' (stack_map f st') st' s' /\ mem_only s s' /\ lenZ st' = NPROC.
Proof.
  intros Hf. induction n as [|n IH]; intros st fl s K Hn Hlen; pose proof (lenZ_nonneg st).
  - exists st, fl, s. split; [done|]. split; [done|]. split; [by exists (k_mem s), (k_freelist s); destruct s|lia].
  - destruct (mapstacks_step root fl f st s K) as (r & fl1 & s1 & E1 & K1 & M1 & L1); [lia|apply Hf; lia|lia|].
    destruct (IH (st ++ [r]) fl1 s1 K1) as (st' & fl' & s' & E & K' & M' & L'); [rewrite lenZ_app; change (lenZ [r]) with 1; lia|lia|].
    exists st', fl', s'. split; [|split; [done|split; [by eapply mem_only_trans|done]]]. rewrite (for_loop_next _ _ _ _ _ E1).
    rewrite lenZ_app in E. exact E.
Qed.

Lemma map_range_out va n pa perm f a : ~ (va <= a < va + n * PGSIZE) -> map_range va n pa perm f a = f a.
Proof. intros H. unfold map_range. zcase (va <=? a); zcase (a <? va + n * PGSIZE). Qed.

Lemma map_range_in va n pa perm f a : va <= a < va + n * PGSIZE -> map_range va n pa perm f a = leaf_pte (pa + (a - va)) perm.
Proof. intros H. unfold map_range. zcase (va <=? a). zcase (a <? va + n * PGSIZE). Qed.

(** The mappings of [kvmmake] before the stacks. *)
Definition device_map : Z -> Z :=
  map_range PLIC (0x4000000 / PGSIZE) PLIC RW (map_range VIRTIO0 (PGSIZE / PGSIZE) VIRTIO0 RW (map_range UART0 (PGSIZE / PGSIZE) UART0 RW (fun _ => 0))).
Definition kernel_map : Z -> Z :=
  map_range TRAMPOLINE (PGSIZE / PGSIZE) ld_trampoline RX
    (map_range ld_etext ((PHYSTOP - ld_etext) / PGSIZE) ld_etext RW (map_range KERNBASE ((ld_etext - KERNBASE) / PGSIZE) KERNBASE RX device_map)).

Lemma etext_aligned : ld_etext mod PGSIZE = 0 /\ KERNBASE + PGSIZE <= ld_etext <= PHYSTOP /\
  (ld_etext - KERNBASE) mod PGSIZE = 0 /\ (PHYSTOP - ld_etext) mod PGSIZE = 0 /\
  (ld_etext - KERNBASE) / PGSIZE * PGSIZE = ld_etext - KERNBASE /\ (PHYSTOP - ld_etext) / PGSIZE * PGSIZE = PHYSTOP - ld_etext.
Proof.
  pose proof ld_trampoline_aligned. pose proof ld_trampoline_base. pose proof ld_etext_eq. pose proof ld_end_etext. pose proof ld_end_phystop.
  unfold PHYSTOP, KERNBASE, PGSIZE in *. split_and!; Z.div_mod_to_equations; lia.
Qed.

Lemma device_map_high a : KERNBASE <= a -> device_map a = 0.
Proof.
  intros H. unfold device_map, PLIC, VIRTIO0, UART0. change (0x4000000 / PGSIZE) with 16384. change (PGSIZE / PGSIZE) with 1. unfold KERNBASE in H. unfold PGSIZE.
  by rewrite !map_range_out by (unfold PGSIZE; lia).
Qed.

Lemma Ok_state {A} (x y : A) (s s' : kstate) : Ok x s = Ok y s' -> s = s'.
Proof. intros H. by injection H. Qed.

(** The first page table page. *)
Lemma kvm_root fl s : kmem_ready s -> kmem_inv fl s -> fl <> [] ->
  exists root fl' s0 s1, kalloc s = Ok root s0 /\ memset_m root 0 PGSIZE s0 = Ok tt s1 /\ kvm root fl' (fun _ => 0) [] s1 /\ mem_only s s1 /\ lenZ fl = lenZ fl' + 1 /\ page_ok root.
Proof.
  intros Hr Hi Hne. pose proof (kalloc_ok s fl Hr Hi) as Hk. destruct (uvmcreate_ok fl s Hr Hi) as [[-> _]|(r & fl' & m & f & -> & E & Hps & Hp & _ & H0 & _)]; [done|].
  destruct Hk as (m0 & f0 & Hk & _). unfold uvmcreate in E. erewrite bind_ok in E by exact Hk. pose proof (page_ok_bounds r Hp). destruct (Z.eqb_spec r 0) as [|_]; [lia|].
  unfold memset_m in E. rewrite bind_modify in E. apply Ok_state in E.
  exists r, fl'. do 2 eexists. split; [exact Hk|]. split; [unfold memset_m; apply run_modify|]. rewrite lenZ_cons. split; [|split; [exists m, f; exact E|split; [lia|done]]].
  cbn beta. rewrite E. split; [exact Hps|intros a _; exact (H0 a)|constructor|constructor|]. intros p Hin. inversion Hin.
Qed.

Lemma kvmmake_ok fl s : kmem_ready s -> kmem_inv fl s -> 600 <= lenZ fl ->
  exists root fl' st s', kvmmake s = Ok root s' /\ kvm root fl' (stack_map kernel_map st) st s' /\ mem_only s s' /\ lenZ st = NPROC.
Proof.
  intros Hr Hi Hlen. destruct etext_aligned as (Ea & Eb & Em1 & Em2 & Ed1 & Ed2).
  assert (Hne : fl <> []) by (intros ->; by change (600 <= 0) in Hlen). assert (Hend : ld_etext < PHYSTOP).
  { destruct Hi as (_ & _ & Hok). destruct fl as [|p fl]; [done|]. inversion Hok as [|? ? [_ Hp] _]; subst. pose proof ld_end_etext. lia. }
  destruct (kvm_root fl s Hr Hi Hne) as (root & fl0 & s00 & s0 & Ek & E0 & K0 & M0 & L0 & _).
  destruct (kvmmap_step root fl0 _ [] s0 UART0 UART0 PGSIZE RW K0) as (fl1 & s1 & E1 & K1 & M1 & L1); [by vm_compute..|done|change (tables UART0 PGSIZE) with 2; lia|].
  change (tables UART0 PGSIZE) with 2 in L1.
  destruct (kvmmap_step root fl1 _ [] s1 VIRTIO0 VIRTIO0 PGSIZE RW K1) as (fl2 & s2 & E2 & K2 & M2 & L2); [by vm_compute..| |change (tables VIRTIO0 PGSIZE) with 2; lia|].
  { intros a _ Ha. apply map_range_out. change (PGSIZE / PGSIZE) with 1. unfold VIRTIO0, UART0, PGSIZE in *. lia. }
  change (tables VIRTIO0 PGSIZE) with 2 in L2.
  destruct (kvmmap_step root fl2 _ [] s2 PLIC PLIC 0x4000000 RW K2) as (fl3 & s3 & E3 & K3 & M3 & L3); [by vm_compute..| |change (tables PLIC 0x4000000) with 64; lia|].
  { intros a _ Ha. change (PGSIZE / PGSIZE) with 1. by rewrite !map_range_out by (unfold PLIC, VIRTIO0, UART0, PGSIZE in *; lia). }
  change (tables PLIC 0x4000000) with 64 in L3. fold device_map in K3.
  assert (T4 : tables KERNBASE (ld_etext - KERNBASE) <= 132 /\ tables ld_etext (PHYSTOP - ld_etext) <= 132) by (unfold tables, region; unfold PHYSTOP, KERNBASE, PGSIZE in *; Z.div_mod_to_equations; lia).
  destruct (kvmmap_step root fl3 _ [] s3 KERNBASE KERNBASE (ld_etext - KERNBASE) RX K3) as (fl4 & s4 & E4 & K4 & M4 & L4); [done|done|done|by vm_compute|lz|lz|lz|lz|lz|intros a _ Ha; apply device_map_high; lia|lia|].
  destruct (kvmmap_step root fl4 _ [] s4 ld_etext ld_etext (PHYSTOP - ld_etext) RW K4) as (fl5 & s5 & E5 & K5 & M5 & L5); [done|done|done|by vm_compute|lz|lz|lz|lz|lz| |lia|].
  { intros a _ Ha. rewrite map_range_out by lia. apply device_map_high. lz. }
  destruct (kvmmap_step root fl5 _ [] s5 TRAMPOLINE ld_trampoline PGSIZE RX K5) as (fl6 & s6 & E6 & K6 & M6 & L6);
    [by vm_compute|done|apply ld_trampoline_aligned|by vm_compute|lz|lz|lz|pose proof ld_trampoline_base; lz|pose proof ld_etext_eq; lz| |change (tables TRAMPOLINE PGSIZE) with 2; lia|].
  { intros a _ Ha. rewrite !map_range_out by lz. apply device_map_high. lz. }
  change (tables TRAMPOLINE PGSIZE) with 2 in L6. fold kernel_map in K6.
  destruct (mapstacks_loop root kernel_map (Z.to_nat NPROC)) with (st := @nil Z) (fl := fl6) (s := s6) as (st & fl' & s' & E & K & M & L); [|eapply kvm_ext; [|exact K6]; intros a _; rewrite stack_map_other; [done|intros p Hp; change (lenZ (@nil Z)) with 0 in Hp; lia]|reflexivity|change (Z.of_nat (Z.to_nat NPROC)) with 64; lia|].
  { intros p Hp. destruct (KSTACK_ok p Hp) as (_ & _ & Hlo & Hhi & _). unfold kernel_map. change (PGSIZE / PGSIZE) with 1. rewrite !map_range_out by lz. apply device_map_high. lz. }
  exists root, fl', st, s'. split; [|split; [done|split; [eauto 12 using mem_only_trans|done]]].
  unfold kvmmake. erewrite bind_ok by exact Ek. erewrite bind_ok by exact E0. erewrite bind_ok by exact E1. erewrite bind_ok by exact E2. erewrite bind_ok by exact E3.
  erewrite bind_ok by exact E4. erewrite bind_ok by exact E5. erewrite bind_ok by exact E6. unfold proc_mapstacks. erewrite bind_ok; [reflexivity|]. erewrite bind_ok by exact E. done.
Qed.

(** The permissions of a page of the kernel: never for the user, never both
    writable and executable. *)
Definition kernel_perm (v : Z) : Prop := Z.land v PTE_U = 0 /\ (Z.land v PTE_W = 0 \/ Z.land v PTE_X = 0).

Lemma kernel_perm_leaf pa perm : pa_ok pa -> perm = RW \/ perm = RX -> kernel_perm (leaf_pte pa perm).
Proof. intros Hpa [-> | ->]; unfold kernel_perm; rewrite !leaf_pte_land by (done || by vm_compute); split; [done|by right|done|by left]. Qed.

Lemma kernel_perm_range va n pa perm f a : (va <= a < va + n * PGSIZE -> pa_ok (pa + (a - va))) -> perm = RW \/ perm = RX -> kernel_perm (f a) -> kernel_perm (map_range va n pa perm f a).
Proof. intros Hpa Hp Hf. unfold map_range. zcase (va <=? a); zcase (a <? va + n * PGSIZE); try done. apply kernel_perm_leaf; [apply Hpa; lia|done]. Qed.

Lemma kernel_map_perm st a : Forall page_ok st -> va_ok a -> kernel_perm (stack_map kernel_map st a).
Proof.
  intros Hst Ha. destruct etext_aligned as (Ea & Eb & _ & _ & Ed1 & Ed2). destruct Ha as [Hal Har]. assert (H0 : kernel_perm 0) by (split; [done|by left]).
  assert (Hk : kernel_perm (kernel_map a)).
  { assert (Hid : forall va, pa_ok (va + (a - va))) by (intros va; replace (va + (a - va)) with a by lia; split; [done|lia]).
    unfold kernel_map, device_map. apply kernel_perm_range; [|by right|].
    - intros H. change (PGSIZE / PGSIZE) with 1 in H. pose proof ld_trampoline_aligned as Ht. pose proof ld_trampoline_base. pose proof ld_etext_eq. split; [unfold TRAMPOLINE in *; change MAXVA with (2 ^ 38) in *; unfold PGSIZE in *; Z.div_mod_to_equations; lia|lz].
    - repeat (apply kernel_perm_range; [intros _; apply Hid|tauto|]). exact H0. }
  unfold stack_map. destruct ((TRAMPOLINE - a) mod (2 * PGSIZE) =? 0); [|done]. destruct (lookupZ st _) as [pa|] eqn:E; [|done].
  apply lookupZ_elem in E. rewrite Forall_forall in Hst. apply kernel_perm_leaf; [by apply page_ok_pa_ok, Hst|by left].
Qed.

(** The addresses below the stacks. *)
Lemma stack_map_low st a : lenZ st = NPROC -> a <= PHYSTOP -> stack_map kernel_map st a = kernel_map a.
Proof. intros Hn Ha. apply stack_map_other. intros p Hp. destruct (KSTACK_ok p ltac:(lia)) as (_ & _ & Hlo & _). lz. Qed.

Lemma kernel_map_device a : va_ok a -> PLIC <= a < PLIC + 0x4000000 \/ a = UART0 \/ a = VIRTIO0 -> kernel_map a = leaf_pte a RW.
Proof.
  intros Ha Hd. destruct etext_aligned as (Ea & Eb & _ & _ & Ed1 & Ed2). unfold kernel_map, device_map, PLIC, UART0, VIRTIO0 in *.
  change (PGSIZE / PGSIZE) with 1. change (0x4000000 / PGSIZE) with 16384.
  do 3 rewrite map_range_out by lz. destruct (decide (a < 0x10000000)) as [Hlt|Hge].
  - rewrite map_range_in by lz. f_equal. lia.
  - rewrite (map_range_out 0x0c000000) by lz. destruct Hd as [Hd|[-> | ->]]; [lia| |].
    + rewrite map_range_out by lz. rewrite map_range_in by lz. done.
    + rewrite map_range_in by lz. done.
Qed.

(** C18: The kernel page table.  With enough memory, [kvminit] returns, and after
    [kvminithart] the hart translates with the new table.  It maps the
    device registers and the RAM of the kernel to themselves, the text
    executable and everything else writable; the trampoline also at the top;
    and for each process a stack of one page of its own, with an unmapped
    page below it.  No page is accessible to the user, and none is both
    writable and executable. *)
Theorem kvminit_maps fl s : kmem_ready s -> kmem_inv fl s -> 600 <= lenZ fl ->
  exists root fl' st s' s'' h, kvminit s = Ok tt s' /\ kvminithart s' = Ok tt s'' /\ on_hart h s'' /\ h_satp h = MAKE_SATP root /\ k_mem s'' = k_mem s' /\
    pt_state root fl' s' /\ lenZ st = NPROC /\ NoDup st /\ Forall page_ok st /\ (forall p, p ∈ st -> p ∉ fl' /\ ~ is_table (k_mem s') root p) /\
    let pte := pte_of (k_mem s') root in
    (forall a, va_ok a -> KERNBASE <= a < ld_etext -> pte a = leaf_pte a RX) /\ (forall a, va_ok a -> ld_etext <= a < PHYSTOP -> pte a = leaf_pte a RW) /\
    (forall a, va_ok a -> PLIC <= a < PLIC + 0x4000000 \/ a = UART0 \/ a = VIRTIO0 -> pte a = leaf_pte a RW) /\ pte TRAMPOLINE = leaf_pte ld_trampoline RX /\
    (forall p, 0 <= p < NPROC -> exists pa, lookupZ st p = Some pa /\ pte (KSTACK p) = leaf_pte pa RW /\ pte (KSTACK p - PGSIZE) = 0) /\
    (forall a, va_ok a -> kernel_perm (pte a)).
Proof.
  intros Hr Hi Hn. destruct (kvmmake_ok fl s Hr Hi Hn) as (root & fl' & st & s1 & E & K & (m & f & Es) & Hst). destruct etext_aligned as (Ea & Eb & _ & _ & Ed1 & Ed2).
  destruct K as [Kps Kmap Kp Kn Ka]. destruct (proj1 Hr) as (h & c & Hh & _). assert (Hon : on_hart h (set_k_kpagetable root s1)) by (rewrite Es; exact Hh).
  assert (Hps : pt_state root fl' (set_k_kpagetable root s1)) by (destruct Kps; by split). assert (Htr : forall p, 0 <= p < lenZ st -> TRAMPOLINE <> KSTACK p) by (intros p Hp; unfold KSTACK; lz).
  exists root, fl', st, (set_k_kpagetable root s1), (with_hart (set_h_satp (u64 (MAKE_SATP root)) h) (set_k_kpagetable root s1)), (set_h_satp (u64 (MAKE_SATP root)) h).
  split; [unfold kvminit; erewrite bind_ok by exact E; apply run_modify|]. split; [unfold kvminithart, sfence_vma; rewrite bind_ret, bind_gets; unfold w_satp; erewrite bind_ok by exact (run_csr_write _ _ _ _ Hon); reflexivity|].
  assert (Hrp : page_ok root) by (apply (wf_page _ _ (ps_wf _ _ _ Kps) []); [apply path_ok_nil|done]). pose proof (page_ok_bounds root Hrp) as Hrb.
  split; [by eapply on_with_hart|]. split; [cbn; rewrite (MAKE_SATP_eq root (page_ok_pa_ok root Hrp)); apply u64_small; destruct Hrp; unfold PGSIZE, PHYSTOP, KERNBASE in *; Z.div_mod_to_equations; lia|].
  split; [reflexivity|]. split; [exact Hps|]. split; [done|]. split; [done|]. split; [done|]. split; [exact Ka|]. cbv zeta. change (k_mem (set_k_kpagetable root s1)) with (k_mem s1).
  split; [|split; [|split; [|split; [|split]]]].
  - intros a Ha Hx. rewrite Kmap, stack_map_low by (done || lz). unfold kernel_map. change (PGSIZE / PGSIZE) with 1. rewrite !map_range_out by lz. rewrite map_range_in by lz. f_equal. lia.
  - intros a Ha Hx. rewrite Kmap, stack_map_low by (done || lz). unfold kernel_map. change (PGSIZE / PGSIZE) with 1. rewrite map_range_out by lz. rewrite map_range_in by lz. f_equal. lia.
  - intros a Ha Hx. rewrite Kmap, stack_map_low by (done || unfold PLIC, UART0, VIRTIO0 in *; lz). by apply kernel_map_device.
  - rewrite Kmap, stack_map_other by (done || by vm_compute). unfold kernel_map. change (PGSIZE / PGSIZE) with 1. rewrite map_range_in by lz. f_equal. lia.
  - intros p Hp. destruct (KSTACK_ok p Hp) as (Hal & Hva & Hlo & Hhi & _). destruct (lookupZ_is_Some st p ltac:(lia)) as [pa Hpa]. exists pa. split; [done|]. split; [by rewrite Kmap, stack_map_at, Hpa|].
    rewrite Kmap, stack_map_other; [| |].
    + unfold kernel_map. change (PGSIZE / PGSIZE) with 1. rewrite !map_range_out by lz. apply device_map_high. lz.
    + intros q _. unfold KSTACK. lz.
    + split; [|lz]. unfold KSTACK, TRAMPOLINE, PGSIZE. change MAXVA with (2 ^ 38). Z.div_mod_to_equations. lia.
  - intros a Ha. rewrite Kmap by done. by apply kernel_map_perm.
Qed.
End Theory.

Lemma kvminit_maps_witness : exists s s' root, kvminit s = Ok tt s' /\ pte_of (k_mem s') root KERNBASE = leaf_pte KERNBASE RX.
Proof.
  destruct demo_kmem as (fl & s & Hr & Hi & _ & Hn).
  destruct (kvminit_maps fl s Hr Hi) as (root & fl' & st & s' & s'' & h & E & _ & _ & _ & _ & _ & _ & _ & _ & _ & Ht & _); [lia|].
  exists s, s', root. split; [exact E|]. apply Ht; by vm_compute.
Defined.
