(* ===== verification/Uart.v ===== *)
(** * The UART driver ([kernel/uart.c])

    The 16550a registers are memory mapped: every access is recorded in
    [k_mmio], and what a read returns is up to the device, a parameter of the
    model that sees the accesses so far. *)

From S2P Require Import Prelude Riscv State Spinlock Sched.

(** ** Definitions *)

(** *** Memory-mapped registers *)

(** [mmio_read h a]: what a read of address [a] returns after the accesses
    [h], latest first.  [mmio_polls] bounds the loops that wait for a device. *)
Class Mmio := {
  mmio_read : list mmio_event -> Z -> Z;
  mmio_polls : nat;
}.

Definition mmio_wr (a v : Z) : M unit := modify (fun s => set_k_mmio (MWrite a v :: k_mmio s) s).

Section Mmio.
Context {IO : Mmio}.

Definition mmio_rd (a : Z) : M Z :=
  v <- gets (fun s => mmio_read (k_mmio s) a);;
  modify (fun s => set_k_mmio (MRead a :: k_mmio s) s);;
  ret v.

End Mmio.

(** *** Registers and constants *)

Definition Reg (reg : Z) : Z := UART0 + reg.
Definition RHR : Z := 0.
Definition THR : Z := 0.
Definition IER : Z := 1.
Definition IER_RX_ENABLE : Z := Z.shiftl 1 0.
Definition IER_TX_ENABLE : Z := Z.shiftl 1 1.
Definition FCR : Z := 2.
Definition FCR_FIFO_ENABLE : Z := Z.shiftl 1 0.
Definition FCR_FIFO_CLEAR : Z := Z.shiftl 3 1.
Definition ISR : Z := 2.
Definition LCR : Z := 3.
Definition LCR_EIGHT_BITS : Z := Z.shiftl 3 0.
Definition LCR_BAUD_LATCH : Z := Z.shiftl 1 7.
Definition LSR : Z := 5.
Definition LSR_TX_IDLE : Z := Z.shiftl 1 5.
Definition UART_TX_BUF_SIZE : Z := 32.

Definition WriteReg (reg v : Z) : M unit := mmio_wr (Reg reg) (u8 v).

Definition get_uart : M uartst := gets k_uart.
Definition put_uart (u : uartst) : M unit := modify (set_k_uart u).

Definition uartinit : M unit :=
  WriteReg IER 0;;
  WriteReg LCR LCR_BAUD_LATCH;;
  WriteReg 0 3;;
  WriteReg 1 0;;
  WriteReg LCR LCR_EIGHT_BITS;;
  WriteReg FCR (Z.lor FCR_FIFO_ENABLE FCR_FIFO_CLEAR);;
  WriteReg IER (Z.lor IER_TX_ENABLE IER_RX_ENABLE);;
  initlock L_uart_tx "uart".

Section Uart.
Context {IO : Mmio}.

Definition ReadReg (reg : Z) : M Z := v <- mmio_rd (Reg reg);; ret (u8 v).

Definition uartputc_sync (c : Z) : M unit :=
  push_off;;
  pk <- gets k_panicked;;
  if truth pk then fail Hangs else
  loop mmio_polls (fun _ : unit =>
    r <- ReadReg LSR;;
    ret (if Z.land r LSR_TX_IDLE =? 0 then inl tt else inr tt)) tt;;
  WriteReg THR c;;
  pop_off.

(** One turn of the loop of [uartstart]. *)
Definition uartstart_body (_ : unit) : M (unit + unit) :=
  u <- get_uart;;
  if uart_tx_w u =? uart_tx_r u then
    ReadReg ISR;;
    ret (inr tt)
  else
    r <- ReadReg LSR;;
    if Z.land r LSR_TX_IDLE =? 0 then ret (inr tt) else
    u <- get_uart;;
    c <- deref (lookupZ (uart_tx_buf u) (uart_tx_r u mod UART_TX_BUF_SIZE));;
    put_uart (set_uart_tx_r (u64 (uart_tx_r u + 1)) u);;
    wakeup (Some C_uart_tx_r);;
    WriteReg THR c;;
    ret (inl tt).

(** The buffer holds at most [UART_TX_BUF_SIZE] characters. *)
Definition uartstart_fuel : nat := S (Z.to_nat UART_TX_BUF_SIZE).

Definition uartstart : M unit := loop uartstart_fuel uartstart_body tt.

Definition uartputc {PT : Patience} (c : Z) : M unit :=
  acquire L_uart_tx;;
  pk <- gets k_panicked;;
  if truth pk then fail Hangs else
  while_sleep (u <- get_uart;; ret (uart_tx_w u =? u64 (uart_tx_r u + UART_TX_BUF_SIZE)))
    C_uart_tx_r L_uart_tx;;
  u <- get_uart;;
  put_uart (set_uart_tx_w (u64 (uart_tx_w u + 1))
    (set_uart_tx_buf (insertZ (uart_tx_w u mod UART_TX_BUF_SIZE) (u8 c) (uart_tx_buf u)) u));;
  uartstart;;
  release L_uart_tx.

Definition uartgetc : M Z :=
  r <- ReadReg LSR;;
  if truth (Z.land r 1) then ReadReg RHR else ret (-1).

End Uart.
