(* ===== verification/Printf.v ===== *)
(** * Formatted console output ([kernel/printf.c], [consputc] of
    [kernel/console.c])

    A C string is the list of its bytes without the terminating NUL; the
    variable arguments are a list. *)

From S2P Require Import Prelude Riscv State Spinlock Sched Uart.

(** ** Definitions *)

(** The characters of a string literal. *)
Fixpoint chars (s : string) : list Z :=
  match s with
  | EmptyString => []
  | String a s' => Z.of_N (Ascii.N_of_ascii a) :: chars s'
  end.
Definition ch (s : string) : Z := default 0 (head (chars s)).

Definition NL : Z := 10.
Definition BACKSPACE : Z := 0x100.

Definition digits : list Z := chars "0123456789abcdef".

(** A variable argument: an integer of any width, or a string, null as [None]. *)
Inductive vararg :=
| VInt (v : Z)
| VStr (s : option (list Z)).

(** The digits of [x], least significant first, stored in [buf[0..]]; a store
    past the [size] bytes of [buf] is undefined behaviour. *)
Fixpoint put_digits (fuel : nat) (size : Z) (x base : Z) (buf : list Z) : M (list Z) :=
  match fuel with
  | O => fail OutOfFuel
  | S fuel' =>
      d <- deref (lookupZ digits (x mod base));;
      if size <=? lenZ buf then ub "buf overflow" else
      let buf := buf ++ [d] in
      let x := x / base in
      if x =? 0 then ret buf else put_digits fuel' size x base buf
  end.

(** A 64-bit number has at most 64 digits in any base. *)
Definition digits_fuel : nat := 64.

(** What [printint] leaves in [buf], for a [buf] of [size] bytes. *)
Definition printint_buf (size xx base : Z) (sign : bool) : M (list Z) :=
  let neg := sign && (xx <? 0) in
  let x := if neg then u64 (- xx) else u64 xx in
  buf <- put_digits digits_fuel size x base [];;
  if neg then
    if size <=? lenZ buf then ub "buf overflow" else ret (buf ++ [ch "-"])
  else ret buf.

Section Printf.
Context {IO : Mmio}.

Definition consputc (c : Z) : M unit :=
  if c =? BACKSPACE then
    uartputc_sync 8;;
    uartputc_sync (ch " ");;
    uartputc_sync 8
  else uartputc_sync c.

Fixpoint consputs (s : list Z) : M unit :=
  match s with
  | [] => ret tt
  | c :: s' => consputc c;; consputs s'
  end.

Definition printint (xx base : Z) (sign : bool) : M unit :=
  buf <- printint_buf 16 xx base sign;;
  consputs (rev buf).

(** The [n] leading hexadecimal digits of the 64-bit [x]. *)
Fixpoint printptr_loop (n : nat) (x : Z) : M unit :=
  match n with
  | O => ret tt
  | S n' =>
      d <- deref (lookupZ digits (Z.shiftr x 60));;
      consputc d;;
      printptr_loop n' (u64 (Z.shiftl x 4))
  end.

Definition printptr (x : Z) : M unit :=
  consputc (ch "0");;
  consputc (ch "x");;
  printptr_loop 16 x.

(** [va_arg(ap, int)], [va_arg(ap, uint64)] (as the [long long] it is passed
    as) and [va_arg(ap, char * )]. *)
Definition va_int (ap : list vararg) : M (Z * list vararg) :=
  match ap with VInt v :: ap' => ret (i32 v, ap') | _ => ub "va_arg" end.
Definition va_u64 (ap : list vararg) : M (Z * list vararg) :=
  match ap with VInt v :: ap' => ret (i64 v, ap') | _ => ub "va_arg" end.
Definition va_str (ap : list vararg) : M (option (list Z) * list vararg) :=
  match ap with VStr s :: ap' => ret (s, ap') | _ => ub "va_arg" end.

(** The loop over [fmt], from the position at which its rest is [fmt]. *)
Fixpoint vprintf (fmt : list Z) (ap : list vararg) : M unit :=
  match fmt with
  | [] => ret tt
  | cx :: rest =>
      if negb (cx =? ch "%") then consputc cx;; vprintf rest ap else
      match rest with
      | [] => ret tt
      | c0 :: rest0 =>
          if c0 =? ch "d" then
            v <- va_int ap;; printint (fst v) 10 true;; vprintf rest0 (snd v)
          else if c0 =? ch "u" then
            v <- va_int ap;; printint (fst v) 10 false;; vprintf rest0 (snd v)
          else if c0 =? ch "x" then
            v <- va_int ap;; printint (fst v) 16 false;; vprintf rest0 (snd v)
          else if c0 =? ch "p" then
            v <- va_u64 ap;; printptr (u64 (fst v));; vprintf rest0 (snd v)
          else if c0 =? ch "s" then
            v <- va_str ap;; consputs (default (chars "(null)") (fst v));; vprintf rest0 (snd v)
          else if c0 =? ch "%" then consputc (ch "%");; vprintf rest0 ap
          else
          (* [%ld], [%lu], [%lx] and [%lld], [%llu], [%llx] *)
          let unknown := consputc (ch "%");; consputc c0;; vprintf rest0 ap in
          if negb (c0 =? ch "l") then unknown else
          match rest0 with
          | [] => unknown
          | c1 :: rest1 =>
              if c1 =? ch "d" then
                v <- va_u64 ap;; printint (fst v) 10 true;; vprintf rest1 (snd v)
              else if c1 =? ch "u" then
                v <- va_u64 ap;; printint (fst v) 10 false;; vprintf rest1 (snd v)
              else if c1 =? ch "x" then
                v <- va_u64 ap;; printint (fst v) 16 false;; vprintf rest1 (snd v)
              else if negb (c1 =? ch "l") then unknown else
              match rest1 with
              | [] => unknown
              | c2 :: rest2 =>
                  if c2 =? ch "d" then
                    v <- va_u64 ap;; printint (fst v) 10 true;; vprintf rest2 (snd v)
                  else if c2 =? ch "u" then
                    v <- va_u64 ap;; printint (fst v) 10 false;; vprintf rest2 (snd v)
                  else if c2 =? ch "x" then
                    v <- va_u64 ap;; printint (fst v) 16 false;; vprintf rest2 (snd v)
                  else unknown
              end
          end
      end
  end.

Definition printf (fmt : list Z) (ap : list vararg) : M Z :=
  locking <- gets k_pr_locking;;
  when (truth locking) (acquire L_pr);;
  vprintf fmt ap;;
  when (truth locking) (release L_pr);;
  ret 0.

End Printf.

Definition printfinit : M unit :=
  initlock L_pr "pr";;
  modify (set_k_pr_locking 1).

(** *** What is printed *)

(** [ds] is the numeral of [x] in [base], least significant digit first. *)
Fixpoint value (base : Z) (ds : list Z) : Z :=
  match ds with
  | [] => 0
  | d :: ds' => d + base * value base ds'
  end.

Definition numeral (base x : Z) (ds : list Z) : Prop :=
  value base ds = x /\ Forall (fun d => 0 <= d < base) ds /\ ds <> [] /\ (last ds = Some 0 -> ds = [0]).

Definition digit (d : Z) : Z := default 0 (lookupZ digits d).

(** The magnitude that [printint] converts. *)
Definition magnitude (sign : bool) (xx : Z) : Z := if sign && (xx <? 0) then - xx else u64 xx.
Definition sign_chars (sign : bool) (xx : Z) : list Z := if sign && (xx <? 0) then [ch "-"] else [].

(** [out] is the text of [xx] in [base], with a sign if [sign]. *)
Definition num_text (base : Z) (sign : bool) (xx : Z) (out : list Z) : Prop :=
  exists ds, numeral base (magnitude sign xx) ds /\ out = sign_chars sign xx ++ rev (digit <$> ds).

(** Conversion specifications: [DNum l c] is [%] with [l] letters [l] and the
    conversion [c] of the following three. *)
Inductive conv := Conv_d | Conv_u | Conv_x.
Inductive directive :=
| DLit (c : Z)
| DPercent
| DNum (l : nat) (c : conv)
| DPtr
| DStr.

Definition conv_char (c : conv) : Z :=
  match c with Conv_d => ch "d" | Conv_u => ch "u" | Conv_x => ch "x" end.
Definition conv_base (c : conv) : Z := match c with Conv_x => 16 | _ => 10 end.
Definition conv_sign (c : conv) : bool := match c with Conv_d => true | _ => false end.

(** The text of a specification in a format string. *)
Definition unparse (d : directive) : list Z :=
  match d with
  | DLit c => [c]
  | DPercent => [ch "%"; ch "%"]
  | DNum l c => ch "%" :: replicate l (ch "l") ++ [conv_char c]
  | DPtr => [ch "%"; ch "p"]
  | DStr => [ch "%"; ch "s"]
  end.

Definition int_arg (l : nat) (v : Z) : Z := if (l =? 0)%nat then i32 v else i64 v.

(** The arguments [ap] are of the types of the specifications, their numbers
    fit [printint]'s buffer, and they are printed as [out]. *)
Inductive renders : list directive -> list vararg -> list Z -> Prop :=
| renders_nil ap : renders [] ap []
| renders_lit c ds ap out : c <> ch "%" -> 0 <= c < 256 -> renders ds ap out -> renders (DLit c :: ds) ap (c :: out)
| renders_percent ds ap out : renders ds ap out -> renders (DPercent :: ds) ap (ch "%" :: out)
| renders_num l c v ds ap txt out :
    (l <= 2)%nat -> num_text (conv_base c) (conv_sign c) (int_arg l v) txt ->
    lenZ txt <= 16 -> renders ds ap out -> renders (DNum l c :: ds) (VInt v :: ap) (txt ++ out)
| renders_ptr v hs ds ap out :
    value 16 hs = u64 v -> Forall (fun d => 0 <= d < 16) hs -> lenZ hs = 16 -> renders ds ap out ->
    renders (DPtr :: ds) (VInt v :: ap) ([ch "0"; ch "x"] ++ rev (digit <$> hs) ++ out)
| renders_str s ds ap out :
    Forall (fun c => 0 <= c < 256) (default (chars "(null)") s) -> renders ds ap out ->
    renders (DStr :: ds) (VStr s :: ap) (default (chars "(null)") s ++ out).

(** What has been sent to the transmit register, oldest first. *)
Definition sent (io : list mmio_event) : list Z :=
  omap (fun e => match e with MWrite a v => if a =? Reg THR then Some v else None | _ => None end) (rev io).

(** The UART comes to accept a character within [mmio_polls] reads. *)
Definition uart_ready {IO : Mmio} : Prop := forall h, exists n, (n < mmio_polls)%nat /\
  Z.land (u8 (mmio_read (replicate n (MRead (Reg LSR)) ++ h) (Reg LSR))) LSR_TX_IDLE <> 0.

(** ** Lemmas *)

(** *** Numerals *)

Lemma value_nonneg base ds : 0 <= base -> Forall (fun d => 0 <= d < base) ds -> 0 <= value base ds.
Proof. intros Hb. induction 1; simpl; [done|nia]. Qed.

Lemma value_bound base ds : 2 <= base -> Forall (fun d => 0 <= d < base) ds -> value base ds < base ^ lenZ ds.
Proof.
  intros Hb. induction 1 as [|d ds Hd _ IH]; [done|]. rewrite lenZ_cons, Z.pow_add_r, Z.pow_1_r by (pose proof (lenZ_nonneg ds); lia).
  cbn [value]. nia.
Qed.

(** The steps of a numeral are those of the division loop. *)
Lemma numeral_step base x d ds : 2 <= base -> numeral base x (d :: ds) ->
  x mod base = d /\ 0 <= d < base /\ x / base = value base ds /\ (ds = [] \/ (numeral base (x / base) ds /\ x / base <> 0)).
Proof.
  intros Hb (Hv & Hd & _ & Hl). apply Forall_cons in Hd as [Hd Hds]. cbn [value] in Hv.
  pose proof (value_nonneg base ds ltac:(lia) Hds) as H0.
  assert (Eq : x / base = value base ds) by (symmetry; apply (Z.div_unique _ _ _ d); lia).
  assert (Er : x mod base = d) by (symmetry; apply (Z.mod_unique _ _ (value base ds)); lia).
  repeat (split; [done|]). destruct ds as [|e ds]; [by left|right].
  assert (Hlast : last (e :: ds) <> Some 0) by (intros E; discriminate (Hl E)).
  split; [split; [done|]; split; [done|]; split; [done|]; by intros E|].
  rewrite Eq. clear -Hb Hds Hlast. intros H. revert e Hds Hlast H. induction ds as [|f ds IH]; intros e Hds Hlast H.
  - cbn in H, Hlast. apply Hlast. f_equal. lia.
  - apply Forall_cons in Hds as [He Hds]. pose proof (value_nonneg base (f :: ds) ltac:(lia) Hds).
    change (e + base * value base (f :: ds) = 0) in H. apply (IH f Hds Hlast). nia.
Qed.

Lemma digits_lookup d : 0 <= d < 16 -> lookupZ digits d = Some (digit d).
Proof. intros H. destruct (lookupZ_is_Some digits d H) as [c Hc]. unfold digit. by rewrite Hc. Qed.

(** The loop stores the digits, or runs over the end of the buffer. *)
Lemma put_digits_ok fuel size base ds : 2 <= base <= 16 -> forall x buf s, numeral base x ds -> (length ds <= fuel)%nat ->
  lenZ buf <= size ->
  put_digits fuel size x base buf s =
    if lenZ buf + lenZ ds <=? size then Ok (buf ++ (digit <$> ds)) s else Fail (UB "buf overflow").
Proof.
  intros Hb. revert fuel. induction ds as [|d ds IH]; intros [|fuel] x buf s Hn Hf Hsz; try (by destruct Hn as (_ & _ & ? & _)).
  { simpl in Hf. lia. }
  destruct (numeral_step base x d ds ltac:(lia) Hn) as (Em & Hd & Eq & Hds). cbn [put_digits]. rewrite Em.
  erewrite bind_ok by (apply deref_ok, digits_lookup; lia). rewrite lenZ_cons. pose proof (lenZ_nonneg ds).
  destruct (Z.leb_spec size (lenZ buf)); [destruct (Z.leb_spec (lenZ buf + (1 + lenZ ds)) size); [lia|done]|].
  destruct Hds as [->|[Hnum Hnz]].
  - rewrite Eq. change (lenZ (@nil Z)) with 0. destruct (Z.leb_spec (lenZ buf + (1 + 0)) size); [done|lia].
  - destruct (Z.eqb_spec (x / base) 0); [done|]. cbn zeta. rewrite (IH fuel) by (try done; simpl in Hf; rewrite ?lenZ_app; change (lenZ [digit d]) with 1; lia).
    rewrite lenZ_app. change (lenZ [digit d]) with 1. rewrite <- Z.add_assoc. rewrite <- app_assoc. done.
Qed.

Lemma value_lower base ds : 2 <= base -> Forall (fun d => 0 <= d < base) ds -> ds <> [] -> last ds <> Some 0 ->
  base ^ (lenZ ds - 1) <= value base ds.
Proof.
  intros Hb Hds _ Hl. revert Hl. induction Hds as [|d ds Hd Hds IH]; intros Hl.
  - change (base ^ (-1) <= 0). by rewrite Z.pow_neg_r.
  - pose proof (lenZ_nonneg ds). rewrite lenZ_cons. replace (1 + lenZ ds - 1) with (lenZ ds) by lia. cbn [value].
    destruct ds as [|e ds]; [assert (d <> 0) by (intros ->; by apply Hl); change (base ^ 0 <= d + base * 0); lia|].
    specialize (IH Hl). rewrite lenZ_cons in *. pose proof (lenZ_nonneg ds).
    replace (1 + lenZ ds) with (1 + (1 + lenZ ds - 1)) by lia. rewrite Z.pow_add_r, Z.pow_1_r by lia. nia.
Qed.

Lemma numeral_len base x ds k : 2 <= base -> numeral base x ds -> x < base ^ k -> 1 <= k -> lenZ ds <= k.
Proof.
  intros Hb (Hv & Hd & Hn & Hl) Hx Hk. destruct (decide (last ds = Some 0)) as [E|E]; [by rewrite (Hl E)|].
  pose proof (value_lower base ds Hb Hd Hn E) as Hlow. pose proof (lenZ_nonneg ds). apply Z.nlt_ge. intros Hlen.
  assert (base ^ k <= base ^ (lenZ ds - 1)); [|lia]. apply Z.pow_le_mono_r; lia.
Qed.

(** [digits_fuel] is enough for 64-bit numbers. *)
Lemma numeral_length base x ds : 2 <= base -> numeral base x ds -> x < 2 ^ 64 -> (length ds <= digits_fuel)%nat.
Proof.
  intros Hb Hn Hx. pose proof (Z.pow_le_mono_l 2 base 64 ltac:(lia)).
  pose proof (numeral_len base x ds 64 Hb Hn ltac:(lia) ltac:(lia)). unfold lenZ, digits_fuel in *. lia.
Qed.

Lemma magnitude_range sign xx : - 2 ^ 63 <= xx < 2 ^ 63 -> 0 <= magnitude sign xx < 2 ^ 64.
Proof.
  intros H. unfold magnitude. destruct sign; simpl; [destruct (Z.ltb_spec xx 0); [lia|]|]; apply u64_range.
Qed.

Lemma lenZ_sign sign xx : lenZ (sign_chars sign xx) <= if sign then 1 else 0.
Proof. unfold sign_chars. destruct sign; [|done]. simpl. by destruct (xx <? 0). Qed.

Lemma printint_buf_ok base sign xx ds s : 2 <= base <= 16 -> - 2 ^ 63 <= xx < 2 ^ 63 -> numeral base (magnitude sign xx) ds ->
  printint_buf 16 xx base sign s =
    if lenZ ds + lenZ (sign_chars sign xx) <=? 16 then Ok ((digit <$> ds) ++ sign_chars sign xx) s else Fail (UB "buf overflow").
Proof.
  intros Hb Hx Hn. pose proof (magnitude_range sign xx Hx) as Hm. unfold printint_buf.
  pose proof (numeral_length base _ ds ltac:(lia) Hn ltac:(lia)) as Hlen.
  pose proof (put_digits_ok digits_fuel 16 base ds Hb _ [] s Hn Hlen ltac:(done)) as HP.
  change (lenZ (@nil Z)) with 0 in HP. rewrite Z.add_0_l in HP. unfold magnitude, sign_chars in *.
  destruct (sign && (xx <? 0)) eqn:E.
  - apply andb_true_iff in E as [-> E%Z.ltb_lt]. rewrite (u64_small (- xx)) by lia. change (lenZ [ch "-"]) with 1.
    destruct (Z.leb_spec (lenZ ds) 16).
    + rewrite (bind_ok _ _ _ _ _ HP). cbn [app]. rewrite lenZ_fmap.
      destruct (Z.leb_spec 16 (lenZ ds)), (Z.leb_spec (lenZ ds + 1) 16); try lia; done.
    + rewrite (bind_fail _ _ _ _ HP). destruct (Z.leb_spec (lenZ ds + 1) 16); [lia|done].
  - change (lenZ (@nil Z)) with 0. rewrite Z.add_0_r, app_nil_r. destruct (Z.leb_spec (lenZ ds) 16).
    + rewrite (bind_ok _ _ _ _ _ HP). done.
    + by rewrite (bind_fail _ _ _ _ HP).
Qed.

(** *** Output *)

Lemma sent_app io io' : sent (io' ++ io) = sent io ++ sent io'.
Proof. unfold sent. by rewrite rev_app_distr, omap_app. Qed.

Lemma sent_cons e io : sent (e :: io) = sent io ++ sent [e].
Proof. exact (sent_app io [e]). Qed.

Lemma sent_reads n a : sent (replicate n (MRead a)) = [].
Proof. induction n as [|n IH]; [done|]. cbn [replicate]. by rewrite sent_cons, IH. Qed.

(** From [s] to [s'] only [out] has been printed. *)
Definition prints (out : list Z) (s s' : kstate) : Prop :=
  exists io, s' = set_k_mmio io s /\ sent io = sent (k_mmio s) ++ out.

Lemma prints_nil s : prints [] s s.
Proof. exists (k_mmio s). rewrite app_nil_r. by destruct s. Qed.

Lemma prints_app out1 out2 s s1 s2 : prints out1 s s1 -> prints out2 s1 s2 -> prints (out1 ++ out2) s s2.
Proof. intros (io1 & -> & E1) (io2 & -> & E2). exists io2. split; [done|]. cbn [k_mmio set_k_mmio] in E2. by rewrite E2, E1, app_assoc. Qed.

Lemma prints_settled out s s' : prints out s s' -> settled s -> settled s'.
Proof. by intros (io & -> & _). Qed.

Lemma prints_panicked out s s' : prints out s s' -> k_panicked s' = k_panicked s.
Proof. by intros (io & -> & _). Qed.

Section Output.
Context {IO : Mmio} (Hready : uart_ready).

(** One poll of the line status register. *)
Lemma poll_step s :
  let r := u8 (mmio_read (k_mmio s) (Reg LSR)) in
  (r <- ReadReg LSR;; ret (if Z.land r LSR_TX_IDLE =? 0 then inl tt else inr tt : unit + unit)) s =
  Ok (if Z.land r LSR_TX_IDLE =? 0 then inl tt else inr tt) (set_k_mmio (MRead (Reg LSR) :: k_mmio s) s).
Proof. reflexivity. Qed.

Lemma poll_ok n : forall fuel s, (n < fuel)%nat ->
  Z.land (u8 (mmio_read (replicate n (MRead (Reg LSR)) ++ k_mmio s) (Reg LSR))) LSR_TX_IDLE <> 0 ->
  exists m, loop fuel (fun _ : unit => r <- ReadReg LSR;; ret (if Z.land r LSR_TX_IDLE =? 0 then inl tt else inr tt)) tt s =
    Ok tt (set_k_mmio (replicate m (MRead (Reg LSR)) ++ k_mmio s) s).
Proof.
  induction n as [|n IH]; intros [|fuel] s Hf Hr; try lia; pose proof (poll_step s) as HP; cbn zeta in HP;
    destruct (Z.eqb_spec (Z.land (u8 (mmio_read (k_mmio s) (Reg LSR))) LSR_TX_IDLE) 0) as [E|E]; [done| | |].
  - exists 1%nat. by apply loop_stop.
  - destruct (IH fuel (set_k_mmio (MRead (Reg LSR) :: k_mmio s) s)) as [m Hm]; [lia| |].
    + cbn [k_mmio set_k_mmio]. rewrite replicate_S_end, <- app_assoc in Hr. exact Hr.
    + exists (S m). rewrite replicate_S_end, <- app_assoc. etransitivity; [by apply loop_next|exact Hm].
  - exists 1%nat. by apply loop_stop.
Qed.

Lemma uartputc_sync_ok c s : settled s -> k_panicked s = 0 -> 0 <= c < 256 ->
  exists s', uartputc_sync c s = Ok tt s' /\ prints [c] s s'.
Proof.
  intros Hs Hp Hc. destruct (Hready (k_mmio s)) as (n & Hn & Hr). destruct (poll_ok n mmio_polls (push_st s) Hn Hr) as [m Hm].
  unfold uartputc_sync. erewrite bind_ok by (by apply settled_push_off). rewrite bind_gets.
  change (k_panicked (push_st s)) with (k_panicked s). rewrite Hp. cbn [truth Z.eqb negb].
  erewrite bind_ok by exact Hm. unfold WriteReg, mmio_wr. rewrite bind_modify.
  set (io := MWrite (Reg THR) (u8 c) :: replicate m (MRead (Reg LSR)) ++ k_mmio s).
  exists (set_k_mmio io s). split; [apply (pop_off_push (set_k_mmio io s)); done|].
  exists io. split; [done|]. unfold io. rewrite sent_cons, sent_app, sent_reads, app_nil_r, u8_small by done. done.
Qed.

Lemma consputc_ok c s : settled s -> k_panicked s = 0 -> 0 <= c < 256 -> exists s', consputc c s = Ok tt s' /\ prints [c] s s'.
Proof.
  intros Hs Hp Hc. unfold consputc. destruct (Z.eqb_spec c BACKSPACE) as [->|]; [unfold BACKSPACE in Hc; lia|].
  by apply uartputc_sync_ok.
Qed.

Lemma consputs_ok out : forall s, settled s -> k_panicked s = 0 -> Forall (fun c => 0 <= c < 256) out ->
  exists s', consputs out s = Ok tt s' /\ prints out s s'.
Proof.
  induction out as [|c out IH]; intros s Hs Hp Hout; [exists s; split; [done|apply prints_nil]|].
  apply Forall_cons in Hout as [Hc Hout]. destruct (consputc_ok c s Hs Hp Hc) as (s1 & E1 & P1).
  destruct (IH s1) as (s2 & E2 & P2); [by eapply prints_settled|by rewrite (prints_panicked _ _ _ P1)|done|].
  exists s2. cbn [consputs]. erewrite bind_ok by exact E1. split; [exact E2|]. apply (prints_app [c] out s s1 s2 P1 P2).
Qed.

Lemma digit_char d : 0 <= d < 16 -> 0 <= digit d < 256.
Proof.
  intros H. assert (E : forallb (fun d => (0 <=? digit d) && (digit d <? 256)) (rangeZ 0 16) = true) by reflexivity.
  rewrite forallb_forall in E. specialize (E d). rewrite <- list_elem_of_In, elem_of_rangeZ in E.
  destruct (andb_prop _ _ (E ltac:(lia))). lia.
Qed.

Lemma digit_chars ds : Forall (fun d => 0 <= d < 16) ds -> Forall (fun c => 0 <= c < 256) (rev (digit <$> ds)).
Proof.
  intros H. apply Forall_rev. apply Forall_fmap. eapply Forall_impl; [exact H|]. intros d. apply digit_char.
Qed.

Lemma printint_ok base sign xx txt s : settled s -> k_panicked s = 0 -> 2 <= base <= 16 -> - 2 ^ 63 <= xx < 2 ^ 63 ->
  num_text base sign xx txt -> lenZ txt <= 16 -> exists s', printint xx base sign s = Ok tt s' /\ prints txt s s'.
Proof.
  intros Hs Hp Hb Hx (ds & Hn & ->) Hl. unfold printint.
  assert (El : lenZ (sign_chars sign xx ++ rev (digit <$> ds)) = lenZ ds + lenZ (sign_chars sign xx)).
  { unfold lenZ. rewrite length_app, length_rev, length_fmap. lia. }
  erewrite bind_ok; [|rewrite (printint_buf_ok base sign xx ds s Hb Hx Hn); destruct (Z.leb_spec (lenZ ds + lenZ (sign_chars sign xx)) 16); [reflexivity|lia]].
  rewrite rev_app_distr. assert (Es : rev (sign_chars sign xx) = sign_chars sign xx) by (unfold sign_chars; by destruct (_ && _)).
  rewrite Es. apply consputs_ok; [done|done|]. apply Forall_app. split.
  - unfold sign_chars. destruct (_ && _); [|done]. apply Forall_singleton. by compute.
  - apply digit_chars. eapply Forall_impl; [apply Hn|]. simpl. lia.
Qed.

Lemma value_snoc base ds d : value base (ds ++ [d]) = value base ds + base ^ lenZ ds * d.
Proof.
  induction ds as [|e ds IH]; [change (base ^ lenZ (@nil Z)) with 1; cbn [app value]; lia|]. rewrite lenZ_cons, Z.pow_add_r, Z.pow_1_r by (pose proof (lenZ_nonneg ds); lia).
  cbn [app value]. rewrite IH. nia.
Qed.

Lemma printptr_loop_ok hs : forall x s, settled s -> k_panicked s = 0 -> Forall (fun d => 0 <= d < 16) hs -> lenZ hs <= 16 ->
  x = value 16 hs * 16 ^ (16 - lenZ hs) ->
  exists s', printptr_loop (length hs) x s = Ok tt s' /\ prints (rev (digit <$> hs)) s s'.
Proof.
  induction hs as [|d hs IH] using rev_ind; intros x s Hs Hp Hds Hl Hx; [exists s; split; [done|apply prints_nil]|].
  apply Forall_app in Hds as [Hhs Hd]. apply Forall_cons in Hd as [Hd _]. rewrite lenZ_app in *. change (lenZ [d]) with 1 in *.
  pose proof (lenZ_nonneg hs). pose proof (value_bound 16 hs ltac:(lia) Hhs). pose proof (value_nonneg 16 hs ltac:(lia) Hhs).
  rewrite value_snoc in Hx. set (w := 16 ^ (16 - (lenZ hs + 1))) in *.
  assert (Hw : 16 ^ lenZ hs * w = 2 ^ 60).
  { unfold w. rewrite <- Z.pow_add_r by lia. replace (lenZ hs + (16 - (lenZ hs + 1))) with 15 by lia. done. }
  assert (Hw0 : 0 < w) by (apply Z.pow_pos_nonneg; lia).
  assert (Er : 0 <= value 16 hs * w < 2 ^ 60).
  { rewrite <- Hw. split; [nia|]. apply Z.mul_lt_mono_pos_r; lia. }
  assert (Ex0 : x = 2 ^ 60 * d + value 16 hs * w) by (rewrite <- Hw; lia).
  assert (Ed : Z.shiftr x 60 = d) by (rewrite Z.shiftr_div_pow2 by lia; symmetry; apply (Z.div_unique _ _ _ (value 16 hs * w)); lia).
  assert (Ex : u64 (Z.shiftl x 4) = value 16 hs * 16 ^ (16 - lenZ hs)).
  { replace (16 - lenZ hs) with (1 + (16 - (lenZ hs + 1))) by lia. rewrite Z.pow_add_r by lia. fold w.
    unfold u64. rewrite Z.shiftl_mul_pow2 by lia. symmetry. apply (Z.mod_unique _ _ d); lia. }
  rewrite length_app, Nat.add_1_r. cbn [printptr_loop]. rewrite Ed.
  rewrite (bind_ok _ _ _ (digit d) s) by (apply deref_ok, digits_lookup, Hd).
  destruct (consputc_ok (digit d) s Hs Hp (digit_char d Hd)) as (s1 & E1 & P1). erewrite bind_ok by exact E1.
  destruct (IH _ s1 (prints_settled _ _ _ P1 Hs) ltac:(by rewrite (prints_panicked _ _ _ P1)) Hhs ltac:(lia) Ex) as (s2 & E2 & P2).
  exists s2. split; [exact E2|]. rewrite fmap_app, rev_app_distr. exact (prints_app _ _ _ _ _ P1 P2).
Qed.

Lemma printptr_ok v hs s : settled s -> k_panicked s = 0 -> value 16 hs = u64 v -> Forall (fun d => 0 <= d < 16) hs -> lenZ hs = 16 ->
  exists s', printptr (u64 v) s = Ok tt s' /\ prints ([ch "0"; ch "x"] ++ rev (digit <$> hs)) s s'.
Proof.
  intros Hs Hp Hv Hhs Hl. unfold printptr.
  destruct (consputs_ok [ch "0"; ch "x"] s Hs Hp) as (s2 & E & P).
  { repeat constructor; by compute. }
  destruct (printptr_loop_ok hs (u64 v) s2) as (s3 & E3 & P3);
    [by eapply prints_settled|by rewrite (prints_panicked _ _ _ P)|done|lia|rewrite Hl, Hv; change (16 ^ (16 - 16)) with 1; lia|].
  exists s3. split; [|exact (prints_app _ _ _ _ _ P P3)]. assert (En : length hs = 16%nat) by (unfold lenZ in Hl; lia).
  rewrite En in E3. cbn [consputs] in E. apply bind_ok_inv in E as (? & s1 & E1 & E). rewrite (bind_ok _ _ _ _ _ E1).
  apply bind_ok_inv in E as (? & s1' & E2 & [= <-]). by rewrite (bind_ok _ _ _ _ _ E2).
Qed.

(** The tests of the format character. *)
Ltac chars_test := repeat match goal with
  | |- context [ch ?a =? ch ?b] => let r := eval vm_compute in (ch a =? ch b) in change (ch a =? ch b) with r
  end; cbn [negb].

(** A part of the output and what follows. *)
Lemma prints_then {A} (m : M unit) (k : M A) out1 out2 a s :
  settled s -> k_panicked s = 0 ->
  (exists s', m s = Ok tt s' /\ prints out1 s s') ->
  (forall s', settled s' -> k_panicked s' = 0 -> exists s2, k s' = Ok a s2 /\ prints out2 s' s2) ->
  exists s2, (m;; k) s = Ok a s2 /\ prints (out1 ++ out2) s s2.
Proof.
  intros Hs Hp (s1 & E1 & P1) Hk. destruct (Hk s1) as (s2 & E2 & P2); [by eapply prints_settled|by rewrite (prints_panicked _ _ _ P1)|].
  exists s2. erewrite bind_ok by exact E1. split; [exact E2|]. exact (prints_app _ _ _ _ _ P1 P2).
Qed.

Lemma vprintf_ok ds ap out : renders ds ap out -> forall s, settled s -> k_panicked s = 0 ->
  exists s', vprintf (flat_map unparse ds) ap s = Ok tt s' /\ prints out s s'.
Proof.
  induction 1 as [ap|c ds ap out Hc Hr _ IH|ds ap out _ IH|l c v ds ap txt out Hl Ht Hlen _ IH|v hs ds ap out Hv Hhs Hlen _ IH|str ds ap out Hstr _ IH];
    intros s Hs Hp; cbn [flat_map unparse app].
  - exists s. split; [done|apply prints_nil].
  - cbn [vprintf]. destruct (Z.eqb_spec c (ch "%")); [done|]. cbn [negb].
    apply (prints_then _ _ [c] out tt s Hs Hp); [by apply consputc_ok|done].
  - cbn [vprintf]. chars_test. apply (prints_then _ _ [ch "%"] out tt s Hs Hp); [|done]. apply consputc_ok; [done..|by compute].
  - assert (Hx : - 2 ^ 63 <= int_arg l v < 2 ^ 63).
    { unfold int_arg. destruct (l =? 0)%nat; [pose proof (i32_range v); lia|apply i64_range]. }
    assert (Hb : 2 <= conv_base c <= 16) by (destruct c; simpl; lia).
    assert (Hk : exists s', (printint (int_arg l v) (conv_base c) (conv_sign c);; vprintf (flat_map unparse ds) ap) s = Ok tt s' /\
      prints (txt ++ out) s s') by (apply prints_then; [done|done|by apply printint_ok|done]).
    destruct l as [|[|[|l]]]; [| | |lia]; destruct c; cbn [replicate app vprintf conv_char]; chars_test; exact Hk.
  - cbn [vprintf]. chars_test. cbn [va_u64]. rewrite bind_ret. cbn [fst snd].
    apply (prints_then _ _ ([ch "0"; ch "x"] ++ rev (digit <$> hs)) out); [done|done| |done]. replace (u64 (i64 v)) with (u64 v) by (by rewrite u64_i64). by apply printptr_ok.
  - cbn [vprintf]. chars_test. cbn [va_str]. rewrite bind_ret. cbn [fst snd]. apply prints_then; [done|done| |done]. by apply consputs_ok.
Qed.

End Output.

Lemma printf_ok {IO : Mmio} ds ap out s :
  uart_ready -> settled s -> k_panicked s = 0 -> lock_free L_pr s -> renders ds ap out ->
  exists io, printf (flat_map unparse ds) ap s = Ok 0 (set_k_mmio io s) /\ sent io = sent (k_mmio s) ++ out.
Proof.
  intros Hready Hs Hp Hl Hr. unfold printf. rewrite bind_gets. destruct (truth (k_pr_locking s)); cbn [when].
  - erewrite bind_ok by (by apply acquire_ok).
    destruct (vprintf_ok Hready ds ap out Hr (acq L_pr s)) as (s1 & E1 & io & -> & E); [by apply settled_acq|done|].
    erewrite bind_ok by exact E1. exists io. split; [|exact E].
    rewrite (bind_ok _ _ _ tt (set_k_mmio io s)); [done|]. by apply (release_acq L_pr (set_k_mmio io s)).
  - rewrite bind_ret. destruct (vprintf_ok Hready ds ap out Hr s Hs Hp) as (s1 & E1 & io & -> & E).
    erewrite bind_ok by exact E1. exists io. done.
Qed.

(** ** The theorems *)

(** C27: a call of [printf] whose arguments agree with its format does not go
    wrong.  The format is any sequence of ordinary characters and of the
    conversions [%d], [%u], [%x] with up to two [l], [%p], [%s] and [%%]; the
    arguments are of the types these ask for, and each number fits the buffer
    of [printint].  Then, with the UART accepting characters, [printf]
    returns 0 having sent exactly the rendered text: the other characters as
    they are, numbers as their numerals in the base of the conversion without
    leading zeros, pointers as 16 hexadecimal digits, null strings as
    [(null)].  The lock is free again, and nothing else has changed. *)
Theorem printf_prints {IO : Mmio} ds ap out s :
  uart_ready -> settled s -> k_panicked s = 0 -> lock_free L_pr s -> renders ds ap out ->
  exists io, printf (flat_map unparse ds) ap s = Ok 0 (set_k_mmio io s) /\ sent io = sent (k_mmio s) ++ out.
Proof. apply printf_ok. Qed.

(** C40: the buffer of [printint] and the numbers that overflow it.
    [printint] stores exactly the digits of the number and its sign when they
    are at most the 16 bytes of [buf], and writes past the end of [buf]
    otherwise.  [%d] and hexadecimal conversions always fit; an unsigned
    decimal conversion of a number with the top bit set does not, so that
    [%u] of a negative [int], which is sign extended to 64 bits, always
    overflows. *)
Theorem printint_overflow xx base sign ds s :
  base = 10 \/ base = 16 -> - 2 ^ 63 <= xx < 2 ^ 63 -> numeral base (magnitude sign xx) ds ->
  printint_buf 16 xx base sign s =
    (if lenZ ds + lenZ (sign_chars sign xx) <=? 16 then Ok ((digit <$> ds) ++ sign_chars sign xx) s
     else Fail (UB "buf overflow")) /\
  ((base = 16 /\ sign = false) \/ (- 2 ^ 31 <= xx < 2 ^ 31 /\ sign = true) -> lenZ ds + lenZ (sign_chars sign xx) <= 16) /\
  (base = 10 -> xx < 0 -> sign = false -> 16 < lenZ ds).
Proof.
  intros Hbase Hx Hn. pose proof (magnitude_range sign xx Hx) as Hm. split; [|split].
  - apply printint_buf_ok; [lia|done|done].
  - intros [[-> ->]|[Hr ->]].
    + assert (E : 16 ^ 16 = 2 ^ 64) by reflexivity.
      pose proof (numeral_len 16 _ ds 16 ltac:(lia) Hn ltac:(rewrite E; lia) ltac:(lia)). pose proof (lenZ_sign false xx). simpl in *. lia.
    + assert (Hk : magnitude true xx < 10 ^ 10).
      { unfold magnitude in *. simpl in *. destruct (Z.ltb_spec xx 0); [lia|]. rewrite u64_small; lia. }
      pose proof (Z.pow_le_mono_l 10 base 10 ltac:(lia)). pose proof (lenZ_sign true xx).
      pose proof (numeral_len base _ ds 10 ltac:(lia) Hn ltac:(lia) ltac:(lia)). simpl in *. lia.
  - intros -> Hneg ->. destruct Hn as (Hv & Hd & _). pose proof (value_bound 10 ds ltac:(lia) Hd) as Hlt.
    unfold magnitude in Hv. simpl in Hv. assert (u64 xx = xx + 2 ^ 64) by (symmetry; apply (Z.mod_unique _ _ (-1)); lia).
    apply Z.nle_gt. intros Hle. assert (10 ^ lenZ ds <= 10 ^ 16) by (apply Z.pow_le_mono_r; lia). lia.
Qed.

(** *** Witnesses *)

Definition ready_uart : Mmio := {| mmio_read := fun _ _ => 0xff; mmio_polls := 1 |}.

Lemma printf_prints_witness : exists io,
  @printf ready_uart (chars "pid %d: %s%%") [VInt 42; VStr None] zero_kstate = Ok 0 (set_k_mmio io zero_kstate) /\
  sent io = chars "pid 42: (null)%".
Proof.
  set (ds := (DLit <$> chars "pid ") ++ [DNum 0 Conv_d] ++ (DLit <$> chars ": ") ++ [DStr; DPercent]).
  assert (Ef : flat_map unparse ds = chars "pid %d: %s%%") by reflexivity. rewrite <- Ef. clear Ef.
  change (chars "pid 42: (null)%") with (sent (k_mmio zero_kstate) ++ chars "pid 42: (null)%").
  apply (@printf_prints ready_uart).
  - intros h. exists 0%nat. split; [simpl; lia|by compute].
  - exact (zero_settled 0 ltac:(lia)).
  - reflexivity.
  - apply zero_lock_free. reflexivity.
  - repeat (apply renders_lit; [by compute|by compute|]).
    apply (renders_num 0 Conv_d 42 _ _ (chars "42")); [lia| |by compute|].
    + exists [2; 4]. split; [|reflexivity]. split; [reflexivity|]. split; [repeat constructor; lia|]. done.
    + repeat (apply renders_lit; [by compute|by compute|]). apply (renders_str None); [repeat constructor; by compute|].
      apply renders_percent, renders_nil.
Defined.

(** [printf("%u", -1)]. *)
Lemma printint_overflow_witness : printint_buf 16 (-1) 10 false zero_kstate = Fail (UB "buf overflow").
Proof.
  destruct (printint_overflow (-1) 10 false [5; 1; 6; 1; 5; 5; 9; 0; 7; 3; 7; 0; 4; 4; 7; 6; 4; 4; 8; 1] zero_kstate) as (E & _ & H).
  - by left.
  - lia.
  - split; [reflexivity|]. split; [repeat constructor; lia|]. done.
  - rewrite E. destruct (Z.leb_spec (lenZ [5; 1; 6; 1; 5; 5; 9; 0; 7; 3; 7; 0; 4; 4; 7; 6; 4; 4; 8; 1] + lenZ (sign_chars false (-1))) 16); [|done].
    specialize (H eq_refl ltac:(lia) eq_refl). change (lenZ (sign_chars false (-1))) with 0 in *. lia.
Defined.
