(* ===== verification/UartTx.v ===== *)
(** * Output on the serial line

    The driver of [kernel/uart.c] is a queue: what [uartputc] is called with
    is sent to the device in order, by [uartputc] itself or by a later
    interrupt, and a caller that finds the buffer full sleeps until there is
    room. *)

From S2P Require Import Prelude Circ Riscv State Spinlock Sched Uart Printf.

(** ** Specification *)

Definition tx_len (u : uartst) : Z := clen (2 ^ 64) (uart_tx_r u) (uart_tx_w u).

(** The characters that wait in the buffer, oldest first. *)
Definition tx_queue (u : uartst) : list Z := cqueue UART_TX_BUF_SIZE (2 ^ 64) (uart_tx_buf u) (uart_tx_r u) (uart_tx_w u).

Record uart_wf (u : uartst) : Prop := {
  uw_buf : lenZ (uart_tx_buf u) = UART_TX_BUF_SIZE;
  uw_bytes : Forall (fun b => 0 <= b < 256) (uart_tx_buf u);
  uw_r : 0 <= uart_tx_r u < 2 ^ 64;
  uw_w : 0 <= uart_tx_w u < 2 ^ 64;
  uw_len : tx_len u <= UART_TX_BUF_SIZE;
}.

Definition tx_put (c : Z) (u : uartst) : uartst :=
  set_uart_tx_w (u64 (uart_tx_w u + 1)) (set_uart_tx_buf (insertZ (uart_tx_w u mod UART_TX_BUF_SIZE) (u8 c) (uart_tx_buf u)) u).
Definition tx_get (u : uartst) : uartst := set_uart_tx_r (u64 (uart_tx_r u + 1)) u.

(** The device is ready for a character after the accesses [io]. *)
Definition tx_idle {IO : Mmio} (io : list mmio_event) : bool := negb (Z.land (u8 (mmio_read io (Reg LSR))) LSR_TX_IDLE =? 0).

(** From [s] to [s'] the characters [out] were sent, the first ones of [q], and
    the rest of [q] is left in the buffer [u']; processes that sleep may have
    been woken. *)
Record sends (out q : list Z) (u' : uartst) (s s' : kstate) : Prop := {
  se_state : exists io ps, s' = set_k_proc ps (set_k_uart u' (set_k_mmio io s)) /\ woken_by (cur s) (k_proc s) ps;
  se_sent : sent (k_mmio s') = sent (k_mmio s) ++ out;
  se_queue : q = out ++ tx_queue u';
  se_wf : uart_wf u';
}.

(** ** The buffer *)

Lemma tx_size : 0 < UART_TX_BUF_SIZE /\ UART_TX_BUF_SIZE < 2 ^ 64 /\ (UART_TX_BUF_SIZE | 2 ^ 64).
Proof. split_and!; [done|done|by exists (2 ^ 59)]. Qed.

Lemma tx_queue_put c u : uart_wf u -> tx_len u < UART_TX_BUF_SIZE -> tx_queue (tx_put c u) = tx_queue u ++ [u8 c] /\ uart_wf (tx_put c u).
Proof.
  intros [Hb Hy Hr Hw Hl] Hlt. split; [by apply (cqueue_put UART_TX_BUF_SIZE (2 ^ 64)); try apply tx_size|].
  split; cbn; [by rewrite lenZ_insertZ| |done|apply u64_range|].
  - unfold insertZ. destruct (_ <? 0); [done|]. apply Forall_insert; [done|unfold u8; apply Z.mod_pos_bound; lia].
  - assert (E : tx_len (tx_put c u) = tx_len u + 1) by (by apply (clen_put UART_TX_BUF_SIZE (2 ^ 64)); try apply tx_size). lia.
Qed.

Lemma tx_queue_get u : uart_wf u -> 0 < tx_len u -> exists c, lookupZ (uart_tx_buf u) (uart_tx_r u mod UART_TX_BUF_SIZE) = Some c /\ 0 <= c < 256 /\
  tx_queue u = c :: tx_queue (tx_get u) /\ uart_wf (tx_get u) /\ tx_len (tx_get u) = tx_len u - 1.
Proof.
  intros [Hb Hy Hr Hw Hl] Hlt. assert (E : tx_len (tx_get u) = tx_len u - 1) by (by apply (clen_get UART_TX_BUF_SIZE (2 ^ 64)); try apply tx_size).
  assert (Hc := cbyte_lookup UART_TX_BUF_SIZE ltac:(done) (uart_tx_buf u) (uart_tx_r u) Hb). eexists. split; [exact Hc|]. split.
  - unfold lookupZ in Hc. destruct (_ <? 0); [done|]. exact (Forall_lookup_1 _ _ _ _ Hy Hc).
  - split; [by apply (cqueue_get UART_TX_BUF_SIZE (2 ^ 64)); try apply tx_size|]. split; [|done]. split; cbn; [done|done|apply u64_range|done|lia].
Qed.

Lemma tx_full u : uart_wf u -> (uart_tx_w u =? u64 (uart_tx_r u + UART_TX_BUF_SIZE)) = (tx_len u =? UART_TX_BUF_SIZE).
Proof. intros [_ _ Hr Hw _]. by apply (clen_full UART_TX_BUF_SIZE (2 ^ 64)); try apply tx_size. Qed.

Lemma tx_empty u : uart_wf u -> (uart_tx_w u =? uart_tx_r u) = (tx_len u =? 0).
Proof. intros [_ _ Hr Hw _]. by apply (clen_empty UART_TX_BUF_SIZE (2 ^ 64)); try apply tx_size. Qed.

(** ** Sending *)

(** A CPU in the kernel, with the locks of all processes free. *)
Definition quiet (s : kstate) : Prop := settled s /\ proc_locks_free s.

Lemma quiet_ext s s' : k_tp s' = k_tp s -> k_harts s' = k_harts s -> k_cpus s' = k_cpus s -> k_locks s' = k_locks s -> lenZ (k_proc s') = lenZ (k_proc s) -> quiet s -> quiet s'.
Proof. intros E1 E2 E3 E4 E5. unfold quiet, settled, proc_locks_free, lock_free. by rewrite E1, E2, E3, E4, E5. Qed.

Lemma wakeup_quiet ch lk s : quiet s -> (forall i, lk <> L_proc i) -> wakeup ch (acq lk s) = Ok tt (acq lk (set_k_proc (map_from (woken ch (cur s)) 0 (k_proc s)) s)).
Proof.
  intros [Hs [Hl Hf]] Hlk. rewrite wakeup_ok; [|by apply settled_acq|].
  - autorewrite with acq. by rewrite cur_acq.
  - split; [exact Hl|]. intros i Hi. apply lock_free_acq; [apply Hlk|by apply Hf].
Qed.

Lemma sends_nil u s : k_uart s = u -> uart_wf u -> sends [] (tx_queue u) u s s.
Proof. intros <- H. split; [|by rewrite app_nil_r|done|done]. exists (k_mmio s), (k_proc s). split; [by destruct s|reflexivity]. Qed.

Lemma sends_trans out1 out2 q u1 u2 s s1 s2 : sends out1 q u1 s s1 -> sends out2 (tx_queue u1) u2 s1 s2 -> sends (out1 ++ out2) q u2 s s2.
Proof.
  intros [(io & ps & -> & W) S1 Q1 _] [(io' & ps' & -> & W') S2 Q2 F]. split; [|by rewrite S2, S1, app_assoc|by rewrite Q1, Q2, app_assoc|done].
  exists io', ps'. split; [done|]. by transitivity ps.
Qed.

Section Start.
Context {IO : Mmio}.

(** A read of a status register sends nothing. *)
Lemma sends_read u s a : k_uart s = u -> uart_wf u -> sends [] (tx_queue u) u s (set_k_mmio (MRead a :: k_mmio s) s).
Proof. intros <- H. split; [|cbn [k_mmio set_k_mmio]; by rewrite sent_cons|done|done]. exists (MRead a :: k_mmio s), (k_proc s). split; [by destruct s|reflexivity]. Qed.

Lemma run_ReadReg reg s : ReadReg reg s = Ok (u8 (mmio_read (k_mmio s) (Reg reg))) (set_k_mmio (MRead (Reg reg) :: k_mmio s) s).
Proof. reflexivity. Qed.

(** One turn of the loop. *)
Lemma uartstart_idle u s : quiet s -> k_uart s = u -> uart_wf u -> 0 < tx_len u -> tx_idle (k_mmio s) = true ->
  exists c s', uartstart_body tt (acq L_uart_tx s) = Ok (inl tt) (acq L_uart_tx s') /\ sends [c] (tx_queue u) (tx_get u) s s'.
Proof.
  intros Hq Hu Hwf Hlt Hid. destruct (tx_queue_get u Hwf Hlt) as (c & Hc & Hcr & Hqu & Hwf' & _). unfold tx_idle in Hid. apply negb_true_iff in Hid.
  set (s1 := set_k_uart (tx_get u) (set_k_mmio (MRead (Reg LSR) :: k_mmio s) s)). set (ps := map_from (woken (Some C_uart_tx_r) (cur s1)) 0 (k_proc s1)).
  exists c, (set_k_mmio (MWrite (Reg THR) c :: k_mmio s1) (set_k_proc ps s1)). split.
  - unfold uartstart_body, get_uart. rewrite bind_gets. autorewrite with acq. rewrite Hu, tx_empty by done. destruct (Z.eqb_spec (tx_len u) 0) as [|_]; [lia|].
    rewrite (bind_ok _ _ _ _ _ (run_ReadReg _ _)). autorewrite with acq. rewrite Hid, bind_gets. autorewrite with acq. change (k_uart (set_k_mmio _ s)) with (k_uart s). rewrite Hu.
    erewrite bind_ok by (by apply deref_ok). unfold put_uart. rewrite bind_modify. autorewrite with acq.
    rewrite (bind_ok _ _ _ _ _ (wakeup_quiet _ L_uart_tx s1 (quiet_ext s s1 eq_refl eq_refl eq_refl eq_refl eq_refl Hq) ltac:(done))). unfold WriteReg, mmio_wr. rewrite bind_modify. autorewrite with acq. rewrite u8_small by done. reflexivity.
  - split; [| |done|done].
    + exists (MWrite (Reg THR) c :: MRead (Reg LSR) :: k_mmio s), ps. split; [reflexivity|]. apply woken_by_woken.
    + cbn [k_mmio set_k_mmio set_k_proc set_k_uart s1]. rewrite sent_cons, (sent_cons (MRead _)). cbn [sent rev app omap list_omap]. rewrite Z.eqb_refl, app_nil_r. done.
Qed.

(** [uartstart] sends the characters in order, until there is none left or the
    device is busy. *)
Lemma uartstart_ok n : forall fuel u s, (n < fuel)%nat -> tx_len u = Z.of_nat n -> quiet s -> k_uart s = u -> uart_wf u ->
  exists out u' s', loop fuel uartstart_body tt (acq L_uart_tx s) = Ok tt (acq L_uart_tx s') /\ sends out (tx_queue u) u' s s' /\
    (tx_queue u' = [] \/ exists io, k_mmio s' = MRead (Reg LSR) :: io /\ tx_idle io = false).
Proof.
  induction n as [|n IH]; intros [|fuel] u s Hf Hn Hq Hu Hwf; try lia.
  - exists [], u, (set_k_mmio (MRead (Reg ISR) :: k_mmio s) s). split; [|split; [by apply sends_read|left]].
    + apply loop_stop. unfold uartstart_body, get_uart. rewrite bind_gets. autorewrite with acq. rewrite Hu, tx_empty by done. rewrite Hn. change (Z.of_nat 0 =? 0) with true. cbv iota.
      by rewrite (bind_ok _ _ _ _ _ (run_ReadReg _ _)).
    + unfold tx_queue, cqueue. unfold tx_len in Hn. by rewrite Hn.
  - destruct (tx_idle (k_mmio s)) eqn:Hid.
    + destruct (uartstart_idle u s Hq Hu Hwf ltac:(lia) Hid) as (c & s1 & E1 & S1). destruct (tx_queue_get u Hwf ltac:(lia)) as (_ & _ & _ & _ & _ & El).
      pose proof (se_state _ _ _ _ _ S1) as (io & ps & Es & W). destruct (IH fuel (tx_get u) s1) as (out & u' & s' & E & S' & D); [lia|lia| |by rewrite Es|apply S1|].
      { rewrite Es. apply (quiet_ext s); try done. cbn. apply W. }
      exists (c :: out), u', s'. split; [by rewrite (loop_next _ _ _ _ _ _ E1)|]. split; [exact (sends_trans [c] out _ _ _ _ _ _ S1 S')|exact D].
    + exists [], u, (set_k_mmio (MRead (Reg LSR) :: k_mmio s) s). split; [|split; [by apply sends_read|right; by exists (k_mmio s)]].
      apply loop_stop. unfold uartstart_body, get_uart. rewrite bind_gets. autorewrite with acq. rewrite Hu, tx_empty by done. destruct (Z.eqb_spec (tx_len u) 0) as [|_]; [lia|].
      rewrite (bind_ok _ _ _ _ _ (run_ReadReg _ _)). autorewrite with acq. unfold tx_idle in Hid. apply negb_false_iff in Hid. by rewrite Hid.
Qed.

Lemma sends_quiet out q u' s s' : sends out q u' s s' -> quiet s -> quiet s'.
Proof. intros [(io & ps & -> & W) _ _ _]. apply quiet_ext; try done. cbn. apply W. Qed.

(** The transmit half of [uartintr]. *)
Lemma uart_flush u s : quiet s -> lock_free L_uart_tx s -> k_uart s = u -> uart_wf u ->
  exists out u' s', (acquire L_uart_tx;; uartstart;; release L_uart_tx) s = Ok tt s' /\ sends out (tx_queue u) u' s s' /\
    (tx_queue u' = [] \/ exists io, k_mmio s' = MRead (Reg LSR) :: io /\ tx_idle io = false).
Proof.
  intros Hq Hl Hu Hwf. pose proof (uw_len _ Hwf) as Hlen. assert (Hr : 0 <= tx_len u) by (apply (clen_range UART_TX_BUF_SIZE); apply tx_size).
  destruct (uartstart_ok (Z.to_nat (tx_len u)) uartstart_fuel u s) as (out & u' & s' & E & S & D); [unfold uartstart_fuel; lia|lia|done..|].
  exists out, u', s'. split; [|done]. erewrite bind_ok by (apply acquire_ok; [apply Hq|done]). unfold uartstart. erewrite bind_ok by exact E.
  apply release_acq; [by apply (sends_quiet _ _ _ _ _ S)|]. by destruct S as [(io & ps & -> & _) _ _ _].
Qed.

(** The rest of [uartputc] when there is room. *)
Lemma uart_put_room c u s : quiet s -> lock_free L_uart_tx s -> k_uart s = u -> uart_wf u -> 0 <= c < 256 -> tx_len u < UART_TX_BUF_SIZE ->
  exists out u' s', (u <- get_uart;; put_uart (tx_put c u);; uartstart;; release L_uart_tx) (acq L_uart_tx s) = Ok tt s' /\ sends out (tx_queue u ++ [c]) u' s s' /\
    (tx_queue u' = [] \/ exists io, k_mmio s' = MRead (Reg LSR) :: io /\ tx_idle io = false).
Proof.
  intros Hq Hl Hu Hwf Hc Hroom. destruct (tx_queue_put c u Hwf Hroom) as [Eq Hwf']. rewrite u8_small in Eq by done. set (s1 := set_k_uart (tx_put c u) s).
  destruct (uart_flush (tx_put c u) s1) as (out & u' & s' & E & S & D); [exact Hq|exact Hl|done|done|]. rewrite Eq in S. exists out, u', s'. split; [|split; [|done]].
  - unfold get_uart. rewrite bind_gets. autorewrite with acq. rewrite Hu. unfold put_uart. rewrite bind_modify. autorewrite with acq. fold s1.
    erewrite bind_ok in E by (apply acquire_ok; [apply Hq|exact Hl]). exact E.
  - destruct S as [(io & ps & -> & W) S Q F]. split; [|exact S|exact Q|exact F]. exists io, ps. by split.
Qed.

End Start.

(** ** Waiting for room *)

(** Process [p] runs and may be resumed: no lock it needs is held, and the
    buffer is in order. *)
Definition tx_runs (en : bool) (p : Z) (s : kstate) : Prop :=
  quiet s /\ lock_free L_uart_tx s /\ outside en s /\ cur s = Some p /\ uart_wf (k_uart s).
Definition tx_room (s : kstate) : Prop := tx_len (k_uart s) < UART_TX_BUF_SIZE.
Definition tx_no_room (s : kstate) : Prop := tx_len (k_uart s) = UART_TX_BUF_SIZE.

(** [uartputc(c)] has returned: what waited in [s], and then [c], was sent or
    is left in the buffer, and it is left there only if the device was busy. *)
Definition tx_done {IO : Mmio} (c : Z) (s : kstate) (r : res unit) : Prop :=
  exists out u' s', r = Ok tt s' /\ sends out (tx_queue (k_uart s) ++ [c]) u' s s' /\
    (tx_queue u' = [] \/ exists io, k_mmio s' = MRead (Reg LSR) :: io /\ tx_idle io = false).

Section Put.
Context {IO : Mmio} {PT : Patience} (en : bool) (p c : Z).
Hypothesis Hc : 0 <= c < 256.

Let cond : M bool := u <- get_uart;; ret (uart_tx_w u =? u64 (uart_tx_r u + UART_TX_BUF_SIZE)).
Let rest : unit -> M unit := fun _ => u <- get_uart;; put_uart (tx_put c u);; uartstart;; release L_uart_tx.

Lemma uartputc_run s : tx_runs en p s -> k_panicked s = 0 ->
  uartputc c s = (x <- while_sleep cond C_uart_tx_r L_uart_tx;; rest x) (acq L_uart_tx s).
Proof using.
  intros ([Hs _] & Hl & _) Hpk. unfold uartputc. erewrite bind_ok by (by apply acquire_ok).
  rewrite bind_gets. autorewrite with acq. rewrite Hpk. reflexivity.
Qed.

Lemma tx_cond s : uart_wf (k_uart s) ->
  cond (acq L_uart_tx s) = Ok (tx_len (k_uart s) =? UART_TX_BUF_SIZE) (acq L_uart_tx s).
Proof using. intros Hw. unfold cond, get_uart. rewrite bind_gets. autorewrite with acq. by rewrite tx_full. Qed.

Lemma tx_rest s : tx_runs en p s -> tx_room s -> tx_done c s (rest tt (acq L_uart_tx s)).
Proof using Hc. intros (Hq & Hl & _ & _ & Hw) Hr. by apply uart_put_room. Qed.

Lemma tx_runs_set_chan s pr : tx_runs en p s ->
  tx_runs en p (set_k_proc (insertZ p (set_p_chan None pr) (k_proc s)) s).
Proof using.
  intros (Hq & Hl & Ho & Hcu & Hw). split; [|done]. apply (quiet_ext s); try done. apply lenZ_insertZ.
Qed.

Lemma uartputc_room s : tx_runs en p s -> k_panicked s = 0 -> tx_room s -> tx_done c s (uartputc c s).
Proof using Hc.
  intros Hr Hpk Hroom. rewrite uartputc_run by done. rewrite (bind_ok _ _ _ tt (acq L_uart_tx s)); [by apply tx_rest|].
  apply while_sleep_no. unfold tx_room in Hroom. rewrite tx_cond by apply Hr. by rewrite (proj2 (Z.eqb_neq _ _)) by lia.
Qed.

Lemma uartputc_waits s pr : tx_runs en p s -> lookupZ (k_proc s) p = Some pr -> k_panicked s = 0 -> tx_no_room s ->
  waits (pred patience) p C_uart_tx_r (tx_runs en p) tx_room tx_no_room (tx_done c) s (uartputc c s).
Proof using Hc.
  intros Hr Hp Hpk Hb. rewrite uartputc_run by done. apply while_sleep_waits with (en := en) (pr := pr); try done.
  - intros s2 ([_ Hf] & Hl & Ho & Hcu & _). pose proof (lookupZ_Some_range _ _ _ Hp) as Hp0.
    destruct Hr as ([_ [Hlen _]] & _). split; [done|]. split; [done|]. split; [apply Hf; lia|done].
  - intros s2 pr2 H2 _. by apply tx_runs_set_chan.
  - intros s2 H2 E. rewrite tx_cond by apply H2. by rewrite (proj2 (Z.eqb_eq _ _) E).
  - intros s2 H2 E. unfold tx_room in E. rewrite tx_cond by apply H2. by rewrite (proj2 (Z.eqb_neq _ _)) by lia.
  - intros s2 H2 E. by apply tx_rest.
Qed.

End Put.

(** ** Properties *)

(** C35: The serial line is a first-in first-out queue.  When the buffer has
    room, [uartputc(c)] returns; the characters it sent to the device,
    followed by those left in the buffer, are the ones that waited before,
    followed by [c]; and characters are left only if the device said that it
    was busy.  When the buffer is full, the caller goes to sleep on
    [uart_tx_r] with the buffer as it is.  Each time it is resumed it looks
    again: while the buffer is full it sleeps again, with nothing sent and
    the buffer as it is, and when there is room it goes on as above. *)
Theorem uart_output_fifo {IO : Mmio} {PT : Patience} en p pr s u c :
  quiet s -> lock_free L_uart_tx s -> outside en s -> cur s = Some p -> lookupZ (k_proc s) p = Some pr -> k_panicked s = 0 ->
  k_uart s = u -> uart_wf u -> 0 <= c < 256 -> (1 < patience)%nat ->
  (tx_len u < UART_TX_BUF_SIZE -> exists out u' s', uartputc c s = Ok tt s' /\ sends out (tx_queue u ++ [c]) u' s s' /\
    (tx_queue u' = [] \/ exists io, k_mmio s' = MRead (Reg LSR) :: io /\ tx_idle io = false)) /\
  (tx_len u = UART_TX_BUF_SIZE ->
    waits (pred patience) p C_uart_tx_r (tx_runs en p) tx_room tx_no_room (tx_done c) s (uartputc c s) /\
    exists k, uartputc c s = Swtch (acq (L_proc p) (set_k_proc (insertZ p (asleep C_uart_tx_r pr) (k_proc s)) s)) k /\
    forall s2 pr2 u2, quiet s2 -> lock_free L_uart_tx s2 -> outside en s2 -> cur s2 = Some p -> lookupZ (k_proc s2) p = Some pr2 ->
      k_uart s2 = u2 -> uart_wf u2 ->
      let s3 := set_k_proc (insertZ p (set_p_chan None pr2) (k_proc s2)) s2 in
      (tx_len u2 < UART_TX_BUF_SIZE -> exists out u' s', k (acq (L_proc p) s2) = Ok tt s' /\ sends out (tx_queue u2 ++ [c]) u' s3 s' /\
        (tx_queue u' = [] \/ exists io, k_mmio s' = MRead (Reg LSR) :: io /\ tx_idle io = false)) /\
      (tx_len u2 = UART_TX_BUF_SIZE -> exists s4 k4, k (acq (L_proc p) s2) = Swtch s4 k4 /\ k_uart s4 = u2 /\ k_mmio s4 = k_mmio s2)).
Proof.
  intros Hq Hl Ho Hcur Hpr Hpk <- Hwf Hc Hpat. assert (Hr : tx_runs en p s) by done.
  split; [intros Hroom; by apply (uartputc_room en p)|]. intros Hfull.
  pose proof (uartputc_waits en p c Hc s pr Hr Hpr Hpk Hfull) as Hw. split; [exact Hw|].
  destruct patience as [|[|n]]; [lia..|]. destruct Hw as (pr' & k & Hpr' & HE & Hk).
  assert (pr' = pr) as -> by congruence. exists k. split; [exact HE|].
  intros s2 pr2 u2 Hq2 Hl2 Ho2 Hcur2 Hpr2 <- Hw2. assert (Hr2 : tx_runs en p s2) by done.
  destruct (Hk s2 pr2 Hr2 Hpr2) as [Hroom Hno]. cbv zeta. split; [exact Hroom|]. intros Hb. specialize (Hno Hb).
  destruct n; destruct Hno as (pr4 & k4 & _ & HE4 & _); eexists _, _; (split; [exact HE4|done]).
Qed.

Lemma demo_uart_wf : uart_wf (k_uart demo_sched).
Proof. split; [reflexivity|apply Forall_replicate; lia|vm_compute; split; congruence|vm_compute; split; congruence|by vm_compute]. Qed.

(** The same with a full buffer. *)
Definition demo_full : kstate := set_k_uart (mkUart (replicate 32 0) 32 0) demo_sched.

Lemma demo_full_wf : tx_len (k_uart demo_full) = UART_TX_BUF_SIZE /\ uart_wf (k_uart demo_full).
Proof.
  split; [by vm_compute|].
  split; [reflexivity|apply Forall_replicate; lia|vm_compute; split; congruence|vm_compute; split; congruence|by vm_compute].
Qed.

Lemma demo_quiet : quiet demo_sched.
Proof. split; [exact (outside_settled _ _ demo_sched_outside)|exact (demo_locks demo_sched eq_refl eq_refl)]. Qed.

Lemma demo_uart_lock : lock_free L_uart_tx demo_sched.
Proof. exists "lock". vm_compute. reflexivity. Qed.

Lemma uart_output_fifo_witness :
  (exists out s', @uartputc ready_uart demo_patience 65 demo_sched = Ok tt s' /\ [65] = out ++ tx_queue (k_uart s')) /\
  exists s1 k, @uartputc ready_uart demo_patience 65 demo_full = Swtch s1 k.
Proof.
  split.
  - destruct (@uart_output_fifo ready_uart demo_patience true 5 zero_proc demo_sched (k_uart demo_sched) 65 demo_quiet demo_uart_lock
      demo_sched_outside eq_refl eq_refl eq_refl eq_refl demo_uart_wf ltac:(lia) ltac:(cbn; lia)) as [H _].
    destruct H as (out & u' & s' & E & [(io & ps & -> & _) _ Q _] & _); [by vm_compute|]. exists out. eexists. split; [exact E|exact Q].
  - destruct demo_full_wf as [Hfull Hwf].
    destruct (@uart_output_fifo ready_uart demo_patience true 5 zero_proc demo_full (k_uart demo_full) 65 demo_quiet demo_uart_lock
      demo_sched_outside eq_refl eq_refl eq_refl eq_refl Hwf ltac:(lia) ltac:(cbn; lia)) as [_ H].
    destruct (H Hfull) as [_ (k & E & _)]. eexists _, k. exact E.
Defined.
