(* ===== verification/Pipe.v ===== *)
(** * Pipes ([kernel/pipe.c])

    A [struct pipe] lives in a page from [kalloc]; it is kept apart from the
    byte memory, in [k_pipes], under the address of its page. *)

From S2P Require Import Prelude Circ Riscv State Spinlock Kalloc Vm Uvm Copy Sched UserMem.

(** ** Definitions *)

Definition PIPESIZE : Z := 512.

Section Pipe.
Context {KI : KernelImage}.

Definition pipeclose (pi writable : Z) : M unit :=
  acquire (L_pipe pi);;
  (if truth writable then
     p <- get_pipe pi;;
     put_pipe pi (set_pi_writeopen 0 p);;
     wakeup (Some (C_pipe_nread pi))
   else
     p <- get_pipe pi;;
     put_pipe pi (set_pi_readopen 0 p);;
     wakeup (Some (C_pipe_nwrite pi)));;
  p <- get_pipe pi;;
  if (pi_readopen p =? 0) && (pi_writeopen p =? 0) then
    release (L_pipe pi);;
    modify (fun s => set_k_pipes (delete pi (k_pipes s)) s);;
    kfree pi
  else release (L_pipe pi).

Section Patience.
Context {PT : Patience}.

(** One turn of the loop of [pipewrite], [i] bytes written: the next [i], or
    what leaves the loop: [inl tt] for the return of -1, [inr i] for the end. *)
Definition pipewrite_body (pi pr addr n i : Z) : M (Z + (unit + Z)) :=
  if i <? n then
    p <- get_pipe pi;;
    k <- (if pi_readopen p =? 0 then ret 1 else killed pr);;
    if truth k then
      release (L_pipe pi);;
      ret (inr (inl tt))
    else
      p <- get_pipe pi;;
      if pi_nwrite p =? u32 (pi_nread p + PIPESIZE) then
        wakeup (Some (C_pipe_nread pi));;
        sleep (C_pipe_nwrite pi) (L_pipe pi);;
        ret (inl i)
      else
        q <- get_proc pr;;
        r <- copyin (p_pagetable q) (u64 (addr + i)) 1;;
        if fst r =? -1 then ret (inr (inr i)) else
        c <- deref (lookupZ (snd r) 0);;
        p <- get_pipe pi;;
        put_pipe pi (set_pi_nwrite (u32 (pi_nwrite p + 1))
          (set_pi_data (insertZ (pi_nwrite p mod PIPESIZE) c (pi_data p)) p));;
        ret (inl (i + 1))
  else ret (inr (inr i)).

(** One turn per byte and per time asleep, and the turn that leaves. *)
Definition pipewrite_fuel (n : Z) : nat := S (Z.to_nat n) + patience.

Definition pipewrite (pi addr n : Z) : M Z :=
  pr <- curproc;;
  acquire (L_pipe pi);;
  r <- loop (pipewrite_fuel n) (pipewrite_body pi pr addr n) 0;;
  match r with
  | inl _ => ret (-1)
  | inr i =>
      wakeup (Some (C_pipe_nread pi));;
      release (L_pipe pi);;
      ret i
  end.

(** The waiting loop of [piperead]; [true] when the reader has been killed. *)
Definition piperead_wait (pi pr : Z) (_ : unit) : M (unit + bool) :=
  p <- get_pipe pi;;
  if (pi_nread p =? pi_nwrite p) && truth (pi_writeopen p) then
    k <- killed pr;;
    if truth k then
      release (L_pipe pi);;
      ret (inr true)
    else
      sleep (C_pipe_nread pi) (L_pipe pi);;
      ret (inl tt)
  else ret (inr false).

(** The copying loop: [Some i] when a [break] leaves it. *)
Definition piperead_body (pi pr addr i : Z) : M (option Z) :=
  p <- get_pipe pi;;
  if pi_nread p =? pi_nwrite p then ret (Some i) else
  c <- deref (lookupZ (pi_data p) (pi_nread p mod PIPESIZE));;
  put_pipe pi (set_pi_nread (u32 (pi_nread p + 1)) p);;
  q <- get_proc pr;;
  r <- copyout (p_pagetable q) (u64 (addr + i)) [c];;
  if r =? -1 then ret (Some i) else ret None.

Definition piperead (pi addr n : Z) : M Z :=
  pr <- curproc;;
  acquire (L_pipe pi);;
  dead <- loop patience (piperead_wait pi pr) tt;;
  if (dead : bool) then ret (-1) else
  r <- for_loop (Z.to_nat n) 0 (piperead_body pi pr addr);;
  wakeup (Some (C_pipe_nwrite pi));;
  release (L_pipe pi);;
  ret (default (Z.max 0 n) r).

End Patience.

End Pipe.

(** *** The queue in a pipe *)

Definition pipe_len (p : pipe) : Z := clen (2 ^ 32) (pi_nread p) (pi_nwrite p).
Definition pipe_byte (p : pipe) (k : Z) : Z := cbyte PIPESIZE (pi_data p) (pi_nread p) k.
Definition pipe_q (p : pipe) : list Z := cqueue PIPESIZE (2 ^ 32) (pi_data p) (pi_nread p) (pi_nwrite p).

Record pipe_wf (p : pipe) : Prop := {
  pw_data : lenZ (pi_data p) = PIPESIZE;
  pw_read : 0 <= pi_nread p < 2 ^ 32;
  pw_write : 0 <= pi_nwrite p < 2 ^ 32;
  pw_len : pipe_len p <= PIPESIZE;
  pw_bytes : Forall (fun b => 0 <= b < 256) (pi_data p);
}.

(** What [pipewrite] and [piperead] do to the pipe for one byte. *)
Definition pipe_put (c : Z) (p : pipe) : pipe :=
  set_pi_nwrite (u32 (pi_nwrite p + 1)) (set_pi_data (insertZ (pi_nwrite p mod PIPESIZE) c (pi_data p)) p).
Definition pipe_get (p : pipe) : pipe := set_pi_nread (u32 (pi_nread p + 1)) p.

(** ** The ring buffer *)

Lemma pipe_size : 0 < PIPESIZE /\ PIPESIZE < 2 ^ 32 /\ (PIPESIZE | 2 ^ 32).
Proof. split_and!; [done|done|by exists (2 ^ 23)]. Qed.

Lemma pipe_len_range p : 0 <= pipe_len p < 2 ^ 32.
Proof. apply u32_range. Qed.

Lemma lenZ_pipe_q p : lenZ (pipe_q p) = pipe_len p.
Proof. apply (lenZ_cqueue PIPESIZE (2 ^ 32)); apply pipe_size. Qed.

Lemma pipe_full p : pipe_wf p -> (pi_nwrite p =? u32 (pi_nread p + PIPESIZE)) = (pipe_len p =? PIPESIZE).
Proof. intros [_ Hr Hw _ _]. by apply (clen_full PIPESIZE (2 ^ 32)); try apply pipe_size. Qed.

Lemma pipe_empty p : pipe_wf p -> (pi_nread p =? pi_nwrite p) = (pipe_len p =? 0).
Proof. intros [_ Hr Hw _ _]. rewrite Z.eqb_sym. by apply (clen_empty PIPESIZE (2 ^ 32)); try apply pipe_size. Qed.

Lemma pipe_len_put c p : pipe_len p < PIPESIZE -> pipe_len (pipe_put c p) = pipe_len p + 1.
Proof. intros H. by apply (clen_put PIPESIZE (2 ^ 32)); try apply pipe_size. Qed.

Lemma pipe_len_get p : 0 < pipe_len p -> pipe_len (pipe_get p) = pipe_len p - 1.
Proof. intros H. by apply (clen_get PIPESIZE (2 ^ 32)); try apply pipe_size. Qed.

Lemma pipe_q_put c p : pipe_wf p -> pipe_len p < PIPESIZE -> pipe_q (pipe_put c p) = pipe_q p ++ [c].
Proof. intros Hwf Hlen. by apply (cqueue_put PIPESIZE (2 ^ 32)); try apply pipe_size; try apply Hwf. Qed.

Lemma pipe_q_get p : 0 < pipe_len p -> pipe_q p = pipe_byte p 0 :: pipe_q (pipe_get p).
Proof. intros Hlen. by apply (cqueue_get PIPESIZE (2 ^ 32)); try apply pipe_size. Qed.

Lemma pipe_wf_put c p : pipe_wf p -> pipe_len p < PIPESIZE -> 0 <= c < 256 -> pipe_wf (pipe_put c p).
Proof.
  intros Hwf Hlen Hc. pose proof (pipe_len_put c p Hlen). destruct Hwf as [H1 H2 H3 H4 H5]. split; simpl.
  - by rewrite lenZ_insertZ.
  - done.
  - apply u32_range.
  - lia.
  - unfold insertZ. destruct (_ <? 0); [done|]. by apply Forall_insert.
Qed.

Lemma pipe_wf_get p : pipe_wf p -> 0 < pipe_len p -> pipe_wf (pipe_get p).
Proof.
  intros Hwf Hlen. pose proof (pipe_len_get p Hlen). destruct Hwf as [H1 H2 H3 H4 H5]. split; simpl; try done.
  - apply u32_range.
  - lia.
Qed.

(** The byte that [piperead] takes. *)
Lemma pipe_head p : pipe_wf p -> lookupZ (pi_data p) (pi_nread p mod PIPESIZE) = Some (pipe_byte p 0) /\
  0 <= pipe_byte p 0 < 256.
Proof.
  intros Hwf. assert (Hb : lookupZ (pi_data p) (pi_nread p mod PIPESIZE) = Some (pipe_byte p 0)) by (apply cbyte_lookup; [apply pipe_size|apply Hwf]).
  split; [done|]. unfold lookupZ in Hb. destruct (_ <? 0); [done|]. exact (Forall_lookup_1 _ _ _ _ (pw_bytes _ Hwf) Hb).
Qed.

(** ** [pipewrite] and [piperead] *)

(** Process [pr] uses the pipe [pi], whose lock is free. *)
Record pipe_user {KI : KernelImage} (pi pr : Z) (q : proc) (l : list (Z * Z)) (p : pipe) (s : kstate) : Prop := {
  pu_thread : kthread pr s;
  pu_lock : lock_free (L_pipe pi) s;
  pu_proc : lookupZ (k_proc s) pr = Some q;
  pu_mem : umem (p_pagetable q) l s;
  pu_pipe : k_pipes s !! pi = Some p;
  pu_wf : pipe_wf p;
}.

Lemma killed_acq lk p pr s :
  kthread p s -> (forall i, lk <> L_proc i) -> lookupZ (k_proc s) p = Some pr ->
  killed p (acq lk s) = Ok (p_killed pr) (acq lk s).
Proof.
  intros Hk Hlk Hp. unfold killed. destruct (kthread_locks _ _ Hk) as [_ Hf].
  assert (Hl : lock_free (L_proc p) (acq lk s)) by (apply lock_free_acq; [apply Hlk|apply Hf, Hk]).
  assert (Hs : settled (acq lk s)) by apply settled_acq, Hk.
  erewrite bind_ok by (by apply acquire_ok).
  erewrite bind_ok by (apply run_get_proc; by autorewrite with acq).
  by erewrite bind_ok by (by apply release_acq).
Qed.

Section Run.
Context {KI : KernelImage}.
Context (pi pr : Z) (q : proc) (l : list (Z * Z)).

Lemma pipe_user_set p p' s :
  pipe_user pi pr q l p s -> pipe_wf p' ->
  pipe_user pi pr q l p' (set_k_pipes (<[pi := p']> (k_pipes s)) s).
Proof.
  intros [H1 H2 H3 H4 H5 H6] Hwf. split; try done.
  - by apply kthread_set_k_pipes.
  - eapply umem_same; [exact H4|done|done|]. by eapply kthread_kmem, kthread_set_k_pipes.
  - simpl. apply lookup_insert_eq.
Qed.

(** One byte of [pipewrite]: it is appended, or the loop ends at an address
    that cannot be read. *)
Lemma pipewrite_step {PT : Patience} p s addr n i :
  pipe_user pi pr q l p s -> truth (pi_readopen p) = true -> p_killed q = 0 -> pipe_len p < PIPESIZE ->
  0 <= addr -> 0 <= i < n -> addr + n <= 2 ^ 64 ->
  (exists x, uaddr l PTE_U (addr + i) = Some x /\
     pipewrite_body pi pr addr n i (acq (L_pipe pi) s) =
     Ok (inl (i + 1)) (acq (L_pipe pi) (set_k_pipes (<[pi := pipe_put (mget (k_mem s) x) p]> (k_pipes s)) s))) \/
  (uaddr l PTE_U (addr + i) = None /\
     pipewrite_body pi pr addr n i (acq (L_pipe pi) s) = Ok (inr (inr i)) (acq (L_pipe pi) s)).
Proof.
  intros Hu Ho Hk Hlen Ha Hi Hn. unfold pipewrite_body. destruct (Z.ltb_spec i n); [|lia].
  pose proof Hu as [H1 H2 H3 H4 H5 H6].
  erewrite bind_ok by (apply run_get_pipe; by autorewrite with acq).
  destruct (Z.eqb_spec (pi_readopen p) 0) as [E|_]; [by rewrite E in Ho|].
  erewrite bind_ok by (by apply (killed_acq _ _ q)). rewrite Hk. cbn [truth Z.eqb negb].
  erewrite bind_ok by (apply run_get_pipe; by autorewrite with acq).
  rewrite pipe_full by done. destruct (Z.eqb_spec (pipe_len p) PIPESIZE); [lia|].
  erewrite bind_ok by (apply run_get_proc; by autorewrite with acq).
  rewrite u64_small by lia.
  destruct (umem_copyin1 (p_pagetable q) l (acq (L_pipe pi) s) (addr + i)) as [(x & Hx & Hc)|[Hx [bs Hc]]];
    [by eapply umem_acq|lia| |].
  - left. exists x. split; [done|]. erewrite bind_ok by exact Hc. cbn [fst snd Z.eqb].
    erewrite bind_ok by (by apply deref_ok).
    erewrite bind_ok by (apply run_get_pipe; by autorewrite with acq).
    unfold put_pipe. rewrite bind_modify. autorewrite with acq. done.
  - right. split; [done|]. by erewrite bind_ok by exact Hc.
Qed.

(** The pipe with the queue [qu]; the ends are as in [p]. *)
Definition pipe_same (p p' : pipe) : Prop :=
  pipe_wf p' /\ pi_readopen p' = pi_readopen p /\ pi_writeopen p' = pi_writeopen p.

Definition with_pipe (p : pipe) (s : kstate) : kstate := set_k_pipes (<[pi := p]> (k_pipes s)) s.

Lemma with_pipe_id p s : k_pipes s !! pi = Some p -> with_pipe p s = s.
Proof. intros H. unfold with_pipe. rewrite insert_id by done. by destruct s. Qed.

Lemma with_pipe_pipe p p' s : with_pipe p' (with_pipe p s) = with_pipe p' s.
Proof. unfold with_pipe. simpl. rewrite insert_insert_eq. by destruct s. Qed.

Lemma with_pipe_mem p p' m m' s :
  set_k_mem m' (with_pipe p' (set_k_mem m (with_pipe p s))) = set_k_mem m' (with_pipe p' s).
Proof. unfold with_pipe. simpl. rewrite insert_insert_eq. by destruct s. Qed.

Lemma pipe_same_refl p s : pipe_user pi pr q l p s -> pipe_same p p.
Proof. intros H. split; [apply H|done]. Qed.

Lemma no_bytes m va : user_bytes l m va [].
Proof. intros i b Hi. by rewrite lookupZ_None in Hi by (change (lenZ []) with 0; lia). Qed.

Lemma user_bytes_cons m va x bs :
  uaddr l PTE_U va = Some x -> user_bytes l m (va + 1) bs -> user_bytes l m va (mget m x :: bs).
Proof.
  intros Hx Hb i b Hi. destruct (decide (i = 0)) as [->|Hne].
  - change (lookupZ (mget m x :: bs) 0) with (Some (mget m x)) in Hi. injection Hi as <-.
    exists x. by rewrite Z.add_0_r.
  - change (mget m x :: bs) with ([mget m x] ++ bs) in Hi. rewrite lookupZ_app in Hi.
    change (lenZ [mget m x]) with 1 in Hi. destruct (Z.ltb_spec i 1).
    + apply lookupZ_Some_range in Hi. change (lenZ [mget m x]) with 1 in Hi. lia.
    + destruct (Hb _ _ Hi) as (y & Hy & Hm). exists y. split; [|done]. rewrite <- Hy. f_equal. lia.
Qed.

Lemma pipewrite_loop {PT : Patience} addr n fuel : forall p s i,
  pipe_user pi pr q l p s -> truth (pi_readopen p) = true -> p_killed q = 0 ->
  0 <= addr -> 0 <= i <= n -> n - i <= PIPESIZE - pipe_len p -> addr + n <= 2 ^ 64 ->
  n - i < Z.of_nat fuel ->
  exists bs p', loop fuel (pipewrite_body pi pr addr n) i (acq (L_pipe pi) s) =
    Ok (inr (i + lenZ bs)) (acq (L_pipe pi) (with_pipe p' s)) /\
    pipe_same p p' /\ pipe_q p' = pipe_q p ++ bs /\ user_bytes l (k_mem s) (addr + i) bs /\
    (i + lenZ bs = n \/ i + lenZ bs < n /\ uaddr l PTE_U (addr + (i + lenZ bs)) = None).
Proof.
  induction fuel as [|fuel IH]; intros p s i Hu Ho Hk Ha Hi Hroom Hn Hf; [lia|]. cbn [loop].
  destruct (decide (i = n)) as [->|Hne].
  { exists [], p. rewrite with_pipe_id by apply Hu. change (lenZ []) with 0. rewrite Z.add_0_r, app_nil_r.
    split; [|split; [by eapply pipe_same_refl|]; split; [done|]; split; [apply no_bytes|by left]].
    erewrite bind_ok; last first. { unfold pipewrite_body. destruct (Z.ltb_spec n n); [lia|]. apply run_ret. } done. }
  destruct (pipewrite_step p s addr n i Hu Ho Hk ltac:(lia) Ha ltac:(lia) Hn) as [(x & Hx & HE)|[Hx HE]].
  - set (c := mget (k_mem s) x) in *. assert (0 <= c < 256) by apply mget_range.
    assert (Hu1 : pipe_user pi pr q l (pipe_put c p) (with_pipe (pipe_put c p) s)).
    { eapply pipe_user_set; [done|]. apply pipe_wf_put; [apply Hu|lia|done]. }
    destruct (IH (pipe_put c p) _ (i + 1) Hu1 Ho Hk Ha ltac:(lia)) as (bs & p' & HL & Hsame & Hq & Hub & Hend);
      [rewrite pipe_len_put by lia; lia|lia|lia|].
    exists (c :: bs), p'. rewrite lenZ_cons. replace (i + (1 + lenZ bs)) with (i + 1 + lenZ bs) by lia.
    rewrite with_pipe_pipe in HL. erewrite bind_ok by exact HE.
    split; [exact HL|]. split; [exact Hsame|]. split.
    { rewrite Hq, pipe_q_put by (apply Hu || lia). by rewrite <- app_assoc. }
    split; [|done]. apply user_bytes_cons; [done|]. by replace (addr + i + 1) with (addr + (i + 1)) by lia.
  - exists [], p. rewrite with_pipe_id by apply Hu. change (lenZ []) with 0. rewrite Z.add_0_r, app_nil_r.
    split; [by erewrite bind_ok by exact HE|]. split; [by eapply pipe_same_refl|]. split; [done|].
    split; [apply no_bytes|]. right. split; [lia|done].
Qed.

(** One byte of [piperead]; it is taken off the queue before it is copied. *)
Lemma piperead_step p s addr i :
  pipe_user pi pr q l p s -> 0 < pipe_len p -> 0 <= addr + i < 2 ^ 64 ->
  (exists m', piperead_body pi pr addr i (acq (L_pipe pi) s) =
     Ok None (acq (L_pipe pi) (set_k_mem m' (with_pipe (pipe_get p) s))) /\
     written l (addr + i) [pipe_byte p 0] (k_mem s) m' /\
     pipe_user pi pr q l (pipe_get p) (set_k_mem m' (with_pipe (pipe_get p) s))) \/
  (uaddr l (Z.lor PTE_U PTE_W) (addr + i) = None /\ exists m',
     piperead_body pi pr addr i (acq (L_pipe pi) s) =
     Ok (Some i) (acq (L_pipe pi) (set_k_mem m' (with_pipe (pipe_get p) s))) /\
     (forall x, mget m' x = mget (k_mem s) x) /\
     pipe_user pi pr q l (pipe_get p) (set_k_mem m' (with_pipe (pipe_get p) s))).
Proof.
  intros Hu Hlen Ha. pose proof Hu as [H1 H2 H3 H4 H5 H6]. destruct (pipe_head p H6) as [Hb Hr].
  assert (Hu1 : pipe_user pi pr q l (pipe_get p) (with_pipe (pipe_get p) s)).
  { eapply pipe_user_set; [done|]. by apply pipe_wf_get. }
  assert (Hmem : umem (p_pagetable q) l (acq (L_pipe pi) (with_pipe (pipe_get p) s))).
  { eapply umem_acq; [apply Hu1|done|apply Hu1]. }
  assert (Hfin : forall m', umem (p_pagetable q) l (set_k_mem m' (acq (L_pipe pi) (with_pipe (pipe_get p) s))) ->
    pipe_user pi pr q l (pipe_get p) (set_k_mem m' (with_pipe (pipe_get p) s))).
  { intros m' Hm. destruct Hu1 as [G1 G2 G3 G4 G5 G6]. split; try done; [by apply kthread_set_k_mem|].
    eapply umem_same; [exact Hm|done|done|]. by eapply kthread_kmem, kthread_set_k_mem. }
  assert (Hrun : forall r s', copyout (p_pagetable q) (addr + i) [pipe_byte p 0]
      (acq (L_pipe pi) (with_pipe (pipe_get p) s)) = Ok r s' ->
    piperead_body pi pr addr i (acq (L_pipe pi) s) = Ok (if r =? -1 then Some i else None) s').
  { intros r s' Hc. unfold piperead_body.
    erewrite bind_ok by (apply run_get_pipe; by autorewrite with acq).
    rewrite pipe_empty by done. destruct (Z.eqb_spec (pipe_len p) 0); [lia|].
    erewrite bind_ok by (by apply deref_ok). unfold put_pipe. rewrite bind_modify. autorewrite with acq.
    erewrite bind_ok by (apply run_get_proc; by autorewrite with acq).
    rewrite u64_small by lia. erewrite bind_ok by exact Hc. by destruct (r =? -1). }
  destruct (umem_copyout1 _ _ _ (addr + i) (pipe_byte p 0) Hmem Ha Hr)
    as [(x & m' & Hx & Hc & Hw & Hm)|(Hx & m' & Hc & Hsame & Hm)].
  - left. exists m'. split; [exact (Hrun _ _ Hc)|]. split; [exact Hw|]. by apply Hfin.
  - right. split; [done|]. exists m'. split; [exact (Hrun _ _ Hc)|]. split; [exact Hsame|]. by apply Hfin.
Qed.

(** What the copying loop of [piperead] has done when it ends with [r], from
    the pipe [p] to [p'], having stored the bytes [w]. *)
Definition read_end (addr n i : Z) (p p' : pipe) (w : list Z) (r : option Z) : Prop :=
  (r = None /\ lenZ w = n /\ pipe_q p = w ++ pipe_q p') \/
  (r = Some (i + lenZ w) /\ lenZ w < n /\
    (pipe_q p = w /\ pipe_q p' = [] \/
     uaddr l (Z.lor PTE_U PTE_W) (addr + (i + lenZ w)) = None /\ exists c, pipe_q p = w ++ c :: pipe_q p')).

Lemma pipe_q_nil p : pipe_len p = 0 -> pipe_q p = [].
Proof. intros H. unfold pipe_q, cqueue. unfold pipe_len in H. by rewrite H. Qed.

Lemma written_nil va m m' : (forall x, mget m' x = mget m x) -> written l va [] m m'.
Proof. intros H. split; [|by intros]. intros i b Hi. by rewrite lookupZ_None in Hi by (change (lenZ []) with 0; lia). Qed.

Lemma read_end_cons addr n i p p' w r :
  0 < pipe_len p -> read_end addr n (i + 1) (pipe_get p) p' w r ->
  read_end addr (n + 1) i p p' (pipe_byte p 0 :: w) r.
Proof.
  intros Hlen. unfold read_end. rewrite lenZ_cons, (pipe_q_get p Hlen).
  replace (i + (1 + lenZ w)) with (i + 1 + lenZ w) by lia.
  intros [(-> & Hl & ->)|(-> & Hl & [[-> Hn]|[Hx [c ->]]])]; [left|right|right].
  - split; [done|]. split; [lia|done].
  - split; [done|]. split; [lia|]. by left.
  - split; [done|]. split; [lia|]. right. split; [done|]. by exists c.
Qed.

Lemma piperead_loop addr n : forall p s i,
  pipe_user pi pr q l p s -> 0 <= addr -> 0 <= i -> addr + i + Z.of_nat n <= 2 ^ 64 ->
  exists w p' m' r, for_loop n i (piperead_body pi pr addr) (acq (L_pipe pi) s) =
    Ok r (acq (L_pipe pi) (set_k_mem m' (with_pipe p' s))) /\
    pipe_user pi pr q l p' (set_k_mem m' (with_pipe p' s)) /\ pipe_same p p' /\
    written l (addr + i) w (k_mem s) m' /\ read_end addr (Z.of_nat n) i p p' w r.
Proof.
  induction n as [|n IH]; intros p s i Hu Ha Hi Hn.
  { exists [], p, (k_mem s), None. rewrite with_pipe_id by apply Hu.
    replace (set_k_mem (k_mem s) s) with s by by destruct s.
    split; [done|]. split; [done|]. split; [by eapply pipe_same_refl|].
    split; [by apply written_nil|]. by left. }
  destruct (decide (pipe_len p = 0)) as [E|E].
  { exists [], p, (k_mem s), (Some i). rewrite with_pipe_id by apply Hu.
    replace (set_k_mem (k_mem s) s) with s by by destruct s. split.
    - apply for_loop_stop. unfold piperead_body.
      erewrite bind_ok by (apply run_get_pipe; autorewrite with acq; apply Hu).
      rewrite pipe_empty by apply Hu. by rewrite E.
    - split; [done|]. split; [by eapply pipe_same_refl|]. split; [by apply written_nil|].
      right. change (lenZ []) with 0. rewrite Z.add_0_r. split; [done|]. split; [lia|]. left.
      by rewrite pipe_q_nil. }
  pose proof (pipe_len_range p).
  destruct (piperead_step p s addr i Hu ltac:(lia) ltac:(lia)) as [(m1 & HE & Hw & Hu1)|(Hx & m1 & HE & Hm & Hu1)].
  - destruct (IH _ _ (i + 1) Hu1 ltac:(lia) ltac:(lia) ltac:(lia)) as (w & p' & m' & r & HL & Hu' & Hsame & Hw' & Hend).
    exists (pipe_byte p 0 :: w), p', m', r. rewrite with_pipe_mem in HL, Hu'.
    split; [by erewrite for_loop_next by exact HE|]. split; [exact Hu'|]. split; [exact Hsame|]. split.
    + destruct (pu_mem _ _ _ _ _ _ Hu) as [[fl Hus] _]. change (pipe_byte p 0 :: w) with ([pipe_byte p 0] ++ w).
      eapply (written_app _ _ _ _ _ _ _ _ _ _ Hus); [exact Hw|]. change (lenZ [pipe_byte p 0]) with 1.
      by replace (addr + i + 1) with (addr + (i + 1)) by lia.
    + replace (Z.of_nat (S n)) with (Z.of_nat n + 1) by lia. apply read_end_cons; [lia|exact Hend].
  - exists [], (pipe_get p), m1, (Some i). split; [by apply for_loop_stop|]. split; [exact Hu1|].
    split; [split; [apply Hu1|done]|]. split; [by apply written_nil|].
    right. change (lenZ []) with 0. rewrite Z.add_0_r. split; [done|]. split; [lia|]. right. split; [done|].
    exists (pipe_byte p 0). apply pipe_q_get. lia.
Qed.

End Run.

(** ** Properties *)

Section WritePipe.
Context {KI : KernelImage} {PT : Patience} (pi : Z) (pr : Z) (q : proc) (l : list (Z * Z)) (p : pipe) (s : kstate) (addr n : Z).
Hypotheses (Hu : pipe_user pi pr q l p s) (Ha : 0 <= addr) (Hn : 0 <= n) (Hsz : addr + n <= 2 ^ 64).

(** There is room. *)
Lemma pipewrite_room :
  truth (pi_readopen p) = true -> p_killed q = 0 -> n <= PIPESIZE - lenZ (pipe_q p) ->
  exists bs p', pipewrite pi addr n s = Ok (lenZ bs)
    (wake_st (Some (C_pipe_nread pi)) pr (set_k_pipes (<[pi := p']> (k_pipes s)) s)) /\
  pipe_same p p' /\ pipe_q p' = pipe_q p ++ bs /\ user_bytes l (k_mem s) addr bs /\
  (lenZ bs = n \/ lenZ bs < n /\ uaddr l PTE_U (addr + lenZ bs) = None).
Proof.
  rewrite lenZ_pipe_q. pose proof Hu as [H1 H2 H3 H4 H5 H6].
  assert (Hcur : curproc s = Ok pr s) by (apply run_curproc; apply H1).
  intros Ho Hk Hroom. pose proof patience_pos. unfold pipewrite.
  destruct (pipewrite_loop pi pr q l addr n (pipewrite_fuel n) p s 0 Hu Ho Hk Ha ltac:(lia) ltac:(lia) Hsz)
    as (bs & p' & HL & Hsame & Hq & Hub & Hend); [unfold pipewrite_fuel; lia|].
  rewrite ?Z.add_0_l, Z.add_0_r in *. exists bs, p'. split; [|done].
  assert (Hu' : pipe_user pi pr q l p' (with_pipe pi p' s)) by (eapply pipe_user_set; [done|apply Hsame]).
  erewrite bind_ok by exact Hcur. erewrite bind_ok by (apply acquire_ok; [apply H1|done]).
  erewrite bind_ok by exact HL. cbv iota.
  pose proof (pu_thread _ _ _ _ _ _ Hu') as Hk'.
  erewrite bind_ok by (apply (wakeup_acq _ _ pr); [exact Hk'|done]).
  erewrite bind_ok by (apply release_acq; [apply kthread_wake_st, Hk'|exact (pu_lock _ _ _ _ _ _ Hu')]).
  done.
Qed.

(** Nobody reads, or the writer has been killed. *)
Lemma pipewrite_dead :
  0 < n -> pi_readopen p = 0 \/ p_killed q = 1 -> pipewrite pi addr n s = Ok (-1) s.
Proof.
  pose proof Hu as [H1 H2 H3 H4 H5 H6].
  assert (Hcur : curproc s = Ok pr s) by (apply run_curproc; apply H1).
  intros Hpos Hdead. unfold pipewrite. erewrite bind_ok by exact Hcur.
  erewrite bind_ok by (apply acquire_ok; [apply H1|done]).
  rewrite (bind_ok _ _ _ (inl tt) s); [done|]. apply loop_stop. unfold pipewrite_body.
  destruct (Z.ltb_spec 0 n); [|lia]. erewrite bind_ok by (apply run_get_pipe; by autorewrite with acq).
  rewrite (bind_ok _ _ _ 1 (acq (L_pipe pi) s)).
  + cbn [truth Z.eqb negb]. erewrite bind_ok by (apply release_acq; [apply H1|done]). done.
  + destruct Hdead as [-> | Hd]; [done|]. destruct (pi_readopen p =? 0); [done|]. rewrite <- Hd.
    by apply killed_acq.
Qed.

(** The pipe is full. *)
Lemma pipewrite_full :
  forall en, 0 < n -> outside en s -> truth (pi_readopen p) = true -> p_killed q = 0 ->
  lenZ (pipe_q p) = PIPESIZE -> exists s1 k, pipewrite pi addr n s = Swtch s1 k /\
  k_pipes s1 = k_pipes s /\ lock_free (L_pipe pi) s1 /\
  exists q1, lookupZ (k_proc s1) pr = Some q1 /\ p_state q1 = SLEEPING /\ p_chan q1 = Some (C_pipe_nwrite pi).
Proof.
  rewrite lenZ_pipe_q. pose proof Hu as [H1 H2 H3 H4 H5 H6].
  assert (Hcur : curproc s = Ok pr s) by (apply run_curproc; apply H1).
  intros en Hpos Hout Ho Hk Hlen. unfold pipewrite.
  set (s0 := wake_st (Some (C_pipe_nread pi)) pr s).
  assert (Hk0 : kthread pr s0) by (by apply kthread_wake_st).
  assert (Hp0 : lookupZ (k_proc s0) pr = Some q).
  { unfold s0, wake_st. simpl. pose proof (woken_by_woken (Some (C_pipe_nread pi)) (Some pr) (k_proc s)) as Hw.
    rewrite (woken_by_cur _ _ _ Hw). done. }
  pose proof (lookupZ_Some_range _ _ _ Hp0).
  eexists _, _. split.
  + erewrite bind_ok by exact Hcur. erewrite bind_ok by (apply acquire_ok; [apply H1|done]).
    apply bind_swtch. unfold pipewrite_fuel. cbn [loop Nat.add]. apply bind_swtch. unfold pipewrite_body at 1.
    destruct (Z.ltb_spec 0 n); [|lia]. erewrite bind_ok by (apply run_get_pipe; by autorewrite with acq).
    destruct (Z.eqb_spec (pi_readopen p) 0) as [E|_]; [by rewrite E in Ho|].
    erewrite bind_ok by (by apply (killed_acq _ _ q)). rewrite Hk. cbn [truth Z.eqb negb].
    erewrite bind_ok by (apply run_get_pipe; by autorewrite with acq).
    rewrite pipe_full by done. rewrite Hlen, Z.eqb_refl.
    erewrite bind_ok by (apply (wakeup_acq _ _ pr); done). apply bind_swtch.
    apply (sleep_ok en _ _ s0 pr q); try done; [apply Hk0|by apply kthread_proc_free].
  + split; [done|]. split; [by apply lock_free_acq|].
    exists (asleep (C_pipe_nwrite pi) q). split; [|done]. simpl. by apply lookupZ_insertZ_eq.
Qed.

End WritePipe.

(** C32: [pipewrite] appends to the queue.  With a reader left, the caller not
    killed and room for [n] bytes, it returns without sleeping: the bytes it
    read from user memory, all [n] or those before the first address it could
    not read, are added in order at the end of the queue, the result is their
    number, memory is unchanged and the processes waiting to read are made
    runnable.  Without a reader, or when the caller has been killed, it
    returns -1 and changes nothing.  A full pipe puts the caller to sleep on
    [&pi->nwrite], having woken the readers, with the pipe lock free. *)
Theorem pipewrite_appends {KI : KernelImage} {PT : Patience} pi pr q l p s addr n :
  pipe_user pi pr q l p s -> 0 <= addr -> 0 <= n -> addr + n <= 2 ^ 64 ->
  (truth (pi_readopen p) = true -> p_killed q = 0 -> n <= PIPESIZE - lenZ (pipe_q p) ->
    exists bs p', pipewrite pi addr n s = Ok (lenZ bs)
      (wake_st (Some (C_pipe_nread pi)) pr (set_k_pipes (<[pi := p']> (k_pipes s)) s)) /\
    pipe_same p p' /\ pipe_q p' = pipe_q p ++ bs /\ user_bytes l (k_mem s) addr bs /\
    (lenZ bs = n \/ lenZ bs < n /\ uaddr l PTE_U (addr + lenZ bs) = None)) /\
  (0 < n -> pi_readopen p = 0 \/ p_killed q = 1 -> pipewrite pi addr n s = Ok (-1) s) /\
  (forall en, 0 < n -> outside en s -> truth (pi_readopen p) = true -> p_killed q = 0 ->
    lenZ (pipe_q p) = PIPESIZE -> exists s1 k, pipewrite pi addr n s = Swtch s1 k /\
    k_pipes s1 = k_pipes s /\ lock_free (L_pipe pi) s1 /\
    exists q1, lookupZ (k_proc s1) pr = Some q1 /\ p_state q1 = SLEEPING /\ p_chan q1 = Some (C_pipe_nwrite pi)).
Proof.
  intros Hu Ha Hn Hsz. split; [by eapply pipewrite_room|]. split; [by eapply pipewrite_dead|by eapply pipewrite_full].
Qed.

Section ReadPipe.
Context {KI : KernelImage} {PT : Patience} (pi : Z) (pr : Z) (q : proc) (l : list (Z * Z)) (p : pipe) (s : kstate) (addr n : Z).
Hypotheses (Hu : pipe_user pi pr q l p s) (Ha : 0 <= addr) (Hn : 0 <= n) (Hsz : addr + n <= 2 ^ 64).

(** The test of the loop that waits for data. *)
Lemma piperead_wait_test : piperead_wait pi pr tt (acq (L_pipe pi) s) =
  if (pipe_len p =? 0) && truth (pi_writeopen p) then
    (k <- killed pr;;
     if truth k then release (L_pipe pi);; ret (inr true)
     else sleep (C_pipe_nread pi) (L_pipe pi);; ret (inl tt)) (acq (L_pipe pi) s)
  else Ok (inr false) (acq (L_pipe pi) s).
Proof.
  pose proof Hu as [H1 H2 H3 H4 H5 H6]. unfold piperead_wait. erewrite bind_ok by (apply run_get_pipe; by autorewrite with acq).
  rewrite pipe_empty by done. by destruct (_ && _).
Qed.

Lemma piperead_wait_once r s' : piperead_wait pi pr tt (acq (L_pipe pi) s) = Ok (inr r) s' ->
  loop patience (piperead_wait pi pr) tt (acq (L_pipe pi) s) = Ok r s'.
Proof. intros HE. pose proof patience_pos. destruct patience as [|k]; [lia|]. by apply loop_stop. Qed.

(** There is data, or no writer. *)
Lemma piperead_data :
  pipe_q p <> [] \/ pi_writeopen p = 0 -> exists w p' m',
  piperead pi addr n s = Ok (lenZ w)
    (wake_st (Some (C_pipe_nwrite pi)) pr (set_k_mem m' (set_k_pipes (<[pi := p']> (k_pipes s)) s))) /\
  pipe_same p p' /\ written l addr w (k_mem s) m' /\
  (lenZ w = Z.min n (lenZ (pipe_q p)) /\ pipe_q p = w ++ pipe_q p' \/
   lenZ w < n /\ uaddr l (Z.lor PTE_U PTE_W) (addr + lenZ w) = None /\
     exists c, pipe_q p = w ++ c :: pipe_q p').
Proof.
  pose proof Hu as [H1 H2 H3 H4 H5 H6]. pose proof (lenZ_pipe_q p) as Hlen. pose proof piperead_wait_test as Hbody.
  assert (Hcur : curproc s = Ok pr s) by (apply run_curproc; apply H1).
  intros Hgo. unfold piperead. erewrite bind_ok by exact Hcur.
  erewrite bind_ok by (apply acquire_ok; [apply H1|done]).
  rewrite (bind_ok _ _ _ false (acq (L_pipe pi) s)); last first.
  { apply piperead_wait_once. rewrite Hbody. destruct Hgo as [Hne| ->]; [|by rewrite andb_false_r].
    destruct (Z.eqb_spec (pipe_len p) 0) as [E|]; [by apply pipe_q_nil in E|done]. }
  destruct (piperead_loop pi pr q l addr (Z.to_nat n) p s 0 Hu Ha ltac:(lia) ltac:(lia))
    as (w & p' & m' & r & HL & Hu' & Hsame & Hw & Hend).
  exists w, p', m'. rewrite Z.add_0_r in Hw. erewrite bind_ok by exact HL.
  pose proof (pu_thread _ _ _ _ _ _ Hu') as Hk'.
  erewrite bind_ok by (apply (wakeup_acq _ _ pr); [exact Hk'|done]).
  erewrite bind_ok by (apply release_acq; [apply kthread_wake_st, Hk'|exact (pu_lock _ _ _ _ _ _ Hu')]).
  unfold read_end in Hend. rewrite Z2Nat.id in Hend by lia. pose proof (lenZ_nonneg (pipe_q p')).
  destruct Hend as [(-> & Hl & Hq)|(-> & Hl & [[Hq Hq']|[Hx Hq]])].
  + simpl. replace (Z.max 0 n) with (lenZ w) by lia. split; [done|]. split; [done|]. split; [done|].
    left. split; [|done]. rewrite Hq, lenZ_app. lia.
  + rewrite Z.add_0_l. split; [done|]. split; [done|]. split; [done|]. left.
    rewrite Hq', app_nil_r, Hq. split; [lia|done].
  + rewrite Z.add_0_l in *. split; [done|]. split; [done|]. split; [done|]. right. done.
Qed.

(** The reader of an empty pipe has been killed. *)
Lemma piperead_dead :
  pipe_q p = [] -> truth (pi_writeopen p) = true -> p_killed q = 1 -> piperead pi addr n s = Ok (-1) s.
Proof.
  pose proof Hu as [H1 H2 H3 H4 H5 H6]. pose proof (lenZ_pipe_q p) as Hlen. pose proof piperead_wait_test as Hbody.
  assert (Hcur : curproc s = Ok pr s) by (apply run_curproc; apply H1).
  intros He Hw Hk. rewrite He in Hlen. change (lenZ []) with 0 in Hlen. unfold piperead.
  erewrite bind_ok by exact Hcur. erewrite bind_ok by (apply acquire_ok; [apply H1|done]).
  rewrite (bind_ok _ _ _ true s); [done|]. apply piperead_wait_once. rewrite Hbody, <- Hlen, Hw. cbn [Z.eqb andb].
  erewrite bind_ok by (by apply (killed_acq _ _ q)). rewrite Hk. cbn [truth Z.eqb negb].
  by erewrite bind_ok by (apply release_acq; [apply H1|done]).
Qed.

(** The pipe is empty. *)
Lemma piperead_empty :
  forall en, pipe_q p = [] -> truth (pi_writeopen p) = true -> p_killed q = 0 -> outside en s ->
  exists s1 k, piperead pi addr n s = Swtch s1 k /\ k_pipes s1 = k_pipes s /\ lock_free (L_pipe pi) s1 /\
  exists q1, lookupZ (k_proc s1) pr = Some q1 /\ p_state q1 = SLEEPING /\ p_chan q1 = Some (C_pipe_nread pi).
Proof.
  pose proof Hu as [H1 H2 H3 H4 H5 H6]. pose proof (lenZ_pipe_q p) as Hlen. pose proof piperead_wait_test as Hbody.
  assert (Hcur : curproc s = Ok pr s) by (apply run_curproc; apply H1).
  intros en He Hw Hk Hout. rewrite He in Hlen. change (lenZ []) with 0 in Hlen.
  pose proof (lookupZ_Some_range _ _ _ H3). pose proof patience_pos.
  destruct patience as [|k] eqn:Ep; [lia|]. eexists _, _. split.
  + unfold piperead. rewrite Ep. erewrite bind_ok by exact Hcur. erewrite bind_ok by (apply acquire_ok; [apply H1|done]).
    apply bind_swtch. cbn [loop]. apply bind_swtch. rewrite Hbody, <- Hlen, Hw. cbn [Z.eqb andb].
    erewrite bind_ok by (by apply (killed_acq _ _ q)). rewrite Hk. cbn [truth Z.eqb negb].
    apply bind_swtch. apply (sleep_ok en _ _ s pr q); try done; [apply H1|by eapply kthread_proc_free].
  + split; [done|]. split; [by apply lock_free_acq|].
    exists (asleep (C_pipe_nread pi) q). split; [|done]. simpl. by apply lookupZ_insertZ_eq.
Qed.

End ReadPipe.

(** C36: [piperead] takes from the front of the queue.  From a non-empty pipe, or
    one whose writer is gone, it returns without sleeping: the first bytes of
    the queue, [n] or all there are, are removed and written in order to user
    memory, the result is their number and the processes waiting to write are
    made runnable; at an address it may not write it stops, and the byte it
    has already removed is lost.  A killed process gets -1 from an empty pipe
    that still has a writer, and nothing changes; any other is put to sleep on
    [&pi->nread] with the pipe lock free. *)
Theorem piperead_takes {KI : KernelImage} {PT : Patience} pi pr q l p s addr n :
  pipe_user pi pr q l p s -> 0 <= addr -> 0 <= n -> addr + n <= 2 ^ 64 ->
  (pipe_q p <> [] \/ pi_writeopen p = 0 -> exists w p' m',
    piperead pi addr n s = Ok (lenZ w)
      (wake_st (Some (C_pipe_nwrite pi)) pr (set_k_mem m' (set_k_pipes (<[pi := p']> (k_pipes s)) s))) /\
    pipe_same p p' /\ written l addr w (k_mem s) m' /\
    (lenZ w = Z.min n (lenZ (pipe_q p)) /\ pipe_q p = w ++ pipe_q p' \/
     lenZ w < n /\ uaddr l (Z.lor PTE_U PTE_W) (addr + lenZ w) = None /\
       exists c, pipe_q p = w ++ c :: pipe_q p')) /\
  (pipe_q p = [] -> truth (pi_writeopen p) = true -> p_killed q = 1 -> piperead pi addr n s = Ok (-1) s) /\
  (forall en, pipe_q p = [] -> truth (pi_writeopen p) = true -> p_killed q = 0 -> outside en s ->
    exists s1 k, piperead pi addr n s = Swtch s1 k /\ k_pipes s1 = k_pipes s /\ lock_free (L_pipe pi) s1 /\
    exists q1, lookupZ (k_proc s1) pr = Some q1 /\ p_state q1 = SLEEPING /\ p_chan q1 = Some (C_pipe_nread pi)).
Proof.
  intros Hu Ha Hn Hsz. split; [by eapply piperead_data|]. split; [by eapply piperead_dead|by eapply piperead_empty].
Qed.

(** Witnesses: process 5 writes three bytes from its memory to a pipe that
    holds two, around the end of the buffer, and reads two. *)
Definition demo_pipe : pipe := mkPipe (replicate 512 7) 511 513 1 1.

Lemma demo_pipe_wf : pipe_wf demo_pipe.
Proof.
  split; [reflexivity|unfold demo_pipe; simpl; lia|unfold demo_pipe; simpl; lia|by vm_compute|].
  unfold demo_pipe. cbn [pi_data]. apply Forall_replicate. lia.
Qed.

Definition add_pipe (pi : Z) (p : pipe) (s : kstate) : kstate :=
  set_k_locks (<[L_pipe pi := mkSpinlock 0 "pipe" None]> (k_locks s)) (set_k_pipes (<[pi := p]> (k_pipes s)) s).

Lemma pipe_user_add pi pr q l p s : kthread pr s -> lookupZ (k_proc s) pr = Some q -> umem (p_pagetable q) l s ->
  pipe_wf p -> pipe_user pi pr q l p (add_pipe pi p s).
Proof.
  intros Hk Hp Hu Hw.
  assert (Hk' : kthread pr (add_pipe pi p s)).
  { destruct Hk as [K1 K2 K3 K4 K5]. split; try done. intros lk Hlk. destruct (K5 lk Hlk) as [nm Hnm].
    exists nm. simpl. rewrite lookup_insert_ne; [exact Hnm|]. intros <-. revert Hlk.
    unfold static_locks. rewrite !elem_of_app, !list_elem_of_fmap.
    intros [H|[(?&?&_)|[(?&?&_)|(?&?&_)]]]; try discriminate. set_solver. }
  split; try done.
  - exists "pipe". simpl. apply lookup_insert_eq.
  - apply (umem_same _ l s); [exact Hu|reflexivity|reflexivity|]. exact (kthread_kmem _ _ Hk').
  - simpl. apply lookup_insert_eq.
Qed.

Lemma demo_pipe_user : exists pi pr q l s, pipe_user pi pr q l demo_pipe s /\ p_killed q = 0 /\
  forall va, 0 <= va < 3 * PGSIZE -> uaddr l (Z.lor PTE_U PTE_W) va <> None.
Proof.
  destruct demo_user_thread as (pt & m & fl & l & Hk & Ho & Hp & Hu & Hmap).
  exists 0x87000000, 5, (set_p_pagetable pt zero_proc), l, (add_pipe 0x87000000 demo_pipe (demo_user_state pt m fl)).
  split; [|split; [reflexivity|exact Hmap]]. by apply pipe_user_add; [| | |exact demo_pipe_wf].
Qed.

Lemma pipewrite_appends_witness : exists pi s s', @pipewrite demo_patience pi 0x10 3 s = Ok 3 s'.
Proof.
  destruct demo_pipe_user as (pi & pr & q & l & s & Hu & Hk & Hmap).
  destruct (@pipewrite_appends image demo_patience pi pr q l demo_pipe s 0x10 3 Hu ltac:(lia) ltac:(lia) ltac:(lia))
    as [H _].
  destruct H as (bs & p' & HE & _ & _ & _ & [Hl|[Hl Hx]]); [reflexivity|exact Hk|by vm_compute| |].
  - rewrite Hl in HE. exists pi, s. eexists. exact HE.
  - exfalso. pose proof (lenZ_nonneg bs).
    destruct (uaddr l (Z.lor PTE_U PTE_W) (0x10 + lenZ bs)) eqn:E.
    + apply uaddr_UW in E. congruence.
    + revert E. apply Hmap. lz.
Defined.

Lemma piperead_takes_witness : exists pi s s', @piperead demo_patience pi 0x10 100 s = Ok 2 s'.
Proof.
  destruct demo_pipe_user as (pi & pr & q & l & s & Hu & Hk & Hmap).
  destruct (@piperead_takes image demo_patience pi pr q l demo_pipe s 0x10 100 Hu ltac:(lia) ltac:(lia) ltac:(lia))
    as [H _].
  destruct H as (w & p' & m' & HE & _ & _ & [[Hl _]|(Hl & Hx & _)]); [left; by vm_compute| |].
  - change (Z.min 100 (lenZ (pipe_q demo_pipe))) with 2 in Hl. rewrite Hl in HE. exists pi, s. eexists. exact HE.
  - exfalso. pose proof (lenZ_nonneg w). revert Hx. apply Hmap. lz.
Defined.
