(* ===== verification/Console.v ===== *)
(** * The console ([kernel/console.c], [uartintr] of [kernel/uart.c],
    [procdump] of [kernel/proc.c]) *)

From S2P Require Import Prelude Riscv State Spinlock Kalloc Copy Sched Uart Printf.

(** ** Definitions *)

(** [C('x')], Control-x *)
Definition ctrl (x : string) : Z := ch x - ch "@".
Definition INPUT_BUF_SIZE : Z := 128.
Definition CONSOLE : Z := 1.

Definition get_cons : M consst := gets k_cons.
Definition put_cons (c : consst) : M unit := modify (set_k_cons c).

(** The name of a state; an array index past [states] does not happen. *)
Definition state_name (st : procstate) : string :=
  match st with
  | UNUSED => "unused"
  | USED => "used"
  | SLEEPING => "sleep "
  | RUNNABLE => "runble"
  | RUNNING => "run   "
  | ZOMBIE => "zombie"
  end.

(** A character array as a C string. *)
Fixpoint cstr (l : list Z) : list Z :=
  match l with
  | [] => []
  | c :: l' => if c =? 0 then [] else c :: cstr l'
  end.

Section Console.
Context {IO : Mmio}.

Definition procdump_body (p : Z) : M (option unit) :=
  pr <- get_proc p;;
  when (negb (bool_decide (p_state pr = UNUSED)))
    (printf (chars "%d %s %s") [VInt (p_pid pr); VStr (Some (chars (state_name (p_state pr))));
       VStr (Some (cstr (p_name pr)))];;
     printf [NL] [];;
     ret tt);;
  ret None.

Definition procdump : M unit :=
  printf [NL] [];;
  for_loop (Z.to_nat NPROC) 0 procdump_body;;
  ret tt.

(** [^U]: erase back to the start of the line. *)
Definition kill_line_body (_ : unit) : M (unit + unit) :=
  c <- get_cons;;
  if negb (cons_e c =? cons_w c) then
    x <- deref (lookupZ (cons_buf c) (u32 (cons_e c - 1) mod INPUT_BUF_SIZE));;
    if negb (x =? NL) then
      put_cons (set_cons_e (u32 (cons_e c - 1)) c);;
      consputc BACKSPACE;;
      ret (inl tt)
    else ret (inr tt)
  else ret (inr tt).

(** At most [INPUT_BUF_SIZE] characters are being edited. *)
Definition kill_line_fuel : nat := S (Z.to_nat INPUT_BUF_SIZE).

Definition consoleintr (c : Z) : M unit :=
  acquire L_cons;;
  (if c =? ctrl "P" then procdump
   else if c =? ctrl "U" then loop kill_line_fuel kill_line_body tt
   else if (c =? ctrl "H") || (c =? 0x7f) then
     cs <- get_cons;;
     when (negb (cons_e cs =? cons_w cs))
       (put_cons (set_cons_e (u32 (cons_e cs - 1)) cs);;
        consputc BACKSPACE)
   else
     cs <- get_cons;;
     when (negb (c =? 0) && (u32 (cons_e cs - cons_r cs) <? INPUT_BUF_SIZE))
       (let c := if c =? 13 then NL else c in
        consputc c;;
        cs <- get_cons;;
        put_cons (set_cons_e (u32 (cons_e cs + 1))
          (set_cons_buf (insertZ (cons_e cs mod INPUT_BUF_SIZE) (u8 c) (cons_buf cs)) cs));;
        cs <- get_cons;;
        when ((c =? NL) || (c =? ctrl "D") || (u32 (cons_e cs - cons_r cs) =? INPUT_BUF_SIZE))
          (put_cons (set_cons_w (cons_e cs) cs);;
           wakeup (Some C_cons_r))));;
  release L_cons.

(** The characters the device can have waiting between two interrupts. *)
Definition uartintr_body (_ : unit) : M (unit + unit) :=
  c <- uartgetc;;
  if c =? -1 then ret (inr tt) else
  consoleintr c;;
  ret (inl tt).

Definition uartintr : M unit :=
  loop mmio_polls uartintr_body tt;;
  acquire L_uart_tx;;
  uartstart;;
  release L_uart_tx.

Section Process.
Context {KI : KernelImage} {PT : Patience}.

Definition consolewrite_body (user_src src i : Z) : M (option Z) :=
  r <- either_copyin user_src (u64 (src + i)) [] 1;;
  if fst r =? -1 then ret (Some i) else
  c <- deref (lookupZ (snd r) 0);;
  uartputc c;;
  ret None.

(** The kernel calls it for user memory alone. *)
Definition consolewrite (user_src src n : Z) : M Z :=
  r <- for_loop (Z.to_nat n) 0 (consolewrite_body user_src src);;
  ret (default (Z.max 0 n) r).

(** Waiting for input; [true] when the reader has been killed. *)
Definition consoleread_wait (_ : unit) : M (unit + bool) :=
  c <- get_cons;;
  if cons_r c =? cons_w c then
    p <- curproc;;
    k <- killed p;;
    if truth k then
      release L_cons;;
      ret (inr true)
    else
      sleep C_cons_r L_cons;;
      ret (inl tt)
  else ret (inr false).

(** One turn of the copying loop with [dst] and [n]: [inl tt] for the return of
    -1, [inr n] for the end. *)
Definition consoleread_body (user_dst target : Z) (st : Z * Z) : M (Z * Z + (unit + Z)) :=
  let '(dst, n) := st in
  if 0 <? n then
    dead <- loop patience consoleread_wait tt;;
    if (dead : bool) then ret (inr (inl tt)) else
    cs <- get_cons;;
    c <- deref (lookupZ (cons_buf cs) (cons_r cs mod INPUT_BUF_SIZE));;
    put_cons (set_cons_r (u32 (cons_r cs + 1)) cs);;
    if c =? ctrl "D" then
      cs <- get_cons;;
      when (n <? target) (put_cons (set_cons_r (u32 (cons_r cs - 1)) cs));;
      ret (inr (inr n))
    else
      r <- either_copyout user_dst dst [c];;
      if fst r =? -1 then ret (inr (inr n)) else
      if c =? NL then ret (inr (inr (n - 1))) else ret (inl (u64 (dst + 1), n - 1))
  else ret (inr (inr n)).

Definition consoleread (user_dst dst n : Z) : M Z :=
  let target := n in
  acquire L_cons;;
  r <- loop (S (Z.to_nat n)) (consoleread_body user_dst target) (dst, n);;
  match r with
  | inl _ => ret (-1)
  | inr n =>
      release L_cons;;
      ret (target - n)
  end.

End Process.

End Console.

Definition consoleinit : M unit :=
  initlock L_cons "cons";;
  uartinit;;
  modify (fun s => set_k_devsw (insertZ CONSOLE (Some F_consoleread, Some F_consolewrite) (k_devsw s)) s).
