(* ===== verification/ConsoleLine.v ===== *)
(** * The line discipline of the console

    The input buffer of [kernel/console.c] as two lists: the characters that
    have been entered and wait to be read, and the line that is being edited.
    [consoleintr] edits the line and enters it; [consoleread] takes at most one
    line of what has been entered. *)

From S2P Require Import Prelude Circ Riscv State Spinlock Kalloc Vm Uvm Copy Sched UserMem Uart Printf UartTx Pipe Console.

(** ** Specification *)

(** What has been entered, and the line being edited. *)
Definition entered (c : consst) : list Z := cqueue INPUT_BUF_SIZE (2 ^ 32) (cons_buf c) (cons_r c) (cons_w c).
Definition editing (c : consst) : list Z := cqueue INPUT_BUF_SIZE (2 ^ 32) (cons_buf c) (cons_w c) (cons_e c).

Record cons_wf (c : consst) : Prop := {
  cw_buf : lenZ (cons_buf c) = INPUT_BUF_SIZE;
  cw_bytes : Forall (fun b => 0 <= b < 256) (cons_buf c);
  cw_r : 0 <= cons_r c < 2 ^ 32;
  cw_w : 0 <= cons_w c < 2 ^ 32;
  cw_e : 0 <= cons_e c < 2 ^ 32;
  cw_len : lenZ (entered c) + lenZ (editing c) <= INPUT_BUF_SIZE;
  cw_line : NL ∉ editing c;
}.

Definition erase : list Z := [8; ch " "; 8].

(** The character that is stored for [c]. *)
Definition cooked (c : Z) : Z := if c =? 13 then NL else c.

(** The effect of a key on the characters entered and the line. *)
Definition edit (c : Z) (st : list Z * list Z) : list Z * list Z :=
  let '(q, ed) := st in
  if c =? ctrl "U" then (q, [])
  else if (c =? ctrl "H") || (c =? 0x7f) then (q, removelast ed)
  else if (c =? 0) || (lenZ q + lenZ ed =? INPUT_BUF_SIZE) then (q, ed)
  else if (cooked c =? NL) || (cooked c =? ctrl "D") || (lenZ q + lenZ ed + 1 =? INPUT_BUF_SIZE) then (q ++ ed ++ [cooked c], [])
  else (q, ed ++ [cooked c]).

(** What is echoed. *)
Definition echo (c : Z) (st : list Z * list Z) : list Z :=
  let '(q, ed) := st in
  if c =? ctrl "U" then concat (replicate (length ed) erase)
  else if (c =? ctrl "H") || (c =? 0x7f) then (if bool_decide (ed = []) then [] else erase)
  else if (c =? 0) || (lenZ q + lenZ ed =? INPUT_BUF_SIZE) then []
  else [cooked c].

(** What a read of [n] characters takes from those entered: up to a newline or
    the count, or up to a [^D], which is left for the next read unless it comes
    first.  [None] when it has to wait for more. *)
Fixpoint read_line (n : nat) (first : bool) (q : list Z) : option (list Z * list Z) :=
  match n with
  | O => Some ([], q)
  | S n' =>
      match q with
      | [] => None
      | c :: q' =>
          if c =? ctrl "D" then Some ([], if first then q' else q)
          else if c =? NL then Some ([c], q')
          else '(w, r) ← read_line n' false q'; Some (c :: w, r)
      end
  end.

(** ** The buffer *)

Lemma cons_size : 0 < INPUT_BUF_SIZE /\ INPUT_BUF_SIZE < 2 ^ 32 /\ (INPUT_BUF_SIZE | 2 ^ 32).
Proof. split_and!; [done|done|by exists (2 ^ 25)]. Qed.

Lemma lenZ_entered c : lenZ (entered c) = clen (2 ^ 32) (cons_r c) (cons_w c).
Proof. apply (lenZ_cqueue INPUT_BUF_SIZE); apply cons_size. Qed.
Lemma lenZ_editing c : lenZ (editing c) = clen (2 ^ 32) (cons_w c) (cons_e c).
Proof. apply (lenZ_cqueue INPUT_BUF_SIZE); apply cons_size. Qed.

(** The length that [consoleintr] computes. *)
Lemma cons_total c : cons_wf c -> u32 (cons_e c - cons_r c) = lenZ (entered c) + lenZ (editing c).
Proof.
  intros H. pose proof (cw_len _ H) as Hl. rewrite lenZ_entered, lenZ_editing in *. change (u32 _) with (clen (2 ^ 32) (cons_r c) (cons_e c)).
  apply (clen_split INPUT_BUF_SIZE (2 ^ 32)); try apply cons_size. unfold INPUT_BUF_SIZE in *. lia.
Qed.

Lemma cons_no_edit c : cons_wf c -> (cons_e c =? cons_w c) = bool_decide (editing c = []).
Proof.
  intros H. rewrite (clen_empty INPUT_BUF_SIZE (2 ^ 32)) by (apply cons_size || apply H). rewrite <- lenZ_editing. apply eq_true_iff_eq. rewrite Z.eqb_eq, bool_decide_eq_true.
  unfold lenZ. destruct (editing c); simpl; split; intros; (done || lia).
Qed.

(** A character at the end of the line. *)
Definition cons_put (x : Z) (c : consst) : consst := set_cons_e (u32 (cons_e c + 1)) (set_cons_buf (insertZ (cons_e c mod INPUT_BUF_SIZE) (u8 x) (cons_buf c)) c).
Definition cons_enter (c : consst) : consst := set_cons_w (cons_e c) c.
Definition cons_back (c : consst) : consst := set_cons_e (u32 (cons_e c - 1)) c.

Lemma cons_put_ok x c : cons_wf c -> 0 <= x < 256 -> lenZ (entered c) + lenZ (editing c) < INPUT_BUF_SIZE ->
  entered (cons_put x c) = entered c /\ editing (cons_put x c) = editing c ++ [x].
Proof.
  intros H Hx Hl. pose proof (lenZ_nonneg (entered c)). pose proof (lenZ_nonneg (editing c)). pose proof (cons_total c H) as Ht. rewrite lenZ_entered, lenZ_editing in *.
  unfold entered, editing, cons_put. cbn [cons_buf cons_r cons_w cons_e set_cons_e set_cons_buf]. rewrite u8_small by done. split.
  - apply (cqueue_frame INPUT_BUF_SIZE (2 ^ 32)); try apply cons_size; change (clen (2 ^ 32) (cons_r c) (cons_e c)) with (u32 (cons_e c - cons_r c)); lia.
  - apply (cqueue_put INPUT_BUF_SIZE (2 ^ 32)); try apply cons_size; [apply H|lia].
Qed.

Lemma cons_put_wf x c : cons_wf c -> 0 <= x < 256 -> x <> NL -> lenZ (entered c) + lenZ (editing c) < INPUT_BUF_SIZE -> cons_wf (cons_put x c).
Proof.
  intros H Hx Hn Hl. destruct (cons_put_ok x c H Hx Hl) as [E1 E2]. split; try (cbn; apply H).
  - cbn. rewrite lenZ_insertZ. apply H.
  - cbn. unfold insertZ. destruct (_ <? 0); [apply H|]. apply Forall_insert; [apply H|unfold u8; apply Z.mod_pos_bound; lia].
  - cbn. apply u32_range.
  - rewrite E1, E2, lenZ_app. change (lenZ [x]) with 1. lia.
  - rewrite E2, elem_of_app, list_elem_of_singleton. intros [Hin|Hin]; [by apply (cw_line _ H)|congruence].
Qed.

Lemma cons_enter_ok x c : cons_wf c -> 0 <= x < 256 -> lenZ (entered c) + lenZ (editing c) < INPUT_BUF_SIZE -> let c' := cons_enter (cons_put x c) in
  entered c' = entered c ++ editing c ++ [x] /\ editing c' = [] /\ cons_wf c'.
Proof.
  intros H Hx Hl c'. destruct (cons_put_ok x c H Hx Hl) as [E1 E2]. pose proof (lenZ_entered (cons_put x c)) as L1. pose proof (lenZ_editing (cons_put x c)) as L2.
  rewrite E1 in L1. rewrite E2, lenZ_app in L2. change (lenZ [x]) with 1 in L2.
  assert (En : entered c' = entered c ++ editing c ++ [x]).
  { rewrite <- E1 at 1. rewrite <- E2. refine (cqueue_split INPUT_BUF_SIZE (2 ^ 32) _ _ _ (cons_buf (cons_put x c)) (cons_r (cons_put x c)) (cons_w (cons_put x c)) (cons_e (cons_put x c)) _); try apply cons_size. rewrite <- L1, <- L2. unfold INPUT_BUF_SIZE in *. lia. }
  assert (Ee : editing c' = []).
  { unfold editing, cqueue, clen, c'. cbn [cons_e cons_w cons_enter set_cons_w]. by rewrite Z.sub_diag. }
  split; [done|]. split; [done|]. split; try (cbn; apply H).
  - cbn. rewrite lenZ_insertZ. apply H.
  - cbn. unfold insertZ. destruct (_ <? 0); [apply H|]. apply Forall_insert; [apply H|unfold u8; apply Z.mod_pos_bound; lia].
  - cbn. apply u32_range.
  - cbn. apply u32_range.
  - rewrite En, Ee, !lenZ_app. change (lenZ [x]) with 1. change (lenZ (@nil Z)) with 0. lia.
  - rewrite Ee. by apply not_elem_of_nil.
Qed.

Lemma cons_back_ok c : cons_wf c -> editing c <> [] -> exists x, lookupZ (cons_buf c) (u32 (cons_e c - 1) mod INPUT_BUF_SIZE) = Some x /\
  editing c = editing (cons_back c) ++ [x] /\ entered (cons_back c) = entered c /\ cons_wf (cons_back c).
Proof.
  intros H Hne. assert (Hl : 0 < clen (2 ^ 32) (cons_w c) (cons_e c)).
  { rewrite <- lenZ_editing. pose proof (lenZ_nonneg (editing c)). unfold lenZ in *. destruct (editing c); [done|simpl; lia]. }
  pose proof (cqueue_unput INPUT_BUF_SIZE (2 ^ 32) ltac:(apply cons_size) ltac:(apply cons_size) ltac:(apply cons_size) (cons_buf c) _ _ Hl) as E.
  destruct (lookupZ_is_Some (cons_buf c) (u32 (cons_e c - 1) mod INPUT_BUF_SIZE)) as [x Hx]; [rewrite (cw_buf _ H); by apply Z.mod_pos_bound|].
  change ((cons_e c - 1) mod 2 ^ 32) with (u32 (cons_e c - 1)) in E. rewrite Hx in E. exists x. split; [done|]. change (editing c = editing (cons_back c) ++ [x]) in E. split; [exact E|]. split; [done|].
  pose proof (cw_len _ H) as Hlen. pose proof (cw_line _ H) as Hln. rewrite E in Hlen, Hln. rewrite lenZ_app in Hlen. change (lenZ [x]) with 1 in Hlen.
  split; try (cbn; apply H); [cbn; apply u32_range|change (entered (cons_back c)) with (entered c); lia|]. intros Hin. apply Hln, elem_of_app. by left.
Qed.

(** ** Echo *)

Section Edit.
Context {IO : Mmio} (Hready : uart_ready).

Lemma echo_ok x s : settled s -> k_panicked s = 0 -> 0 <= x < 256 ->
  exists io, consputc x (acq L_cons s) = Ok tt (acq L_cons (set_k_mmio io s)) /\ sent io = sent (k_mmio s) ++ [x].
Proof.
  intros Hs Hp Hx. destruct (consputc_ok Hready x (acq L_cons s)) as (s' & E & io & -> & Hio); [by apply settled_acq|done|done|]. exists io. by split.
Qed.

Lemma erase_ok s : settled s -> k_panicked s = 0 ->
  exists io, consputc BACKSPACE (acq L_cons s) = Ok tt (acq L_cons (set_k_mmio io s)) /\ sent io = sent (k_mmio s) ++ erase.
Proof.
  intros Hs Hp. assert (Hs' : settled (acq L_cons s)) by (by apply settled_acq).
  destruct (uartputc_sync_ok Hready 8 (acq L_cons s) Hs' Hp ltac:(lia)) as (s1 & E1 & P1).
  destruct (uartputc_sync_ok Hready (ch " ") s1 (prints_settled _ _ _ P1 Hs') ltac:(by rewrite (prints_panicked _ _ _ P1)) ltac:(by compute)) as (s2 & E2 & P2).
  pose proof (prints_app _ _ _ _ _ P1 P2) as P12.
  destruct (uartputc_sync_ok Hready 8 s2 (prints_settled _ _ _ P12 Hs') ltac:(by rewrite (prints_panicked _ _ _ P12)) ltac:(lia)) as (s3 & E3 & P3).
  destruct (prints_app _ _ _ _ _ P12 P3) as (io & -> & Hio). exists io. split; [|exact Hio]. unfold consputc. rewrite Z.eqb_refl.
  erewrite bind_ok by exact E1. by erewrite bind_ok by exact E2.
Qed.

(** [^U] *)
Lemma kill_line_ok n : forall fuel s, settled s -> k_panicked s = 0 -> cons_wf (k_cons s) -> length (editing (k_cons s)) = n -> (n < fuel)%nat ->
  exists io c', loop fuel kill_line_body tt (acq L_cons s) = Ok tt (acq L_cons (set_k_cons c' (set_k_mmio io s))) /\
    cons_wf c' /\ entered c' = entered (k_cons s) /\ editing c' = [] /\ sent io = sent (k_mmio s) ++ concat (replicate n erase).
Proof.
  induction n as [|n IH]; intros [|fuel] s Hs Hp Hwf Hn Hf; try lia.
  - apply nil_length_inv in Hn. exists (k_mmio s), (k_cons s). rewrite app_nil_r. split; [|done]. apply loop_stop. unfold kill_line_body, get_cons. rewrite bind_gets. autorewrite with acq.
    rewrite cons_no_edit by done. rewrite bool_decide_true by done. cbn [negb]. by destruct s.
  - assert (Hne : editing (k_cons s) <> []) by (intros E; by rewrite E in Hn). destruct (cons_back_ok _ Hwf Hne) as (x & Hx & Ee & En & Hwf').
    set (s1 := set_k_cons (cons_back (k_cons s)) s). destruct (erase_ok s1) as (io1 & E1 & S1); [exact Hs|exact Hp|].
    destruct (IH fuel (set_k_mmio io1 s1)) as (io & c' & E & W & Q1 & Q2 & S); [exact Hs|exact Hp|exact Hwf'| |lia|].
    { rewrite Ee, length_app in Hn. cbn in Hn. cbn. lia. }
    exists io, c'. split; [|split; [done|split; [by rewrite Q1|split; [done|]]]].
    + rewrite (loop_next _ _ _ _ tt (acq L_cons (set_k_mmio io1 s1))); [exact E|]. unfold kill_line_body, get_cons. rewrite bind_gets. autorewrite with acq.
      rewrite cons_no_edit by done. rewrite bool_decide_false by done. cbn [negb]. erewrite bind_ok by (by apply deref_ok).
      destruct (Z.eqb_spec x NL) as [->|_]; [exfalso; apply (cw_line _ Hwf); rewrite Ee; apply elem_of_app; right; apply list_elem_of_singleton; done|]. cbn [negb].
      unfold put_cons. rewrite bind_modify. autorewrite with acq. change (set_cons_e (u32 (cons_e (k_cons s) - 1)) (k_cons s)) with (cons_back (k_cons s)). fold s1. by erewrite bind_ok by exact E1.
    + rewrite S. cbn [replicate concat]. rewrite app_assoc. f_equal. exact S1.
Qed.

(** The state after a key: the readers are woken when a line is entered. *)
Definition keyed (c' : consst) (io : list mmio_event) (s : kstate) : kstate :=
  set_k_cons c' (set_k_mmio io (if lenZ (entered (k_cons s)) <? lenZ (entered c') then set_k_proc (map_from (woken (Some C_cons_r) (cur s)) 0 (k_proc s)) s else s)).

Lemma keyed_same c' io s : entered c' = entered (k_cons s) -> keyed c' io s = set_k_cons c' (set_k_mmio io s).
Proof. intros E. unfold keyed. by rewrite E, Z.ltb_irrefl. Qed.

(** A character that is stored. *)
Lemma type_ok x s : quiet s -> k_panicked s = 0 -> cons_wf (k_cons s) -> 0 <= x < 256 -> lenZ (entered (k_cons s)) + lenZ (editing (k_cons s)) < INPUT_BUF_SIZE ->
  let enters := (x =? NL) || (x =? ctrl "D") || (lenZ (entered (k_cons s)) + lenZ (editing (k_cons s)) + 1 =? INPUT_BUF_SIZE) in
  exists io c', (consputc x;; cs <- get_cons;; put_cons (cons_put x cs);; cs <- get_cons;;
      when ((x =? NL) || (x =? ctrl "D") || (u32 (cons_e cs - cons_r cs) =? INPUT_BUF_SIZE)) (put_cons (set_cons_w (cons_e cs) cs);; wakeup (Some C_cons_r))) (acq L_cons s)
    = Ok tt (acq L_cons (keyed c' io s)) /\ cons_wf c' /\ sent io = sent (k_mmio s) ++ [x] /\
    (entered c', editing c') = if enters then (entered (k_cons s) ++ editing (k_cons s) ++ [x], []) else (entered (k_cons s), editing (k_cons s) ++ [x]).
Proof.
  intros Hq Hp Hwf Hx Hroom enters. set (c := k_cons s) in *. destruct (echo_ok x s (proj1 Hq) Hp Hx) as (io & E1 & S1). exists io.
  assert (Ht : u32 (cons_e (cons_put x c) - cons_r (cons_put x c)) = lenZ (entered c) + lenZ (editing c) + 1).
  { rewrite <- cons_total by done. apply (clen_put INPUT_BUF_SIZE (2 ^ 32)); try apply cons_size. change (clen _ _ _) with (u32 (cons_e c - cons_r c)). rewrite cons_total by done. lia. }
  set (s1 := set_k_cons (cons_put x c) (set_k_mmio io s)). erewrite bind_ok by exact E1. unfold get_cons, put_cons. rewrite bind_gets. autorewrite with acq. rewrite bind_modify. autorewrite with acq.
  change (k_cons (set_k_mmio io s)) with c. fold s1. rewrite bind_gets. autorewrite with acq. change (k_cons s1) with (cons_put x c). rewrite Ht. fold enters. destruct enters eqn:En.
  - destruct (cons_enter_ok x c Hwf Hx Hroom) as (Q1 & Q2 & W). exists (cons_enter (cons_put x c)). split; [|split; [done|split; [done|by rewrite Q1, Q2]]].
    cbn [when]. rewrite bind_modify. autorewrite with acq. fold (cons_enter (cons_put x c)). set (s2 := set_k_cons (cons_enter (cons_put x c)) s1).
    rewrite (wakeup_quiet _ L_cons s2 (quiet_ext s s2 eq_refl eq_refl eq_refl eq_refl eq_refl Hq) ltac:(done)). unfold keyed. rewrite Q1, !lenZ_app. change (lenZ [x]) with 1. pose proof (lenZ_nonneg (editing c)). fold c.
    by zcase (lenZ (entered c) <? lenZ (entered c) + (lenZ (editing c) + 1)).
  - assert (x <> NL) by (intros Ex; unfold enters in En; by rewrite Ex, Z.eqb_refl in En). destruct (cons_put_ok x c Hwf Hx Hroom) as [Q1 Q2]. exists (cons_put x c).
    split; [|split; [by apply cons_put_wf|split; [done|by rewrite Q1, Q2]]]. rewrite keyed_same by done. reflexivity.
Qed.
End Edit.

(** ** Reading *)

Section Read.
Context {KI : KernelImage}.

(** Process [p] reads from the console. *)
Record reader (p : Z) (pr : proc) (l : list (Z * Z)) (s : kstate) : Prop := {
  rd_thread : kthread p s;
  rd_proc : lookupZ (k_proc s) p = Some pr;
  rd_mem : umem (p_pagetable pr) l s;
  rd_cons : cons_wf (k_cons s);
}.

Definition cons_get (c : consst) : consst := set_cons_r (u32 (cons_r c + 1)) c.

Lemma cons_get_ok c : cons_wf c -> entered c <> [] -> exists x, lookupZ (cons_buf c) (cons_r c mod INPUT_BUF_SIZE) = Some x /\ 0 <= x < 256 /\
  entered c = x :: entered (cons_get c) /\ editing (cons_get c) = editing c /\ cons_wf (cons_get c).
Proof.
  intros H Hne. assert (Hl : 0 < clen (2 ^ 32) (cons_r c) (cons_w c)).
  { rewrite <- lenZ_entered. pose proof (lenZ_nonneg (entered c)). unfold lenZ in *. destruct (entered c); [done|simpl; lia]. }
  pose proof (cbyte_lookup INPUT_BUF_SIZE ltac:(done) (cons_buf c) (cons_r c) (cw_buf _ H)) as Hx. set (x := cbyte INPUT_BUF_SIZE (cons_buf c) (cons_r c) 0) in *.
  assert (E : entered c = x :: entered (cons_get c)) by (by apply (cqueue_get INPUT_BUF_SIZE (2 ^ 32)); try apply cons_size).
  exists x. split; [done|]. split; [pose proof Hx as Hb; unfold lookupZ in Hb; destruct (_ <? 0); [done|]; exact (Forall_lookup_1 _ _ _ _ (cw_bytes _ H) Hb)|]. split; [done|]. split; [done|].
  pose proof (cw_len _ H) as Hlen. rewrite E, lenZ_cons in Hlen. split; try (cbn; apply H); [cbn; apply u32_range|change (editing (cons_get c)) with (editing c); lia].
Qed.

Lemma cons_unget c : cons_wf c -> set_cons_r (u32 (cons_r (cons_get c) - 1)) (cons_get c) = c.
Proof.
  intros H. destruct c as [b r w e]. unfold cons_get, set_cons_r. cbn. f_equal. pose proof (cw_r _ H) as Hr. cbn in Hr. unfold u32. rewrite Zminus_mod_idemp_l.
  replace (r + 1 - 1) with r by lia. by apply Z.mod_small.
Qed.

Lemma no_wait {PT : Patience} s : cons_wf (k_cons s) -> entered (k_cons s) <> [] -> loop patience consoleread_wait tt (acq L_cons s) = Ok false (acq L_cons s).
Proof.
  intros H Hne. pose proof patience_pos. destruct patience as [|k]; [lia|]. apply loop_stop. unfold consoleread_wait, get_cons. rewrite bind_gets. autorewrite with acq.
  rewrite Z.eqb_sym, (clen_empty INPUT_BUF_SIZE (2 ^ 32)) by (apply cons_size || apply H). rewrite <- lenZ_entered. destruct (Z.eqb_spec (lenZ (entered (k_cons s))) 0) as [E|_]; [|done].
  exfalso. apply Hne. apply nil_length_inv. unfold lenZ in E. lia.
Qed.

(** A character that is copied to the user. *)
Lemma read_char p pr l s dst : reader p pr l s -> entered (k_cons s) <> [] -> 0 <= dst < 2 ^ 64 -> uaddr l (Z.lor PTE_U PTE_W) dst <> None ->
  exists x m', lookupZ (cons_buf (k_cons s)) (cons_r (k_cons s) mod INPUT_BUF_SIZE) = Some x /\ entered (k_cons s) = x :: entered (cons_get (k_cons s)) /\
    let s1 := set_k_mem m' (set_k_cons (cons_get (k_cons s)) s) in
    either_copyout 1 dst [x] (acq L_cons (set_k_cons (cons_get (k_cons s)) s)) = Ok (0, []) (acq L_cons s1) /\ written l dst [x] (k_mem s) m' /\ reader p pr l s1.
Proof.
  intros [H1 H2 H3 H4] Hne Hd Hu. destruct (cons_get_ok _ H4 Hne) as (x & Hx & Hxr & E & _ & W). exists x. set (s0 := set_k_cons (cons_get (k_cons s)) s).
  assert (T0 : kthread p s0) by (by apply kthread_set_k_cons).
  assert (M0 : umem (p_pagetable pr) l (acq L_cons s0)) by (apply (umem_acq _ p); [done|done|]; eapply umem_same; [exact H3|done|done|by eapply kthread_kmem]).
  destruct (umem_copyout1 _ _ _ dst x M0 Hd Hxr) as [(y & m' & Hy & Hc & Hw & Hm)|(Hy & _)]; [|done].
  exists m'. split; [done|]. split; [done|]. cbv zeta. fold s0. split; [|split; [exact Hw|]].
  - unfold either_copyout. erewrite bind_ok by (apply run_myproc, settled_acq, T0). rewrite cur_acq, (kt_cur _ _ T0) by apply T0. cbn [truth Z.eqb negb].
    erewrite bind_ok by (by apply deref_ok). erewrite bind_ok by (apply run_get_proc; autorewrite with acq; exact H2). by erewrite bind_ok by exact Hc.
  - split; [by apply kthread_set_k_mem|done| |exact W]. eapply umem_same; [exact Hm|done|done|]. by eapply kthread_kmem, kthread_set_k_mem.
Qed.

Lemma consoleread_loop {PT : Patience} p pr l target n : forall s dst w q', reader p pr l s -> read_line n (Z.of_nat n =? target) (entered (k_cons s)) = Some (w, q') -> Z.of_nat n <= target ->
  0 <= dst -> dst + Z.of_nat n < 2 ^ 64 -> (forall i, 0 <= i < lenZ w -> uaddr l (Z.lor PTE_U PTE_W) (dst + i) <> None) ->
  exists m' c', loop (S n) (consoleread_body 1 target) (dst, Z.of_nat n) (acq L_cons s) = Ok (inr (Z.of_nat n - lenZ w)) (acq L_cons (set_k_mem m' (set_k_cons c' s))) /\
    written l dst w (k_mem s) m' /\ entered c' = q' /\ editing c' = editing (k_cons s) /\ reader p pr l (set_k_mem m' (set_k_cons c' s)).
Proof.
  induction n as [|n IH]; intros s dst w q' R HL Hn Hd0 Hd Hu; pose proof R as [R1 R2 R3 R4].
  { injection HL as <- <-. exists (k_mem s), (k_cons s). rewrite Z.sub_0_r. split; [apply loop_stop; by destruct s|]. split; [by apply written_nil|]. split; [done|]. split; [done|]. by destruct s. }
  assert (Hne : entered (k_cons s) <> []) by (intros E; by rewrite E in HL). pose proof (no_wait s R4 Hne) as Hw. destruct (cons_get_ok _ R4 Hne) as (x & Hx & Hxr & Eq & Ed & W).
  set (s0 := set_k_cons (cons_get (k_cons s)) s). assert (Hbody : forall k, (dead <- loop patience consoleread_wait tt;; if (dead : bool) then ret (inr (inl tt)) else
      cs <- get_cons;; c <- deref (lookupZ (cons_buf cs) (cons_r cs mod INPUT_BUF_SIZE));; put_cons (set_cons_r (u32 (cons_r cs + 1)) cs);; k c) (acq L_cons s) = k x (acq L_cons s0) :> res (Z * Z + (unit + Z))).
  { intros k. erewrite bind_ok by exact Hw. unfold get_cons. rewrite bind_gets. autorewrite with acq. erewrite bind_ok by (by apply deref_ok). unfold put_cons. rewrite bind_modify. by autorewrite with acq. }
  set (ft := Z.of_nat (S n) =? target) in HL. cbn [read_line] in HL. rewrite Eq in HL. cbv iota in HL. destruct (Z.eqb_spec x (ctrl "D")) as [Exd|Hnd].
  { injection HL as <- <-. rewrite Z.sub_0_r. set (c' := if ft then cons_get (k_cons s) else k_cons s). exists (k_mem s), c'. split; [|split; [by apply written_nil|split; [unfold c'; destruct ft; [reflexivity|exact Eq]|split; [unfold c'; by destruct ft|]]]].
    - apply loop_stop. unfold consoleread_body. zcase (0 <? Z.of_nat (S n)). rewrite Hbody. destruct (Z.eqb_spec x (ctrl "D")) as [_|]; [|done]. unfold get_cons. rewrite bind_gets. autorewrite with acq. unfold c', ft.
      destruct (Z.eqb_spec (Z.of_nat (S n)) target) as [Et|Et].
      + zcase (Z.of_nat (S n) <? target); by destruct s.
      + zcase (Z.of_nat (S n) <? target). cbn [when]. unfold put_cons. rewrite bind_modify. autorewrite with acq. change (k_cons s0) with (cons_get (k_cons s)). rewrite cons_unget by done. by destruct s.
    - split; [apply kthread_set_k_mem; by apply kthread_set_k_cons|done| |unfold c'; by destruct ft]. eapply umem_same; [exact R3|done|done|]. by eapply kthread_kmem, kthread_set_k_mem, kthread_set_k_cons. }
  assert (Hw1 : exists w', w = x :: w') by (destruct (x =? NL); [injection HL as <- <-; by eexists|]; destruct (read_line n false _) as [[w1 q1]|]; [injection HL as <- <-; by eexists|done]). destruct Hw1 as (w' & ->).
  destruct (read_char p pr l s dst R Hne) as (x' & m1 & Hx' & _ & Ec & Hwr & R'); [lia|rewrite <- (Z.add_0_r dst); apply Hu; rewrite lenZ_cons; pose proof (lenZ_nonneg w'); lia|].
  rewrite Hx in Hx'. injection Hx' as <-. set (s1 := set_k_mem m1 s0) in *. fold s0 in Ec, R'. fold s1 in Ec, R'.
  assert (Hstep : consoleread_body 1 target (dst, Z.of_nat (S n)) (acq L_cons s) = Ok (if x =? NL then inr (inr (Z.of_nat (S n) - 1)) else inl (u64 (dst + 1), Z.of_nat (S n) - 1)) (acq L_cons s1)).
  { unfold consoleread_body. zcase (0 <? Z.of_nat (S n)). rewrite Hbody. destruct (Z.eqb_spec x (ctrl "D")) as [|_]; [done|]. erewrite bind_ok by exact Ec. cbn [fst Z.eqb]. by destruct (x =? NL). }
  destruct (Z.eqb_spec x NL) as [Exn|Hnn].
  { injection HL as <- <-. exists m1, (cons_get (k_cons s)). split; [by apply loop_stop|]. split; [done|]. split; [done|]. split; [done|exact R']. }
  destruct (read_line n false (entered (cons_get (k_cons s)))) as [[w1 q1]|] eqn:HL1; [|done]. injection HL as <- <-.
  assert (Ef : (Z.of_nat n =? target) = false) by (apply Z.eqb_neq; lia).
  destruct (IH s1 (dst + 1) w1 q1 R') as (m' & c' & E & Hwr' & Q1 & Q2 & R2'); [rewrite Ef; exact HL1|lia|lia|lia| |].
  { intros i Hi. replace (dst + 1 + i) with (dst + (1 + i)) by lia. apply Hu. rewrite lenZ_cons. lia. }
  exists m', c'. split; [|split; [|split; [done|split; [by rewrite Q2|exact R2']]]].
  - rewrite (loop_next _ _ _ _ _ _ Hstep). rewrite u64_small by lia. replace (Z.of_nat (S n) - 1) with (Z.of_nat n) by lia. rewrite E, lenZ_cons. do 2 f_equal. lia.
  - destruct R3 as [[fl Hus] _]. change (x :: w1) with ([x] ++ w1). eapply (written_app _ _ _ _ _ _ _ _ _ _ Hus); [exact Hwr|exact Hwr'].
Qed.
End Read.

(** ** Properties *)

(** C33: The line discipline.  [consoleintr] returns; after a key the characters
    entered and the line being edited are those of [edit]: [^U] and backspace
    change the line alone, never what has been entered; other characters are
    added to the line, and newline, [^D] or a full buffer enters it and wakes
    the readers.  The key is echoed, and erased characters are erased on the
    screen. *)
Theorem consoleintr_edits {IO : Mmio} c s : uart_ready -> quiet s -> lock_free L_cons s -> k_panicked s = 0 -> cons_wf (k_cons s) -> 0 <= c < 256 -> c <> ctrl "P" ->
  let st := (entered (k_cons s), editing (k_cons s)) in
  exists c' io, consoleintr c s = Ok tt (keyed c' io s) /\ cons_wf c' /\ (entered c', editing c') = edit c st /\ sent io = sent (k_mmio s) ++ echo c st.
Proof.
  intros Hready Hq Hl Hp Hwf Hc HP st. pose proof (proj1 Hq) as Hs. set (cs := k_cons s) in *.
  assert (Hfin : forall c' io (m : M unit), m (acq L_cons s) = Ok tt (acq L_cons (keyed c' io s)) -> (acquire L_cons;; m;; release L_cons) s = Ok tt (keyed c' io s)).
  { intros c' io m Em. erewrite bind_ok by (by apply acquire_ok). erewrite bind_ok by exact Em. apply release_acq; unfold keyed; by destruct (_ <? _). }
  unfold consoleintr, edit, echo, st. destruct (Z.eqb_spec c (ctrl "P")) as [|_]; [done|]. destruct (Z.eqb_spec c (ctrl "U")) as [->|_].
  { destruct (kill_line_ok Hready (length (editing cs)) kill_line_fuel s) as (io & c' & E & W & Q1 & Q2 & S); [done|done|done|done| |].
    - pose proof (cw_len _ Hwf) as Hlen. pose proof (lenZ_nonneg (entered cs)). fold cs in Hlen. unfold kill_line_fuel. unfold lenZ at 2 in Hlen. unfold INPUT_BUF_SIZE in *. lia.
    - exists c', io. rewrite Q1, Q2. split; [|done]. apply Hfin. by rewrite keyed_same. }
  destruct ((c =? ctrl "H") || (c =? 0x7f)).
  { destruct (decide (editing cs = [])) as [He|He].
    - exists cs, (k_mmio s). rewrite bool_decide_true, app_nil_r, He by done. split; [|done]. apply Hfin. unfold get_cons. rewrite bind_gets. autorewrite with acq. fold cs.
      rewrite cons_no_edit, bool_decide_true, keyed_same by done. by destruct s.
    - destruct (cons_back_ok cs Hwf He) as (x & Hx & Ee & En & W). destruct (erase_ok Hready (set_k_cons (cons_back cs) s) Hs Hp) as (io & E & S).
      exists (cons_back cs), io. rewrite bool_decide_false by done. split; [|split; [done|split; [|done]]].
      + apply Hfin. unfold get_cons. rewrite bind_gets. autorewrite with acq. fold cs. rewrite cons_no_edit, bool_decide_false, keyed_same by done. cbn [negb when].
        unfold put_cons. rewrite bind_modify. autorewrite with acq. exact E.
      + rewrite Ee, En. f_equal. by rewrite removelast_last. }
  pose proof (cw_len _ Hwf) as Hlen. fold cs in Hlen. destruct ((c =? 0) || (lenZ (entered cs) + lenZ (editing cs) =? INPUT_BUF_SIZE)) eqn:Eig.
  { exists cs, (k_mmio s). rewrite app_nil_r. split; [|done]. apply Hfin. unfold get_cons. rewrite bind_gets. autorewrite with acq. fold cs. rewrite cons_total by done.
    rewrite keyed_same by done. apply orb_true_iff in Eig as [-> |Eig%Z.eqb_eq]; [by destruct s|]. rewrite Eig, Z.ltb_irrefl, andb_false_r. by destruct s. }
  apply orb_false_iff in Eig as [Ec%Z.eqb_neq El%Z.eqb_neq]. assert (Hx : 0 <= cooked c < 256) by (unfold cooked; destruct (c =? 13); [by compute|done]).
  destruct (type_ok Hready (cooked c) s Hq Hp Hwf Hx) as (io & c' & E & W & S & Q); [fold cs; lia|]. exists c', io. split; [|done].
  apply Hfin. unfold get_cons at 1. rewrite bind_gets. autorewrite with acq. fold cs. rewrite cons_total by done. destruct (Z.eqb_spec c 0) as [|_]; [done|].
  by zcase (lenZ (entered cs) + lenZ (editing cs) <? INPUT_BUF_SIZE).
Qed.

(** C34: Reading a line.  When a whole line, a [^D] or enough characters have been
    entered, [consoleread] returns without sleeping: the characters are taken
    in order, up to and including a newline or up to a [^D] or the count, and
    written to the memory of the user; the result is their number.  A [^D]
    at the start gives 0, the end of the file; any other is left for the next
    read.  With nothing entered a killed process gets -1, and any other is put
    to sleep until the next line, with the lock of the console free. *)
Theorem consoleread_reads {KI : KernelImage} {PT : Patience} p pr l s dst n : reader p pr l s -> lock_free L_cons s -> 0 <= dst -> 0 <= n -> dst + n < 2 ^ 64 ->
  (forall w q', read_line (Z.to_nat n) true (entered (k_cons s)) = Some (w, q') -> (forall i, 0 <= i < lenZ w -> uaddr l (Z.lor PTE_U PTE_W) (dst + i) <> None) ->
    exists m' c', consoleread 1 dst n s = Ok (lenZ w) (set_k_mem m' (set_k_cons c' s)) /\ written l dst w (k_mem s) m' /\
      entered c' = q' /\ editing c' = editing (k_cons s) /\ cons_wf c') /\
  (entered (k_cons s) = [] -> 0 < n -> p_killed pr = 1 -> consoleread 1 dst n s = Ok (-1) s) /\
  (forall en, entered (k_cons s) = [] -> 0 < n -> p_killed pr = 0 -> outside en s ->
    exists s1 k pr1, consoleread 1 dst n s = Swtch s1 k /\ k_cons s1 = k_cons s /\ lock_free L_cons s1 /\
      lookupZ (k_proc s1) p = Some pr1 /\ p_state pr1 = SLEEPING /\ p_chan pr1 = Some C_cons_r).
Proof.
  intros R Hl Hd Hn Hsz. pose proof R as [R1 R2 R3 R4]. pose proof (lookupZ_Some_range _ _ _ R2) as Hp. assert (Hacq : forall A (k : unit -> M A), (bind (acquire L_cons) k) s = k tt (acq L_cons s)) by (intros A k; by rewrite (bind_ok _ _ _ _ _ (acquire_ok L_cons s (kt_settled _ _ R1) Hl))).
  assert (Hwait : entered (k_cons s) = [] -> consoleread_wait tt (acq L_cons s) = (k <- killed p;; if truth k then release L_cons;; ret (inr true) else sleep C_cons_r L_cons;; ret (inl tt)) (acq L_cons s)).
  { intros He. unfold consoleread_wait, get_cons. rewrite bind_gets. autorewrite with acq. rewrite Z.eqb_sym, (clen_empty INPUT_BUF_SIZE (2 ^ 32)) by (apply cons_size || apply R4).
    rewrite <- lenZ_entered, He. change (lenZ (@nil Z) =? 0) with true. cbv iota. by rewrite (bind_ok _ _ _ _ _ (kthread_curproc L_cons p s R1)). }
  pose proof patience_pos as Hpat. unfold consoleread. rewrite Hacq. cbv beta zeta. split; [|split].
  - intros w q' HL Hu. destruct (consoleread_loop p pr l n (Z.to_nat n) s dst w q' R) as (m' & c' & E & Hw & Q1 & Q2 & R'); [rewrite Z2Nat.id, Z.eqb_refl by done; exact HL|lia|done|lia|done|].
    rewrite Z2Nat.id in E by done. exists m', c'. split; [|split; [done|split; [done|split; [done|apply R']]]]. erewrite bind_ok by exact E. cbv beta iota. rewrite (bind_ok _ _ _ _ _ (release_acq L_cons _ (kt_settled _ _ (rd_thread _ _ _ _ R')) Hl)).
    unfold ret. f_equal. lia.
  - intros He Hpos Hk. rewrite (bind_ok _ _ _ (inl tt) s); [done|]. destruct patience as [|t] eqn:Ep; [lia|]. apply loop_stop. unfold consoleread_body. zcase (0 <? n). rewrite (bind_ok _ _ _ true s); [done|].
    rewrite Ep. apply loop_stop. rewrite Hwait by done. erewrite bind_ok by (by apply (killed_acq _ _ pr)). rewrite Hk. cbn [truth Z.eqb negb]. by erewrite bind_ok by (apply release_acq; [apply R1|done]).
  - intros en He Hpos Hk Hout. destruct patience as [|t] eqn:Ep; [lia|]. eexists _, _, (asleep C_cons_r pr). split; [|split; [|split; [|split; [|done]]]].
    + apply bind_swtch. cbn [loop]. apply bind_swtch. unfold consoleread_body at 1. zcase (0 <? n). apply bind_swtch. rewrite Ep. cbn [loop]. apply bind_swtch. rewrite Hwait by done.
      erewrite bind_ok by (by apply (killed_acq _ _ pr)). rewrite Hk. cbn [truth Z.eqb negb]. apply bind_swtch. apply (sleep_ok en _ _ s p pr); try done; [apply R1|by eapply kthread_proc_free].
    + done.
    + by apply lock_free_acq.
    + simpl. by apply lookupZ_insertZ_eq.
Qed.

Lemma demo_cons_wf w : 0 <= w <= 2 -> cons_wf (mkCons (104 :: NL :: replicate 126 0) 0 w w).
Proof.
  intros Hw. assert (He : editing (mkCons (104 :: NL :: replicate 126 0) 0 w w) = []) by (unfold editing, cqueue, clen; cbn [cons_w cons_e]; by rewrite Z.sub_diag).
  split; [reflexivity|repeat constructor; try (by vm_compute); apply Forall_replicate; lia|cbn; lia|cbn; lia|cbn; lia| |rewrite He; by apply not_elem_of_nil].
  rewrite lenZ_entered, He. change (lenZ (@nil Z)) with 0. cbn. unfold clen, INPUT_BUF_SIZE. rewrite Z.mod_small by lia. lia.
Qed.

Lemma consoleintr_edits_witness : exists c' io, @consoleintr ready_uart 65 (set_k_cons (mkCons (104 :: NL :: replicate 126 0) 0 0 0) demo_sched) =
  Ok tt (keyed c' io (set_k_cons (mkCons (104 :: NL :: replicate 126 0) 0 0 0) demo_sched)) /\ editing c' = [65].
Proof.
  destruct (@consoleintr_edits ready_uart 65 (set_k_cons (mkCons (104 :: NL :: replicate 126 0) 0 0 0) demo_sched)) as (c' & io & E & _ & Q & _).
  - intros h. exists 0%nat. split; [simpl; lia|by compute].
  - split; [exact (outside_settled _ _ demo_sched_outside)|exact (demo_locks demo_sched eq_refl eq_refl)].
  - exists "lock". vm_compute. reflexivity.
  - reflexivity.
  - exact (demo_cons_wf 0 ltac:(lia)).
  - lia.
  - by compute.
  - exists c', io. split; [exact E|]. apply (f_equal snd) in Q. exact Q.
Defined.

Lemma consoleread_reads_witness : exists s m' c', consoleread (PT := demo_patience) 1 0 10 s = Ok 2 (set_k_mem m' (set_k_cons c' s)) /\ entered c' = [].
Proof.
  destruct demo_user_thread as (pt & m & fl & l & Hk & Ho & Hp & Hm & Hu). set (s := set_k_cons (mkCons (104 :: NL :: replicate 126 0) 0 2 2) (demo_user_state pt m fl)).
  assert (Ht : kthread 5 s) by (by apply kthread_set_k_cons). destruct (@consoleread_reads image demo_patience 5 (set_p_pagetable pt zero_proc) l s 0 10) as [H _].
  - split; [exact Ht|exact Hp| |exact (demo_cons_wf 2 ltac:(lia))]. apply (umem_same pt l (demo_user_state pt m fl)); [exact Hm|reflexivity|reflexivity|exact (kthread_kmem _ _ Ht)].
  - exists "lock". vm_compute. reflexivity.
  - lia.
  - lia.
  - lia.
  - destruct (H [104; NL] []) as (m' & c' & E & _ & Q & _); [reflexivity|intros i Hi; apply Hu; change (lenZ [104; NL]) with 2 in Hi; lz|]. exists s, m', c'. split; [exact E|exact Q].
Defined.
