(* ===== verification/FsLayout.v ===== *)
(** * On-disk formats ([kernel/fs.h], [struct logheader])

    The layout of the disk and the structures stored in blocks, as
    little-endian fields at byte offsets of a block. *)

From S2P Require Import Prelude Riscv State.

(** ** Definitions *)

Definition ROOTINO : Z := 1.
Definition BSIZE : Z := 1024.
Definition FSMAGIC : Z := 0x10203040.
Definition NDIRECT : Z := 12.
Definition NINDIRECT : Z := BSIZE / 4.
Definition MAXFILE : Z := NDIRECT + NINDIRECT.
(** [sizeof(struct dinode)] *)
Definition sizeof_dinode : Z := 64.
Definition IPB : Z := BSIZE / sizeof_dinode.
Definition IBLOCK (i : Z) (sb : superblock) : Z := u32 (i / IPB + sb_inodestart sb).
Definition BPB : Z := BSIZE * 8.
Definition BBLOCK (b : Z) (sb : superblock) : Z := u32 (b / BPB + sb_bmapstart sb).
Definition DIRSIZ : Z := 14.
(** [sizeof(struct dirent)] *)
Definition sizeof_dirent : Z := 16.
Definition T_DIR : Z := 1.
Definition T_FILE : Z := 2.
Definition T_DEVICE : Z := 3.

(** *** Fields of a byte array *)

(** [n] bytes at [off]; [bs] stored at [off]. *)
Definition get_bytes (d : list Z) (off n : Z) : list Z := take (Z.to_nat n) (drop (Z.to_nat off) d).
Definition put_bytes (d : list Z) (off : Z) (bs : list Z) : list Z :=
  take (Z.to_nat off) d ++ bs ++ drop (Z.to_nat off + length bs) d.

Definition get_u16 (d : list Z) (off : Z) : Z := le_combine (get_bytes d off 2).
Definition get_u32 (d : list Z) (off : Z) : Z := le_combine (get_bytes d off 4).
Definition put_u16 (d : list Z) (off v : Z) : list Z := put_bytes d off (le_split 2 v).
Definition put_u32 (d : list Z) (off v : Z) : list Z := put_bytes d off (le_split 4 v).
Definition get_i16 (d : list Z) (off : Z) : Z := i16 (get_u16 d off).
Definition get_i32 (d : list Z) (off : Z) : Z := i32 (get_u32 d off).

(** The [n] 32-bit words from [off] on. *)
Definition get_words (d : list Z) (off : Z) (n : nat) : list Z :=
  (fun i => get_u32 d (off + 4 * i)) <$> rangeZ 0 n.
Definition words_bytes (ws : list Z) : list Z := concat (le_split 4 <$> ws).

(** *** [struct superblock] *)

Definition sizeof_superblock : Z := 32.
Definition superblock_of (d : list Z) : superblock :=
  mkSuperblock (get_u32 d 0) (get_u32 d 4) (get_u32 d 8) (get_u32 d 12)
    (get_u32 d 16) (get_u32 d 20) (get_u32 d 24) (get_u32 d 28).

(** *** [struct dinode] *)

Record dinode := mkDinode {
  di_type : Z;
  di_major : Z;
  di_minor : Z;
  di_nlink : Z;
  di_size : Z;
  di_addrs : list Z;
}.

(** The inode at byte [off] of a block, and storing one there. *)
Definition get_dinode (d : list Z) (off : Z) : dinode :=
  mkDinode (get_i16 d off) (get_i16 d (off + 2)) (get_i16 d (off + 4)) (get_i16 d (off + 6))
    (get_u32 d (off + 8)) (get_words d (off + 12) (Z.to_nat (NDIRECT + 1))).
Definition dinode_bytes (di : dinode) : list Z :=
  le_split 2 (di_type di) ++ le_split 2 (di_major di) ++ le_split 2 (di_minor di) ++
  le_split 2 (di_nlink di) ++ le_split 4 (di_size di) ++ words_bytes (di_addrs di).
Definition put_dinode (d : list Z) (off : Z) (di : dinode) : list Z :=
  put_bytes d off (dinode_bytes di).

(** [(struct dinode * )bp->data + inum % IPB] *)
Definition dinode_off (inum : Z) : Z := sizeof_dinode * (inum mod IPB).

(** *** [struct dirent] *)

Record dirent := mkDirent {
  de_inum : Z;
  de_name : list Z;   (* DIRSIZ bytes *)
}.
Definition dirent_of (bs : list Z) : dirent := mkDirent (get_u16 bs 0) (get_bytes bs 2 DIRSIZ).
Definition dirent_bytes (de : dirent) : list Z := le_split 2 (de_inum de) ++ de_name de.

(** *** Well-formed structures *)

Definition is_bytes (bs : list Z) : Prop := Forall (fun b => 0 <= b < 256) bs.
Definition is_block (d : list Z) : Prop := lenZ d = BSIZE /\ is_bytes d.

Record dinode_wf (di : dinode) : Prop := {
  dw_type : - 2 ^ 15 <= di_type di < 2 ^ 15;
  dw_major : - 2 ^ 15 <= di_major di < 2 ^ 15;
  dw_minor : - 2 ^ 15 <= di_minor di < 2 ^ 15;
  dw_nlink : - 2 ^ 15 <= di_nlink di < 2 ^ 15;
  dw_size : 0 <= di_size di < 2 ^ 32;
  dw_addrs : lenZ (di_addrs di) = NDIRECT + 1;
  dw_words : Forall (fun a => 0 <= a < 2 ^ 32) (di_addrs di);
}.

(** ** Lemmas *)

Lemma get_bytes_lookup d off n i : 0 <= off ->
  lookupZ (get_bytes d off n) i = if (0 <=? i) && (i <? n) then lookupZ d (off + i) else None.
Proof.
  intros Ho. unfold get_bytes. rewrite lookupZ_take, lookupZ_drop.
  destruct (Z.leb_spec 0 i), (Z.ltb_spec i n), (Z.ltb_spec i (Z.of_nat (Z.to_nat n))), (Z.ltb_spec i 0);
    try lia; cbn [andb]; try done. f_equal. lia.
Qed.

Lemma lenZ_get_bytes d off n : 0 <= off -> 0 <= n -> off + n <= lenZ d -> lenZ (get_bytes d off n) = n.
Proof. intros. unfold get_bytes. rewrite lenZ_take, lenZ_drop. lia. Qed.

Lemma lenZ_put_bytes d off bs : 0 <= off -> off + lenZ bs <= lenZ d -> lenZ (put_bytes d off bs) = lenZ d.
Proof.
  intros. unfold put_bytes. rewrite !lenZ_app, lenZ_take, lenZ_drop. unfold lenZ in *. lia.
Qed.

Lemma put_bytes_lookup d off bs i : 0 <= off -> off + lenZ bs <= lenZ d ->
  lookupZ (put_bytes d off bs) i =
  if (off <=? i) && (i <? off + lenZ bs) then lookupZ bs (i - off) else lookupZ d i.
Proof.
  intros Ho Hl. unfold put_bytes. pose proof (lenZ_nonneg bs). rewrite !lookupZ_app, lookupZ_take, lookupZ_drop, lenZ_take.
  rewrite Z.min_l by lia. rewrite Z2Nat.id by lia.
  destruct (Z.ltb_spec i off), (Z.leb_spec off i); try lia; cbn [andb]; [done|].
  destruct (Z.ltb_spec (i - off) (lenZ bs)), (Z.ltb_spec i (off + lenZ bs)); try lia; [done|].
  destruct (Z.ltb_spec (i - off - lenZ bs) 0); [lia|]. f_equal. unfold lenZ in *. lia.
Qed.

(** Two arrays with the same bytes at [off .. off+n-1]. *)
Lemma get_bytes_ext d d' off off' n : 0 <= off -> 0 <= off' -> 0 <= n -> off + n <= lenZ d -> off' + n <= lenZ d' ->
  (forall i, 0 <= i < n -> lookupZ d (off + i) = lookupZ d' (off' + i)) -> get_bytes d off n = get_bytes d' off' n.
Proof.
  intros H1 H2 H3 H4 H5 He. apply list_eqZ; [by rewrite !lenZ_get_bytes|]. intros i Hi.
  rewrite lenZ_get_bytes in Hi by done. rewrite !get_bytes_lookup by done.
  destruct (Z.leb_spec 0 i), (Z.ltb_spec i n); try lia. cbn [andb]. apply He. lia.
Qed.

Lemma get_put_in d off bs a n : 0 <= off -> off + lenZ bs <= lenZ d -> 0 <= a -> 0 <= n -> a + n <= lenZ bs ->
  get_bytes (put_bytes d off bs) (off + a) n = get_bytes bs a n.
Proof.
  intros. apply get_bytes_ext; rewrite ?lenZ_put_bytes by done; try lia. intros i Hi.
  rewrite put_bytes_lookup by done.
  destruct (Z.leb_spec off (off + a + i)), (Z.ltb_spec (off + a + i) (off + lenZ bs)); try lia. cbn [andb]. f_equal. lia.
Qed.

Lemma get_put_out d off bs a n : 0 <= off -> off + lenZ bs <= lenZ d -> 0 <= a -> 0 <= n -> a + n <= lenZ d ->
  a + n <= off \/ off + lenZ bs <= a -> get_bytes (put_bytes d off bs) a n = get_bytes d a n.
Proof.
  intros. apply get_bytes_ext; rewrite ?lenZ_put_bytes by done; try lia. intros i Hi.
  rewrite put_bytes_lookup by done.
  destruct (Z.leb_spec off (a + i)), (Z.ltb_spec (a + i) (off + lenZ bs)); try lia; done.
Qed.

Lemma get_bytes_all d : get_bytes d 0 (lenZ d) = d.
Proof. unfold get_bytes, lenZ. rewrite Nat2Z.id. cbn [Z.to_nat drop]. by rewrite drop_0, firstn_all. Qed.

Lemma get_put_same d off bs : 0 <= off -> off + lenZ bs <= lenZ d ->
  get_bytes (put_bytes d off bs) off (lenZ bs) = bs.
Proof.
  intros. pose proof (lenZ_nonneg bs). rewrite <- (Z.add_0_r off) at 2. rewrite get_put_in by lia.
  apply get_bytes_all.
Qed.

Lemma get_bytes_app_l x y off n : 0 <= off -> 0 <= n -> off + n <= lenZ x ->
  get_bytes (x ++ y) off n = get_bytes x off n.
Proof.
  intros. pose proof (lenZ_nonneg y). apply get_bytes_ext; rewrite ?lenZ_app; try lia. intros i Hi.
  rewrite lookupZ_app. by destruct (Z.ltb_spec (off + i) (lenZ x)); [|lia].
Qed.

Lemma get_bytes_app_r x y off n : 0 <= off -> 0 <= n -> off + n <= lenZ y ->
  get_bytes (x ++ y) (lenZ x + off) n = get_bytes y off n.
Proof.
  intros. pose proof (lenZ_nonneg x). apply get_bytes_ext; rewrite ?lenZ_app; try lia. intros i Hi.
  rewrite lookupZ_app. destruct (Z.ltb_spec (lenZ x + off + i) (lenZ x)); [lia|]. f_equal. lia.
Qed.

Lemma lenZ_le_split n z : lenZ (le_split n z) = Z.of_nat n.
Proof. unfold lenZ. by rewrite length_le_split. Qed.

Lemma i16_u16 v : - 2 ^ 15 <= v < 2 ^ 15 -> i16 (v mod 2 ^ 16) = v.
Proof.
  intros H. unfold i16, signed. rewrite Zmod_mod. change (2 ^ (16 - 1)) with (2 ^ 15).
  destruct (Z.ltb_spec (v mod 2 ^ 16) (2 ^ 15)) as [Hlt|Hge]; Z.div_mod_to_equations; lia.
Qed.

Lemma is_bytes_put d off bs : is_bytes d -> is_bytes bs -> is_bytes (put_bytes d off bs).
Proof.
  intros Hd Hb. unfold put_bytes, is_bytes. rewrite !Forall_app. split_and!; [by apply Forall_take|done|by apply Forall_drop].
Qed.

Lemma is_bytes_get d off n : is_bytes d -> is_bytes (get_bytes d off n).
Proof. intros. by apply Forall_take, Forall_drop. Qed.

Lemma lenZ_words ws : lenZ (words_bytes ws) = 4 * lenZ ws.
Proof.
  unfold words_bytes. induction ws as [|w ws IH]; [done|].
  rewrite fmap_cons. cbn [concat]. rewrite lenZ_app, IH, lenZ_le_split, lenZ_cons. lia.
Qed.

Lemma words_roundtrip ws n : Forall (fun a => 0 <= a < 2 ^ 32) ws -> n = length ws ->
  get_words (words_bytes ws) 0 n = ws.
Proof.
  intros HF ->. induction HF as [|w ws Hw _ IH]; [done|]. unfold get_words in *. cbn [length rangeZ].
  rewrite fmap_cons. unfold words_bytes in *. rewrite fmap_cons. cbn [concat]. f_equal.
  - unfold get_u32. rewrite get_bytes_app_l by (rewrite ?lenZ_le_split; lia).
    change 4 with (lenZ (le_split 4 w)). cbn [Z.add Z.mul]. rewrite get_bytes_all, le_combine_split.
    apply Z.mod_small. lia.
  - rewrite <- IH at 2. rewrite (rangeZ_fmap (0 + 1)), <- list_fmap_compose. apply fmap_rangeZ_ext. intros i Hi.
    unfold compose, get_u32. f_equal. replace (0 + 4 * (0 + 1 + i)) with (lenZ (le_split 4 w) + (0 + 4 * i)).
    + apply get_bytes_app_r; try lia. pose proof (lenZ_words ws) as Hl. unfold words_bytes in Hl.
      unfold lenZ in *. lia.
    + rewrite lenZ_le_split. lia.
Qed.

Lemma lenZ_dinode_bytes di : lenZ (di_addrs di) = NDIRECT + 1 -> lenZ (dinode_bytes di) = sizeof_dinode.
Proof. intros H. unfold dinode_bytes. rewrite !lenZ_app, !lenZ_le_split, lenZ_words, H. reflexivity. Qed.

Lemma get_words_ext d d' off off' n :
  0 <= off -> 0 <= off' -> off + 4 * Z.of_nat n <= lenZ d -> off' + 4 * Z.of_nat n <= lenZ d' ->
  (forall i, 0 <= i < 4 * Z.of_nat n -> lookupZ d (off + i) = lookupZ d' (off' + i)) ->
  get_words d off n = get_words d' off' n.
Proof.
  intros H1 H2 H3 H4 He. unfold get_words. apply fmap_rangeZ_ext. intros i Hi. unfold get_u32. f_equal.
  apply get_bytes_ext; try lia. intros j Hj. rewrite <- !Z.add_assoc. apply He. lia.
Qed.

Lemma dinode_bytes_roundtrip di : dinode_wf di -> get_dinode (dinode_bytes di) 0 = di.
Proof.
  intros [H1 H2 H3 H4 H5 H6 H7]. unfold get_dinode, get_i16, get_u16, get_u32. rewrite !Z.add_0_l.
  change (get_bytes (dinode_bytes di) 0 2) with (le_split 2 (di_type di)).
  change (get_bytes (dinode_bytes di) 2 2) with (le_split 2 (di_major di)).
  change (get_bytes (dinode_bytes di) 4 2) with (le_split 2 (di_minor di)).
  change (get_bytes (dinode_bytes di) 6 2) with (le_split 2 (di_nlink di)).
  change (get_bytes (dinode_bytes di) 8 4) with (le_split 4 (di_size di)).
  rewrite !le_combine_split. change (256 ^ Z.of_nat 2) with (2 ^ 16). change (256 ^ Z.of_nat 4) with (2 ^ 32).
  rewrite !i16_u16, Z.mod_small by lia.
  assert (Hw : get_words (dinode_bytes di) 12 (Z.to_nat (NDIRECT + 1)) = di_addrs di); [|by rewrite Hw; destruct di].
  rewrite <- (words_roundtrip (di_addrs di) (Z.to_nat (NDIRECT + 1))) by (done || (unfold lenZ in H6; lia)).
  pose proof (lenZ_words (di_addrs di)). rewrite H6 in *.
  apply get_words_ext; rewrite ?lenZ_dinode_bytes by done; try (unfold NDIRECT, sizeof_dinode in *; lia).
  intros i Hi. unfold dinode_bytes. rewrite !app_assoc, lookupZ_app, !lenZ_app, !lenZ_le_split.
  match goal with |- context [?a <? ?b] => destruct (Z.ltb_spec a b); [lia|] end. f_equal. lia.
Qed.

(** An inode in an array of bytes depends on its 64 bytes only. *)
Lemma get_dinode_ext d d' off off' : 0 <= off -> 0 <= off' -> off + 64 <= lenZ d -> off' + 64 <= lenZ d' ->
  (forall i, 0 <= i < 64 -> lookupZ d (off + i) = lookupZ d' (off' + i)) -> get_dinode d off = get_dinode d' off'.
Proof.
  intros H1 H2 H3 H4 He.
  assert (HB : forall k n, 0 <= k -> 0 <= n -> k + n <= 64 -> get_bytes d (off + k) n = get_bytes d' (off' + k) n).
  { intros k n Hk Hn Hs. apply get_bytes_ext; try lia. intros i Hi. rewrite <- !Z.add_assoc. apply He. lia. }
  pose proof (HB 0 2) as HB0. rewrite !Z.add_0_r in HB0.
  unfold get_dinode, get_i16, get_u16, get_u32. rewrite HB0, !HB by lia. f_equal.
  apply get_words_ext; change (Z.of_nat (Z.to_nat (NDIRECT + 1))) with 13; try lia.
  intros i Hi. rewrite <- !Z.add_assoc. apply He. lia.
Qed.

Lemma dinode_off_range inum : 0 <= dinode_off inum /\ dinode_off inum + sizeof_dinode <= BSIZE.
Proof.
  unfold dinode_off. change IPB with 16. unfold sizeof_dinode, BSIZE.
  pose proof (Z.mod_pos_bound inum 16 ltac:(lia)). lia.
Qed.

Lemma get_put_dinode d inum di : lenZ d = BSIZE -> dinode_wf di ->
  get_dinode (put_dinode d (dinode_off inum) di) (dinode_off inum) = di.
Proof.
  intros Hd Hw. pose proof (dinode_off_range inum). pose proof (lenZ_dinode_bytes di (dw_addrs _ Hw)) as Hl.
  rewrite <- (dinode_bytes_roundtrip di Hw) at 2. unfold put_dinode, sizeof_dinode in *.
  apply get_dinode_ext; rewrite ?lenZ_put_bytes by lia; try lia. intros i Hi.
  rewrite put_bytes_lookup by lia. rewrite Hl.
  destruct (Z.leb_spec (dinode_off inum) (dinode_off inum + i)); [|lia].
  destruct (Z.ltb_spec (dinode_off inum + i) (dinode_off inum + 64)); [|lia]. cbn [andb]. f_equal. lia.
Qed.

Lemma get_put_dinode_ne d inum inum' di : lenZ d = BSIZE -> dinode_wf di -> dinode_off inum' <> dinode_off inum ->
  get_dinode (put_dinode d (dinode_off inum) di) (dinode_off inum') = get_dinode d (dinode_off inum').
Proof.
  intros Hd Hw Hne. pose proof (dinode_off_range inum). pose proof (dinode_off_range inum').
  pose proof (lenZ_dinode_bytes di (dw_addrs _ Hw)) as Hl. unfold put_dinode.
  assert (Hsep : dinode_off inum' + 64 <= dinode_off inum \/ dinode_off inum + 64 <= dinode_off inum').
  { unfold dinode_off, sizeof_dinode in *. lia. }
  unfold sizeof_dinode in *. apply get_dinode_ext; rewrite ?lenZ_put_bytes by lia; try lia. intros i Hi.
  rewrite put_bytes_lookup, Hl by lia.
  destruct (Z.leb_spec (dinode_off inum) (dinode_off inum' + i)); [|done].
  destruct (Z.ltb_spec (dinode_off inum' + i) (dinode_off inum + 64)); [lia|done].
Qed.

Lemma dirent_bytes_roundtrip de : 0 <= de_inum de < 2 ^ 16 -> lenZ (de_name de) = DIRSIZ ->
  dirent_of (dirent_bytes de) = de.
Proof.
  intros Hi Hn. unfold dirent_of, get_u16. change (get_bytes (dirent_bytes de) 0 2) with (le_split 2 (de_inum de)).
  rewrite le_combine_split. change (256 ^ Z.of_nat 2) with (2 ^ 16). rewrite Z.mod_small by lia.
  assert (HN : get_bytes (dirent_bytes de) 2 DIRSIZ = de_name de); [|by rewrite HN; destruct de].
  transitivity (get_bytes (de_name de) 0 DIRSIZ); [|rewrite <- Hn; apply get_bytes_all].
  apply (get_bytes_app_r (le_split 2 (de_inum de)) (de_name de) 0 DIRSIZ); unfold DIRSIZ in *; lia.
Qed.

Lemma is_block_put_dinode d inum di : is_block d -> dinode_wf di -> is_block (put_dinode d (dinode_off inum) di).
Proof.
  intros [Hl Hb] Hw. pose proof (dinode_off_range inum). pose proof (lenZ_dinode_bytes di (dw_addrs _ Hw)).
  split; [unfold put_dinode; rewrite lenZ_put_bytes; lia|]. apply is_bytes_put; [done|]. unfold dinode_bytes, is_bytes.
  rewrite !Forall_app. split_and!; try apply le_split_range. unfold words_bytes. apply Forall_concat, Forall_fmap.
  apply Forall_true. intros x. apply le_split_range.
Qed.

(** ** Properties *)

(** What is stored in a block is what is read back.  A well-formed inode
    stored in its slot of an inode block (as [iupdate] and [ialloc] do) is the
    inode found there ([ilock]), field by field, signed and unsigned; the
    other fifteen inodes of the block are unchanged and the block keeps its
    size.  A directory entry written as 16 bytes is read back the same. *)
Theorem ondisk_roundtrip d inum di de :
  is_block d -> dinode_wf di -> 0 <= de_inum de < 2 ^ 16 -> lenZ (de_name de) = DIRSIZ ->
  let d' := put_dinode d (dinode_off inum) di in
  is_block d' /\ get_dinode d' (dinode_off inum) = di /\
  (forall inum', inum' mod IPB <> inum mod IPB ->
    get_dinode d' (dinode_off inum') = get_dinode d (dinode_off inum')) /\
  lenZ (dirent_bytes de) = sizeof_dirent /\ dirent_of (dirent_bytes de) = de.
Proof.
  intros Hd Hw Hi Hn. cbv zeta. split; [by apply is_block_put_dinode|]. split; [apply get_put_dinode; [apply Hd|done]|].
  split; [intros inum' Hne; apply get_put_dinode_ne; [apply Hd|done|]; unfold dinode_off, sizeof_dinode; lia|].
  split; [unfold dirent_bytes; rewrite lenZ_app, lenZ_le_split, Hn; done|]. by apply dirent_bytes_roundtrip.
Qed.

Definition demo_dinode : dinode := mkDinode T_DEVICE (-1) 0 1 70000 (replicate 13 0x12345678).

Lemma ondisk_roundtrip_witness :
  get_dinode (put_dinode (replicate 1024 0) (dinode_off 35) demo_dinode) 192 = demo_dinode.
Proof.
  apply (ondisk_roundtrip (replicate 1024 0) 35 demo_dinode (mkDirent 1 (replicate 14 0))); [| |simpl; lia|reflexivity].
  - split; [reflexivity|]. apply Forall_replicate. lia.
  - split; cbn [demo_dinode di_type di_major di_minor di_nlink di_size di_addrs]; unfold T_DEVICE; try lia; [done|].
    apply Forall_replicate. lia.
Defined.
