(* ===== verification/Ring.v ===== *)
(** * Circular doubly linked lists

    The shape of the LRU list of [kernel/bio.c]: a ring of nodes through a
    head, given by the functions [nx] and [pv] that follow [next] and [prev].
    The lemmas are the two changes the code makes to it, taking a node out and
    putting one in after the head. *)

From S2P Require Import Prelude.

(** ** Definitions *)

(** [x] is directly followed by [y] in [l]. *)
Definition adj {A} (l : list A) (x y : A) : Prop := exists a c, l = a ++ x :: y :: c.

(** The nodes of the ring through [hd] are [l], in the order of [nx]. *)
Definition ring (hd : Z) (nx pv : Z -> Z) (l : list Z) : Prop :=
  NoDup (hd :: l) /\ forall x y, adj (hd :: l ++ [hd]) x y -> nx x = y /\ pv y = x.

(** ** Lemmas *)

Section Adj.
Context {A : Type}.
Implicit Types (l : list A) (x y : A).

Lemma adj_cons z w l x y : adj (z :: w :: l) x y <-> x = z /\ y = w \/ adj (w :: l) x y.
Proof.
  split.
  - intros (a & c & E). destruct a as [|a0 a]; simplify_eq/=; [by left|right]. by exists a, c.
  - intros [[-> ->]|(a & c & E)]; [by exists [], l|]. exists (z :: a), c. by rewrite E.
Qed.

Lemma adj_nil x y : ~ adj [] x y.
Proof. intros (a & c & E). by destruct a. Qed.

Lemma adj_one z x y : ~ adj [z] x y.
Proof. intros (a & c & E). destruct a as [|? [|]]; done. Qed.

Lemma adj_app l1 z w l2 x y :
  adj (l1 ++ z :: w :: l2) x y <-> adj (l1 ++ [z]) x y \/ x = z /\ y = w \/ adj (w :: l2) x y.
Proof.
  induction l1 as [|u l1 IH]; cbn [app].
  - rewrite adj_cons. split; [tauto|]. intros [H|H]; [by apply adj_one in H|done].
  - destruct l1 as [|u' l1]; cbn [app] in *; rewrite !(adj_cons u), IH; tauto.
Qed.

Lemma adj_elem l x y : adj l x y -> x ∈ l /\ y ∈ l.
Proof. intros (a & c & ->). set_solver. Qed.

Lemma app_one_head l x w l' : l ++ [x] = w :: l' -> w ∈ x :: l.
Proof. destruct l as [|z l]; cbn [app]; intros E; injection E as <- <-; set_solver. Qed.

Lemma cons_last l x u l' : x :: l = l' ++ [u] -> u ∈ x :: l.
Proof. intros ->. set_solver. Qed.

Lemma app_mid_inj l1 x l2 k1 k2 : NoDup (l1 ++ x :: l2) -> l1 ++ x :: l2 = k1 ++ x :: k2 -> k1 = l1 /\ k2 = l2.
Proof.
  revert k1. induction l1 as [|y l1 IH]; intros [|z k1] HD E; cbn [app] in *; injection E.
  - done.
  - intros E1 <-. rewrite E1 in HD. apply NoDup_cons in HD as [HD _]. set_solver.
  - intros <- ->. apply NoDup_cons in HD as [HD _]. set_solver.
  - intros E1 <-. apply NoDup_cons in HD as [_ HD]. destruct (IH k1 HD E1) as [-> ->]. done.
Qed.

Lemma elem_skip l1 b l2 x h : x ∈ h :: l1 ++ l2 -> x ∈ h :: l1 ++ b :: l2.
Proof. set_solver. Qed.

End Adj.

Section Ring.
Context (hd : Z).

Lemma ring_ext nx pv nx' pv' l :
  (forall x, x ∈ hd :: l -> nx' x = nx x) -> (forall x, x ∈ hd :: l -> pv' x = pv x) ->
  ring hd nx pv l -> ring hd nx' pv' l.
Proof.
  intros Hn Hp [Hd H]. split; [done|]. intros x y Hxy. destruct (adj_elem _ _ _ Hxy) as [Hx Hy].
  rewrite Hn, Hp by set_solver. by apply H.
Qed.

Lemma ring_nil nx pv : nx hd = hd -> pv hd = hd -> ring hd nx pv [].
Proof.
  intros Hn Hp. split; [apply NoDup_singleton|]. intros x y H. cbn [app] in H. apply adj_cons in H as [[-> ->]|H]; [done|].
  by apply adj_one in H.
Qed.

(** The neighbours of a node. *)
Lemma ring_around nx pv l1 b l2 : ring hd nx pv (l1 ++ b :: l2) ->
  exists u l1' w l2', hd :: l1 = l1' ++ [u] /\ l2 ++ [hd] = w :: l2' /\
    pv b = u /\ nx u = b /\ nx b = w /\ pv w = b.
Proof.
  intros [_ H]. destruct (@exists_last _ (hd :: l1) ltac:(done)) as (l1' & u & E1).
  destruct (l2 ++ [hd]) as [|w l2'] eqn:E2; [by destruct l2|]. exists u, l1', w, l2'.
  assert (E : hd :: (l1 ++ b :: l2) ++ [hd] = l1' ++ u :: b :: w :: l2').
  { rewrite <- app_assoc. cbn [app]. rewrite E2. change (hd :: l1 ++ b :: w :: l2') with ((hd :: l1) ++ b :: w :: l2').
    by rewrite E1, <- app_assoc. }
  rewrite E in H. split_and!; try done.
  - apply H. by exists l1', (w :: l2').
  - apply H. by exists l1', (w :: l2').
  - apply (H b w). exists (l1' ++ [u]), l2'. by rewrite <- app_assoc.
  - apply (H b w). exists (l1' ++ [u]), l2'. by rewrite <- app_assoc.
Qed.

Lemma ring_first nx pv l : ring hd nx pv l -> exists w l', l ++ [hd] = w :: l' /\ nx hd = w /\ pv w = hd.
Proof.
  intros [_ H]. destruct (l ++ [hd]) as [|w l'] eqn:E; [by destruct l|]. exists w, l'. split; [done|].
  apply H. by exists [], l'.
Qed.

Lemma ring_last nx pv l : ring hd nx pv l -> exists u l', hd :: l = l' ++ [u] /\ pv hd = u /\ nx u = hd.
Proof.
  intros [_ H]. destruct (@exists_last _ (hd :: l) ltac:(done)) as (l' & u & E). exists u, l'. split; [done|].
  change (hd :: l ++ [hd]) with ((hd :: l) ++ [hd]) in H. rewrite E, <- app_assoc in H.
  destruct (H u hd) as [? ?]; [by exists l', []|done].
Qed.

Lemma ring_unlink nx pv nx' pv' l1 b l2 : ring hd nx pv (l1 ++ b :: l2) ->
  (forall x, x <> b -> nx' x = if x =? pv b then nx b else nx x) ->
  (forall y, y <> b -> pv' y = if y =? nx b then pv b else pv y) -> ring hd nx' pv' (l1 ++ l2).
Proof.
  intros HR Hnx Hpv. destruct (ring_around _ _ _ _ _ HR) as (u & l1' & w & l2' & E1 & E2 & Hpb & Hnu & Hnb & Hpw).
  destruct HR as [Hd H].
  assert (Hd' : NoDup (hd :: l1 ++ l2) /\ b ∉ hd :: l1 ++ l2).
  { rewrite NoDup_cons, NoDup_app in Hd. rewrite NoDup_cons, NoDup_app. rewrite NoDup_cons in Hd. set_solver. }
  destruct Hd' as [Hd' Hb]. split; [done|]. intros x y Hxy.
  assert (Hx : x <> b /\ y <> b).
  { destruct (adj_elem _ _ _ Hxy). split; intros ->; set_solver. }
  destruct Hx as [Hx Hy]. rewrite Hnx, Hpv, Hpb, Hnb by done.
  assert (E : hd :: (l1 ++ b :: l2) ++ [hd] = l1' ++ u :: b :: w :: l2').
  { rewrite <- app_assoc. cbn [app]. rewrite E2. change (hd :: l1 ++ b :: w :: l2') with ((hd :: l1) ++ b :: w :: l2').
    by rewrite E1, <- app_assoc. }
  assert (E' : hd :: (l1 ++ l2) ++ [hd] = l1' ++ u :: w :: l2').
  { rewrite <- app_assoc, E2. change (hd :: l1 ++ w :: l2') with ((hd :: l1) ++ w :: l2').
    by rewrite E1, <- app_assoc. }
  rewrite E' in Hxy. apply adj_app in Hxy as [Hxy|[[-> ->]|Hxy]].
  - destruct (H x y) as [Hn Hp]; [rewrite E; apply adj_app; by left|].
    destruct (Z.eqb_spec x u) as [->|]; [congruence|]. destruct (Z.eqb_spec y w) as [->|]; [congruence|]. done.
  - by rewrite !Z.eqb_refl.
  - destruct (H x y) as [Hn Hp].
    { rewrite E. apply adj_app. right. right. apply adj_cons. by right. }
    destruct (Z.eqb_spec x u) as [->|]; [congruence|]. destruct (Z.eqb_spec y w) as [->|]; [congruence|]. done.
Qed.

Lemma ring_push nx pv nx' pv' b l : ring hd nx pv l -> b ∉ hd :: l ->
  nx' hd = b -> nx' b = nx hd -> (forall x, x <> hd -> x <> b -> nx' x = nx x) ->
  pv' (nx hd) = b -> pv' b = hd -> (forall y, y <> nx hd -> y <> b -> pv' y = pv y) -> ring hd nx' pv' (b :: l).
Proof.
  intros HR Hb N1 N2 N3 P1 P2 P3. destruct (ring_first _ _ _ HR) as (w & l' & E & Hn & Hp). destruct HR as [Hd H].
  rewrite Hn in *. split; [rewrite !NoDup_cons in *; set_solver|]. intros x y Hxy. cbn [app] in Hxy. rewrite E in Hxy, H.
  apply adj_cons in Hxy as [[-> ->]|Hxy]; [done|]. apply adj_cons in Hxy as [[-> ->]|Hxy]; [by rewrite N2|].
  destruct (H x y) as [Hnx Hpy]; [apply adj_cons; by right|].
  assert (Hxl : x ∈ hd :: l /\ y ∈ hd :: l).
  { destruct (adj_elem _ _ _ Hxy). rewrite <- E in *. set_solver. }
  assert (x <> hd).
  { intros ->. apply (proj1 (NoDup_cons hd l)) in Hd as [Hhd _]. destruct Hxy as (a & c & E3). rewrite <- E in E3.
    destruct (decide (a = [])) as [->|Ha]; cbn [app] in E3.
    - destruct l as [|? l]; simplify_eq/=. set_solver.
    - apply Hhd. destruct c as [|c0 c].
      + assert (E4 : l ++ [hd] = (a ++ [hd]) ++ [y]) by (by rewrite <- app_assoc).
        apply app_inj_tail in E4 as [-> _]. set_solver.
      + destruct (@exists_last _ (c0 :: c) ltac:(done)) as (c' & z & E4). rewrite E4 in E3.
        assert (E5 : l ++ [hd] = (a ++ hd :: y :: c') ++ [z]) by (by rewrite <- app_assoc).
        apply app_inj_tail in E5 as [-> _]. set_solver. }
  rewrite N3, P3; [done| | |done|]; set_solver.
Qed.

Lemma ring_follow nx l l' x : hd ∉ l -> hd ∉ l' ->
  (forall a b, adj (x :: l ++ [hd]) a b -> nx a = b) -> (forall a b, adj (x :: l' ++ [hd]) a b -> nx a = b) -> l = l'.
Proof.
  revert l' x. induction l as [|y l IH]; intros [|y' l'] x H1 H2 A1 A2; cbn [app] in *; [done|exfalso|exfalso|].
  - pose proof (A1 x hd ltac:(by exists [], [])) as E1. pose proof (A2 x y' ltac:(by eexists [], _)) as E2. set_solver.
  - pose proof (A1 x y ltac:(by eexists [], _)) as E1. pose proof (A2 x hd ltac:(by exists [], [])) as E2. set_solver.
  - pose proof (A1 x y ltac:(by eexists [], _)) as E1. pose proof (A2 x y' ltac:(by eexists [], _)) as E2.
    rewrite E1 in E2. subst y'. f_equal. apply (IH l' y); [set_solver|set_solver| |].
    + intros a b Hab. apply A1, adj_cons. by right.
    + intros a b Hab. apply A2, adj_cons. by right.
Qed.

Lemma ring_unique nx pv l l' : ring hd nx pv l -> ring hd nx pv l' -> l = l'.
Proof.
  intros [D1 A1] [D2 A2]. apply NoDup_cons in D1 as [D1 _], D2 as [D2 _].
  apply (ring_follow nx l l' hd D1 D2); intros a b Hab; [by apply A1|by apply A2].
Qed.

End Ring.
