(* ===== verification/Bio.v ===== *)
(** * The buffer cache ([kernel/bio.c])

    The cache is the array [bcache.buf] with the head of the LRU list at index
    [NBUF]; [prev] and [next] are indices.  The disk driver is an interface:
    [virtio_disk_rw] and what the cache relies on of it; [Virtio] implements
    it. *)

From S2P Require Import Prelude Riscv State Spinlock Sched Sleeplock FsLayout Ring.

(** ** Definitions *)

(** [&bcache.head] *)
Definition HEAD : Z := NBUF.

Definition binit_body (b : Z) : M (option unit) :=
  hd <- get_buf HEAD;;
  bb <- get_buf b;;
  put_buf b (set_b_prev HEAD (set_b_next (b_next hd) bb));;
  initsleeplock (SL_buf b) "buffer";;
  hd <- get_buf HEAD;;
  nb <- get_buf (b_next hd);;
  put_buf (b_next hd) (set_b_prev b nb);;
  hd <- get_buf HEAD;;
  put_buf HEAD (set_b_next b hd);;
  ret None.

Definition binit : M unit :=
  initlock L_bcache "bcache";;
  hd <- get_buf HEAD;;
  put_buf HEAD (set_b_next HEAD (set_b_prev HEAD hd));;
  for_loop (Z.to_nat NBUF) 0 binit_body;;
  ret tt.

(** Buffers to look through before the list has come back to its head. *)
Definition bget_fuel : nat := S (Z.to_nat NBUF).

(** The two scans of [bget]: along [next] for the block, along [prev] for an
    unused buffer.  They stop at the head. *)
Definition scan_cached (dev blockno b : Z) : M (Z + option Z) :=
  if b =? HEAD then ret (inr None) else
  bb <- get_buf b;;
  if (b_dev bb =? dev) && (b_blockno bb =? blockno) then ret (inr (Some b))
  else ret (inl (b_next bb)).

Definition scan_unused (b : Z) : M (Z + option Z) :=
  if b =? HEAD then ret (inr None) else
  bb <- get_buf b;;
  if b_refcnt bb =? 0 then ret (inr (Some b)) else ret (inl (b_prev bb)).

Section Bio.
Context {PT : Patience}.

Definition bget (dev blockno : Z) : M Z :=
  acquire L_bcache;;
  hd <- get_buf HEAD;;
  r <- loop bget_fuel (scan_cached dev blockno) (b_next hd);;
  match r with
  | Some b =>
      bb <- get_buf b;;
      put_buf b (set_b_refcnt (u32 (b_refcnt bb + 1)) bb);;
      release L_bcache;;
      acquiresleep (SL_buf b);;
      ret b
  | None =>
      hd <- get_buf HEAD;;
      r <- loop bget_fuel scan_unused (b_prev hd);;
      match r with
      | Some b =>
          bb <- get_buf b;;
          put_buf b (set_b_refcnt 1 (set_b_valid 0 (set_b_blockno blockno (set_b_dev dev bb))));;
          release L_bcache;;
          acquiresleep (SL_buf b);;
          ret b
      | None => panic "bget: no buffers"
      end
  end.

End Bio.

(** The disk driver: [virtio_disk_rw b write]. *)
Class DiskDriver := virtio_disk_rw : Z -> bool -> M unit.

Section Driver.
Context {PT : Patience} {DD : DiskDriver}.

Definition bread (dev blockno : Z) : M Z :=
  b <- bget dev blockno;;
  bb <- get_buf b;;
  when (negb (truth (b_valid bb)))
    (virtio_disk_rw b false;;
     bb <- get_buf b;;
     put_buf b (set_b_valid 1 bb));;
  ret b.

Definition bwrite (b : Z) : M unit :=
  h <- holdingsleep (SL_buf b);;
  if negb h then panic "bwrite" else
  virtio_disk_rw b true.

End Driver.

(** Take [b] out of the list and put it in after the head. *)
Definition bmove (b : Z) : M unit :=
  bb <- get_buf b;;
  nb <- get_buf (b_next bb);;
  put_buf (b_next bb) (set_b_prev (b_prev bb) nb);;
  bb <- get_buf b;;
  pb <- get_buf (b_prev bb);;
  put_buf (b_prev bb) (set_b_next (b_next bb) pb);;
  hd <- get_buf HEAD;;
  bb <- get_buf b;;
  put_buf b (set_b_prev HEAD (set_b_next (b_next hd) bb));;
  hd <- get_buf HEAD;;
  nb <- get_buf (b_next hd);;
  put_buf (b_next hd) (set_b_prev b nb);;
  hd <- get_buf HEAD;;
  put_buf HEAD (set_b_next b hd).

Definition brelse (b : Z) : M unit :=
  h <- holdingsleep (SL_buf b);;
  if negb h then panic "brelse" else
  releasesleep (SL_buf b);;
  acquire L_bcache;;
  bb <- get_buf b;;
  put_buf b (set_b_refcnt (u32 (b_refcnt bb - 1)) bb);;
  bb <- get_buf b;;
  when (b_refcnt bb =? 0) (bmove b);;
  release L_bcache.

Definition bpin (b : Z) : M unit :=
  acquire L_bcache;;
  bb <- get_buf b;;
  put_buf b (set_b_refcnt (u32 (b_refcnt bb + 1)) bb);;
  release L_bcache.

Definition bunpin (b : Z) : M unit :=
  acquire L_bcache;;
  bb <- get_buf b;;
  put_buf b (set_b_refcnt (u32 (b_refcnt bb - 1)) bb);;
  release L_bcache.

(** The data of a buffer. *)
Definition get_data (b : Z) : M (list Z) := bb <- get_buf b;; ret (b_data bb).
Definition put_data (b : Z) (d : list Z) : M unit := bb <- get_buf b;; put_buf b (set_b_data d bb).

(** *** The disk *)

Definition zero_block : list Z := replicate (Z.to_nat BSIZE) 0.
Definition dblock (d : disk_dev) (n : Z) : list Z := default zero_block (d_blocks d !! n).
Definition dwrite (n : Z) (x : list Z) (d : disk_dev) : disk_dev :=
  mkDisk (<[n := x]> (d_blocks d)) (d_writes d ++ [(n, x)]).

(** What [virtio_disk_rw b write] moves between the disk and the buffer. *)
Definition transfer (b : Z) (bb : buf) (write : bool) (s : kstate) : kstate :=
  if write then set_k_disk (dwrite (b_blockno bb) (b_data bb) (k_disk s)) s
  else set_k_bcache (insertZ b (set_b_data (dblock (k_disk s) (b_blockno bb)) bb) (k_bcache s)) s.

(** What the layers above rely on of the driver: called by a running process
    it returns with the block moved; on the side other processes may have
    been woken, and registers and rings of the device have changed. *)
Class DiskLaws `{DD : DiskDriver} := {
  disk_ready : kstate -> Prop;
  disk_blocks : Z;
  disk_blocks_max : disk_blocks <= 2 ^ 31;
  disk_ready_ext : forall s s', k_vdisk s' = k_vdisk s -> disk_ready s -> disk_ready s';
  disk_rw_ok : forall en p pid s b bb write,
    running en p pid s -> disk_ready s -> 0 <= b < NBUF ->
    lookupZ (k_bcache s) b = Some bb -> b_disk bb = 0 -> 0 <= b_blockno bb < disk_blocks ->
    exists ps vd io, woken_by (Some p) (k_proc s) ps /\
      let s' := set_k_mmio io (set_k_vdisk vd (set_k_proc ps (transfer b bb write s))) in
      disk_ready s' /\ virtio_disk_rw b write s = Ok tt s';
}.

(** *** The state of the cache *)

Definition nextb (bufs : list buf) (b : Z) : Z := default (-1) (b_next <$> lookupZ bufs b).
Definition prevb (bufs : list buf) (b : Z) : Z := default (-1) (b_prev <$> lookupZ bufs b).

(** [b] holds block [n] of the disk. *)
Definition caches (bb : buf) (n : Z) : Prop := b_dev bb = ROOTDEV /\ b_blockno bb = n.
#[global] Instance caches_dec bb n : Decision (caches bb n).
Proof. unfold caches. apply _. Defined.

(** The logical contents of block [n]: the cached copy if there is one. *)
Definition view (s : kstate) (n : Z) : list Z :=
  match find (fun bb => bool_decide (caches bb n)) (take (Z.to_nat NBUF) (k_bcache s)) with
  | Some bb => b_data bb
  | None => dblock (k_disk s) n
  end.

Definition count (P : Prop) `{Decision P} : Z := if bool_decide P then 1 else 0.

(** The buffers from the most to the least recently used. *)
Definition lru (s : kstate) (order : list Z) : Prop :=
  ring HEAD (nextb (k_bcache s)) (prevb (k_bcache s)) order.

(** A thread with [pid] holds the buffers [H], the log has pinned the blocks
    [P], and nobody else uses the cache. *)
Record buf_ok `{DL : DiskLaws} (pid : Z) (H P : list Z) (s : kstate) (b : Z) (bb : buf) : Prop := {
  bo_data : is_block (b_data bb);
  bo_disk : b_disk bb = 0;
  bo_dev : b_dev bb = 0 \/ b_dev bb = ROOTDEV /\ b_valid bb = 1 /\ 0 <= b_blockno bb < disk_blocks;
  bo_ref : b_refcnt bb = count (b ∈ H) + count (b_dev bb = ROOTDEV /\ b_blockno bb ∈ P);
  bo_free : b ∉ H -> sleep_free (SL_buf b) s;
  bo_held : b ∈ H -> sleep_held (SL_buf b) pid s /\ b_dev bb = ROOTDEV;
  bo_clean : b ∉ H -> b_dev bb = ROOTDEV -> b_blockno bb ∉ P -> b_data bb = dblock (k_disk s) (b_blockno bb);
}.

Record bio_inv `{DL : DiskLaws} (pid : Z) (H P : list Z) (s : kstate) : Prop := {
  bi_ready : disk_ready s;
  bi_len : lenZ (k_bcache s) = NBUF + 1;
  bi_ring : exists order, ring HEAD (nextb (k_bcache s)) (prevb (k_bcache s)) order /\ order ≡ₚ rangeZ 0 (Z.to_nat NBUF);
  bi_buf : forall b bb, b < NBUF -> lookupZ (k_bcache s) b = Some bb -> buf_ok pid H P s b bb;
  bi_uniq : forall b b' bb bb' n, b < NBUF -> b' < NBUF -> lookupZ (k_bcache s) b = Some bb ->
    lookupZ (k_bcache s) b' = Some bb' -> caches bb n -> caches bb' n -> b = b';
  bi_pins : forall n, n ∈ P -> exists b bb, b < NBUF /\ lookupZ (k_bcache s) b = Some bb /\ caches bb n;
  bi_held : NoDup H /\ forall b, b ∈ H -> 0 <= b < NBUF;
  bi_disk : forall n, is_block (dblock (k_disk s) n);
}.

(** What changes while a thread of process [p] uses the cache. *)
Definition bstep (p : Z) (s s' : kstate) : Prop :=
  exists ps sl bc dk vd io, woken_by (Some p) (k_proc s) ps /\
    s' = set_k_mmio io (set_k_vdisk vd (set_k_disk dk (set_k_bcache bc (set_k_sleeplocks sl (set_k_proc ps s))))).

(** ** Lemmas *)

(** *** The frame *)

Lemma bstep_refl p s : bstep p s s.
Proof.
  exists (k_proc s), (k_sleeplocks s), (k_bcache s), (k_disk s), (k_vdisk s), (k_mmio s).
  split; [reflexivity|by destruct s].
Qed.

Lemma bstep_trans p s s' s'' : bstep p s s' -> bstep p s' s'' -> bstep p s s''.
Proof.
  intros (ps & sl & bc & dk & vd & io & Hw & ->) (ps' & sl' & bc' & dk' & vd' & io' & Hw' & ->).
  exists ps', sl', bc', dk', vd', io'. split; [|done]. simpl in Hw'. by rewrite Hw.
Qed.

#[global] Instance bstep_preorder p : PreOrder (bstep p).
Proof. split; [exact (bstep_refl p)|exact (bstep_trans p)]. Qed.

Section Bstep.
Context (p : Z) (s : kstate).

Lemma bstep_set_k_bcache v : bstep p s (set_k_bcache v s).
Proof. exists (k_proc s), (k_sleeplocks s), v, (k_disk s), (k_vdisk s), (k_mmio s). split; [reflexivity|by destruct s]. Qed.
Lemma bstep_set_k_disk v : bstep p s (set_k_disk v s).
Proof. exists (k_proc s), (k_sleeplocks s), (k_bcache s), v, (k_vdisk s), (k_mmio s). split; [reflexivity|by destruct s]. Qed.
Lemma bstep_set_k_sleeplocks v : bstep p s (set_k_sleeplocks v s).
Proof. exists (k_proc s), v, (k_bcache s), (k_disk s), (k_vdisk s), (k_mmio s). split; [reflexivity|by destruct s]. Qed.
Lemma bstep_set_k_vdisk v : bstep p s (set_k_vdisk v s).
Proof. exists (k_proc s), (k_sleeplocks s), (k_bcache s), (k_disk s), v, (k_mmio s). split; [reflexivity|by destruct s]. Qed.
Lemma bstep_set_k_mmio v : bstep p s (set_k_mmio v s).
Proof. exists (k_proc s), (k_sleeplocks s), (k_bcache s), (k_disk s), (k_vdisk s), v. split; [reflexivity|by destruct s]. Qed.
Lemma bstep_set_k_proc v : woken_by (Some p) (k_proc s) v -> bstep p s (set_k_proc v s).
Proof. exists v, (k_sleeplocks s), (k_bcache s), (k_disk s), (k_vdisk s), (k_mmio s). split; [done|by destruct s]. Qed.
Lemma bstep_wake ch : bstep p s (wake_st ch p s).
Proof. apply bstep_set_k_proc, woken_by_woken. Qed.

End Bstep.

Create HintDb bstep.
#[export] Hint Resolve bstep_refl bstep_set_k_bcache bstep_set_k_disk bstep_set_k_sleeplocks bstep_set_k_vdisk
  bstep_set_k_mmio bstep_set_k_proc bstep_wake : bstep.

Lemma bstep_running en p pid s s' : bstep p s s' -> running en p pid s -> running en p pid s'.
Proof. intros (ps & sl & bc & dk & vd & io & Hw & ->). by apply running_ext. Qed.

Lemma bstep_same p s s' : bstep p s s' ->
  k_log s' = k_log s /\ k_sb s' = k_sb s /\ k_itable s' = k_itable s /\ k_mem s' = k_mem s /\
  k_freelist s' = k_freelist s /\ k_ftable s' = k_ftable s.
Proof. intros (ps & sl & bc & dk & vd & io & Hw & ->). done. Qed.

(** *** The two scans *)

Lemma ring_next bufs order pre b suf bb :
  ring HEAD (nextb bufs) (prevb bufs) order -> order = pre ++ b :: suf -> lookupZ bufs b = Some bb ->
  exists w l', suf ++ [HEAD] = w :: l' /\ b_next bb = w.
Proof.
  intros HR -> Hb. destruct (ring_around _ _ _ _ _ _ HR) as (u & l1' & w & l2' & _ & E2 & _ & _ & Hnb & _).
  exists w, l2'. split; [done|]. unfold nextb in Hnb. by rewrite Hb in Hnb.
Qed.

Lemma ring_prev bufs order pre b suf bb :
  ring HEAD (nextb bufs) (prevb bufs) order -> order = pre ++ b :: suf -> lookupZ bufs b = Some bb ->
  exists u l', HEAD :: pre = l' ++ [u] /\ b_prev bb = u.
Proof.
  intros HR -> Hb. destruct (ring_around _ _ _ _ _ _ HR) as (u & l1' & w & l2' & E1 & _ & Hpb & _).
  exists u, l1'. split; [done|]. unfold prevb in Hpb. by rewrite Hb in Hpb.
Qed.

Section Scan.
Context (bufs : list buf) (order : list Z).
Context (HR : ring HEAD (nextb bufs) (prevb bufs) order).
Context (Hin : forall b, b ∈ order -> exists bb, lookupZ bufs b = Some bb).

Lemma order_not_head b : b ∈ order -> b <> HEAD.
Proof. intros Hb ->. destruct HR as [Hd _]. apply NoDup_cons in Hd as [Hd _]. done. Qed.

Lemma scan_cached_ok dev n s : k_bcache s = bufs -> forall suf pre fuel b0 l0,
  order = pre ++ suf -> suf ++ [HEAD] = b0 :: l0 -> (length suf < fuel)%nat ->
  exists r, loop fuel (scan_cached dev n) b0 s = Ok r s /\
    match r with
    | Some b => b ∈ suf /\ exists bb, lookupZ bufs b = Some bb /\ b_dev bb = dev /\ b_blockno bb = n
    | None => forall b bb, b ∈ suf -> lookupZ bufs b = Some bb -> ~ (b_dev bb = dev /\ b_blockno bb = n)
    end.
Proof.
  intros Hs. induction suf as [|b suf IH]; intros pre fuel b0 l0 E E0 Hf; (destruct fuel as [|fuel]; [simpl in Hf; lia|]).
  - injection E0 as <- <-. exists None. split; [|set_solver]. apply loop_stop. unfold scan_cached. by rewrite Z.eqb_refl.
  - injection E0 as <- E0. assert (Hbo : b ∈ order) by set_solver.
    destruct (Hin b Hbo) as [bb Hb]. pose proof (order_not_head b Hbo).
    destruct (ring_next _ _ _ _ _ _ HR E Hb) as (w & l' & E1 & Hn).
    assert (Hbody : scan_cached dev n b s = Ok (if (b_dev bb =? dev) && (b_blockno bb =? n) then inr (Some b)
      else inl (b_next bb)) s).
    { unfold scan_cached. destruct (Z.eqb_spec b HEAD); [done|].
      erewrite bind_ok by (apply run_get_buf; by rewrite Hs). by destruct (_ && _). }
    destruct ((b_dev bb =? dev) && (b_blockno bb =? n)) eqn:Em.
    + exists (Some b). split; [by apply loop_stop|]. split; [set_solver|]. exists bb. zbool. done.
    + destruct (IH (pre ++ [b]) fuel w l') as (r & HL & Hr); [by rewrite <- app_assoc|done|simpl in Hf; lia|].
      exists r. split; [erewrite loop_next by exact Hbody; by rewrite Hn|]. destruct r as [b'|]; [set_solver|].
      intros b' bb' Hb' Hl [Hd Hbn]. apply elem_of_cons in Hb' as [->|Hb']; [|by eapply Hr].
      rewrite Hb in Hl. injection Hl as <-. rewrite Hd, Hbn, !Z.eqb_refl in Em. done.
Qed.

Lemma scan_unused_ok s : k_bcache s = bufs -> forall pre suf fuel b0 l0,
  order = pre ++ suf -> HEAD :: pre = l0 ++ [b0] -> (length pre < fuel)%nat ->
  exists r, loop fuel scan_unused b0 s = Ok r s /\
    match r with
    | Some b => exists p1 p2 bb, pre = p1 ++ b :: p2 /\ lookupZ bufs b = Some bb /\ b_refcnt bb = 0 /\
        forall b' bb', b' ∈ p2 -> lookupZ bufs b' = Some bb' -> b_refcnt bb' <> 0
    | None => forall b bb, b ∈ pre -> lookupZ bufs b = Some bb -> b_refcnt bb <> 0
    end.
Proof.
  intros Hs pre. induction pre as [|b pre IH] using rev_ind; intros suf fuel b0 l0 E E0 Hf;
    (destruct fuel as [|fuel]; [lia|]).
  - destruct l0 as [|? [|]]; simplify_eq/=. exists None. split; [|set_solver]. apply loop_stop. unfold scan_unused.
    by rewrite Z.eqb_refl.
  - assert (E1 : (HEAD :: pre) ++ [b] = l0 ++ [b0]) by done. apply app_inj_tail in E1 as [<- <-].
    assert (Hbo : b ∈ order) by set_solver. destruct (Hin b Hbo) as [bb Hb]. pose proof (order_not_head b Hbo).
    rewrite <- app_assoc in E. destruct (ring_prev _ _ _ _ _ _ HR E Hb) as (u & l' & E1 & Hp).
    assert (Hbody : scan_unused b s = Ok (if b_refcnt bb =? 0 then inr (Some b) else inl (b_prev bb)) s).
    { unfold scan_unused. destruct (Z.eqb_spec b HEAD); [done|].
      erewrite bind_ok by (apply run_get_buf; by rewrite Hs). by destruct (_ =? 0). }
    destruct (Z.eqb_spec (b_refcnt bb) 0) as [H0|H0].
    + exists (Some b). split; [by apply loop_stop|]. exists pre, [], bb. split_and!; set_solver.
    + rewrite length_app in Hf. simpl in Hf.
      destruct (IH ([b] ++ suf) fuel u l') as (r & HL & Hr); [done|done|lia|].
      exists r. split; [erewrite loop_next by exact Hbody; by rewrite Hp|]. destruct r as [b'|].
      * destruct Hr as (p1 & p2 & bb' & -> & Hb' & Hz & Hall). exists p1, (p2 ++ [b]), bb'.
        split; [by rewrite <- app_assoc|]. split; [done|]. split; [done|]. intros x xx Hx Hl.
        apply elem_of_app in Hx as [Hx|Hx]; [by eapply Hall|]. apply list_elem_of_singleton in Hx as ->. congruence.
      * intros x xx Hx Hl. apply elem_of_app in Hx as [Hx|Hx]; [by eapply Hr|].
        apply list_elem_of_singleton in Hx as ->. congruence.
Qed.

End Scan.

(** *** Updates of one buffer *)

Lemma nextb_insert bufs b bb bb' x : lookupZ bufs b = Some bb -> b_next bb' = b_next bb ->
  nextb (insertZ b bb' bufs) x = nextb bufs x.
Proof.
  intros Hb Hn. unfold nextb. pose proof (lookupZ_Some_range _ _ _ Hb). rewrite lookupZ_insertZ by done.
  destruct (Z.eqb_spec x b) as [->|]; [|done]. rewrite Hb. simpl. congruence.
Qed.

Lemma prevb_insert bufs b bb bb' x : lookupZ bufs b = Some bb -> b_prev bb' = b_prev bb ->
  prevb (insertZ b bb' bufs) x = prevb bufs x.
Proof.
  intros Hb Hn. unfold prevb. pose proof (lookupZ_Some_range _ _ _ Hb). rewrite lookupZ_insertZ by done.
  destruct (Z.eqb_spec x b) as [->|]; [|done]. rewrite Hb. simpl. congruence.
Qed.

Lemma count_iff (P Q : Prop) `{Decision P} `{Decision Q} : (P <-> Q) -> count P = count Q.
Proof. intros HE. unfold count. by rewrite (bool_decide_ext P Q). Qed.

Lemma count_true (P : Prop) `{Decision P} : P -> count P = 1.
Proof. intros HP. unfold count. by rewrite bool_decide_true. Qed.

Lemma count_false (P : Prop) `{Decision P} : ~ P -> count P = 0.
Proof. intros HP. unfold count. by rewrite bool_decide_false. Qed.

Section Inv.
Context `{DL : DiskLaws}.

Lemma bio_inv_buf pid H P s b : bio_inv pid H P s -> 0 <= b <= NBUF -> exists bb, lookupZ (k_bcache s) b = Some bb.
Proof. intros Hi Hb. apply lookupZ_is_Some. rewrite (bi_len _ _ _ _ Hi). lia. Qed.

(** An unused buffer is not pinned. *)
Lemma bio_inv_unused pid H P s b bb : bio_inv pid H P s -> b < NBUF -> lookupZ (k_bcache s) b = Some bb ->
  b_refcnt bb = 0 -> b ∉ H /\ (b_dev bb = ROOTDEV -> b_blockno bb ∉ P).
Proof.
  intros Hi Hb Hl H0. pose proof (bo_ref _ _ _ _ _ _ (bi_buf _ _ _ _ Hi b bb Hb Hl)) as Hr. rewrite H0 in Hr.
  unfold count in Hr. do 2 case_bool_decide; try lia. naive_solver.
Qed.

(** One buffer [b] comes to hold, or keeps holding, a block: what has to be
    shown for the invariant to be kept. *)
Lemma bio_inv_upd pid H H' P P' s s' b bb bb' :
  bio_inv pid H P s -> 0 <= b < NBUF -> lookupZ (k_bcache s) b = Some bb ->
  k_bcache s' = insertZ b bb' (k_bcache s) -> b_next bb' = b_next bb -> b_prev bb' = b_prev bb ->
  (forall lk, lk <> SL_buf b -> k_sleeplocks s' !! lk = k_sleeplocks s !! lk) ->
  (forall m, m <> b_blockno bb' -> dblock (k_disk s') m = dblock (k_disk s) m) ->
  is_block (dblock (k_disk s') (b_blockno bb')) ->
  (forall x, x <> b -> (x ∈ H' <-> x ∈ H)) -> NoDup H' ->
  (forall m, m <> b_blockno bb' -> (m ∈ P' <-> m ∈ P)) ->
  b_dev bb' = ROOTDEV ->
  (caches bb (b_blockno bb') \/ b_refcnt bb = 0 /\ forall x xx, x < NBUF -> lookupZ (k_bcache s) x = Some xx ->
     ~ caches xx (b_blockno bb')) ->
  buf_ok pid H' P' s' b bb' -> disk_ready s' -> bio_inv pid H' P' s'.
Proof.
  intros Hi Hb Hl Hbc Hnx Hpv Hsl Hdk Hblk HH HN HP Hdev Hcase Hok Hrdy.
  pose proof (lookupZ_Some_range _ _ _ Hl) as Hr.
  assert (Hlk : forall x xx, lookupZ (k_bcache s') x = Some xx ->
    x = b /\ xx = bb' \/ x <> b /\ lookupZ (k_bcache s) x = Some xx).
  { intros x xx Hx. rewrite Hbc, lookupZ_insertZ in Hx by done. destruct (Z.eqb_spec x b) as [->|]; naive_solver. }
  assert (Hoth : forall x xx, x <> b -> x < NBUF -> lookupZ (k_bcache s) x = Some xx -> b_dev xx = ROOTDEV ->
    b_blockno xx <> b_blockno bb').
  { intros x xx Hne Hx Hlx Hdx E. destruct Hcase as [Hc|[_ Hno]].
    - apply Hne. eapply (bi_uniq _ _ _ _ Hi x b xx bb); try done; lia.
    - by eapply (Hno x xx). }
  split.
  - done.
  - rewrite Hbc, lenZ_insertZ. apply Hi.
  - destruct (bi_ring _ _ _ _ Hi) as (order & HR & Hp). exists order. split; [|done]. rewrite Hbc.
    eapply ring_ext; [| |exact HR]; intros; [by eapply nextb_insert|by eapply prevb_insert].
  - intros x xx Hx Hlx. destruct (Hlk _ _ Hlx) as [[-> ->]|[Hne Hlx']]; [done|].
    destruct (bi_buf _ _ _ _ Hi x xx Hx Hlx') as [B1 B2 B3 B4 B5 B6 B7]. split; try done.
    + rewrite B4. f_equal; apply count_iff; [symmetry; by apply HH|]. split; intros [Hd Hn]; (split; [done|]); apply HP; eauto.
    + unfold sleep_free. rewrite Hsl by congruence. rewrite HH by done. done.
    + unfold sleep_held. rewrite Hsl by congruence. rewrite HH by done. done.
    + rewrite HH by done. intros Hnx' Hd Hn. rewrite Hdk by eauto. apply B7; try done. rewrite <- HP by eauto. done.
  - intros x y xx yy n Hx Hy Hlx Hly Hcx Hcy.
    destruct (Hlk _ _ Hlx) as [[-> ->]|[Hne Hlx']], (Hlk _ _ Hly) as [[-> ->]|[Hne' Hly']]; try done.
    + destruct Hcx as [_ Hcx], Hcy as [Hd Hcy]. exfalso. eapply (Hoth y yy); try done. congruence.
    + destruct Hcx as [Hd Hcx], Hcy as [_ Hcy]. exfalso. eapply (Hoth x xx); try done. congruence.
    + by eapply (bi_uniq _ _ _ _ Hi x y).
  - intros n Hn. destruct (decide (n = b_blockno bb')) as [->|Hne].
    { exists b, bb'. split; [lia|]. split; [rewrite Hbc; by apply lookupZ_insertZ_eq|done]. }
    destruct (bi_pins _ _ _ _ Hi n) as (x & xx & Hx & Hlx & Hc); [by apply HP|]. exists x, xx. split; [done|].
    split; [|done]. rewrite Hbc, lookupZ_insertZ_ne; [done|]. intros <-. rewrite Hl in Hlx. injection Hlx as <-.
    destruct Hcase as [[_ Hc']|[H0 _]]; [destruct Hc; congruence|].
    destruct (bio_inv_unused _ _ _ _ _ _ Hi Hx Hl H0) as [_ HnP]. destruct Hc as [Hd <-]. apply HnP; [done|]. by apply HP.
  - split; [done|]. intros x Hx. destruct (decide (x = b)) as [->|Hne]; [done|]. apply Hi. by apply HH.
  - intros n. destruct (decide (n = b_blockno bb')) as [->|Hne]; [done|]. rewrite Hdk by done. apply Hi.
Qed.

(** *** The logical contents *)

Lemma view_cases pid H P s n : bio_inv pid H P s ->
  (exists b bb, 0 <= b < NBUF /\ lookupZ (k_bcache s) b = Some bb /\ caches bb n /\ view s n = b_data bb) \/
  ((forall b bb, b < NBUF -> lookupZ (k_bcache s) b = Some bb -> ~ caches bb n) /\ view s n = dblock (k_disk s) n).
Proof.
  intros Hi. unfold view. destruct (find _ _) as [bb|] eqn:E.
  - left. apply find_some in E as [Hin Hc]. apply bool_decide_eq_true_1 in Hc. apply list_elem_of_In, list_elem_of_lookup in Hin as [i Hx].
    apply lookup_take_Some in Hx as [Hx Hlt]. exists (Z.of_nat i), bb. split; [lia|]. split; [|done].
    unfold lookupZ. destruct (Z.ltb_spec (Z.of_nat i) 0); [lia|]. by rewrite Nat2Z.id.
  - right. split; [|done]. intros b bb Hb Hl Hc. pose proof (lookupZ_Some_range _ _ _ Hl).
    apply (find_none _ _) with (x := bb) in E; [by rewrite bool_decide_true in E|].
    apply list_elem_of_In, (lookupZ_elem _ b). rewrite lookupZ_take.
    destruct (Z.ltb_spec b (Z.of_nat (Z.to_nat NBUF))); [done|lia].
Qed.

Lemma view_cached pid H P s n b bb : bio_inv pid H P s -> b < NBUF -> lookupZ (k_bcache s) b = Some bb ->
  caches bb n -> view s n = b_data bb.
Proof.
  intros Hi Hb Hl Hc. destruct (view_cases _ _ _ _ n Hi) as [(b' & bb' & Hb' & Hl' & Hc' & ->)|[Hno _]].
  - assert (b' = b) as -> by (eapply (bi_uniq _ _ _ _ Hi); eauto; lia). congruence.
  - by destruct (Hno b bb Hb Hl).
Qed.

Lemma view_uncached pid H P s n : bio_inv pid H P s ->
  (forall b bb, b < NBUF -> lookupZ (k_bcache s) b = Some bb -> ~ caches bb n) -> view s n = dblock (k_disk s) n.
Proof.
  intros Hi Hno. destruct (view_cases _ _ _ _ n Hi) as [(b & bb & Hb & Hl & Hc & _)|[_ ->]]; [|done].
  destruct (Hno b bb); [lia|done|done].
Qed.

(** The view after an update of one buffer. *)
Lemma view_upd pid H H' P P' s s' b bb bb' :
  bio_inv pid H P s -> bio_inv pid H' P' s' -> 0 <= b < NBUF -> lookupZ (k_bcache s) b = Some bb ->
  k_bcache s' = insertZ b bb' (k_bcache s) ->
  (forall m, m <> b_blockno bb' -> dblock (k_disk s') m = dblock (k_disk s) m) ->
  b_dev bb' = ROOTDEV -> caches bb (b_blockno bb') \/ b_refcnt bb = 0 ->
  view s' (b_blockno bb') = b_data bb' /\ forall m, m <> b_blockno bb' -> view s' m = view s m.
Proof.
  intros Hi Hi' Hb Hl Hbc Hdk Hdev Hcase. pose proof (lookupZ_Some_range _ _ _ Hl) as Hr.
  assert (Hl' : lookupZ (k_bcache s') b = Some bb') by (rewrite Hbc; by apply lookupZ_insertZ_eq).
  split; [eapply (view_cached _ _ _ s' _ b bb' Hi'); try done; lia|]. intros m Hm.
  destruct (view_cases _ _ _ _ m Hi) as [(x & xx & Hx & Hlx & Hc & ->)|[Hno ->]].
  - destruct (decide (x = b)) as [->|Hne].
    + rewrite Hl in Hlx. injection Hlx as <-. destruct Hcase as [[_ Hc']|H0]; [destruct Hc; congruence|].
      destruct (bio_inv_unused _ _ _ _ _ _ Hi (proj2 Hb) Hl H0) as [HnH HnP]. destruct Hc as [Hd <-].
      rewrite (bo_clean _ _ _ _ _ _ (bi_buf _ _ _ _ Hi b bb (proj2 Hb) Hl)) by auto. rewrite <- Hdk by done.
      apply (view_uncached _ _ _ _ _ Hi'). intros y yy Hy Hly [Hdy Hny]. rewrite Hbc, lookupZ_insertZ in Hly by done.
      destruct (Z.eqb_spec y b) as [->|Hyb]; [injection Hly as <-; congruence|]. apply Hyb.
      by eapply (bi_uniq _ _ _ _ Hi y b yy bb (b_blockno bb)); try lia.
    + apply (view_cached _ _ _ _ _ x xx Hi'); [lia| |done]. by rewrite Hbc, lookupZ_insertZ_ne by done.
  - rewrite <- Hdk by done. apply (view_uncached _ _ _ _ _ Hi'). intros y yy Hy Hly [Hdy Hny].
    rewrite Hbc, lookupZ_insertZ in Hly by done.
    destruct (Z.eqb_spec y b) as [->|Hyb]; [injection Hly as <-; congruence|]. by apply (Hno y yy).
Qed.

End Inv.

(** *** [bget] *)

(** What [bget] does to a buffer it finds, and to one it recycles. *)
Definition bref (bb : buf) : buf := set_b_refcnt (u32 (b_refcnt bb + 1)) bb.
Definition recycle (n : Z) (bb : buf) : buf :=
  set_b_refcnt 1 (set_b_valid 0 (set_b_blockno n (set_b_dev ROOTDEV bb))).
Definition bget_st (pid b : Z) (bb' : buf) (s : kstate) : kstate :=
  sl_take (SL_buf b) pid (set_k_bcache (insertZ b bb' (k_bcache s)) s).

Section Bget.
Context `{DL : DiskLaws} {PT : Patience}.

Lemma static_bcache : L_bcache ∈ static_locks.
Proof. unfold static_locks. apply elem_of_app. left. set_solver. Qed.

Lemma order_elem order b : order ≡ₚ rangeZ 0 (Z.to_nat NBUF) -> b ∈ order <-> 0 <= b < NBUF.
Proof. intros Hp. rewrite Hp, elem_of_rangeZ. unfold NBUF, MAXOPBLOCKS. lia. Qed.

(** [bget] from the point where it has chosen buffer [b]. *)
Lemma bget_take en p pid s b bb' : running en p pid s -> 0 <= b < NBUF ->
  sleep_free (SL_buf b) s ->
  (put_buf b bb';; release L_bcache;; acquiresleep (SL_buf b);; ret b) (acq L_bcache s) = Ok b (bget_st pid b bb' s).
Proof.
  intros Hr Hb Hf. pose proof (rn_thread _ _ _ _ Hr) as Hk. unfold put_buf. rewrite bind_modify. autorewrite with acq.
  set (s1 := set_k_bcache _ s). assert (Hk1 : kthread p s1) by (unfold s1; auto with kt).
  erewrite bind_ok by (apply release_acq; [apply Hk|apply Hk, static_bcache]).
  erewrite bind_ok by (apply (acquiresleep_ok p pid); [done|exact (running_pid _ _ _ _ Hr)|exact Hb|exact Hf]).
  done.
Qed.

Lemma bget_cases en p pid H P s n :
  running en p pid s -> bio_inv pid H P s ->
  (forall b bb, b ∈ H -> lookupZ (k_bcache s) b = Some bb -> ~ caches bb n) ->
  exists order, ring HEAD (nextb (k_bcache s)) (prevb (k_bcache s)) order /\ order ≡ₚ rangeZ 0 (Z.to_nat NBUF) /\
  ((exists b bb, 0 <= b < NBUF /\ lookupZ (k_bcache s) b = Some bb /\ caches bb n /\ b ∉ H /\
     bget ROOTDEV n s = Ok b (bget_st pid b (bref bb) s)) \/
   (forall b bb, b < NBUF -> lookupZ (k_bcache s) b = Some bb -> ~ caches bb n) /\
    ((exists b bb o1 o2, 0 <= b < NBUF /\ lookupZ (k_bcache s) b = Some bb /\ b_refcnt bb = 0 /\
        order = o1 ++ b :: o2 /\
        (forall x xx, x ∈ o2 -> lookupZ (k_bcache s) x = Some xx -> b_refcnt xx <> 0) /\
        bget ROOTDEV n s = Ok b (bget_st pid b (recycle n bb) s)) \/
     (forall b bb, b < NBUF -> lookupZ (k_bcache s) b = Some bb -> b_refcnt bb <> 0) /\
        bget ROOTDEV n s = Fail (Panic "bget: no buffers"))).
Proof.
  intros Hr Hi HnH. pose proof (rn_thread _ _ _ _ Hr) as Hk.
  destruct (bi_ring _ _ _ _ Hi) as (order & HR & Hperm). exists order. split; [done|]. split; [done|].
  assert (Hin : forall b, b ∈ order -> exists bb, lookupZ (k_bcache s) b = Some bb).
  { intros b Hb. apply (order_elem _ _ Hperm) in Hb. eapply bio_inv_buf; [exact Hi|lia]. }
  assert (Hlen : length order = 30%nat) by (rewrite Hperm; reflexivity).
  destruct (bio_inv_buf _ _ _ s HEAD Hi) as [hd Hhd]; [unfold HEAD; split; [done|lia]|].
  destruct (ring_first _ _ _ _ HR) as (w & l' & E1 & Hnw & _). unfold nextb in Hnw. rewrite Hhd in Hnw. simpl in Hnw.
  destruct (ring_last _ _ _ _ HR) as (u & l'' & E2 & Hpu & _). unfold prevb in Hpu. rewrite Hhd in Hpu. simpl in Hpu.
  destruct (scan_cached_ok _ _ HR Hin ROOTDEV n (acq L_bcache s) ltac:(by autorewrite with acq) order [] bget_fuel w l')
    as (r & HL & Hres); [done|done|rewrite Hlen; change bget_fuel with 31%nat; lia|].
  assert (Hpre : forall (k : option Z -> M Z), (hd <- get_buf HEAD;;
    r <- loop bget_fuel (scan_cached ROOTDEV n) (b_next hd);; k r) (acq L_bcache s) = k r (acq L_bcache s)).
  { intros k. erewrite bind_ok by (apply run_get_buf; by autorewrite with acq). rewrite Hnw.
    by erewrite bind_ok by exact HL. }
  unfold bget. erewrite bind_ok by (apply acquire_ok; [apply Hk|apply Hk, static_bcache]). rewrite Hpre.
  destruct r as [b|].
  - destruct Hres as (Hb & bb & Hl & Hc). apply (order_elem _ _ Hperm) in Hb. left. exists b, bb.
    assert (HbH : b ∉ H) by (intros HbH; by eapply (HnH b bb)).
    split_and!; try done; [apply Hb..|]. erewrite bind_ok by (apply run_get_buf; by autorewrite with acq).
    apply (bget_take en p); [done|done|]. by apply (bo_free _ _ _ _ _ _ (bi_buf _ _ _ _ Hi b bb (proj2 Hb) Hl)).
  - right. split.
    { intros b bb Hb Hl [Hd Hn]. eapply (Hres b bb); [|done|done]. apply (order_elem _ _ Hperm).
      pose proof (lookupZ_Some_range _ _ _ Hl). lia. }
    destruct (scan_unused_ok _ _ HR Hin (acq L_bcache s) ltac:(by autorewrite with acq) order [] bget_fuel u l'')
      as (r & HL' & Hres'); [by rewrite app_nil_r|done|rewrite Hlen; change bget_fuel with 31%nat; lia|].
    erewrite bind_ok by (apply run_get_buf; by autorewrite with acq). rewrite Hpu. erewrite bind_ok by exact HL'.
    destruct r as [b|].
    + destruct Hres' as (o1 & o2 & bb & E & Hl & H0 & Hall). left. exists b, bb, o1, o2.
      assert (Hb : 0 <= b < NBUF) by (apply (order_elem _ _ Hperm); set_solver).
      destruct (bio_inv_unused _ _ _ _ _ _ Hi (proj2 Hb) Hl H0) as [HbH _].
      split_and!; try done; [apply Hb..|]. erewrite bind_ok by (apply run_get_buf; by autorewrite with acq).
      apply (bget_take en p); [done|done|]. by apply (bo_free _ _ _ _ _ _ (bi_buf _ _ _ _ Hi b bb (proj2 Hb) Hl)).
    + right. split; [|done]. intros b bb Hb Hl. apply (Hres' b bb); [|done]. apply (order_elem _ _ Hperm).
      pose proof (lookupZ_Some_range _ _ _ Hl). lia.
Qed.

(** The buffers in use are held or pinned. *)
Definition locate (s : kstate) (n : Z) : Z :=
  default (-1) (find (fun b => match lookupZ (k_bcache s) b with
    | Some bb => bool_decide (caches bb n) | None => false end) (rangeZ 0 (Z.to_nat NBUF))).

Lemma locate_spec pid H P s b bb n : bio_inv pid H P s -> b < NBUF -> lookupZ (k_bcache s) b = Some bb ->
  caches bb n -> locate s n = b.
Proof.
  intros Hi Hb Hl Hc. pose proof (lookupZ_Some_range _ _ _ Hl). unfold locate. destruct (find _ _) as [b'|] eqn:E; simpl.
  - apply find_some in E as [Hin Hb']. apply list_elem_of_In, elem_of_rangeZ in Hin.
    destruct (lookupZ (k_bcache s) b') as [bb'|] eqn:El; [|done]. apply bool_decide_eq_true_1 in Hb'.
    eapply (bi_uniq _ _ _ _ Hi); try done. unfold NBUF, MAXOPBLOCKS in *. lia.
  - exfalso. apply (find_none _ _) with (x := b) in E.
    + rewrite Hl in E. by rewrite bool_decide_true in E.
    + apply list_elem_of_In, elem_of_rangeZ. unfold NBUF, MAXOPBLOCKS in *. lia.
Qed.

Lemma bio_inv_room pid H P s : bio_inv pid H P s -> lenZ H + lenZ P < NBUF ->
  exists b bb, b < NBUF /\ lookupZ (k_bcache s) b = Some bb /\ b_refcnt bb = 0.
Proof.
  intros Hi Hroom. destruct (decide (Forall (fun b => b ∈ H ++ (locate s <$> P)) (rangeZ 0 (Z.to_nat NBUF)))) as [Hall|Hnot].
  - exfalso. rewrite Forall_forall in Hall. pose proof (NoDup_submseteq _ _ (NoDup_rangeZ 0 (Z.to_nat NBUF)) Hall) as Hsub.
    apply submseteq_length in Hsub. rewrite length_app, length_fmap, length_rangeZ in Hsub. unfold lenZ in Hroom. lia.
  - apply not_Forall_Exists in Hnot; [|apply _]. apply Exists_exists in Hnot as (b & Hb & Hn).
    apply elem_of_rangeZ in Hb. assert (Hb' : b < NBUF) by (unfold NBUF, MAXOPBLOCKS in *; lia).
    destruct (bio_inv_buf _ _ _ s b Hi) as [bb Hl]; [lia|]. exists b, bb. split; [done|]. split; [done|].
    change (b ∉ H ++ (locate s <$> P)) in Hn. rewrite elem_of_app in Hn. rewrite (bo_ref _ _ _ _ _ _ (bi_buf _ _ _ _ Hi b bb Hb' Hl)).
    rewrite !count_false; [done| |tauto]. intros [Hd Hp]. apply Hn. right. apply list_elem_of_fmap.
    exists (b_blockno bb). split; [|done]. symmetry. by eapply locate_spec.
Qed.

End Bget.

(** *** What a client sees of a buffer *)

Definition buf_is (s : kstate) (b n : Z) (d : list Z) : Prop :=
  exists bb, lookupZ (k_bcache s) b = Some bb /\ caches bb n /\ b_data bb = d.

(** The other buffers of a thread are left alone. *)
Definition keeps (H : list Z) (s s' : kstate) : Prop :=
  forall b n d, b ∈ H -> buf_is s b n d -> buf_is s' b n d.

#[global] Instance keeps_preorder H : PreOrder (keeps H).
Proof. split; [by intros s b n d|]. intros x y z H1 H2 b n d Hb Hd. by apply H2, H1. Qed.

Lemma keeps_weaken H H' s s' : H' ⊆ H -> keeps H s s' -> keeps H' s s'.
Proof. intros Hs Hk b n d Hb. apply Hk. by apply Hs. Qed.

Lemma keeps_insert H s s' b bb' : k_bcache s' = insertZ b bb' (k_bcache s) -> b ∉ H -> keeps H s s'.
Proof.
  intros E Hb x n d Hx (bb & Hl & Hc). exists bb. split; [|done]. rewrite E, lookupZ_insertZ_ne; [done|]. by intros ->.
Qed.

Lemma sl_take_ne lk lk' pid s : lk' <> lk -> k_sleeplocks (sl_take lk pid s) !! lk' = k_sleeplocks s !! lk'.
Proof. intros Hne. simpl. by rewrite lookup_alter_ne. Qed.

Lemma sl_take_held lk pid s : is_Some (k_sleeplocks s !! lk) -> sleep_held lk pid (sl_take lk pid s).
Proof. intros [l Hl]. exists (sl_name l). simpl. by rewrite lookup_alter_eq, Hl. Qed.

Lemma sleep_held_eq lk pid s s' : k_sleeplocks s' !! lk = k_sleeplocks s !! lk -> sleep_held lk pid s -> sleep_held lk pid s'.
Proof. intros E [nm Hn]. exists nm. congruence. Qed.

Section Bread.
Context `{DL : DiskLaws} {PT : Patience}.

(** The invariant once [bread] has taken buffer [b] and it holds block [n]. *)
Lemma bio_inv_take pid H P s s' b bb bb' n :
  bio_inv pid H P s -> 0 <= b < NBUF -> lookupZ (k_bcache s) b = Some bb -> b ∉ H -> 0 <= n < disk_blocks ->
  (caches bb n /\ bb' = bref bb \/ b_refcnt bb = 0 /\
    (forall x xx, x < NBUF -> lookupZ (k_bcache s) x = Some xx -> ~ caches xx n) /\
    bb' = set_b_valid 1 (set_b_data (dblock (k_disk s) n) (recycle n bb))) ->
  k_bcache s' = insertZ b bb' (k_bcache s) -> k_sleeplocks s' = k_sleeplocks (sl_take (SL_buf b) pid s) ->
  k_disk s' = k_disk s -> disk_ready s' ->
  bio_inv pid (b :: H) P s' /\ buf_is s' b n (view s n) /\ (forall m, view s' m = view s m) /\ keeps H s s'.
Proof.
  intros Hi Hb Hl HbH Hn Hcase Hbc Hsl Hdk Hrdy. pose proof (lookupZ_Some_range _ _ _ Hl) as Hrng.
  pose proof (bi_buf _ _ _ _ Hi b bb (proj2 Hb) Hl) as [B1 B2 B3 B4 B5 B6 B7].
  destruct (bi_held _ _ _ _ Hi) as [HND HHr].
  assert (Hsome : is_Some (k_sleeplocks s !! SL_buf b)).
  { destruct (B5 HbH) as (l & Hlk & _). by exists l. }
  assert (Hheld : sleep_held (SL_buf b) pid s').
  { apply (sleep_held_eq _ _ (sl_take (SL_buf b) pid s)); [by rewrite Hsl|by apply sl_take_held]. }
  assert (Hfacts : b_dev bb' = ROOTDEV /\ b_blockno bb' = n /\ b_next bb' = b_next bb /\ b_prev bb' = b_prev bb /\
    b_data bb' = view s n /\ b_disk bb' = 0 /\ b_valid bb' = 1 /\ is_block (b_data bb') /\
    b_refcnt bb' = 1 + count (n ∈ P)).
  { assert (Hcnt : forall m, 0 <= count (m ∈ P) <= 1) by (intros m; unfold count; case_bool_decide; lia).
    destruct Hcase as [[Hc ->]|(H0 & Hno & ->)].
    - pose proof (view_cached _ _ _ _ _ b bb Hi (proj2 Hb) Hl Hc) as Hv. destruct Hc as [Hd Hbn]. unfold bref. simpl.
      destruct B3 as [B3|[_ [B3 _]]]; [exfalso; unfold ROOTDEV in *; lia|]. repeat (split; [done|]).
      rewrite B4, (count_false (b ∈ H)) by done. rewrite (count_iff _ (n ∈ P)).
      + rewrite u32_small; [lia|]. specialize (Hcnt n). lia.
      + rewrite Hbn. tauto.
    - unfold recycle. simpl. rewrite (view_uncached _ _ _ _ n Hi Hno). repeat (split; [done|]). split; [apply (bi_disk _ _ _ _ Hi)|].
      rewrite count_false; [done|]. intros HnP. destruct (bi_pins _ _ _ _ Hi n HnP) as (x & xx & Hx & Hlx & Hc).
      by apply (Hno x xx). }
  destruct Hfacts as (F1 & F2 & F3 & F4 & F5 & F6 & F7 & F8 & F9).
  assert (Hinv : bio_inv pid (b :: H) P s').
  { apply (bio_inv_upd pid H (b :: H) P P s s' b bb bb'); try done.
    - intros lk Hne. rewrite Hsl. by apply sl_take_ne.
    - intros m _. by rewrite Hdk.
    - rewrite Hdk. apply Hi.
    - set_solver.
    - by apply NoDup_cons.
    - rewrite F2. destruct Hcase as [[Hc _]|(H0 & Hno & _)]; [by left|by right].
    - split; try done.
      + right. by rewrite F1, F2.
      + rewrite F9, (count_true (b ∈ b :: H)) by set_solver. f_equal. apply count_iff. rewrite F2. tauto.
      + set_solver.
      + set_solver. }
  assert (Hl' : lookupZ (k_bcache s') b = Some bb') by (rewrite Hbc; by apply lookupZ_insertZ_eq).
  split; [done|]. split; [by exists bb'|]. split; [|by eapply keeps_insert].
  destruct (view_upd pid H (b :: H) P P s s' b bb bb') as [V1 V2]; try done.
  { intros m _. by rewrite Hdk. }
  { rewrite F2. destruct Hcase as [[Hc _]|(H0 & Hno & _)]; [by left|by right]. }
  intros m. destruct (decide (m = b_blockno bb')) as [->|Hm]; [|by apply V2]. rewrite V1, F5. by rewrite F2.
Qed.

Lemma bread_ok en p pid H P s n :
  running en p pid s -> bio_inv pid H P s -> 0 <= n < disk_blocks ->
  (forall b d, b ∈ H -> ~ buf_is s b n d) -> n ∈ P \/ lenZ H + lenZ P < NBUF ->
  exists b s', bread ROOTDEV n s = Ok b s' /\ bstep p s s' /\ b ∉ H /\ bio_inv pid (b :: H) P s' /\
    buf_is s' b n (view s n) /\ (forall m, view s' m = view s m) /\ keeps H s s' /\ k_disk s' = k_disk s.
Proof.
  intros Hr Hi Hn HnH Hroom.
  destruct (bget_cases en p pid H P s n Hr Hi) as (order & _ & _ & Hg).
  { intros b bb Hb Hl Hc. apply (HnH b (b_data bb) Hb). by exists bb. }
  assert (Hstep : forall b bb', bstep p s (bget_st pid b bb' s)).
  { intros b bb'. etransitivity; [apply bstep_set_k_bcache|apply bstep_set_k_sleeplocks]. }
  destruct Hg as [(b & bb & Hb & Hl & Hc & HbH & HE)|[Hno [(b & bb & o1 & o2 & Hb & Hl & H0 & _ & _ & HE)|[Hall _]]]].
  - pose proof (lookupZ_Some_range _ _ _ Hl) as Hrng.
    exists b, (bget_st pid b (bref bb) s). unfold bread. erewrite bind_ok by exact HE.
    erewrite bind_ok by (apply run_get_buf; simpl; by apply lookupZ_insertZ_eq).
    destruct (bio_inv_take pid H P s (bget_st pid b (bref bb) s) b bb (bref bb) n) as (I1 & I2 & I3 & I4); try done; [by left| |].
    { apply (disk_ready_ext s); [done|apply Hi]. }
    assert (Hv : b_valid (bref bb) = 1).
    { destruct (bo_dev _ _ _ _ _ _ (bi_buf _ _ _ _ Hi b bb (proj2 Hb) Hl)) as [E|[_ [E _]]]; [|done].
      destruct Hc. unfold ROOTDEV in *. lia. }
    rewrite Hv. split; [done|]. split_and!; try done; apply Hstep.
  - destruct (bio_inv_unused _ _ _ _ _ _ Hi (proj2 Hb) Hl H0) as [HbH _].
    pose proof (lookupZ_Some_range _ _ _ Hl) as Hrng.
    set (s1 := bget_st pid b (recycle n bb) s) in *.
    assert (Hl1 : lookupZ (k_bcache s1) b = Some (recycle n bb)) by (simpl; by apply lookupZ_insertZ_eq).
    pose proof (bi_buf _ _ _ _ Hi b bb (proj2 Hb) Hl) as [B1 B2 _ _ _ _ _].
    destruct (disk_rw_ok en p pid s1 b (recycle n bb) false) as (ps & vd & io & Hw & Hrdy & HD); try done.
    { apply (bstep_running en p pid s); [apply Hstep|done]. }
    { apply (disk_ready_ext s); [done|apply Hi]. }
    set (s2 := set_k_mmio _ _) in *. set (bb2 := set_b_data (dblock (k_disk s) n) (recycle n bb)).
    assert (Hbc2 : k_bcache s2 = insertZ b bb2 (insertZ b (recycle n bb) (k_bcache s))) by done.
    rewrite insertZ_insertZ in Hbc2.
    set (s3 := set_k_bcache (insertZ b (set_b_valid 1 bb2) (k_bcache s2)) s2).
    exists b, s3. split.
    { unfold bread. erewrite bind_ok by exact HE. erewrite bind_ok by (by apply run_get_buf).
      cbn [b_valid recycle set_b_refcnt set_b_valid truth Z.eqb negb when].
      rewrite (bind_ok _ _ s1 tt s3); [done|]. erewrite bind_ok by exact HD.
      erewrite bind_ok by (apply run_get_buf; rewrite Hbc2; by apply lookupZ_insertZ_eq). done. }
    assert (Hst : bstep p s s3).
    { transitivity s1; [apply Hstep|]. transitivity s2; [|apply bstep_set_k_bcache]. unfold s2.
      etransitivity; [|apply bstep_set_k_mmio]. etransitivity; [|apply bstep_set_k_vdisk].
      etransitivity; [|apply bstep_set_k_proc; exact Hw]. apply bstep_set_k_bcache. }
    destruct (bio_inv_take pid H P s s3 b bb (set_b_valid 1 bb2) n Hi Hb Hl HbH Hn) as (I1 & I2 & I3 & I4).
    { right. auto. }
    { unfold s3. simpl. rewrite !insertZ_insertZ. reflexivity. }
    { reflexivity. }
    { reflexivity. }
    { exact (disk_ready_ext s2 s3 eq_refl Hrdy). }
    auto 10.
  - exfalso. destruct Hroom as [HnP|Hroom].
    + destruct (bi_pins _ _ _ _ Hi n HnP) as (b & bb & Hb & Hl & Hc). by apply (Hno b bb).
    + destruct (bio_inv_room _ _ _ _ Hi Hroom) as (b & bb & Hb & Hl & H0). by apply (Hall b bb).
Qed.

End Bread.

(** *** Moving a buffer to the front of the list *)

(** Only links have changed. *)
Definition relinked (bufs bufs' : list buf) : Prop :=
  lenZ bufs' = lenZ bufs /\ forall x xx, lookupZ bufs x = Some xx ->
    exists nx pv, lookupZ bufs' x = Some (set_b_prev pv (set_b_next nx xx)).

Lemma relinked_refl bufs : relinked bufs bufs.
Proof. split; [done|]. intros x xx Hx. exists (b_next xx), (b_prev xx). by destruct xx. Qed.

Lemma relinked_insert bufs bufs' i xx nx pv : relinked bufs bufs' -> lookupZ bufs' i = Some xx ->
  relinked bufs (insertZ i (set_b_prev pv (set_b_next nx xx)) bufs').
Proof.
  intros [Hl H] Hi. pose proof (lookupZ_Some_range _ _ _ Hi). split; [by rewrite lenZ_insertZ|]. intros x yy Hx.
  rewrite lookupZ_insertZ by done. destruct (Z.eqb_spec x i) as [->|]; [|by apply H].
  destruct (H _ _ Hx) as (nx' & pv' & E). exists nx, pv. rewrite Hi in E. injection E as ->. by destruct yy.
Qed.

Lemma next_nextb bufs x xx : lookupZ bufs x = Some xx -> b_next xx = nextb bufs x.
Proof. intros H. unfold nextb. by rewrite H. Qed.
Lemma prev_prevb bufs x xx : lookupZ bufs x = Some xx -> b_prev xx = prevb bufs x.
Proof. intros H. unfold prevb. by rewrite H. Qed.

Lemma nextb_ins bufs i bb x : 0 <= i < lenZ bufs ->
  nextb (insertZ i bb bufs) x = if x =? i then b_next bb else nextb bufs x.
Proof. intros Hi. unfold nextb. rewrite lookupZ_insertZ by done. by destruct (x =? i). Qed.
Lemma prevb_ins bufs i bb x : 0 <= i < lenZ bufs ->
  prevb (insertZ i bb bufs) x = if x =? i then b_prev bb else prevb bufs x.
Proof. intros Hi. unfold prevb. rewrite lookupZ_insertZ by done. by destruct (x =? i). Qed.

(** One assignment to the [prev] or the [next] of a node. *)
Lemma put_links s i xx nx pv : lookupZ (k_bcache s) i = Some xx ->
  exists bufs', put_buf i (set_b_prev pv (set_b_next nx xx)) s = Ok tt (set_k_bcache bufs' s) /\
    relinked (k_bcache s) bufs' /\
    (forall x, nextb bufs' x = if x =? i then nx else nextb (k_bcache s) x) /\
    (forall x, prevb bufs' x = if x =? i then pv else prevb (k_bcache s) x).
Proof.
  intros Hi. pose proof (lookupZ_Some_range _ _ _ Hi). eexists. split; [reflexivity|].
  split; [apply relinked_insert; [apply relinked_refl|done]|].
  split; intros x; [by rewrite nextb_ins by done|by rewrite prevb_ins by done].
Qed.

Lemma relinked_trans a b c : relinked a b -> relinked b c -> relinked a c.
Proof.
  intros [H1 H2] [H3 H4]. split; [lia|]. intros x xx Hx. destruct (H2 _ _ Hx) as (nx & pv & E).
  destruct (H4 _ _ E) as (nx' & pv' & E'). exists nx', pv'. by rewrite E'.
Qed.

Lemma put_next s i xx nx : lookupZ (k_bcache s) i = Some xx ->
  exists bufs', put_buf i (set_b_next nx xx) s = Ok tt (set_k_bcache bufs' s) /\ relinked (k_bcache s) bufs' /\
    (forall x, nextb bufs' x = if x =? i then nx else nextb (k_bcache s) x) /\
    (forall x, prevb bufs' x = prevb (k_bcache s) x).
Proof.
  intros Hi. destruct (put_links s i xx nx (b_prev xx) Hi) as (bufs' & HE & Hr & Hn & Hp). exists bufs'.
  split; [rewrite <- HE; by destruct xx|]. split; [done|]. split; [done|]. intros x. rewrite Hp.
  destruct (Z.eqb_spec x i) as [->|]; [by apply prev_prevb|done].
Qed.

Lemma put_prev s i xx pv : lookupZ (k_bcache s) i = Some xx ->
  exists bufs', put_buf i (set_b_prev pv xx) s = Ok tt (set_k_bcache bufs' s) /\ relinked (k_bcache s) bufs' /\
    (forall x, nextb bufs' x = nextb (k_bcache s) x) /\
    (forall x, prevb bufs' x = if x =? i then pv else prevb (k_bcache s) x).
Proof.
  intros Hi. destruct (put_links s i xx (b_next xx) pv Hi) as (bufs' & HE & Hr & Hn & Hp). exists bufs'.
  split; [rewrite <- HE; by destruct xx|]. split; [done|]. split; [|done]. intros x. rewrite Hn.
  destruct (Z.eqb_spec x i) as [->|]; [by apply next_nextb|done].
Qed.

Lemma bmove_elems (h : Z) o1 b o2 u w : b ∉ h :: o1 ++ o2 -> u ∈ h :: o1 -> w ∈ h :: o2 ->
  u ∈ h :: o1 ++ b :: o2 /\ w ∈ h :: o1 ++ b :: o2 /\ b ∈ h :: o1 ++ b :: o2 /\ w <> b /\ u <> b /\ h <> b.
Proof. set_solver. Qed.

Lemma bmove_ok s o1 b o2 :
  lenZ (k_bcache s) = NBUF + 1 -> (forall x, x ∈ o1 ++ b :: o2 -> 0 <= x < NBUF) ->
  ring HEAD (nextb (k_bcache s)) (prevb (k_bcache s)) (o1 ++ b :: o2) ->
  exists bufs', bmove b s = Ok tt (set_k_bcache bufs' s) /\ relinked (k_bcache s) bufs' /\
    ring HEAD (nextb bufs') (prevb bufs') (b :: o1 ++ o2).
Proof.
  intros Hlen Hin HR. unfold bmove.
  assert (HND : b ∉ HEAD :: o1 ++ o2).
  { destruct HR as [Hd _]. rewrite NoDup_cons, NoDup_app, NoDup_cons in Hd. set_solver. }
  assert (Hget : forall s' x, relinked (k_bcache s) (k_bcache s') -> x ∈ HEAD :: o1 ++ b :: o2 ->
    exists xx, lookupZ (k_bcache s') x = Some xx).
  { intros s' x [Hl _] Hx. apply lookupZ_is_Some. rewrite Hl, Hlen. apply elem_of_cons in Hx as [->|Hx]; [|specialize (Hin x Hx); lia].
    unfold HEAD, NBUF, MAXOPBLOCKS. lia. }
  destruct (ring_around _ _ _ _ _ _ HR) as (u & l1 & w & l2 & E1 & E2 & Hpb & Hnu & Hnb & Hpw).
  assert (Hu' : u ∈ HEAD :: o1) by (by eapply cons_last). assert (Hw' : w ∈ HEAD :: o2) by (by eapply app_one_head).
  destruct (bmove_elems HEAD o1 b o2 u w HND Hu' Hw') as (Hu & Hw & Hb & Hwb & Hub & HbH). clear Hu' Hw'.
  destruct (Hget s b) as [bb Lb]; [apply relinked_refl|done|].
  destruct (Hget s w) as [wb Lw]; [apply relinked_refl|done|].
  erewrite bind_ok by (by apply run_get_buf). rewrite (next_nextb _ _ _ Lb), (prev_prevb _ _ _ Lb), Hnb, Hpb.
  erewrite bind_ok by (by apply run_get_buf).
  destruct (put_prev s w wb u Lw) as (b1 & P1 & R1 & N1 & V1). erewrite bind_ok by exact P1.
  set (s1 := set_k_bcache b1 s). change b1 with (k_bcache s1) in R1, N1, V1.
  destruct (Hget s1 b R1 Hb) as [bb1 Lb1]. destruct (Hget s1 u R1 Hu) as [ub1 Lu1].
  erewrite bind_ok by (by apply run_get_buf). rewrite (next_nextb _ _ _ Lb1), (prev_prevb _ _ _ Lb1).
  rewrite N1, V1, Hnb, Hpb. destruct (Z.eqb_spec b w); [done|].
  erewrite bind_ok by (by apply run_get_buf).
  destruct (put_next s1 u ub1 w Lu1) as (b2 & P2 & R2 & N2 & V2). erewrite bind_ok by exact P2.
  set (s2 := set_k_bcache b2 s1). change b2 with (k_bcache s2) in R2, N2, V2.
  pose proof (relinked_trans _ _ _ R1 R2) as R2'.
  assert (HR2 : ring HEAD (nextb (k_bcache s2)) (prevb (k_bcache s2)) (o1 ++ o2)).
  { eapply ring_unlink; [exact HR| |].
    - intros x Hx. rewrite N2, N1, Hpb, Hnb. done.
    - intros y Hy. rewrite V2, V1, Hpb, Hnb. done. }
  destruct (ring_first _ _ _ _ HR2) as (f & lf & Ef & Hnf & Hpf).
  assert (Hf' : f ∈ HEAD :: o1 ++ o2) by (by eapply app_one_head).
  assert (Hfb : f <> b) by (by intros ->). assert (Hf := elem_skip _ b _ _ _ Hf').
  assert (Hh : HEAD ∈ HEAD :: o1 ++ b :: o2) by left.
  destruct (Hget s2 HEAD R2' Hh) as [hd2 Lh2]. destruct (Hget s2 b R2' Hb) as [bb2 Lb2].
  erewrite bind_ok by (by apply run_get_buf). rewrite (next_nextb _ _ _ Lh2), Hnf.
  erewrite bind_ok by (by apply run_get_buf).
  destruct (put_links s2 b bb2 f HEAD Lb2) as (b3 & P3 & R3 & N3 & V3). erewrite bind_ok by exact P3.
  set (s3 := set_k_bcache b3 s2). change b3 with (k_bcache s3) in R3, N3, V3.
  pose proof (relinked_trans _ _ _ R2' R3) as R3'.
  destruct (Hget s3 HEAD R3' Hh) as [hd3 Lh3]. destruct (Hget s3 f R3' Hf) as [fb3 Lf3].
  erewrite bind_ok by (by apply run_get_buf). rewrite (next_nextb _ _ _ Lh3), N3, Hnf.
  destruct (Z.eqb_spec HEAD b); [done|]. erewrite bind_ok by (by apply run_get_buf).
  destruct (put_prev s3 f fb3 b Lf3) as (b4 & P4 & R4 & N4 & V4). erewrite bind_ok by exact P4.
  set (s4 := set_k_bcache b4 s3). change b4 with (k_bcache s4) in R4, N4, V4.
  pose proof (relinked_trans _ _ _ R3' R4) as R4'.
  destruct (Hget s4 HEAD R4' Hh) as [hd4 Lh4]. erewrite bind_ok by (by apply run_get_buf).
  destruct (put_next s4 HEAD hd4 b Lh4) as (b5 & P5 & R5 & N5 & V5). exists b5.
  split; [exact P5|]. split; [by eapply relinked_trans|].
  apply (ring_push _ (nextb (k_bcache s2)) (prevb (k_bcache s2))); [done|done| | | | | |].
  - by rewrite N5, Z.eqb_refl.
  - rewrite N5, N4, N3, Z.eqb_refl, Hnf. by destruct (Z.eqb_spec b HEAD).
  - intros x Hx Hxb. rewrite N5, N4, N3. by destruct (Z.eqb_spec x HEAD), (Z.eqb_spec x b).
  - by rewrite V5, V4, Hnf, Z.eqb_refl.
  - rewrite V5, V4, V3, Z.eqb_refl. by destruct (Z.eqb_spec b f).
  - intros y Hy Hyb. rewrite V5, V4, V3. rewrite Hnf in Hy. by destruct (Z.eqb_spec y f), (Z.eqb_spec y b).
Qed.

Lemma sl_drop_ne lk lk' s : lk' <> lk -> k_sleeplocks (sl_drop lk s) !! lk' = k_sleeplocks s !! lk'.
Proof. intros Hne. simpl. by rewrite lookup_alter_ne. Qed.

Lemma sleep_free_eq lk s s' : k_sleeplocks s' !! lk = k_sleeplocks s !! lk -> sleep_free lk s -> sleep_free lk s'.
Proof. intros E (l & Hl & H0). exists l. by rewrite E. Qed.

Section Ops.
Context `{DL : DiskLaws}.

Lemma bio_inv_perm pid H H' P s : H ≡ₚ H' -> bio_inv pid H P s -> bio_inv pid H' P s.
Proof.
  intros Hp [I1 I2 I3 I4 I5 I6 [I7 I7'] I8]. split; try done.
  - intros b bb Hb Hl. destruct (I4 b bb Hb Hl) as [B1 B2 B3 B4 B5 B6 B7]. split; try done.
    + rewrite B4. f_equal. apply count_iff. by rewrite Hp.
    + by rewrite <- Hp.
    + by rewrite <- Hp.
    + by rewrite <- Hp.
  - split; [by rewrite <- Hp|]. intros b. rewrite <- Hp. apply I7'.
Qed.

(** The list may be reordered. *)
Lemma bio_inv_relink pid H P s bufs' order : bio_inv pid H P s -> relinked (k_bcache s) bufs' ->
  ring HEAD (nextb bufs') (prevb bufs') order -> order ≡ₚ rangeZ 0 (Z.to_nat NBUF) ->
  let s' := set_k_bcache bufs' s in
  bio_inv pid H P s' /\ (forall m, view s' m = view s m) /\ keeps H s s'.
Proof.
  intros Hi [Hlen Hrel] HR Hp s'.
  assert (Hfwd : forall x xx, lookupZ (k_bcache s) x = Some xx -> exists xx', lookupZ bufs' x = Some xx' /\
    (forall n, caches xx' n <-> caches xx n) /\ b_data xx' = b_data xx /\ b_blockno xx' = b_blockno xx).
  { intros x xx Hx. destruct (Hrel _ _ Hx) as (nx & pv & E). eexists. split; [exact E|]. done. }
  assert (Hback : forall x xx', lookupZ bufs' x = Some xx' -> exists xx nx pv, lookupZ (k_bcache s) x = Some xx /\
    xx' = set_b_prev pv (set_b_next nx xx)).
  { intros x xx' Hx. pose proof (lookupZ_Some_range _ _ _ Hx) as Hr. rewrite Hlen in Hr.
    destruct (lookupZ_is_Some _ _ Hr) as [xx Hxx]. destruct (Hrel _ _ Hxx) as (nx & pv & E). exists xx, nx, pv.
    split; [done|congruence]. }
  assert (Hinv : bio_inv pid H P s').
  { destruct Hi as [I1 I2 I3 I4 I5 I6 I7 I8]. split.
    - by apply (disk_ready_ext s).
    - unfold s'. simpl. lia.
    - by exists order.
    - intros b bb' Hb Hl. destruct (Hback _ _ Hl) as (bb & nx & pv & Hl0 & ->).
      destruct (I4 b bb Hb Hl0) as [B1 B2 B3 B4 B5 B6 B7]. by split.
    - intros b b' bb bb' n Hb Hb' Hl Hl' Hc Hc'.
      destruct (Hback _ _ Hl) as (x & nx & pv & Hx & ->), (Hback _ _ Hl') as (y & nx' & pv' & Hy & ->).
      by apply (I5 b b' x y n).
    - intros n Hn. destruct (I6 n Hn) as (b & bb & Hb & Hl & Hc). destruct (Hfwd _ _ Hl) as (bb' & Hl' & Hc' & _).
      exists b, bb'. split; [done|]. split; [done|]. by apply Hc'.
    - done.
    - done. }
  split; [done|]. split.
  - intros m. destruct (view_cases _ _ _ _ m Hi) as [(b & bb & Hb & Hl & Hc & ->)|[Hno ->]].
    + destruct (Hfwd _ _ Hl) as (bb' & Hl' & Hc' & <- & _). apply (view_cached _ _ _ s' m b bb' Hinv); [lia|done|by apply Hc'].
    + apply (view_uncached _ _ _ s' m Hinv). intros b bb' Hb Hl. destruct (Hback _ _ Hl) as (bb & nx & pv & Hl0 & ->).
      by apply (Hno b bb).
  - intros b n d Hb (bb & Hl & Hc & Hd). destruct (Hfwd _ _ Hl) as (bb' & Hl' & Hc' & Hd' & _). exists bb'.
    split; [done|]. split; [by apply Hc'|congruence].
Qed.

Lemma bio_inv_held pid H P s b n d : bio_inv pid H P s -> b ∈ H -> buf_is s b n d ->
  exists bb nm, 0 <= b < NBUF /\ lookupZ (k_bcache s) b = Some bb /\ caches bb n /\ b_data bb = d /\ is_block d /\
    b_disk bb = 0 /\ b_valid bb = 1 /\ 0 <= n < disk_blocks /\ b_refcnt bb = 1 + count (n ∈ P) /\
    k_sleeplocks s !! SL_buf b = Some (mkSleeplock 1 nm pid) /\ view s n = d.
Proof.
  intros Hi Hb (bb & Hl & Hc & Hd). destruct (bi_held _ _ _ _ Hi) as [_ Hr]. specialize (Hr b Hb).
  destruct (bi_buf _ _ _ _ Hi b bb (proj2 Hr) Hl) as [B1 B2 B3 B4 B5 B6 B7]. destruct (B6 Hb) as [[nm Hnm] _].
  pose proof (view_cached _ _ _ _ _ b bb Hi (proj2 Hr) Hl Hc) as Hv. pose proof Hc as [Hdev Hbn].
  destruct B3 as [B3|(_ & B3 & B3')]; [unfold ROOTDEV in *; lia|].
  exists bb, nm. rewrite <- Hd, <- Hbn in *. do 4 (split; [done|]). split; [done|]. do 3 (split; [done|]).
  split; [|done]. rewrite B4, (count_true (b ∈ H)) by done. f_equal. apply count_iff. tauto.
Qed.

Lemma get_data_ok s b n d : buf_is s b n d -> get_data b s = Ok d s.
Proof. intros (bb & Hl & _ & <-). unfold get_data. by erewrite bind_ok by (by apply run_get_buf). Qed.

Lemma keeps_at H H' s s' b bb' : k_bcache s' = insertZ b bb' (k_bcache s) -> NoDup H' -> H' ≡ₚ b :: H -> keeps H s s'.
Proof.
  intros E Hd Hp. eapply keeps_insert; [done|]. rewrite Hp in Hd. by apply NoDup_cons in Hd as [? _].
Qed.

Lemma put_data_ok p pid H P s b n d0 d : bio_inv pid (b :: H) P s -> buf_is s b n d0 -> is_block d ->
  exists s', put_data b d s = Ok tt s' /\ bstep p s s' /\ bio_inv pid (b :: H) P s' /\ buf_is s' b n d /\
    (forall m, view s' m = if m =? n then d else view s m) /\ keeps H s s' /\ k_disk s' = k_disk s.
Proof.
  intros Hi Hbuf Hd. destruct (bi_held _ _ _ _ Hi) as [HND _].
  destruct (bio_inv_held _ _ _ _ _ _ _ Hi (list_elem_of_here _ _) Hbuf)
    as (bb & nm & Hb & Hl & Hc & Hd0 & Hblk & Hdisk & Hval & Hn & Href & Hsl & Hv).
  pose proof (lookupZ_Some_range _ _ _ Hl) as Hrng. set (bb' := set_b_data d bb).
  set (s' := set_k_bcache (insertZ b bb' (k_bcache s)) s). pose proof Hc as [Hc1 Hc2].
  assert (Hinv : bio_inv pid (b :: H) P s').
  { apply (bio_inv_upd pid (b :: H) (b :: H) P P s s' b bb bb'); try done.
    - apply Hi.
    - left. by rewrite <- Hc2 in Hc.
    - destruct (bi_buf _ _ _ _ Hi b bb (proj2 Hb) Hl) as [B1 B2 B3 B4 B5 B6 B7]. split; try done. set_solver.
    - by apply (disk_ready_ext s); [|apply Hi]. }
  exists s'. split; [unfold put_data; by erewrite bind_ok by (by apply run_get_buf)|].
  split; [apply bstep_set_k_bcache|]. split; [done|].
  split; [exists bb'; split; [by apply lookupZ_insertZ_eq|done]|].
  split; [|split; [by eapply (keeps_at _ (b :: H) _ _ b bb')|done]].
  destruct (view_upd pid (b :: H) (b :: H) P P s s' b bb bb') as [V1 V2]; try done; [left; by rewrite <- Hc2 in Hc|].
  change (b_blockno bb') with (b_blockno bb) in V1, V2. rewrite Hc2 in V1, V2.
  intros m. destruct (Z.eqb_spec m n) as [->|Hm]; [done|by apply V2].
Qed.

Lemma held_by_me en p pid s b nm : running en p pid s -> 0 <= b < NBUF ->
  k_sleeplocks s !! SL_buf b = Some (mkSleeplock 1 nm pid) -> holdingsleep (SL_buf b) s = Ok true s.
Proof.
  intros Hr Hb Hl. rewrite (holdingsleep_ok p pid s (SL_buf b) (rn_thread _ _ _ _ Hr) (running_pid _ _ _ _ Hr) Hb _ Hl).
  simpl. by rewrite Z.eqb_refl.
Qed.

Lemma dblock_dwrite n x d m : dblock (dwrite n x d) m = if m =? n then x else dblock d m.
Proof.
  unfold dblock, dwrite. simpl. destruct (Z.eqb_spec m n) as [->|Hne]; [by rewrite lookup_insert_eq|].
  by rewrite lookup_insert_ne.
Qed.

Lemma bwrite_ok {PT : Patience} en p pid H P s b n d :
  running en p pid s -> bio_inv pid (b :: H) P s -> buf_is s b n d ->
  exists s', bwrite b s = Ok tt s' /\ bstep p s s' /\ bio_inv pid (b :: H) P s' /\ buf_is s' b n d /\
    (forall m, view s' m = view s m) /\ keeps H s s' /\ k_disk s' = dwrite n d (k_disk s).
Proof.
  intros Hr Hi Hbuf. destruct (bi_held _ _ _ _ Hi) as [HND _].
  destruct (bio_inv_held _ _ _ _ _ _ _ Hi (list_elem_of_here _ _) Hbuf)
    as (bb & nm & Hb & Hl & Hc & Hd0 & Hblk & Hdisk & Hval & Hn & Href & Hsl & Hv). pose proof Hc as [Hc1 Hc2].
  destruct (disk_rw_ok en p pid s b bb true) as (ps & vd & io & Hw & Hrdy & HD); try done; [apply Hi|by rewrite Hc2|].
  set (s' := set_k_mmio _ _) in *.
  assert (Hk : k_disk s' = dwrite n d (k_disk s)) by (simpl; by rewrite Hc2, Hd0).
  assert (Hins : k_bcache s' = insertZ b bb (k_bcache s)) by (symmetry; by apply insertZ_id).
  assert (Hdk : forall m, dblock (k_disk s') m = if m =? n then d else dblock (k_disk s) m)
    by (intros m; rewrite Hk; apply dblock_dwrite).
  assert (Hdk' : forall m, m <> b_blockno bb -> dblock (k_disk s') m = dblock (k_disk s) m).
  { intros m Hm. rewrite Hdk. destruct (Z.eqb_spec m n); [congruence|done]. }
  assert (Hinv : bio_inv pid (b :: H) P s').
  { apply (bio_inv_upd pid (b :: H) (b :: H) P P s s' b bb bb); try done.
    - rewrite Hdk, Hc2, Z.eqb_refl. done.
    - left. by rewrite Hc2.
    - destruct (bi_buf _ _ _ _ Hi b bb (proj2 Hb) Hl) as [B1 B2 B3 B4 B5 B6 B7]. split; try done. set_solver. }
  exists s'. split; [unfold bwrite; erewrite bind_ok by (by eapply held_by_me); exact HD|].
  split.
  { unfold s'. etransitivity; [|apply bstep_set_k_mmio]. etransitivity; [|apply bstep_set_k_vdisk].
    etransitivity; [|apply bstep_set_k_proc; exact Hw]. apply bstep_set_k_disk. }
  split; [done|]. split; [by exists bb|]. split; [|split; [by eapply (keeps_at _ (b :: H) _ _ b bb)|done]].
  destruct (view_upd pid (b :: H) (b :: H) P P s s' b bb bb) as [V1 V2]; try done; [left; by rewrite Hc2|].
  rewrite Hc2 in V1, V2. intros m. destruct (decide (m = n)) as [->|Hm]; [|by apply V2]. congruence.
Qed.

End Ops.

Section Release.
Context `{DL : DiskLaws}.

(** The invariant once the lock and one reference have been given up. *)
Lemma bio_inv_drop pid H P s s' b n d bb : bio_inv pid (b :: H) P s -> buf_is s b n d ->
  lookupZ (k_bcache s) b = Some bb -> n ∈ P \/ d = dblock (k_disk s) n ->
  k_bcache s' = insertZ b (set_b_refcnt (count (n ∈ P)) bb) (k_bcache s) ->
  k_sleeplocks s' = k_sleeplocks (sl_drop (SL_buf b) s) -> k_disk s' = k_disk s -> k_vdisk s' = k_vdisk s ->
  bio_inv pid H P s' /\ (forall m, view s' m = view s m) /\ keeps H s s'.
Proof.
  intros Hi Hbuf Hl0 Hclean Hbc Hsl Hdk Hvd. destruct (bi_held _ _ _ _ Hi) as [HND _].
  destruct (bio_inv_held _ _ _ _ _ _ _ Hi (list_elem_of_here _ _) Hbuf)
    as (bb' & nm & Hb & Hl & Hc & Hd0 & Hblk & Hdisk & Hval & Hn & Href & Hlk & Hv).
  rewrite Hl0 in Hl. injection Hl as <-. pose proof Hc as [Hc1 Hc2]. apply NoDup_cons in HND as [HbH HND].
  set (bb' := set_b_refcnt _ bb) in *.
  assert (Hinv : bio_inv pid H P s').
  { apply (bio_inv_upd pid (b :: H) H P P s s' b bb bb'); try done.
    - intros lk Hne. rewrite Hsl. by apply sl_drop_ne.
    - intros m _. by rewrite Hdk.
    - rewrite Hdk. apply Hi.
    - set_solver.
    - left. by rewrite <- Hc2 in Hc.
    - destruct (bi_buf _ _ _ _ Hi b bb (proj2 Hb) Hl0) as [B1 B2 B3 B4 B5 B6 B7]. split; try done.
      + unfold bb'. simpl. rewrite (count_false (b ∈ H)) by done. rewrite Z.add_0_l. apply count_iff. rewrite Hc2. tauto.
      + intros _. apply (sleep_free_eq _ (sl_drop (SL_buf b) s)); [by rewrite Hsl|]. apply sl_drop_free. by eexists.
      + intros _ _ HnP. rewrite Hdk. change (b_data bb') with (b_data bb). rewrite Hd0. change (b_blockno bb') with (b_blockno bb) in *.
        rewrite Hc2 in *. by destruct Hclean.
    - apply (disk_ready_ext s); [done|apply Hi]. }
  split; [done|]. split; [|by eapply keeps_insert].
  destruct (view_upd pid (b :: H) H P P s s' b bb bb') as [V1 V2]; try done.
  { intros m _. by rewrite Hdk. }
  { left. by rewrite <- Hc2 in Hc. }
  change (b_blockno bb') with (b_blockno bb) in V1, V2. rewrite Hc2 in V1, V2. change (b_data bb') with (b_data bb) in V1.
  intros m. destruct (decide (m = n)) as [->|Hm]; [congruence|by apply V2].
Qed.

Lemma brelse_ok en p pid H P s b n d :
  running en p pid s -> bio_inv pid (b :: H) P s -> buf_is s b n d -> n ∈ P \/ d = dblock (k_disk s) n ->
  exists s', brelse b s = Ok tt s' /\ bstep p s s' /\ bio_inv pid H P s' /\
    (forall m, view s' m = view s m) /\ keeps H s s' /\ k_disk s' = k_disk s /\
    (forall o1 o2, lru s (o1 ++ b :: o2) -> lru s' (if bool_decide (n ∈ P) then o1 ++ b :: o2 else b :: o1 ++ o2)).
Proof.
  intros Hr Hi Hbuf Hclean. pose proof (rn_thread _ _ _ _ Hr) as Hk.
  destruct (bio_inv_held _ _ _ _ _ _ _ Hi (list_elem_of_here _ _) Hbuf)
    as (bb & nm & Hb & Hl & Hc & Hd0 & Hblk & Hdisk & Hval & Hn & Href & Hlk & Hv).
  pose proof (lookupZ_Some_range _ _ _ Hl) as Hrng.
  set (s1 := wake_st (Some (C_sleeplock (SL_buf b))) p (sl_drop (SL_buf b) s)).
  set (bb' := set_b_refcnt (count (n ∈ P)) bb). set (s2 := set_k_bcache (insertZ b bb' (k_bcache s)) s1).
  assert (Hk1 : kthread p s1) by (unfold s1, sl_drop; auto with kt).
  assert (Hcnt : 0 <= count (n ∈ P) <= 1) by (unfold count; case_bool_decide; lia).
  assert (Hdec : set_b_refcnt (u32 (b_refcnt bb - 1)) bb = bb').
  { unfold bb'. rewrite Href, u32_small by lia. f_equal. lia. }
  assert (Hst : bstep p s s2).
  { unfold s2, s1, sl_drop. etransitivity; [|apply bstep_set_k_bcache]. etransitivity; [|apply bstep_wake].
    apply bstep_set_k_sleeplocks. }
  destruct (bio_inv_drop pid H P s s2 b n d bb Hi Hbuf Hl Hclean) as (I1 & I2 & I3); [reflexivity..|].
  assert (Hpre : brelse b s = (when (count (n ∈ P) =? 0) (bmove b);; release L_bcache) (acq L_bcache s2)).
  { unfold brelse. erewrite bind_ok by (by eapply held_by_me). cbn [negb].
    erewrite bind_ok by (apply (releasesleep_ok p); [done|exact Hb|by eexists]). fold s1.
    erewrite bind_ok by (apply acquire_ok; [apply Hk1|apply Hk1, static_bcache]).
    erewrite bind_ok by (apply run_get_buf; by autorewrite with acq). rewrite Hdec.
    unfold put_buf. rewrite bind_modify. autorewrite with acq.
    change (set_k_bcache (insertZ b bb' (k_bcache s1)) s1) with s2.
    erewrite bind_ok by (apply run_get_buf; autorewrite with acq; by apply lookupZ_insertZ_eq). done. }
  assert (Hfree : forall bufs, release L_bcache (acq L_bcache (set_k_bcache bufs s2)) = Ok tt (set_k_bcache bufs s2)).
  { intros bufs. apply release_acq; [apply Hk1|apply Hk1, static_bcache]. }
  assert (Hlru : forall order, lru s order <-> lru s2 order).
  { assert (HnE : forall x, nextb (k_bcache s2) x = nextb (k_bcache s) x) by (intros x; by eapply nextb_insert).
    assert (HpE : forall x, prevb (k_bcache s2) x = prevb (k_bcache s) x) by (intros x; by eapply prevb_insert).
    intros order. split; apply ring_ext; intros x _; by rewrite ?HnE, ?HpE. }
  rewrite Hpre. unfold count in *. case_bool_decide as HnP; cbn [Z.eqb].
  - exists s2. cbn [when]. rewrite bind_ret. split; [exact (Hfree (k_bcache s2))|]. repeat (split; [done|]).
    intros o1 o2 Ho. by apply Hlru.
  - destruct (bi_ring _ _ _ _ I1) as (order & HR & Hperm).
    destruct (list_elem_of_split order b) as (o1 & o2 & ->); [by apply (order_elem _ _ Hperm)|].
    destruct (bmove_ok (acq L_bcache s2) o1 b o2) as (bufs' & HM & Hrel & HR').
    { autorewrite with acq. apply I1. }
    { intros x Hx. by apply (order_elem _ _ Hperm). }
    { by autorewrite with acq. }
    autorewrite with acq in *. exists (set_k_bcache bufs' s2).
    assert (HND : NoDup (o1 ++ b :: o2)) by (destruct HR as [HND _]; by apply NoDup_cons in HND as [_ ?]).
    destruct (bio_inv_relink pid H P s2 bufs' (b :: o1 ++ o2) I1 Hrel HR') as (J1 & J2 & J3).
    { rewrite <- Hperm. by rewrite Permutation_middle. }
    split; [cbn [when]; erewrite bind_ok by exact HM; apply Hfree|].
    split; [etransitivity; [exact Hst|apply bstep_set_k_bcache]|]. split; [done|].
    split; [intros m; by rewrite J2, I2|]. split; [by etransitivity|]. split; [done|].
    intros o1' o2' Ho. apply Hlru in Ho. pose proof (ring_unique _ _ _ _ _ HR Ho) as E.
    apply (app_mid_inj _ _ _ _ _ HND) in E as [-> ->]. exact HR'.
Qed.

(** *** Pinning *)

Lemma bpin_run s b bb : settled s -> lock_free L_bcache s -> lookupZ (k_bcache s) b = Some bb ->
  bpin b s = Ok tt (set_k_bcache (insertZ b (set_b_refcnt (u32 (b_refcnt bb + 1)) bb) (k_bcache s)) s).
Proof.
  intros Hs Hf Hl. unfold bpin. erewrite bind_ok by (by apply acquire_ok).
  erewrite bind_ok by (apply run_get_buf; by autorewrite with acq). unfold put_buf. rewrite bind_modify.
  autorewrite with acq. apply release_acq; [exact Hs|exact Hf].
Qed.

Lemma bunpin_run s b bb : settled s -> lock_free L_bcache s -> lookupZ (k_bcache s) b = Some bb ->
  bunpin b s = Ok tt (set_k_bcache (insertZ b (set_b_refcnt (u32 (b_refcnt bb - 1)) bb) (k_bcache s)) s).
Proof.
  intros Hs Hf Hl. unfold bunpin. erewrite bind_ok by (by apply acquire_ok).
  erewrite bind_ok by (apply run_get_buf; by autorewrite with acq). unfold put_buf. rewrite bind_modify.
  autorewrite with acq. apply release_acq; [exact Hs|exact Hf].
Qed.

(** The set of pinned blocks changes at the block of a held buffer. *)
Lemma bio_inv_pins pid H P P' s s' b n d bb : bio_inv pid (b :: H) P s -> buf_is s b n d ->
  lookupZ (k_bcache s) b = Some bb -> (forall m, m <> n -> (m ∈ P' <-> m ∈ P)) ->
  s' = set_k_bcache (insertZ b (set_b_refcnt (1 + count (n ∈ P')) bb) (k_bcache s)) s ->
  bio_inv pid (b :: H) P' s' /\ buf_is s' b n d /\ (forall m, view s' m = view s m) /\ keeps H s s'.
Proof.
  intros Hi Hbuf Hl0 HP ->. destruct (bi_held _ _ _ _ Hi) as [HND _].
  destruct (bio_inv_held _ _ _ _ _ _ _ Hi (list_elem_of_here _ _) Hbuf)
    as (bb' & nm & Hb & Hl & Hc & Hd0 & Hblk & Hdisk & Hval & Hn & Href & Hlk & Hv).
  rewrite Hl0 in Hl. injection Hl as <-. pose proof Hc as [Hc1 Hc2]. pose proof (lookupZ_Some_range _ _ _ Hl0).
  set (bb' := set_b_refcnt _ bb). set (s' := set_k_bcache _ s).
  assert (Hinv : bio_inv pid (b :: H) P' s').
  { apply (bio_inv_upd pid (b :: H) (b :: H) P P' s s' b bb bb'); try done.
    - apply Hi.
    - intros m Hm. apply HP. by rewrite <- Hc2.
    - left. by rewrite <- Hc2 in Hc.
    - destruct (bi_buf _ _ _ _ Hi b bb (proj2 Hb) Hl0) as [B1 B2 B3 B4 B5 B6 B7]. split; try done; [|set_solver].
      unfold bb'. simpl. rewrite (count_true (b ∈ b :: H)) by set_solver. f_equal. apply count_iff. rewrite Hc2. tauto.
    - apply (disk_ready_ext s); [done|apply Hi]. }
  split; [done|]. split; [exists bb'; split; [by apply lookupZ_insertZ_eq|done]|].
  split; [|by eapply (keeps_at _ (b :: H) _ _ b bb')].
  destruct (view_upd pid (b :: H) (b :: H) P P' s s' b bb bb') as [V1 V2]; try done; [left; by rewrite <- Hc2 in Hc|].
  change (b_blockno bb') with (b_blockno bb) in V1, V2. rewrite Hc2 in V1, V2. change (b_data bb') with (b_data bb) in V1.
  intros m. destruct (decide (m = n)) as [->|Hm]; [congruence|by apply V2].
Qed.

End Release.

(** *** Initialisation *)

(** The state while [binit] has put the buffers before [b] in the list. *)
Record binit_upto (s : kstate) (b : Z) (s' : kstate) : Prop := {
  bu_state : exists bc sl lk, s' = set_k_bcache bc (set_k_sleeplocks sl (set_k_locks lk s));
  bu_links : relinked (k_bcache s) (k_bcache s');
  bu_ring : exists order, ring HEAD (nextb (k_bcache s')) (prevb (k_bcache s')) order /\ order ≡ₚ rangeZ 0 (Z.to_nat b);
  bu_free : forall i, 0 <= i < b -> sleep_free (SL_buf i) s';
  bu_locks : forall lk, lock_free lk s -> lock_free lk s';
}.

Lemma initlock_free lk0 nm lk s : lock_free lk s -> lock_free lk (set_k_locks (<[lk0 := mkSpinlock 0 nm None]> (k_locks s)) s).
Proof.
  intros [n Hn]. destruct (decide (lk0 = lk)) as [->|Hne]; [exists nm|exists n]; simpl.
  - by rewrite lookup_insert_eq.
  - by rewrite lookup_insert_ne.
Qed.

Lemma binit_body_ok s b s1 : lenZ (k_bcache s) = NBUF + 1 -> 0 <= b < NBUF -> binit_upto s b s1 ->
  exists s2, binit_body b s1 = Ok None s2 /\ binit_upto s (b + 1) s2.
Proof.
  intros Hlen Hb [(bc & sl & lk & Es1) Hrel (order & HR & Hperm) Hfree Hlk].
  assert (Hin : forall x, x ∈ order -> 0 <= x < b) by (intros x; rewrite Hperm, elem_of_rangeZ; lia).
  assert (Hget : forall s' x, relinked (k_bcache s) (k_bcache s') -> 0 <= x <= NBUF -> exists xx, lookupZ (k_bcache s') x = Some xx).
  { intros s' x [Hl _] Hx. apply lookupZ_is_Some. lia. }
  assert (Hhd : 0 <= HEAD <= NBUF) by (unfold HEAD, NBUF, MAXOPBLOCKS; lia).
  assert (HbH : HEAD <> b) by (unfold HEAD; lia).
  assert (Hbo : b ∉ HEAD :: order).
  { rewrite elem_of_cons. intros [->|Hb']; [done|]. specialize (Hin b Hb'). lia. }
  destruct (ring_first _ _ _ _ HR) as (f & lf & Ef & Hnf & Hpf).
  assert (Hf : 0 <= f <= NBUF /\ f <> b).
  { apply app_one_head, elem_of_cons in Ef as [->|Hf]; [done|]. specialize (Hin f Hf). lia. }
  destruct Hf as [Hf Hfb]. destruct (Hget s1 HEAD Hrel Hhd) as [hd1 Lh1]. destruct (Hget s1 b Hrel ltac:(lia)) as [bb1 Lb1].
  unfold binit_body. erewrite bind_ok by (by apply run_get_buf). erewrite bind_ok by (by apply run_get_buf).
  rewrite (next_nextb _ _ _ Lh1), Hnf.
  destruct (put_links s1 b bb1 f HEAD Lb1) as (b3 & P3 & R3 & N3 & V3). erewrite bind_ok by exact P3.
  set (s3 := set_k_sleeplocks (<[SL_buf b := mkSleeplock 0 "buffer" 0]> (k_sleeplocks s1))
    (set_k_locks (<[L_sleep (SL_buf b) := mkSpinlock 0 "sleep lock" None]> (k_locks s1)) (set_k_bcache b3 s1))).
  rewrite (bind_ok _ _ _ tt s3) by done. change b3 with (k_bcache s3) in R3, N3, V3.
  pose proof (relinked_trans _ _ _ Hrel R3) as R3'.
  destruct (Hget s3 HEAD R3' Hhd) as [hd3 Lh3]. destruct (Hget s3 f R3' Hf) as [fb3 Lf3].
  erewrite bind_ok by (by apply run_get_buf). rewrite (next_nextb _ _ _ Lh3), N3, Hnf.
  destruct (Z.eqb_spec HEAD b); [done|]. erewrite bind_ok by (by apply run_get_buf).
  destruct (put_prev s3 f fb3 b Lf3) as (b4 & P4 & R4 & N4 & V4). erewrite bind_ok by exact P4.
  set (s4 := set_k_bcache b4 s3). change b4 with (k_bcache s4) in R4, N4, V4.
  pose proof (relinked_trans _ _ _ R3' R4) as R4'.
  destruct (Hget s4 HEAD R4' Hhd) as [hd4 Lh4]. erewrite bind_ok by (by apply run_get_buf).
  destruct (put_next s4 HEAD hd4 b Lh4) as (b5 & P5 & R5 & N5 & V5). erewrite bind_ok by exact P5.
  eexists. split; [reflexivity|]. split.
  - unfold s4, s3. rewrite Es1. eexists _, _, _. reflexivity.
  - by eapply relinked_trans.
  - exists (b :: order). split; [|rewrite Hperm; replace (Z.to_nat (b + 1)) with (S (Z.to_nat b)) by lia;
      rewrite rangeZ_S, Z2Nat.id by lia; by rewrite Z.add_0_l, Permutation_cons_append].
    simpl. apply (ring_push _ (nextb (k_bcache s1)) (prevb (k_bcache s1))); [done|done| | | | | |].
    + by rewrite N5, Z.eqb_refl.
    + rewrite N5, N4, N3, Z.eqb_refl, Hnf. by destruct (Z.eqb_spec b HEAD).
    + intros x Hx Hxb. rewrite N5, N4, N3. by destruct (Z.eqb_spec x HEAD), (Z.eqb_spec x b).
    + by rewrite V5, V4, Hnf, Z.eqb_refl.
    + rewrite V5, V4, V3, Z.eqb_refl. by destruct (Z.eqb_spec b f).
    + intros y Hy Hyb. rewrite V5, V4, V3. rewrite Hnf in Hy. by destruct (Z.eqb_spec y f), (Z.eqb_spec y b).
  - intros i Hi. destruct (decide (i = b)) as [->|Hne].
    + exists (mkSleeplock 0 "buffer" 0). split; [|done]. simpl. apply lookup_insert_eq.
    + apply (sleep_free_eq _ s1); [|apply Hfree; lia]. simpl. rewrite lookup_insert_ne by congruence. done.
  - intros lk' Hlk'. exact (initlock_free _ _ _ _ (Hlk _ Hlk')).
Qed.

Lemma binit_loop s n : lenZ (k_bcache s) = NBUF + 1 -> forall b s1, 0 <= b -> b + Z.of_nat n <= NBUF -> binit_upto s b s1 ->
  exists s2, for_loop n b binit_body s1 = Ok None s2 /\ binit_upto s (b + Z.of_nat n) s2.
Proof.
  intros Hlen. induction n as [|n IH]; intros b s1 Hb Hn Hu.
  - exists s1. split; [done|]. by rewrite Z.add_0_r.
  - destruct (binit_body_ok s b s1 Hlen ltac:(lia) Hu) as (s2 & HE & Hu2).
    destruct (IH (b + 1) s2 ltac:(lia) ltac:(lia) Hu2) as (s3 & HE3 & Hu3). exists s3.
    split; [by erewrite for_loop_next by exact HE|]. by replace (b + Z.of_nat (S n)) with (b + 1 + Z.of_nat n) by lia.
Qed.

Lemma binit_ok s : lenZ (k_bcache s) = NBUF + 1 ->
  exists s', binit s = Ok tt s' /\ binit_upto s NBUF s'.
Proof.
  intros Hlen. unfold binit. set (s0 := set_k_locks (<[L_bcache := mkSpinlock 0 "bcache" None]> (k_locks s)) s).
  rewrite (bind_ok _ _ _ tt s0) by done. destruct (lookupZ_is_Some (k_bcache s0) HEAD) as [hd Hhd].
  { simpl. rewrite Hlen. unfold HEAD, NBUF, MAXOPBLOCKS. lia. }
  erewrite bind_ok by (by apply run_get_buf).
  destruct (put_links s0 HEAD hd HEAD HEAD Hhd) as (b1 & P1 & R1 & N1 & V1).
  assert (P1' : put_buf HEAD (set_b_next HEAD (set_b_prev HEAD hd)) s0 = Ok tt (set_k_bcache b1 s0)) by (rewrite <- P1; by destruct hd).
  erewrite bind_ok by exact P1'.
  destruct (binit_loop s (Z.to_nat NBUF) Hlen 0 (set_k_bcache b1 s0)) as (s2 & HE & Hu); [lia|unfold NBUF, MAXOPBLOCKS; lia| |].
  - split.
    + exists b1, (k_sleeplocks s), (k_locks s0). by destruct s.
    + exact R1.
    + exists []. split; [|done]. simpl. apply ring_nil; [rewrite N1|rewrite V1]; by rewrite Z.eqb_refl.
    + intros i Hi. lia.
    + intros lk Hlk. exact (initlock_free _ _ _ _ Hlk).
  - exists s2. split; [by erewrite bind_ok by exact HE|]. exact Hu.
Qed.

(** The cache of a kernel that has just booted. *)
Lemma binit_fresh s s' b bb : k_bcache s = replicate 31 zero_buf -> binit_upto s NBUF s' ->
  lookupZ (k_bcache s') b = Some bb ->
  b_data bb = b_data zero_buf /\ b_disk bb = 0 /\ b_dev bb = 0 /\ b_refcnt bb = 0.
Proof.
  intros Hz [_ [Hlen Hrel] _ _ _] Hl. pose proof (lookupZ_Some_range _ _ _ Hl) as Hr. rewrite Hlen in Hr.
  destruct (lookupZ_is_Some _ _ Hr) as [xx Hxx]. destruct (Hrel _ _ Hxx) as (nx & pv & E).
  rewrite Hl in E. injection E as ->. rewrite Hz, lookupZ_replicate in Hxx.
  - injection Hxx as <-. done.
  - rewrite Hz, lenZ_replicate in Hr. done.
Qed.

Lemma binit_inv `{DL : DiskLaws} pid s s' : k_bcache s = replicate 31 zero_buf -> disk_ready s ->
  (forall n, is_block (dblock (k_disk s) n)) -> binit_upto s NBUF s' -> bio_inv pid [] [] s'.
Proof.
  intros Hz Hrdy Hblk Hu. assert (Hbuf := fun b bb => binit_fresh s s' b bb Hz Hu).
  destruct Hu as [(bc & sl & lk & ->) [Hlen Hrel] (order & HR & Hperm) Hfree Hlk].
  cbn [k_bcache set_k_bcache set_k_sleeplocks set_k_locks] in Hlen, HR. split.
  - by apply (disk_ready_ext s).
  - cbn [k_bcache set_k_bcache]. by rewrite Hlen, Hz, lenZ_replicate.
  - by exists order.
  - intros b bb Hb Hl. destruct (Hbuf b bb Hl) as (H1 & H2 & H3 & H4).
    pose proof (lookupZ_Some_range _ _ _ Hl). split.
    + rewrite H1. split; [done|]. apply Forall_replicate. lia.
    + done.
    + by left.
    + rewrite H4, !count_false; [done|intros [_ Hn]; by apply not_elem_of_nil in Hn|apply not_elem_of_nil].
    + intros _. apply Hfree. lia.
    + intros Hn. by apply not_elem_of_nil in Hn.
    + intros _ Hd. unfold ROOTDEV in *. lia.
  - intros b b' bb bb' n Hb _ Hl _ [Hd _]. destruct (Hbuf b bb Hl) as (_ & _ & H3 & _). unfold ROOTDEV in *. lia.
  - intros n Hn. by apply not_elem_of_nil in Hn.
  - split; [constructor|]. intros b Hn. by apply not_elem_of_nil in Hn.
  - done.
Qed.

Lemma view_clean `{DL : DiskLaws} pid H P s n : bio_inv pid H P s -> n ∉ P ->
  (forall b d, b ∈ H -> ~ buf_is s b n d) -> view s n = dblock (k_disk s) n.
Proof.
  intros Hi HnP HnH. destruct (view_cases _ _ _ _ n Hi) as [(b & bb & Hb & Hl & Hc & ->)|[_ ->]]; [|done].
  pose proof Hc as [Hd <-]. apply (bo_clean _ _ _ _ _ _ (bi_buf _ _ _ _ Hi b bb (proj2 Hb) Hl)); [|done|done].
  intros HbH. apply (HnH b (b_data bb) HbH). by exists bb.
Qed.

(** ** Properties *)

(** [binit] builds the cache.  From the zeroed array of buffers it returns,
    and then every buffer is on the circular list exactly once, unlocked,
    unused and caching nothing, so the invariant of the cache holds with no
    buffer held and no block pinned; locks that were free are still free and
    nothing but the cache and its locks has changed. *)
Theorem binit_establishes `{DL : DiskLaws} pid s :
  k_bcache s = replicate 31 zero_buf -> disk_ready s -> (forall n, is_block (dblock (k_disk s) n)) ->
  exists bc sl lk, let s' := set_k_bcache bc (set_k_sleeplocks sl (set_k_locks lk s)) in
    binit s = Ok tt s' /\ bio_inv pid [] [] s' /\ (forall l, lock_free l s -> lock_free l s') /\
    (forall n, view s' n = dblock (k_disk s) n).
Proof.
  intros Hz Hrdy Hblk. destruct (binit_ok s) as (s' & HE & Hu); [by rewrite Hz|].
  pose proof (binit_inv pid s s' Hz Hrdy Hblk Hu) as Hinv.
  destruct Hu as [(bc & sl & lk & ->) _ _ _ Hlk]. exists bc, sl, lk. split; [done|]. split; [done|]. split; [done|].
  intros n. apply (view_clean _ _ _ _ n Hinv); [apply not_elem_of_nil|]. intros b d Hb. by apply not_elem_of_nil in Hb.
Qed.

(** C20: The cache is coherent.  [bread] of a block that the caller does not
    hold already, when a buffer is free (or the block is pinned, hence
    cached), returns the one buffer that holds the block, locked by the
    caller, with the logical contents of the block: the cached copy if there
    is one and the disk block otherwise.  The logical contents of all blocks,
    the disk and the caller's other buffers are unchanged.  [brelse] of the
    unmodified buffer succeeds and restores the invariant; a buffer that
    nothing else refers to becomes the most recently used. *)
Theorem bread_brelse `{DL : DiskLaws} {PT : Patience} en p pid H P s n :
  running en p pid s -> bio_inv pid H P s -> 0 <= n < disk_blocks ->
  (forall b d, b ∈ H -> ~ buf_is s b n d) -> n ∈ P \/ lenZ H + lenZ P < NBUF ->
  exists b s1, bread ROOTDEV n s = Ok b s1 /\ bstep p s s1 /\ b ∉ H /\ bio_inv pid (b :: H) P s1 /\
    buf_is s1 b n (view s n) /\ sleep_held (SL_buf b) pid s1 /\
    (forall b' d, b' < NBUF -> buf_is s1 b' n d -> b' = b) /\
    (forall m, view s1 m = view s m) /\ keeps H s s1 /\ k_disk s1 = k_disk s /\
  exists s2, brelse b s1 = Ok tt s2 /\ bstep p s s2 /\ bio_inv pid H P s2 /\ (forall m, view s2 m = view s m) /\
    keeps H s s2 /\ (n ∉ P -> exists order, lru s2 (b :: order)).
Proof.
  intros Hr Hi Hn HnH Hroom.
  destruct (bread_ok en p pid H P s n Hr Hi Hn HnH Hroom) as (b & s1 & HE & Hst & HbH & Hi1 & Hb1 & Hv1 & Hk1 & Hd1).
  exists b, s1. repeat (split; [done|]).
  destruct (bio_inv_held _ _ _ _ _ _ _ Hi1 (list_elem_of_here _ _) Hb1)
    as (bb & nm & Hb & Hl & Hc & _ & _ & _ & _ & _ & _ & Hlk & _).
  split; [by exists nm|]. split.
  { intros b' d Hb' (bb' & Hl' & Hc' & _). eapply (bi_uniq _ _ _ _ Hi1); try done. apply Hb. }
  repeat (split; [done|]).
  destruct (brelse_ok en p pid H P s1 b n (view s n) (bstep_running _ _ _ _ _ Hst Hr) Hi1 Hb1)
    as (s2 & HE2 & Hst2 & Hi2 & Hv2 & Hk2 & Hd2 & Hlru).
  { destruct (decide (n ∈ P)) as [|HnP]; [by left|right]. rewrite Hd1. by eapply view_clean. }
  exists s2. split; [done|]. split; [by etransitivity|]. split; [done|]. split; [intros m; by rewrite Hv2, Hv1|].
  split; [by etransitivity|]. intros HnP. destruct (bi_ring _ _ _ _ Hi1) as (order & HR & Hperm).
  destruct (list_elem_of_split order b) as (o1 & o2 & ->); [by apply (order_elem _ _ Hperm)|].
  exists (o1 ++ o2). specialize (Hlru o1 o2 HR). by rewrite bool_decide_false in Hlru.
Qed.

(** [bget] recycles by age.  For a block that is not cached it takes the
    least recently used of the buffers nothing refers to: the last of the LRU
    order whose count is zero, every later one being in use.  When every
    buffer is in use it panics. *)
Theorem bget_recycles_lru `{DL : DiskLaws} {PT : Patience} en p pid H P s n :
  running en p pid s -> bio_inv pid H P s ->
  (forall b bb, b < NBUF -> lookupZ (k_bcache s) b = Some bb -> ~ caches bb n) ->
  (exists b bb o1 o2 s', bget ROOTDEV n s = Ok b s' /\ lru s (o1 ++ b :: o2) /\
    lookupZ (k_bcache s) b = Some bb /\ b_refcnt bb = 0 /\
    (forall x xx, x ∈ o2 -> lookupZ (k_bcache s) x = Some xx -> b_refcnt xx <> 0) /\
    lookupZ (k_bcache s') b = Some (recycle n bb) /\ forall x, x <> b -> lookupZ (k_bcache s') x = lookupZ (k_bcache s) x) \/
  ((forall b bb, b < NBUF -> lookupZ (k_bcache s) b = Some bb -> b_refcnt bb <> 0) /\
    bget ROOTDEV n s = Fail (Panic "bget: no buffers")).
Proof.
  intros Hr Hi Hno. destruct (bget_cases en p pid H P s n Hr Hi) as (order & HR & _ & Hg).
  { intros b bb Hb Hl. apply (Hno b bb); [|done]. by apply (bi_held _ _ _ _ Hi). }
  destruct Hg as [(b & bb & Hb & Hl & Hc & _)|[_ [(b & bb & o1 & o2 & Hb & Hl & H0 & -> & Hall & HE)|Hpanic]]].
  - by destruct (Hno b bb (proj2 Hb) Hl).
  - left. pose proof (lookupZ_Some_range _ _ _ Hl). exists b, bb, o1, o2. eexists. split; [exact HE|]. repeat (split; [done|]).
    split; simpl; [by apply lookupZ_insertZ_eq|]. intros x Hx. by apply lookupZ_insertZ_ne.
  - by right.
Qed.

(** *** Witnesses: a disk that completes every request at once *)

Definition demo_disk : DiskDriver := fun b write s =>
  match lookupZ (k_bcache s) b with
  | Some bb => Ok tt (transfer b bb write s)
  | None => Fail (UB "virtio_disk_rw")
  end.

Lemma demo_disk_ok : forall en p pid s b bb write,
  running en p pid s -> True -> 0 <= b < NBUF ->
  lookupZ (k_bcache s) b = Some bb -> b_disk bb = 0 -> 0 <= b_blockno bb < 2000 ->
  exists ps vd io, woken_by (Some p) (k_proc s) ps /\
    let s' := set_k_mmio io (set_k_vdisk vd (set_k_proc ps (transfer b bb write s))) in
    True /\ @virtio_disk_rw demo_disk b write s = Ok tt s'.
Proof.
  intros en p pid s b bb write _ _ _ Hl _ _. exists (k_proc s), (k_vdisk s), (k_mmio s). split; [reflexivity|].
  split; [done|]. unfold virtio_disk_rw, demo_disk. rewrite Hl. by destruct s, write.
Qed.

Definition demo_laws : @DiskLaws demo_disk :=
  {| disk_ready := fun _ => True; disk_blocks := 2000; disk_blocks_max := ltac:(lia);
     disk_ready_ext := fun _ _ _ h => h; disk_rw_ok := demo_disk_ok |}.

(** Process 5, pid 9, after [binit], over a disk [d]. *)
Definition demo_run (d : disk_dev) : kstate :=
  set_k_disk d (set_k_proc (insertZ 5 (set_p_pid 9 (set_p_state RUNNING zero_proc)) (k_proc demo_sched)) demo_sched).

Lemma demo_running d : running true 5 9 (demo_run d).
Proof.
  split.
  - apply (kthread_ext 5 demo_sched); try reflexivity. exact demo_thread.
  - exact demo_sched_outside.
  - eexists. split; [reflexivity|]. done.
Qed.

Lemma demo_cache d : (forall n, is_block (dblock d n)) -> exists bc sl lk,
  let s := set_k_bcache bc (set_k_sleeplocks sl (set_k_locks lk (demo_run d))) in
  binit (demo_run d) = Ok tt s /\ running true 5 9 s /\ @bio_inv demo_disk demo_laws 9 [] [] s /\
  forall b bb, lookupZ bc b = Some bb -> b_dev bb = 0 /\ b_refcnt bb = 0.
Proof.
  intros Hd. destruct (binit_ok (demo_run d)) as (s' & HE & Hu); [reflexivity|].
  pose proof (@binit_inv demo_disk demo_laws 9 (demo_run d) s' eq_refl I Hd Hu) as Hinv.
  assert (Hbuf := fun b bb => binit_fresh (demo_run d) s' b bb eq_refl Hu).
  destruct Hu as [(bc & sl & lk & ->) _ _ _ Hlk]. exists bc, sl, lk. split; [exact HE|].
  split; [|split; [exact Hinv|intros b bb Hl; destruct (Hbuf b bb Hl) as (_ & _ & H1 & H2); exact (conj H1 H2)]].
  destruct (demo_running d) as [[K1 K2 K3 K4 K5] Ho Hp]. split; [|exact Ho|exact Hp].
  split; [exact K1|exact K2|exact K3|exact K4|].
  intros l Hl. by apply Hlk, K5.
Qed.

Lemma zero_is_block : is_block zero_block.
Proof. split; [reflexivity|]. apply Forall_replicate. lia. Qed.

Lemma zero_disk_blocks n : is_block (dblock (mkDisk ∅ []) n).
Proof. exact zero_is_block. Qed.

Lemma binit_establishes_witness : exists s', binit (demo_run (mkDisk ∅ [])) = Ok tt s'.
Proof.
  destruct (@binit_establishes demo_disk demo_laws 9 (demo_run (mkDisk ∅ [])) eq_refl I zero_disk_blocks)
    as (bc & sl & lk & HE & _). eexists. exact HE.
Defined.

Lemma bread_brelse_witness : exists s b s1 s2,
  @bread demo_patience demo_disk ROOTDEV 77 s = Ok b s1 /\ buf_is s1 b 77 zero_block /\ brelse b s1 = Ok tt s2.
Proof.
  destruct (demo_cache (mkDisk ∅ []) zero_disk_blocks) as (bc & sl & lk & _ & Hr & Hi & _).
  destruct (@bread_brelse demo_disk demo_laws demo_patience true 5 9 [] [] _ 77 Hr Hi) as
    (b & s1 & HE & _ & _ & _ & Hb & _ & _ & _ & _ & _ & s2 & HE2 & _).
  - simpl. lia.
  - intros b d Hb. by apply not_elem_of_nil in Hb.
  - right. reflexivity.
  - eexists _, b, s1, s2. split; [exact HE|]. split; [|exact HE2].
    rewrite (@view_clean demo_disk demo_laws 9 [] [] _ 77 Hi) in Hb; [exact Hb|apply not_elem_of_nil|].
    intros x d Hx. by apply not_elem_of_nil in Hx.
Defined.

Lemma bget_recycles_lru_witness : exists s b s', @bget demo_patience ROOTDEV 77 s = Ok b s'.
Proof.
  destruct (demo_cache (mkDisk ∅ []) zero_disk_blocks) as (bc & sl & lk & _ & Hr & Hi & H0).
  destruct (bio_inv_buf _ _ _ _ 0 Hi) as [b0 Hb0]; [done|].
  destruct (@bget_recycles_lru demo_disk demo_laws demo_patience true 5 9 [] [] _ 77 Hr Hi)
    as [(b & bb & o1 & o2 & s' & HE & _)|[Hall _]].
  - intros b bb _ Hl [Hd _]. destruct (H0 b bb Hl) as [Hd' _]. unfold ROOTDEV in Hd. lia.
  - eexists _, b, s'. exact HE.
  - exfalso. apply (Hall 0 b0 ltac:(done) Hb0). by destruct (H0 0 b0 Hb0).
Defined.
