(* ===== verification/Log.v ===== *)
(** * The redo log ([kernel/log.c])

    The log header and the log blocks are disk blocks read and written through
    the buffer cache. *)

From S2P Require Import Prelude Riscv State Spinlock Sched Sleeplock FsLayout Bio.

(** ** Definitions *)

(** A [struct logheader] in a block is [n], then [block[0 .. LOGSIZE-1]], as
    32-bit integers. *)

(** [sizeof(struct logheader)] *)
Definition sizeof_logheader : Z := 4 + 4 * LOGSIZE.

Definition get_log : M logst := gets k_log.
Definition put_log (l : logst) : M unit := modify (set_k_log l).

(** [log.lh.block[i]]; an index past the array is undefined behaviour. *)
Definition get_lh_block (i : Z) : M Z := l <- get_log;; deref (lookupZ (lh_block (log_lh l)) i).
Definition put_lh_block (i v : Z) : M unit :=
  l <- get_log;;
  if bool_decide (0 <= i < lenZ (lh_block (log_lh l)))
  then put_log (set_log_lh (set_lh_block (insertZ i v (lh_block (log_lh l))) (log_lh l)) l)
  else ub "log.lh.block".
Definition put_lh_n (n : Z) : M unit :=
  l <- get_log;; put_log (set_log_lh (set_lh_n n (log_lh l)) l).

(** [for (i = 0; i < log.lh.n; i++)], with the bound read once more each turn
    by the code and changed by no turn. *)
Definition for_lh (body : Z -> M unit) : M unit :=
  l <- get_log;;
  for_loop (Z.to_nat (lh_n (log_lh l))) 0 (fun i => body i;; ret (@None unit));;
  ret tt.

Section Log.
Context {PT : Patience} {DD : DiskDriver}.

Definition install_body (recovering : bool) (tail : Z) : M unit :=
  l <- get_log;;
  lbuf <- bread (u32 (log_dev l)) (u32 (log_start l + tail + 1));;
  l <- get_log;;
  bn <- get_lh_block tail;;
  dbuf <- bread (u32 (log_dev l)) (u32 bn);;
  d <- get_data lbuf;;
  put_data dbuf d;;
  bwrite dbuf;;
  when (negb recovering) (bunpin dbuf);;
  brelse lbuf;;
  brelse dbuf.

Definition install_trans (recovering : bool) : M unit := for_lh (install_body recovering).

Definition read_head_body (d : list Z) (i : Z) : M unit :=
  put_lh_block i (get_i32 d (4 + 4 * i)).

Definition read_head : M unit :=
  l <- get_log;;
  b <- bread (u32 (log_dev l)) (u32 (log_start l));;
  d <- get_data b;;
  put_lh_n (get_i32 d 0);;
  for_lh (read_head_body d);;
  brelse b.

Definition write_head_body (b i : Z) : M unit :=
  d <- get_data b;;
  bn <- get_lh_block i;;
  put_data b (put_u32 d (4 + 4 * i) bn).

Definition write_head : M unit :=
  l <- get_log;;
  b <- bread (u32 (log_dev l)) (u32 (log_start l));;
  l <- get_log;;
  d <- get_data b;;
  put_data b (put_u32 d 0 (lh_n (log_lh l)));;
  for_lh (write_head_body b);;
  bwrite b;;
  brelse b.

Definition recover_from_log : M unit :=
  read_head;;
  install_trans true;;
  put_lh_n 0;;
  write_head.

Definition initlog (dev : Z) (sb : superblock) : M unit :=
  if BSIZE <=? sizeof_logheader then panic "initlog: too big logheader" else
  initlock L_log "log";;
  l <- get_log;;
  put_log (set_log_dev dev (set_log_size (sb_nlog sb) (set_log_start (sb_logstart sb) l)));;
  recover_from_log.

(** One turn of the loop of [begin_op]. *)
Definition begin_op_body (_ : unit) : M (unit + unit) :=
  l <- get_log;;
  if truth (log_committing l) then
    sleep C_log L_log;; ret (inl tt)
  else if LOGSIZE <? lh_n (log_lh l) + (log_outstanding l + 1) * MAXOPBLOCKS then
    sleep C_log L_log;; ret (inl tt)
  else
    put_log (set_log_outstanding (log_outstanding l + 1) l);;
    release L_log;;
    ret (inr tt).

Definition begin_op : M unit :=
  acquire L_log;;
  loop patience begin_op_body tt.

Definition write_log_body (tail : Z) : M unit :=
  l <- get_log;;
  to <- bread (u32 (log_dev l)) (u32 (log_start l + tail + 1));;
  l <- get_log;;
  bn <- get_lh_block tail;;
  from <- bread (u32 (log_dev l)) (u32 bn);;
  d <- get_data from;;
  put_data to d;;
  bwrite to;;
  brelse from;;
  brelse to.

Definition write_log : M unit := for_lh write_log_body.

Definition commit : M unit :=
  l <- get_log;;
  when (0 <? lh_n (log_lh l))
    (write_log;;
     write_head;;
     install_trans false;;
     put_lh_n 0;;
     write_head).

Definition end_op : M unit :=
  acquire L_log;;
  l <- get_log;;
  put_log (set_log_outstanding (log_outstanding l - 1) l);;
  l <- get_log;;
  if truth (log_committing l) then panic "log.committing" else
  do_commit <-
    (if log_outstanding l =? 0 then
       put_log (set_log_committing 1 l);;
       ret true
     else
       wakeup (Some C_log);;
       ret false);;
  release L_log;;
  when do_commit
    (commit;;
     acquire L_log;;
     l <- get_log;;
     put_log (set_log_committing 0 l);;
     wakeup (Some C_log);;
     release L_log).

End Log.

(** The first index of [log.lh.block] at which [log_write] stops. *)
Definition log_write_scan (blockno i : Z) : M (option Z) :=
  bn <- get_lh_block i;;
  ret (if u32 bn =? blockno then Some i else None).

Definition log_write (b : Z) : M unit :=
  acquire L_log;;
  l <- get_log;;
  if (LOGSIZE <=? lh_n (log_lh l)) || (log_size l - 1 <=? lh_n (log_lh l))
  then panic "too big a transaction" else
  if log_outstanding l <? 1 then panic "log_write outside of trans" else
  bb <- get_buf b;;
  r <- for_loop (Z.to_nat (lh_n (log_lh l))) 0 (log_write_scan (b_blockno bb));;
  let i := default (Z.max 0 (lh_n (log_lh l))) r in
  put_lh_block i (i32 (b_blockno bb));;
  when (i =? lh_n (log_lh l))
    (bpin b;;
     put_lh_n (lh_n (log_lh l) + 1));;
  release L_log.

(** *** The log on disk *)

(** A sequence of block writes. *)
Definition dwrites (ws : list (Z * list Z)) (d : disk_dev) : disk_dev :=
  fold_left (fun d w => dwrite (fst w) (snd w) d) ws d.

(** The blocks a header on disk names. *)
Definition log_head (d : list Z) : list Z :=
  (fun i => get_i32 d (4 + 4 * i)) <$> rangeZ 0 (Z.to_nat (get_i32 d 0)).

(** The header names [P]. *)
Definition head_is (d : list Z) (P : list Z) : Prop := get_i32 d 0 = lenZ P /\ log_head d = P.

(** The contents of block [m] once the blocks of the log that starts at [a],
    named by [L], have been copied home. *)
Fixpoint replay (D : Z -> list Z) (a : Z) (L : list Z) (m : Z) : list Z :=
  match L with
  | [] => D m
  | n :: L' => if m =? n then D a else replay D (a + 1) L' m
  end.
Definition recovered (D : Z -> list Z) (start m : Z) : list Z := replay D (start + 1) (log_head (D start)) m.

Definition in_log (l : logst) (n : Z) : Prop := log_start l <= n < log_start l + log_size l.

(** [ws] stored from byte [off] on. *)
Fixpoint put_words (d : list Z) (off : Z) (ws : list Z) : list Z :=
  match ws with
  | [] => d
  | w :: ws' => put_words (put_u32 d off w) (off + 4) ws'
  end.

(** A header block that names [P]. *)
Definition head_block (d : list Z) (P : list Z) : list Z := put_words (put_u32 d 0 (lenZ P)) 4 P.

(** Blocks a log of this disk can name. *)
Record log_names `{DL : DiskLaws} (l : logst) (P : list Z) : Prop := {
  ln_fit : lenZ P < log_size l;
  ln_nodup : NoDup P;
  ln_range : forall n, n ∈ P -> 0 <= n < disk_blocks /\ ~ in_log l n;
}.

(** The in-memory log: its area, and the blocks of the transaction. *)
Record log_geom `{DL : DiskLaws} (l : logst) : Prop := {
  lo_dev : log_dev l = ROOTDEV;
  lo_start : 0 <= log_start l;
  lo_size : 2 <= log_size l <= LOGSIZE;
  lo_end : log_start l + log_size l <= disk_blocks;
  lo_len : lenZ (lh_block (log_lh l)) = LOGSIZE;
}.
Record log_has (l : logst) (P : list Z) : Prop := {
  lh_count : lh_n (log_lh l) = lenZ P;
  lh_names : forall i n, lookupZ P i = Some n -> lookupZ (lh_block (log_lh l)) i = Some n;
}.

(** ** Lemmas *)

(** *** Loops *)

Lemma for_each_inv (Inv : Z -> kstate -> Prop) (body : Z -> M unit) n : forall i s,
  Inv i s -> (forall j s1, i <= j < i + Z.of_nat n -> Inv j s1 -> exists s2, body j s1 = Ok tt s2 /\ Inv (j + 1) s2) ->
  exists s', for_loop n i (fun i => body i;; ret (@None unit)) s = Ok None s' /\ Inv (i + Z.of_nat n) s'.
Proof.
  induction n as [|n IH]; intros i s HI Hstep.
  - exists s. split; [done|]. by rewrite Z.add_0_r.
  - destruct (Hstep i s ltac:(lia) HI) as (s2 & HE & HI2).
    destruct (IH (i + 1) s2 HI2) as (s3 & HE3 & HI3).
    { intros j s1 Hj. apply Hstep. lia. }
    exists s3. split; [|by replace (i + Z.of_nat (S n)) with (i + 1 + Z.of_nat n) by lia].
    erewrite for_loop_next by (erewrite bind_ok by exact HE; reflexivity). exact HE3.
Qed.

Lemma for_lh_inv (Inv : Z -> kstate -> Prop) (body : Z -> M unit) s n :
  lh_n (log_lh (k_log s)) = n -> 0 <= n -> Inv 0 s ->
  (forall j s1, 0 <= j < n -> Inv j s1 -> exists s2, body j s1 = Ok tt s2 /\ Inv (j + 1) s2) ->
  exists s', for_lh body s = Ok tt s' /\ Inv n s'.
Proof.
  intros Hn H0 HI Hstep. destruct (for_each_inv Inv body (Z.to_nat n) 0 s HI) as (s' & HE & HI').
  { intros j s1 Hj. apply Hstep. lia. }
  exists s'. rewrite Z2Nat.id in HI' by done. split; [|done]. unfold for_lh, get_log. rewrite bind_gets, Hn.
  by erewrite bind_ok by exact HE.
Qed.

(** *** Writes *)

Lemma dwrites_app ws ws' d : dwrites (ws ++ ws') d = dwrites ws' (dwrites ws d).
Proof. apply fold_left_app. Qed.

Lemma d_writes_dwrites ws d : d_writes (dwrites ws d) = d_writes d ++ ws.
Proof.
  revert d. induction ws as [|w ws IH]; intros d; [by rewrite app_nil_r|]. cbn [dwrites fold_left] in *.
  unfold dwrites in IH. rewrite IH. simpl. rewrite <- app_assoc. by destruct w.
Qed.

Lemma dblock_dwrites_out ws d m : m ∉ fst <$> ws -> dblock (dwrites ws d) m = dblock d m.
Proof.
  revert d. induction ws as [|w ws IH]; intros d Hm; [done|]. cbn [dwrites fold_left]. rewrite fmap_cons in Hm.
  unfold dwrites in IH. rewrite IH by set_solver. rewrite dblock_dwrite. destruct (Z.eqb_spec m (fst w)); [set_solver|done].
Qed.

Lemma dblock_dwrites_in ws d m x : NoDup (fst <$> ws) -> (m, x) ∈ ws -> dblock (dwrites ws d) m = x.
Proof.
  revert d. induction ws as [|w ws IH]; intros d Hd Hm; [by apply not_elem_of_nil in Hm|]. cbn [dwrites fold_left].
  rewrite fmap_cons in Hd. apply NoDup_cons in Hd as [Hn Hd]. apply elem_of_cons in Hm as [<-|Hm].
  - rewrite (dblock_dwrites_out ws) by done. rewrite dblock_dwrite. by rewrite Z.eqb_refl.
  - unfold dwrites in IH. by apply IH.
Qed.

(** *** Headers *)

Lemma put_u32_len d off w : 0 <= off -> off + 4 <= lenZ d -> lenZ (put_u32 d off w) = lenZ d.
Proof. intros. unfold put_u32. apply lenZ_put_bytes; rewrite ?lenZ_le_split; lia. Qed.

Lemma put_u32_block d off w : is_block d -> 0 <= off -> off + 4 <= BSIZE -> is_block (put_u32 d off w).
Proof.
  intros [Hl Hb] H1 H2. split; [rewrite put_u32_len; lia|]. apply is_bytes_put; [done|apply le_split_range].
Qed.

Lemma get_put_u32 d off w : 0 <= off -> off + 4 <= lenZ d -> get_u32 (put_u32 d off w) off = u32 w.
Proof.
  intros. unfold get_u32, put_u32. pose proof (get_put_same d off (le_split 4 w)) as HG.
  rewrite lenZ_le_split in HG. change (Z.of_nat 4) with 4 in HG. rewrite HG by lia. by rewrite le_combine_split.
Qed.

Lemma get_put_u32_ne d off off' w : 0 <= off -> off + 4 <= lenZ d -> 0 <= off' -> off' + 4 <= lenZ d ->
  off' + 4 <= off \/ off + 4 <= off' -> get_u32 (put_u32 d off w) off' = get_u32 d off'.
Proof. intros. unfold get_u32, put_u32. rewrite get_put_out; rewrite ?lenZ_le_split; try done; lia. Qed.

Lemma i32_u32 w : - 2 ^ 31 <= w < 2 ^ 31 -> i32 (u32 w) = w.
Proof.
  intros H. unfold i32, signed, u32. rewrite Zmod_mod. change (2 ^ (32 - 1)) with (2 ^ 31).
  destruct (Z.ltb_spec (w mod 2 ^ 32) (2 ^ 31)) as [Hlt|Hge]; Z.div_mod_to_equations; lia.
Qed.

Lemma put_words_snoc d off ws w : put_words d off (ws ++ [w]) = put_u32 (put_words d off ws) (off + 4 * lenZ ws) w.
Proof.
  revert d off. induction ws as [|x ws IH]; intros d off; cbn [app put_words]; [by rewrite Z.add_0_r|].
  rewrite IH, lenZ_cons. f_equal. lia.
Qed.

Lemma put_words_len d off ws : 0 <= off -> off + 4 * lenZ ws <= lenZ d -> lenZ (put_words d off ws) = lenZ d.
Proof.
  revert d off. induction ws as [|x ws IH]; intros d off H1 H2; [done|]. rewrite lenZ_cons in H2. cbn [put_words].
  pose proof (lenZ_nonneg ws). rewrite IH; rewrite ?put_u32_len; lia.
Qed.

Lemma put_words_block d off ws : is_block d -> 0 <= off -> off + 4 * lenZ ws <= BSIZE -> is_block (put_words d off ws).
Proof.
  revert d off. induction ws as [|x ws IH]; intros d off H0 H1 H2; [done|]. rewrite lenZ_cons in H2. cbn [put_words].
  pose proof (lenZ_nonneg ws). apply IH; [apply put_u32_block; [done|lia|lia]|lia|lia].
Qed.

Lemma put_words_before d off ws a : 0 <= a -> a + 4 <= off -> off + 4 * lenZ ws <= lenZ d ->
  get_u32 (put_words d off ws) a = get_u32 d a.
Proof.
  revert d off. induction ws as [|x ws IH]; intros d off H0 H1 H2; [done|]. rewrite lenZ_cons in H2. cbn [put_words].
  pose proof (lenZ_nonneg ws). rewrite IH; [|lia|lia|rewrite put_u32_len; lia]. apply get_put_u32_ne; lia.
Qed.

Lemma put_words_get d off ws i w : 0 <= off -> off + 4 * lenZ ws <= lenZ d -> lookupZ ws i = Some w ->
  get_u32 (put_words d off ws) (off + 4 * i) = u32 w.
Proof.
  revert d off i. induction ws as [|x ws IH]; intros d off i H0 H1 Hi.
  { apply lookupZ_Some_range in Hi. change (lenZ []) with 0 in Hi. lia. }
  rewrite lenZ_cons in H1. cbn [put_words]. pose proof (lenZ_nonneg ws). pose proof (lookupZ_Some_range _ _ _ Hi).
  destruct (decide (i = 0)) as [->|Hne].
  - rewrite Z.add_0_r. rewrite put_words_before; [|lia|lia|rewrite put_u32_len; lia]. rewrite get_put_u32 by lia.
    by injection Hi as ->.
  - replace (off + 4 * i) with (off + 4 + 4 * (i - 1)) by lia. apply IH; [lia|rewrite put_u32_len; lia|].
    unfold lookupZ in *. destruct (Z.ltb_spec i 0), (Z.ltb_spec (i - 1) 0); try lia.
    replace (Z.to_nat i) with (S (Z.to_nat (i - 1))) in Hi by lia. done.
Qed.

Lemma head_block_ok d P : is_block d -> lenZ P <= LOGSIZE -> is_block (head_block d P).
Proof.
  intros Hd HP. unfold head_block. apply put_words_block; [apply put_u32_block; [done|lia|unfold BSIZE; lia]|lia|].
  unfold LOGSIZE, MAXOPBLOCKS, BSIZE in *. lia.
Qed.

Lemma log_head_block d P : is_block d -> lenZ P <= LOGSIZE -> (forall n, n ∈ P -> 0 <= n < 2 ^ 31) ->
  head_is (head_block d P) P.
Proof.
  intros [Hl Hb] HP Hr. pose proof (lenZ_nonneg P). unfold LOGSIZE, MAXOPBLOCKS, BSIZE in *.
  assert (Hl' : lenZ (put_u32 d 0 (lenZ P)) = 1024) by (rewrite put_u32_len; lia).
  assert (Hcnt : get_i32 (head_block d P) 0 = lenZ P).
  { unfold head_block, get_i32. rewrite put_words_before by lia. rewrite get_put_u32 by lia. apply i32_u32. lia. }
  split; [done|]. unfold log_head. rewrite Hcnt. unfold head_block. apply list_eqZ.
  - rewrite lenZ_fmap, lenZ_rangeZ. lia.
  - intros i Hi. rewrite lenZ_fmap, lenZ_rangeZ in Hi. rewrite lookupZ_fmap, lookupZ_rangeZ by lia.
    destruct (lookupZ_is_Some P i) as [n Hn]; [lia|]. simpl. rewrite Hn. unfold get_i32.
    rewrite (put_words_get _ 4 P i n) by (done || lia). rewrite i32_u32; [done|].
    specialize (Hr n (lookupZ_elem _ _ _ Hn)). lia.
Qed.

(** *** Copying between two held buffers *)

Lemma buf_is_inj s b n n' d d' : buf_is s b n d -> buf_is s b n' d' -> n = n' /\ d = d'.
Proof. intros (bb & Hl & [_ <-] & <-) (bb' & Hl' & [_ <-] & <-). rewrite Hl in Hl'. by injection Hl' as <-. Qed.

Lemma not_held_one s b n d m : buf_is s b n d -> m <> n -> forall b' d', b' ∈ [b] -> ~ buf_is s b' m d'.
Proof.
  intros Hb Hm b' d' Hb' H. apply list_elem_of_singleton in Hb' as ->. destruct (buf_is_inj _ _ _ _ _ _ Hb H). done.
Qed.

Lemma not_held_nil s m : forall b' d', b' ∈ ([] : list Z) -> ~ buf_is s b' m d'.
Proof. intros b' d' Hb'. by apply not_elem_of_nil in Hb'. Qed.

Section LogOps.
Context `{DL : DiskLaws} {PT : Patience} (en : bool) (p pid : Z).

Lemma copy_write P s src dst n m d d0 : running en p pid s -> bio_inv pid [src; dst] P s ->
  buf_is s src n d -> buf_is s dst m d0 ->
  exists s', (forall B (k : M B), (d <- get_data src;; put_data dst d;; bwrite dst;; k) s = k s') /\
    bstep p s s' /\ bio_inv pid [src; dst] P s' /\ buf_is s' src n d /\ buf_is s' dst m d /\
    (forall x, view s' x = if x =? m then d else view s x) /\ k_disk s' = dwrite m d (k_disk s).
Proof.
  intros Hr Hi Hsrc Hdst. assert (Hperm : [src; dst] ≡ₚ [dst; src]) by (apply Permutation_swap).
  destruct (bio_inv_held _ _ _ _ _ _ _ Hi (list_elem_of_here _ _) Hsrc) as (_ & _ & _ & _ & _ & _ & Hblk & _).
  apply (bio_inv_perm _ _ _ _ _ Hperm) in Hi.
  destruct (put_data_ok p pid [src] P s dst m d0 d Hi Hdst Hblk) as (s1 & E1 & St1 & I1 & B1 & V1 & K1 & D1).
  destruct (bwrite_ok en p pid [src] P s1 dst m d (bstep_running _ _ _ _ _ St1 Hr) I1 B1) as (s2 & E2 & St2 & I2 & B2 & V2 & K2 & D2).
  exists s2. split.
  { intros B k. erewrite bind_ok by (by eapply get_data_ok). erewrite bind_ok by exact E1. by erewrite bind_ok by exact E2. }
  split; [by etransitivity|]. split; [by apply (bio_inv_perm _ _ _ _ _ (Permutation_sym Hperm)) in I2|].
  split; [apply K2, K1; [set_solver|set_solver|done]|]. split; [done|]. split; [intros x; by rewrite V2, V1|]. by rewrite D2, D1.
Qed.

(** Two different blocks read one after the other. *)
Lemma bread_two P s n1 n2 : running en p pid s -> bio_inv pid [] P s -> 0 <= n1 < disk_blocks -> 0 <= n2 < disk_blocks ->
  n1 <> n2 -> lenZ P < NBUF -> n2 ∈ P \/ 1 + lenZ P < NBUF ->
  exists b1 b2 s1 s', bread ROOTDEV n1 s = Ok b1 s1 /\ bstep p s s1 /\ bread ROOTDEV n2 s1 = Ok b2 s' /\ bstep p s s' /\ bio_inv pid [b2; b1] P s' /\ buf_is s' b1 n1 (view s n1) /\ buf_is s' b2 n2 (view s n2) /\
    (forall x, view s' x = view s x) /\ k_disk s' = k_disk s.
Proof.
  intros Hr Hi H1 H2 Hne Hroom Hroom2.
  destruct (bread_ok en p pid [] P s n1 Hr Hi H1 (not_held_nil s n1)) as (b1 & s1 & E1 & St1 & _ & I1 & B1 & V1 & _ & D1); [by right|].
  destruct (bread_ok en p pid [b1] P s1 n2 (bstep_running _ _ _ _ _ St1 Hr) I1 H2) as (b2 & s2 & E2 & St2 & Hb2 & I2 & B2 & V2 & K2 & D2).
  { apply (not_held_one _ _ _ _ _ B1). done. }
  { done. }
  exists b1, b2, s1, s2. do 3 (split; [done|]).
  split; [by etransitivity|]. split; [done|]. split; [by apply K2; [set_solver|]|]. split; [by rewrite <- V1|].
  split; [intros x; by rewrite V2, V1|]. by rewrite D2, D1.
Qed.

(** Both buffers given back, the second one first. *)
Lemma brelse_two P s b1 b2 n1 n2 d1 d2 : running en p pid s -> bio_inv pid [b2; b1] P s ->
  buf_is s b1 n1 d1 -> buf_is s b2 n2 d2 -> n1 ∈ P \/ d1 = dblock (k_disk s) n1 -> n2 ∈ P \/ d2 = dblock (k_disk s) n2 ->
  exists s', (brelse b2;; brelse b1) s = Ok tt s' /\ bstep p s s' /\ bio_inv pid [] P s' /\
    (forall x, view s' x = view s x) /\ k_disk s' = k_disk s.
Proof.
  intros Hr Hi B1 B2 C1 C2.
  destruct (brelse_ok en p pid [b1] P s b2 n2 d2 Hr Hi B2 C2) as (s1 & E1 & St1 & I1 & V1 & K1 & D1 & _).
  destruct (brelse_ok en p pid [] P s1 b1 n1 d1 (bstep_running _ _ _ _ _ St1 Hr) I1) as (s2 & E2 & St2 & I2 & V2 & K2 & D2 & _).
  { apply K1; [set_solver|done]. }
  { by rewrite D1. }
  exists s2. split; [by erewrite bind_ok by exact E1|]. split; [by etransitivity|]. split; [done|].
  split; [intros x; by rewrite V2, V1|]. by rewrite D2, D1.
Qed.

Lemma names_i32 l P i n : log_geom l -> log_has l P -> lookupZ P i = Some n -> lookupZ (lh_block (log_lh l)) i = Some n.
Proof. intros _ Hh. apply Hh. Qed.

Lemma run_lh_block l P s i n : k_log s = l -> log_has l P -> lookupZ P i = Some n -> get_lh_block i s = Ok n s.
Proof.
  intros E Hh Hi. unfold get_lh_block, get_log. rewrite bind_gets, E. apply deref_ok. by apply Hh.
Qed.

(** *** Copying the cached blocks into the log *)

Definition log_writes (start : Z) (v : Z -> list Z) (P : list Z) : list (Z * list Z) :=
  (fun i => (start + i + 1, v (default 0 (lookupZ P i)))) <$> rangeZ 0 (length P).

Lemma log_addr l i : log_geom l -> 0 <= i -> i < log_size l - 1 -> 0 <= log_start l + i + 1 < disk_blocks /\
  in_log l (log_start l + i + 1) /\ u32 (log_start l + i + 1) = log_start l + i + 1 /\ u32 (log_dev l) = ROOTDEV.
Proof.
  intros [G1 G2 G3 G4 G5] H0 H1. pose proof disk_blocks_max. rewrite u32_small, G1 by lia. unfold in_log. split_and!; try lia. done.
Qed.

(** The first [k] writes of [log_writes]. *)
Lemma log_writes_S start v P k n : lookupZ P k = Some n ->
  log_writes start v (take (Z.to_nat (k + 1)) P) = log_writes start v (take (Z.to_nat k) P) ++ [(start + k + 1, v n)].
Proof.
  intros Hk. pose proof (lookupZ_Some_range _ _ _ Hk) as Hr. unfold log_writes.
  replace (Z.to_nat (k + 1)) with (S (Z.to_nat k)) by lia.
  assert (Hl : P !! Z.to_nat k = Some n) by (unfold lookupZ in Hk; by destruct (Z.ltb_spec k 0); [lia|]).
  rewrite (take_S_r _ _ _ Hl), length_app, Nat.add_1_r, rangeZ_S, fmap_app.
  unfold lenZ in Hr. rewrite length_take_le by lia. f_equal.
  - apply fmap_rangeZ_ext. intros i Hi. rewrite lookupZ_app, lenZ_take. unfold lenZ.
    destruct (Z.ltb_spec i (Z.min (Z.of_nat (Z.to_nat k)) (Z.of_nat (length P)))); [done|lia].
  - cbn [fmap list_fmap]. rewrite lookupZ_app, lenZ_take. unfold lenZ.
    destruct (Z.ltb_spec (0 + Z.of_nat (Z.to_nat k)) (Z.min (Z.of_nat (Z.to_nat k)) (Z.of_nat (length P)))); [lia|].
    replace (0 + Z.of_nat (Z.to_nat k) - _) with 0 by lia. cbn. do 3 f_equal. lia.
Qed.

Lemma write_log_ok P s l : running en p pid s -> bio_inv pid [] P s -> k_log s = l -> log_geom l -> log_has l P -> log_names l P ->
  exists s', write_log s = Ok tt s' /\ bstep p s s' /\ bio_inv pid [] P s' /\
    (forall m, ~ in_log l m -> view s' m = view s m) /\
    k_disk s' = dwrites (log_writes (log_start l) (view s) P) (k_disk s).
Proof.
  intros Hr Hi El Hg Hh Hn. pose proof (lo_size _ Hg). pose proof (ln_fit _ _ Hn).
  assert (HB : LOGSIZE = NBUF) by done.
  set (Inv := fun k s1 => bstep p s s1 /\ bio_inv pid [] P s1 /\ (forall m, ~ in_log l m -> view s1 m = view s m) /\
    k_disk s1 = dwrites (log_writes (log_start l) (view s) (take (Z.to_nat k) P)) (k_disk s)).
  destruct (for_lh_inv Inv write_log_body s (lenZ P)) as (s' & HE & Hst & Hi' & Hv & Hd).
  { rewrite El. apply Hh. }
  { apply lenZ_nonneg. }
  { unfold Inv. split; [reflexivity|]. done. }
  - intros k s1 Hk (St & I1 & V1 & D1). destruct (lookupZ_is_Some P k Hk) as [n Hkn].
    destruct (ln_range _ _ Hn n (lookupZ_elem _ _ _ Hkn)) as [Hnr Hnl].
    destruct (bstep_same _ _ _ St) as [El1 _]. rewrite El in El1. pose proof disk_blocks_max.
    destruct (log_addr l k Hg) as (Ha & Hal & Hau & Hdv); [lia|lia|].
    pose proof (bstep_running _ _ _ _ _ St Hr) as Hr1.
    destruct (bread_two P s1 (log_start l + k + 1) n Hr1 I1 Ha Hnr) as (b1 & b2 & sm & s2 & E2 & Stm & E2' & St2 & I2 & B1 & B2 & V2 & D2).
    { intros <-. done. }
    { lia. }
    { left. by eapply lookupZ_elem. }
    pose proof (bstep_running _ _ _ _ _ St2 Hr1) as Hr2. destruct (bstep_same _ _ _ St2) as [El2 _]. rewrite El1 in El2.
    destruct (copy_write P s2 b2 b1 n _ _ _ Hr2 I2 B2 B1) as (s3 & E3 & St3 & I3 & B3 & B3' & V3 & D3).
    pose proof (bstep_running _ _ _ _ _ St3 Hr2) as Hr3.
    destruct (brelse_two P s3 b1 b2 _ _ _ _ Hr3 I3 B3' B3) as (s4 & E4 & St4 & I4 & V4 & D4).
    { right. rewrite D3, dblock_dwrite, Z.eqb_refl. done. }
    { left. by eapply lookupZ_elem. }
    exists s4. split.
    { unfold write_log_body, get_log. rewrite bind_gets, El1, Hau, Hdv.
      erewrite bind_ok by exact E2. destruct (bstep_same _ _ _ Stm) as [Elm _]. rewrite El1 in Elm.
      rewrite bind_gets, Elm. erewrite bind_ok by (by eapply run_lh_block). rewrite Hdv, (u32_small n) by lia.
      erewrite bind_ok by exact E2'. by rewrite E3. }
    split; [etransitivity; [exact St|]; etransitivity; [exact St2|]; by etransitivity|]. split; [done|]. split.
    + intros m Hm. rewrite V4, V3. destruct (Z.eqb_spec m (log_start l + k + 1)) as [->|_]; [done|]. by rewrite V2, V1.
    + rewrite D4, D3, D2, D1, (log_writes_S _ _ _ _ _ Hkn), dwrites_app. cbn [dwrites fold_left fst snd].
      f_equal. by apply V1.
  - exists s'. unfold lenZ in Hd. rewrite Nat2Z.id, firstn_all in Hd. done.
Qed.

(** *** The header *)

Lemma write_head_ok P L s l : running en p pid s -> bio_inv pid [] P s -> k_log s = l -> log_geom l -> log_has l L ->
  lenZ L <= LOGSIZE -> lenZ P < NBUF -> (forall n, n ∈ P -> ~ in_log l n) ->
  exists s', write_head s = Ok tt s' /\ bstep p s s' /\ bio_inv pid [] P s' /\
    (forall m, ~ in_log l m -> view s' m = view s m) /\
    k_disk s' = dwrite (log_start l) (head_block (view s (log_start l)) L) (k_disk s).
Proof.
  intros Hr Hi El Hg Hh HL HP Hout. pose proof (lo_size _ Hg). pose proof (lo_start _ Hg). pose proof (lo_end _ Hg).
  pose proof disk_blocks_max. pose proof (lenZ_nonneg L).
  assert (Hin : in_log l (log_start l)) by (unfold in_log; lia).
  destruct (bread_ok en p pid [] P s (log_start l) Hr Hi ltac:(lia) (not_held_nil _ _)) as
    (b & s1 & E1 & St1 & _ & I1 & B1 & V1 & _ & D1); [by right|].
  set (d := view s (log_start l)) in *.
  assert (Hd : is_block d).
  { destruct (bio_inv_held _ _ _ _ _ _ _ I1 (list_elem_of_here _ _) B1) as (_ & _ & _ & _ & _ & _ & Hblk & _). done. }
  pose proof (bstep_running _ _ _ _ _ St1 Hr) as Hr1. destruct (bstep_same _ _ _ St1) as [El1 _]. rewrite El in El1.
  destruct (put_data_ok p pid [] P s1 b (log_start l) d (put_u32 d 0 (lenZ L)) I1 B1) as
    (s2 & E2 & St2 & I2 & B2 & V2 & _ & D2); [apply put_u32_block; [done|lia|unfold BSIZE; lia]|].
  destruct (bstep_same _ _ _ St2) as [El2 _]. rewrite El1 in El2.
  set (Inv := fun k s3 => bstep p s2 s3 /\ bio_inv pid [b] P s3 /\
    buf_is s3 b (log_start l) (put_words (put_u32 d 0 (lenZ L)) 4 (take (Z.to_nat k) L)) /\
    (forall m, ~ in_log l m -> view s3 m = view s2 m) /\ k_disk s3 = k_disk s2).
  destruct (for_lh_inv Inv (write_head_body b) s2 (lenZ L)) as (s3 & E3 & St3 & I3 & B3 & V3 & D3).
  { rewrite El2. apply Hh. }
  { done. }
  { unfold Inv. split; [reflexivity|]. done. }
  { intros k s3 Hk (St3 & I3 & B3 & V3 & D3). destruct (lookupZ_is_Some L k Hk) as [n Hkn].
    destruct (bstep_same _ _ _ St3) as [El3 _]. rewrite El2 in El3.
    assert (Htk : take (Z.to_nat (k + 1)) L = take (Z.to_nat k) L ++ [n]).
    { replace (Z.to_nat (k + 1)) with (S (Z.to_nat k)) by lia. apply take_S_r. unfold lookupZ in Hkn.
      by destruct (Z.ltb_spec k 0); [lia|]. }
    assert (Hlk : lenZ (take (Z.to_nat k) L) = k) by (rewrite lenZ_take; lia).
    assert (HW : put_words (put_u32 d 0 (lenZ L)) 4 (take (Z.to_nat (k + 1)) L) =
      put_u32 (put_words (put_u32 d 0 (lenZ L)) 4 (take (Z.to_nat k) L)) (4 + 4 * k) n).
    { by rewrite Htk, put_words_snoc, Hlk. }
    assert (Hblk : is_block (put_words (put_u32 d 0 (lenZ L)) 4 (take (Z.to_nat (k + 1)) L))).
    { apply put_words_block; [apply put_u32_block; [done|lia|unfold BSIZE; lia]|lia|].
      rewrite lenZ_take. unfold LOGSIZE, MAXOPBLOCKS, BSIZE in *. lia. }
    destruct (put_data_ok p pid [] P s3 b (log_start l) _ _ I3 B3 Hblk) as (s4 & E4 & St4 & I4 & B4 & V4 & _ & D4).
    exists s4. split.
    { unfold write_head_body. erewrite bind_ok by (by eapply get_data_ok). erewrite bind_ok by (by eapply run_lh_block).
      rewrite <- HW. exact E4. }
    split; [by etransitivity|]. split; [done|]. split; [done|]. split; [|by rewrite D4].
    intros m Hm. rewrite V4. destruct (Z.eqb_spec m (log_start l)) as [->|_]; [done|]. by apply V3. }
  unfold lenZ in B3 at 2. rewrite Nat2Z.id, firstn_all in B3. fold (head_block d L) in B3.
  pose proof (bstep_running _ _ _ _ _ St2 Hr1) as Hr2. pose proof (bstep_running _ _ _ _ _ St3 Hr2) as Hr3.
  destruct (bwrite_ok en p pid [] P s3 b _ _ Hr3 I3 B3) as (s4 & E4 & St4 & I4 & B4 & V4 & _ & D4).
  destruct (brelse_ok en p pid [] P s4 b _ _ (bstep_running _ _ _ _ _ St4 Hr3) I4 B4) as (s5 & E5 & St5 & I5 & V5 & _ & D5 & _).
  { right. by rewrite D4, dblock_dwrite, Z.eqb_refl. }
  exists s5. split.
  { unfold write_head, get_log. rewrite bind_gets, El, (lo_dev _ Hg), (u32_small (log_start l)) by lia.
    change (u32 ROOTDEV) with ROOTDEV. erewrite bind_ok by exact E1. rewrite bind_gets, El1.
    erewrite bind_ok by (by eapply get_data_ok). rewrite (lh_count _ _ Hh). erewrite bind_ok by exact E2.
    erewrite bind_ok by exact E3. by erewrite bind_ok by exact E4. }
  split; [do 4 (etransitivity; [eassumption|]); done|]. split; [done|]. split.
  - intros m Hm. rewrite V5, V4, V3, V2, V1 by done. destruct (Z.eqb_spec m (log_start l)) as [->|_]; done.
  - by rewrite D5, D4, D3, D2, D1.
Qed.

(** *** Copying the log home *)

Definition inst_writes (start : Z) (v : Z -> list Z) (L : list Z) : list (Z * list Z) :=
  (fun i => (default 0 (lookupZ L i), v (start + i + 1))) <$> rangeZ 0 (length L).

Lemma inst_writes_S start v L k n : lookupZ L k = Some n ->
  inst_writes start v (take (Z.to_nat (k + 1)) L) = inst_writes start v (take (Z.to_nat k) L) ++ [(n, v (start + k + 1))].
Proof.
  intros Hk. pose proof (lookupZ_Some_range _ _ _ Hk) as Hr. unfold inst_writes.
  replace (Z.to_nat (k + 1)) with (S (Z.to_nat k)) by lia.
  assert (Hl : L !! Z.to_nat k = Some n) by (unfold lookupZ in Hk; by destruct (Z.ltb_spec k 0); [lia|]).
  rewrite (take_S_r _ _ _ Hl), length_app, Nat.add_1_r, rangeZ_S, fmap_app.
  unfold lenZ in Hr. rewrite length_take_le by lia. f_equal.
  - apply fmap_rangeZ_ext. intros i Hi. rewrite lookupZ_app, lenZ_take. unfold lenZ.
    destruct (Z.ltb_spec i (Z.min (Z.of_nat (Z.to_nat k)) (Z.of_nat (length L)))); [done|lia].
  - cbn [fmap list_fmap]. rewrite lookupZ_app, lenZ_take. unfold lenZ.
    destruct (Z.ltb_spec (0 + Z.of_nat (Z.to_nat k)) (Z.min (Z.of_nat (Z.to_nat k)) (Z.of_nat (length L)))); [lia|].
    replace (0 + Z.of_nat (Z.to_nat k) - _) with 0 by lia. cbn. do 4 f_equal. lia.
Qed.

Lemma inst_writes_addrs start v L : fst <$> inst_writes start v L = L.
Proof.
  unfold inst_writes. rewrite <- list_fmap_compose. apply list_eqZ.
  - rewrite lenZ_fmap, lenZ_rangeZ. done.
  - intros i Hi. rewrite lenZ_fmap, lenZ_rangeZ in Hi. rewrite lookupZ_fmap, lookupZ_rangeZ, Z.add_0_l by lia.
    destruct (lookupZ_is_Some L i) as [n Hn]; [unfold lenZ; lia|]. cbn. by rewrite Hn.
Qed.

(** The blocks still pinned when [k] of [L] have been installed. *)
Definition pins_left (recovering : bool) (k : Z) (L : list Z) : list Z :=
  if recovering then [] else drop (Z.to_nat k) L.

Lemma pins_left_S k L n : lookupZ L k = Some n -> pins_left false k L = n :: pins_left false (k + 1) L.
Proof.
  intros Hk. pose proof (lookupZ_Some_range _ _ _ Hk). unfold pins_left.
  replace (Z.to_nat (k + 1)) with (S (Z.to_nat k)) by lia. apply drop_S.
  unfold lookupZ in Hk. by destruct (Z.ltb_spec k 0); [lia|].
Qed.

Lemma pins_left_sub recovering k L : pins_left recovering k L ⊆ L.
Proof. unfold pins_left. destruct recovering; [set_solver|]. intros n Hn. apply list_elem_of_lookup in Hn as [i Hi].
  rewrite lookup_drop in Hi. by eapply list_elem_of_lookup_2.
Qed.

(** The end of a turn: the pin is dropped unless the log is being recovered. *)
Lemma install_unpin recovering L k s b1 b2 n m d d1 : running en p pid s -> lookupZ L k = Some n -> NoDup L ->
  bio_inv pid [b2; b1] (pins_left recovering k L) s -> buf_is s b2 n d -> buf_is s b1 m d1 ->
  exists s', when (negb recovering) (bunpin b2) s = Ok tt s' /\ bstep p s s' /\
    bio_inv pid [b2; b1] (pins_left recovering (k + 1) L) s' /\ buf_is s' b2 n d /\ buf_is s' b1 m d1 /\ k_disk s' = k_disk s.
Proof.
  intros Hr Hk HND Hi B2 B1. destruct recovering; cbn [negb when].
  - exists s. split; [done|]. split; [reflexivity|]. done.
  - destruct (bio_inv_held _ _ _ _ _ _ _ Hi (list_elem_of_here _ _) B2)
      as (bb & nm & Hb & Hl & _ & _ & _ & _ & _ & _ & Href & _).
    rewrite (pins_left_S _ _ _ Hk) in *.
    assert (HnP : n ∉ pins_left false (k + 1) L).
    { pose proof (sublist_NoDup _ _ HND (sublist_drop L (Z.to_nat k))) as Hd. change (drop (Z.to_nat k) L) with (pins_left false k L) in Hd.
      rewrite (pins_left_S _ _ _ Hk) in Hd. by apply NoDup_cons in Hd as [? _]. }
    rewrite count_true in Href by set_solver. eexists. pose proof (rn_thread _ _ _ _ Hr) as Ht.
    split; [apply (bunpin_run s b2 bb); [apply Ht|apply Ht, static_bcache|done]|].
    split; [apply bstep_set_k_bcache|].
    destruct (bio_inv_pins pid [b1] (n :: pins_left false (k + 1) L) (pins_left false (k + 1) L) s
      (set_k_bcache (insertZ b2 (set_b_refcnt (u32 (b_refcnt bb - 1)) bb) (k_bcache s)) s) b2 n d bb Hi B2 Hl)
      as (J1 & J2 & J3 & J4).
    { set_solver. }
    { rewrite Href, (count_false (n ∈ _)) by done. done. }
    split; [done|]. split; [done|]. split; [|done]. apply J4; [set_solver|done].
Qed.

Lemma install_ok recovering L s l : running en p pid s -> bio_inv pid [] (pins_left recovering 0 L) s ->
  k_log s = l -> log_geom l -> log_has l L -> log_names l L ->
  exists s', install_trans recovering s = Ok tt s' /\ bstep p s s' /\ bio_inv pid [] [] s' /\
    k_disk s' = dwrites (inst_writes (log_start l) (dblock (k_disk s)) L) (k_disk s).
Proof.
  intros Hr Hi El Hg Hh Hn. pose proof (lo_size _ Hg). pose proof (ln_fit _ _ Hn). pose proof (ln_nodup _ _ Hn) as HND.
  assert (HB : LOGSIZE = NBUF) by done. pose proof disk_blocks_max.
  assert (HP : forall k, lenZ (pins_left recovering k L) < NBUF).
  { intros k. unfold pins_left. destruct recovering; [done|]. rewrite lenZ_drop. lia. }
  set (Inv := fun k s1 => bstep p s s1 /\ bio_inv pid [] (pins_left recovering k L) s1 /\
    k_disk s1 = dwrites (inst_writes (log_start l) (dblock (k_disk s)) (take (Z.to_nat k) L)) (k_disk s)).
  destruct (for_lh_inv Inv (install_body recovering) s (lenZ L)) as (s' & HE & Hst & Hi' & Hd).
  { rewrite El. apply Hh. }
  { apply lenZ_nonneg. }
  { unfold Inv. split; [reflexivity|]. done. }
  - intros k s1 Hk (St & I1 & D1). destruct (lookupZ_is_Some L k Hk) as [n Hkn].
    destruct (ln_range _ _ Hn n (lookupZ_elem _ _ _ Hkn)) as [Hnr Hnl].
    destruct (bstep_same _ _ _ St) as [El1 _]. rewrite El in El1.
    destruct (log_addr l k Hg) as (Ha & Hal & Hau & Hdv); [lia|lia|].
    pose proof (bstep_running _ _ _ _ _ St Hr) as Hr1.
    destruct (bread_two (pins_left recovering k L) s1 (log_start l + k + 1) n Hr1 I1 Ha Hnr) as
      (b1 & b2 & sm & s2 & E2 & Stm & E2' & St2 & I2 & B1 & B2 & V2 & D2).
    { intros <-. done. }
    { done. }
    { destruct recovering; [by right|left]. rewrite (pins_left_S _ _ _ Hkn). set_solver. }
    assert (Hlv : view s1 (log_start l + k + 1) = dblock (k_disk s) (log_start l + k + 1)).
    { rewrite (view_clean _ _ _ _ _ I1); [|intros Hp; apply pins_left_sub in Hp; by destruct (ln_range _ _ Hn _ Hp)|apply not_held_nil].
      rewrite D1. apply dblock_dwrites_out. rewrite inst_writes_addrs. intros Hp. apply elem_of_take in Hp as (j & Hj & _).
      apply list_elem_of_lookup_2 in Hj. by destruct (ln_range _ _ Hn _ Hj). }
    pose proof (bstep_running _ _ _ _ _ St2 Hr1) as Hr2.
    apply (bio_inv_perm _ _ [b1; b2]) in I2; [|apply Permutation_swap].
    destruct (copy_write _ s2 b1 b2 _ n _ _ Hr2 I2 B1 B2) as (s3 & E3 & St3 & I3 & B3 & B3' & V3 & D3).
    pose proof (bstep_running _ _ _ _ _ St3 Hr2) as Hr3.
    apply (bio_inv_perm _ _ [b2; b1]) in I3; [|apply Permutation_swap].
    destruct (install_unpin recovering L k s3 b1 b2 n _ _ _ Hr3 Hkn HND I3 B3' B3) as (s4 & E4 & St4 & I4 & B4 & B4' & D4).
    pose proof (bstep_running _ _ _ _ _ St4 Hr3) as Hr4.
    apply (bio_inv_perm _ _ [b1; b2]) in I4; [|apply Permutation_swap].
    assert (Hnd : dblock (k_disk s4) (log_start l + k + 1) = view s1 (log_start l + k + 1)).
    { rewrite D4, D3, dblock_dwrite. destruct (Z.eqb_spec (log_start l + k + 1) n) as [E|_]; [by rewrite E in Hal|].
      rewrite D2, D1, Hlv. apply dblock_dwrites_out. rewrite inst_writes_addrs. intros Hp. apply elem_of_take in Hp as (j & Hj & _).
      apply list_elem_of_lookup_2 in Hj. by destruct (ln_range _ _ Hn _ Hj). }
    destruct (brelse_two _ s4 b2 b1 n _ _ _ Hr4 I4 B4 B4') as (s5 & E5 & St5 & I5 & V5 & D5).
    { right. by rewrite D4, D3, dblock_dwrite, Z.eqb_refl. }
    { by right. }
    exists s5. split.
    { unfold install_body, get_log. rewrite bind_gets, El1, Hau, Hdv. erewrite bind_ok by exact E2.
      destruct (bstep_same _ _ _ Stm) as [Elm _]. rewrite El1 in Elm.
      rewrite bind_gets, Elm. erewrite bind_ok by (by eapply run_lh_block). rewrite Hdv, (u32_small n) by lia.
      erewrite bind_ok by exact E2'. rewrite E3. by erewrite bind_ok by exact E4. }
    split; [do 4 (etransitivity; [eassumption|]); done|]. split; [done|].
    rewrite D5, D4, D3, D2, D1, (inst_writes_S _ _ _ _ _ Hkn), dwrites_app, Hlv. done.
  - exists s'. split; [done|]. split; [done|]. split.
    + assert (HE0 : pins_left recovering (lenZ L) L = []); [|by rewrite HE0 in Hi'].
      unfold pins_left. destruct recovering; [done|]. apply drop_ge. unfold lenZ. lia.
    + unfold lenZ in Hd. by rewrite Nat2Z.id, firstn_all in Hd.
Qed.

End LogOps.

(** *** What a crash leaves on the disk *)

Lemma replay_in D a L i m : NoDup L -> lookupZ L i = Some m -> replay D a L m = D (a + i).
Proof.
  revert a i. induction L as [|n L IH]; intros a i HD Hi.
  { apply lookupZ_Some_range in Hi. change (lenZ []) with 0 in Hi. lia. }
  apply NoDup_cons in HD as [Hn HD]. pose proof (lookupZ_Some_range _ _ _ Hi). cbn [replay]. destruct (decide (i = 0)) as [->|Hne].
  - injection Hi as ->. by rewrite Z.eqb_refl, Z.add_0_r.
  - assert (Hi' : lookupZ L (i - 1) = Some m).
    { unfold lookupZ in *. destruct (Z.ltb_spec i 0), (Z.ltb_spec (i - 1) 0); try lia.
      replace (Z.to_nat i) with (S (Z.to_nat (i - 1))) in Hi by lia. done. }
    destruct (Z.eqb_spec m n) as [->|_]; [exfalso; by apply Hn, (lookupZ_elem _ _ _ Hi')|].
    rewrite (IH (a + 1) (i - 1)) by done. f_equal. lia.
Qed.

Lemma replay_out D a L m : m ∉ L -> replay D a L m = D m.
Proof.
  revert a. induction L as [|n L IH]; intros a Hm; [done|]. cbn [replay].
  destruct (Z.eqb_spec m n) as [->|_]; [set_solver|]. apply IH. set_solver.
Qed.

Lemma replay_ext D D' a L m : (forall x, D x = D' x) -> replay D a L m = replay D' a L m.
Proof. intros HE. revert a. induction L as [|n L IH]; intros a; cbn [replay]; [done|]. by rewrite HE, IH. Qed.

Lemma recovered_ext D D' start m : (forall x, D x = D' x) -> recovered D start m = recovered D' start m.
Proof. intros HE. unfold recovered. rewrite HE. by apply replay_ext. Qed.

Lemma elem_lookupZ {A} (l : list A) x : x ∈ l -> exists i, lookupZ l i = Some x.
Proof.
  intros Hx. apply list_elem_of_lookup in Hx as [i Hi]. exists (Z.of_nat i). unfold lookupZ.
  destruct (Z.ltb_spec (Z.of_nat i) 0); [lia|]. by rewrite Nat2Z.id.
Qed.

Lemma log_writes_addrs start V P : fst <$> log_writes start V P = rangeZ (start + 1) (length P).
Proof.
  unfold log_writes. rewrite <- list_fmap_compose, (rangeZ_fmap (start + 1)). apply list_fmap_ext. intros i x _.
  unfold compose. simpl. lia.
Qed.

Lemma log_writes_elem start V P i n : lookupZ P i = Some n -> (start + i + 1, V n) ∈ log_writes start V P.
Proof.
  intros Hi. apply list_elem_of_fmap. exists i. split; [by rewrite Hi|]. apply elem_of_rangeZ.
  pose proof (lookupZ_Some_range _ _ _ Hi). unfold lenZ in *. lia.
Qed.

(** The writes of [commit]: the log, the header, the blocks, the header. *)
Definition home_writes (V : Z -> list Z) (P : list Z) : list (Z * list Z) := (fun n => (n, V n)) <$> P.
Definition commit_writes (start : Z) (V : Z -> list Z) (h1 h2 : list Z) (P : list Z) : list (Z * list Z) :=
  log_writes start V P ++ (start, h1) :: home_writes V P ++ [(start, h2)].

Section Crash.
Context `{DL : DiskLaws} (l : logst) (P : list Z) (V : Z -> list Z) (d : disk_dev) (h1 h2 : list Z).
Context (Hg : log_geom l) (Hn : log_names l P).
Context (Hempty : head_is (dblock d (log_start l)) []).
Context (Hclean : forall m, m ∉ P -> ~ in_log l m -> V m = dblock d m).
Context (H1 : head_is h1 P) (H2 : head_is h2 []).

Lemma in_log_range i : 0 <= i <= lenZ P -> in_log l (log_start l + i).
Proof. pose proof (ln_fit _ _ Hn). unfold in_log. lia. Qed.

Lemma crash_before ws1 ws2 : ws1 ++ ws2 = log_writes (log_start l) V P ->
  head_is (dblock (dwrites ws1 d) (log_start l)) [] /\
  forall m, ~ in_log l m -> recovered (dblock (dwrites ws1 d)) (log_start l) m = dblock d m.
Proof.
  intros E. assert (Ha : forall x, x ∈ fst <$> ws1 -> log_start l < x <= log_start l + lenZ P).
  { intros x Hx. assert (Hx' : x ∈ fst <$> (ws1 ++ ws2)) by (rewrite fmap_app; set_solver).
    rewrite E, log_writes_addrs, elem_of_rangeZ in Hx'. unfold lenZ. lia. }
  assert (Hs : dblock (dwrites ws1 d) (log_start l) = dblock d (log_start l)).
  { apply dblock_dwrites_out. intros Hx. specialize (Ha _ Hx). lia. }
  rewrite Hs. split; [done|]. intros m Hm. unfold recovered. rewrite Hs, (proj2 Hempty). cbn [replay].
  apply dblock_dwrites_out. intros Hx. specialize (Ha _ Hx). apply Hm. replace m with (log_start l + (m - log_start l)) by lia.
  apply in_log_range. lia.
Qed.

Lemma crash_during B1 B2 : B1 ++ B2 = home_writes V P ->
  let D := dblock (dwrites (log_writes (log_start l) V P ++ (log_start l, h1) :: B1) d) in
  head_is (D (log_start l)) P /\ forall m, ~ in_log l m -> recovered D (log_start l) m = V m.
Proof.
  intros E D. assert (Ha : forall x, x ∈ fst <$> B1 -> x ∈ P).
  { intros x Hx. assert (Hx' : x ∈ fst <$> (B1 ++ B2)) by (rewrite fmap_app; set_solver).
    rewrite E in Hx'. unfold home_writes in Hx'. rewrite <- list_fmap_compose in Hx'.
    apply list_elem_of_fmap in Hx' as (y & -> & Hy). done. }
  assert (Hlog : forall x, in_log l x -> x ∉ fst <$> B1).
  { intros x Hx Hb. by destruct (ln_range _ _ Hn x (Ha x Hb)). }
  assert (Hs : D (log_start l) = h1).
  { unfold D. rewrite dwrites_app. cbn [dwrites fold_left fst snd]. fold (dwrites B1).
    rewrite dblock_dwrites_out; [rewrite dblock_dwrite; by rewrite Z.eqb_refl|].
    apply Hlog. replace (log_start l) with (log_start l + 0) by lia. apply in_log_range. pose proof (lenZ_nonneg P). lia. }
  rewrite Hs. split; [done|]. intros m Hm. unfold recovered. rewrite Hs, (proj2 H1).
  destruct (decide (m ∈ P)) as [HmP|HmP].
  - destruct (elem_lookupZ P m HmP) as [i Hi]. pose proof (lookupZ_Some_range _ _ _ Hi).
    rewrite (replay_in _ _ P i m (ln_nodup _ _ Hn) Hi). unfold D. rewrite dwrites_app. cbn [dwrites fold_left fst snd]. fold (dwrites B1).
    rewrite dblock_dwrites_out.
    + rewrite dblock_dwrite. destruct (Z.eqb_spec (log_start l + 1 + i) (log_start l)); [lia|].
      apply dblock_dwrites_in; [rewrite log_writes_addrs; apply NoDup_rangeZ|].
      replace (log_start l + 1 + i) with (log_start l + i + 1) by lia. by apply log_writes_elem.
    + apply Hlog. replace (log_start l + 1 + i) with (log_start l + (1 + i)) by lia. apply in_log_range. lia.
  - rewrite replay_out by done. unfold D. rewrite dwrites_app. cbn [dwrites fold_left fst snd]. fold (dwrites B1).
    rewrite dblock_dwrites_out by (intros Hx; by apply HmP, Ha). rewrite dblock_dwrite.
    destruct (Z.eqb_spec m (log_start l)) as [->|_].
    { exfalso. apply Hm. replace (log_start l) with (log_start l + 0) by lia. apply in_log_range. pose proof (lenZ_nonneg P). lia. }
    rewrite dblock_dwrites_out; [symmetry; by apply Hclean|]. rewrite log_writes_addrs, elem_of_rangeZ. intros Hx. apply Hm.
    replace m with (log_start l + (m - log_start l)) by lia. apply in_log_range. unfold lenZ. lia.
Qed.

Lemma crash_after :
  let D := dblock (dwrites (commit_writes (log_start l) V h1 h2 P) d) in
  head_is (D (log_start l)) [] /\ (forall m, ~ in_log l m -> D m = V m) /\
  forall m, ~ in_log l m -> recovered D (log_start l) m = V m.
Proof.
  intros D. assert (Hs : D (log_start l) = h2).
  { unfold D, commit_writes. rewrite app_comm_cons, app_assoc, dwrites_app. cbn [dwrites fold_left fst snd].
    rewrite dblock_dwrite. by rewrite Z.eqb_refl. }
  assert (HD : forall m, ~ in_log l m -> D m = V m).
  { intros m Hm.
    assert (Hne : m <> log_start l).
    { intros ->. apply Hm. replace (log_start l) with (log_start l + 0) by lia. apply in_log_range. pose proof (lenZ_nonneg P). lia. }
    unfold D, commit_writes. rewrite app_comm_cons, app_assoc, dwrites_app. cbn [dwrites fold_left fst snd].
    rewrite dblock_dwrite. destruct (Z.eqb_spec m (log_start l)); [done|]. fold (dwrites (log_writes (log_start l) V P ++ (log_start l, h1) :: home_writes V P) d).
    rewrite dwrites_app. cbn [dwrites fold_left fst snd]. fold (dwrites (home_writes V P)).
    assert (Hadd : fst <$> home_writes V P = P).
    { unfold home_writes. rewrite <- list_fmap_compose. apply list_fmap_id. }
    destruct (decide (m ∈ P)) as [HmP|HmP].
    - apply dblock_dwrites_in; [rewrite Hadd; apply Hn|]. apply list_elem_of_fmap. by exists m.
    - rewrite dblock_dwrites_out by (by rewrite Hadd). rewrite dblock_dwrite. destruct (Z.eqb_spec m (log_start l)); [done|].
      rewrite dblock_dwrites_out; [symmetry; by apply Hclean|]. rewrite log_writes_addrs, elem_of_rangeZ. intros Hx. apply Hm.
      replace m with (log_start l + (m - log_start l)) by lia. apply in_log_range. unfold lenZ. lia. }
  rewrite Hs. split; [done|]. split; [done|]. intros m Hm. unfold recovered. rewrite Hs, (proj2 H2). cbn [replay]. by apply HD.
Qed.

(** A crash after any number of the writes of [commit]: the log on disk is
    empty or complete, and recovers to the old or to the new contents. *)
Lemma crash_prefix ws1 ws2 : ws1 ++ ws2 = commit_writes (log_start l) V h1 h2 P ->
  let D := dblock (dwrites ws1 d) in
  (head_is (D (log_start l)) [] \/ head_is (D (log_start l)) P) /\
  ((forall m, ~ in_log l m -> recovered D (log_start l) m = dblock d m) \/
   (forall m, ~ in_log l m -> recovered D (log_start l) m = V m)).
Proof.
  intros E D. unfold commit_writes in E. apply app_eq_inv in E as [(k & -> & E)|(k & E & _)].
  - destruct k as [|x k].
    { unfold D. rewrite app_nil_r. destruct (crash_before (log_writes (log_start l) V P) []) as [? ?]; [apply app_nil_r|].
      split; [by left|by left]. }
    injection E as <- E. symmetry in E. apply app_eq_inv in E as [(k' & -> & E)|(k' & E & _)].
    + symmetry in E. apply app_eq_unit in E as [[-> ->]|[-> ->]].
      * unfold D. rewrite (app_nil_r (home_writes V P)). destruct (crash_during (home_writes V P) []) as [? ?]; [apply app_nil_r|]. split; [by right|by right].
      * destruct crash_after as (? & _ & ?). split; [by left|by right].
    + destruct (crash_during k k') as [? ?]; [done|]. split; [by right|by right].
  - destruct (crash_before ws1 k) as [? ?]; [done|]. split; [by left|by left].
Qed.

End Crash.

(** *** [commit] *)

(** What changes while a thread uses the log. *)
Definition lstep (p : Z) (s s' : kstate) : Prop := exists s1 lg, bstep p s s1 /\ s' = set_k_log lg s1.

Lemma bstep_lstep p s s' : bstep p s s' -> lstep p s s'.
Proof. intros H. exists s', (k_log s'). split; [done|by destruct s']. Qed.

Lemma bstep_set_log p s s' lg : bstep p s s' -> bstep p (set_k_log lg s) (set_k_log lg s').
Proof.
  intros (ps & sl & bc & dk & vd & io & Hw & ->). exists ps, sl, bc, dk, vd, io. split; [done|reflexivity].
Qed.

Lemma lstep_log p s lg : lstep p s (set_k_log lg s).
Proof. exists s, lg. split; [reflexivity|done]. Qed.

#[global] Instance lstep_preorder p : PreOrder (lstep p).
Proof.
  split; [intros s; by apply bstep_lstep|]. intros x y z (y1 & lg & St & ->) (z1 & lg' & St' & ->).
  apply (bstep_set_log _ _ _ (k_log y1)) in St'. exists (set_k_log (k_log y1) z1), lg'. split; [|reflexivity].
  etransitivity; [exact St|]. replace y1 with (set_k_log (k_log y1) (set_k_log lg y1)) at 1; [done|by destruct y1].
Qed.

Lemma lstep_running en p pid s s' : lstep p s s' -> running en p pid s -> running en p pid s'.
Proof. intros (s1 & lg & St & ->) Hr. apply (bstep_running _ _ _ _ _ St) in Hr.
  by apply (running_ext en p pid s1).
Qed.

Lemma lstep_same p s s' : lstep p s s' ->
  k_sb s' = k_sb s /\ k_itable s' = k_itable s /\ k_mem s' = k_mem s /\ k_freelist s' = k_freelist s /\ k_ftable s' = k_ftable s.
Proof. intros (s1 & lg & St & ->). destruct (bstep_same _ _ _ St) as (_ & ? & ? & ? & ? & ?). done. Qed.

Lemma bio_inv_ext `{DL : DiskLaws} pid H P s s' : k_bcache s' = k_bcache s -> k_sleeplocks s' = k_sleeplocks s ->
  k_disk s' = k_disk s -> k_vdisk s' = k_vdisk s -> bio_inv pid H P s -> bio_inv pid H P s'.
Proof.
  intros E1 E2 E3 E4 [I1 I2 I3 I4 I5 I6 I7 I8]. split; rewrite ?E1, ?E3; try done; [by apply (disk_ready_ext s)|].
  intros b bb Hb Hl. destruct (I4 b bb Hb Hl) as [B1 B2 B3 B4 B5 B6 B7].
  split; unfold sleep_free, sleep_held in *; rewrite ?E2, ?E3; done.
Qed.

Lemma bio_inv_log `{DL : DiskLaws} pid H P s lg : bio_inv pid H P s -> bio_inv pid H P (set_k_log lg s).
Proof. by apply bio_inv_ext. Qed.

Lemma inst_writes_home start v V P : (forall i n, lookupZ P i = Some n -> v (start + i + 1) = V n) ->
  inst_writes start v P = home_writes V P.
Proof.
  intros Hv. unfold inst_writes, home_writes. apply list_eqZ.
  - rewrite !lenZ_fmap, lenZ_rangeZ. done.
  - intros i Hi. rewrite lenZ_fmap, lenZ_rangeZ in Hi. rewrite !lookupZ_fmap, lookupZ_rangeZ, Z.add_0_l by lia.
    destruct (lookupZ_is_Some P i) as [n Hn]; [unfold lenZ; lia|]. cbn. rewrite Hn. cbn. by rewrite (Hv i n Hn).
Qed.

Lemma log_has_empty lg : log_has (set_log_lh (set_lh_n 0 (log_lh lg)) lg) [].
Proof. split; [done|]. intros i n Hi. apply lookupZ_Some_range in Hi. change (lenZ []) with 0 in Hi. lia. Qed.

Lemma log_geom_n `{DL : DiskLaws} lg n : log_geom lg -> log_geom (set_log_lh (set_lh_n n (log_lh lg)) lg).
Proof. intros []. by split. Qed.

Section Commit.
Context `{DL : DiskLaws} {PT : Patience} (en : bool) (p pid : Z).

Lemma commit_ok P s l : running en p pid s -> bio_inv pid [] P s -> k_log s = l -> log_geom l -> log_has l P ->
  log_names l P -> P <> [] -> exists s' h1 h2, commit s = Ok tt s' /\ lstep p s s' /\ bio_inv pid [] [] s' /\
    k_log s' = set_log_lh (set_lh_n 0 (log_lh l)) l /\ head_is h1 P /\ head_is h2 [] /\
    k_disk s' = dwrites (commit_writes (log_start l) (view s) h1 h2 P) (k_disk s).
Proof.
  intros Hr Hi El Hg Hh Hn Hne. pose proof (lo_size _ Hg). pose proof (ln_fit _ _ Hn). pose proof disk_blocks_max.
  assert (HB : LOGSIZE = NBUF) by done.
  assert (Hout : forall n, n ∈ P -> ~ in_log l n) by (intros n HnP; by apply (ln_range _ _ Hn)).
  assert (Hrng : forall n, n ∈ P -> 0 <= n < 2 ^ 31) by (intros n HnP; destruct (ln_range _ _ Hn n HnP); lia).
  assert (Hblk : forall P' s1, bio_inv pid [] P' s1 -> is_block (view s1 (log_start l))).
  { intros P' s1 I1. destruct (view_cases _ _ _ _ (log_start l) I1) as [(b & bb & Hb & Hl & _ & ->)|[_ ->]]; [|apply I1].
    apply (bo_data _ _ _ _ _ _ (bi_buf _ _ _ _ I1 b bb (proj2 Hb) Hl)). }
  destruct (write_log_ok en p pid P s l Hr Hi El Hg Hh Hn) as (s1 & E1 & St1 & I1 & V1 & D1).
  destruct (bstep_same _ _ _ St1) as [El1 _]. rewrite El in El1. pose proof (bstep_running _ _ _ _ _ St1 Hr) as Hr1.
  destruct (write_head_ok en p pid P P s1 l Hr1 I1 El1 Hg Hh) as (s2 & E2 & St2 & I2 & V2 & D2); [lia|lia|done|].
  destruct (bstep_same _ _ _ St2) as [El2 _]. rewrite El1 in El2. pose proof (bstep_running _ _ _ _ _ St2 Hr1) as Hr2.
  destruct (install_ok en p pid false P s2 l Hr2 I2 El2 Hg Hh Hn) as (s3 & E3 & St3 & I3 & D3).
  destruct (bstep_same _ _ _ St3) as [El3 _]. rewrite El2 in El3. pose proof (bstep_running _ _ _ _ _ St3 Hr2) as Hr3.
  set (l' := set_log_lh (set_lh_n 0 (log_lh l)) l). set (s4 := set_k_log l' s3).
  assert (Hr4 : running en p pid s4) by (apply (lstep_running en p pid s3); [apply lstep_log|done]).
  destruct (write_head_ok en p pid [] [] s4 l' Hr4 (bio_inv_log _ _ _ _ _ I3) eq_refl (log_geom_n _ _ Hg) (log_has_empty l))
    as (s5 & E5 & St5 & I5 & V5 & D5); [done|done|intros n Hx; by apply not_elem_of_nil in Hx|].
  destruct (bstep_same _ _ _ St5) as [El5 _].
  exists s5, (head_block (view s1 (log_start l)) P), (head_block (view s3 (log_start l)) []). split.
  { unfold commit, get_log. rewrite bind_gets, El, (lh_count _ _ Hh). pose proof (lenZ_nonneg P).
    destruct (Z.ltb_spec 0 (lenZ P)) as [_|Hz]; [|destruct P; [done|rewrite lenZ_cons in Hz; pose proof (lenZ_nonneg P); lia]].
    cbn [when]. erewrite bind_ok by exact E1. erewrite bind_ok by exact E2. erewrite bind_ok by exact E3.
    rewrite (bind_ok _ _ _ tt s4); [exact E5|]. unfold put_lh_n, get_log. rewrite bind_gets, El3. done. }
  split.
  { transitivity s3; [apply bstep_lstep; do 2 (etransitivity; [eassumption|]); done|].
    transitivity s4; [apply lstep_log|by apply bstep_lstep]. }
  split; [done|]. split; [done|]. split; [apply log_head_block; [by eapply Hblk|lia|done]|].
  split; [apply log_head_block; [by eapply Hblk|done|intros n Hx; by apply not_elem_of_nil in Hx]|].
  rewrite D5. change (k_disk s4) with (k_disk s3). rewrite D3, (inst_writes_home _ _ (view s)).
  - rewrite D2, D1. unfold commit_writes. rewrite app_comm_cons, app_assoc, !dwrites_app. done.
  - intros i n Hi'. rewrite D2, dblock_dwrite, D1. pose proof (lookupZ_Some_range _ _ _ Hi').
    destruct (Z.eqb_spec (log_start l + i + 1) (log_start l)); [lia|].
    apply dblock_dwrites_in; [rewrite log_writes_addrs; apply NoDup_rangeZ|]. by apply log_writes_elem.
Qed.

End Commit.

(** *** Recovery *)

Lemma head_is_lookup d L i n : head_is d L -> lookupZ L i = Some n -> get_i32 d (4 + 4 * i) = n.
Proof.
  intros [Hc Hl] Hi. pose proof (lookupZ_Some_range _ _ _ Hi) as Hr. rewrite <- Hl in Hi. unfold log_head in Hi.
  rewrite lookupZ_fmap, lookupZ_rangeZ, Z.add_0_l in Hi by (rewrite Hc; lia). by injection Hi.
Qed.

(** The writes of a recovery, and a crash during it. *)
Definition recover_writes (start : Z) (v : Z -> list Z) (h : list Z) (L : list Z) : list (Z * list Z) :=
  inst_writes start v L ++ [(start, h)].

Section RecoverCrash.
Context `{DL : DiskLaws} (l : logst) (L : list Z) (d : disk_dev) (h : list Z).
Context (Hg : log_geom l) (Hn : log_names l L) (HL : head_is (dblock d (log_start l)) L) (Hh : head_is h []).

Lemma recover_addr i : 0 <= i <= lenZ L -> in_log l (log_start l + i).
Proof. pose proof (ln_fit _ _ Hn). unfold in_log. lia. Qed.

Lemma recover_log_kept ws1 ws2 a : ws1 ++ ws2 = inst_writes (log_start l) (dblock d) L -> in_log l a ->
  dblock (dwrites ws1 d) a = dblock d a.
Proof.
  intros E Ha. apply dblock_dwrites_out. intros Hx.
  assert (Hx' : a ∈ fst <$> (ws1 ++ ws2)) by (rewrite fmap_app; set_solver).
  rewrite E, inst_writes_addrs in Hx'. by destruct (ln_range _ _ Hn a Hx').
Qed.

Lemma recover_during ws1 ws2 : ws1 ++ ws2 = inst_writes (log_start l) (dblock d) L ->
  let D := dblock (dwrites ws1 d) in
  head_is (D (log_start l)) L /\ forall m, ~ in_log l m -> recovered D (log_start l) m = recovered (dblock d) (log_start l) m.
Proof.
  intros E D. assert (Hs : D (log_start l) = dblock d (log_start l)).
  { apply (recover_log_kept ws1 ws2); [done|]. replace (log_start l) with (log_start l + 0) by lia. apply recover_addr.
    pose proof (lenZ_nonneg L). lia. }
  split; [by rewrite Hs|]. intros m Hm. unfold recovered. rewrite Hs, (proj2 HL).
  destruct (decide (m ∈ L)) as [HmL|HmL].
  - destruct (elem_lookupZ L m HmL) as [i Hi]. pose proof (lookupZ_Some_range _ _ _ Hi).
    rewrite !(replay_in _ _ L i m (ln_nodup _ _ Hn) Hi). apply (recover_log_kept ws1 ws2); [done|].
    replace (log_start l + 1 + i) with (log_start l + (1 + i)) by lia. apply recover_addr. lia.
  - rewrite !replay_out by done. apply dblock_dwrites_out. intros Hx.
    assert (Hx' : m ∈ fst <$> (ws1 ++ ws2)) by (rewrite fmap_app; set_solver). by rewrite E, inst_writes_addrs in Hx'.
Qed.

Lemma recover_after :
  let D := dblock (dwrites (recover_writes (log_start l) (dblock d) h L) d) in
  head_is (D (log_start l)) [] /\ forall m, ~ in_log l m -> D m = recovered (dblock d) (log_start l) m.
Proof.
  intros D. assert (Hs : D (log_start l) = h).
  { unfold D, recover_writes. rewrite dwrites_app. cbn [dwrites fold_left fst snd]. rewrite dblock_dwrite. by rewrite Z.eqb_refl. }
  split; [by rewrite Hs|]. intros m Hm. unfold D, recover_writes. rewrite dwrites_app. cbn [dwrites fold_left fst snd].
  rewrite dblock_dwrite. destruct (Z.eqb_spec m (log_start l)) as [->|_].
  { exfalso. apply Hm. replace (log_start l) with (log_start l + 0) by lia. apply recover_addr. pose proof (lenZ_nonneg L). lia. }
  unfold recovered. rewrite (proj2 HL). destruct (decide (m ∈ L)) as [HmL|HmL].
  - destruct (elem_lookupZ L m HmL) as [i Hi]. pose proof (lookupZ_Some_range _ _ _ Hi) as Hr.
    rewrite (replay_in _ _ L i m (ln_nodup _ _ Hn) Hi). apply dblock_dwrites_in; [rewrite inst_writes_addrs; apply Hn|].
    apply list_elem_of_fmap. exists i. rewrite Hi. split; [cbn; do 2 f_equal; lia|]. apply elem_of_rangeZ. unfold lenZ in Hr. lia.
  - rewrite replay_out by done. apply dblock_dwrites_out. by rewrite inst_writes_addrs.
Qed.

End RecoverCrash.

Lemma log_geom_lh `{DL : DiskLaws} lg lh : log_geom lg -> lenZ (lh_block lh) = LOGSIZE -> log_geom (set_log_lh lh lg).
Proof. intros [] H. by split. Qed.

Lemma log_names_eq `{DL : DiskLaws} l l' P : log_start l' = log_start l -> log_size l' = log_size l -> log_names l P -> log_names l' P.
Proof. intros E1 E2 [H1 H2 H3]. split; [by rewrite E2|done|]. unfold in_log. rewrite E1, E2. exact H3. Qed.

Section Recover.
Context `{DL : DiskLaws} {PT : Patience} (en : bool) (p pid : Z).

(** The loop of [read_head], with [k] entries read. *)
Lemma read_head_loop d L s l : k_log s = l -> log_geom l -> head_is d L -> lenZ L <= LOGSIZE -> lh_n (log_lh l) = lenZ L ->
  exists lh, for_lh (read_head_body d) s = Ok tt (set_k_log (set_log_lh lh l) s) /\ lenZ (lh_block lh) = LOGSIZE /\
    log_has (set_log_lh lh l) L.
Proof.
  intros El Hg Hd HL Hc.
  set (Inv := fun k s1 => exists lh, s1 = set_k_log (set_log_lh lh l) s /\ lh_n lh = lenZ L /\ lenZ (lh_block lh) = LOGSIZE /\
    forall i n, i < k -> lookupZ L i = Some n -> lookupZ (lh_block lh) i = Some n).
  destruct (for_lh_inv Inv (read_head_body d) s (lenZ L)) as (s' & HE & lh & -> & H1 & H2 & H3).
  { by rewrite El. }
  { apply lenZ_nonneg. }
  { exists (log_lh l). split; [rewrite <- El; by destruct s as [? ? ? ? ? ? ? ? ? ? ? ? ? ? []]|]. split; [done|].
    split; [apply Hg|]. intros i n Hi Hl. apply lookupZ_Some_range in Hl. lia. }
  - intros k s1 Hk (lh & -> & H1 & H2 & H3). destruct (lookupZ_is_Some L k Hk) as [n Hkn].
    set (lh' := set_lh_block (insertZ k n (lh_block lh)) lh). exists (set_k_log (set_log_lh lh' l) s). split.
    { unfold read_head_body, put_lh_block, get_log. rewrite (head_is_lookup d L k n Hd Hkn), bind_gets. cbn [k_log set_k_log log_lh set_log_lh].
      rewrite bool_decide_true by (rewrite H2; lia). reflexivity. }
    exists lh'. split; [done|]. split; [done|]. split; [unfold lh'; simpl; by rewrite lenZ_insertZ|].
    intros i m Hi Hl. simpl. rewrite lookupZ_insertZ by (rewrite H2; lia). destruct (Z.eqb_spec i k) as [->|Hne]; [congruence|].
    apply H3; [lia|done].
  - exists lh. split; [done|]. split; [done|]. split; [done|]. intros i n Hi. pose proof (lookupZ_Some_range _ _ _ Hi). by apply H3; [lia|].
Qed.

Lemma read_head_ok L s l : running en p pid s -> bio_inv pid [] [] s -> k_log s = l -> log_geom l ->
  head_is (dblock (k_disk s) (log_start l)) L -> lenZ L <= LOGSIZE ->
  exists s' lh, read_head s = Ok tt s' /\ lstep p s s' /\ bio_inv pid [] [] s' /\ k_log s' = set_log_lh lh l /\
    lenZ (lh_block lh) = LOGSIZE /\ log_has (set_log_lh lh l) L /\ k_disk s' = k_disk s.
Proof.
  intros Hr Hi El Hg Hd HL. pose proof (lo_size _ Hg). pose proof (lo_start _ Hg). pose proof (lo_end _ Hg). pose proof disk_blocks_max.
  destruct (bread_ok en p pid [] [] s (log_start l) Hr Hi ltac:(lia) (not_held_nil _ _)) as
    (b & s1 & E1 & St1 & _ & I1 & B1 & V1 & _ & D1); [by right|].
  rewrite (view_clean _ _ _ _ _ Hi (not_elem_of_nil _) (not_held_nil _ _)) in B1.
  set (d := dblock (k_disk s) (log_start l)) in *. destruct (bstep_same _ _ _ St1) as [El1 _]. rewrite El in El1.
  set (l1 := set_log_lh (set_lh_n (lenZ L) (log_lh l)) l). set (s2 := set_k_log l1 s1).
  destruct (read_head_loop d L s2 l1) as (lh & E3 & H3 & Hh3); try done; [by apply log_geom_n|].
  set (s3 := set_k_log (set_log_lh lh l1) s2) in *.
  assert (St3 : lstep p s s3) by (etransitivity; [by apply bstep_lstep|]; etransitivity; [apply lstep_log|apply lstep_log]).
  assert (B3 : buf_is s3 b (log_start l) d) by exact B1.
  destruct (brelse_ok en p pid [] [] s3 b _ _ (lstep_running _ _ _ _ _ St3 Hr)
    (bio_inv_log _ _ _ _ _ (bio_inv_log _ _ _ _ _ I1)) B3) as (s4 & E4 & St4 & I4 & V4 & _ & D4 & _).
  { right. unfold d. change (k_disk s3) with (k_disk s1). by rewrite D1. }
  exists s4, lh. split.
  { unfold read_head, get_log. rewrite bind_gets, El, (lo_dev _ Hg), (u32_small (log_start l)) by lia.
    change (u32 ROOTDEV) with ROOTDEV. erewrite bind_ok by exact E1. erewrite bind_ok by (by eapply get_data_ok).
    rewrite (proj1 Hd). rewrite (bind_ok _ _ _ tt s2).
    - by erewrite bind_ok by exact E3.
    - unfold put_lh_n, get_log. rewrite bind_gets, El1. done. }
  split; [etransitivity; [exact St3|by apply bstep_lstep]|]. split; [done|].
  destruct (bstep_same _ _ _ St4) as [El4 _]. split; [by rewrite El4|]. split; [done|]. split; [exact Hh3|].
  rewrite D4. exact D1.
Qed.

Lemma recover_ok L s l : running en p pid s -> bio_inv pid [] [] s -> k_log s = l -> log_geom l ->
  head_is (dblock (k_disk s) (log_start l)) L -> log_names l L ->
  exists s' h lh, recover_from_log s = Ok tt s' /\ lstep p s s' /\ bio_inv pid [] [] s' /\ k_log s' = set_log_lh lh l /\
    lenZ (lh_block lh) = LOGSIZE /\ log_has (k_log s') [] /\ head_is h [] /\
    k_disk s' = dwrites (recover_writes (log_start l) (dblock (k_disk s)) h L) (k_disk s).
Proof.
  intros Hr Hi El Hg Hd Hn. pose proof (ln_fit _ _ Hn). pose proof (lo_size _ Hg).
  destruct (read_head_ok L s l Hr Hi El Hg Hd ltac:(lia)) as (s1 & lh & E1 & St1 & I1 & El1 & Hlh & Hh1 & D1).
  set (l1 := set_log_lh lh l) in *. assert (Hg1 : log_geom l1) by (by apply log_geom_lh).
  pose proof (lstep_running _ _ _ _ _ St1 Hr) as Hr1.
  destruct (install_ok en p pid true L s1 l1 Hr1 I1 El1 Hg1 Hh1) as (s2 & E2 & St2 & I2 & D2); [by apply (log_names_eq l)|].
  destruct (bstep_same _ _ _ St2) as [El2 _]. rewrite El1 in El2. pose proof (bstep_running _ _ _ _ _ St2 Hr1) as Hr2.
  set (l3 := set_log_lh (set_lh_n 0 (log_lh l1)) l1). set (s3 := set_k_log l3 s2).
  assert (Hr3 : running en p pid s3) by (apply (lstep_running en p pid s2); [apply lstep_log|done]).
  destruct (write_head_ok en p pid [] [] s3 l3 Hr3 (bio_inv_log _ _ _ _ _ I2) eq_refl (log_geom_n _ _ Hg1) (log_has_empty l1))
    as (s4 & E4 & St4 & I4 & V4 & D4); [done|done|intros n Hx; by apply not_elem_of_nil in Hx|].
  destruct (bstep_same _ _ _ St4) as [El4 _].
  exists s4, (head_block (view s3 (log_start l3)) []), (set_lh_n 0 lh). split.
  { unfold recover_from_log. erewrite bind_ok by exact E1. erewrite bind_ok by exact E2.
    rewrite (bind_ok _ _ _ tt s3); [exact E4|]. unfold put_lh_n, get_log. rewrite bind_gets, El2. done. }
  split.
  { etransitivity; [exact St1|]. etransitivity; [apply bstep_lstep; exact St2|]. etransitivity; [apply lstep_log|]. by apply bstep_lstep. }
  split; [done|]. split; [by rewrite El4|]. split; [done|]. split; [rewrite El4; apply log_has_empty|].
  split.
  { apply log_head_block; [|done|intros n Hx; by apply not_elem_of_nil in Hx].
    rewrite (view_clean _ _ _ s3 _ (bio_inv_log _ _ _ _ _ I2) (not_elem_of_nil _) (not_held_nil _ _)). apply I2. }
  rewrite D4. change (k_disk s3) with (k_disk s2). unfold recover_writes. rewrite dwrites_app, D2, D1. done.
Qed.

End Recover.

(** *** [log_write] *)

Section LogWrite.
Context `{DL : DiskLaws} (en : bool) (p pid : Z).

Lemma static_log : L_log ∈ static_locks.
Proof. unfold static_locks. apply elem_of_app. left. set_solver. Qed.

(** The scan for the block, from index [i] on. *)
Lemma log_scan_ok l P s n m : k_log s = l -> log_has l P -> (forall x, x ∈ P -> 0 <= x < 2 ^ 31) ->
  forall i, 0 <= i -> i + Z.of_nat m = lenZ P -> exists r, for_loop m i (log_write_scan n) s = Ok r s /\
    match r with
    | Some j => lookupZ P j = Some n
    | None => forall j, i <= j -> lookupZ P j <> Some n
    end.
Proof.
  intros El Hh Hr. induction m as [|m IH]; intros i Hi Hm.
  - exists None. split; [done|]. intros j Hj Hl. apply lookupZ_Some_range in Hl. lia.
  - destruct (lookupZ_is_Some P i) as [x Hx]; [lia|].
    assert (Hbody : log_write_scan n i s = Ok (if x =? n then Some i else None) s).
    { unfold log_write_scan. erewrite bind_ok by (by eapply run_lh_block).
      pose proof (Hr x (lookupZ_elem _ _ _ Hx)). by rewrite u32_small by lia. }
    destruct (Z.eqb_spec x n) as [->|Hne].
    + exists (Some i). split; [by apply for_loop_stop|done].
    + destruct (IH (i + 1)) as (r & HE & Hres); [lia|lia|]. exists r. split; [by erewrite for_loop_next by exact Hbody|].
      destruct r as [j|]; [done|]. intros j Hj. destruct (decide (j = i)) as [->|]; [congruence|]. apply Hres. lia.
Qed.

Definition add_block (n : Z) (P : list Z) : list Z := if bool_decide (n ∈ P) then P else P ++ [n].

(** The header after [log_write]. *)
Lemma log_has_add l P n : log_geom l -> log_has l P -> n ∉ P -> lenZ P < LOGSIZE ->
  log_has (set_log_lh (set_lh_n (lenZ P + 1) (set_lh_block (insertZ (lenZ P) n (lh_block (log_lh l))) (log_lh l))) l) (P ++ [n]).
Proof.
  intros Hg [H1 H2] Hn HP. pose proof (lo_len _ Hg) as Hl. pose proof (lenZ_nonneg P). split.
  - simpl. rewrite lenZ_app. done.
  - intros i x Hi. simpl. rewrite lookupZ_insertZ by lia. rewrite lookupZ_app in Hi.
    destruct (Z.eqb_spec i (lenZ P)) as [->|Hne].
    + rewrite Z.ltb_irrefl, Z.sub_diag in Hi. done.
    + destruct (Z.ltb_spec i (lenZ P)); [by apply H2|]. apply lookupZ_Some_range in Hi. change (lenZ [n]) with 1 in Hi. lia.
Qed.

Lemma log_write_ok H P s l b n d : running en p pid s -> bio_inv pid (b :: H) P s -> k_log s = l -> log_geom l ->
  log_has l P -> log_names l P -> buf_is s b n d -> ~ in_log l n -> 1 <= log_outstanding l -> lenZ P < log_size l - 1 ->
  exists s' lh, log_write b s = Ok tt s' /\ lstep p s s' /\ bio_inv pid (b :: H) (add_block n P) s' /\
    k_log s' = set_log_lh lh l /\ log_geom (k_log s') /\ log_has (k_log s') (add_block n P) /\ log_names (k_log s') (add_block n P) /\
    buf_is s' b n d /\ (forall m, view s' m = view s m) /\ keeps H s s' /\ k_disk s' = k_disk s.
Proof.
  intros Hr Hi El Hg Hh Hn Hb Hnl Ho Hroom. pose proof (rn_thread _ _ _ _ Hr) as Hk. pose proof (lo_size _ Hg).
  pose proof (lenZ_nonneg P). pose proof disk_blocks_max.
  destruct (bio_inv_held _ _ _ _ _ _ _ Hi (list_elem_of_here _ _) Hb)
    as (bb & nm & Hbr & Hl & [Hc1 Hc2] & _ & _ & _ & _ & Hnr & Href & _).
  assert (Hrng : forall x, x ∈ P -> 0 <= x < 2 ^ 31) by (intros x Hx; destruct (ln_range _ _ Hn x Hx); lia).
  assert (Hrel : forall s1, kthread p s1 -> release L_log (acq L_log s1) = Ok tt s1).
  { intros s1 Hk1. apply release_acq; [apply Hk1|apply Hk1, static_log]. }
  destruct (log_scan_ok l P (acq L_log s) n (Z.to_nat (lenZ P)) ltac:(by autorewrite with acq) Hh Hrng 0) as (r & Hscan & Hres); [lia|lia|].
  assert (Hi32 : i32 n = n) by (apply i32_small; lia).
  assert (Hpre : log_write b s = (let i := default (lenZ P) r in put_lh_block i n;;
    when (i =? lenZ P) (bpin b;; put_lh_n (lenZ P + 1));; release L_log) (acq L_log s)).
  { unfold log_write. erewrite bind_ok by (apply acquire_ok; [apply Hk|apply Hk, static_log]).
    unfold get_log at 1. rewrite bind_gets. autorewrite with acq. rewrite El, (lh_count _ _ Hh).
    destruct (Z.leb_spec LOGSIZE (lenZ P)); [lia|]. destruct (Z.leb_spec (log_size l - 1) (lenZ P)); [lia|]. cbn [orb].
    destruct (Z.ltb_spec (log_outstanding l) 1); [lia|]. erewrite bind_ok by (apply run_get_buf; by autorewrite with acq).
    rewrite Hc2. erewrite bind_ok by exact Hscan. rewrite Hi32, Z.max_r by lia. done. }
  rewrite Hpre. clear Hpre. cbv zeta. unfold add_block. destruct r as [j|]; cbn [default from_option id].
  - pose proof (lookupZ_Some_range _ _ _ Hres). rewrite bool_decide_true by (by eapply lookupZ_elem).
    assert (Hput : put_lh_block j n (acq L_log s) = Ok tt (acq L_log s)).
    { unfold put_lh_block, get_log. rewrite bind_gets. autorewrite with acq. rewrite El, (lo_len _ Hg).
      rewrite bool_decide_true by lia. unfold put_log, modify. rewrite (insertZ_id _ _ _ (lh_names _ _ Hh _ _ Hres)).
      autorewrite with acq. f_equal. rewrite <- El. by destruct s as [? ? ? ? ? ? ? ? ? ? ? ? ? ? [? ? ? ? ? []]]. }
    exists s, (log_lh l). rewrite (bind_ok _ _ _ _ _ Hput). destruct (Z.eqb_spec j (lenZ P)); [lia|]. cbn [when]. rewrite bind_ret.
    split; [by apply Hrel|]. split; [reflexivity|]. split; [done|].
    split; [by rewrite El; destruct l|]. rewrite El. split; [done|]. split; [done|]. done.
  - assert (HnP : n ∉ P).
    { intros HnP. destruct (elem_lookupZ P n HnP) as [j Hj]. pose proof (lookupZ_Some_range _ _ _ Hj). apply (Hres j ltac:(lia) Hj). }
    rewrite bool_decide_false by done. rewrite Z.eqb_refl. cbn [when]. rewrite (count_false (n ∈ P)) in Href by done.
    set (lh := set_lh_n (lenZ P + 1) (set_lh_block (insertZ (lenZ P) n (lh_block (log_lh l))) (log_lh l))).
    set (s1 := set_k_bcache (insertZ b (set_b_refcnt (u32 (b_refcnt bb + 1)) bb) (k_bcache s)) s).
    destruct (bio_inv_pins pid H P (P ++ [n]) s s1 b n d bb Hi Hb Hl) as (J1 & J2 & J3 & J4).
    { intros m Hm. set_solver. }
    { unfold s1. rewrite Href, (count_true (n ∈ P ++ [n])) by set_solver. done. }
    exists (set_k_log (set_log_lh lh l) s1), lh. split.
    { rewrite (bind_ok _ _ _ tt (acq L_log (set_k_log (set_log_lh (set_lh_block (insertZ (lenZ P) n (lh_block (log_lh l))) (log_lh l)) l) s))).
      - rewrite (bind_ok _ _ _ tt (acq L_log (set_k_log (set_log_lh lh l) s1))).
        + apply Hrel. unfold s1. auto with kt.
        + erewrite bind_ok by (apply bpin_run; [apply settled_acq, Hk|apply lock_free_acq; [done|apply Hk, static_bcache]|by autorewrite with acq]).
          unfold put_lh_n, get_log. rewrite bind_gets. autorewrite with acq. unfold put_log, modify. autorewrite with acq. reflexivity.
      - unfold put_lh_block, get_log. rewrite bind_gets. autorewrite with acq. rewrite El, (lo_len _ Hg).
        rewrite bool_decide_true by lia. unfold put_log, modify. by autorewrite with acq. }
    split; [etransitivity; [apply bstep_lstep, bstep_set_k_bcache|apply lstep_log]|].
    split; [by apply bio_inv_log|]. split; [done|]. cbn [k_log set_k_log].
    split; [apply log_geom_lh; [done|]; unfold lh; simpl; rewrite lenZ_insertZ; apply Hg|].
    split; [apply log_has_add; [done|done|done|lia]|]. split; [|done].
    destruct Hn as [N1 N2 N3]. split.
    + rewrite lenZ_app. change (lenZ [n]) with 1. simpl. lia.
    + apply NoDup_app. split; [done|]. split; [set_solver|apply NoDup_singleton].
    + intros x Hx. apply elem_of_app in Hx as [Hx|Hx]; [by apply N3|]. by apply list_elem_of_singleton in Hx as ->.
Qed.

End LogWrite.

(** *** [begin_op] and [end_op] *)

Section Ops.
Context `{DL : DiskLaws} {PT : Patience} (en : bool) (p pid : Z).

Lemma begin_op_ok s l : running en p pid s -> k_log s = l -> log_committing l = 0 ->
  lh_n (log_lh l) + (log_outstanding l + 1) * MAXOPBLOCKS <= LOGSIZE ->
  begin_op s = Ok tt (set_k_log (set_log_outstanding (log_outstanding l + 1) l) s).
Proof.
  intros Hr El Hc Hroom. pose proof (rn_thread _ _ _ _ Hr) as Hk. unfold begin_op.
  erewrite bind_ok by (apply acquire_ok; [apply Hk|apply Hk, static_log]). pose proof patience_pos.
  destruct patience as [|n]; [lia|]. apply loop_stop. unfold begin_op_body, get_log. rewrite bind_gets. autorewrite with acq.
  rewrite El, Hc. cbn [truth Z.eqb negb]. destruct (Z.ltb_spec LOGSIZE (lh_n (log_lh l) + (log_outstanding l + 1) * MAXOPBLOCKS)); [lia|].
  unfold put_log. rewrite bind_modify. autorewrite with acq.
  erewrite bind_ok by (apply release_acq; [apply Hk|apply Hk, static_log]). done.
Qed.

Lemma log_write_full s l b : running en p pid s -> k_log s = l -> log_size l - 1 <= lh_n (log_lh l) ->
  log_write b s = Fail (Panic "too big a transaction").
Proof.
  intros Hr El Hf. pose proof (rn_thread _ _ _ _ Hr) as Hk. unfold log_write.
  erewrite bind_ok by (apply acquire_ok; [apply Hk|apply Hk, static_log]). unfold get_log. rewrite bind_gets. autorewrite with acq.
  rewrite El. destruct (Z.leb_spec (log_size l - 1) (lh_n (log_lh l))); [|lia]. by rewrite orb_true_r.
Qed.

Lemma wake_log_set ch lg s : set_k_log lg (wake_st ch p s) = wake_st ch p (set_k_log lg s).
Proof. done. Qed.

(** The last [end_op] of a group commits. *)
Lemma end_op_last P s l : running en p pid s -> bio_inv pid [] P s -> k_log s = l -> log_geom l -> log_has l P -> log_names l P ->
  log_committing l = 0 -> log_outstanding l = 1 -> P <> [] ->
  exists s1 s2 s' h1 h2, commit s1 = Ok tt s2 /\ end_op s = Ok tt s' /\
    s1 = set_k_log (set_log_committing 1 (set_log_outstanding 0 l)) s /\
    lstep p s s' /\ bio_inv pid [] [] s' /\
    k_log s' = set_log_lh (set_lh_n 0 (log_lh l)) (set_log_outstanding 0 l) /\ head_is h1 P /\ head_is h2 [] /\
    k_disk s' = dwrites (commit_writes (log_start l) (view s) h1 h2 P) (k_disk s).
Proof.
  intros Hr Hi El Hg Hh Hn Hc Ho Hne. pose proof (rn_thread _ _ _ _ Hr) as Hk.
  set (l1 := set_log_committing 1 (set_log_outstanding 0 l)). set (s1 := set_k_log l1 s).
  assert (Hr1 : running en p pid s1) by (apply (lstep_running en p pid s); [apply lstep_log|done]).
  destruct (commit_ok en p pid P s1 l1 Hr1 (bio_inv_log _ _ _ _ _ Hi) eq_refl) as
    (s2 & h1 & h2 & E2 & St2 & I2 & El2 & Hh1 & Hh2 & D2); try done.
  { by destruct Hg. }
  { by destruct Hh. }
  { by apply (log_names_eq l). }
  pose proof (lstep_running _ _ _ _ _ St2 Hr1) as Hr2. pose proof (rn_thread _ _ _ _ Hr2) as Hk2.
  set (l3 := set_log_lh (set_lh_n 0 (log_lh l)) (set_log_outstanding 0 l)).
  set (s3 := wake_st (Some C_log) p (set_k_log l3 s2)).
  assert (Hk3 : kthread p (set_k_log l3 s2)) by auto with kt.
  exists s1, s2, s3, h1, h2. split; [done|]. split.
  { unfold end_op. erewrite bind_ok by (apply acquire_ok; [apply Hk|apply Hk, static_log]).
    unfold get_log, put_log. rewrite bind_gets. autorewrite with acq. rewrite bind_modify. autorewrite with acq.
    rewrite bind_gets. autorewrite with acq. cbn [k_log set_k_log]. rewrite El, Ho.
    cbn [log_committing set_log_outstanding log_outstanding]. rewrite Hc. change (1 - 1) with 0. cbn [truth Z.eqb negb].
    rewrite (bind_ok _ _ _ true (acq L_log s1)).
    2: { rewrite bind_modify. autorewrite with acq. unfold s1, l1. rewrite <- El. by destruct s. }
    erewrite bind_ok by (apply release_acq; [apply Hr1|apply Hr1, static_log]). cbn [when].
    erewrite bind_ok by exact E2.
    erewrite bind_ok by (apply acquire_ok; [apply Hk2|apply Hk2, static_log]). rewrite bind_gets. autorewrite with acq. rewrite El2.
    rewrite bind_modify. autorewrite with acq.
    change (set_log_committing 0 (set_log_lh (set_lh_n 0 (log_lh l1)) l1)) with (set_log_committing 0 l3).
    assert (E3 : set_log_committing 0 l3 = l3) by (unfold l3; destruct l; simpl in *; by rewrite Hc). rewrite E3.
    erewrite bind_ok by (apply (wakeup_acq _ _ p); [exact Hk3|done]).
    apply release_acq; [apply Hk3|apply Hk3, static_log]. }
  split; [done|]. split.
  { transitivity s1; [apply lstep_log|]. etransitivity; [exact St2|]. etransitivity; [apply lstep_log|]. apply bstep_lstep, bstep_wake. }
  split; [|done]. by apply (bio_inv_ext _ _ _ s2).
Qed.

End Ops.

(** *** Start-up *)

(** A superblock whose log this disk can have. *)
Record sb_log `{DL : DiskLaws} (sb : superblock) : Prop := {
  sl_start : 0 <= sb_logstart sb;
  sl_size : 2 <= sb_nlog sb <= LOGSIZE;
  sl_end : sb_logstart sb + sb_nlog sb <= disk_blocks;
}.

(** The log [initlog] sets up, before recovery. *)
Definition boot_log (sb : superblock) (l : logst) : logst :=
  set_log_dev ROOTDEV (set_log_size (sb_nlog sb) (set_log_start (sb_logstart sb) l)).

Lemma running_initlock en p pid lk nm s : running en p pid s ->
  running en p pid (set_k_locks (<[lk := mkSpinlock 0 nm None]> (k_locks s)) s).
Proof.
  intros [[K1 K2 K3 K4 K5] Ho Hp]. split; [|exact Ho|exact Hp]. split; try done. intros l Hl. by apply initlock_free, K5.
Qed.

Lemma initlog_ok `{DL : DiskLaws} {PT : Patience} en p pid L s sb : running en p pid s -> bio_inv pid [] [] s ->
  sb_log sb -> lenZ (lh_block (log_lh (k_log s))) = LOGSIZE ->
  head_is (dblock (k_disk s) (sb_logstart sb)) L -> log_names (boot_log sb (k_log s)) L ->
  exists s' h, initlog ROOTDEV sb s = Ok tt s' /\ running en p pid s' /\ bio_inv pid [] [] s' /\
    log_geom (k_log s') /\ log_has (k_log s') [] /\ head_is h [] /\
    log_start (k_log s') = sb_logstart sb /\ log_size (k_log s') = sb_nlog sb /\
    log_outstanding (k_log s') = log_outstanding (k_log s) /\ log_committing (k_log s') = log_committing (k_log s) /\
    k_disk s' = dwrites (recover_writes (sb_logstart sb) (dblock (k_disk s)) h L) (k_disk s) /\ k_sb s' = k_sb s.
Proof.
  intros Hr Hi [S1 S2 S3] Hlen HL Hn. set (l := boot_log sb (k_log s)).
  set (s1 := set_k_log l (set_k_locks (<[L_log := mkSpinlock 0 "log" None]> (k_locks s)) s)).
  assert (Hr1 : running en p pid s1) by (apply (lstep_running en p pid _ _ (lstep_log p _ l)); by apply running_initlock).
  assert (Hg : log_geom l) by (split; done).
  destruct (recover_ok en p pid L s1 l Hr1) as (s' & h & lh & E & St & I' & El & Hlh & Hh & Hhd & D); try done.
  { by apply (bio_inv_ext _ _ _ s). }
  exists s', h. rewrite El in *. split; [done|]. split; [by eapply lstep_running|]. split; [done|].
  split; [by apply log_geom_lh|]. repeat (split; [done|]). by destruct (lstep_same _ _ _ St).
Qed.

(** *** Many blocks in one transaction *)

(** The [log_write]s of an operation. *)
Fixpoint log_all (bs : list Z) : M unit :=
  match bs with
  | [] => ret tt
  | b :: bs' => log_write b;; log_all bs'
  end.

(** Buffers of blocks that are new to the transaction. *)
Definition new_blocks (l : logst) (P : list Z) (s : kstate) (bs : list Z) : Prop :=
  forall b, b ∈ bs -> exists n d, buf_is s b n d /\ n ∉ P /\ ~ in_log l n.

Lemma log_all_cases `{DL : DiskLaws} en p pid bs : forall dn P s l, running en p pid s -> bio_inv pid (bs ++ dn) P s ->
  k_log s = l -> log_geom l -> log_has l P -> log_names l P -> 1 <= log_outstanding l -> new_blocks l P s bs ->
  if lenZ P + lenZ bs <? log_size l
  then exists s', log_all bs s = Ok tt s' /\ lh_n (log_lh (k_log s')) = lenZ P + lenZ bs
  else log_all bs s = Fail (Panic "too big a transaction").
Proof.
  induction bs as [|b bs IH]; intros dn P s l Hr Hi El Hg Hh Hn Ho Hnew.
  - change (lenZ []) with 0. rewrite Z.add_0_r. destruct (Z.ltb_spec (lenZ P) (log_size l)) as [_|H]; [|pose proof (ln_fit _ _ Hn); lia].
    exists s. split; [done|]. rewrite El. apply Hh.
  - destruct (Hnew b ltac:(set_solver)) as (n & d & Hb & HnP & Hnl). rewrite lenZ_cons. pose proof (lenZ_nonneg bs).
    cbn [log_all]. destruct (Z.ltb_spec (lenZ P) (log_size l - 1)) as [Hroom|Hfull].
    2: { destruct (Z.ltb_spec (lenZ P + (1 + lenZ bs)) (log_size l)); [lia|].
         erewrite bind_fail; [done|]. eapply log_write_full; [done|done|]. rewrite (lh_count _ _ Hh). lia. }
    destruct (log_write_ok en p pid (bs ++ dn) P s l b n d Hr Hi El Hg Hh Hn Hb Hnl Ho Hroom)
      as (s1 & lh & E1 & St1 & I1 & El1 & Hg1 & Hh1 & Hn1 & Hb1 & _ & K1 & _).
    assert (HP1 : lenZ (add_block n P) = lenZ P + 1).
    { unfold add_block. rewrite bool_decide_false by done. rewrite lenZ_app. done. }
    specialize (IH (b :: dn) (add_block n P) s1 (k_log s1) (lstep_running _ _ _ _ _ St1 Hr)).
    assert (Hsz : log_size (k_log s1) = log_size l) by (by rewrite El1). rewrite HP1, Hsz in IH. replace (lenZ P + 1 + lenZ bs) with (lenZ P + (1 + lenZ bs)) in IH by lia.
    erewrite bind_ok by exact E1. apply IH; try done.
    + eapply bio_inv_perm; [|exact I1]. cbn [app]. by rewrite Permutation_middle.
    + by rewrite El1.
    + intros x Hx. destruct (Hnew x ltac:(set_solver)) as (nx & dx & Hbx & HxP & Hxl). exists nx, dx.
      split; [apply K1; [set_solver|done]|]. split; [|by rewrite El1].
      unfold add_block. rewrite bool_decide_false by done. rewrite elem_of_app, list_elem_of_singleton. intros [Hx'|Hx']; [done|]. subst nx.
      destruct (bi_held _ _ _ _ Hi) as [HND Hrng]. destruct Hbx as (bbx & Hlx & Hcx & _), Hb as (bb & Hl & Hc & _).
      assert (x = b) as -> by (eapply (bi_uniq _ _ _ _ Hi); eauto; apply Hrng; set_solver).
      cbn [app] in HND. apply NoDup_cons in HND as [HND _]. set_solver.
Qed.

(** ** Properties *)

(** C1: Transactions are atomic with respect to crashes.  A [commit] of a
    non-empty transaction returns with every block of it on disk, the log
    empty and the logical contents of the file system unchanged.  The machine
    may stop after any number of the block writes that [commit] makes, in the
    order in which it makes them: when the kernel then boots on the disk as
    those writes left it, [initlog] returns, and the contents of every block
    outside the log are those from before the transaction, or those after it;
    never a mixture. *)
Theorem commit_crash_atomic `{DL : DiskLaws} {PT : Patience} en p pid P s :
  running en p pid s -> bio_inv pid [] P s -> log_geom (k_log s) -> log_has (k_log s) P -> log_names (k_log s) P ->
  P <> [] -> head_is (dblock (k_disk s) (log_start (k_log s))) [] ->
  exists s' ws, commit s = Ok tt s' /\ d_writes (k_disk s') = d_writes (k_disk s) ++ ws /\
    bio_inv pid [] [] s' /\ log_has (k_log s') [] /\ head_is (dblock (k_disk s') (log_start (k_log s))) [] /\
    (forall m, ~ in_log (k_log s) m -> view s' m = view s m /\ dblock (k_disk s') m = view s m) /\
  forall ws1 ws2 en2 p2 pid2 boot sb,
    ws = ws1 ++ ws2 -> running en2 p2 pid2 boot -> bio_inv pid2 [] [] boot ->
    lenZ (lh_block (log_lh (k_log boot))) = LOGSIZE ->
    sb_logstart sb = log_start (k_log s) -> sb_nlog sb = log_size (k_log s) ->
    (forall m, dblock (k_disk boot) m = dblock (dwrites ws1 (k_disk s)) m) ->
    exists s2, initlog ROOTDEV sb boot = Ok tt s2 /\
      ((forall m, ~ in_log (k_log s) m -> view s2 m = dblock (k_disk s) m) \/
       (forall m, ~ in_log (k_log s) m -> view s2 m = view s m)).
Proof.
  intros Hr Hi Hg Hh Hn Hne Hempty.
  destruct (commit_ok en p pid P s (k_log s) Hr Hi eq_refl Hg Hh Hn Hne) as (s' & h1 & h2 & E & St & I' & El & H1 & H2 & D).
  assert (Hclean : forall m, m ∉ P -> ~ in_log (k_log s) m -> view s m = dblock (k_disk s) m).
  { intros m Hm _. apply (view_clean _ _ _ _ m Hi Hm), not_held_nil. }
  destruct (crash_after (k_log s) P (view s) (k_disk s) h1 h2 Hn Hclean H2) as (A1 & A2 & _). rewrite <- D in A1, A2.
  exists s', (commit_writes (log_start (k_log s)) (view s) h1 h2 P). split; [done|].
  split; [by rewrite D, d_writes_dwrites|]. split; [done|]. split; [rewrite El; apply log_has_empty|]. split; [done|]. split.
  { intros m Hm. rewrite (view_clean _ _ _ _ m I' (not_elem_of_nil _) (not_held_nil _ _)). split; by apply A2. }
  intros ws1 ws2 en2 p2 pid2 boot sb Ews Hr2 Hi2 Hlen Es En Hd. symmetry in Ews.
  destruct (crash_prefix (k_log s) P (view s) (k_disk s) h1 h2 Hg Hn Hempty Hclean H1 H2 ws1 ws2 Ews) as [Hhd Hrec].
  set (D0 := dblock (dwrites ws1 (k_disk s))) in *.
  assert (HL : exists L, head_is (D0 (log_start (k_log s))) L /\ log_names (k_log s) L).
  { destruct Hhd as [Hhd|Hhd]; [exists []|by exists P]. split; [done|]. destruct Hn as [N1 _ _]. pose proof (lo_size _ Hg).
    split; [change (lenZ []) with 0; lia|constructor|intros n Hx; by apply not_elem_of_nil in Hx]. }
  destruct HL as (L & HL & HnL). set (lb := boot_log sb (k_log boot)).
  assert (HnB : log_names lb L) by (by apply (log_names_eq (k_log s))).
  assert (Hsb : sb_log sb) by (destruct Hg; split; rewrite ?Es, ?En; done).
  destruct (initlog_ok en2 p2 pid2 L boot sb Hr2 Hi2 Hsb Hlen) as (s2 & h & E2 & _ & I2 & _ & _ & Hh2 & _ & _ & _ & _ & D2 & _); [by rewrite Es, Hd|done|].
  exists s2. split; [done|].
  assert (Hgb : log_geom lb) by (destruct Hsb; split; done).
  destruct (recover_after lb L (k_disk boot) h HnB) as [_ RA]; [simpl; by rewrite Es, Hd|done|].
  assert (Hout : forall m, ~ in_log (k_log s) m -> ~ in_log lb m) by (intros m Hm; unfold in_log, lb in *; simpl; by rewrite Es, En).
  assert (HR : forall m, ~ in_log (k_log s) m -> view s2 m = recovered D0 (log_start (k_log s)) m).
  { intros m Hm. rewrite (view_clean _ _ _ _ m I2 (not_elem_of_nil _) (not_held_nil _ _)), D2.
    specialize (RA m (Hout m Hm)). cbn [lb boot_log log_start set_log_dev set_log_size set_log_start] in RA. rewrite RA, Es.
    apply recovered_ext. exact Hd. }
  destruct Hrec as [Hrec|Hrec]; [left|right]; intros m Hm; rewrite HR by done; by apply Hrec.
Qed.

(** C21: Recovery may itself be interrupted.  On a disk whose log names the
    blocks [L], [initlog] returns with every block as replaying the log makes
    it and the log empty; and after any number of its block writes the disk
    still holds the same log or an empty one, and recovers to the same
    contents. *)
Theorem recovery_crash_safe `{DL : DiskLaws} {PT : Patience} en p pid L s sb :
  running en p pid s -> bio_inv pid [] [] s -> sb_log sb -> lenZ (lh_block (log_lh (k_log s))) = LOGSIZE ->
  head_is (dblock (k_disk s) (sb_logstart sb)) L -> log_names (boot_log sb (k_log s)) L ->
  let final := recovered (dblock (k_disk s)) (sb_logstart sb) in
  exists s' ws, initlog ROOTDEV sb s = Ok tt s' /\ d_writes (k_disk s') = d_writes (k_disk s) ++ ws /\
    log_start (k_log s') = sb_logstart sb /\ log_size (k_log s') = sb_nlog sb /\
    log_has (k_log s') [] /\ head_is (dblock (k_disk s') (sb_logstart sb)) [] /\
    (forall m, ~ in_log (k_log s') m -> view s' m = final m) /\
  forall ws1 ws2, ws = ws1 ++ ws2 ->
    let D := dblock (dwrites ws1 (k_disk s)) in
    (head_is (D (sb_logstart sb)) L \/ head_is (D (sb_logstart sb)) []) /\
    forall m, ~ in_log (k_log s') m -> recovered D (sb_logstart sb) m = final m.
Proof.
  intros Hr Hi Hsb Hlen HL Hn final.
  destruct (initlog_ok en p pid L s sb Hr Hi Hsb Hlen HL Hn) as (s' & h & E & _ & I' & Hg & Hh & Hh2 & E1 & E2 & _ & _ & D & _).
  set (lb := boot_log sb (k_log s)) in *. assert (Hgb : log_geom lb) by (destruct Hsb; split; done).
  assert (Hin : forall m, in_log (k_log s') m <-> in_log lb m) by (intros m; unfold in_log; by rewrite E1, E2).
  destruct (recover_after lb L (k_disk s) h Hn HL Hh2) as [RA1 RA2]. cbn [lb boot_log log_start set_log_dev set_log_size set_log_start] in RA1, RA2.
  rewrite <- D in RA1, RA2.
  exists s', (recover_writes (sb_logstart sb) (dblock (k_disk s)) h L). split; [done|].
  split; [by rewrite D, d_writes_dwrites|]. split; [exact E1|]. split; [exact E2|]. split; [done|]. split; [done|]. split.
  { intros m Hm. rewrite (view_clean _ _ _ _ m I' (not_elem_of_nil _) (not_held_nil _ _)). apply RA2. by rewrite <- Hin. }
  intros ws1 ws2 Ews D0. unfold recover_writes in Ews. symmetry in Ews. apply app_eq_inv in Ews as [(k & -> & Ek)|(k & Ek & _)].
  - symmetry in Ek. apply app_eq_unit in Ek as [[-> ->]|[-> ->]].
    + destruct (recover_during lb L (k_disk s) h Hgb Hn HL Hh2 (inst_writes (sb_logstart sb) (dblock (k_disk s)) L) []) as [R1 R2]; [apply app_nil_r|].
      unfold D0. rewrite app_nil_r. split; [by left|]. intros m Hm. apply R2. by rewrite <- Hin.
    + assert (ED : D0 = dblock (k_disk s')) by (unfold D0; by rewrite D). rewrite ED. split; [by right|]. intros m Hm.
      unfold recovered at 1. rewrite (proj2 RA1). cbn [replay]. apply RA2. by rewrite <- Hin.
  - destruct (recover_during lb L (k_disk s) h Hgb Hn HL Hh2 ws1 k) as [R1 R2]; [done|]. split; [by left|].
    intros m Hm. apply R2. by rewrite <- Hin.
Qed.

(** C39: The reservation of [begin_op] and the limit of [log_write] disagree.
    [begin_op] admits an operation as long as [MAXOPBLOCKS] blocks for each
    operation fit in [LOGSIZE], so three operations are admitted on an empty
    log.  But a transaction has room for [log_size - 1] blocks only, [log_write]
    panicking at the next one: with the log of [LOGSIZE] blocks that mkfs makes,
    three admitted operations that write [MAXOPBLOCKS] distinct blocks each
    panic the kernel, and one block less succeeds. *)
Theorem log_reservation_panics `{DL : DiskLaws} {PT : Patience} en p pid bs P s :
  running en p pid s -> bio_inv pid bs P s -> log_geom (k_log s) -> log_has (k_log s) P -> log_names (k_log s) P ->
  1 <= log_outstanding (k_log s) -> log_size (k_log s) = LOGSIZE -> new_blocks (k_log s) P s bs ->
  (forall s0 k, running en p pid s0 -> log_committing (k_log s0) = 0 -> lh_n (log_lh (k_log s0)) = 0 ->
    log_outstanding (k_log s0) = k -> 0 <= k < 3 ->
    begin_op s0 = Ok tt (set_k_log (set_log_outstanding (k + 1) (k_log s0)) s0)) /\
  (lenZ P + lenZ bs < 3 * MAXOPBLOCKS -> exists s', log_all bs s = Ok tt s' /\
    lh_n (log_lh (k_log s')) = lenZ P + lenZ bs) /\
  (lenZ P + lenZ bs = 3 * MAXOPBLOCKS -> log_all bs s = Fail (Panic "too big a transaction")).
Proof.
  intros Hr Hi Hg Hh Hn Ho Hsz Hnew. split.
  { intros s0 k Hr0 Hc H0 <- Hk. apply (begin_op_ok en p pid); try done. rewrite H0. unfold LOGSIZE, MAXOPBLOCKS. lia. }
  pose proof (log_all_cases en p pid bs [] P s (k_log s) Hr) as HA. rewrite app_nil_r in HA.
  specialize (HA Hi eq_refl Hg Hh Hn Ho Hnew). rewrite Hsz in HA. unfold LOGSIZE in HA.
  destruct (Z.ltb_spec (lenZ P + lenZ bs) (MAXOPBLOCKS * 3)); split; intros; try lia; done.
Qed.

(** *** Witnesses *)

Definition demo_log (out : Z) : logst := mkLog 2 30 out 0 ROOTDEV (mkLogheader 0 (replicate 30 0)).
Definition demo_sb : superblock := mkSuperblock FSMAGIC 2000 1941 200 30 2 32 45.
Definition ones_block : list Z := replicate (Z.to_nat BSIZE) 1.

Lemma ones_is_block : is_block ones_block.
Proof. split; [reflexivity|]. apply Forall_replicate. lia. Qed.

Lemma demo_log_ok out : @log_geom demo_disk demo_laws (demo_log out) /\ log_has (demo_log out) [] /\
  @log_names demo_disk demo_laws (demo_log out) [].
Proof.
  split; [|split].
  - split; try done; simpl; unfold LOGSIZE, MAXOPBLOCKS; lia.
  - split; [done|]. intros i n Hi. apply lookupZ_Some_range in Hi. change (lenZ []) with 0 in Hi. lia.
  - split; [done|constructor|]. intros n Hn. by apply not_elem_of_nil in Hn.
Qed.

(** The log of [out] operations, empty, over a disk of zeroes. *)
Lemma demo_fs out : exists s, running true 5 9 s /\ @bio_inv demo_disk demo_laws 9 [] [] s /\
  k_log s = demo_log out /\ k_disk s = mkDisk ∅ [].
Proof.
  destruct (demo_cache (mkDisk ∅ []) zero_disk_blocks) as (bc & sl & lk & _ & Hr & Hi & _).
  exists (set_k_log (demo_log out) (set_k_bcache bc (set_k_sleeplocks sl (set_k_locks lk (demo_run (mkDisk ∅ [])))))).
  split; [exact (lstep_running _ _ _ _ _ (lstep_log 5 _ _) Hr)|].
  split; [exact (@bio_inv_log demo_disk demo_laws _ _ _ _ _ Hi)|]. split; reflexivity.
Qed.

(** A transaction that has written block 77. *)
Lemma demo_transaction : exists s, running true 5 9 s /\ @bio_inv demo_disk demo_laws 9 [] [77] s /\
  @log_geom demo_disk demo_laws (k_log s) /\ log_has (k_log s) [77] /\ @log_names demo_disk demo_laws (k_log s) [77] /\
  log_start (k_log s) = 2 /\ log_size (k_log s) = 30 /\ k_disk s = mkDisk ∅ [] /\ view s 77 = ones_block.
Proof.
  destruct (demo_fs 1) as (s & Hr & Hi & El & Ed). destruct (demo_log_ok 1) as (Hg & Hh & Hn).
  destruct (@bread_ok demo_disk demo_laws demo_patience true 5 9 [] [] s 77 Hr Hi ltac:(simpl; lia) (not_held_nil _ _)) as
    (b & s1 & _ & St1 & _ & I1 & B1 & _ & _ & D1); [by right|].
  destruct (@put_data_ok demo_disk demo_laws 5 9 [] [] s1 b 77 _ ones_block I1 B1 ones_is_block) as (s2 & _ & St2 & I2 & B2 & V2 & _ & D2).
  pose proof (bstep_running _ _ _ _ _ St1 Hr) as Hr1. pose proof (bstep_running _ _ _ _ _ St2 Hr1) as Hr2.
  destruct (bstep_same _ _ _ St1) as [El1 _]. destruct (bstep_same _ _ _ St2) as [El2 _]. rewrite El1, El in El2.
  destruct (@log_write_ok demo_disk demo_laws true 5 9 [] [] s2 _ b 77 ones_block Hr2 I2 El2 Hg Hh Hn B2)
    as (s3 & lh & _ & St3 & I3 & El3 & Hg3 & Hh3 & Hn3 & B3 & V3 & _ & D3); [unfold in_log; simpl; lia|simpl; lia|by vm_compute|].
  change (add_block 77 []) with [77] in *.
  destruct (@brelse_ok demo_disk demo_laws true 5 9 [] [77] s3 b 77 ones_block (lstep_running _ _ _ _ _ St3 Hr2) I3 B3)
    as (s4 & _ & St4 & I4 & V4 & _ & D4 & _); [left; set_solver|].
  destruct (bstep_same _ _ _ St4) as [El4 _]. exists s4. rewrite El4, El3 in *.
  split; [exact (bstep_running _ _ _ _ _ St4 (lstep_running _ _ _ _ _ St3 Hr2))|]. repeat (split; [done|]).
  split; [by rewrite D4, D3, D2, D1|]. by rewrite V4, V3, V2.
Qed.

Lemma zero_head : head_is zero_block [].
Proof. split; reflexivity. Qed.

Lemma commit_crash_atomic_witness : exists s s' boot s2,
  @commit demo_patience demo_disk s = Ok tt s' /\ dblock (k_disk s') 77 = ones_block /\
  @initlog demo_patience demo_disk ROOTDEV demo_sb boot = Ok tt s2.
Proof.
  destruct demo_transaction as (s & Hr & Hi & Hg & Hh & Hn & E1 & E2 & Ed & Hv).
  destruct (@commit_crash_atomic demo_disk demo_laws demo_patience true 5 9 [77] s Hr Hi Hg Hh Hn ltac:(done))
    as (s' & ws & HE & _ & _ & _ & _ & Hnew & Hcrash); [rewrite Ed; exact zero_head|].
  destruct (demo_cache (mkDisk ∅ []) zero_disk_blocks) as (bc & sl & lk & _ & Hr2 & Hi2 & _).
  destruct (Hcrash [] ws _ _ _ _ demo_sb eq_refl Hr2 Hi2) as (s2 & HE2 & _); [reflexivity|by rewrite E1|by rewrite E2|by rewrite Ed|].
  eexists s, s', _, s2. split; [exact HE|]. split; [|exact HE2]. rewrite <- Hv. apply Hnew. unfold in_log. rewrite E1, E2. lia.
Defined.

(** A disk whose log holds a committed write of block 77. *)
Definition demo_head : list Z := [1; 0; 0; 0; 77; 0; 0; 0] ++ replicate 1016 0.
Definition demo_committed : disk_dev := mkDisk {[2 := demo_head; 3 := ones_block]} [].

Lemma demo_head_block : is_block demo_head.
Proof.
  split; [reflexivity|]. unfold demo_head. apply Forall_app. split; [repeat (constructor; [lia|]); constructor|].
  apply Forall_replicate. lia.
Qed.

Lemma demo_committed_blocks n : is_block (dblock demo_committed n).
Proof.
  unfold dblock, demo_committed. cbn [d_blocks]. rewrite lookup_insert. case_decide.
  { exact demo_head_block. }
  rewrite lookup_singleton. case_decide; [exact ones_is_block|exact zero_is_block].
Qed.

Lemma recovery_crash_safe_witness : exists s s',
  @initlog demo_patience demo_disk ROOTDEV demo_sb s = Ok tt s' /\ dblock (k_disk s) 77 = zero_block /\ view s' 77 = ones_block.
Proof.
  destruct (demo_cache demo_committed demo_committed_blocks) as (bc & sl & lk & _ & Hr & Hi & _).
  destruct (@recovery_crash_safe demo_disk demo_laws demo_patience true 5 9 [77] _ demo_sb Hr Hi) as (s' & ws & HE & _ & E1 & E2 & _ & _ & Hv & _).
  - split; simpl; unfold LOGSIZE, MAXOPBLOCKS; lia.
  - reflexivity.
  - split; vm_compute; reflexivity.
  - split; [done|apply NoDup_singleton|]. intros n ->%list_elem_of_singleton. split; [simpl; lia|]. unfold in_log. simpl. lia.
  - eexists _, s'. split; [exact HE|]. split; [vm_compute; reflexivity|].
    etransitivity; [apply Hv|vm_compute; reflexivity]. unfold in_log. rewrite E1, E2. simpl. lia.
Defined.

(** Thirty buffers held at once. *)
Lemma bread_many `{DL : DiskLaws} {PT : Patience} en p pid l ns : forall H s, running en p pid s -> bio_inv pid H [] s ->
  NoDup ns -> (forall n, n ∈ ns -> 0 <= n < disk_blocks /\ ~ in_log l n) -> (forall b n d, b ∈ H -> buf_is s b n d -> n ∉ ns) ->
  lenZ H + lenZ ns <= NBUF -> new_blocks l [] s H ->
  exists bs s', bstep p s s' /\ bio_inv pid (bs ++ H) [] s' /\ lenZ bs = lenZ ns /\ new_blocks l [] s' (bs ++ H).
Proof.
  induction ns as [|n ns IH]; intros H s Hr Hi HND Hrng Hdis Hroom Hnew.
  - exists [], s. split; [reflexivity|]. done.
  - apply NoDup_cons in HND as [Hn HND]. rewrite lenZ_cons in Hroom. pose proof (lenZ_nonneg ns).
    destruct (bread_ok en p pid H [] s n Hr Hi) as (b & s1 & _ & St1 & _ & I1 & B1 & _ & K1 & _).
    { apply Hrng. set_solver. }
    { intros b d Hb Hbd. apply (Hdis b n d Hb Hbd). set_solver. }
    { right. change (lenZ []) with 0. lia. }
    assert (Hsame : forall x nx dx, x ∈ H -> buf_is s1 x nx dx -> buf_is s x nx dx).
    { intros x nx dx Hx Hb. destruct (Hnew x Hx) as (n0 & d0 & Hb0 & _).
      destruct (buf_is_inj _ _ _ _ _ _ (K1 _ _ _ Hx Hb0) Hb) as [<- <-]. done. }
    destruct (IH (b :: H) s1 (bstep_running _ _ _ _ _ St1 Hr) I1 HND) as (bs & s' & St' & I' & Hl & Hnew').
    { intros m Hm. apply Hrng. set_solver. }
    { intros x nx dx Hx Hb. apply elem_of_cons in Hx as [->|Hx].
      - by destruct (buf_is_inj _ _ _ _ _ _ B1 Hb) as [<- _].
      - specialize (Hdis x nx dx Hx (Hsame _ _ _ Hx Hb)). set_solver. }
    { rewrite lenZ_cons. lia. }
    { intros x Hx. apply elem_of_cons in Hx as [->|Hx].
      - exists n, (view s n). split; [done|]. split; [apply not_elem_of_nil|]. apply Hrng. set_solver.
      - destruct (Hnew x Hx) as (n0 & d0 & Hb0 & Hp0). exists n0, d0. split; [by apply K1|done]. }
    exists (bs ++ [b]), s'. rewrite <- app_assoc. cbn [app]. split; [by etransitivity|]. split; [done|].
    split; [rewrite lenZ_app, !lenZ_cons, Hl; change (lenZ []) with 0; lia|done].
Qed.

Lemma log_reservation_panics_witness : exists s bs, lenZ bs = 30 /\
  log_all bs s = Fail (Panic "too big a transaction").
Proof.
  destruct (demo_fs 3) as (s & Hr & Hi & El & Ed). destruct (demo_log_ok 3) as (Hg & Hh & Hn).
  destruct (@bread_many demo_disk demo_laws demo_patience true 5 9 (demo_log 3) (rangeZ 100 30) [] s Hr Hi) as (bs & s1 & St & I1 & Hl & Hnew).
  - apply NoDup_rangeZ.
  - intros n Hx. apply elem_of_rangeZ in Hx. simpl. unfold in_log. simpl. lia.
  - intros b n d Hb. by apply not_elem_of_nil in Hb.
  - reflexivity.
  - intros b Hb. by apply not_elem_of_nil in Hb.
  - rewrite app_nil_r in I1, Hnew. destruct (bstep_same _ _ _ St) as [El1 _]. rewrite El in El1.
    destruct (@log_reservation_panics demo_disk demo_laws demo_patience true 5 9 bs [] s1 (bstep_running _ _ _ _ _ St Hr) I1)
      as (_ & _ & Hp); rewrite ?El1; [exact Hg|exact Hh|exact Hn|simpl; lia|reflexivity|exact Hnew|].
    exists s1, bs. split; [exact Hl|]. apply Hp. by rewrite Hl.
Defined.
