(* ===== verification/Tx.v ===== *)
(** * Blocks inside a transaction

    The buffer cache and the log as the file system uses them between
    [begin_op] and [end_op]: what holds there, and the operations on blocks
    with all the parts of the invariant at once. *)

From S2P Require Import Prelude Riscv State Spinlock Sched Sleeplock FsLayout Bio Log.

(** ** Definitions *)

(** Process [p] is inside a transaction, holds the buffers [H], and the
    transaction has written the blocks [P]. *)
Record in_tx `{DL : DiskLaws} (en : bool) (p pid : Z) (H P : list Z) (s : kstate) : Prop := {
  tx_run : running en p pid s;
  tx_bio : bio_inv pid H P s;
  tx_geom : log_geom (k_log s);
  tx_has : log_has (k_log s) P;
  tx_names : log_names (k_log s) P;
  tx_open : 1 <= log_outstanding (k_log s);
}.

(** What may change from one operation of a transaction to the next: the
    disk does not. *)
Definition dstep (p : Z) (s s' : kstate) : Prop := bstep p s s' /\ k_disk s' = k_disk s.
Definition tstep (p : Z) (s s' : kstate) : Prop :=
  lstep p s s' /\ (exists lh, k_log s' = set_log_lh lh (k_log s)) /\ k_disk s' = k_disk s.

#[global] Instance dstep_preorder p : PreOrder (dstep p).
Proof.
  split; [intros s; split; reflexivity|]. intros x y z [H1 E1] [H2 E2]. split; [by etransitivity|by rewrite E2].
Qed.

#[global] Instance tstep_preorder p : PreOrder (tstep p).
Proof.
  split.
  - intros s. split; [reflexivity|]. split; [|done]. exists (log_lh (k_log s)). by destruct (k_log s).
  - intros x y z [H1 [(l1 & E1) D1]] [H2 [(l2 & E2) D2]]. split; [by etransitivity|]. split; [|by rewrite D2]. exists l2. rewrite E2, E1. done.
Qed.

(** ** Lemmas *)

Lemma dstep_tstep p s s' : dstep p s s' -> tstep p s s'.
Proof.
  intros [H D]. split; [by apply bstep_lstep|]. split; [|done]. destruct (bstep_same _ _ _ H) as [E _]. exists (log_lh (k_log s)). rewrite E. by destruct (k_log s).
Qed.

Lemma tstep_in_log p s s' n : tstep p s s' -> in_log (k_log s') n <-> in_log (k_log s) n.
Proof. intros [_ [(lh & ->) _]]. done. Qed.

Lemma tstep_log_size p s s' : tstep p s s' -> log_size (k_log s') = log_size (k_log s).
Proof. intros [_ [(lh & ->) _]]. done. Qed.

Lemma tstep_sb p s s' : tstep p s s' -> k_sb s' = k_sb s.
Proof. intros [H _]. apply (lstep_same _ _ _ H). Qed.

Section Tx.
Context `{DL : DiskLaws} {PT : Patience} (en : bool) (p pid : Z).
Implicit Types (H P : list Z) (s : kstate).

Lemma in_tx_bstep H P H' s s' : in_tx en p pid H P s -> bstep p s s' -> bio_inv pid H' P s' -> in_tx en p pid H' P s'.
Proof.
  intros [T1 T2 T3 T4 T5 T6] St Hi. destruct (bstep_same _ _ _ St) as [E _].
  split; rewrite ?E; try done. by apply (bstep_running _ _ _ _ _ St).
Qed.

Lemma tx_bread H P s n : in_tx en p pid H P s -> 0 <= n < disk_blocks -> (forall b d, b ∈ H -> ~ buf_is s b n d) ->
  n ∈ P \/ lenZ H + lenZ P < NBUF ->
  exists b s', bread ROOTDEV n s = Ok b s' /\ in_tx en p pid (b :: H) P s' /\ dstep p s s' /\ b ∉ H /\ buf_is s' b n (view s n) /\
    (n ∈ P \/ view s' n = dblock (k_disk s') n) /\ (forall m, view s' m = view s m) /\ keeps H s s'.
Proof.
  intros T Hn Hh Hr. destruct (bread_ok en p pid H P s n (tx_run _ _ _ _ _ _ T) (tx_bio _ _ _ _ _ _ T) Hn Hh Hr)
    as (b & s' & E & St & Hb & Hi & Hbuf & Hv & Hk & Hd).
  exists b, s'. split; [done|]. split; [by eapply in_tx_bstep|]. split; [by split|]. do 2 (split; [done|]). split; [|done]. rewrite Hv, Hd.
  destruct (decide (n ∈ P)); [by left|right]. by apply (view_clean pid H P s n (tx_bio _ _ _ _ _ _ T)).
Qed.

Lemma tx_put H P s b n d0 d : in_tx en p pid (b :: H) P s -> buf_is s b n d0 -> is_block d ->
  exists s', put_data b d s = Ok tt s' /\ in_tx en p pid (b :: H) P s' /\ dstep p s s' /\ buf_is s' b n d /\
    (forall m, view s' m = if m =? n then d else view s m) /\ keeps H s s'.
Proof.
  intros T Hb Hd. destruct (put_data_ok p pid H P s b n d0 d (tx_bio _ _ _ _ _ _ T) Hb Hd) as (s' & E & St & Hi & Hbuf & Hv & Hk & Hdk).
  exists s'. split; [done|]. split; [by eapply in_tx_bstep|]. split; [by split|done].
Qed.

Lemma tx_log_write H P s b n d : in_tx en p pid (b :: H) P s -> buf_is s b n d -> ~ in_log (k_log s) n ->
  lenZ P < log_size (k_log s) - 1 ->
  exists s', log_write b s = Ok tt s' /\ in_tx en p pid (b :: H) (add_block n P) s' /\ tstep p s s' /\ buf_is s' b n d /\
    (forall m, view s' m = view s m) /\ keeps H s s'.
Proof.
  intros [T1 T2 T3 T4 T5 T6] Hb Hl Hr.
  destruct (log_write_ok en p pid H P s (k_log s) b n d T1 T2 eq_refl T3 T4 T5 Hb Hl T6 Hr)
    as (s' & lh & E & St & Hi & El & G & Hh & Hn & Hbuf & Hv & Hk & Hdk).
  exists s'. split; [done|]. split; [split; try done|].
  - by apply (lstep_running _ _ _ _ _ St).
  - by rewrite El.
  - split; [split; [done|split; [by exists lh|done]]|done].
Qed.

Lemma tx_brelse H P s b n d : in_tx en p pid (b :: H) P s -> buf_is s b n d -> n ∈ P \/ view s n = dblock (k_disk s) n ->
  exists s', brelse b s = Ok tt s' /\ in_tx en p pid H P s' /\ dstep p s s' /\ (forall m, view s' m = view s m) /\ keeps H s s'.
Proof.
  intros T Hb Hc. assert (Hd : view s n = d).
  { destruct (bio_inv_held _ _ _ _ _ _ _ (tx_bio _ _ _ _ _ _ T) (list_elem_of_here _ _) Hb) as (bb & nm & _ & _ & _ & _ & _ & _ & _ & _ & _ & _ & Hv).
    done. }
  destruct (brelse_ok en p pid H P s b n d (tx_run _ _ _ _ _ _ T) (tx_bio _ _ _ _ _ _ T) Hb) as (s' & E & St & Hi & Hv & Hk & Hdk & _).
  { destruct Hc as [Hc|Hc]; [by left|right; congruence]. }
  exists s'. split; [done|]. split; [by eapply in_tx_bstep|]. split; [by split|done].
Qed.

Lemma tx_held H P s b : in_tx en p pid H P s -> b ∈ H -> exists n d, buf_is s b n d.
Proof.
  intros T Hb. pose proof (tx_bio _ _ _ _ _ _ T) as Hi. destruct (bi_held _ _ _ _ Hi) as [_ Hr]. specialize (Hr b Hb).
  destruct (lookupZ_is_Some (k_bcache s) b) as [bb Hl]; [rewrite (bi_len _ _ _ _ Hi); lia|].
  destruct (bo_held _ _ _ _ _ _ (bi_buf _ _ _ _ Hi b bb ltac:(lia) Hl) Hb) as [_ Hd]. exists (b_blockno bb), (b_data bb), bb. done.
Qed.

(** The blocks of held buffers stay what they are. *)
Lemma tx_keeps_block H H' P s s' b n d : in_tx en p pid H' P s -> H ⊆ H' -> keeps H s s' -> b ∈ H -> buf_is s' b n d -> exists d', buf_is s b n d'.
Proof.
  intros T Hsub K Hb Hn. destruct (tx_held H' P s b T (Hsub _ Hb)) as (n0 & d0 & H0). destruct (buf_is_inj _ _ _ _ _ _ (K _ _ _ Hb H0) Hn) as [-> _]. eauto.
Qed.

Lemma add_block_in n P : n ∈ add_block n P.
Proof. unfold add_block. case_bool_decide; [done|]. apply elem_of_app. right. apply list_elem_of_here. Qed.

Lemma add_block_sub n P : P ⊆ add_block n P.
Proof. unfold add_block. case_bool_decide; [done|]. intros x Hx. apply elem_of_app. by left. Qed.

Lemma add_block_len n P : lenZ P <= lenZ (add_block n P) <= lenZ P + 1.
Proof. unfold add_block. case_bool_decide; [lia|]. rewrite lenZ_app. change (lenZ [n]) with 1. lia. Qed.

(** The end of every update of a block: the new contents, logged, and the
    buffer given back. *)
Lemma tx_write_back H P s b n d0 d : in_tx en p pid (b :: H) P s -> buf_is s b n d0 -> is_block d -> ~ in_log (k_log s) n ->
  lenZ P < log_size (k_log s) - 1 ->
  exists s1 s2 s', put_data b d s = Ok tt s1 /\ log_write b s1 = Ok tt s2 /\ brelse b s2 = Ok tt s' /\
    in_tx en p pid H (add_block n P) s' /\ tstep p s s' /\
    (forall m, view s' m = if m =? n then d else view s m) /\ keeps H s s'.
Proof.
  intros T Hb Hd Hl Hr. destruct (tx_put H P s b n d0 d T Hb Hd) as (s1 & E1 & T1 & St1 & B1 & V1 & K1).
  apply dstep_tstep in St1.
  destruct (tx_log_write H P s1 b n d T1 B1) as (s2 & E2 & T2 & St2 & B2 & V2 & K2).
  { by rewrite (tstep_in_log _ _ _ _ St1). }
  { by rewrite (tstep_log_size _ _ _ St1). }
  destruct (tx_brelse H (add_block n P) s2 b n d T2 B2) as (s3 & E3 & T3 & St3 & V3 & K3); [left; apply add_block_in|].
  apply dstep_tstep in St3. exists s1, s2, s3. do 4 (split; [done|]). split; [by do 2 (etransitivity; [eassumption|])|].
  split; [intros m; by rewrite V3, V2, V1|]. by do 2 (etransitivity; [eassumption|]).
Qed.

End Tx.
