(* ===== verification/Fs.v ===== *)
(** * The file system ([kernel/fs.c])

    Blocks, inodes, inode contents, directories and path names, over the
    buffer cache and the log.  An in-memory inode is named by its index in
    [itable.inode].  A kernel buffer read into or written from is passed as
    its bytes; a name is the bytes before its NUL, at most [DIRSIZ] of them. *)

From S2P Require Import Prelude Riscv State Spinlock Str Kalloc Copy Sched Sleeplock Uart Printf.
From S2P Require Import FsLayout Bio Log.

(** ** Definitions *)

Section Fs.
Context {KI : KernelImage} {IO : Mmio} {PT : Patience} {DD : DiskDriver}.

(** *** Blocks *)

Definition readsb (dev : Z) : M unit :=
  bp <- bread (u32 dev) 1;;
  d <- get_data bp;;
  modify (set_k_sb (superblock_of d));;
  brelse bp.

Definition fsinit (dev : Z) : M unit :=
  readsb dev;;
  sb <- gets k_sb;;
  if negb (sb_magic sb =? FSMAGIC) then panic "invalid file system" else
  initlog dev sb.

Definition bzero (dev bno : Z) : M unit :=
  bp <- bread (u32 dev) (u32 bno);;
  put_data bp (replicate (Z.to_nat BSIZE) 0);;
  log_write bp;;
  brelse bp.

(** Bit [bi] of a bitmap block. *)
Definition bit_mask (bi : Z) : Z := Z.shiftl 1 (bi mod 8).

Definition balloc_body (dev bp b bi : Z) : M (option Z) :=
  let m := bit_mask bi in
  d <- get_data bp;;
  x <- deref (lookupZ d (bi / 8));;
  if Z.land x m =? 0 then
    put_data bp (insertZ (bi / 8) (Z.lor x m) d);;
    log_write bp;;
    brelse bp;;
    bzero dev (b + bi);;
    ret (Some (b + bi))
  else ret None.

Definition balloc_block (dev b : Z) : M (Z + option Z) :=
  sb <- gets k_sb;;
  if b <? sb_size sb then
    bp <- bread dev (BBLOCK b sb);;
    r <- for_loop (Z.to_nat (Z.min BPB (sb_size sb - b))) 0 (balloc_body dev bp b);;
    match r with
    | Some a => ret (inr (Some a))
    | None => brelse bp;; ret (inl (b + BPB))
    end
  else ret (inr None).

(** The bitmap blocks of the disk, and the turn that leaves the loop. *)
Definition balloc_fuel (sb : superblock) : nat := 2 + Z.to_nat (sb_size sb / BPB).

Definition balloc (dev : Z) : M Z :=
  sb <- gets k_sb;;
  r <- loop (balloc_fuel sb) (balloc_block dev) 0;;
  match r with
  | Some a => ret a
  | None => printf (chars "balloc: out of blocks" ++ [NL]) [];; ret 0
  end.

Definition bfree (dev b : Z) : M unit :=
  sb <- gets k_sb;;
  bp <- bread (u32 dev) (BBLOCK b sb);;
  let bi := b mod BPB in
  let m := bit_mask bi in
  d <- get_data bp;;
  x <- deref (lookupZ d (bi / 8));;
  if Z.land x m =? 0 then panic "freeing free block" else
  put_data bp (insertZ (bi / 8) (Z.land x (u8 (Z.lnot m))) d);;
  log_write bp;;
  brelse bp.

(** *** Inodes *)

Definition iinit : M unit :=
  initlock L_itable "itable";;
  for_loop (Z.to_nat NINODE) 0 (fun i => initsleeplock (SL_inode i) "inode";; ret (@None unit));;
  ret tt.

(** The loop of [iget]: the entry looked at and the empty slot seen first. *)
Definition iget_body (dev inum : Z) (st : Z * option Z) : M (Z * option Z + (Z + option Z)) :=
  let '(ip, empty) := st in
  if ip <? NINODE then
    i <- get_inode ip;;
    if (0 <? i_ref i) && (i_dev i =? dev) && (i_inum i =? inum) then ret (inr (inl ip))
    else
      let empty := match empty with
                   | Some e => Some e
                   | None => if i_ref i =? 0 then Some ip else None
                   end in
      ret (inl (ip + 1, empty))
  else ret (inr (inr empty)).

Definition iget (dev inum : Z) : M Z :=
  acquire L_itable;;
  r <- loop (S (Z.to_nat NINODE)) (iget_body dev inum) (0, None);;
  match r with
  | inl ip =>
      i <- get_inode ip;;
      put_inode ip (set_i_ref (i_ref i + 1) i);;
      release L_itable;;
      ret ip
  | inr None => panic "iget: no inodes"
  | inr (Some ip) =>
      i <- get_inode ip;;
      put_inode ip (set_i_valid 0 (set_i_ref 1 (set_i_inum inum (set_i_dev dev i))));;
      release L_itable;;
      ret ip
  end.

Definition ialloc_body (dev type inum : Z) : M (option Z) :=
  sb <- gets k_sb;;
  bp <- bread dev (IBLOCK inum sb);;
  d <- get_data bp;;
  if di_type (get_dinode d (dinode_off inum)) =? 0 then
    put_data bp (put_dinode d (dinode_off inum)
      (mkDinode type 0 0 0 0 (replicate (Z.to_nat (NDIRECT + 1)) 0)));;
    log_write bp;;
    brelse bp;;
    ip <- iget dev inum;;
    ret (Some ip)
  else
    brelse bp;;
    ret None.

Definition ialloc (dev type : Z) : M (option Z) :=
  sb <- gets k_sb;;
  r <- for_loop (Z.to_nat (sb_ninodes sb - 1)) 1 (ialloc_body dev type);;
  match r with
  | Some ip => ret (Some ip)
  | None => printf (chars "ialloc: no inodes" ++ [NL]) [];; ret None
  end.

(** The on-disk part of an in-memory inode, and back. *)
Definition dinode_of (i : inode) : dinode :=
  mkDinode (i_type i) (i_major i) (i_minor i) (i_nlink i) (i_size i) (i_addrs i).
Definition load_dinode (di : dinode) (i : inode) : inode :=
  set_i_addrs (di_addrs di) (set_i_size (di_size di) (set_i_nlink (di_nlink di)
    (set_i_minor (di_minor di) (set_i_major (di_major di) (set_i_type (di_type di) i))))).

Definition iupdate (ip : Z) : M unit :=
  i <- get_inode ip;;
  sb <- gets k_sb;;
  bp <- bread (i_dev i) (IBLOCK (i_inum i) sb);;
  i <- get_inode ip;;
  d <- get_data bp;;
  put_data bp (put_dinode d (dinode_off (i_inum i)) (dinode_of i));;
  log_write bp;;
  brelse bp.

Definition idup (ip : Z) : M Z :=
  acquire L_itable;;
  i <- get_inode ip;;
  put_inode ip (set_i_ref (i_ref i + 1) i);;
  release L_itable;;
  ret ip.

Definition ilock (ip : Z) : M unit :=
  i <- get_inode ip;;
  if i_ref i <? 1 then panic "ilock" else
  acquiresleep (SL_inode ip);;
  i <- get_inode ip;;
  when (i_valid i =? 0)
    (sb <- gets k_sb;;
     bp <- bread (i_dev i) (IBLOCK (i_inum i) sb);;
     d <- get_data bp;;
     i <- get_inode ip;;
     put_inode ip (load_dinode (get_dinode d (dinode_off (i_inum i))) i);;
     brelse bp;;
     i <- get_inode ip;;
     put_inode ip (set_i_valid 1 i);;
     when (i_type i =? 0) (panic "ilock: no type")).

Definition iunlock (ip : Z) : M unit :=
  h <- holdingsleep (SL_inode ip);;
  i <- get_inode ip;;
  if negb h || (i_ref i <? 1) then panic "iunlock" else
  releasesleep (SL_inode ip).

(** *** Inode content *)

Definition get_addr (ip n : Z) : M Z := i <- get_inode ip;; deref (lookupZ (i_addrs i) n).
Definition put_addr (ip n v : Z) : M unit :=
  i <- get_inode ip;; put_inode ip (set_i_addrs (insertZ n v (i_addrs i)) i).

(** [addr = ip->addrs[n]], allocated when it is 0; 0 if out of disk space. *)
Definition addr_alloc (ip n : Z) : M Z :=
  addr <- get_addr ip n;;
  if addr =? 0 then
    i <- get_inode ip;;
    addr <- balloc (i_dev i);;
    if addr =? 0 then ret 0 else
    put_addr ip n addr;;
    ret addr
  else ret addr.

(** Entry [bn] of the indirect block [addr], allocated when it is 0. *)
Definition bmap_indirect (dev addr bn : Z) : M Z :=
  bp <- bread dev addr;;
  d <- get_data bp;;
  let addr := get_u32 d (4 * bn) in
  addr <- (if addr =? 0 then
             addr <- balloc dev;;
             when (negb (addr =? 0))
               (d <- get_data bp;;
                put_data bp (put_u32 d (4 * bn) addr);;
                log_write bp);;
             ret addr
           else ret addr);;
  brelse bp;;
  ret addr.

Definition bmap (ip bn : Z) : M Z :=
  if bn <? NDIRECT then addr_alloc ip bn else
  let bn := bn - NDIRECT in
  if bn <? NINDIRECT then
    addr <- addr_alloc ip NDIRECT;;
    if addr =? 0 then ret 0 else
    i <- get_inode ip;;
    bmap_indirect (i_dev i) addr bn
  else panic "bmap: out of range".

Definition itrunc_direct (ip i : Z) : M (option unit) :=
  addr <- get_addr ip i;;
  when (negb (addr =? 0))
    (n <- get_inode ip;;
     bfree (i_dev n) addr;;
     put_addr ip i 0);;
  ret None.

Definition itrunc_indirect (ip bp j : Z) : M (option unit) :=
  d <- get_data bp;;
  let a := get_u32 d (4 * j) in
  when (negb (a =? 0))
    (n <- get_inode ip;;
     bfree (i_dev n) a);;
  ret None.

Definition itrunc (ip : Z) : M unit :=
  for_loop (Z.to_nat NDIRECT) 0 (itrunc_direct ip);;
  addr <- get_addr ip NDIRECT;;
  when (negb (addr =? 0))
    (n <- get_inode ip;;
     bp <- bread (i_dev n) addr;;
     for_loop (Z.to_nat NINDIRECT) 0 (itrunc_indirect ip bp);;
     brelse bp;;
     bfree (i_dev n) addr;;
     put_addr ip NDIRECT 0);;
  i <- get_inode ip;;
  put_inode ip (set_i_size 0 i);;
  iupdate ip.

Definition iput (ip : Z) : M unit :=
  acquire L_itable;;
  i <- get_inode ip;;
  when ((i_ref i =? 1) && truth (i_valid i) && (i_nlink i =? 0))
    (acquiresleep (SL_inode ip);;
     release L_itable;;
     itrunc ip;;
     i <- get_inode ip;;
     put_inode ip (set_i_type 0 i);;
     iupdate ip;;
     i <- get_inode ip;;
     put_inode ip (set_i_valid 0 i);;
     releasesleep (SL_inode ip);;
     acquire L_itable);;
  i <- get_inode ip;;
  put_inode ip (set_i_ref (i_ref i - 1) i);;
  release L_itable.

Definition iunlockput (ip : Z) : M unit := iunlock ip;; iput ip.

(** [struct stat] *)
Record stat := mkStat {
  st_dev : Z;
  st_ino : Z;
  st_type : Z;
  st_nlink : Z;
  st_size : Z;
}.

Definition stati (ip : Z) : M stat :=
  i <- get_inode ip;;
  ret (mkStat (i32 (i_dev i)) (i_inum i) (i_type i) (i_nlink i) (i_size i)).

(** The blocks that [n] bytes can span, and the turn that leaves the loop. *)
Definition io_fuel (n : Z) : nat := 3 + Z.to_nat (n / BSIZE).

(** The loop of [readi]: [tot], [off], [dst] and the bytes stored at a kernel
    [dst]. *)
Definition readi_body (ip user_dst n : Z) (st : Z * Z * Z * list Z)
    : M (Z * Z * Z * list Z + Z * list Z) :=
  let '(tot, off, dst, out) := st in
  if tot <? n then
    addr <- bmap ip (off / BSIZE);;
    if addr =? 0 then ret (inr (i32 tot, out)) else
    i <- get_inode ip;;
    bp <- bread (i_dev i) addr;;
    let m := Z.min (n - tot) (BSIZE - off mod BSIZE) in
    d <- get_data bp;;
    r <- either_copyout user_dst dst (get_bytes d (off mod BSIZE) m);;
    brelse bp;;
    if fst r =? -1 then ret (inr (-1, out ++ snd r))
    else ret (inl (tot + m, off + m, u64 (dst + m), out ++ snd r))
  else ret (inr (i32 tot, out)).

Definition readi (ip user_dst dst off n : Z) : M (Z * list Z) :=
  i <- get_inode ip;;
  if (i_size i <? off) || (u32 (off + n) <? off) then ret (0, []) else
  let n := if i_size i <? off + n then i_size i - off else n in
  loop (io_fuel n) (readi_body ip user_dst n) (0, off, dst, []).

(** The loop of [writei]: [tot], [off], [src] and what is left of the bytes at
    a kernel [src]. *)
Definition writei_body (ip user_src n : Z) (st : Z * Z * Z * list Z)
    : M (Z * Z * Z * list Z + Z * Z) :=
  let '(tot, off, src, bytes) := st in
  if tot <? n then
    addr <- bmap ip (off / BSIZE);;
    if addr =? 0 then ret (inr (tot, off)) else
    i <- get_inode ip;;
    bp <- bread (i_dev i) addr;;
    let m := Z.min (n - tot) (BSIZE - off mod BSIZE) in
    r <- either_copyin user_src src bytes m;;
    d <- get_data bp;;
    put_data bp (put_bytes d (off mod BSIZE) (snd r));;
    if fst r =? -1 then
      brelse bp;;
      ret (inr (tot, off))
    else
      log_write bp;;
      brelse bp;;
      ret (inl (tot + m, off + m, u64 (src + m), drop (Z.to_nat m) bytes))
  else ret (inr (tot, off)).

Definition writei (ip user_src src : Z) (bytes : list Z) (off n : Z) : M Z :=
  i <- get_inode ip;;
  if (i_size i <? off) || (u32 (off + n) <? off) then ret (-1) else
  if MAXFILE * BSIZE <? off + n then ret (-1) else
  r <- loop (io_fuel n) (writei_body ip user_src n) (0, off, src, bytes);;
  let '(tot, off) := r in
  i <- get_inode ip;;
  when (i_size i <? off) (put_inode ip (set_i_size off i));;
  iupdate ip;;
  ret (i32 tot).

(** *** Directories *)

Definition namecmp (s t : list Z) : Z := strncmp (str_of s) (str_of t) DIRSIZ.

(** The entry at [off], and the loops over the entries of a directory. *)
Definition read_dirent (dp off : Z) (msg : string) : M dirent :=
  r <- readi dp 0 0 off sizeof_dirent;;
  if negb (fst r =? sizeof_dirent) then panic msg else ret (dirent_of (snd r)).

Definition dir_fuel (size : Z) : nat := S (Z.to_nat (size / sizeof_dirent + 1)).

Definition dirlookup_body (dp : Z) (name : list Z) (off : Z) : M (Z + option (Z * Z)) :=
  i <- get_inode dp;;
  if off <? i_size i then
    de <- read_dirent dp off "dirlookup read";;
    if de_inum de =? 0 then ret (inl (off + sizeof_dirent)) else
    if namecmp name (de_name de) =? 0 then
      ip <- iget (i_dev i) (de_inum de);;
      ret (inr (Some (ip, off)))
    else ret (inl (off + sizeof_dirent))
  else ret (inr None).

(** The inode and the offset of the entry. *)
Definition dirlookup (dp : Z) (name : list Z) : M (option (Z * Z)) :=
  i <- get_inode dp;;
  if negb (i_type i =? T_DIR) then panic "dirlookup not DIR" else
  loop (dir_fuel (i_size i)) (dirlookup_body dp name) 0.

Definition dirlink_body (dp off : Z) : M (Z + Z) :=
  i <- get_inode dp;;
  if off <? i_size i then
    de <- read_dirent dp off "dirlink read";;
    if de_inum de =? 0 then ret (inr off) else ret (inl (off + sizeof_dirent))
  else ret (inr off).

Definition dirlink (dp : Z) (name : list Z) (inum : Z) : M Z :=
  r <- dirlookup dp name;;
  match r with
  | Some (ip, _) => iput ip;; ret (-1)
  | None =>
      i <- get_inode dp;;
      off <- loop (dir_fuel (i_size i)) (dirlink_body dp) 0;;
      let de := mkDirent (u16 inum) (strncpy (str_of name) DIRSIZ) in
      w <- writei dp 0 0 (dirent_bytes de) off sizeof_dirent;;
      if negb (w =? sizeof_dirent) then ret (-1) else ret 0
  end.

(** *** Paths *)

Definition SLASH : Z := 47.

Fixpoint skip_slashes (path : list Z) : list Z :=
  match path with
  | c :: path' => if c =? SLASH then skip_slashes path' else path
  | [] => []
  end.

(** The element at the start of the path, and what follows it. *)
Fixpoint path_elem (path : list Z) : list Z * list Z :=
  match path with
  | c :: path' => if c =? SLASH then ([], path) else let '(e, r) := path_elem path' in (c :: e, r)
  | [] => ([], [])
  end.

(** The rest of the path and the name; [None] for the null pointer. *)
Definition skipelem (path : list Z) : option (list Z * list Z) :=
  match skip_slashes path with
  | [] => None
  | path =>
      let '(elem, rest) := path_elem path in
      let name := if DIRSIZ <=? lenZ elem then take (Z.to_nat DIRSIZ) elem else elem in
      Some (skip_slashes rest, name)
  end.

(** The loop of [namex]: the current inode, the rest of the path and the name
    last copied. *)
Definition namex_body (parent : bool) (st : Z * list Z * list Z)
    : M (Z * list Z * list Z + option (Z * list Z)) :=
  let '(ip, path, name) := st in
  match skipelem path with
  | None =>
      if parent then iput ip;; ret (inr None) else ret (inr (Some (ip, name)))
  | Some (path, name) =>
      ilock ip;;
      i <- get_inode ip;;
      if negb (i_type i =? T_DIR) then iunlockput ip;; ret (inr None) else
      if parent && bool_decide (path = []) then
        iunlock ip;;
        ret (inr (Some (ip, name)))
      else
        r <- dirlookup ip name;;
        match r with
        | None => iunlockput ip;; ret (inr None)
        | Some (next, _) => iunlockput ip;; ret (inl (next, path, name))
        end
  end.

(** Every turn removes an element of the path. *)
Definition namex_fuel (path : list Z) : nat := S (length path).

Definition namex (path : list Z) (parent : bool) : M (option (Z * list Z)) :=
  ip <- (if str_of path 0 =? SLASH then iget ROOTDEV ROOTINO
         else
           p <- curproc;;
           pr <- get_proc p;;
           cwd <- deref (p_cwd pr);;
           idup cwd);;
  loop (namex_fuel path) (namex_body parent) (ip, path, []).

Definition namei (path : list Z) : M (option Z) :=
  r <- namex path false;;
  ret (fst <$> r).

(** The parent inode and the final path element. *)
Definition nameiparent (path : list Z) : M (option (Z * list Z)) := namex path true.

End Fs.
