(* ===== verification/FsAlloc.v ===== *)
(** * The block allocator: what [balloc] and [bfree] of [kernel/fs.c] do

    The bitmap on the disk stands for the set of blocks in use; inside a
    transaction [balloc] adds a block to it and [bfree] removes one. *)

From S2P Require Import Prelude Riscv State Spinlock Sched Sleeplock Uart Printf FsLayout Bio Log Tx Fs.

(** ** Definitions *)

(** Bit [i] of a bitmap block. *)
Definition bm_bit (d : list Z) (i : Z) : bool := Z.testbit (default 0 (lookupZ d (i / 8))) (i mod 8).

(** Block [b] is in use. *)
Definition in_use (s : kstate) (b : Z) : bool := bm_bit (view s (BBLOCK b (k_sb s))) (b mod BPB).

(** The blocks of the bitmap. *)
Definition is_bitmap (s : kstate) (n : Z) : Prop := exists b, 0 <= b < sb_size (k_sb s) /\ n = BBLOCK b (k_sb s).

(** The layout of the disk: the bitmap fits on it, and the bitmap and the log
    do not overlap and are themselves marked as in use. *)
Record fs_layout `{DL : DiskLaws} (s : kstate) : Prop := {
  fl_size : 0 < sb_size (k_sb s) <= disk_blocks;
  fl_bmap : 0 <= sb_bmapstart (k_sb s) /\ sb_bmapstart (k_sb s) + sb_size (k_sb s) / BPB < disk_blocks;
  fl_log : forall n, is_bitmap s n -> ~ in_log (k_log s) n;
  fl_used : forall n, 0 <= n < sb_size (k_sb s) -> is_bitmap s n \/ in_log (k_log s) n -> in_use s n = true;
}.

(** The buffers held are of blocks in use and not of the bitmap. *)
Definition held_used (H : list Z) (s : kstate) : Prop :=
  forall b n d, b ∈ H -> buf_is s b n d -> ~ is_bitmap s n /\ (0 <= n < sb_size (k_sb s) -> in_use s n = true).

(** ** Bits *)

Lemma bit_mask_eq i : bit_mask i = 2 ^ (i mod 8).
Proof. unfold bit_mask. rewrite Z.shiftl_mul_pow2, Z.mul_1_l by (apply Z.mod_pos_bound; lia). done. Qed.

Lemma mod8 i : 0 <= i mod 8 < 8.
Proof. apply Z.mod_pos_bound. lia. Qed.

Lemma testbit_mask i k : 0 <= k -> Z.testbit (bit_mask i) k = (k =? i mod 8).
Proof. intros Hk. rewrite bit_mask_eq, Z.pow2_bits_eqb by apply mod8. apply Z.eqb_sym. Qed.

Lemma land_mask x i : (Z.land x (bit_mask i) =? 0) = negb (Z.testbit x (i mod 8)).
Proof.
  pose proof (mod8 i). destruct (Z.testbit x (i mod 8)) eqn:E; simpl.
  - apply Z.eqb_neq. intros Hz. assert (Hb : Z.testbit (Z.land x (bit_mask i)) (i mod 8) = false) by (by rewrite Hz, Z.bits_0).
    rewrite Z.land_spec, E, testbit_mask, Z.eqb_refl in Hb by lia. done.
  - apply Z.eqb_eq, Z.bits_inj'. intros k Hk. rewrite Z.land_spec, testbit_mask, Z.bits_0 by done.
    destruct (Z.eqb_spec k (i mod 8)) as [->|]; [by rewrite E|by rewrite andb_false_r].
Qed.

Lemma lor_mask_byte x i : 0 <= x < 256 -> 0 <= Z.lor x (bit_mask i) < 256.
Proof.
  intros H. pose proof (mod8 i). rewrite bit_mask_eq. assert (Hn : 0 <= Z.lor x (2 ^ (i mod 8))) by (apply Z.lor_nonneg; split; [lia|apply Z.pow_nonneg; lia]).
  split; [done|]. apply (Z.log2_lt_cancel _ 256). change (Z.log2 256) with 8. rewrite Z.log2_lor, Z.log2_pow2 by (try apply Z.pow_nonneg; lia).
  destruct (decide (x = 0)) as [->|]; [simpl; lia|]. pose proof (proj1 (Z.log2_lt_pow2 x 8 ltac:(lia)) ltac:(lia)). lia.
Qed.

Lemma land_byte x y : 0 <= x < 256 -> 0 <= Z.land x (u8 y) < 256.
Proof.
  intros H. change 256 with (2 ^ 8) in *. unfold u8. rewrite <- Z.land_ones by lia. rewrite Z.land_assoc, Z.land_ones by lia. apply Z.mod_pos_bound. lia.
Qed.

Lemma bm_bit_insert d i j x : is_block d -> 0 <= i < BPB -> 0 <= j < BPB ->
  bm_bit (insertZ (i / 8) x d) j = if j / 8 =? i / 8 then Z.testbit x (j mod 8) else bm_bit d j.
Proof.
  intros [Hl _] Hi Hj. unfold bm_bit. assert (0 <= i / 8 < lenZ d).
  { rewrite Hl. unfold BPB, BSIZE in *. split; [apply Z.div_pos; lia|apply Z.div_lt_upper_bound; lia]. }
  rewrite lookupZ_insertZ by done. by destruct (j / 8 =? i / 8).
Qed.

Lemma same_bit i j : j / 8 = i / 8 -> j mod 8 = i mod 8 <-> j = i.
Proof. intros H. pose proof (Z.div_mod i 8 ltac:(lia)). pose proof (Z.div_mod j 8 ltac:(lia)). split; [lia|by intros ->]. Qed.

Lemma bm_lookup d i : is_block d -> 0 <= i < BPB -> exists x, lookupZ d (i / 8) = Some x /\ 0 <= x < 256 /\ bm_bit d i = Z.testbit x (i mod 8).
Proof.
  intros [Hl Hb] Hi. destruct (lookupZ_is_Some d (i / 8)) as [x Hx].
  { rewrite Hl. unfold BPB, BSIZE in *. split; [apply Z.div_pos; lia|apply Z.div_lt_upper_bound; lia]. }
  exists x. split; [done|]. split; [|unfold bm_bit; by rewrite Hx]. apply lookupZ_elem in Hx. unfold is_bytes in Hb. rewrite Forall_forall in Hb. by apply Hb.
Qed.

Lemma is_block_insert d i x : is_block d -> 0 <= x < 256 -> is_block (insertZ i x d).
Proof.
  intros [Hl Hb] Hx. split; [by rewrite lenZ_insertZ|]. unfold is_bytes, insertZ in *. destruct (i <? 0); [done|]. by apply Forall_insert.
Qed.

(** Setting and clearing a bit. *)
Lemma bm_set d i x : is_block d -> 0 <= i < BPB -> lookupZ d (i / 8) = Some x -> 0 <= x < 256 ->
  is_block (insertZ (i / 8) (Z.lor x (bit_mask i)) d) /\
  forall j, 0 <= j < BPB -> bm_bit (insertZ (i / 8) (Z.lor x (bit_mask i)) d) j = (j =? i) || bm_bit d j.
Proof.
  intros Hd Hi Hx Hb. split; [by apply is_block_insert, lor_mask_byte|]. intros j Hj. rewrite bm_bit_insert by done.
  destruct (Z.eqb_spec (j / 8) (i / 8)) as [E|E].
  - pose proof (mod8 j). rewrite Z.lor_spec, testbit_mask by lia. unfold bm_bit. rewrite E, Hx. simpl. rewrite orb_comm. f_equal.
    apply eq_true_iff_eq. rewrite !Z.eqb_eq. by apply same_bit.
  - destruct (Z.eqb_spec j i); [congruence|done].
Qed.

Lemma bm_clear d i x : is_block d -> 0 <= i < BPB -> lookupZ d (i / 8) = Some x -> 0 <= x < 256 ->
  is_block (insertZ (i / 8) (Z.land x (u8 (Z.lnot (bit_mask i)))) d) /\
  forall j, 0 <= j < BPB -> bm_bit (insertZ (i / 8) (Z.land x (u8 (Z.lnot (bit_mask i)))) d) j = negb (j =? i) && bm_bit d j.
Proof.
  intros Hd Hi Hx Hb. split; [by apply is_block_insert, land_byte|]. intros j Hj. rewrite bm_bit_insert by done.
  destruct (Z.eqb_spec (j / 8) (i / 8)) as [E|E].
  - pose proof (mod8 j). unfold u8. rewrite Z.land_spec, Z.mod_pow2_bits_low, Z.lnot_spec, testbit_mask by lia.
    unfold bm_bit. rewrite E, Hx. simpl. rewrite andb_comm. do 2 f_equal. apply eq_true_iff_eq. rewrite !Z.eqb_eq. by apply same_bit.
  - destruct (Z.eqb_spec j i); [congruence|done].
Qed.

(** ** Allocation *)

(** What allocating [r] and freeing [b] mean for the file system. *)
Definition allocated (s s' : kstate) (r : Z) : Prop :=
  0 <= r < sb_size (k_sb s) /\ in_use s r = false /\
  (forall b, 0 <= b < sb_size (k_sb s) -> in_use s' b = (b =? r) || in_use s b) /\
  view s' r = zero_block /\ forall n, ~ is_bitmap s n -> n <> r -> view s' n = view s n.

Definition freed (s s' : kstate) (r : Z) : Prop :=
  (forall b, 0 <= b < sb_size (k_sb s) -> in_use s' b = negb (b =? r) && in_use s b) /\
  forall n, ~ is_bitmap s n -> view s' n = view s n.

Lemma same_block b c : b / BPB = c / BPB -> b mod BPB = c mod BPB <-> b = c.
Proof. intros E. pose proof (Z.div_mod b BPB ltac:(done)). pose proof (Z.div_mod c BPB ltac:(done)). split; [lia|by intros ->]. Qed.

Lemma block_offset b j : b mod BPB = 0 -> 0 <= j < BPB -> (b + j) / BPB = b / BPB /\ (b + j) mod BPB = j.
Proof.
  intros Hm Hj. pose proof (Z.div_mod b BPB ltac:(done)) as E. rewrite Hm, Z.add_0_r in E.
  split; symmetry; [apply (Z.div_unique _ _ _ j)|apply (Z.mod_unique _ _ (b / BPB))]; lia.
Qed.

Section Alloc.
Context `{DL : DiskLaws} {PT : Patience} {IO : Mmio} (en : bool) (p pid : Z).
Implicit Types (H P : list Z) (s : kstate).

Lemma bblock_eq s b : fs_layout s -> 0 <= b < sb_size (k_sb s) ->
  BBLOCK b (k_sb s) = b / BPB + sb_bmapstart (k_sb s) /\ 0 <= BBLOCK b (k_sb s) < disk_blocks.
Proof.
  intros [L1 [L2 L2'] _ _] Hb. pose proof disk_blocks_max. pose proof (Z.div_pos b BPB ltac:(lia) ltac:(done)).
  pose proof (Z.div_le_mono b (sb_size (k_sb s)) BPB ltac:(done) ltac:(lia)). unfold BBLOCK. rewrite u32_small by lia. lia.
Qed.

Lemma is_bitmap_of s b : 0 <= b < sb_size (k_sb s) -> is_bitmap s (BBLOCK b (k_sb s)).
Proof. intros Hb. by exists b. Qed.

Lemma view_is_block H P s n : in_tx en p pid H P s -> is_block (view s n).
Proof.
  intros T. pose proof (tx_bio _ _ _ _ _ _ T) as Hi. destruct (view_cases _ _ _ _ n Hi) as [(b & bb & Hb & Hl & _ & ->)|[_ ->]].
  - apply (bo_data _ _ _ _ _ _ (bi_buf _ _ _ _ Hi b bb ltac:(lia) Hl)).
  - apply (bi_disk _ _ _ _ Hi).
Qed.

(** The effect on [in_use] of new contents of the bitmap block of [r]. *)
Lemma in_use_upd s s' r d f : fs_layout s -> k_sb s' = k_sb s -> 0 <= r < sb_size (k_sb s) ->
  view s' (BBLOCK r (k_sb s)) = d -> (forall n, is_bitmap s n -> n <> BBLOCK r (k_sb s) -> view s' n = view s n) ->
  (forall j, 0 <= j < BPB -> bm_bit d j = f (j =? r mod BPB) (bm_bit (view s (BBLOCK r (k_sb s))) j)) -> f false = id ->
  forall b, 0 <= b < sb_size (k_sb s) -> in_use s' b = f (b =? r) (in_use s b).
Proof.
  intros L Esb Hr Hd Hv Hf Hid b Hb. unfold in_use. rewrite Esb. destruct (bblock_eq s b L Hb) as [Eb _]. destruct (bblock_eq s r L Hr) as [Er _].
  destruct (decide (b / BPB = r / BPB)) as [E|E].
  - replace (BBLOCK b (k_sb s)) with (BBLOCK r (k_sb s)) by lia. rewrite Hd, Hf by (apply Z.mod_pos_bound; done). f_equal.
    apply eq_true_iff_eq. rewrite !Z.eqb_eq. by apply same_block.
  - destruct (Z.eqb_spec b r) as [->|]; [done|]. rewrite Hv, Hid; [done|by apply is_bitmap_of|]. rewrite Eb, Er. lia.
Qed.

(** A free block is not of the log or the bitmap, nor held. *)
Lemma free_block H s r : fs_layout s -> held_used H s -> 0 <= r < sb_size (k_sb s) -> in_use s r = false ->
  ~ is_bitmap s r /\ ~ in_log (k_log s) r /\ forall b d, b ∈ H -> ~ buf_is s b r d.
Proof.
  intros L Hh Hr Hf. split; [|split].
  - intros Hb. rewrite (fl_used _ L r Hr (or_introl Hb)) in Hf. done.
  - intros Hb. rewrite (fl_used _ L r Hr (or_intror Hb)) in Hf. done.
  - intros b d Hb Hbuf. destruct (Hh b r d Hb Hbuf) as [_ Hu]. rewrite Hu in Hf by done. done.
Qed.

Lemma bzero_ok H P s r : in_tx en p pid H P s -> 0 <= r < disk_blocks -> ~ in_log (k_log s) r -> (forall b d, b ∈ H -> ~ buf_is s b r d) ->
  lenZ H + lenZ P < NBUF -> lenZ P < log_size (k_log s) - 1 ->
  exists s', bzero ROOTDEV r s = Ok tt s' /\ in_tx en p pid H (add_block r P) s' /\ tstep p s s' /\ keeps H s s' /\
    forall n, view s' n = if n =? r then zero_block else view s n.
Proof.
  intros T Hr Hl Hh Hroom Hlog. pose proof disk_blocks_max.
  destruct (tx_bread en p pid H P s r T Hr Hh (or_intror Hroom)) as (b & s1 & E1 & T1 & St1 & _ & B1 & _ & V1 & K1). apply dstep_tstep in St1.
  destruct (tx_write_back en p pid H P s1 b r _ zero_block T1 B1 zero_is_block) as (s2 & s3 & s4 & E2 & E3 & E4 & T4 & St4 & V4 & K4).
  { by rewrite (tstep_in_log _ _ _ _ St1). }
  { by rewrite (tstep_log_size _ _ _ St1). }
  exists s4. split; [|split; [done|split; [by etransitivity|split; [by etransitivity|intros n; by rewrite V4, V1]]]].
  unfold bzero. rewrite (u32_small r) by lia. change (u32 ROOTDEV) with ROOTDEV. erewrite bind_ok by exact E1.
  change (replicate (Z.to_nat BSIZE) 0) with zero_block. erewrite bind_ok by exact E2. by erewrite bind_ok by exact E3.
Qed.

(** [balloc_body] at a free bit. *)
Lemma balloc_take H P s bp b i : in_tx en p pid (bp :: H) P s -> fs_layout s -> held_used H s ->
  0 <= i < BPB -> b mod BPB = 0 -> 0 <= b -> b + i < sb_size (k_sb s) ->
  buf_is s bp (BBLOCK (b + i) (k_sb s)) (view s (BBLOCK (b + i) (k_sb s))) -> in_use s (b + i) = false ->
  lenZ H + lenZ P + 1 < NBUF -> lenZ P + 1 < log_size (k_log s) - 1 ->
  exists s', balloc_body ROOTDEV bp b i s = Ok (Some (b + i)) s' /\ tstep p s s' /\ keeps H s s' /\
    in_tx en p pid H (add_block (b + i) (add_block (BBLOCK (b + i) (k_sb s)) P)) s' /\ allocated s s' (b + i).
Proof.
  intros T L Hh Hi Hb0 Hb Hsz Hbuf Hfree Hroom Hlog. set (r := b + i) in *. set (nb := BBLOCK r (k_sb s)) in *.
  assert (Hr : 0 <= r < sb_size (k_sb s)) by lia. destruct (free_block H s r L Hh Hr Hfree) as (Hnbm & Hnlog & Hnheld).
  assert (Em : r mod BPB = i) by (unfold r; rewrite Z.add_mod, Hb0, Z.add_0_l, Z.mod_mod, Z.mod_small by done; done).
  pose proof (view_is_block _ _ _ nb T) as Hblk. destruct (bm_lookup (view s nb) i Hblk Hi) as (x & Hx & Hxb & Hbit).
  destruct (bm_set (view s nb) i x Hblk Hi Hx Hxb) as [Hd Hset]. set (d := insertZ (i / 8) (Z.lor x (bit_mask i)) (view s nb)) in *.
  destruct (tx_write_back en p pid H P s bp nb (view s nb) d T Hbuf Hd) as (s1 & s2 & s3 & E1 & E2 & E3 & T3 & St3 & V3 & K3).
  { apply (fl_log _ L). by apply is_bitmap_of. }
  { lia. }
  pose proof (add_block_len nb P) as Hlen. pose proof (fl_size _ L).
  destruct (bzero_ok H (add_block nb P) s3 r T3) as (s7 & E7 & T7 & St7 & K7 & V7); [lia| | |lia| |].
  { by rewrite (tstep_in_log _ _ _ _ St3). }
  { intros b' d' Hb' Hbuf'. destruct (tx_keeps_block en p pid H (bp :: H) P s s3 b' r d' T) as [d'' Hs]; [by intros ? ?; right|done..|].
    by apply (Hnheld b' d''). }
  { rewrite (tstep_log_size _ _ _ St3). lia. }
  assert (St' : tstep p s s7) by (by etransitivity).
  exists s7. split; [|split; [done|split; [by etransitivity|split; [done|]]]].
  - unfold balloc_body. erewrite bind_ok by (apply (get_data_ok _ _ _ _ Hbuf)). erewrite bind_ok by (apply deref_ok; exact Hx).
    unfold in_use in Hfree. fold nb in Hfree. rewrite Em, Hbit in Hfree. rewrite land_mask, Hfree. cbn [negb].
    erewrite bind_ok by exact E1. erewrite bind_ok by exact E2. erewrite bind_ok by exact E3. fold r. by rewrite (bind_ok _ _ _ _ _ E7).
  - assert (Hv : forall n, view s7 n = if n =? r then zero_block else if n =? nb then d else view s n) by (intros n; by rewrite V7, V3).
    split; [done|]. split; [done|]. split; [|split; [by rewrite Hv, Z.eqb_refl|]].
    + apply (in_use_upd s s7 r d orb L (tstep_sb _ _ _ St') Hr); [| |by rewrite Em|done].
      * fold nb. rewrite Hv, Z.eqb_refl. destruct (Z.eqb_spec nb r) as [E|]; [|done]. destruct Hnbm. rewrite <- E. by apply is_bitmap_of.
      * intros n Hn Hne. rewrite Hv. destruct (Z.eqb_spec n r) as [->|]; [done|]. by destruct (Z.eqb_spec n nb).
    + intros n Hn Hne. rewrite Hv. destruct (Z.eqb_spec n r); [done|]. destruct (Z.eqb_spec n nb) as [->|]; [|done].
      destruct Hn. by apply is_bitmap_of.
Qed.

(** The scan of one bitmap block. *)
Lemma balloc_scan bp b n d k : buf_is k bp n d -> is_block d -> forall m i, 0 <= i -> i + Z.of_nat m <= BPB ->
  ((forall j, i <= j < i + Z.of_nat m -> bm_bit d j = true) /\ for_loop m i (balloc_body ROOTDEV bp b) k = Ok None k) \/
  exists j, i <= j < i + Z.of_nat m /\ bm_bit d j = false /\ forall r s', balloc_body ROOTDEV bp b j k = Ok (Some r) s' ->
    for_loop m i (balloc_body ROOTDEV bp b) k = Ok (Some r) s'.
Proof.
  intros Hb Hd. induction m as [|m IH]; intros i Hi Hm; [left; split; [lia|done]|].
  destruct (bm_lookup d i Hd ltac:(lia)) as (x & Hx & _ & Hbit). destruct (bm_bit d i) eqn:E.
  - assert (Hbody : balloc_body ROOTDEV bp b i k = Ok None k).
    { unfold balloc_body. erewrite bind_ok by (apply (get_data_ok _ _ _ _ Hb)). erewrite bind_ok by (apply deref_ok; exact Hx).
      by rewrite land_mask, <- Hbit. }
    destruct (IH (i + 1) ltac:(lia) ltac:(lia)) as [[Hall HE]|(j & Hj & Hf & HE)].
    + left. split; [|by rewrite (for_loop_next _ _ _ _ _ Hbody)]. intros j Hj. destruct (decide (j = i)) as [->|]; [done|apply Hall; lia].
    + right. exists j. split; [lia|]. split; [done|]. intros r s' Hr. rewrite (for_loop_next _ _ _ _ _ Hbody). by apply HE.
  - right. exists i. split; [lia|]. split; [done|]. intros r s' Hr. by apply for_loop_stop.
Qed.

(** From [s] to [s'] blocks have been looked at, and nothing has changed. *)
Definition quiet H s s' : Prop := dstep p s s' /\ (forall n, view s' n = view s n) /\ keeps H s s'.

Lemma quiet_same H s s' : quiet H s s' -> k_sb s' = k_sb s /\ k_log s' = k_log s /\ (forall b, in_use s' b = in_use s b) /\
  (forall n, is_bitmap s' n <-> is_bitmap s n).
Proof.
  intros ([St _] & V & _). destruct (bstep_same _ _ _ St) as (El & Es & _). unfold in_use, is_bitmap. rewrite Es. split; [done|]. split; [done|].
  split; [intros b; by rewrite V|done].
Qed.

Lemma quiet_layout H s s' : quiet H s s' -> fs_layout s -> fs_layout s'.
Proof.
  intros Q [L1 L2 L3 L4]. destruct (quiet_same _ _ _ Q) as (Es & El & Eu & Eb).
  split; rewrite ?Es, ?El; try done; [intros n; rewrite Eb; apply L3|intros n; rewrite Eb, Eu; apply L4].
Qed.

Lemma quiet_held H H' P s s' : quiet H s s' -> in_tx en p pid H' P s -> H ⊆ H' -> held_used H s -> held_used H s'.
Proof.
  intros Q T Hs Hh b n d Hb Hbuf. destruct (quiet_same _ _ _ Q) as (Es & El & Eu & Eb). rewrite Eb, Eu, Es.
  destruct (tx_keeps_block en p pid H H' P s s' b n d T Hs (proj2 (proj2 Q)) Hb Hbuf) as [d' Hd]. by apply (Hh b n d').
Qed.

Lemma quiet_allocated H s s' s'' r : quiet H s s' -> allocated s' s'' r -> allocated s s'' r.
Proof.
  intros Q (A1 & A2 & A3 & A4 & A5). destruct (quiet_same _ _ _ Q) as (Es & El & Eu & Eb). destruct Q as (_ & V & _). rewrite Es in *.
  split; [done|]. split; [by rewrite <- Eu|]. split; [intros b Hb; rewrite A3 by done; by rewrite Eu|]. split; [done|].
  intros n Hn Hne. rewrite <- V. apply A5; [by rewrite Eb|done].
Qed.

(** One turn of [balloc]: a block of the bitmap. *)
Lemma balloc_block_ok H P s b : in_tx en p pid H P s -> fs_layout s -> held_used H s -> b mod BPB = 0 -> 0 <= b < sb_size (k_sb s) ->
  lenZ H + lenZ P + 1 < NBUF -> lenZ P + 1 < log_size (k_log s) - 1 ->
  (exists s', balloc_block ROOTDEV b s = Ok (inl (b + BPB)) s' /\ quiet H s s' /\ in_tx en p pid H P s' /\
    forall c, b <= c < Z.min (b + BPB) (sb_size (k_sb s)) -> in_use s c = true) \/
  exists r s', balloc_block ROOTDEV b s = Ok (inr (Some r)) s' /\ tstep p s s' /\ keeps H s s' /\ allocated s s' r /\
    in_tx en p pid H (add_block r (add_block (BBLOCK r (k_sb s)) P)) s'.
Proof.
  intros T L Hh Hm Hb Hroom Hlog. destruct (bblock_eq s b L Hb) as [Enb Hnb]. set (nb := BBLOCK b (k_sb s)) in *.
  assert (Hsame : forall j, 0 <= j < BPB -> b + j < sb_size (k_sb s) -> BBLOCK (b + j) (k_sb s) = nb /\ (b + j) mod BPB = j).
  { intros j Hj Hjs. destruct (bblock_eq s (b + j) L ltac:(lia)) as [E _]. destruct (block_offset b j Hm Hj). split; [lia|done]. }
  destruct (tx_bread en p pid H P s nb T Hnb) as (bp & s1 & E1 & T1 & St1 & Hbp & B1 & C1 & V1 & K1).
  { intros b' d Hb' Hbuf. destruct (Hh b' nb d Hb' Hbuf) as [Hn _]. apply Hn. by apply is_bitmap_of. }
  { right. lia. }
  assert (Q1 : quiet H s s1) by (split; [done|split; done]). destruct (quiet_same _ _ _ Q1) as (Es & El & Eu & Ebm).
  set (m := Z.to_nat (Z.min BPB (sb_size (k_sb s) - b))). assert (HB : 0 < BPB) by done.
  unfold balloc_block. rewrite bind_gets. destruct (Z.ltb_spec b (sb_size (k_sb s))); [|lia]. fold nb.
  erewrite !bind_ok by exact E1. fold m.
  destruct (balloc_scan bp b nb _ s1 B1 (view_is_block _ _ _ nb T) m 0 ltac:(lia) ltac:(unfold m; lia)) as [[Hall HE]|(j & Hj & Hf & HE)].
  - left. destruct (tx_brelse en p pid H P s1 bp nb _ T1 B1 C1) as (s2 & E2 & T2 & St2 & V2 & K2). exists s2.
    rewrite (bind_ok _ _ _ _ _ HE). cbn beta iota. rewrite (bind_ok _ _ _ _ _ E2). split; [done|]. split; [|split; [done|]].
    + split; [by etransitivity|]. split; [intros n; by rewrite V2, V1|by etransitivity].
    + intros c Hc. destruct (Hsame (c - b) ltac:(lia) ltac:(lia)) as [Ec Ec']. replace (b + (c - b)) with c in * by lia.
      unfold in_use. rewrite Ec, Ec'. apply Hall. unfold m. lia.
  - right. destruct (Hsame j ltac:(unfold m in Hj; lia) ltac:(unfold m in Hj; lia)) as [Ej Ej'].
    destruct (balloc_take H P s1 bp b j T1) as (s2 & E2 & St2 & K2 & T2 & A2); rewrite ?Es, ?El; try done; try (unfold m in Hj; lia).
    + by apply (quiet_layout H s).
    + apply (quiet_held H H P s); try done.
    + rewrite Ej, V1. done.
    + rewrite Eu. unfold in_use. by rewrite Ej, Ej'.
    + exists (b + j), s2. rewrite (bind_ok _ _ _ _ _ (HE _ _ E2)). split; [done|]. rewrite Es in T2.
      split; [etransitivity; [by apply dstep_tstep|done]|]. split; [by etransitivity|]. split; [by apply (quiet_allocated H s s1)|done].
Qed.

Lemma balloc_loop H P fuel : forall b s, in_tx en p pid H P s -> fs_layout s -> held_used H s -> b mod BPB = 0 -> 0 <= b ->
  lenZ H + lenZ P + 1 < NBUF -> lenZ P + 1 < log_size (k_log s) - 1 -> sb_size (k_sb s) - b <= BPB * (Z.of_nat fuel - 1) -> (1 <= fuel)%nat ->
  exists o s', loop fuel (balloc_block ROOTDEV) b s = Ok o s' /\
    match o with
    | None => quiet H s s' /\ in_tx en p pid H P s' /\ forall c, b <= c < sb_size (k_sb s) -> in_use s c = true
    | Some r => tstep p s s' /\ keeps H s s' /\ allocated s s' r /\ in_tx en p pid H (add_block r (add_block (BBLOCK r (k_sb s)) P)) s'
    end.
Proof.
  induction fuel as [|fuel IH]; intros b s T L Hh Hm Hb Hroom Hlog Hfuel H1; [lia|]. assert (HB : 0 < BPB) by done.
  destruct (Z_lt_le_dec b (sb_size (k_sb s))) as [Hlt|Hge].
  - destruct (balloc_block_ok H P s b T L Hh Hm ltac:(lia) Hroom Hlog) as [(s1 & E1 & Q1 & T1 & Hu)|(r & s1 & E1 & St1 & K1 & A1 & T1)].
    + destruct (quiet_same _ _ _ Q1) as (Es & El & Eu & Ebm).
      destruct (IH (b + BPB) s1 T1) as (o & s2 & E2 & Ho); rewrite ?Es, ?El; try done; try lia.
      { by apply (quiet_layout H s). }
      { by apply (quiet_held H H P s). }
      { rewrite Z.add_mod, Hm, Z.mod_same by done. done. }
      exists o, s2. split; [by rewrite (loop_next _ _ _ _ _ _ E1)|]. destruct o as [r|].
      * destruct Ho as (St2 & K2 & A2 & T2). rewrite Es in T2. split; [etransitivity; [by apply dstep_tstep, Q1|done]|].
        split; [etransitivity; [apply Q1|done]|]. split; [by apply (quiet_allocated H s s1)|done].
      * destruct Ho as (Q2 & T2 & Hu2). split; [|split; [done|]].
        -- destruct Q1 as (? & V1 & ?), Q2 as (? & V2 & ?). split; [by etransitivity|]. split; [intros n; by rewrite V2, V1|by etransitivity].
        -- intros c Hc. rewrite Es in Hu2. destruct (Z_lt_le_dec c (b + BPB)); [apply Hu; lia|rewrite <- Eu; apply Hu2; lia].
    + exists (Some r), s1. split; [by apply loop_stop|done].
  - exists None, s. split; [apply loop_stop; unfold balloc_block; rewrite bind_gets; destruct (Z.ltb_spec b (sb_size (k_sb s))); [lia|done]|].
    split; [split; [reflexivity|split; reflexivity]|]. split; [done|lia].
Qed.

Lemma balloc_fuel_enough s : fs_layout s -> sb_size (k_sb s) - 0 <= BPB * (Z.of_nat (balloc_fuel (k_sb s)) - 1).
Proof.
  intros [L1 _ _ _]. unfold balloc_fuel. pose proof (Z.div_mod (sb_size (k_sb s)) BPB ltac:(done)) as E.
  pose proof (Z.mod_pos_bound (sb_size (k_sb s)) BPB ltac:(done)). pose proof (Z.div_pos (sb_size (k_sb s)) BPB ltac:(lia) ltac:(done)).
  rewrite Nat2Z.inj_add, Z2Nat.id by done. lia.
Qed.

(** [bfree] of a block in use. *)
Lemma bfree_ok H P s b : in_tx en p pid H P s -> fs_layout s -> held_used H s -> 0 <= b < sb_size (k_sb s) -> in_use s b = true ->
  lenZ H + lenZ P < NBUF -> lenZ P < log_size (k_log s) - 1 ->
  exists s', bfree ROOTDEV b s = Ok tt s' /\ tstep p s s' /\ keeps H s s' /\ freed s s' b /\ in_tx en p pid H (add_block (BBLOCK b (k_sb s)) P) s'.
Proof.
  intros T L Hh Hb Hu Hroom Hlog. destruct (bblock_eq s b L Hb) as [Enb Hnb]. set (nb := BBLOCK b (k_sb s)) in *. set (i := b mod BPB).
  assert (Hi : 0 <= i < BPB) by (apply Z.mod_pos_bound; done).
  destruct (tx_bread en p pid H P s nb T Hnb) as (bp & s1 & E1 & T1 & St1 & _ & B1 & _ & V1 & K1).
  { intros b' d Hb' Hbuf. destruct (Hh b' nb d Hb' Hbuf) as [Hn _]. apply Hn. by apply is_bitmap_of. }
  { by right. }
  apply dstep_tstep in St1. pose proof (view_is_block _ _ _ nb T) as Hblk. destruct (bm_lookup (view s nb) i Hblk Hi) as (x & Hx & Hxb & Hbit).
  destruct (bm_clear (view s nb) i x Hblk Hi Hx Hxb) as [Hd Hclr]. set (d := insertZ (i / 8) (Z.land x (u8 (Z.lnot (bit_mask i)))) (view s nb)) in *.
  destruct (tx_write_back en p pid H P s1 bp nb _ d T1 B1 Hd) as (s2 & s3 & s4 & E2 & E3 & E4 & T4 & St4 & V4 & K4).
  { rewrite (tstep_in_log _ _ _ _ St1). apply (fl_log _ L). by apply is_bitmap_of. }
  { by rewrite (tstep_log_size _ _ _ St1). }
  exists s4. assert (St : tstep p s s4) by (by etransitivity). split; [|split; [done|split; [by etransitivity|split; [|done]]]].
  - unfold bfree. rewrite bind_gets. change (u32 ROOTDEV) with ROOTDEV. fold nb. erewrite bind_ok by exact E1. fold i.
    erewrite bind_ok by (apply (get_data_ok _ _ _ _ B1)). erewrite bind_ok by (apply deref_ok; exact Hx).
    unfold in_use in Hu. fold nb i in Hu. rewrite Hbit in Hu. rewrite land_mask, Hu. cbn [negb].
    erewrite bind_ok by exact E2. by erewrite bind_ok by exact E3.
  - split.
    + apply (in_use_upd s s4 b d (fun x y => negb x && y) L (tstep_sb _ _ _ St) Hb); [| |exact Hclr|done].
      * fold nb. by rewrite V4, Z.eqb_refl.
      * intros n Hn Hne. rewrite V4, V1. by destruct (Z.eqb_spec n nb).
    + intros n Hn. rewrite V4, V1. destruct (Z.eqb_spec n nb) as [->|]; [|done]. destruct Hn. by apply is_bitmap_of.
Qed.

Lemma bfree_panics H P s b : in_tx en p pid H P s -> fs_layout s -> held_used H s -> 0 <= b < sb_size (k_sb s) -> in_use s b = false ->
  lenZ H + lenZ P < NBUF -> bfree ROOTDEV b s = Fail (Panic "freeing free block").
Proof.
  intros T L Hh Hb Hu Hroom. destruct (bblock_eq s b L Hb) as [Enb Hnb]. set (nb := BBLOCK b (k_sb s)) in *. set (i := b mod BPB).
  assert (Hi : 0 <= i < BPB) by (apply Z.mod_pos_bound; done).
  destruct (tx_bread en p pid H P s nb T Hnb) as (bp & s1 & E1 & _ & _ & _ & B1 & _).
  { intros b' d Hb' Hbuf. destruct (Hh b' nb d Hb' Hbuf) as [Hn _]. apply Hn. by apply is_bitmap_of. }
  { by right. }
  destruct (bm_lookup (view s nb) i (view_is_block _ _ _ nb T) Hi) as (x & Hx & _ & Hbit).
  unfold bfree. rewrite bind_gets. change (u32 ROOTDEV) with ROOTDEV. fold nb. erewrite bind_ok by exact E1. fold i.
  erewrite bind_ok by (apply (get_data_ok _ _ _ _ B1)). erewrite bind_ok by (apply deref_ok; exact Hx).
  unfold in_use in Hu. fold nb i in Hu. rewrite Hbit in Hu. by rewrite land_mask, Hu.
Qed.

Lemma static_pr : L_pr ∈ static_locks.
Proof. unfold static_locks. apply elem_of_app. left. set_solver. Qed.

(** The message of [balloc]. *)
Lemma out_of_blocks : exists ds out, chars "balloc: out of blocks" ++ [NL] = flat_map unparse ds /\ renders ds [] out.
Proof.
  exists (DLit <$> (chars "balloc: out of blocks" ++ [NL])), (chars "balloc: out of blocks" ++ [NL]). split; [reflexivity|].
  repeat (apply renders_lit; [by compute|by compute|]). apply renders_nil.
Qed.

Lemma tx_printf H P s io : in_tx en p pid H P s -> quiet H s (set_k_mmio io s) /\ in_tx en p pid H P (set_k_mmio io s).
Proof.
  intros T. assert (St : bstep p s (set_k_mmio io s)) by apply bstep_set_k_mmio. split; [split; [by split|split; [done|by intros b n d _ Hd]]|].
  apply (in_tx_bstep en p pid H P H s _ T St). by apply (bio_inv_ext pid H P s), T.
Qed.

Lemma balloc_ok H P s :
  in_tx en p pid H P s -> fs_layout s -> held_used H s -> uart_ready -> k_panicked s = 0 ->
  lenZ H + lenZ P + 1 < NBUF -> lenZ P + 1 < log_size (k_log s) - 1 ->
  exists r s' P', balloc ROOTDEV s = Ok r s' /\ in_tx en p pid H P' s' /\ tstep p s s' /\ keeps H s s' /\ lenZ P <= lenZ P' <= lenZ P + 2 /\ P ⊆ P' /\
    (allocated s s' r /\ r ∈ P' \/
     (r = 0 /\ P' = P /\ (forall n, view s' n = view s n) /\ forall b, 0 <= b < sb_size (k_sb s) -> in_use s b = true)).
Proof.
  intros T L Hh Hready Hpk Hroom Hlog.
  destruct (balloc_loop H P (balloc_fuel (k_sb s)) 0 s T L Hh) as (o & s1 & E1 & Ho); try done; [by apply balloc_fuel_enough|unfold balloc_fuel; lia|].
  unfold balloc. rewrite bind_gets, (bind_ok _ _ _ _ _ E1). destruct o as [r|].
  - destruct Ho as (St & K & A & T1). exists r, s1, (add_block r (add_block (BBLOCK r (k_sb s)) P)). do 4 (split; [done|]).
    pose proof (add_block_len (BBLOCK r (k_sb s)) P). pose proof (add_block_len r (add_block (BBLOCK r (k_sb s)) P)). split; [lia|].
    split; [by etransitivity; apply add_block_sub|]. left. split; [done|apply add_block_in].
  - destruct Ho as (Q & T1 & Hu). destruct out_of_blocks as (ds & out & -> & Hr). pose proof (rn_thread _ _ _ _ (tx_run _ _ _ _ _ _ T1)) as Hk.
    destruct (printf_ok ds [] out s1 Hready (kt_settled _ _ Hk)) as (io & E2 & _); [|apply Hk, static_pr|done|].
    { destruct Q as (((ps & sl & bc & dk & vd & io & _ & ->) & _) & _). done. }
    destruct (tx_printf H P s1 io T1) as [(St2 & V2 & K2) T2]. destruct Q as (St1 & V1 & K1).
    exists 0, (set_k_mmio io s1), P. rewrite (bind_ok _ _ _ _ _ E2). do 2 (split; [done|]). split; [apply dstep_tstep; by etransitivity|].
    split; [by etransitivity|]. split; [lia|]. split; [done|]. right. do 2 (split; [done|]). split; [intros n; by rewrite V2, V1|done].
Qed.

(** C14: the allocator of disk blocks.  Inside a transaction with room for two
    more blocks, [balloc] returns a block that was not in use, marks exactly
    that one, and zeroes it, every other block of the disk but the bitmap
    being left alone; or it returns 0, having changed nothing (but the
    console), and then every block of the disk is in use.  [bfree] of a block
    in use removes exactly that one, and of another block panics. *)
Theorem balloc_bfree H P s :
  in_tx en p pid H P s -> fs_layout s -> held_used H s -> uart_ready -> k_panicked s = 0 ->
  lenZ H + lenZ P + 1 < NBUF -> lenZ P + 1 < log_size (k_log s) - 1 ->
  (exists r s' P', balloc ROOTDEV s = Ok r s' /\ in_tx en p pid H P' s' /\ tstep p s s' /\ keeps H s s' /\
    (allocated s s' r \/
     (r = 0 /\ P' = P /\ (forall n, view s' n = view s n) /\ forall b, 0 <= b < sb_size (k_sb s) -> in_use s b = true))) /\
  forall b, 0 <= b < sb_size (k_sb s) ->
    if in_use s b then
      exists s', bfree ROOTDEV b s = Ok tt s' /\ freed s s' b /\ tstep p s s' /\ in_tx en p pid H (add_block (BBLOCK b (k_sb s)) P) s'
    else bfree ROOTDEV b s = Fail (Panic "freeing free block").
Proof.
  intros T L Hh Hready Hpk Hroom Hlog. split.
  - destruct (balloc_ok H P s T L Hh Hready Hpk Hroom Hlog) as (r & s' & P' & E & T' & St & K & _ & _ & HA). exists r, s', P'. repeat (split; [done|]).
    destruct HA as [[HA _]|HA]; [by left|by right].
  - intros b Hb. destruct (in_use s b) eqn:E; [|by apply (bfree_panics H P); [done..|lia]].
    destruct (bfree_ok H P s b T L Hh Hb E) as (s' & E' & St & _ & F & T'); [lia|lia|]. by exists s'.
Qed.

End Alloc.

(** *** A disk with 47 blocks in use *)

(** Bits 0 to 46 of the bitmap, which is block 45; block 46 is the first data
    block. *)
Definition demo_bitmap : list Z := [255; 255; 255; 255; 255; 127] ++ replicate (Z.to_nat (BSIZE - 6)) 0.
Definition demo_block : list Z := [104; 105; 10] ++ replicate (Z.to_nat (BSIZE - 3)) 0.
Definition demo_dev : disk_dev := mkDisk {[45 := demo_bitmap; 46 := demo_block]} [].

Lemma pad_is_block l : lenZ l <= BSIZE -> is_bytes l -> is_block (l ++ replicate (Z.to_nat (BSIZE - lenZ l)) 0).
Proof.
  intros Hl Hb. split; [rewrite lenZ_app, lenZ_replicate; lia|]. apply Forall_app. split; [exact Hb|]. apply Forall_replicate. lia.
Qed.

Lemma demo_dev_blocks n : is_block (dblock demo_dev n).
Proof.
  unfold dblock, demo_dev. cbn [d_blocks]. destruct (decide (n = 45)) as [->|]; [|destruct (decide (n = 46)) as [->|]].
  - apply (pad_is_block [255; 255; 255; 255; 255; 127]); [done|]. repeat constructor; lia.
  - apply (pad_is_block [104; 105; 10]); [done|]. repeat constructor; lia.
  - rewrite lookup_insert_ne, lookup_singleton_ne by done. exact zero_is_block.
Qed.

Lemma demo_alloc : exists s, @in_tx demo_disk demo_laws true 5 9 [] [] s /\ @fs_layout demo_disk demo_laws s /\ k_panicked s = 0 /\
  k_log s = demo_log 1 /\ k_sb s = demo_sb /\ (forall n, view s n = dblock demo_dev n) /\ forall b, 0 <= b < 2000 -> in_use s b = bm_bit demo_bitmap b.
Proof.
  destruct (demo_cache demo_dev demo_dev_blocks) as (bc & sl & lk & _ & Hr & Hi & Hz).
  set (s0 := set_k_bcache bc (set_k_sleeplocks sl (set_k_locks lk (demo_run demo_dev)))) in *.
  exists (set_k_sb demo_sb (set_k_log (demo_log 1) s0)). destruct (demo_log_ok 1) as (Hg & Hh & Hn).
  assert (T : @in_tx demo_disk demo_laws true 5 9 [] [] (set_k_sb demo_sb (set_k_log (demo_log 1) s0))).
  { split; [|by apply (@bio_inv_ext demo_disk demo_laws 9 [] [] s0)|exact Hg|exact Hh|exact Hn|done].
    apply (running_ext true 5 9 s0); [reflexivity..|reflexivity|exact Hr]. }
  set (s := set_k_sb demo_sb (set_k_log (demo_log 1) s0)) in *.
  assert (Hv : forall n, view s n = dblock demo_dev n).
  { intros n. rewrite (@view_clean demo_disk demo_laws 9 [] [] s n (tx_bio _ _ _ _ _ _ T) (not_elem_of_nil _) (not_held_nil _ _)). reflexivity. }
  assert (Hbb : forall b, 0 <= b < 2000 -> BBLOCK b demo_sb = 45).
  { intros b Hb. unfold BBLOCK. rewrite Z.div_small by (unfold BPB, BSIZE; lia). reflexivity. }
  assert (Hbm : forall n, is_bitmap s n -> n = 45) by (intros n (b & Hb & ->); by apply Hbb).
  assert (Hu : forall b, 0 <= b < 2000 -> in_use s b = bm_bit demo_bitmap b).
  { intros b Hb. unfold in_use. change (k_sb s) with demo_sb. rewrite Hbb, Hv by lia. rewrite Z.mod_small by (unfold BPB, BSIZE; lia). reflexivity. }
  split; [exact T|]. split; [|repeat (split; [reflexivity|]); split; [exact Hv|exact Hu]]. split.
  - simpl. lia.
  - split; [by compute|]. change (45 + 2000 / 8192 < 2000). reflexivity.
  - intros n Hb. rewrite (Hbm n Hb). unfold in_log. simpl. lia.
  - intros n Hn' Hor. assert (Hlt : 0 <= n < 46) by (destruct Hor as [->%Hbm|Hor]; [lia|unfold in_log in Hor; simpl in Hor; lia]).
    rewrite Hu by lia. assert (E : forallb (bm_bit demo_bitmap) (rangeZ 0 46) = true) by (vm_compute; reflexivity).
    rewrite forallb_forall in E. apply E. rewrite <- list_elem_of_In, elem_of_rangeZ. lia.
Qed.

Lemma balloc_bfree_witness : exists s r s', @balloc ready_uart demo_patience demo_disk ROOTDEV s = Ok r s'.
Proof.
  destruct demo_alloc as (s & T & L & Hp & Hl & _).
  destruct (@balloc_bfree demo_disk demo_laws demo_patience ready_uart true 5 9 [] [] s T L) as [(r & s' & P' & E & _) _].
  - intros b n d Hb. by apply not_elem_of_nil in Hb.
  - intros h. exists 0%nat. split; [simpl; lia|by compute].
  - exact Hp.
  - by compute.
  - rewrite Hl. by compute.
  - exists s, r, s'. exact E.
Defined.
