(* ===== verification/FsInode.v ===== *)
(** * The contents of inodes: what [bmap], [readi] and [writei] of
    [kernel/fs.c] do

    A file is the bytes of the blocks that its inode names, directly or
    through the indirect block.  [readi] returns bytes of the file, and
    [writei] inside a transaction changes them and extends the file, whatever
    other files there are. *)

From S2P Require Import Prelude Riscv State Spinlock Sched Sleeplock Uart Printf FsLayout Bio Log Tx Fs FsAlloc.

(** ** Definitions *)

(** The block of the [j]-th piece of a file with the addresses [A], and the
    byte [x] of the file, when [v] is the contents of the disk. *)
Definition ind (A : list Z) : Z := default 0 (lookupZ A NDIRECT).
Definition blk (v : Z -> list Z) (A : list Z) (j : Z) : Z :=
  if j <? NDIRECT then default 0 (lookupZ A j)
  else if ind A =? 0 then 0 else get_u32 (v (ind A)) (4 * (j - NDIRECT)).
Definition fbyte (v : Z -> list Z) (A : list Z) (x : Z) : Z := default 0 (lookupZ (v (blk v A (x / BSIZE))) (x mod BSIZE)).
Definition file_bytes (v : Z -> list Z) (A : list Z) (off n : Z) : list Z := fbyte v A <$> rangeZ off (Z.to_nat n).

(** The blocks for data start behind the bitmap; what is before is in use. *)
Definition data_start (s : kstate) : Z := sb_bmapstart (k_sb s) + sb_size (k_sb s) / BPB + 1.
Record fs_areas `{DL : DiskLaws} (s : kstate) : Prop := {
  fa_layout : fs_layout s;
  fa_log : forall n, in_log (k_log s) n -> n < data_start s;
  fa_inode : forall inum, 0 <= inum < sb_ninodes (k_sb s) ->
    IBLOCK inum (k_sb s) < sb_bmapstart (k_sb s) /\ ~ in_log (k_log s) (IBLOCK inum (k_sb s));
  fa_meta : forall n, 0 <= n < data_start s -> n < sb_size (k_sb s) -> in_use s n = true;
}.
Definition data_block (s : kstate) (b : Z) : Prop := data_start s <= b < sb_size (k_sb s) /\ in_use s b = true.

(** The inode [i] of a file: its blocks are data blocks, different from each
    other, and there is one for every byte of the file. *)
Record file_ok (s : kstate) (i : inode) : Prop := {
  fo_dev : i_dev i = ROOTDEV;
  fo_len : lenZ (i_addrs i) = NDIRECT + 1;
  fo_size : 0 <= i_size i <= MAXFILE * BSIZE;
  fo_ind : ind (i_addrs i) = 0 \/ data_block s (ind (i_addrs i));
  fo_blk : forall j, 0 <= j < MAXFILE -> blk (view s) (i_addrs i) j = 0 \/
    data_block s (blk (view s) (i_addrs i) j) /\ blk (view s) (i_addrs i) j <> ind (i_addrs i);
  fo_inj : forall j k, 0 <= j < MAXFILE -> 0 <= k < MAXFILE -> blk (view s) (i_addrs i) j = blk (view s) (i_addrs i) k ->
    blk (view s) (i_addrs i) j <> 0 -> j = k;
  fo_full : forall j, 0 <= j -> j * BSIZE < i_size i -> blk (view s) (i_addrs i) j <> 0;
}.

(** ** Lemmas: the areas of the disk *)

Section Areas.
Context `{DL : DiskLaws}.
Implicit Types s : kstate.

Lemma bitmap_before s n : fs_areas s -> is_bitmap s n -> n < data_start s.
Proof.
  intros F (b & Hb & ->). destruct (bblock_eq s b (fa_layout _ F) Hb) as [-> _]. unfold data_start.
  pose proof (Z.div_le_mono b (sb_size (k_sb s)) BPB ltac:(done) ltac:(lia)). lia.
Qed.

Lemma data_start_pos s : fs_areas s -> 0 < data_start s.
Proof.
  intros [[L1 [L2 _] _ _] _ _ _]. unfold data_start. pose proof (Z.div_pos (sb_size (k_sb s)) BPB ltac:(lia) ltac:(done)). lia.
Qed.

(** A data block is not one of the others. *)
Lemma data_block_apart s b : fs_areas s -> data_block s b ->
  0 < b < disk_blocks /\ b < sb_size (k_sb s) /\ in_use s b = true /\ ~ is_bitmap s b /\ ~ in_log (k_log s) b /\
  forall inum, 0 <= inum < sb_ninodes (k_sb s) -> b <> IBLOCK inum (k_sb s).
Proof.
  intros F [Hb Hu]. pose proof (data_start_pos s F). pose proof (fl_size _ (fa_layout _ F)). split; [lia|]. split; [lia|]. split; [done|].
  split; [intros Hn%bitmap_before; [lia|done]|]. split; [intros Hn%(fa_log _ F); lia|].
  intros inum Hi ->. destruct (fa_inode _ F inum Hi) as [Hlt _]. unfold data_start in Hb. pose proof (fl_size _ (fa_layout _ F)).
  pose proof (Z.div_pos (sb_size (k_sb s)) BPB ltac:(lia) ltac:(done)). lia.
Qed.

(** The areas stay where they are, and blocks in use stay in use. *)
Lemma fs_areas_mono s s' : k_sb s' = k_sb s -> (forall n, in_log (k_log s') n <-> in_log (k_log s) n) ->
  (forall b, 0 <= b < sb_size (k_sb s) -> in_use s b = true -> in_use s' b = true) -> fs_areas s -> fs_areas s'.
Proof.
  intros Es El Hu [[L1 L2 L3 L4] F2 F3 F4].
  assert (Hbm : forall n, is_bitmap s' n <-> is_bitmap s n) by (intros n; unfold is_bitmap; by rewrite Es).
  assert (Hds : data_start s' = data_start s) by (unfold data_start; by rewrite Es). split.
  - split; rewrite ?Es; [done|done|intros n; rewrite Hbm, El; apply L3|]. intros n Hn. rewrite Hbm, El. intros Hor. apply Hu; [done|by apply L4].
  - intros n. rewrite El, Hds. apply F2.
  - intros inum. rewrite Es, El. apply F3.
  - intros n Hn Hs. rewrite Hds in Hn. rewrite Es in Hs. apply Hu; [lia|by apply F4].
Qed.

Lemma data_block_mono s s' b : k_sb s' = k_sb s -> fs_areas s ->
  (forall b, 0 <= b < sb_size (k_sb s) -> in_use s b = true -> in_use s' b = true) -> data_block s b -> data_block s' b.
Proof.
  intros Es F Hu [Hb Hb']. unfold data_block, data_start. rewrite Es. pose proof (data_start_pos s F). split; [done|]. apply Hu; [lia|done].
Qed.

(** What [balloc] returns is a data block. *)
Lemma allocated_data s s' r : fs_areas s -> k_sb s' = k_sb s -> allocated s s' r -> data_block s' r /\ ~ data_block s r /\ r <> 0.
Proof.
  intros F Es (Hr & Hu & Hin & _). assert (Hds : data_start s <= r).
  { destruct (Z_lt_le_dec r (data_start s)) as [Hlt|]; [|done]. rewrite (fa_meta _ F r) in Hu; [done|lia|lia]. }
  pose proof (data_start_pos s F). split; [|split; [intros [_ H']; congruence|lia]]. split; [|rewrite Hin, Z.eqb_refl by done; done].
  unfold data_start in *. rewrite Es. lia.
Qed.

Lemma allocated_mono s s' r : allocated s s' r -> forall b, 0 <= b < sb_size (k_sb s) -> in_use s b = true -> in_use s' b = true.
Proof. intros (_ & _ & Hin & _) b Hb Hu. rewrite Hin, Hu by done. by rewrite orb_true_r. Qed.

End Areas.

(** ** Lemmas: the blocks of a file *)

Lemma blk_ext v v' A j : (ind A = 0 \/ v' (ind A) = v (ind A)) -> blk v' A j = blk v A j.
Proof. intros H. unfold blk. destruct (j <? NDIRECT); [done|]. destruct (Z.eqb_spec (ind A) 0); [done|]. destruct H as [H|H]; [done|by rewrite H]. Qed.

Lemma lookup_addr A j : lenZ A = NDIRECT + 1 -> 0 <= j <= NDIRECT -> lookupZ A j = Some (default 0 (lookupZ A j)).
Proof. intros Hl Hj. destruct (lookupZ_is_Some A j) as [x ->]; [lia|done]. Qed.

Lemma get_addr_ok s ip i n : lookupZ (k_itable s) ip = Some i -> lenZ (i_addrs i) = NDIRECT + 1 -> 0 <= n <= NDIRECT ->
  get_addr ip n s = Ok (default 0 (lookupZ (i_addrs i) n)) s.
Proof.
  intros Hl Hlen Hn. unfold get_addr. erewrite bind_ok by (by apply run_get_inode). by rewrite (lookup_addr _ n Hlen).
Qed.

Lemma lenZ_file_bytes v A off n : 0 <= n -> lenZ (file_bytes v A off n) = n.
Proof. intros H. unfold file_bytes, lenZ. rewrite length_fmap, length_rangeZ. lia. Qed.

Lemma lookup_file_bytes v A off n x : 0 <= x < n -> lookupZ (file_bytes v A off n) x = Some (fbyte v A (off + x)).
Proof. intros H. unfold file_bytes. rewrite lookupZ_fmap, lookupZ_rangeZ by lia. done. Qed.

Lemma file_bytes_app v A off n k : 0 <= n -> 0 <= k -> file_bytes v A off (n + k) = file_bytes v A off n ++ file_bytes v A (off + n) k.
Proof.
  intros Hn Hk. apply list_eqZ; [rewrite lenZ_app, !lenZ_file_bytes; lia|]. rewrite lenZ_file_bytes by lia. intros x Hx. rewrite lookup_file_bytes, lookupZ_app by lia. rewrite lenZ_file_bytes by lia.
  destruct (Z.ltb_spec x n); rewrite lookup_file_bytes by lia; [done|]. do 2 f_equal. lia.
Qed.

(** A piece of a block of the file. *)
Lemma file_bytes_block v A off m : 0 <= m -> off mod BSIZE + m <= BSIZE -> lenZ (v (blk v A (off / BSIZE))) = BSIZE ->
  get_bytes (v (blk v A (off / BSIZE))) (off mod BSIZE) m = file_bytes v A off m.
Proof.
  intros Hm Hb Hl. pose proof (Z.mod_pos_bound off BSIZE ltac:(done)). apply list_eqZ; [rewrite lenZ_get_bytes, lenZ_file_bytes by lia; done|].
  rewrite lenZ_get_bytes by lia. intros x Hx. rewrite get_bytes_lookup, lookup_file_bytes by lia. destruct (Z.leb_spec 0 x), (Z.ltb_spec x m); try lia. cbn [andb].
  unfold fbyte. assert (Eq : (off + x) / BSIZE = off / BSIZE /\ (off + x) mod BSIZE = off mod BSIZE + x).
  { pose proof (Z.div_mod off BSIZE ltac:(done)). split; symmetry; [apply (Z.div_unique _ _ _ (off mod BSIZE + x))|apply (Z.mod_unique _ _ (off / BSIZE))]; lia. }
  destruct Eq as [-> ->]. destruct (lookupZ_is_Some (v (blk v A (off / BSIZE))) (off mod BSIZE + x)) as [y ->]; [lia|done].
Qed.

Lemma put_addr_ok s ip i n v : lookupZ (k_itable s) ip = Some i ->
  put_addr ip n v s = Ok tt (set_k_itable (insertZ ip (set_i_addrs (insertZ n v (i_addrs i)) i) (k_itable s)) s).
Proof. intros Hl. unfold put_addr. by erewrite bind_ok by (by apply run_get_inode). Qed.

Section Read.
Context `{DL : DiskLaws} {PT : Patience} {IO : Mmio} (en : bool) (p pid : Z).
Implicit Types (P : list Z) (s : kstate).

Lemma addr_alloc_hit s ip i n : lookupZ (k_itable s) ip = Some i -> lenZ (i_addrs i) = NDIRECT + 1 -> 0 <= n <= NDIRECT ->
  default 0 (lookupZ (i_addrs i) n) <> 0 -> addr_alloc ip n s = Ok (default 0 (lookupZ (i_addrs i) n)) s.
Proof.
  intros Hl Hlen Hn H0. unfold addr_alloc. erewrite bind_ok by (by apply get_addr_ok). by destruct (Z.eqb_spec (default 0 (lookupZ (i_addrs i) n)) 0).
Qed.

(** A block is read and given back. *)
Lemma read_block P s n : running en p pid s -> bio_inv pid [] P s -> 0 <= n < disk_blocks -> lenZ P < NBUF ->
  exists b s1 s2, bread ROOTDEV n s = Ok b s1 /\ buf_is s1 b n (view s n) /\ bstep p s s1 /\ brelse b s1 = Ok tt s2 /\ dstep p s s2 /\
    bio_inv pid [] P s2 /\ forall m, view s2 m = view s m.
Proof.
  intros Hr Hi Hn HP. destruct (bread_ok en p pid [] P s n Hr Hi Hn) as (b & s1 & E1 & St1 & _ & Hi1 & B1 & V1 & _ & Hd).
  { intros b d Hb. by apply not_elem_of_nil in Hb. }
  { right. change (lenZ []) with 0. lia. }
  destruct (brelse_ok en p pid [] P s1 b n _ (bstep_running _ _ _ _ _ St1 Hr) Hi1 B1) as (s2 & E2 & St2 & Hi2 & V2 & _ & D2 & _).
  { destruct (decide (n ∈ P)); [by left|right]. rewrite Hd. apply (view_clean pid [] P s n Hi); [done|]. apply not_held_nil. }
  exists b, s1, s2. repeat (split; [done|]). split; [split; [by etransitivity|congruence]|]. split; [done|]. intros m. by rewrite V2, V1.
Qed.

(** [bmap] of a block that the file has. *)
Lemma bmap_hit P s i ip bn : running en p pid s -> bio_inv pid [] P s -> fs_areas s -> lookupZ (k_itable s) ip = Some i -> file_ok s i ->
  0 <= bn < MAXFILE -> blk (view s) (i_addrs i) bn <> 0 -> lenZ P < NBUF ->
  exists s', bmap ip bn s = Ok (blk (view s) (i_addrs i) bn) s' /\ dstep p s s' /\ bio_inv pid [] P s' /\ forall n, view s' n = view s n.
Proof.
  intros Hr Hi F Hl O Hbn Hb HP. pose proof (fo_len _ _ O) as Hlen. unfold bmap. destruct (Z.ltb_spec bn NDIRECT).
  - assert (Eb : blk (view s) (i_addrs i) bn = default 0 (lookupZ (i_addrs i) bn)) by (unfold blk; destruct (Z.ltb_spec bn NDIRECT); [done|lia]).
    exists s. split; [|split; [reflexivity|by split]]. rewrite Eb in Hb |- *. apply addr_alloc_hit; [done|done|lia|done].
  - assert (Eb : ind (i_addrs i) <> 0 /\ blk (view s) (i_addrs i) bn = get_u32 (view s (ind (i_addrs i))) (4 * (bn - NDIRECT))).
    { unfold blk in *. destruct (Z.ltb_spec bn NDIRECT); [lia|]. destruct (Z.eqb_spec (ind (i_addrs i)) 0); [done|]. done. }
    destruct Eb as [Hind Eb]. destruct (fo_ind _ _ O) as [|Hd]; [done|]. destruct (data_block_apart s _ F Hd) as (Hrng & _).
    destruct (read_block P s (ind (i_addrs i)) Hr Hi ltac:(lia) HP) as (b & s1 & s2 & E1 & B1 & St1 & E2 & St2 & Hi2 & V2).
    exists s2. split; [|by split]. cbv zeta. destruct (Z.ltb_spec (bn - NDIRECT) NINDIRECT); [|unfold MAXFILE in *; lia].
    erewrite bind_ok by (apply addr_alloc_hit; [done|done|unfold NDIRECT; lia|exact Hind]). fold (ind (i_addrs i)).
    destruct (Z.eqb_spec (ind (i_addrs i)) 0); [done|]. erewrite bind_ok by (by apply run_get_inode). rewrite (fo_dev _ _ O). unfold bmap_indirect.
    erewrite bind_ok by exact E1. erewrite bind_ok by (by apply (get_data_ok _ _ _ _ B1)). cbv zeta. rewrite <- Eb.
    destruct (Z.eqb_spec (blk (view s) (i_addrs i) bn) 0); [done|]. rewrite bind_ret. erewrite bind_ok by exact E2. done.
Qed.

Lemma file_ok_mono s s' i : k_sb s' = k_sb s -> fs_areas s -> (forall b, 0 <= b < sb_size (k_sb s) -> in_use s b = true -> in_use s' b = true) ->
  (ind (i_addrs i) = 0 \/ view s' (ind (i_addrs i)) = view s (ind (i_addrs i))) -> file_ok s i -> file_ok s' i.
Proof.
  intros Es F Hu Hv [O1 O2 O3 O4 O5 O6 O7]. assert (Eb : forall j, blk (view s') (i_addrs i) j = blk (view s) (i_addrs i) j) by (intros j; by apply blk_ext).
  split; try done.
  - destruct O4 as [|O4]; [by left|right]. by eapply data_block_mono.
  - intros j Hj. rewrite Eb. destruct (O5 j Hj) as [|[Hd Hn]]; [by left|right]. split; [by eapply data_block_mono|done].
  - intros j k Hj Hk. rewrite !Eb. by apply O6.
  - intros j Hj Hs. rewrite Eb. by apply O7.
Qed.

(** Reading changes neither the file nor the areas. *)
Lemma bstep_file s s' i : bstep p s s' -> (forall n, view s' n = view s n) -> fs_areas s -> file_ok s i -> fs_areas s' /\ file_ok s' i.
Proof.
  intros St V F O. destruct (bstep_same _ _ _ St) as (El & Es & _). assert (Hu : forall b, in_use s' b = in_use s b) by (intros b; unfold in_use; by rewrite Es, V).
  split; [apply (fs_areas_mono s)|apply (file_ok_mono s)]; try done; try (intros b _; by rewrite Hu); [by rewrite El|by right].
Qed.

Lemma bio_view_block P s n : bio_inv pid [] P s -> is_block (view s n).
Proof.
  intros Hi. destruct (view_cases _ _ _ _ n Hi) as [(b & bb & Hb & Hl & _ & ->)|[_ ->]].
  - apply (bo_data _ _ _ _ _ _ (bi_buf _ _ _ _ Hi b bb ltac:(lia) Hl)).
  - apply (bi_disk _ _ _ _ Hi).
Qed.

(** What stays true from one turn of [readi] to the next. *)
Record reading P (s0 : kstate) (ip : Z) (i : inode) (s : kstate) : Prop := {
  rd_run : running en p pid s;
  rd_bio : bio_inv pid [] P s;
  rd_areas : fs_areas s;
  rd_inode : lookupZ (k_itable s) ip = Some i;
  rd_file : file_ok s i;
  rd_step : dstep p s0 s;
  rd_view : forall n, view s n = view s0 n;
}.

Lemma reading_step P s0 ip i s s' : reading P s0 ip i s -> dstep p s s' -> bio_inv pid [] P s' -> (forall n, view s' n = view s n) -> reading P s0 ip i s'.
Proof.
  intros [R1 R2 R3 R4 R5 R6 R7] St Hi V. destruct (bstep_file s s' i (proj1 St) V R3 R5). destruct (bstep_same _ _ _ (proj1 St)) as (_ & _ & Et & _). split; try done.
  - by eapply bstep_running, R1; apply St.
  - by rewrite Et.
  - by etransitivity.
  - intros n. by rewrite V, R7.
Qed.

(** One turn of [readi]: a piece of one block. *)
Lemma readi_body_ok P s0 ip i s n tot off dst out : reading P s0 ip i s -> lenZ P < NBUF -> 0 <= tot < n -> 0 <= off -> off + (n - tot) <= i_size i ->
  let m := Z.min (n - tot) (BSIZE - off mod BSIZE) in
  exists s', readi_body ip 0 n (tot, off, dst, out) s = Ok (inl (tot + m, off + m, u64 (dst + m), out ++ file_bytes (view s0) (i_addrs i) off m)) s' /\ reading P s0 ip i s'.
Proof.
  intros R HP Ht Ho Hsz m. pose proof (Z.mod_pos_bound off BSIZE ltac:(done)) as Hmod. pose proof (fo_size _ _ (rd_file _ _ _ _ _ R)) as Hsize.
  assert (Hm : 0 < m /\ off mod BSIZE + m <= BSIZE) by (unfold m; lia). unfold readi_body. destruct (Z.ltb_spec tot n); [|lia].
  assert (Hdiv : 0 <= off / BSIZE < MAXFILE /\ off / BSIZE * BSIZE < i_size i).
  { pose proof (Z.div_mod off BSIZE ltac:(done)). pose proof (Z.div_pos off BSIZE ltac:(lia) ltac:(done)). split; [split; [done|]|nia].
    apply Z.div_lt_upper_bound; [done|]. lia. }
  pose proof (fo_full _ _ (rd_file _ _ _ _ _ R) (off / BSIZE) ltac:(lia) ltac:(lia)) as Hb.
  destruct (bmap_hit P s i ip (off / BSIZE) (rd_run _ _ _ _ _ R) (rd_bio _ _ _ _ _ R) (rd_areas _ _ _ _ _ R) (rd_inode _ _ _ _ _ R) (rd_file _ _ _ _ _ R) ltac:(lia) Hb HP) as (s1 & E1 & St1 & Hi1 & V1).
  pose proof (reading_step _ _ _ _ _ _ R St1 Hi1 V1) as R1. set (b := blk (view s) (i_addrs i) (off / BSIZE)) in *.
  destruct (fo_blk _ _ (rd_file _ _ _ _ _ R) (off / BSIZE) ltac:(lia)) as [|[Hd _]]; [done|]. destruct (data_block_apart s b (rd_areas _ _ _ _ _ R) Hd) as (Hrng & _).
  destruct (read_block P s1 b (rd_run _ _ _ _ _ R1) Hi1 ltac:(lia) HP) as (bp & s2 & s3 & E2 & B2 & St2 & E3 & St3 & Hi3 & V3).
  exists s3. split; [|by apply (reading_step _ _ _ _ s1)]. rewrite (bind_ok _ _ _ _ _ E1). destruct (Z.eqb_spec b 0); [done|].
  erewrite bind_ok by (apply run_get_inode, R1). rewrite (fo_dev _ _ (rd_file _ _ _ _ _ R)). rewrite (bind_ok _ _ _ _ _ E2).
  fold m. cbv zeta. erewrite bind_ok by (by apply (get_data_ok _ _ _ _ B2)). unfold either_copyout. change (truth 0) with false. cbv iota.
  assert (Hset : settled s2) by (apply (kt_settled p), (rn_thread en p pid), (bstep_running en p pid s1 s2 St2), R1).
  erewrite bind_ok by (erewrite bind_ok by (by apply run_myproc); reflexivity). cbn [fst snd]. rewrite (bind_ok _ _ _ _ _ E3). change (0 =? -1) with false. cbv iota.
  do 5 f_equal. rewrite V1. assert (Ev : file_bytes (view s0) (i_addrs i) off m = file_bytes (view s) (i_addrs i) off m); [|rewrite Ev].
  { apply fmap_rangeZ_ext. intros x _. unfold fbyte, blk. by rewrite !(rd_view _ _ _ _ _ R). }
  apply file_bytes_block; [lia|lia|]. apply (bio_view_block P s), R.
Qed.

(** The number of blocks from byte [off] to byte [e]. *)
Definition blocks_left (off e : Z) : Z := if off <? e then (e + BSIZE - 1) / BSIZE - off / BSIZE else 0.

Lemma blocks_left_step off e m : 0 <= off < e -> m = Z.min (e - off) (BSIZE - off mod BSIZE) ->
  1 <= blocks_left off e /\ 0 <= blocks_left (off + m) e <= blocks_left off e - 1.
Proof.
  intros H ->. unfold blocks_left, BSIZE. destruct (Z.ltb_spec off e); [|lia]. destruct (Z.ltb_spec (off + Z.min (e - off) (1024 - off mod 1024)) e); Z.to_euclidean_division_equations; lia.
Qed.

Lemma io_fuel_enough off n : 0 <= off -> 0 <= n -> blocks_left off (off + n) < Z.of_nat (io_fuel n).
Proof. intros H1 H2. unfold blocks_left, io_fuel, BSIZE. destruct (Z.ltb_spec off (off + n)); Z.to_euclidean_division_equations; lia. Qed.

Lemma readi_loop P s0 ip i n off0 : lenZ P < NBUF -> 0 <= off0 -> off0 + n <= i_size i -> forall fuel s tot dst, reading P s0 ip i s -> 0 <= tot <= n ->
  blocks_left (off0 + tot) (off0 + n) < Z.of_nat fuel -> (1 <= fuel)%nat ->
  exists s', loop fuel (readi_body ip 0 n) (tot, off0 + tot, dst, file_bytes (view s0) (i_addrs i) off0 tot) s = Ok (i32 n, file_bytes (view s0) (i_addrs i) off0 n) s' /\ reading P s0 ip i s'.
Proof.
  intros HP Ho Hsz. induction fuel as [|fuel IH]; intros s tot dst R Ht Hf H1; [lia|]. destruct (Z_lt_le_dec tot n) as [Hlt|Hge].
  - destruct (readi_body_ok P s0 ip i s n tot (off0 + tot) dst (file_bytes (view s0) (i_addrs i) off0 tot) R HP) as (s1 & E1 & R1); [lia|lia|lia|]. rewrite (loop_next _ _ _ _ _ _ E1).
    set (m := Z.min (n - tot) (BSIZE - (off0 + tot) mod BSIZE)) in *.
    destruct (blocks_left_step (off0 + tot) (off0 + n) m) as [Hb Hs]; [lia|unfold m; f_equal; lia|].
    assert (Hm : 0 < m) by (unfold m; pose proof (Z.mod_pos_bound (off0 + tot) BSIZE ltac:(done)); lia).
    rewrite <- file_bytes_app by lia. rewrite <- Z.add_assoc in *. apply (IH s1 (tot + m) (u64 (dst + m)) R1); [unfold m; lia|lia|lia].
  - assert (tot = n) as -> by lia. exists s. split; [|done]. apply loop_stop. unfold readi_body. by rewrite Z.ltb_irrefl.
Qed.

Lemma readi_ok P s ip i dst off n : running en p pid s -> bio_inv pid [] P s -> lenZ P < NBUF -> fs_areas s ->
  lookupZ (k_itable s) ip = Some i -> file_ok s i -> 0 <= off < 2 ^ 32 -> 0 <= n < 2 ^ 32 ->
  let k := if (i_size i <? off) || (2 ^ 32 <=? off + n) then 0 else Z.min n (i_size i - off) in
  exists s', readi ip 0 dst off n s = Ok (k, file_bytes (view s) (i_addrs i) off k) s' /\ dstep p s s' /\ bio_inv pid [] P s' /\ forall b, view s' b = view s b.
Proof.
  intros Hr Hi HP F Hl O Ho Hn k. pose proof (fo_size _ _ O) as Hsz. assert (Hmax : MAXFILE * BSIZE < 2 ^ 31) by done.
  assert (R : reading P s ip i s) by (split; try done; reflexivity). unfold readi. erewrite bind_ok by (by apply run_get_inode).
  assert (Ec : (u32 (off + n) <? off) = (2 ^ 32 <=? off + n)).
  { destruct (Z.leb_spec (2 ^ 32) (off + n)).
    - apply Z.ltb_lt. unfold u32. replace (off + n) with (off + n - 2 ^ 32 + 1 * 2 ^ 32) by lia. rewrite Z.mod_add by done. rewrite Z.mod_small by lia. lia.
    - apply Z.ltb_ge. rewrite u32_small by lia. lia. }
  rewrite Ec. unfold k. clear k. destruct ((i_size i <? off) || (2 ^ 32 <=? off + n)) eqn:E.
  - exists s. split; [done|]. split; [reflexivity|done].
  - apply orb_false_iff in E as [E1%Z.ltb_ge E2%Z.leb_gt]. replace (if i_size i <? off + n then i_size i - off else n) with (Z.min n (i_size i - off)) by (destruct (Z.ltb_spec (i_size i) (off + n)); lia).
    set (k := Z.min n (i_size i - off)). destruct (readi_loop P s ip i k off HP ltac:(lia) ltac:(unfold k; lia) (io_fuel k) s 0 dst R) as (s' & E & R').
    + unfold k. lia.
    + rewrite Z.add_0_r. apply io_fuel_enough; unfold k; lia.
    + unfold io_fuel. lia.
    + rewrite Z.add_0_r in E. exists s'. rewrite i32_small in E by (unfold k; lia). split; [exact E|]. split; [apply R'|]. split; [apply R'|apply R'].
Qed.

(** C15: [readi] into kernel memory of a file whose inode is loaded: it returns
    the bytes of the file from [off] on, as many as asked for or as there are
    up to the end of the file, and their number.  Nothing changes but the
    cache.  An offset behind the end of the file, or [off + n] that does not
    fit 32 bits, returns 0. *)
Theorem readi_reads P s ip i dst off n : running en p pid s -> bio_inv pid [] P s -> lenZ P < NBUF -> fs_areas s ->
  lookupZ (k_itable s) ip = Some i -> file_ok s i -> 0 <= off < 2 ^ 32 -> 0 <= n < 2 ^ 32 ->
  let k := if (i_size i <? off) || (2 ^ 32 <=? off + n) then 0 else Z.min n (i_size i - off) in
  exists s', readi ip 0 dst off n s = Ok (k, file_bytes (view s) (i_addrs i) off k) s' /\ dstep p s s' /\ bio_inv pid [] P s' /\ forall b, view s' b = view s b.
Proof. apply readi_ok. Qed.

End Read.

(** ** Lemmas: allocation of the blocks of a file *)

(** Inside a transaction the entry [ip] of the inode table may change, too. *)
Definition istep (p ip : Z) (s s' : kstate) : Prop :=
  exists s1 t, tstep p s s1 /\ s' = set_k_itable t s1 /\ forall j, j <> ip -> lookupZ t j = lookupZ (k_itable s) j.

Lemma bstep_set_itable p s s' t : bstep p s s' -> bstep p (set_k_itable t s) (set_k_itable t s').
Proof. intros (ps & sl & bc & dk & vd & io & Hw & ->). exists ps, sl, bc, dk, vd, io. split; [exact Hw|reflexivity]. Qed.

Lemma tstep_set_itable p s s' t : tstep p s s' -> tstep p (set_k_itable t s) (set_k_itable t s').
Proof.
  intros [(s1 & lg & St & ->) [(lh & E) D]]. split; [|split; [exists lh; exact E|exact D]]. exists (set_k_itable t s1), lg. split; [by apply bstep_set_itable|reflexivity].
Qed.

Lemma tstep_itable p s s' : tstep p s s' -> k_itable s' = k_itable s /\ k_panicked s' = k_panicked s.
Proof.
  intros [(s1 & lg & St & ->) _]. cbn [k_itable k_panicked set_k_log]. split; [by destruct (bstep_same _ _ _ St) as (_ & _ & -> & _)|].
  destruct St as (ps & sl & bc & dk & vd & io & _ & ->). reflexivity.
Qed.

#[global] Instance istep_preorder p ip : PreOrder (istep p ip).
Proof.
  split.
  - intros s. exists s, (k_itable s). split; [reflexivity|]. split; [destruct s; reflexivity|done].
  - intros s s' s'' (s1 & t1 & S1 & -> & H1) (s2 & t2 & S2 & -> & H2). destruct (tstep_itable _ _ _ S1) as [E1 _].
    exists (set_k_itable (k_itable s1) s2), t2. split; [|split; [reflexivity|intros j Hj; by rewrite H2, <- H1]].
    etransitivity; [exact S1|]. apply (tstep_set_itable _ _ _ (k_itable s1)) in S2. destruct s1; exact S2.
Qed.

Lemma tstep_istep p ip s s' : tstep p s s' -> istep p ip s s'.
Proof. intros H. exists s', (k_itable s'). split; [done|]. split; [destruct s'; reflexivity|]. by destruct (tstep_itable _ _ _ H) as [-> _]. Qed.

Lemma istep_same p ip s s' : istep p ip s s' -> k_sb s' = k_sb s /\ (forall n, in_log (k_log s') n <-> in_log (k_log s) n) /\
  log_size (k_log s') = log_size (k_log s) /\ k_panicked s' = k_panicked s.
Proof.
  intros (s1 & t & S & -> & _). cbn [k_sb k_log k_panicked set_k_itable]. split; [by apply (tstep_sb p)|]. split; [intros n; by apply (tstep_in_log p)|].
  split; [by apply (tstep_log_size p)|]. by destruct (tstep_itable _ _ _ S).
Qed.

Lemma in_tx_itable `{DL : DiskLaws} en p pid H P s t : in_tx en p pid H P s -> in_tx en p pid H P (set_k_itable t s).
Proof.
  intros [T1 T2 T3 T4 T5 T6]. split; [|by apply (bio_inv_ext pid H P s)|exact T3|exact T4|exact T5|exact T6].
  apply (running_ext en p pid s); [reflexivity..|reflexivity|exact T1].
Qed.

Section Write.
Context `{DL : DiskLaws} {PT : Patience} {IO : Mmio} (en : bool) (p pid : Z) (Hready : uart_ready).
Implicit Types (P : list Z) (s : kstate).

(** What every step of a write keeps. *)
Record progress (ip : Z) (P : list Z) (s : kstate) (P' : list Z) (s' : kstate) : Prop := {
  pg_tx : in_tx en p pid [] P' s';
  pg_step : istep p ip s s';
  pg_areas : fs_areas s';
  pg_used : forall b, 0 <= b < sb_size (k_sb s) -> in_use s b = true -> in_use s' b = true;
}.

Lemma progress_refl ip P s : in_tx en p pid [] P s -> fs_areas s -> progress ip P s P s.
Proof. intros T F. split; [done|reflexivity|done|done]. Qed.

Lemma progress_trans ip P s P1 s1 P2 s2 : progress ip P s P1 s1 -> progress ip P1 s1 P2 s2 -> progress ip P s P2 s2.
Proof.
  intros [T1 S1 F1 U1] [T2 S2 F2 U2]. split; [done|by etransitivity|done|]. intros b Hb Hu. destruct (istep_same _ _ _ _ S1) as [E _]. apply U2; [by rewrite E|by apply U1].
Qed.

Lemma progress_tstep ip P s P' s' : fs_areas s -> tstep p s s' -> in_tx en p pid [] P' s' ->
  (forall b, 0 <= b < sb_size (k_sb s) -> in_use s b = true -> in_use s' b = true) -> progress ip P s P' s'.
Proof.
  intros F St T U. split; [done|by apply tstep_istep| |done].
  apply (fs_areas_mono s s'); [by apply (tstep_sb p)|intros n; by apply (tstep_in_log p)|done|done].
Qed.

Lemma progress_itable ip P s t : in_tx en p pid [] P s -> fs_areas s -> (forall j, j <> ip -> lookupZ t j = lookupZ (k_itable s) j) -> progress ip P s P (set_k_itable t s).
Proof.
  intros T F Ht. split; [by apply in_tx_itable|exists s, t; split; [reflexivity|done]| |done].
  by apply (fs_areas_mono s (set_k_itable t s)).
Qed.

Lemma set_i_addrs_same i : set_i_addrs (i_addrs i) i = i.
Proof. by destruct i. Qed.

Definition all_used (s : kstate) : Prop := forall b, 0 <= b < sb_size (k_sb s) -> in_use s b = true.

(** A new block [r], zeroed; the other blocks are left alone. *)
Definition new_block (s s' : kstate) (r : Z) : Prop :=
  r <> 0 /\ data_block s' r /\ ~ data_block s r /\ view s' r = zero_block /\ forall m, ~ is_bitmap s m -> m <> r -> view s' m = view s m.

Lemma allocated_new s s' r : fs_areas s -> tstep p s s' -> allocated s s' r -> new_block s s' r.
Proof.
  intros F St A. destruct (allocated_data s s' r F (tstep_sb _ _ _ St) A) as (H1 & H2 & H3). destruct A as (_ & _ & _ & A4 & A5). done.
Qed.

Lemma held_used_nil s : held_used [] s.
Proof. intros b n d Hb. by apply not_elem_of_nil in Hb. Qed.

Lemma addr_alloc_ok P s ip i n : in_tx en p pid [] P s -> fs_areas s -> k_panicked s = 0 -> lookupZ (k_itable s) ip = Some i -> i_dev i = ROOTDEV ->
  lenZ (i_addrs i) = NDIRECT + 1 -> 0 <= n <= NDIRECT -> lenZ P + 1 < NBUF -> lenZ P + 1 < log_size (k_log s) - 1 ->
  let a := default 0 (lookupZ (i_addrs i) n) in
  exists addr P' s' A', addr_alloc ip n s = Ok addr s' /\ progress ip P s P' s' /\ lenZ P <= lenZ P' <= lenZ P + 2 /\ lookupZ (k_itable s') ip = Some (set_i_addrs A' i) /\
    (A' = i_addrs i /\ (forall m, view s' m = view s m) /\ addr = a /\ (a = 0 -> all_used s') \/
     a = 0 /\ A' = insertZ n addr (i_addrs i) /\ new_block s s' addr).
Proof.
  intros T F Hpk Hl Hdev Hlen Hn HP Hlog a. pose proof (lookupZ_Some_range _ _ _ Hl) as Hip. destruct (Z.eqb_spec a 0) as [Ha|Ha].
  - destruct (balloc_ok en p pid [] P s T (fa_layout _ F) (held_used_nil s) Hready Hpk) as (r & s1 & P1 & E1 & T1 & St1 & _ & HlenP & _ & HA); [change (lenZ []) with 0; lia|done|].
    assert (EA : addr_alloc ip n s = (if r =? 0 then ret 0 else put_addr ip n r;; ret r) s1).
    { unfold addr_alloc. erewrite bind_ok by (by apply get_addr_ok). fold a. rewrite Ha. cbn [Z.eqb]. erewrite bind_ok by (by apply run_get_inode). rewrite Hdev.
      by rewrite (bind_ok _ _ _ _ _ E1). }
    destruct (tstep_itable _ _ _ St1) as [Et _]. destruct HA as [[HA _]|(-> & -> & V & Hfull)].
    + pose proof (allocated_new s s1 r F St1 HA) as Hnew. pose proof (progress_tstep ip P s P1 s1 F St1 T1 (allocated_mono _ _ _ HA)) as G1.
      exists r, P1, (set_k_itable (insertZ ip (set_i_addrs (insertZ n r (i_addrs i)) i) (k_itable s1)) s1), (insertZ n r (i_addrs i)).
      split; [|split; [|split; [done|split; [|right; done]]]].
      * rewrite EA. destruct (Z.eqb_spec r 0); [by destruct Hnew|]. by rewrite (bind_ok _ _ _ _ _ (put_addr_ok s1 ip i n r ltac:(by rewrite Et))).
      * eapply progress_trans; [exact G1|]. apply progress_itable; [done|apply G1|]. intros j Hj. by apply lookupZ_insertZ_ne.
      * cbn [k_itable set_k_itable]. apply lookupZ_insertZ_eq. by rewrite Et.
    + exists 0, P, s1, (i_addrs i). split; [by rewrite EA|]. assert (Hu : forall b, in_use s1 b = in_use s b) by (intros b; unfold in_use; by rewrite (tstep_sb _ _ _ St1), V).
      split; [apply progress_tstep; [done|done|done|intros b _; by rewrite Hu]|]. split; [lia|]. split; [by rewrite Et, set_i_addrs_same|]. left.
      split; [done|]. split; [done|]. split; [done|]. intros _ b Hb. rewrite Hu. apply Hfull. by rewrite <- (tstep_sb _ _ _ St1).
  - exists a, P, s, (i_addrs i). split; [by apply addr_alloc_hit|]. split; [by apply progress_refl|]. split; [lia|]. split; [by rewrite set_i_addrs_same|]. by left.
Qed.

Lemma entry_put d off v : is_block d -> 0 <= off -> off + 4 <= BSIZE -> 0 <= v < 2 ^ 32 -> get_u32 (put_u32 d off v) off = v.
Proof. intros [Hl _] H1 H2 Hv. rewrite get_put_u32 by lia. by apply u32_small. Qed.

Lemma entry_put_ne d off off' v : is_block d -> 0 <= off -> off + 4 <= BSIZE -> 0 <= off' -> off' + 4 <= BSIZE -> off + 4 <= off' \/ off' + 4 <= off ->
  get_u32 (put_u32 d off v) off' = get_u32 d off'.
Proof. intros [Hl _] H1 H2 H3 H4 Hne. apply get_put_u32_ne; lia. Qed.

(** A block [r] allocated since [s1], and the update of block [n] of the
    same file afterwards. *)
Lemma new_indirect_entry s s1 s2 s5 n d r : fs_areas s -> tstep p s s1 -> (forall m, view s1 m = view s m) -> data_block s n -> tstep p s1 s2 -> allocated s1 s2 r ->
  tstep p s2 s5 -> (forall m, view s5 m = if m =? n then d else view s2 m) ->
  (forall c, 0 <= c < sb_size (k_sb s) -> in_use s c = true -> in_use s5 c = true) /\
  r <> 0 /\ data_block s5 r /\ ~ data_block s r /\ view s5 r = zero_block /\ view s5 n = d /\
  forall m, ~ is_bitmap s m -> m <> r -> m <> n -> view s5 m = view s m.
Proof.
  intros F St1 V1 Hd St2 HA St5 V5. destruct (data_block_apart s n F Hd) as (_ & _ & _ & Hnb & _).
  assert (Es1 : k_sb s1 = k_sb s) by apply (tstep_sb _ _ _ St1). assert (Es2 : k_sb s2 = k_sb s) by (rewrite <- Es1; apply (tstep_sb _ _ _ St2)).
  assert (Es5 : k_sb s5 = k_sb s) by (rewrite <- Es2; apply (tstep_sb _ _ _ St5)).
  assert (Hu1 : forall c, in_use s1 c = in_use s c) by (intros c; unfold in_use; by rewrite Es1, V1).
  assert (F1 : fs_areas s1) by (apply (fs_areas_mono s); [done|intros c; apply (tstep_in_log _ _ _ _ St1)|intros c _; by rewrite Hu1|done]).
  assert (Hd1 : forall c, data_block s1 c <-> data_block s c) by (intros c; unfold data_block, data_start; by rewrite Hu1, Es1).
  assert (Hbm : forall c, is_bitmap s1 c <-> is_bitmap s c) by (intros c; unfold is_bitmap; by rewrite Es1).
  destruct (allocated_new s1 s2 r F1 St2 HA) as (Hr0 & [Hrd _] & Hrn & Hrv & Hrm). rewrite Hd1 in Hrn. assert (Hne : r <> n) by (by intros ->).
  assert (Hu5 : forall c, 0 <= c < sb_size (k_sb s) -> in_use s5 c = (c =? r) || in_use s c).
  { intros c Hc. destruct HA as (_ & _ & HA & _). rewrite <- Hu1, <- HA by (by rewrite Es1). unfold in_use. rewrite Es5, Es2, V5.
    destruct (Z.eqb_spec (BBLOCK c (k_sb s)) n) as [E|]; [|done]. destruct Hnb. by exists c. }
  unfold data_start in Hrd. rewrite Es2 in Hrd. pose proof (data_start_pos s F) as Hpos. unfold data_start in Hpos.
  split; [intros c Hc Huc; rewrite Hu5, Huc by done; by rewrite orb_true_r|]. split; [done|]. split; [|split; [done|split; [|split]]].
  - split; [unfold data_start; by rewrite Es5|]. rewrite Hu5, Z.eqb_refl by lia. done.
  - rewrite V5. by destruct (Z.eqb_spec r n).
  - by rewrite V5, Z.eqb_refl.
  - intros c Hc Hcr Hcn. rewrite V5. destruct (Z.eqb_spec c n); [done|]. rewrite Hrm, V1; [done|by rewrite Hbm|done].
Qed.

(** The entry of the indirect block after [bmap_indirect]. *)
Lemma bmap_indirect_ok P s ip i k : in_tx en p pid [] P s -> fs_areas s -> k_panicked s = 0 -> file_ok s i -> ind (i_addrs i) <> 0 -> 0 <= k < NINDIRECT ->
  lenZ P + 2 < NBUF -> lenZ P + 2 < log_size (k_log s) - 1 ->
  let n := ind (i_addrs i) in let a := get_u32 (view s n) (4 * k) in
  exists addr P' s', bmap_indirect ROOTDEV n k s = Ok addr s' /\ progress ip P s P' s' /\ lenZ P <= lenZ P' <= lenZ P + 3 /\ k_itable s' = k_itable s /\
    ((forall m, view s' m = view s m) /\ addr = a /\ (a = 0 -> all_used s') \/
     a = 0 /\ addr <> 0 /\ data_block s' addr /\ ~ data_block s addr /\ view s' addr = zero_block /\ view s' n = put_u32 (view s n) (4 * k) addr /\
     forall m, ~ is_bitmap s m -> m <> addr -> m <> n -> view s' m = view s m).
Proof.
  intros T F Hpk O Hind Hk HP Hlog n a. destruct (fo_ind _ _ O) as [|Hd]; [done|]. fold n in Hind, Hd. destruct (data_block_apart s n F Hd) as (Hn & Hns & Hnu & Hnb & Hnl & _).
  assert (Hoff : 0 <= 4 * k /\ 4 * k + 4 <= BSIZE) by (unfold NINDIRECT, BSIZE in *; change (1024 / 4) with 256 in Hk; lia).
  destruct (tx_bread en p pid [] P s n T ltac:(lia) (not_held_nil s n)) as (b & s1 & E1 & T1 & D1 & Hb & B1 & C1 & V1 & K1); [right; change (lenZ []) with 0; lia|].
  pose proof (dstep_tstep _ _ _ D1) as St1. destruct (tstep_itable _ _ _ St1) as [Et1 Ep1]. pose proof (tstep_sb _ _ _ St1) as Es1.
  assert (Hu1 : forall c, in_use s1 c = in_use s c) by (intros c; unfold in_use; by rewrite Es1, V1).
  unfold bmap_indirect. rewrite (bind_ok _ _ _ _ _ E1). erewrite bind_ok by (apply (get_data_ok _ _ _ _ B1)). cbv zeta. fold a. destruct (Z.eqb_spec a 0) as [Ha|Ha].
  2: { destruct (tx_brelse en p pid [] P s1 b n _ T1 B1 C1) as (s2 & E2 & T2 & D2 & V2 & _). pose proof (dstep_tstep _ _ _ D2) as St2.
    assert (St02 : tstep p s s2) by (by etransitivity). assert (V : forall m, view s2 m = view s m) by (intros m; by rewrite V2, V1).
    exists a, P, s2. rewrite bind_ret, (bind_ok _ _ _ _ _ E2). split; [done|]. split; [|split; [lia|split; [by destruct (tstep_itable _ _ _ St02)|by left]]].
    apply progress_tstep; [done|done|done|]. intros c _. unfold in_use. by rewrite (tstep_sb _ _ _ St02), V. }
  assert (F1 : fs_areas s1) by (apply (fs_areas_mono s); [done|intros c; apply (tstep_in_log _ _ _ _ St1)|intros c _; by rewrite Hu1|done]).
  destruct (balloc_ok en p pid [b] P s1 T1 (fa_layout _ F1)) as (r & s2 & P2 & E2 & T2 & St2 & K2 & HlP & HsP & HA); try done.
  { intros b' m d Hb' Hbuf. apply list_elem_of_singleton in Hb' as ->. destruct (buf_is_inj _ _ _ _ _ _ B1 Hbuf) as [<- _].
    unfold is_bitmap. rewrite Es1, Hu1. by split. }
  { by rewrite Ep1. } { change (lenZ [b]) with 1. lia. } { rewrite (tstep_log_size _ _ _ St1). lia. }
  pose proof (K2 b n _ (list_elem_of_here _ _) B1) as B2. assert (St02 : tstep p s s2) by (by etransitivity). destruct HA as [[HA HrP]|(-> & -> & V2 & Hfull)].
  - set (d := put_u32 (view s n) (4 * k) r). assert (Hblk : is_block d) by (apply put_u32_block; [by apply (view_is_block en p pid [] P)|lia|lia]).
    destruct (tx_write_back en p pid [] P2 s2 b n _ d T2 B2 Hblk) as (s3 & s4 & s5 & E3 & E4 & E5 & T5 & St5 & V5 & _).
    { by rewrite (tstep_in_log _ _ _ _ St02). } { rewrite (tstep_log_size _ _ _ St02). lia. }
    destruct (new_indirect_entry s s1 s2 s5 n d r F St1 V1 Hd St2 HA St5 V5) as (Hu & Hr0 & Hrest). assert (St05 : tstep p s s5) by (by etransitivity).
    exists r, (add_block n P2), s5. split; [|split; [by apply progress_tstep|split; [pose proof (add_block_len n P2); lia|split; [by destruct (tstep_itable _ _ _ St05)|by right]]]].
    erewrite bind_ok; [rewrite (bind_ok _ _ _ _ _ E5); reflexivity|]. rewrite (bind_ok _ _ _ _ _ E2). destruct (Z.eqb_spec r 0); [done|]. cbn [negb when].
    erewrite bind_ok; [reflexivity|]. erewrite bind_ok by (apply (get_data_ok _ _ _ _ B2)). rewrite (bind_ok _ _ _ _ _ E3). exact E4.
  - destruct (tx_brelse en p pid [] P s2 b n _ T2 B2) as (s3 & E3 & T3 & D3 & V3 & _).
    { destruct C1 as [C1|C1]; [by left|right]. rewrite V2, C1. f_equal. by destruct St2 as (_ & _ & ->). }
    pose proof (dstep_tstep _ _ _ D3) as St3. assert (St03 : tstep p s s3) by (by etransitivity). assert (V : forall m, view s3 m = view s m) by (intros m; by rewrite V3, V2, V1).
    assert (Hu3 : forall c, in_use s3 c = in_use s c) by (intros c; unfold in_use; by rewrite (tstep_sb _ _ _ St03), V).
    exists 0, P, s3. split; [|split; [|split; [lia|split; [by destruct (tstep_itable _ _ _ St03)|left]]]].
    + erewrite bind_ok; [rewrite (bind_ok _ _ _ _ _ E3); reflexivity|]. rewrite (bind_ok _ _ _ _ _ E2). done.
    + apply progress_tstep; [done|done|done|]. intros c _. by rewrite Hu3.
    + split; [done|]. split; [done|]. intros _ c Hc. rewrite Hu3, <- Hu1. apply Hfull. rewrite Es1. by rewrite (tstep_sb _ _ _ St03) in Hc.
Qed.

(** The file after one of its blocks has been allocated. *)
Lemma file_ok_upd s s' i A' bn : fs_areas s -> k_sb s' = k_sb s -> (forall b, 0 <= b < sb_size (k_sb s) -> in_use s b = true -> in_use s' b = true) ->
  file_ok s i -> lenZ A' = NDIRECT + 1 -> ind A' = 0 \/ data_block s' (ind A') -> ind A' = ind (i_addrs i) \/ ind (i_addrs i) = 0 /\ ~ data_block s (ind A') ->
  (forall j, 0 <= j < MAXFILE -> j <> bn -> blk (view s') A' j = blk (view s) (i_addrs i) j) ->
  blk (view s') A' bn = blk (view s) (i_addrs i) bn \/
    blk (view s) (i_addrs i) bn = 0 /\ data_block s' (blk (view s') A' bn) /\ ~ data_block s (blk (view s') A' bn) /\ blk (view s') A' bn <> ind A' ->
  file_ok s' (set_i_addrs A' i).
Proof.
  intros F Es Hu [O1 O2 O3 O4 O5 O6 O7] Hlen Hind Hind' Hj Hbn. set (A := i_addrs i) in *. pose proof (data_start_pos s F) as Hpos.
  assert (Hold : forall j, 0 <= j < MAXFILE -> blk (view s) A j = 0 \/ data_block s (blk (view s) A j) /\ data_block s' (blk (view s) A j) /\ blk (view s) A j <> ind A').
  { intros j Hjr. destruct (O5 j Hjr) as [|[Hd Hne]]; [by left|right]. split; [done|]. split; [by apply (data_block_mono s)|]. destruct Hind' as [Ei|[_ Hn]]; [by rewrite Ei|]. intros Ei. by rewrite Ei in Hd. }
  assert (Hcase : forall j, 0 <= j < MAXFILE -> blk (view s') A' j = blk (view s) A j \/ j = bn /\ blk (view s) A bn = 0 /\ data_block s' (blk (view s') A' bn) /\
    ~ data_block s (blk (view s') A' bn) /\ blk (view s') A' bn <> ind A').
  { intros j Hjr. destruct (decide (j = bn)) as [->|Hne]; [|left; by apply Hj]. destruct Hbn as [|Hbn]; [by left|by right]. }
  split; cbn [i_dev i_addrs i_size set_i_addrs]; try done.
  - intros j Hjr. destruct (Hcase j Hjr) as [->|(-> & _ & H1 & _ & H2)]; [|by right]. destruct (Hold j Hjr) as [|(_ & H1 & H2)]; [by left|by right].
  - intros j k Hjr Hkr E H0. destruct (Hcase j Hjr) as [Ej|(-> & _ & _ & H1 & _)], (Hcase k Hkr) as [Ek|(-> & _ & _ & H2 & _)]; [| | |done].
    + apply O6; [done|done|congruence|congruence].
    + rewrite Ej in E, H0. destruct (Hold j Hjr) as [|[Hd _]]; [done|]. rewrite <- E in H2. done.
    + rewrite Ek in E. rewrite E in H0, H1. destruct (Hold k Hkr) as [|[Hd _]]; [done|done].
  - intros j Hj0 Hsz. assert (Hjr : 0 <= j < MAXFILE) by (unfold BSIZE in *; nia). pose proof (O7 j Hj0 Hsz). destruct (Hcase j Hjr) as [->|(-> & H1 & _)]; done.
Qed.

(** What [bmap] does to the file: block [bn] is at [addr] now. *)
Record grown (ip : Z) (P : list Z) (s : kstate) (i : inode) (bn addr : Z) (P' : list Z) (s' : kstate) (A' : list Z) : Prop := {
  gr_progress : progress ip P s P' s';
  gr_len : lenZ P <= lenZ P' <= lenZ P + 5;
  gr_inode : lookupZ (k_itable s') ip = Some (set_i_addrs A' i);
  gr_file : file_ok s' (set_i_addrs A' i);
  gr_addr : addr = blk (view s') A' bn;
  gr_full : addr = 0 -> all_used s';
  gr_blk : forall j, 0 <= j < MAXFILE -> blk (view s) (i_addrs i) j <> 0 -> blk (view s') A' j = blk (view s) (i_addrs i) j;
  gr_view : forall m, 0 <= m < sb_size (k_sb s) -> in_use s m = true -> ~ is_bitmap s m -> m <> ind (i_addrs i) -> view s' m = view s m;
  gr_fresh : forall j, 0 <= j < MAXFILE -> blk (view s') A' j = blk (view s) (i_addrs i) j \/ in_use s (blk (view s') A' j) = false;
  gr_ind : ind A' = ind (i_addrs i) \/ in_use s (ind A') = false;
}.

(** A block that is a data block only now was not in use before. *)
Lemma fresh_block s s' r : k_sb s' = k_sb s -> data_block s' r -> ~ data_block s r -> in_use s r = false.
Proof.
  intros Es [Hr _] Hn. destruct (in_use s r) eqn:E; [|done]. destruct Hn. split; [|done]. unfold data_start in *. by rewrite Es in Hr.
Qed.

Lemma fresh_back ip P s P' s' b : progress ip P s P' s' -> 0 <= b < sb_size (k_sb s') -> in_use s' b = false -> in_use s b = false.
Proof.
  intros G Hb Hn. destruct (istep_same _ _ _ _ (pg_step _ _ _ _ _ G)) as (Es & _). rewrite Es in Hb. destruct (in_use s b) eqn:E; [|done].
  rewrite (pg_used _ _ _ _ _ G b Hb E) in Hn. done.
Qed.

Lemma blk_range s i j : fs_areas s -> file_ok s i -> 0 <= j < MAXFILE -> 0 <= blk (view s) (i_addrs i) j < sb_size (k_sb s).
Proof.
  intros F O Hj. pose proof (fl_size _ (fa_layout _ F)). destruct (fo_blk _ _ O j Hj) as [->|[Hd _]]; [lia|]. destruct (data_block_apart s _ F Hd). lia.
Qed.

Lemma ind_range s i : fs_areas s -> file_ok s i -> 0 <= ind (i_addrs i) < sb_size (k_sb s).
Proof.
  intros F O. pose proof (fl_size _ (fa_layout _ F)). destruct (fo_ind _ _ O) as [->|Hd]; [lia|]. destruct (data_block_apart s _ F Hd). lia.
Qed.

Lemma ind_insert n r A : lenZ A = NDIRECT + 1 -> 0 <= n <= NDIRECT -> ind (insertZ n r A) = if n =? NDIRECT then r else ind A.
Proof.
  intros Hl Hn. unfold ind. destruct (Z.eqb_spec n NDIRECT) as [->|Hne]; [by rewrite lookupZ_insertZ_eq by lia|by rewrite lookupZ_insertZ_ne by lia].
Qed.

Lemma new_block_view s s' r m : fs_areas s -> new_block s s' r -> data_block s m -> view s' m = view s m.
Proof.
  intros F (_ & _ & Hn & _ & Hv) Hd. destruct (data_block_apart s m F Hd) as (_ & _ & _ & Hb & _). apply Hv; [done|]. by intros ->.
Qed.

(** A direct block. *)
Lemma bmap_direct P s ip i bn : in_tx en p pid [] P s -> fs_areas s -> k_panicked s = 0 -> lookupZ (k_itable s) ip = Some i -> file_ok s i -> 0 <= bn < NDIRECT ->
  lenZ P + 1 < NBUF -> lenZ P + 1 < log_size (k_log s) - 1 -> exists addr P' s' A', bmap ip bn s = Ok addr s' /\ grown ip P s i bn addr P' s' A'.
Proof.
  intros T F Hpk Hl O Hbn HP Hlog. pose proof (fo_len _ _ O) as Hlen.
  destruct (addr_alloc_ok P s ip i bn T F Hpk Hl (fo_dev _ _ O) Hlen ltac:(lia) HP Hlog) as (addr & P' & s' & A' & E & G & HlP & Hl' & HA).
  exists addr, P', s', A'. split; [unfold bmap; destruct (Z.ltb_spec bn NDIRECT); [done|lia]|]. destruct (istep_same _ _ _ _ (pg_step _ _ _ _ _ G)) as (Es & _).
  assert (Ebn : forall v A, blk v A bn = default 0 (lookupZ A bn)) by (intros v A; unfold blk; destruct (Z.ltb_spec bn NDIRECT); [done|lia]).
  assert (HM : NDIRECT <= MAXFILE) by done. destruct HA as [(-> & V & -> & Hfull)|(Ha & -> & Hnew)].
  - assert (Eb : forall j, blk (view s') (i_addrs i) j = blk (view s) (i_addrs i) j) by (intros j; apply blk_ext; right; apply V).
    split; [done|lia|done| |by rewrite Ebn|done|intros j _ _; apply Eb|intros m _ _ _ _; apply V|intros j _; left; apply Eb|by left].
    rewrite set_i_addrs_same. apply (file_ok_mono s s' i Es F (pg_used _ _ _ _ _ G)); [by right|done].
  - assert (Hi : ind (insertZ bn addr (i_addrs i)) = ind (i_addrs i)) by (rewrite ind_insert by lia; destruct (Z.eqb_spec bn NDIRECT); [lia|done]).
    assert (Hiv : ind (i_addrs i) = 0 \/ view s' (ind (i_addrs i)) = view s (ind (i_addrs i))).
    { destruct (fo_ind _ _ O) as [|Hd]; [by left|right]. by apply (new_block_view s s' addr). }
    assert (Hbj : forall j, 0 <= j < MAXFILE -> j <> bn -> blk (view s') (insertZ bn addr (i_addrs i)) j = blk (view s) (i_addrs i) j).
    { intros j Hj Hne. unfold blk. rewrite Hi. destruct (j <? NDIRECT); [by rewrite lookupZ_insertZ_ne by lia|].
      destruct (Z.eqb_spec (ind (i_addrs i)) 0); [done|]. destruct Hiv as [|Hiv]; [done|by rewrite Hiv]. }
    assert (Hb : blk (view s') (insertZ bn addr (i_addrs i)) bn = addr) by (rewrite Ebn, lookupZ_insertZ_eq by lia; done).
    destruct Hnew as (Hr0 & Hrd & Hrn & _ & Hrm). pose proof (fresh_block s s' addr Es Hrd Hrn) as Hfr. split; [done|lia|done| |done|done| | | |by left].
    + apply (file_ok_upd s s' i _ bn F Es (pg_used _ _ _ _ _ G) O); [by rewrite lenZ_insertZ| |by left; rewrite Hi|done|].
      * rewrite Hi. destruct (fo_ind _ _ O) as [|Hd]; [by left|right]. by apply (data_block_mono s s' _ Es F (pg_used _ _ _ _ _ G)).
      * right. rewrite Hb, Ebn, Hi. split; [done|]. split; [done|]. split; [done|]. intros ->. destruct (fo_ind _ _ O); done.
    + intros j Hj Hj0. apply Hbj; [done|]. intros ->. by rewrite Ebn in Hj0.
    + intros m Hm Hmu Hmb _. apply Hrm; [done|]. intros ->. congruence.
    + intros j Hj. destruct (decide (j = bn)) as [->|Hne]; [right; by rewrite Hb|left; by apply Hbj].
Qed.

Lemma blk_indirect v A bn : NDIRECT <= bn -> ind A <> 0 -> blk v A bn = get_u32 (v (ind A)) (4 * (bn - NDIRECT)).
Proof. intros Hb Hi. unfold blk. destruct (Z.ltb_spec bn NDIRECT); [lia|]. by destruct (Z.eqb_spec (ind A) 0). Qed.

(** A block named by the indirect block. *)
Lemma bmap_entry P s ip i bn : in_tx en p pid [] P s -> fs_areas s -> k_panicked s = 0 -> lookupZ (k_itable s) ip = Some i -> file_ok s i -> NDIRECT <= bn < MAXFILE ->
  ind (i_addrs i) <> 0 -> lenZ P + 2 < NBUF -> lenZ P + 2 < log_size (k_log s) - 1 ->
  exists addr P' s', bmap_indirect ROOTDEV (ind (i_addrs i)) (bn - NDIRECT) s = Ok addr s' /\ lenZ P' <= lenZ P + 3 /\ grown ip P s i bn addr P' s' (i_addrs i).
Proof.
  intros T F Hpk Hl O Hbn Hind HP Hlog. set (n := ind (i_addrs i)) in *. assert (HM : MAXFILE = NDIRECT + NINDIRECT) by done.
  destruct (bmap_indirect_ok P s ip i (bn - NDIRECT) T F Hpk O Hind ltac:(lia) HP Hlog) as (addr & P' & s' & E & G & HlP & Et & HA). fold n in E, HA.
  exists addr, P', s'. split; [done|]. split; [lia|]. destruct (istep_same _ _ _ _ (pg_step _ _ _ _ _ G)) as (Es & _).
  assert (Ebn : forall v, blk v (i_addrs i) bn = get_u32 (v n) (4 * (bn - NDIRECT))) by (intros v; apply blk_indirect; [lia|done]).
  assert (Hl' : lookupZ (k_itable s') ip = Some (set_i_addrs (i_addrs i) i)) by (by rewrite set_i_addrs_same, Et).
  destruct HA as [(V & -> & Hfull)|(Ha & Hr0 & Hrd & Hrn & _ & Hnv & Hrm)].
  - assert (Eb : forall j, blk (view s') (i_addrs i) j = blk (view s) (i_addrs i) j) by (intros j; apply blk_ext; right; apply V).
    split; [done|lia|done| |by rewrite Eb, Ebn|done|intros j _ _; apply Eb|intros m _ _ _ _; apply V|intros j _; left; apply Eb|by left].
    rewrite set_i_addrs_same. apply (file_ok_mono s s' i Es F (pg_used _ _ _ _ _ G)); [by right|done].
  - assert (Hblk : is_block (view s n)) by (by apply (view_is_block en p pid [] P)). assert (HN : 4 * NINDIRECT = BSIZE) by done.
    assert (Hd : data_block s n) by (by destruct (fo_ind _ _ O)). pose proof (disk_blocks_max) as Hdm.
    assert (Hb : blk (view s') (i_addrs i) bn = addr).
    { destruct (data_block_apart s' addr (pg_areas _ _ _ _ _ G) Hrd) as (Hrng & _). rewrite Ebn, Hnv. apply entry_put; [done|lia|lia|lia]. }
    assert (Hbj : forall j, 0 <= j < MAXFILE -> j <> bn -> blk (view s') (i_addrs i) j = blk (view s) (i_addrs i) j).
    { intros j Hj Hne. destruct (Z_lt_le_dec j NDIRECT) as [Hlt|Hge]; [unfold blk; destruct (Z.ltb_spec j NDIRECT); [done|lia]|].
      rewrite !blk_indirect by done. fold n. rewrite Hnv. apply entry_put_ne; [done|lia..]. }
    pose proof (fresh_block s s' addr Es Hrd Hrn) as Hfr. split; [done|lia|done| |done|done| | | |by left].
    + apply (file_ok_upd s s' i (i_addrs i) bn F Es (pg_used _ _ _ _ _ G) O (fo_len _ _ O)); [|by left|done|].
      * right. by apply (data_block_mono s s' _ Es F (pg_used _ _ _ _ _ G)).
      * right. rewrite Hb, Ebn. split; [done|]. split; [done|]. split; [done|]. fold n. intros ->. done.
    + intros j Hj Hj0. apply Hbj; [done|]. intros ->. by rewrite Ebn in Hj0.
    + intros m Hm Hmu Hmb Hmi. apply Hrm; [done| |done]. intros ->. congruence.
    + intros j Hj. destruct (decide (j = bn)) as [->|Hne]; [right; by rewrite Hb|left; by apply Hbj].
Qed.

Lemma zero_word off : 0 <= off -> off + 4 <= BSIZE -> get_u32 zero_block off = 0.
Proof.
  intros H1 H2. unfold get_u32. assert (E : get_bytes zero_block off 4 = replicate 4 0).
  { apply list_eqZ; [rewrite lenZ_get_bytes; [done|done|done|by change (lenZ zero_block) with BSIZE]|]. rewrite lenZ_get_bytes; [|done|done|by change (lenZ zero_block) with BSIZE].
    intros x Hx. rewrite get_bytes_lookup by done. destruct (Z.leb_spec 0 x), (Z.ltb_spec x 4); try lia. cbn [andb]. unfold zero_block, lookupZ.
    destruct (Z.ltb_spec (off + x) 0); [lia|]. destruct (Z.ltb_spec x 0); [lia|]. rewrite !lookup_replicate_2 by (unfold BSIZE in *; lia). done. }
  by rewrite E.
Qed.

(** The indirect block is there, or the disk is full. *)
Lemma ind_alloc P s ip i : in_tx en p pid [] P s -> fs_areas s -> k_panicked s = 0 -> lookupZ (k_itable s) ip = Some i -> file_ok s i ->
  lenZ P + 1 < NBUF -> lenZ P + 1 < log_size (k_log s) - 1 ->
  exists P' s' A', addr_alloc ip NDIRECT s = Ok (ind A') s' /\ progress ip P s P' s' /\ lenZ P <= lenZ P' <= lenZ P + 2 /\
    lookupZ (k_itable s') ip = Some (set_i_addrs A' i) /\ file_ok s' (set_i_addrs A' i) /\ (ind A' = 0 -> all_used s') /\
    (forall j, 0 <= j < MAXFILE -> blk (view s') A' j = blk (view s) (i_addrs i) j) /\
    (forall m, 0 <= m < sb_size (k_sb s) -> in_use s m = true -> ~ is_bitmap s m -> m <> ind (i_addrs i) -> view s' m = view s m /\ m <> ind A') /\
    (ind A' = ind (i_addrs i) \/ in_use s (ind A') = false).
Proof.
  intros T F Hpk Hl O HP Hlog. pose proof (fo_len _ _ O) as Hlen.
  destruct (addr_alloc_ok P s ip i NDIRECT T F Hpk Hl (fo_dev _ _ O) Hlen ltac:(unfold NDIRECT; lia) HP Hlog) as (addr & P' & s' & A' & E & G & HlP & Hl' & HA).
  fold (ind (i_addrs i)) in HA. exists P', s', A'. destruct (istep_same _ _ _ _ (pg_step _ _ _ _ _ G)) as (Es & _). destruct HA as [(-> & V & -> & Hfull)|(Ha & -> & Hnew)].
  - split; [done|]. split; [done|]. split; [done|]. split; [done|]. rewrite set_i_addrs_same. split; [apply (file_ok_mono s s' i Es F (pg_used _ _ _ _ _ G)); [by right|done]|].
    split; [done|]. split; [intros j _; apply blk_ext; by right|]. split; [by intros m _ _ _ Hm|by left].
  - pose proof Hnew as (Hr0 & Hrd & Hrn & Hrv & Hrm). assert (Hi : ind (insertZ NDIRECT addr (i_addrs i)) = addr) by (by rewrite ind_insert).
    assert (Eb : forall j, 0 <= j < MAXFILE -> blk (view s') (insertZ NDIRECT addr (i_addrs i)) j = blk (view s) (i_addrs i) j).
    { intros j Hj. unfold blk. rewrite Hi, Ha. destruct (Z.ltb_spec j NDIRECT); [by rewrite lookupZ_insertZ_ne by lia|]. destruct (Z.eqb_spec addr 0); [done|]. rewrite Hrv.
      apply zero_word; unfold MAXFILE, NINDIRECT, BSIZE, NDIRECT in *; change (1024 / 4) with 256 in *; lia. }
    pose proof (fresh_block s s' addr Es Hrd Hrn) as Hfr. rewrite Hi. split; [done|]. split; [done|]. split; [done|]. split; [done|]. split; [|split; [done|split; [done|split; [|by right]]]].
    + apply (file_ok_upd s s' i _ 0 F Es (pg_used _ _ _ _ _ G) O); rewrite ?Hi; [by rewrite lenZ_insertZ|by right|by right|intros j Hj _; by apply Eb|left; by apply Eb].
    + intros m Hm Hmu Hmb _. assert (Hne : m <> addr) by (intros ->; congruence). split; [by apply Hrm|done].
Qed.

Lemma bmap_ok P s ip i bn : in_tx en p pid [] P s -> fs_areas s -> k_panicked s = 0 -> lookupZ (k_itable s) ip = Some i -> file_ok s i -> 0 <= bn < MAXFILE ->
  lenZ P + 4 < NBUF -> lenZ P + 4 < log_size (k_log s) - 1 -> exists addr P' s' A', bmap ip bn s = Ok addr s' /\ grown ip P s i bn addr P' s' A'.
Proof.
  intros T F Hpk Hl O Hbn HP Hlog. destruct (Z_lt_le_dec bn NDIRECT) as [Hlt|Hge]; [by apply bmap_direct; try lia|].
  destruct (ind_alloc P s ip i T F Hpk Hl O) as (P1 & s1 & A1 & E1 & G1 & HlP1 & Hl1 & O1 & Hfull & Eb & Hv & Hfr); [lia|lia|].
  assert (Hrun : forall x, (if ind A1 =? 0 then ret 0 else i <- get_inode ip;; bmap_indirect (i_dev i) (ind A1) (bn - NDIRECT)) s1 = x -> bmap ip bn s = x).
  { intros x <-. unfold bmap. destruct (Z.ltb_spec bn NDIRECT); [lia|]. cbv zeta. destruct (Z.ltb_spec (bn - NDIRECT) NINDIRECT); [|unfold MAXFILE in *; lia]. by rewrite (bind_ok _ _ _ _ _ E1). }
  destruct (Z.eqb_spec (ind A1) 0) as [Hi|Hi].
  - exists 0, P1, s1, A1. split; [by apply Hrun|]. assert (E0 : blk (view s1) A1 bn = 0) by (unfold blk; destruct (Z.ltb_spec bn NDIRECT); [lia|by rewrite Hi]).
    split; [done|lia|done|done|done|intros _; by apply Hfull|intros j Hj _; by apply Eb|intros m Hm Hu Hb Hne; by apply Hv|intros j Hj; left; by apply Eb|done].
  - destruct (istep_same _ _ _ _ (pg_step _ _ _ _ _ G1)) as (Es1 & _ & Els & Ep1).
    destruct (bmap_entry P1 s1 ip _ bn (pg_tx _ _ _ _ _ G1) (pg_areas _ _ _ _ _ G1) ltac:(congruence) Hl1 O1 ltac:(lia) Hi ltac:(lia) ltac:(lia)) as (addr & P2 & s2 & E2 & HlP2 & [R1 R2 R3 R4 R5 R6 R7 R8 R9 R10]).
    cbn [i_addrs set_i_addrs] in *. exists addr, P2, s2, A1. split.
    + apply Hrun. erewrite bind_ok by (by apply run_get_inode). cbn [i_dev set_i_addrs]. by rewrite (fo_dev _ _ O).
    + split; [by eapply progress_trans|lia|done|done|done|done| | | |done].
      * intros j Hj Hj0. rewrite <- Eb in Hj0 |- * by done. by apply R7.
      * intros m Hm Hu Hb Hne. destruct (Hv m Hm Hu Hb Hne) as [<- Hne1]. apply R8; [by rewrite Es1|by apply (pg_used _ _ _ _ _ G1)| |done]. unfold is_bitmap in *. by rewrite Es1.
      * intros j Hj. rewrite <- Eb by done. destruct (R9 j Hj) as [|Hn]; [by left|right].
        pose proof (blk_range s2 _ j (pg_areas _ _ _ _ _ R1) R4 Hj) as Hr. cbn [i_addrs set_i_addrs] in Hr.
        destruct (istep_same _ _ _ _ (pg_step _ _ _ _ _ R1)) as (Es2 & _). apply (fresh_back ip P s P1 s1); [done|by rewrite <- Es2|done].
Qed.

(** *** The loop of [writei] *)

(** [tot] bytes of [bytes] have been written from [off] on. *)
Record written (ip : Z) (P0 : list Z) (s0 : kstate) (i0 : inode) (off : Z) (bytes : list Z) (tot : Z) (P : list Z) (s : kstate) (A : list Z) : Prop := {
  wr_progress : progress ip P0 s0 P s;
  wr_inode : lookupZ (k_itable s) ip = Some (set_i_addrs A i0);
  wr_file : file_ok s (set_i_addrs A i0);
  wr_old : forall j, 0 <= j < MAXFILE -> blk (view s0) (i_addrs i0) j <> 0 -> blk (view s) A j = blk (view s0) (i_addrs i0) j;
  wr_new : forall x, off <= x < off + tot -> blk (view s) A (x / BSIZE) <> 0;
  wr_bytes : forall x, 0 <= x < i_size i0 \/ off <= x < off + tot ->
    fbyte (view s) A x = if (off <=? x) && (x <? off + tot) then default 0 (lookupZ bytes (x - off)) else fbyte (view s0) (i_addrs i0) x;
  wr_view : forall m, 0 <= m < sb_size (k_sb s0) -> in_use s0 m = true -> ~ is_bitmap s0 m -> m <> ind (i_addrs i0) ->
    (forall j, 0 <= j < MAXFILE -> m <> blk (view s0) (i_addrs i0) j) -> view s m = view s0 m;
  wr_fresh : forall j, 0 <= j < MAXFILE -> blk (view s) A j = blk (view s0) (i_addrs i0) j \/ in_use s0 (blk (view s) A j) = false;
  wr_ind : ind A = ind (i_addrs i0) \/ in_use s0 (ind A) = false;
}.

Lemma div_block x o : x / BSIZE = o / BSIZE <-> o - o mod BSIZE <= x < o - o mod BSIZE + BSIZE.
Proof. unfold BSIZE. Z.to_euclidean_division_equations. lia. Qed.

(** The bytes of a block with a piece of it replaced. *)
Lemma fbyte_put v v' A b o bs x : (ind A = 0 \/ v' (ind A) = v (ind A)) -> b = blk v A (o / BSIZE) -> b <> 0 -> lenZ (v b) = BSIZE ->
  v' b = put_bytes (v b) (o mod BSIZE) bs -> o mod BSIZE + lenZ bs <= BSIZE -> 0 <= x -> (blk v A (x / BSIZE) = b -> x / BSIZE = o / BSIZE) ->
  (blk v A (x / BSIZE) <> b -> v' (blk v A (x / BSIZE)) = v (blk v A (x / BSIZE))) ->
  fbyte v' A x = if (o <=? x) && (x <? o + lenZ bs) then default 0 (lookupZ bs (x - o)) else fbyte v A x.
Proof.
  intros Hind Hb Hb0 Hl Hv Hlen Hx Hinj Hother. pose proof (Z.mod_pos_bound o BSIZE ltac:(done)) as Hmod. pose proof (lenZ_nonneg bs).
  unfold fbyte. rewrite (blk_ext v v' A _ Hind). destruct (Z.eqb_spec (x / BSIZE) (o / BSIZE)) as [E|E].
  - rewrite E, <- Hb, Hv. pose proof (proj1 (div_block x o) E) as Hr. assert (Em : x mod BSIZE = o mod BSIZE + (x - o)).
    { pose proof (Z.div_mod x BSIZE ltac:(done)). pose proof (Z.div_mod o BSIZE ltac:(done)). rewrite E in *. lia. }
    rewrite put_bytes_lookup by lia. rewrite Em. destruct (Z.leb_spec (o mod BSIZE) (o mod BSIZE + (x - o))), (Z.leb_spec o x); try lia; cbn [andb]; [|done].
    destruct (Z.ltb_spec (o mod BSIZE + (x - o)) (o mod BSIZE + lenZ bs)), (Z.ltb_spec x (o + lenZ bs)); try lia. do 2 f_equal. lia.
  - assert (Hne : (o <=? x) && (x <? o + lenZ bs) = false).
    { apply not_true_is_false. intros [H1%Z.leb_le H2%Z.ltb_lt]%andb_prop. apply E, div_block. lia. }
    rewrite Hne. destruct (decide (blk v A (x / BSIZE) = b)) as [Eb|Eb]; [by destruct E; apply Hinj|]. by rewrite Hother.
Qed.

(** The block of a byte of the file is there. *)
Lemma written_blk ip P0 s0 i0 off bytes tot P s A x : written ip P0 s0 i0 off bytes tot P s A -> 0 <= off -> off + tot <= MAXFILE * BSIZE ->
  0 <= x < i_size i0 \/ off <= x < off + tot -> 0 <= x / BSIZE < MAXFILE /\ blk (view s) A (x / BSIZE) <> 0.
Proof.
  intros W Ho Hmax Hx. pose proof (fo_size _ _ (wr_file _ _ _ _ _ _ _ _ _ _ W)) as Hsz. cbn [i_size set_i_addrs] in Hsz.
  assert (Hr : 0 <= x < MAXFILE * BSIZE) by lia. split; [split; [apply Z.div_pos; [lia|done]|apply Z.div_lt_upper_bound; [done|lia]]|].
  destruct Hx as [Hx|Hx]; [|by apply (wr_new _ _ _ _ _ _ _ _ _ _ W)]. apply (fo_full _ _ (wr_file _ _ _ _ _ _ _ _ _ _ W)); [apply Z.div_pos; [lia|done]|].
  cbn [i_size set_i_addrs]. pose proof (Z.div_mod x BSIZE ltac:(done)). pose proof (Z.mod_pos_bound x BSIZE ltac:(done)). lia.
Qed.

(** The bitmap and the superblock mean the same later. *)
Lemma progress_bitmap ip P s P' s' : progress ip P s P' s' -> forall m, is_bitmap s' m <-> is_bitmap s m.
Proof. intros G m. destruct (istep_same _ _ _ _ (pg_step _ _ _ _ _ G)) as (Es & _). unfold is_bitmap. by rewrite Es. Qed.

Lemma written_grown ip P0 s0 i0 off bytes tot P s A bn addr P1 s1 A1 : written ip P0 s0 i0 off bytes tot P s A -> 0 <= off -> off + tot <= MAXFILE * BSIZE ->
  grown ip P s (set_i_addrs A i0) bn addr P1 s1 A1 -> written ip P0 s0 i0 off bytes tot P1 s1 A1.
Proof.
  intros W Ho Hmax [G1 G2 G3 G4 G5 G6 G7 G8 G9 G10]. pose proof W as [W1 W2 W3 W4 W5 W6 W7 W8 W9].
  cbn [i_addrs set_i_addrs] in *. destruct (istep_same _ _ _ _ (pg_step _ _ _ _ _ W1)) as (Es & _). destruct (istep_same _ _ _ _ (pg_step _ _ _ _ _ G1)) as (Es1 & _).
  assert (Hkeep : forall x, 0 <= x < i_size i0 \/ off <= x < off + tot -> blk (view s1) A1 (x / BSIZE) = blk (view s) A (x / BSIZE) /\ fbyte (view s1) A1 x = fbyte (view s) A x).
  { intros x Hx. destruct (written_blk _ _ _ _ _ _ _ _ _ _ x W Ho Hmax Hx) as [Hr H0]. pose proof (G7 _ Hr H0) as E. split; [done|]. unfold fbyte. rewrite E.
    destruct (fo_blk _ _ W3 _ Hr) as [|[Hd Hne]]; [done|]. cbn [i_addrs set_i_addrs] in *. destruct (data_block_apart s _ (pg_areas _ _ _ _ _ W1) Hd) as (Hq & Hq' & Hu & Hb & _). by rewrite G8 by (done || lia). }
  assert (Hfr : forall b, 0 <= b < sb_size (k_sb s1) -> in_use s b = false -> in_use s0 b = false) by (intros b Hb; rewrite Es1 in Hb; by apply (fresh_back ip P0 s0 P s)).
  split; [by eapply progress_trans|done|done| | | | | |].
  - intros j Hj H0. rewrite <- (W4 j Hj H0) in H0 |- *. by apply G7.
  - intros x Hx. destruct (Hkeep x (or_intror Hx)) as [-> _]. by apply W5.
  - intros x Hx. destruct (Hkeep x Hx) as [_ ->]. by apply W6.
  - intros m Hm Hu Hb Hi Hj. rewrite <- (W7 m Hm Hu Hb Hi Hj). apply G8; [by rewrite Es|by apply (pg_used _ _ _ _ _ W1)|by rewrite (progress_bitmap _ _ _ _ _ W1)|].
    intros ->. destruct W9 as [W9|W9]; [by rewrite W9 in Hi|congruence].
  - intros j Hj. destruct (G9 j Hj) as [->|Hn]; [by apply W8|right]. apply Hfr; [|done]. exact (blk_range s1 _ j (pg_areas _ _ _ _ _ G1) G4 Hj).
  - destruct G10 as [->|Hn]; [done|right]. apply Hfr; [|done]. exact (ind_range s1 _ (pg_areas _ _ _ _ _ G1) G4).
Qed.

(** A piece of [bytes] goes into the block of byte [off + tot]. *)
Lemma written_put ip P0 s0 i0 off bytes tot P s A P' s' k : let o := off + tot in let addr := blk (view s) A (o / BSIZE) in
  written ip P0 s0 i0 off bytes tot P s A -> 0 <= off -> 0 <= tot -> off + tot + k <= MAXFILE * BSIZE -> 0 < k -> o mod BSIZE + k <= BSIZE -> tot + k <= lenZ bytes -> addr <> 0 ->
  tstep p s s' -> in_tx en p pid [] P' s' ->
  (forall m, view s' m = if m =? addr then put_bytes (view s addr) (o mod BSIZE) (take (Z.to_nat k) (drop (Z.to_nat tot) bytes)) else view s m) ->
  written ip P0 s0 i0 off bytes (tot + k) P' s' A.
Proof.
  intros o addr W Ho Ht Hmax Hk Hkb Hlen Ha St T' V. pose proof W as [W1 W2 W3 W4 W5 W6 W7 W8 W9]. cbn [i_addrs set_i_addrs] in *. set (piece := take (Z.to_nat k) (drop (Z.to_nat tot) bytes)) in *.
  assert (Hpl : lenZ piece = k) by (unfold piece; rewrite lenZ_take, lenZ_drop; lia). pose proof (pg_areas _ _ _ _ _ W1) as F. pose proof (tstep_sb _ _ _ St) as Es.
  pose proof (Z.mod_pos_bound o BSIZE ltac:(done)) as Hmod. assert (Hbn : 0 <= o / BSIZE < MAXFILE) by (split; [apply Z.div_pos; [lia|done]|apply Z.div_lt_upper_bound; [done|lia]]).
  destruct (fo_blk _ _ W3 _ Hbn) as [|[Hd Hne]]; [done|]. cbn [i_addrs set_i_addrs] in Hd, Hne. fold addr in Hd, Hne. destruct (data_block_apart s addr F Hd) as (_ & _ & _ & Hnb & _).
  assert (Hu : forall b, 0 <= b < sb_size (k_sb s) -> in_use s' b = in_use s b).
  { intros b Hb. unfold in_use. rewrite Es, V. destruct (Z.eqb_spec (BBLOCK b (k_sb s)) addr) as [E|]; [|done]. destruct Hnb. by exists b. }
  assert (Hind : ind A = 0 \/ view s' (ind A) = view s (ind A)) by (right; rewrite V; destruct (Z.eqb_spec (ind A) addr); [congruence|done]).
  assert (Eb : forall j, blk (view s') A j = blk (view s) A j) by (intros j; by apply blk_ext).
  assert (G : progress ip P s P' s') by (apply progress_tstep; [done|done|done|intros b Hb; by rewrite Hu]). assert (Hbl : lenZ (view s addr) = BSIZE).
  { apply (view_is_block en p pid [] P s). apply W1. }
  split; [by eapply progress_trans|by rewrite (proj1 (tstep_itable _ _ _ St))| |intros j Hj H0; rewrite Eb; by apply W4| | | |intros j Hj; rewrite Eb; by apply W8|done].
  - apply (file_ok_mono s s' _ Es F (pg_used _ _ _ _ _ G)); done.
  - intros x Hx. rewrite Eb. destruct (Z_lt_le_dec x o) as [Hlt|Hge]; [apply W5; lia|]. assert (E : x / BSIZE = o / BSIZE) by (apply div_block; lia). by rewrite E.
  - intros x Hx. assert (Hx0 : 0 <= x) by lia. rewrite (fbyte_put (view s) (view s') A addr o piece x Hind); [|done|done|done|by rewrite V, Z.eqb_refl|lia|done| |].
    + rewrite Hpl. unfold o. destruct (Z.leb_spec (off + tot) x), (Z.ltb_spec x (off + tot + k)); cbn [andb].
      * destruct (Z.leb_spec off x), (Z.ltb_spec x (off + (tot + k))); try lia. cbn [andb]. unfold piece. rewrite lookupZ_take, lookupZ_drop.
        destruct (Z.ltb_spec (x - (off + tot)) (Z.of_nat (Z.to_nat k))); [|lia]. destruct (Z.ltb_spec (x - (off + tot)) 0); [lia|]. do 2 f_equal. lia.
      * rewrite W6 by lia. destruct (Z.leb_spec off x), (Z.ltb_spec x (off + (tot + k))), (Z.ltb_spec x (off + tot)); try lia; done.
      * rewrite W6 by lia. destruct (Z.leb_spec off x), (Z.ltb_spec x (off + (tot + k))), (Z.ltb_spec x (off + tot)); try lia; done.
      * lia.
    + intros E. apply (fo_inj _ _ W3); cbn [i_addrs set_i_addrs]; [|done|done|by rewrite E]. pose proof (fo_size _ _ W3) as Hsz. cbn [i_size set_i_addrs] in Hsz.
      split; [apply Z.div_pos; [lia|done]|apply Z.div_lt_upper_bound; [done|lia]].
    + intros E. rewrite V. by destruct (Z.eqb_spec (blk (view s) A (x / BSIZE)) addr).
  - intros m Hm Hmu Hmb Hi Hj. rewrite V. destruct (Z.eqb_spec m addr) as [->|]; [|by apply W7]. exfalso. destruct (W8 _ Hbn) as [E|E]; fold addr in E; [by apply (Hj _ Hbn)|congruence].
Qed.

Section Loop.
Context (ip : Z) (P0 : list Z) (s0 : kstate) (i0 : inode) (off : Z) (bytes : list Z).
Context (Hpk : k_panicked s0 = 0) (Ho : 0 <= off) (Hmax : off + lenZ bytes <= MAXFILE * BSIZE) (Hby : is_bytes bytes).
Notation n := (lenZ bytes).

(** One turn of [writei]: a piece of one block, or the disk is full. *)
Lemma writei_body_ok tot src P s A : written ip P0 s0 i0 off bytes tot P s A -> 0 <= tot < n -> lenZ P + 6 < NBUF -> lenZ P + 6 < log_size (k_log s0) - 1 ->
  let o := off + tot in let k := Z.min (n - tot) (BSIZE - o mod BSIZE) in
  exists P' s' A', lenZ P' <= lenZ P + 6 /\
    (writei_body ip 0 n (tot, o, src, drop (Z.to_nat tot) bytes) s = Ok (inr (tot, o)) s' /\ all_used s' /\ written ip P0 s0 i0 off bytes tot P' s' A' \/
     writei_body ip 0 n (tot, o, src, drop (Z.to_nat tot) bytes) s = Ok (inl (tot + k, o + k, u64 (src + k), drop (Z.to_nat (tot + k)) bytes)) s' /\
       written ip P0 s0 i0 off bytes (tot + k) P' s' A').
Proof.
  intros W Ht HP Hlog o k. pose proof (Z.mod_pos_bound o BSIZE ltac:(done)) as Hmod. destruct (istep_same _ _ _ _ (pg_step _ _ _ _ _ (wr_progress _ _ _ _ _ _ _ _ _ _ W))) as (_ & _ & Els & Ep).
  assert (Hbn : 0 <= o / BSIZE < MAXFILE) by (split; [apply Z.div_pos; [lia|done]|apply Z.div_lt_upper_bound; [done|lia]]).
  destruct (bmap_ok P s ip (set_i_addrs A i0) (o / BSIZE) (pg_tx _ _ _ _ _ (wr_progress _ _ _ _ _ _ _ _ _ _ W)) (pg_areas _ _ _ _ _ (wr_progress _ _ _ _ _ _ _ _ _ _ W))
    ltac:(congruence) (wr_inode _ _ _ _ _ _ _ _ _ _ W) (wr_file _ _ _ _ _ _ _ _ _ _ W) Hbn ltac:(lia) ltac:(lia)) as (addr & P1 & s1 & A1 & E1 & G).
  pose proof (written_grown _ _ _ _ _ _ _ _ _ _ _ _ _ _ _ W Ho ltac:(lia) G) as W1. pose proof (gr_len _ _ _ _ _ _ _ _ _ G) as HlP.
  unfold writei_body. destruct (Z.ltb_spec tot n); [|lia]. rewrite (bind_ok _ _ _ _ _ E1). destruct (Z.eqb_spec addr 0) as [Ha|Ha].
  { exists P1, s1, A1. split; [lia|]. left. split; [done|]. split; [by apply (gr_full _ _ _ _ _ _ _ _ _ G)|done]. }
  pose proof (wr_progress _ _ _ _ _ _ _ _ _ _ W1) as G1. pose proof (pg_tx _ _ _ _ _ G1) as T1. pose proof (gr_addr _ _ _ _ _ _ _ _ _ G) as Ea.
  destruct (fo_blk _ _ (wr_file _ _ _ _ _ _ _ _ _ _ W1) _ Hbn) as [|[Hd _]]; cbn [i_addrs set_i_addrs] in *; [congruence|]. rewrite <- Ea in Hd.
  destruct (data_block_apart s1 addr (pg_areas _ _ _ _ _ G1) Hd) as (Hr & _ & _ & _ & Hnl & _). destruct (istep_same _ _ _ _ (pg_step _ _ _ _ _ G1)) as (_ & _ & Els1 & _).
  destruct (tx_bread en p pid [] P1 s1 addr T1 ltac:(lia) (not_held_nil s1 addr)) as (b & s2 & E2 & T2 & D2 & _ & B2 & _ & V2 & _); [right; change (lenZ []) with 0; lia|].
  pose proof (dstep_tstep _ _ _ D2) as St2. set (piece := take (Z.to_nat k) (drop (Z.to_nat tot) bytes)). pose proof (view_is_block en p pid [] P1 s1 addr T1) as [Hbl Hbb].
  assert (Hpl : lenZ piece = k) by (unfold piece; rewrite lenZ_take, lenZ_drop; lia).
  assert (Hblk : is_block (put_bytes (view s1 addr) (o mod BSIZE) piece)).
  { split; [rewrite lenZ_put_bytes; [done|lia|unfold k in Hpl; lia]|]. apply is_bytes_put; [done|]. unfold piece. apply Forall_take, Forall_drop, Hby. }
  destruct (tx_write_back en p pid [] P1 s2 b addr _ _ T2 B2 Hblk) as (s3 & s4 & s5 & E3 & E4 & E5 & T5 & St5 & V5 & _).
  { by rewrite (tstep_in_log _ _ _ _ St2). } { rewrite (tstep_log_size _ _ _ St2). lia. }
  exists (add_block addr P1), s5, A1. pose proof (add_block_len addr P1). split; [lia|]. right. split.
  - erewrite bind_ok by (apply run_get_inode, (wr_inode _ _ _ _ _ _ _ _ _ _ W1)). cbn [i_dev set_i_addrs]. pose proof (fo_dev _ _ (wr_file _ _ _ _ _ _ _ _ _ _ W1)) as Hdev.
    cbn [i_dev set_i_addrs] in Hdev. rewrite Hdev, (bind_ok _ _ _ _ _ E2). fold k. cbv zeta. unfold either_copyin. change (truth 0) with false. cbv iota.
    assert (Hset : settled s2) by (apply (kt_settled p), (rn_thread en p pid), (tx_run _ _ _ _ _ _ T2)).
    erewrite bind_ok by (erewrite bind_ok by (by apply run_myproc); reflexivity). cbn [fst snd]. erewrite bind_ok by (apply (get_data_ok _ _ _ _ B2)). fold piece.
    rewrite (bind_ok _ _ _ _ _ E3). change (0 =? -1) with false. cbv iota. rewrite (bind_ok _ _ _ _ _ E4), (bind_ok _ _ _ _ _ E5).
    rewrite drop_drop. do 5 f_equal. unfold k. lia.
  - apply (written_put ip P0 s0 i0 off bytes tot P1 s1 A1 (add_block addr P1) s5 k W1 Ho); fold o; rewrite <- ?Ea; try done; try (unfold k; lia); [by etransitivity|].
    intros q. rewrite V5, V2. done.
Qed.

Lemma writei_loop fuel : forall tot src P s A, written ip P0 s0 i0 off bytes tot P s A -> 0 <= tot <= n -> blocks_left (off + tot) (off + n) < Z.of_nat fuel -> (1 <= fuel)%nat ->
  lenZ P + 6 * blocks_left (off + tot) (off + n) < NBUF - 1 -> lenZ P + 6 * blocks_left (off + tot) (off + n) < log_size (k_log s0) - 2 ->
  exists tot' P' s' A', loop fuel (writei_body ip 0 n) (tot, off + tot, src, drop (Z.to_nat tot) bytes) s = Ok (tot', off + tot') s' /\ tot <= tot' <= n /\
    (tot' < n -> all_used s') /\ lenZ P' < NBUF - 1 /\ lenZ P' < log_size (k_log s0) - 2 /\ written ip P0 s0 i0 off bytes tot' P' s' A'.
Proof.
  induction fuel as [|fuel IH]; intros tot src P s A W Ht Hf H1 HP Hlog; [lia|]. destruct (Z_lt_le_dec tot n) as [Hlt|Hge].
  - set (k := Z.min (n - tot) (BSIZE - (off + tot) mod BSIZE)). destruct (blocks_left_step (off + tot) (off + n) k) as [Hb Hs]; [lia|unfold k; f_equal; lia|].
    assert (Hk : 0 < k) by (unfold k; pose proof (Z.mod_pos_bound (off + tot) BSIZE ltac:(done)); lia).
    destruct (writei_body_ok tot src P s A W ltac:(lia) ltac:(lia) ltac:(lia)) as (P1 & s1 & A1 & HlP & [(E & Hfull & W1)|(E & W1)]).
    + exists tot, P1, s1, A1. split; [by apply loop_stop|]. split; [lia|]. split; [done|]. split; [lia|]. split; [lia|done].
    + rewrite (loop_next _ _ _ _ _ _ E). fold k in E, W1 |- *. rewrite <- Z.add_assoc in *.
      destruct (IH (tot + k) (u64 (src + k)) P1 s1 A1 W1) as (tot' & P' & s' & A' & E' & Ht' & Hrest); [unfold k; lia|lia|lia|lia|lia|].
      exists tot', P', s', A'. split; [exact E'|]. split; [lia|exact Hrest].
  - assert (tot = n) as -> by lia. exists n, P, s, A. split; [|split; [lia|split; [lia|]]].
    + apply loop_stop. unfold writei_body. by rewrite Z.ltb_irrefl.
    + unfold blocks_left in *. destruct (Z.ltb_spec (off + n) (off + n)); [lia|]. split; [lia|]. split; [lia|done].
Qed.

End Loop.

(** *** [iupdate] *)

(** The fields of an inode fit the inode on the disk. *)
Definition inode_fits (s : kstate) (i : inode) : Prop :=
  0 <= i_inum i < sb_ninodes (k_sb s) /\ - 2 ^ 15 <= i_type i < 2 ^ 15 /\ - 2 ^ 15 <= i_major i < 2 ^ 15 /\ - 2 ^ 15 <= i_minor i < 2 ^ 15 /\ - 2 ^ 15 <= i_nlink i < 2 ^ 15.

Lemma file_dinode s i : fs_areas s -> file_ok s i -> inode_fits s i -> dinode_wf (dinode_of i).
Proof.
  intros F O (_ & H1 & H2 & H3 & H4). pose proof disk_blocks_max. pose proof (fl_size _ (fa_layout _ F)). assert (HM : MAXFILE * BSIZE < 2 ^ 32) by done.
  pose proof (fo_size _ _ O). pose proof (fo_len _ _ O) as Hlen. split; cbn [di_type di_major di_minor di_nlink di_size di_addrs dinode_of]; try done; [lia|].
  apply Forall_forall. intros a Ha. apply list_elem_of_lookup in Ha as [j Hj]. assert (HjZ : lookupZ (i_addrs i) (Z.of_nat j) = Some a) by (unfold lookupZ; destruct (Z.ltb_spec (Z.of_nat j) 0); [lia|by rewrite Nat2Z.id]).
  pose proof (lookupZ_Some_range _ _ _ HjZ) as Hr. destruct (Z_lt_le_dec (Z.of_nat j) NDIRECT) as [Hlt|Hge].
  - pose proof (blk_range s i (Z.of_nat j) F O ltac:(unfold MAXFILE, NINDIRECT, NDIRECT, BSIZE in *; change (1024 / 4) with 256; lia)) as Hb. unfold blk in Hb.
    destruct (Z.ltb_spec (Z.of_nat j) NDIRECT); [|lia]. rewrite HjZ in Hb. cbn [default] in Hb. unfold id in Hb. lia.
  - pose proof (ind_range s i F O) as Hb. unfold ind in Hb. replace NDIRECT with (Z.of_nat j) in Hb by lia. rewrite HjZ in Hb. cbn [default] in Hb. unfold id in Hb. lia.
Qed.

Lemma iblock_apart s i : fs_areas s -> 0 <= i < sb_ninodes (k_sb s) -> 0 <= IBLOCK i (k_sb s) < disk_blocks /\ ~ is_bitmap s (IBLOCK i (k_sb s)) /\ ~ in_log (k_log s) (IBLOCK i (k_sb s)) /\
  ~ data_block s (IBLOCK i (k_sb s)).
Proof.
  intros F Hi. destruct (fa_inode _ F i Hi) as [H1 H2]. pose proof (fl_bmap _ (fa_layout _ F)) as [H3 H4]. pose proof (fl_size _ (fa_layout _ F)).
  pose proof (Z.div_pos (sb_size (k_sb s)) BPB ltac:(lia) ltac:(done)). split; [|split; [|split; [done|]]].
  - split; [unfold IBLOCK, u32; apply Z.mod_pos_bound; done|lia].
  - intros (b & Hb & E). destruct (bblock_eq s b (fa_layout _ F) Hb) as [E2 _]. pose proof (Z.div_pos b BPB ltac:(lia) ltac:(done)). lia.
  - intros [Hd _]. unfold data_start in Hd. lia.
Qed.

Lemma iupdate_ok P s ip i : in_tx en p pid [] P s -> fs_areas s -> lookupZ (k_itable s) ip = Some i -> file_ok s i -> inode_fits s i -> lenZ P < NBUF -> lenZ P < log_size (k_log s) - 1 ->
  let n := IBLOCK (i_inum i) (k_sb s) in
  exists s', iupdate ip s = Ok tt s' /\ progress ip P s (add_block n P) s' /\ tstep p s s' /\
    forall m, view s' m = if m =? n then put_dinode (view s n) (dinode_off (i_inum i)) (dinode_of i) else view s m.
Proof.
  intros T F Hl O Hfit HP Hlog n. destruct (iblock_apart s (i_inum i) F (proj1 Hfit)) as (Hn & Hnb & Hnl & _). fold n in Hn, Hnb, Hnl.
  destruct (tx_bread en p pid [] P s n T Hn (not_held_nil s n)) as (b & s1 & E1 & T1 & D1 & _ & B1 & _ & V1 & _); [right; done|]. pose proof (dstep_tstep _ _ _ D1) as St1.
  set (d := put_dinode (view s n) (dinode_off (i_inum i)) (dinode_of i)).
  assert (Hblk : is_block d) by (apply is_block_put_dinode; [by apply (view_is_block en p pid [] P)|by apply (file_dinode s)]).
  destruct (tx_write_back en p pid [] P s1 b n _ d T1 B1 Hblk) as (s2 & s3 & s4 & E2 & E3 & E4 & T4 & St4 & V4 & _).
  { by rewrite (tstep_in_log _ _ _ _ St1). } { by rewrite (tstep_log_size _ _ _ St1). }
  assert (St : tstep p s s4) by (by etransitivity). assert (V : forall m, view s4 m = if m =? n then d else view s m) by (intros m; by rewrite V4, V1).
  exists s4. split; [|split; [|by split]].
  - unfold iupdate. erewrite bind_ok by (by apply run_get_inode). rewrite bind_gets, (fo_dev _ _ O). fold n. rewrite (bind_ok _ _ _ _ _ E1).
    erewrite bind_ok by (apply run_get_inode; by rewrite (proj1 (tstep_itable _ _ _ St1))). erewrite bind_ok by (apply (get_data_ok _ _ _ _ B1)).
    rewrite (bind_ok _ _ _ _ _ E2), (bind_ok _ _ _ _ _ E3). exact E4.
  - apply progress_tstep; [done|done|done|]. intros c Hc. unfold in_use. rewrite (tstep_sb _ _ _ St), V. destruct (Z.eqb_spec (BBLOCK c (k_sb s)) n) as [E|]; [|done]. destruct Hnb. by exists c.
Qed.

(** *** [writei] *)

(** The size of the file after the loop. *)
Lemma written_size ip P0 s0 i0 off bytes tot P s A : written ip P0 s0 i0 off bytes tot P s A -> 0 <= off <= i_size i0 -> 0 <= tot -> off + tot <= MAXFILE * BSIZE ->
  file_ok s (set_i_size (Z.max (i_size i0) (off + tot)) (set_i_addrs A i0)).
Proof.
  intros W Ho Ht Hmax. pose proof (wr_file _ _ _ _ _ _ _ _ _ _ W) as [O1 O2 O3 O4 O5 O6 O7]. split; cbn [i_dev i_size i_addrs set_i_size set_i_addrs] in *; try done; [lia|].
  intros j Hj Hs. destruct (Z_lt_le_dec (j * BSIZE) (i_size i0)) as [Hlt|Hge]; [by apply O7|].
  pose proof (wr_new _ _ _ _ _ _ _ _ _ _ W (j * BSIZE) ltac:(lia)) as Hb. by rewrite Z.div_mul in Hb.
Qed.

(** The bytes of the file as a list. *)
Lemma written_list v v' A A' size off tot bytes : 0 <= off <= size -> 0 <= tot <= lenZ bytes ->
  (forall x, 0 <= x < size \/ off <= x < off + tot -> fbyte v' A' x = if (off <=? x) && (x <? off + tot) then default 0 (lookupZ bytes (x - off)) else fbyte v A x) ->
  file_bytes v' A' 0 (Z.max size (off + tot)) =
  take (Z.to_nat off) (file_bytes v A 0 size) ++ take (Z.to_nat tot) bytes ++ drop (Z.to_nat (off + tot)) (file_bytes v A 0 size).
Proof.
  intros Ho Ht Hb. set (old := file_bytes v A 0 size). assert (Hl : lenZ old = size) by (apply lenZ_file_bytes; lia).
  assert (Hlt : lenZ (take (Z.to_nat off) old) = off) by (rewrite lenZ_take; lia). assert (Hlb : lenZ (take (Z.to_nat tot) bytes) = tot) by (rewrite lenZ_take; lia).
  apply list_eqZ; [rewrite !lenZ_app, lenZ_file_bytes, Hlt, Hlb, lenZ_drop by lia; lia|]. rewrite lenZ_file_bytes by lia. intros x Hx.
  rewrite lookup_file_bytes by lia. rewrite Z.add_0_l, Hb by lia. rewrite lookupZ_app, Hlt. destruct (Z.leb_spec off x) as [H1|H1], (Z.ltb_spec x (off + tot)) as [H2|H2]; try lia; cbn [andb].
  - destruct (Z.ltb_spec x off); [lia|]. rewrite lookupZ_app, Hlb. destruct (Z.ltb_spec (x - off) tot); [|lia]. rewrite lookupZ_take. destruct (Z.ltb_spec (x - off) (Z.of_nat (Z.to_nat tot))); [|lia].
    destruct (lookupZ_is_Some bytes (x - off)) as [y ->]; [lia|done].
  - destruct (Z.ltb_spec x off); [lia|]. rewrite lookupZ_app, Hlb. destruct (Z.ltb_spec (x - off) tot); [lia|]. rewrite lookupZ_drop. destruct (Z.ltb_spec (x - off - tot) 0); [lia|].
    replace (Z.of_nat (Z.to_nat (off + tot)) + (x - off - tot)) with x by lia. unfold old. by rewrite lookup_file_bytes by lia.
  - destruct (Z.ltb_spec x off); [|lia]. rewrite lookupZ_take. destruct (Z.ltb_spec x (Z.of_nat (Z.to_nat off))); [|lia]. unfold old. by rewrite lookup_file_bytes by lia.
Qed.

(** The inode with its new size, on the disk. *)
Lemma writei_finish P s ip i off : in_tx en p pid [] P s -> fs_areas s -> lookupZ (k_itable s) ip = Some i -> let i' := set_i_size (Z.max (i_size i) off) i in
  file_ok s i' -> inode_fits s i -> lenZ P < NBUF -> lenZ P < log_size (k_log s) - 1 -> let n := IBLOCK (i_inum i) (k_sb s) in
  exists s', (forall r : Z, (i <- get_inode ip;; when (i_size i <? off) (put_inode ip (set_i_size off i));; iupdate ip;; ret r) s = Ok r s') /\ progress ip P s (add_block n P) s' /\
    lookupZ (k_itable s') ip = Some i' /\ file_ok s' i' /\ get_dinode (view s' n) (dinode_off (i_inum i)) = dinode_of i' /\ (forall m, m <> n -> view s' m = view s m).
Proof.
  intros T F Hl i' O Hfit HP Hlog n. pose proof (lookupZ_Some_range _ _ _ Hl) as Hip. assert (Es : exists t, when (i_size i <? off) (put_inode ip (set_i_size off i)) s = Ok tt (set_k_itable t s) /\
    lookupZ t ip = Some i' /\ forall j, j <> ip -> lookupZ t j = lookupZ (k_itable s) j).
  { unfold i'. destruct (Z.ltb_spec (i_size i) off).
    - exists (insertZ ip (set_i_size off i) (k_itable s)). rewrite Z.max_r by lia. split; [done|]. split; [by apply lookupZ_insertZ_eq|]. intros j Hj. by apply lookupZ_insertZ_ne.
    - exists (k_itable s). rewrite Z.max_l by lia. split; [destruct s; reflexivity|]. split; [rewrite Hl; by destruct i|done]. }
  destruct Es as (t & Et & Hti & Htj). pose proof (progress_itable ip P s t T F Htj) as G1. assert (O1 : file_ok (set_k_itable t s) i') by (destruct O; by split).
  destruct (iupdate_ok P (set_k_itable t s) ip i' (pg_tx _ _ _ _ _ G1) (pg_areas _ _ _ _ _ G1) Hti O1 Hfit HP Hlog) as (s' & E & G2 & St & V).
  change (IBLOCK (i_inum i') (k_sb (set_k_itable t s))) with n in G2, V.
  exists s'. split; [intros r; erewrite bind_ok by (by apply run_get_inode); rewrite (bind_ok _ _ _ _ _ Et), (bind_ok _ _ _ _ _ E); reflexivity|]. split; [by eapply progress_trans|].
  split; [by rewrite (proj1 (tstep_itable _ _ _ St))|]. destruct (iblock_apart s (i_inum i) F (proj1 Hfit)) as (_ & _ & _ & Hnd). fold n in Hnd. split; [|split].
  - destruct (istep_same _ _ _ _ (pg_step _ _ _ _ _ G2)) as (Esb & _). apply (file_ok_mono (set_k_itable t s) s' i' Esb (pg_areas _ _ _ _ _ G1) (pg_used _ _ _ _ _ G2)); [|done].
    destruct (fo_ind _ _ O) as [|Hd]; [by left|right]. rewrite V. destruct (Z.eqb_spec (ind (i_addrs i')) n) as [Ei|]; [|done]. by rewrite Ei in Hd.
  - rewrite V, Z.eqb_refl. apply get_put_dinode; [apply (view_is_block en p pid [] P s _ T)|by apply (file_dinode s)].
  - intros m Hm. rewrite V. by destruct (Z.eqb_spec m n).
Qed.

Lemma writei_ok P s ip i src bytes off : in_tx en p pid [] P s -> fs_areas s -> k_panicked s = 0 -> lookupZ (k_itable s) ip = Some i -> file_ok s i -> inode_fits s i ->
  is_bytes bytes -> 0 <= off < 2 ^ 32 -> lenZ bytes < 2 ^ 32 -> lenZ P + 6 * blocks_left off (off + lenZ bytes) < NBUF - 1 ->
  lenZ P + 6 * blocks_left off (off + lenZ bytes) < log_size (k_log s) - 2 ->
  if (i_size i <? off) || (MAXFILE * BSIZE <? off + lenZ bytes) then writei ip 0 src bytes off (lenZ bytes) s = Ok (-1) s else
  exists tot P' s' A', let i' := set_i_size (Z.max (i_size i) (off + tot)) (set_i_addrs A' i) in writei ip 0 src bytes off (lenZ bytes) s = Ok tot s' /\ 0 <= tot <= lenZ bytes /\ (tot < lenZ bytes -> all_used s') /\
    progress ip P s P' s' /\ lookupZ (k_itable s') ip = Some i' /\ file_ok s' i' /\
    (let old := file_bytes (view s) (i_addrs i) 0 (i_size i) in
     file_bytes (view s') (i_addrs i') 0 (i_size i') = take (Z.to_nat off) old ++ take (Z.to_nat tot) bytes ++ drop (Z.to_nat (off + tot)) old) /\
    get_dinode (view s' (IBLOCK (i_inum i) (k_sb s))) (dinode_off (i_inum i)) = dinode_of i' /\
    forall m, 0 <= m < sb_size (k_sb s) -> in_use s m = true -> ~ is_bitmap s m -> m <> IBLOCK (i_inum i) (k_sb s) -> m <> ind (i_addrs i) ->
      (forall j, 0 <= j < MAXFILE -> m <> blk (view s) (i_addrs i) j) -> view s' m = view s m.
Proof.
  intros T F Hpk Hl O Hfit Hby Ho Hn HP Hlog. pose proof (fo_size _ _ O) as Hsz. pose proof (lenZ_nonneg bytes) as Hn0. assert (HM : MAXFILE * BSIZE < 2 ^ 31) by done.
  unfold writei. erewrite bind_ok by (by apply run_get_inode). destruct (Z.ltb_spec (i_size i) off) as [|Hoff]; [done|]. cbn [orb].
  destruct (Z.ltb_spec (MAXFILE * BSIZE) (off + lenZ bytes)) as [|Hmax]; [by destruct (u32 (off + lenZ bytes) <? off)|].
  rewrite u32_small by lia. destruct (Z.ltb_spec (off + lenZ bytes) off); [lia|].
  assert (W0 : written ip P s i off bytes 0 P s (i_addrs i)).
  { split; rewrite ?set_i_addrs_same; [exact (progress_refl ip P s T F)|done|done|done|intros x Hx; lia| |done|by intros j _; left|by left].
    intros x Hx. destruct (Z.leb_spec off x), (Z.ltb_spec x (off + 0)); try lia; done. }
  destruct (writei_loop ip P s i off bytes Hpk ltac:(lia) Hmax Hby (io_fuel (lenZ bytes)) 0 src P s (i_addrs i) W0) as (tot & P1 & s1 & A1 & E1 & Ht & Hfull & HP1 & Hlog1 & W1);
    rewrite ?Z.add_0_r; try lia; [apply io_fuel_enough; lia|unfold io_fuel; lia|]. rewrite Z.add_0_r in E1. change (drop (Z.to_nat 0) bytes) with bytes in E1.
  pose proof (wr_progress _ _ _ _ _ _ _ _ _ _ W1) as G1. destruct (istep_same _ _ _ _ (pg_step _ _ _ _ _ G1)) as (Es & _ & Els & _).
  destruct (writei_finish P1 s1 ip (set_i_addrs A1 i) (off + tot) (pg_tx _ _ _ _ _ G1) (pg_areas _ _ _ _ _ G1) (wr_inode _ _ _ _ _ _ _ _ _ _ W1)) as (s2 & E2 & G2 & Hl2 & O2 & Hdi & V2).
  { apply (written_size _ _ _ _ _ _ _ _ _ _ W1); lia. } { unfold inode_fits in *. by rewrite Es. } { lia. } { lia. }
  cbn [i_inum i_size set_i_addrs] in *. rewrite Es in Hdi, V2, G2. set (i' := set_i_size (Z.max (i_size i) (off + tot)) (set_i_addrs A1 i)) in *.
  exists tot, (add_block (IBLOCK (i_inum i) (k_sb s)) P1), s2, A1. cbv zeta. fold i'. assert (Eret : i32 tot = tot) by (apply i32_small; lia).
  split; [|split; [lia|split; [|split; [by eapply progress_trans|split; [done|split; [done|split; [|split; [done|]]]]]]]].
  - rewrite (bind_ok _ _ _ _ _ E1), Eret. apply E2.
  - intros Hlt b Hb. destruct (istep_same _ _ _ _ (pg_step _ _ _ _ _ G2)) as (Es2 & _). rewrite Es2 in Hb. apply (pg_used _ _ _ _ _ G2); [done|]. by apply Hfull.
  - cbv zeta. apply written_list; [lia|lia|]. intros x Hx. rewrite <- (wr_bytes _ _ _ _ _ _ _ _ _ _ W1 x Hx).
    destruct (written_blk _ _ _ _ _ _ _ _ _ _ x W1 ltac:(lia) ltac:(lia) Hx) as [Hr Hb]. destruct (iblock_apart s1 (i_inum i) (pg_areas _ _ _ _ _ G1)) as (_ & _ & _ & Hnd); [rewrite Es; apply Hfit|].
    rewrite Es in Hnd. assert (Hne : forall b, data_block s1 b -> view s2 b = view s1 b) by (intros b Hbd; apply V2; by intros ->).
    change (i_addrs i') with A1. unfold fbyte. rewrite (blk_ext (view s1) (view s2) A1) by (destruct (fo_ind _ _ (wr_file _ _ _ _ _ _ _ _ _ _ W1)) as [|Hd]; [by left|right; by apply Hne]).
    rewrite Hne; [done|]. destruct (fo_blk _ _ (wr_file _ _ _ _ _ _ _ _ _ _ W1) _ Hr) as [|[Hd _]]; [done|exact Hd].
  - intros m Hm Hu Hb Hni Hind Hj. rewrite V2 by done. by apply (wr_view _ _ _ _ _ _ _ _ _ _ W1).
Qed.

(** C10: [writei] from kernel memory, inside a transaction with room for the
    blocks, at an offset inside the file or at its end.  It returns the number
    [tot] of bytes written, all of them unless the disk is full; the file has
    exactly the bytes [off] to [off + tot - 1] replaced and is longer if it
    has to be; the inode on the disk is the one in memory.  Every block in use
    that is not of this file, of the bitmap or of the inodes is unchanged.  An
    offset behind the end of the file or a file that would become too large
    returns -1. *)
Theorem writei_writes P s ip i src bytes off : in_tx en p pid [] P s -> fs_areas s -> k_panicked s = 0 -> lookupZ (k_itable s) ip = Some i -> file_ok s i -> inode_fits s i ->
  is_bytes bytes -> 0 <= off < 2 ^ 32 -> lenZ bytes < 2 ^ 32 -> lenZ P + 6 * blocks_left off (off + lenZ bytes) < NBUF - 1 ->
  lenZ P + 6 * blocks_left off (off + lenZ bytes) < log_size (k_log s) - 2 ->
  if (i_size i <? off) || (MAXFILE * BSIZE <? off + lenZ bytes) then writei ip 0 src bytes off (lenZ bytes) s = Ok (-1) s else
  exists tot P' s' A', let i' := set_i_size (Z.max (i_size i) (off + tot)) (set_i_addrs A' i) in writei ip 0 src bytes off (lenZ bytes) s = Ok tot s' /\ 0 <= tot <= lenZ bytes /\ (tot < lenZ bytes -> all_used s') /\
    progress ip P s P' s' /\ lookupZ (k_itable s') ip = Some i' /\ file_ok s' i' /\
    (let old := file_bytes (view s) (i_addrs i) 0 (i_size i) in
     file_bytes (view s') (i_addrs i') 0 (i_size i') = take (Z.to_nat off) old ++ take (Z.to_nat tot) bytes ++ drop (Z.to_nat (off + tot)) old) /\
    get_dinode (view s' (IBLOCK (i_inum i) (k_sb s))) (dinode_off (i_inum i)) = dinode_of i' /\
    forall m, 0 <= m < sb_size (k_sb s) -> in_use s m = true -> ~ is_bitmap s m -> m <> IBLOCK (i_inum i) (k_sb s) -> m <> ind (i_addrs i) ->
      (forall j, 0 <= j < MAXFILE -> m <> blk (view s) (i_addrs i) j) -> view s' m = view s m.
Proof. apply writei_ok. Qed.

End Write.

(** ** Mounting *)

Section Mount.
Context `{DL : DiskLaws} {PT : Patience} (en : bool) (p pid : Z).

Lemma readsb_ok s : running en p pid s -> bio_inv pid [] [] s -> 1 < disk_blocks ->
  exists s', readsb ROOTDEV s = Ok tt s' /\ running en p pid s' /\ bio_inv pid [] [] s' /\ k_sb s' = superblock_of (dblock (k_disk s) 1) /\ k_disk s' = k_disk s /\ k_log s' = k_log s.
Proof.
  intros Hr Hi Hd. assert (Hv : view s 1 = dblock (k_disk s) 1) by apply (view_clean _ _ _ _ 1 Hi (not_elem_of_nil _) (not_held_nil _ _)).
  destruct (bread_ok en p pid [] [] s 1 Hr Hi ltac:(lia) (not_held_nil s 1)) as (b & s1 & E1 & St1 & _ & I1 & B1 & _ & _ & D1); [by right|]. rewrite Hv in B1.
  set (sb := superblock_of (dblock (k_disk s) 1)). set (s2 := set_k_sb sb s1).
  assert (Hr2 : running en p pid s2) by (apply (running_ext en p pid s1); try reflexivity; by apply (bstep_running _ _ _ _ _ St1)).
  assert (I2 : bio_inv pid [b] [] s2) by (by apply (bio_inv_ext pid [b] [] s1)). assert (B2 : buf_is s2 b 1 (dblock (k_disk s) 1)) by exact B1.
  destruct (brelse_ok en p pid [] [] s2 b 1 _ Hr2 I2 B2) as (s3 & E3 & St3 & I3 & _ & _ & D3 & _); [right; change (k_disk s2) with (k_disk s1); by rewrite D1|].
  destruct (bstep_same _ _ _ St1) as (El1 & _), (bstep_same _ _ _ St3) as (El3 & Es3 & _).
  exists s3. split; [|split; [by apply (bstep_running _ _ _ _ _ St3)|split; [done|split; [by rewrite Es3|split; [by rewrite D3|by rewrite El3]]]]].
  unfold readsb. change (u32 ROOTDEV) with ROOTDEV. rewrite (bind_ok _ _ _ _ _ E1), (bind_ok _ _ _ _ _ (get_data_ok _ _ _ _ B1)). fold sb. erewrite bind_ok; [exact E3|reflexivity].
Qed.

(** [fsinit] on a disk with the superblock [sb] and nothing in the log. *)
Lemma fsinit_ok s : let sb := superblock_of (dblock (k_disk s) 1) in running en p pid s -> bio_inv pid [] [] s -> 1 < disk_blocks -> sb_magic sb = FSMAGIC -> sb_log sb ->
  lenZ (lh_block (log_lh (k_log s))) = LOGSIZE -> head_is (dblock (k_disk s) (sb_logstart sb)) [] ->
  exists s', fsinit ROOTDEV s = Ok tt s' /\ running en p pid s' /\ bio_inv pid [] [] s' /\ k_sb s' = sb /\ log_geom (k_log s') /\ log_has (k_log s') [] /\
    log_start (k_log s') = sb_logstart sb /\ log_size (k_log s') = sb_nlog sb /\ forall m, ~ in_log (k_log s') m -> view s' m = dblock (k_disk s) m.
Proof.
  intros sb Hr Hi Hd Hmagic Hsb Hlen Hh. destruct (readsb_ok s Hr Hi Hd) as (s1 & E1 & Hr1 & I1 & Es & D1 & El). fold sb in Es.
  assert (Hn : log_names (boot_log sb (k_log s1)) []) by (split; [change (lenZ []) with 0; cbn [boot_log log_size set_log_dev set_log_size]; pose proof (sl_size _ Hsb); lia|constructor|intros n Hn; by apply not_elem_of_nil in Hn]).
  destruct (initlog_ok en p pid [] s1 sb Hr1 I1 Hsb) as (s2 & h & E2 & Hr2 & I2 & Hg & Hh2 & Hhd & L1 & L2 & _ & _ & D2 & Es2); [by rewrite El|by rewrite D1|done|].
  exists s2. split; [|do 4 (split; [done || congruence|]); split; [done|split; [done|split; [done|]]]].
  - unfold fsinit. rewrite (bind_ok _ _ _ _ _ E1), bind_gets, Es, Hmagic. exact E2.
  - intros m Hm. rewrite (view_clean _ _ _ _ m I2 (not_elem_of_nil _) (not_held_nil _ _)), D2, D1. unfold recover_writes. change (inst_writes (sb_logstart sb) (dblock (k_disk s)) []) with ([] : list (Z * list Z)).
    cbn [app dwrites fold_left fst snd]. rewrite dblock_dwrite. destruct (Z.eqb_spec m (sb_logstart sb)) as [->|]; [|done]. exfalso. apply Hm. unfold in_log. rewrite L1, L2. pose proof (sl_size _ Hsb). lia.
Qed.

End Mount.

(** ** A file of three bytes *)

Definition demo_file : inode := mkInode ROOTDEV 1 1 1 T_FILE 0 0 1 3 (46 :: replicate 12 0).

Lemma demo_blk v j : blk v (i_addrs demo_file) j = if j =? 0 then 46 else 0.
Proof.
  unfold blk. change (ind (i_addrs demo_file)) with 0. destruct (Z.ltb_spec j NDIRECT) as [Hlt|]; [|destruct (Z.eqb_spec j 0); [subst; done|done]].
  destruct (Z.eqb_spec j 0) as [->|Hne]; [done|]. unfold lookupZ. destruct (Z.ltb_spec j 0); [done|]. cbn [i_addrs demo_file].
  destruct (Z.to_nat j) as [|m] eqn:E; [lia|]. unfold NDIRECT in Hlt.
  do 11 (destruct m as [|m]; [done|]). lia.
Qed.

Lemma demo_inode : exists s, @in_tx demo_disk demo_laws true 5 9 [] [] s /\ @fs_areas demo_disk demo_laws s /\ k_panicked s = 0 /\
  log_size (k_log s) = 30 /\ lookupZ (k_itable s) 0 = Some demo_file /\ file_ok s demo_file /\ inode_fits s demo_file /\
  file_bytes (view s) (i_addrs demo_file) 0 3 = [104; 105; 10] /\ file_bytes (view s) (i_addrs demo_file) 0 16 = [104; 105; 10] ++ replicate 13 0.
Proof.
  destruct demo_alloc as (s0 & T0 & L0 & Hp & Hl & Hs & Hv & Hu). set (s := set_k_itable [demo_file] s0).
  assert (Hin : forall b, 0 <= b < 47 -> in_use s b = true).
  { intros b Hb. change (in_use s b) with (in_use s0 b). rewrite Hu by lia. assert (E : forallb (bm_bit demo_bitmap) (rangeZ 0 47) = true) by (vm_compute; reflexivity).
    rewrite forallb_forall in E. apply E. rewrite <- list_elem_of_In, elem_of_rangeZ. lia. }
  assert (Hds : data_start s = 46) by (unfold data_start; change (k_sb s) with (k_sb s0); rewrite Hs; reflexivity).
  exists s. split; [by apply in_tx_itable|]. split; [|split; [exact Hp|split; [by change (k_log s) with (k_log s0); rewrite Hl|split; [reflexivity|split; [|split; [|split]]]]]].
  - split.
    + destruct L0. by split.
    + change (k_log s) with (k_log s0). rewrite Hl, Hds. unfold in_log. simpl. lia.
    + change (k_log s) with (k_log s0). change (k_sb s) with (k_sb s0). rewrite Hl, Hs. intros inum Hi. change (sb_ninodes demo_sb) with 200 in Hi.
      assert (0 <= inum / 16 <= 12) by (Z.to_euclidean_division_equations; lia). unfold IBLOCK. change IPB with 16. unfold in_log. cbn [sb_inodestart sb_bmapstart demo_sb demo_log log_start log_size]. rewrite u32_small by lia. lia.
    + rewrite Hds. intros n Hn _. apply Hin. lia.
  - assert (Hd : data_block s 46) by (split; [rewrite Hds; change (k_sb s) with (k_sb s0); rewrite Hs; simpl; lia|by apply Hin]).
    split; [done|done|by compute|by left| | |].
    + intros j _. rewrite demo_blk. destruct (j =? 0); [right; by split|by left].
    + intros j k _ _. rewrite !demo_blk. destruct (Z.eqb_spec j 0), (Z.eqb_spec k 0); try done. lia.
    + intros j Hj Hsz. rewrite demo_blk. cbn [i_size demo_file] in Hsz. destruct (Z.eqb_spec j 0); [done|]. unfold BSIZE in Hsz. lia.
  - unfold inode_fits. change (k_sb s) with (k_sb s0). rewrite Hs. by compute.
  - unfold file_bytes, fbyte. cbn [rangeZ Z.to_nat fmap list_fmap]. change (view s) with (view s0). simpl. rewrite !demo_blk, !Hv. reflexivity.
  - unfold file_bytes, fbyte. cbn [rangeZ Z.to_nat fmap list_fmap]. change (view s) with (view s0). simpl. rewrite !demo_blk, !Hv. reflexivity.
Qed.

Lemma readi_reads_witness : exists s s', @readi ready_uart demo_patience demo_disk 0 0 0 0 1024 s = Ok (3, [104; 105; 10]) s'.
Proof.
  destruct demo_inode as (s & T & F & _ & _ & Hl & O & _ & Hb & _).
  destruct (@readi_reads demo_disk demo_laws demo_patience ready_uart true 5 9 [] s 0 demo_file 0 0 1024 (tx_run _ _ _ _ _ _ T) (tx_bio _ _ _ _ _ _ T) ltac:(by compute) F Hl O ltac:(lia) ltac:(lia)) as (s' & E & _).
  change (file_bytes (view s) (i_addrs demo_file) 0 _) with (file_bytes (view s) (i_addrs demo_file) 0 3) in E. rewrite Hb in E. exists s, s'. exact E.
Defined.

Lemma writei_writes_witness : exists s tot s', @writei ready_uart demo_patience demo_disk 0 0 0 [33; 10] 2 2 s = Ok tot s' /\ 0 <= tot <= 2.
Proof.
  destruct demo_inode as (s & T & F & Hp & Hg & Hl & O & Hf & _).
  assert (Hu : @uart_ready ready_uart) by (intros h; exists 0%nat; split; [simpl; lia|by compute]).
  pose proof (@writei_writes demo_disk demo_laws demo_patience ready_uart true 5 9 Hu [] s 0 demo_file 0 [33; 10] 2 T F Hp Hl O Hf) as W.
  destruct W as (tot & P' & s' & A' & E & Ht & _); [repeat constructor; lia|lia|done|by compute|rewrite Hg; by compute|].
  exists s, tot, s'. split; [exact E|exact Ht].
Defined.
