(* ===== verification/FsDir.v ===== *)
(** * Directories: what [dirlookup] and [dirlink] of [kernel/fs.c] do

    A directory is a file whose contents are a list of entries.  [dirlookup]
    finds the first entry of a name and takes a reference to its inode
    ([iget]); [dirlink] adds an entry. *)

From S2P Require Import Prelude Riscv State Spinlock Str Sched Sleeplock Uart Printf FsLayout Bio Log Tx Fs FsAlloc FsInode.

(** ** Specification *)

(** The entries in the contents of a directory. *)
Definition dirents (d : list Z) : list dirent :=
  (fun k => dirent_of (get_bytes d (sizeof_dirent * k) sizeof_dirent)) <$> rangeZ 0 (Z.to_nat (lenZ d / sizeof_dirent)).

(** The entry [e] is in use and has the name [name]. *)
Definition hits (name : list Z) (e : dirent) : Prop := de_inum e <> 0 /\ str_agree (str_of name) (str_of (de_name e)) DIRSIZ.
Definition first_hit (name : list Z) (es : list dirent) (k : Z) (e : dirent) : Prop :=
  lookupZ es k = Some e /\ hits name e /\ forall j ej, j < k -> lookupZ es j = Some ej -> ~ hits name ej.

(** The inode [inum] is in slot [i]. *)
Definition caches (dev inum : Z) (i : inode) : Prop := 0 < i_ref i /\ i_dev i = dev /\ i_inum i = inum.

(** [iget] returns [ip] and leaves the table [t']. *)
Inductive igot (dev inum : Z) (t : list inode) (ip : Z) : list inode -> Prop :=
| igot_cached i : lookupZ t ip = Some i -> caches dev inum i -> igot dev inum t ip (insertZ ip (set_i_ref (i_ref i + 1) i) t)
| igot_fresh i : lookupZ t ip = Some i -> i_ref i = 0 -> (forall j ij, lookupZ t j = Some ij -> ~ caches dev inum ij) ->
    igot dev inum t ip (insertZ ip (set_i_valid 0 (set_i_ref 1 (set_i_inum inum (set_i_dev dev i)))) t).

(** The table has a slot for the inode. *)
Definition slot_for (dev inum : Z) (t : list inode) : Prop := exists j i, lookupZ t j = Some i /\ (caches dev inum i \/ i_ref i = 0).

(** The first entry that is not in use, or the end. *)
Definition first_free (es : list dirent) (k : Z) : Prop :=
  0 <= k <= lenZ es /\ (forall e, lookupZ es k = Some e -> de_inum e = 0) /\ forall j e, j < k -> lookupZ es j = Some e -> de_inum e <> 0.

(** The entry that [dirlink] writes. *)
Definition new_entry (name : list Z) (inum : Z) : dirent := mkDirent (u16 inum) (strncpy (str_of name) DIRSIZ).

(** ** [iget] *)

Lemma iget_scan dev inum t s n : k_itable s = t -> lenZ t = NINODE -> forall ip empty fuel, 0 <= ip -> ip + Z.of_nat n = NINODE -> (n < fuel)%nat ->
  (forall j i, j < ip -> lookupZ t j = Some i -> ~ caches dev inum i) ->
  match empty with Some e => exists i, lookupZ t e = Some i /\ i_ref i = 0 | None => forall j i, j < ip -> lookupZ t j = Some i -> i_ref i <> 0 end ->
  exists r, loop fuel (iget_body dev inum) (ip, empty) s = Ok r s /\
  match r with
  | inl c => exists i, lookupZ t c = Some i /\ caches dev inum i
  | inr o => (forall j i, lookupZ t j = Some i -> ~ caches dev inum i) /\
      match o with Some e => exists i, lookupZ t e = Some i /\ i_ref i = 0 | None => forall j i, lookupZ t j = Some i -> i_ref i <> 0 end
  end.
Proof.
  intros Et Hlen. induction n as [|n IH]; intros ip empty [|fuel] Hip Hn Hfu Hc He; try lia.
  - exists (inr empty). split; [apply loop_stop; unfold iget_body; destruct (Z.ltb_spec ip NINODE); [lia|done]|].
    assert (Hlt : forall j i, lookupZ t j = Some i -> j < ip) by (intros j i Hj; pose proof (lookupZ_Some_range _ _ _ Hj); lia).
    split; [intros j i Hj; apply (Hc j i); [by eapply Hlt|done]|]. destruct empty; [done|]. intros j i Hj. apply (He j i); [by eapply Hlt|done].
  - destruct (lookupZ_is_Some t ip) as [i Hi]; [lia|]. assert (E : (0 <? i_ref i) && (i_dev i =? dev) && (i_inum i =? inum) = true <-> caches dev inum i).
    { unfold caches. rewrite !andb_true_iff, Z.ltb_lt, !Z.eqb_eq. tauto. }
    assert (Eg : get_inode ip s = Ok i s) by (apply run_get_inode; by rewrite Et).
    destruct ((0 <? i_ref i) && (i_dev i =? dev) && (i_inum i =? inum)) eqn:Eb.
    + exists (inl ip). split; [|exists i; split; [done|by apply E]]. apply loop_stop. unfold iget_body. destruct (Z.ltb_spec ip NINODE); [|lia]. rewrite (bind_ok _ _ _ _ _ Eg). by rewrite Eb.
    + assert (Hni : ~ caches dev inum i) by (intros Hx; apply E in Hx; congruence).
      erewrite loop_next by (unfold iget_body; destruct (Z.ltb_spec ip NINODE); [|lia]; rewrite (bind_ok _ _ _ _ _ Eg), Eb; reflexivity). apply IH; [lia|lia|lia| |].
      * intros j ij Hj Hl. destruct (decide (j = ip)) as [->|]; [by simplify_eq|]. apply (Hc j); [lia|done].
      * destruct empty as [e|]; [done|]. destruct (Z.eqb_spec (i_ref i) 0); [by exists i|]. intros j ij Hj Hl. destruct (decide (j = ip)) as [->|]; [by simplify_eq|]. apply (He j); [lia|done].
Qed.

Lemma iget_ok dev inum s : settled s -> lock_free L_itable s -> lenZ (k_itable s) = NINODE -> slot_for dev inum (k_itable s) ->
  exists ip t, iget dev inum s = Ok ip (set_k_itable t s) /\ igot dev inum (k_itable s) ip t.
Proof.
  intros Hs Hl Hlen Hsl. set (t := k_itable s) in *. unfold iget. rewrite (bind_ok _ _ _ _ _ (acquire_ok _ s Hs Hl)).
  destruct (iget_scan dev inum t (acq L_itable s) (Z.to_nat NINODE) eq_refl Hlen 0 None (S (Z.to_nat NINODE))) as (r & E & Hr); [lia|done|lia|..].
  { intros j i Hj Hi. pose proof (lookupZ_Some_range _ _ _ Hi). lia. } { intros j i Hj Hi. pose proof (lookupZ_Some_range _ _ _ Hi). lia. }
  rewrite (bind_ok _ _ _ _ _ E). destruct r as [c|o].
  - destruct Hr as (i & Hi & Hc). erewrite bind_ok by (apply run_get_inode; by autorewrite with acq). unfold put_inode. rewrite bind_modify. autorewrite with acq. erewrite bind_ok by (by apply release_acq).
    eexists c, _. split; [done|]. by apply igot_cached.
  - destruct Hr as [Hno Ho]. destruct o as [e|].
    + destruct Ho as (i & Hi & Hz). erewrite bind_ok by (apply run_get_inode; by autorewrite with acq). unfold put_inode. rewrite bind_modify. autorewrite with acq. erewrite bind_ok by (by apply release_acq).
      eexists e, _. split; [done|]. by apply igot_fresh.
    + exfalso. destruct Hsl as (j & i & Hi & [Hc|Hz]); [by apply (Hno j i)|by apply (Ho j i)].
Qed.

(** ** Entries *)

Lemma lenZ_dirents d : lenZ (dirents d) = lenZ d / sizeof_dirent.
Proof. unfold dirents, lenZ. rewrite length_fmap, length_rangeZ. rewrite Z2Nat.id; [done|]. apply Z.div_pos; [lia|done]. Qed.

Lemma lookup_dirents d k : 0 <= k < lenZ d / sizeof_dirent -> lookupZ (dirents d) k = Some (dirent_of (get_bytes d (sizeof_dirent * k) sizeof_dirent)).
Proof. intros Hk. unfold dirents. by rewrite lookupZ_fmap, lookupZ_rangeZ by lia. Qed.

Section Dir.
Context `{DL : DiskLaws} {PT : Patience} {IO : Mmio} (en : bool) (p pid : Z).
Implicit Types (P : list Z) (s : kstate).

(** The contents of the directory with inode [i]. *)
Definition dir_data (s : kstate) (i : inode) : list Z := file_bytes (view s) (i_addrs i) 0 (i_size i).

(** An inode that is a directory. *)
Record dir_ok (s : kstate) (i : inode) : Prop := {
  do_file : file_ok s i;
  do_type : i_type i = T_DIR;
  do_size : i_size i mod sizeof_dirent = 0;
}.

Lemma lenZ_dir_data s i : file_ok s i -> lenZ (dir_data s i) = i_size i.
Proof. intros O. apply lenZ_file_bytes. apply (fo_size _ _ O). Qed.

Lemma read_dirent_ok P s0 dp i s k msg : reading en p pid P s0 dp i s -> lenZ P < NBUF -> dir_ok s0 i -> 0 <= k < i_size i / sizeof_dirent ->
  exists e s', read_dirent dp (sizeof_dirent * k) msg s = Ok e s' /\ reading en p pid P s0 dp i s' /\ lookupZ (dirents (dir_data s0 i)) k = Some e.
Proof.
  intros R HP D Hk. pose proof (fo_size _ _ (do_file _ _ D)) as Hsz. assert (Hmax : MAXFILE * BSIZE < 2 ^ 31) by done.
  assert (Hk16 : sizeof_dirent * k + sizeof_dirent <= i_size i) by (pose proof (Z.div_mod (i_size i) sizeof_dirent ltac:(done)); pose proof (do_size _ _ D); unfold sizeof_dirent in *; lia).
  destruct (readi_ok en p pid P s dp i 0 (sizeof_dirent * k) sizeof_dirent (rd_run _ _ _ _ _ _ _ _ R) (rd_bio _ _ _ _ _ _ _ _ R) HP (rd_areas _ _ _ _ _ _ _ _ R) (rd_inode _ _ _ _ _ _ _ _ R) (rd_file _ _ _ _ _ _ _ _ R)) as (s' & E & St & Hi & V); [unfold sizeof_dirent in *; lia|done|].
  destruct (Z.ltb_spec (i_size i) (sizeof_dirent * k)); [unfold sizeof_dirent in *; lia|]. destruct (Z.leb_spec (2 ^ 32) (sizeof_dirent * k + sizeof_dirent)); [unfold sizeof_dirent in *; lia|]. cbn [orb] in E.
  replace (Z.min sizeof_dirent (i_size i - sizeof_dirent * k)) with sizeof_dirent in E by lia.
  assert (Eb : file_bytes (view s) (i_addrs i) (sizeof_dirent * k) sizeof_dirent = get_bytes (dir_data s0 i) (sizeof_dirent * k) sizeof_dirent).
  { assert (Hl : lenZ (dir_data s0 i) = i_size i) by (apply lenZ_dir_data, D). apply list_eqZ; [rewrite lenZ_get_bytes, lenZ_file_bytes by (unfold sizeof_dirent in *; lia); done|]. rewrite lenZ_file_bytes by done. intros x Hx.
    rewrite get_bytes_lookup, lookup_file_bytes by (unfold sizeof_dirent in *; lia). destruct (Z.leb_spec 0 x); [|lia]. destruct (Z.ltb_spec x sizeof_dirent); [|lia]. cbn [andb]. unfold dir_data.
    rewrite lookup_file_bytes by (unfold sizeof_dirent in *; lia). rewrite Z.add_0_l. f_equal. unfold fbyte. rewrite (rd_view _ _ _ _ _ _ _ _ R). f_equal. f_equal. unfold blk. by rewrite (rd_view _ _ _ _ _ _ _ _ R). }
  eexists _, s'. split; [unfold read_dirent; rewrite (bind_ok _ _ _ _ _ E); reflexivity|]. split; [by apply (reading_step _ _ _ _ _ _ _ s)|]. cbn [snd]. rewrite Eb. apply lookup_dirents. by rewrite lenZ_dir_data by apply D.
Qed.

Lemma str_of_byte l j : is_bytes l -> 0 <= str_of l j < 256.
Proof.
  intros H. unfold str_of. destruct (lookupZ l j) as [b|] eqn:E; cbn; [|lia]. unfold lookupZ in E. destruct (j <? 0); [done|]. by apply (proj1 (Forall_lookup _ _) H _ _ E).
Qed.

Lemma dir_data_bytes P s i : bio_inv pid [] P s -> is_bytes (dir_data s i).
Proof.
  intros Hi. apply Forall_fmap, Forall_forall. intros x _. cbn. unfold fbyte. destruct (bio_view_block pid P s (blk (view s) (i_addrs i) (x / BSIZE)) Hi) as [_ Hb].
  destruct (lookupZ _ (x mod BSIZE)) as [b|] eqn:E; cbn; [|lia]. unfold lookupZ in E. destruct (x mod BSIZE <? 0); [done|]. by apply (proj1 (Forall_lookup _ _) Hb _ _ E).
Qed.

Lemma dirent_name_bytes d k e : is_bytes d -> lookupZ (dirents d) k = Some e -> is_bytes (de_name e).
Proof.
  intros Hd He. unfold dirents in He. rewrite lookupZ_fmap in He. destruct (lookupZ (rangeZ _ _) k) as [x|]; [|done]. injection He as <-. cbn [de_name dirent_of]. unfold get_bytes, is_bytes in *.
  by repeat apply Forall_take || apply Forall_drop.
Qed.

Lemma namecmp_zero name e : is_bytes name -> is_bytes (de_name e) -> namecmp name (de_name e) = 0 <-> str_agree (str_of name) (str_of (de_name e)) DIRSIZ.
Proof. intros Hn He. apply strncmp_zero; [done|intros j; by apply str_of_byte|intros j; by apply str_of_byte]. Qed.

(** ** [dirlookup] *)

Section Lookup.
Context (P : list Z) (s0 : kstate) (dp : Z) (i : inode) (name : list Z).
Hypotheses (HP : lenZ P < NBUF) (D : dir_ok s0 i) (Hb : bio_inv pid [] P s0) (Hname : is_bytes name).
Notation es := (dirents (dir_data s0 i)).

Lemma lenZ_es : lenZ es = i_size i / sizeof_dirent.
Proof. rewrite lenZ_dirents, lenZ_dir_data by apply D. done. Qed.

Lemma dirlookup_loop n : forall k fuel s, reading en p pid P s0 dp i s -> 0 <= k -> k + Z.of_nat n = lenZ es -> (n < fuel)%nat -> (forall j e, j < k -> lookupZ es j = Some e -> ~ hits name e) ->
  (exists k' e s1, first_hit name es k' e /\ reading en p pid P s0 dp i s1 /\
     forall ip s2, iget (i_dev i) (de_inum e) s1 = Ok ip s2 -> loop fuel (dirlookup_body dp name) (sizeof_dirent * k) s = Ok (Some (ip, sizeof_dirent * k')) s2) \/
  ((forall j e, lookupZ es j = Some e -> ~ hits name e) /\ exists s1, loop fuel (dirlookup_body dp name) (sizeof_dirent * k) s = Ok None s1 /\ reading en p pid P s0 dp i s1).
Proof.
  pose proof lenZ_es as Hes. induction n as [|n IH]; intros k [|fuel] s R Hk Hn Hfu Hbe; try lia.
  - right. split; [intros j e Hj; apply (Hbe j); [|done]; pose proof (lookupZ_Some_range _ _ _ Hj); lia|]. exists s. split; [|done]. apply loop_stop. unfold dirlookup_body. erewrite bind_ok by (apply run_get_inode, R).
    destruct (Z.ltb_spec (sizeof_dirent * k) (i_size i)); [|done]. exfalso. pose proof (Z.div_mod (i_size i) sizeof_dirent ltac:(done)). pose proof (do_size _ _ D). lia.
  - destruct (read_dirent_ok P s0 dp i s k "dirlookup read" R HP D ltac:(lia)) as (e & s1 & E & R1 & He).
    assert (Hlt : (sizeof_dirent * k <? i_size i) = true) by (apply Z.ltb_lt; pose proof (Z.div_mod (i_size i) sizeof_dirent ltac:(done)); pose proof (do_size _ _ D); unfold sizeof_dirent in *; lia).
    assert (Hnb : is_bytes (de_name e)) by (apply (dirent_name_bytes (dir_data s0 i) k); [by eapply dir_data_bytes|done]).
    assert (Hbody : forall r, (if de_inum e =? 0 then ret (inl (sizeof_dirent * k + sizeof_dirent)) else if namecmp name (de_name e) =? 0 then ip <- iget (i_dev i) (de_inum e);; ret (inr (Some (ip, sizeof_dirent * k))) else ret (inl (sizeof_dirent * k + sizeof_dirent))) s1 = r ->
      dirlookup_body dp name (sizeof_dirent * k) s = r).
    { intros r <-. unfold dirlookup_body. erewrite bind_ok by (apply run_get_inode, R). rewrite Hlt. by rewrite (bind_ok _ _ _ _ _ E). }
    destruct (decide (de_inum e <> 0 /\ namecmp name (de_name e) = 0)) as [[H1 H2]|Hno].
    + left. exists k, e, s1. split; [split; [done|split; [split; [done|by apply namecmp_zero]|done]]|]. split; [done|]. intros ip s2 Ei. apply loop_stop, Hbody. destruct (Z.eqb_spec (de_inum e) 0); [done|]. rewrite H2. cbn [Z.eqb]. by rewrite (bind_ok _ _ _ _ _ Ei).
    + assert (Hnh : ~ hits name e) by (intros [H1 H2]; apply Hno; split; [done|by apply namecmp_zero]).
      rewrite (loop_next _ _ _ _ (sizeof_dirent * (k + 1)) s1); [apply IH; [done|lia|lia|lia|]|].
      * intros j ej Hj Hl. destruct (decide (j = k)) as [->|]; [by simplify_eq|]. apply (Hbe j); [lia|done].
      * apply Hbody. replace (sizeof_dirent * (k + 1)) with (sizeof_dirent * k + sizeof_dirent) by lia. destruct (Z.eqb_spec (de_inum e) 0) as [|Hi0]; [done|]. destruct (Z.eqb_spec (namecmp name (de_name e)) 0); [|done]. by destruct Hno.
Qed.

Lemma dirlookup_ok s : reading en p pid P s0 dp i s ->
  (exists k e s1, first_hit name es k e /\ reading en p pid P s0 dp i s1 /\ forall ip s2, iget (i_dev i) (de_inum e) s1 = Ok ip s2 -> dirlookup dp name s = Ok (Some (ip, sizeof_dirent * k)) s2) \/
  ((forall j e, lookupZ es j = Some e -> ~ hits name e) /\ exists s1, dirlookup dp name s = Ok None s1 /\ reading en p pid P s0 dp i s1).
Proof.
  intros R. unfold dirlookup. pose proof lenZ_es as Hes. pose proof (lenZ_nonneg es) as Hnn.
  assert (Eh : forall A (f : inode -> M A), bind (get_inode dp) f s = f i s) by (intros A f; by erewrite bind_ok by (apply run_get_inode, R)). rewrite !Eh. rewrite (do_type _ _ D), Z.eqb_refl. cbn [negb].
  apply (dirlookup_loop (Z.to_nat (lenZ es)) 0 _ s R); [lia|lia| |intros j e Hj Hl; pose proof (lookupZ_Some_range _ _ _ Hl); lia]. unfold dir_fuel. rewrite <- Hes. lia.
Qed.
End Lookup.

(** ** [dirlink] *)

Lemma dirlink_scan P s0 dp i n : lenZ P < NBUF -> dir_ok s0 i -> let es := dirents (dir_data s0 i) in
  forall k fuel s, reading en p pid P s0 dp i s -> 0 <= k -> k + Z.of_nat n = lenZ es -> (n < fuel)%nat -> (forall j e, j < k -> lookupZ es j = Some e -> de_inum e <> 0) ->
  exists k' s1, first_free es k' /\ loop fuel (dirlink_body dp) (sizeof_dirent * k) s = Ok (sizeof_dirent * k') s1 /\ reading en p pid P s0 dp i s1.
Proof.
  intros HP D es. pose proof (lenZ_es s0 i D) as Hes. fold es in Hes. pose proof (Z.div_mod (i_size i) sizeof_dirent ltac:(done)) as Hdm. pose proof (do_size _ _ D) as Hm.
  induction n as [|n IH]; intros k [|fuel] s R Hk Hn Hfu Hbe; try lia.
  - exists k, s. split; [split; [lia|split; [|done]]; intros e He; pose proof (lookupZ_Some_range _ _ _ He); lia|]. split; [|done]. apply loop_stop. unfold dirlink_body. erewrite bind_ok by (apply run_get_inode, R).
    destruct (Z.ltb_spec (sizeof_dirent * k) (i_size i)); [|done]. lia.
  - destruct (read_dirent_ok P s0 dp i s k "dirlink read" R HP D ltac:(lia)) as (e & s1 & E & R1 & He). fold es in He.
    assert (Hbody : dirlink_body dp (sizeof_dirent * k) s = if de_inum e =? 0 then Ok (inr (sizeof_dirent * k)) s1 else Ok (inl (sizeof_dirent * k + sizeof_dirent)) s1).
    { unfold dirlink_body. erewrite bind_ok by (apply run_get_inode, R). destruct (Z.ltb_spec (sizeof_dirent * k) (i_size i)); [|unfold sizeof_dirent in *; lia]. rewrite (bind_ok _ _ _ _ _ E). by destruct (de_inum e =? 0). }
    destruct (Z.eqb_spec (de_inum e) 0) as [H0|H0].
    + exists k, s1. split; [split; [lia|split; [intros e' He'; by simplify_eq|done]]|]. split; [by apply loop_stop|done].
    + rewrite (loop_next _ _ _ _ (sizeof_dirent * (k + 1)) s1); [apply IH; [done|lia|lia|lia|]|].
      * intros j ej Hj Hl. destruct (decide (j = k)) as [->|]; [by simplify_eq|]. apply (Hbe j); [lia|done].
      * rewrite Hbody. do 2 f_equal. lia.
Qed.

(** One entry replaced or added. *)
Lemma dirents_write d b k : lenZ d mod sizeof_dirent = 0 -> lenZ b = sizeof_dirent -> 0 <= k <= lenZ (dirents d) ->
  dirents (take (Z.to_nat (sizeof_dirent * k)) d ++ b ++ drop (Z.to_nat (sizeof_dirent * k + sizeof_dirent)) d) = take (Z.to_nat k) (dirents d) ++ dirent_of b :: drop (Z.to_nat (k + 1)) (dirents d).
Proof.
  intros Hm Hb Hk. rewrite lenZ_dirents in Hk. pose proof (Z.div_mod (lenZ d) sizeof_dirent ltac:(done)) as Hdm. pose proof (lenZ_nonneg d) as Hn. set (n := lenZ d / sizeof_dirent) in *. assert (En : lenZ d = sizeof_dirent * n) by lia.
  set (d' := _ ++ _ ++ _). assert (Ht : lenZ (take (Z.to_nat (sizeof_dirent * k)) d) = sizeof_dirent * k) by (rewrite lenZ_take; unfold sizeof_dirent in *; lia).
  assert (Hl' : lenZ d' = sizeof_dirent * Z.max n (k + 1)) by (unfold d'; rewrite !lenZ_app, Ht, Hb, lenZ_drop; unfold sizeof_dirent in *; lia).
  assert (Hd' : lenZ d' / sizeof_dirent = Z.max n (k + 1)) by (rewrite Hl', Z.mul_comm; by apply Z.div_mul).
  assert (Htk : lenZ (take (Z.to_nat k) (dirents d)) = k) by (rewrite lenZ_take, lenZ_dirents; fold n; lia).
  apply list_eqZ; [rewrite lenZ_dirents, Hd', lenZ_app, lenZ_cons, Htk, lenZ_drop, lenZ_dirents; fold n; lia|]. intros j Hj. rewrite lenZ_dirents, Hd' in Hj. rewrite lookup_dirents by (rewrite Hd'; lia).
  rewrite lookupZ_app, Htk. assert (Hbytes : forall x, 0 <= x < sizeof_dirent -> lookupZ d' (sizeof_dirent * j + x) = if decide (j = k) then lookupZ b x else lookupZ d (sizeof_dirent * j + x)).
  { intros x Hx. unfold d'. rewrite lookupZ_app, Ht. destruct (Z.ltb_spec (sizeof_dirent * j + x) (sizeof_dirent * k)).
    - rewrite decide_False by (unfold sizeof_dirent in *; lia). rewrite lookupZ_take. destruct (Z.ltb_spec (sizeof_dirent * j + x) (Z.of_nat (Z.to_nat (sizeof_dirent * k)))); [done|unfold sizeof_dirent in *; lia].
    - rewrite lookupZ_app, Hb. destruct (Z.ltb_spec (sizeof_dirent * j + x - sizeof_dirent * k) sizeof_dirent).
      + rewrite decide_True by (unfold sizeof_dirent in *; lia). f_equal. unfold sizeof_dirent in *. lia.
      + rewrite decide_False by (unfold sizeof_dirent in *; lia). rewrite lookupZ_drop. destruct (Z.ltb_spec (sizeof_dirent * j + x - sizeof_dirent * k - sizeof_dirent) 0); [lia|]. f_equal. unfold sizeof_dirent in *. lia. }
  destruct (Z.ltb_spec j k) as [Hjk|Hjk]; [|destruct (decide (j = k)) as [->|Hne]].
  - rewrite lookupZ_take. destruct (Z.ltb_spec j (Z.of_nat (Z.to_nat k))); [|lia]. rewrite lookup_dirents by (fold n; lia). do 2 f_equal.
    apply get_bytes_ext; [unfold sizeof_dirent in *; lia..|]. intros x Hx. rewrite Hbytes, decide_False by lia. done.
  - rewrite Z.sub_diag. change (lookupZ (dirent_of b :: drop (Z.to_nat (k + 1)) (dirents d)) 0) with (Some (dirent_of b)). do 2 f_equal. transitivity (get_bytes b 0 sizeof_dirent); [|by rewrite <- Hb, get_bytes_all].
    apply get_bytes_ext; [unfold sizeof_dirent in *; lia..|]. intros x Hx. by rewrite Hbytes by done.
  - assert (E : lookupZ (dirent_of b :: drop (Z.to_nat (k + 1)) (dirents d)) (j - k) = lookupZ (dirents d) j).
    { change (dirent_of b :: drop (Z.to_nat (k + 1)) (dirents d)) with ([dirent_of b] ++ drop (Z.to_nat (k + 1)) (dirents d)). rewrite lookupZ_app. change (lenZ [dirent_of b]) with 1. destruct (Z.ltb_spec (j - k) 1); [lia|].
      rewrite lookupZ_drop. destruct (Z.ltb_spec (j - k - 1) 0); [lia|]. f_equal. lia. }
    rewrite E, lookup_dirents by (fold n; lia). do 2 f_equal. apply get_bytes_ext; [unfold sizeof_dirent in *; lia..|]. intros x Hx. by rewrite Hbytes by done.
Qed.

Lemma lookup_strncpy t n j : 0 <= j < n -> exists b, lookupZ (strncpy t n) j = Some b /\ ((forall k, 0 <= k < j -> t k <> 0) -> b = t j) /\ ((exists k, 0 <= k < j /\ t k = 0) -> b = 0).
Proof.
  intros Hj. destruct (lookup_strncpy_loop (Z.to_nat n) t 0 (Z.to_nat j) ltac:(lia)) as (b & Hb & H1 & H2). rewrite !Z2Nat.id, !Z.add_0_l in * by lia. exists b.
  split; [unfold lookupZ, strncpy; destruct (Z.ltb_spec j 0); [lia|exact Hb]|]. split; [exact H1|]. intros (k & Hk & Hz). apply H2. exists k. split; [lia|done].
Qed.

Lemma new_entry_bytes name inum : is_bytes name -> lenZ (dirent_bytes (new_entry name inum)) = sizeof_dirent /\ is_bytes (dirent_bytes (new_entry name inum)) /\ dirent_of (dirent_bytes (new_entry name inum)) = new_entry name inum.
Proof.
  intros Hn. assert (Hl : lenZ (strncpy (str_of name) DIRSIZ) = DIRSIZ) by (unfold lenZ, strncpy; by rewrite length_strncpy_loop). split; [|split].
  - unfold dirent_bytes, new_entry. cbn [de_inum de_name]. by rewrite lenZ_app, lenZ_le_split, Hl.
  - unfold dirent_bytes, new_entry. cbn [de_inum de_name]. apply Forall_app. split; [apply le_split_range|]. apply Forall_lookup. intros j b Hb.
    assert (Hj : lookupZ (strncpy (str_of name) DIRSIZ) (Z.of_nat j) = Some b) by (unfold lookupZ; destruct (Z.ltb_spec (Z.of_nat j) 0); [lia|by rewrite Nat2Z.id]). pose proof (lookupZ_Some_range _ _ _ Hj) as Hr. rewrite Hl in Hr.
    destruct (lookup_strncpy (str_of name) DIRSIZ (Z.of_nat j) Hr) as (b' & Hb' & H1 & H2). simplify_eq. destruct (decide (Forall (fun k => str_of name k <> 0) (rangeZ 0 j))) as [Hf|Hf].
    + rewrite H1; [by apply str_of_byte|]. intros k Hk. rewrite Forall_forall in Hf. apply Hf, elem_of_rangeZ. lia.
    + rewrite H2; [lia|]. apply not_Forall_Exists in Hf; [|apply _]. apply Exists_exists in Hf as (k & Hk%elem_of_rangeZ & Hz). exists k. split; [lia|]. by apply dec_stable.
  - apply dirent_bytes_roundtrip; [unfold new_entry; cbn [de_inum]; unfold u16; by apply Z.mod_pos_bound|exact Hl].
Qed.

Lemma new_entry_hits name inum : 0 < inum < 2 ^ 16 -> hits name (new_entry name inum).
Proof.
  intros Hi. split; [cbn [de_inum new_entry]; unfold u16; rewrite Z.mod_small by lia; lia|]. intros j Hj Hk. destruct (lookup_strncpy (str_of name) DIRSIZ j Hj) as (b & Hb & H1 & _).
  unfold str_of at 2. cbn [de_name new_entry]. rewrite Hb. cbn. symmetry. by apply H1.
Qed.

(** Giving back what [iget] took. *)
Lemma iput_igot dev inum s ip t : settled s -> lock_free L_itable s -> igot dev inum (k_itable s) ip t ->
  exists t', iput ip (set_k_itable t s) = Ok tt (set_k_itable t' s) /\ forall j x, lookupZ (k_itable s) j = Some x -> exists x', lookupZ t' j = Some x' /\ i_ref x' = i_ref x /\ (i_ref x <> 0 -> x' = x).
Proof.
  intros Hs Hl Hg. set (s1 := set_k_itable t s). assert (Hs1 : settled s1) by exact Hs. assert (Hl1 : lock_free L_itable s1) by exact Hl.
  assert (exists i', lookupZ t ip = Some i' /\ (i_ref i' =? 1) && truth (i_valid i') && (i_nlink i' =? 0) = false /\
    forall j x, lookupZ (k_itable s) j = Some x -> exists x', lookupZ (insertZ ip (set_i_ref (i_ref i' - 1) i') t) j = Some x' /\ i_ref x' = i_ref x /\ (i_ref x <> 0 -> x' = x)) as (i' & Hi' & Hc & Hk).
  { destruct Hg as [i Hi Hca|i Hi Hz Hno]; pose proof (lookupZ_Some_range _ _ _ Hi) as Hr; eexists; (split; [by apply lookupZ_insertZ_eq|]).
    - split; [cbn [i_ref set_i_ref]; destruct Hca as [Hpos _]; by destruct (Z.eqb_spec (i_ref i + 1) 1); [lia|]|]. intros j x Hj. rewrite insertZ_insertZ. cbn [i_ref set_i_ref]. rewrite lookupZ_insertZ by done. destruct (Z.eqb_spec j ip) as [->|]; [|by exists x].
      simplify_eq. exists i. split; [f_equal; rewrite Z.add_simpl_r; by destruct i|done].
    - split; [done|]. intros j x Hj. rewrite insertZ_insertZ, lookupZ_insertZ by done. destruct (Z.eqb_spec j ip) as [->|]; [|by exists x]. simplify_eq. eexists. split; [reflexivity|]. cbn [i_ref set_i_ref set_i_valid]. rewrite Hz. split; [lia|done]. }
  exists (insertZ ip (set_i_ref (i_ref i' - 1) i') t). split; [|exact Hk]. unfold iput. rewrite (bind_ok _ _ _ _ _ (acquire_ok _ s1 Hs1 Hl1)). assert (Eg : get_inode ip (acq L_itable s1) = Ok i' (acq L_itable s1)) by (by apply run_get_inode).
  rewrite (bind_ok _ _ _ _ _ Eg), Hc. cbn [when]. rewrite bind_ret, (bind_ok _ _ _ _ _ Eg). unfold put_inode. rewrite bind_modify. autorewrite with acq. by apply release_acq.
Qed.

Lemma first_hit_unique name es k e k' e' : first_hit name es k e -> first_hit name es k' e' -> k' = k /\ e' = e.
Proof.
  intros (H1 & H2 & H3) (H1' & H2' & H3'). assert (k' = k) as ->; [|split; [done|congruence]]. destruct (Z.lt_trichotomy k k') as [?|[?|?]]; [by destruct (H3' k e)|done|by destruct (H3 k' e')].
Qed.

(** [dirlookup] of a name that is there. *)
Lemma dirlookup_hit P s dp i name k e : running en p pid s -> bio_inv pid [] P s -> lenZ P < NBUF -> fs_areas s -> lookupZ (k_itable s) dp = Some i -> dir_ok s i -> is_bytes name -> lenZ (k_itable s) = NINODE ->
  first_hit name (dirents (dir_data s i)) k e -> slot_for ROOTDEV (de_inum e) (k_itable s) ->
  exists ip s1 t, dirlookup dp name s = Ok (Some (ip, sizeof_dirent * k)) (set_k_itable t s1) /\ igot ROOTDEV (de_inum e) (k_itable s) ip t /\ reading en p pid P s dp i s1.
Proof.
  intros Hr Hb HP F Hl D Hn Ht Hh Hsl. assert (R : reading en p pid P s dp i s) by (split; try done; apply D).
  destruct (dirlookup_ok P s dp i name HP D Hb Hn s R) as [(k' & e' & s1 & Hh' & R1 & Hd)|[Hno _]]; [|destruct Hh as (H1 & H2 & _); by destruct (Hno _ _ H1)].
  destruct (first_hit_unique _ _ _ _ _ _ Hh Hh') as [-> ->]. pose proof (rn_thread _ _ _ _ (rd_run _ _ _ _ _ _ _ _ R1)) as Hk. destruct (bstep_same _ _ _ (proj1 (rd_step _ _ _ _ _ _ _ _ R1))) as (_ & _ & Et & _).
  destruct (iget_ok ROOTDEV (de_inum e) s1) as (ip & t & E & Hg); [apply Hk|apply Hk, (bool_decide_unpack _); by vm_compute|by rewrite Et|by rewrite Et|]. rewrite Et in Hg.
  exists ip, s1, t. split; [|by split]. apply Hd. by rewrite (fo_dev _ _ (do_file _ _ D)).
Qed.

(** [dirlookup] of a name that is not there. *)
Lemma dirlookup_miss P s dp i name : running en p pid s -> bio_inv pid [] P s -> lenZ P < NBUF -> fs_areas s -> lookupZ (k_itable s) dp = Some i -> dir_ok s i -> is_bytes name ->
  (forall j e, lookupZ (dirents (dir_data s i)) j = Some e -> ~ hits name e) -> exists s1, dirlookup dp name s = Ok None s1 /\ reading en p pid P s dp i s1.
Proof.
  intros Hr Hb HP F Hl D Hn Hno. assert (R : reading en p pid P s dp i s) by (split; try done; apply D).
  destruct (dirlookup_ok P s dp i name HP D Hb Hn s R) as [(k & e & _ & (H1 & H2 & _) & _)|[_ H]]; [by destruct (Hno _ _ H1)|done].
Qed.

(** Writing the new entry. *)
Lemma dirlink_write P s dp i name inum k s2 : uart_ready -> in_tx en p pid [] P s -> k_panicked s = 0 -> reading en p pid P s dp i s2 -> dir_ok s i -> inode_fits s i -> is_bytes name ->
  i_size i + sizeof_dirent <= MAXFILE * BSIZE -> lenZ P + 6 < NBUF - 1 -> lenZ P + 6 < log_size (k_log s) - 2 -> let es := dirents (dir_data s i) in first_free es k ->
  exists r P' s' i', (w <- writei dp 0 0 (dirent_bytes (new_entry name inum)) (sizeof_dirent * k) sizeof_dirent;; if negb (w =? sizeof_dirent) then ret (-1) else ret 0) s2 = Ok r s' /\
    progress en p pid dp P s P' s' /\ lookupZ (k_itable s') dp = Some i' /\
    ((r = 0 /\ dir_ok s' i' /\ dirents (dir_data s' i') = take (Z.to_nat k) es ++ new_entry name inum :: drop (Z.to_nat (k + 1)) es) \/ (r = -1 /\ all_used s')) /\
    forall m, 0 <= m < sb_size (k_sb s) -> in_use s m = true -> ~ is_bitmap s m -> m <> IBLOCK (i_inum i) (k_sb s) -> m <> ind (i_addrs i) ->
      (forall j, 0 <= j < MAXFILE -> m <> blk (view s) (i_addrs i) j) -> view s' m = view s m.
Proof.
  intros Hrd T Hpk R D Hfit Hn Hsz HP Hlog es Hk. destruct (new_entry_bytes name inum Hn) as (Hbl & Hby & Hde). set (b := dirent_bytes (new_entry name inum)) in *.
  pose proof (rd_step _ _ _ _ _ _ _ _ R) as [St Hdk]. destruct (bstep_same _ _ _ St) as (El & Es & Et & _). pose proof (rd_view _ _ _ _ _ _ _ _ R) as V.
  assert (Hp2 : k_panicked s2 = 0) by (clear Hdk; destruct St as (? & ? & ? & ? & ? & ? & _ & ->); exact Hpk).
  pose proof (lenZ_es s i D) as Hes. fold es in Hes. destruct Hk as (Hk & _). pose proof (Z.div_mod (i_size i) sizeof_dirent ltac:(done)) as Hdm. pose proof (do_size _ _ D) as Hm. assert (HM : MAXFILE * BSIZE < 2 ^ 31) by done.
  assert (Hoff : 0 <= sizeof_dirent * k <= i_size i) by (unfold sizeof_dirent in *; lia).
  assert (Hbk : blocks_left (sizeof_dirent * k) (sizeof_dirent * k + sizeof_dirent) = 1).
  { unfold blocks_left. destruct (Z.ltb_spec (sizeof_dirent * k) (sizeof_dirent * k + sizeof_dirent)); [|unfold sizeof_dirent in *; lia]. unfold sizeof_dirent, BSIZE in *. Z.div_mod_to_equations. lia. }
  pose proof (writei_ok en p pid Hrd P s2 dp i 0 b (sizeof_dirent * k) (in_tx_bstep en p pid [] P [] s s2 T St (rd_bio _ _ _ _ _ _ _ _ R)) (rd_areas _ _ _ _ _ _ _ _ R) Hp2 (rd_inode _ _ _ _ _ _ _ _ R) (rd_file _ _ _ _ _ _ _ _ R)) as W.
  rewrite Hbl, Hbk, El in W. specialize (W ltac:(unfold inode_fits in *; by rewrite Es) Hby ltac:(unfold sizeof_dirent in *; lia) ltac:(done) ltac:(lia) ltac:(lia)).
  destruct (Z.ltb_spec (i_size i) (sizeof_dirent * k)); [lia|]. destruct (Z.ltb_spec (MAXFILE * BSIZE) (sizeof_dirent * k + sizeof_dirent)); [lia|]. cbn [orb] in W.
  destruct W as (tot & P' & s' & A' & E & Htot & Hfull & G & Hl' & O' & Hbytes & _ & Hv). set (i' := set_i_size _ _) in *.
  exists (if negb (tot =? sizeof_dirent) then -1 else 0), P', s', i'. split; [rewrite (bind_ok _ _ _ _ _ E); by destruct (negb (tot =? sizeof_dirent))|].
  assert (Hu : forall m, in_use s2 m = in_use s m) by (intros m; unfold in_use; by rewrite Es, V).
  assert (G0 : progress en p pid dp P s P s2).
  { split; [exact (in_tx_bstep en p pid [] P [] s s2 T St (rd_bio _ _ _ _ _ _ _ _ R))| |apply R|intros m _ Hm'; by rewrite Hu]. exists s2, (k_itable s2). split; [apply dstep_tstep; by split|]. split; [by destruct s2|]. intros j _. by rewrite Et. }
  split; [exact (progress_trans en p pid dp P s P s2 P' s' G0 G)|]. split; [done|]. split.
  - destruct (Z.eqb_spec tot sizeof_dirent) as [->|Hne]; cbn [negb]; [left|right; split; [done|apply Hfull; lia]]. split; [done|]. split.
    + split; [done|apply (do_type _ _ D)|]. unfold i'. cbn [i_size set_i_size]. destruct (Z.max_spec (i_size i) (sizeof_dirent * k + sizeof_dirent)) as [[_ ->]|[_ ->]]; [|done]. replace (sizeof_dirent * k + sizeof_dirent) with ((k + 1) * sizeof_dirent) by lia. by apply Z.mod_mul.
    + assert (Ed : file_bytes (view s2) (i_addrs i) 0 (i_size i) = dir_data s i) by (unfold dir_data, file_bytes; apply list_fmap_ext; intros x y _; unfold fbyte, blk; by rewrite !V).
      unfold dir_data at 1. rewrite Hbytes, Ed. replace (take (Z.to_nat sizeof_dirent) b) with b by (symmetry; apply take_ge; unfold lenZ in Hbl; unfold sizeof_dirent in *; lia).
      rewrite dirents_write; [by rewrite Hde|by rewrite lenZ_dir_data by apply D|done|done].
  - intros m H1 H2 H3 H4 H5 H6. rewrite Hv; [apply V|by rewrite Es|by rewrite Hu| |by rewrite Es|done|].
    + unfold is_bitmap in *. by rewrite Es.
    + intros j Hj. unfold blk. rewrite !V. by apply H6.
Qed.

(** ** Properties *)

(** C17: [dirlookup] decides whether a name is in a directory.  If an entry in use
    has the name (equal up to a NUL or 14 characters), the offset of the first
    one is returned, with a reference to its inode: that of the table if the
    inode is there, or one in an unused slot otherwise.  If no entry has it, null
    is returned.  Nothing else changes but the cache. *)
Theorem dirlookup_finds P s dp i name : running en p pid s -> bio_inv pid [] P s -> lenZ P < NBUF -> fs_areas s -> lookupZ (k_itable s) dp = Some i -> dir_ok s i -> is_bytes name -> lenZ (k_itable s) = NINODE ->
  let es := dirents (dir_data s i) in
  (forall k e, first_hit name es k e -> slot_for ROOTDEV (de_inum e) (k_itable s) ->
    exists ip s1 t, dirlookup dp name s = Ok (Some (ip, sizeof_dirent * k)) (set_k_itable t s1) /\ igot ROOTDEV (de_inum e) (k_itable s) ip t /\
      dstep p s s1 /\ bio_inv pid [] P s1 /\ forall n, view s1 n = view s n) /\
  ((forall j e, lookupZ es j = Some e -> ~ hits name e) -> exists s1, dirlookup dp name s = Ok None s1 /\ dstep p s s1 /\ bio_inv pid [] P s1 /\ forall n, view s1 n = view s n).
Proof.
  intros Hr Hb HP F Hl D Hn Ht es. split.
  - intros k e Hh Hsl. destruct (dirlookup_hit P s dp i name k e Hr Hb HP F Hl D Hn Ht Hh Hsl) as (ip & s1 & t & E & Hg & R). exists ip, s1, t. split; [done|]. split; [done|]. by destruct R.
  - intros Hno. destruct (dirlookup_miss P s dp i name Hr Hb HP F Hl D Hn Hno) as (s1 & E & R). exists s1. split; [done|]. by destruct R.
Qed.

(** C16: [dirlink] adds a name to a directory.  For a new name it writes the entry
    into the first one that is not in use or behind the last, and leaves all
    other entries and all blocks of other files alone; it returns -1 only when the
    disk is full.  For a name that is there it returns -1 and changes neither
    the disk nor any inode in use. *)
Theorem dirlink_adds P s dp i name inum : uart_ready -> in_tx en p pid [] P s -> fs_areas s -> k_panicked s = 0 -> lookupZ (k_itable s) dp = Some i -> dir_ok s i -> inode_fits s i -> is_bytes name ->
  0 < inum < 2 ^ 16 -> i_size i + sizeof_dirent <= MAXFILE * BSIZE -> lenZ P + 6 < NBUF - 1 -> lenZ P + 6 < log_size (k_log s) - 2 -> lenZ (k_itable s) = NINODE ->
  let es := dirents (dir_data s i) in
  ((forall j e, lookupZ es j = Some e -> ~ hits name e) ->
    exists r k P' s' i', dirlink dp name inum s = Ok r s' /\ first_free es k /\ progress en p pid dp P s P' s' /\ lookupZ (k_itable s') dp = Some i' /\
      ((r = 0 /\ dir_ok s' i' /\ hits name (new_entry name inum) /\ dirents (dir_data s' i') = take (Z.to_nat k) es ++ new_entry name inum :: drop (Z.to_nat (k + 1)) es) \/ (r = -1 /\ all_used s')) /\
      forall m, 0 <= m < sb_size (k_sb s) -> in_use s m = true -> ~ is_bitmap s m -> m <> IBLOCK (i_inum i) (k_sb s) -> m <> ind (i_addrs i) ->
        (forall j, 0 <= j < MAXFILE -> m <> blk (view s) (i_addrs i) j) -> view s' m = view s m) /\
  (forall k e, first_hit name es k e -> slot_for ROOTDEV (de_inum e) (k_itable s) ->
    exists s', dirlink dp name inum s = Ok (-1) s' /\ (forall n, view s' n = view s n) /\
      forall j x, lookupZ (k_itable s) j = Some x -> exists x', lookupZ (k_itable s') j = Some x' /\ i_ref x' = i_ref x /\ (i_ref x <> 0 -> x' = x)).
Proof.
  intros Hrd T F Hpk Hl D Hfit Hn Hin Hsz HP Hlog Ht es. pose proof (tx_run _ _ _ _ _ _ T) as Hr. pose proof (tx_bio _ _ _ _ _ _ T) as Hb. split.
  - intros Hno. destruct (dirlookup_miss P s dp i name Hr Hb ltac:(lia) F Hl D Hn Hno) as (s1 & E1 & R1). pose proof (lenZ_es s i D) as Hes. fold es in Hes. pose proof (lenZ_nonneg es) as Hnn.
    destruct (dirlink_scan P s dp i (Z.to_nat (lenZ es)) ltac:(lia) D 0 (dir_fuel (i_size i)) s1 R1) as (k & s2 & Hk & E2 & R2); [lia|fold es; lia|unfold dir_fuel; rewrite <- Hes; lia|intros j e Hj He; pose proof (lookupZ_Some_range _ _ _ He); lia|].
    destruct (dirlink_write P s dp i name inum k s2 Hrd T Hpk R2 D Hfit Hn Hsz HP Hlog Hk) as (r & P' & s' & i' & E3 & G & Hl' & Hc & Hv). exists r, k, P', s', i'.
    split; [|split; [done|split; [done|split; [done|split; [|done]]]]].
    + unfold dirlink. rewrite (bind_ok _ _ _ _ _ E1). erewrite bind_ok by (apply run_get_inode, R1). change (sizeof_dirent * 0) with 0 in E2. rewrite (bind_ok _ _ _ _ _ E2). exact E3.
    + destruct Hc as [(-> & D' & Ee)|[-> Hu]]; [left|by right]. split; [done|]. split; [done|]. split; [by apply new_entry_hits|done].
  - intros k e Hh Hsl. destruct (dirlookup_hit P s dp i name k e Hr Hb ltac:(lia) F Hl D Hn Ht Hh Hsl) as (ip & s1 & t & E & Hg & R). destruct (bstep_same _ _ _ (proj1 (rd_step _ _ _ _ _ _ _ _ R))) as (_ & _ & Et & _).
    pose proof (rn_thread _ _ _ _ (rd_run _ _ _ _ _ _ _ _ R)) as Hk. destruct (iput_igot ROOTDEV (de_inum e) s1 ip t) as (t' & Ep & Hkeep); [apply Hk|apply Hk, (bool_decide_unpack _); by vm_compute|by rewrite Et|].
    exists (set_k_itable t' s1). split; [unfold dirlink; rewrite (bind_ok _ _ _ _ _ E); by rewrite (bind_ok _ _ _ _ _ Ep)|]. split; [apply (rd_view _ _ _ _ _ _ _ _ R)|]. rewrite Et in Hkeep. exact Hkeep.
Qed.
End Dir.

(** ** A directory with one entry, for the witnesses *)

Definition demo_dir : inode := mkInode ROOTDEV 1 1 1 T_DIR 0 0 1 16 (46 :: replicate 12 0).
Definition demo_entry : dirent := mkDirent 26984 (10 :: replicate 13 0).

Lemma demo_directory : exists s, @in_tx demo_disk demo_laws true 5 9 [] [] s /\ @fs_areas demo_disk demo_laws s /\ k_panicked s = 0 /\ log_size (k_log s) = 30 /\
  k_itable s = demo_dir :: replicate 49 zero_inode /\ dir_ok s demo_dir /\ inode_fits s demo_dir /\ dirents (dir_data s demo_dir) = [demo_entry].
Proof.
  destruct demo_inode as (s0 & T & F & Hp & Hg & _ & O & Hf & _ & Hb). exists (set_k_itable (demo_dir :: replicate 49 zero_inode) s0).
  split; [by apply in_tx_itable|]. split; [destruct F as [F1 F2 F3 F4]; split; [by destruct F1; split|exact F2|exact F3|exact F4]|]. split; [exact Hp|]. split; [exact Hg|]. split; [reflexivity|]. split; [|split; [exact Hf|]].
  - split; [|reflexivity|reflexivity]. destruct O as [O1 O2 O3 O4 O5 O6 O7]. split; [reflexivity|reflexivity|by compute|exact O4|exact O5|exact O6|]. intros j Hj Hsz. apply O7; [done|]. cbn [i_size demo_dir demo_file] in *. unfold BSIZE in *. lia.
  - unfold dir_data. change (file_bytes _ _ _ _) with (file_bytes (view s0) (i_addrs demo_file) 0 16). rewrite Hb. reflexivity.
Qed.

Lemma dirlookup_finds_witness : exists s ip s', @dirlookup ready_uart demo_patience demo_disk 0 [10] s = Ok (Some (ip, 0)) s'.
Proof.
  destruct demo_directory as (s & T & F & Hp & Hg & Et & D & Hf & Ee).
  destruct (@dirlookup_finds demo_disk demo_laws demo_patience ready_uart true 5 9 [] s 0 demo_dir [10] (tx_run _ _ _ _ _ _ T) (tx_bio _ _ _ _ _ _ T) ltac:(by compute) F) as [H _]; [by rewrite Et|exact D|repeat constructor; lia|by rewrite Et|].
  rewrite Ee in H. destruct (H 0 demo_entry) as (ip & s1 & t & E & _); [|rewrite Et; exists 1, zero_inode; split; [reflexivity|by right]|].
  - split; [reflexivity|]. split; [|intros j ej Hj Hl; apply lookupZ_Some_range in Hl; lia]. split; [discriminate|]. apply (namecmp_zero [10] demo_entry); [repeat constructor; lia|repeat constructor; by compute|reflexivity].
  - exists s, ip, (set_k_itable t s1). exact E.
Defined.

Lemma dirlink_adds_witness : exists s r s', @dirlink ready_uart demo_patience demo_disk 0 [97] 5 s = Ok r s'.
Proof.
  destruct demo_directory as (s & T & F & Hp & Hg & Et & D & Hf & Ee). assert (Hu : @uart_ready ready_uart) by (intros h; exists 0%nat; split; [simpl; lia|by compute]).
  destruct (@dirlink_adds demo_disk demo_laws demo_patience ready_uart true 5 9 [] s 0 demo_dir [97] 5 Hu T F Hp) as [H _]; [by rewrite Et|exact D|exact Hf|repeat constructor; lia|lia|by compute|by compute|rewrite Hg; by compute|by rewrite Et|].
  rewrite Ee in H. destruct H as (r & k & P' & s' & i' & E & _); [|exists s, r, s'; exact E].
  intros j e He [_ Hag]. assert (e = demo_entry) as ->. { pose proof (lookupZ_Some_range _ _ _ He) as Hr. change (lenZ [demo_entry]) with 1 in Hr. assert (j = 0) as -> by lia. by injection He. }
  specialize (Hag 0 ltac:(by compute) ltac:(intros; lia)). discriminate.
Defined.
