(* ===== verification/Mkfs.v ===== *)
(** * The program that builds the image of the disk ([mkfs/mkfs.c])

    It runs on the host.  The image file is the list of its blocks; a write
    behind the end of the file extends it, a read there is short.  The
    structures in the image are stored with the least significant byte first,
    as on the host.  Of the files to copy, the path, whether it can be opened
    and the results of the successive calls of [read] are given.  A failed
    [assert], [die] and [exit(1)] end the program. *)

From S2P Require Import Prelude Riscv State Spinlock Str Sched Printf FsLayout Bio Log Tx Fs FsAlloc FsInode.

(** ** Definitions *)

Definition NINODES : Z := 200.
Definition nbitmap : Z := FSSIZE / BPB + 1.
Definition ninodeblocks : Z := NINODES / IPB + 1.
Definition nlog : Z := LOGSIZE.
Definition zeroes : list Z := replicate (Z.to_nat BSIZE) 0.

(** The global variables [sb], [freeinode] and [freeblock], and the file
    [fsfd]. *)
Record mkst := mkMkst {
  mk_img : list (list Z);
  mk_sb : superblock;
  mk_freeinode : Z;
  mk_freeblock : Z;
}.
Definition set_mk_img (x : list (list Z)) (s : mkst) : mkst := mkMkst x (mk_sb s) (mk_freeinode s) (mk_freeblock s).
Definition set_mk_sb (x : superblock) (s : mkst) : mkst := mkMkst (mk_img s) x (mk_freeinode s) (mk_freeblock s).
Definition set_mk_freeinode (x : Z) (s : mkst) : mkst := mkMkst (mk_img s) (mk_sb s) x (mk_freeblock s).
Definition set_mk_freeblock (x : Z) (s : mkst) : mkst := mkMkst (mk_img s) (mk_sb s) (mk_freeinode s) x.

Inductive mkres (A : Type) :=
| Done (x : A) (s : mkst)
| Die (why : string).
Arguments Done {A}. Arguments Die {A}.

Definition host (A : Type) : Type := mkst -> mkres A.
Definition hret {A} (x : A) : host A := fun s => Done x s.
Definition hbind {A B} (m : host A) (f : A -> host B) : host B := fun s =>
  match m s with
  | Done x s' => f x s'
  | Die why => Die why
  end.
Definition hget {A} (f : mkst -> A) : host A := fun s => Done (f s) s.
Definition hset (f : mkst -> mkst) : host unit := fun s => Done tt (f s).
Definition die {A} (why : string) : host A := fun _ => Die why.
Definition assert_ (b : bool) : host unit := if b then hret tt else die "assert".

Declare Scope host_scope.
Delimit Scope host_scope with host.
Notation "'let*' x ':=' p 'in' q" := (hbind p (fun x => q)) (at level 200, x pattern, right associativity) : host_scope.
Notation "'do*' p 'in' q" := (hbind p (fun _ => q)) (at level 200, right associativity) : host_scope.
Open Scope host_scope.

(** [xshort] and [xint]: the number whose bytes in memory are these. *)
Definition xshort (x : Z) : Z := le_combine [u8 x; u8 (Z.shiftr x 8)].
Definition xint (x : Z) : Z := le_combine [u8 x; u8 (Z.shiftr x 8); u8 (Z.shiftr x 16); u8 (Z.shiftr x 24)].

(** The block at the file position [sec * BSIZE], which is a [uint]. *)
Definition sector (sec : Z) : Z := u32 (sec * BSIZE) / BSIZE.

Definition put_sector (img : list (list Z)) (n : Z) (buf : list Z) : list (list Z) :=
  if n <? lenZ img then insertZ n buf img
  else img ++ replicate (Z.to_nat (n - lenZ img)) zeroes ++ [buf].

Definition wsect (sec : Z) (buf : list Z) : host unit := hset (fun s => set_mk_img (put_sector (mk_img s) (sector sec) buf) s).

Definition rsect (sec : Z) : host (list Z) := fun s =>
  match lookupZ (mk_img s) (sector sec) with
  | Some buf => Done buf s
  | None => Die "read"
  end.

Definition winode (inum : Z) (ip : dinode) : host unit :=
  let* sb := hget mk_sb in
  let bn := IBLOCK inum sb in
  let* buf := rsect bn in
  wsect bn (put_dinode buf (dinode_off inum) ip).

Definition rinode (inum : Z) : host dinode :=
  let* sb := hget mk_sb in
  let* buf := rsect (IBLOCK inum sb) in
  hret (get_dinode buf (dinode_off inum)).

Definition ialloc (type : Z) : host Z :=
  let* inum := hget mk_freeinode in
  do* hset (set_mk_freeinode (u32 (inum + 1))) in
  let din := mkDinode (i16 (xshort type)) 0 0 (i16 (xshort 1)) (xint 0) (replicate (Z.to_nat (NDIRECT + 1)) 0) in
  do* winode inum din in
  hret inum.

Fixpoint mark_used (n : nat) (i : Z) (buf : list Z) : list Z :=
  match n with
  | O => buf
  | S n' => mark_used n' (i + 1) (insertZ (i / 8) (u8 (Z.lor (default 0 (lookupZ buf (i / 8))) (Z.shiftl 1 (i mod 8)))) buf)
  end.

Definition balloc (used : Z) : host unit :=
  do* assert_ (used <? BPB) in
  let buf := mark_used (Z.to_nat used) 0 zeroes in
  let* sb := hget mk_sb in
  wsect (sb_bmapstart sb) buf.

(** [freeblock++] *)
Definition next_block : host Z :=
  let* b := hget mk_freeblock in
  do* hset (set_mk_freeblock (u32 (b + 1))) in
  hret b.

(** An entry of [din.addrs], allocated if it is 0. *)
Definition dinode_addr (din : dinode) (j : Z) : host dinode :=
  if xint (default 0 (lookupZ (di_addrs din) j)) =? 0 then
    let* b := next_block in
    hret (mkDinode (di_type din) (di_major din) (di_minor din) (di_nlink din) (di_size din) (insertZ j (xint b) (di_addrs din)))
  else hret din.

(** Entry [k] of the indirect block [a], allocated if it is 0. *)
Definition indirect_addr (a k : Z) : host Z :=
  let* indirect := rsect a in
  let* indirect :=
    (if get_u32 indirect (4 * k) =? 0 then
       let* b := next_block in
       let indirect := put_u32 indirect (4 * k) (xint b) in
       do* wsect a indirect in
       hret indirect
     else hret indirect) in
  hret (xint (get_u32 indirect (4 * k))).

(** The block [x] of the [fbn]-th piece of the file. *)
Definition file_block (din : dinode) (fbn : Z) : host (dinode * Z) :=
  if fbn <? NDIRECT then
    let* din := dinode_addr din fbn in
    hret (din, xint (default 0 (lookupZ (di_addrs din) fbn)))
  else
    let* din := dinode_addr din NDIRECT in
    let* x := indirect_addr (xint (default 0 (lookupZ (di_addrs din) NDIRECT))) (fbn - NDIRECT) in
    hret (din, x).

(** The loop of [iappend]; every turn consumes a byte or more, so that [n] is
    enough fuel. *)
Fixpoint iappend_loop (fuel : nat) (din : dinode) (off : Z) (p : list Z) (n : Z) : host (dinode * Z) :=
  match fuel with
  | O => hret (din, off)
  | S fuel' =>
    if 0 <? n then
      let fbn := off / BSIZE in
      do* assert_ (fbn <? MAXFILE) in
      let* (din, x) := file_block din fbn in
      let n1 := Z.min n (u32 ((fbn + 1) * BSIZE - off)) in
      let* buf := rsect x in
      do* wsect x (put_bytes buf (off - fbn * BSIZE) (take (Z.to_nat n1) p)) in
      iappend_loop fuel' din (u32 (off + n1)) (drop (Z.to_nat n1) p) (n - n1)
    else hret (din, off)
  end.

Definition iappend (inum : Z) (xp : list Z) : host unit :=
  let n := lenZ xp in
  let* din := rinode inum in
  let* (din, off) := iappend_loop (Z.to_nat n) din (xint (di_size din)) xp n in
  winode inum (mkDinode (di_type din) (di_major din) (di_minor din) (di_nlink din) (xint off) (di_addrs din)).

(** A file of the command line: [argv[i]], and the buffers that the calls of
    [read] fill, if [open] succeeds. *)
Record hostfile := mkHostfile {
  hf_path : list Z;
  hf_reads : option (list (list Z));
}.

(** The name in the image: without [user/] in front, and without the
    underscore. *)
Definition strip_dir (path : list Z) : list Z :=
  if decide (take 5 path = chars "user/") then drop 5 path else path.
Definition strip_underscore (name : list Z) : list Z :=
  if head name is Some c then (if c =? ch "_" then tail name else name) else name.

(** A zeroed [struct dirent] with its fields stored, as bytes. *)
Definition entry (inum : Z) (name : list Z) : list Z :=
  dirent_bytes (mkDirent (xshort inum) (strncpy (str_of name) DIRSIZ)).

Fixpoint copy_loop (inum : Z) (reads : list (list Z)) : host unit :=
  match reads with
  | [] => hret tt
  | buf :: reads' => if 0 <? lenZ buf then do* iappend inum buf in copy_loop inum reads' else hret tt
  end.

Definition add_file (rootino : Z) (f : hostfile) : host unit :=
  let shortname := strip_dir (hf_path f) in
  do* assert_ (negb (existsb (Z.eqb (ch "/")) shortname)) in
  match hf_reads f with
  | None => die "open"
  | Some reads =>
    let shortname := strip_underscore shortname in
    do* assert_ (lenZ shortname <=? DIRSIZ) in
    let* inum := ialloc T_FILE in
    do* iappend rootino (entry inum shortname) in
    copy_loop inum reads
  end.

Fixpoint add_files (rootino : Z) (files : list hostfile) : host unit :=
  match files with
  | [] => hret tt
  | f :: files' => do* add_file rootino f in add_files rootino files'
  end.

Fixpoint zero_sectors (n : nat) (i : Z) : host unit :=
  match n with
  | O => hret tt
  | S n' => do* wsect i zeroes in zero_sectors n' (i + 1)
  end.

Definition nmeta : Z := 2 + nlog + ninodeblocks + nbitmap.
Definition new_sb : superblock :=
  mkSuperblock FSMAGIC (xint FSSIZE) (xint (FSSIZE - nmeta)) (xint NINODES) (xint nlog) (xint 2) (xint (2 + nlog))
    (xint (2 + nlog + ninodeblocks)).
Definition superblock_bytes (sb : superblock) : list Z :=
  words_bytes [sb_magic sb; sb_size sb; sb_nblocks sb; sb_ninodes sb; sb_nlog sb; sb_logstart sb; sb_inodestart sb; sb_bmapstart sb].

(** The size of the root directory is made a multiple of the block size. *)
Definition round_root (rootino : Z) : host unit :=
  let* din := rinode rootino in
  let off := xint (di_size din) in
  let off := u32 ((off / BSIZE + 1) * BSIZE) in
  winode rootino (mkDinode (di_type din) (di_major din) (di_minor din) (di_nlink din) (xint off) (di_addrs din)).

(** [main] once the image is open and empty; [files] is [argv[2..]]. *)
Definition main (files : list hostfile) : host unit :=
  do* hset (set_mk_sb new_sb) in
  do* hset (set_mk_freeblock nmeta) in
  do* zero_sectors (Z.to_nat FSSIZE) 0 in
  do* wsect 1 (put_bytes zeroes 0 (superblock_bytes new_sb)) in
  let* rootino := ialloc T_DIR in
  do* assert_ (rootino =? ROOTINO) in
  do* iappend rootino (entry rootino (chars ".")) in
  do* iappend rootino (entry rootino (chars "..")) in
  do* add_files rootino files in
  do* round_root rootino in
  let* freeblock := hget mk_freeblock in
  balloc freeblock.

(** The variables of a program that starts. *)
Definition initial : mkst := mkMkst [] (mkSuperblock 0 0 0 0 0 0 0 0) 1 0.

(** ** Specification *)

(** Block [n] of the image. *)
Definition sect (s : mkst) (n : Z) : list Z := default [] (lookupZ (mk_img s) n).

(** The number of pieces of a file, and of blocks with the indirect one. *)
Definition pieces (size : Z) : Z := (size + BSIZE - 1) / BSIZE.
Definition blocks_of (nb : Z) : Z := nb + (if NDIRECT <? nb then 1 else 0).
Definition cost (size : Z) : Z := blocks_of (pieces size).

(** The image is whole; blocks from [freeblock] on are not used yet. *)
Record base (s : mkst) : Prop := {
  ba_len : lenZ (mk_img s) = FSSIZE;
  ba_block : forall n, 0 <= n < FSSIZE -> is_block (sect s n);
  ba_sb : mk_sb s = new_sb;
  ba_free : nmeta <= mk_freeblock s <= FSSIZE;
  ba_boot : sect s 0 = zeroes;
  ba_zero : forall n, mk_freeblock s <= n < FSSIZE -> sect s n = zeroes;
}.

(** The inode [inum] with the addresses [A] has [nb] pieces and the bytes
    [c], and then zeros.  The blocks are below [fb], and [own] says of a block
    which piece of which inode it is; -1 is the indirect block. *)
Record holds (own : Z -> Z * Z) (fb : Z) (v : Z -> list Z) (A : list Z) (inum nb : Z) (c : list Z) : Prop := {
  ho_len : lenZ A = NDIRECT + 1;
  ho_nb : 0 <= nb <= MAXFILE;
  ho_size : lenZ c <= nb * BSIZE;
  ho_ind : if nb <=? NDIRECT then ind A = 0 else nmeta <= ind A < fb /\ own (ind A) = (inum, -1);
  ho_blk : forall j, 0 <= j < MAXFILE -> if j <? nb then nmeta <= blk v A j < fb /\ own (blk v A j) = (inum, j) else blk v A j = 0;
  ho_bytes : forall x, 0 <= x < MAXFILE * BSIZE -> fbyte v A x = default 0 (lookupZ c x);
}.

(** A step that only changes blocks of [inum]. *)
Record mstep (inum : Z) (own : Z -> Z * Z) (s : mkst) (own' : Z -> Z * Z) (s' : mkst) : Prop := {
  ms_inode : mk_freeinode s' = mk_freeinode s;
  ms_free : mk_freeblock s <= mk_freeblock s';
  ms_own : forall b, b < mk_freeblock s -> own' b = own b;
  ms_sect : forall n, sect s' n = sect s n \/ nmeta <= n < mk_freeblock s' /\ (own' n).1 = inum;
}.

(** ** Lemmas *)

Lemma xint_id x : 0 <= x < 2 ^ 32 -> xint x = x.
Proof.
  intros H. transitivity (le_combine (le_split 4 x)); [|rewrite le_combine_split; apply Z.mod_small; exact H].
  unfold xint. f_equal. cbn [le_split]. unfold u8. rewrite !Z.shiftr_div_pow2 by lia. rewrite !Z.div_div by lia. reflexivity.
Qed.

Lemma xshort_id x : 0 <= x < 2 ^ 16 -> xshort x = x.
Proof.
  intros H. transitivity (le_combine (le_split 2 x)); [|rewrite le_combine_split; apply Z.mod_small; exact H].
  unfold xshort. f_equal. cbn [le_split]. unfold u8. rewrite !Z.shiftr_div_pow2 by lia. reflexivity.
Qed.

Lemma sector_id n : 0 <= n < FSSIZE -> sector n = n.
Proof. intros H. unfold sector. unfold FSSIZE in H. rewrite u32_small by (unfold BSIZE; lia). apply Z.div_mul. done. Qed.

Lemma hbind_ok {A B} (m : host A) (f : A -> host B) s x s' : m s = Done x s' -> hbind m f s = f x s'.
Proof. unfold hbind. by intros ->. Qed.

Lemma rsect_ok s n : base s -> 0 <= n < FSSIZE -> rsect n s = Done (sect s n) s.
Proof.
  intros B Hn. unfold rsect, sect. rewrite sector_id by done. destruct (lookupZ_is_Some (mk_img s) n) as [d ->]; [by rewrite (ba_len _ B)|done].
Qed.

Lemma wsect_ok s n buf : base s -> 0 <= n < FSSIZE -> exists s', wsect n buf s = Done tt s' /\ mk_sb s' = mk_sb s /\ mk_freeinode s' = mk_freeinode s /\
  mk_freeblock s' = mk_freeblock s /\ lenZ (mk_img s') = FSSIZE /\ forall m, sect s' m = if m =? n then buf else sect s m.
Proof.
  intros B Hn. exists (set_mk_img (insertZ n buf (mk_img s)) s). unfold wsect, hset, put_sector. rewrite sector_id, (ba_len _ B) by done.
  destruct (Z.ltb_spec n FSSIZE); [|lia]. split; [done|]. repeat (split; [done|]). split; [cbn [mk_img set_mk_img]; by rewrite lenZ_insertZ, (ba_len _ B)|].
  intros m. unfold sect. cbn [mk_img set_mk_img]. destruct (Z.eqb_spec m n) as [->|]; [rewrite lookupZ_insertZ_eq by (by rewrite (ba_len _ B)); done|by rewrite lookupZ_insertZ_ne].
Qed.

(** Storing a block below [freeblock] keeps the image whole. *)
Lemma wsect_base s n buf : base s -> 0 < n < mk_freeblock s -> is_block buf -> exists s', wsect n buf s = Done tt s' /\ base s' /\
  mk_freeinode s' = mk_freeinode s /\ mk_freeblock s' = mk_freeblock s /\ forall m, sect s' m = if m =? n then buf else sect s m.
Proof.
  intros B Hn Hb. pose proof (ba_free _ B) as Hf. destruct (wsect_ok s n buf B ltac:(lia)) as (s' & E & E1 & E2 & E3 & E4 & V). exists s'. split; [done|]. split; [|done].
  split; rewrite ?E1, ?E3; try done.
  - intros m Hm. rewrite V. destruct (m =? n); [done|by apply (ba_block _ B)].
  - apply (ba_sb _ B).
  - rewrite V. destruct (Z.eqb_spec 0 n); [lia|apply (ba_boot _ B)].
  - intros m Hm. rewrite V. destruct (Z.eqb_spec m n); [lia|by apply (ba_zero _ B)].
Qed.

Lemma next_block_ok s : base s -> mk_freeblock s < FSSIZE -> let s' := set_mk_freeblock (mk_freeblock s + 1) s in
  next_block s = Done (mk_freeblock s) s' /\ base s'.
Proof.
  intros B Hf s'. pose proof (ba_free _ B) as Hr. split.
  - unfold next_block, hbind, hget, hset, hret. rewrite u32_small; [done|]. unfold nmeta, FSSIZE in *. unfold nlog, ninodeblocks, nbitmap, LOGSIZE, MAXOPBLOCKS in *. change (NINODES / IPB) with 12 in *. change (FSSIZE / BPB) with 0 in *. lia.
  - destruct B as [B1 B2 B3 B4 B5 B6]. split; try done; cbn [mk_freeblock set_mk_freeblock s']; [lia|]. intros n Hn. by apply B6; lia.
Qed.

Lemma mstep_refl inum own s : mstep inum own s own s.
Proof. split; try done. intros n. by left. Qed.

Lemma mstep_trans inum own s own1 s1 own2 s2 : mstep inum own s own1 s1 -> mstep inum own1 s1 own2 s2 -> mstep inum own s own2 s2.
Proof.
  intros [A1 A2 A3 A4] [B1 B2 B3 B4]. split; [congruence|lia|intros b Hb; rewrite B3 by lia; by apply A3|]. intros n.
  destruct (B4 n) as [->|H]; [|by right]. destruct (A4 n) as [->|[H1 H2]]; [by left|]. right. split; [lia|]. by rewrite B3 by lia.
Qed.

Lemma nmeta_eq : nmeta = 46.
Proof. reflexivity. Qed.

Lemma zeroes_block : is_block zeroes.
Proof. exact zero_is_block. Qed.

Lemma lookup_zeroes x : default 0 (lookupZ zeroes x) = 0.
Proof.
  destruct (Z_lt_le_dec x 0); [by rewrite lookupZ_None by (pose proof (lenZ_nonneg zeroes); lia)|].
  destruct (Z_lt_le_dec x BSIZE); [unfold zeroes; by rewrite lookupZ_replicate by (unfold BSIZE in *; lia)|].
  rewrite lookupZ_None; [done|]. unfold zeroes. rewrite lenZ_replicate. unfold BSIZE in *. lia.
Qed.

Lemma get_u32_zeroes k : 0 <= k < NINDIRECT -> get_u32 zeroes (4 * k) = 0.
Proof.
  intros Hk. unfold get_u32, get_bytes, zeroes. rewrite drop_replicate, take_replicate. unfold NINDIRECT, BSIZE in *. change (1024 / 4) with 256 in Hk.
  replace (Z.to_nat 4 `min` (Z.to_nat 1024 - Z.to_nat (4 * k)))%nat with 4%nat by lia. reflexivity.
Qed.

(** The part of [blk] behind the indirect block. *)
Lemma blk_ind v A j : NDIRECT <= j -> ind A <> 0 -> blk v A j = get_u32 (v (ind A)) (4 * (j - NDIRECT)).
Proof. intros Hj Hi. unfold blk. destruct (Z.ltb_spec j NDIRECT); [lia|]. by destruct (Z.eqb_spec (ind A) 0). Qed.

Lemma blk_dir v A j : j < NDIRECT -> blk v A j = default 0 (lookupZ A j).
Proof. intros Hj. unfold blk. by destruct (Z.ltb_spec j NDIRECT); [|lia]. Qed.

Lemma holds_piece own fb v A inum nb c j : holds own fb v A inum nb c -> 0 <= j < nb -> nmeta <= blk v A j < fb /\ own (blk v A j) = (inum, j).
Proof. intros H Hj. pose proof (ho_nb _ _ _ _ _ _ _ H). pose proof (ho_blk _ _ _ _ _ _ _ H j ltac:(lia)) as Hb. by destruct (Z.ltb_spec j nb); [|lia]. Qed.

Lemma holds_none own fb v A inum nb c j : holds own fb v A inum nb c -> nb <= j < MAXFILE -> blk v A j = 0.
Proof. intros H Hj. pose proof (ho_nb _ _ _ _ _ _ _ H). pose proof (ho_blk _ _ _ _ _ _ _ H j ltac:(lia)) as Hb. by destruct (Z.ltb_spec j nb); [lia|]. Qed.

Lemma holds_ind own fb v A inum nb c : holds own fb v A inum nb c -> NDIRECT < nb -> nmeta <= ind A < fb /\ own (ind A) = (inum, -1).
Proof. intros H Hn. pose proof (ho_ind _ _ _ _ _ _ _ H) as Hi. by destruct (Z.leb_spec nb NDIRECT); [lia|]. Qed.

(** No block is in two places. *)
Lemma holds_apart own fb v A A' inum inum' nb nb' c c' x x' : holds own fb v A inum nb c -> holds own fb v A' inum' nb' c' -> blk v A x = blk v A' x' -> blk v A x <> 0 -> 0 <= x < MAXFILE -> 0 <= x' < MAXFILE ->
  inum = inum' /\ x = x'.
Proof.
  intros H H' E Hne Hx Hx'. pose proof (ho_blk _ _ _ _ _ _ _ H x Hx) as H1. pose proof (ho_blk _ _ _ _ _ _ _ H' x' Hx') as H2. rewrite <- E in H2.
  destruct (x <? nb), (x' <? nb'); try done. destruct H1 as [_ H1], H2 as [_ H2]. rewrite H1 in H2. by injection H2.
Qed.

(** Another inode, or steps on other blocks. *)
Lemma holds_frame own fb v A inum nb c own' fb' v' : holds own fb v A inum nb c -> fb <= fb' -> (forall b, b < fb -> own' b = own b) -> v' 0 = v 0 ->
  (forall b, nmeta <= b < fb -> (own b).1 = inum -> v' b = v b) -> holds own' fb' v' A inum nb c.
Proof.
  intros H Hf Ho H0 Hv. assert (Hi : ind A = 0 \/ v' (ind A) = v (ind A)).
  { pose proof (ho_ind _ _ _ _ _ _ _ H) as Hi. destruct (nb <=? NDIRECT); [by left|right]. destruct Hi as [Hr Ei]. apply Hv; [done|by rewrite Ei]. }
  split; [apply H|apply H|apply H| | |].
  - pose proof (ho_ind _ _ _ _ _ _ _ H) as Hn. destruct (nb <=? NDIRECT); [done|]. destruct Hn as [Hr Ei]. split; [lia|]. by rewrite Ho by lia.
  - intros j Hj. rewrite (blk_ext v v' A j Hi). pose proof (ho_blk _ _ _ _ _ _ _ H j Hj) as Hb. destruct (j <? nb); [|done]. destruct Hb as [Hr Eb]. split; [lia|]. by rewrite Ho by lia.
  - intros x Hx. rewrite <- (ho_bytes _ _ _ _ _ _ _ H x Hx). unfold fbyte. rewrite (blk_ext v v' A _ Hi). do 2 f_equal.
    assert (Hj : 0 <= x / BSIZE < MAXFILE) by (split; [apply Z.div_pos; [lia|done]|apply Z.div_lt_upper_bound; [done|lia]]).
    pose proof (ho_blk _ _ _ _ _ _ _ H _ Hj) as Hb. destruct (x / BSIZE <? nb); [|by rewrite Hb]. destruct Hb as [Hr Eb]. apply Hv; [done|by rewrite Eb].
Qed.

(** One more piece, of zeros. *)
Lemma holds_extend own fb v A inum nb c own' fb' v' A' b : holds own fb v A inum nb c -> nb < MAXFILE -> fb <= b < fb' -> nmeta <= fb -> (forall x, x < fb -> own' x = own x) ->
  own' b = (inum, nb) -> lenZ A' = NDIRECT + 1 -> blk v' A' nb = b -> (forall j, 0 <= j < MAXFILE -> j <> nb -> blk v' A' j = blk v A j) ->
  (if nb + 1 <=? NDIRECT then ind A' = 0 else nmeta <= ind A' < fb' /\ own' (ind A') = (inum, -1)) -> v' 0 = v 0 -> (forall n, n <> ind A' -> v' n = v n) -> v b = zeroes ->
  holds own' fb' v' A' inum (nb + 1) c.
Proof.
  intros H Hn Hb Hfb Ho Hob Hlen Hnew Hold Hind H0 Hv Hz. pose proof (ho_nb _ _ _ _ _ _ _ H) as Hnb. pose proof (ho_size _ _ _ _ _ _ _ H) as Hsz. split; [done|lia|unfold BSIZE in *; lia|done| |].
  - intros j Hj. destruct (Z.eqb_spec j nb) as [->|Hne].
    + destruct (Z.ltb_spec nb (nb + 1)); [|lia]. rewrite Hnew. split; [lia|done].
    + rewrite Hold by done. pose proof (ho_blk _ _ _ _ _ _ _ H j Hj) as Hbj. destruct (Z.ltb_spec j nb), (Z.ltb_spec j (nb + 1)); try lia.
      destruct Hbj as [Hr Eb]. split; [lia|]. by rewrite Ho by lia.
  - intros x Hx. assert (Hj : 0 <= x / BSIZE < MAXFILE) by (split; [apply Z.div_pos; [lia|done]|apply Z.div_lt_upper_bound; [done|lia]]).
    assert (Hni : forall m, own' m <> (inum, -1) -> m <> 0 -> v' m = v m).
    { intros m Hm Hm0. apply Hv. intros ->. destruct (nb + 1 <=? NDIRECT); [done|]. by destruct Hind as [_ ?]. }
    unfold fbyte. destruct (Z.eqb_spec (x / BSIZE) nb) as [Ex|Hne].
    + assert (Hvb : v' b = zeroes) by (rewrite Hni; [done|rewrite Hob; intros [= E]; lia|rewrite nmeta_eq in *; lia]).
      rewrite Ex, Hnew, Hvb, lookup_zeroes. rewrite lookupZ_None; [done|]. intros Hc. pose proof (Z.mul_div_le x BSIZE ltac:(done)). lia.
    + rewrite Hold by done. rewrite <- (ho_bytes _ _ _ _ _ _ _ H x Hx). unfold fbyte. do 2 f_equal. pose proof (ho_blk _ _ _ _ _ _ _ H _ Hj) as Hbj.
      destruct (x / BSIZE <? nb); [|by rewrite Hbj]. destruct Hbj as [Hr Eb]. apply Hni; [rewrite Ho by lia; rewrite Eb; intros [=]; lia|rewrite nmeta_eq in *; lia].
Qed.

Definition with_addrs (A : list Z) (din : dinode) : dinode := mkDinode (di_type din) (di_major din) (di_minor din) (di_nlink din) (di_size din) A.

Lemma with_addrs_same din : with_addrs (di_addrs din) din = din.
Proof. by destruct din. Qed.

Lemma xint_block s b : base s -> 0 <= b <= mk_freeblock s -> xint b = b.
Proof. intros B Hb. pose proof (ba_free _ B). apply xint_id. unfold FSSIZE in *. lia. Qed.

(** Entry [j] of the inode, if it is there and if not. *)
Lemma dinode_addr_hit s din j : base s -> nmeta <= default 0 (lookupZ (di_addrs din) j) < mk_freeblock s -> dinode_addr din j s = Done din s.
Proof. intros B Hb. rewrite nmeta_eq in Hb. unfold dinode_addr. rewrite (xint_block s) by (done || lia). by destruct (Z.eqb_spec (default 0 (lookupZ (di_addrs din) j)) 0); [lia|]. Qed.

Lemma dinode_addr_new s din j : base s -> default 0 (lookupZ (di_addrs din) j) = 0 -> mk_freeblock s < FSSIZE ->
  let s' := set_mk_freeblock (mk_freeblock s + 1) s in
  dinode_addr din j s = Done (with_addrs (insertZ j (mk_freeblock s) (di_addrs din)) din) s' /\ base s'.
Proof.
  intros B E Hf s'. destruct (next_block_ok s B Hf) as [En B']. split; [|done]. unfold dinode_addr. rewrite E, xint_id by lia. cbn [Z.eqb].
  rewrite (hbind_ok _ _ _ _ _ En). unfold hret. pose proof (ba_free _ B) as Hr. rewrite nmeta_eq in Hr. by rewrite (xint_block s) by (done || lia).
Qed.

Lemma indirect_hit s a k : base s -> 0 <= a < FSSIZE -> 0 < get_u32 (sect s a) (4 * k) <= mk_freeblock s -> indirect_addr a k s = Done (get_u32 (sect s a) (4 * k)) s.
Proof.
  intros B Ha Hg. unfold indirect_addr. rewrite (hbind_ok _ _ _ _ _ (rsect_ok s a B Ha)). destruct (Z.eqb_spec (get_u32 (sect s a) (4 * k)) 0); [lia|].
  unfold hbind, hret. by rewrite (xint_block s) by (done || lia).
Qed.

Lemma indirect_new s a k : base s -> nmeta <= a < mk_freeblock s -> 0 <= k < NINDIRECT -> get_u32 (sect s a) (4 * k) = 0 -> mk_freeblock s < FSSIZE ->
  exists s', indirect_addr a k s = Done (mk_freeblock s) s' /\ base s' /\ mk_freeinode s' = mk_freeinode s /\ mk_freeblock s' = mk_freeblock s + 1 /\
    forall m, sect s' m = if m =? a then put_u32 (sect s a) (4 * k) (mk_freeblock s) else sect s m.
Proof.
  intros B Ha Hk E0 Hf. pose proof (ba_free _ B) as Hr. rewrite nmeta_eq in *. destruct (next_block_ok s B Hf) as [En B']. set (s1 := set_mk_freeblock (mk_freeblock s + 1) s) in *.
  assert (Hks : 0 <= 4 * k /\ 4 * k + 4 <= BSIZE) by (unfold NINDIRECT, BSIZE in *; change (1024 / 4) with 256 in Hk; lia). pose proof (ba_block _ B a ltac:(lia)) as Hba.
  destruct (wsect_base s1 a (put_u32 (sect s a) (4 * k) (mk_freeblock s)) B' ltac:(cbn; lia)) as (s' & Ew & B'' & E1 & E2 & V); [apply put_u32_block; [exact Hba|apply Hks|apply Hks]|].
  exists s'. split; [|split; [done|split; [done|split; [done|exact V]]]]. unfold indirect_addr. rewrite (hbind_ok _ _ _ _ _ (rsect_ok s a B ltac:(lia))).
  rewrite E0. cbn [Z.eqb]. erewrite hbind_ok; [|rewrite (hbind_ok _ _ _ _ _ En); cbv zeta; rewrite (xint_block s (mk_freeblock s)) by (done || lia); rewrite (hbind_ok _ _ _ _ _ Ew); reflexivity].
  unfold hret. rewrite entry_put by (done || lia || (unfold FSSIZE in *; lia)). by rewrite (xint_block s) by (done || lia).
Qed.

Lemma file_block_hit own s inum nb c din fbn : base s -> holds own (mk_freeblock s) (sect s) (di_addrs din) inum nb c -> 0 <= fbn < nb ->
  file_block din fbn s = Done (din, blk (sect s) (di_addrs din) fbn) s.
Proof.
  intros B H Hn. pose proof (ba_free _ B) as Hf. destruct (holds_piece _ _ _ _ _ _ _ fbn H Hn) as [Hr _]. pose proof nmeta_eq as Em. unfold file_block. destruct (Z.ltb_spec fbn NDIRECT) as [Hd|Hd].
  - rewrite blk_dir in Hr by done. rewrite (hbind_ok _ _ _ _ _ (dinode_addr_hit s din fbn B Hr)). unfold hret. rewrite blk_dir by done. by rewrite (xint_block s) by (done || lia).
  - destruct (holds_ind _ _ _ _ _ _ _ H ltac:(lia)) as [Hi _]. rewrite (hbind_ok _ _ _ _ _ (dinode_addr_hit s din NDIRECT B Hi)). rewrite blk_ind in Hr by lia.
    fold (ind (di_addrs din)). rewrite (xint_block s) by (done || lia). erewrite hbind_ok by (apply indirect_hit; [done|lia|lia]). rewrite blk_ind by lia. done.
Qed.

(** The owners when block [b] becomes piece [j] of [inum]. *)
Definition give (own : Z -> Z * Z) (b inum j : Z) : Z -> Z * Z := fun x => if x =? b then (inum, j) else own x.

Lemma give_eq own b inum j : give own b inum j b = (inum, j).
Proof. unfold give. by rewrite Z.eqb_refl. Qed.

Lemma give_ne own b inum j x : x <> b -> give own b inum j x = own x.
Proof. unfold give. by destruct (Z.eqb_spec x b). Qed.

Lemma file_block_direct own s inum nb c din : base s -> holds own (mk_freeblock s) (sect s) (di_addrs din) inum nb c -> nb < NDIRECT -> mk_freeblock s < FSSIZE ->
  let s' := set_mk_freeblock (mk_freeblock s + 1) s in let A' := insertZ nb (mk_freeblock s) (di_addrs din) in let own' := give own (mk_freeblock s) inum nb in
  file_block din nb s = Done (with_addrs A' din, blk (sect s') A' nb) s' /\ base s' /\ mstep inum own s own' s' /\ holds own' (mk_freeblock s') (sect s') A' inum (nb + 1) c.
Proof.
  intros B H Hn Hf s' A' own'. pose proof (ba_free _ B) as Hr. pose proof nmeta_eq as Em. pose proof (ho_nb _ _ _ _ _ _ _ H) as Hnb. pose proof (ho_len _ _ _ _ _ _ _ H) as Hlen.
  assert (E0 : default 0 (lookupZ (di_addrs din) nb) = 0) by (rewrite <- (blk_dir (sect s)) by done; apply (holds_none _ _ _ _ _ _ _ nb H); unfold MAXFILE, NINDIRECT, NDIRECT, BSIZE in *; change (1024 / 4) with 256; lia).
  destruct (dinode_addr_new s din nb B E0 Hf) as [E B']. fold s' A' in E, B'. assert (Hlk : lookupZ A' nb = Some (mk_freeblock s)) by (unfold A'; apply lookupZ_insertZ_eq; lia).
  assert (Hb : blk (sect s') A' nb = mk_freeblock s) by (rewrite blk_dir, Hlk by done; done).
  split; [|split; [done|split]].
  - unfold file_block. destruct (Z.ltb_spec nb NDIRECT); [|lia]. rewrite (hbind_ok _ _ _ _ _ E). unfold hret. cbn [di_addrs with_addrs]. rewrite Hlk. cbn [default]. unfold id.
    rewrite Hb. by rewrite (xint_block s) by (done || lia).
  - split; [done|cbn; lia|intros b Hb'; apply give_ne; lia|]. intros n. by left.
  - apply (holds_extend own (mk_freeblock s) (sect s) (di_addrs din) inum nb c own' _ (sect s') A' (mk_freeblock s) H); try done; try (cbn; lia).
    + unfold MAXFILE, NINDIRECT, NDIRECT, BSIZE in *. change (1024 / 4) with 256. lia.
    + intros b Hb'. apply give_ne. lia.
    + apply give_eq.
    + unfold A'. by rewrite lenZ_insertZ.
    + intros j Hj Hne. assert (Ei : ind A' = ind (di_addrs din)) by (unfold ind, A'; rewrite lookupZ_insertZ_ne by lia; done). unfold blk. rewrite Ei. unfold A'. by rewrite lookupZ_insertZ_ne by lia.
    + destruct (Z.leb_spec (nb + 1) NDIRECT); [|lia]. pose proof (ho_ind _ _ _ _ _ _ _ H) as Hi. destruct (Z.leb_spec nb NDIRECT); [|lia]. unfold ind, A'. rewrite lookupZ_insertZ_ne by lia. exact Hi.
    + apply (ba_zero _ B). lia.
Qed.

(** A new entry of the indirect block [a], which belongs to [inum]. *)
Lemma holds_indirect own fb v A inum nb c own1 A' v' a b : holds own fb v A inum nb c -> NDIRECT <= nb < MAXFILE -> nmeta <= fb <= b -> b < FSSIZE -> v 0 = v' 0 ->
  (forall x, x < fb -> own1 x = own x) -> own1 a = (inum, -1) -> nmeta <= a < b -> lenZ A' = NDIRECT + 1 -> ind A' = a -> (forall j, 0 <= j < NDIRECT -> lookupZ A' j = lookupZ A j) ->
  (NDIRECT < nb -> ind A = a) -> is_block (v a) -> (nb = NDIRECT -> v a = zeroes) -> v b = zeroes -> (forall m, v' m = if m =? a then put_u32 (v a) (4 * (nb - NDIRECT)) b else v m) ->
  holds (give own1 b inum nb) (b + 1) v' A' inum (nb + 1) c /\ blk v' A' nb = b.
Proof.
  intros H Hn Hfb Hb H0 Ho Ha Har Hlen Hind Hdir Hold Hba Hz Hzb V. rewrite nmeta_eq in *. unfold MAXFILE in *.
  assert (Hks : forall j, NDIRECT <= j < NDIRECT + NINDIRECT -> 0 <= 4 * (j - NDIRECT) /\ 4 * (j - NDIRECT) + 4 <= BSIZE) by (intros j; unfold NINDIRECT, BSIZE; change (1024 / 4) with 256; lia).
  assert (Hnew : blk v' A' nb = b) by (rewrite blk_ind, Hind, V, Z.eqb_refl by lia; apply entry_put; [done|apply Hks; lia|apply Hks; lia|unfold FSSIZE in *; lia]).
  split; [|done]. apply (holds_extend own fb v A inum nb c _ _ v' A' b H); rewrite ?nmeta_eq; try done; try (unfold MAXFILE; lia).
  - intros x Hx. rewrite give_ne by lia. by apply Ho.
  - apply give_eq.
  - intros j Hj Hne. unfold MAXFILE in Hj. destruct (Z_lt_le_dec j NDIRECT) as [Hlt|Hge]; [by rewrite !blk_dir, Hdir by lia|]. rewrite blk_ind, Hind, V, Z.eqb_refl by lia.
    rewrite entry_put_ne by (done || (apply Hks; lia) || lia). destruct (Z.eqb_spec nb NDIRECT) as [->|Hn2].
    + rewrite Hz by done. rewrite get_u32_zeroes by lia. symmetry. apply (holds_none _ _ _ _ _ _ _ j H). unfold MAXFILE. lia.
    + rewrite blk_ind by (rewrite ?Hold; lia). by rewrite Hold by lia.
  - destruct (Z.leb_spec (nb + 1) NDIRECT); [lia|]. rewrite Hind. split; [lia|]. rewrite give_ne by lia. exact Ha.
  - intros m Hm. rewrite V, <- Hind. by destruct (Z.eqb_spec m (ind A')).
Qed.

Lemma NDIRECT_MAXFILE : NDIRECT < MAXFILE.
Proof. reflexivity. Qed.

(** What [file_block] does for a piece that is not there. *)
Definition extends (own : Z -> Z * Z) (s : mkst) (din : dinode) (inum nb : Z) (c : list Z) : Prop :=
  exists own' A' s', file_block din nb s = Done (with_addrs A' din, blk (sect s') A' nb) s' /\ base s' /\ mstep inum own s own' s' /\
    mk_freeblock s' = mk_freeblock s + (blocks_of (nb + 1) - blocks_of nb) /\ holds own' (mk_freeblock s') (sect s') A' inum (nb + 1) c.

Lemma file_block_indirect own s inum nb c din : base s -> holds own (mk_freeblock s) (sect s) (di_addrs din) inum nb c -> NDIRECT < nb < MAXFILE -> mk_freeblock s < FSSIZE ->
  extends own s din inum nb c.
Proof.
  intros B H Hn Hf. pose proof (ba_free _ B) as Hr. pose proof nmeta_eq as Em. destruct (holds_ind _ _ _ _ _ _ _ H ltac:(lia)) as [Hi Hio]. set (a := ind (di_addrs din)) in *.
  assert (E0 : get_u32 (sect s a) (4 * (nb - NDIRECT)) = 0) by (rewrite <- (blk_ind (sect s) (di_addrs din)) by (fold a; lia); apply (holds_none _ _ _ _ _ _ _ nb H); lia).
  destruct (indirect_new s a (nb - NDIRECT) B Hi ltac:(unfold MAXFILE in Hn; lia) E0 Hf) as (s' & E & B' & Ei & Ef & V).
  destruct (holds_indirect own (mk_freeblock s) (sect s) (di_addrs din) inum nb c own (di_addrs din) (sect s') a (mk_freeblock s) H) as [H' Hb]; try done; try lia.
  { rewrite V. destruct (Z.eqb_spec 0 a); [lia|done]. } { apply H. } { apply (ba_block _ B). lia. } { apply (ba_zero _ B). lia. }
  exists (give own (mk_freeblock s) inum nb), (di_addrs din), s'. rewrite Hb, Ef, with_addrs_same. split; [|split; [done|split; [|split; [|done]]]].
  - unfold file_block. destruct (Z.ltb_spec nb NDIRECT); [lia|]. rewrite (hbind_ok _ _ _ _ _ (dinode_addr_hit s din NDIRECT B Hi)). fold (ind (di_addrs din)). fold a.
    rewrite (xint_block s a) by (done || lia). by rewrite (hbind_ok _ _ _ _ _ E).
  - split; [done|lia|intros b Hb'; apply give_ne; lia|]. intros n. rewrite V. destruct (Z.eqb_spec n a) as [->|]; [right|by left]. split; [lia|]. rewrite give_ne by lia. by rewrite Hio.
  - unfold blocks_of. destruct (Z.ltb_spec NDIRECT nb), (Z.ltb_spec NDIRECT (nb + 1)); lia.
Qed.

Lemma file_block_first own s inum c din : base s -> holds own (mk_freeblock s) (sect s) (di_addrs din) inum NDIRECT c -> mk_freeblock s + 1 < FSSIZE ->
  extends own s din inum NDIRECT c.
Proof.
  intros B H Hf. pose proof (ba_free _ B) as Hr. pose proof nmeta_eq as Em. pose proof NDIRECT_MAXFILE as HM. pose proof (ho_ind _ _ _ _ _ _ _ H) as Hi. cbn in Hi. pose proof (ho_len _ _ _ _ _ _ _ H) as Hlen.
  destruct (dinode_addr_new s din NDIRECT B Hi ltac:(lia)) as [E1 B1]. set (a := mk_freeblock s) in *. set (s1 := set_mk_freeblock (a + 1) s) in *. set (A' := insertZ NDIRECT a (di_addrs din)) in *.
  assert (Ea : default 0 (lookupZ A' NDIRECT) = a) by (unfold A'; rewrite lookupZ_insertZ_eq by (rewrite Hlen; done); done).
  assert (Hz : sect s a = zeroes) by (apply (ba_zero _ B); lia).
  destruct (indirect_new s1 a (NDIRECT - NDIRECT) B1 ltac:(cbn; lia) ltac:(by compute)) as (s' & E & B' & Ei & Ef & V); [change (sect s1 a) with (sect s a); rewrite Hz; by apply get_u32_zeroes|cbn; lia|].
  destruct (holds_indirect own a (sect s) (di_addrs din) inum NDIRECT c (give own a inum (-1)) A' (sect s') a (a + 1) H) as [H' Hb]; try done; try lia.
  { rewrite V. destruct (Z.eqb_spec 0 a); [lia|done]. } { intros x Hx. apply give_ne. lia. } { apply give_eq. } { unfold A'. by rewrite lenZ_insertZ. }
  { intros j Hj. unfold A'. apply lookupZ_insertZ_ne. lia. } { rewrite Hz. apply zeroes_block. } { apply (ba_zero _ B). fold a. lia. }
  exists (give (give own a inum (-1)) (a + 1) inum NDIRECT), A', s'. rewrite Hb, Ef. split; [|split; [done|split; [|split; [change (blocks_of (NDIRECT + 1) - blocks_of NDIRECT) with 2; fold a; cbn; lia|done]]]].
  - unfold file_block. cbn [Z.ltb]. change (NDIRECT <? NDIRECT) with false. cbv iota. rewrite (hbind_ok _ _ _ _ _ E1). cbn [di_addrs with_addrs]. rewrite Ea.
    rewrite (xint_block s a) by (done || (unfold a; lia)). by rewrite (hbind_ok _ _ _ _ _ E).
  - split; [done|cbn in Ef; fold a; rewrite Ef; cbn; lia|intros b Hb'; fold a in Hb'; rewrite !give_ne by lia; done|]. intros n. rewrite V. destruct (Z.eqb_spec n a) as [->|]; [right|by left].
    split; [rewrite Ef; cbn; lia|]. by rewrite give_ne, give_eq by lia.
Qed.

Lemma file_block_ok own s inum nb c din fbn : base s -> holds own (mk_freeblock s) (sect s) (di_addrs din) inum nb c -> 0 <= fbn <= nb -> fbn < MAXFILE -> let nb' := Z.max nb (fbn + 1) in
  mk_freeblock s + (blocks_of nb' - blocks_of nb) <= FSSIZE ->
  exists own' A' s', file_block din fbn s = Done (with_addrs A' din, blk (sect s') A' fbn) s' /\ base s' /\ mstep inum own s own' s' /\
    mk_freeblock s' = mk_freeblock s + (blocks_of nb' - blocks_of nb) /\ holds own' (mk_freeblock s') (sect s') A' inum nb' c.
Proof.
  intros B H Hn HM nb' Hf. destruct (Z_lt_le_dec fbn nb) as [Hlt|Hge].
  - unfold nb' in *. rewrite Z.max_l in * by lia. exists own, (di_addrs din), s. rewrite with_addrs_same, Z.sub_diag, Z.add_0_r. split; [apply (file_block_hit own s inum nb c din fbn B H); lia|]. split; [done|]. split; [apply mstep_refl|done].
  - assert (fbn = nb) as -> by lia. unfold nb' in *. rewrite Z.max_r in * by lia. change (extends own s din inum nb c). unfold blocks_of in Hf.
    destruct (Z.ltb_spec NDIRECT nb), (Z.ltb_spec NDIRECT (nb + 1)); try lia.
    + apply file_block_indirect; [done|done|lia|lia].
    + assert (nb = NDIRECT) as -> by lia. apply file_block_first; [done|done|lia].
    + destruct (file_block_direct own s inum nb c din B H ltac:(lia) ltac:(lia)) as (E & B' & S' & H'). eexists _, _, _. split; [exact E|]. split; [done|]. split; [done|]. split; [|done].
      cbn [mk_freeblock set_mk_freeblock]. unfold blocks_of. destruct (Z.ltb_spec NDIRECT nb), (Z.ltb_spec NDIRECT (nb + 1)); lia.
Qed.

(** Bytes stored behind the end of the file. *)
Lemma holds_write own fb v A inum nb c v' piece : holds own fb v A inum nb c -> let off := lenZ c in let b := blk v A (off / BSIZE) in off / BSIZE < nb -> off mod BSIZE + lenZ piece <= BSIZE ->
  lenZ (v b) = BSIZE -> (forall m, v' m = if m =? b then put_bytes (v b) (off mod BSIZE) piece else v m) -> holds own fb v' A inum nb (c ++ piece).
Proof.
  intros H off b Hn Hp Hl V. pose proof (lenZ_nonneg c) as Hc. pose proof (ho_nb _ _ _ _ _ _ _ H) as Hnb. pose proof nmeta_eq as Em. pose proof (Z.mod_pos_bound off BSIZE ltac:(done)) as Hmod. pose proof (Z.div_mod off BSIZE ltac:(done)) as Hdm.
  destruct (holds_piece _ _ _ _ _ _ _ (off / BSIZE) H) as [Hb Hbo]; [split; [apply Z.div_pos; [done|done]|done]|]. fold b in Hb, Hbo.
  assert (Hi : ind A = 0 \/ v' (ind A) = v (ind A)).
  { destruct (Z_le_gt_dec nb NDIRECT) as [Hle|Hgt]; [left; pose proof (ho_ind _ _ _ _ _ _ _ H) as Hi; by destruct (Z.leb_spec nb NDIRECT); [|lia]|right].
    destruct (holds_ind _ _ _ _ _ _ _ H ltac:(lia)) as [_ Hio]. rewrite V. destruct (Z.eqb_spec (ind A) b) as [E|]; [|done]. rewrite E, Hbo in Hio. injection Hio as Hio. pose proof (Z.div_pos off BSIZE Hc ltac:(done)). lia. }
  split; [apply H|apply H| |apply H| |].
  - rewrite lenZ_app. fold off. unfold BSIZE in *. nia.
  - intros j Hj. rewrite (blk_ext v v' A j Hi). by apply (ho_blk _ _ _ _ _ _ _ H).
  - intros x Hx. assert (Hj : 0 <= x / BSIZE < MAXFILE) by (split; [apply Z.div_pos; [lia|done]|apply Z.div_lt_upper_bound; [done|lia]]).
    rewrite (fbyte_put v v' A b off piece x Hi); [|done|lia|done|by rewrite V, Z.eqb_refl|lia|lia| |].
    + rewrite (ho_bytes _ _ _ _ _ _ _ H x Hx), lookupZ_app. fold off. destruct (Z.leb_spec off x), (Z.ltb_spec x off), (Z.ltb_spec x (off + lenZ piece)); try lia; cbn [andb]; try done.
      rewrite !lookupZ_None by lia. done.
    + intros E. pose proof (ho_blk _ _ _ _ _ _ _ H _ Hj) as Hbj. destruct (x / BSIZE <? nb); [|lia]. destruct Hbj as [_ Eo]. rewrite E, Hbo in Eo. by injection Eo.
    + intros E. rewrite V. by destruct (Z.eqb_spec (blk v A (x / BSIZE)) b).
Qed.

Lemma pieces_spec size : 0 <= size -> (pieces size - 1) * BSIZE < size <= pieces size * BSIZE.
Proof. intros H. unfold pieces, BSIZE. Z.to_euclidean_division_equations. lia. Qed.

Lemma pieces_mono a b : a <= b -> pieces a <= pieces b.
Proof. intros H. unfold pieces. apply Z.div_le_mono; [done|lia]. Qed.

(** The pieces after a turn of the loop. *)
Lemma pieces_turn off n : 0 <= off -> 0 < n -> off mod BSIZE + n <= BSIZE -> Z.max (pieces off) (off / BSIZE + 1) = pieces (off + n) /\ off / BSIZE <= pieces off.
Proof. intros H1 H2 H3. unfold pieces, BSIZE in *. Z.to_euclidean_division_equations. lia. Qed.

Lemma pieces_max size : size <= MAXFILE * BSIZE -> pieces size <= MAXFILE.
Proof. intros H. change MAXFILE with (pieces (MAXFILE * BSIZE)). by apply pieces_mono. Qed.

Lemma blocks_of_mono a b : a <= b -> blocks_of a <= blocks_of b.
Proof. intros H. unfold blocks_of. destruct (Z.ltb_spec NDIRECT a), (Z.ltb_spec NDIRECT b); lia. Qed.

Lemma cost_mono a b : a <= b -> cost a <= cost b.
Proof. intros H. by apply blocks_of_mono, pieces_mono. Qed.

(** One turn of the loop. *)
Lemma iappend_turn own s inum c din piece : base s -> holds own (mk_freeblock s) (sect s) (di_addrs din) inum (pieces (lenZ c)) c -> is_bytes piece -> 0 < lenZ piece ->
  let off := lenZ c in off mod BSIZE + lenZ piece <= BSIZE -> off + lenZ piece <= MAXFILE * BSIZE -> mk_freeblock s + (cost (off + lenZ piece) - cost off) <= FSSIZE ->
  exists own' A' x s1 s', file_block din (off / BSIZE) s = Done (with_addrs A' din, x) s1 /\ rsect x s1 = Done (sect s1 x) s1 /\
    wsect x (put_bytes (sect s1 x) (off - off / BSIZE * BSIZE) piece) s1 = Done tt s' /\ base s' /\ mstep inum own s own' s' /\
    mk_freeblock s' = mk_freeblock s + (cost (off + lenZ piece) - cost off) /\ holds own' (mk_freeblock s') (sect s') A' inum (pieces (lenZ (c ++ piece))) (c ++ piece).
Proof.
  intros B H Hby Hp off Hpb Hmax Hf. pose proof (lenZ_nonneg c) as Hc. fold off in Hc. destruct (pieces_turn off (lenZ piece) Hc Hp Hpb) as [Ep Hfb]. pose proof nmeta_eq as Em. assert (Hlt : off / BSIZE < pieces (off + lenZ piece)) by lia.
  assert (Hj : 0 <= off / BSIZE < MAXFILE) by (split; [apply Z.div_pos; [lia|done]|apply Z.div_lt_upper_bound; [done|lia]]).
  destruct (file_block_ok own s inum (pieces off) c din (off / BSIZE) B H ltac:(lia) ltac:(lia)) as (own' & A' & s1 & E1 & B1 & S1 & F1 & H1); [rewrite Ep; exact Hf|rewrite Ep in F1, H1].
  destruct (holds_piece _ _ _ _ _ _ _ (off / BSIZE) H1 ltac:(lia)) as [Hx Hxo]. set (x := blk (sect s1) A' (off / BSIZE)) in *. pose proof (ba_free _ B1) as Hfree. pose proof (ba_block _ B1 x ltac:(lia)) as [Hbl Hbb].
  pose proof (Z.mod_pos_bound off BSIZE ltac:(done)) as Hmod. assert (Eo : off - off / BSIZE * BSIZE = off mod BSIZE) by (pose proof (Z.div_mod off BSIZE ltac:(done)); lia). rewrite Eo.
  destruct (wsect_base s1 x (put_bytes (sect s1 x) (off mod BSIZE) piece) B1 ltac:(lia)) as (s' & E2 & B2 & I2 & F2 & V2); [split; [rewrite lenZ_put_bytes by lia; done|by apply is_bytes_put]|].
  exists own', A', x, s1, s'. split; [done|]. split; [apply rsect_ok; [done|lia]|]. split; [done|]. split; [done|]. rewrite F2. split; [|split; [done|]].
  - eapply mstep_trans; [exact S1|]. split; [done|lia|done|]. intros n. rewrite V2. destruct (Z.eqb_spec n x) as [->|]; [right|by left]. split; [lia|]. by rewrite Hxo.
  - rewrite lenZ_app. fold off. apply (holds_write own' (mk_freeblock s1) (sect s1) A' inum (pieces (off + lenZ piece)) c (sect s') piece H1); [exact Hlt|exact Hpb|exact Hbl|exact V2].
Qed.

Lemma iappend_loop_ok fuel : forall own s inum c din p, base s -> holds own (mk_freeblock s) (sect s) (di_addrs din) inum (pieces (lenZ c)) c -> is_bytes p -> lenZ p <= Z.of_nat fuel ->
  lenZ c + lenZ p <= MAXFILE * BSIZE -> mk_freeblock s + (cost (lenZ c + lenZ p) - cost (lenZ c)) <= FSSIZE ->
  exists own' A' s', iappend_loop fuel din (lenZ c) p (lenZ p) s = Done (with_addrs A' din, lenZ c + lenZ p) s' /\ base s' /\ mstep inum own s own' s' /\
    mk_freeblock s' = mk_freeblock s + (cost (lenZ c + lenZ p) - cost (lenZ c)) /\ holds own' (mk_freeblock s') (sect s') A' inum (pieces (lenZ (c ++ p))) (c ++ p).
Proof.
  induction fuel as [|fuel IH]; intros own s inum c din p B H Hby Hfu Hmax Hf; pose proof (lenZ_nonneg c) as Hc; pose proof (lenZ_nonneg p) as Hp.
  { assert (p = []) as -> by (destruct p; [done|rewrite lenZ_cons in Hfu; pose proof (lenZ_nonneg p); lia]). exists own, (di_addrs din), s. rewrite with_addrs_same, app_nil_r. change (lenZ []) with 0. rewrite Z.add_0_r, Z.sub_diag, Z.add_0_r.
    split; [done|]. split; [done|]. split; [apply mstep_refl|done]. }
  cbn [iappend_loop]. destruct (Z.ltb_spec 0 (lenZ p)) as [Hpos|Hpos].
  2:{ assert (p = []) as -> by (destruct p; [done|rewrite lenZ_cons in Hpos; pose proof (lenZ_nonneg p); lia]). exists own, (di_addrs din), s. rewrite with_addrs_same, app_nil_r. change (lenZ []) with 0. rewrite Z.add_0_r, Z.sub_diag, Z.add_0_r.
    split; [done|]. split; [done|]. split; [apply mstep_refl|done]. }
  assert (HM : MAXFILE * BSIZE < 2 ^ 31) by done. set (off := lenZ c) in *. pose proof (Z.mod_pos_bound off BSIZE ltac:(done)) as Hmod. pose proof (Z.div_mod off BSIZE ltac:(done)) as Hdm.
  assert (Hfb : off / BSIZE < MAXFILE) by (apply Z.div_lt_upper_bound; [done|lia]). assert (E1 : u32 ((off / BSIZE + 1) * BSIZE - off) = BSIZE - off mod BSIZE) by (rewrite u32_small; [lia|unfold BSIZE in *; lia]).
  destruct (Z.ltb_spec (off / BSIZE) MAXFILE); [|lia]. rewrite E1. set (n1 := Z.min (lenZ p) (BSIZE - off mod BSIZE)). assert (Hn1 : 0 < n1 <= lenZ p) by (unfold n1; lia).
  assert (Hl1 : lenZ (take (Z.to_nat n1) p) = n1) by (rewrite lenZ_take; lia). assert (Hl2 : lenZ (drop (Z.to_nat n1) p) = lenZ p - n1) by (rewrite lenZ_drop; lia).
  pose proof (cost_mono (off + n1) (off + lenZ p) ltac:(lia)) as Hcm.
  destruct (iappend_turn own s inum c din (take (Z.to_nat n1) p) B H) as (own1 & A1 & x & s1 & s2 & E2 & E3 & E4 & B2 & S2 & F2 & H2); fold off; rewrite ?Hl1; [by apply Forall_take|lia|unfold n1; lia|lia|clearbody n1; lia|].
  fold off in E2, E4, F2. rewrite Hl1 in F2. rewrite lenZ_app, Hl1 in H2. fold off in H2. assert (El : lenZ (c ++ take (Z.to_nat n1) p) = off + n1) by (by rewrite lenZ_app, Hl1).
  destruct (IH own1 s2 inum (c ++ take (Z.to_nat n1) p) (with_addrs A1 din) (drop (Z.to_nat n1) p) B2) as (own2 & A2 & s3 & E5 & B3 & S3 & F3 & H3).
  { rewrite El. exact H2. } { by apply Forall_drop. } { lia. } { rewrite El, Hl2. lia. } { rewrite El, Hl2. replace (off + n1 + (lenZ p - n1)) with (off + lenZ p) by lia. lia. }
  rewrite El, Hl2 in *. replace (off + n1 + (lenZ p - n1)) with (off + lenZ p) in * by lia. rewrite <- app_assoc, take_drop in H3.
  exists own2, A2, s3. split; [|split; [done|split; [by eapply mstep_trans|split; [lia|done]]]].
  rewrite (hbind_ok _ _ _ _ _ (eq_refl : assert_ true s = Done tt s)), (hbind_ok _ _ _ _ _ E2). cbv beta iota. rewrite (hbind_ok _ _ _ _ _ E3), (hbind_ok _ _ _ _ _ E4). rewrite u32_small by lia. exact E5.
Qed.

(** ** The whole image *)

(** The blocks of the inodes. *)
Definition inode_block (n : Z) : Prop := 32 <= n < 45.

(** Inode [k + 1] has the type and the bytes [F !! k]; the inodes behind the
    last one are free.  There is nothing in the log and in the bitmap. *)
Record image (own : Z -> Z * Z) (s : mkst) (F : list (Z * list Z)) : Prop := {
  im_base : base s;
  im_next : mk_freeinode s = lenZ F + 1;
  im_count : lenZ F < NINODES;
  im_sb : sect s 1 = put_bytes zeroes 0 (superblock_bytes new_sb);
  im_zero : forall n, 2 <= n < 32 \/ n = 45 -> sect s n = zeroes;
  im_inode : forall k t c, lookupZ F k = Some (t, c) -> 0 < t < 2 ^ 15 /\ lenZ c <= MAXFILE * BSIZE /\ exists A,
    get_dinode (sect s (IBLOCK (k + 1) new_sb)) (dinode_off (k + 1)) = mkDinode t 0 0 1 (lenZ c) A /\
    holds own (mk_freeblock s) (sect s) A (k + 1) (pieces (lenZ c)) c;
  im_unused : forall k, lenZ F <= k < NINODES - 1 ->
    get_dinode (sect s (IBLOCK (k + 1) new_sb)) (dinode_off (k + 1)) = mkDinode 0 0 0 0 0 (replicate 13 0);
}.

Lemma iblock_range inum : 0 <= inum < NINODES -> IBLOCK inum new_sb = 32 + inum / 16 /\ inode_block (IBLOCK inum new_sb).
Proof.
  intros H. unfold inode_block, IBLOCK, NINODES in *. change (sb_inodestart new_sb) with 32. change IPB with 16. rewrite u32_small by (Z.to_euclidean_division_equations; lia). Z.to_euclidean_division_equations. lia.
Qed.

(** Inodes are in different places. *)
Lemma inode_apart i j : 0 <= i < NINODES -> 0 <= j < NINODES -> i <> j -> IBLOCK i new_sb <> IBLOCK j new_sb \/ dinode_off i <> dinode_off j.
Proof.
  intros Hi Hj Hne. destruct (iblock_range i Hi) as [-> _], (iblock_range j Hj) as [-> _]. unfold dinode_off, sizeof_dinode. change IPB with 16.
  pose proof (Z.div_mod i 16 ltac:(lia)). pose proof (Z.div_mod j 16 ltac:(lia)). lia.
Qed.

(** [rinode] and [winode]. *)
Lemma rinode_ok s inum : base s -> 0 <= inum < NINODES -> rinode inum s = Done (get_dinode (sect s (IBLOCK inum new_sb)) (dinode_off inum)) s.
Proof.
  intros B Hi. destruct (iblock_range inum Hi) as [_ [H1 H2]]. unfold rinode. rewrite (hbind_ok _ _ _ _ _ (eq_refl : hget mk_sb s = Done (mk_sb s) s)), (ba_sb _ B).
  by rewrite (hbind_ok _ _ _ _ _ (rsect_ok s (IBLOCK inum new_sb) B ltac:(unfold FSSIZE; lia))).
Qed.

Lemma winode_ok s inum di : base s -> 0 <= inum < NINODES -> dinode_wf di -> exists s', winode inum di s = Done tt s' /\ base s' /\ mk_freeinode s' = mk_freeinode s /\ mk_freeblock s' = mk_freeblock s /\
  (forall n, n <> IBLOCK inum new_sb -> sect s' n = sect s n) /\ forall j, 0 <= j < NINODES ->
    get_dinode (sect s' (IBLOCK j new_sb)) (dinode_off j) = if j =? inum then di else get_dinode (sect s (IBLOCK j new_sb)) (dinode_off j).
Proof.
  intros B Hi Hw. destruct (iblock_range inum Hi) as [_ [H1 H2]]. pose proof (ba_free _ B) as Hf. rewrite nmeta_eq in Hf. pose proof (ba_block _ B (IBLOCK inum new_sb) ltac:(lia)) as Hb.
  destruct (wsect_base s (IBLOCK inum new_sb) (put_dinode (sect s (IBLOCK inum new_sb)) (dinode_off inum) di) B ltac:(lia)) as (s' & E & B' & E1 & E2 & V); [by apply is_block_put_dinode|].
  exists s'. split; [|split; [done|split; [done|split; [done|split]]]].
  - unfold winode. rewrite (hbind_ok _ _ _ _ _ (eq_refl : hget mk_sb s = Done (mk_sb s) s)), (ba_sb _ B). cbv zeta. by rewrite (hbind_ok _ _ _ _ _ (rsect_ok s (IBLOCK inum new_sb) B ltac:(lia))).
  - intros n Hn. rewrite V. by destruct (Z.eqb_spec n (IBLOCK inum new_sb)).
  - intros j Hj. rewrite V. destruct (Z.eqb_spec j inum) as [->|Hne]; [rewrite Z.eqb_refl; apply get_put_dinode; [apply Hb|done]|].
    destruct (Z.eqb_spec (IBLOCK j new_sb) (IBLOCK inum new_sb)) as [E'|]; [|done]. destruct (inode_apart j inum Hj Hi Hne) as [|Ho]; [done|]. rewrite E'. by apply get_put_dinode_ne; [apply Hb|done|].
Qed.

Lemma holds_wf own fb v A inum nb c t size : holds own fb v A inum nb c -> fb <= FSSIZE -> 0 < t < 2 ^ 15 -> 0 <= size < 2 ^ 32 -> dinode_wf (mkDinode t 0 0 1 size A).
Proof.
  intros H Hf Ht Hs. pose proof (ho_len _ _ _ _ _ _ _ H) as Hlen. pose proof nmeta_eq as Em. pose proof NDIRECT_MAXFILE as HM. split; cbn [di_type di_major di_minor di_nlink di_size di_addrs]; try lia.
  apply Forall_forall. intros a Ha. apply list_elem_of_lookup in Ha as [j Hj]. assert (HjZ : lookupZ A (Z.of_nat j) = Some a) by (unfold lookupZ; destruct (Z.ltb_spec (Z.of_nat j) 0); [lia|by rewrite Nat2Z.id]).
  pose proof (lookupZ_Some_range _ _ _ HjZ) as Hr. unfold FSSIZE in Hf. destruct (Z_lt_le_dec (Z.of_nat j) NDIRECT) as [Hlt|Hge].
  - pose proof (ho_blk _ _ _ _ _ _ _ H (Z.of_nat j) ltac:(lia)) as Hb. rewrite blk_dir, HjZ in Hb by done. cbn [default] in Hb. unfold id in Hb. destruct (Z.of_nat j <? nb); lia.
  - assert (Ei : ind A = a) by (unfold ind; replace NDIRECT with (Z.of_nat j) by lia; by rewrite HjZ). pose proof (ho_ind _ _ _ _ _ _ _ H) as Hb. rewrite Ei in Hb. destruct (nb <=? NDIRECT); lia.
Qed.

(** Steps on the blocks of [inum], then a change of the block of its inode,
    seen from an inode. *)
Lemma holds_other own s own1 s1 s2 inum A k nb c : base s -> holds own (mk_freeblock s) (sect s) A k nb c -> mstep inum own s own1 s1 -> k <> inum -> 0 <= inum < NINODES ->
  mk_freeblock s2 = mk_freeblock s1 -> (forall n, n <> IBLOCK inum new_sb -> sect s2 n = sect s1 n) -> holds own1 (mk_freeblock s2) (sect s2) A k nb c.
Proof.
  intros B H S Hne Hi Ef V. destruct (iblock_range inum Hi) as [_ [H1 H2]]. pose proof nmeta_eq as Em. apply (holds_frame _ _ _ _ _ _ _ _ _ _ H); [rewrite Ef; apply S|apply S| |].
  - rewrite V by lia. destruct (ms_sect _ _ _ _ _ S 0) as [|]; [done|lia].
  - intros b Hb Hbo. rewrite V by lia. destruct (ms_sect _ _ _ _ _ S b) as [|[_ Ho]]; [done|]. rewrite (ms_own _ _ _ _ _ S) in Ho by lia. congruence.
Qed.

Lemma iappend_image own s F k t c p : image own s F -> lookupZ F k = Some (t, c) -> is_bytes p -> lenZ c + lenZ p <= MAXFILE * BSIZE ->
  mk_freeblock s + (cost (lenZ c + lenZ p) - cost (lenZ c)) <= FSSIZE ->
  exists own' s', iappend (k + 1) p s = Done tt s' /\ image own' s' (insertZ k (t, c ++ p) F) /\ mk_freeblock s' = mk_freeblock s + (cost (lenZ c + lenZ p) - cost (lenZ c)).
Proof.
  intros I Hk Hby Hmax Hf. pose proof (im_base _ _ _ I) as B. pose proof (lookupZ_Some_range _ _ _ Hk) as Hkr. pose proof (im_count _ _ _ I) as Hcnt. assert (Hi : 0 <= k + 1 < NINODES) by lia.
  destruct (im_inode _ _ _ I k t c Hk) as (Ht & Hcm & A & Ed & H). assert (HM : MAXFILE * BSIZE < 2 ^ 31) by done. pose proof (lenZ_nonneg c) as Hc0. pose proof (lenZ_nonneg p) as Hp0. pose proof nmeta_eq as Em.
  destruct (iappend_loop_ok (Z.to_nat (lenZ p)) own s (k + 1) c (mkDinode t 0 0 1 (lenZ c) A) p B H Hby ltac:(lia) Hmax Hf) as (own' & A' & s1 & E1 & B1 & S1 & F1 & H1).
  pose proof (ba_free _ B1) as Hfr. destruct (winode_ok s1 (k + 1) (mkDinode t 0 0 1 (lenZ c + lenZ p) A') B1 Hi) as (s2 & E2 & B2 & I2 & F2 & V2 & D2); [apply (holds_wf _ _ _ _ _ _ _ t _ H1); lia|].
  destruct (iblock_range (k + 1) Hi) as [_ [Hb1 Hb2]]. assert (Hlow : forall n, n < 46 -> n <> IBLOCK (k + 1) new_sb -> sect s2 n = sect s n).
  { intros n Hn Hne. rewrite V2 by done. destruct (ms_sect _ _ _ _ _ S1 n) as [|]; [done|lia]. }
  exists own', s2. split; [|split; [split|lia]].
  - unfold iappend. cbv zeta. rewrite (hbind_ok _ _ _ _ _ (rinode_ok s (k + 1) B Hi)), Ed. cbn [di_size]. rewrite (xint_id (lenZ c)) by lia. rewrite (hbind_ok _ _ _ _ _ E1). cbv beta iota.
    cbn [di_type di_major di_minor di_nlink di_size di_addrs with_addrs]. rewrite xint_id by lia. exact E2.
  - done.
  - rewrite lenZ_insertZ, I2, (ms_inode _ _ _ _ _ S1). apply I.
  - by rewrite lenZ_insertZ.
  - rewrite Hlow by lia. apply I.
  - intros n Hn. rewrite Hlow by lia. by apply (im_zero _ _ _ I).
  - intros j t' c' Hj. pose proof (lookupZ_Some_range _ _ _ Hj) as Hjr. rewrite lenZ_insertZ in Hjr. rewrite D2 by lia. destruct (Z.eqb_spec (j + 1) (k + 1)) as [E|Hne].
    + assert (j = k) as -> by lia. rewrite lookupZ_insertZ_eq in Hj by done. injection Hj as <- <-. rewrite lenZ_app. split; [done|]. split; [lia|]. exists A'. split; [done|].
      rewrite lenZ_app in H1. rewrite F2. apply (holds_frame _ _ _ _ _ _ _ _ _ _ H1); [lia|done|apply V2; lia|]. intros b Hb _. apply V2. lia.
    + rewrite lookupZ_insertZ_ne in Hj by lia. destruct (im_inode _ _ _ I j t' c' Hj) as (Ht' & Hm & A2 & Ed2 & H2). split; [done|]. split; [done|]. exists A2. split.
      * rewrite <- Ed2. f_equal. destruct (iblock_range (j + 1) ltac:(lia)) as [_ [Hj1 Hj2]]. destruct (ms_sect _ _ _ _ _ S1 (IBLOCK (j + 1) new_sb)) as [|]; [done|lia].
      * apply (holds_other own s own' s1 s2 (k + 1) A2 (j + 1) _ _ B H2 S1); done.
  - rewrite lenZ_insertZ. intros j Hj. rewrite D2 by lia. destruct (Z.eqb_spec (j + 1) (k + 1)); [lia|]. rewrite <- (im_unused _ _ _ I j Hj). f_equal.
    destruct (iblock_range (j + 1) ltac:(lia)) as [_ [Hj1 Hj2]]. destruct (ms_sect _ _ _ _ _ S1 (IBLOCK (j + 1) new_sb)) as [|]; [done|lia].
Qed.

Lemma holds_empty own fb v inum : v 0 = zeroes -> holds own fb v (replicate 13 0) inum 0 [].
Proof.
  intros Hz. assert (Hb : forall j, blk v (replicate 13 0) j = 0).
  { intros j. unfold blk. change (ind (replicate 13 0)) with 0. destruct (j <? NDIRECT); [|done]. destruct (Z_lt_le_dec j 0); [by rewrite lookupZ_None by lia|].
    destruct (Z_lt_le_dec j 13); [by rewrite lookupZ_replicate by lia|]. rewrite lookupZ_None; [done|]. rewrite lenZ_replicate. lia. }
  split; [done|by compute|by compute|done| |].
  - intros j Hj. destruct (Z.ltb_spec j 0); [lia|apply Hb].
  - intros x Hx. unfold fbyte. rewrite Hb, Hz, lookup_zeroes. by rewrite lookupZ_None by (change (lenZ []) with 0; lia).
Qed.

Lemma ialloc_image own s F t : image own s F -> lenZ F < NINODES - 1 -> 0 < t < 2 ^ 15 ->
  exists s', ialloc t s = Done (lenZ F + 1) s' /\ image own s' (F ++ [(t, [])]) /\ mk_freeblock s' = mk_freeblock s.
Proof.
  intros I Hl Ht. pose proof (im_base _ _ _ I) as B. pose proof (lenZ_nonneg F) as HF. pose proof nmeta_eq as Em. assert (Hi : 0 <= lenZ F + 1 < NINODES) by lia. pose proof (ba_free _ B) as Hfr.
  set (s1 := set_mk_freeinode (lenZ F + 1 + 1) s). assert (B1 : base s1) by (destruct B; by split).
  pose proof (holds_empty own (mk_freeblock s) (sect s) (lenZ F + 1) (ba_boot _ B)) as H0.
  destruct (winode_ok s1 (lenZ F + 1) (mkDinode t 0 0 1 0 (replicate 13 0)) B1 Hi) as (s2 & E2 & B2 & I2 & F2 & V2 & D2); [apply (holds_wf _ _ _ _ _ _ _ t 0 H0); lia|].
  destruct (iblock_range (lenZ F + 1) Hi) as [_ [Hb1 Hb2]]. assert (Hfrm : forall A k nb c, holds own (mk_freeblock s) (sect s) A k nb c -> holds own (mk_freeblock s2) (sect s2) A k nb c).
  { intros A k nb c H. rewrite F2. apply (holds_frame _ _ _ _ _ _ _ _ _ _ H); [cbn; lia|done|apply V2; lia|]. intros b Hb _. apply V2. lia. }
  exists s2. split; [|split; [split|exact F2]].
  - unfold ialloc. rewrite (hbind_ok _ _ _ _ _ (eq_refl : hget mk_freeinode s = Done (mk_freeinode s) s)), (im_next _ _ _ I). unfold NINODES in *. rewrite u32_small by lia.
    rewrite (hbind_ok _ _ _ _ _ (eq_refl : hset (set_mk_freeinode (lenZ F + 1 + 1)) s = Done tt s1)). cbv zeta. rewrite (xshort_id t) by lia. rewrite <- (Z.mod_small t (2 ^ 16)), i16_u16 by lia. by rewrite (hbind_ok _ _ _ _ _ E2).
  - done.
  - rewrite lenZ_app, I2. done.
  - rewrite lenZ_app. change (lenZ [(t, [])]) with 1. lia.
  - rewrite V2 by lia. apply I.
  - intros n Hn. rewrite V2 by lia. by apply (im_zero _ _ _ I).
  - intros k t' c' Hk. pose proof (lookupZ_Some_range _ _ _ Hk) as Hkr. rewrite lenZ_app in Hkr. change (lenZ [(t, [])]) with 1 in Hkr. rewrite D2 by lia. rewrite lookupZ_app in Hk. destruct (Z.ltb_spec k (lenZ F)).
    + destruct (Z.eqb_spec (k + 1) (lenZ F + 1)); [lia|]. destruct (im_inode _ _ _ I k t' c' Hk) as (Ht' & Hm & A & Ed & H'). split; [done|]. split; [done|]. exists A. split; [exact Ed|by apply Hfrm].
    + assert (k = lenZ F) as -> by lia. rewrite Z.eqb_refl. rewrite Z.sub_diag in Hk. injection Hk as <- <-. split; [done|]. split; [by compute|]. exists (replicate 13 0). split; [done|]. by apply Hfrm.
  - rewrite lenZ_app. change (lenZ [(t, [])]) with 1. intros k Hk. rewrite D2 by lia. destruct (Z.eqb_spec (k + 1) (lenZ F + 1)); [lia|]. apply (im_unused _ _ _ I). lia.
Qed.

Lemma copy_loop_image reads : forall own s F k t c, image own s F -> lookupZ F k = Some (t, c) -> Forall (fun buf => 0 < lenZ buf /\ is_bytes buf) reads ->
  lenZ c + lenZ (concat reads) <= MAXFILE * BSIZE -> mk_freeblock s + (cost (lenZ c + lenZ (concat reads)) - cost (lenZ c)) <= FSSIZE ->
  exists own' s', copy_loop (k + 1) reads s = Done tt s' /\ image own' s' (insertZ k (t, c ++ concat reads) F) /\
    mk_freeblock s' = mk_freeblock s + (cost (lenZ c + lenZ (concat reads)) - cost (lenZ c)).
Proof.
  induction reads as [|buf reads IH]; intros own s F k t c I Hk HF Hm Hf; cbn [concat copy_loop] in *.
  { exists own, s. rewrite app_nil_r. change (lenZ []) with 0. rewrite Z.add_0_r, Z.sub_diag, Z.add_0_r, insertZ_id by done. done. }
  inversion HF as [|? ? [Hp Hb] HF']; subst. rewrite lenZ_app in *. pose proof (lenZ_nonneg (concat reads)) as Hr. pose proof (cost_mono (lenZ c + lenZ buf) (lenZ c + (lenZ buf + lenZ (concat reads))) ltac:(lia)) as Hcm.
  destruct (iappend_image own s F k t c buf I Hk Hb ltac:(lia) ltac:(lia)) as (own1 & s1 & E1 & I1 & F1). pose proof (lookupZ_Some_range _ _ _ Hk) as Hkr.
  destruct (IH own1 s1 _ k t (c ++ buf) I1) as (own2 & s2 & E2 & I2 & F2); [by apply lookupZ_insertZ_eq|done|rewrite lenZ_app; lia|rewrite lenZ_app, <- Z.add_assoc; lia|].
  rewrite lenZ_app, <- Z.add_assoc in F2. rewrite insertZ_insertZ, <- app_assoc in I2. exists own2, s2. split; [|split; [done|lia]]. destruct (Z.ltb_spec 0 (lenZ buf)); [|lia]. by rewrite (hbind_ok _ _ _ _ _ E1).
Qed.

(** *** Directory entries *)

Lemma strncpy_bytes n t i : (forall k, 0 <= t k < 256) -> is_bytes (strncpy_loop n t i).
Proof.
  intros Ht. revert i. induction n as [|n IH]; intros i; cbn [strncpy_loop]; constructor; [apply Ht|]. destruct (truth (t i)); [apply IH|]. apply Forall_replicate. lia.
Qed.

Lemma entry_ok inum name : is_bytes name -> lenZ (entry inum name) = sizeof_dirent /\ is_bytes (entry inum name).
Proof.
  intros Hb. assert (Ht : forall k, 0 <= str_of name k < 256).
  { intros k. unfold str_of. destruct (lookupZ name k) as [x|] eqn:E; [|simpl; lia]. apply lookupZ_elem in E. unfold is_bytes in Hb. rewrite Forall_forall in Hb. by apply Hb. }
  unfold entry, dirent_bytes. cbn [de_inum de_name]. split; [|apply Forall_app; split; [apply le_split_range|by apply strncpy_bytes]].
  rewrite lenZ_app, lenZ_le_split. unfold strncpy, lenZ. by rewrite length_strncpy_loop.
Qed.

Definition fname (f : hostfile) : list Z := strip_underscore (strip_dir (hf_path f)).
Definition fdata (f : hostfile) : list Z := concat (default [] (hf_reads f)).

(** The files that [main] accepts. *)
Record file_fits (f : hostfile) : Prop := {
  ff_path : is_bytes (hf_path f);
  ff_slash : existsb (Z.eqb (ch "/")) (strip_dir (hf_path f)) = false;
  ff_name : lenZ (fname f) <= DIRSIZ;
  ff_open : hf_reads f <> None;
  ff_reads : Forall (fun buf => 0 < lenZ buf /\ is_bytes buf) (default [] (hf_reads f));
  ff_size : lenZ (fdata f) <= MAXFILE * BSIZE;
}.

Lemma fname_bytes f : is_bytes (hf_path f) -> is_bytes (fname f).
Proof.
  intros H. assert (Hs : is_bytes (strip_dir (hf_path f))) by (unfold strip_dir; destruct (decide _); [by apply Forall_drop|done]).
  unfold fname, strip_underscore. destruct (strip_dir (hf_path f)) as [|x l]; [done|]. cbn [head]. destruct (x =? ch "_"); [by inversion Hs|done].
Qed.

(** The entries of the files, the first with the inode number [inum]. *)
Fixpoint dir_entries (inum : Z) (files : list hostfile) : list Z :=
  match files with
  | [] => []
  | f :: files' => entry inum (fname f) ++ dir_entries (inum + 1) files'
  end.
Definition file_inodes (files : list hostfile) : list (Z * list Z) := (fun f => (T_FILE, fdata f)) <$> files.
Definition total (files : list hostfile) : Z := foldr (fun f n => cost (lenZ (fdata f)) + n) 0 files.

Lemma cost_nonneg size : 0 <= size -> 0 <= cost size.
Proof. intros H. change 0 with (cost 0). by apply cost_mono. Qed.

Lemma total_nonneg files : 0 <= total files.
Proof. induction files as [|f files IH]; cbn; [done|]. unfold total in IH. pose proof (cost_nonneg (lenZ (fdata f)) (lenZ_nonneg _)). lia. Qed.

Lemma add_file_image own s d G f : image own s ((T_DIR, d) :: G) -> file_fits f -> lenZ G < NINODES - 2 -> lenZ d + sizeof_dirent <= MAXFILE * BSIZE ->
  mk_freeblock s + (cost (lenZ d + sizeof_dirent) - cost (lenZ d)) + cost (lenZ (fdata f)) <= FSSIZE ->
  exists own' s', add_file 1 f s = Done tt s' /\ image own' s' ((T_DIR, d ++ entry (lenZ G + 2) (fname f)) :: G ++ [(T_FILE, fdata f)]) /\
    mk_freeblock s' = mk_freeblock s + (cost (lenZ d + sizeof_dirent) - cost (lenZ d)) + cost (lenZ (fdata f)).
Proof.
  intros I [Fp Fs Fn Fo Fr Fz] HG Hd Hf. pose proof (lenZ_nonneg d) as Hd0. pose proof (lenZ_nonneg G) as HG0. destruct (entry_ok (lenZ G + 2) (fname f) (fname_bytes f Fp)) as [El Eb].
  pose proof (cost_nonneg (lenZ (fdata f)) (lenZ_nonneg _)) as Hcf. unfold fdata in *. destruct (hf_reads f) as [reads|] eqn:Er; [|done]. cbn [default] in *. unfold id in *.
  destruct (ialloc_image own s _ T_FILE I ltac:(rewrite lenZ_cons; lia) ltac:(by compute)) as (s1 & E1 & I1 & F1). rewrite lenZ_cons in E1. replace (1 + lenZ G + 1) with (lenZ G + 2) in E1 by lia.
  destruct (iappend_image own s1 _ 0 T_DIR d (entry (lenZ G + 2) (fname f)) I1 eq_refl Eb ltac:(by rewrite El) ltac:(rewrite El, F1; lia)) as (own2 & s2 & E2 & I2 & F2). rewrite El, F1 in F2.
  change (insertZ 0 (T_DIR, d ++ entry (lenZ G + 2) (fname f)) (((T_DIR, d) :: G) ++ [(T_FILE, [])])) with ((T_DIR, d ++ entry (lenZ G + 2) (fname f)) :: G ++ [(T_FILE, [])]) in I2.
  destruct (copy_loop_image reads own2 s2 _ (lenZ G + 1) T_FILE [] I2) as (own3 & s3 & E3 & I3 & F3).
  { unfold lookupZ. destruct (Z.ltb_spec (lenZ G + 1) 0); [lia|]. replace (Z.to_nat (lenZ G + 1)) with (S (length G)) by (unfold lenZ; lia).
    change ((G ++ [(T_FILE, [])]) !! length G = Some (T_FILE, [] : list Z)). by rewrite list_lookup_middle. }
  { exact Fr. } { exact Fz. } { change (lenZ []) with 0. change (cost 0) with 0. rewrite F2, Z.add_0_l, Z.sub_0_r. exact Hf. }
  change (lenZ []) with 0 in F3. change (cost 0) with 0 in F3. rewrite F2, Z.add_0_l, Z.sub_0_r in F3. exists own3, s3. split; [|split; [|exact F3]].
  - unfold add_file. cbv zeta. rewrite Fs. rewrite (hbind_ok _ _ _ _ _ (eq_refl : assert_ (negb false) s = Done tt s)), Er. fold (fname f). rewrite (proj2 (Z.leb_le _ _) Fn).
    rewrite (hbind_ok _ _ _ _ _ (eq_refl : assert_ true s = Done tt s)), (hbind_ok _ _ _ _ _ E1), (hbind_ok _ _ _ _ _ E2). replace (lenZ G + 2) with (lenZ G + 1 + 1) by lia. exact E3.
  - assert (Ei : insertZ (lenZ G + 1) (T_FILE, [] ++ concat reads) ((T_DIR, d ++ entry (lenZ G + 2) (fname f)) :: G ++ [(T_FILE, [])]) = (T_DIR, d ++ entry (lenZ G + 2) (fname f)) :: G ++ [(T_FILE, concat reads)]); [|by rewrite Ei in I3].
    unfold insertZ. destruct (Z.ltb_spec (lenZ G + 1) 0); [lia|]. replace (Z.to_nat (lenZ G + 1)) with (S (length G + 0)) by (unfold lenZ; lia).
    cbn [insert list_insert]. f_equal. exact (insert_app_r G [(T_FILE, [])] 0 (T_FILE, concat reads)).
Qed.

Lemma add_files_image files : forall own s d G, image own s ((T_DIR, d) :: G) -> Forall file_fits files -> lenZ G + lenZ files < NINODES - 1 ->
  lenZ d + sizeof_dirent * lenZ files <= MAXFILE * BSIZE -> mk_freeblock s + (cost (lenZ d + sizeof_dirent * lenZ files) - cost (lenZ d)) + total files <= FSSIZE ->
  exists own' s', add_files 1 files s = Done tt s' /\ image own' s' ((T_DIR, d ++ dir_entries (lenZ G + 2) files) :: G ++ file_inodes files) /\
    mk_freeblock s' = mk_freeblock s + (cost (lenZ d + sizeof_dirent * lenZ files) - cost (lenZ d)) + total files.
Proof.
  induction files as [|f files IH]; intros own s d G I HF HG Hd Hf.
  { exists own, s. assert (E0 : lenZ d + sizeof_dirent * lenZ ([] : list hostfile) = lenZ d) by (change (lenZ ([] : list hostfile)) with 0; lia). rewrite E0, Z.sub_diag.
    change (dir_entries (lenZ G + 2) []) with ([] : list Z). change (file_inodes []) with ([] : list (Z * list Z)). change (total []) with 0. rewrite !app_nil_r. split; [done|]. split; [done|lia]. }
  inversion HF as [|? ? Hff HF']; subst. rewrite lenZ_cons in *. pose proof (lenZ_nonneg files) as Hn. pose proof (lenZ_nonneg d) as Hd0. cbn [total foldr] in *. fold (total files) in *. pose proof (total_nonneg files) as Ht.
  assert (Hsd : sizeof_dirent = 16) by done. pose proof (cost_mono (lenZ d + sizeof_dirent) (lenZ d + sizeof_dirent * (1 + lenZ files)) ltac:(lia)) as Hcm.
  destruct (add_file_image own s d G f I Hff ltac:(lia) ltac:(lia) ltac:(lia)) as (own1 & s1 & E1 & I1 & F1). destruct (entry_ok (lenZ G + 2) (fname f) (fname_bytes f (ff_path _ Hff))) as [El _].
  assert (Ed : lenZ (d ++ entry (lenZ G + 2) (fname f)) + sizeof_dirent * lenZ files = lenZ d + sizeof_dirent * (1 + lenZ files)) by (rewrite lenZ_app, El; lia).
  destruct (IH own1 s1 _ _ I1 HF') as (own2 & s2 & E2 & I2 & F2); [rewrite lenZ_app; change (lenZ [_]) with 1; lia|lia|rewrite Ed, lenZ_app, El; lia|].
  rewrite Ed in F2. rewrite (lenZ_app d), El in F2. rewrite <- app_assoc in I2. rewrite <- app_assoc, (lenZ_app G) in I2. replace (lenZ G + lenZ [(T_FILE, fdata f)] + 2) with (lenZ G + 2 + 1) in I2 by (change (lenZ [_]) with 1; lia).
  exists own2, s2. split; [|split; [exact I2|lia]]. cbn [add_files]. by rewrite (hbind_ok _ _ _ _ _ E1).
Qed.

(** *** The program *)

Lemma zero_sectors_ok n : forall i s, 0 <= i -> i + Z.of_nat n <= FSSIZE -> mk_img s = replicate (Z.to_nat i) zeroes ->
  zero_sectors n i s = Done tt (set_mk_img (replicate (Z.to_nat i + n) zeroes) s).
Proof.
  induction n as [|n IH]; intros i s Hi Hn E; cbn [zero_sectors].
  { rewrite Nat.add_0_r, <- E. by destruct s. }
  assert (Ew : wsect i zeroes s = Done tt (set_mk_img (replicate (S (Z.to_nat i)) zeroes) s)).
  { unfold wsect, hset, put_sector. rewrite sector_id, E, lenZ_replicate by lia. destruct (Z.ltb_spec i (Z.of_nat (Z.to_nat i))); [lia|]. do 2 f_equal.
    rewrite Z2Nat.id, Z.sub_diag by lia. change (replicate (Z.to_nat 0) zeroes) with ([] : list (list Z)). by rewrite replicate_S_end. }
  rewrite (hbind_ok _ _ _ _ _ Ew), IH; [|lia|lia|cbn [mk_img set_mk_img]; f_equal; lia]. by replace (Z.to_nat (i + 1) + n)%nat with (Z.to_nat i + S n)%nat by lia.
Qed.

Lemma get_dinode_zeroes j : get_dinode zeroes (dinode_off j) = mkDinode 0 0 0 0 0 (replicate 13 0).
Proof.
  pose proof (dinode_off_range j) as [H1 H2]. unfold sizeof_dinode in H2. transitivity (get_dinode zeroes 0); [|vm_compute; reflexivity].
  apply get_dinode_ext; try lia; try (unfold zeroes; rewrite lenZ_replicate; unfold BSIZE in *; lia).
  intros i Hi. unfold zeroes. unfold BSIZE in *. rewrite !lookupZ_replicate by lia. done.
Qed.

Lemma sb_block : is_block (put_bytes zeroes 0 (superblock_bytes new_sb)).
Proof. split; [reflexivity|]. apply is_bytes_put; [apply zeroes_block|]. vm_compute. repeat constructor; discriminate. Qed.

(** The image before the first inode. *)
Definition blank : mkst := mkMkst (replicate (Z.to_nat FSSIZE) zeroes) new_sb 1 nmeta.

Lemma blank_sect n : 0 <= n < FSSIZE -> sect blank n = zeroes.
Proof. intros H. unfold sect, blank. cbn [mk_img]. unfold FSSIZE in *. by rewrite lookupZ_replicate by lia. Qed.

Lemma blank_image own : exists s, wsect 1 (put_bytes zeroes 0 (superblock_bytes new_sb)) blank = Done tt s /\ image own s [] /\ mk_freeblock s = nmeta.
Proof.
  assert (B : base blank).
  { split; [unfold blank; cbn [mk_img]; by rewrite lenZ_replicate|intros n Hn; rewrite blank_sect by done; apply zeroes_block|done|by compute|by apply blank_sect|].
    intros n [Hn1 Hn2]. apply blank_sect. split; [|exact Hn2]. change (mk_freeblock blank) with 46 in Hn1. lia. }
  destruct (wsect_base blank 1 _ B ltac:(by compute) sb_block) as (s & E & B' & E1 & E2 & V). exists s. split; [done|]. split; [|done]. split; try done.
  - intros n Hn. rewrite V. destruct (Z.eqb_spec n 1); [lia|]. apply blank_sect. unfold FSSIZE. lia.
  - intros k t c Hk. pose proof (lookupZ_Some_range _ _ _ Hk) as Hr. change (lenZ []) with 0 in Hr. lia.
  - intros k Hk. pose proof (lenZ_nonneg ([] : list (Z * list Z))). destruct (iblock_range (k + 1) ltac:(lia)) as [_ [H1 H2]]. rewrite V. destruct (Z.eqb_spec (IBLOCK (k + 1) new_sb) 1); [lia|].
    rewrite blank_sect by (unfold FSSIZE; lia). apply get_dinode_zeroes.
Qed.

(** The directory [/] of the image. *)
Definition root_dir (files : list hostfile) : list Z := (entry 1 (chars ".") ++ entry 1 (chars "..")) ++ dir_entries 2 files.
Definition contents (files : list hostfile) : list (Z * list Z) := (T_DIR, root_dir files) :: file_inodes files.

Lemma dots_ok : lenZ (entry 1 (chars ".")) = 16 /\ lenZ (entry 1 (chars "..")) = 16 /\ is_bytes (entry 1 (chars ".")) /\ is_bytes (entry 1 (chars "..")).
Proof. repeat split; apply entry_ok; vm_compute; repeat constructor; discriminate. Qed.

Lemma lenZ_dir_entries files : forall inum, Forall file_fits files -> lenZ (dir_entries inum files) = sizeof_dirent * lenZ files.
Proof.
  induction files as [|f files IH]; intros inum HF; [done|]. inversion HF as [|? ? Hf HF']; subst. cbn [dir_entries]. destruct (entry_ok inum (fname f) (fname_bytes f (ff_path _ Hf))) as [El _].
  rewrite lenZ_app, IH, El, lenZ_cons by done. lia.
Qed.

Lemma lenZ_root files : Forall file_fits files -> lenZ (root_dir files) = 32 + sizeof_dirent * lenZ files.
Proof. intros HF. destruct dots_ok as (E1 & E2 & _). unfold root_dir. rewrite !lenZ_app, E1, E2, lenZ_dir_entries by done. lia. Qed.

Lemma mark_used_ok n : forall i buf, is_block buf -> 0 <= i -> i + Z.of_nat n <= BPB -> is_block (mark_used n i buf) /\
  forall b, 0 <= b < BPB -> bm_bit (mark_used n i buf) b = ((i <=? b) && (b <? i + Z.of_nat n)) || bm_bit buf b.
Proof.
  induction n as [|n IH]; intros i buf Hb Hi Hn; cbn [mark_used].
  { split; [done|]. intros b Hbr. destruct (Z.leb_spec i b), (Z.ltb_spec b (i + Z.of_nat 0)); try lia; done. }
  destruct (bm_lookup buf i Hb ltac:(lia)) as (x & Ex & Hx & _). destruct (bm_set buf i x Hb ltac:(lia) Ex Hx) as [Hb' Hbit]. rewrite Ex. cbn [default]. unfold id. fold (bit_mask i).
  rewrite u8_small by (by apply lor_mask_byte). destruct (IH (i + 1) _ Hb' ltac:(lia) ltac:(lia)) as [Hb2 Hbit2]. split; [done|]. intros b Hbr. rewrite Hbit2, Hbit by done.
  destruct (Z.leb_spec (i + 1) b), (Z.leb_spec i b), (Z.ltb_spec b (i + 1 + Z.of_nat n)), (Z.ltb_spec b (i + Z.of_nat (S n))), (Z.eqb_spec b i); try lia; done.
Qed.

Lemma bm_bit_zeroes b : bm_bit zeroes b = false.
Proof. unfold bm_bit. rewrite lookup_zeroes. apply Z.bits_0. Qed.

(** The size of [/] after [round_root]. *)
Definition root_size (size : Z) : Z := (size / BSIZE + 1) * BSIZE.
Definition rounded (din : dinode) : dinode := mkDinode (di_type din) (di_major din) (di_minor din) (di_nlink din) (root_size (di_size din)) (di_addrs din).

(** The first inode and its two entries. *)
Lemma main_root own s : image own s [] -> mk_freeblock s = nmeta -> exists own' s1 s2 s3, ialloc T_DIR s = Done ROOTINO s1 /\ iappend ROOTINO (entry ROOTINO (chars ".")) s1 = Done tt s2 /\
  iappend ROOTINO (entry ROOTINO (chars "..")) s2 = Done tt s3 /\ image own' s3 [(T_DIR, entry 1 (chars ".") ++ entry 1 (chars ".."))] /\ mk_freeblock s3 = nmeta + cost 32.
Proof.
  intros I F. destruct dots_ok as (L1 & L2 & B1 & B2). assert (Hf : mk_freeblock s + 1 <= FSSIZE) by (rewrite F; by compute).
  destruct (ialloc_image own s [] T_DIR I ltac:(by compute) ltac:(by compute)) as (s1 & E1 & I1 & F1).
  destruct (iappend_image own s1 [(T_DIR, [])] 0 T_DIR [] (entry 1 (chars ".")) I1 eq_refl B1) as (own2 & s2 & E2 & I2 & F2); rewrite ?L1; change (lenZ []) with 0; [by compute|change (cost (0 + 16) - cost 0) with 1; lia|].
  rewrite L1 in F2. change (lenZ []) with 0 in F2. change (cost (0 + 16) - cost 0) with 1 in F2. cbn [insertZ app] in I2.
  destruct (iappend_image own2 s2 _ 0 T_DIR (entry 1 (chars ".")) (entry 1 (chars "..")) I2 eq_refl B2) as (own3 & s3 & E3 & I3 & F3); rewrite ?L1, ?L2; [by compute|change (cost (16 + 16) - cost 16) with 0; lia|].
  rewrite L1, L2 in F3. change (cost (16 + 16) - cost 16) with 0 in F3. exists own3, s1, s2, s3. split; [exact E1|]. split; [exact E2|]. split; [exact E3|]. split; [exact I3|]. change (cost 32) with 1. lia.
Qed.

(** The last two steps. *)
Lemma main_finish own s d G : image own s ((T_DIR, d) :: G) -> root_size (lenZ d) <= MAXFILE * BSIZE -> exists s1 s', round_root ROOTINO s = Done tt s1 /\ mk_freeblock s1 = mk_freeblock s /\
  balloc (mk_freeblock s) s1 = Done tt s' /\ lenZ (mk_img s') = FSSIZE /\ (forall n, 0 <= n < FSSIZE -> is_block (sect s' n)) /\ (forall n, n <> 32 -> n <> 45 -> sect s' n = sect s n) /\
  (forall j, 0 <= j < NINODES -> get_dinode (sect s' (IBLOCK j new_sb)) (dinode_off j) =
    let di := get_dinode (sect s (IBLOCK j new_sb)) (dinode_off j) in if j =? ROOTINO then rounded di else di) /\
  forall b, 0 <= b < BPB -> bm_bit (sect s' 45) b = (b <? mk_freeblock s).
Proof.
  intros I Hm. pose proof (im_base _ _ _ I) as B. pose proof (ba_free _ B) as Hf. pose proof nmeta_eq as Em. assert (HB : BPB = 8192) by done. unfold FSSIZE in Hf. pose proof (lenZ_nonneg d) as Hd. assert (HM : MAXFILE * BSIZE < 2 ^ 31) by done.
  destruct (im_inode _ _ _ I 0 T_DIR d eq_refl) as (Ht & Hdm & A & Ed & H). change (0 + 1) with ROOTINO in *.
  assert (Hrs : 0 <= root_size (lenZ d)) by (unfold root_size; pose proof (Z.div_pos (lenZ d) BSIZE Hd ltac:(done)); unfold BSIZE in *; lia).
  destruct (winode_ok s ROOTINO (mkDinode T_DIR 0 0 1 (root_size (lenZ d)) A) B ltac:(by compute)) as (s1 & E1 & B1 & I1 & F1 & V1 & D1); [apply (holds_wf _ _ _ _ _ _ _ _ _ H); unfold FSSIZE; lia|].
  destruct (mark_used_ok (Z.to_nat (mk_freeblock s)) 0 zeroes zeroes_block ltac:(lia) ltac:(lia)) as [Hmb Hmbit].
  destruct (wsect_base s1 45 _ B1 ltac:(lia) Hmb) as (s' & E2 & B2 & I2 & F2 & V2). exists s1, s'. split; [|split; [done|split; [|split; [apply B2|split; [apply B2|split; [|split]]]]]].
  - unfold round_root. rewrite (hbind_ok _ _ _ _ _ (rinode_ok s ROOTINO B ltac:(by compute))), Ed. cbv zeta. cbn [di_size di_type di_major di_minor di_nlink di_addrs]. rewrite (xint_id (lenZ d)) by lia. fold (root_size (lenZ d)).
    rewrite u32_small, xint_id by lia. exact E1.
  - unfold balloc. destruct (Z.ltb_spec (mk_freeblock s) BPB); [|lia]. rewrite (hbind_ok _ _ _ _ _ (eq_refl : assert_ true s1 = Done tt s1)). cbv zeta.
    rewrite (hbind_ok _ _ _ _ _ (eq_refl : hget mk_sb s1 = Done (mk_sb s1) s1)), (ba_sb _ B1). exact E2.
  - intros n H1 H2. rewrite V2. destruct (Z.eqb_spec n 45); [done|]. by apply V1.
  - intros j Hj. destruct (iblock_range j Hj) as [_ [H1 H2]]. rewrite V2. destruct (Z.eqb_spec (IBLOCK j new_sb) 45); [lia|]. rewrite D1 by done. destruct (Z.eqb_spec j ROOTINO) as [->|]; [|done]. by rewrite Ed.
  - intros b Hb. rewrite V2. cbn [Z.eqb Pos.eqb]. rewrite Hmbit, bm_bit_zeroes by done. rewrite Z2Nat.id, Z.add_0_l, orb_false_r by lia. by destruct (Z.leb_spec 0 b); [|lia].
Qed.

Lemma root_size_max files : Forall file_fits files -> lenZ files < NINODES - 1 -> root_size (lenZ (root_dir files)) <= MAXFILE * BSIZE.
Proof.
  intros HF Hn. pose proof (lenZ_nonneg files). rewrite lenZ_root by done. unfold NINODES, root_size, sizeof_dirent, MAXFILE, NINDIRECT, NDIRECT, BSIZE in *. change (1024 / 4) with 256. Z.to_euclidean_division_equations. lia.
Qed.

Lemma main_ok files : Forall file_fits files -> lenZ files < NINODES - 1 -> let used := nmeta + cost (lenZ (root_dir files)) + total files in used <= FSSIZE ->
  exists own s s', main files initial = Done tt s' /\ image own s (contents files) /\ mk_freeblock s = used /\
    lenZ (mk_img s') = FSSIZE /\ (forall n, 0 <= n < FSSIZE -> is_block (sect s' n)) /\ (forall n, n <> 32 -> n <> 45 -> sect s' n = sect s n) /\
    (forall j, 0 <= j < NINODES -> get_dinode (sect s' (IBLOCK j new_sb)) (dinode_off j) =
      let di := get_dinode (sect s (IBLOCK j new_sb)) (dinode_off j) in if j =? ROOTINO then rounded di else di) /\
    forall b, 0 <= b < BPB -> bm_bit (sect s' 45) b = (b <? used).
Proof.
  intros HF Hn used Hu. pose proof (lenZ_root files HF) as Hl. unfold sizeof_dirent in Hl. pose proof (lenZ_nonneg files) as Hn0. assert (Hn1 : lenZ files < 199) by exact Hn. destruct dots_ok as (L1 & L2 & _).
  destruct (blank_image (fun _ => (0, 0))) as (s0 & E0 & I0 & F0). destruct (main_root _ s0 I0 F0) as (own & s1 & s2 & s3 & E1 & E2 & E3 & I3 & F3).
  assert (L : lenZ (entry 1 (chars ".") ++ entry 1 (chars "..")) = 32) by (by rewrite lenZ_app, L1, L2).
  assert (Eu : nmeta + cost 32 + (cost (32 + sizeof_dirent * lenZ files) - cost 32) + total files = used) by (unfold used; rewrite Hl; unfold sizeof_dirent; lia).
  destruct (add_files_image files own s3 _ [] I3 HF) as (own4 & s4 & E4 & I4 & F4); rewrite ?L, ?F3, ?Eu; [change (lenZ []) with 0; unfold NINODES; lia|unfold sizeof_dirent, MAXFILE, NINDIRECT, NDIRECT, BSIZE; change (1024 / 4) with 256; lia|exact Hu|].
  rewrite L, F3, Eu in F4. change (lenZ [] + 2) with 2 in I4.
  pose proof (root_size_max files HF Hn) as Hrm.
  destruct (main_finish own4 s4 (root_dir files) (file_inodes files) I4 Hrm) as (s5 & s6 & E5 & F5 & E6 & R). exists own4, s4, s6. rewrite F4 in *. split; [|split; [exact I4|split; [done|exact R]]].
  unfold main. rewrite (hbind_ok _ _ _ _ _ (eq_refl : hset _ initial = Done tt (set_mk_sb new_sb initial))), (hbind_ok _ _ _ _ _ (eq_refl : hset _ (set_mk_sb new_sb initial) = Done tt (set_mk_freeblock nmeta (set_mk_sb new_sb initial)))).
  rewrite (hbind_ok _ _ _ _ _ (zero_sectors_ok (Z.to_nat FSSIZE) 0 (set_mk_freeblock nmeta (set_mk_sb new_sb initial)) ltac:(lia) ltac:(by compute) eq_refl)). change (set_mk_img _ _) with blank.
  rewrite (hbind_ok _ _ _ _ _ E0), (hbind_ok _ _ _ _ _ E1). rewrite (hbind_ok _ _ _ _ _ (eq_refl : assert_ true s1 = Done tt s1)), (hbind_ok _ _ _ _ _ E2), (hbind_ok _ _ _ _ _ E3), (hbind_ok _ _ _ _ _ E4), (hbind_ok _ _ _ _ _ E5).
  rewrite (hbind_ok _ _ _ _ _ (eq_refl : hget mk_freeblock s5 = Done (mk_freeblock s5) s5)), F5. exact E6.
Qed.

(** ** The kernel on the image *)

Section Kernel.
Context `{DL : DiskLaws}.

(** Outside of the log the disk has the blocks of the image. *)
Record mounted (s : mkst) (k : kstate) : Prop := {
  mo_size : FSSIZE <= disk_blocks;
  mo_sb : k_sb k = new_sb;
  mo_start : log_start (k_log k) = 2;
  mo_log : log_size (k_log k) = 30;
  mo_view : forall n, 0 <= n < 2 \/ 32 <= n < FSSIZE -> view k n = sect s n;
}.

Lemma mounted_use s k used : mounted s k -> (forall b, 0 <= b < BPB -> bm_bit (sect s 45) b = (b <? used)) -> forall b, 0 <= b < FSSIZE -> in_use k b = (b <? used).
Proof.
  intros M Hb b Hbr. unfold FSSIZE in Hbr. assert (HB : BPB = 8192) by done. unfold in_use, BBLOCK. rewrite (mo_sb _ _ M). change (sb_bmapstart new_sb) with 45.
  rewrite Z.div_small, Z.mod_small by lia. change (u32 (0 + 45)) with 45. rewrite (mo_view _ _ M) by (unfold FSSIZE; lia). apply Hb. lia.
Qed.

Lemma mounted_areas s k used : mounted s k -> nmeta <= used <= FSSIZE -> (forall b, 0 <= b < BPB -> bm_bit (sect s 45) b = (b <? used)) -> fs_areas k.
Proof.
  intros M Hu Hb. pose proof (mounted_use s k used M Hb) as Huse. pose proof nmeta_eq as Em. pose proof (mo_size _ _ M) as Hd. assert (Hsize : sb_size (k_sb k) = 2000) by (by rewrite (mo_sb _ _ M)).
  assert (Hbm : forall n, is_bitmap k n -> n = 45).
  { intros n (b & Hbr & ->). unfold BBLOCK. rewrite (mo_sb _ _ M) in *. change (sb_bmapstart new_sb) with 45. change (sb_size new_sb) with 2000 in Hbr. by rewrite Z.div_small by (change BPB with 8192; lia). }
  assert (Hlow : forall n, 0 <= n < 46 -> in_use k n = true) by (intros n Hn; rewrite Huse by (unfold FSSIZE; lia); apply Z.ltb_lt; lia).
  assert (Hlog : forall n, in_log (k_log k) n <-> 2 <= n < 32) by (intros n; unfold in_log; rewrite (mo_start _ _ M), (mo_log _ _ M); lia).
  assert (Hds : data_start k = 46) by (unfold data_start; rewrite (mo_sb _ _ M); reflexivity). unfold FSSIZE in Hd. split; [split| | |].
  - rewrite Hsize. lia.
  - rewrite (mo_sb _ _ M). change (sb_bmapstart new_sb) with 45. change (sb_size new_sb / BPB) with 0. lia.
  - intros n Hn. rewrite (Hbm n Hn), Hlog. lia.
  - intros n Hn [Hor|Hor]; [rewrite (Hbm n Hor); by apply Hlow|]. apply Hlow. apply Hlog in Hor. lia.
  - intros n Hn. apply Hlog in Hn. lia.
  - rewrite (mo_sb _ _ M). intros inum Hi. change (sb_ninodes new_sb) with 200 in Hi. destruct (iblock_range inum Hi) as [_ [H1 H2]]. split; [exact H2|]. rewrite Hlog. lia.
  - intros n Hn _. apply Hlow. lia.
Qed.

(** An inode with the addresses of a file of the image. *)
Lemma holds_file_ok own k A inum nb c i used : k_sb k = new_sb -> used <= FSSIZE -> (forall b, 0 <= b < FSSIZE -> in_use k b = (b <? used)) -> holds own used (view k) A inum nb c ->
  i_dev i = ROOTDEV -> i_addrs i = A -> 0 <= i_size i <= nb * BSIZE -> file_ok k i.
Proof.
  intros Es Hused Hu H Hdev EA Hsz. pose proof (ho_nb _ _ _ _ _ _ _ H) as Hnb. pose proof nmeta_eq as Em. unfold FSSIZE in Hused.
  assert (Hdb : forall b, nmeta <= b < used -> data_block k b).
  { intros b Hb. split; [|rewrite Hu by (unfold FSSIZE; lia); apply Z.ltb_lt; lia]. unfold data_start. rewrite Es. change (sb_bmapstart new_sb + sb_size new_sb / BPB + 1) with 46. change (sb_size new_sb) with 2000. lia. }
  split; rewrite ?EA; [done|apply H|unfold BSIZE in *; lia| | | |].
  - pose proof (ho_ind _ _ _ _ _ _ _ H) as Hi. destruct (nb <=? NDIRECT); [by left|right]. apply Hdb, Hi.
  - intros j Hj. pose proof (ho_blk _ _ _ _ _ _ _ H j Hj) as Hb. destruct (j <? nb) eqn:Ej; [right|by left]. destruct Hb as [Hr Ho]. split; [by apply Hdb|]. intros E. rewrite E in Ho, Hr.
    pose proof (ho_ind _ _ _ _ _ _ _ H) as Hi. destruct (nb <=? NDIRECT); [lia|]. destruct Hi as [_ Hi]. rewrite Hi in Ho. injection Ho. lia.
  - intros j l Hj Hl E Hne. by destruct (holds_apart _ _ _ _ _ _ _ _ _ _ _ j l H H E Hne Hj Hl).
  - intros j Hj Hs. destruct (holds_piece _ _ _ _ _ _ _ j H) as [Hr _]; [unfold BSIZE in *; lia|lia].
Qed.

Lemma holds_file_bytes own fb v A inum nb c size : holds own fb v A inum nb c -> lenZ c <= size <= MAXFILE * BSIZE -> file_bytes v A 0 size = c ++ replicate (Z.to_nat (size - lenZ c)) 0.
Proof.
  intros H Hs. pose proof (lenZ_nonneg c) as Hc. apply list_eqZ; [rewrite lenZ_file_bytes, lenZ_app, lenZ_replicate by lia; lia|]. rewrite lenZ_file_bytes by lia. intros x Hx. rewrite lookup_file_bytes by lia. rewrite Z.add_0_l, (ho_bytes _ _ _ _ _ _ _ H) by lia.
  rewrite lookupZ_app. destruct (Z.ltb_spec x (lenZ c)) as [Hlt|Hge]; [destruct (lookupZ_is_Some c x) as [y ->]; [lia|done]|].
  rewrite lookupZ_replicate by lia. by rewrite lookupZ_None by lia.
Qed.

(** The inode [inum] on the disk. *)
Definition on_disk (k : kstate) (inum : Z) : dinode := get_dinode (view k (IBLOCK inum (k_sb k))) (dinode_off inum).

(** The inodes of the image are on the disk of the kernel. *)
Lemma mounted_inode own s s' F k j t c : image own s F -> mounted s' k -> (forall n, n <> 32 -> n <> 45 -> sect s' n = sect s n) ->
  (forall j, 0 <= j < NINODES -> get_dinode (sect s' (IBLOCK j new_sb)) (dinode_off j) = let di := get_dinode (sect s (IBLOCK j new_sb)) (dinode_off j) in if j =? ROOTINO then rounded di else di) ->
  lookupZ F j = Some (t, c) -> exists A, on_disk k (j + 1) = mkDinode t 0 0 1 (if j =? 0 then root_size (lenZ c) else lenZ c) A /\
    holds own (mk_freeblock s) (view k) A (j + 1) (pieces (lenZ c)) c.
Proof.
  intros I M V D Hj. destruct (im_inode _ _ _ I j t c Hj) as (_ & _ & A & Ed & H). pose proof (lookupZ_Some_range _ _ _ Hj) as Hr. pose proof (im_count _ _ _ I) as Hc. destruct (iblock_range (j + 1) ltac:(lia)) as [_ [H1 H2]].
  pose proof (ba_free _ (im_base _ _ _ I)) as Hf. pose proof nmeta_eq as Em. exists A. split.
  - unfold on_disk. rewrite (mo_sb _ _ M), (mo_view _ _ M), D by (unfold FSSIZE; lia). cbv zeta. rewrite Ed. unfold ROOTINO. destruct (Z.eqb_spec (j + 1) 1), (Z.eqb_spec j 0); try lia; done.
  - apply (holds_frame _ _ _ _ _ _ _ _ _ _ H); [lia|done| |].
    + rewrite (mo_view _ _ M) by (unfold FSSIZE; lia). by apply V.
    + intros b Hb _. rewrite (mo_view _ _ M) by lia. apply V; lia.
Qed.

(** The root directory is rounded up to whole blocks, or by a block too many. *)
Lemma root_pieces size : 0 <= size -> if size mod BSIZE =? 0 then pieces size * BSIZE < root_size size else root_size size = pieces size * BSIZE.
Proof. intros H. unfold root_size, pieces, BSIZE. destruct (Z.eqb_spec (size mod 1024) 0); Z.to_euclidean_division_equations; lia. Qed.

Lemma root_file_ok own k A inum c i used : k_sb k = new_sb -> used <= FSSIZE -> (forall b, 0 <= b < FSSIZE -> in_use k b = (b <? used)) -> holds own used (view k) A inum (pieces (lenZ c)) c ->
  i_dev i = ROOTDEV -> i_addrs i = A -> i_size i = root_size (lenZ c) -> root_size (lenZ c) <= MAXFILE * BSIZE -> file_ok k i <-> lenZ c mod BSIZE <> 0.
Proof.
  intros Es Hu Huse H Hdev EA Esz Hm. pose proof (root_pieces (lenZ c) (lenZ_nonneg c)) as Hp. pose proof (ho_nb _ _ _ _ _ _ _ H) as Hnb. split.
  - intros O E. rewrite E in Hp. cbn [Z.eqb] in Hp. apply (fo_full _ _ O (pieces (lenZ c))); [lia|rewrite Esz; lia|]. rewrite EA. apply (holds_none _ _ _ _ _ _ _ _ H). unfold BSIZE in *. lia.
  - intros E. destruct (Z.eqb_spec (lenZ c mod BSIZE) 0); [done|]. apply (holds_file_ok own k A inum (pieces (lenZ c)) c i used); try done. rewrite Esz, Hp. unfold BSIZE in *. lia.
Qed.

Lemma new_sb_log : FSSIZE <= disk_blocks -> sb_log new_sb.
Proof. intros H. unfold FSSIZE in H. split; [by compute|by compute|]. change (sb_logstart new_sb + sb_nlog new_sb) with 32. lia. Qed.

(** What the kernel finds for an inode of the image. *)
Lemma kernel_file own k A j t c i0 used : k_sb k = new_sb -> used <= FSSIZE -> (forall b, 0 <= b < FSSIZE -> in_use k b = (b <? used)) -> holds own used (view k) A (j + 1) (pieces (lenZ c)) c ->
  i_dev i0 = ROOTDEV -> lenZ c <= MAXFILE * BSIZE -> (j = 0 -> root_size (lenZ c) <= MAXFILE * BSIZE) ->
  let i := load_dinode (mkDinode t 0 0 1 (if j =? 0 then root_size (lenZ c) else lenZ c) A) i0 in
  file_bytes (view k) (i_addrs i) 0 (i_size i) = c ++ replicate (Z.to_nat (i_size i - lenZ c)) 0 /\ file_ok k (set_i_size (lenZ c) i) /\ (j = 0 -> file_ok k i <-> lenZ c mod BSIZE <> 0).
Proof.
  intros Es Hu Huse H Hdev Hm Hroot i. pose proof (lenZ_nonneg c) as Hc. assert (Hge : lenZ c <= root_size (lenZ c)) by (unfold root_size, BSIZE; Z.to_euclidean_division_equations; lia). split; [|split].
  - apply (holds_file_bytes own used _ A (j + 1) (pieces (lenZ c)) c _ H). unfold i. cbn [i_size load_dinode set_i_addrs set_i_size di_size]. destruct (Z.eqb_spec j 0) as [Ej|]; [specialize (Hroot Ej)|]; lia.
  - apply (holds_file_ok own k A (j + 1) (pieces (lenZ c)) c (set_i_size (lenZ c) i) used Es Hu Huse H Hdev eq_refl). split; [exact Hc|exact (ho_size _ _ _ _ _ _ _ H)].
  - intros Ej. apply (root_file_ok own k A (j + 1) c i used Es Hu Huse H Hdev eq_refl); [unfold i; rewrite Ej; reflexivity|by apply Hroot].
Qed.

End Kernel.

(** C11: [main] of mkfs with files that fit writes an image on which the kernel
    starts.  [fsinit] returns with an empty log, and the disk is laid out as
    [balloc], [readi] and [writei] need it; exactly the blocks that the image
    uses are marked.  Inode 1 is the directory with the entries of all files,
    and the inode of every file has its type, one link, and exactly its bytes;
    no block belongs to two inodes.  The size of the directory is rounded up,
    with zeros behind the entries; it has a block for every byte unless the
    entries already filled whole blocks. *)
Theorem mkfs_boots files : Forall file_fits files -> lenZ files < NINODES - 1 -> let used := nmeta + cost (lenZ (root_dir files)) + total files in used <= FSSIZE ->
  exists img, main files initial = Done tt img /\ lenZ (mk_img img) = FSSIZE /\ (forall n, 0 <= n < FSSIZE -> is_block (sect img n)) /\
  forall (DD : DiskDriver) (DL : DiskLaws) (PT : Patience) en p pid s, running en p pid s -> bio_inv pid [] [] s -> FSSIZE <= disk_blocks -> lenZ (lh_block (log_lh (k_log s))) = LOGSIZE ->
  (forall n, 0 <= n < FSSIZE -> dblock (k_disk s) n = sect img n) ->
  exists k, fsinit ROOTDEV s = Ok tt k /\ running en p pid k /\ bio_inv pid [] [] k /\ log_has (k_log k) [] /\ fs_areas k /\
    (forall b, 0 <= b < FSSIZE -> in_use k b = (b <? used)) /\
    (forall j t c i0, lookupZ (contents files) j = Some (t, c) -> i_dev i0 = ROOTDEV -> let i := load_dinode (on_disk k (j + 1)) i0 in
      i_type i = t /\ i_nlink i = 1 /\ i_size i = (if j =? 0 then root_size (lenZ c) else lenZ c) /\
      file_bytes (view k) (i_addrs i) 0 (i_size i) = c ++ replicate (Z.to_nat (i_size i - lenZ c)) 0 /\
      file_ok k (set_i_size (lenZ c) i) /\ (j = 0 -> file_ok k i <-> lenZ c mod BSIZE <> 0)) /\
    forall j j' x x', 0 <= j < lenZ (contents files) -> 0 <= j' < lenZ (contents files) -> 0 <= x < MAXFILE -> 0 <= x' < MAXFILE ->
      let b := blk (view k) (di_addrs (on_disk k (j + 1))) x in b <> 0 -> b = blk (view k) (di_addrs (on_disk k (j' + 1))) x' -> j = j' /\ x = x'.
Proof.
  intros HF Hn used Hu. destruct (main_ok files HF Hn Hu) as (own & s & img & E & I & Ef & El & Hb & V & D & Hbit). fold used in Ef, Hbit.
  exists img. split; [done|]. split; [done|]. split; [done|]. intros DD DL PT en p pid s0 Hr Hi Hd Hlen Hdisk. pose proof nmeta_eq as Em. pose proof (ba_free _ (im_base _ _ _ I)) as Hfr. rewrite Ef in Hfr.
  assert (H1 : dblock (k_disk s0) 1 = put_bytes zeroes 0 (superblock_bytes new_sb)) by (rewrite Hdisk, V by (unfold FSSIZE; lia); apply I).
  assert (Esb : superblock_of (dblock (k_disk s0) 1) = new_sb) by (rewrite H1; vm_compute; reflexivity).
  assert (Hhd : head_is (dblock (k_disk s0) 2) []) by (rewrite Hdisk, V, (im_zero _ _ _ I) by (unfold FSSIZE; lia); exact zero_head).
  pose proof (fsinit_ok en p pid s0) as Hfs. cbv zeta in Hfs. rewrite Esb in Hfs. destruct (Hfs Hr Hi ltac:(unfold FSSIZE in Hd; lia) eq_refl (new_sb_log Hd) Hlen Hhd) as (k & Ek & Hrk & Ik & Sk & _ & Lk & L1 & L2 & Vk). clear Hfs.
  change (sb_logstart new_sb) with 2 in L1. change (sb_nlog new_sb) with 30 in L2.
  assert (M : mounted img k).
  { split; [done|done|done|done|]. intros n Hn'. rewrite Vk by (unfold in_log; rewrite L1, L2; lia). apply Hdisk. unfold FSSIZE in *. lia. }
  assert (Huse : forall b, 0 <= b < FSSIZE -> in_use k b = (b <? used)) by (intros b Hbr; by apply (mounted_use img)).
  assert (Hino : forall j t c, lookupZ (contents files) j = Some (t, c) -> exists A, on_disk k (j + 1) = mkDinode t 0 0 1 (if j =? 0 then root_size (lenZ c) else lenZ c) A /\
    holds own used (view k) A (j + 1) (pieces (lenZ c)) c) by (rewrite <- Ef; intros j t c; by apply (mounted_inode own s img)).
  exists k. split; [done|]. split; [done|]. split; [done|]. split; [done|]. split; [by apply (mounted_areas img k used)|]. split; [done|]. split.
  - intros j t c i0 Hj Hdev. destruct (Hino j t c Hj) as (A & -> & H). destruct (im_inode _ _ _ I j t c Hj) as (_ & Hm & _). cbv zeta. do 3 (split; [done|]).
    apply (kernel_file own k A j t c i0 used Sk Hu Huse H Hdev Hm). intros ->. injection Hj as _ <-. by apply root_size_max.
  - intros j j' x x' Hj Hj' Hx Hx' b Hb0 Eb. destruct (lookupZ_is_Some _ j Hj) as [[t c] Hf], (lookupZ_is_Some _ j' Hj') as [[t' c'] Hf']. destruct (Hino j t c Hf) as (A & Ed & H), (Hino j' t' c' Hf') as (A' & Ed' & H').
    unfold b in *. rewrite Ed in *. rewrite Ed' in Eb. cbn [di_addrs] in *. apply (holds_apart own used (view k) A A' (j + 1) (j' + 1) _ _ c c' x x' H H') in Eb; [lia|done|done|done].
Qed.

(** *** A disk with the image *)

Definition disk_of (s : mkst) : disk_dev := mkDisk (list_to_map ((fun n => (n, sect s n)) <$> rangeZ 0 (Z.to_nat FSSIZE))) [].

Lemma dblock_disk_of s n : dblock (disk_of s) n = if (0 <=? n) && (n <? FSSIZE) then sect s n else zero_block.
Proof.
  unfold dblock, disk_of. cbn [d_blocks]. assert (Hl : n ∈ rangeZ 0 (Z.to_nat FSSIZE) <-> 0 <= n < FSSIZE) by (rewrite elem_of_rangeZ; unfold FSSIZE; lia). pose proof (NoDup_rangeZ 0 (Z.to_nat FSSIZE)) as Hnd.
  generalize dependent (rangeZ 0 (Z.to_nat FSSIZE)). intros l Hl Hnd. assert (Ef : ((fun n => (n, sect s n)) <$> l).*1 = l) by (rewrite <- list_fmap_compose; apply list_fmap_id).
  destruct (decide (n ∈ l)) as [Hin|Hin].
  - rewrite (elem_of_list_to_map_1 _ n (sect s n)); [|by rewrite Ef|apply list_elem_of_fmap; by exists n]. apply Hl in Hin. by destruct (Z.leb_spec 0 n), (Z.ltb_spec n FSSIZE); try lia.
  - rewrite not_elem_of_list_to_map_1 by (by rewrite Ef). rewrite Hl in Hin. by destruct (Z.leb_spec 0 n), (Z.ltb_spec n FSSIZE); try lia.
Qed.

Definition demo_files : list hostfile := [mkHostfile (chars "README") (Some [chars "xv6 is"; chars " small"]); mkHostfile (chars "user/_cat") (Some [replicate 1024 127; replicate 300 1])].

Lemma demo_fits : Forall file_fits demo_files.
Proof.
  repeat constructor; try done; cbn; try lia; try (apply Forall_replicate; lia); vm_compute; repeat constructor; discriminate.
Qed.

Lemma mkfs_boots_witness : exists img s k, main demo_files initial = Done tt img /\ @fsinit demo_patience demo_disk ROOTDEV s = Ok tt k.
Proof.
  destruct (mkfs_boots demo_files demo_fits ltac:(by compute) ltac:(by compute)) as (img & E & _ & Hb & H).
  assert (Hd : forall n, is_block (dblock (disk_of img) n)).
  { intros n. rewrite dblock_disk_of. destruct ((0 <=? n) && (n <? FSSIZE)) eqn:En; [|exact zero_is_block]. apply andb_prop in En as [H1%Z.leb_le H2%Z.ltb_lt]. exact (Hb n (conj H1 H2)). }
  destruct (demo_cache (disk_of img) Hd) as (bc & sl & lk & _ & Hr & Hi & _).
  destruct (H demo_disk demo_laws demo_patience true 5 9 _ Hr Hi) as (k & Ek & _); [compute; discriminate|reflexivity| |eexists img, _, k; split; [exact E|exact Ek]].
  intros n Hn. change (dblock (disk_of img) n = sect img n). rewrite dblock_disk_of. destruct (Z.leb_spec 0 n), (Z.ltb_spec n FSSIZE); try lia. reflexivity.
Defined.
