(* ===== verification/File.v ===== *)
(** * Open files ([kernel/file.c], [pipealloc] of [kernel/pipe.c])

    A [struct file] is named by its index in [ftable.file]. *)

From S2P Require Import Prelude Riscv State Spinlock Kalloc Copy Sched Sleeplock Uart Printf.
From S2P Require Import Pipe Console FsLayout Bio Log Fs.

(** ** Definitions *)

Definition fileinit : M unit := initlock L_ftable "ftable".

Definition filealloc_body (f : Z) : M (option Z) :=
  x <- get_file f;;
  if f_ref x =? 0 then
    put_file f (set_f_ref 1 x);;
    release L_ftable;;
    ret (Some f)
  else ret None.

Definition filealloc : M (option Z) :=
  acquire L_ftable;;
  r <- for_loop (Z.to_nat NFILE) 0 filealloc_body;;
  match r with
  | Some f => ret (Some f)
  | None => release L_ftable;; ret None
  end.

Definition filedup (f : Z) : M Z :=
  acquire L_ftable;;
  x <- get_file f;;
  if f_ref x <? 1 then panic "filedup" else
  put_file f (set_f_ref (f_ref x + 1) x);;
  release L_ftable;;
  ret f.

(** The bytes of a [struct stat]; [pad] is what the four padding bytes before
    [size] hold. *)
Definition stat_bytes (pad : list Z) (st : stat) : list Z :=
  le_split 4 (st_dev st) ++ le_split 4 (st_ino st) ++ le_split 2 (st_type st) ++
  le_split 2 (st_nlink st) ++ pad ++ le_split 8 (st_size st).

(** The padding of the uninitialised local [st] of [filestat]. *)
Class StackBytes := stat_pad : list Z.

Section File.
Context {KI : KernelImage} {IO : Mmio} {PT : Patience} {DD : DiskDriver}.

Definition fileclose (f : Z) : M unit :=
  acquire L_ftable;;
  x <- get_file f;;
  if f_ref x <? 1 then panic "fileclose" else
  put_file f (set_f_ref (f_ref x - 1) x);;
  if 0 <? f_ref x - 1 then release L_ftable else
  ff <- get_file f;;
  put_file f (set_f_type FD_NONE (set_f_ref 0 ff));;
  release L_ftable;;
  match f_type ff with
  | FD_PIPE => pipeclose (f_pipe ff) (f_writable ff)
  | FD_INODE | FD_DEVICE =>
      begin_op;;
      ip <- deref (f_ip ff);;
      iput ip;;
      end_op
  | FD_NONE => ret tt
  end.

Definition filestat {SB : StackBytes} (f addr : Z) : M Z :=
  p <- curproc;;
  x <- get_file f;;
  match f_type x with
  | FD_INODE | FD_DEVICE =>
      ip <- deref (f_ip x);;
      ilock ip;;
      st <- stati ip;;
      iunlock ip;;
      pr <- get_proc p;;
      r <- copyout (p_pagetable pr) addr (stat_bytes stat_pad st);;
      if r <? 0 then ret (-1) else ret 0
  | _ => ret (-1)
  end.

(** A call through [devsw[major].read] or [devsw[major].write]. *)
Definition dev_call (fn : devfn) (user_dst dst n : Z) : M Z :=
  match fn with
  | F_consoleread => consoleread user_dst dst n
  | F_consolewrite => consolewrite user_dst dst n
  end.

Definition fileread (f addr n : Z) : M Z :=
  x <- get_file f;;
  if f_readable x =? 0 then ret (-1) else
  match f_type x with
  | FD_PIPE => piperead (f_pipe x) addr n
  | FD_DEVICE =>
      if (f_major x <? 0) || (NDEV <=? f_major x) then ret (-1) else
      sw <- gets k_devsw;;
      e <- deref (lookupZ sw (f_major x));;
      match fst e with
      | None => ret (-1)
      | Some fn => dev_call fn 1 addr n
      end
  | FD_INODE =>
      ip <- deref (f_ip x);;
      ilock ip;;
      x <- get_file f;;
      r <- readi ip 1 addr (f_off x) (u32 n);;
      when (0 <? fst r) (x <- get_file f;; put_file f (set_f_off (u32 (f_off x + fst r)) x));;
      iunlock ip;;
      ret (fst r)
  | FD_NONE => panic "fileread"
  end.

(** [int max] of [filewrite]: what a transaction has room for. *)
Definition filewrite_max : Z := (MAXOPBLOCKS - 1 - 1 - 2) / 2 * BSIZE.

(** One turn of the loop of [filewrite]. *)
Definition filewrite_body (f addr n i : Z) : M (Z + Z) :=
  if i <? n then
    let n1 := if filewrite_max <? n - i then filewrite_max else n - i in
    begin_op;;
    x <- get_file f;;
    ip <- deref (f_ip x);;
    ilock ip;;
    x <- get_file f;;
    r <- writei ip 1 (u64 (addr + i)) [] (f_off x) n1;;
    when (0 <? r) (x <- get_file f;; put_file f (set_f_off (u32 (f_off x + r)) x));;
    iunlock ip;;
    end_op;;
    if negb (r =? n1) then ret (inr i) else ret (inl (i + r))
  else ret (inr i).

Definition filewrite_fuel (n : Z) : nat := 2 + Z.to_nat (n / filewrite_max).

Definition filewrite (f addr n : Z) : M Z :=
  x <- get_file f;;
  if f_writable x =? 0 then ret (-1) else
  match f_type x with
  | FD_PIPE => pipewrite (f_pipe x) addr n
  | FD_DEVICE =>
      if (f_major x <? 0) || (NDEV <=? f_major x) then ret (-1) else
      sw <- gets k_devsw;;
      e <- deref (lookupZ sw (f_major x));;
      match snd e with
      | None => ret (-1)
      | Some fn => dev_call fn 1 addr n
      end
  | FD_INODE =>
      i <- loop (filewrite_fuel n) (filewrite_body f addr n) 0;;
      ret (if i =? n then n else -1)
  | FD_NONE => panic "filewrite"
  end.

(** [kalloc] fills the page with 5; the fields [pipealloc] sets are the rest. *)
Definition new_pipe : pipe := mkPipe (replicate (Z.to_nat PIPESIZE) 5) 0 0 1 1.

(** [f0] and [f1], or [None] for -1. *)
Definition pipealloc : M (option (Z * Z)) :=
  let bad (pi : Z) (f0 f1 : option Z) : M (option (Z * Z)) :=
    when (negb (pi =? 0)) (kfree pi);;
    match f0 with Some f => fileclose f | None => ret tt end;;
    match f1 with Some f => fileclose f | None => ret tt end;;
    ret None in
  f0 <- filealloc;;
  match f0 with
  | None => bad 0 None None
  | Some a =>
      f1 <- filealloc;;
      match f1 with
      | None => bad 0 (Some a) None
      | Some b =>
          pi <- kalloc;;
          if pi =? 0 then bad 0 (Some a) (Some b) else
          put_pipe pi new_pipe;;
          initlock (L_pipe pi) "pipe";;
          x <- get_file a;;
          put_file a (set_f_pipe pi (set_f_writable 0 (set_f_readable 1 (set_f_type FD_PIPE x))));;
          x <- get_file b;;
          put_file b (set_f_pipe pi (set_f_writable 1 (set_f_readable 0 (set_f_type FD_PIPE x))));;
          ret (Some (a, b))
      end
  end.

End File.
