(* ===== verification/Proc.v ===== *)
(** * Processes ([kernel/proc.c])

    Creation, growth, exit and reaping of processes.  A
    [struct proc] is named by its index in [proc]; the trapframe is a page of
    physical memory. *)

From S2P Require Import Prelude Riscv State Spinlock Str Kalloc Vm Uvm UvmCopy UvmFree Copy Sched.
From S2P Require Import Sleeplock Csr Uart Printf Pipe Console FsLayout Bio Log Fs File.

(** ** Definitions *)

Definition procinit_body (p : Z) : M (option unit) :=
  initlock (L_proc p) "proc";;
  pr <- get_proc p;;
  put_proc p (set_p_kstack (KSTACK p) (set_p_state UNUSED pr));;
  ret None.

Definition procinit : M unit :=
  initlock L_pid "nextpid";;
  initlock L_wait "wait_lock";;
  for_loop (Z.to_nat NPROC) 0 procinit_body;;
  ret tt.

(** *** The trapframe *)

(** Offsets of the fields of [struct trapframe] ([proc.h]). *)
Definition TF_kernel_satp : Z := 0.
Definition TF_kernel_sp : Z := 8.
Definition TF_kernel_trap : Z := 16.
Definition TF_epc : Z := 24.
Definition TF_kernel_hartid : Z := 32.
Definition TF_sp : Z := 48.
Definition TF_a0 : Z := 112.
Definition TF_a1 : Z := 120.
Definition TF_a7 : Z := 168.
Definition sizeof_trapframe : Z := 288.

(** A field of [p->trapframe]. *)
Definition get_tf (p off : Z) : M Z := pr <- get_proc p;; read64 (p_trapframe pr + off).
Definition put_tf (p off v : Z) : M unit := pr <- get_proc p;; write64 (p_trapframe pr + off) v.

Section Proc.
Context {KI : KernelImage} {KT : KernelText}.

(** *** Page tables *)

(** The page table of process [p], or 0. *)
Definition proc_pagetable (p : Z) : M Z :=
  pagetable <- uvmcreate;;
  if pagetable =? 0 then ret 0 else
  r <- mappages pagetable TRAMPOLINE PGSIZE ld_trampoline (Z.lor PTE_R PTE_X);;
  if r <? 0 then
    uvmfree pagetable 0;;
    ret 0
  else
    pr <- get_proc p;;
    r <- mappages pagetable TRAPFRAME PGSIZE (p_trapframe pr) (Z.lor PTE_R PTE_W);;
    if r <? 0 then
      uvmunmap pagetable TRAMPOLINE 1 0;;
      uvmfree pagetable 0;;
      ret 0
    else ret pagetable.

Definition proc_freepagetable (pagetable sz : Z) : M unit :=
  uvmunmap pagetable TRAMPOLINE 1 0;;
  uvmunmap pagetable TRAPFRAME 1 0;;
  uvmfree pagetable sz.

(** *** Allocation *)

Definition freeproc (p : Z) : M unit :=
  pr <- get_proc p;;
  when (negb (p_trapframe pr =? 0)) (kfree (p_trapframe pr));;
  pr <- get_proc p;;
  put_proc p (set_p_trapframe 0 pr);;
  pr <- get_proc p;;
  when (negb (p_pagetable pr =? 0)) (proc_freepagetable (p_pagetable pr) (p_sz pr));;
  pr <- get_proc p;;
  put_proc p (set_p_state UNUSED (set_p_xstate 0 (set_p_killed 0 (set_p_chan None
    (set_p_name (insertZ 0 0 (p_name pr)) (set_p_parent None (set_p_pid 0 (set_p_sz 0
    (set_p_pagetable 0 pr))))))))).

Definition allocproc_body (p : Z) : M (option Z) :=
  acquire (L_proc p);;
  pr <- get_proc p;;
  if bool_decide (p_state pr = UNUSED) then ret (Some p) else
  release (L_proc p);;
  ret None.

(** The context of a new kernel thread. *)
Definition new_context (kstack : Z) : context := mkContext ld_forkret (u64 (kstack + PGSIZE)) (replicate 12 0).

(** The new process, with its lock held. *)
Definition allocproc : M (option Z) :=
  r <- for_loop (Z.to_nat NPROC) 0 allocproc_body;;
  match r with
  | None => ret None
  | Some p =>
      pid <- allocpid;;
      pr <- get_proc p;;
      put_proc p (set_p_state USED (set_p_pid pid pr));;
      tf <- kalloc;;
      pr <- get_proc p;;
      put_proc p (set_p_trapframe tf pr);;
      if tf =? 0 then
        freeproc p;;
        release (L_proc p);;
        ret None
      else
        pt <- proc_pagetable p;;
        pr <- get_proc p;;
        put_proc p (set_p_pagetable pt pr);;
        if pt =? 0 then
          freeproc p;;
          release (L_proc p);;
          ret None
        else
          pr <- get_proc p;;
          put_proc p (set_p_context (new_context (p_kstack pr)) pr);;
          ret (Some p)
  end.

Definition growproc (n : Z) : M Z :=
  p <- curproc;;
  pr <- get_proc p;;
  let sz := p_sz pr in
  if 0 <? n then
    sz <- uvmalloc (p_pagetable pr) sz (u64 (sz + n)) PTE_W;;
    if sz =? 0 then ret (-1) else
    pr <- get_proc p;;
    put_proc p (set_p_sz sz pr);;
    ret 0
  else
    sz <- (if n <? 0 then uvmdealloc (p_pagetable pr) sz (u64 (sz + n)) else ret sz);;
    pr <- get_proc p;;
    put_proc p (set_p_sz sz pr);;
    ret 0.

Section Files.
Context {IO : Mmio} {PT : Patience} {DD : DiskDriver}.

(** The machine code of [initcode.S]. *)
Definition initcode : list Z :=
  [0x17; 0x05; 0x00; 0x00; 0x13; 0x05; 0x45; 0x02; 0x97; 0x05; 0x00; 0x00; 0x93; 0x85; 0x35; 0x02;
   0x93; 0x08; 0x70; 0x00; 0x73; 0x00; 0x00; 0x00; 0x93; 0x08; 0x20; 0x00; 0x73; 0x00; 0x00; 0x00;
   0xef; 0xf0; 0x9f; 0xff; 0x2f; 0x69; 0x6e; 0x69; 0x74; 0x00; 0x00; 0x24; 0x00; 0x00; 0x00; 0x00;
   0x00; 0x00; 0x00; 0x00].

(** [safestrcpy(p->name, t, sizeof(p->name))] *)
Definition put_name (p : Z) (t : Z -> Z) : M unit :=
  pr <- get_proc p;;
  put_proc p (set_p_name (overwrite (safestrcpy t 16) (p_name pr)) pr).

Definition userinit : M unit :=
  p <- allocproc;;
  modify (set_k_initproc p);;
  p <- deref p;;
  pr <- get_proc p;;
  uvmfirst (p_pagetable pr) initcode;;
  pr <- get_proc p;;
  put_proc p (set_p_sz PGSIZE pr);;
  put_tf p TF_epc 0;;
  put_tf p TF_sp PGSIZE;;
  put_name p (str_of (chars "initcode"));;
  cwd <- namei (chars "/");;
  pr <- get_proc p;;
  put_proc p (set_p_state RUNNABLE (set_p_cwd cwd pr));;
  release (L_proc p).

Definition fork_ofile (p np i : Z) : M (option unit) :=
  pr <- get_proc p;;
  o <- deref (lookupZ (p_ofile pr) i);;
  match o with
  | None => ret None
  | Some f =>
      f <- filedup f;;
      npr <- get_proc np;;
      put_proc np (set_p_ofile (insertZ i (Some f) (p_ofile npr)) npr);;
      ret None
  end.

Definition fork : M Z :=
  p <- curproc;;
  np <- allocproc;;
  match np with
  | None => ret (-1)
  | Some np =>
      pr <- get_proc p;;
      npr <- get_proc np;;
      r <- uvmcopy (p_pagetable pr) (p_pagetable npr) (p_sz pr);;
      if r <? 0 then
        freeproc np;;
        release (L_proc np);;
        ret (-1)
      else
        npr <- get_proc np;;
        put_proc np (set_p_sz (p_sz pr) npr);;
        memmove_m (p_trapframe npr) (p_trapframe pr) sizeof_trapframe;;
        put_tf np TF_a0 0;;
        for_loop (Z.to_nat NOFILE) 0 (fork_ofile p np);;
        pr <- get_proc p;;
        cwd <- deref (p_cwd pr);;
        cwd <- idup cwd;;
        npr <- get_proc np;;
        put_proc np (set_p_cwd (Some cwd) npr);;
        put_name np (str_of (p_name pr));;
        npr <- get_proc np;;
        let pid := p_pid npr in
        release (L_proc np);;
        acquire L_wait;;
        npr <- get_proc np;;
        put_proc np (set_p_parent (Some p) npr);;
        release L_wait;;
        acquire (L_proc np);;
        npr <- get_proc np;;
        put_proc np (set_p_state RUNNABLE npr);;
        release (L_proc np);;
        ret pid
  end.

(** *** Exit and wait *)

(** [wakeup(pp)] for a process pointer that may be null. *)
Definition wakeup_proc (p : option Z) : M unit := wakeup (C_proc <$> p).

Definition reparent_body (p pp : Z) : M (option unit) :=
  q <- get_proc pp;;
  when (bool_decide (p_parent q = Some p))
    (init <- gets k_initproc;;
     put_proc pp (set_p_parent init q);;
     wakeup_proc init);;
  ret None.

Definition reparent (p : Z) : M unit :=
  for_loop (Z.to_nat NPROC) 0 (reparent_body p);;
  ret tt.

Definition exit_close (p fd : Z) : M (option unit) :=
  pr <- get_proc p;;
  o <- deref (lookupZ (p_ofile pr) fd);;
  match o with
  | None => ret None
  | Some f =>
      fileclose f;;
      pr <- get_proc p;;
      put_proc p (set_p_ofile (insertZ fd None (p_ofile pr)) pr);;
      ret None
  end.

Definition exit (status : Z) : M unit :=
  p <- curproc;;
  init <- gets k_initproc;;
  if bool_decide (Some p = init) then panic "init exiting" else
  for_loop (Z.to_nat NOFILE) 0 (exit_close p);;
  begin_op;;
  pr <- get_proc p;;
  cwd <- deref (p_cwd pr);;
  iput cwd;;
  end_op;;
  pr <- get_proc p;;
  put_proc p (set_p_cwd None pr);;
  acquire L_wait;;
  reparent p;;
  pr <- get_proc p;;
  wakeup_proc (p_parent pr);;
  acquire (L_proc p);;
  pr <- get_proc p;;
  put_proc p (set_p_state ZOMBIE (set_p_xstate status pr));;
  release L_wait;;
  sched;;
  panic "zombie exit".

(** The scan of [wait], at [pp] with [havekids]: the value to return, or
    whether there are children. *)
Definition wait_body (p addr : Z) (st : Z * bool) : M (Z * bool + (Z + bool)) :=
  let '(pp, havekids) := st in
  if pp <? NPROC then
    q <- get_proc pp;;
    if bool_decide (p_parent q = Some p) then
      acquire (L_proc pp);;
      q <- get_proc pp;;
      if bool_decide (p_state q = ZOMBIE) then
        pr <- get_proc p;;
        r <- (if addr =? 0 then ret 0 else copyout (p_pagetable pr) addr (le_split 4 (p_xstate q)));;
        if r <? 0 then
          release (L_proc pp);;
          release L_wait;;
          ret (inr (inl (-1)))
        else
          freeproc pp;;
          release (L_proc pp);;
          release L_wait;;
          ret (inr (inl (p_pid q)))
      else
        release (L_proc pp);;
        ret (inl (pp + 1, true))
    else ret (inl (pp + 1, havekids))
  else ret (inr (inr havekids)).

(** One turn of the outer loop of [wait]. *)
Definition wait_turn (p addr : Z) (_ : unit) : M (unit + Z) :=
  r <- loop (S (Z.to_nat NPROC)) (wait_body p addr) (0, false);;
  match r with
  | inl v => ret (inr v)
  | inr havekids =>
      k <- (if havekids then killed p else ret 1);;
      if truth k then
        release L_wait;;
        ret (inr (-1))
      else
        sleep (C_proc p) L_wait;;
        ret (inl tt)
  end.

Definition wait (addr : Z) : M Z :=
  p <- curproc;;
  acquire L_wait;;
  loop patience (wait_turn p addr) tt.

End Files.

End Proc.
