(* ===== verification/ProcMem.v ===== *)
(** * The memory of a process

    [proc_pagetable], [proc_freepagetable], [allocproc] and [freeproc] of
    [kernel/proc.c] keep track of all pages: a process that is created has its
    trapframe, its page table and nothing else, one that cannot be created
    leaves nothing behind, and one that is freed gives everything back. *)

From S2P Require Import Prelude Riscv State Spinlock Str Kalloc Vm Uvm UvmCopy UvmFree Copy Sched Csr Kvm UserMem Proc.

(** ** Specification *)

Section ProcMem.
Context {KI : KernelImage}.

(** The upper end of the address space of a process. *)
Record ptop (root tf : Z) (s : kstate) : Prop := {
  pt_tramp : pte_of (k_mem s) root TRAMPOLINE = leaf_pte ld_trampoline RX;
  pt_trapframe : pte_of (k_mem s) root TRAPFRAME = leaf_pte tf RW;
  pt_high a : va_ok a -> MAXVA <= a -> pte_of (k_mem s) root a = 0;
  pt_page : page_ok tf;
}.

(** The address space of a process: the user pages [l], the trapframe [tf] and
    the trampoline. *)
Record pspace (root : Z) (l : list (Z * Z)) (tf : Z) (fl : list Z) (s : kstate) : Prop := {
  pp_space : uspace root l fl s;
  pp_top : ptop root tf s;
  pp_apart : tf ∉ fl /\ tf ∉ l.*1 /\ ~ is_table (k_mem s) root tf;
}.

(** The pages of a process. *)
Definition ppages (root : Z) (l : list (Z * Z)) (tf : Z) (s : kstate) (q : Z) : Prop :=
  is_table (k_mem s) root q \/ q ∈ l.*1 \/ q = tf.

(** Only memory in the free pages [fl] has changed, and the free list. *)
Record within (fl : list Z) (s s' : kstate) : Prop := {
  wi_state : mem_only s s';
  wi_frame x : off_pages (fun p => p ∈ fl) x -> mget (k_mem s') x = mget (k_mem s) x;
}.

(** What [freeproc] leaves in the slot. *)
Definition freed (pr : proc) : proc :=
  set_p_state UNUSED (set_p_xstate 0 (set_p_killed 0 (set_p_chan None
    (set_p_name (insertZ 0 0 (p_name pr)) (set_p_parent None (set_p_pid 0 (set_p_sz 0
    (set_p_pagetable 0 (set_p_trapframe 0 pr))))))))).

(** The process that [allocproc] makes in the slot of [pr]. *)
Definition newproc {KT : KernelText} (pid tf root : Z) (pr : proc) : proc :=
  set_p_context (new_context (p_kstack pr)) (set_p_pagetable root (set_p_trapframe tf (set_p_state USED (set_p_pid pid pr)))).

(** The state with [pr] in slot [p], one more process identifier taken, and the
    memory [m] with the free list [f]. *)
Definition with_slot (p : Z) (pr : proc) (m : mem) (f : Z) (s : kstate) : kstate :=
  set_k_proc (insertZ p pr (k_proc s)) (set_k_nextpid (i32 (k_nextpid s + 1)) (set_k_mem m (set_k_freelist f s))).

(** Nobody uses slot [p], and all slots before it are in use. *)
Definition first_unused (s : kstate) (p : Z) (pr : proc) : Prop :=
  lookupZ (k_proc s) p = Some pr /\ p_state pr = UNUSED /\
  forall i pi, i < p -> lookupZ (k_proc s) i = Some pi -> p_state pi <> UNUSED.

(** Free slots own no memory and no files. *)
Definition slots_clear (s : kstate) : Prop := forall i pr, lookupZ (k_proc s) i = Some pr -> p_state pr = UNUSED ->
  p_pagetable pr = 0 /\ p_sz pr = 0 /\ p_ofile pr = replicate (Z.to_nat NOFILE) None.

(** ** Lemmas *)

Lemma tramp_ok : pa_ok ld_trampoline.
Proof. pose proof ld_trampoline_aligned. pose proof ld_trampoline_base. pose proof ld_etext_eq. pose proof ld_end_etext. pose proof ld_end_phystop. split; [done|lz]. Qed.

Lemma top_cases a : va_ok a -> TRAPFRAME <= a -> a = TRAPFRAME \/ a = TRAMPOLINE \/ MAXVA <= a.
Proof. intros [Ha Hr] H. unfold TRAPFRAME, TRAMPOLINE in *. change MAXVA with (2 ^ 38) in *. unfold PGSIZE in *. Z.div_mod_to_equations. lia. Qed.

Lemma within_refl fl s : within fl s s.
Proof. split; [exists (k_mem s), (k_freelist s); by destruct s|done]. Qed.

Lemma within_trans fl fl' s s1 s2 : within fl s s1 -> within fl' s1 s2 -> (forall p, p ∈ fl' -> p ∈ fl) -> within fl s s2.
Proof.
  intros [M1 F1] [M2 F2] Hsub. split; [by eapply mem_only_trans|]. intros x Hx. rewrite F2, F1; [done|done|]. intros p Hp. by apply Hx, Hsub.
Qed.

(** Unmapping a page that is not freed. *)
Lemma unmap_keep root fl s va pa perm : pt_state root fl s -> va_ok va -> va + PGSIZE <= MAXVA -> pte_of (k_mem s) root va = leaf_pte pa perm -> pa_ok pa -> perm_ok perm ->
  exists s', uvmunmap root va 1 0 s = Ok tt s' /\ grows root fl s fl s' /\ forall a, va_ok a -> pte_of (k_mem s') root a = if decide (a = va) then 0 else pte_of (k_mem s) root a.
Proof.
  intros Hps Hva Hmax Hpte Hpa Hperm. destruct (pte_of_nonzero (k_mem s) root va) as [p Hp]; [rewrite Hpte; apply leaf_pte_nonzero; [done|apply Hperm]|].
  pose proof (ps_wf _ _ _ Hps) as Hwf. pose proof (entry_nonzero _ _ _ _ Hwf Hp) as Hne. set (s' := set_k_mem (store64 (k_mem s) (p + 8 * PX 0 va) 0) s). exists s'. split; [|split].
  - unfold uvmunmap. destruct Hva as [Hva Hvr]. rewrite Hva. cbn [Z.eqb negb]. rewrite u64_small by lz. change (S (Z.to_nat 1)) with 2%nat.
    rewrite (loop_next _ _ _ _ (va + PGSIZE) s'); [|].
    + apply loop_stop. unfold uvmunmap_body. destruct (Z.ltb_spec (va + PGSIZE) (va + 1 * PGSIZE)); [lia|done].
    + unfold uvmunmap_body. destruct (Z.ltb_spec va (va + 1 * PGSIZE)); [|lz]. erewrite bind_ok by (apply walk_0; lz). rewrite Hp. destruct (Z.eqb_spec (p + 8 * PX 0 va) 0) as [|_]; [done|]. unfold read64, write64. rewrite bind_gets.
      rewrite <- (pte_of_Some _ root) by done. rewrite Hpte. pose proof (leaf_pte_V pa perm Hpa (proj1 Hperm)) as HV. unfold truth in HV. destruct (Z.land (leaf_pte pa perm) PTE_V =? 0); [done|].
      destruct (Z.eqb_spec (PTE_FLAGS (leaf_pte pa perm)) PTE_V) as [E|_]; [by apply leaf_pte_not_dir in E|]. cbn [truth Z.eqb negb when]. rewrite bind_ret, bind_modify. rewrite u64_small by lz. done.
  - by apply set_leaf_grows.
  - intros a Ha. unfold s'. cbn [k_mem set_k_mem]. by rewrite (set_leaf_pte _ root va p).
Qed.

(** A page table that maps nothing. *)
Lemma free_tables root fl s : pt_state root fl s -> (forall a, va_ok a -> pte_of (k_mem s) root a = 0) ->
  exists fl' s', uvmfree root 0 s = Ok tt s' /\ mem_only s s' /\ kmem_inv fl' s' /\ (forall q, q ∈ fl' <-> is_table (k_mem s) root q \/ q ∈ fl) /\
    forall x, off_pages (fun q => is_table (k_mem s) root q \/ q ∈ fl) x -> mget (k_mem s') x = mget (k_mem s) x.
Proof.
  intros Hps H0. assert (Hus : uspace root [] fl s).
  { split; [done| |unfold lenZ; cbn; lz|intros a Ha _; by apply H0]. split; intros i *; by rewrite lookup_nil. }
  destruct (uvmfree_ok root [] fl s 0 Hus) as (fl' & s' & E & M & Hi & Hfl & Hm); [intros a Ha _; by apply H0|lz|done|].
  exists fl', s'. split; [done|]. split; [done|]. split; [done|]. unfold space_pages in *. split.
  - intros q. rewrite Hfl. cbn. rewrite elem_of_nil. tauto.
  - intros x Hx. apply Hm. intros q [Hq|[Hq|Hq]]; [by apply Hx; left|by inversion Hq|by apply Hx; right].
Qed.

(** The tables of a new page table come from the free list. *)
Lemma grows_within root fl fl1 s s1 fl2 s2 : within fl s s1 -> (forall q, q ∈ fl <-> is_table (k_mem s1) root q \/ q ∈ fl1) -> grows root fl1 s1 fl2 s2 ->
  within fl s s2 /\ (forall q, q ∈ fl <-> is_table (k_mem s2) root q \/ q ∈ fl2) /\ lenZ fl2 <= lenZ fl1.
Proof.
  intros [M F] Hfl G. destruct (gr_new _ _ _ _ _ G) as (new & E & Ht). split; [|split].
  - split; [eapply mem_only_trans; [exact M|apply (gr_state _ _ _ _ _ G)]|]. intros x Hx. rewrite (gr_frame _ _ _ _ _ G), F; [done|done|intros q Hq; apply Hx, Hfl; by left|intros q Hq; apply Hx, Hfl; by right].
  - intros q. rewrite Hfl, Ht, E, elem_of_app. tauto.
  - rewrite E, lenZ_app. pose proof (lenZ_nonneg new). lia.
Qed.

(** Giving back a page table that maps nothing. *)
Lemma undo_tables root fl s fl1 s1 : within fl s s1 -> (forall q, q ∈ fl <-> is_table (k_mem s1) root q \/ q ∈ fl1) -> pt_state root fl1 s1 -> (forall a, va_ok a -> pte_of (k_mem s1) root a = 0) ->
  exists fl' s', uvmfree root 0 s1 = Ok tt s' /\ within fl s s' /\ kmem_inv fl' s' /\ forall q, q ∈ fl' <-> q ∈ fl.
Proof.
  intros W Hfl Hps H0. destruct (free_tables root fl1 s1 Hps H0) as (fl' & s' & E & M & Hi & Hq & Hm). exists fl', s'. split; [done|]. split; [|split; [done|]].
  - destruct W as [M1 F1]. split; [by eapply mem_only_trans|]. intros x Hx. rewrite Hm, F1; [done|done|]. intros q Hq'. by apply Hx, Hfl.
  - intros q. by rewrite Hq, Hfl.
Qed.

Lemma proc_pagetable_ok p pr fl s : kmem_ready s -> kmem_inv fl s -> lookupZ (k_proc s) p = Some pr -> page_ok (p_trapframe pr) -> p_trapframe pr ∉ fl ->
  exists root fl' s', proc_pagetable p s = Ok root s' /\ within fl s s' /\
    ((root = 0 /\ lenZ fl <= 5 /\ kmem_inv fl' s' /\ forall q, q ∈ fl' <-> q ∈ fl) \/
     (root <> 0 /\ pspace root [] (p_trapframe pr) fl' s' /\ lenZ fl <= lenZ fl' + 5 /\ forall q, q ∈ fl <-> is_table (k_mem s') root q \/ q ∈ fl')).
Proof.
  intros Hr Hi Hp Htf Hnf. set (tf := p_trapframe pr) in *. pose proof (page_ok_pa_ok tf Htf) as Htp. unfold proc_pagetable.
  destruct (uvmcreate_ok fl s Hr Hi) as [[-> E]|(r & fl1 & m & f & -> & E & Hps1 & Hrp & Ht1 & H01 & Hm1)].
  { exists 0, [], s. erewrite bind_ok by exact E. split; [done|]. split; [apply within_refl|]. left. split; [done|]. split; [by change (0 <= 5)|]. by split. }
  set (s1 := set_k_mem m (set_k_freelist f s)) in *. erewrite bind_ok by exact E. pose proof (page_ok_bounds r Hrp) as Hrb. destruct (Z.eqb_spec r 0) as [|_]; [lia|].
  assert (W1 : within (r :: fl1) s s1) by (split; [by exists m, f|]; intros x Hx; apply Hm1; apply Hx; left).
  assert (Hfl1 : forall q, q ∈ r :: fl1 <-> is_table (k_mem s1) r q \/ q ∈ fl1) by (intros q; rewrite elem_of_cons; change (k_mem s1) with m; by rewrite Ht1).
  destruct (mappages_ok r TRAMPOLINE PGSIZE ld_trampoline RX fl1 s1 Hps1) as (c & k & fl2 & s2 & E2 & G2 & Hl2 & Hc & Hpt2); [done|done|apply ld_trampoline_aligned|by vm_compute|by vm_compute|done|by vm_compute|apply tramp_ok|pose proof tramp_ok as [_ ?]; pose proof ld_etext_eq; pose proof ld_end_etext; pose proof ld_end_phystop; lz|intros a _ _; by rewrite H01|].
  change (PGSIZE / PGSIZE) with 1 in *. destruct (grows_within r (r :: fl1) fl1 s s1 fl2 s2 W1 Hfl1 G2) as (W2 & Hfl2 & _). erewrite bind_ok by exact E2.
  rewrite lenZ_cons. pose proof (gr_ps _ _ _ _ _ G2) as Hps2. assert (H0s1 : forall a, pte_of (k_mem s1) r a = 0) by exact H01.
  destruct Hc as [[-> ->]|(-> & Hk & ->)]; cbn [Z.ltb Z.compare].
  2: { destruct (undo_tables r (r :: fl1) s [] s2 W2 Hfl2 Hps2) as (fl' & s' & E3 & W3 & Hi3 & Hq3); [intros a Ha; rewrite Hpt2 by done; replace k with 0 by lia; by rewrite map_range_0|].
    exists 0, fl', s'. erewrite bind_ok by exact E3. split; [done|]. split; [done|]. left. change (lenZ (@nil Z)) with 0 in Hl2. split; [done|]. split; [lia|]. by split. }
  assert (Hp2 : lookupZ (k_proc s2) p = Some pr) by (destruct (wi_state _ _ _ W2) as (m2 & f2 & ->); exact Hp). erewrite bind_ok by (by apply run_get_proc). fold tf.
  destruct (mappages_ok r TRAPFRAME PGSIZE tf RW fl2 s2 Hps2) as (c & k & fl3 & s3 & E3 & G3 & Hl3 & Hc & Hpt3); [done|done|apply Htp|by vm_compute|by vm_compute|done|by vm_compute|apply Htp|destruct Htf; lz| |].
  { intros a Ha Hx. rewrite Hpt2, map_range_out, H0s1 by (done || lz). done. }
  change (PGSIZE / PGSIZE) with 1 in *. destruct (grows_within r (r :: fl1) fl2 s s2 fl3 s3 W2 Hfl2 G3) as (W3 & Hfl3 & _). pose proof (gr_ps _ _ _ _ _ G3) as Hps3. erewrite bind_ok by exact E3.
  assert (Hz : forall a, va_ok a -> a <> TRAMPOLINE -> pte_of (k_mem s2) r a = 0) by (intros a Ha Hne; rewrite Hpt2, map_range_1, decide_False by done; apply H0s1).
  assert (Htr : pte_of (k_mem s2) r TRAMPOLINE = leaf_pte ld_trampoline RX) by (by rewrite Hpt2, map_range_1, decide_True by by vm_compute).
  destruct Hc as [[-> ->]|(-> & Hk & ->)]; cbn [Z.ltb Z.compare].
  - exists r, fl3, s3. split; [done|]. split; [done|]. right. split; [lia|]. split; [|split; [lia|exact Hfl3]]. assert (Hpt : forall a, va_ok a -> pte_of (k_mem s3) r a = if decide (a = TRAPFRAME) then leaf_pte tf RW else pte_of (k_mem s2) r a) by (intros a Ha; rewrite Hpt3 by done; by apply map_range_1).
    split; [split; [done|split; intros i *; by rewrite lookup_nil|unfold lenZ; cbn; lz|]|split|].
    + intros a Ha Hx. rewrite Hpt, decide_False by (done || lz). apply Hz; [done|lz].
    + rewrite Hpt, decide_False by (by vm_compute). exact Htr.
    + by rewrite Hpt, decide_True by (by vm_compute).
    + intros a Ha Hx. rewrite Hpt, decide_False by (done || lz). apply Hz; [done|lz].
    + done.
    + assert (tf ∉ fl3 /\ ~ is_table (k_mem s3) r tf) as [? ?] by (split; intros Hin; apply Hnf, Hfl3; tauto). split; [done|]. split; [by apply not_elem_of_nil|done].
  - assert (Hpt : forall a, va_ok a -> pte_of (k_mem s3) r a = pte_of (k_mem s2) r a) by (intros a Ha; rewrite Hpt3 by done; replace k with 0 by lia; apply map_range_0).
    destruct (unmap_keep r [] s3 TRAMPOLINE ld_trampoline RX Hps3) as (s4 & E4 & G4 & Hpt4); [by vm_compute|by vm_compute|rewrite Hpt by (by vm_compute); exact Htr|apply tramp_ok|by vm_compute|].
    destruct (grows_within r (r :: fl1) [] s s3 [] s4 W3 Hfl3 G4) as (W4 & Hfl4 & _).
    destruct (undo_tables r (r :: fl1) s [] s4 W4 Hfl4 (gr_ps _ _ _ _ _ G4)) as (fl' & s' & E5 & W5 & Hi5 & Hq5); [intros a Ha; rewrite Hpt4 by done; case_decide; [done|]; rewrite Hpt by done; by apply Hz|].
    exists 0, fl', s'. erewrite bind_ok by exact E4. erewrite bind_ok by exact E5. split; [done|]. split; [done|]. left. change (lenZ (@nil Z)) with 0 in Hl3. split; [done|]. split; [lia|]. by split.
Qed.

Lemma uspace_top root l fl s s' : uspace root l fl s -> grows root fl s fl s' -> (forall a, va_ok a -> a < TRAPFRAME -> pte_of (k_mem s') root a = pte_of (k_mem s) root a) -> uspace root l fl s'.
Proof.
  intros [Hps Hma Hlen Hfree] Hg Hpt. split; [apply (gr_ps _ _ _ _ _ Hg)| |done|].
  - eapply maps_at_grows; [done..|]. intros i Hi. assert (Hv : va_ok (0 + Z.of_nat i * PGSIZE)) by (apply (va_ok_step 0 _ (lenZ l)); [done|lia|unfold lenZ; lia|lz]).
    apply Hpt; [done|]. unfold lenZ in Hlen. lz.
  - intros a Ha Hr. rewrite Hpt by (done || lia). by apply Hfree.
Qed.

Lemma proc_freepagetable_ok root l tf fl s sz : uspace root l fl s -> ptop root tf s -> 0 <= sz <= TRAPFRAME -> PGROUNDUP sz = lenZ l * PGSIZE ->
  exists fl' s', proc_freepagetable root sz s = Ok tt s' /\ mem_only s s' /\ kmem_inv fl' s' /\ (forall q, q ∈ fl' <-> space_pages root l.*1 fl s q) /\
    forall x, off_pages (space_pages root l.*1 fl s) x -> mget (k_mem s') x = mget (k_mem s) x.
Proof.
  intros Hus [Htr Htf Hhi Hp] Hsz Er. unfold proc_freepagetable.
  destruct (unmap_keep root fl s TRAMPOLINE ld_trampoline RX) as (s1 & E1 & G1 & P1); [apply Hus|by vm_compute|by vm_compute|done|apply tramp_ok|by vm_compute|].
  destruct (unmap_keep root fl s1 TRAPFRAME tf RW) as (s2 & E2 & G2 & P2); [apply G1|by vm_compute|by vm_compute|rewrite P1, decide_False by (by vm_compute); exact Htf|by apply page_ok_pa_ok|by vm_compute|].
  pose proof (grows_trans _ _ _ _ _ _ _ G1 G2) as G. assert (P : forall a, va_ok a -> pte_of (k_mem s2) root a = if decide (a = TRAPFRAME) then 0 else if decide (a = TRAMPOLINE) then 0 else pte_of (k_mem s) root a) by (intros a Ha; rewrite P2 by done; case_decide; [done|by rewrite P1]).
  destruct (uvmfree_ok root l fl s2 sz) as (fl' & s' & E & M & Hi & Hq & Hm); [|intros a Ha Hge|done|done|].
  { apply (uspace_top _ _ _ _ _ Hus G). intros a Ha Hlt. rewrite P, !decide_False by (done || lz). done. }
  { rewrite P by done. case_decide; [done|]. case_decide; [done|]. destruct (top_cases a Ha Hge) as [?|[?|?]]; [done|done|by apply Hhi]. }
  destruct (gr_new _ _ _ _ _ G) as (new & En & Ht). assert (new = []) as -> by (apply (f_equal length) in En; rewrite length_app in En; destruct new; [done|cbn in En; lia]).
  assert (Hsp : forall q, space_pages root l.*1 fl s2 q <-> space_pages root l.*1 fl s q) by (intros q; unfold space_pages; rewrite Ht, elem_of_nil; tauto).
  exists fl', s'. erewrite bind_ok by exact E1. erewrite bind_ok by exact E2. split; [done|]. split; [eapply mem_only_trans; [exact (gr_state _ _ _ _ _ G)|exact M]|]. split; [done|]. split; [intros q; by rewrite Hq, Hsp|].
  intros x Hx. rewrite Hm by (eapply off_pages_iff; [|exact Hx]; intros q; by rewrite Hsp). apply (gr_frame _ _ _ _ _ G); intros q Hq'; apply Hx; [by left|by right; right].
Qed.

Lemma root_page_ok root fl s : pt_state root fl s -> page_ok root.
Proof. intros H. apply (wf_page _ _ (ps_wf _ _ _ H) [] root); [split; [cbn; lia|by apply Forall_nil]|done]. Qed.

(** Address spaces live in memory. *)
Lemma uspace_state root l fl s s' : uspace root l fl s -> kmem_ready s' -> k_mem s' = k_mem s -> k_freelist s' = k_freelist s -> uspace root l fl s'.
Proof.
  intros [[R I W D] [M1 M2 M3 M4] L F] Hr Em Ef. split; [split|split|..]; rewrite ?Em; try done. unfold kmem_inv. by rewrite Em, Ef.
Qed.

Lemma ptop_state root tf s s' : ptop root tf s -> k_mem s' = k_mem s -> ptop root tf s'.
Proof. intros [H1 H2 H3 H4] Em. split; by rewrite ?Em. Qed.

Lemma pspace_state root l tf fl s s' : pspace root l tf fl s -> kmem_ready s' -> k_mem s' = k_mem s -> k_freelist s' = k_freelist s -> pspace root l tf fl s'.
Proof. intros [H1 H2 H3] Hr Em Ef. split; [by apply (uspace_state _ _ _ s)|by apply (ptop_state _ _ s)|by rewrite Em]. Qed.

Lemma kmem_ready_acq lk s : kmem_ready s -> lk <> L_kmem -> kmem_ready (acq lk s).
Proof. intros [Hs Hl] Hne. split; [by apply settled_acq|by apply lock_free_acq]. Qed.

(** The trapframe goes back to the free list. *)
Lemma kfree_trapframe root l tf fl s : pspace root l tf fl s ->
  exists m f, let s' := set_k_mem m (set_k_freelist f s) in kfree tf s = Ok tt s' /\ uspace root l (tf :: fl) s' /\ ptop root tf s' /\ (forall q, is_table m root q <-> is_table (k_mem s) root q) /\
    forall x, ~ in_page tf x -> mget m x = mget (k_mem s) x.
Proof.
  intros [[Hps Hma Hl Hf] [T1 T2 T3 T4] (A1 & A2 & A3)]. destruct (kfree_pt root fl s tf Hps T4 A1 A3) as (s' & E & Hrel & Hpt & _ & Hm).
  destruct (rl_state _ _ _ _ _ Hrel) as (m & f & ->). exists m, f. split; [exact E|]. split; [split|split; [split|split]].
  - apply Hrel.
  - apply (maps_at_releases root 0 l fl s [tf] _ Hma Hrel). intros i pa perm Hi. split; [|apply Hpt]. intros ->%list_elem_of_singleton. by apply A2, (lookup_data l i _ perm).
  - done.
  - intros a Ha Hx. rewrite Hpt. by apply Hf.
  - rewrite Hpt. exact T1.
  - rewrite Hpt. exact T2.
  - intros a Ha Hx. rewrite Hpt. by apply T3.
  - done.
  - apply (rl_table _ _ _ _ _ Hrel).
  - exact Hm.
Qed.

Lemma freeproc_ok p pr l fl s : lookupZ (k_proc s) p = Some pr -> pspace (p_pagetable pr) l (p_trapframe pr) fl s -> 0 <= p_sz pr <= TRAPFRAME -> PGROUNDUP (p_sz pr) = lenZ l * PGSIZE ->
  exists fl' m f, let s' := set_k_proc (insertZ p (freed pr) (k_proc s)) (set_k_mem m (set_k_freelist f s)) in
    freeproc p s = Ok tt s' /\ kmem_inv fl' s' /\ (forall q, q ∈ fl' <-> q = p_trapframe pr \/ space_pages (p_pagetable pr) l.*1 fl s q) /\
    forall x, off_pages (fun q => q = p_trapframe pr \/ space_pages (p_pagetable pr) l.*1 fl s q) x -> mget m x = mget (k_mem s) x.
Proof.
  intros Hp Hpp Hsz Er. pose proof (lookupZ_Some_range _ _ _ Hp) as Hr. pose proof (page_ok_bounds _ (pt_page _ _ _ (pp_top _ _ _ _ _ Hpp))) as Ht.
  pose proof (page_ok_bounds _ (root_page_ok _ _ _ (us_ps _ _ _ _ (pp_space _ _ _ _ _ Hpp)))) as Hrt.
  destruct (kfree_trapframe _ _ _ _ _ Hpp) as (m & f & E & Hus & Htop & Htab & Hm). set (s1 := set_k_mem m (set_k_freelist f s)) in *.
  set (pr0 := set_p_trapframe 0 pr). set (s2 := set_k_proc (insertZ p pr0 (k_proc s)) s1).
  destruct (proc_freepagetable_ok (p_pagetable pr) l (p_trapframe pr) (p_trapframe pr :: fl) s2 (p_sz pr)) as (fl' & s' & E' & (m' & f' & ->) & Hi & Hfl & Hm'); [apply (uspace_state _ _ _ s1); [done|apply Hus|done|done]|by apply (ptop_state _ _ s1)|done|done|].
  assert (Hsp : forall q, space_pages (p_pagetable pr) l.*1 (p_trapframe pr :: fl) s2 q <-> q = p_trapframe pr \/ space_pages (p_pagetable pr) l.*1 fl s q).
  { intros q. unfold space_pages. change (k_mem s2) with m. rewrite Htab, elem_of_cons. tauto. }
  exists fl', m', f'. split; [|split; [exact Hi|split]].
  - unfold freeproc. erewrite bind_ok by (by apply run_get_proc). destruct (Z.eqb_spec (p_trapframe pr) 0) as [|_]; [lia|]. cbn [negb when].
    erewrite bind_ok by exact E. erewrite bind_ok by (by apply run_get_proc). fold pr0. unfold put_proc at 1. rewrite bind_modify. change (k_proc s1) with (k_proc s). fold s2.
    erewrite bind_ok by (apply run_get_proc; by apply lookupZ_insertZ_eq). cbn [p_pagetable p_sz set_p_trapframe pr0]. destruct (Z.eqb_spec (p_pagetable pr) 0) as [|_]; [lia|]. cbn [negb when].
    erewrite bind_ok by exact E'. erewrite bind_ok by (apply run_get_proc; by apply lookupZ_insertZ_eq). unfold put_proc, modify. cbn [k_proc set_k_proc set_k_mem set_k_freelist s2]. by rewrite insertZ_insertZ.
  - intros q. by rewrite Hfl, Hsp.
  - intros x Hx. rewrite Hm' by (eapply off_pages_iff; [|exact Hx]; intros q; by rewrite Hsp). apply Hm. apply Hx. by left.
Qed.

(** A process without a page table. *)
Lemma freeproc_early p pr fl s : lookupZ (k_proc s) p = Some pr -> kmem_ready s -> kmem_inv fl s -> p_pagetable pr = 0 -> (p_trapframe pr = 0 \/ page_ok (p_trapframe pr) /\ p_trapframe pr ∉ fl) ->
  exists fl' m f, let s' := set_k_proc (insertZ p (freed pr) (k_proc s)) (set_k_mem m (set_k_freelist f s)) in
    freeproc p s = Ok tt s' /\ kmem_inv fl' s' /\ (forall q, q ∈ fl' <-> (q = p_trapframe pr /\ q <> 0) \/ q ∈ fl) /\
    forall x, (p_trapframe pr <> 0 -> ~ in_page (p_trapframe pr) x) -> mget m x = mget (k_mem s) x.
Proof.
  intros Hp Hr Hi Hpt Htf. pose proof (lookupZ_Some_range _ _ _ Hp) as Hrg.
  assert (exists fl' m f, let s1 := set_k_mem m (set_k_freelist f s) in when (negb (p_trapframe pr =? 0)) (kfree (p_trapframe pr)) s = Ok tt s1 /\ kmem_inv fl' s1 /\
    (forall q, q ∈ fl' <-> (q = p_trapframe pr /\ q <> 0) \/ q ∈ fl) /\ forall x, (p_trapframe pr <> 0 -> ~ in_page (p_trapframe pr) x) -> mget m x = mget (k_mem s) x) as (fl' & m & f & E & Hi' & Hq & Hm).
  { destruct Htf as [E0|[Hpg Hn]].
    - exists fl, (k_mem s), (k_freelist s). rewrite E0. split; [by destruct s|]. split; [by destruct s|]. split; [intros q; split; [tauto|intros [[-> ?]|?]; done]|done].
    - pose proof (page_ok_bounds _ Hpg) as Hb. destruct (Z.eqb_spec (p_trapframe pr) 0) as [|Hne]; [lia|]. cbn [negb when]. destruct (kfree_ok _ s fl Hr Hi Hpg Hn) as (m & E & Hi' & Hm).
      exists (p_trapframe pr :: fl), m, (p_trapframe pr). split; [exact E|]. split; [exact Hi'|]. split; [intros q; rewrite elem_of_cons; split; [intros [->|?]; [by left|by right]|tauto]|]. intros x Hx. by apply Hm, Hx. }
  exists fl', m, f. split; [|by split]. set (s1 := set_k_mem m (set_k_freelist f s)) in *. unfold freeproc. erewrite bind_ok by (by apply run_get_proc). erewrite bind_ok by exact E.
  erewrite bind_ok by (by apply run_get_proc). unfold put_proc at 1. rewrite bind_modify. erewrite bind_ok by (apply run_get_proc; by apply lookupZ_insertZ_eq). cbn [p_pagetable p_sz set_p_trapframe]. rewrite Hpt. cbn [Z.eqb negb when].
  rewrite bind_ret. erewrite bind_ok by (apply run_get_proc; by apply lookupZ_insertZ_eq). unfold put_proc, modify. cbn [k_proc set_k_proc]. by rewrite insertZ_insertZ.
Qed.

Lemma bind_put_proc {A} p pr (k : unit -> M A) s : bind (put_proc p pr) k s = k tt (set_k_proc (insertZ p pr (k_proc s)) s).
Proof. done. Qed.

Lemma allocpid_ok s : settled s -> lock_free L_pid s -> allocpid s = Ok (k_nextpid s) (set_k_nextpid (i32 (k_nextpid s + 1)) s).
Proof.
  intros Hs Hl. unfold allocpid. rewrite (bind_ok _ _ _ _ _ (acquire_ok L_pid s Hs Hl)). rewrite bind_gets, bind_modify. autorewrite with acq. by erewrite bind_ok by (by apply release_acq).
Qed.

(** The scan of [allocproc]. *)
Lemma allocproc_skips p pr s : settled s -> lock_free (L_proc p) s -> lookupZ (k_proc s) p = Some pr -> p_state pr <> UNUSED -> allocproc_body p s = Ok None s.
Proof.
  intros Hs Hl Hp Hu. unfold allocproc_body. rewrite (bind_ok _ _ _ _ _ (acquire_ok _ s Hs Hl)). erewrite bind_ok by (apply run_get_proc; by autorewrite with acq).
  rewrite bool_decide_false by done. by erewrite bind_ok by (by apply release_acq).
Qed.

Lemma allocproc_picks p pr s : settled s -> lock_free (L_proc p) s -> lookupZ (k_proc s) p = Some pr -> p_state pr = UNUSED -> allocproc_body p s = Ok (Some p) (acq (L_proc p) s).
Proof.
  intros Hs Hl Hp Hu. unfold allocproc_body. rewrite (bind_ok _ _ _ _ _ (acquire_ok _ s Hs Hl)). erewrite bind_ok by (apply run_get_proc; by autorewrite with acq). by rewrite bool_decide_true.
Qed.

Lemma allocproc_scan n : forall i s, settled s -> proc_locks_free s -> 0 <= i -> i + Z.of_nat n = NPROC -> (forall j pj, j < i -> lookupZ (k_proc s) j = Some pj -> p_state pj <> UNUSED) ->
  (exists p pr, first_unused s p pr /\ for_loop n i allocproc_body s = Ok (Some p) (acq (L_proc p) s)) \/
  ((forall p pr, lookupZ (k_proc s) p = Some pr -> p_state pr <> UNUSED) /\ for_loop n i allocproc_body s = Ok None s).
Proof.
  induction n as [|n IH]; intros i s Hs [Hlen Hf] Hi Hn Hbe.
  - right. split; [|done]. intros p pr Hp. pose proof (lookupZ_Some_range _ _ _ Hp). apply (Hbe p); [lia|done].
  - destruct (lookupZ_is_Some (k_proc s) i) as [pr Hp]; [lia|]. destruct (decide (p_state pr = UNUSED)) as [Hu|Hu].
    + left. exists i, pr. split; [by split|]. apply for_loop_stop. apply (allocproc_picks i pr); [done|apply Hf; lia|done|done].
    + erewrite for_loop_next by (apply (allocproc_skips i pr); [done|apply Hf; lia|done|done]). apply IH; [done|by split|lia|lia|].
      intros j pj Hj Hpj. destruct (decide (j = i)) as [->|]; [by simplify_eq|]. apply (Hbe j); [lia|done].
Qed.

(** ** Memory *)

(** Only the tables of an address space matter. *)
Lemma pspace_ext root l tf fl s fl' s' : pspace root l tf fl s -> kmem_ready s' -> kmem_inv fl' s' -> (forall q, q ∈ fl' -> ~ ppages root l tf s q) ->
  (forall q x, is_table (k_mem s) root q -> in_page q x -> mget (k_mem s') x = mget (k_mem s) x) -> pspace root l tf fl' s'.
Proof.
  intros [Hus [T1 T2 T3 T4] (A1 & A2 & A3)] Hr Hi Hsub Hext. unfold ppages in Hsub.
  split; [apply (uspace_ext root l fl s); [done|done|done| |exact Hext]|split|].
  - intros q Hq%Hsub. tauto.
  - by rewrite (pte_of_ext (k_mem s)) by exact Hext.
  - by rewrite (pte_of_ext (k_mem s)) by exact Hext.
  - intros a Ha Hx. rewrite (pte_of_ext (k_mem s)) by exact Hext. by apply T3.
  - done.
  - split; [intros ?%Hsub; tauto|]. split; [done|]. by rewrite (is_table_ext (k_mem s)) by exact Hext.
Qed.

(** Its pages are not free. *)
Lemma ppages_ok root l tf fl s q : pspace root l tf fl s -> ppages root l tf s q -> page_ok q /\ q ∉ fl.
Proof.
  intros [Hus Ht (A1 & A2 & A3)] Hq. pose proof (us_ps _ _ _ _ Hus) as Hps.
  destruct Hq as [Hq|[Hq| ->]]; [split; [exact (is_table_page _ _ _ (ps_wf _ _ _ Hps) Hq)|by apply (ps_disj _ _ _ Hps)]| |split; [apply Ht|done]]. destruct (uspace_data_page _ _ _ _ _ Hus Hq) as (? & ? & _). done.
Qed.

Lemma pspace_free_ok root l tf fl s q : pspace root l tf fl s -> q ∈ fl -> page_ok q.
Proof. intros Hpp Hq. destruct (ps_inv _ _ _ (us_ps _ _ _ _ (pp_space _ _ _ _ _ Hpp))) as (_ & _ & Hok). rewrite Forall_forall in Hok. by apply Hok. Qed.

Lemma pspace_off root l tf fl s q x : pspace root l tf fl s -> ppages root l tf s q -> in_page q x -> off_pages (fun q => q ∈ fl) x.
Proof.
  intros Hpp Hq Hx q' Hq'. destruct (ppages_ok _ _ _ _ _ _ Hpp Hq) as [Hp Hn]. apply (page_ok_disjoint q q' x); [done|by apply (pspace_free_ok _ _ _ _ _ _ Hpp)|by intros ->|done].
Qed.

(** A process whose memory and page table are not among the free pages. *)
Lemma pspace_kept root l tf fl s fl' s' : pspace root l tf fl s -> kmem_ready s' -> kmem_inv fl' s' -> (forall q, q ∈ fl' -> q ∈ fl) ->
  (forall x, off_pages (fun q => q ∈ fl) x -> mget (k_mem s') x = mget (k_mem s) x) -> pspace root l tf fl' s'.
Proof.
  intros Hpp Hr Hi Hsub Hm. apply (pspace_ext _ _ _ fl s); [done..| |].
  - intros q Hq%Hsub Hpq. by destruct (ppages_ok _ _ _ _ _ _ Hpp Hpq).
  - intros q x Hq Hx. apply Hm. apply (pspace_off _ _ _ _ _ q x Hpp); [by left|done].
Qed.

(** Growing the user part of the address space. *)
Lemma pspace_uframe root l tf fl s l' fl' s' : pspace root l tf fl s -> uframe root l.*1 fl s l'.*1 fl' s' -> uspace root l' fl' s' -> pspace root l' tf fl' s'.
Proof.
  intros [Hus [T1 T2 T3 T4] (A1 & A2 & A3)] Huf Hus'. pose proof (uf_top _ _ _ _ _ _ _ Huf) as Ht.
  assert (Hn : ~ space_pages root l'.*1 fl' s' tf) by (rewrite (uf_pages _ _ _ _ _ _ _ Huf); unfold space_pages; tauto). unfold space_pages in Hn.
  split; [done|split|split; [tauto|split; tauto]].
  - rewrite Ht by (by vm_compute). exact T1.
  - rewrite Ht by (by vm_compute). exact T2.
  - intros a Ha Hx. rewrite Ht by (done || lz). by apply T3.
  - done.
Qed.

(** Writing the trapframe. *)
Lemma pspace_write root l tf fl s m : pspace root l tf fl s -> (forall x, ~ in_page tf x -> mget m x = mget (k_mem s) x) -> pspace root l tf fl (set_k_mem m s).
Proof.
  intros Hpp Hm. pose proof (pt_page _ _ _ (pp_top _ _ _ _ _ Hpp)) as Htf. destruct (pp_apart _ _ _ _ _ Hpp) as (A1 & _ & A3).
  apply (pspace_ext _ _ _ fl s); [done|apply Hpp| | |].
  - apply kmem_inv_mem; [apply Hpp|]. intros q x Hq Hx. apply Hm, (page_ok_disjoint q tf x); [by apply (pspace_free_ok _ _ _ _ _ _ Hpp)|done|by intros ->|done].
  - intros q Hq Hpq. by destruct (ppages_ok _ _ _ _ _ _ Hpp Hpq).
  - intros q x Hq Hx. apply Hm, (page_ok_disjoint q tf x); [apply (ppages_ok _ _ _ _ _ _ Hpp); by left|done|by intros ->|done].
Qed.

Lemma slots_clear_insert s s' np q : slots_clear s -> 0 <= np < lenZ (k_proc s) -> k_proc s' = insertZ np q (k_proc s) ->
  (p_state q = UNUSED -> p_pagetable q = 0 /\ p_sz q = 0 /\ p_ofile q = replicate (Z.to_nat NOFILE) None) -> slots_clear s'.
Proof. intros Hc Hn E Hq i pi. rewrite E, lookupZ_insertZ by done. destruct (i =? np); [by intros [= <-]|apply Hc]. Qed.

Section Alloc.
Context {KT : KernelText} (s : kstate) (fl : list Z) (p : Z) (pr : proc).
Hypotheses (Hr : kmem_ready s) (Hi : kmem_inv fl s) (Hf : lock_free (L_proc p) s) (Hl : lock_free L_pid s).
Hypotheses (Hp : lookupZ (k_proc s) p = Some pr) (Hpt : p_pagetable pr = 0).
Hypothesis Hscan : for_loop (Z.to_nat NPROC) 0 allocproc_body s = Ok (Some p) (acq (L_proc p) s).

Lemma allocproc_finish : exists m f fl', (forall x, off_pages (fun q => q ∈ fl) x -> mget m x = mget (k_mem s) x) /\
  ((let s' := with_slot p (freed pr) m f s in lenZ fl <= 6 /\ allocproc s = Ok None s' /\ kmem_inv fl' s' /\ forall q, q ∈ fl' <-> q ∈ fl) \/
   exists tf root, let s' := with_slot p (newproc (k_nextpid s) tf root pr) m f s in allocproc s = Ok (Some p) (acq (L_proc p) s') /\
     pspace root [] tf fl' s' /\ lenZ fl <= lenZ fl' + 6 /\ forall q, q ∈ fl <-> q = tf \/ is_table m root q \/ q ∈ fl').
Proof.
  unfold allocproc. rewrite (bind_ok _ _ _ _ _ Hscan). cbv beta iota.
  pose proof (lookupZ_Some_range _ _ _ Hp) as Hrg. set (t := acq (L_proc p) s). assert (Ht : kmem_ready t) by (by apply kmem_ready_acq).
  rewrite (bind_ok _ _ _ _ _ (allocpid_ok t (proj1 Ht) ltac:(by apply lock_free_acq))). change (k_nextpid t) with (k_nextpid s). erewrite bind_ok by (by apply run_get_proc).
  set (pr1 := set_p_state USED (set_p_pid (k_nextpid s) pr)). rewrite bind_put_proc. change (k_proc (set_k_nextpid (i32 (k_nextpid s + 1)) t)) with (k_proc s).
  set (t1 := set_k_proc (insertZ p pr1 (k_proc s)) _). assert (Hi1 : kmem_inv fl t1) by exact Hi. pose proof (kalloc_ok t1 fl Ht Hi1) as Hk.
  assert (Hp1 : lookupZ (k_proc t1) p = Some pr1) by (by apply lookupZ_insertZ_eq).
  destruct fl as [|tf fl1].
  { erewrite bind_ok by exact Hk. erewrite bind_ok by (by apply run_get_proc). rewrite bind_put_proc. cbn [Z.eqb].
    set (pr2 := set_p_trapframe 0 pr1). set (t2 := set_k_proc _ t1). destruct (freeproc_early p pr2 [] t2) as (fl' & m & f & E & Hi2 & Hq & Hm); [by apply lookupZ_insertZ_eq; unfold t1; cbn [k_proc set_k_proc]; rewrite lenZ_insertZ|exact Ht|exact Hi1|done|by left|].
    exists m, f, fl'. split; [intros x _; by apply Hm|]. left. split; [by change (0 <= 6)|]. split; [|split; [exact Hi2|]].
    - erewrite bind_ok by exact E. cbn [k_proc set_k_proc t2 t1]. rewrite !insertZ_insertZ. change (freed pr2) with (freed pr). erewrite bind_ok by (apply (release_acq (L_proc p) (with_slot p (freed pr) m f s)); [apply Hr|exact Hf]). done.
    - intros q. rewrite Hq. split; [intros [[-> ?]|?]; done|tauto]. }
  destruct Hk as (m1 & f1 & Ek & Hi2 & Htf & Hnf & _ & Hm1). set (t2 := set_k_mem m1 (set_k_freelist f1 t1)) in *. erewrite bind_ok by exact Ek. erewrite bind_ok by (by apply run_get_proc). rewrite bind_put_proc.
  set (pr2 := set_p_trapframe tf pr1). set (t3 := set_k_proc _ t2). pose proof (page_ok_bounds tf Htf) as Hb. destruct (Z.eqb_spec tf 0) as [|_]; [lia|].
  assert (Hp3 : lookupZ (k_proc t3) p = Some pr2) by (apply lookupZ_insertZ_eq; unfold t2, t1; cbn [k_proc set_k_proc set_k_mem set_k_freelist]; by rewrite lenZ_insertZ).
  destruct (proc_pagetable_ok p pr2 fl1 t3) as (root & fl2 & t4 & Ept & [(m4 & f4 & ->) W] & Hc); [exact Ht|exact Hi2|exact Hp3|exact Htf|exact Hnf|].
  cbn [k_mem set_k_mem set_k_freelist] in W. erewrite bind_ok by exact Ept. erewrite bind_ok by (by apply run_get_proc). rewrite bind_put_proc.
  assert (Hoff : forall x, off_pages (fun q => q ∈ tf :: fl1) x -> mget m4 x = mget (k_mem s) x).
  { intros x Hx. rewrite W by (intros q Hq; apply Hx; by right). change (mget (k_mem t3) x) with (mget m1 x). apply Hm1, Hx. left. }
  set (pr3 := set_p_pagetable root pr2). set (t4 := set_k_proc _ _).
  assert (Hp4 : lookupZ (k_proc t4) p = Some pr3) by (apply lookupZ_insertZ_eq; unfold t3, t2, t1; cbn [k_proc set_k_proc set_k_mem set_k_freelist]; by rewrite !lenZ_insertZ).
  destruct Hc as [(-> & Hl2 & Hi4 & Hq4)|(Hne & Hps & Hl4 & Hq4)]; [cbn [Z.eqb]|destruct (Z.eqb_spec root 0) as [|_]; [done|]].
  - destruct (freeproc_early p pr3 fl2 t4) as (fl' & m & f & E & Hi5 & Hq & Hm); [exact Hp4|exact Ht|exact Hi4|done|right; split; [exact Htf|by rewrite Hq4]|].
    exists m, f, fl'. split; [intros x Hx; rewrite Hm by (intros _; apply Hx; left); by apply Hoff|]. left. rewrite lenZ_cons. split; [lia|]. split; [|split; [exact Hi5|]].
    + erewrite bind_ok by exact E. cbn [k_proc set_k_proc set_k_mem set_k_freelist t4 t3 t2 t1]. rewrite !insertZ_insertZ. change (freed pr3) with (freed pr). erewrite bind_ok by (apply (release_acq (L_proc p) (with_slot p (freed pr) m f s)); [apply Hr|exact Hf]). done.
    + intros q. rewrite Hq, Hq4, elem_of_cons. change (p_trapframe pr3) with tf. split; [tauto|]. intros [->|?]; [left; split; [done|lia]|by right].
  - exists m4, f4, fl2. split; [done|]. right. exists tf, root. split; [|split; [|split]].
    + erewrite bind_ok by (apply run_get_proc; exact Hp4). rewrite bind_put_proc. cbn [k_proc set_k_proc set_k_mem set_k_freelist t4 t3 t2 t1]. by rewrite !insertZ_insertZ.
    + by apply (pspace_state _ _ _ _ _ _ Hps).
    + rewrite lenZ_cons. lia.
    + intros q. rewrite elem_of_cons, Hq4. tauto.
Qed.
End Alloc.

Lemma allocproc_ok {KT : KernelText} fl s : kmem_ready s -> kmem_inv fl s -> proc_locks_free s -> lock_free L_pid s -> slots_clear s ->
  ((forall p pr, lookupZ (k_proc s) p = Some pr -> p_state pr <> UNUSED) /\ allocproc s = Ok None s) \/
  exists p pr m f fl', first_unused s p pr /\ (forall x, off_pages (fun q => q ∈ fl) x -> mget m x = mget (k_mem s) x) /\
  ((let s' := with_slot p (freed pr) m f s in lenZ fl <= 6 /\ allocproc s = Ok None s' /\ kmem_inv fl' s' /\ forall q, q ∈ fl' <-> q ∈ fl) \/
   exists tf root, let s' := with_slot p (newproc (k_nextpid s) tf root pr) m f s in allocproc s = Ok (Some p) (acq (L_proc p) s') /\
     pspace root [] tf fl' s' /\ lenZ fl <= lenZ fl' + 6 /\ forall q, q ∈ fl <-> q = tf \/ is_table m root q \/ q ∈ fl').
Proof.
  intros Hr Hi Hf Hl Hc. destruct (allocproc_scan (Z.to_nat NPROC) 0 s) as [(p & pr & Hu & E)|[Hno E]]; [apply Hr|done|lia|done| | |].
  - intros j pj Hj Hpj. pose proof (lookupZ_Some_range _ _ _ Hpj). lia.
  - right. pose proof Hu as (Hp & Hst & _). pose proof (lookupZ_Some_range _ _ _ Hp). destruct Hf as [Hlen Hf].
    destruct (allocproc_finish s fl p pr) as (m & f & fl' & Hm & Hcase); [done|done|apply Hf; lia|done|done|by apply (Hc p)|done|]. exists p, pr, m, f, fl'. split; [done|]. split; [exact Hm|exact Hcase].
  - left. split; [done|]. unfold allocproc. by erewrite bind_ok by exact E.
Qed.

(** ** Property *)

(** C19: [allocproc] accounts for every page.  With a free slot it either makes a
    process in the first one, with its lock held, a new process identifier, a
    trapframe, a page table that maps the trampoline and the trapframe and
    nothing else, and a context that starts in [forkret]; or, only when at most
    six pages are free, it returns null with the slot unused again, no lock held
    and all pages back on the free list (the process identifier stays used up).  In both cases memory that was
    not free is unchanged, and every page taken from the free list, at most
    six, is the trapframe or part of the page table.  Without a free slot nothing happens. *)
Theorem allocproc_accounts {KT : KernelText} fl s : kmem_ready s -> kmem_inv fl s -> proc_locks_free s -> lock_free L_pid s -> slots_clear s ->
  ((forall p pr, lookupZ (k_proc s) p = Some pr -> p_state pr <> UNUSED) /\ allocproc s = Ok None s) \/
  exists p pr m f fl', first_unused s p pr /\ (forall x, off_pages (fun q => q ∈ fl) x -> mget m x = mget (k_mem s) x) /\
  ((let s' := with_slot p (freed pr) m f s in lenZ fl <= 6 /\ allocproc s = Ok None s' /\ kmem_inv fl' s' /\ forall q, q ∈ fl' <-> q ∈ fl) \/
   exists tf root, let s' := with_slot p (newproc (k_nextpid s) tf root pr) m f s in allocproc s = Ok (Some p) (acq (L_proc p) s') /\
     pspace root [] tf fl' s' /\ lenZ fl <= lenZ fl' + 6 /\ forall q, q ∈ fl <-> q = tf \/ is_table m root q \/ q ∈ fl').
Proof. apply allocproc_ok. Qed.

End ProcMem.

(** Witnesses: process 5 runs with all pages free. *)
Definition demo_kernel : KernelText := {| ld_kernelvec := 0x80005b30; ld_usertrap := 0x80002a80; ld_uservec := 0x80007000; ld_userret := 0x8000709c; ld_forkret := 0x80001a00; ld_main := 0x80000e30 |}.

Definition demo_free (m : mem) (f : Z) : kstate := set_k_mem m (set_k_freelist f demo_sched).

Lemma demo_slots m f : slots_clear (demo_free m f).
Proof.
  intros i pr. change (k_proc (demo_free m f)) with (insertZ 3 demo_proc (replicate 64 zero_proc)). rewrite lookupZ_insertZ by (by vm_compute). destruct (i =? 3); [by intros [= <-]|].
  unfold lookupZ. destruct (i <? 0); [done|]. by intros [-> _]%lookup_replicate_1.
Qed.

Lemma demo_memory : exists m f fl, kthread 5 (demo_free m f) /\ kmem_inv fl (demo_free m f) /\ lenZ fl = 32734.
Proof.
  destruct demo_kmem as (fl & s & _ & Hi & _ & Hn). exists (k_mem s), (k_freelist s), fl. split; [|by split].
  apply (kthread_ext 5 demo_sched); try reflexivity. exact demo_thread.
Qed.

Lemma allocproc_accounts_witness : exists s s', @allocproc _ demo_kernel s = Ok (Some 0) s'.
Proof.
  destruct demo_memory as (m & f & fl & Hk & Hi & Hn).
  destruct (@allocproc_accounts _ demo_kernel fl _ (kthread_kmem _ _ Hk) Hi) as [[Hno _]|(p & pr & m' & f' & fl' & (Hp & _ & Hfirst) & _ & [(Hle & _)|(tf & root & E & _)])]; [by eapply kthread_locks|apply Hk, (bool_decide_unpack _); by vm_compute|apply demo_slots|..].
  - by destruct (Hno 0 zero_proc eq_refl).
  - exfalso. lia.
  - assert (p = 0) as ->.
    { pose proof (lookupZ_Some_range _ _ _ Hp). destruct (decide (p = 0)); [done|]. by destruct (Hfirst 0 zero_proc ltac:(lia) eq_refl). }
    eexists _, _. exact E.
Defined.
