(* ===== verification/Fork.v ===== *)
(** * Fork ([kernel/proc.c])

    What [fork] makes: a process with a copy of the caller's memory, registers,
    files and working directory that sees 0 as its result. *)

From S2P Require Import Prelude Riscv State Spinlock Str Kalloc Vm Uvm UvmCopy UvmFree Copy Sched Csr Kvm UserMem.
From S2P Require Import Fs File Proc ProcMem.

(** ** Specification *)

(** How often the file [f] is open in the table [l]. *)
Definition fd_count (f : Z) (l : list (option Z)) : Z := lenZ (filter (fun o => o = Some f) l).

(** The file table after the open files [l] got one more user. *)
Definition dup_refs (l : list (option Z)) (ft ft' : list file) : Prop :=
  forall f x, lookupZ ft f = Some x -> lookupZ ft' f = Some (set_f_ref (f_ref x + fd_count f l) x).

Section Fork.
Context {KI : KernelImage} {KT : KernelText}.

(** The child of process [p] in the slot of [npr]. *)
Definition child (p : Z) (pr npr : proc) (pid tf root : Z) : proc :=
  set_p_state RUNNABLE (set_p_parent (Some p) (set_p_name (overwrite (safestrcpy (str_of (p_name pr)) 16) (p_name npr))
    (set_p_cwd (p_cwd pr) (set_p_ofile (p_ofile pr) (set_p_sz (p_sz pr) (newproc pid tf root npr)))))).

(** The process that calls [fork], with its open files and working directory. *)
Record caller (p : Z) (pr : proc) (lo : list (Z * Z)) (fl : list Z) (ip : Z) (ino : inode) (s : kstate) : Prop := {
  ca_thread : kthread p s;
  ca_proc : lookupZ (k_proc s) p = Some pr;
  ca_used : p_state pr <> UNUSED;
  ca_space : pspace (p_pagetable pr) lo (p_trapframe pr) fl s;
  ca_size : 0 <= p_sz pr <= TRAPFRAME;
  ca_round : PGROUNDUP (p_sz pr) = lenZ lo * PGSIZE;
  ca_nofile : lenZ (p_ofile pr) = NOFILE;
  ca_files f : Some f ∈ p_ofile pr -> exists x, lookupZ (k_ftable s) f = Some x /\ 1 <= f_ref x;
  ca_cwd : p_cwd pr = Some ip;
  ca_inode : lookupZ (k_itable s) ip = Some ino;
}.

(** The trapframe at [tf] is that at [old], except that [a0] is 0. *)
Record tf_copied (tf old : Z) (m m' : mem) : Prop := {
  tc_a0 : load64 m' (tf + TF_a0) = 0;
  tc_rest i : 0 <= i < sizeof_trapframe -> ~ TF_a0 <= i < TF_a0 + 8 -> mget m' (tf + i) = mget m (old + i);
}.

(** [fork] made process [np], the copy of process [p]. *)
Definition forked (p : Z) (pr : proc) (lo : list (Z * Z)) (fl : list Z) (ip : Z) (ino : inode) (s : kstate) (fl' : list Z) (s' : kstate) : Prop :=
  exists np npr tf root ln m f ft, first_unused s np npr /\ dup_refs (p_ofile pr) (k_ftable s) ft /\
    s' = set_k_proc (insertZ np (child p pr npr (k_nextpid s) tf root) (k_proc s))
      (set_k_itable (insertZ ip (set_i_ref (i_ref ino + 1) ino) (k_itable s)) (set_k_ftable ft
      (set_k_nextpid (i32 (k_nextpid s + 1)) (set_k_mem m (set_k_freelist f s))))) /\
    pspace root ln tf fl' s' /\ length ln = length lo /\ copied lo ln s' /\ tf_copied tf (p_trapframe pr) (k_mem s) m /\
    forall q, q ∈ fl <-> q = tf \/ space_pages root ln.*1 fl' s' q.

(** [fork] failed for want of a slot or of memory, and nothing is left of it. *)
Definition not_forked (lo : list (Z * Z)) (fl : list Z) (s : kstate) (fl' : list Z) (s' : kstate) : Prop :=
  (forall q, q ∈ fl' <-> q ∈ fl) /\
  ((s' = s /\ forall i pi, lookupZ (k_proc s) i = Some pi -> p_state pi <> UNUSED) \/
   (lenZ fl <= 3 * lenZ lo + 6 /\ exists np npr q m f, first_unused s np npr /\ p_state q = UNUSED /\ s' = with_slot np q m f s)).

(** ** Files *)

Lemma filedup_ok f x s : settled s -> lock_free L_ftable s -> lookupZ (k_ftable s) f = Some x -> 1 <= f_ref x ->
  filedup f s = Ok f (set_k_ftable (insertZ f (set_f_ref (f_ref x + 1) x) (k_ftable s)) s).
Proof.
  intros Hs Hl Hf Hx. unfold filedup. rewrite (bind_ok _ _ _ _ _ (acquire_ok _ s Hs Hl)). erewrite bind_ok by (apply run_get_file; by autorewrite with acq).
  destruct (Z.ltb_spec (f_ref x) 1); [lia|]. unfold put_file. rewrite bind_modify. autorewrite with acq. by erewrite bind_ok by (by apply release_acq).
Qed.

Lemma idup_ok ip i s : settled s -> lock_free L_itable s -> lookupZ (k_itable s) ip = Some i ->
  idup ip s = Ok ip (set_k_itable (insertZ ip (set_i_ref (i_ref i + 1) i) (k_itable s)) s).
Proof.
  intros Hs Hl Hi. unfold idup. rewrite (bind_ok _ _ _ _ _ (acquire_ok _ s Hs Hl)). erewrite bind_ok by (apply run_get_inode; by autorewrite with acq).
  unfold put_inode. rewrite bind_modify. autorewrite with acq. by erewrite bind_ok by (by apply release_acq).
Qed.

Lemma fd_count_nonneg f l : 0 <= fd_count f l.
Proof. apply lenZ_nonneg. Qed.

Lemma dup_refs_nil ft : dup_refs [] ft ft.
Proof. intros f x Hx. unfold fd_count, lenZ. cbn. rewrite Z.add_0_r, Hx. by destruct x. Qed.

Lemma dup_refs_none l ft ft' : dup_refs l ft ft' -> dup_refs (None :: l) ft ft'.
Proof. intros H f x Hx. rewrite (H f x Hx). unfold fd_count. by rewrite filter_cons_False. Qed.

Lemma dup_refs_some g y l ft ft' : lookupZ ft g = Some y -> dup_refs l (insertZ g (set_f_ref (f_ref y + 1) y) ft) ft' -> dup_refs (Some g :: l) ft ft'.
Proof.
  intros Hg H f x Hx. pose proof (lookupZ_Some_range _ _ _ Hg). specialize (H f). rewrite lookupZ_insertZ in H by done. unfold fd_count in *. destruct (Z.eqb_spec f g) as [E|Hne].
  - subst f. simplify_eq. rewrite filter_cons_True, lenZ_cons by done. rewrite (H _ eq_refl). rewrite Z.add_assoc. cbn [f_ref set_f_ref]. unfold set_f_ref. by do 2 f_equal.
  - rewrite filter_cons_False by congruence. by apply H.
Qed.

Lemma lookupZ_mid {A} (l1 l2 : list A) x : lookupZ (l1 ++ x :: l2) (lenZ l1) = Some x.
Proof. unfold lookupZ, lenZ. destruct (Z.ltb_spec (Z.of_nat (length l1)) 0); [lia|]. rewrite Nat2Z.id. by apply list_lookup_middle. Qed.

Lemma insertZ_mid {A} (l1 l2 : list A) x y : insertZ (lenZ l1) y (l1 ++ x :: l2) = l1 ++ y :: l2.
Proof. unfold insertZ, lenZ. destruct (Z.ltb_spec (Z.of_nat (length l1)) 0); [lia|]. rewrite Nat2Z.id. by rewrite insert_app_r_alt, Nat.sub_diag by lia. Qed.

(** Files [l2] are left to copy. *)
Lemma fork_files p np pr q s : settled s -> lock_free L_ftable s -> np <> p -> lookupZ (k_proc s) p = Some pr -> 0 <= np < lenZ (k_proc s) ->
  let st l ft := acq (L_proc np) (set_k_proc (insertZ np (set_p_ofile l q) (k_proc s)) (set_k_ftable ft s)) in
  forall l2 l1 ft, p_ofile pr = l1 ++ l2 -> (forall f, Some f ∈ l2 -> exists x, lookupZ ft f = Some x /\ 1 <= f_ref x) ->
  exists ft', for_loop (length l2) (lenZ l1) (fork_ofile p np) (st (l1 ++ replicate (length l2) None) ft) = Ok None (st (p_ofile pr) ft') /\ dup_refs l2 ft ft'.
Proof.
  intros Hs Hl Hne Hp Hn st. assert (Hst : forall l ft, settled (st l ft) /\ lock_free L_ftable (st l ft)) by (intros l ft; split; [by apply settled_acq|by apply lock_free_acq]).
  assert (Hpp : forall l ft, lookupZ (k_proc (st l ft)) p = Some pr) by (intros l ft; unfold st; autorewrite with acq; cbn [k_proc set_k_proc]; by rewrite lookupZ_insertZ_ne).
  induction l2 as [|o l2 IH]; intros l1 ft E Hf.
  { exists ft. cbn [length for_loop replicate]. rewrite E. split; [done|apply dup_refs_nil]. }
  assert (E' : p_ofile pr = (l1 ++ [o]) ++ l2) by (by rewrite <- app_assoc). cbn [length replicate]. assert (Ei : lenZ l1 + 1 = lenZ (l1 ++ [o])) by (rewrite lenZ_app; done).
  assert (exists ft1, fork_ofile p np (lenZ l1) (st (l1 ++ None :: replicate (length l2) None) ft) = Ok None (st ((l1 ++ [o]) ++ replicate (length l2) None) ft1) /\
    (forall ft', dup_refs l2 ft1 ft' -> dup_refs (o :: l2) ft ft') /\ forall f, Some f ∈ l2 -> exists x, lookupZ ft1 f = Some x /\ 1 <= f_ref x) as (ft1 & E1 & Hd & Hf1).
  { unfold fork_ofile. erewrite bind_ok by (by apply run_get_proc). rewrite E, lookupZ_mid. cbn [deref]. rewrite bind_ret. rewrite <- app_assoc. cbn [app]. destruct o as [f|].
    - destruct (Hf f) as (x & Hx & Hx1); [left|]. pose proof (lookupZ_Some_range _ _ _ Hx) as Hr. destruct (Hst (l1 ++ None :: replicate (length l2) None) ft) as [Hs1 Hl1].
      rewrite (bind_ok _ _ _ _ _ (filedup_ok f x _ Hs1 Hl1 Hx Hx1)). exists (insertZ f (set_f_ref (f_ref x + 1) x) ft). unfold st at 1. autorewrite with acq.
      erewrite bind_ok by (apply run_get_proc; autorewrite with acq; cbn [k_proc set_k_proc set_k_ftable]; by apply lookupZ_insertZ_eq). rewrite bind_put_proc. autorewrite with acq. cbn [k_proc set_k_proc set_k_ftable k_ftable p_ofile set_p_ofile]. unfold st. autorewrite with acq. cbn [k_proc set_k_proc]. rewrite insertZ_insertZ, insertZ_mid.
      split; [done|]. split; [intros ft'; by apply dup_refs_some|]. intros g Hg. rewrite lookupZ_insertZ by done. destruct (Z.eqb_spec g f) as [|_]; [eexists; split; [done|]; cbn; lia|]. apply Hf. by right.
    - exists ft. split; [done|]. split; [intros ft'; apply dup_refs_none|]. intros f Hin. apply Hf. by right. }
  destruct (IH (l1 ++ [o]) ft1 E' Hf1) as (ft' & E2 & Hd'). exists ft'. split; [|by apply Hd]. rewrite <- E2, <- Ei. by apply for_loop_next.
Qed.

(** ** A successful fork *)

Lemma put_name_ok p q t s : lookupZ (k_proc s) p = Some q -> put_name p t s = Ok tt (set_k_proc (insertZ p (set_p_name (overwrite (safestrcpy t 16) (p_name q)) q) (k_proc s)) s).
Proof. intros H. unfold put_name. by erewrite bind_ok by (by apply run_get_proc). Qed.

(** Read and then update the slot of the child. *)
Ltac slot := erewrite bind_ok by (apply run_get_proc; autorewrite with acq; cbn [k_proc set_k_proc set_k_itable]; by apply lookupZ_insertZ_eq); cbv zeta.
Ltac store := rewrite bind_put_proc; autorewrite with acq; cbn [k_proc set_k_proc set_k_itable k_itable set_k_ftable]; rewrite insertZ_insertZ.

Section Forked.
Context (p np : Z) (pr npr : proc) (s : kstate) (m : mem) (f tf root : Z) (m2 : mem) (f2 : Z) (ip : Z) (ino : inode).
Hypotheses (Hk : kthread p s) (Hp : lookupZ (k_proc s) p = Some pr) (Hnp : lookupZ (k_proc s) np = Some npr) (Hne : np <> p).
Let s1 : kstate := with_slot np (newproc (k_nextpid s) tf root npr) m f s.
Hypothesis Hal : allocproc s = Ok (Some np) (acq (L_proc np) s1).
Hypothesis Hcp : uvmcopy (p_pagetable pr) root (p_sz pr) (acq (L_proc np) s1) = Ok 0 (set_k_mem m2 (set_k_freelist f2 (acq (L_proc np) s1))).
Hypotheses (Hof : p_ofile npr = replicate (Z.to_nat NOFILE) None) (Hlen : lenZ (p_ofile pr) = NOFILE).
Hypothesis Hfiles : forall f, Some f ∈ p_ofile pr -> exists x, lookupZ (k_ftable s) f = Some x /\ 1 <= f_ref x.
Hypotheses (Hcwd : p_cwd pr = Some ip) (Hino : lookupZ (k_itable s) ip = Some ino).

(** The memory with the child's trapframe filled in. *)
Let m3 : mem := store64 (memmove m2 tf (p_trapframe pr) sizeof_trapframe) (tf + TF_a0) 0.

Lemma fork_finishes : exists ft', dup_refs (p_ofile pr) (k_ftable s) ft' /\
  fork s = Ok (k_nextpid s) (set_k_proc (insertZ np (child p pr npr (k_nextpid s) tf root) (k_proc s))
    (set_k_itable (insertZ ip (set_i_ref (i_ref ino + 1) ino) (k_itable s)) (set_k_ftable ft'
    (set_k_nextpid (i32 (k_nextpid s + 1)) (set_k_mem m3 (set_k_freelist f2 s)))))).
Proof.
  pose proof (lookupZ_Some_range _ _ _ Hnp) as Hr. destruct (kthread_locks _ _ Hk) as [Hlp Hfp]. pose proof (kt_settled _ _ Hk) as Hs.
  assert (Hln : lock_free (L_proc np) s) by (apply Hfp; lia). assert (Hlk : forall lk, lk ∈ static_locks -> lock_free lk s) by apply Hk.
  set (q := set_p_sz (p_sz pr) (newproc (k_nextpid s) tf root npr)). set (sq := set_k_nextpid (i32 (k_nextpid s + 1)) (set_k_mem m3 (set_k_freelist f2 s))).
  destruct (fork_files p np pr q sq) with (l2 := p_ofile pr) (l1 := @nil (option Z)) (ft := k_ftable s) as (ft' & Efl & Hd); [done|apply Hlk, (bool_decide_unpack _); by vm_compute|done|done|done|done|done|].
  exists ft'. split; [done|]. unfold fork. erewrite bind_ok by (apply run_curproc; [done|apply Hk]). rewrite (bind_ok _ _ _ _ _ Hal). cbv beta iota.
  erewrite bind_ok by (apply run_get_proc; unfold s1, with_slot; autorewrite with acq; cbn [k_proc set_k_proc]; rewrite lookupZ_insertZ_ne by done; exact Hp).
  erewrite bind_ok by (apply run_get_proc; unfold s1, with_slot; autorewrite with acq; cbn [k_proc set_k_proc]; by apply lookupZ_insertZ_eq).
  change (p_pagetable (newproc (k_nextpid s) tf root npr)) with root. rewrite (bind_ok _ _ _ _ _ Hcp). cbn [Z.ltb Z.compare].
  autorewrite with acq. erewrite bind_ok by (apply run_get_proc; unfold s1, with_slot; autorewrite with acq; cbn [k_proc set_k_proc set_k_mem set_k_freelist]; by apply lookupZ_insertZ_eq).
  rewrite bind_put_proc. fold q. change (p_trapframe (newproc (k_nextpid s) tf root npr)) with tf. unfold memmove_m. rewrite bind_modify. autorewrite with acq.
  assert (Etf : forall t, lookupZ (k_proc t) np = Some q -> put_tf np TF_a0 0 t = Ok tt (set_k_mem (store64 (k_mem t) (tf + TF_a0) 0) t)) by (intros t Ht; unfold put_tf; erewrite bind_ok by (by apply run_get_proc); done).
  erewrite bind_ok by (apply Etf; autorewrite with acq; cbn [k_proc set_k_proc set_k_mem]; apply lookupZ_insertZ_eq; unfold s1, with_slot; cbn [k_proc set_k_proc set_k_mem set_k_freelist]; by rewrite lenZ_insertZ).
  autorewrite with acq. unfold s1, with_slot. cbn [k_proc set_k_proc set_k_mem set_k_freelist k_mem set_k_nextpid]. rewrite insertZ_insertZ.
  assert (En : length (p_ofile pr) = Z.to_nat NOFILE) by (unfold lenZ in Hlen; lia). rewrite En, <- Hof in Efl. change ([] ++ p_ofile npr) with (p_ofile npr) in Efl. rewrite (bind_ok _ _ _ _ _ Efl). clear Efl. cbn [k_proc sq set_k_nextpid set_k_mem set_k_freelist].
  erewrite bind_ok by (apply run_get_proc; autorewrite with acq; cbn [k_proc set_k_proc]; rewrite lookupZ_insertZ_ne by done; exact Hp).
  rewrite Hcwd. cbn [deref]. rewrite bind_ret. erewrite bind_ok by (apply (idup_ok ip ino); [by apply settled_acq|apply lock_free_acq; [done|]; apply Hlk, (bool_decide_unpack _); by vm_compute|exact Hino]). autorewrite with acq.
  slot. store. erewrite bind_ok by (apply put_name_ok; autorewrite with acq; cbn [k_proc set_k_proc]; by apply lookupZ_insertZ_eq).
  autorewrite with acq. cbn [k_proc set_k_proc]. rewrite insertZ_insertZ. slot.
  erewrite bind_ok by (by apply release_acq). erewrite bind_ok by (apply acquire_ok; [exact Hs|apply Hlk, (bool_decide_unpack _); by vm_compute]).
  slot. store. erewrite bind_ok by (apply release_acq; [exact Hs|apply Hlk, (bool_decide_unpack _); by vm_compute]).
  erewrite bind_ok by (apply acquire_ok; [exact Hs|exact Hln]). slot. store. erewrite bind_ok by (by apply release_acq). unfold child. by rewrite Hcwd.
Qed.
End Forked.

(** ** The child *)

Section Child.
Context (p np : Z) (pr npr : proc) (lo : list (Z * Z)) (fl : list Z) (ip : Z) (ino : inode) (s : kstate) (m : mem) (f tf root : Z) (fl1 : list Z).
Hypotheses (Hca : caller p pr lo fl ip ino s) (Hsl : slots_clear s) (Hun : first_unused s np npr).
Let s1 : kstate := with_slot np (newproc (k_nextpid s) tf root npr) m f s.
Hypotheses (Hal : allocproc s = Ok (Some np) (acq (L_proc np) s1)) (Hm : forall x, off_pages (fun q => q ∈ fl) x -> mget m x = mget (k_mem s) x).
Hypotheses (Hpp : pspace root [] tf fl1 s1) (Hfl : forall q, q ∈ fl <-> q = tf \/ is_table m root q \/ q ∈ fl1).

Lemma child_slot : lookupZ (k_proc s) np = Some npr /\ 0 <= np < lenZ (k_proc s) /\ np <> p /\ lock_free (L_proc np) s.
Proof using Hca Hun.
  destruct Hun as (Hp & Hst & _). pose proof (lookupZ_Some_range _ _ _ Hp). split; [done|]. split; [done|]. pose proof (ca_thread _ _ _ _ _ _ _ Hca) as Hk. split.
  - intros E. rewrite E, (ca_proc _ _ _ _ _ _ _ Hca) in Hp. injection Hp as E'. apply (ca_used _ _ _ _ _ _ _ Hca). by rewrite E'.
  - destruct (kthread_locks _ _ Hk) as [E Hf]. apply Hf. lia.
Qed.

Lemma child_apart : apart (p_pagetable pr) lo root [] (acq (L_proc np) s1).
Proof using Hca Hm Hfl.
  intros q Hq. split; [|apply not_elem_of_nil]. intros Ht. pose proof (ca_space _ _ _ _ _ _ _ Hca) as Hpo. pose proof (pp_space _ _ _ _ _ Hpo) as Huo. assert (q ∈ fl) as Hin by (apply Hfl; right; by left).
  destruct Hq as [Hq|Hq]; [|by destruct (uspace_data_page _ _ _ _ _ Huo Hq) as (_ & ? & _)].
  apply (ps_disj _ _ _ (us_ps _ _ _ _ Huo) q); [|done]. apply (is_table_ext (k_mem s) m); [|exact Hq]. intros q' x Hq' Hx. apply Hm, (pspace_off _ _ _ _ _ q' x Hpo); [by left|done].
Qed.

(** [uvmcopy] fills the address space of the child. *)
Lemma child_copy : exists c ln fl2 m2 f2, let s2 := set_k_mem m2 (set_k_freelist f2 s1) in
  uvmcopy (p_pagetable pr) root (p_sz pr) (acq (L_proc np) s1) = Ok c (set_k_mem m2 (set_k_freelist f2 (acq (L_proc np) s1))) /\
  pspace root ln tf fl2 s2 /\ (forall q, q ∈ fl <-> q = tf \/ space_pages root ln.*1 fl2 s2 q) /\
  (forall x, off_pages (fun q => q ∈ fl) x -> mget m2 x = mget (k_mem s) x) /\
  ((c = 0 /\ length ln = length lo /\ copied lo ln s2) \/ (c = -1 /\ ln = [] /\ lenZ fl1 <= 3 * lenZ lo)).
Proof using Hca Hm Hpp Hfl.
  pose proof (ca_thread _ _ _ _ _ _ _ Hca) as Hk. pose proof (ca_space _ _ _ _ _ _ _ Hca) as Hpo. assert (Hr1 : kmem_ready s1) by exact (kthread_kmem _ _ Hk).
  assert (Hr : kmem_ready (acq (L_proc np) s1)) by (by apply kmem_ready_acq). pose proof (pp_space _ _ _ _ _ Hpp) as Hun1.
  assert (Hpo1 : pspace (p_pagetable pr) lo (p_trapframe pr) fl1 s1).
  { apply (pspace_kept _ _ _ fl s); [done|done|apply Hun1|intros q Hq; apply Hfl; by right; right|exact Hm]. }
  destruct (uvmcopy_ok (p_pagetable pr) lo root fl1 (acq (L_proc np) s1) (p_sz pr)) as (c & ln & fl2 & t2 & E & Huf & Hun2 & _ & _ & Hc);
    [apply (uspace_state _ _ _ s1); [apply Hpo1|done|done|done]|by apply (uspace_state _ _ _ s1)|apply child_apart|apply Hca|apply Hca|].
  destruct (uf_state _ _ _ _ _ _ _ Huf) as (m2 & f2 & Et). subst t2. set (s2 := set_k_mem m2 (set_k_freelist f2 s1)). exists c, ln, fl2, m2, f2. cbv zeta. fold s2.
  assert (Huf1 : uframe root [] fl1 s1 ln.*1 fl2 s2) by (destruct Huf as [_ U2 U3 U4]; split; [by exists m2, f2|exact U2|exact U3|exact U4]).
  split; [exact E|]. split; [apply (pspace_uframe root [] tf fl1 s1); [done|done|by apply (uspace_state _ _ _ _ s2 Hun2)]|].
  split; [intros q; rewrite (uf_pages _ _ _ _ _ _ _ Huf1), Hfl; unfold space_pages; rewrite elem_of_nil; change (k_mem s1) with m; tauto|]. split; [|exact Hc].
  intros x Hx. rewrite <- Hm by done. apply (uf_frame _ _ _ _ _ _ _ Huf1). intros q [Hq|[Hq|Hq]]; [|by inversion Hq|]; apply Hx, Hfl; [right; by left|right; by right].
Qed.

(** The copy failed: the child is freed again. *)
Lemma child_dropped fl2 m2 f2 : let s2 := set_k_mem m2 (set_k_freelist f2 s1) in
  uvmcopy (p_pagetable pr) root (p_sz pr) (acq (L_proc np) s1) = Ok (-1) (set_k_mem m2 (set_k_freelist f2 (acq (L_proc np) s1))) -> pspace root [] tf fl2 s2 ->
  exists m' f' fl', let s' := with_slot np (freed (newproc (k_nextpid s) tf root npr)) m' f' s in
    fork s = Ok (-1) s' /\ kmem_inv fl' s' /\ (forall q, q ∈ fl' <-> q = tf \/ space_pages root [] fl2 s2 q) /\
    forall x, off_pages (fun q => q = tf \/ space_pages root [] fl2 s2 q) x -> mget m' x = mget m2 x.
Proof using Hca Hsl Hun Hal.
  intros s2 E Hp2. destruct child_slot as (Hn & Hr & Hne & Hl). pose proof (ca_thread _ _ _ _ _ _ _ Hca) as Hk. set (q := newproc (k_nextpid s) tf root npr) in *.
  assert (Hq : forall t, k_proc t = k_proc s1 -> lookupZ (k_proc t) np = Some q) by (intros t ->; by apply lookupZ_insertZ_eq). pose proof Hun as (_ & Hu & _). destruct (Hsl np npr Hn Hu) as (_ & Hz & _).
  set (t2 := set_k_mem m2 (set_k_freelist f2 (acq (L_proc np) s1))) in *.
  destruct (freeproc_ok np q [] fl2 t2) as (fl' & m' & f' & Ef & Hi & Hfl' & Hm'); [by apply Hq| |change (p_sz q) with (p_sz npr); rewrite Hz; lz|change (p_sz q) with (p_sz npr); by rewrite Hz|].
  { apply (pspace_state _ _ _ _ s2); [done| |done|done]. apply kmem_ready_acq; [exact (kthread_kmem _ _ Hk)|done]. }
  exists m', f', fl'. split; [|split; [exact Hi|split; [exact Hfl'|exact Hm']]].
  unfold fork. erewrite bind_ok by (apply run_curproc; [apply Hk|apply Hk]). rewrite (bind_ok _ _ _ _ _ Hal). cbv beta iota.
  erewrite bind_ok by (apply run_get_proc; unfold s1, with_slot; autorewrite with acq; cbn [k_proc set_k_proc]; rewrite lookupZ_insertZ_ne by done; apply (ca_proc _ _ _ _ _ _ _ Hca)).
  erewrite bind_ok by (apply run_get_proc, Hq; done). change (p_pagetable q) with root. rewrite (bind_ok _ _ _ _ _ E). cbn [Z.ltb Z.compare]. rewrite (bind_ok _ _ _ _ _ Ef).
  change (k_proc t2) with (insertZ np q (k_proc s)). rewrite insertZ_insertZ. erewrite bind_ok by (apply (release_acq (L_proc np) (with_slot np (freed q) m' f' s)); [apply Hk|exact Hl]). done.
Qed.

(** The copy succeeded: the rest of the child is filled in. *)
Lemma child_filled ln fl2 m2 f2 : let s2 := set_k_mem m2 (set_k_freelist f2 s1) in let m3 := store64 (memmove m2 tf (p_trapframe pr) sizeof_trapframe) (tf + TF_a0) 0 in
  pspace root ln tf fl2 s2 -> (forall q, q ∈ fl <-> q = tf \/ space_pages root ln.*1 fl2 s2 q) ->
  (forall x, off_pages (fun q => q ∈ fl) x -> mget m2 x = mget (k_mem s) x) -> copied lo ln s2 ->
  (forall x, ~ in_page tf x -> mget m3 x = mget m2 x) /\ tf_copied tf (p_trapframe pr) (k_mem s) m3 /\ copied lo ln (set_k_mem m3 s2).
Proof using Hca.
  intros s2 m3 Hp2 Hfl2 Hm2 Hc. pose proof (ca_space _ _ _ _ _ _ _ Hca) as Hpo.
  assert (Hout : forall x, ~ in_page tf x -> mget m3 x = mget m2 x).
  { intros x Hx. unfold m3, in_page, sizeof_trapframe, TF_a0 in *. rewrite mget_store64_out by lz. by rewrite mget_memmove_out by lz. }
  split; [done|]. split; [split|].
  - unfold m3. by rewrite load64_store64.
  - intros i Hi Ha. unfold m3. rewrite mget_store64_out by lia. rewrite mget_memmove_in by lia. replace (p_trapframe pr + (tf + i - tf)) with (p_trapframe pr + i) by lia.
    apply Hm2, (pspace_off _ _ _ _ _ (p_trapframe pr) _ Hpo); [by right; right|]. unfold in_page, sizeof_trapframe in *. lz.
  - intros j pa perm pa' perm' Hj Hj'. destruct (Hc j pa perm pa' perm' Hj Hj') as [Ep Hb]. split; [done|]. intros i Hi. cbn [k_mem set_k_mem].
    assert (Htf : page_ok tf) by apply (pt_page _ _ _ (pp_top _ _ _ _ _ Hp2)). assert (Hin : tf ∈ fl) by (apply Hfl2; by left).
    assert (Hpa : pa ∈ lo.*1) by (by eapply lookup_data). assert (Hpa' : pa' ∈ ln.*1) by (by eapply lookup_data).
    destruct (uspace_data_page _ _ _ _ _ (pp_space _ _ _ _ _ Hpo) Hpa) as (Ho & Hnf & _), (uspace_data_page _ _ _ _ _ (pp_space _ _ _ _ _ Hp2) Hpa') as (Ho' & _).
    destruct (pp_apart _ _ _ _ _ Hp2) as (_ & Hnl & _).
    rewrite !Hout; [exact (Hb i Hi)| |]; [apply (page_ok_disjoint pa tf)|apply (page_ok_disjoint pa' tf)]; try done; try (unfold in_page; lia); intros ->; done.
Qed.
End Child.

Lemma fork_ok p pr lo fl ip ino s : caller p pr lo fl ip ino s -> slots_clear s ->
  exists r s' fl', fork s = Ok r s' /\ pspace (p_pagetable pr) lo (p_trapframe pr) fl' s' /\ slots_clear s' /\
    (forall x, off_pages (fun q => q ∈ fl) x -> mget (k_mem s') x = mget (k_mem s) x) /\
    ((r = k_nextpid s /\ forked p pr lo fl ip ino s fl' s') \/ (r = -1 /\ not_forked lo fl s fl' s')).
Proof.
  intros Hca Hsl. pose proof (ca_thread _ _ _ _ _ _ _ Hca) as Hk. pose proof (ca_space _ _ _ _ _ _ _ Hca) as Hpo. pose proof (kthread_kmem _ _ Hk) as Hr. pose proof (kt_settled _ _ Hk) as Hs.
  assert (Hnone : forall s', allocproc s = Ok None s' -> fork s = Ok (-1) s') by (intros s' E; unfold fork; erewrite bind_ok by (apply run_curproc; [done|apply Hk]); by rewrite (bind_ok _ _ _ _ _ E)).
  destruct (allocproc_ok fl s) as [[Hno E]|(np & npr & m & f & fl1 & Hun & Hm & [(Hle & E & Hi & Hq)|(tf & root & Hal & Hpp & Hle & Hfl)])]; [done|apply Hpo|by eapply kthread_locks|apply Hk, (bool_decide_unpack _); by vm_compute|done|..].
  - exists (-1), s, fl. split; [by apply Hnone|]. split; [done|]. split; [done|]. split; [done|]. right. split; [done|]. split; [done|]. by left.
  - set (s' := with_slot np (freed npr) m f s) in *. pose proof Hun as (Hn & Hu & _). exists (-1), s', fl1. split; [by apply Hnone|]. split; [apply (pspace_kept _ _ _ fl s); [done|done|done|apply Hq|done]|].
    destruct (Hsl np npr Hn Hu) as (_ & _ & Hof). split; [by apply (slots_clear_insert s _ np (freed npr) Hsl (lookupZ_Some_range _ _ _ Hn))|]. split; [done|]. right. split; [done|]. split; [done|].
    right. split; [pose proof (lenZ_nonneg lo); lia|]. by exists np, npr, (freed npr), m, f.
  - destruct (child_slot p np pr npr lo fl ip ino s Hca Hun) as (Hn & Hrg & Hne & Hl). pose proof Hun as (_ & Hu & _). destruct (Hsl np npr Hn Hu) as (_ & _ & Hof).
    destruct (child_copy p np pr npr lo fl ip ino s m f tf root fl1 Hca Hm Hpp Hfl) as (c & ln & fl2 & m2 & f2 & Ec & Hp2 & Hfl2 & Hm2 & [(-> & Hln & Hcp)|(-> & -> & Hl1)]).
    + destruct (child_filled p np pr npr lo fl ip ino s m f tf root Hca ln fl2 m2 f2 Hp2 Hfl2 Hm2 Hcp) as (Hout & Htf & Hcp3).
      destruct (fork_finishes p np pr npr s m f tf root m2 f2 ip ino) as (ft & Hd & E); try done; try apply Hca.
      set (m3 := store64 _ _ _) in *. set (s' := set_k_proc _ _) in E. pose proof (pspace_write _ _ _ _ _ m3 Hp2 Hout) as Hp3.
      assert (Hp' : pspace root ln tf fl2 s') by (by apply (pspace_state _ _ _ _ _ s' Hp3)).
      assert (Hm3 : forall x, off_pages (fun q => q ∈ fl) x -> mget m3 x = mget (k_mem s) x) by (intros x Hx; rewrite Hout, Hm2; [done|done|apply Hx, Hfl2; by left]).
      assert (Hsp : forall q, space_pages root ln.*1 fl2 s' q <-> space_pages root ln.*1 fl2 (set_k_mem m2 (set_k_freelist f2 s)) q).
      { intros q. unfold space_pages. change (k_mem s') with m3. cbn [k_mem set_k_mem]. rewrite (is_table_ext m2 m3); [done|]. intros q' x Hq' Hx. apply Hout, (page_ok_disjoint q' tf); [exact (is_table_page _ _ _ (ps_wf _ _ _ (us_ps _ _ _ _ (pp_space _ _ _ _ _ Hp2))) Hq')|apply Hp2| |done]. intros ->. by apply (pp_apart _ _ _ _ _ Hp2). }
      exists (k_nextpid s), s', fl2. split; [exact E|]. split; [apply (pspace_kept _ _ _ fl s); [done|done|apply Hp'|intros q Hq; apply Hfl2; right; by right; right|done]|].
      split; [by apply (slots_clear_insert s s' np (child p pr npr (k_nextpid s) tf root) Hsl Hrg)|]. split; [done|]. left. split; [done|].
      exists np, npr, tf, root, ln, m3, f2, ft. do 6 (split; [done|]). split; [done|]. intros q. by rewrite Hsp.
    + destruct (child_dropped p np pr npr lo fl ip ino s m f tf root Hca Hsl Hun Hal fl2 m2 f2 Ec Hp2) as (m' & f' & fl' & E & Hi & Hq & Hm'). set (s' := with_slot _ _ m' _ _) in *.
      assert (Hsub : forall q, q ∈ fl' <-> q ∈ fl) by (intros q; by rewrite Hq, Hfl2).
      assert (Hmm : forall x, off_pages (fun q => q ∈ fl) x -> mget m' x = mget (k_mem s) x) by (intros x Hx; rewrite Hm', Hm2; [done|done|]; eapply off_pages_iff; [|exact Hx]; intros q; by rewrite Hfl2).
      exists (-1), s', fl'. split; [exact E|]. split; [apply (pspace_kept _ _ _ fl s); [done|done|done|apply Hsub|done]|]. split; [by apply (slots_clear_insert s s' np (freed (newproc (k_nextpid s) tf root npr)) Hsl Hrg)|].
      split; [done|]. right. split; [done|]. split; [done|]. right. split; [lia|]. by exists np, npr, (freed (newproc (k_nextpid s) tf root npr)), m', f'.
Qed.

(** ** Property *)

(** C6: [fork] duplicates the calling process or leaves nothing behind.  On
    success the first free slot holds a runnable child with a new identifier,
    the caller as its parent and the caller's size, files, working directory and
    name; each user page of the child is a page of its own with the contents and
    permissions of the caller's, its registers are the caller's except that [a0]
    is 0, every open file has one more reference for each descriptor and the
    directory one more, and every page taken from the free list belongs to the
    child.  It returns -1 only without a free slot or with few free pages, and
    then all pages are free again.  In both cases the caller's address
    space and all memory that was not free are unchanged, and the table of
    processes is ready for the next [fork]. *)
Theorem fork_duplicates p pr lo fl ip ino s : caller p pr lo fl ip ino s -> slots_clear s ->
  exists r s' fl', fork s = Ok r s' /\ pspace (p_pagetable pr) lo (p_trapframe pr) fl' s' /\ slots_clear s' /\
    (forall x, off_pages (fun q => q ∈ fl) x -> mget (k_mem s') x = mget (k_mem s) x) /\
    ((r = k_nextpid s /\ forked p pr lo fl ip ino s fl' s') \/ (r = -1 /\ not_forked lo fl s fl' s')).
Proof. apply fork_ok. Qed.
End Fork.

(** Process 5 of [demo_sched] with three pages, one open file and a working
    directory, for the witness. *)
Definition demo_forker (root tf : Z) : proc :=
  set_p_state RUNNING (set_p_sz 0x3000 (set_p_pagetable root (set_p_trapframe tf (set_p_cwd (Some 0) (set_p_ofile (insertZ 1 (Some 2) (p_ofile zero_proc)) zero_proc))))).

Definition demo_parent (root tf : Z) (m : mem) (f : Z) : kstate :=
  set_k_ftable (insertZ 2 (set_f_ref 1 zero_file) (k_ftable zero_kstate)) (set_k_proc (insertZ 5 (demo_forker root tf) (k_proc demo_sched)) (demo_free m f)).

Lemma demo_caller : exists root tf m f fl lo, caller 5 (demo_forker root tf) lo fl 0 zero_inode (demo_parent root tf m f) /\ lenZ lo = 3 /\ 32000 <= lenZ fl.
Proof.
  destruct demo_memory as (m & f & fl & Hk & Hi & Hn).
  destruct (@allocproc_ok _ demo_kernel fl _ (kthread_kmem _ _ Hk) Hi) as [[Hno _]|(p & pr & m' & f' & fl' & _ & _ & [(Hle & _)|(tf & root & _ & Hpp & Hle & _)])];
    [by eapply kthread_locks|apply Hk, (bool_decide_unpack _); by vm_compute|apply demo_slots|by destruct (Hno 0 zero_proc eq_refl)|exfalso; lia|].
  destruct (uvmalloc_ok root [] fl' _ 0 0x3000 PTE_W (pp_space _ _ _ _ _ Hpp)) as (c & lo & fl2 & s2 & _ & Huf & Hus & [(_ & _ & Hle2)|(_ & _ & Hsz & Hle2)]); [reflexivity|lia|lz|by vm_compute|..]; change (0x3000 / PGSIZE) with 3 in Hle2; [lia|].
  change ([] ++ lo) with lo in *. pose proof (pspace_uframe _ _ _ _ _ _ _ _ Hpp Huf Hus) as Hp2. change (PGROUNDUP 0x3000) with (3 * PGSIZE) in Hsz.
  assert (Hk' : kthread 5 (demo_parent root tf (k_mem s2) (k_freelist s2))) by (apply (kthread_ext 5 demo_sched); try reflexivity; exact demo_thread).
  exists root, tf, (k_mem s2), (k_freelist s2), fl2, lo. split; [|split; [lz|lia]]. split; [exact Hk'|reflexivity|discriminate| |cbn; lz|exact Hsz|reflexivity| |reflexivity|reflexivity].
  - by apply (pspace_state _ _ _ _ s2); [|apply (kthread_kmem _ _ Hk')|..].
  - intros g Hg. exists (set_f_ref 1 zero_file). split; [|by vm_compute]. change (p_ofile (demo_forker root tf)) with (None :: Some 2 :: replicate 14 (@None Z)) in Hg.
    apply elem_of_cons in Hg as [[=]|Hg]. apply elem_of_cons in Hg as [[= ->]|[[=] _]%elem_of_replicate]. reflexivity.
Qed.

Lemma fork_duplicates_witness : exists s s', @fork _ demo_kernel s = Ok 1 s'.
Proof.
  destruct demo_caller as (root & tf & m & f & fl & lo & Hca & Hl & Hn).
  destruct (@fork_duplicates _ demo_kernel _ _ _ _ _ _ _ Hca) as (r & s' & fl' & E & _ & _ & _ & [[-> _]|(_ & _ & [[_ Hno]|[Hle _]])]).
  - apply (slots_clear_insert _ _ 5 (demo_forker root tf) (demo_slots m f)); [done|done|discriminate].
  - eexists _, s'. exact E.
  - by destruct (Hno 0 zero_proc eq_refl).
  - exfalso. lia.
Defined.
