(* ===== verification/Wait.v ===== *)
(** * Reaping a child ([kernel/proc.c])

    What [wait] does: it gives the status of a child that has exited to the
    caller and the memory of the child back, or it sleeps until there is one. *)

From S2P Require Import Prelude Riscv State Spinlock Str Kalloc Vm Uvm UvmCopy UvmFree Copy Sched Csr Kvm UserMem.
From S2P Require Import Pipe Fs File Proc ProcMem Fork.

(** ** Specification *)

(** [q] in slot [c] is a child of process [p] that has exited. *)
Definition zombie (p : Z) (s : kstate) (c : Z) (q : proc) : Prop :=
  lookupZ (k_proc s) c = Some q /\ p_parent q = Some p /\ p_state q = ZOMBIE.

(** The first one from slot [i] on. *)
Definition first_zombie (p i : Z) (s : kstate) (c : Z) (q : proc) : Prop :=
  i <= c /\ zombie p s c q /\ forall j qj, i <= j < c -> ~ zombie p s j qj.

(** Process [p] has a child in a slot from [i] on. *)
Definition has_child (p i : Z) (s : kstate) : Prop :=
  exists j q, i <= j /\ lookupZ (k_proc s) j = Some q /\ p_parent q = Some p.

Section Wait.
Context {KI : KernelImage}.

(** The bytes of the exit status that [wait(addr)] gives to the caller. *)
Definition status_bytes (addr : Z) (q : proc) : list Z := if addr =? 0 then [] else le_split 4 (p_xstate q).

(** ** The scan *)

Lemma wait_body_skips p addr i hk s q : kthread p s -> lookupZ (k_proc s) i = Some q -> ~ zombie p s i q ->
  exists b, wait_body p addr (i, hk) (acq L_wait s) = Ok (inl (i + 1, b)) (acq L_wait s) /\ (b = true <-> hk = true \/ p_parent q = Some p).
Proof.
  intros Hk Hq Hz. pose proof (lookupZ_Some_range _ _ _ Hq) as Hr. destruct (kthread_locks _ _ Hk) as [Hlen Hf]. pose proof (kt_settled _ _ Hk) as Hs.
  unfold wait_body. destruct (Z.ltb_spec i NPROC); [|lia]. erewrite bind_ok by (apply run_get_proc; by autorewrite with acq). destruct (decide (p_parent q = Some p)) as [Hp|Hp].
  - rewrite bool_decide_true by done. assert (Hl : lock_free (L_proc i) (acq L_wait s)) by (apply lock_free_acq; [done|apply Hf; lia]). assert (Hs1 : settled (acq L_wait s)) by (by apply settled_acq).
    rewrite (bind_ok _ _ _ _ _ (acquire_ok _ _ Hs1 Hl)). erewrite bind_ok by (apply run_get_proc; by autorewrite with acq). rewrite bool_decide_false by (intros Hzs; by apply Hz).
    erewrite bind_ok by (by apply release_acq). exists true. split; [done|]. split; [by right|done].
  - rewrite bool_decide_false by done. exists hk. split; [done|]. tauto.
Qed.

Lemma wait_scan p addr s n : kthread p s -> forall i hk fuel, 0 <= i -> i + Z.of_nat n = NPROC -> (n < fuel)%nat ->
  (exists c q, first_zombie p i s c q /\ forall v s', (forall b, wait_body p addr (c, b) (acq L_wait s) = Ok (inr v) s') -> loop fuel (wait_body p addr) (i, hk) (acq L_wait s) = Ok v s') \/
  ((forall c q, i <= c -> ~ zombie p s c q) /\ exists b, loop fuel (wait_body p addr) (i, hk) (acq L_wait s) = Ok (inr b) (acq L_wait s) /\ (b = true <-> hk = true \/ has_child p i s)).
Proof.
  intros Hk. destruct (kthread_locks _ _ Hk) as [Hlen Hf]. induction n as [|n IH]; intros i hk [|fuel] Hi Hn Hfu; try lia.
  - right. split; [intros c q Hc [Hq _]; pose proof (lookupZ_Some_range _ _ _ Hq); lia|]. exists hk. split; [apply loop_stop; unfold wait_body; destruct (Z.ltb_spec i NPROC); [lia|done]|].
    split; [by left|]. intros [?|(j & q & Hj & Hq & _)]; [done|]. pose proof (lookupZ_Some_range _ _ _ Hq). lia.
  - destruct (lookupZ_is_Some (k_proc s) i) as [q Hq]; [lia|]. destruct (decide (p_parent q = Some p /\ p_state q = ZOMBIE)) as [[Hp Hz]|Hnz].
    + left. exists i, q. split; [split; [lia|split; [done|intros; lia]]|]. intros v s' Hv. by apply loop_stop.
    + assert (Hz : ~ zombie p s i q) by (intros (_ & ? & ?); tauto). destruct (wait_body_skips p addr i hk s q Hk Hq Hz) as (b & E & Hb). erewrite loop_next by exact E.
      destruct (IH (i + 1) b fuel) as [(c & q' & (H1 & H2 & H3) & Hl)|(Hno & b' & El & Hb')]; [lia|lia|lia| |].
      * left. exists c, q'. split; [|exact Hl]. split; [lia|]. split; [done|]. intros j qj Hj Hzj. destruct (decide (j = i)) as [->|]; [|apply (H3 j qj); [lia|done]]. pose proof Hzj as (Hqj & _). simplify_eq. done.
      * right. split. { intros c q' Hc Hzc. destruct (decide (c = i)) as [->|]; [|apply (Hno c q'); [lia|done]]. pose proof Hzc as (Hqj & _). simplify_eq. done. }
        exists b'. split; [exact El|]. rewrite Hb', Hb. split.
        { intros [[?|Hpq]|(j & qj & ? & ? & ?)]; [by left|right; exists i, q; split; [lia|done]|right; exists j, qj; split; [lia|done]]. }
        { intros [?|(j & qj & Hj & Hqj & Hpj)]; [tauto|]. destruct (decide (j = i)) as [->|]; [simplify_eq; tauto|]. right. exists j, qj. split; [lia|done]. }
Qed.

(** ** The status *)

Lemma ptop_no_user root tf s : ptop root tf s -> no_user_top root s.
Proof.
  intros [T1 T2 T3 T4] a Ha Hge. destruct (top_cases a Ha Hge) as [->|[->|Hm]].
  - rewrite T2, leaf_pte_land by ((by apply page_ok_pa_ok) || (by vm_compute)). by vm_compute.
  - rewrite T1, leaf_pte_land by ((by apply tramp_ok) || (by vm_compute)). by vm_compute.
  - by rewrite T3.
Qed.

(** Writing to the user changes the data pages alone. *)
Lemma written_off root l fl s va w m : uspace root l fl s -> written l va w (k_mem s) m -> forall q x, page_ok q -> q ∉ l.*1 -> in_page q x -> mget m x = mget (k_mem s) x.
Proof.
  intros Hus [_ Hw] q x Hq Hn Hx. apply Hw. intros i _ Hu. destruct (uaddr_inv root l fl s Hus _ _ _ Hu) as (pa & perm & Hl & Hp & _ & Hin).
  apply (page_ok_disjoint pa q x); [done|done| |done|done]. intros ->. apply Hn. unfold lookupZ in Hl. destruct (_ <? 0); [done|]. by eapply lookup_data.
Qed.

Lemma status_out root l tf fl s addr q : pspace root l tf fl s -> 0 <= addr < 2 ^ 64 ->
  exists r w rest m, (if addr =? 0 then ret 0 else copyout root addr (le_split 4 (p_xstate q))) s = Ok r (set_k_mem m s) /\ status_bytes addr q = w ++ rest /\
    written l addr w (k_mem s) m /\ kmem_inv fl (set_k_mem m s) /\ ((r = 0 /\ rest = []) \/ (r = -1 /\ rest <> [] /\ uaddr l (Z.lor PTE_U PTE_W) (addr + lenZ w) = None)).
Proof.
  intros Hpp Ha. unfold status_bytes. destruct (addr =? 0).
  - exists 0, [], [], (k_mem s). assert (Es : set_k_mem (k_mem s) s = s) by (by destruct s). rewrite Es. split; [done|]. split; [done|]. split; [|split; [apply Hpp|by left]].
    split; [|done]. intros i b Hi. apply lookupZ_Some_range in Hi. unfold lenZ in Hi. simpl in Hi. lia.
  - destruct (copyout_ok root l fl s addr (le_split 4 (p_xstate q)) (pp_space _ _ _ _ _ Hpp) (ptop_no_user _ _ _ (pp_top _ _ _ _ _ Hpp)) Ha (le_split_range _ _)) as (r & w & rest & m & E & Ew & Hw & Hus & _ & Hc).
    exists r, w, rest, m. split; [done|]. split; [done|]. split; [done|]. split; [apply Hus|done].
Qed.

Lemma pspace_set_proc root l tf fl ps s : pspace root l tf fl s -> pspace root l tf fl (set_k_proc ps s).
Proof. intros H. by apply (pspace_state _ _ _ _ s); [|apply H|..]. Qed.

Lemma ppages_set_proc root l tf ps s x : ppages root l tf (set_k_proc ps s) x -> ppages root l tf s x.
Proof. done. Qed.

(** ** The child *)

Section Reap.
Context (p : Z) (pr : proc) (lo : list (Z * Z)) (fl : list Z) (addr : Z) (s : kstate) (c : Z) (q : proc) (lc : list (Z * Z)).
Hypotheses (Hk : kthread p s) (Hp : lookupZ (k_proc s) p = Some pr) (Hpp : pspace (p_pagetable pr) lo (p_trapframe pr) fl s).
Hypotheses (Hz : zombie p s c q) (Hpc : pspace (p_pagetable q) lc (p_trapframe q) fl s) (Hsz : 0 <= p_sz q <= TRAPFRAME) (Hrd : PGROUNDUP (p_sz q) = lenZ lc * PGSIZE).
Hypothesis Hap : forall x, ppages (p_pagetable pr) lo (p_trapframe pr) s x -> ~ ppages (p_pagetable q) lc (p_trapframe q) s x.

Let t : kstate := acq (L_proc c) (acq L_wait s).

Lemma reap_ready : settled (acq L_wait s) /\ lock_free (L_proc c) (acq L_wait s) /\ lock_free L_wait s /\ kmem_ready t.
Proof.
  destruct (kthread_locks _ _ Hk) as [Hlen Hf]. pose proof (lookupZ_Some_range _ _ _ (proj1 Hz)) as Hr. pose proof (kthread_kmem _ _ Hk) as Hkm.
  split; [apply settled_acq, Hk|]. split; [apply lock_free_acq; [done|apply Hf; lia]|]. split; [apply Hk, (bool_decide_unpack _); by vm_compute|]. apply kmem_ready_acq; [by apply kmem_ready_acq|done].
Qed.

(** The scan at the child, up to the outcome of [copyout]. *)
Lemma reap_body r m b : (if addr =? 0 then ret 0 else copyout (p_pagetable pr) addr (le_split 4 (p_xstate q))) t = Ok r (set_k_mem m t) ->
  wait_body p addr (c, b) (acq L_wait s) =
    (if r <? 0 then release (L_proc c);; release L_wait;; ret (inr (inl (-1))) else freeproc c;; release (L_proc c);; release L_wait;; ret (inr (inl (p_pid q)))) (set_k_mem m t).
Proof.
  intros E. destruct Hz as (Hq & Hpar & Hst), reap_ready as (Hs & Hl & _). pose proof (lookupZ_Some_range _ _ _ Hq) as Hr. destruct (kthread_locks _ _ Hk) as [Hlen Hf]. unfold wait_body.
  destruct (Z.ltb_spec c NPROC); [|lia]. erewrite bind_ok by (apply run_get_proc; by autorewrite with acq). rewrite bool_decide_true by done. rewrite (bind_ok _ _ _ _ _ (acquire_ok _ _ Hs Hl)). fold t.
  erewrite bind_ok by (apply run_get_proc; exact Hq). rewrite bool_decide_true by done. erewrite bind_ok by (apply run_get_proc; exact Hp). by rewrite (bind_ok _ _ _ _ _ E).
Qed.

Lemma child_kept w m : written lo addr w (k_mem s) m -> kmem_inv fl (set_k_mem m t) -> pspace (p_pagetable q) lc (p_trapframe q) fl (set_k_mem m t).
Proof.
  intros Hw Hi. apply (pspace_ext _ _ _ fl s); [done|apply reap_ready|done| |].
  - intros x Hx Hpx. by destruct (ppages_ok _ _ _ _ _ _ Hpc Hpx).
  - intros x y Hx Hy. apply (written_off _ _ _ _ _ _ _ (pp_space _ _ _ _ _ Hpp) Hw x y); [apply (ppages_ok _ _ _ _ _ _ Hpc); by left| |done]. intros Hin. apply (Hap x); [right; by left|by left].
Qed.

(** The status cannot be delivered: the child stays. *)
Lemma reap_fails w m b : written lo addr w (k_mem s) m -> (if addr =? 0 then ret 0 else copyout (p_pagetable pr) addr (le_split 4 (p_xstate q))) t = Ok (-1) (set_k_mem m t) ->
  wait_body p addr (c, b) (acq L_wait s) = Ok (inr (inl (-1))) (set_k_mem m s).
Proof.
  intros Hw E. rewrite (reap_body _ _ _ E). destruct reap_ready as (Hs & Hl & Hlw & _). cbn [Z.ltb Z.compare]. unfold t. autorewrite with acq.
  erewrite bind_ok by (apply release_acq; [exact Hs|exact Hl]). by erewrite bind_ok by (apply release_acq; [apply Hk|exact Hlw]).
Qed.

(** The child is freed. *)
Lemma reap_frees w m : written lo addr w (k_mem s) m -> kmem_inv fl (set_k_mem m t) ->
  (if addr =? 0 then ret 0 else copyout (p_pagetable pr) addr (le_split 4 (p_xstate q))) t = Ok 0 (set_k_mem m t) ->
  exists m' f' fl', let s' := set_k_proc (insertZ c (freed q) (k_proc s)) (set_k_mem m' (set_k_freelist f' s)) in
    (forall b, wait_body p addr (c, b) (acq L_wait s) = Ok (inr (inl (p_pid q))) s') /\ pspace (p_pagetable pr) lo (p_trapframe pr) fl' s' /\
    (forall x, x ∈ fl' <-> x ∈ fl \/ ppages (p_pagetable q) lc (p_trapframe q) s x) /\ forall x, off_pages (fun y => y ∈ fl') x -> mget m' x = mget m x.
Proof.
  intros Hw Hi E. pose proof (child_kept w m Hw Hi) as Hpc'. destruct reap_ready as (Hs & Hl & Hlw & _).
  destruct (freeproc_ok c q lc fl (set_k_mem m t) (proj1 Hz) Hpc' Hsz Hrd) as (fl' & m' & f' & Ef & Hi' & Hfl & Hm). exists m', f', fl'.
  assert (Htab : forall x, is_table m (p_pagetable q) x <-> is_table (k_mem s) (p_pagetable q) x).
  { intros x. apply is_table_ext. intros y z Hy Hzz. apply (written_off _ _ _ _ _ _ _ (pp_space _ _ _ _ _ Hpp) Hw y z); [apply (ppages_ok _ _ _ _ _ _ Hpc); by left| |done]. intros Hin. apply (Hap y); [right; by left|by left]. }
  assert (Hfl' : forall x, x ∈ fl' <-> x ∈ fl \/ ppages (p_pagetable q) lc (p_trapframe q) s x).
  { intros x. rewrite Hfl. unfold space_pages, ppages. cbn [k_mem set_k_mem]. rewrite Htab. tauto. }
  assert (Hm' : forall x, off_pages (fun y => y ∈ fl') x -> mget m' x = mget m x) by (intros x Hx; apply Hm; eapply off_pages_iff; [|exact Hx]; intros y; by rewrite Hfl).
  split; [|split; [|by split]].
  - intros b. rewrite (reap_body _ _ _ E). cbn [Z.ltb Z.compare]. rewrite (bind_ok _ _ _ _ _ Ef). unfold t. autorewrite with acq.
    erewrite bind_ok by (apply release_acq; [exact Hs|exact Hl]). by erewrite bind_ok by (apply release_acq; [apply Hk|exact Hlw]).
  - assert (Hno : forall x, x ∈ fl' -> ~ ppages (p_pagetable pr) lo (p_trapframe pr) s x).
    { intros x Hx Hpx. apply Hfl' in Hx as [Hx|Hx]; [by destruct (ppages_ok _ _ _ _ _ _ Hpp Hpx)|by apply (Hap x)]. }
    apply (pspace_ext _ _ _ fl s); [done|exact (kthread_kmem _ _ Hk)|exact Hi'|done|]. intros x y Hx Hy. cbn [k_mem set_k_proc set_k_mem]. destruct (ppages_ok _ _ _ _ _ x Hpp ltac:(by left)) as [Hok _].
    rewrite Hm'; [apply (written_off _ _ _ _ _ _ _ (pp_space _ _ _ _ _ Hpp) Hw x y Hok); [|done]; intros Hin; by destruct (uspace_data_page _ _ _ _ _ (pp_space _ _ _ _ _ Hpp) Hin) as (_ & _ & ?)|].
    intros z Hzf. apply (page_ok_disjoint x z y); [done| |intros ->; apply (Hno z Hzf); by left|done]. apply Hfl' in Hzf as [Hzf|Hzf]; [by apply (pspace_free_ok _ _ _ _ _ _ Hpp)|apply (ppages_ok _ _ _ _ _ _ Hpc Hzf)].
Qed.
End Reap.

(** One turn of [wait] with the value of the scan. *)
Lemma wait_returns {PT : Patience} p addr s v s' : kthread p s -> loop (S (Z.to_nat NPROC)) (wait_body p addr) (0, false) (acq L_wait s) = Ok (inl v) s' -> wait addr s = Ok v s'.
Proof.
  intros Hk E. pose proof patience_pos as Hpat. unfold wait. erewrite bind_ok by (apply run_curproc; apply Hk). erewrite bind_ok by (apply acquire_ok; [apply Hk|apply Hk, (bool_decide_unpack _); by vm_compute]).
  destruct patience as [|n]; [lia|]. apply loop_stop. unfold wait_turn. by rewrite (bind_ok _ _ _ _ _ E).
Qed.

(** ** Property *)

(** C7: [wait] reaps a child.  With a child that has exited, the first one in the
    table is chosen.  If the caller may write its status at [addr], or [addr] is
    0, the status is stored, the identifier of the child is returned, the slot is
    free, and exactly the pages of the child (memory, page table and trapframe)
    have joined the free list; no other memory has changed and the caller's
    address space is intact.  Otherwise -1 is returned and the child stays;
    nothing but the memory of the caller at [addr] changes, where a first part
    of the status may have been written.  Without a child, or when the caller
    has been killed, -1 is returned and nothing changes; and with running
    children alone the caller sleeps on its own channel with [wait_lock] free. *)
Theorem wait_reaps {PT : Patience} p pr lo fl addr s : kthread p s -> lookupZ (k_proc s) p = Some pr -> pspace (p_pagetable pr) lo (p_trapframe pr) fl s -> 0 <= addr < 2 ^ 64 ->
  (forall c q lc, first_zombie p 0 s c q -> pspace (p_pagetable q) lc (p_trapframe q) fl s -> 0 <= p_sz q <= TRAPFRAME -> PGROUNDUP (p_sz q) = lenZ lc * PGSIZE ->
    (forall x, ppages (p_pagetable pr) lo (p_trapframe pr) s x -> ~ ppages (p_pagetable q) lc (p_trapframe q) s x) ->
    ((forall i, 0 <= i < lenZ (status_bytes addr q) -> uaddr lo (Z.lor PTE_U PTE_W) (addr + i) <> None) ->
      exists m m' f' fl', let s' := set_k_proc (insertZ c (freed q) (k_proc s)) (set_k_mem m' (set_k_freelist f' s)) in
        wait addr s = Ok (p_pid q) s' /\ written lo addr (status_bytes addr q) (k_mem s) m /\ pspace (p_pagetable pr) lo (p_trapframe pr) fl' s' /\
        (forall x, x ∈ fl' <-> x ∈ fl \/ ppages (p_pagetable q) lc (p_trapframe q) s x) /\ forall x, off_pages (fun y => y ∈ fl') x -> mget m' x = mget m x) /\
    (forall i, 0 <= i < lenZ (status_bytes addr q) -> uaddr lo (Z.lor PTE_U PTE_W) (addr + i) = None ->
      exists w m, wait addr s = Ok (-1) (set_k_mem m s) /\ w `prefix_of` status_bytes addr q /\ written lo addr w (k_mem s) m)) /\
  ((forall c q, ~ zombie p s c q) -> (~ has_child p 0 s \/ p_killed pr = 1) -> wait addr s = Ok (-1) s) /\
  (forall en, (forall c q, ~ zombie p s c q) -> has_child p 0 s -> p_killed pr = 0 -> outside en s ->
    exists s1 k pr1, wait addr s = Swtch s1 k /\ lock_free L_wait s1 /\ lookupZ (k_proc s1) p = Some pr1 /\ p_state pr1 = SLEEPING /\ p_chan pr1 = Some (C_proc p)).
Proof.
  intros Hk Hp Hpp Ha. assert (Hlw : lock_free L_wait s) by (apply Hk, (bool_decide_unpack _); by vm_compute). pose proof (lookupZ_Some_range _ _ _ Hp) as Hrp. pose proof patience_pos as Hpat.
  assert (Hw : forall A (k : Z -> M A), (p <- curproc;; acquire L_wait;; k p) s = k p (acq L_wait s)) by (intros A k; erewrite bind_ok by (apply run_curproc; apply Hk); by erewrite bind_ok by (apply acquire_ok; [apply Hk|done])).
  assert (Hscan := wait_scan p addr s (Z.to_nat NPROC) Hk 0 false (S (Z.to_nat NPROC)) ltac:(lia) eq_refl ltac:(lia)).
  split; [|split].
  - intros c q lc Hz Hpc Hsz Hrd Hap. destruct Hscan as [(c' & q' & Hz' & Hl)|[Hno _]]; [|by destruct (Hno c q (proj1 Hz) (proj1 (proj2 Hz)))].
    assert (c' = c /\ q' = q) as [-> ->].
    { destruct Hz as (H1 & H2 & H3), Hz' as (H1' & H2' & H3'). assert (c' = c) as ->; [|by destruct H2 as (? & _), H2' as (? & _); simplify_eq]. destruct (Z.lt_trichotomy c c') as [?|[?|?]]; [by destruct (H3' c q ltac:(lia))|done|by destruct (H3 c' q' ltac:(lia))]. }
    pose proof (proj1 (proj2 Hz)) as Hzc. destruct (reap_ready p s c q Hk Hzc) as (_ & _ & _ & Hr).
    destruct (status_out (p_pagetable pr) lo (p_trapframe pr) fl (acq (L_proc c) (acq L_wait s)) addr q) as (r & w & rest & m & E & Ew & Hwr & Hi & Hc); [by apply (pspace_state _ _ _ _ s)|done|]. rewrite Ew, lenZ_app. split.
    + intros Hall. destruct Hc as [[-> ->]|(-> & Hne & Hnone)]; [|destruct (Hall (lenZ w)); [|done]; destruct rest; [done|rewrite lenZ_cons; pose proof (lenZ_nonneg w); pose proof (lenZ_nonneg rest); lia]].
      destruct (reap_frees p pr lo fl addr s c q lc Hk Hp Hpp Hzc Hpc Hsz Hrd Hap w m Hwr Hi E) as (m' & f' & fl' & Eb & Hpp' & Hfl & Hm). exists m, m', f', fl'. rewrite app_nil_r.
      split; [|by split]. apply (wait_returns p); [done|]. by apply Hl.
    + intros i Hi' Hnone. destruct Hc as [[-> ->]|(-> & Hne & _)].
      * change (lenZ (@nil Z)) with 0 in Hi'. destruct (lookupZ_is_Some w i) as [b Hb]; [lia|]. destruct (proj1 Hwr i b Hb) as (x & Hx & _). by rewrite Hnone in Hx.
      * exists w, m. split; [|split; [by exists rest|done]]. apply (wait_returns p); [done|]. apply Hl. intros b. by apply (reap_fails p pr lo addr s c q Hk Hp Hzc w).
  - intros Hno Hor. destruct Hscan as [(c & q & Hz & _)|(_ & b & El & Hb)]; [by destruct (Hno c q (proj1 (proj2 Hz)))|]. unfold wait. rewrite Hw. destruct patience as [|n]; [lia|]. apply loop_stop. unfold wait_turn. rewrite (bind_ok _ _ _ _ _ El).
    rewrite (bind_ok _ _ _ 1 (acq L_wait s)). { cbn [truth Z.eqb negb]. by erewrite bind_ok by (apply release_acq; [apply Hk|done]). }
    destruct b; [|done]. destruct Hor as [Hn|Hkd]; [destruct (proj1 Hb eq_refl); [done|done]|]. erewrite killed_acq by done. by rewrite Hkd.
  - intros en Hno Hch Hkd Hout. destruct Hscan as [(c & q & Hz & _)|(_ & b & El & Hb)]; [by destruct (Hno c q (proj1 (proj2 Hz)))|]. assert (b = true) as -> by (apply Hb; by right).
    unfold wait. rewrite Hw. destruct patience as [|n]; [lia|]. eexists _, _, (asleep (C_proc p) pr). split; [|split; [|split; [|done]]].
    + cbn [loop]. apply bind_swtch. unfold wait_turn at 1. rewrite (bind_ok _ _ _ _ _ El). cbv beta iota. erewrite bind_ok by (by apply (killed_acq _ _ pr)). rewrite Hkd. cbn [truth Z.eqb negb]. apply bind_swtch. apply (sleep_ok en _ _ s p pr); try done; [apply Hk|by eapply kthread_proc_free].
    + by apply lock_free_acq.
    + simpl. by apply lookupZ_insertZ_eq.
Qed.
End Wait.

(** The caller of [fork] in the witness there, with its child that has exited. *)
Lemma demo_reaper : exists pr lo fl s q lc, kthread 5 s /\ lookupZ (k_proc s) 5 = Some pr /\ pspace (p_pagetable pr) lo (p_trapframe pr) fl s /\ first_zombie 5 0 s 0 q /\ p_pid q = 1 /\
  pspace (p_pagetable q) lc (p_trapframe q) fl s /\ 0 <= p_sz q <= TRAPFRAME /\ PGROUNDUP (p_sz q) = lenZ lc * PGSIZE /\
  forall x, ppages (p_pagetable pr) lo (p_trapframe pr) s x -> ~ ppages (p_pagetable q) lc (p_trapframe q) s x.
Proof.
  destruct demo_caller as (root & tf & m & f & fl & lo & Hca & Hl & Hn). pose proof (ca_space _ _ _ _ _ _ _ Hca) as Hpo.
  destruct (@fork_ok _ demo_kernel _ _ _ _ _ _ _ Hca) as (r & s' & fl' & _ & Hpp & _ & Hm & [[-> Hf]|(_ & _ & [[_ Hno]|[Hle _]])]).
  { apply (slots_clear_insert _ _ 5 (demo_forker root tf) (demo_slots m f)); [done|done|discriminate]. }
  2: { by destruct (Hno 0 zero_proc eq_refl). }
  2: { exfalso. lia. }
  destruct Hf as (np & npr & tfc & rc & ln & m' & f' & ft & (Hnp & _ & Hfirst) & _ & -> & Hpc & Hln & _ & _ & Hpages).
  assert (np = 0) as ->. { pose proof (lookupZ_Some_range _ _ _ Hnp). destruct (decide (np = 0)); [done|]. by destruct (Hfirst 0 zero_proc ltac:(lia) eq_refl). }
  match type of Hpc with pspace _ _ _ _ ?st => set (s' := st) in * end.
  set (q := set_p_state ZOMBIE (child (KT := demo_kernel) 5 (demo_forker root tf) npr 1 tfc rc)). set (s := set_k_proc (insertZ 0 q (k_proc s')) s').
  assert (Hk : kthread 5 s) by (apply (kthread_ext 5 demo_sched); try reflexivity; exact demo_thread).
  exists (demo_forker root tf), lo, fl', s, q, ln. split; [exact Hk|]. split; [reflexivity|].
  pose proof (pspace_set_proc _ _ _ _ (insertZ 0 q (k_proc s')) s' Hpp) as Hpp'. pose proof (pspace_set_proc _ _ _ _ (insertZ 0 q (k_proc s')) s' Hpc) as Hpc'. split; [exact Hpp'|].
  split; [split; [lia|split; [split; [reflexivity|split; reflexivity]|intros; lia]]|]. split; [reflexivity|]. split; [exact Hpc'|]. split; [cbn; lz|]. split.
  { pose proof (ca_round _ _ _ _ _ _ _ Hca) as E. unfold lenZ in *. rewrite Hln. exact E. }
  intros x Hx%ppages_set_proc Hc%ppages_set_proc. destruct (ppages_ok _ _ _ _ _ x Hpo) as [_ Hnf].
  - destruct Hx as [Hx|Hx]; [left|by right]. apply (is_table_ext _ (k_mem s')); [|exact Hx]. intros y z Hy Hz. apply Hm. apply (pspace_off _ _ _ _ _ y z Hpo); [by left|done].
  - apply Hnf, Hpages. unfold space_pages. destruct Hc as [Hc|[Hc| ->]]; [right; by left|right; right; by left|by left].
Qed.

Lemma wait_reaps_witness : exists s s', @wait _ demo_patience 0 s = Ok 1 s'.
Proof.
  destruct demo_reaper as (pr & lo & fl & s & q & lc & Hk & Hp & Hpp & Hz & Hpid & Hpc & Hsz & Hrd & Hap).
  destruct (@wait_reaps _ demo_patience 5 pr lo fl 0 s Hk Hp Hpp ltac:(lia)) as [H _]. destruct (H 0 q lc Hz Hpc Hsz Hrd Hap) as [H1 _].
  destruct H1 as (m & m' & f' & fl' & E & _); [intros i Hi; exfalso; change (lenZ (status_bytes 0 q)) with 0 in Hi; lia|]. rewrite Hpid in E. eexists s, _. exact E.
Defined.
