(* ===== verification/Syscall.v ===== *)
(** * System call arguments ([kernel/syscall.c]) *)

From S2P Require Import Prelude Riscv State Spinlock Str Kalloc Copy Sched UserMem Csr Proc.

(** ** Definitions *)

Section Fetch.
Context {KI : KernelImage}.

(** The value fetched, or [None] for -1. *)
Definition fetchaddr (addr : Z) : M (option Z) :=
  p <- curproc;;
  pr <- get_proc p;;
  if (p_sz pr <=? addr) || (p_sz pr <? u64 (addr + 8)) then ret None else
  r <- copyin (p_pagetable pr) addr 8;;
  if negb (fst r =? 0) then ret None else ret (Some (le_combine (snd r))).

(** The length of the string and what has been stored in [buf]. *)
Definition fetchstr (addr max : Z) : M (Z * list Z) :=
  p <- curproc;;
  pr <- get_proc p;;
  r <- copyinstr (p_pagetable pr) addr max;;
  if fst r <? 0 then ret (-1, snd r) else
  n <- deref (strlen (S (length (snd r))) (str_of (snd r)));;
  ret (n, snd r).

Definition argraw (n : Z) : M Z :=
  p <- curproc;;
  if (0 <=? n) && (n <=? 5) then get_tf p (TF_a0 + 8 * n) else panic "argraw".

Definition argint (n : Z) : M Z := v <- argraw n;; ret (i32 v).
Definition argaddr (n : Z) : M Z := argraw n.

Definition argstr (n max : Z) : M (Z * list Z) :=
  addr <- argaddr n;;
  fetchstr addr max.

End Fetch.

(** *** System call numbers ([syscall.h]) *)

Definition SYS_fork : Z := 1.
Definition SYS_exit : Z := 2.
Definition SYS_wait : Z := 3.
Definition SYS_pipe : Z := 4.
Definition SYS_read : Z := 5.
Definition SYS_kill : Z := 6.
Definition SYS_exec : Z := 7.
Definition SYS_fstat : Z := 8.
Definition SYS_chdir : Z := 9.
Definition SYS_dup : Z := 10.
Definition SYS_getpid : Z := 11.
Definition SYS_sbrk : Z := 12.
Definition SYS_sleep : Z := 13.
Definition SYS_uptime : Z := 14.
Definition SYS_open : Z := 15.
Definition SYS_write : Z := 16.
Definition SYS_mknod : Z := 17.
Definition SYS_unlink : Z := 18.
Definition SYS_link : Z := 19.
Definition SYS_mkdir : Z := 20.
Definition SYS_close : Z := 21.

(** ** The theorems *)

Section Properties.
Context {KI : KernelImage}.

Lemma strlen_c_string t : Forall (fun b => b <> 0) t -> strlen (S (length (t ++ [0]))) (str_of (t ++ [0])) = Some (lenZ t).
Proof.
  intros Ht. apply strlen_spec; [|rewrite length_app; unfold lenZ; lia]. pose proof (lenZ_nonneg t).
  split; [done|]. unfold str_of. split.
  - rewrite lookupZ_app. destruct (Z.ltb_spec (lenZ t) (lenZ t)); [lia|]. by rewrite Z.sub_diag.
  - intros i Hi. rewrite lookupZ_app. destruct (Z.ltb_spec i (lenZ t)); [|lia].
    destruct (lookupZ_is_Some t i Hi) as [b Hb]. rewrite Hb. simpl. apply lookupZ_elem in Hb.
    rewrite Forall_forall in Ht. by apply Ht.
Qed.

(** arguments are fetched from the memory of the process and nowhere
    else.  For any 64-bit address, those near the top of the address space
    included, [fetchaddr] gives the 8 bytes there as a little-endian number
    exactly when they lie below [sz] and the user may read them, and fails
    otherwise; [fetchstr] gives a string of the user with its length, not
    counting the NUL, when a NUL is found among the first [max] bytes and all
    before it are readable, and -1 otherwise.  Neither changes the state. *)
Theorem user_arguments_fetched p pr l s addr max :
  kthread p s -> lookupZ (k_proc s) p = Some pr -> umem (p_pagetable pr) l s ->
  0 <= addr < 2 ^ 64 -> 0 <= p_sz pr <= MAXVA -> 0 <= max ->
  (exists o, fetchaddr addr s = Ok o s /\
    match o with
    | Some v => addr + 8 <= p_sz pr /\ exists bs, lenZ bs = 8 /\ user_bytes l (k_mem s) addr bs /\ v = le_combine bs
    | None => p_sz pr < addr + 8 \/ exists i, 0 <= i < 8 /\ uaddr l PTE_U (addr + i) = None
    end) /\
  (exists r bs, fetchstr addr max s = Ok (r, bs) s /\ user_bytes l (k_mem s) addr bs /\ lenZ bs <= max /\
    ((exists t, bs = t ++ [0] /\ Forall (fun b => b <> 0) t /\ r = lenZ t) \/
     (r = -1 /\ Forall (fun b => b <> 0) bs /\ (lenZ bs = max \/ uaddr l PTE_U (addr + lenZ bs) = None)))).
Proof.
  intros Hk Hpr [[fl Hus] Htop] Ha Hsz Hmax.
  assert (Hcur : curproc s = Ok p s) by (apply run_curproc; apply Hk). split.
  - unfold fetchaddr. erewrite bind_ok by exact Hcur. erewrite bind_ok by (by apply run_get_proc).
    destruct (Z.leb_spec (p_sz pr) addr); cbn [orb]; [exists None; split; [done|]; left; lia|].
    destruct (Z.ltb_spec (p_sz pr) (u64 (addr + 8))) as [Hlt|Hge].
    { exists None. split; [done|]. left. pose proof (Z.mod_le (addr + 8) (2 ^ 64)). unfold u64 in Hlt. lia. }
    assert (MAXVA < 2 ^ 63) by reflexivity. rewrite u64_small in Hge by lia.
    destruct (copyin_ok _ l fl s Hus Htop addr 8 Ha ltac:(lia)) as (c & bs & HE & Hub & [[-> Hl]|(-> & i & Hi & Hn)]).
    + exists (Some (le_combine bs)). erewrite bind_ok by exact HE. split; [done|]. split; [done|]. by exists bs.
    + exists None. erewrite bind_ok by exact HE. split; [done|]. right. by exists i.
  - unfold fetchstr. erewrite bind_ok by exact Hcur. erewrite bind_ok by (by apply run_get_proc).
    destruct (copyinstr_ok _ l fl s Hus Htop addr max Ha Hmax) as (c & bs & HE & Hub & Hl & [[-> (t & -> & Ht)]|(-> & Hn & Hend)]).
    + exists (lenZ t), (t ++ [0]). erewrite bind_ok by exact HE. cbn [fst snd Z.ltb Z.compare].
      erewrite bind_ok by (apply deref_ok, strlen_c_string, Ht). split; [done|]. split; [done|]. split; [done|]. left. by exists t.
    + exists (-1), bs. erewrite bind_ok by exact HE. split; [done|]. split; [done|]. split; [done|]. by right.
Qed.

End Properties.

Lemma user_arguments_fetched_witness : exists s o r bs, fetchaddr 0 s = Ok o s /\ fetchstr 4096 128 s = Ok (r, bs) s.
Proof.
  destruct demo_user_thread as (pt & m & fl & l & Hk & Ho & Hpr & Hu & Hmap). cbv zeta in *.
  destruct (user_arguments_fetched 5 (set_p_pagetable pt zero_proc) l (demo_user_state pt m fl) 0 128 Hk Hpr Hu) as [(o & Ho' & _) _];
    [lia|by compute|lia|].
  destruct (user_arguments_fetched 5 (set_p_pagetable pt zero_proc) l (demo_user_state pt m fl) 4096 128 Hk Hpr Hu) as [_ (r & bs & Hs & _)];
    [lia|by compute|lia|].
  eexists _, o, r, bs. split; [exact Ho'|exact Hs].
Defined.
