(* ===== verification/Exec.v ===== *)
(** * [exec] ([kernel/exec.c]) *)

From S2P Require Import Prelude Riscv State Spinlock Str Kalloc Vm Uvm UvmCopy UvmFree Copy Sched.
From S2P Require Import Sleeplock Csr Uart Printf Console FsLayout Bio Log Fs File Proc Syscall.

(** ** Definitions *)

(** *** The ELF headers ([kernel/elf.h]) *)

Definition ELF_MAGIC : Z := 0x464C457F.
Definition ELF_PROG_LOAD : Z := 1.

Definition get_u64 (d : list Z) (off : Z) : Z := le_combine (get_bytes d off 8).

(** The fields of [struct elfhdr] that are used. *)
Record elfhdr := mkElfhdr {
  elf_magic : Z;
  elf_entry : Z;
  elf_phoff : Z;
  elf_phnum : Z;
}.
Definition sizeof_elfhdr : Z := 64.
Definition elfhdr_of (d : list Z) : elfhdr :=
  mkElfhdr (get_u32 d 0) (get_u64 d 24) (get_u64 d 32) (get_u16 d 56).

(** The fields of [struct proghdr] that are used. *)
Record proghdr := mkProghdr {
  ph_type : Z;
  ph_flags : Z;
  ph_off : Z;
  ph_vaddr : Z;
  ph_filesz : Z;
  ph_memsz : Z;
}.
Definition sizeof_proghdr : Z := 56.
Definition proghdr_of (d : list Z) : proghdr :=
  mkProghdr (get_u32 d 0) (get_u32 d 4) (get_u64 d 8) (get_u64 d 16) (get_u64 d 32) (get_u64 d 40).

Definition flags2perm (flags : Z) : Z :=
  let perm := if truth (Z.land flags 1) then PTE_X else 0 in
  if truth (Z.land flags 2) then Z.lor perm PTE_W else perm.

(** The program name: what follows the last slash. *)
Fixpoint last_elem (last s : list Z) : list Z :=
  match s with
  | [] => last
  | c :: s' => last_elem (if c =? SLASH then s' else last) s'
  end.

Section Exec.
Context {KI : KernelImage} {KT : KernelText} {IO : Mmio} {PT : Patience} {DD : DiskDriver}.

(** One turn of the loop of [loadseg]: [readi] reads into the page at [pa]. *)
Definition loadseg_body (pagetable va ip offset sz i : Z) : M (Z + Z) :=
  if i <? sz then
    pa <- walkaddr pagetable (u64 (va + i));;
    if pa =? 0 then panic "loadseg: address should exist" else
    let n := if sz - i <? PGSIZE then sz - i else PGSIZE in
    r <- readi ip 0 pa (u32 (offset + i)) n;;
    modify (fun s => set_k_mem (store_bytes (k_mem s) pa (snd r)) s);;
    if negb (fst r =? n) then ret (inr (-1)) else ret (inl (u32 (i + PGSIZE)))
  else ret (inr 0).

Definition loadseg (pagetable va ip offset sz : Z) : M Z :=
  loop (2 + Z.to_nat (sz / PGSIZE)) (loadseg_body pagetable va ip offset sz) 0.

(** One turn of the loop over the program headers, with [i], [off] and [sz]:
    [inr (true, sz)] at the end, [inr (false, sz)] for [goto bad]. *)
Definition exec_seg (pagetable ip phnum : Z) (st : Z * Z * Z) : M (Z * Z * Z + bool * Z) :=
  let '(i, off, sz) := st in
  if i <? phnum then
    r <- readi ip 0 0 (u32 off) sizeof_proghdr;;
    if negb (fst r =? sizeof_proghdr) then ret (inr (false, sz)) else
    let ph := proghdr_of (snd r) in
    let next sz := ret (inl (i + 1, i32 (off + sizeof_proghdr), sz)) in
    if negb (ph_type ph =? ELF_PROG_LOAD) then next sz else
    if ph_memsz ph <? ph_filesz ph then ret (inr (false, sz)) else
    if u64 (ph_vaddr ph + ph_memsz ph) <? ph_vaddr ph then ret (inr (false, sz)) else
    if negb (ph_vaddr ph mod PGSIZE =? 0) then ret (inr (false, sz)) else
    sz1 <- uvmalloc pagetable sz (u64 (ph_vaddr ph + ph_memsz ph)) (flags2perm (ph_flags ph));;
    if sz1 =? 0 then ret (inr (false, sz)) else
    r <- loadseg pagetable (ph_vaddr ph) ip (u32 (ph_off ph)) (u32 (ph_filesz ph));;
    if r <? 0 then ret (inr (false, sz1)) else next sz1
  else ret (inr (true, sz)).

(** Push the argument strings: the stack pointer and [ustack], or [None]. *)
Fixpoint push_args (pagetable stackbase : Z) (argv : list (list Z)) (sp : Z) (ustack : list Z)
    : M (option (Z * list Z)) :=
  match argv with
  | [] => ret (Some (sp, ustack))
  | a :: argv' =>
      if MAXARG <=? lenZ ustack then ret None else
      let sp := u64 (sp - (lenZ a + 1)) in
      let sp := sp - sp mod 16 in
      if sp <? stackbase then ret None else
      r <- copyout pagetable sp (a ++ [0]);;
      if r <? 0 then ret None else
      push_args pagetable stackbase argv' sp (ustack ++ [sp])
  end.

(** [bad:] of [exec]. *)
Definition exec_bad (pagetable sz : Z) (ip : option Z) : M Z :=
  when (negb (pagetable =? 0)) (proc_freepagetable pagetable sz);;
  match ip with
  | Some ip => iunlockput ip;; end_op
  | None => ret tt
  end;;
  ret (-1).

(** The second half of [exec]: the stack and the new image. *)
Definition exec_stack (path : list Z) (argv : list (list Z)) (entry pagetable sz : Z) : M Z :=
  p <- curproc;;
  pr <- get_proc p;;
  let oldsz := p_sz pr in
  let sz := PGROUNDUP sz in
  sz1 <- uvmalloc pagetable sz (u64 (sz + (USERSTACK + 1) * PGSIZE)) PTE_W;;
  if sz1 =? 0 then exec_bad pagetable sz None else
  let sz := sz1 in
  uvmclear pagetable (u64 (sz - (USERSTACK + 1) * PGSIZE));;
  let sp := sz in
  let stackbase := u64 (sp - USERSTACK * PGSIZE) in
  r <- push_args pagetable stackbase argv sp [];;
  match r with
  | None => exec_bad pagetable sz None
  | Some (sp, ustack) =>
      let argc := lenZ ustack in
      if MAXARG <=? argc then ub "ustack" else
      let sp := u64 (sp - (argc + 1) * 8) in
      let sp := sp - sp mod 16 in
      if sp <? stackbase then exec_bad pagetable sz None else
      r <- copyout pagetable sp (concat (le_split 8 <$> (ustack ++ [0])));;
      if r <? 0 then exec_bad pagetable sz None else
      put_tf p TF_a1 sp;;
      put_name p (str_of (last_elem path path));;
      pr <- get_proc p;;
      let oldpagetable := p_pagetable pr in
      put_proc p (set_p_sz sz (set_p_pagetable pagetable pr));;
      put_tf p TF_epc entry;;
      put_tf p TF_sp sp;;
      proc_freepagetable oldpagetable oldsz;;
      ret argc
  end.

Definition exec (path : list Z) (argv : list (list Z)) : M Z :=
  p <- curproc;;
  begin_op;;
  r <- namei path;;
  match r with
  | None => end_op;; ret (-1)
  | Some ip =>
      ilock ip;;
      r <- readi ip 0 0 0 sizeof_elfhdr;;
      if negb (fst r =? sizeof_elfhdr) then exec_bad 0 0 (Some ip) else
      let elf := elfhdr_of (snd r) in
      if negb (elf_magic elf =? ELF_MAGIC) then exec_bad 0 0 (Some ip) else
      pagetable <- proc_pagetable p;;
      if pagetable =? 0 then exec_bad 0 0 (Some ip) else
      r <- loop (S (Z.to_nat (elf_phnum elf))) (exec_seg pagetable ip (elf_phnum elf))
             (0, i32 (elf_phoff elf), 0);;
      let '(ok, sz) := r in
      if negb ok then exec_bad pagetable sz (Some ip) else
      iunlockput ip;;
      end_op;;
      exec_stack path argv (elf_entry elf) pagetable sz
  end.

End Exec.
