(* ===== verification/Sysfile.v ===== *)
(** * File system calls ([kernel/sysfile.c])

    A system call returns the 64-bit value that [syscall] stores in [a0]; -1 is
    written as such and wrapped by [syscall]. *)

From S2P Require Import Prelude Riscv State Spinlock Str Kalloc Copy Sched Sleeplock Csr Uart Printf.
From S2P Require Import Pipe Console FsLayout Bio Log Fs File Proc Syscall Exec.

(** ** Definitions *)

(** *** [fcntl.h] *)

Definition O_RDONLY : Z := 0x000.
Definition O_WRONLY : Z := 0x001.
Definition O_RDWR : Z := 0x002.
Definition O_CREATE : Z := 0x200.
Definition O_TRUNC : Z := 0x400.

(** *** File descriptors *)

(** [*pfd] and [*pf], or [None] for -1. *)
Definition argfd (n : Z) : M (option (Z * Z)) :=
  fd <- argint n;;
  if (fd <? 0) || (NOFILE <=? fd) then ret None else
  p <- curproc;;
  pr <- get_proc p;;
  o <- deref (lookupZ (p_ofile pr) fd);;
  ret (match o with None => None | Some f => Some (fd, f) end).

Definition put_ofile (p fd : Z) (f : option Z) : M unit :=
  pr <- get_proc p;;
  put_proc p (set_p_ofile (insertZ fd f (p_ofile pr)) pr).

Definition fdalloc_body (p f fd : Z) : M (option Z) :=
  pr <- get_proc p;;
  o <- deref (lookupZ (p_ofile pr) fd);;
  match o with
  | None => put_ofile p fd (Some f);; ret (Some fd)
  | Some _ => ret None
  end.

Definition fdalloc (f : Z) : M Z :=
  p <- curproc;;
  r <- for_loop (Z.to_nat NOFILE) 0 (fdalloc_body p f);;
  ret (default (-1) r).

Definition sys_dup : M Z :=
  r <- argfd 0;;
  match r with
  | None => ret (-1)
  | Some (_, f) =>
      fd <- fdalloc f;;
      if fd <? 0 then ret (-1) else
      filedup f;;
      ret fd
  end.

Section Sysfile.
Context {KI : KernelImage} {KT : KernelText} {IO : Mmio} {PT : Patience} {DD : DiskDriver}.

Definition sys_read : M Z :=
  a <- argaddr 1;;
  n <- argint 2;;
  r <- argfd 0;;
  match r with
  | None => ret (-1)
  | Some (_, f) => fileread f a n
  end.

Definition sys_write : M Z :=
  a <- argaddr 1;;
  n <- argint 2;;
  r <- argfd 0;;
  match r with
  | None => ret (-1)
  | Some (_, f) => filewrite f a n
  end.

Definition sys_close : M Z :=
  r <- argfd 0;;
  match r with
  | None => ret (-1)
  | Some (fd, f) =>
      p <- curproc;;
      put_ofile p fd None;;
      fileclose f;;
      ret 0
  end.

Definition sys_fstat {SB : StackBytes} : M Z :=
  st <- argaddr 1;;
  r <- argfd 0;;
  match r with
  | None => ret (-1)
  | Some (_, f) => filestat f st
  end.

(** [ip->nlink += d] *)
Definition add_nlink (ip d : Z) : M unit :=
  i <- get_inode ip;; put_inode ip (set_i_nlink (i16 (i_nlink i + d)) i).

(** The string argument [n], or [None] when [argstr] is negative. *)
Definition path_arg (n : Z) : M (option (list Z)) :=
  r <- argstr n MAXPATH;;
  ret (if fst r <? 0 then None else Some (cstr (snd r))).

(** [bad:] of [sys_link]. *)
Definition link_bad (ip : Z) : M Z :=
  ilock ip;;
  add_nlink ip (-1);;
  iupdate ip;;
  iunlockput ip;;
  end_op;;
  ret (-1).

Definition sys_link : M Z :=
  old <- path_arg 0;;
  match old with
  | None => ret (-1)
  | Some old =>
  new <- path_arg 1;;
  match new with
  | None => ret (-1)
  | Some new =>
  begin_op;;
  r <- namei old;;
  match r with
  | None => end_op;; ret (-1)
  | Some ip =>
      ilock ip;;
      i <- get_inode ip;;
      if i_type i =? T_DIR then
        iunlockput ip;;
        end_op;;
        ret (-1)
      else
        add_nlink ip 1;;
        iupdate ip;;
        iunlock ip;;
        r <- nameiparent new;;
        match r with
        | None => link_bad ip
        | Some (dp, name) =>
            ilock dp;;
            d <- get_inode dp;;
            i <- get_inode ip;;
            l <- (if negb (i_dev d =? i_dev i) then ret (-1) else dirlink dp name (i_inum i));;
            if l <? 0 then
              iunlockput dp;;
              link_bad ip
            else
              iunlockput dp;;
              iput ip;;
              end_op;;
              ret 0
        end
  end
  end
  end.

(** One turn of the loop of [isdirempty]. *)
Definition isdirempty_body (dp off : Z) : M (Z + Z) :=
  i <- get_inode dp;;
  if off <? i_size i then
    de <- read_dirent dp off "isdirempty: readi";;
    if negb (de_inum de =? 0) then ret (inr 0) else ret (inl (off + sizeof_dirent))
  else ret (inr 1).

Definition isdirempty (dp : Z) : M Z :=
  i <- get_inode dp;;
  loop (dir_fuel (i_size i)) (isdirempty_body dp) (2 * sizeof_dirent).

(** [bad:] of [sys_unlink]. *)
Definition unlink_bad (dp : Z) : M Z :=
  iunlockput dp;;
  end_op;;
  ret (-1).

Definition sys_unlink : M Z :=
  path <- path_arg 0;;
  match path with
  | None => ret (-1)
  | Some path =>
  begin_op;;
  r <- nameiparent path;;
  match r with
  | None => end_op;; ret (-1)
  | Some (dp, name) =>
      ilock dp;;
      if (namecmp name (chars ".") =? 0) || (namecmp name (chars "..") =? 0) then unlink_bad dp else
      r <- dirlookup dp name;;
      match r with
      | None => unlink_bad dp
      | Some (ip, off) =>
          ilock ip;;
          i <- get_inode ip;;
          if i_nlink i <? 1 then panic "unlink: nlink < 1" else
          e <- (if i_type i =? T_DIR then isdirempty ip else ret 1);;
          if negb (truth e) then
            iunlockput ip;;
            unlink_bad dp
          else
            w <- writei dp 0 0 (replicate (Z.to_nat sizeof_dirent) 0) off sizeof_dirent;;
            if negb (w =? sizeof_dirent) then panic "unlink: writei" else
            i <- get_inode ip;;
            when (i_type i =? T_DIR)
              (add_nlink dp (-1);;
               iupdate dp);;
            iunlockput dp;;
            add_nlink ip (-1);;
            iupdate ip;;
            iunlockput ip;;
            end_op;;
            ret 0
      end
  end
  end.

(** [fail:] of [create]. *)
Definition create_fail (ip dp : Z) : M (option Z) :=
  i <- get_inode ip;;
  put_inode ip (set_i_nlink 0 i);;
  iupdate ip;;
  iunlockput ip;;
  iunlockput dp;;
  ret None.

(** The new inode, locked, or null. *)
Definition create (path : list Z) (type major minor : Z) : M (option Z) :=
  r <- nameiparent path;;
  match r with
  | None => ret None
  | Some (dp, name) =>
      ilock dp;;
      r <- dirlookup dp name;;
      match r with
      | Some (ip, _) =>
          iunlockput dp;;
          ilock ip;;
          i <- get_inode ip;;
          if (type =? T_FILE) && ((i_type i =? T_FILE) || (i_type i =? T_DEVICE)) then ret (Some ip) else
          iunlockput ip;;
          ret None
      | None =>
          d <- get_inode dp;;
          r <- ialloc (i_dev d) type;;
          match r with
          | None => iunlockput dp;; ret None
          | Some ip =>
              ilock ip;;
              i <- get_inode ip;;
              put_inode ip (set_i_nlink 1 (set_i_minor minor (set_i_major major i)));;
              iupdate ip;;
              i <- get_inode ip;;
              d <- get_inode dp;;
              bad <- (if type =? T_DIR then
                        l <- dirlink ip (chars ".") (i_inum i);;
                        if l <? 0 then ret true else
                        l <- dirlink ip (chars "..") (i_inum d);;
                        ret (l <? 0)
                      else ret false);;
              if (bad : bool) then create_fail ip dp else
              l <- dirlink dp name (i_inum i);;
              if l <? 0 then create_fail ip dp else
              when (type =? T_DIR)
                (add_nlink dp 1;;
                 iupdate dp);;
              iunlockput dp;;
              ret (Some ip)
          end
      end
  end.

(** The inode [sys_open] opens, locked, or null after an [end_op]. *)
Definition open_inode (path : list Z) (omode : Z) : M (option Z) :=
  if truth (Z.land omode O_CREATE) then
    r <- create path T_FILE 0 0;;
    match r with
    | None => end_op;; ret None
    | Some ip => ret (Some ip)
    end
  else
    r <- namei path;;
    match r with
    | None => end_op;; ret None
    | Some ip =>
        ilock ip;;
        i <- get_inode ip;;
        if (i_type i =? T_DIR) && negb (omode =? O_RDONLY) then
          iunlockput ip;;
          end_op;;
          ret None
        else ret (Some ip)
    end.

Definition sys_open : M Z :=
  omode <- argint 1;;
  path <- path_arg 0;;
  match path with
  | None => ret (-1)
  | Some path =>
  begin_op;;
  r <- open_inode path omode;;
  match r with
  | None => ret (-1)
  | Some ip =>
      i <- get_inode ip;;
      if (i_type i =? T_DEVICE) && ((i_major i <? 0) || (NDEV <=? i_major i)) then
        iunlockput ip;;
        end_op;;
        ret (-1)
      else
        f <- filealloc;;
        fd <- match f with Some f => fdalloc f | None => ret (-1) end;;
        match f with
        | None =>
            iunlockput ip;;
            end_op;;
            ret (-1)
        | Some f =>
            if fd <? 0 then
              fileclose f;;
              iunlockput ip;;
              end_op;;
              ret (-1)
            else
              i <- get_inode ip;;
              x <- get_file f;;
              put_file f (if i_type i =? T_DEVICE
                          then set_f_major (i_major i) (set_f_type FD_DEVICE x)
                          else set_f_off 0 (set_f_type FD_INODE x));;
              x <- get_file f;;
              put_file f (set_f_ip (Some ip)
                (set_f_readable (if truth (Z.land omode O_WRONLY) then 0 else 1)
                (set_f_writable (if truth (Z.land omode O_WRONLY) || truth (Z.land omode O_RDWR)
                                 then 1 else 0) x)));;
              when (truth (Z.land omode O_TRUNC) && (i_type i =? T_FILE)) (itrunc ip);;
              iunlock ip;;
              end_op;;
              ret fd
        end
  end
  end.

Definition sys_mkdir : M Z :=
  begin_op;;
  path <- path_arg 0;;
  r <- match path with Some path => create path T_DIR 0 0 | None => ret None end;;
  match r with
  | None => end_op;; ret (-1)
  | Some ip =>
      iunlockput ip;;
      end_op;;
      ret 0
  end.

Definition sys_mknod : M Z :=
  begin_op;;
  major <- argint 1;;
  minor <- argint 2;;
  path <- path_arg 0;;
  r <- match path with Some path => create path T_DEVICE (i16 major) (i16 minor) | None => ret None end;;
  match r with
  | None => end_op;; ret (-1)
  | Some ip =>
      iunlockput ip;;
      end_op;;
      ret 0
  end.

Definition sys_chdir : M Z :=
  p <- curproc;;
  begin_op;;
  path <- path_arg 0;;
  r <- match path with Some path => namei path | None => ret None end;;
  match r with
  | None => end_op;; ret (-1)
  | Some ip =>
      ilock ip;;
      i <- get_inode ip;;
      if negb (i_type i =? T_DIR) then
        iunlockput ip;;
        end_op;;
        ret (-1)
      else
        iunlock ip;;
        pr <- get_proc p;;
        cwd <- deref (p_cwd pr);;
        iput cwd;;
        end_op;;
        pr <- get_proc p;;
        put_proc p (set_p_cwd (Some ip) pr);;
        ret 0
  end.

(** Free the pages of [argv]. *)
Fixpoint free_argv (argv : list Z) : M unit :=
  match argv with
  | [] => ret tt
  | a :: argv' => kfree a;; free_argv argv'
  end.

(** Fetch the argument strings, each into a page of its own: the pages so far,
    and whether all went well. *)
Fixpoint fetch_argv (n : nat) (uargv : Z) (argv : list Z) : M (bool * list Z) :=
  match n with
  | O => ret (false, argv)
  | S n' =>
      r <- fetchaddr (u64 (uargv + 8 * lenZ argv));;
      match r with
      | None => ret (false, argv)
      | Some uarg =>
          if uarg =? 0 then ret (true, argv) else
          pa <- kalloc;;
          if pa =? 0 then ret (false, argv) else
          r <- fetchstr uarg PGSIZE;;
          modify (fun s => set_k_mem (store_bytes (k_mem s) pa (snd r)) s);;
          if fst r <? 0 then ret (false, argv ++ [pa]) else
          fetch_argv n' uargv (argv ++ [pa])
      end
  end.

(** The string in the page at [pa]. *)
Definition page_str (s : kstate) (pa : Z) : list Z := cstr (load_bytes (k_mem s) pa (Z.to_nat PGSIZE)).

Definition sys_exec : M Z :=
  uargv <- argaddr 1;;
  path <- path_arg 0;;
  match path with
  | None => ret (-1)
  | Some path =>
      r <- fetch_argv (Z.to_nat MAXARG) uargv [];;
      let '(ok, argv) := r in
      if (ok : bool) then
        args <- gets (fun s => page_str s <$> argv);;
        v <- exec path args;;
        free_argv argv;;
        ret v
      else
        free_argv argv;;
        ret (-1)
  end.

Definition sys_pipe : M Z :=
  p <- curproc;;
  fdarray <- argaddr 0;;
  r <- pipealloc;;
  match r with
  | None => ret (-1)
  | Some (rf, wf) =>
      fd0 <- fdalloc rf;;
      fd1 <- (if fd0 <? 0 then ret (-1) else fdalloc wf);;
      if (fd0 <? 0) || (fd1 <? 0) then
        when (0 <=? fd0) (put_ofile p fd0 None);;
        fileclose rf;;
        fileclose wf;;
        ret (-1)
      else
        pr <- get_proc p;;
        c0 <- copyout (p_pagetable pr) fdarray (le_split 4 fd0);;
        c1 <- (if c0 <? 0 then ret c0 else copyout (p_pagetable pr) (u64 (fdarray + 4)) (le_split 4 fd1));;
        if c1 <? 0 then
          put_ofile p fd0 None;;
          put_ofile p fd1 None;;
          fileclose rf;;
          fileclose wf;;
          ret (-1)
        else ret 0
  end.

End Sysfile.
