(* ===== verification/Trap.v ===== *)
(** * Traps and interrupts ([kernel/trap.c], [kernel/plic.c]), the system call
    table ([kernel/syscall.c]), process system calls ([kernel/sysproc.c]) and
    [forkret] of [kernel/proc.c] *)

From S2P Require Import Prelude Riscv State Spinlock Str Kalloc Copy Sched Sleeplock Csr Uart Printf.
From S2P Require Import Pipe Console FsLayout Bio Log Fs File Proc Syscall Exec Sysfile.

(** ** Definitions *)

(** *** The interrupt controller *)

Definition PLIC_SENABLE (hart : Z) : Z := PLIC + 0x2080 + hart * 0x100.
Definition PLIC_SPRIORITY (hart : Z) : Z := PLIC + 0x201000 + hart * 0x2000.
Definition PLIC_SCLAIM (hart : Z) : Z := PLIC + 0x201004 + hart * 0x2000.

Definition plicinit : M unit :=
  mmio_wr (PLIC + UART0_IRQ * 4) 1;;
  mmio_wr (PLIC + VIRTIO0_IRQ * 4) 1.

Definition plicinithart : M unit :=
  hart <- cpuid;;
  mmio_wr (PLIC_SENABLE hart) (Z.lor (Z.shiftl 1 UART0_IRQ) (Z.shiftl 1 VIRTIO0_IRQ));;
  mmio_wr (PLIC_SPRIORITY hart) 0.

Definition plic_claim {IO : Mmio} : M Z :=
  hart <- cpuid;;
  irq <- mmio_rd (PLIC_SCLAIM hart);;
  ret (i32 irq).

Definition plic_complete (irq : Z) : M unit :=
  hart <- cpuid;;
  mmio_wr (PLIC_SCLAIM hart) irq.

(** *** Process system calls *)

Section Sysproc.
Context {KI : KernelImage} {KT : KernelText} {IO : Mmio} {PT : Patience} {DD : DiskDriver}.

Definition sys_exit : M Z :=
  n <- argint 0;;
  exit n;;
  ret 0.

Definition sys_getpid : M Z :=
  p <- curproc;;
  pr <- get_proc p;;
  ret (p_pid pr).

Definition sys_fork : M Z := fork.

Definition sys_wait : M Z :=
  p <- argaddr 0;;
  wait p.

Definition sys_sbrk : M Z :=
  n <- argint 0;;
  p <- curproc;;
  pr <- get_proc p;;
  let addr := p_sz pr in
  r <- growproc n;;
  if r <? 0 then ret (-1) else ret addr.

(** The waiting loop of [sys_sleep]; [true] when the process has been killed. *)
Definition sys_sleep_body (ticks0 n : Z) (_ : unit) : M (unit + bool) :=
  t <- gets k_ticks;;
  if u32 (t - ticks0) <? n then
    p <- curproc;;
    k <- killed p;;
    if truth k then
      release L_tickslock;;
      ret (inr true)
    else
      sleep C_ticks L_tickslock;;
      ret (inl tt)
  else ret (inr false).

Definition sys_sleep : M Z :=
  n <- argint 0;;
  let n := if n <? 0 then 0 else n in
  acquire L_tickslock;;
  ticks0 <- gets k_ticks;;
  dead <- loop patience (sys_sleep_body ticks0 n) tt;;
  if (dead : bool) then ret (-1) else
  release L_tickslock;;
  ret 0.

Definition sys_kill : M Z :=
  pid <- argint 0;;
  kill pid.

Definition sys_uptime : M Z :=
  acquire L_tickslock;;
  xticks <- gets k_ticks;;
  release L_tickslock;;
  ret xticks.

(** *** The table of system calls *)

Context {SB : StackBytes}.

Definition syscalls (num : Z) : option (M Z) :=
  if num =? SYS_fork then Some sys_fork
  else if num =? SYS_exit then Some sys_exit
  else if num =? SYS_wait then Some sys_wait
  else if num =? SYS_pipe then Some sys_pipe
  else if num =? SYS_read then Some sys_read
  else if num =? SYS_kill then Some sys_kill
  else if num =? SYS_exec then Some sys_exec
  else if num =? SYS_fstat then Some sys_fstat
  else if num =? SYS_chdir then Some sys_chdir
  else if num =? SYS_dup then Some sys_dup
  else if num =? SYS_getpid then Some sys_getpid
  else if num =? SYS_sbrk then Some sys_sbrk
  else if num =? SYS_sleep then Some sys_sleep
  else if num =? SYS_uptime then Some sys_uptime
  else if num =? SYS_open then Some sys_open
  else if num =? SYS_write then Some sys_write
  else if num =? SYS_mknod then Some sys_mknod
  else if num =? SYS_unlink then Some sys_unlink
  else if num =? SYS_link then Some sys_link
  else if num =? SYS_mkdir then Some sys_mkdir
  else if num =? SYS_close then Some sys_close
  else None.

Definition syscall : M unit :=
  p <- curproc;;
  a7 <- get_tf p TF_a7;;
  let num := i32 a7 in
  match syscalls num with
  | Some f =>
      v <- f;;
      put_tf p TF_a0 v
  | None =>
      pr <- get_proc p;;
      printf (chars "%d %s: unknown sys call %d" ++ [NL])
        [VInt (p_pid pr); VStr (Some (cstr (p_name pr))); VInt num];;
      put_tf p TF_a0 (-1)
  end.

(** *** Traps *)

Definition trapinit : M unit := initlock L_tickslock "time".

Definition trapinithart : M unit := w_stvec ld_kernelvec.

(** The handler of the disk's interrupts is part of the disk driver. *)
Context (virtio_disk_intr : M unit).

Definition clockintr : M unit :=
  id <- cpuid;;
  when (id =? 0)
    (acquire L_tickslock;;
     t <- gets k_ticks;;
     modify (set_k_ticks (u32 (t + 1)));;
     wakeup (Some C_ticks);;
     release L_tickslock);;
  t <- r_time;;
  w_stimecmp (t + 1000000).

Definition SCAUSE_EXTERNAL : Z := 0x8000000000000009.
Definition SCAUSE_TIMER : Z := 0x8000000000000005.

Definition devintr : M Z :=
  scause <- r_scause;;
  if scause =? SCAUSE_EXTERNAL then
    irq <- plic_claim;;
    (if irq =? UART0_IRQ then uartintr
     else if irq =? VIRTIO0_IRQ then virtio_disk_intr
     else when (truth irq)
       (printf (chars "unexpected interrupt irq=%d" ++ [NL]) [VInt irq];; ret tt));;
    when (truth irq) (plic_complete irq);;
    ret 1
  else if scause =? SCAUSE_TIMER then
    clockintr;;
    ret 2
  else ret 0.

(** The value passed to [userret], which enters user space. *)
Definition usertrapret : M Z :=
  p <- curproc;;
  intr_off;;
  let trampoline_uservec := TRAMPOLINE + (ld_uservec - ld_trampoline) in
  w_stvec trampoline_uservec;;
  satp <- r_satp;;
  put_tf p TF_kernel_satp satp;;
  pr <- get_proc p;;
  put_tf p TF_kernel_sp (p_kstack pr + PGSIZE);;
  put_tf p TF_kernel_trap ld_usertrap;;
  id <- r_tp;;
  put_tf p TF_kernel_hartid id;;
  x <- r_sstatus;;
  let x := Z.land x (u64 (Z.lnot SSTATUS_SPP)) in
  let x := Z.lor x SSTATUS_SPIE in
  w_sstatus x;;
  epc <- get_tf p TF_epc;;
  w_sepc epc;;
  pr <- get_proc p;;
  ret (MAKE_SATP (p_pagetable pr)).

Definition usertrap : M Z :=
  st <- r_sstatus;;
  if negb (Z.land st SSTATUS_SPP =? 0) then panic "usertrap: not from user mode" else
  w_stvec ld_kernelvec;;
  p <- curproc;;
  epc <- r_sepc;;
  put_tf p TF_epc epc;;
  scause <- r_scause;;
  which_dev <-
    (if scause =? 8 then
       k <- killed p;;
       when (truth k) (exit (-1));;
       epc <- get_tf p TF_epc;;
       put_tf p TF_epc (epc + 4);;
       intr_on;;
       syscall;;
       ret 0
     else
       which_dev <- devintr;;
       if truth which_dev then ret which_dev else
       scause <- r_scause;;
       pr <- get_proc p;;
       printf (chars "usertrap(): unexpected scause 0x%lx pid=%d" ++ [NL]) [VInt scause; VInt (p_pid pr)];;
       sepc <- r_sepc;;
       stval <- r_stval;;
       printf (chars "            sepc=0x%lx stval=0x%lx" ++ [NL]) [VInt sepc; VInt stval];;
       setkilled p;;
       ret 0);;
  k <- killed p;;
  when (truth k) (exit (-1));;
  when (which_dev =? 2) yield;;
  usertrapret.

Definition kerneltrap : M unit :=
  sepc <- r_sepc;;
  sstatus <- r_sstatus;;
  scause <- r_scause;;
  if Z.land sstatus SSTATUS_SPP =? 0 then panic "kerneltrap: not from supervisor mode" else
  en <- intr_get;;
  if truth en then panic "kerneltrap: interrupts enabled" else
  which_dev <- devintr;;
  if which_dev =? 0 then
    sepc <- r_sepc;;
    stval <- r_stval;;
    printf (chars "scause=0x%lx sepc=0x%lx stval=0x%lx" ++ [NL]) [VInt scause; VInt sepc; VInt stval];;
    panic "kerneltrap"
  else
    p <- (if which_dev =? 2 then myproc else ret None);;
    when (bool_decide (is_Some p)) yield;;
    w_sepc sepc;;
    w_sstatus sstatus.

Definition forkret : M Z :=
  p <- curproc;;
  release (L_proc p);;
  first <- gets k_forkret_first;;
  when (truth first)
    (fsinit ROOTDEV;;
     modify (set_k_forkret_first 0));;
  usertrapret.

End Sysproc.
