(* ===== verification/Virtio.v ===== *)
(** * The disk driver ([kernel/virtio_disk.c], [kernel/virtio.h])

    The descriptor table, the rings and the driver's book-keeping are
    [k_vdisk]; the memory-mapped registers are accessed as in [Uart].  What
    the device does with a request is a parameter. *)

From S2P Require Import Prelude Riscv State Spinlock Str Kalloc Sched Scheduler Sleeplock Csr Uart FsLayout Bio Proc.

(** ** Definitions *)

Definition NUM : Z := 8.

Definition VIRTIO_MMIO_MAGIC_VALUE : Z := 0x000.
Definition VIRTIO_MMIO_VERSION : Z := 0x004.
Definition VIRTIO_MMIO_DEVICE_ID : Z := 0x008.
Definition VIRTIO_MMIO_VENDOR_ID : Z := 0x00c.
Definition VIRTIO_MMIO_DEVICE_FEATURES : Z := 0x010.
Definition VIRTIO_MMIO_DRIVER_FEATURES : Z := 0x020.
Definition VIRTIO_MMIO_QUEUE_SEL : Z := 0x030.
Definition VIRTIO_MMIO_QUEUE_NUM_MAX : Z := 0x034.
Definition VIRTIO_MMIO_QUEUE_NUM : Z := 0x038.
Definition VIRTIO_MMIO_QUEUE_READY : Z := 0x044.
Definition VIRTIO_MMIO_QUEUE_NOTIFY : Z := 0x050.
Definition VIRTIO_MMIO_INTERRUPT_STATUS : Z := 0x060.
Definition VIRTIO_MMIO_INTERRUPT_ACK : Z := 0x064.
Definition VIRTIO_MMIO_STATUS : Z := 0x070.
Definition VIRTIO_MMIO_QUEUE_DESC_LOW : Z := 0x080.
Definition VIRTIO_MMIO_QUEUE_DESC_HIGH : Z := 0x084.
Definition VIRTIO_MMIO_DRIVER_DESC_LOW : Z := 0x090.
Definition VIRTIO_MMIO_DRIVER_DESC_HIGH : Z := 0x094.
Definition VIRTIO_MMIO_DEVICE_DESC_LOW : Z := 0x0a0.
Definition VIRTIO_MMIO_DEVICE_DESC_HIGH : Z := 0x0a4.

Definition VIRTIO_CONFIG_S_ACKNOWLEDGE : Z := 1.
Definition VIRTIO_CONFIG_S_DRIVER : Z := 2.
Definition VIRTIO_CONFIG_S_DRIVER_OK : Z := 4.
Definition VIRTIO_CONFIG_S_FEATURES_OK : Z := 8.

Definition VIRTIO_BLK_F_RO : Z := 5.
Definition VIRTIO_BLK_F_SCSI : Z := 7.
Definition VIRTIO_BLK_F_CONFIG_WCE : Z := 11.
Definition VIRTIO_BLK_F_MQ : Z := 12.
Definition VIRTIO_F_ANY_LAYOUT : Z := 27.
Definition VIRTIO_RING_F_INDIRECT_DESC : Z := 28.
Definition VIRTIO_RING_F_EVENT_IDX : Z := 29.

Definition VRING_DESC_F_NEXT : Z := 1.
Definition VRING_DESC_F_WRITE : Z := 2.
Definition VIRTIO_BLK_T_IN : Z := 0.
Definition VIRTIO_BLK_T_OUT : Z := 1.
(** [sizeof(struct virtio_blk_req)] *)
Definition sizeof_blk_req : Z := 16.

(** The address of register [r]. *)
Definition R (r : Z) : Z := VIRTIO0 + r.

Definition get_vd : M vdisk := gets k_vdisk.
Definition put_vd (v : vdisk) : M unit := modify (set_k_vdisk v).

(** An array access; an index out of range is undefined behaviour. *)
Definition vd_get {A} (f : vdisk -> list A) (i : Z) : M A := v <- get_vd;; deref (lookupZ (f v) i).
Definition vd_put {A} (f : vdisk -> list A) (set : list A -> vdisk -> vdisk) (i : Z) (x : A) : M unit :=
  v <- get_vd;;
  if bool_decide (0 <= i < lenZ (f v)) then put_vd (set (insertZ i x (f v)) v) else ub "disk array".

Definition get_desc := vd_get vd_desc.
Definition put_desc := vd_put vd_desc set_vd_desc.
Definition get_free := vd_get vd_free.
Definition put_free := vd_put vd_free set_vd_free.

(** The features the driver turns off. *)
Definition driver_features (features : Z) : Z :=
  fold_left (fun f bit => Z.land f (Z.lnot (Z.shiftl 1 bit)))
    [VIRTIO_BLK_F_RO; VIRTIO_BLK_F_SCSI; VIRTIO_BLK_F_CONFIG_WCE; VIRTIO_BLK_F_MQ;
     VIRTIO_F_ANY_LAYOUT; VIRTIO_RING_F_EVENT_IDX; VIRTIO_RING_F_INDIRECT_DESC] features.

(** *** Descriptors *)

Definition alloc_desc_body (i : Z) : M (option Z) :=
  f <- get_free i;;
  if truth f then
    put_free i 0;;
    ret (Some i)
  else ret None.

Definition alloc_desc : M Z :=
  r <- for_loop (Z.to_nat NUM) 0 alloc_desc_body;;
  ret (default (-1) r).

Definition free_desc (i : Z) : M unit :=
  if NUM <=? i then panic "free_desc 1" else
  f <- get_free i;;
  if truth f then panic "free_desc 2" else
  put_desc i (mkDesc DMA_null 0 0 0);;
  put_free i 1;;
  wakeup (Some C_vdisk_free).

Definition free_chain_body (i : Z) : M (Z + unit) :=
  d <- get_desc i;;
  free_desc i;;
  if truth (Z.land (vq_flags d) VRING_DESC_F_NEXT) then ret (inl (vq_next d)) else ret (inr tt).

(** A chain has at most [NUM] descriptors. *)
Definition free_chain (i : Z) : M unit := loop (Z.to_nat NUM) free_chain_body i.

Fixpoint free_descs (idx : list Z) : M unit :=
  match idx with
  | [] => ret tt
  | i :: idx' => free_desc i;; free_descs idx'
  end.

(** [n] more descriptors after [idx]; [None] when they ran out. *)
Fixpoint alloc_descs (n : nat) (idx : list Z) : M (option (list Z)) :=
  match n with
  | O => ret (Some idx)
  | S n' =>
      i <- alloc_desc;;
      if i <? 0 then
        free_descs idx;;
        ret None
      else alloc_descs n' (idx ++ [i])
  end.
Definition alloc3_desc : M (option (list Z)) := alloc_descs 3 [].

Section Virtio.
Context {IO : Mmio} {KI : KernelImage}.

Definition virtio_disk_init : M unit :=
  initlock L_vdisk "virtio_disk";;
  absent <-
    (magic <- mmio_rd (R VIRTIO_MMIO_MAGIC_VALUE);;
     if negb (magic =? 0x74726976) then ret true else
     version <- mmio_rd (R VIRTIO_MMIO_VERSION);;
     if negb (version =? 2) then ret true else
     device <- mmio_rd (R VIRTIO_MMIO_DEVICE_ID);;
     if negb (device =? 2) then ret true else
     vendor <- mmio_rd (R VIRTIO_MMIO_VENDOR_ID);;
     ret (negb (vendor =? 0x554d4551)));;
  if (absent : bool) then panic "could not find virtio disk" else
  mmio_wr (R VIRTIO_MMIO_STATUS) 0;;
  let status := VIRTIO_CONFIG_S_ACKNOWLEDGE in
  mmio_wr (R VIRTIO_MMIO_STATUS) status;;
  let status := Z.lor status VIRTIO_CONFIG_S_DRIVER in
  mmio_wr (R VIRTIO_MMIO_STATUS) status;;
  features <- mmio_rd (R VIRTIO_MMIO_DEVICE_FEATURES);;
  mmio_wr (R VIRTIO_MMIO_DRIVER_FEATURES) (u32 (driver_features features));;
  let status := Z.lor status VIRTIO_CONFIG_S_FEATURES_OK in
  mmio_wr (R VIRTIO_MMIO_STATUS) status;;
  status <- mmio_rd (R VIRTIO_MMIO_STATUS);;
  if Z.land status VIRTIO_CONFIG_S_FEATURES_OK =? 0 then panic "virtio disk FEATURES_OK unset" else
  mmio_wr (R VIRTIO_MMIO_QUEUE_SEL) 0;;
  ready <- mmio_rd (R VIRTIO_MMIO_QUEUE_READY);;
  if truth ready then panic "virtio disk should not be ready" else
  max <- mmio_rd (R VIRTIO_MMIO_QUEUE_NUM_MAX);;
  if max =? 0 then panic "virtio disk has no queue 0" else
  if max <? NUM then panic "virtio disk max queue too short" else
  desc <- kalloc;;
  avail <- kalloc;;
  used <- kalloc;;
  if (desc =? 0) || (avail =? 0) || (used =? 0) then panic "virtio disk kalloc" else
  memset_m desc 0 PGSIZE;;
  memset_m avail 0 PGSIZE;;
  memset_m used 0 PGSIZE;;
  v <- get_vd;;
  put_vd (set_vd_desc_page desc (set_vd_avail_page avail (set_vd_used_page used
    (set_vd_desc (vd_desc zero_vdisk) (set_vd_avail (vd_avail zero_vdisk)
    (set_vd_used (vd_used zero_vdisk) v))))));;
  mmio_wr (R VIRTIO_MMIO_QUEUE_NUM) NUM;;
  mmio_wr (R VIRTIO_MMIO_QUEUE_DESC_LOW) (u32 desc);;
  mmio_wr (R VIRTIO_MMIO_QUEUE_DESC_HIGH) (Z.shiftr desc 32);;
  mmio_wr (R VIRTIO_MMIO_DRIVER_DESC_LOW) (u32 avail);;
  mmio_wr (R VIRTIO_MMIO_DRIVER_DESC_HIGH) (Z.shiftr avail 32);;
  mmio_wr (R VIRTIO_MMIO_DEVICE_DESC_LOW) (u32 used);;
  mmio_wr (R VIRTIO_MMIO_DEVICE_DESC_HIGH) (Z.shiftr used 32);;
  mmio_wr (R VIRTIO_MMIO_QUEUE_READY) 1;;
  for_loop (Z.to_nat NUM) 0 (fun i => put_free i 1;; ret (@None unit));;
  let status := Z.lor status VIRTIO_CONFIG_S_DRIVER_OK in
  mmio_wr (R VIRTIO_MMIO_STATUS) status.

(** Format the three descriptors of a request and hand it to the device. *)
Definition submit (b : Z) (write : bool) (sector i0 i1 i2 : Z) : M unit :=
  vd_put vd_ops set_vd_ops i0
    (mkBlkReq (if write then VIRTIO_BLK_T_OUT else VIRTIO_BLK_T_IN) 0 sector);;
  put_desc i0 (mkDesc (DMA_op i0) sizeof_blk_req VRING_DESC_F_NEXT i1);;
  put_desc i1 (mkDesc (DMA_data b) BSIZE
    (Z.lor (if write then 0 else VRING_DESC_F_WRITE) VRING_DESC_F_NEXT) i2);;
  vd_put vd_info_status set_vd_info_status i0 0xff;;
  put_desc i2 (mkDesc (DMA_status i0) 1 VRING_DESC_F_WRITE 0);;
  bb <- get_buf b;;
  put_buf b (set_b_disk 1 bb);;
  vd_put vd_info_b set_vd_info_b i0 (Some b);;
  v <- get_vd;;
  let av := vd_avail v in
  put_vd (set_vd_avail (set_av_ring (insertZ (av_idx av mod NUM) i0 (av_ring av)) av) v);;
  v <- get_vd;;
  let av := vd_avail v in
  put_vd (set_vd_avail (set_av_idx (u16 (av_idx av + 1)) av) v);;
  mmio_wr (R VIRTIO_MMIO_QUEUE_NOTIFY) 0.

Section Sleeping.
Context {PT : Patience}.

(** [while (1) { if (alloc3_desc(idx) == 0) break; sleep(...); }] *)
Definition alloc3_wait (_ : unit) : M (unit + list Z) :=
  r <- alloc3_desc;;
  match r with
  | Some idx => ret (inr idx)
  | None =>
      sleep C_vdisk_free L_vdisk;;
      ret (inl tt)
  end.

Definition disk_rw (b : Z) (write : bool) : M unit :=
  bb <- get_buf b;;
  let sector := u32 (b_blockno bb * (BSIZE / 512)) in
  acquire L_vdisk;;
  idx <- loop patience alloc3_wait tt;;
  i0 <- deref (lookupZ idx 0);;
  i1 <- deref (lookupZ idx 1);;
  i2 <- deref (lookupZ idx 2);;
  submit b write sector i0 i1 i2;;
  while_sleep (bb <- get_buf b;; ret (b_disk bb =? 1)) (C_buf b) L_vdisk;;
  vd_put vd_info_b set_vd_info_b i0 None;;
  free_chain i0;;
  release L_vdisk.

End Sleeping.

(** One turn of the loop of [virtio_disk_intr]. *)
Definition intr_body (_ : unit) : M (unit + unit) :=
  v <- get_vd;;
  if negb (vd_used_idx v =? ud_idx (vd_used v)) then
    e <- deref (lookupZ (ud_ring (vd_used v)) (vd_used_idx v mod NUM));;
    let id := ue_id e in
    st <- vd_get vd_info_status id;;
    if negb (st =? 0) then panic "virtio_disk_intr status" else
    o <- vd_get vd_info_b id;;
    b <- deref o;;
    bb <- get_buf b;;
    put_buf b (set_b_disk 0 bb);;
    wakeup (Some (C_buf b));;
    v <- get_vd;;
    put_vd (set_vd_used_idx (u16 (vd_used_idx v + 1)) v);;
    ret (inl tt)
  else ret (inr tt).

(** At most [NUM] requests are in flight. *)
Definition virtio_disk_intr : M unit :=
  acquire L_vdisk;;
  st <- mmio_rd (R VIRTIO_MMIO_INTERRUPT_STATUS);;
  mmio_wr (R VIRTIO_MMIO_INTERRUPT_ACK) (Z.land st 3);;
  loop (S (Z.to_nat NUM)) intr_body tt;;
  release L_vdisk.

End Virtio.

(** *** The device

    What the device does while the driver waits is a parameter.  [vio_step] is
    its effect on the shared memory and the disk; the law is what the virtio
    specification promises for a block request: the one pending request, a
    chain of three descriptors in the format the driver uses, is served. *)

(** The chain that starts at [id] asks for a transfer between buffer [b] and
    block [n]. *)
Definition request (v : vdisk) (id b n : Z) (write : bool) : Prop :=
  exists i1 i2,
    lookupZ (vd_ops v) id = Some (mkBlkReq (if write then VIRTIO_BLK_T_OUT else VIRTIO_BLK_T_IN) 0 (2 * n)) /\
    lookupZ (vd_desc v) id = Some (mkDesc (DMA_op id) sizeof_blk_req VRING_DESC_F_NEXT i1) /\
    lookupZ (vd_desc v) i1 = Some (mkDesc (DMA_data b) BSIZE
      (Z.lor (if write then 0 else VRING_DESC_F_WRITE) VRING_DESC_F_NEXT) i2) /\
    lookupZ (vd_desc v) i2 = Some (mkDesc (DMA_status id) 1 VRING_DESC_F_WRITE 0).

(** It is the one request in the available ring that is not yet used. *)
Definition pending (v : vdisk) (id : Z) : Prop :=
  av_idx (vd_avail v) = u16 (ud_idx (vd_used v) + 1) /\
  lookupZ (av_ring (vd_avail v)) (ud_idx (vd_used v) mod NUM) = Some id.

(** The rings once the device has served it; [len] is what it reports. *)
Definition used_up (id len : Z) (v : vdisk) : vdisk :=
  let u := vd_used v in
  set_vd_info_status (insertZ id 0 (vd_info_status v))
    (set_vd_used (set_ud_idx (u16 (ud_idx u + 1))
      (set_ud_ring (insertZ (ud_idx u mod NUM) (mkUsedElem id len) (ud_ring u)) u)) v).

Class VirtioDevice := {
  vio_step : kstate -> kstate;
  vio_blocks : Z;
  vio_blocks_max : vio_blocks <= 2 ^ 31;
  vio_serves : forall s id b bb n write,
    pending (k_vdisk s) id -> request (k_vdisk s) id b n write -> lookupZ (k_bcache s) b = Some bb ->
    b_blockno bb = n -> 0 <= n < vio_blocks ->
    exists len, vio_step s = set_k_vdisk (used_up id len (k_vdisk s)) (transfer b bb write s);
}.

(** *** A request from the call to the return

    [disk_rw] of the process [p] up to its [swtch]; then the scheduler, to
    which it switches back; the device; its interrupt; the scheduler again,
    which picks [p]; and the rest of [disk_rw]. *)
Section Run.
Context {IO : Mmio} {VD : VirtioDevice} {PT : Patience}.

Definition served (p : Z) (r : res unit) : res unit :=
  match r with
  | Swtch s1 k =>
      match (switch_back p;; modify vio_step;; virtio_disk_intr) s1 with
      | Ok _ s2 =>
          match scheduler_body (k_tp s2) (p, false) s2 with
          | Swtch s3 _ => k s3
          | Ok _ _ => Fail Hangs
          | Fail e => Fail e
          end
      | Swtch _ _ => Fail Hangs
      | Fail e => Fail e
      end
  | r => r
  end.

Definition virtio_driver : DiskDriver := fun b write s =>
  match cur s with
  | Some p => served p (disk_rw b write s)
  | None => Fail (UB "virtio_disk_rw")
  end.

End Run.

(** The driver between requests. *)
Record vd_idle (v : vdisk) : Prop := {
  vi_free : vd_free v = replicate 8 1;
  vi_desc : lenZ (vd_desc v) = NUM;
  vi_avail : lenZ (av_ring (vd_avail v)) = NUM;
  vi_used : lenZ (ud_ring (vd_used v)) = NUM;
  vi_info : lenZ (vd_info_b v) = NUM;
  vi_status : lenZ (vd_info_status v) = NUM;
  vi_ops : lenZ (vd_ops v) = NUM;
  vi_idx : 0 <= ud_idx (vd_used v) < 2 ^ 16;
  vi_seen : vd_used_idx v = ud_idx (vd_used v);
  vi_done : av_idx (vd_avail v) = ud_idx (vd_used v);
}.

(** ** Lemmas *)

Section VdArrays.
Context {A : Type} (f : vdisk -> list A).

Lemma run_vd_get s i x : lookupZ (f (k_vdisk s)) i = Some x -> vd_get f i s = Ok x s.
Proof. intros H. unfold vd_get, get_vd. rewrite bind_gets. by apply deref_ok. Qed.

Lemma run_vd_put set s i x : 0 <= i < lenZ (f (k_vdisk s)) ->
  vd_put f set i x s = Ok tt (set_k_vdisk (set (insertZ i x (f (k_vdisk s))) (k_vdisk s)) s).
Proof. intros H. unfold vd_put, get_vd. rewrite bind_gets, bool_decide_true by done. done. Qed.

End VdArrays.

(** *** Descriptors *)

Lemma alloc_desc_at fr s k : vd_free (k_vdisk s) = replicate k 0 ++ 1 :: fr -> (k + S (length fr) = 8)%nat ->
  alloc_desc s = Ok (Z.of_nat k) (set_k_vdisk (set_vd_free (replicate k 0 ++ 0 :: fr) (k_vdisk s)) s).
Proof.
  intros Hf Hlen. unfold alloc_desc.
  assert (HL : forall n i, i + Z.of_nat n = 8 -> 0 <= i <= Z.of_nat k -> for_loop n i alloc_desc_body s =
    Ok (Some (Z.of_nat k)) (set_k_vdisk (set_vd_free (replicate k 0 ++ 0 :: fr) (k_vdisk s)) s)).
  { induction n as [|n IH]; intros i Hi Hk; [lia|].
    destruct (decide (i = Z.of_nat k)) as [->|Hne].
    - apply for_loop_stop. unfold alloc_desc_body, get_free, put_free.
      erewrite bind_ok by (apply run_vd_get; rewrite Hf, lookupZ_app, lenZ_replicate, Z.ltb_irrefl, Z.sub_diag; reflexivity).
      cbn [truth Z.eqb negb]. rewrite (bind_ok _ _ _ _ _ (run_vd_put vd_free set_vd_free s (Z.of_nat k) 0
        ltac:(rewrite Hf, lenZ_app, lenZ_replicate, lenZ_cons; unfold lenZ; lia))).
      rewrite Hf. unfold insertZ. destruct (Z.ltb_spec (Z.of_nat k) 0); [lia|]. rewrite Nat2Z.id.
      rewrite <- (Nat.add_0_r k) at 2. rewrite <- (length_replicate k 0) at 2. rewrite insert_app_r. done.
    - erewrite for_loop_next.
      + apply IH; lia.
      + unfold alloc_desc_body, get_free. erewrite bind_ok.
        2: { apply run_vd_get. rewrite Hf, lookupZ_app, lenZ_replicate. destruct (Z.ltb_spec i (Z.of_nat k)); [|lia].
             apply lookupZ_replicate. lia. }
        done. }
  erewrite bind_ok by (apply (HL (Z.to_nat NUM) 0); [done|lia]). done.
Qed.

Lemma alloc3_ok s : vd_free (k_vdisk s) = replicate 8 1 ->
  alloc3_desc s = Ok (Some [0; 1; 2]) (set_k_vdisk (set_vd_free [0; 0; 0; 1; 1; 1; 1; 1] (k_vdisk s)) s).
Proof.
  intros Hf. unfold alloc3_desc. cbn [alloc_descs].
  erewrite bind_ok by (apply (alloc_desc_at (replicate 7 1) s 0); done). change (Z.of_nat 0) with 0. cbn [Z.ltb Z.compare app].
  erewrite bind_ok by (apply (alloc_desc_at (replicate 6 1) _ 1); done). change (Z.of_nat 1) with 1. cbn [Z.ltb Z.compare app].
  erewrite bind_ok by (apply (alloc_desc_at (replicate 5 1) _ 2); done). change (Z.of_nat 2) with 2. cbn [Z.ltb Z.compare app].
  done.
Qed.

(** *** Handing a request to the device *)

(** The driver's structures after [submit] with the descriptors 0, 1 and 2. *)
Definition submitted (b : Z) (write : bool) (sector : Z) (v : vdisk) : vdisk :=
  mkVdisk (vd_desc_page v) (vd_avail_page v) (vd_used_page v)
    (insertZ 2 (mkDesc (DMA_status 0) 1 VRING_DESC_F_WRITE 0)
      (insertZ 1 (mkDesc (DMA_data b) BSIZE (Z.lor (if write then 0 else VRING_DESC_F_WRITE) VRING_DESC_F_NEXT) 2)
        (insertZ 0 (mkDesc (DMA_op 0) sizeof_blk_req VRING_DESC_F_NEXT 1) (vd_desc v))))
    (mkAvail (av_flags (vd_avail v)) (u16 (av_idx (vd_avail v) + 1))
      (insertZ (av_idx (vd_avail v) mod NUM) 0 (av_ring (vd_avail v))) (av_unused (vd_avail v)))
    (vd_used v) (vd_free v) (vd_used_idx v) (insertZ 0 (Some b) (vd_info_b v)) (insertZ 0 0xff (vd_info_status v))
    (insertZ 0 (mkBlkReq (if write then VIRTIO_BLK_T_OUT else VIRTIO_BLK_T_IN) 0 sector) (vd_ops v)).

Ltac vput := erewrite bind_ok by (apply run_vd_put; cbn [k_vdisk set_k_vdisk set_k_bcache vd_desc vd_info_b vd_info_status vd_ops
  set_vd_ops set_vd_desc set_vd_info_status set_vd_info_b]; rewrite ?lenZ_insertZ; unfold NUM in *; lia).

Lemma submit_ok s b bb write sector : lookupZ (k_bcache s) b = Some bb ->
  lenZ (vd_desc (k_vdisk s)) = NUM -> lenZ (vd_info_b (k_vdisk s)) = NUM -> lenZ (vd_info_status (k_vdisk s)) = NUM ->
  lenZ (vd_ops (k_vdisk s)) = NUM ->
  submit b write sector 0 1 2 s = Ok tt (set_k_mmio (MWrite (R VIRTIO_MMIO_QUEUE_NOTIFY) 0 :: k_mmio s)
    (set_k_vdisk (submitted b write sector (k_vdisk s)) (set_k_bcache (insertZ b (set_b_disk 1 bb) (k_bcache s)) s))).
Proof.
  intros Hb H1 H2 H3 H4. unfold submit, put_desc.
  vput. vput. vput. vput. vput. erewrite bind_ok by (apply run_get_buf; exact Hb).
  unfold put_buf. rewrite bind_modify. vput. unfold get_vd, put_vd, mmio_wr. rewrite !bind_gets, !bind_modify, !bind_gets, !bind_modify. done.
Qed.

Lemma submitted_pending b write sector v n : vd_idle (set_vd_free (replicate 8 1) v) -> sector = 2 * n ->
  pending (submitted b write sector v) 0 /\ request (submitted b write sector v) 0 b n write /\
  lookupZ (vd_info_b (submitted b write sector v)) 0 = Some (Some b) /\ lookupZ (vd_info_status (submitted b write sector v)) 0 = Some 0xff.
Proof.
  intros [H1 H2 H3 H4 H5 H6 H7 H8 H9 H10] ->. cbn [vd_desc vd_avail vd_used vd_info_b vd_info_status vd_ops vd_used_idx set_vd_free] in *.
  unfold NUM in *. pose proof (Z.mod_pos_bound (av_idx (vd_avail v)) 8 ltac:(lia)). split_and!.
  - split; simpl; [by rewrite H10|]. rewrite <- H10. apply lookupZ_insertZ_eq. unfold NUM. lia.
  - exists 1, 2. simpl. split_and!.
    + apply lookupZ_insertZ_eq. lia.
    + rewrite !lookupZ_insertZ by (rewrite ?lenZ_insertZ; lia). done.
    + rewrite !lookupZ_insertZ by (rewrite ?lenZ_insertZ; lia). done.
    + rewrite !lookupZ_insertZ by (rewrite ?lenZ_insertZ; lia). done.
  - simpl. apply lookupZ_insertZ_eq. lia.
  - simpl. apply lookupZ_insertZ_eq. lia.
Qed.

(** *** The interrupt *)

Section Intr.
Context {IO : Mmio}.

Lemma static_vdisk : L_vdisk ∈ static_locks.
Proof. unfold static_locks. apply elem_of_app. left. set_solver. Qed.

Lemma wakeup_in lk ch s : settled s -> proc_locks_free s -> (forall i, lk <> L_proc i) ->
  wakeup ch (acq lk s) = Ok tt (acq lk (set_k_proc (map_from (woken ch (cur s)) 0 (k_proc s)) s)).
Proof.
  intros Hs [Hl Hf] Hne. rewrite wakeup_ok.
  - rewrite cur_acq by done. by autorewrite with acq.
  - by apply settled_acq.
  - split; [by autorewrite with acq|]. intros i Hi. apply lock_free_acq; [apply Hne|by apply Hf].
Qed.

Lemma intr_ok s b bb id e : idle s -> lock_free L_vdisk s ->
  let v := k_vdisk s in
  0 <= vd_used_idx v < 2 ^ 16 -> ud_idx (vd_used v) = u16 (vd_used_idx v + 1) ->
  lookupZ (ud_ring (vd_used v)) (vd_used_idx v mod NUM) = Some e -> ue_id e = id ->
  lookupZ (vd_info_status v) id = Some 0 -> lookupZ (vd_info_b v) id = Some (Some b) -> lookupZ (k_bcache s) b = Some bb ->
  exists io, virtio_disk_intr s = Ok tt (set_k_mmio io (set_k_vdisk (set_vd_used_idx (ud_idx (vd_used v)) v)
    (set_k_proc (map_from (woken (Some (C_buf b)) (cur s)) 0 (k_proc s))
      (set_k_bcache (insertZ b (set_b_disk 0 bb) (k_bcache s)) s)))).
Proof.
  intros [Hs Hl] Hf v Hidx Hud He <- Hst Hib Hb. unfold virtio_disk_intr.
  erewrite bind_ok by (by apply acquire_ok). unfold mmio_rd, mmio_wr.
  assert (HU : 0 <= u16 (vd_used_idx v + 1) < 2 ^ 16) by (apply Z.mod_pos_bound; lia).
  assert (Hne : vd_used_idx v <> u16 (vd_used_idx v + 1)).
  { unfold u16. intros E. assert (Hd : (vd_used_idx v + 1) mod 2 ^ 16 = vd_used_idx v mod 2 ^ 16) by (by rewrite (Z.mod_small (vd_used_idx v)) by done).
    rewrite Z.add_mod, (Z.mod_small (vd_used_idx v)), (Z.mod_small 1) in Hd by lia.
    destruct (decide (vd_used_idx v + 1 = 2 ^ 16)) as [E2|]; [rewrite E2 in Hd; rewrite Z.mod_same in Hd; lia|].
    rewrite Z.mod_small in Hd; lia. }
  exists (MWrite (R VIRTIO_MMIO_INTERRUPT_ACK) (Z.land (mmio_read (k_mmio s) (R VIRTIO_MMIO_INTERRUPT_STATUS)) 3) ::
    MRead (R VIRTIO_MMIO_INTERRUPT_STATUS) :: k_mmio s).
  rewrite (bind_ok _ _ _ (mmio_read (k_mmio s) (R VIRTIO_MMIO_INTERRUPT_STATUS))
    (set_k_mmio (MRead (R VIRTIO_MMIO_INTERRUPT_STATUS) :: k_mmio s) (acq L_vdisk s))) by done.
  rewrite bind_modify. autorewrite with acq. cbn [k_mmio set_k_mmio].
  set (io' := MWrite _ _ :: _).
  set (s1 := set_k_mmio io' s).
  change (set_k_mmio io' (set_k_mmio (MRead (R VIRTIO_MMIO_INTERRUPT_STATUS) :: k_mmio s) s)) with s1.
  set (s2 := set_k_proc (map_from (woken (Some (C_buf b)) (cur s)) 0 (k_proc s)) (set_k_bcache (insertZ b (set_b_disk 0 bb) (k_bcache s)) s1)).
  set (s3 := set_k_vdisk (set_vd_used_idx (ud_idx (vd_used v)) v) s2).
  assert (Hturn : intr_body tt (acq L_vdisk s1) = Ok (inl tt) (acq L_vdisk s3)).
  { unfold intr_body, get_vd. rewrite bind_gets. autorewrite with acq. change (k_vdisk s1) with v.
    destruct (Z.eqb_spec (vd_used_idx v) (ud_idx (vd_used v))) as [E|_]; [congruence|]. cbn [negb].
    rewrite He. erewrite bind_ok by reflexivity. erewrite bind_ok by (apply run_vd_get; autorewrite with acq; exact Hst).
    cbn [Z.eqb negb]. erewrite bind_ok by (apply run_vd_get; autorewrite with acq; exact Hib). cbn [deref]. rewrite bind_ret.
    erewrite bind_ok by (apply run_get_buf; autorewrite with acq; exact Hb). unfold put_buf. rewrite bind_modify. autorewrite with acq.
    erewrite bind_ok by (apply wakeup_in; [exact Hs|exact Hl|done]).
    rewrite bind_gets. autorewrite with acq. unfold put_vd. rewrite bind_modify. autorewrite with acq.
    unfold s3. rewrite Hud. done. }
  rewrite (bind_ok _ _ _ tt (acq L_vdisk s3)).
  - rewrite release_acq; [done|exact Hs|exact Hf].
  - erewrite loop_next by exact Hturn. change (Z.to_nat NUM) with 8%nat. apply loop_stop. unfold intr_body, get_vd. rewrite bind_gets.
    autorewrite with acq. cbn [s3 k_vdisk set_k_vdisk vd_used_idx set_vd_used_idx vd_used]. by rewrite Z.eqb_refl.
Qed.

End Intr.

(** *** Giving the descriptors back *)

Definition freed (i : Z) (v : vdisk) : vdisk :=
  set_vd_free (insertZ i 1 (vd_free v)) (set_vd_desc (insertZ i (mkDesc DMA_null 0 0 0) (vd_desc v)) v).

Lemma free_desc_ok p s i : kthread p s -> 0 <= i < NUM -> lenZ (vd_desc (k_vdisk s)) = NUM ->
  lookupZ (vd_free (k_vdisk s)) i = Some 0 ->
  free_desc i (acq L_vdisk s) = Ok tt (acq L_vdisk (wake_st (Some C_vdisk_free) p (set_k_vdisk (freed i (k_vdisk s)) s))).
Proof.
  intros Hk Hi Hd Hf. unfold free_desc. destruct (Z.leb_spec NUM i); [lia|].
  erewrite bind_ok by (apply run_vd_get; autorewrite with acq; exact Hf). cbn [truth Z.eqb negb].
  unfold put_desc. erewrite bind_ok by (apply run_vd_put; autorewrite with acq; lia). autorewrite with acq.
  unfold put_free. erewrite bind_ok by (apply run_vd_put; autorewrite with acq; cbn [k_vdisk set_k_vdisk vd_free set_vd_desc];
    exact (lookupZ_Some_range _ _ _ Hf)). autorewrite with acq.
  apply (wakeup_acq _ _ p); [auto with kt|done].
Qed.

Lemma free_chain_turn p s i d : kthread p s -> 0 <= i < NUM -> lenZ (vd_desc (k_vdisk s)) = NUM ->
  lookupZ (vd_free (k_vdisk s)) i = Some 0 -> lookupZ (vd_desc (k_vdisk s)) i = Some d ->
  free_chain_body i (acq L_vdisk s) =
  Ok (if truth (Z.land (vq_flags d) VRING_DESC_F_NEXT) then inl (vq_next d) else inr tt)
    (acq L_vdisk (wake_st (Some C_vdisk_free) p (set_k_vdisk (freed i (k_vdisk s)) s))).
Proof.
  intros Hk Hi Hl Hf Hd. unfold free_chain_body, get_desc.
  erewrite bind_ok by (apply run_vd_get; autorewrite with acq; exact Hd).
  erewrite bind_ok by (by apply (free_desc_ok p)). by destruct (truth _).
Qed.

(** The chain of a request, all its descriptors taken. *)
Lemma free_chain_ok p s d0 d1 d2 : kthread p s -> lenZ (vd_desc (k_vdisk s)) = NUM ->
  vd_free (k_vdisk s) = [0; 0; 0; 1; 1; 1; 1; 1] ->
  lookupZ (vd_desc (k_vdisk s)) 0 = Some d0 -> truth (Z.land (vq_flags d0) VRING_DESC_F_NEXT) = true -> vq_next d0 = 1 ->
  lookupZ (vd_desc (k_vdisk s)) 1 = Some d1 -> truth (Z.land (vq_flags d1) VRING_DESC_F_NEXT) = true -> vq_next d1 = 2 ->
  lookupZ (vd_desc (k_vdisk s)) 2 = Some d2 -> truth (Z.land (vq_flags d2) VRING_DESC_F_NEXT) = false ->
  exists ps, woken_by (Some p) (k_proc s) ps /\
    free_chain 0 (acq L_vdisk s) = Ok tt (acq L_vdisk (set_k_proc ps (set_k_vdisk (freed 2 (freed 1 (freed 0 (k_vdisk s)))) s))).
Proof.
  intros Hk Hl Hf L0 F0 N0 L1 F1 N1 L2 F2. unfold free_chain. change (Z.to_nat NUM) with 8%nat.
  set (W := wake_st (Some C_vdisk_free) p).
  set (s1 := W (set_k_vdisk (freed 0 (k_vdisk s)) s)). set (s2 := W (set_k_vdisk (freed 1 (k_vdisk s1)) s1)).
  set (s3 := W (set_k_vdisk (freed 2 (k_vdisk s2)) s2)).
  assert (Hk1 : kthread p s1) by (unfold s1, W; auto with kt). assert (Hk2 : kthread p s2) by (unfold s2, W; auto with kt).
  assert (Hd1 : vd_desc (k_vdisk s1) = insertZ 0 (mkDesc DMA_null 0 0 0) (vd_desc (k_vdisk s))) by done.
  assert (Hd2 : vd_desc (k_vdisk s2) = insertZ 1 (mkDesc DMA_null 0 0 0) (vd_desc (k_vdisk s1))) by done.
  assert (Hf1 : vd_free (k_vdisk s1) = insertZ 0 1 (vd_free (k_vdisk s))) by done.
  assert (Hf2 : vd_free (k_vdisk s2) = insertZ 1 1 (vd_free (k_vdisk s1))) by done. rewrite Hf in Hf1.
  assert (Hfw : forall t, woken_by (Some p) (k_proc t) (k_proc (W t))) by (intros t; apply woken_by_woken).
  exists (k_proc s3). split.
  { transitivity (k_proc s1); [exact (Hfw (set_k_vdisk (freed 0 (k_vdisk s)) s))|].
    transitivity (k_proc s2); [exact (Hfw (set_k_vdisk (freed 1 (k_vdisk s1)) s1))|].
    exact (Hfw (set_k_vdisk (freed 2 (k_vdisk s2)) s2)). }
  erewrite loop_next by (erewrite (free_chain_turn p s 0 d0) by (done || (rewrite Hf; done)); rewrite F0; reflexivity). fold W s1. rewrite N0.
  erewrite loop_next.
  2: { erewrite (free_chain_turn p s1 1 d1); [rewrite F1; reflexivity|done|done|rewrite Hd1, lenZ_insertZ; done|by rewrite Hf1|].
       rewrite Hd1, lookupZ_insertZ_ne by done. done. }
  fold W s2. rewrite N1.
  erewrite loop_stop; [reflexivity|]. erewrite (free_chain_turn p s2 2 d2); [rewrite F2; reflexivity|done|done|by rewrite Hd2, Hd1, !lenZ_insertZ|by rewrite Hf2, Hf1|].
  rewrite Hd2, Hd1, !lookupZ_insertZ_ne by done. done.
Qed.

(** *** One request from beginning to end *)

Section WithCur.
Context (o : option Z) (s : kstate).

Lemma with_cur_set_proc v : with_cur o (set_k_proc v s) = set_k_proc v (with_cur o s).
Proof. unfold with_cur. simpl. by destruct (lookupZ _ _). Qed.
Lemma with_cur_set_vdisk v : with_cur o (set_k_vdisk v s) = set_k_vdisk v (with_cur o s).
Proof. unfold with_cur. simpl. by destruct (lookupZ _ _). Qed.
Lemma with_cur_set_mmio v : with_cur o (set_k_mmio v s) = set_k_mmio v (with_cur o s).
Proof. unfold with_cur. simpl. by destruct (lookupZ _ _). Qed.
Lemma with_cur_set_bcache v : with_cur o (set_k_bcache v s) = set_k_bcache v (with_cur o s).
Proof. unfold with_cur. simpl. by destruct (lookupZ _ _). Qed.
Lemma with_cur_set_disk v : with_cur o (set_k_disk v s) = set_k_disk v (with_cur o s).
Proof. unfold with_cur. simpl. by destruct (lookupZ _ _). Qed.
Lemma with_cur_bcache : k_bcache (with_cur o s) = k_bcache s.
Proof. unfold with_cur. by destruct (lookupZ _ _). Qed.
Lemma with_cur_vdisk : k_vdisk (with_cur o s) = k_vdisk s.
Proof. unfold with_cur. by destruct (lookupZ _ _). Qed.
Lemma with_cur_disk : k_disk (with_cur o s) = k_disk s.
Proof. unfold with_cur. by destruct (lookupZ _ _). Qed.
Lemma with_cur_mmio : k_mmio (with_cur o s) = k_mmio s.
Proof. unfold with_cur. by destruct (lookupZ _ _). Qed.
Lemma with_cur_transfer b bb write : transfer b bb write (with_cur o s) = with_cur o (transfer b bb write s).
Proof. unfold transfer. destruct write; rewrite ?with_cur_set_disk, ?with_cur_set_bcache, ?with_cur_disk, ?with_cur_bcache; done. Qed.

Lemma with_cur_back o' : cur s = o -> with_cur o (with_cur o' s) = s.
Proof.
  intros Hc. unfold with_cur, cur in *. destruct (lookupZ (k_cpus s) (k_tp s)) as [c|] eqn:E; simpl.
  - pose proof (lookupZ_Some_range _ _ _ E). rewrite lookupZ_insertZ_eq by done. rewrite insertZ_insertZ.
    replace (set_cpu_proc o (set_cpu_proc o' c)) with c by (simpl in Hc; subst o; by destruct c).
    rewrite insertZ_id by done. by destruct s.
  - by rewrite E.
Qed.

End WithCur.

Section Request.
Context {IO : Mmio} {VD : VirtioDevice} {PT : Patience} (Hpat : (1 < patience)%nat).
Context (en : bool) (p pid : Z).

(** The structures of the driver once the request is done. *)
Definition retired (v : vdisk) : vdisk :=
  freed 2 (freed 1 (freed 0 (set_vd_info_b (insertZ 0 None (vd_info_b v)) v))).

(** The request of [submitted] has not been touched but for its completion. *)
Definition in_flight (b : Z) (write : bool) (sector : Z) (v w : vdisk) : Prop :=
  vd_desc w = vd_desc (submitted b write sector v) /\ vd_free w = [0; 0; 0; 1; 1; 1; 1; 1] /\
  lenZ (vd_info_b w) = NUM.

(** [disk_rw] from where it finds its request done. *)
Lemma disk_rw_finish s b write sector v :
  kthread p s -> lenZ (vd_desc v) = NUM -> in_flight b write sector v (k_vdisk s) ->
  exists ps, woken_by (Some p) (k_proc s) ps /\
    (vd_put vd_info_b set_vd_info_b 0 None;; free_chain 0;; release L_vdisk) (acq L_vdisk s) =
    Ok tt (set_k_proc ps (set_k_vdisk (retired (k_vdisk s)) s)).
Proof.
  intros Hk Hl (Hd & Hf & Hi). unfold NUM in *.
  erewrite bind_ok by (apply run_vd_put; autorewrite with acq; lia). autorewrite with acq.
  set (s1 := set_k_vdisk _ s). assert (Hk1 : kthread p s1) by (unfold s1; auto with kt).
  destruct (free_chain_ok p s1 (mkDesc (DMA_op 0) sizeof_blk_req VRING_DESC_F_NEXT 1)
    (mkDesc (DMA_data b) BSIZE (Z.lor (if write then 0 else VRING_DESC_F_WRITE) VRING_DESC_F_NEXT) 2)
    (mkDesc (DMA_status 0) 1 VRING_DESC_F_WRITE 0) Hk1) as (ps & Hw & HE);
    cbn [s1 k_vdisk set_k_vdisk vd_desc vd_free set_vd_info_b]; rewrite ?Hd; cbn [submitted vd_desc];
    rewrite ?lenZ_insertZ, ?lookupZ_insertZ by (rewrite ?lenZ_insertZ; lia); try done.
  { by destruct write. }
  exists ps. split; [exact Hw|]. erewrite bind_ok by exact HE.
  apply release_acq; [apply Hk|apply Hk, static_vdisk].
Qed.

(** [disk_rw] up to its sleep, and from its wakeup on. *)
Lemma disk_rw_sleeps s b bb pr write : running en p pid s -> vd_idle (k_vdisk s) -> lookupZ (k_bcache s) b = Some bb ->
  lookupZ (k_proc s) p = Some pr -> 0 <= b_blockno bb < 2 ^ 31 ->
  let v := set_vd_free [0; 0; 0; 1; 1; 1; 1; 1] (k_vdisk s) in
  let sector := 2 * b_blockno bb in
  exists io K, disk_rw b write s = Swtch (acq (L_proc p) (set_k_proc (insertZ p (asleep (C_buf b) pr) (k_proc s))
      (set_k_mmio io (set_k_vdisk (submitted b write sector v) (set_k_bcache (insertZ b (set_b_disk 1 bb) (k_bcache s)) s))))) K /\
  forall s7 pr7 bb7, kthread p s7 -> outside en s7 -> lookupZ (k_proc s7) p = Some pr7 ->
    lookupZ (k_bcache s7) b = Some bb7 -> b_disk bb7 = 0 -> in_flight b write sector v (k_vdisk s7) ->
    exists ps, woken_by (Some p) (insertZ p (set_p_chan None pr7) (k_proc s7)) ps /\
      K (acq (L_proc p) s7) = Ok tt (set_k_proc ps (set_k_vdisk (retired (k_vdisk s7)) s7)).
Proof.
  intros Hr Hv Hb Hpr Hbn v sector. destruct Hr as [Hk Ho _]. pose proof Hv as [V1 V2 V3 V4 V5 V6 V7 V8 V9 V10].
  set (s1 := set_k_vdisk v s). set (s2 := set_k_mmio (MWrite (R VIRTIO_MMIO_QUEUE_NOTIFY) 0 :: k_mmio s)
    (set_k_vdisk (submitted b write sector v) (set_k_bcache (insertZ b (set_b_disk 1 bb) (k_bcache s)) s1))).
  pose proof (lookupZ_Some_range _ _ _ Hb) as Hrng.
  assert (Hk2 : kthread p s2) by (unfold s2, s1; auto 10 with kt).
  assert (Hsec : u32 (b_blockno bb * (BSIZE / 512)) = sector).
  { change (BSIZE / 512) with 2. unfold sector. rewrite u32_small by lia. lia. }
  assert (Hloop : loop patience alloc3_wait tt (acq L_vdisk s) = Ok [0; 1; 2] (acq L_vdisk s1)).
  { pose proof patience_pos. destruct patience as [|n]; [lia|]. apply loop_stop. unfold alloc3_wait.
    erewrite bind_ok by (apply alloc3_ok; autorewrite with acq; exact V1). by autorewrite with acq. }
  assert (Hsub : submit b write sector 0 1 2 (acq L_vdisk s1) = Ok tt (acq L_vdisk s2)).
  { rewrite (submit_ok _ b bb write sector); autorewrite with acq; done. }
  assert (Hcond : (x <- get_buf b;; ret (b_disk x =? 1)) (acq L_vdisk s2) = Ok true (acq L_vdisk s2)).
  { erewrite bind_ok by (apply run_get_buf; autorewrite with acq; by apply lookupZ_insertZ_eq). done. }
  destruct (while_sleep_once (x <- get_buf b;; ret (b_disk x =? 1)) en (C_buf b) L_vdisk s2 p pr Hpat Ho (kt_cur _ _ Hk)
    (kthread_proc_free _ _ Hk2) (kt_free _ _ Hk2 _ static_vdisk) ltac:(done) Hpr Hcond) as (k & HS & Hres).
  exists (k_mmio s2). eexists. split.
  { unfold disk_rw. erewrite bind_ok by (by apply run_get_buf). rewrite Hsec.
    erewrite bind_ok by (apply acquire_ok; [apply Hk|apply Hk, static_vdisk]). erewrite bind_ok by exact Hloop.
    do 3 erewrite bind_ok by (apply deref_ok; reflexivity). erewrite bind_ok by exact Hsub. apply bind_swtch. exact HS. }
  intros s7 pr7 bb7 Hk7 Ho7 Hpr7 Hb7 Hd7 Hfl. cbn beta.
  set (s8 := set_k_proc (insertZ p (set_p_chan None pr7) (k_proc s7)) s7).
  rewrite (bind_ok _ _ _ tt (acq L_vdisk s8)).
  2: { apply (Hres s7 pr7); [done|by apply kthread_proc_free|apply Hk7, static_vdisk|done|].
       erewrite bind_ok by (apply run_get_buf; autorewrite with acq; exact Hb7). by rewrite Hd7. }
  destruct (disk_rw_finish s8 b write sector v) as (ps & Hw & HE); [by apply kthread_set_proc|done|exact Hfl|].
  exists ps. split; [exact Hw|]. exact HE.
Qed.

Lemma woken_insert ch x l : insertZ p x (map_from (woken ch None) 0 l) = insertZ p x (map_from (woken ch (Some p)) 0 l).
Proof.
  apply list_eqZ; rewrite !lenZ_insertZ, !length_map_from; [done|]. intros i Hi.
  destruct (decide (p = i)) as [<-|Hne]; [by rewrite !lookupZ_insertZ_eq by (by rewrite length_map_from)|].
  rewrite !lookupZ_insertZ_ne, !lookupZ_map_from by (done || lia). destruct (lookupZ l i); [|done]. simpl. f_equal.
  unfold woken. rewrite !(bool_decide_false (Some i = _)) by congruence. done.
Qed.

(** The scheduler takes a woken process up again where it left off. *)
Lemma reschedule t ps pr : idle t -> cur t = Some p -> 0 <= p < NPROC -> lenZ ps = NPROC -> lookupZ ps p = Some pr ->
  p_state pr = RUNNABLE ->
  exists k, scheduler_body (k_tp (set_k_proc ps (with_cur None t))) (p, false) (set_k_proc ps (with_cur None t)) =
    Swtch (acq (L_proc p) (set_k_proc (insertZ p (set_p_state RUNNING pr) ps) t)) k.
Proof.
  intros Hi Hc Hp Hl Hpr Hst. pose proof (idle_with_cur None _ Hi) as [Hs [_ Hf]].
  destruct (scheduler_picks (set_k_proc ps (with_cur None t)) p false pr) as (k & HE & _); [by repeat split|done..|].
  exists k. rewrite HE. cbn [k_proc set_k_proc].
  change (set_k_proc ?a (set_k_proc ?b ?c)) with (set_k_proc a c).
  rewrite with_cur_set_proc, with_cur_back by done. done.
Qed.

(** The scheduler, the device, the interrupt and the scheduler again. *)
Lemma served_ok t b bb pr id write n K (Hc : cur t = Some p) : idle t -> lock_free L_vdisk t -> 0 <= p < NPROC ->
  lookupZ (k_proc t) p = Some (asleep (C_buf b) pr) -> lookupZ (k_bcache t) b = Some bb ->
  pending (k_vdisk t) id -> request (k_vdisk t) id b n write -> b_blockno bb = n -> 0 <= n < vio_blocks ->
  0 <= ud_idx (vd_used (k_vdisk t)) < 2 ^ 16 -> vd_used_idx (k_vdisk t) = ud_idx (vd_used (k_vdisk t)) ->
  lenZ (ud_ring (vd_used (k_vdisk t))) = NUM -> 0 <= id < lenZ (vd_info_status (k_vdisk t)) ->
  lookupZ (vd_info_b (k_vdisk t)) id = Some (Some b) ->
  exists ps len io bb', woken_by (Some p) (k_proc t) ps /\
    lookupZ (k_bcache (transfer b bb write t)) b = Some bb' /\
    served p (Swtch (acq (L_proc p) t) K) = K (acq (L_proc p)
      (set_k_proc (insertZ p (set_p_state RUNNING (asleep (C_buf b) pr)) ps)
        (set_k_mmio io (set_k_vdisk (set_vd_used_idx (u16 (ud_idx (vd_used (k_vdisk t)) + 1)) (used_up id len (k_vdisk t)))
          (set_k_bcache (insertZ b (set_b_disk 0 bb') (k_bcache (transfer b bb write t))) (transfer b bb write t)))))).
Proof.
  intros Hi Hlv Hp Hpr Hb Hpend Hreq Hbn Hn Hud Hseen Hring Hid Hinfo. pose proof Hi as [Hs [Hlen Hfree]].
  set (s4 := with_cur None t). assert (Hi4 : idle s4) by (by apply idle_with_cur).
  assert (Hcur4 : cur s4 = None) by (by apply with_cur_cur).
  assert (Hsb : switch_back p (acq (L_proc p) t) = Ok (inl (p + 1, true)) s4).
  { unfold switch_back. rewrite bind_modify, with_cur_acq by done. erewrite bind_ok; [reflexivity|].
    apply release_acq; [apply Hi4|]. by apply Hi4. }
  destruct (vio_serves s4 id b bb n write) as (len & Hstep); unfold s4; rewrite ?with_cur_vdisk, ?with_cur_bcache; try done.
  fold s4 in Hstep. unfold s4 in Hstep at 2. rewrite with_cur_vdisk in Hstep.
  set (tr := transfer b bb write t). set (v5 := used_up id len (k_vdisk t)) in *.
  assert (E5 : vio_step s4 = with_cur None (set_k_vdisk v5 tr)).
  { rewrite Hstep. unfold s4. rewrite with_cur_transfer, with_cur_set_vdisk. done. }
  assert (Hbb' : exists bb', lookupZ (k_bcache tr) b = Some bb').
  { unfold tr, transfer. destruct write; simpl; [by exists bb|]. eexists. apply lookupZ_insertZ_eq. by apply lookupZ_Some_range in Hb. }
  destruct Hbb' as [bb' Hbb']. set (t5 := set_k_vdisk v5 tr).
  assert (Hset5 : idle t5 /\ lock_free L_vdisk t5 /\ cur t5 = Some p /\ k_proc t5 = k_proc t).
  { unfold t5, tr, transfer. destruct write; done. }
  destruct Hset5 as (Hi5 & Hlv5 & Hc5 & Hp5).
  destruct (intr_ok (with_cur None t5) b bb' id (mkUsedElem id len)) as (io & HI).
  { by apply idle_with_cur. }
  { destruct Hlv5 as [nm Hnm]. exists nm. by rewrite with_cur_locks. }
  { rewrite with_cur_vdisk. simpl. by rewrite Hseen. }
  { rewrite with_cur_vdisk. simpl. by rewrite Hseen. }
  { rewrite with_cur_vdisk. simpl. rewrite Hseen. apply lookupZ_insertZ_eq. rewrite Hring. apply Z.mod_pos_bound. done. }
  { done. }
  { rewrite with_cur_vdisk. simpl. by apply lookupZ_insertZ_eq. }
  { rewrite with_cur_vdisk. exact Hinfo. }
  { rewrite with_cur_bcache. exact Hbb'. }
  rewrite (with_cur_cur None t5), with_cur_vdisk, with_cur_proc, with_cur_bcache, Hp5 in HI by apply Hi5.
  set (ps := map_from (woken (Some (C_buf b)) None) 0 (k_proc t)) in *.
  set (t6 := set_k_mmio io (set_k_vdisk (set_vd_used_idx (ud_idx (vd_used v5)) v5)
    (set_k_bcache (insertZ b (set_b_disk 0 bb') (k_bcache tr)) tr))).
  assert (E6 : virtio_disk_intr (with_cur None t5) = Ok tt (set_k_proc ps (with_cur None t6))).
  { rewrite HI. f_equal. unfold t6, t5. rewrite !with_cur_set_mmio, !with_cur_set_vdisk, with_cur_set_bcache.
    change (set_k_proc ps (set_k_mmio io (set_k_vdisk (set_vd_used_idx (ud_idx (vd_used v5)) v5)
      (set_k_bcache (insertZ b (set_b_disk 0 bb') (k_bcache tr)) (with_cur None tr))))) with
      (set_k_mmio io (set_k_vdisk (set_vd_used_idx (ud_idx (vd_used v5)) v5) (set_k_proc ps
      (set_k_bcache (insertZ b (set_b_disk 0 bb') (k_bcache tr)) (set_k_vdisk v5 (with_cur None tr)))))). done. }
  clear HI. destruct (reschedule t6 ps (set_p_state RUNNABLE (asleep (C_buf b) pr))) as [k Hk].
  { unfold t6, tr, transfer. by destruct write. }
  { unfold t6, tr, transfer. by destruct write. }
  { done. }
  { unfold ps. rewrite length_map_from. exact Hlen. }
  { unfold ps. rewrite lookupZ_map_from, Hpr by lia. unfold woken. simpl. by rewrite bool_decide_true by done. }
  { done. }
  exists (map_from (woken (Some (C_buf b)) (Some p)) 0 (k_proc t)), len, io, bb'.
  split; [apply woken_by_woken|]. split; [done|].
  unfold served. rewrite (bind_ok _ _ _ _ _ Hsb), bind_modify, E5. fold t5. rewrite E6, Hk.
  unfold ps. rewrite woken_insert. done.
Qed.

(** The process is as it was before it slept; the others may have been woken. *)
Lemma woken_by_restore x pr l ps : lookupZ l p = Some pr -> woken_by (Some p) (insertZ p x l) ps ->
  woken_by (Some p) l (insertZ p pr ps).
Proof.
  intros Hp [Hl H]. pose proof (lookupZ_Some_range _ _ _ Hp). rewrite lenZ_insertZ in Hl. split; [by rewrite lenZ_insertZ|].
  intros i q Hi. destruct (decide (i = p)) as [->|Hne].
  - left. rewrite lookupZ_insertZ_eq by lia. congruence.
  - rewrite lookupZ_insertZ_ne by done. apply H. by rewrite lookupZ_insertZ_ne.
Qed.

(** The flag [b->disk] is back, and the block has moved. *)
Lemma transfer_done s t b bb bb' write : lookupZ (k_bcache s) b = Some bb -> b_disk bb = 0 ->
  k_bcache t = insertZ b (set_b_disk 1 bb) (k_bcache s) -> k_disk t = k_disk s ->
  lookupZ (k_bcache (transfer b (set_b_disk 1 bb) write t)) b = Some bb' ->
  let tr := transfer b (set_b_disk 1 bb) write t in
  insertZ b (set_b_disk 0 bb') (k_bcache tr) = k_bcache (transfer b bb write s) /\ k_disk tr = k_disk (transfer b bb write s).
Proof.
  intros Hb Hd Et Ed Hb'. pose proof (lookupZ_Some_range _ _ _ Hb) as Hr. 
  assert (Hbb : set_b_disk 0 (set_b_disk 1 bb) = bb) by (rewrite <- Hd; by destruct bb).
  assert (Hbd : forall d, set_b_disk 0 (set_b_data d (set_b_disk 1 bb)) = set_b_data d bb) by (intros d; rewrite <- Hd; by destruct bb).
  unfold transfer in *. destruct write; cbn [k_bcache k_disk set_k_bcache set_k_disk b_blockno b_data set_b_disk] in *;
    rewrite Et, Ed in *; (split; [|done]); rewrite lookupZ_insertZ_eq in Hb' by (by rewrite ?lenZ_insertZ); simplify_eq.
  - rewrite insertZ_insertZ, Hbb. by apply insertZ_id.
  - rewrite !insertZ_insertZ. f_equal. apply Hbd.
Qed.

Lemma retired_idle b write sector v len : vd_idle v -> 
  let w := submitted b write sector (set_vd_free [0; 0; 0; 1; 1; 1; 1; 1] v) in
  vd_idle (retired (set_vd_used_idx (u16 (ud_idx (vd_used w) + 1)) (used_up 0 len w))).
Proof.
  intros [H1 H2 H3 H4 H5 H6 H7 H8 H9 H10]. cbn zeta. split; cbn -[insertZ u16 lenZ]; rewrite ?lenZ_insertZ; try done.
  - apply Z.mod_pos_bound. lia.
  - by rewrite H10.
Qed.

Lemma virtio_rw_ok s b bb write : running en p pid s -> vd_idle (k_vdisk s) -> 
  lookupZ (k_bcache s) b = Some bb -> b_disk bb = 0 -> 0 <= b_blockno bb < vio_blocks ->
  exists ps vd io, woken_by (Some p) (k_proc s) ps /\ vd_idle vd /\
    virtio_driver b write s = Ok tt (set_k_mmio io (set_k_vdisk vd (set_k_proc ps (transfer b bb write s)))).
Proof.
  intros Hr Hv Hb Hd Hn. pose proof vio_blocks_max as Hmax. pose proof Hr as [Hk Ho (pr & Hpr & _ & Hst & Hch)].
  destruct (disk_rw_sleeps s b bb pr write Hr Hv Hb Hpr ltac:(lia)) as (io0 & K & HS & HK). cbn zeta in HK.
  set (v := set_vd_free [0; 0; 0; 1; 1; 1; 1; 1] (k_vdisk s)) in *. set (w := submitted b write (2 * b_blockno bb) v) in *.
  set (t := set_k_proc _ _) in HS. assert (Hkt : kthread p t) by (apply (kthread_ext p s); [done..| |done]; apply lenZ_insertZ).
  destruct (submitted_pending b write (2 * b_blockno bb) v (b_blockno bb)) as (Hpend & Hreq & Hinfo & Hstat); [|done|].
  { destruct Hv; by split. }
  pose proof (lookupZ_Some_range _ _ _ Hb) as Hbr. pose proof (kt_range _ _ Hk) as Hp.
  destruct (served_ok t b (set_b_disk 1 bb) pr 0 write (b_blockno bb) K) as (ps1 & len & io & bb' & Hw1 & Hb' & HE);
    try done; try (by apply Hv).
  { apply Hkt. }
  { split; [apply Hkt|by eapply kthread_locks]. }
  { apply Hkt, static_vdisk. }
  { apply lookupZ_insertZ_eq. by rewrite (kt_len _ _ Hk). }
  { by apply lookupZ_insertZ_eq. }
  { by apply lookupZ_Some_range in Hstat. }
  set (s7 := set_k_proc _ _) in HE.
  destruct (transfer_done s t b bb bb' write Hb Hd) as [Ec Ed]; [done..|].
  assert (Hl1 : lenZ ps1 = NPROC) by (rewrite (proj1 Hw1); apply Hkt).
  destruct (HK s7 (set_p_state RUNNING (asleep (C_buf b) pr)) (set_b_disk 0 bb')) as (ps2 & Hw2 & HF).
  { apply (kthread_ext p s); unfold s7, transfer; [by destruct write..| |done]. cbn [k_proc set_k_proc].
    by rewrite lenZ_insertZ, Hl1, (kt_len _ _ Hk). }
  { destruct Ho as (h & c & Hh & Hc & Ho). exists h, c. unfold s7, transfer. by destruct write. }
  { apply lookupZ_insertZ_eq. by rewrite Hl1. }
  { apply lookupZ_insertZ_eq. by apply lookupZ_Some_range in Hb'. }
  { done. }
  { split; [done|]. split; [done|]. change (lenZ (insertZ 0 (Some b) (vd_info_b v)) = NUM). rewrite lenZ_insertZ. apply Hv. }
  assert (Epr : set_p_chan None (set_p_state RUNNING (asleep (C_buf b) pr)) = pr).
  { rewrite <- Hst, <- Hch at 1. by destruct pr. }
  exists ps2, (retired (k_vdisk s7)), io. split; [|split].
  - transitivity (insertZ p pr ps1); [by apply (woken_by_restore (asleep (C_buf b) pr))|].
    cbn [s7 k_proc set_k_proc] in Hw2. by rewrite Epr, insertZ_insertZ in Hw2.
  - by apply retired_idle.
  - unfold virtio_driver. rewrite (kt_cur _ _ Hk), HS, HE, HF. f_equal.
    generalize (retired (k_vdisk s7)). intros vd. unfold s7. rewrite Ec. clear. unfold t, transfer.
    destruct write; reflexivity.
Qed.

End Request.

(** The driver keeps what the layers above it rely on. *)
Definition virtio_laws {IO : Mmio} {VD : VirtioDevice} {PT : Patience} (Hpat : (1 < patience)%nat) :
  @DiskLaws virtio_driver.
Proof.
  refine {| disk_ready := fun s => vd_idle (k_vdisk s); disk_blocks := vio_blocks; disk_blocks_max := vio_blocks_max |}.
  - intros s s' ->. done.
  - intros en p pid s b bb write Hr Hv _ Hb Hd Hn.
    destruct (virtio_rw_ok Hpat en p pid s b bb write Hr Hv Hb Hd Hn) as (ps & vd & io & Hw & Hi & HE).
    exists ps, vd, io. done.
Defined.

(** ** The theorems *)

(** C2: a disk request runs from the call to the return.  Called by a running
    process with the rings idle, [virtio_disk_rw] builds a chain of three
    descriptors, notifies the device and sleeps; the scheduler runs, the
    device serves the request, its interrupt wakes the process, and the
    scheduler resumes it; the driver frees the chain and returns.  In the end
    the block has moved in the direction asked for, the flag [b->disk] and
    the rings are as before the call (so the next request can be made), and
    no process but sleepers that were woken has changed: what the buffer
    cache relies on of its driver. *)
Theorem virtio_disk_rw_transfers {IO : Mmio} {VD : VirtioDevice} {PT : Patience} en p pid s b bb write :
  (1 < patience)%nat -> running en p pid s -> vd_idle (k_vdisk s) ->
  lookupZ (k_bcache s) b = Some bb -> b_disk bb = 0 -> 0 <= b_blockno bb < vio_blocks ->
  exists ps vd io, woken_by (Some p) (k_proc s) ps /\ vd_idle vd /\
    virtio_driver b write s = Ok tt (set_k_mmio io (set_k_vdisk vd (set_k_proc ps (transfer b bb write s)))).
Proof. intros Hpat. by apply virtio_rw_ok. Qed.

(** *** A device that serves one request at a time *)

Definition demo_serve (s : kstate) : kstate :=
  let v := k_vdisk s in
  default s (
    id ← lookupZ (av_ring (vd_avail v)) (ud_idx (vd_used v) mod NUM);
    op ← lookupZ (vd_ops v) id;
    d0 ← lookupZ (vd_desc v) id;
    d1 ← lookupZ (vd_desc v) (vq_next d0);
    match vq_addr d1 with
    | DMA_data b =>
        bb ← lookupZ (k_bcache s) b;
        Some (set_k_vdisk (used_up id BSIZE v)
          (transfer b (set_b_blockno (req_sector op / 2) bb) (req_type op =? VIRTIO_BLK_T_OUT) s))
    | _ => None
    end).

Definition demo_device : VirtioDevice.
Proof.
  refine {| vio_step := demo_serve; vio_blocks := 2000 |}.
  - lia.
  - intros s id b bb n write [_ Hid] (i1 & i2 & Hop & Hd0 & Hd1 & _) Hb Hn _. exists BSIZE. unfold demo_serve. 
    rewrite Hid. simpl. rewrite Hop. simpl. rewrite Hd0. simpl. rewrite Hd1. simpl. rewrite Hb. simpl.
    rewrite Z.mul_comm, Z.div_mul, <- Hn by lia. replace (set_b_blockno (b_blockno bb) bb) with bb by (by destruct bb). by destruct write.
Defined.

Definition demo_mmio : Mmio := {| mmio_read := fun _ _ => 1; mmio_polls := 1 |}.

Definition demo_idle_disk : vdisk := set_vd_free (replicate 8 1) zero_vdisk.

Lemma virtio_disk_rw_transfers_witness : exists s',
  @virtio_driver demo_mmio demo_device demo_patience 3 true (set_k_vdisk demo_idle_disk (demo_run (mkDisk ∅ []))) = Ok tt s'.
Proof.
  destruct (@virtio_disk_rw_transfers demo_mmio demo_device demo_patience true 5 9
    (set_k_vdisk demo_idle_disk (demo_run (mkDisk ∅ []))) 3 zero_buf true) as (ps & vd & io & _ & _ & HE).
  - simpl; lia.
  - apply (running_ext true 5 9 (demo_run (mkDisk ∅ []))); [reflexivity..| |apply demo_running]. reflexivity.
  - by split.
  - reflexivity.
  - reflexivity.
  - done.
  - eexists. exact HE.
Defined.
