(* ===== verification/Main.v ===== *)
(** * Boot ([kernel/start.c], [kernel/main.c]) *)

From S2P Require Import Prelude Riscv State Spinlock Str Kalloc Copy Sched Sleeplock Csr Kvm Uart Printf.
From S2P Require Import Pipe Console FsLayout Bio Log Fs File Proc Syscall Exec Sysfile Trap Virtio.

(** ** Definitions *)

Definition timerinit : M unit :=
  mie <- r_mie;;
  w_mie (Z.lor mie MIE_STIE);;
  e <- r_menvcfg;;
  w_menvcfg (Z.lor e (Z.shiftl 1 63));;
  c <- r_mcounteren;;
  w_mcounteren (Z.lor c 2);;
  t <- r_time;;
  w_stimecmp (t + 1000000).

(** Up to the [mret], which enters [main] in supervisor mode. *)
Definition start {KT : KernelText} : M unit :=
  x <- r_mstatus;;
  let x := Z.land x (u64 (Z.lnot MSTATUS_MPP_MASK)) in
  let x := Z.lor x MSTATUS_MPP_S in
  w_mstatus x;;
  w_mepc ld_main;;
  w_satp 0;;
  w_medeleg 0xffff;;
  w_mideleg 0xffff;;
  sie <- r_sie;;
  w_sie (Z.lor (Z.lor (Z.lor sie SIE_SEIE) SIE_STIE) SIE_SSIE);;
  w_pmpaddr0 0x3fffffffffffff;;
  w_pmpcfg0 0xf;;
  timerinit;;
  id <- r_mhartid;;
  w_tp (i32 id).

Section Main.
Context {KI : KernelImage} {KT : KernelText} {IO : Mmio} {PT : Patience} {DD : DiskDriver}.

(** [main] up to its call of [scheduler]; the other harts spin until hart 0
    has set [started]. *)
Definition main : M unit :=
  id <- cpuid;;
  if id =? 0 then
    consoleinit;;
    printfinit;;
    printf [NL] [];;
    printf (chars "xv6 kernel is booting" ++ [NL]) [];;
    printf [NL] [];;
    kinit;;
    kvminit;;
    kvminithart;;
    procinit;;
    trapinit;;
    trapinithart;;
    plicinit;;
    plicinithart;;
    binit;;
    iinit;;
    fileinit;;
    virtio_disk_init;;
    userinit;;
    modify (set_k_started 1)
  else
    started <- gets k_started;;
    if started =? 0 then fail OutOfFuel else
    id <- cpuid;;
    printf (chars "hart %d starting" ++ [NL]) [VInt id];;
    kvminithart;;
    trapinithart;;
    plicinithart.

End Main.
