(* ===== verification/Asm.v ===== *)
(** * The assembly files ([kernel/trampoline.S], [swtch.S], [kernelvec.S],
    [entry.S], [user/initcode.S])

    Code is the list of its instructions, run on the registers of a hart, its
    control registers and the physical memory.  Loads and stores go through
    the page table in [satp], as supervisor mode sees it.  Instructions are
    fetched from the list: that the trampoline is mapped at the same address
    in all page tables is not part of the model.  The effect of a C function
    that the code calls is a parameter. *)

From S2P Require Import Prelude Riscv State Spinlock Kalloc Vm Csr Printf Proc Syscall.

(** ** Definitions *)

(** *** The machine *)

Inductive reg :=
| ra | sp | gp | tp | t0 | t1 | t2 | s0 | s1 | a0 | a1 | a2 | a3 | a4 | a5 | a6 | a7
| s2 | s3 | s4 | s5 | s6 | s7 | s8 | s9 | s10 | s11 | t3 | t4 | t5 | t6.
#[global] Instance reg_eq_dec : EqDecision reg.
Proof. solve_decision. Defined.

Inductive csr := sscratch | satp | mhartid.

Inductive insn :=
| sd (r : reg) (off : Z) (b : reg)
| ld (r : reg) (off : Z) (b : reg)
| li (r : reg) (v : Z)
| la (r : reg) (v : Z)
| addi (rd rs : reg) (imm : Z)
| add (rd r1 r2 : reg)
| mul (rd r1 r2 : reg)
| csrr (r : reg) (c : csr)
| csrw (c : csr) (r : reg)
| sfence_vma
| call (f : string)
| jr (r : reg)
| ret
| sret
| ecall.

Record mach := mkMach {
  m_reg : reg -> Z;
  m_hart : hart;
  m_sscratch : Z;
  m_mem : mem;
}.
Definition set_m_reg (x : reg -> Z) (s : mach) : mach := mkMach x (m_hart s) (m_sscratch s) (m_mem s).
Definition set_m_hart (x : hart) (s : mach) : mach := mkMach (m_reg s) x (m_sscratch s) (m_mem s).
Definition set_m_sscratch (x : Z) (s : mach) : mach := mkMach (m_reg s) (m_hart s) x (m_mem s).
Definition set_m_mem (x : mem) (s : mach) : mach := mkMach (m_reg s) (m_hart s) (m_sscratch s) x.

Definition upd (f : reg -> Z) (r : reg) (v : Z) : reg -> Z := fun r' => if decide (r' = r) then v else f r'.
Definition rput (r : reg) (v : Z) (s : mach) : mach := set_m_reg (upd (m_reg s) r (u64 v)) s.

(** The physical address of [va] for a store or a load in supervisor mode:
    no translation when the mode of [satp] is 0, the Sv39 page table when it
    is 8; a page of user mode may not be accessed. *)
Definition satp_root (x : Z) : Z := Z.shiftl (Z.land x (2 ^ 44 - 1)) 12.
Definition translate (x : Z) (m : mem) (store : bool) (va : Z) : option Z :=
  if Z.shiftr x 60 =? 0 then Some va
  else if Z.shiftr x 60 =? 8 then
    let pte := pte_of m (satp_root x) va in
    if (0 <=? va) && (va <? MAXVA) && truth (Z.land pte PTE_V) && truth (Z.land pte (if store then PTE_W else PTE_R)) && negb (truth (Z.land pte PTE_U))
    then Some (PTE2PA pte + va mod PGSIZE) else None
  else None.

(** A doubleword at the address [b + off]; [None] is a fault. *)
Definition ea (s : mach) (store : bool) (b : reg) (off : Z) : option Z :=
  let va := u64 (m_reg s b + off) in
  if va mod 8 =? 0 then translate (h_satp (m_hart s)) (m_mem s) store va else None.

Definition csr_get (c : csr) (s : mach) : Z :=
  match c with
  | sscratch => m_sscratch s
  | satp => h_satp (m_hart s)
  | mhartid => h_mhartid (m_hart s)
  end.
Definition csr_put (c : csr) (v : Z) (s : mach) : mach :=
  match c with
  | sscratch => set_m_sscratch v s
  | satp => set_m_hart (set_h_satp v (m_hart s)) s
  | mhartid => s
  end.

(** [sret]: the interrupt enable is restored, and the previous mode is user
    from now on. *)
Definition sret_status (x : Z) : Z :=
  let x' := Z.land x (Z.lnot SSTATUS_SIE) in
  let x' := if truth (Z.land x SSTATUS_SPIE) then Z.lor x' SSTATUS_SIE else x' in
  Z.land (Z.lor x' SSTATUS_SPIE) (Z.lnot SSTATUS_SPP).

(** How code ends: it jumps to [pc], it calls a function that does not
    return, it leaves for [pc] in user or supervisor mode, it traps into the
    kernel with the rest of the code to do, it faults, or it runs out. *)
Inductive outcome :=
| Jump (pc : Z) (s : mach)
| Calls (f : string) (s : mach)
| Enter (user : bool) (pc : Z) (s : mach)
| Traps (rest : list insn) (s : mach)
| Faults
| Ends.

(** [callee f] is what a call of [f] does when it returns; [link] is the
    return address. *)
Fixpoint run (callee : string -> mach -> option mach) (link : Z) (code : list insn) (s : mach) : outcome :=
  match code with
  | [] => Ends
  | i :: code' =>
    let go := run callee link code' in
    match i with
    | sd r off b =>
      match ea s true b off with
      | Some pa => go (set_m_mem (store64 (m_mem s) pa (m_reg s r)) s)
      | None => Faults
      end
    | ld r off b =>
      match ea s false b off with
      | Some pa => go (rput r (load64 (m_mem s) pa) s)
      | None => Faults
      end
    | li r v => go (rput r v s)
    | la r v => go (rput r v s)
    | addi rd rs imm => go (rput rd (m_reg s rs + imm) s)
    | add rd r1 r2 => go (rput rd (m_reg s r1 + m_reg s r2) s)
    | mul rd r1 r2 => go (rput rd (m_reg s r1 * m_reg s r2) s)
    | csrr r c => go (rput r (csr_get c s) s)
    | csrw c r => go (csr_put c (m_reg s r) s)
    | sfence_vma => go s
    | call f =>
      match callee f (rput ra link s) with
      | Some s' => go s'
      | None => Calls f (rput ra link s)
      end
    | jr r => Jump (m_reg s r) s
    | ret => Jump (m_reg s ra) s
    | sret =>
      let x := h_sstatus (m_hart s) in
      Enter (negb (truth (Z.land x SSTATUS_SPP))) (h_sepc (m_hart s)) (set_m_hart (set_h_sstatus (sret_status x) (m_hart s)) s)
    | ecall => Traps code' s
    end
  end.

(** *** The code *)

Definition uservec : list insn := [
  csrw sscratch a0; li a0 TRAPFRAME; sd ra 40 a0; sd sp 48 a0; sd gp 56 a0; sd tp 64 a0;
  sd t0 72 a0; sd t1 80 a0; sd t2 88 a0; sd s0 96 a0; sd s1 104 a0; sd a1 120 a0;
  sd a2 128 a0; sd a3 136 a0; sd a4 144 a0; sd a5 152 a0; sd a6 160 a0; sd a7 168 a0;
  sd s2 176 a0; sd s3 184 a0; sd s4 192 a0; sd s5 200 a0; sd s6 208 a0; sd s7 216 a0;
  sd s8 224 a0; sd s9 232 a0; sd s10 240 a0; sd s11 248 a0; sd t3 256 a0; sd t4 264 a0;
  sd t5 272 a0; sd t6 280 a0; csrr t0 sscratch; sd t0 112 a0; ld sp 8 a0; ld tp 32 a0;
  ld t0 16 a0; ld t1 0 a0; sfence_vma; csrw satp t1; sfence_vma; jr t0].

Definition userret : list insn := [
  sfence_vma; csrw satp a0; sfence_vma; li a0 TRAPFRAME; ld ra 40 a0; ld sp 48 a0;
  ld gp 56 a0; ld tp 64 a0; ld t0 72 a0; ld t1 80 a0; ld t2 88 a0; ld s0 96 a0;
  ld s1 104 a0; ld a1 120 a0; ld a2 128 a0; ld a3 136 a0; ld a4 144 a0; ld a5 152 a0;
  ld a6 160 a0; ld a7 168 a0; ld s2 176 a0; ld s3 184 a0; ld s4 192 a0; ld s5 200 a0;
  ld s6 208 a0; ld s7 216 a0; ld s8 224 a0; ld s9 232 a0; ld s10 240 a0; ld s11 248 a0;
  ld t3 256 a0; ld t4 264 a0; ld t5 272 a0; ld t6 280 a0; ld a0 112 a0; sret].

Definition swtch : list insn := [
  sd ra 0 a0; sd sp 8 a0; sd s0 16 a0; sd s1 24 a0; sd s2 32 a0; sd s3 40 a0;
  sd s4 48 a0; sd s5 56 a0; sd s6 64 a0; sd s7 72 a0; sd s8 80 a0; sd s9 88 a0;
  sd s10 96 a0; sd s11 104 a0; ld ra 0 a1; ld sp 8 a1; ld s0 16 a1; ld s1 24 a1;
  ld s2 32 a1; ld s3 40 a1; ld s4 48 a1; ld s5 56 a1; ld s6 64 a1; ld s7 72 a1;
  ld s8 80 a1; ld s9 88 a1; ld s10 96 a1; ld s11 104 a1; ret].

Definition kernelvec : list insn := [
  addi sp sp (-256); sd ra 0 sp; sd sp 8 sp; sd gp 16 sp; sd tp 24 sp; sd t0 32 sp;
  sd t1 40 sp; sd t2 48 sp; sd a0 72 sp; sd a1 80 sp; sd a2 88 sp; sd a3 96 sp;
  sd a4 104 sp; sd a5 112 sp; sd a6 120 sp; sd a7 128 sp; sd t3 216 sp; sd t4 224 sp;
  sd t5 232 sp; sd t6 240 sp; call "kerneltrap"; ld ra 0 sp; ld sp 8 sp; ld gp 16 sp;
  ld t0 32 sp; ld t1 40 sp; ld t2 48 sp; ld a0 72 sp; ld a1 80 sp; ld a2 88 sp;
  ld a3 96 sp; ld a4 104 sp; ld a5 112 sp; ld a6 120 sp; ld a7 128 sp; ld t3 216 sp;
  ld t4 224 sp; ld t5 232 sp; ld t6 240 sp; addi sp sp 256; sret].

(** [stack0] is the address of the stacks; [start] does not return. *)
Definition _entry (stack0 : Z) : list insn := [
  la sp stack0; li a0 (1024 * 4); csrr a1 mhartid; addi a1 a1 1; mul a0 a0 a1;
  add sp sp a0; call "start"].

(** The offsets of the registers in [struct trapframe] and in [struct
    context]. *)
Definition tf_off (r : reg) : Z :=
  match r with
  | ra => 40 | sp => 48 | gp => 56 | tp => 64 | t0 => 72 | t1 => 80 | t2 => 88 | s0 => 96 | s1 => 104
  | a0 => 112 | a1 => 120 | a2 => 128 | a3 => 136 | a4 => 144 | a5 => 152 | a6 => 160 | a7 => 168
  | s2 => 176 | s3 => 184 | s4 => 192 | s5 => 200 | s6 => 208 | s7 => 216 | s8 => 224 | s9 => 232
  | s10 => 240 | s11 => 248 | t3 => 256 | t4 => 264 | t5 => 272 | t6 => 280
  end.
Definition context_regs : list (reg * Z) :=
  [(ra, 0); (sp, 8); (s0, 16); (s1, 24); (s2, 32); (s3, 40); (s4, 48); (s5, 56); (s6, 64); (s7, 72); (s8, 80); (s9, 88); (s10, 96); (s11, 104)].

(** *** The first process *)

(** The instructions that [initcode.S] assembles to. *)
Inductive uinsn :=
| auipc (rd : reg) (imm : Z)
| uaddi (rd : reg) (rs : option reg) (imm : Z)
| uecall
| ujal (rd : reg) (off : Z).

(** The code of [initcode.S]; the offsets of the labels [init] and [argv] are
    those of the array. *)
Definition initcode_S : list uinsn := [
  auipc a0 0; uaddi a0 (Some a0) 36;   (* la a0, init *)
  auipc a1 0; uaddi a1 (Some a1) 35;   (* la a1, argv *)
  uaddi a7 None SYS_exec; uecall;
  uaddi a7 None SYS_exit; uecall; ujal ra (-8)].

(** The decoding of a 32-bit instruction; register 0 is [None]. *)
Definition reg_list : list reg :=
  [ra; sp; gp; tp; t0; t1; t2; s0; s1; a0; a1; a2; a3; a4; a5; a6; a7; s2; s3; s4; s5; s6; s7; s8; s9; s10; s11; t3; t4; t5; t6].
Definition reg_of (n : Z) : option reg := lookupZ reg_list (n - 1).
Definition field (w lo n : Z) : Z := Z.land (Z.shiftr w lo) (Z.ones n).
Definition sext (n x : Z) : Z := if Z.testbit x (n - 1) then x - 2 ^ n else x.
Definition imm_i (w : Z) : Z := sext 12 (field w 20 12).
Definition imm_u (w : Z) : Z := sext 32 (Z.shiftl (field w 12 20) 12).
Definition imm_j (w : Z) : Z :=
  sext 21 (Z.shiftl (field w 31 1) 20 + Z.shiftl (field w 12 8) 12 + Z.shiftl (field w 20 1) 11 + Z.shiftl (field w 21 10) 1).
Definition decode (w : Z) : option uinsn :=
  let op := field w 0 7 in
  if op =? 0x17 then rd ← reg_of (field w 7 5); Some (auipc rd (imm_u w))
  else if (op =? 0x13) && (field w 12 3 =? 0) then rd ← reg_of (field w 7 5); Some (uaddi rd (reg_of (field w 15 5)) (imm_i w))
  else if w =? 0x73 then Some uecall
  else if op =? 0x6f then rd ← reg_of (field w 7 5); Some (ujal rd (imm_j w))
  else None.

(** Execution from [pc] in user mode up to the next [ecall]: the address of
    the [ecall] and the registers there. *)
Fixpoint until_ecall (fuel : nat) (m : mem) (pc : Z) (f : reg -> Z) : option (Z * (reg -> Z)) :=
  match fuel with
  | O => None
  | S fuel' =>
    i ← decode (load32 m pc);
    match i with
    | auipc rd imm => until_ecall fuel' m (pc + 4) (upd f rd (u64 (pc + imm)))
    | uaddi rd rs imm => until_ecall fuel' m (pc + 4) (upd f rd (u64 (from_option f 0 rs + imm)))
    | uecall => Some (pc, f)
    | ujal rd off => until_ecall fuel' m (pc + off) (upd f rd (u64 (pc + 4)))
    end
  end.

(** ** Specification *)

(** The [n] bytes from the virtual address [va] on are at [pa], and no table
    of the page table is among them. *)
Record reaches (x : Z) (m : mem) (va pa n : Z) : Prop := {
  re_range : 0 <= va /\ va + n <= 2 ^ 64;
  re_align : va mod 8 = 0;
  re_map : forall st o, 0 <= o -> o + 8 <= n -> o mod 8 = 0 -> translate x m st (va + o) = Some (pa + o);
  re_apart : Z.shiftr x 60 = 8 -> forall p y, is_table m (satp_root x) p -> in_page p y -> ~ (pa <= y < pa + n);
}.

(** Registers are 64-bit numbers. *)
Definition regs_ok (s : mach) : Prop := forall r, 0 <= m_reg s r < 2 ^ 64.

(** A sequence of stores of, or loads to, registers relative to [b]. *)
Definition saves (b : reg) (l : list (reg * Z)) : list insn := (fun p => sd p.1 p.2 b) <$> l.
Definition loads (b : reg) (l : list (reg * Z)) : list insn := (fun p => ld p.1 p.2 b) <$> l.
Definition slots_ok (n : Z) (l : list (reg * Z)) : Prop := Forall (fun p => 0 <= p.2 /\ p.2 + 8 <= n /\ p.2 mod 8 = 0) l.
Definition save_all (pa : Z) (f : reg -> Z) (l : list (reg * Z)) (m : mem) : mem := foldl (fun m p => store64 m (pa + p.2) (f p.1)) m l.
Definition load_all (pa : Z) (m : mem) (l : list (reg * Z)) (f : reg -> Z) : reg -> Z := foldl (fun f p => upd f p.1 (load64 m (pa + p.2))) f l.

(** ** Lemmas *)

Lemma upd_eq f r v : upd f r v r = v.
Proof. unfold upd. by rewrite decide_True. Qed.

Lemma upd_ne f r r' v : r' <> r -> upd f r v r' = f r'.
Proof. intros H. unfold upd. by rewrite decide_False. Qed.

(** Stores outside of the page table keep the translation. *)
Lemma reaches_tables x m m' va pa n : reaches x m va pa n -> (Z.shiftr x 60 = 8 -> forall p y, is_table m (satp_root x) p -> in_page p y -> mget m' y = mget m y) -> reaches x m' va pa n.
Proof.
  intros [R1 R2 R3 R4] Ht. split; [done|done| |].
  - intros st o H1 H2 H3. rewrite <- (R3 st o H1 H2 H3). unfold translate. destruct (Z.shiftr x 60 =? 0); [done|]. destruct (Z.eqb_spec (Z.shiftr x 60) 8) as [E|]; [|done].
    by rewrite (pte_of_ext m m' (satp_root x) _ (Ht E)).
  - intros E p y (path & Hok & Hp) Hy. rewrite (table_at_ext m m' (satp_root x) (Ht E) path Hok) in Hp. apply (R4 E p); [by exists path|done].
Qed.

Lemma reaches_store x m m' va pa n va2 pa2 n2 : reaches x m va pa n -> reaches x m va2 pa2 n2 -> (forall y, ~ (pa <= y < pa + n) -> mget m' y = mget m y) -> reaches x m' va2 pa2 n2.
Proof. intros R R2 Hm. apply (reaches_tables _ _ _ _ _ _ R2). intros E p y Hp Hy. apply Hm. by apply (re_apart _ _ _ _ _ R E p). Qed.

Lemma reaches_ext x m m' va pa n : reaches x m va pa n -> (forall y, ~ (pa <= y < pa + n) -> mget m' y = mget m y) -> reaches x m' va pa n.
Proof. intros R. by apply (reaches_store _ _ _ _ _ _ _ _ _ R). Qed.

Lemma reaches_ea s st b o va pa n : m_reg s b = va -> reaches (h_satp (m_hart s)) (m_mem s) va pa n -> 0 <= o -> o + 8 <= n -> o mod 8 = 0 -> ea s st b o = Some (pa + o).
Proof.
  intros Hb [[R0 R1] R2 R3 _] H1 H2 H3. unfold ea. rewrite Hb, u64_small by lia. rewrite Z.add_mod, R2, H3 by lia. cbn. by apply R3.
Qed.

(** *** Stores *)

Lemma save_all_out pa f l m y : Forall (fun p => ~ (pa + p.2 <= y < pa + p.2 + 8)) l -> mget (save_all pa f l m) y = mget m y.
Proof.
  revert m. induction l as [|[r o] l IH]; intros m HF; [done|]. inversion HF as [|? ? Ho HF']; subst. cbn in Ho.
  change (save_all pa f ((r, o) :: l) m) with (save_all pa f l (store64 m (pa + o) (f r))). rewrite IH by done. apply mget_store64_out. lia.
Qed.

Lemma save_all_in pa f l m r o : slots_ok 4096 l -> NoDup l.*2 -> (r, o) ∈ l -> load64 (save_all pa f l m) (pa + o) = u64 (f r).
Proof.
  revert m. induction l as [|[r' o'] l IH]; intros m Hs Hnd Hin; [by apply not_elem_of_nil in Hin|]. inversion Hs as [|? ? Ho Hs']; subst. rewrite fmap_cons in Hnd. apply NoDup_cons in Hnd as [Hn Hnd]. cbn in Ho, Hn.
  apply elem_of_cons in Hin as [[= <- <-]|Hin]; [|by apply IH]. cbn [save_all foldl fst snd]. fold (save_all pa f l (store64 m (pa + o) (f r))). rewrite <- (load64_store64 m (pa + o)). apply load64_ext. intros y Hy.
  apply save_all_out. apply Forall_forall. intros [r2 o2] Hin. unfold slots_ok in Hs'. rewrite Forall_forall in Hs'. pose proof (Hs' _ Hin) as (H1 & H2 & H3). cbn in *.
  assert (o2 <> o) by (intros ->; apply Hn; apply list_elem_of_fmap; by exists (r2, o)). Z.div_mod_to_equations. lia.
Qed.

Lemma run_saves callee link b va pa n l : forall s rest, m_reg s b = va -> reaches (h_satp (m_hart s)) (m_mem s) va pa n -> slots_ok n l ->
  run callee link (saves b l ++ rest) s = run callee link rest (set_m_mem (save_all pa (m_reg s) l (m_mem s)) s).
Proof.
  induction l as [|[r o] l IH]; intros s rest Hb R Hs; [by destruct s|]. inversion Hs as [|? ? (H1 & H2 & H3) Hs']; subst. cbn in H1, H2, H3.
  cbn [saves fmap list_fmap app run fst snd]. rewrite (reaches_ea s true b o _ pa n eq_refl R H1 H2 H3). fold (saves b l). rewrite IH; [done|done| |done].
  apply (reaches_ext _ _ _ _ _ _ R). intros y Hy. apply mget_store64_out. lia.
Qed.

(** *** Loads *)

Lemma load_all_out pa m l f r : r ∉ l.*1 -> load_all pa m l f r = f r.
Proof.
  revert f. induction l as [|[r' o'] l IH]; intros f Hr; [done|]. rewrite fmap_cons in Hr. apply not_elem_of_cons in Hr as [Hne Hr]. cbn [load_all foldl fst snd]. fold (load_all pa m l (upd f r' (load64 m (pa + o')))).
  rewrite IH by done. by apply upd_ne.
Qed.

Lemma load_all_in pa m l f r o : NoDup l.*1 -> (r, o) ∈ l -> load_all pa m l f r = load64 m (pa + o).
Proof.
  revert f. induction l as [|[r' o'] l IH]; intros f Hnd Hin; [by apply not_elem_of_nil in Hin|]. rewrite fmap_cons in Hnd. apply NoDup_cons in Hnd as [Hn Hnd]. cbn [load_all foldl fst snd]. fold (load_all pa m l (upd f r' (load64 m (pa + o')))).
  apply elem_of_cons in Hin as [[= <- <-]|Hin]; [rewrite load_all_out by done; apply upd_eq|by apply IH].
Qed.

Lemma run_loads callee link b va pa n l : forall s rest, m_reg s b = va -> reaches (h_satp (m_hart s)) (m_mem s) va pa n -> slots_ok n l ->
  (forall o, (b, o) ∈ l -> load64 (m_mem s) (pa + o) = va) ->
  run callee link (loads b l ++ rest) s = run callee link rest (set_m_reg (load_all pa (m_mem s) l (m_reg s)) s).
Proof.
  induction l as [|[r o] l IH]; intros s rest Hb R Hs Hbo; [by destruct s|]. inversion Hs as [|? ? (H1 & H2 & H3) Hs']; subst. cbn in H1, H2, H3.
  cbn [loads fmap list_fmap app run fst snd]. rewrite (reaches_ea s false b o _ pa n eq_refl R H1 H2 H3). fold (loads b l). unfold rput. rewrite (u64_small (load64 _ _)) by apply load64_range.
  rewrite IH; [done| |done|done|].
  - cbn [m_reg set_m_reg]. destruct (decide (b = r)) as [->|Hne]; [rewrite upd_eq; apply Hbo; left|by apply upd_ne].
  - intros o' Ho'. apply Hbo. by right.
Qed.

(** The other instructions, as equations. *)
Create HintDb asm.
Section Equations.
Context (callee : string -> mach -> option mach) (link : Z) (rest : list insn) (s : mach).

Lemma run_li r v : run callee link (li r v :: rest) s = run callee link rest (rput r v s).
Proof. reflexivity. Qed.
Lemma run_la r v : run callee link (la r v :: rest) s = run callee link rest (rput r v s).
Proof. reflexivity. Qed.
Lemma run_addi rd rs imm : run callee link (addi rd rs imm :: rest) s = run callee link rest (rput rd (m_reg s rs + imm) s).
Proof. reflexivity. Qed.
Lemma run_add rd r1 r2 : run callee link (add rd r1 r2 :: rest) s = run callee link rest (rput rd (m_reg s r1 + m_reg s r2) s).
Proof. reflexivity. Qed.
Lemma run_mul rd r1 r2 : run callee link (mul rd r1 r2 :: rest) s = run callee link rest (rput rd (m_reg s r1 * m_reg s r2) s).
Proof. reflexivity. Qed.
Lemma run_csrr r c : run callee link (csrr r c :: rest) s = run callee link rest (rput r (csr_get c s) s).
Proof. reflexivity. Qed.
Lemma run_csrw c r : run callee link (csrw c r :: rest) s = run callee link rest (csr_put c (m_reg s r) s).
Proof. reflexivity. Qed.
Lemma run_sfence_vma : run callee link (sfence_vma :: rest) s = run callee link rest s.
Proof. reflexivity. Qed.
Lemma run_jr r : run callee link (jr r :: rest) s = Jump (m_reg s r) s.
Proof. reflexivity. Qed.
Lemma run_jret : run callee link (ret :: rest) s = Jump (m_reg s ra) s.
Proof. reflexivity. Qed.
Lemma run_call f s' : callee f (rput ra link s) = Some s' -> run callee link (call f :: rest) s = run callee link rest s'.
Proof. intros E. cbn [run]. by rewrite E. Qed.
Lemma run_sret : run callee link (sret :: rest) s = Enter (negb (truth (Z.land (h_sstatus (m_hart s)) SSTATUS_SPP))) (h_sepc (m_hart s))
  (set_m_hart (set_h_sstatus (sret_status (h_sstatus (m_hart s))) (m_hart s)) s).
Proof. reflexivity. Qed.

End Equations.
#[export] Hint Rewrite run_li run_la run_addi run_add run_mul run_csrr run_csrw run_sfence_vma run_jr run_jret : asm.

Lemma run_sd callee link r o b va pa n s rest : m_reg s b = va -> reaches (h_satp (m_hart s)) (m_mem s) va pa n -> 0 <= o -> o + 8 <= n -> o mod 8 = 0 ->
  run callee link (sd r o b :: rest) s = run callee link rest (set_m_mem (store64 (m_mem s) (pa + o) (m_reg s r)) s).
Proof. intros Hb R H1 H2 H3. cbn [run]. by rewrite (reaches_ea s true b o va pa n Hb R H1 H2 H3). Qed.

Lemma run_ld callee link r o b va pa n s rest : m_reg s b = va -> reaches (h_satp (m_hart s)) (m_mem s) va pa n -> 0 <= o -> o + 8 <= n -> o mod 8 = 0 ->
  run callee link (ld r o b :: rest) s = run callee link rest (set_m_reg (upd (m_reg s) r (load64 (m_mem s) (pa + o))) s).
Proof.
  intros Hb R H1 H2 H3. cbn [run]. rewrite (reaches_ea s false b o va pa n Hb R H1 H2 H3). unfold rput. by rewrite u64_small by apply load64_range.
Qed.

(** ** The trampoline *)

(** The sizes of the structures, and the registers that are saved and restored
    relative to [a0]. *)
Definition sizeof_trapframe : Z := 288.
Definition sizeof_context : Z := 112.
Definition user_regs : list (reg * Z) := (fun r => (r, tf_off r)) <$>
  [ra; sp; gp; tp; t0; t1; t2; s0; s1; a1; a2; a3; a4; a5; a6; a7; s2; s3; s4; s5; s6; s7; s8; s9; s10; s11; t3; t4; t5; t6].

(** Facts on the offsets of a concrete list of registers. *)
Ltac slots := unfold slots_ok, user_regs, context_regs; repeat (apply Forall_cons; split; [cbn; unfold sizeof_trapframe, sizeof_context; Z.div_mod_to_equations; lia|]); apply Forall_nil_2.

Lemma user_regs_in r : r <> a0 -> (r, tf_off r) ∈ user_regs.
Proof. intros H. unfold user_regs. apply list_elem_of_fmap. exists r. split; [done|]. apply list_elem_of_In. destruct r; cbn; tauto. Qed.

Lemma user_regs_slots : slots_ok sizeof_trapframe user_regs /\ NoDup user_regs.*2 /\ NoDup user_regs.*1 /\ a0 ∉ user_regs.*1 /\ Forall (fun p => 40 <= p.2 /\ p.2 <> 112) user_regs.
Proof. split; [slots|]. split; [by apply (bool_decide_unpack _)|]. split; [by apply (bool_decide_unpack _)|]. split; [by apply (bool_decide_unpack _)|]. slots. Qed.

Lemma slots_page n l : n <= 4096 -> slots_ok n l -> slots_ok 4096 l.
Proof. intros Hn Hs. apply (Forall_impl _ _ _ Hs). intros p. lia. Qed.

(** The stores of [uservec]. *)
Definition trap_saved (tf : Z) (f : reg -> Z) (m : mem) : mem := store64 (save_all tf f user_regs m) (tf + 112) (f a0).

Lemma trap_saved_regs tf f m r : load64 (trap_saved tf f m) (tf + tf_off r) = u64 (f r).
Proof.
  unfold trap_saved. destruct user_regs_slots as (Hs & Hnd & _ & _ & HF). destruct (decide (r = a0)) as [->|Hne]; [apply load64_store64|].
  pose proof (user_regs_in r Hne) as Hin. unfold slots_ok in Hs. pose proof Hs as Hs0. rewrite Forall_forall in Hs, HF. pose proof (Hs _ Hin) as H1. pose proof (HF _ Hin) as H2. cbn in H1, H2.
  rewrite load64_store64_ne by (Z.div_mod_to_equations; lia). apply (save_all_in tf f user_regs m r); [apply (slots_page sizeof_trapframe); [done|exact Hs0]|done|done].
Qed.

Lemma trap_saved_out tf f m y : ~ (tf + 40 <= y < tf + sizeof_trapframe) -> mget (trap_saved tf f m) y = mget m y.
Proof.
  intros Hy. destruct user_regs_slots as (Hs & _ & _ & _ & HF). unfold trap_saved, sizeof_trapframe in *. rewrite mget_store64_out by lia. apply save_all_out.
  unfold slots_ok in Hs. rewrite Forall_forall in *. intros p Hp. pose proof (Hs p Hp). pose proof (HF p Hp). lia.
Qed.

(** The machine when [uservec] has come to [usertrap]. *)
Definition trapped (tf : Z) (s : mach) : mach :=
  let m := trap_saved tf (m_reg s) (m_mem s) in
  let f := upd (upd (m_reg s) a0 TRAPFRAME) t0 (u64 (m_reg s a0)) in
  let f := upd (upd (upd (upd f sp (load64 m (tf + 8))) tp (load64 m (tf + 32))) t0 (load64 m (tf + 16))) t1 (load64 m (tf + 0)) in
  mkMach f (set_h_satp (load64 m (tf + 0)) (m_hart s)) (m_reg s a0) m.

Lemma uservec_eq : uservec = csrw sscratch a0 :: li a0 TRAPFRAME :: saves a0 user_regs ++
  csrr t0 sscratch :: sd t0 112 a0 :: loads a0 [(sp, 8); (tp, 32); (t0, 16); (t1, 0)] ++ [sfence_vma; csrw satp t1; sfence_vma; jr t0].
Proof. reflexivity. Qed.

Lemma uservec_ok callee link s tf : regs_ok s -> reaches (h_satp (m_hart s)) (m_mem s) TRAPFRAME tf sizeof_trapframe ->
  run callee link uservec s = Jump (load64 (m_mem s) (tf + 16)) (trapped tf s).
Proof.
  intros Hr R. destruct user_regs_slots as (Hs & _). rewrite uservec_eq, run_csrw, run_li. set (s1 := rput a0 TRAPFRAME _).
  assert (E1 : m_reg s1 a0 = TRAPFRAME) by (cbn [s1 rput m_reg set_m_reg]; by rewrite upd_eq).
  rewrite (run_saves callee link a0 TRAPFRAME tf sizeof_trapframe user_regs s1 _ E1 R Hs), run_csrr.
  assert (Em : save_all tf (m_reg s1) user_regs (m_mem s1) = save_all tf (m_reg s) user_regs (m_mem s)) by reflexivity. rewrite Em. set (m1 := save_all _ _ _ _). set (s2 := rput t0 _ _).
  assert (R2 : reaches (h_satp (m_hart s2)) (m_mem s2) TRAPFRAME tf sizeof_trapframe).
  { apply (reaches_ext _ _ _ _ _ _ R). intros y Hy. apply save_all_out. unfold slots_ok in Hs. rewrite Forall_forall in *. intros p Hp. pose proof (Hs p Hp). lia. }
  assert (E2 : m_reg s2 a0 = TRAPFRAME) by (cbn [s2 rput m_reg set_m_reg]; by rewrite upd_ne).
  rewrite (run_sd callee link t0 112 a0 TRAPFRAME tf sizeof_trapframe s2 _ E2 R2) by done.
  assert (Et : m_reg s2 t0 = m_reg s a0) by (cbn [s2 rput m_reg set_m_reg]; rewrite upd_eq; apply u64_small, Hr). rewrite Et. set (s3 := set_m_mem _ s2).
  assert (R3 : reaches (h_satp (m_hart s3)) (m_mem s3) TRAPFRAME tf sizeof_trapframe) by (apply (reaches_ext _ _ _ _ _ _ R); intros y Hy; apply trap_saved_out; unfold sizeof_trapframe in *; lia).
  rewrite (run_loads callee link a0 TRAPFRAME tf sizeof_trapframe _ s3 _ E2 R3); [|slots|intros o Ho; exfalso; repeat (apply elem_of_cons in Ho as [Ho|Ho]; [done|]); by apply not_elem_of_nil in Ho].
  autorewrite with asm. f_equal. transitivity (load64 (m_mem s3) (tf + 16)); [reflexivity|]. apply load64_ext. intros y Hy. apply (trap_saved_out tf (m_reg s) (m_mem s)). lia.
Qed.

(** Registers and kernel fields after [uservec]. *)
Lemma trapped_fields tf t : regs_ok t -> m_reg (trapped tf t) sp = load64 (m_mem t) (tf + TF_kernel_sp) /\ m_reg (trapped tf t) tp = load64 (m_mem t) (tf + TF_kernel_hartid) /\
  h_satp (m_hart (trapped tf t)) = load64 (m_mem t) (tf + TF_kernel_satp) /\ (forall r, load64 (m_mem (trapped tf t)) (tf + tf_off r) = m_reg t r).
Proof.
  intros Hr. assert (Hk : forall o, 0 <= o -> o + 8 <= 40 -> load64 (trap_saved tf (m_reg t) (m_mem t)) (tf + o) = load64 (m_mem t) (tf + o)) by (intros o H1 H2; apply load64_ext; intros y Hy; apply trap_saved_out; lia).
  split; [by apply (Hk 8)|]. split; [by apply (Hk 32)|]. split; [by apply (Hk 0)|]. intros r. rewrite <- (u64_small (m_reg t r)) by apply Hr. apply trap_saved_regs.
Qed.

(** [userret] with the page table [x] of the process. *)
Definition resumed (tf x : Z) (s : mach) : mach :=
  mkMach (upd (load_all tf (m_mem s) user_regs (upd (m_reg s) a0 TRAPFRAME)) a0 (load64 (m_mem s) (tf + 112)))
    (set_h_sstatus (sret_status (h_sstatus (m_hart s))) (set_h_satp x (m_hart s))) (m_sscratch s) (m_mem s).

Lemma userret_eq : userret = sfence_vma :: csrw satp a0 :: sfence_vma :: li a0 TRAPFRAME :: loads a0 user_regs ++ [ld a0 112 a0; sret].
Proof. reflexivity. Qed.

Lemma userret_ok callee link s tf : reaches (m_reg s a0) (m_mem s) TRAPFRAME tf sizeof_trapframe ->
  run callee link userret s = Enter (negb (truth (Z.land (h_sstatus (m_hart s)) SSTATUS_SPP))) (h_sepc (m_hart s)) (resumed tf (m_reg s a0) s).
Proof.
  intros R. destruct user_regs_slots as (Hs & _ & _ & Ha & _). rewrite userret_eq. autorewrite with asm. set (s1 := rput a0 TRAPFRAME _).
  assert (E1 : m_reg s1 a0 = TRAPFRAME) by (cbn [s1 rput m_reg set_m_reg]; by rewrite upd_eq). assert (R1 : reaches (h_satp (m_hart s1)) (m_mem s1) TRAPFRAME tf sizeof_trapframe) by exact R.
  rewrite (run_loads callee link a0 TRAPFRAME tf sizeof_trapframe user_regs s1 _ E1 R1 Hs); [|intros o Ho; exfalso; apply Ha, list_elem_of_fmap; by exists (a0, o)].
  set (s2 := set_m_reg _ s1). assert (E2 : m_reg s2 a0 = TRAPFRAME) by (cbn [s2 m_reg set_m_reg]; by rewrite load_all_out).
  rewrite (run_ld callee link a0 112 a0 TRAPFRAME tf sizeof_trapframe s2 _ E2 R1) by done. reflexivity.
Qed.

Lemma resumed_regs tf x s r : m_reg (resumed tf x s) r = load64 (m_mem s) (tf + tf_off r).
Proof.
  destruct user_regs_slots as (_ & _ & Hnd & _). cbn [resumed m_reg]. destruct (decide (r = a0)) as [->|Hne]; [apply upd_eq|]. rewrite upd_ne by done. by apply load_all_in, user_regs_in.
Qed.

(** C12: A trap from user mode and the return from it.  [uservec] saves all 31
    registers in the trapframe of the process, and enters [kernel_trap] with
    the stack, the hart number and the page table of the kernel from the
    trapframe; it changes no other memory.  [userret], called with the page
    table of the process, enters user mode at [sepc] with every register from
    its slot of the trapframe: a register whose slot the kernel has not
    changed has the value that it had before the trap. *)
Theorem trampoline_roundtrip callee link s tf : regs_ok s -> reaches (h_satp (m_hart s)) (m_mem s) TRAPFRAME tf sizeof_trapframe ->
  exists s1, run callee link uservec s = Jump (load64 (m_mem s) (tf + TF_kernel_trap)) s1 /\
    m_reg s1 sp = load64 (m_mem s) (tf + TF_kernel_sp) /\ m_reg s1 tp = load64 (m_mem s) (tf + TF_kernel_hartid) /\ h_satp (m_hart s1) = load64 (m_mem s) (tf + TF_kernel_satp) /\
    (forall r, load64 (m_mem s1) (tf + tf_off r) = m_reg s r) /\ (forall y, ~ (tf + 40 <= y < tf + sizeof_trapframe) -> mget (m_mem s1) y = mget (m_mem s) y) /\
  forall s2, reaches (m_reg s2 a0) (m_mem s2) TRAPFRAME tf sizeof_trapframe -> Z.land (h_sstatus (m_hart s2)) SSTATUS_SPP = 0 ->
    exists s3, run callee link userret s2 = Enter true (h_sepc (m_hart s2)) s3 /\ h_satp (m_hart s3) = m_reg s2 a0 /\ m_mem s3 = m_mem s2 /\
      (forall r, m_reg s3 r = load64 (m_mem s2) (tf + tf_off r)) /\
      (forall r, (forall y, tf + tf_off r <= y < tf + tf_off r + 8 -> mget (m_mem s2) y = mget (m_mem s1) y) -> m_reg s3 r = m_reg s r).
Proof.
  intros Hr R. destruct (trapped_fields tf s Hr) as (G1 & G2 & G3 & G4). exists (trapped tf s). split; [by apply uservec_ok|]. split; [done|]. split; [done|]. split; [done|]. split; [done|]. split; [intros y; apply trap_saved_out|].
  intros s2 R2 Hspp. exists (resumed tf (m_reg s2 a0) s2). split; [rewrite (userret_ok callee link s2 tf R2), Hspp; reflexivity|]. split; [done|]. split; [done|]. split; [intros r; apply resumed_regs|].
  intros r Hy. rewrite resumed_regs, <- (G4 r). by apply load64_ext.
Qed.

(** ** Switching contexts *)

Lemma context_regs_slots : slots_ok sizeof_context context_regs /\ NoDup context_regs.*2 /\ NoDup context_regs.*1 /\ a0 ∉ context_regs.*1 /\ a1 ∉ context_regs.*1.
Proof. split; [slots|]. split; [by apply (bool_decide_unpack _)|]. split; [by apply (bool_decide_unpack _)|]. split; by apply (bool_decide_unpack _). Qed.

Lemma swtch_eq : swtch = saves a0 context_regs ++ loads a1 context_regs ++ [ret].
Proof. reflexivity. Qed.

(** The stores to a window only change the window. *)
Lemma save_all_window pa f l m n y : slots_ok n l -> ~ (pa <= y < pa + n) -> mget (save_all pa f l m) y = mget m y.
Proof. intros Hs Hy. apply save_all_out. unfold slots_ok in Hs. rewrite Forall_forall in *. intros p Hp. pose proof (Hs p Hp). lia. Qed.

(** The machine after [swtch]: the context at [po] saved, the one at [pn]
    loaded. *)
Definition switched (po pn : Z) (s : mach) : mach :=
  let m := save_all po (m_reg s) context_regs (m_mem s) in
  mkMach (load_all pn m context_regs (m_reg s)) (m_hart s) (m_sscratch s) m.

Lemma swtch_ok callee link s po pn : reaches (h_satp (m_hart s)) (m_mem s) (m_reg s a0) po sizeof_context -> reaches (h_satp (m_hart s)) (m_mem s) (m_reg s a1) pn sizeof_context ->
  run callee link swtch s = Jump (m_reg (switched po pn s) ra) (switched po pn s).
Proof.
  intros Ro Rn. destruct context_regs_slots as (Hs & _ & _ & Ha & Ha1). rewrite swtch_eq, (run_saves callee link a0 _ po sizeof_context context_regs s _ eq_refl Ro Hs).
  rewrite (run_loads callee link a1 (m_reg s a1) pn sizeof_context context_regs); [by rewrite run_jret|done| |done|intros o Ho; exfalso; apply Ha1, list_elem_of_fmap; by exists (a1, o)].
  apply (reaches_store _ _ _ _ _ _ _ _ _ Ro Rn). intros y Hy. by apply (save_all_window _ _ _ _ sizeof_context).
Qed.

Lemma switched_regs po pn s r o : (r, o) ∈ context_regs -> m_reg (switched po pn s) r = load64 (m_mem (switched po pn s)) (pn + o) /\
  load64 (m_mem (switched po pn s)) (po + o) = u64 (m_reg s r).
Proof.
  intros Hin. destruct context_regs_slots as (Hs & H2 & H1 & _). split; [by apply load_all_in|]. apply save_all_in; [by apply (slots_page sizeof_context)|done|done].
Qed.

(** C22: [swtch] saves the callee-saved registers, the stack pointer and the
    return address in the context [old], loads them from the context [new]
    and returns to the code that switched away from [new]; nothing else
    changes.  When any code later switches to [old], which has not been
    changed in between, execution goes on behind this call of [swtch] with
    the same stack pointer and the same callee-saved registers. *)
Theorem swtch_switches callee link s po pn : regs_ok s -> reaches (h_satp (m_hart s)) (m_mem s) (m_reg s a0) po sizeof_context ->
  reaches (h_satp (m_hart s)) (m_mem s) (m_reg s a1) pn sizeof_context -> po + sizeof_context <= pn \/ pn + sizeof_context <= po ->
  exists s', run callee link swtch s = Jump (load64 (m_mem s) (pn + 0)) s' /\ m_hart s' = m_hart s /\
    (forall r o, (r, o) ∈ context_regs -> m_reg s' r = load64 (m_mem s) (pn + o)) /\ (forall r, r ∉ context_regs.*1 -> m_reg s' r = m_reg s r) /\
    (forall y, ~ (po <= y < po + sizeof_context) -> mget (m_mem s') y = mget (m_mem s) y) /\
  forall t px, reaches (h_satp (m_hart t)) (m_mem t) (m_reg t a0) px sizeof_context -> reaches (h_satp (m_hart t)) (m_mem t) (m_reg t a1) po sizeof_context ->
    px + sizeof_context <= po \/ po + sizeof_context <= px -> (forall y, po <= y < po + sizeof_context -> mget (m_mem t) y = mget (m_mem s') y) ->
    exists t', run callee link swtch t = Jump (m_reg s ra) t' /\ forall r, r ∈ context_regs.*1 -> m_reg t' r = m_reg s r.
Proof.
  intros Hr Ro Rn Hd. destruct context_regs_slots as (Hs & _). assert (Hw : forall s po y, ~ (po <= y < po + sizeof_context) -> mget (save_all po (m_reg s) context_regs (m_mem s)) y = mget (m_mem s) y) by (intros; by apply (save_all_window _ _ _ _ sizeof_context)).
  assert (Hslot : forall r o, (r, o) ∈ context_regs -> 0 <= o /\ o + 8 <= sizeof_context) by (intros r o Hin; unfold slots_ok in Hs; rewrite Forall_forall in Hs; pose proof (Hs _ Hin); cbn in *; lia).
  assert (Hl : forall t px py r o, (r, o) ∈ context_regs -> px + sizeof_context <= py \/ py + sizeof_context <= px -> m_reg (switched px py t) r = load64 (m_mem t) (py + o)).
  { intros t px py r o Hin Hpq. rewrite (proj1 (switched_regs px py t r o Hin)). apply load64_ext. intros y Hy. apply Hw. pose proof (Hslot r o Hin). lia. }
  exists (switched po pn s). split; [rewrite (swtch_ok callee link s po pn Ro Rn); f_equal; apply Hl; [left|done]|]. split; [done|]. split; [intros r o Hin; by apply Hl|].
  split; [intros r Hn; by apply load_all_out|]. split; [intros y; apply Hw|]. intros t px Rx Rt Hd2 Hsame.
  assert (Hback : forall r o, (r, o) ∈ context_regs -> m_reg (switched px po t) r = m_reg s r).
  { intros r o Hin. rewrite (Hl t px po r o Hin Hd2). rewrite <- (u64_small (m_reg s r)) by apply Hr. rewrite <- (proj2 (switched_regs po pn s r o Hin)). apply load64_ext. intros y Hy. apply Hsame. pose proof (Hslot r o Hin). lia. }
  exists (switched px po t). split; [rewrite (swtch_ok callee link t px po Rx Rt); f_equal; apply (Hback ra 0); left|]. intros r Hin. apply list_elem_of_fmap in Hin as ([r' o] & -> & Hin). by apply (Hback r' o).
Qed.

(** ** Traps in the kernel *)

(** The frame of [kernelvec]: what is saved, and what is restored. *)
Definition frame_regs : list (reg * Z) :=
  [(ra, 0); (sp, 8); (gp, 16); (tp, 24); (t0, 32); (t1, 40); (t2, 48); (a0, 72); (a1, 80); (a2, 88); (a3, 96); (a4, 104); (a5, 112); (a6, 120); (a7, 128);
   (t3, 216); (t4, 224); (t5, 232); (t6, 240)].
Definition back_regs : list (reg * Z) :=
  [(ra, 0); (sp, 8); (gp, 16); (t0, 32); (t1, 40); (t2, 48); (a0, 72); (a1, 80); (a2, 88); (a3, 96); (a4, 104); (a5, 112); (a6, 120); (a7, 128);
   (t3, 216); (t4, 224); (t5, 232); (t6, 240)].
Definition callee_saved : list reg := [s0; s1; s2; s3; s4; s5; s6; s7; s8; s9; s10; s11].

Lemma kernelvec_eq : kernelvec = addi sp sp (-256) :: saves sp frame_regs ++ call "kerneltrap" :: loads sp back_regs ++ [addi sp sp 256; sret].
Proof. reflexivity. Qed.

(** The machine when [kernelvec] calls [kerneltrap], with its frame at [pa]. *)
Definition interrupted (link pa : Z) (s : mach) : mach :=
  let f := upd (m_reg s) sp (m_reg s sp - 256) in
  mkMach (upd f ra (u64 link)) (m_hart s) (m_sscratch s) (save_all pa f frame_regs (m_mem s)).

Lemma frame_regs_slots : slots_ok 256 frame_regs /\ NoDup frame_regs.*2 /\ slots_ok 256 back_regs /\ NoDup back_regs.*1.
Proof. split; [unfold frame_regs; slots|]. split; [by apply (bool_decide_unpack _)|]. split; [unfold back_regs; slots|by apply (bool_decide_unpack _)]. Qed.

Lemma back_frame r o : (r, o) ∈ back_regs -> (r, o) ∈ frame_regs.
Proof. rewrite !list_elem_of_In. unfold back_regs, frame_regs. cbn. tauto. Qed.

Lemma reg_cases r : r = tp \/ r ∈ callee_saved \/ exists o, (r, o) ∈ back_regs.
Proof. destruct r; try (right; left; by apply (bool_decide_unpack _)); try (by left); right; right; eexists; apply list_elem_of_In; unfold back_regs; cbn; tauto. Qed.

Lemma callee_saved_back r : r ∈ callee_saved -> r ∉ back_regs.*1 /\ r <> sp /\ r <> ra.
Proof. intros H. apply list_elem_of_In in H. destruct r; cbn in H; try (exfalso; intuition congruence); (split; [by apply (bool_decide_unpack _)|done]). Qed.

(** C23: An interrupt in the kernel.  When [kerneltrap] returns, keeping the
    stack pointer, the callee-saved registers and the stack above it as any C
    function does, [kernelvec] resumes the interrupted code at [sepc] with all
    registers as they were, except [tp], which belongs to the hart it then
    runs on; memory is as [kerneltrap] left it. *)
Theorem kernelvec_transparent callee link s pa s2 : regs_ok s -> 256 <= m_reg s sp -> reaches (h_satp (m_hart s)) (m_mem s) (m_reg s sp - 256) pa 256 ->
  callee "kerneltrap"%string (interrupted link pa s) = Some s2 -> m_reg s2 sp = m_reg s sp - 256 -> (forall r, r ∈ callee_saved -> m_reg s2 r = m_reg s r) ->
  (forall y, pa <= y < pa + 256 -> mget (m_mem s2) y = mget (m_mem (interrupted link pa s)) y) -> reaches (h_satp (m_hart s2)) (m_mem s2) (m_reg s sp - 256) pa 256 ->
  exists s', run callee link kernelvec s = Enter (negb (truth (Z.land (h_sstatus (m_hart s2)) SSTATUS_SPP))) (h_sepc (m_hart s2)) s' /\
    (forall r, r <> tp -> m_reg s' r = m_reg s r) /\ m_reg s' tp = m_reg s2 tp /\ m_mem s' = m_mem s2.
Proof.
  intros Hr Hsp R Hcall Hsp2 Hcs Hfr R2. destruct frame_regs_slots as (Hs & Hnd & Hbs & Hbn). set (f := upd (m_reg s) sp (m_reg s sp - 256)). pose proof (Hr sp) as Hspr.
  assert (Hf : forall r o, (r, o) ∈ back_regs -> load64 (m_mem s2) (pa + o) = f r).
  { intros r o Hin. unfold slots_ok in Hbs. rewrite Forall_forall in Hbs. pose proof (Hbs _ Hin) as (H1 & H2 & _). cbn in H1, H2. transitivity (load64 (m_mem (interrupted link pa s)) (pa + o)); [apply load64_ext; intros y Hy; apply Hfr; lia|].
    change (load64 (save_all pa f frame_regs (m_mem s)) (pa + o) = f r). rewrite (save_all_in pa f frame_regs (m_mem s) r o); [|by apply (slots_page 256)|done|by apply back_frame]. apply u64_small. unfold f, upd. destruct (decide (r = sp)); [lia|apply Hr]. }
  assert (Ef : rput sp (m_reg s sp + -256) s = set_m_reg f s) by (unfold rput; rewrite u64_small by lia; reflexivity).
  assert (E1 : m_reg (set_m_reg f s) sp = m_reg s sp - 256) by (apply upd_eq). set (g := load_all pa (m_mem s2) back_regs (m_reg s2)).
  assert (Hg : forall r o, (r, o) ∈ back_regs -> g r = f r) by (intros r o Hin; unfold g; rewrite (load_all_in _ _ _ _ r o Hbn Hin); by apply Hf).
  exists (mkMach (upd g sp (m_reg s sp)) (set_h_sstatus (sret_status (h_sstatus (m_hart s2))) (m_hart s2)) (m_sscratch s2) (m_mem s2)). split; [|split; [|split; [|done]]].
  - rewrite kernelvec_eq, run_addi, Ef, (run_saves callee link sp _ pa 256 frame_regs (set_m_reg f s) _ E1 R Hs), (run_call _ _ _ _ "kerneltrap" s2) by exact Hcall.
    rewrite (run_loads callee link sp (m_reg s sp - 256) pa 256 back_regs s2 _ Hsp2 R2 Hbs) by (intros o Ho; rewrite (Hf sp o Ho); apply upd_eq). rewrite run_addi, run_sret. unfold rput. cbn [m_reg set_m_reg]. fold g.
    assert (Es : u64 (g sp + 256) = m_reg s sp) by (rewrite (Hg sp 8) by (right; left); unfold f; rewrite upd_eq, u64_small by lia; lia). by rewrite Es.
  - intros r Hne. cbn [m_reg]. destruct (decide (r = sp)) as [->|Hnsp]; [apply upd_eq|]. rewrite upd_ne by done. destruct (reg_cases r) as [|[Hc|[o Ho]]]; [done| |].
    + unfold g. rewrite load_all_out by (by apply callee_saved_back). by apply Hcs.
    + rewrite (Hg r o Ho). by apply upd_ne.
  - cbn [m_reg]. rewrite upd_ne by done. unfold g. apply load_all_out. by apply (bool_decide_unpack _).
Qed.

(** ** Starting *)

(** [_entry] gives hart [i] the stack that ends at [stack0 + 4096 * (i + 1)]
    and calls [start]. *)
Lemma entry_stack callee link stack0 s : callee "start"%string = (fun _ => None) -> 0 <= stack0 -> 0 <= h_mhartid (m_hart s) < NCPU -> stack0 + 4096 * NCPU < 2 ^ 64 ->
  exists s', run callee link (_entry stack0) s = Calls "start" s' /\ m_reg s' sp = stack0 + 4096 * (h_mhartid (m_hart s) + 1) /\ m_mem s' = m_mem s.
Proof.
  intros Hc H0 Hi Hm. unfold NCPU in *. unfold _entry. autorewrite with asm. cbn [run]. rewrite Hc. eexists. split; [reflexivity|]. split; [|done].
  unfold rput. cbn [m_reg set_m_reg csr_get m_hart]. repeat (rewrite upd_eq || rewrite upd_ne by done). change (u64 (1024 * 4)) with 4096. set (i := h_mhartid (m_hart s)) in *. rewrite (u64_small stack0), (u64_small i), (u64_small (i + 1)), (u64_small (4096 * (i + 1))) by lia. apply u64_small. lia.
Qed.

(** The page that [uvmfirst] fills for the first process. *)
Definition first_page : mem := store_bytes ∅ 0 initcode.

(** C38: The array [initcode] of [proc.c] decodes to the instructions of
    [initcode.S].
    From address 0, whatever the registers are, the first process calls [exec]
    with the string [/init] and an argument vector that has this string and
    then a null pointer.  When [exec] returns, it calls [exit], and if [exit]
    returned it would call it again. *)
Theorem initcode_execs f : (fun i => decode (load32 first_page (4 * i))) <$> rangeZ 0 9 = Some <$> initcode_S /\
  (exists g, until_ecall 6 first_page 0 f = Some (20, g) /\ g a7 = SYS_exec /\ load_bytes first_page (g a0) 6 = chars "/init" ++ [0] /\
    load64 first_page (g a1) = g a0 /\ load64 first_page (g a1 + 8) = 0) /\
  (forall h, exists g, until_ecall 2 first_page (20 + 4) h = Some (28, g) /\ g a7 = SYS_exit) /\
  (forall h, exists g, until_ecall 3 first_page (28 + 4) h = Some (28, g) /\ g a7 = SYS_exit).
Proof.
  split; [vm_compute; reflexivity|]. split; [|split].
  - eexists. split; [vm_compute; reflexivity|]. vm_compute. repeat split.
  - intros h. eexists. split; [vm_compute; reflexivity|reflexivity].
  - intros h. eexists. split; [vm_compute; reflexivity|reflexivity].
Qed.

(** ** Page tables and windows *)

Section Mapped.
Context {KI : KernelImage}.

Lemma satp_make root : pa_ok root -> Z.shiftr (MAKE_SATP root) 60 = 8 /\ satp_root (MAKE_SATP root) = root.
Proof.
  intros Hok. rewrite (MAKE_SATP_eq root Hok). destruct Hok as [Ha Hr]. unfold PGSIZE in *.
  unfold satp_root. change (2 ^ 44 - 1) with (Z.ones 44). rewrite Z.land_ones, Z.shiftr_div_pow2, Z.shiftl_mul_pow2 by lia. split; Z.div_mod_to_equations; lia.
Qed.

(** An address and its page have the same entry. *)
Lemma pte_of_page m root va o : va_ok va -> 0 <= o < PGSIZE -> pte_of m root (va + o) = pte_of m root va.
Proof.
  intros [Ha Hr] Ho. unfold PGSIZE in *. assert (E : forall l, 0 <= l -> PX l (va + o) = PX l va).
  { intros l Hl. rewrite <- (PX_PGROUNDDOWN l (va + o)) by lia. f_equal. rewrite PGROUNDDOWN_eq by lia. unfold PGSIZE. Z.div_mod_to_equations. lia. }
  unfold pte_of, dir_path. by rewrite !E by lia.
Qed.

(** A page mapped readable and writable for the kernel. *)
Lemma reaches_mapped root m va pa perm n : pt_wf m root -> va_ok va -> va < MAXVA -> pa_ok pa -> flags_ok perm -> pte_of m root va = leaf_pte pa perm ->
  Z.land (Z.lor perm PTE_V) PTE_R <> 0 -> Z.land (Z.lor perm PTE_V) PTE_W <> 0 -> truth (Z.land perm PTE_U) = false -> 0 <= n <= PGSIZE ->
  (forall p, is_table m root p -> p <> pa) -> reaches (MAKE_SATP root) m va pa n.
Proof.
  intros Hwf Hva Hmax Hpa Hfl Hpte HR HW HU Hn Hne. assert (Hroot : page_ok root) by (apply (wf_page _ _ Hwf []); [split; [cbn; lia|constructor]|done]). destruct (satp_make root (page_ok_pa_ok root Hroot)) as [E8 Er].
  pose proof Hva as [Hal Hvr]. pose proof Hpa as [Hpl Hpr]. assert (EP : PGSIZE = 4096) by done. assert (EM : MAXVA = 2 ^ 38) by done. split.
  - lia.
  - rewrite EP in Hal. Z.div_mod_to_equations. lia.
  - intros st o H1 H2 H3. unfold translate. rewrite E8. cbn [Z.eqb Pos.eqb]. rewrite Er, pte_of_page, Hpte by (done || lia).
    rewrite (leaf_pte_V pa perm Hpa Hfl), leaf_pte_U, HU, leaf_pte_pa by done. assert (Hb : (0 <=? va + o) && (va + o <? MAXVA) = true) by (apply andb_true_intro; split; [apply Z.leb_le; lia|apply Z.ltb_lt; rewrite EM in *; rewrite EP in Hal; Z.div_mod_to_equations; lia]).
    rewrite Hb. assert (Hf : truth (Z.land (leaf_pte pa perm) (if st then PTE_W else PTE_R)) = true).
    { destruct st; rewrite leaf_pte_land by (done || by vm_compute); unfold truth; by apply negb_true_iff, Z.eqb_neq. }
    rewrite Hf. cbn [andb negb]. do 2 f_equal. rewrite Z.add_mod, Hal by lia. rewrite Z.add_0_l, Z.mod_mod by lia. apply Z.mod_small. lia.
  - intros _ p y Hp Hy. rewrite Er in Hp. destruct Hp as (path & Hok & Hp). destruct (wf_page _ _ Hwf path p Hok Hp) as [Hpa2 _]. assert (p <> pa) by (apply Hne; by exists path). unfold in_page in Hy. rewrite EP in *. Z.div_mod_to_equations. lia.
Qed.

Lemma reaches_sub x m va pa n k n' : reaches x m va pa n -> 0 <= k -> k mod 8 = 0 -> 0 <= n' -> k + n' <= n -> reaches x m (va + k) (pa + k) n'.
Proof.
  intros [R1 R2 R3 R4] H1 H2 H3 H4. split; [lia|rewrite Z.add_mod, R2, H2 by lia; done| |].
  - intros st o Ho1 Ho2 Ho3. rewrite <- !Z.add_assoc. apply R3; [lia|lia|]. by rewrite Z.add_mod, H2, Ho3 by lia.
  - intros E p y Hp Hy Hc. apply (R4 E p y Hp Hy). lia.
Qed.

End Mapped.

(** A page table with the page of the trapframe, in memory behind the one that
    the allocator manages. *)
Lemma demo_window : exists root m, pt_wf m root /\ pte_of m root TRAPFRAME = leaf_pte PHYSTOP (Z.lor PTE_R PTE_W) /\ (forall p, is_table m root p -> p <> PHYSTOP) /\
  reaches (MAKE_SATP root) m TRAPFRAME PHYSTOP PGSIZE.
Proof.
  destruct demo_pt as (root & fl & s & Hps & H0 & _ & Hn).
  destruct (mappages_ok root TRAPFRAME PGSIZE PHYSTOP (Z.lor PTE_R PTE_W) fl s Hps) as (r & k & fl' & s' & _ & G & Hlen & Hk & Hpte); [by vm_compute..|intros a _ _; by rewrite H0|].
  pose proof (ps_wf _ _ _ (gr_ps _ _ _ _ _ G)) as Hwf. assert (Hap : forall p, is_table (k_mem s') root p -> p <> PHYSTOP).
  { intros p (path & Hok & Hp) ->. destruct (wf_page _ _ Hwf path PHYSTOP Hok Hp) as [_ Hr]. lia. }
  assert (Hm : pte_of (k_mem s') root TRAPFRAME = leaf_pte PHYSTOP (Z.lor PTE_R PTE_W)).
  { rewrite Hpte by by vm_compute. destruct Hk as [[_ ->]|(_ & _ & ->)]; [by vm_compute|]. change (lenZ (@nil Z)) with 0 in Hlen. change (PGSIZE / PGSIZE) with 1 in Hlen. lia. }
  exists root, (k_mem s'). split; [exact Hwf|]. split; [exact Hm|]. split; [exact Hap|].
  apply (reaches_mapped root (k_mem s') TRAPFRAME PHYSTOP (Z.lor PTE_R PTE_W)); [exact Hwf|by vm_compute|by vm_compute|by vm_compute|by vm_compute|exact Hm|by vm_compute|by vm_compute|by vm_compute|by vm_compute|exact Hap].
Qed.

Definition demo_mach (x : Z) (m : mem) (f : reg -> Z) : mach := mkMach f (set_h_satp x zero_hart) 0 m.

Lemma trampoline_roundtrip_witness : exists s s1, run (fun _ _ => None) 0 uservec s = Jump (load64 (m_mem s) (PHYSTOP + TF_kernel_trap)) s1 /\
  load64 (m_mem s1) (PHYSTOP + tf_off s11) = 7.
Proof.
  destruct demo_window as (root & m & _ & _ & _ & R). set (x := MAKE_SATP root) in *. pose proof (reaches_sub _ _ _ _ _ 0 sizeof_trapframe R ltac:(lia) eq_refl ltac:(by vm_compute) ltac:(by vm_compute)) as R1. rewrite !Z.add_0_r in R1.
  destruct (trampoline_roundtrip (fun _ _ => None) 0 (demo_mach x m (fun _ => 7)) PHYSTOP) as (s1 & E & _ & _ & _ & Hr & _); [intros r; cbn; lia|exact R1|].
  exists (demo_mach x m (fun _ => 7)), s1. split; [exact E|exact (Hr s11)].
Defined.

Lemma swtch_switches_witness : exists s s', run (fun _ _ => None) 0 swtch s = Jump (load64 (m_mem s) (PHYSTOP + 512 + 0)) s' /\ m_reg s' a0 = TRAPFRAME.
Proof.
  destruct demo_window as (root & m & _ & _ & _ & R). set (x := MAKE_SATP root) in *. set (f := upd (fun _ => TRAPFRAME) a1 (TRAPFRAME + 512)).
  pose proof (reaches_sub _ _ _ _ _ 0 sizeof_context R ltac:(lia) eq_refl ltac:(by vm_compute) ltac:(by vm_compute)) as R1. rewrite !Z.add_0_r in R1.
  pose proof (reaches_sub _ _ _ _ _ 512 sizeof_context R ltac:(lia) eq_refl ltac:(by vm_compute) ltac:(by vm_compute)) as R2.
  destruct (swtch_switches (fun _ _ => None) 0 (demo_mach x m f) PHYSTOP (PHYSTOP + 512)) as (s' & E & _ & _ & Ho & _); [intros []; by vm_compute|exact R1|exact R2|left; by vm_compute|].
  exists (demo_mach x m f), s'. split; [exact E|]. rewrite (Ho a0); [reflexivity|by apply (bool_decide_unpack _)].
Defined.

Lemma kernelvec_transparent_witness : exists s s', run (fun _ t => Some t) 0 kernelvec s = Enter true (h_sepc (m_hart s)) s' /\ m_reg s' t6 = m_reg s t6.
Proof.
  destruct demo_window as (root & m & _ & _ & _ & R). set (x := MAKE_SATP root) in *. set (s := demo_mach x m (fun _ => TRAPFRAME + 256)).
  pose proof (reaches_sub _ _ _ _ _ 0 256 R ltac:(lia) eq_refl ltac:(lia) ltac:(by vm_compute)) as R1. rewrite !Z.add_0_r in R1.
  destruct (kernelvec_transparent (fun _ t => Some t) 0 s PHYSTOP (interrupted 0 PHYSTOP s)) as (s' & E & Hr & _); [intros r; by vm_compute|by vm_compute|exact R1|reflexivity|reflexivity| |done| |].
  - intros r Hin. destruct (callee_saved_back r Hin) as (_ & H1 & H2). cbn. by rewrite !upd_ne.
  - apply (reaches_ext x m); [exact R1|]. intros y Hy. apply (save_all_window _ _ _ _ 256); [apply frame_regs_slots|exact Hy].
  - exists s, s'. split; [exact E|by apply Hr].
Defined.
