(* ===== verification/UserCycle.v ===== *)
(** * From the kernel to user mode and back

    [usertrapret] of [kernel/trap.c] and the assembly of [trampoline.S]
    together: the kernel leaves to user mode with the registers of the
    trapframe, and the next trap comes back to [usertrap] with the stack, the
    hart and the page table that [usertrapret] has left there. *)

From S2P Require Import Prelude Riscv State Spinlock Kalloc Vm Sched Csr Proc ProcMem Syscall Trap Asm.

(** ** Specification *)

(** What [usertrapret] writes to the trapframe. *)
Definition trap_mem (m : mem) (tf ksatp ksp kpc hart : Z) : mem :=
  store64 (store64 (store64 (store64 m (tf + TF_kernel_satp) ksatp) (tf + TF_kernel_sp) ksp) (tf + TF_kernel_trap) kpc) (tf + TF_kernel_hartid) hart.

(** The hart on its way to user mode. *)
Definition user_status (x : Z) : Z := Z.lor (Z.land (Z.land x (Z.lnot SSTATUS_SIE)) (u64 (Z.lnot SSTATUS_SPP))) SSTATUS_SPIE.
Definition leaving (h : hart) (vec epc : Z) : hart := set_h_sepc (u64 epc) (set_h_sstatus (user_status (h_sstatus h)) (set_h_stvec (u64 vec) h)).

(** ** Memory *)

Section TrapMem.
Context (m : mem) (tf ksatp ksp kpc hart : Z).
Let m' := trap_mem m tf ksatp ksp kpc hart.

Lemma trap_mem_out y : ~ (tf <= y < tf + 24) -> ~ (tf + 32 <= y < tf + 40) -> mget m' y = mget m y.
Proof. intros H1 H2. unfold m', trap_mem, TF_kernel_satp, TF_kernel_sp, TF_kernel_trap, TF_kernel_hartid. rewrite !mget_store64_out by lia. done. Qed.

Lemma trap_mem_kept o : 24 <= o -> o + 8 <= 32 \/ 40 <= o -> load64 m' (tf + o) = load64 m (tf + o).
Proof. intros H1 H2. apply load64_ext. intros y Hy. apply trap_mem_out; lia. Qed.

Lemma trap_mem_fields : load64 m' (tf + TF_kernel_satp) = u64 ksatp /\ load64 m' (tf + TF_kernel_sp) = u64 ksp /\ load64 m' (tf + TF_kernel_trap) = u64 kpc /\ load64 m' (tf + TF_kernel_hartid) = u64 hart.
Proof.
  unfold m', trap_mem, TF_kernel_satp, TF_kernel_sp, TF_kernel_trap, TF_kernel_hartid.
  split; [|split; [|split]]; repeat (rewrite load64_store64 || rewrite load64_store64_ne by lia); done.
Qed.

End TrapMem.

(** ** [usertrapret] *)

Section Return.
Context {KI : KernelImage} {KT : KernelText} (s : kstate) (h : hart) (p : Z) (pr : proc).
Hypothesis Hh : on_hart h s.
Hypothesis Hp : lookupZ (k_proc s) p = Some pr.

(** The states in between: memory and the executing hart change. *)
Let at_ (m : mem) (h : hart) : kstate := set_k_mem m (with_hart h s).

Lemma at_on m h' : on_hart h' (at_ m h').
Proof. exact (on_with_hart h h' s Hh). Qed.

Lemma at_write set x m h' : csr_write set x (at_ m h') = Ok tt (at_ m (set (u64 x) h')).
Proof. rewrite (run_csr_write set x h' _ (at_on m h')). unfold at_. f_equal. exact (f_equal (set_k_mem m) (with_with_hart h' (set (u64 x) h') s)). Qed.

Lemma at_read f m h' : csr_read f (at_ m h') = Ok (f h') (at_ m h').
Proof. apply run_csr_read, at_on. Qed.

Lemma at_sstatus m h' : r_sstatus (at_ m h') = Ok (h_sstatus h') (at_ m h').
Proof. apply run_r_sstatus, at_on. Qed.

Lemma at_w_sstatus x m h' : w_sstatus x (at_ m h') = Ok tt (at_ m (set_h_sstatus x h')).
Proof. rewrite (run_w_sstatus _ h' (at_on m h')). unfold at_. f_equal. exact (f_equal (set_k_mem m) (with_with_hart h' (set_h_sstatus x h') s)). Qed.

Lemma at_put off v m h' : put_tf p off v (at_ m h') = Ok tt (at_ (store64 m (p_trapframe pr + off) v) h').
Proof. unfold put_tf. by erewrite bind_ok by (by apply run_get_proc). Qed.

Lemma at_get off m h' : get_tf p off (at_ m h') = Ok (load64 m (p_trapframe pr + off)) (at_ m h').
Proof. unfold get_tf. by erewrite bind_ok by (by apply run_get_proc). Qed.

Lemma at_intr_off m h' : intr_off (at_ m h') = Ok tt (at_ m (set_h_sstatus (Z.land (h_sstatus h') (Z.lnot SSTATUS_SIE)) h')).
Proof. unfold intr_off. rewrite (bind_ok _ _ _ _ _ (at_sstatus _ _)). apply at_w_sstatus. Qed.

Lemma at_proc m h' : get_proc p (at_ m h') = Ok pr (at_ m h').
Proof. by apply run_get_proc. Qed.

Lemma usertrapret_ok : settled s -> cur s = Some p ->
  usertrapret s = Ok (MAKE_SATP (p_pagetable pr))
    (set_k_mem (trap_mem (k_mem s) (p_trapframe pr) (h_satp h) (p_kstack pr + PGSIZE) ld_usertrap (k_tp s))
      (with_hart (leaving h (TRAMPOLINE + (ld_uservec - ld_trampoline)) (load64 (k_mem s) (p_trapframe pr + TF_epc))) s)).
Proof.
  intros Hs Hc. assert (E0 : s = at_ (k_mem s) h) by (unfold at_, with_hart; rewrite insertZ_id by exact Hh; by destruct s).
  unfold usertrapret. erewrite bind_ok by (by apply run_curproc). rewrite E0 at 1. rewrite (bind_ok _ _ _ _ _ (at_intr_off _ _)). cbv zeta.
  unfold w_stvec, r_satp, w_sepc. rewrite (bind_ok _ _ _ _ _ (at_write _ _ _ _)), (bind_ok _ _ _ _ _ (at_read _ _ _)), (bind_ok _ _ _ _ _ (at_put _ _ _ _)), (bind_ok _ _ _ _ _ (at_proc _ _)).
  rewrite (bind_ok _ _ _ _ _ (at_put _ _ _ _)), (bind_ok _ _ _ _ _ (at_put _ _ _ _)). unfold r_tp. rewrite bind_gets.
  rewrite (bind_ok _ _ _ _ _ (at_put _ _ _ _)), (bind_ok _ _ _ _ _ (at_sstatus _ _)), (bind_ok _ _ _ _ _ (at_w_sstatus _ _ _)), (bind_ok _ _ _ _ _ (at_get _ _ _)), (bind_ok _ _ _ _ _ (at_write _ _ _ _)), (bind_ok _ _ _ _ _ (at_proc _ _)).
  unfold State.ret. f_equal. change (k_tp (at_ _ _)) with (k_tp s).
  match goal with |- at_ ?m ?h1 = _ => change m with (trap_mem (k_mem s) (p_trapframe pr) (h_satp h) (p_kstack pr + PGSIZE) ld_usertrap (k_tp s)) end.
  rewrite trap_mem_kept by (unfold TF_epc; lia). reflexivity.
Qed.
End Return.

(** ** Modes *)

Lemma user_status_bits x : Z.land (user_status x) SSTATUS_SPP = 0 /\ Z.testbit (user_status x) 5 = true.
Proof.
  unfold user_status. split.
  - rewrite Z.land_lor_distr_l, <- Z.land_assoc. change (Z.land (u64 (Z.lnot SSTATUS_SPP)) SSTATUS_SPP) with 0. by rewrite Z.land_0_r.
  - rewrite Z.lor_spec. change (Z.testbit SSTATUS_SPIE 5) with true. apply orb_true_r.
Qed.

Lemma truth_bit x n : 0 <= n -> truth (Z.land x (Z.shiftl 1 n)) = Z.testbit x n.
Proof.
  intros Hn. unfold truth. rewrite Z.shiftl_1_l. destruct (Z.testbit x n) eqn:E.
  - apply negb_true_iff, Z.eqb_neq. intros H. apply (f_equal (fun z => Z.testbit z n)) in H. by rewrite Z.land_spec, E, Z.pow2_bits_true, Z.bits_0 in H.
  - apply negb_false_iff, Z.eqb_eq, Z.bits_inj'. intros k Hk. rewrite Z.land_spec, Z.bits_0, Z.pow2_bits_eqb by done. destruct (Z.eqb_spec n k) as [<-|]; [by rewrite E|apply andb_false_r].
Qed.

Lemma sret_status_enabled x : Z.testbit x 5 = true -> truth (Z.land (sret_status x) SSTATUS_SIE) = true.
Proof.
  intros H. unfold sret_status, SSTATUS_SIE, SSTATUS_SPIE, SSTATUS_SPP. rewrite !truth_bit by lia. rewrite H. cbv iota.
  rewrite Z.land_spec, !Z.lor_spec. change (Z.testbit (Z.shiftl 1 1) 1) with true. rewrite orb_true_r. reflexivity.
Qed.

(** ** The cycle *)

(** The page table [root] maps the trapframe page [tf], as [proc_pagetable]
    does. *)
Record has_trapframe {KI : KernelImage} (m : mem) (root tf : Z) : Prop := {
  ht_wf : pt_wf m root;
  ht_map : pte_of m root TRAPFRAME = leaf_pte tf (Z.lor PTE_R PTE_W);
  ht_page : pa_ok tf;
  ht_apart p : is_table m root p -> p <> tf;
}.

Lemma has_trapframe_reaches {KI : KernelImage} m root tf : has_trapframe m root tf -> reaches (MAKE_SATP root) m TRAPFRAME tf sizeof_trapframe.
Proof. intros [H1 H2 H3 H4]. apply (reaches_mapped root m TRAPFRAME tf (Z.lor PTE_R PTE_W)); [exact H1|by vm_compute|by vm_compute|exact H3|by vm_compute|exact H2|by vm_compute|by vm_compute|by vm_compute|by vm_compute|exact H4]. Qed.

(** C13: The kernel, user mode and the kernel again.  [usertrapret] returns the
    page table of the process; [userret] with it enters user mode at the saved
    program counter, with all registers from the trapframe, interrupts
    enabled and traps directed to [uservec] in the trampoline.  When the next
    trap comes, whatever the user program has done to its registers and to
    its own memory, [uservec] arrives at [usertrap] on the kernel stack of the
    process, with the hart and the kernel page table in force when the kernel
    was left, and all user registers are saved in the trapframe. *)
Theorem user_cycle {KI : KernelImage} {KT : KernelText} callee link s h p pr : settled s -> cur s = Some p -> on_hart h s -> lookupZ (k_proc s) p = Some pr ->
  has_trapframe (k_mem s) (p_pagetable pr) (p_trapframe pr) -> let root := p_pagetable pr in let tf := p_trapframe pr in
  exists s' h', usertrapret s = Ok (MAKE_SATP root) s' /\ on_hart h' s' /\
  forall u, m_reg u a0 = MAKE_SATP root -> m_hart u = h' -> m_mem u = k_mem s' ->
  exists u', run callee link userret u = Enter true (load64 (k_mem s) (tf + TF_epc)) u' /\
    (forall r, m_reg u' r = load64 (k_mem s) (tf + tf_off r)) /\ m_mem u' = k_mem s' /\ h_satp (m_hart u') = MAKE_SATP root /\
    intr_enabled (m_hart u') = true /\ h_stvec (m_hart u') = u64 (TRAMPOLINE + (ld_uservec - ld_trampoline)) /\
  forall t, regs_ok t -> h_satp (m_hart t) = MAKE_SATP root ->
    (forall y, in_page tf y \/ (exists q, is_table (k_mem s') root q /\ in_page q y) -> mget (m_mem t) y = mget (k_mem s') y) ->
  exists k, run callee link uservec t = Jump (u64 ld_usertrap) k /\
    m_reg k sp = u64 (p_kstack pr + PGSIZE) /\ m_reg k tp = u64 (k_tp s) /\ h_satp (m_hart k) = u64 (h_satp h) /\
    (forall r, load64 (m_mem k) (tf + tf_off r) = m_reg t r) /\
    (forall y, ~ (tf + 40 <= y < tf + sizeof_trapframe) -> mget (m_mem k) y = mget (m_mem t) y).
Proof.
  intros Hs Hc Hh Hp T root tf. pose proof (has_trapframe_reaches _ _ _ T) as R0. pose proof (usertrapret_ok s h p pr Hh Hp Hs Hc) as E. fold root tf in E, R0.
  set (epc := load64 (k_mem s) (tf + TF_epc)) in *. set (h' := leaving h _ epc) in E. set (m' := trap_mem (k_mem s) tf _ _ _ _) in E.
  assert (R : reaches (MAKE_SATP root) m' TRAPFRAME tf sizeof_trapframe) by (apply (reaches_ext _ _ _ _ _ _ R0); intros y Hy; apply trap_mem_out; unfold sizeof_trapframe in Hy; lia).
  eexists _, h'. split; [exact E|]. split; [exact (on_with_hart h h' s Hh)|]. intros u Ha Hu Hm. change (k_mem (set_k_mem m' _)) with m' in *.
  destruct (user_status_bits (h_sstatus h)) as [Hspp Hspie]. assert (Ru : reaches (m_reg u a0) (m_mem u) TRAPFRAME tf sizeof_trapframe) by (rewrite Ha, Hm; exact R).
  exists (resumed tf (MAKE_SATP root) u). split; [|split; [|split; [exact Hm|split; [reflexivity|split; [|split]]]]].
  - rewrite (userret_ok callee link u tf Ru), Ha, Hu. change (h_sstatus h') with (user_status (h_sstatus h)). rewrite Hspp. change (h_sepc h') with (u64 epc). rewrite u64_small by apply load64_range. reflexivity.
  - intros r. rewrite resumed_regs, Hm. apply trap_mem_kept; destruct r; cbn; lia.
  - change (truth (Z.land (sret_status (h_sstatus (m_hart u))) SSTATUS_SIE) = true). rewrite Hu. by apply sret_status_enabled.
  - cbn [resumed m_hart]. rewrite Hu. reflexivity.
  - intros t Hr Ht Hmt. destruct (trap_mem_fields (k_mem s) tf (h_satp h) (p_kstack pr + PGSIZE) ld_usertrap (k_tp s)) as (F1 & F2 & F3 & F4). fold m' in F1, F2, F3, F4.
    assert (Hld : forall o, 0 <= o -> o + 8 <= PGSIZE -> load64 (m_mem t) (tf + o) = load64 m' (tf + o)) by (intros o H1 H2; apply load64_ext; intros y Hy; apply Hmt; left; unfold in_page; lia).
    assert (Rt : reaches (h_satp (m_hart t)) (m_mem t) TRAPFRAME tf sizeof_trapframe).
    { rewrite Ht. apply (reaches_tables _ _ _ _ _ _ R). intros _ q y Hq Hy. apply Hmt. right. exists q. split; [|done].
      assert (Hrp : page_ok root) by (apply (wf_page _ _ (ht_wf _ _ _ T) []); [apply path_ok_nil|done]). by rewrite (proj2 (satp_make root (page_ok_pa_ok root Hrp))) in Hq. }
    destruct (trapped_fields tf t Hr) as (G1 & G2 & G3 & G4). exists (trapped tf t). rewrite (uservec_ok callee link t tf Hr Rt). split; [|split; [|split; [|split; [|split]]]].
    + f_equal. rewrite (Hld 16) by (done || lz). exact F3.
    + rewrite G1, Hld by (done || unfold TF_kernel_sp; lz). exact F2.
    + rewrite G2, Hld by (done || unfold TF_kernel_hartid; lz). exact F4.
    + rewrite G3, Hld by (done || unfold TF_kernel_satp; lz). exact F1.
    + exact G4.
    + intros y Hy. by apply trap_saved_out.
Qed.

Lemma user_cycle_witness : exists s s' root u u' k, @usertrapret image demo_kernel s = Ok (MAKE_SATP root) s' /\
  run (fun _ _ => None) 0 userret u = Enter true (load64 (k_mem s) (PHYSTOP + TF_epc)) u' /\ run (fun _ _ => None) 0 uservec u' = Jump 0x80002a80 k.
Proof.
  destruct demo_window as (root & m & Hwf & Hm & Hap & _). set (pr := set_p_pagetable root (set_p_trapframe PHYSTOP zero_proc)).
  set (s := set_k_mem m (set_k_proc (insertZ 5 pr (k_proc demo_sched)) demo_sched)).
  destruct (@user_cycle image demo_kernel (fun _ _ => None) 0 s zero_hart 5 pr) as (s' & h' & E & _ & Hu).
  - exact (outside_settled _ _ demo_sched_outside).
  - reflexivity.
  - reflexivity.
  - reflexivity.
  - split; [exact Hwf|exact Hm|by vm_compute|exact Hap].
  - destruct (Hu (mkMach (fun _ => MAKE_SATP root) h' 0 (k_mem s'))) as (u' & E2 & Hr & Hmem & Hsatp & _ & _ & Ht); [reflexivity..|].
    destruct (Ht u') as (k & E3 & _); [intros r; rewrite Hr; apply load64_range|exact Hsatp|intros y _; by rewrite Hmem|].
    exists s, s', root, (mkMach (fun _ => MAKE_SATP root) h' 0 (k_mem s')), u', k. split; [exact E|]. split; [exact E2|exact E3].
Defined.
