(* ===== verification/Ulib.v ===== *)
(** * The library of the user programs ([user/ulib.c])

    User programs run in an address space of their own, a byte memory.  A
    [const char *] that a function only reads may be the list of its bytes
    up to the NUL.  A loop that runs to the end of a string has the number of
    bytes it may read as fuel and is [None] without a NUL among them. *)

From S2P Require Import Prelude Riscv State Str.

(** ** Definitions *)

(** The bytes from [a] to the next NUL. *)
Fixpoint cstr (fuel : nat) (m : mem) (a : Z) : list Z :=
  match fuel with
  | O => []
  | S fuel' => if mget m a =? 0 then [] else mget m a :: cstr fuel' m (a + 1)
  end.

(** Copies byte by byte up to and including the NUL. *)
Fixpoint strcpy_loop (fuel : nat) (m : mem) (s t : Z) : option mem :=
  match fuel with
  | O => None
  | S fuel' =>
      let c := mget m t in
      let m := mput m s c in
      if c =? 0 then Some m else strcpy_loop fuel' m (s + 1) (t + 1)
  end.
Definition strcpy (fuel : nat) (m : mem) (s t : Z) : option (mem * Z) :=
  (fun m => (m, s)) <$> strcpy_loop fuel m s t.

Fixpoint strcmp (p q : list Z) : Z :=
  match p with
  | [] => 0 - default 0 (head q)
  | a :: p' =>
      match q with
      | b :: q' => if a =? b then strcmp p' q' else a - b
      | [] => a - 0
      end
  end.

Fixpoint strlen (fuel : nat) (m : mem) (s n : Z) : option Z :=
  match fuel with
  | O => None
  | S fuel' => if mget m (s + n) =? 0 then Some (u32 n) else strlen fuel' m s (n + 1)
  end.

Fixpoint memset_loop (n : nat) (m : mem) (dst c i : Z) : mem :=
  match n with
  | O => m
  | S n' => memset_loop n' (mput m (dst + i) c) dst c (i + 1)
  end.
Definition memset (m : mem) (dst c n : Z) : mem := memset_loop (Z.to_nat n) m dst c 0.

(** The address of the first [c], or the null pointer. *)
Fixpoint strchr (fuel : nat) (m : mem) (s c : Z) : option Z :=
  match fuel with
  | O => None
  | S fuel' =>
      if mget m s =? 0 then Some 0 else
      if mget m s =? c then Some s else strchr fuel' m (s + 1) c
  end.

Fixpoint atoi_loop (s : list Z) (n : Z) : Z :=
  match s with
  | [] => n
  | c :: s' => if (48 <=? c) && (c <=? 57) then atoi_loop s' (i32 (n * 10 + c - 48)) else n
  end.
Definition atoi (s : list Z) : Z := atoi_loop s 0.

Definition memmove (m : mem) (vdst vsrc n : Z) : mem :=
  if vdst <? vsrc then copy_forward (Z.to_nat n) m vdst vsrc
  else copy_backward (Z.to_nat n) m (vdst + n) (vsrc + n).

(** [*p1 - *p2] of [char]s, which are unsigned on this machine. *)
Fixpoint memcmp_loop (n : nat) (m : mem) (p1 p2 : Z) : Z :=
  match n with
  | O => 0
  | S n' =>
      if negb (mget m p1 =? mget m p2) then mget m p1 - mget m p2
      else memcmp_loop n' m (p1 + 1) (p2 + 1)
  end.
Definition memcmp (m : mem) (s1 s2 n : Z) : Z := memcmp_loop (Z.to_nat n) m s1 s2.
Definition memcpy (m : mem) (dst src n : Z) : mem := memmove m dst src n.

(** The string [w] is at [a]. *)
Definition string_at (m : mem) (a : Z) (w : list Z) : Prop :=
  load_bytes m a (length w) = w /\ Forall (fun c => c <> 0) w /\ mget m (a + lenZ w) = 0.

(** ** Lemmas *)

Lemma load_bytes_app m a n k : load_bytes m a (n + k) = load_bytes m a n ++ load_bytes m (a + Z.of_nat n) k.
Proof.
  revert a. induction n as [|n IH]; intros a; [by rewrite Z.add_0_r|]. cbn [Nat.add load_bytes app].
  rewrite IH. do 2 f_equal. f_equal. lia.
Qed.

Lemma load_bytes_shift m m' n : forall a b, (forall i, 0 <= i < Z.of_nat n -> mget m (a + i) = mget m' (b + i)) ->
  load_bytes m a n = load_bytes m' b n.
Proof.
  induction n as [|n IH]; intros a b H; [done|]. cbn [load_bytes]. f_equal.
  - specialize (H 0 ltac:(lia)). by rewrite !Z.add_0_r in H.
  - apply IH. intros i Hi. rewrite <- !Z.add_assoc. apply H. lia.
Qed.

Lemma load_bytes_app_inv m a w v : load_bytes m a (length (w ++ v)) = w ++ v ->
  load_bytes m a (length w) = w /\ load_bytes m (a + lenZ w) (length v) = v.
Proof. rewrite length_app, load_bytes_app. intros E. apply app_inj_1 in E; [done|]. by rewrite length_load_bytes. Qed.

Lemma string_at_cons m a c w : string_at m a (c :: w) -> mget m a = c /\ c <> 0 /\ string_at m (a + 1) w.
Proof.
  intros (Hl & Hn & H0). apply Forall_cons in Hn as [Hc Hn]. cbn [length load_bytes] in Hl. injection Hl as E1 E2.
  rewrite lenZ_cons in H0. split; [done|]. split; [done|]. split; [done|]. split; [done|]. by rewrite <- Z.add_assoc.
Qed.

Lemma cstr_ok fuel m a w : string_at m a w -> (length w < fuel)%nat -> cstr fuel m a = w.
Proof.
  revert fuel a. induction w as [|c w IH]; intros [|fuel] a Hw Hf; try (simpl in Hf; lia); cbn [cstr].
  - destruct Hw as (_ & _ & H0). rewrite Z.add_0_r in H0. by rewrite H0.
  - apply string_at_cons in Hw as (E & Hc & Hw). rewrite E. destruct (Z.eqb_spec c 0); [done|]. f_equal. apply IH; [done|]. simpl in Hf. lia.
Qed.

Lemma strchr_none fuel m a w c : string_at m a w -> (length w < fuel)%nat -> c ∉ w -> strchr fuel m a c = Some 0.
Proof.
  revert fuel a. induction w as [|b w IH]; intros [|fuel] a Hw Hf Hc; try (simpl in Hf; lia); cbn [strchr].
  - destruct Hw as (_ & _ & H0). rewrite Z.add_0_r in H0. by rewrite H0.
  - apply string_at_cons in Hw as (E & Hb & Hw). apply not_elem_of_cons in Hc as [Hne Hc]. rewrite E.
    destruct (Z.eqb_spec b 0); [done|]. destruct (Z.eqb_spec b c); [congruence|]. apply IH; [done| |done]. simpl in Hf. lia.
Qed.

Lemma strchr_some fuel m a w c v : string_at m a (w ++ c :: v) -> (length w < fuel)%nat -> c ∉ w ->
  strchr fuel m a c = Some (a + lenZ w).
Proof.
  revert fuel a. induction w as [|b w IH]; intros [|fuel] a Hw Hf Hc; try (simpl in Hf; lia); cbn [strchr];
    apply string_at_cons in Hw as (E & Hb & Hw); rewrite E.
  - destruct (Z.eqb_spec c 0); [done|]. by rewrite Z.eqb_refl, Z.add_0_r.
  - apply not_elem_of_cons in Hc as [Hne Hc]. destruct (Z.eqb_spec b 0); [done|]. destruct (Z.eqb_spec b c); [congruence|].
    rewrite (IH fuel (a + 1) Hw) by (simpl in Hf; lia || done). f_equal. rewrite lenZ_cons. lia.
Qed.

Lemma mget_umemmove m dst src n x : 0 <= n ->
  mget (memmove m dst src n) x = if (dst <=? x) && (x <? dst + n) then mget m (src + (x - dst)) else mget m x.
Proof.
  intros Hn. unfold memmove. destruct (Z.ltb_spec dst src).
  - rewrite mget_copy_forward by lia. by rewrite Z2Nat.id by lia.
  - rewrite mget_copy_backward by lia. rewrite Z2Nat.id by lia. replace (dst + n - n) with dst by lia.
    replace (src + n + (x - (dst + n))) with (src + (x - dst)) by lia. done.
Qed.

Lemma string_at_ext m m' a w : (forall x, a <= x <= a + lenZ w -> mget m' x = mget m x) -> string_at m a w -> string_at m' a w.
Proof.
  intros H (Hl & Hn & H0). split; [|split; [done|]].
  - etransitivity; [|exact Hl]. apply load_bytes_ext. intros x Hx. apply H. unfold lenZ. lia.
  - rewrite H; [done|]. pose proof (lenZ_nonneg w). lia.
Qed.

Lemma string_at_app m a w v : string_at m a (w ++ v) -> load_bytes m a (length w) = w /\ string_at m (a + lenZ w) v.
Proof.
  intros (Hl & Hn & H0). apply load_bytes_app_inv in Hl as [Hw Hv]. split; [done|]. split; [done|].
  apply Forall_app in Hn as [_ Hn]. split; [done|]. rewrite lenZ_app in H0. by rewrite <- Z.add_assoc.
Qed.

Lemma strlen_ok fuel m s n w : string_at m (s + n) w -> (length w < fuel)%nat -> strlen fuel m s n = Some (u32 (n + lenZ w)).
Proof.
  revert fuel n. induction w as [|c w IH]; intros [|fuel] n Hw Hf; try (simpl in Hf; lia); cbn [strlen].
  - destruct Hw as (_ & _ & H0). rewrite Z.add_0_r in H0. rewrite H0. by rewrite Z.add_0_r.
  - apply string_at_cons in Hw as (E & Hc & Hw). rewrite E. destruct (Z.eqb_spec c 0); [done|]. rewrite (IH fuel (n + 1)); [|by rewrite Z.add_assoc|simpl in Hf; lia].
    rewrite lenZ_cons. do 2 f_equal. lia.
Qed.
