(* ===== verification/Grep.v ===== *)
(** * The user program grep ([user/grep.c])

    The matcher works on strings without their NUL; [grep] itself works on
    the 1024-byte buffer in the memory of the process.  What [read] returns
    is a parameter: the input may arrive in pieces of any size. *)

From S2P Require Import Prelude Riscv State Ulib.

(** ** Definitions *)

Definition c_newline : Z := 10.
Definition c_dollar : Z := 36.
Definition c_star : Z := 42.
Definition c_dot : Z := 46.
Definition c_caret : Z := 94.

(** The loop of [matchstar], for the rest of the pattern given as its matcher. *)
Fixpoint star_loop (c : Z) (here : list Z -> bool) (text : list Z) : bool :=
  if here text then true else
  match text with
  | [] => false
  | t :: text' => if (t =? c) || (c =? c_dot) then star_loop c here text' else false
  end.

Fixpoint matchhere (re text : list Z) {struct re} : bool :=
  match re with
  | [] => true
  | c :: re1 =>
      let next :=
        match text with
        | [] => false
        | t :: text' => if (c =? c_dot) || (c =? t) then matchhere re1 text' else false
        end in
      match re1 with
      | [] => if c =? c_dollar then (match text with [] => true | _ => false end) else next
      | d :: re2 => if d =? c_star then star_loop c (matchhere re2) text else next
      end
  end.

Definition matchstar (c : Z) (re text : list Z) : bool := star_loop c (matchhere re) text.

(** The loop of [match]. *)
Fixpoint match_loop (here : list Z -> bool) (text : list Z) : bool :=
  if here text then true else
  match text with
  | [] => false
  | _ :: text' => match_loop here text'
  end.

Definition match_ (re text : list Z) : bool :=
  match re with
  | c :: re1 => if c =? c_caret then matchhere re1 text else match_loop (matchhere re) text
  | [] => match_loop (matchhere re) text
  end.

Definition sizeof_buf : Z := 1024.
(** Enough for the loops over the buffer. *)
Definition buf_fuel : nat := S (Z.to_nat sizeof_buf).

(** The loop over the complete lines of the buffer from [p] on; [out] is what
    has been written to file descriptor 1. *)
Fixpoint grep_lines (fuel : nat) (pattern : list Z) (m : mem) (p : Z) (out : list Z) : option (mem * Z * list Z) :=
  match fuel with
  | O => None
  | S fuel' =>
      q ← strchr buf_fuel m p c_newline;
      if q =? 0 then Some (m, p, out) else
      let m := mput m q 0 in
      if match_ pattern (cstr buf_fuel m p) then
        let m := mput m q c_newline in
        grep_lines fuel' pattern m (q + 1) (out ++ load_bytes m p (Z.to_nat (q + 1 - p)))
      else grep_lines fuel' pattern m (q + 1) out
  end.

(** [reads k n]: how many bytes the [k]-th call of [read] returns of [n] asked
    for, if there are as many.  It returns at least one, and never more than
    asked for. *)
Class Reader := {
  reads : nat -> Z -> Z;
  reads_range : forall k n, 0 < n -> 1 <= reads k n <= n;
}.

Section Grep.
Context {RD : Reader}.

(** [read(fd, a, n)], the [k]-th, with [input] still to come. *)
Definition read (k : nat) (input : list Z) (m : mem) (a n : Z) : mem * list Z * Z :=
  if n <=? 0 then (m, input, 0) else
  let c := Z.min (reads k n) (lenZ input) in
  (store_bytes m a (take (Z.to_nat c) input), drop (Z.to_nat c) input, c).

(** [buf] is the address of the buffer. *)
Fixpoint grep (fuel k : nat) (buf : Z) (pattern input : list Z) (m : mem) (n : Z) (out : list Z) : option (list Z) :=
  match fuel with
  | O => None
  | S fuel' =>
      let '(m, input, c) := read k input m (buf + n) (sizeof_buf - n - 1) in
      if c <=? 0 then Some out else
      let n := n + c in
      let m := mput m (buf + n) 0 in
      '(m, p, out) ← grep_lines buf_fuel pattern m buf out;
      let '(m, n) := if 0 <? n then (memmove m buf p (n - (p - buf)), n - (p - buf)) else (m, n) in
      grep fuel' (S k) buf pattern input m n out
  end.

End Grep.

(** *** What a pattern means *)

Inductive atom := Any | Lit (c : Z).
Inductive item := One (a : atom) | Many (a : atom).

Definition atom_of (c : Z) : atom := if c =? c_dot then Any else Lit c.
Definition sat (a : atom) (c : Z) : Prop := match a with Any => True | Lit d => c = d end.

(** The items of a pattern, and whether it ends in [$]. *)
Fixpoint parse (re : list Z) : list item * bool :=
  match re with
  | [] => ([], false)
  | c :: re1 =>
      let one := (One (atom_of c) :: (parse re1).1, (parse re1).2) in
      match re1 with
      | [] => if c =? c_dollar then ([], true) else one
      | d :: re2 => if d =? c_star then (Many (atom_of c) :: (parse re2).1, (parse re2).2) else one
      end
  end.

(** The words of a sequence of items. *)
Inductive words : list item -> list Z -> Prop :=
| words_nil : words [] []
| words_one a its c w : sat a c -> words its w -> words (One a :: its) (c :: w)
| words_many a its u w : Forall (sat a) u -> words its w -> words (Many a :: its) (u ++ w).

(** [text] starts with a word of the pattern, and is one if that ends in [$]. *)
Definition starts (r : list item * bool) (text : list Z) : Prop :=
  exists w post, text = w ++ post /\ words r.1 w /\ (r.2 = true -> post = []).

(** The meaning of a pattern: somewhere in the text, or at its start after [^]. *)
Definition matches (re text : list Z) : Prop :=
  match re with
  | c :: re1 => if c =? c_caret then starts (parse re1) text else exists pre post, text = pre ++ post /\ starts (parse re) post
  | [] => True
  end.

(** The lines of [input] that match, each with its newline; [cur] is the
    beginning of the first line. *)
Fixpoint matching_lines (pattern cur input : list Z) : list Z :=
  match input with
  | [] => []
  | c :: input' =>
      if c =? c_newline then
        (if match_ pattern cur then cur ++ [c_newline] else []) ++ matching_lines pattern [] input'
      else matching_lines pattern (cur ++ [c]) input'
  end.

(** ** Lemmas *)

(** *** The matcher *)

Lemma pattern_ind (P : list Z -> Prop) :
  P [] -> (forall c re, P re -> P (c :: c_star :: re)) ->
  (forall c re, head re <> Some c_star -> P re -> P (c :: re)) -> forall re, P re.
Proof.
  intros H0 H1 H2 re. assert (H : forall n re, (length re <= n)%nat -> P re); [|by apply (H (length re))].
  clear re. induction n as [|n IH]; intros [|c re] Hl; simpl in Hl; try lia; try done.
  destruct re as [|d re]; [by apply H2|]. simpl in Hl. destruct (decide (d = c_star)) as [->|Hd].
  - apply H1, IH. lia.
  - apply H2; [simpl; congruence|]. apply IH. simpl. lia.
Qed.

Lemma star_loop_spec c h text : star_loop c h text = true <->
  exists u v, text = u ++ v /\ Forall (sat (atom_of c)) u /\ h v = true.
Proof.
  assert (Hs : forall t, ((t =? c) || (c =? c_dot)) = true <-> sat (atom_of c) t).
  { intros t. unfold atom_of. destruct (Z.eqb_spec c c_dot); simpl; [by rewrite orb_true_r|]. rewrite orb_false_r. apply Z.eqb_eq. }
  induction text as [|t text IH]; cbn [star_loop].
  - destruct (h []) eqn:E; [by split; [exists [], []|]|]. split; [done|]. intros (u & v & Ev & _ & Hv).
    symmetry in Ev. apply app_nil in Ev as [-> ->]. congruence.
  - destruct (h (t :: text)) eqn:E; [by split; [exists [], (t :: text)|]|]. split.
    + destruct (_ || _) eqn:Et; [|done]. rewrite IH. intros (u & v & -> & Hu & Hv). exists (t :: u), v.
      split; [done|]. split; [|done]. constructor; [by apply Hs|done].
    + intros ([|t' u] & v & Ev & Hu & Hv); simpl in Ev; [congruence|]. injection Ev as <- ->.
      apply Forall_cons in Hu as [Ht Hu]. apply Hs in Ht. rewrite Ht, IH. eauto.
Qed.

Lemma match_loop_spec h text : match_loop h text = true <-> exists pre post, text = pre ++ post /\ h post = true.
Proof.
  induction text as [|t text IH]; cbn [match_loop].
  - destruct (h []) eqn:E; [by split; [exists [], []|]|]. split; [done|]. intros (u & v & Ev & Hv).
    symmetry in Ev. apply app_nil in Ev as [-> ->]. congruence.
  - destruct (h (t :: text)) eqn:E; [by split; [exists [], (t :: text)|]|]. rewrite IH. split.
    + intros (u & v & -> & Hv). by exists (t :: u), v.
    + intros ([|t' u] & v & Ev & Hv); simpl in Ev; [congruence|]. injection Ev as <- ->. eauto.
Qed.

(** [matchhere] on a pattern whose second character is not [*]. *)
Lemma matchhere_one c re text : head re <> Some c_star ->
  matchhere (c :: re) text =
    if (c =? c_dollar) && bool_decide (re = []) then bool_decide (text = []) else
    match text with
    | [] => false
    | t :: text' => if (c =? c_dot) || (c =? t) then matchhere re text' else false
    end.
Proof.
  intros Hh. destruct re as [|d re]; cbn [matchhere].
  - rewrite bool_decide_true, andb_true_r by done. by destruct (c =? c_dollar), text.
  - rewrite (bool_decide_false (d :: re = [])), andb_false_r by done. destruct (Z.eqb_spec d c_star); [by subst|done].
Qed.

Lemma parse_one c re : head re <> Some c_star ->
  parse (c :: re) = if (c =? c_dollar) && bool_decide (re = []) then ([], true)
    else (One (atom_of c) :: (parse re).1, (parse re).2).
Proof.
  intros Hh. destruct re as [|d re]; cbn [parse].
  - rewrite bool_decide_true, andb_true_r by done. by destruct (c =? c_dollar).
  - rewrite (bool_decide_false (d :: re = [])), andb_false_r by done. destruct (Z.eqb_spec d c_star); [by subst|done].
Qed.

Lemma matchhere_spec re : forall text, matchhere re text = true <-> starts (parse re) text.
Proof.
  induction re as [|c re IH|c re Hh IH] using pattern_ind; intros text.
  - split; [intros _; exists [], text; split; [done|]; split; [constructor|done]|done].
  - change (matchhere (c :: c_star :: re) text) with (star_loop c (matchhere re) text). rewrite star_loop_spec.
    change (parse (c :: c_star :: re)) with (Many (atom_of c) :: (parse re).1, (parse re).2). split.
    + intros (u & v & -> & Hu & Hv). apply IH in Hv as (w & post & -> & Hw & He). exists (u ++ w), post.
      split; [by rewrite app_assoc|]. split; [by constructor|done].
    + intros (w & post & -> & Hw & He). inversion Hw as [| |a its u w' Hu Hw' E1 E2]; subst. exists u, (w' ++ post).
      split; [by rewrite app_assoc|]. split; [done|]. apply IH. by exists w', post.
  - rewrite matchhere_one, parse_one by done. destruct (_ && _); [|destruct text as [|t text]].
    + rewrite bool_decide_eq_true. split; [intros ->; exists [], []; split; [done|]; split; [constructor|done]|].
      intros (w & post & -> & Hw & He). inversion Hw. by rewrite He.
    + split; [done|]. intros (w & post & E & Hw & _). inversion Hw; subst. done.
    + assert (Hs : ((c =? c_dot) || (c =? t)) = true <-> sat (atom_of c) t).
      { unfold atom_of. destruct (Z.eqb_spec c c_dot); simpl; [done|]. rewrite Z.eqb_eq. by split. }
      split.
      * destruct (_ || _) eqn:Et; [|done]. intros Hm. apply IH in Hm as (w & post & -> & Hw & He). exists (t :: w), post.
        split; [done|]. split; [|done]. constructor; [by apply Hs|done].
      * intros (w & post & E & Hw & He). inversion Hw as [|a its d w' Hd Hw' E1 E2|]; subst. injection E as <- ->.
        apply Hs in Hd. rewrite Hd. apply IH. by exists w', post.
Qed.

Lemma match_spec re text : match_ re text = true <-> matches re text.
Proof.
  unfold match_, matches. destruct re as [|c re].
  - rewrite match_loop_spec. split; [done|]. intros _. by exists [], text.
  - destruct (c =? c_caret); [apply matchhere_spec|]. rewrite match_loop_spec.
    split; intros (pre & post & -> & H); exists pre, post; (split; [done|]); by apply matchhere_spec.
Qed.

(** *** The buffer *)

Lemma matching_lines_cur re l input : c_newline ∉ l -> forall cur, matching_lines re cur (l ++ input) = matching_lines re (cur ++ l) input.
Proof.
  induction l as [|c l IH]; intros Hl cur; [by rewrite app_nil_r|]. apply not_elem_of_cons in Hl as [Hc Hl].
  cbn [app matching_lines]. destruct (Z.eqb_spec c c_newline); [congruence|]. by rewrite IH, <- app_assoc.
Qed.

Lemma matching_lines_none re w : c_newline ∉ w -> matching_lines re [] w = [].
Proof. intros H. rewrite <- (app_nil_r w), matching_lines_cur by done. done. Qed.

Lemma matching_lines_line re l v : c_newline ∉ l ->
  matching_lines re [] (l ++ c_newline :: v) = (if match_ re l then l ++ [c_newline] else []) ++ matching_lines re [] v.
Proof. intros H. by rewrite matching_lines_cur by done. Qed.

(** The first newline of [w] becomes a NUL, and the line before it a string. *)
Lemma cut_line m p l v : string_at m p (l ++ c_newline :: v) ->
  string_at (mput m (p + lenZ l) 0) p l /\ string_at m (p + lenZ l + 1) v.
Proof.
  intros Hw. pose proof Hw as (_ & Hn & _). apply Forall_app in Hn as [Hn _]. apply string_at_app in Hw as [Hl Hv].
  apply string_at_cons in Hv as (_ & _ & Hv). split; [|done]. split; [|split; [done|]].
  - etransitivity; [|exact Hl]. apply load_bytes_ext. intros x Hx. apply mget_mput_ne. unfold lenZ. lia.
  - by rewrite mget_mput_eq.
Qed.

Lemma grep_lines_ok re fuel : forall w m p out, string_at m p w -> 0 < p -> (length w < fuel)%nat -> (length w < buf_fuel)%nat ->
  exists m' p' tail lines, grep_lines fuel re m p out = Some (m', p', out ++ lines) /\ string_at m' p' tail /\
    c_newline ∉ tail /\ p <= p' /\ p' + lenZ tail = p + lenZ w /\ (exists pre, w = pre ++ tail) /\
    forall input, matching_lines re [] (w ++ input) = lines ++ matching_lines re [] (tail ++ input).
Proof.
  induction fuel as [|fuel IH]; intros w m p out Hw Hp Hf Hb; [lia|]. cbn [grep_lines].
  destruct (decide (c_newline ∈ w)) as [Hin|Hin].
  - apply list_elem_of_split_l in Hin as (l & v & -> & Hl). rewrite length_app in Hf, Hb. simpl in Hf, Hb.
    rewrite (strchr_some _ m p l c_newline v Hw) by (lia || done). cbn [mbind option_bind].
    pose proof (lenZ_nonneg l) as Hl0. destruct (Z.eqb_spec (p + lenZ l) 0); [lia|]. destruct (cut_line m p l v Hw) as [Hstr Hv].
    set (q := p + lenZ l) in *. rewrite (cstr_ok buf_fuel _ p l Hstr) by lia.
    assert (Hloop : forall m' out', (forall x, x <> q -> mget m' x = mget m x) ->
      exists m2 p' tail lines, grep_lines fuel re m' (q + 1) out' = Some (m2, p', out' ++ lines) /\ string_at m2 p' tail /\
        c_newline ∉ tail /\ p <= p' /\ p' + lenZ tail = p + lenZ (l ++ c_newline :: v) /\
        (exists pre, l ++ c_newline :: v = pre ++ tail) /\
        forall input, matching_lines re [] (v ++ input) = lines ++ matching_lines re [] (tail ++ input)).
    { intros m' out' Hm. destruct (IH v m' (q + 1) out') as (m2 & p' & tail & lines & E & H1 & H2 & H3 & H4 & (pre & H6) & H5); [|lia..|].
      - eapply string_at_ext; [|exact Hv]. intros x Hx. apply Hm. lia.
      - exists m2, p', tail, lines. split; [done|]. split; [done|]. split; [done|]. split; [lia|]. split; [|split; [|done]].
        + rewrite H4, lenZ_app, lenZ_cons. lia.
        + exists (l ++ c_newline :: pre). by rewrite H6, <- app_assoc. }
    destruct (match_ re l) eqn:Em.
    + set (m2 := mput (mput m q 0) q c_newline). assert (Eline : load_bytes m2 p (Z.to_nat (q + 1 - p)) = l ++ [c_newline]).
      { replace (Z.to_nat (q + 1 - p)) with (length l + 1)%nat by (unfold q, lenZ; lia). rewrite load_bytes_app. f_equal.
        - destruct Hstr as (Hl1 & _). etransitivity; [|exact Hl1]. apply load_bytes_ext. intros x Hx. apply mget_mput_ne. unfold q, lenZ. lia.
        - cbn [load_bytes]. change (p + Z.of_nat (length l)) with q. unfold m2. by rewrite mget_mput_eq. }
      rewrite Eline. destruct (Hloop m2 (out ++ l ++ [c_newline])) as (m3 & p' & tail & lines & E & H1 & H2 & H3 & H4 & H6 & H5).
      { intros x Hx. unfold m2. by rewrite !mget_mput_ne. }
      exists m3, p', tail, ((l ++ [c_newline]) ++ lines). rewrite E, <- !app_assoc. repeat (split; [done|]).
      intros input. rewrite <- app_assoc. cbn [app]. rewrite matching_lines_line, Em, H5 by done. by rewrite <- !app_assoc.
    + destruct (Hloop (mput m q 0) out) as (m3 & p' & tail & lines & E & H1 & H2 & H3 & H4 & H6 & H5).
      { intros x Hx. by rewrite mget_mput_ne. }
      exists m3, p', tail, lines. rewrite E. repeat (split; [done|]).
      intros input. rewrite <- app_assoc. cbn [app]. by rewrite matching_lines_line, Em, H5 by done.
  - rewrite (strchr_none _ m p w) by done. cbn [mbind option_bind Z.eqb]. exists m, p, w, []. rewrite app_nil_r.
    repeat (split; [done|]). split; [by exists []|done].
Qed.

Definition is_text (l : list Z) : Prop := Forall (fun c => 0 < c < 256) l.

(** No line is longer than the buffer: 1022 bytes and the newline. *)
Definition short_lines (input : list Z) : Prop :=
  forall a l b, input = a ++ l ++ c_newline :: b -> c_newline ∉ l -> lenZ l <= sizeof_buf - 2.

Section Loop.
Context {RD : Reader}.

(** The bytes [bs] arrive after the [w] in the buffer. *)
Lemma read_string m a w bs : load_bytes m a (length w) = w -> is_text (w ++ bs) ->
  string_at (mput (store_bytes m (a + lenZ w) bs) (a + lenZ w + lenZ bs) 0) a (w ++ bs).
Proof.
  intros Hw Ht. apply Forall_app in Ht as [Hwt Hbt]. pose proof (lenZ_nonneg w). pose proof (lenZ_nonneg bs). split; [|split].
  - rewrite length_app, load_bytes_app. f_equal.
    + etransitivity; [|exact Hw]. apply load_bytes_ext. intros x Hx.
      rewrite mget_mput_ne, mget_store_bytes_out by (unfold lenZ in *; lia). done.
    + change (a + Z.of_nat (length w)) with (a + lenZ w). transitivity (load_bytes (store_bytes m (a + lenZ w) bs) (a + lenZ w) (length bs)).
      * apply load_bytes_ext. intros x Hx. apply mget_mput_ne. unfold lenZ in *. lia.
      * apply load_store_bytes. eapply Forall_impl; [exact Hbt|]. simpl. lia.
  - apply Forall_app. split; (eapply Forall_impl; [eassumption|]); simpl; lia.
  - rewrite lenZ_app, Z.add_assoc, mget_mput_eq. done.
Qed.

Lemma short_none w input : short_lines (w ++ input) -> c_newline ∉ w -> sizeof_buf - 1 <= lenZ w -> c_newline ∉ w ++ input.
Proof.
  intros Hs Hw Hl Hin. apply elem_of_app in Hin as [Hin|Hin]; [done|].
  apply list_elem_of_split_l in Hin as (l & b & -> & Hn). pose proof (lenZ_nonneg l).
  specialize (Hs [] (w ++ l) b). rewrite lenZ_app, <- app_assoc, not_elem_of_app in Hs. specialize (Hs eq_refl (conj Hw Hn)). lia.
Qed.

Lemma short_lines_drop w pre tail input : w = pre ++ tail -> short_lines (w ++ input) -> short_lines (tail ++ input).
Proof. intros -> Hs a l b E Hl. apply (Hs (pre ++ a) l b); [|done]. by rewrite <- !app_assoc, <- E. Qed.

Lemma grep_ok re buf fuel : 0 < buf -> forall k input m w out,
  load_bytes m buf (length w) = w -> is_text (w ++ input) -> c_newline ∉ w -> lenZ w <= sizeof_buf - 1 ->
  short_lines (w ++ input) -> (length input < fuel)%nat ->
  grep fuel k buf re input m (lenZ w) out = Some (out ++ matching_lines re [] (w ++ input)).
Proof.
  intros Hbuf. induction fuel as [|fuel IH]; intros k input m w out Hw Ht Hn Hl Hs Hf; [lia|]. cbn [grep]. unfold read.
  destruct (Z.leb_spec (sizeof_buf - lenZ w - 1) 0).
  { rewrite Z.leb_refl, (matching_lines_none re (w ++ input)), app_nil_r by (apply short_none; [done|done|lia]). done. }
  set (c := Z.min _ _). pose proof (reads_range k (sizeof_buf - lenZ w - 1) ltac:(lia)) as Hc.
  destruct (Z.leb_spec c 0).
  { assert (lenZ input = 0) by (pose proof (lenZ_nonneg input); lia). destruct input; [|rewrite lenZ_cons in *; pose proof (lenZ_nonneg input); lia].
    by rewrite app_nil_r, matching_lines_none, app_nil_r. }
  set (bs := take (Z.to_nat c) input). set (rest := drop (Z.to_nat c) input).
  assert (Ei : input = bs ++ rest) by (symmetry; apply take_drop).
  assert (Elen : lenZ bs = c) by (unfold bs, lenZ; rewrite length_take; unfold lenZ in *; lia).
  assert (Hlr : (length rest < length input)%nat) by (unfold rest; rewrite length_drop; unfold lenZ in *; lia).
  assert (Htb : is_text (w ++ bs)) by (rewrite Ei in Ht; rewrite app_assoc in Ht; by apply Forall_app in Ht as [? _]).
  pose proof (read_string m buf w bs Hw Htb) as Hstr. rewrite Elen in Hstr.
  assert (Hlw : (length (w ++ bs) < buf_fuel)%nat) by (pose proof (lenZ_app w bs); unfold buf_fuel, sizeof_buf, lenZ in *; lia).
  destruct (grep_lines_ok re buf_fuel (w ++ bs) _ buf out Hstr Hbuf Hlw Hlw)
    as (m' & p' & tail & lines & E & Htail & Hnl & Hp' & Hend & (pre & Hpre) & Hout). rewrite lenZ_app, Elen in Hend. pose proof (lenZ_nonneg tail).
  rewrite <- Z.add_assoc in E. rewrite E. cbn [mbind option_bind]. pose proof (lenZ_nonneg w).
  destruct (Z.ltb_spec 0 (lenZ w + c)); [|lia]. replace (lenZ w + c - (p' - buf)) with (lenZ tail) by lia.
  rewrite (IH (S k) rest); [|clear IH..].
  - rewrite <- app_assoc, <- Hout, <- app_assoc, <- Ei. done.
  - destruct Htail as (Hld & _). etransitivity; [|exact Hld]. apply load_bytes_shift. intros i Hi.
    rewrite mget_umemmove by lia. unfold lenZ. destruct (Z.leb_spec buf (buf + i)), (Z.ltb_spec (buf + i) (buf + Z.of_nat (length tail))); try lia.
    cbn [andb]. f_equal. lia.
  - rewrite Ei, app_assoc, Hpre, <- app_assoc in Ht. by apply Forall_app in Ht as [_ ?].
  - done.
  - lia.
  - apply (short_lines_drop (w ++ bs) pre); [done|]. by rewrite <- app_assoc, <- Ei.
  - lia.
Qed.

End Loop.

(** ** The theorems *)

(** C26: the backtracking matcher decides the meaning of patterns.  [match]
    answers whether the text contains a word of the pattern - from its start
    if the pattern begins with [^], up to its end if it ends with [$] - where
    [.] stands for any character, [c*] for any number of [c]s, and every
    other character for itself. *)
Theorem match_decides re text : match_ re text = true <-> matches re text.
Proof. apply match_spec. Qed.

(** C25: [grep] terminates and prints exactly the matching lines.  However the
    input arrives in reads, as long as no line is longer than the buffer,
    [grep] writes the lines that match, whole and in order, and nothing
    else; it needs at most one read more than there are bytes.  An
    unterminated last line is not printed. *)
Theorem grep_prints_matching_lines {RD : Reader} re buf input m :
  0 < buf -> is_text input -> short_lines input ->
  grep (S (length input)) 0 buf re input m 0 [] = Some (matching_lines re [] input).
Proof.
  intros Hbuf Ht Hs. apply (grep_ok re buf (S (length input)) Hbuf 0 input m [] []); try done; try lia. apply not_elem_of_nil.
Qed.

(** Reads that return three bytes at a time. *)
Definition demo_reader : Reader.
Proof. refine {| reads := fun _ n => Z.min 3 n |}. intros _ n Hn. lia. Defined.

(** "ab\nxx\nac\n" against the pattern "^a.*". *)
Definition demo_input : list Z := [97; 98; 10; 120; 120; 10; 97; 99; 10].

Lemma grep_prints_matching_lines_witness :
  @grep demo_reader 10 0 4096 [94; 97; 46; 42] demo_input ∅ 0 [] = Some [97; 98; 10; 97; 99; 10].
Proof.
  apply (@grep_prints_matching_lines demo_reader [94; 97; 46; 42] 4096 demo_input ∅).
  - lia.
  - repeat constructor; lia.
  - intros a l b E Hl. apply (f_equal lenZ) in E. rewrite !lenZ_app, lenZ_cons in E. change (lenZ demo_input) with 9 in E.
    pose proof (lenZ_nonneg a). pose proof (lenZ_nonneg b). unfold sizeof_buf. lia.
Defined.
