(* ===== verification/Umalloc.v ===== *)
(** * The user memory allocator ([user/umalloc.c])

    The headers that the allocator keeps before the blocks are a finite map
    from addresses to headers; what the program stores in its blocks is not
    part of the model.  An access to a header that does not exist is [None],
    and so is running out of fuel.  [sbrk] is a system call, a parameter. *)

From S2P Require Import Prelude Riscv State.

(** ** Definitions *)

(** [union header], of 16 bytes *)
Record header := mkHeader {
  h_ptr : Z;
  h_size : Z;
}.
Definition sizeof_header : Z := 16.
Definition set_h_ptr (v : Z) (h : header) : header := mkHeader v (h_size h).
Definition set_h_size (v : Z) (h : header) : header := mkHeader (h_ptr h) v.

(** The static variable [freep], the headers, and the break of the process. *)
Record ustate := mkUstate {
  u_heap : gmap Z header;
  u_freep : Z;
  u_brk : Z;
}.
Definition set_u_heap (h : gmap Z header) (u : ustate) : ustate := mkUstate h (u_freep u) (u_brk u).
Definition set_u_freep (p : Z) (u : ustate) : ustate := mkUstate (u_heap u) p (u_brk u).
Definition set_u_brk (b : Z) (u : ustate) : ustate := mkUstate (u_heap u) (u_freep u) b.

(** A fresh page is zero. *)
Definition hdr (u : ustate) (a : Z) : header := default (mkHeader 0 0) (u_heap u !! a).
Definition put_hdr (a : Z) (h : header) (u : ustate) : ustate := set_u_heap (<[a := h]> (u_heap u)) u.

(** [sbrk brk n]: the break after [sbrk(n)] with the break at [brk], [None] if
    it returns -1.  It moves the break by [n] and not beyond a limit; a unit
    count below the limit fits the 32 bits of a size.  [u_base] is the address
    of the static header [base], below the heap, which starts at [u_start]. *)
Class Sbrk := {
  sbrk : Z -> Z -> option Z;
  u_base : Z;
  u_start : Z;
  u_limit : Z;
  sbrk_moves : forall b n b', 0 < n -> sbrk b n = Some b' -> b' = b + n /\ b' <= u_limit;
  u_base_pos : 0 < u_base;
  u_base_start : u_base + sizeof_header <= u_start;
  u_limit_max : u_limit < 2 ^ 36;
}.

Section Umalloc.
Context {SB : Sbrk}.

(** The search for the place of [bp] in the free list. *)
Fixpoint free_loop (fuel : nat) (u : ustate) (bp p : Z) : option Z :=
  match fuel with
  | O => None
  | S fuel' =>
      hp ← u_heap u !! p;
      if (p <? bp) && (bp <? h_ptr hp) then Some p
      else if (h_ptr hp <=? p) && ((p <? bp) || (bp <? h_ptr hp)) then Some p
      else free_loop fuel' u bp (h_ptr hp)
  end.

(** Every header of the list is passed at most once. *)
Definition list_fuel (u : ustate) : nat := S (size (u_heap u)).

Definition free (u : ustate) (ap : Z) : option ustate :=
  let bp := ap - sizeof_header in
  p ← free_loop (list_fuel u) u bp (u_freep u);
  hb ← u_heap u !! bp;
  hp ← u_heap u !! p;
  hb' ← (if bp + sizeof_header * h_size hb =? h_ptr hp then
           hn ← u_heap u !! h_ptr hp;
           Some (mkHeader (h_ptr hn) (u32 (h_size hb + h_size hn)))
         else Some (set_h_ptr (h_ptr hp) hb));
  let u := put_hdr bp hb' u in
  hp ← u_heap u !! p;
  let hp' :=
    if p + sizeof_header * h_size hp =? bp then mkHeader (h_ptr hb') (u32 (h_size hp + h_size hb'))
    else set_h_ptr bp hp in
  Some (set_u_freep p (put_hdr p hp' u)).

(** The free list, or 0; the argument of [sbrk] is an [int]. *)
Definition morecore (u : ustate) (nu : Z) : option (ustate * Z) :=
  let nu := if nu <? 4096 then 4096 else nu in
  match sbrk (u_brk u) (i32 (nu * sizeof_header)) with
  | None => Some (u, 0)
  | Some b =>
      let p := u_brk u in
      let u := set_u_brk b u in
      u ← free (put_hdr p (set_h_size nu (hdr u p)) u) (p + sizeof_header);
      Some (u, u_freep u)
  end.

(** [p] is large enough, and [prevp] is before it in the list. *)
Definition malloc_take (u : ustate) (nunits prevp p : Z) (hp : header) : option (ustate * Z) :=
  if h_size hp =? nunits then
    hprev ← u_heap u !! prevp;
    Some (set_u_freep prevp (put_hdr prevp (set_h_ptr (h_ptr hp) hprev) u), p + sizeof_header)
  else
    let u := put_hdr p (set_h_size (h_size hp - nunits) hp) u in
    let p := p + sizeof_header * (h_size hp - nunits) in
    let u := put_hdr p (set_h_size nunits (hdr u p)) u in
    Some (set_u_freep prevp u, p + sizeof_header).

Fixpoint malloc_loop (fuel : nat) (u : ustate) (nunits prevp p : Z) : option (ustate * Z) :=
  match fuel with
  | O => None
  | S fuel' =>
      hp ← u_heap u !! p;
      if nunits <=? h_size hp then malloc_take u nunits prevp p hp
      else if p =? u_freep u then
        '(u, p) ← morecore u nunits;
        if p =? 0 then Some (u, 0) else
        hp ← u_heap u !! p;
        malloc_loop fuel' u nunits p (h_ptr hp)
      else malloc_loop fuel' u nunits p (h_ptr hp)
  end.

(** Once around the list, and once more after [morecore]. *)
Definition malloc_fuel (u : ustate) : nat := 2 * list_fuel u + 4.

Definition units (nbytes : Z) : Z := u32 ((nbytes + sizeof_header - 1) / sizeof_header + 1).

Definition malloc (u : ustate) (nbytes : Z) : option (ustate * Z) :=
  let nunits := units nbytes in
  let u := if u_freep u =? 0 then set_u_freep u_base (put_hdr u_base (mkHeader u_base 0) u) else u in
  hprev ← u_heap u !! u_freep u;
  malloc_loop (malloc_fuel u) u nunits (u_freep u) (h_ptr hprev).

(** ** The invariant *)

(** Blocks are an address and a number of units.  [bs] is a piece of the list:
    the header of each points to the next, that of the last one to [last]. *)
Definition addr_of (bs : list (Z * Z)) (last : Z) : Z := match bs with (b, _) :: _ => b | [] => last end.
Fixpoint seg (h : gmap Z header) (bs : list (Z * Z)) (last : Z) : Prop :=
  match bs with
  | [] => True
  | (b, n) :: bs' => h !! b = Some (mkHeader (addr_of bs' last) n) /\ seg h bs' last
  end.

(** The blocks are ordered by address, with something between any two, from
    [lo] on. *)
Fixpoint sorted (lo : Z) (bs : list (Z * Z)) : Prop :=
  match bs with
  | [] => True
  | (b, n) :: bs' => lo < b /\ 0 <= n /\ sorted (b + sizeof_header * n) bs'
  end.

(** The blocks [T] make up the memory from [a] to [e]. *)
Fixpoint tiled (a : Z) (T : list (Z * Z)) (e : Z) : Prop :=
  match T with
  | [] => a = e
  | (b, n) :: T' => b = a /\ 1 <= n /\ tiled (b + sizeof_header * n) T' e
  end.

(** The free list is [base] and [L]; the program owns the blocks [A]. *)
Record minv (L A : list (Z * Z)) (u : ustate) : Prop := {
  mi_freep : u_freep u ∈ ((u_base, 0) :: L).*1;
  mi_seg : seg (u_heap u) ((u_base, 0) :: L) u_base;
  mi_sorted : sorted (u_base - 1) ((u_base, 0) :: L);
  mi_owned : forall a n, (a, n) ∈ A -> exists x, u_heap u !! a = Some (mkHeader x n);
  mi_tiles : exists T, tiled u_start T (u_brk u) /\ T ≡ₚ L ++ A;
  mi_limit : u_brk u <= u_limit;
}.

(** Before the first [malloc] there is no list. *)
Definition mstate (A : list (Z * Z)) (u : ustate) : Prop :=
  (u_freep u = 0 /\ A = [] /\ u_brk u = u_start /\ u_start <= u_limit) \/ exists L, minv L A u.

(** ** Lists of blocks *)

Lemma seg_app h X Y last : seg h (X ++ Y) last <-> seg h X (addr_of Y last) /\ seg h Y last.
Proof.
  induction X as [|[b n] X IH]; cbn [app seg]; [tauto|]. rewrite IH. destruct X as [|[c k] X]; cbn [app addr_of]; tauto.
Qed.

Lemma seg_ext h h' bs last : (forall b, b ∈ bs.*1 -> h' !! b = h !! b) -> seg h bs last -> seg h' bs last.
Proof.
  induction bs as [|[b n] bs IH]; cbn [seg]; [done|]. intros H [Hb Hs]. split.
  - rewrite H; [done|]. apply list_elem_of_here.
  - apply IH; [|done]. intros c Hc. apply H. by apply list_elem_of_further.
Qed.

Lemma seg_in h bs last b : seg h bs last -> b ∈ bs.*1 -> is_Some (h !! b).
Proof.
  induction bs as [|[c k] bs IH]; cbn [seg]; intros Hs Hb; [by apply not_elem_of_nil in Hb|].
  destruct Hs as [Hc Hs]. apply elem_of_cons in Hb as [->|Hb]; [cbn [fst]; rewrite Hc; eauto|by apply IH].
Qed.

Lemma elem_of_fst (bs : list (Z * Z)) b : b ∈ bs.*1 -> exists n, (b, n) ∈ bs.
Proof. intros ([c n] & -> & Hc)%list_elem_of_fmap. by exists n. Qed.

Lemma fst_elem_of (bs : list (Z * Z)) b n : (b, n) ∈ bs -> b ∈ bs.*1.
Proof. intros H. apply list_elem_of_fmap. by exists (b, n). Qed.

Lemma sorted_lb lo bs b n : sorted lo bs -> (b, n) ∈ bs -> lo < b /\ 0 <= n.
Proof.
  revert lo. induction bs as [|[c k] bs IH]; intros lo Hs Hb; [by apply not_elem_of_nil in Hb|]. destruct Hs as (H1 & H2 & Hs).
  apply elem_of_cons in Hb as [[= -> ->]|Hb]; [done|]. destruct (IH _ Hs Hb). unfold sizeof_header in *. lia.
Qed.

Lemma sorted_weaken lo lo' bs : lo' <= lo -> sorted lo bs -> sorted lo' bs.
Proof. destruct bs as [|[b n] bs]; [done|]. intros H (H1 & H2). split; [lia|done]. Qed.

Lemma sorted_app lo X b n Y : sorted lo (X ++ (b, n) :: Y) <->
  sorted lo X /\ (forall c k, (c, k) ∈ X -> c + sizeof_header * k < b) /\ lo < b /\ 0 <= n /\ sorted (b + sizeof_header * n) Y.
Proof.
  revert lo. induction X as [|[c k] X IH]; intros lo; cbn [app sorted].
  - split; [intros H; split; [done|]; split; [|done]; intros c k Hc; by apply not_elem_of_nil in Hc|tauto].
  - rewrite IH. split.
    + intros (H1 & H2 & H3 & H4 & H5 & H6). split; [done|]. split; [|split; [unfold sizeof_header in *; lia|done]].
      intros d j Hd. apply elem_of_cons in Hd as [[= -> ->]|Hd]; [done|by apply H4].
    + intros ((H1 & H2 & H3) & H4 & H5 & H6). split; [done|]. split; [done|]. split; [done|].
      split; [intros d j Hd; apply H4; by apply list_elem_of_further|]. split; [apply H4, list_elem_of_here|done].
Qed.

Lemma sorted_NoDup lo bs : sorted lo bs -> NoDup bs.*1.
Proof.
  revert lo. induction bs as [|[b n] bs IH]; intros lo Hs; [constructor|]. destruct Hs as (H1 & H2 & Hs). cbn [fmap list_fmap fst]. constructor; [|by eapply IH].
  intros [k Hk]%elem_of_fst. destruct (sorted_lb _ _ _ _ Hs Hk). unfold sizeof_header in *. lia.
Qed.

(** The place of an address in the list. *)
Lemma sorted_place lo b0 n0 bs a : sorted lo ((b0, n0) :: bs) -> b0 < a -> a ∉ bs.*1 ->
  exists X q m Y, (b0, n0) :: bs = X ++ (q, m) :: Y /\ q < a /\ forall c k, (c, k) ∈ Y -> a < c.
Proof.
  revert lo b0 n0. induction bs as [|[c k] bs IH]; intros lo b0 n0 Hs Hlt Hna.
  - exists [], b0, n0, []. split; [done|]. split; [done|]. intros c k Hc. by apply not_elem_of_nil in Hc.
  - destruct Hs as (H1 & H2 & Hs). apply not_elem_of_cons in Hna as [Hne Hna]. cbn [fst] in Hne. destruct (Z_lt_le_dec c a) as [Hca|Hac].
    + destruct (IH _ c k Hs Hca Hna) as (X & q & m & Y & E & Hq & HY). exists ((b0, n0) :: X), q, m, Y. by rewrite E.
    + exists [], b0, n0, ((c, k) :: bs). split; [done|]. split; [done|]. intros d j Hd. apply elem_of_cons in Hd as [[= -> ->]|Hd]; [lia|].
      destruct Hs as (_ & Hk & Hs). destruct (sorted_lb _ _ _ _ Hs Hd). unfold sizeof_header in *. lia.
Qed.

(** ** Tilings *)

Lemma tiled_in a T e x n : tiled a T e -> (x, n) ∈ T -> a <= x /\ x + sizeof_header * n <= e /\ 1 <= n.
Proof.
  assert (Hle : forall T a, tiled a T e -> a <= e).
  { clear. induction T as [|[b n] T IH]; intros a; cbn [tiled]; [lia|]. intros (-> & H1 & H). apply IH in H. unfold sizeof_header in *. lia. }
  revert a. induction T as [|[b k] T IH]; intros a Ht Hx; [by apply not_elem_of_nil in Hx|]. destruct Ht as (-> & H1 & Ht).
  apply elem_of_cons in Hx as [[= -> ->]|Hx]; [apply Hle in Ht; lia|]. destruct (IH _ Ht Hx). unfold sizeof_header in *. lia.
Qed.

Lemma tiled_NoDup a T e : tiled a T e -> NoDup T.*1.
Proof.
  revert a. induction T as [|[b k] T IH]; intros a Ht; [constructor|]. destruct Ht as (-> & H1 & Ht). cbn [fmap list_fmap fst]. constructor; [|by eapply IH].
  intros [n Hn]%elem_of_fst. destruct (tiled_in _ _ _ _ _ Ht Hn). unfold sizeof_header in *. lia.
Qed.

Lemma tiled_lt a T e x n y k : tiled a T e -> (x, n) ∈ T -> (y, k) ∈ T -> x < y -> x + sizeof_header * n <= y.
Proof.
  revert a. induction T as [|[b j] T IH]; intros a Ht Hx Hy Hlt; [by apply not_elem_of_nil in Hx|]. destruct Ht as (-> & H1 & Ht).
  apply elem_of_cons in Hx as [[= -> ->]|Hx]; apply elem_of_cons in Hy as [[= -> ->]|Hy].
  - lia.
  - by destruct (tiled_in _ _ _ _ _ Ht Hy).
  - destruct (tiled_in _ _ _ _ _ Ht Hx) as [H2 _]. unfold sizeof_header in *. lia.
  - by apply (IH _ Ht).
Qed.

Lemma tiled_app a X Y e : tiled a (X ++ Y) e <-> exists b, tiled a X b /\ tiled b Y e.
Proof.
  revert a. induction X as [|[b n] X IH]; intros a; cbn [app tiled].
  - split; [by exists a|]. by intros (b & -> & H).
  - rewrite IH. split; [intros (-> & H1 & c & H2 & H3); by exists c|intros (c & (-> & H1 & H2) & H3); split; [done|]; split; [done|]; by exists c].
Qed.

(** Two neighbours make one block, and one block two. *)
Lemma tiled_merge a T e x n k W : tiled a T e -> T ≡ₚ (x, n) :: (x + sizeof_header * n, k) :: W ->
  exists T', tiled a T' e /\ T' ≡ₚ (x, n + k) :: W.
Proof.
  intros Ht HP. assert (Hx : (x, n) ∈ T) by (rewrite HP; apply list_elem_of_here). apply list_elem_of_split in Hx as (X & Y & ->).
  apply tiled_app in Ht as (b & HX & -> & Hn & HY). assert (Hy : (b + sizeof_header * n, k) ∈ X ++ Y).
  { rewrite <- Permutation_middle in HP. apply Permutation.Permutation_cons_inv in HP. rewrite HP. apply list_elem_of_here. }
  apply elem_of_app in Hy as [Hy|Hy].
  { destruct (tiled_in _ _ _ _ _ HX Hy). unfold sizeof_header in *. lia. }
  destruct Y as [|[c j] Y]; [by apply not_elem_of_nil in Hy|]. destruct HY as (-> & Hj & HY).
  apply elem_of_cons in Hy as [[= ->]|Hy].
  - exists (X ++ (b, n + j) :: Y). split.
    + apply tiled_app. exists b. split; [done|]. cbn [tiled]. split; [done|]. split; [lia|]. by replace (b + sizeof_header * (n + j)) with (b + sizeof_header * n + sizeof_header * j) by lia.
    + do 2 (rewrite <- Permutation_middle in HP; apply Permutation.Permutation_cons_inv in HP). by rewrite <- Permutation_middle, HP.
  - destruct (tiled_in _ _ _ _ _ HY Hy). unfold sizeof_header in *. lia.
Qed.

Lemma tiled_split a T e x n k W : tiled a T e -> T ≡ₚ (x, n + k) :: W -> 1 <= n -> 1 <= k ->
  exists T', tiled a T' e /\ T' ≡ₚ (x, n) :: (x + sizeof_header * n, k) :: W.
Proof.
  intros Ht HP Hn Hk. assert (Hx : (x, n + k) ∈ T) by (rewrite HP; apply list_elem_of_here). apply list_elem_of_split in Hx as (X & Y & ->).
  apply tiled_app in Ht as (b & HX & -> & Hnk & HY). exists (X ++ (b, n) :: (b + sizeof_header * n, k) :: Y). split.
  - apply tiled_app. exists b. split; [done|]. cbn [tiled]. repeat (split; [done|]).
    by replace (b + sizeof_header * n + sizeof_header * k) with (b + sizeof_header * (n + k)) by lia.
  - rewrite <- Permutation_middle in HP. apply Permutation.Permutation_cons_inv in HP. by rewrite <- !Permutation_middle, HP.
Qed.

(** ** [free] *)

(** The header of a block of the list. *)
Lemma seg_hdr h X b n Y last : seg h (X ++ (b, n) :: Y) last -> h !! b = Some (mkHeader (addr_of Y last) n).
Proof. intros [_ [H _]]%seg_app. done. Qed.

Lemma cons_app_inv {B} (x y : B) l X Y : x :: l = X ++ y :: Y -> (X = [] /\ x = y) \/ exists X', X = x :: X'.
Proof. destruct X as [|z X]; intros [= -> _]; [by left|right; eauto]. Qed.

Section FreeLoop.
Context (u : ustate) (bp q m : Z) (X Y L : list (Z * Z)).
Context (HR : (u_base, 0) :: L = X ++ (q, m) :: Y) (Hs : sorted (u_base - 1) ((u_base, 0) :: L)).
Context (Hseg : seg (u_heap u) ((u_base, 0) :: L) u_base) (Hq : q < bp) (HY : forall c k, (c, k) ∈ Y -> bp < c).

Lemma base_lt : u_base <= q.
Proof.
  destruct (sorted_lb _ _ q m Hs); [|lia]. rewrite HR. apply elem_of_app. right. apply list_elem_of_here.
Qed.

Lemma free_loop_stop fuel : free_loop (S fuel) u bp q = Some q.
Proof.
  cbn [free_loop]. pose proof Hseg as Hg. rewrite HR in Hg. rewrite (seg_hdr _ _ _ _ _ _ Hg). cbn [mbind option_bind h_ptr].
  destruct (Z.ltb_spec q bp); [|lia]. cbn [andb orb]. pose proof base_lt as Hb. assert (HY' := HY). clear -Hb HY'.
  destruct Y as [|[c k] Y']; cbn [addr_of].
  - destruct (Z.ltb_spec bp u_base); [done|]. destruct (Z.leb_spec u_base q); [done|lia].
  - pose proof (HY' c k (list_elem_of_here _ _)). destruct (Z.ltb_spec bp c); [done|lia].
Qed.

(** From a block before the place of [bp]. *)
Lemma free_loop_up V : forall W p n fuel, (u_base, 0) :: L = W ++ (p, n) :: V ++ (q, m) :: Y -> (S (length V) < fuel)%nat ->
  free_loop fuel u bp p = Some q.
Proof.
  induction V as [|[c k] V IH]; intros W p n fuel E Hf; (destruct fuel as [|fuel]; [simpl in Hf; lia|]); cbn [free_loop];
    pose proof Hseg as Hg; rewrite E in Hg; rewrite (seg_hdr _ _ _ _ _ _ Hg); cbn [mbind option_bind h_ptr app addr_of];
    pose proof Hs as Ho; rewrite E in Ho; apply sorted_app in Ho as (_ & _ & _ & Hn & Ho); cbn [app] in Ho.
  - destruct Ho as (Hpq & _). unfold sizeof_header in *. destruct (Z.ltb_spec bp q); [lia|]. rewrite andb_false_r.
    destruct (Z.leb_spec q p); [lia|]. cbn [andb]. destruct fuel as [|fuel]; [simpl in Hf; lia|]. apply free_loop_stop.
  - assert (Hcq : c < q).
    { destruct Ho as (_ & Hk & Ho). apply (sorted_lb _ _ q m) in Ho as [Ho _]; [unfold sizeof_header in *; lia|]. apply elem_of_app. right. apply list_elem_of_here. }
    destruct Ho as (Hpc & _). unfold sizeof_header in *. destruct (Z.ltb_spec bp c); [lia|]. rewrite andb_false_r.
    destruct (Z.leb_spec c p); [lia|]. cbn [andb]. apply (IH (W ++ [(p, n)]) c k); [by rewrite <- app_assoc|]. simpl in Hf. lia.
Qed.

(** From a block after it: through the end of the list. *)
Lemma free_loop_down W0 : forall V p n fuel, (u_base, 0) :: L = X ++ (q, m) :: V ++ (p, n) :: W0 -> (length W0 + length X + 2 < fuel)%nat ->
  free_loop fuel u bp p = Some q.
Proof.
  induction W0 as [|[c k] W0 IH]; intros V p n fuel E Hf; (destruct fuel as [|fuel]; [simpl in Hf; lia|]); cbn [free_loop];
    (assert (Hp : bp < p) by (rewrite HR in E; apply app_inv_head in E; injection E as EY; apply (HY p n); rewrite EY; apply elem_of_app; right; apply list_elem_of_here));
    (assert (E' : (u_base, 0) :: L = (X ++ (q, m) :: V) ++ (p, n) :: _) by (by rewrite <- app_assoc));
    pose proof Hseg as Hg; rewrite E' in Hg; rewrite (seg_hdr _ _ _ _ _ _ Hg); cbn [mbind option_bind h_ptr addr_of];
    destruct (Z.ltb_spec p bp); try lia; cbn [andb orb].
  - pose proof base_lt. destruct (Z.ltb_spec bp u_base); [lia|]. rewrite andb_false_r.
    destruct (cons_app_inv _ _ _ _ _ HR) as [[_ [= Eq _]]|[X' EX]].
    + destruct fuel as [|fuel]; [simpl in Hf; lia|]. rewrite Eq. apply free_loop_stop.
    + apply (free_loop_up X' [] u_base 0); [by rewrite HR, EX|]. rewrite EX in Hf. simpl in Hf. lia.
  - pose proof Hs as Ho. rewrite E' in Ho. apply sorted_app in Ho as (_ & _ & _ & Hn & Hpc & _). unfold sizeof_header in *.
    destruct (Z.leb_spec c p); [lia|]. cbn [andb]. apply (IH (V ++ [(p, n)]) c k); [by rewrite <- !app_assoc|]. simpl in Hf. lia.
Qed.

Lemma free_loop_ok p fuel : p ∈ ((u_base, 0) :: L).*1 -> (S (length L) < fuel)%nat -> free_loop fuel u bp p = Some q.
Proof.
  intros [n Hp]%elem_of_fst Hf. change (S (length L)) with (length ((u_base, 0) :: L)) in Hf. rewrite HR in Hp, Hf. rewrite length_app in Hf. simpl in Hf. apply elem_of_app in Hp as [Hp|Hp].
  - apply list_elem_of_split in Hp as (W & V & EX). apply (free_loop_up V W p n); [by rewrite HR, EX, <- app_assoc|].
    rewrite EX, length_app in Hf. simpl in Hf. lia.
  - apply elem_of_cons in Hp as [[= -> ->]|Hp]; [destruct fuel; [lia|apply free_loop_stop]|].
    apply list_elem_of_split in Hp as (V & W0 & EY). apply (free_loop_down W0 V p n); [by rewrite HR, EY|].
    rewrite EY, length_app in Hf. simpl in Hf. lia.
Qed.

End FreeLoop.

Lemma ring_size (h : gmap Z header) R last : seg h R last -> NoDup R.*1 -> (length R <= size h)%nat.
Proof.
  intros Hs Hn. rewrite <- (length_fmap fst R), <- size_dom, <- (size_list_to_set (C := gset Z)) by done.
  apply subseteq_size. intros b Hb. apply elem_of_list_to_set in Hb. apply elem_of_dom. by eapply seg_in.
Qed.

Lemma minv_fuel L A u : minv L A u -> (S (length L) < list_fuel u)%nat.
Proof.
  intros M. pose proof (ring_size _ _ _ (mi_seg _ _ _ M) (sorted_NoDup _ _ (mi_sorted _ _ _ M))) as H. unfold list_fuel. simpl in H. lia.
Qed.

(** An owned block is not in the free list, and its neighbours there do not
    overlap it. *)
Lemma minv_owned L A u bp n : minv L A u -> (bp, n) ∈ A ->
  u_start <= bp /\ 1 <= n /\ bp + sizeof_header * n <= u_brk u /\ bp ∉ L.*1 /\
  (forall c k, (c, k) ∈ L -> c < bp -> c + sizeof_header * k <= bp) /\ (forall c k, (c, k) ∈ L -> bp < c -> bp + sizeof_header * n <= c) /\
  (forall c k, (c, k) ∈ L -> 1 <= k).
Proof.
  intros M Hb. destruct (mi_tiles _ _ _ M) as (T & Ht & HP).
  assert (HA : forall x, x ∈ A -> x ∈ T) by (intros x Hx; rewrite HP; apply elem_of_app; by right).
  assert (HL : forall x, x ∈ L -> x ∈ T) by (intros x Hx; rewrite HP; apply elem_of_app; by left).
  destruct (tiled_in _ _ _ _ _ Ht (HA _ Hb)) as (H1 & H2 & H3). repeat (split; [done|]). split; [|split; [|split]].
  - intros Hin. pose proof (tiled_NoDup _ _ _ Ht) as Hnd. rewrite HP, fmap_app in Hnd. apply NoDup_app in Hnd as (_ & Hd & _).
    apply (Hd bp Hin). by eapply fst_elem_of.
  - intros c k Hc Hlt. by apply (tiled_lt _ _ _ _ _ _ _ Ht (HL _ Hc) (HA _ Hb)).
  - intros c k Hc Hlt. by apply (tiled_lt _ _ _ _ _ _ _ Ht (HA _ Hb) (HL _ Hc)).
  - intros c k Hc. by apply (tiled_in _ _ _ _ _ Ht (HL _ Hc)).
Qed.

Lemma tiles_size L A u bp n : minv L A u -> (bp, n) ∈ L ++ A -> 1 <= n < 2 ^ 32.
Proof.
  intros M Hb. destruct (mi_tiles _ _ _ M) as (T & Ht & HP). rewrite <- HP in Hb. destruct (tiled_in _ _ _ _ _ Ht Hb) as (H1 & H2 & H3).
  pose proof (mi_limit _ _ _ M). pose proof u_limit_max. pose proof u_base_start. pose proof u_base_pos. unfold sizeof_header in *. lia.
Qed.

(** The first half of [free]: [bp] takes over the block after it if they are
    neighbours. *)
Definition join_next (bp n : Z) (Y : list (Z * Z)) : Z * list (Z * Z) :=
  match Y with
  | (c, k) :: Y' => if bp + sizeof_header * n =? c then (n + k, Y') else (n, Y)
  | [] => (n, [])
  end.

Lemma join_next_hdr u bp n x Y n1 Y2 : seg (u_heap u) Y u_base -> u_base < bp -> 0 <= n -> join_next bp n Y = (n1, Y2) -> 0 <= n1 < 2 ^ 32 ->
  (if bp + sizeof_header * n =? addr_of Y u_base then
     hn ← u_heap u !! addr_of Y u_base; Some (mkHeader (h_ptr hn) (u32 (n + h_size hn)))
   else Some (set_h_ptr (addr_of Y u_base) (mkHeader x n))) = Some (mkHeader (addr_of Y2 u_base) n1).
Proof.
  intros Hs Hb Hn E H32. destruct Y as [|[c k] Y]; cbn [join_next addr_of] in *.
  - injection E as <- <-. destruct (Z.eqb_spec (bp + sizeof_header * n) u_base); [unfold sizeof_header in *; lia|done].
  - destruct (Z.eqb_spec (bp + sizeof_header * n) c); injection E as <- <-; [|done]. destruct Hs as [Hc _]. rewrite Hc. simpl. by rewrite u32_small.
Qed.

Lemma join_next_sorted bp n Y lo : sorted lo Y -> (forall c k, (c, k) ∈ Y -> bp + sizeof_header * n <= c) -> 0 <= n ->
  let '(n1, Y2) := join_next bp n Y in sorted (bp + sizeof_header * n1) Y2 /\ n <= n1 /\ (forall x, x ∈ Y2 -> x ∈ Y).
Proof.
  intros Hs HY Hn. destruct Y as [|[c k] Y]; cbn [join_next]; [done|]. pose proof (HY c k (list_elem_of_here _ _)) as Hc.
  destruct Hs as (H1 & H2 & Hs). destruct (Z.eqb_spec (bp + sizeof_header * n) c) as [<-|Hne].
  - split; [by replace (bp + sizeof_header * (n + k)) with (bp + sizeof_header * n + sizeof_header * k) by lia|].
    split; [lia|]. intros x Hx. by apply list_elem_of_further.
  - split; [|split; [lia|done]]. split; [lia|]. done.
Qed.

Lemma join_next_tiled bp n Y P A T e : tiled u_start T e -> T ≡ₚ (P ++ Y) ++ (bp, n) :: A ->
  let '(n1, Y2) := join_next bp n Y in exists T', tiled u_start T' e /\ T' ≡ₚ (P ++ (bp, n1) :: Y2) ++ A.
Proof.
  intros Ht HP. destruct Y as [|[c k] Y]; cbn [join_next]; [exists T; split; [done|rewrite HP; solve_Permutation]|].
  destruct (Z.eqb_spec (bp + sizeof_header * n) c) as [<-|Hne]; [|exists T; split; [done|rewrite HP; solve_Permutation]].
  destruct (tiled_merge _ T e bp n k (P ++ Y ++ A) Ht) as (T' & Ht' & HP').
  { rewrite HP. solve_Permutation. }
  exists T'. split; [done|]. rewrite HP'. solve_Permutation.
Qed.

(** The second half: the block before [bp] takes [bp] over, or points to it. *)
Definition join_prev (q m bp n1 : Z) : list (Z * Z) :=
  if q + sizeof_header * m =? bp then [(q, m + n1)] else [(q, m); (bp, n1)].

Lemma join_prev_seg h X q m bp n1 Y : seg h X q -> seg h Y u_base -> q ∉ X.*1 -> bp ∉ X.*1 -> q ∉ Y.*1 -> bp ∉ Y.*1 -> q <> bp -> 0 <= m + n1 < 2 ^ 32 ->
  seg (<[q := if q + sizeof_header * m =? bp then mkHeader (addr_of Y u_base) (u32 (m + n1)) else mkHeader bp m]>
    (<[bp := mkHeader (addr_of Y u_base) n1]> h)) (X ++ join_prev q m bp n1 ++ Y) u_base.
Proof.
  intros HX HY N1 N2 N3 N4 Hne H32. set (h' := <[q := _]> _). assert (Hext : forall b, b <> q -> b <> bp -> h' !! b = h !! b).
  { intros b Hb1 Hb2. unfold h'. by rewrite !lookup_insert_ne. }
  assert (HX' : seg h' X q) by (eapply seg_ext; [|exact HX]; intros b Hb; apply Hext; intros ->; done).
  assert (HY' : seg h' Y u_base) by (eapply seg_ext; [|exact HY]; intros b Hb; apply Hext; intros ->; done).
  apply seg_app. unfold join_prev. subst h'. destruct (Z.eqb_spec (q + sizeof_header * m) bp); cbn [app addr_of seg].
  - split; [done|]. split; [|done]. rewrite lookup_insert_eq, u32_small by done. done.
  - split; [done|]. split; [by rewrite lookup_insert_eq|]. split; [|done]. by rewrite lookup_insert_ne, lookup_insert_eq.
Qed.

Lemma join_prev_sorted X q m bp n1 Y Y' lo : sorted lo (X ++ (q, m) :: Y') -> q + sizeof_header * m <= bp -> 0 <= n1 ->
  sorted (bp + sizeof_header * n1) Y -> sorted lo (X ++ join_prev q m bp n1 ++ Y).
Proof.
  intros (HX & HXq & Hq & Hm & _)%sorted_app Hle Hn HY. unfold join_prev.
  destruct (Z.eqb_spec (q + sizeof_header * m) bp); cbn [app]; apply sorted_app; (split; [done|]; split; [done|]; split; [done|]).
  - split; [lia|]. by replace (q + sizeof_header * (m + n1)) with (bp + sizeof_header * n1) by lia.
  - split; [done|]. cbn [sorted]. split; [lia|done].
Qed.

(** The new list, with [base] still in front. *)
Lemma join_prev_tiled L X q m bp n1 Y Y' A T e : (u_base, 0) :: L = X ++ (q, m) :: Y -> u_base < bp -> tiled u_start T e ->
  (forall P, L = P ++ Y -> T ≡ₚ (P ++ (bp, n1) :: Y') ++ A) ->
  exists L' T', (u_base, 0) :: L' = X ++ join_prev q m bp n1 ++ Y' /\ tiled u_start T' e /\ T' ≡ₚ L' ++ A.
Proof.
  intros HR Hb Ht HP. destruct (cons_app_inv _ _ _ _ _ HR) as [[-> [= <- <-]]|[X' ->]].
  - exists ((bp, n1) :: Y'), T. unfold join_prev. rewrite Z.mul_0_r, Z.add_0_r. destruct (Z.eqb_spec u_base bp); [lia|].
    split; [done|]. split; [done|]. apply (HP []). by injection HR as ->.
  - injection HR as HL. specialize (HP (X' ++ [(q, m)])). rewrite <- app_assoc in HP. specialize (HP HL).
    unfold join_prev. destruct (Z.eqb_spec (q + sizeof_header * m) bp) as [<-|].
    + destruct (tiled_merge _ T e q m n1 (X' ++ Y' ++ A) Ht) as (T' & Ht' & HP'); [rewrite HP; solve_Permutation|].
      exists (X' ++ (q, m + n1) :: Y'), T'. split; [done|]. split; [done|]. rewrite HP'. solve_Permutation.
    + exists (X' ++ (q, m) :: (bp, n1) :: Y'), T. split; [done|]. split; [done|]. rewrite HP. solve_Permutation.
Qed.

Lemma minv_apart L A u a n : minv L A u -> (a, n) ∈ A -> a ∉ ((u_base, 0) :: L).*1.
Proof.
  intros M Ha. destruct (minv_owned _ _ _ _ _ M Ha) as (H1 & _ & _ & H2 & _). pose proof u_base_start.
  apply not_elem_of_cons. split; [unfold sizeof_header in *; cbn; lia|done].
Qed.

Lemma minv_perm L A A' u : A ≡ₚ A' -> minv L A u -> minv L A' u.
Proof.
  intros HA M. split; try apply M.
  - intros a n Ha. apply (mi_owned _ _ _ M). by rewrite HA.
  - destruct (mi_tiles _ _ _ M) as (T & Ht & HP). exists T. by rewrite <- HA.
Qed.

Lemma minv_other L A u a n bp k : minv L ((bp, k) :: A) u -> (a, n) ∈ A -> a <> bp.
Proof.
  intros M Ha ->. destruct (mi_tiles _ _ _ M) as (T & Ht & HP). pose proof (tiled_NoDup _ _ _ Ht) as Hnd.
  rewrite HP, fmap_app in Hnd. apply NoDup_app in Hnd as (_ & _ & Hnd). cbn in Hnd. apply NoDup_cons in Hnd as [Hn _]. apply Hn. by eapply fst_elem_of.
Qed.

(** What [free] does to the free list. *)
Lemma free_shape L A u bp n : minv L ((bp, n) :: A) u -> exists X q m Y n1 Y2 L' T',
  (u_base, 0) :: L = X ++ (q, m) :: Y /\ q < bp /\ (forall c k, (c, k) ∈ Y -> bp < c) /\ join_next bp n Y = (n1, Y2) /\ n <= n1 /\
  u_base <= q /\ q + sizeof_header * m <= bp /\ 0 <= m /\ bp + sizeof_header * n1 <= u_brk u /\ (forall y, y ∈ Y2 -> y ∈ Y) /\
  (u_base, 0) :: L' = X ++ join_prev q m bp n1 ++ Y2 /\ sorted (u_base - 1) ((u_base, 0) :: L') /\ tiled u_start T' (u_brk u) /\ T' ≡ₚ L' ++ A.
Proof.
  intros M. destruct (minv_owned _ _ _ bp n M (list_elem_of_here _ _)) as (Hst & Hn & Hend & Hnl & Hbelow & Habove & Hpos).
  pose proof u_base_start as Hbs. pose proof (mi_sorted _ _ _ M) as Hs. destruct (mi_tiles _ _ _ M) as (T & Ht & HP).
  assert (Hbb : u_base < bp) by (unfold sizeof_header in *; lia).
  destruct (sorted_place _ u_base 0 L bp Hs Hbb Hnl) as (X & q & m & Y & HR & Hq & HY).
  assert (HRL : forall y, y ∈ X ++ (q, m) :: Y -> y = (u_base, 0) \/ y ∈ L) by (intros y Hy; rewrite <- HR in Hy; by apply elem_of_cons).
  assert (HYL : forall c k, (c, k) ∈ Y -> (c, k) ∈ L).
  { intros c k Hc. destruct (HRL (c, k)) as [[= -> ->]|]; [apply elem_of_app; right; by right| |done]. specialize (HY _ _ Hc). lia. }
  assert (Hqm : q + sizeof_header * m <= bp /\ u_base <= q /\ 0 <= m).
  { destruct (sorted_lb _ _ q m Hs); [rewrite HR; apply elem_of_app; right; apply list_elem_of_here|].
    destruct (HRL (q, m)) as [[= -> ->]|HqL]; [apply elem_of_app; right; apply list_elem_of_here|unfold sizeof_header; lia|].
    split; [by apply Hbelow|lia]. }
  rewrite HR in Hs. pose proof Hs as (_ & _ & _ & _ & HsY)%sorted_app.
  pose proof (join_next_sorted bp n Y _ HsY (fun c k Hc => Habove c k (HYL c k Hc) (HY c k Hc)) ltac:(lia)) as HJ.
  assert (HJT : forall P, L = P ++ Y -> let '(n1, Y2) := join_next bp n Y in exists T', tiled u_start T' (u_brk u) /\ T' ≡ₚ (P ++ (bp, n1) :: Y2) ++ A).
  { intros P ->. by apply (join_next_tiled bp n Y P A T). }
  destruct (join_next bp n Y) as [n1 Y2] eqn:EJ. destruct HJ as (HsY2 & Hn1 & HY2).
  assert (HT1 : exists T1, tiled u_start T1 (u_brk u) /\ (forall P, L = P ++ Y -> T1 ≡ₚ (P ++ (bp, n1) :: Y2) ++ A) /\ (bp, n1) ∈ T1).
  { assert (HLP : exists P, L = P ++ Y).
    { destruct (cons_app_inv _ _ _ _ _ HR) as [[-> _]|[X' ->]]; injection HR; [intros -> _ _; by exists []|].
      intros ->. exists (X' ++ [(q, m)]). by rewrite <- app_assoc. }
    destruct HLP as [P HLP]. destruct (HJT P HLP) as (T1 & Ht1 & HP1). exists T1. split; [done|]. split.
    - intros P' E. rewrite HLP in E. apply app_inj_2 in E as [-> _]; done.
    - rewrite HP1. apply elem_of_app. left. apply elem_of_app. right. apply list_elem_of_here. }
  destruct HT1 as (T1 & Ht1 & HP1 & Hin1).
  destruct (join_prev_tiled L X q m bp n1 Y Y2 A T1 (u_brk u) HR Hbb Ht1 HP1) as (L' & T' & HL' & Ht' & HP').
  exists X, q, m, Y, n1, Y2, L', T'. repeat (split; [done|]). split; [apply Hqm|]. split; [apply Hqm|]. split; [apply Hqm|].
  split; [apply (tiled_in _ _ _ _ _ Ht1 Hin1)|]. split; [done|]. split; [done|]. split; [|done].
  rewrite HL'. apply (join_prev_sorted X q m bp n1 Y2 Y); [done|apply Hqm|lia|done].
Qed.

(** [free] gives an owned block back. *)
Lemma free_ok L A u bp n : minv L ((bp, n) :: A) u ->
  exists u' L', free u (bp + sizeof_header) = Some u' /\ minv L' A u' /\ u_brk u' = u_brk u /\
    size (u_heap u') = size (u_heap u) /\ exists c k, (c, k) ∈ L' /\ n <= k.
Proof.
  intros M. destruct (free_shape L A u bp n M) as (X & q & m & Y & n1 & Y2 & L' & T' & HR & Hq & HY & EJ & Hn1 & Hbq & Hqm & Hm & Hend & HY2 & HL' & Hs' & Ht' & HP').
  pose proof (mi_sorted _ _ _ M) as Hs. pose proof (mi_seg _ _ _ M) as Hseg. destruct (mi_owned _ _ _ M bp n (list_elem_of_here _ _)) as [x Hx].
  pose proof (minv_owned _ _ _ bp n M (list_elem_of_here _ _)) as (Hst & Hn & _ & Hnl & _).
  pose proof u_base_start. pose proof u_base_pos. pose proof u_limit_max. pose proof (mi_limit _ _ _ M) as Hlim.
  assert (Hbb : u_base < bp) by (unfold sizeof_header in *; lia).
  assert (Hfree : free_loop (list_fuel u) u bp (u_freep u) = Some q) by (eapply (free_loop_ok u bp q m X Y L); try done; [apply M|by eapply minv_fuel]).
  assert (HbR : bp ∉ (X ++ (q, m) :: Y).*1) by (rewrite <- HR; apply (minv_apart _ _ _ _ n M), list_elem_of_here).
  rewrite HR in Hs, Hseg. pose proof (seg_hdr _ _ _ _ _ _ Hseg) as Hhq. apply seg_app in Hseg as [HX [_ HYs]]. cbn [addr_of] in HX.
  pose proof (sorted_NoDup _ _ Hs) as Hnd. rewrite fmap_app in Hnd, HbR. apply NoDup_app in Hnd as (_ & Hd1 & Hd2). cbn [fmap list_fmap fst] in Hd1, Hd2, HbR.
  apply NoDup_cons in Hd2 as [HqY _]. rewrite not_elem_of_app, not_elem_of_cons in HbR. destruct HbR as (HbX & Hbq' & HbY).
  pose proof (join_next_hdr u bp n x Y n1 Y2 HYs Hbb ltac:(lia) EJ ltac:(unfold sizeof_header in *; lia)) as Hhb.
  assert (HY2s : seg (u_heap u) Y2 u_base).
  { destruct Y as [|[c k] Y]; cbn [join_next] in EJ; [by injection EJ as <- <-|]. destruct (_ =? _); injection EJ as <- <-; [apply HYs|done]. }
  assert (Hsub : forall b, b ∈ Y2.*1 -> b ∈ Y.*1) by (intros b [k Hk]%elem_of_fst; eapply fst_elem_of; by apply HY2).
  pose proof (join_prev_seg (u_heap u) X q m bp n1 Y2 HX HY2s) as Hseg'. eexists _, L'. split; [|split; [split|split; [|split]]].
  - unfold free. rewrite Z.add_simpl_r, Hfree. cbn [mbind option_bind]. rewrite Hx. cbn [mbind option_bind]. rewrite Hhq. cbn [mbind option_bind h_size h_ptr].
    rewrite Hhb. cbn [mbind option_bind].
    assert (Hl : u_heap (put_hdr bp (mkHeader (addr_of Y2 u_base) n1) u) !! q = Some (mkHeader (addr_of Y u_base) m)) by (simpl; by rewrite lookup_insert_ne).
    rewrite Hl. cbn [mbind option_bind h_size h_ptr]. reflexivity.
  - rewrite HL'. cbn [u_freep set_u_freep]. rewrite fmap_app. apply elem_of_app. right. unfold join_prev.
    destruct (q + sizeof_header * m =? bp); apply list_elem_of_here.
  - rewrite HL'. unfold set_h_ptr. cbn [h_size h_ptr]. apply Hseg'; try done; try (unfold sizeof_header in *; lia).
    + intros Hin. apply (Hd1 q Hin). apply list_elem_of_here.
    + intros Hin. apply HqY. by apply Hsub.
    + intros Hin. apply HbY. by apply Hsub.
  - exact Hs'.
  - intros a k Ha. destruct (mi_owned _ _ _ M a k) as [y Hy]; [by apply list_elem_of_further|]. exists y.
    pose proof (minv_other _ _ _ _ _ _ _ M Ha). pose proof (minv_apart _ _ _ _ k M (list_elem_of_further _ _ _ Ha)) as Hap. rewrite HR, fmap_app, not_elem_of_app in Hap.
    destruct Hap as [_ Hap]. apply not_elem_of_cons in Hap as [Hap _]. cbn [fst] in Hap. cbn [u_heap set_u_freep put_hdr set_u_heap]. by rewrite !lookup_insert_ne.
  - by exists T'.
  - exact Hlim.
  - done.
  - cbn [u_heap set_u_freep put_hdr set_u_heap]. rewrite map_size_insert_Some by (rewrite lookup_insert_ne by done; by rewrite Hhq). by rewrite map_size_insert_Some by (by rewrite Hx).
  - assert (Hin : exists c k, (c, k) ∈ (u_base, 0) :: L' /\ n <= k).
    { rewrite HL'. unfold join_prev. destruct (q + sizeof_header * m =? bp); [exists q, (m + n1)|exists bp, n1]; (split; [|lia]); apply elem_of_app; right; [left|right; left]. }
    destruct Hin as (c & k & Hin & Hk). exists c, k. split; [|done]. apply elem_of_cons in Hin as [[= -> ->]|]; [lia|done].
Qed.

(** ** [morecore] *)

Lemma sbrk_minv L A u nu b : minv L A u -> 1 <= nu -> b = u_brk u + sizeof_header * nu -> b <= u_limit ->
  minv L ((u_brk u, nu) :: A) (put_hdr (u_brk u) (set_h_size nu (hdr (set_u_brk b u) (u_brk u))) (set_u_brk b u)).
Proof.
  intros M Hnu Hb Hlim. destruct (mi_tiles _ _ _ M) as (T & Ht & HP). pose proof u_base_start as Hbs.
  assert (Hlt : forall a n, (a, n) ∈ L ++ A -> a < u_brk u).
  { intros a n Ha. rewrite <- HP in Ha. destruct (tiled_in _ _ _ _ _ Ht Ha) as (_ & H1 & H2). unfold sizeof_header in *. lia. }
  assert (Hst : u_start <= u_brk u).
  { destruct T as [|[a n] T]; [cbn in Ht; lia|]. destruct (tiled_in _ _ _ a n Ht (list_elem_of_here _ _)). unfold sizeof_header in *. lia. }
  assert (HnR : u_brk u ∉ ((u_base, 0) :: L).*1).
  { apply not_elem_of_cons. split; [unfold sizeof_header in *; cbn; lia|]. intros [n Hn]%elem_of_fst.
    specialize (Hlt _ n (proj2 (elem_of_app _ _ _) (or_introl Hn))). lia. }
  split; cbn [u_freep u_heap u_brk put_hdr set_u_heap set_u_brk].
  - apply M.
  - eapply seg_ext; [|apply M]. intros c Hc. rewrite lookup_insert_ne; [done|]. by intros <-.
  - apply M.
  - intros a n [[= -> ->]|Ha]%elem_of_cons; [rewrite lookup_insert_eq; by eexists|].
    destruct (mi_owned _ _ _ M a n Ha) as [x Hx]. exists x. rewrite lookup_insert_ne; [done|]. intros <-.
    specialize (Hlt _ n (proj2 (elem_of_app _ _ _) (or_intror Ha))). lia.
  - exists (T ++ [(u_brk u, nu)]). split; [|rewrite HP; solve_Permutation]. apply tiled_app. exists (u_brk u). split; [done|]. cbn [tiled]. lia.
  - done.
Qed.

Lemma morecore_ok L A u nu : minv L A u -> 1 <= nu -> sizeof_header * nu < 2 ^ 31 ->
  morecore u nu = Some (u, 0) /\ sbrk (u_brk u) (Z.max nu 4096 * sizeof_header) = None \/
  exists u' L', morecore u nu = Some (u', u_freep u') /\ minv L' A u' /\ (size (u_heap u') <= S (size (u_heap u)))%nat /\
    exists c k, (c, k) ∈ L' /\ nu <= k.
Proof.
  intros M Hnu H31. unfold morecore. replace (if nu <? 4096 then 4096 else nu) with (Z.max nu 4096) by (destruct (Z.ltb_spec nu 4096); lia). set (nu' := Z.max nu 4096).
  assert (Hnu' : nu <= nu' /\ 1 <= nu' /\ sizeof_header * nu' < 2 ^ 31) by (unfold nu', sizeof_header in *; lia).
  clearbody nu'. rewrite i32_small by (unfold sizeof_header in *; lia). destruct (sbrk (u_brk u) (nu' * sizeof_header)) as [b|] eqn:E; [|by left].
  right. destruct (sbrk_moves (u_brk u) (nu' * sizeof_header) b ltac:(unfold sizeof_header in *; lia) E) as [Eb Hlim].
  pose proof (sbrk_minv L A u nu' b M ltac:(lia) ltac:(unfold sizeof_header in *; lia) Hlim) as M1.
  destruct (free_ok _ _ _ _ _ M1) as (u' & L' & Ef & M' & _ & Hsz & c & k & Hc & Hk). exists u', L'. rewrite Ef. split; [done|]. split; [done|]. split.
  - rewrite Hsz. cbn [u_heap put_hdr set_u_heap set_u_brk]. destruct (u_heap u !! u_brk u) eqn:El; [rewrite map_size_insert_Some by (by rewrite El); lia|].
    by rewrite map_size_insert_None.
  - exists c, k. split; [done|lia].
Qed.

(** ** [malloc] *)

(** Taking a block, or its end, out of the free list. *)
Definition cut (c k nu : Z) : list (Z * Z) := if k =? nu then [] else [(c, k - nu)].

Lemma cut_tiled L X q m c k Y nu A T e : (u_base, 0) :: L = X ++ (q, m) :: (c, k) :: Y -> 1 <= nu <= k -> tiled u_start T e -> T ≡ₚ L ++ A ->
  exists L' T', (u_base, 0) :: L' = X ++ (q, m) :: cut c k nu ++ Y /\ tiled u_start T' e /\
    T' ≡ₚ L' ++ (c + sizeof_header * (k - nu), nu) :: A.
Proof.
  intros HR Hnu Ht HP. assert (HL : exists P, L = P ++ (c, k) :: Y /\ (u_base, 0) :: P = X ++ [(q, m)]).
  { destruct (cons_app_inv _ _ _ _ _ HR) as [[-> [= <- <-]]|[X' ->]]; injection HR as ->; [by exists []|].
    exists (X' ++ [(q, m)]). by rewrite <- app_assoc. }
  destruct HL as (P & -> & HPX). unfold cut. destruct (Z.eqb_spec k nu) as [->|Hne].
  - exists (P ++ Y), T. split; [change ((u_base, 0) :: P ++ Y) with (((u_base, 0) :: P) ++ Y); by rewrite HPX, <- app_assoc|]. split; [done|].
    rewrite HP, Z.sub_diag, Z.mul_0_r, Z.add_0_r. solve_Permutation.
  - destruct (tiled_split _ T e c (k - nu) nu (P ++ Y ++ A) Ht) as (T' & Ht' & HP'); [|lia|lia|].
    { rewrite HP. replace (k - nu + nu) with k by lia. solve_Permutation. }
    exists (P ++ (c, k - nu) :: Y), T'. split; [change ((u_base, 0) :: P ++ (c, k - nu) :: Y) with (((u_base, 0) :: P) ++ (c, k - nu) :: Y); by rewrite HPX, <- app_assoc|].
    split; [done|]. rewrite HP'. solve_Permutation.
Qed.

Lemma cut_sorted X q m c k Y nu lo : sorted lo (X ++ (q, m) :: (c, k) :: Y) -> 1 <= nu <= k -> sorted lo (X ++ (q, m) :: cut c k nu ++ Y).
Proof.
  intros (HX & HXq & Hq & Hm & Hc & Hk & HY)%sorted_app Hnu. apply sorted_app. do 4 (split; [done|]). unfold cut, sizeof_header in *.
  destruct (Z.eqb_spec k nu); cbn [app sorted].
  - eapply sorted_weaken; [|exact HY]. lia.
  - split; [lia|]. split; [lia|]. eapply sorted_weaken; [|exact HY]. unfold sizeof_header. lia.
Qed.

(** A new block is none of the others. *)
Lemma tiled_fresh L' r nu A T e : tiled u_start T e -> T ≡ₚ L' ++ (r, nu) :: A ->
  r ∉ ((u_base, 0) :: L').*1 /\ forall a n, (a, n) ∈ A -> a <> r.
Proof.
  intros Ht HP. pose proof (tiled_NoDup _ _ _ Ht) as Hnd. rewrite HP, fmap_app in Hnd. cbn [fmap list_fmap fst] in Hnd.
  apply NoDup_app in Hnd as (_ & Hd & [Hr _]%NoDup_cons). split.
  - apply not_elem_of_cons. split; [|intros Hin; apply (Hd _ Hin), list_elem_of_here]. destruct (tiled_in _ _ _ r nu Ht) as [Hle _].
    { rewrite HP. apply elem_of_app. right. apply list_elem_of_here. }
    pose proof u_base_start. cbn [fst]. unfold sizeof_header in *. lia.
  - intros a n Ha ->. apply Hr. by eapply fst_elem_of.
Qed.

(** Writing the header of one block of the list. *)
Lemma seg_update h X b n Y last : seg h X b -> seg h Y last -> b ∉ X.*1 -> b ∉ Y.*1 ->
  seg (<[b := mkHeader (addr_of Y last) n]> h) (X ++ (b, n) :: Y) last.
Proof.
  intros HX HY HbX HbY. apply seg_app. cbn [addr_of seg]. split; [|split; [by rewrite lookup_insert_eq|]].
  - eapply seg_ext; [|exact HX]. intros c Hc. rewrite lookup_insert_ne; [done|]. by intros <-.
  - eapply seg_ext; [|exact HY]. intros c Hc. rewrite lookup_insert_ne; [done|]. by intros <-.
Qed.

Lemma malloc_take_ok L A u X q m c k Y nu : minv L A u -> (u_base, 0) :: L = X ++ (q, m) :: (c, k) :: Y -> 1 <= nu <= k ->
  let r := c + sizeof_header * (k - nu) in
  exists u' L', malloc_take u nu q c (mkHeader (addr_of Y u_base) k) = Some (u', r + sizeof_header) /\ minv L' ((r, nu) :: A) u'.
Proof.
  intros M HR Hnu r. destruct (mi_tiles _ _ _ M) as (T & Ht & HP). pose proof (mi_sorted _ _ _ M) as Hs. pose proof (mi_seg _ _ _ M) as Hseg.
  destruct (cut_tiled L X q m c k Y nu A T _ HR Hnu Ht HP) as (L' & T' & HL' & Ht' & HP'). fold r in HP'.
  destruct (tiled_fresh _ _ _ _ _ _ Ht' HP') as [HrL HrA].
  assert (Hapart : forall a n, (a, n) ∈ A -> a <> q /\ a <> c).
  { intros a n Ha. pose proof (minv_apart _ _ _ _ n M Ha) as Hn. rewrite HR, fmap_app in Hn.
    apply not_elem_of_app in Hn as [_ [Hq [Hc _]%not_elem_of_cons]%not_elem_of_cons]. done. }
  rewrite HR in Hs, Hseg. pose proof (cut_sorted X q m c k Y nu _ Hs Hnu) as Hs'. rewrite <- HL' in Hs'.
  pose proof (sorted_NoDup _ _ Hs) as Hnd. rewrite fmap_app in Hnd. cbn [fmap list_fmap fst] in Hnd. apply NoDup_app in Hnd as (_ & HX & Hnd).
  apply NoDup_cons in Hnd as [[Hqc Hqn]%not_elem_of_cons [Hcn _]%NoDup_cons].
  pose proof (seg_hdr _ _ _ _ _ _ Hseg) as Hhq. apply seg_app in Hseg as [HsX (_ & Hhc & HsY)]. cbn [addr_of] in Hhq, HsX.
  assert (Hfree : q ∈ ((u_base, 0) :: L').*1) by (rewrite HL', fmap_app; apply elem_of_app; right; apply list_elem_of_here).
  assert (HqX : q ∉ X.*1) by (intros Hin; apply (HX _ Hin), list_elem_of_here).
  unfold malloc_take. cbn [h_size h_ptr]. unfold cut in HL'. destruct (Z.eqb_spec k nu) as [Ek|Hne]; cbn [app] in HL'.
  - rewrite Hhq. cbn [mbind option_bind]. assert (Er : r = c) by (unfold r; lia). rewrite Er in *. eexists _, L'. split; [done|].
    split; cbn [u_freep u_heap u_brk put_hdr set_u_heap set_u_freep]; [done|by rewrite HL'; apply seg_update|done| |by exists T'|apply M].
    intros a n Ha. apply elem_of_cons in Ha as [[= -> ->]|Ha].
    + rewrite lookup_insert_ne by done. rewrite <- Ek. by eexists.
    + rewrite lookup_insert_ne by (apply not_eq_sym, (Hapart _ _ Ha)). by apply M.
  - assert (Hrc : r <> c) by (unfold r, sizeof_header; lia). fold r. eexists _, L'. split; [done|].
    split; cbn [u_freep u_heap u_brk put_hdr set_u_heap set_u_freep]; [done| |done| |by exists T'|apply M].
    + eapply seg_ext; [intros b Hb; rewrite lookup_insert_ne; [done|]; by intros <-|]. rewrite HL'.
      change (X ++ (q, m) :: (c, k - nu) :: Y) with (X ++ [(q, m)] ++ (c, k - nu) :: Y). rewrite app_assoc. apply seg_update; [by apply seg_app|done| |done].
      rewrite fmap_app. apply not_elem_of_app. split; [intros Hin; apply (HX _ Hin), list_elem_of_further, list_elem_of_here|].
      intros Hin. by apply list_elem_of_singleton in Hin.
    + intros a n Ha. apply elem_of_cons in Ha as [[= -> ->]|Ha]; [rewrite lookup_insert_eq; by eexists|].
      rewrite lookup_insert_ne by (apply not_eq_sym, (HrA _ _ Ha)). rewrite lookup_insert_ne by (apply not_eq_sym, (Hapart _ _ Ha)). by apply M.
Qed.

(** The result is a new block of [nu] units. *)
Definition took (A : list (Z * Z)) (nu : Z) (x : option (ustate * Z)) : Prop :=
  exists u' L' r, x = Some (u', r + sizeof_header) /\ minv L' ((r, nu) :: A) u'.

(** What the loop does when it is back where it started. *)
Definition more (fuel : nat) (u : ustate) (nu : Z) : option (ustate * Z) :=
  '(u, p) ← morecore u nu;
  if p =? 0 then Some (u, 0) else
  hp ← u_heap u !! p;
  malloc_loop fuel u nu p (h_ptr hp).

Section MallocLoop.
Context (L A : list (Z * Z)) (u : ustate) (nu : Z) (M : minv L A u) (Hnu : 1 <= nu).

Lemma malloc_step W q m c k Y fuel : (u_base, 0) :: L = W ++ (q, m) :: (c, k) :: Y ->
  took A nu (malloc_loop (S fuel) u nu q c) \/
  k < nu /\ malloc_loop (S fuel) u nu q c = if c =? u_freep u then more fuel u nu else malloc_loop fuel u nu c (addr_of Y u_base).
Proof.
  intros HR. pose proof (mi_seg _ _ _ M) as Hg. change (W ++ (q, m) :: (c, k) :: Y) with (W ++ [(q, m)] ++ (c, k) :: Y) in HR. rewrite app_assoc in HR.
  rewrite HR in Hg. cbn [malloc_loop]. rewrite (seg_hdr _ _ _ _ _ _ Hg). cbn [mbind option_bind h_size h_ptr].
  destruct (Z.leb_spec nu k); [left|by right]. rewrite <- app_assoc in HR.
  destruct (malloc_take_ok L A u W q m c k Y nu M HR) as (u' & L' & E & M'); [lia|]. by exists u', L', (c + sizeof_header * (k - nu)).
Qed.

Lemma malloc_scan V : forall W q m Z0 fuel, (u_base, 0) :: L = W ++ (q, m) :: V ++ Z0 -> u_freep u ∉ V.*1 -> (length V < fuel)%nat ->
  took A nu (malloc_loop fuel u nu q (addr_of (V ++ Z0) u_base)) \/
  (forall c k, (c, k) ∈ V -> k < nu) /\ exists W' q' m', (u_base, 0) :: L = W' ++ (q', m') :: Z0 /\
    malloc_loop fuel u nu q (addr_of (V ++ Z0) u_base) = malloc_loop (fuel - length V) u nu q' (addr_of Z0 u_base).
Proof.
  induction V as [|[c k] V IH]; intros W q m Z0 fuel HR Hf Hfuel.
  - right. split; [intros c k Hc; by apply not_elem_of_nil in Hc|]. exists W, q, m. by rewrite Nat.sub_0_r.
  - apply not_elem_of_cons in Hf as [Hfc Hf]. destruct fuel as [|fuel]; [simpl in Hfuel; lia|]. cbn [app addr_of fst] in *.
    destruct (malloc_step W q m c k (V ++ Z0) fuel HR) as [Ht|[Hk E]]; [by left|]. rewrite E.
    destruct (Z.eqb_spec c (u_freep u)); [congruence|]. change (W ++ (q, m) :: (c, k) :: V ++ Z0) with (W ++ [(q, m)] ++ (c, k) :: V ++ Z0) in HR. rewrite app_assoc in HR.
    destruct (IH _ _ _ _ fuel HR Hf) as [Ht|[Hn (W' & q' & m' & HR' & E')]]; [simpl in Hfuel; lia|by left|]. right. split.
    + intros d j Hd. apply elem_of_cons in Hd as [[= -> ->]|Hd]; [done|by eapply Hn].
    + exists W', q', m'. by split.
Qed.

(** Once around the list. *)
Lemma malloc_once fuel hp : u_heap u !! u_freep u = Some hp -> (S (length L) < fuel)%nat ->
  took A nu (malloc_loop fuel u nu (u_freep u) (h_ptr hp)) \/
  (forall c k, (c, k) ∈ L -> k < nu) /\ exists fuel', (fuel <= fuel' + S (length L))%nat /\ malloc_loop fuel u nu (u_freep u) (h_ptr hp) = more fuel' u nu.
Proof.
  intros Hhp Hfuel. destruct (elem_of_fst _ _ (mi_freep _ _ _ M)) as [m Hin]. apply list_elem_of_split in Hin as (P & Q & HR).
  pose proof (mi_seg _ _ _ M) as Hg. rewrite HR in Hg. rewrite (seg_hdr _ _ _ _ _ _ Hg) in Hhp. injection Hhp as <-. cbn [h_ptr].
  pose proof (sorted_NoDup _ _ (mi_sorted _ _ _ M)) as Hnd. rewrite HR, fmap_app in Hnd. cbn [fmap list_fmap fst] in Hnd. apply NoDup_app in Hnd as (_ & HP & [HQ _]%NoDup_cons).
  assert (HlenR : S (length L) = (length P + S (length Q))%nat) by (change (S (length L)) with (length ((u_base, 0) :: L)); rewrite HR, length_app; done).
  destruct (malloc_scan Q P (u_freep u) m [] fuel) as [Ht|[HnQ (W & q & m' & HR1 & E1)]]; [by rewrite app_nil_r|done|lia|rewrite app_nil_r in Ht; by left|].
  rewrite app_nil_r in E1. rewrite E1. cbn [addr_of]. clear E1. destruct (fuel - length Q)%nat as [|f1] eqn:Ef1; [lia|]. cbn [malloc_loop].
  pose proof (mi_seg _ _ _ M) as [Hbase _]. rewrite Hbase. cbn [mbind option_bind h_size h_ptr]. destruct (Z.leb_spec nu 0); [lia|].
  destruct (cons_app_inv _ _ _ _ _ HR) as [[EP [= Ef Em]]|[P' EP]]; rewrite EP in *.
  - injection HR as _ _ HL. rewrite <- Ef, Z.eqb_refl. right. split; [intros c k Hc; apply (HnQ c k); by rewrite <- HL|]. exists f1. split; [simpl in HlenR; lia|done].
  - injection HR as HL. destruct (Z.eqb_spec u_base (u_freep u)) as [Ef|_]; [exfalso; apply (HP u_base); [apply list_elem_of_here|rewrite Ef; apply list_elem_of_here]|].
    rewrite HL. destruct (malloc_scan P' [] u_base 0 ((u_freep u, m) :: Q) f1) as [Ht|[HnP (W2 & q2 & m2 & HR2 & E2)]];
      [by rewrite HL|intros Hin; apply (HP (u_freep u)); [by apply list_elem_of_further|apply list_elem_of_here]|simpl in HlenR; lia|by left|].
    rewrite E2. cbn [addr_of]. destruct (f1 - length P')%nat as [|f2] eqn:Ef2; [simpl in HlenR; lia|].
    destruct (malloc_step _ _ _ _ _ _ f2 HR2) as [Ht|[Hm E3]]; [by left|]. rewrite E3, Z.eqb_refl. right. split.
    + intros c k Hc. apply elem_of_app in Hc as [Hc|Hc]; [by eapply HnP|]. apply elem_of_cons in Hc as [[= -> ->]|Hc]; [done|by eapply HnQ].
    + exists f2. split; [rewrite <- HL; simpl in HlenR; lia|done].
Qed.

End MallocLoop.

Lemma minv_freep L A u : minv L A u -> u_freep u <> 0 /\ is_Some (u_heap u !! u_freep u).
Proof.
  intros M. split; [|by eapply seg_in; apply M]. destruct (elem_of_fst _ _ (mi_freep _ _ _ M)) as [n Hn].
  destruct (sorted_lb _ _ _ _ (mi_sorted _ _ _ M) Hn). pose proof u_base_pos. lia.
Qed.

Lemma malloc_loop_ok L A u nu hp : minv L A u -> 1 <= nu -> sizeof_header * nu < 2 ^ 31 -> u_heap u !! u_freep u = Some hp ->
  let x := malloc_loop (malloc_fuel u) u nu (u_freep u) (h_ptr hp) in
  x = Some (u, 0) /\ sbrk (u_brk u) (Z.max nu 4096 * sizeof_header) = None \/ took A nu x.
Proof.
  intros M Hnu Hmax Hhp x. pose proof (minv_fuel _ _ _ M) as HL. unfold malloc_fuel in x.
  destruct (malloc_once _ _ _ _ M Hnu (2 * list_fuel u + 4) hp Hhp) as [Ht|[_ (f & Hf & E)]]; [lia|by right|].
  unfold x. rewrite E. unfold more. destruct (morecore_ok _ _ _ _ M Hnu Hmax) as [[Em Eb]|(u' & L' & Em & M' & Hsz & c & k & Hck & Hk)]; rewrite Em; cbn [mbind option_bind].
  - by left.
  - right. destruct (minv_freep _ _ _ M') as [H0 [hp' Hhp']]. destruct (Z.eqb_spec (u_freep u') 0); [done|]. rewrite Hhp'. cbn [mbind option_bind].
    pose proof (minv_fuel _ _ _ M') as HL'. unfold list_fuel in *.
    destruct (malloc_once _ _ _ _ M' Hnu f hp' Hhp') as [Ht|[Hno _]]; [lia|done|]. specialize (Hno _ _ Hck). lia.
Qed.

Lemma units_ok n : 0 <= n <= 2 ^ 31 - 48 -> 1 <= units n /\ sizeof_header * units n < 2 ^ 31 /\ n <= sizeof_header * units n - sizeof_header.
Proof.
  intros H. unfold units, sizeof_header. pose proof (Z_div_mod_eq_full (n + 16 - 1) 16). pose proof (Z.mod_pos_bound (n + 16 - 1) 16).
  rewrite u32_small by lia. lia.
Qed.

(** The first call sets up an empty list. *)
Lemma first_call u : u_brk u = u_start -> u_start <= u_limit -> minv [] [] (set_u_freep u_base (put_hdr u_base (mkHeader u_base 0) u)).
Proof.
  intros Hb Hl. split; cbn [u_freep u_heap u_brk put_hdr set_u_heap set_u_freep].
  - apply list_elem_of_here.
  - cbn [seg addr_of]. by rewrite lookup_insert_eq.
  - cbn [sorted]. lia.
  - intros a n Ha. by apply not_elem_of_nil in Ha.
  - by exists [].
  - lia.
Qed.

Lemma malloc_ok A u n : mstate A u -> 0 <= n <= 2 ^ 31 - 48 ->
  (exists u', malloc u n = Some (u', 0) /\ mstate A u' /\ sbrk (u_brk u) (Z.max (units n) 4096 * sizeof_header) = None) \/ took A (units n) (malloc u n).
Proof.
  intros Hm Hn. destruct (units_ok n Hn) as (H1 & H2 & _).
  assert (HL : exists L, minv L A (if u_freep u =? 0 then set_u_freep u_base (put_hdr u_base (mkHeader u_base 0) u) else u)).
  { destruct Hm as [(-> & -> & Hb & Hl)|[L M]]; [exists []; by apply first_call|]. exists L. destruct (minv_freep _ _ _ M) as [H0 _]. by destruct (Z.eqb_spec (u_freep u) 0). }
  unfold malloc. cbv zeta. assert (Hbrk : u_brk (if u_freep u =? 0 then set_u_freep u_base (put_hdr u_base (mkHeader u_base 0) u) else u) = u_brk u) by (by destruct (u_freep u =? 0)).
  revert HL Hbrk. generalize (if u_freep u =? 0 then set_u_freep u_base (put_hdr u_base (mkHeader u_base 0) u) else u).
  intros v [L M] Hbrk. destruct (minv_freep _ _ _ M) as [_ [hp Hhp]]. rewrite Hhp. cbn [mbind option_bind].
  destruct (malloc_loop_ok _ _ _ _ _ M H1 H2 Hhp) as [[E Eb]|Ht]; [left|by right]. rewrite E. exists v. split; [done|]. rewrite Hbrk in Eb. split; [right; by exists L|done].
Qed.

(** Where a block ends, another one starts, or the memory ends. *)
Lemma tiled_next a T e x n : tiled a T e -> (x, n) ∈ T -> x + sizeof_header * n = e \/ exists k, (x + sizeof_header * n, k) ∈ T.
Proof.
  revert a. induction T as [|[b k] T IH]; intros a Ht Hx; [by apply not_elem_of_nil in Hx|]. destruct Ht as (-> & Hk & Ht).
  apply elem_of_cons in Hx as [[= -> ->]|Hx].
  - destruct T as [|[c j] T]; [by left|]. destruct Ht as (-> & _). right. exists j. apply list_elem_of_further, list_elem_of_here.
  - destruct (IH _ Ht Hx) as [He|[j Hj]]; [by left|]. right. exists j. by apply list_elem_of_further.
Qed.

(** Free blocks are never neighbours: with nothing allocated there is one. *)
Lemma minv_whole L u : minv L [] u -> u_brk u <> u_start -> u_heap u !! u_start = Some (mkHeader u_base ((u_brk u - u_start) / sizeof_header)).
Proof.
  intros M Hne. destruct (mi_tiles _ _ _ M) as (T & Ht & HP). rewrite app_nil_r in HP.
  assert (Hst : exists k, (u_start, k) ∈ L).
  { destruct T as [|[b k] T]; [by cbn [tiled] in Ht|]. destruct Ht as (-> & _). exists k. rewrite <- HP. apply list_elem_of_here. }
  pose proof (mi_sorted _ _ _ M) as (_ & _ & Hs). pose proof (mi_seg _ _ _ M) as (_ & Hg).
  destruct L as [|[c k] L]; [destruct Hst as [? Hst]; by apply not_elem_of_nil in Hst|]. destruct Hs as (_ & _ & Hs).
  assert (Hin : forall x n, (x, n) ∈ (c, k) :: L -> u_start <= x /\ x + sizeof_header * n <= u_brk u /\ 1 <= n) by (intros x n Hx; rewrite <- HP in Hx; by eapply tiled_in).
  destruct (Hin c k (list_elem_of_here _ _)) as (Hc1 & Hc2 & Hc3). assert (Hc : (c, k) ∈ T) by (rewrite HP; apply list_elem_of_here).
  assert (Hend : c + sizeof_header * k = u_brk u).
  { destruct (tiled_next _ _ _ _ _ Ht Hc) as [He|[j Hj]]; [done|]. rewrite HP in Hj. unfold sizeof_header in *. apply elem_of_cons in Hj as [[= Ej _]|Hj]; [lia|]. destruct (sorted_lb _ _ _ _ Hs Hj). lia. }
  destruct L as [|[d j] L].
  - destruct Hst as [k' [[= -> _]|Hst]%elem_of_cons]; [|by apply not_elem_of_nil in Hst]. destruct Hg as [Hg _]. rewrite Hg. cbn [addr_of].
    f_equal. f_equal. apply Z.div_unique_exact; unfold sizeof_header in *; lia.
  - destruct Hs as (Hd & _). destruct (Hin d j) as (_ & Hd2 & Hd3); [apply list_elem_of_further, list_elem_of_here|]. unfold sizeof_header in *. lia.
Qed.

(** C9: In every state of the allocator in which the program owns the blocks
    [A], [malloc] of up to 2 GB terminates: it returns 0, only if
    [sbrk] fails, and [A] is unchanged, or a block with room for [n] bytes inside the heap, disjoint from every
    block of [A], that joins [A].  [free] of a block of [A] terminates and
    takes it out of [A].  Freed blocks are joined with their neighbours: when
    the program owns nothing, the heap is one free block. *)
Theorem malloc_free_safe A u : mstate A u ->
  (forall n, 0 <= n <= 2 ^ 31 - 48 -> exists u' r, malloc u n = Some (u', r) /\
    (r = 0 /\ mstate A u' /\ sbrk (u_brk u) (Z.max (units n) 4096 * sizeof_header) = None \/
     mstate ((r - sizeof_header, units n) :: A) u' /\ u_start <= r - sizeof_header /\
     r + n <= r - sizeof_header + sizeof_header * units n <= u_brk u' /\
     forall b k, (b, k) ∈ A -> r - sizeof_header + sizeof_header * units n <= b \/ b + sizeof_header * k <= r - sizeof_header)) /\
  (forall a n A', A ≡ₚ (a, n) :: A' -> exists u', free u (a + sizeof_header) = Some u' /\ mstate A' u') /\
  (A = [] -> u_freep u <> 0 -> u_brk u <> u_start -> u_heap u !! u_start = Some (mkHeader u_base ((u_brk u - u_start) / sizeof_header))).
Proof.
  intros Hm. split; [|split].
  - intros n Hn. destruct (units_ok n Hn) as (_ & _ & Hroom). destruct (malloc_ok A u n Hm Hn) as [(u' & E & Hm' & Eb)|(u' & L' & r & E & M)].
    + exists u', 0. auto.
    + exists u', (r + sizeof_header). split; [done|]. right. replace (r + sizeof_header - sizeof_header) with r by lia. split; [right; by exists L'|].
      destruct (minv_owned _ _ _ r (units n) M (list_elem_of_here _ _)) as (H1 & H2 & H3 & _). split; [done|]. split; [lia|].
      intros b k Hb. pose proof (minv_other _ _ _ _ _ _ _ M Hb) as Hne. destruct (mi_tiles _ _ _ M) as (T & Ht & HP).
      assert (HrT : (r, units n) ∈ T) by (rewrite HP; apply elem_of_app; right; apply list_elem_of_here).
      assert (HbT : (b, k) ∈ T) by (rewrite HP; apply elem_of_app; right; by apply list_elem_of_further).
      destruct (Z_lt_le_dec r b); [left|right]; eapply tiled_lt; eauto. lia.
  - intros a n A' HA. destruct Hm as [(_ & -> & _)|[L M]]; [by apply Permutation_nil_cons in HA|].
    destruct (free_ok L A' u a n) as (u' & L' & E & M' & _); [by eapply minv_perm|]. exists u'. split; [done|]. right. by exists L'.
  - intros -> Hf Hb. destruct Hm as [(H0 & _)|[L M]]; [done|]. by eapply minv_whole.
Qed.

End Umalloc.

(** A heap from 8192 to a megabyte. *)
#[local] Instance demo_sbrk : Sbrk.
Proof.
  refine {| sbrk := fun b n => if b + n <=? 2 ^ 20 then Some (b + n) else None; u_base := 4096; u_start := 8192; u_limit := 2 ^ 20 |}; try done.
  intros b n b' _. destruct (Z.leb_spec (b + n) (2 ^ 20)); [|done]. by intros [= <-].
Defined.
Definition demo_heap : ustate := mkUstate ∅ 0 8192.

Lemma malloc_free_safe_witness : mstate [] demo_heap /\ exists u' r, malloc demo_heap 100 = Some (u', r) /\ r <> 0 /\ mstate [(r - sizeof_header, units 100)] u'.
Proof.
  assert (Hm : mstate [] demo_heap) by (left; done). split; [done|].
  destruct (proj1 (malloc_free_safe [] demo_heap Hm) 100) as (u' & r & E & [[-> _]|[Hm' [Hr _]]]); [done| |].
  - vm_compute in E. discriminate.
  - exists u', r. split; [done|]. split; [|done]. intros ->. vm_compute in Hr. by apply Hr.
Defined.
