(* ===== verification/Sh.v ===== *)
(** * The shell ([user/sh.c])

    The parser reads the command line in the memory of the process and builds
    a tree of the structures that it allocates, which point to each other and
    into the line; [nulterminate] then cuts the line into strings.  The
    structures are a list, in the order of their allocation, and a pointer to
    the [k]-th one is [k + 1].  Whether [malloc] succeeds is a parameter.  A
    process that calls [panic], or that uses a null pointer, ends. *)

From S2P Require Import Prelude Riscv State Printf Sysfile Ulib.

(** ** Definitions *)

Definition MAXARGS : Z := 10.

(** [struct execcmd] to [struct backcmd]; the constructor is the field
    [type]. *)
Inductive scmd :=
| EXEC (argv eargv : list Z)
| REDIR (cmd file efile mode fd : Z)
| PIPE (lhs rhs : Z)
| LIST (lhs rhs : Z)
| BACK (cmd : Z).

(** The cursor [*ps] and the structures allocated so far. *)
Record pstate := mkPstate {
  p_s : Z;
  p_cmds : list scmd;
}.

(** The result of a part of the parser: a value and a state, or the end of
    the process, by [panic] or by a fault; or the fuel has run out. *)
Inductive pres (A : Type) :=
| POk (x : A) (st : pstate)
| PPanic (msg : string)
| PFault
| PFuel.
Arguments POk {A}. Arguments PPanic {A}. Arguments PFault {A}. Arguments PFuel {A}.

Definition parser (A : Type) : Type := pstate -> pres A.
Definition pret {A} (x : A) : parser A := fun st => POk x st.
Definition pbind {A B} (p : parser A) (f : A -> parser B) : parser B := fun st =>
  match p st with
  | POk x st' => f x st'
  | PPanic msg => PPanic msg
  | PFault => PFault
  | PFuel => PFuel
  end.
Declare Scope parser_scope.
Delimit Scope parser_scope with parser.
Notation "'let*' x ':=' p 'in' q" := (pbind p (fun x => q)) (at level 200, x pattern, right associativity) : parser_scope.
Notation "'do*' p 'in' q" := (pbind p (fun _ => q)) (at level 200, right associativity) : parser_scope.
Open Scope parser_scope.

Definition whitespace : list Z := [32; 9; 13; 10; 11].
Definition symbols : list Z := chars "<|>&;()".

(** [strchr(s, c)] of a constant string, as a condition. *)
Definition in_str (s : list Z) (c : Z) : bool := existsb (Z.eqb c) s.
Definition is_white (c : Z) : bool := in_str whitespace c.
Definition is_plain (c : Z) : bool := negb (is_white c) && negb (in_str symbols c).

(** The letter ['a'] that stands for a word. *)
Definition tok_word : Z := 97.
Definition tok_append : Z := 43.

Section Parser.
Context (malloc_ok : nat -> bool) (m : mem) (es : Z).

Definition panic {A} (msg : string) : parser A := fun _ => PPanic msg.
Definition pfuel {A} : parser A := fun _ => PFuel.

(** A structure set to zero, or the fault of [memset] at address 0. *)
Definition new_cmd (c : scmd) : parser Z := fun st =>
  if malloc_ok (length (p_cmds st)) then POk (lenZ (p_cmds st) + 1) (mkPstate (p_s st) (p_cmds st ++ [c]))
  else PFault.

Definition execcmd : parser Z := new_cmd (EXEC (replicate (Z.to_nat MAXARGS) 0) (replicate (Z.to_nat MAXARGS) 0)).
Definition redircmd (subcmd file efile mode fd : Z) : parser Z := new_cmd (REDIR subcmd file efile mode fd).
Definition pipecmd (lhs rhs : Z) : parser Z := new_cmd (PIPE lhs rhs).
Definition listcmd (lhs rhs : Z) : parser Z := new_cmd (LIST lhs rhs).
Definition backcmd (subcmd : Z) : parser Z := new_cmd (BACK subcmd).

(** [while (s < es && f( *s)) s++]: at most [es - s] steps. *)
Fixpoint skip_loop (fuel : nat) (f : Z -> bool) (s : Z) : Z :=
  match fuel with
  | O => s
  | S fuel' => if (s <? es) && f (mget m s) then skip_loop fuel' f (s + 1) else s
  end.
Definition skip (f : Z -> bool) (s : Z) : Z := skip_loop (Z.to_nat (es - s)) f s.

(** The token and the addresses of its start and its end. *)
Definition gettoken : parser (Z * Z * Z) := fun st =>
  let s := skip is_white (p_s st) in
  let q := s in
  let c := mget m s in
  let '(ret, s) :=
    if c =? 0 then (c, s)
    else if in_str (chars "|();&<") c then (c, s + 1)
    else if c =? 62 then
      if mget m (s + 1) =? 62 then (tok_append, s + 1 + 1) else (c, s + 1)
    else (tok_word, skip is_plain s) in
  POk (ret, q, s) (mkPstate (skip is_white s) (p_cmds st)).

Definition peek (toks : string) : parser bool := fun st =>
  let s := skip is_white (p_s st) in
  POk (negb (mget m s =? 0) && in_str (chars toks) (mget m s)) (mkPstate s (p_cmds st)).

Fixpoint parseredirs (fuel : nat) (cmd : Z) : parser Z :=
  match fuel with
  | O => pfuel
  | S fuel' =>
      let* more := peek "<>" in
      if more then
        let* (tok, _, _) := gettoken in
        let* (tok', q, eq) := gettoken in
        if negb (tok' =? tok_word) then panic "missing file for redirection" else
        let* cmd :=
          (if tok =? 60 then redircmd cmd q eq O_RDONLY 0
           else if tok =? 62 then redircmd cmd q eq (Z.lor (Z.lor O_WRONLY O_CREATE) O_TRUNC) 1
           else if tok =? tok_append then redircmd cmd q eq (Z.lor O_WRONLY O_CREATE) 1
           else pret cmd) in
        parseredirs fuel' cmd
      else pret cmd
  end.

(** [cmd->argv[argc] = q; cmd->eargv[argc] = eq]; outside of the arrays this
    is a fault. *)
Definition set_arg (cmd argc q eq : Z) : parser () := fun st =>
  match p_cmds st !! Z.to_nat (cmd - 1) with
  | Some (EXEC argv eargv) =>
      if (0 <=? argc) && (argc <? MAXARGS) then
        POk () (mkPstate (p_s st) (<[Z.to_nat (cmd - 1) := EXEC (<[Z.to_nat argc := q]> argv) (<[Z.to_nat argc := eq]> eargv)]> (p_cmds st)))
      else PFault
  | _ => PFault
  end.

(** The loop of [parseexec]: the command and the number of arguments. *)
Fixpoint parseexec_loop (fuel : nat) (cmd ret argc : Z) : parser (Z * Z) :=
  match fuel with
  | O => pfuel
  | S fuel' =>
      let* stop := peek "|)&;" in
      if stop then pret (ret, argc) else
      let* (tok, q, eq) := gettoken in
      if tok =? 0 then pret (ret, argc) else
      if negb (tok =? tok_word) then panic "syntax" else
      do* set_arg cmd argc q eq in
      let argc := argc + 1 in
      if MAXARGS <=? argc then panic "too many args" else
      let* ret := parseredirs fuel' ret in
      parseexec_loop fuel' cmd ret argc
  end.

(** The loop of [parseline]. *)
Fixpoint back_loop (fuel : nat) (cmd : Z) : parser Z :=
  match fuel with
  | O => pfuel
  | S fuel' =>
      let* more := peek "&" in
      if more then
        do* gettoken in
        let* cmd := backcmd cmd in
        back_loop fuel' cmd
      else pret cmd
  end.

Fixpoint parseline (fuel : nat) : parser Z :=
  match fuel with
  | O => pfuel
  | S fuel' =>
      let* cmd := parsepipe fuel' in
      let* cmd := back_loop fuel' cmd in
      let* more := peek ";" in
      if more then
        do* gettoken in
        let* rhs := parseline fuel' in
        listcmd cmd rhs
      else pret cmd
  end
with parsepipe (fuel : nat) : parser Z :=
  match fuel with
  | O => pfuel
  | S fuel' =>
      let* cmd := parseexec fuel' in
      let* more := peek "|" in
      if more then
        do* gettoken in
        let* rhs := parsepipe fuel' in
        pipecmd cmd rhs
      else pret cmd
  end
with parseexec (fuel : nat) : parser Z :=
  match fuel with
  | O => pfuel
  | S fuel' =>
      let* block := peek "(" in
      if block then parseblock fuel' else
      let* cmd := execcmd in
      let* ret := parseredirs fuel' cmd in
      let* (ret, argc) := parseexec_loop fuel' cmd ret 0 in
      do* set_arg cmd argc 0 0 in
      pret ret
  end
with parseblock (fuel : nat) : parser Z :=
  match fuel with
  | O => pfuel
  | S fuel' =>
      let* open := peek "(" in
      if negb open then panic "parseblock" else
      do* gettoken in
      let* cmd := parseline fuel' in
      let* close := peek ")" in
      if negb close then panic "syntax - missing )" else
      do* gettoken in
      parseredirs fuel' cmd
  end.

End Parser.

(** The ends of the arguments up to the null pointer. *)
Fixpoint nul_args (m : mem) (argv eargv : list Z) : mem :=
  match argv, eargv with
  | a :: argv', e :: eargv' => if a =? 0 then m else nul_args (mput m e 0) argv' eargv'
  | _, _ => m
  end.

(** The children of a structure are older than it is: its number is enough
    fuel. *)
Fixpoint nulterminate (fuel : nat) (cmds : list scmd) (m : mem) (cmd : Z) : option mem :=
  match fuel with
  | O => None
  | S fuel' =>
      if cmd =? 0 then Some m else
      match cmds !! Z.to_nat (cmd - 1) with
      | None => None
      | Some (EXEC argv eargv) => Some (nul_args m argv eargv)
      | Some (REDIR sub _ efile _ _) => m ← nulterminate fuel' cmds m sub; Some (mput m efile 0)
      | Some (PIPE lhs rhs) | Some (LIST lhs rhs) =>
          m ← nulterminate fuel' cmds m lhs; nulterminate fuel' cmds m rhs
      | Some (BACK sub) => nulterminate fuel' cmds m sub
      end
  end.

(** A token is at least one byte, and at most four calls are nested for it. *)
Definition parse_fuel (n : Z) : nat := 4 * (Z.to_nat n + 2).

(** [parsecmd(s)] of a line of at most [maxlen] bytes: the command, the
    structures and the memory. *)
Definition parsecmd (malloc_ok : nat -> bool) (maxlen : nat) (m : mem) (s : Z) : pres (Z * mem) :=
  match strlen maxlen m s 0 with
  | None => PFuel
  | Some n =>
      let es := s + n in
      match parseline malloc_ok m es (parse_fuel n) (mkPstate s []) with
      | POk cmd st =>
          match peek m es EmptyString st with
          | POk _ st =>
              if negb (p_s st =? es) then PPanic "syntax" else
              match nulterminate (S (Z.to_nat cmd)) (p_cmds st) m cmd with
              | Some m => POk (cmd, m) st
              | None => PFault
              end
          | PPanic msg => PPanic msg
          | PFault => PFault
          | PFuel => PFuel
          end
      | PPanic msg => PPanic msg
      | PFault => PFault
      | PFuel => PFuel
      end
  end.

(** ** The language *)

Inductive token := TSym (c : Z) | TAppend | TWord (w : list Z).

(** The texts of a sequence of tokens, with white space anywhere between
    them; a word ends where a character that may not be part of it follows. *)
Definition ends_with (f : Z -> bool) (w : list Z) : Prop := match w with [] => True | c :: _ => f c = false end.
Inductive lexes : list Z -> list token -> Prop :=
| lex_end : lexes [] []
| lex_white c w ts : is_white c = true -> lexes w ts -> lexes (c :: w) ts
| lex_sym c w ts : in_str (chars "|();&<") c = true -> lexes w ts -> lexes (c :: w) (TSym c :: ts)
| lex_gt w ts : ends_with (Z.eqb 62) w -> lexes w ts -> lexes (62 :: w) (TSym 62 :: ts)
| lex_append w ts : lexes w ts -> lexes (62 :: 62 :: w) (TAppend :: ts)
| lex_word c v w ts : Forall (fun c => is_plain c = true) (c :: v) -> ends_with is_plain w -> lexes w ts -> lexes ((c :: v) ++ w) (TWord (c :: v) :: ts).

(** Redirections, commands, pipelines and lines. *)
Inductive rkind := RIn | ROut | RAppend.
Definition redirection : Type := rkind * list Z.
Inductive line :=
| Last (p : pline) (bg : nat)
| Seq (p : pline) (bg : nat) (l : line)
with pline :=
| Single (e : simple)
| Piped (e : simple) (p : pline)
with simple :=
| Block (l : line) (rs : list redirection)
| Simple (rs : list redirection) (args : list (list Z * list redirection)).

Scheme line_mut := Induction for line Sort Prop
with pline_mut := Induction for pline Sort Prop
with simple_mut := Induction for simple Sort Prop.
Combined Scheme syntax_ind from line_mut, pline_mut, simple_mut.

Definition rtoken (k : rkind) : token := match k with RIn => TSym 60 | ROut => TSym 62 | RAppend => TAppend end.
Definition flat_redirs (rs : list redirection) : list token := concat ((fun '(k, f) => [rtoken k; TWord f]) <$> rs).
Definition flat_args (args : list (list Z * list redirection)) : list token := concat ((fun '(w, rs) => TWord w :: flat_redirs rs) <$> args).
Fixpoint flat_line (l : line) : list token :=
  match l with
  | Last p bg => flat_pline p ++ replicate bg (TSym 38)
  | Seq p bg l => flat_pline p ++ replicate bg (TSym 38) ++ TSym 59 :: flat_line l
  end
with flat_pline (p : pline) : list token :=
  match p with
  | Single e => flat_simple e
  | Piped e p => flat_simple e ++ TSym 124 :: flat_pline p
  end
with flat_simple (e : simple) : list token :=
  match e with
  | Block l rs => TSym 40 :: flat_line l ++ TSym 41 :: flat_redirs rs
  | Simple rs args => flat_redirs rs ++ flat_args args
  end.

(** The number of arguments of a command is limited. *)
Fixpoint fits_line (l : line) : Prop :=
  match l with Last p _ => fits_pline p | Seq p _ l => fits_pline p /\ fits_line l end
with fits_pline (p : pline) : Prop :=
  match p with Single e => fits_simple e | Piped e p => fits_simple e /\ fits_pline p end
with fits_simple (e : simple) : Prop :=
  match e with Block l _ => fits_line l | Simple _ args => lenZ args < MAXARGS end.

(** The command that a line denotes. *)
Inductive command :=
| CExec (args : list (list Z))
| CRedir (c : command) (k : rkind) (file : list Z)
| CPipe (l r : command)
| CList (l r : command)
| CBack (c : command).

Definition redirect (c : command) (rs : list redirection) : command := foldl (fun c '(k, f) => CRedir c k f) c rs.
Fixpoint denote_line (l : line) : command :=
  match l with
  | Last p bg => Nat.iter bg CBack (denote_pline p)
  | Seq p bg l => CList (Nat.iter bg CBack (denote_pline p)) (denote_line l)
  end
with denote_pline (p : pline) : command :=
  match p with
  | Single e => denote_simple e
  | Piped e p => CPipe (denote_simple e) (denote_pline p)
  end
with denote_simple (e : simple) : command :=
  match e with
  | Block l rs => redirect (denote_line l) rs
  | Simple rs args => redirect (CExec args.*1) (rs ++ concat args.*2)
  end.

(** The structures at [p] are the command [c]; [W q e w] says that the word
    [w] is between [q] and [e]. *)
Definition rmode (k : rkind) : Z :=
  match k with RIn => O_RDONLY | ROut => Z.lor (Z.lor O_WRONLY O_CREATE) O_TRUNC | RAppend => Z.lor O_WRONLY O_CREATE end.
Definition rfd (k : rkind) : Z := match k with RIn => 0 | _ => 1 end.
Definition padded (l : list Z) : list Z := l ++ replicate (Z.to_nat MAXARGS - length l) 0.
Inductive shows (W : Z -> Z -> list Z -> Prop) (cmds : list scmd) : Z -> command -> Prop :=
| shows_exec p l ws : 0 < p -> cmds !! Z.to_nat (p - 1) = Some (EXEC (padded l.*1) (padded l.*2)) -> lenZ l < MAXARGS ->
    Forall2 (fun '(q, e) w => W q e w) l ws -> shows W cmds p (CExec ws)
| shows_redir p sub q e k w c : 0 < sub < p -> cmds !! Z.to_nat (p - 1) = Some (REDIR sub q e (rmode k) (rfd k)) -> W q e w ->
    shows W cmds sub c -> shows W cmds p (CRedir c k w)
| shows_pipe p l r c d : 0 < l < p -> 0 < r < p -> cmds !! Z.to_nat (p - 1) = Some (PIPE l r) ->
    shows W cmds l c -> shows W cmds r d -> shows W cmds p (CPipe c d)
| shows_list p l r c d : 0 < l < p -> 0 < r < p -> cmds !! Z.to_nat (p - 1) = Some (LIST l r) ->
    shows W cmds l c -> shows W cmds r d -> shows W cmds p (CList c d)
| shows_back p sub c : 0 < sub < p -> cmds !! Z.to_nat (p - 1) = Some (BACK sub) -> shows W cmds sub c -> shows W cmds p (CBack c).

(** ** Lemmas: tokens *)

(** A text without leading white space starts with its first token. *)
Definition token_first (w : list Z) (ts : list token) : Prop :=
  match ts with
  | [] => w = []
  | TSym c :: ts' => exists w', w = c :: w' /\ (in_str (chars "|();&<") c = true \/ c = 62 /\ ends_with (Z.eqb 62) w') /\ lexes w' ts'
  | TAppend :: ts' => exists w', w = 62 :: 62 :: w' /\ lexes w' ts'
  | TWord v :: ts' => exists w', w = v ++ w' /\ v <> [] /\ Forall (fun c => is_plain c = true) v /\ ends_with is_plain w' /\ lexes w' ts'
  end.

Lemma lexes_first w ts : lexes w ts -> exists v w', w = v ++ w' /\ Forall (fun c => is_white c = true) v /\ token_first w' ts /\ lexes w' ts.
Proof.
  induction 1 as [|c w ts Hc Hl (v & w' & -> & Hv & Ht & Hl')|c w ts Hc Hl _|w ts Hw Hl _|w ts Hl _|c v w ts Hv Hw Hl _];
    [| |exists [], (c :: w)|exists [], (62 :: w)|exists [], (62 :: 62 :: w)|exists [], ((c :: v) ++ w)].
  - exists [], []. repeat split; constructor.
  - exists (c :: v), w'. split; [done|]. split; [by constructor|done].
  - split; [done|]. split; [done|]. split; [exists w; auto|by apply lex_sym].
  - split; [done|]. split; [done|]. split; [exists w; auto|by apply lex_gt].
  - split; [done|]. split; [done|]. split; [exists w; auto|by apply lex_append].
  - split; [done|]. split; [done|]. split; [exists w; auto|by apply lex_word].
Qed.

(** The characters with a meaning are not white space, and no word starts
    with them. *)
Lemma sym_not_white c : in_str symbols c = true -> is_white c = false /\ is_plain c = false /\ c <> 0.
Proof.
  intros (d & Hd & ->%Z.eqb_eq)%existsb_exists. repeat (destruct Hd as [<-|Hd]; [done|]). by destruct Hd.
Qed.

Lemma op_sym c : in_str (chars "|();&<") c = true -> in_str symbols c = true /\ (c =? 62) = false.
Proof.
  intros (d & Hd & ->%Z.eqb_eq)%existsb_exists. repeat (destruct Hd as [<-|Hd]; [done|]). by destruct Hd.
Qed.

Lemma plain_not_sym c : is_plain c = true -> is_white c = false /\ in_str symbols c = false.
Proof. unfold is_plain. intros [H1 H2]%andb_prop. by split; apply negb_true_iff. Qed.

Section Tokens.
Context (m : mem) (s0 es : Z).

(** The text from [p] to the end of the line. *)
Definition rest (p : Z) (w : list Z) : Prop := s0 <= p /\ string_at m p w /\ p + lenZ w = es.
Definition cur (p : Z) (ts : list token) : Prop := exists w, rest p w /\ lexes w ts.

Lemma rest_app p v w : rest p (v ++ w) -> rest (p + lenZ v) w /\ load_bytes m p (length v) = v.
Proof.
  intros (Hp & Hw & He). rewrite lenZ_app in He. destruct (string_at_app _ _ _ _ Hw) as [Hv Hw']. pose proof (lenZ_nonneg v).
  split; [|done]. split; [lia|]. split; [done|lia].
Qed.

Lemma rest_cons p c w : rest p (c :: w) -> mget m p = c /\ c <> 0 /\ p < es /\ rest (p + 1) w.
Proof.
  intros (Hp & Hw & He). rewrite lenZ_cons in He. pose proof (lenZ_nonneg w). destruct (string_at_cons _ _ _ _ Hw) as (E & Hc & Hw').
  split; [done|]. split; [done|]. split; [lia|]. split; [lia|]. split; [done|lia].
Qed.

Lemma rest_nil p : rest p [] -> mget m p = 0 /\ p = es.
Proof. intros (_ & (_ & _ & H0) & He). change (lenZ []) with 0 in *. rewrite Z.add_0_r in *. done. Qed.

Lemma skip_ok f p v w : rest p (v ++ w) -> Forall (fun c => f c = true) v -> ends_with f w -> skip m es f p = p + lenZ v.
Proof.
  intros Hr Hv Hw. unfold skip. assert (Hn : (length v <= Z.to_nat (es - p))%nat).
  { destruct Hr as (_ & _ & He). rewrite lenZ_app in He. pose proof (lenZ_nonneg w). unfold lenZ in *. lia. }
  revert Hn. generalize (Z.to_nat (es - p)). intros n Hn. revert p n Hr Hn. induction Hv as [|c v Hc Hv IH]; intros p n Hr Hn.
  - change (lenZ []) with 0. rewrite Z.add_0_r. destruct n as [|n]; [done|]. cbn [skip_loop app] in *. destruct w as [|c w].
    + apply rest_nil in Hr as [_ ->]. by rewrite Z.ltb_irrefl.
    + apply rest_cons in Hr as (-> & _). cbn [ends_with] in Hw. by rewrite Hw, andb_false_r.
  - destruct n as [|n]; [simpl in Hn; lia|]. cbn [skip_loop]. cbn [app] in Hr. apply rest_cons in Hr as (-> & _ & Hlt & Hr).
    destruct (Z.ltb_spec p es); [|lia]. rewrite Hc. cbn [andb]. rewrite (IH (p + 1) n Hr) by (simpl in Hn; lia). rewrite lenZ_cons. lia.
Qed.

(** Skipping white space leads to the first token. *)
Lemma cur_first p ts : cur p ts -> exists w, rest (skip m es is_white p) w /\ token_first w ts /\ lexes w ts.
Proof.
  intros (w & Hr & (v & w' & -> & Hv & Ht & Hl)%lexes_first). exists w'. rewrite (skip_ok is_white p v w' Hr Hv).
  - apply rest_app in Hr as [Hr _]. done.
  - destruct ts as [|[c| |v'] ts]; cbn [token_first] in Ht.
    + by subst w'.
    + destruct Ht as (w & -> & [Hc|[-> _]] & _); [|done]. apply op_sym in Hc as [Hc _]. by apply sym_not_white.
    + by destruct Ht as (w & -> & _).
    + destruct Ht as (w & -> & Hne & Hp & _). destruct v' as [|c v']; [done|]. apply Forall_cons in Hp as [Hp _]. by apply plain_not_sym.
Qed.

Lemma cur_white p ts : cur p ts -> cur (skip m es is_white p) ts.
Proof. intros (w & Hr & _ & Hl)%cur_first. by exists w. Qed.

(** What [peek] answers. *)
Definition head_in (toks : string) (ts : list token) : bool :=
  match ts with
  | TSym c :: _ => in_str (chars toks) c
  | TAppend :: _ => in_str (chars toks) 62
  | _ => false
  end.

Lemma peek_ok toks p ts cmds : cur p ts -> (forall c, in_str (chars toks) c = true -> in_str symbols c = true) ->
  exists p', peek m es toks (mkPstate p cmds) = POk (head_in toks ts) (mkPstate p' cmds) /\ cur p' ts.
Proof.
  intros Hc Hs. exists (skip m es is_white p). split; [|by apply cur_white]. apply cur_first in Hc as (w & Hr & Ht & _). unfold peek. cbn [p_s p_cmds]. do 2 f_equal.
  destruct ts as [|[c| |v] ts]; cbn [token_first head_in] in *.
  - subst w. apply rest_nil in Hr as [-> _]. done.
  - destruct Ht as (w' & -> & _). apply rest_cons in Hr as (-> & Hc & _). by destruct (Z.eqb_spec c 0).
  - destruct Ht as (w' & -> & _). apply rest_cons in Hr as (-> & Hc & _). done.
  - destruct Ht as (w' & -> & Hne & Hp & _). destruct v as [|c v]; [done|]. apply rest_cons in Hr as (-> & _). apply Forall_cons in Hp as [Hp _].
    apply plain_not_sym in Hp as [_ Hp]. destruct (in_str (chars toks) c) eqn:E; [|by rewrite andb_false_r]. apply Hs in E. congruence.
Qed.

(** A word of the line, and what ends it. *)
Definition plain_byte (c : Z) : bool := negb (c =? 0) && is_plain c.
Definition word_at (q e : Z) (w : list Z) : Prop :=
  s0 <= q /\ Forall (fun c => plain_byte c = true) w /\ load_bytes m q (length w) = w /\ e = q + lenZ w /\ plain_byte (mget m e) = false /\ q < e <= es.

Definition code (t : token) : Z := match t with TSym c => c | TAppend => tok_append | TWord _ => tok_word end.
Definition spans (t : token) (q e : Z) : Prop := match t with TWord w => word_at q e w | _ => True end.

Lemma gettoken_end p cmds : cur p [] -> exists q e p', gettoken m es (mkPstate p cmds) = POk (0, q, e) (mkPstate p' cmds) /\ cur p' [].
Proof.
  intros Hc. pose proof (cur_white _ _ (cur_white _ _ Hc)) as Hc'. apply cur_first in Hc as (w & Hr & -> & _). apply rest_nil in Hr as [H0 _].
  unfold gettoken. cbn [p_s p_cmds]. rewrite H0. cbn [Z.eqb]. eauto.
Qed.

Lemma rest_word q c v w : rest q ((c :: v) ++ w) -> Forall (fun c => is_plain c = true) (c :: v) -> ends_with is_plain w -> word_at q (q + lenZ (c :: v)) (c :: v).
Proof.
  intros Hr Hp Hw. destruct (rest_app _ _ _ Hr) as [Hr' Hl]. destruct Hr as (Hq & (_ & Hn & _) & _). apply Forall_app in Hn as [Hn _]. split; [done|]. split.
  - eapply Forall_impl; [exact (proj2 (Forall_and _ _) (conj Hn Hp))|]. intros d [H1 H2]. unfold plain_byte. rewrite H2. by destruct (Z.eqb_spec d 0).
  - split; [done|]. split; [done|]. rewrite lenZ_cons in *. pose proof (lenZ_nonneg v). pose proof (lenZ_nonneg w). split; [|destruct Hr' as (_ & _ & He); lia]. destruct w as [|d w].
    + by apply rest_nil in Hr' as [-> _].
    + apply rest_cons in Hr' as (-> & _). cbn [ends_with] in Hw. unfold plain_byte. by rewrite Hw, andb_false_r.
Qed.

Lemma gettoken_ok p t ts cmds : cur p (t :: ts) ->
  exists q e p', gettoken m es (mkPstate p cmds) = POk (code t, q, e) (mkPstate p' cmds) /\ spans t q e /\ cur p' ts.
Proof.
  intros (w & Hr & Ht & _)%cur_first. unfold gettoken. cbn [p_s p_cmds]. set (s := skip m es is_white p) in *. clearbody s.
  destruct t as [c| |v]; cbn [token_first code spans] in *.
  - destruct Ht as (w' & -> & Hc & Hl). destruct (rest_cons _ _ _ Hr) as (-> & Hc0 & _ & Hr'). destruct (Z.eqb_spec c 0); [done|].
    exists s, (s + 1), (skip m es is_white (s + 1)). split; [|split; [done|apply cur_white; by exists w']]. destruct Hc as [Hc|[-> Hw']]; [by rewrite Hc|].
    change (in_str (chars "|();&<") 62) with false. cbn [Z.eqb Pos.eqb]. assert (E : (mget m (s + 1) =? 62) = false); [|by rewrite E].
    destruct w' as [|d w']; [by apply rest_nil in Hr' as [-> _]|]. apply rest_cons in Hr' as (-> & _). cbn [ends_with] in Hw'. by rewrite Z.eqb_sym.
  - destruct Ht as (w' & -> & Hl). destruct (rest_cons _ _ _ Hr) as (-> & _ & _ & Hr1). destruct (rest_cons _ _ _ Hr1) as (-> & _ & _ & Hr2).
    exists s, (s + 1 + 1), (skip m es is_white (s + 1 + 1)). split; [done|]. split; [done|]. apply cur_white. by exists w'.
  - destruct Ht as (w' & -> & Hne & Hp & Hw & Hl). destruct v as [|c v]; [done|]. destruct (rest_app _ _ _ Hr) as [Hr' _].
    destruct (rest_cons s c (v ++ w') Hr) as (Ec & Hc0 & _). exists s, (s + lenZ (c :: v)), (skip m es is_white (s + lenZ (c :: v))).
    split; [|split; [by apply (rest_word s c v w')|apply cur_white; by exists w']]. rewrite (skip_ok is_plain s (c :: v) w' Hr Hp Hw), Ec.
    destruct (Z.eqb_spec c 0); [done|]. apply Forall_cons in Hp as [Hp _]. destruct (plain_not_sym c Hp) as [_ Hsym].
    destruct (in_str (chars "|();&<") c) eqn:Eo; [apply op_sym in Eo as [Eo _]; congruence|]. destruct (Z.eqb_spec c 62) as [->|]; [done|]. done.
Qed.

End Tokens.

(** ** Lemmas: the parser *)

Lemma shows_prefix W cmds l p c : shows W cmds p c -> shows W (cmds ++ l) p c.
Proof.
  induction 1; [eapply shows_exec|eapply shows_redir|eapply shows_pipe|eapply shows_list|eapply shows_back]; try (by apply lookup_app_l_Some); eauto.
Qed.

Lemma shows_pos W cmds p c : shows W cmds p c -> 0 < p <= lenZ cmds.
Proof.
  assert (H : forall x, cmds !! Z.to_nat (p - 1) = Some x -> 0 < p -> 0 < p <= lenZ cmds) by (intros x Hx Hp; apply lookup_lt_Some in Hx; unfold lenZ; lia).
  intros Hs. inversion Hs; subst; eapply H; eauto; lia.
Qed.

(** [p] is [e] with the redirections [rs]. *)
Inductive tower (W : Z -> Z -> list Z -> Prop) (cmds : list scmd) (e : Z) : Z -> list redirection -> Prop :=
| tower_nil : 0 < e -> tower W cmds e e []
| tower_snoc p sub q eq k f rs : tower W cmds e sub rs -> 0 < sub < p -> cmds !! Z.to_nat (p - 1) = Some (REDIR sub q eq (rmode k) (rfd k)) -> W q eq f ->
    tower W cmds e p (rs ++ [(k, f)]).

Lemma tower_prefix W cmds l e p rs : tower W cmds e p rs -> tower W (cmds ++ l) e p rs.
Proof. induction 1; econstructor; try (by apply lookup_app_l_Some); eauto. Qed.

Lemma tower_pos W cmds e p rs : tower W cmds e p rs -> 0 < p.
Proof. destruct 1; lia. Qed.

Lemma tower_exec W c0 a b a' b' t e p rs : tower W (c0 ++ EXEC a b :: t) e p rs -> tower W (c0 ++ EXEC a' b' :: t) e p rs.
Proof.
  induction 1 as [|p sub q eq k f rs _ IH Hp E Hw]; econstructor; eauto. destruct (decide (Z.to_nat (p - 1) = length c0)) as [El|Hne].
  - rewrite El, list_lookup_middle in E; done.
  - rewrite !lookup_app in *. destruct (c0 !! Z.to_nat (p - 1)) eqn:E0; [done|]. apply lookup_ge_None in E0.
    destruct (Z.to_nat (p - 1) - length c0)%nat eqn:En; [lia|]. done.
Qed.

Lemma tower_shows W cmds e p rs c : tower W cmds e p rs -> shows W cmds e c -> shows W cmds p (redirect c rs).
Proof.
  intros Ht Hs. induction Ht as [|p sub q eq k f rs _ IH Hp E Hw]; [done|]. unfold redirect. rewrite foldl_app. by econstructor.
Qed.

(** What may follow. *)
Definition follow (cs : string) (ts : list token) : Prop := ts = [] \/ exists c ts', ts = TSym c :: ts' /\ in_str (chars cs) c = true.

Lemma follow_not cs toks ts : follow cs ts -> forallb (fun c => negb (in_str (chars toks) c)) (chars cs) = true -> head_in toks ts = false.
Proof.
  intros [->|(c & ts' & -> & (d & Hd & ->%Z.eqb_eq)%existsb_exists)] Hf; [done|]. cbn [head_in]. rewrite forallb_forall in Hf. by apply negb_true_iff, Hf.
Qed.

Lemma follow_weaken cs cs' ts : follow cs ts -> forallb (in_str (chars cs')) (chars cs) = true -> follow cs' ts.
Proof.
  intros [->|(c & ts' & -> & (d & Hd & ->%Z.eqb_eq)%existsb_exists)] Hf; [by left|]. right. exists d, ts'. split; [done|]. rewrite forallb_forall in Hf. by apply Hf.
Qed.

Lemma sub_symbols toks : forallb (in_str symbols) (chars toks) = true -> forall c, in_str (chars toks) c = true -> in_str symbols c = true.
Proof. intros Hf c (d & Hd & ->%Z.eqb_eq)%existsb_exists. rewrite forallb_forall in Hf. by apply Hf. Qed.

Lemma padded_insert l x : lenZ l < MAXARGS -> <[length l := x]> (padded l) = padded (l ++ [x]).
Proof.
  intros Hl. unfold padded, lenZ, MAXARGS in *. rewrite length_app. cbn [length]. rewrite <- (Nat.add_0_r (length l)) at 1. rewrite insert_app_r.
  destruct (Z.to_nat 10 - length l)%nat as [|n] eqn:En; [lia|]. cbn [replicate insert list_insert]. rewrite <- app_assoc. cbn [app].
  do 3 f_equal. lia.
Qed.

Lemma padded_zero l : lenZ l < MAXARGS -> <[length l := 0]> (padded l) = padded l.
Proof.
  intros Hl. unfold padded, lenZ, MAXARGS in *. rewrite <- (Nat.add_0_r (length l)) at 1. rewrite insert_app_r.
  by destruct (Z.to_nat 10 - length l)%nat as [|n] eqn:En; [lia|].
Qed.

Section Parse.
Context (malloc_ok : nat -> bool) (m : mem) (s0 es : Z) (Hmalloc : forall k, malloc_ok k = true).
Notation cur := (cur m s0 es).
Notation word_at := (word_at m s0 es).

Lemma new_cmd_ok c p cmds : new_cmd malloc_ok c (mkPstate p cmds) = POk (lenZ cmds + 1) (mkPstate p (cmds ++ [c])).
Proof. unfold new_cmd. cbn [p_s p_cmds]. by rewrite Hmalloc. Qed.

Lemma lookup_new (cmds : list scmd) c : (cmds ++ [c]) !! Z.to_nat (lenZ cmds + 1 - 1) = Some c.
Proof. replace (Z.to_nat (lenZ cmds + 1 - 1)) with (length cmds) by (unfold lenZ; lia). by apply list_lookup_middle. Qed.

(** One step of a parser that looks at the next token. *)
Lemma peek_bind {A} toks p ts cmds (f : bool -> parser A) : cur p ts -> forallb (in_str symbols) (chars toks) = true ->
  exists p', pbind (peek m es toks) f (mkPstate p cmds) = f (head_in toks ts) (mkPstate p' cmds) /\ cur p' ts.
Proof. intros Hc Hf. destruct (peek_ok m s0 es toks p ts cmds Hc (sub_symbols _ Hf)) as (p' & E & Hc'). exists p'. unfold pbind. by rewrite E. Qed.

Lemma gettoken_bind {A} p t ts cmds (f : Z * Z * Z -> parser A) : cur p (t :: ts) ->
  exists q e p', pbind (gettoken m es) f (mkPstate p cmds) = f (code t, q, e) (mkPstate p' cmds) /\ spans m s0 es t q e /\ cur p' ts.
Proof. intros Hc. destruct (gettoken_ok m s0 es p t ts cmds Hc) as (q & e & p' & E & Hs & Hc'). exists q, e, p'. unfold pbind. by rewrite E. Qed.

Ltac peek_step Hc p' Hc' :=
  match goal with |- context [pbind (peek _ _ ?toks) ?g (mkPstate ?p ?cmds)] => destruct (peek_bind toks p _ cmds g Hc eq_refl) as (p' & -> & Hc') end.
Ltac token_step Hc q e p' Hw Hc' :=
  match goal with |- context [pbind (gettoken _ _) ?g (mkPstate ?p ?cmds)] => destruct (gettoken_bind p _ _ cmds g Hc) as (q & e & p' & -> & Hw & Hc') end;
  cbn [code spans] in Hw |- *.

Lemma redir_bind {A} k cmd q e (g : Z -> parser A) p cmds :
  pbind (if code (rtoken k) =? 60 then redircmd malloc_ok cmd q e O_RDONLY 0
         else if code (rtoken k) =? 62 then redircmd malloc_ok cmd q e (Z.lor (Z.lor O_WRONLY O_CREATE) O_TRUNC) 1
         else if code (rtoken k) =? tok_append then redircmd malloc_ok cmd q e (Z.lor O_WRONLY O_CREATE) 1 else pret cmd) g (mkPstate p cmds) =
  g (lenZ cmds + 1) (mkPstate p (cmds ++ [REDIR cmd q e (rmode k) (rfd k)])).
Proof. destruct k; unfold pbind, redircmd; cbn [code rtoken Z.eqb Pos.eqb tok_append]; by rewrite new_cmd_ok. Qed.

Lemma parseredirs_ok rs : forall fuel p cmds cmd e rs0 ts, cur p (flat_redirs rs ++ ts) -> head_in "<>" ts = false -> (length rs < fuel)%nat ->
  tower word_at cmds e cmd rs0 -> cmd <= lenZ cmds ->
  exists p' cmd' l, parseredirs malloc_ok m es fuel cmd (mkPstate p cmds) = POk cmd' (mkPstate p' (cmds ++ l)) /\ cur p' ts /\
    tower word_at (cmds ++ l) e cmd' (rs0 ++ rs) /\ cmd' <= lenZ (cmds ++ l).
Proof.
  induction rs as [|[k f] rs IH]; intros fuel p cmds cmd e rs0 ts Hc Hh Hf Ht Hle; (destruct fuel as [|fuel]; [simpl in Hf; lia|]); cbn [parseredirs].
  - cbn [flat_redirs fmap list_fmap concat app] in Hc. peek_step Hc p' Hc'. rewrite Hh.
    exists p', cmd, []. rewrite !app_nil_r. done.
  - change (flat_redirs ((k, f) :: rs) ++ ts) with (rtoken k :: TWord f :: flat_redirs rs ++ ts) in Hc. peek_step Hc p1 Hc1.
    replace (head_in "<>" (rtoken k :: TWord f :: flat_redirs rs ++ ts)) with true by (by destruct k).
    token_step Hc1 q1 e1 p2 Hw1 Hc2. token_step Hc2 q ee p3 Hw Hc3. change (tok_word =? tok_word) with true. cbn [negb].
    set (r := REDIR cmd q ee (rmode k) (rfd k)).
    destruct (IH fuel p3 (cmds ++ [r]) (lenZ cmds + 1) e (rs0 ++ [(k, f)]) ts Hc3 Hh) as (p' & cmd' & l & E & Hc' & Ht' & Hle'); [simpl in Hf; lia| | |].
    + pose proof (tower_pos _ _ _ _ _ Ht). apply (tower_snoc _ _ _ _ cmd q ee); [by apply tower_prefix|lia|apply lookup_new|done].
    + rewrite lenZ_app. unfold lenZ. simpl. lia.
    + rewrite <- !app_assoc in *. exists p', cmd', ([r] ++ l). rewrite redir_bind. done.
Qed.

Lemma flat_redirs_len rs : length (flat_redirs rs) = (2 * length rs)%nat.
Proof. induction rs as [|[k f] rs IH]; [done|]. cbn [flat_redirs fmap list_fmap concat app length] in *. unfold flat_redirs in IH. lia. Qed.

(** The structure that [parseexec] fills, at the end of [c0]. *)
Definition filling (c0 : list scmd) (l : list (Z * Z)) (t : list scmd) : list scmd := c0 ++ EXEC (padded l.*1) (padded l.*2) :: t.

Lemma filling_lookup c0 l t : filling c0 l t !! Z.to_nat (lenZ c0 + 1 - 1) = Some (EXEC (padded l.*1) (padded l.*2)).
Proof. replace (Z.to_nat (lenZ c0 + 1 - 1)) with (length c0) by (unfold lenZ; lia). by apply list_lookup_middle. Qed.

Lemma set_arg_eq c0 l t x y p : lenZ l < MAXARGS -> set_arg (lenZ c0 + 1) (lenZ l) x y (mkPstate p (filling c0 l t)) =
  POk () (mkPstate p (c0 ++ EXEC (<[length l := x]> (padded l.*1)) (<[length l := y]> (padded l.*2)) :: t)).
Proof.
  intros Hl. unfold set_arg. cbn [p_cmds p_s]. rewrite filling_lookup. pose proof (lenZ_nonneg l). destruct (Z.leb_spec 0 (lenZ l)); [|lia]. destruct (Z.ltb_spec (lenZ l) MAXARGS); [|lia].
  cbn [andb]. do 2 f_equal. unfold filling. replace (Z.to_nat (lenZ c0 + 1 - 1)) with (length c0 + 0)%nat by (unfold lenZ; lia). rewrite insert_app_r. unfold lenZ. by rewrite Nat2Z.id.
Qed.

Lemma set_arg_ok c0 l t x y p : lenZ l < MAXARGS -> set_arg (lenZ c0 + 1) (lenZ l) x y (mkPstate p (filling c0 l t)) = POk () (mkPstate p (filling c0 (l ++ [(x, y)]) t)).
Proof.
  intros Hl. rewrite set_arg_eq by done. unfold filling. rewrite !fmap_app. cbn [fmap list_fmap fst snd].
  rewrite <- (padded_insert (l.*1)), <- (padded_insert (l.*2)) by (unfold lenZ in *; by rewrite length_fmap). by rewrite !length_fmap.
Qed.

Lemma set_arg_null c0 l t p : lenZ l < MAXARGS -> set_arg (lenZ c0 + 1) (lenZ l) 0 0 (mkPstate p (filling c0 l t)) = POk () (mkPstate p (filling c0 l t)).
Proof.
  intros Hl. rewrite set_arg_eq by done. rewrite <- (length_fmap fst l) at 1. rewrite <- (length_fmap snd l) at 1.
  by rewrite !padded_zero by (unfold lenZ in *; by rewrite length_fmap).
Qed.

Lemma filling_app c0 l t t' : filling c0 l t ++ t' = filling c0 l (t ++ t').
Proof. unfold filling. by rewrite <- app_assoc. Qed.

Lemma filling_len c0 l l' t : lenZ (filling c0 l t) = lenZ (filling c0 l' t).
Proof. unfold filling, lenZ. by rewrite !length_app. Qed.

Lemma args_head_redir args ts : follow "|)&;" ts -> head_in "<>" (flat_args args ++ ts) = false.
Proof. destruct args as [|[w rs] args]; [|done]. intros Hf. by apply (follow_not _ _ _ Hf). Qed.

(** The loop has read the arguments [args]. *)
Lemma parseexec_loop_ok args : forall fuel p c0 l t ret rs0 ws ts, cur p (flat_args args ++ ts) -> follow "|)&;" ts -> (length (flat_args args) < fuel)%nat ->
  lenZ l + lenZ args < MAXARGS -> Forall2 (fun '(q, e) w => word_at q e w) l ws ->
  tower word_at (filling c0 l t) (lenZ c0 + 1) ret rs0 -> ret <= lenZ (filling c0 l t) ->
  exists p' ret' l' t', parseexec_loop malloc_ok m es fuel (lenZ c0 + 1) ret (lenZ l) (mkPstate p (filling c0 l t)) = POk (ret', lenZ l') (mkPstate p' (filling c0 l' t')) /\
    cur p' ts /\ lenZ l' < MAXARGS /\ Forall2 (fun '(q, e) w => word_at q e w) l' (ws ++ args.*1) /\
    tower word_at (filling c0 l' t') (lenZ c0 + 1) ret' (rs0 ++ concat args.*2) /\ ret' <= lenZ (filling c0 l' t').
Proof.
  induction args as [|[w rs] args IH]; intros fuel p c0 l t ret rs0 ws ts Hc Hf Hfuel Hn Hl Ht Hret; (destruct fuel as [|fuel]; [simpl in Hfuel; lia|]); cbn [parseexec_loop].
  - cbn [flat_args fmap list_fmap concat app] in *. rewrite !app_nil_r. peek_step Hc p1 Hc1. destruct Hf as [->|(c & ts' & -> & Hin)]; cbn [head_in].
    + destruct (gettoken_end m s0 es p1 (filling c0 l t) Hc1) as (q & e & p2 & E & Hc2). unfold pbind at 1. rewrite E. cbn [Z.eqb].
      exists p2, ret, l, t. split; [done|]. split; [done|]. split; [unfold lenZ in *; simpl in Hn; lia|done].
    + rewrite Hin. exists p1, ret, l, t. split; [done|]. split; [done|]. split; [unfold lenZ in *; simpl in Hn; lia|done].
  - assert (Ef : flat_args ((w, rs) :: args) ++ ts = TWord w :: flat_redirs rs ++ flat_args args ++ ts) by (unfold flat_args; cbn [fmap list_fmap concat app]; by rewrite <- app_assoc).
    rewrite Ef in Hc. peek_step Hc p1 Hc1. cbn [head_in]. token_step Hc1 q e p2 Hw Hc2. change (tok_word =? 0) with false. change (tok_word =? tok_word) with true. cbn [negb].
    rewrite lenZ_cons in Hn. pose proof (lenZ_nonneg args). unfold pbind at 1. rewrite set_arg_ok by lia. cbv zeta. destruct (Z.leb_spec MAXARGS (lenZ l + 1)); [lia|].
    assert (Hlen : (length (flat_redirs rs) + length (flat_args args) < fuel)%nat) by (unfold flat_args in *; cbn [fmap list_fmap concat app length] in Hfuel; rewrite length_app in Hfuel; lia).
    destruct (parseredirs_ok rs fuel p2 (filling c0 (l ++ [(q, e)]) t) ret (lenZ c0 + 1) rs0 (flat_args args ++ ts) Hc2 (args_head_redir _ _ Hf)) as (p3 & ret3 & t3 & E3 & Hc3 & Ht3 & Hle3).
    { rewrite flat_redirs_len in Hlen. lia. } { by eapply tower_exec. } { by rewrite (filling_len _ _ l). }
    unfold pbind at 1. rewrite E3. rewrite filling_app in *. replace (lenZ l + 1) with (lenZ (l ++ [(q, e)])) by (rewrite lenZ_app; done).
    destruct (IH fuel p3 c0 (l ++ [(q, e)]) (t ++ t3) ret3 (rs0 ++ rs) (ws ++ [w]) ts Hc3 Hf) as (p' & ret' & l' & t' & E & Hc' & Hl' & HF & Ht' & Hle'); try done.
    { lia. } { rewrite lenZ_app. unfold lenZ in *. simpl. lia. } { apply Forall2_app; [done|]. by constructor. }
    exists p', ret', l', t'. split; [done|]. split; [done|]. split; [done|]. cbn [fmap list_fmap concat fst snd]. rewrite <- !app_assoc in HF, Ht'. done.
Qed.

(** [r] reads the tokens [fl] as the command [c], if [ts] follows. *)
Definition parses (r : parser Z) (p : Z) (cmds : list scmd) (c : command) (ts : list token) : Prop :=
  exists p' cmd l, r (mkPstate p cmds) = POk cmd (mkPstate p' (cmds ++ l)) /\ cur p' ts /\ shows word_at (cmds ++ l) cmd c.

Lemma simple_redirs rs ts fuel p cmds cmd c : cur p (flat_redirs rs ++ ts) -> head_in "<>" ts = false -> (length rs < fuel)%nat ->
  shows word_at cmds cmd c -> parses (parseredirs malloc_ok m es fuel cmd) p cmds (redirect c rs) ts.
Proof.
  intros Hc Hh Hf Hs. destruct (shows_pos _ _ _ _ Hs).
  destruct (parseredirs_ok rs fuel p cmds cmd cmd [] ts Hc Hh Hf) as (p' & cmd' & l & E & Hc' & Ht & _); [constructor; lia|lia|].
  exists p', cmd', l. split; [done|]. split; [done|]. eapply tower_shows; [exact Ht|]. by apply shows_prefix.
Qed.

Lemma parseexec_simple rs args fuel p cmds ts : lenZ args < MAXARGS -> cur p (flat_redirs rs ++ flat_args args ++ ts) -> follow "|)&;" ts ->
  (4 * (length (flat_redirs rs) + length (flat_args args)) + 2 <= fuel)%nat ->
  parses (parseexec malloc_ok m es fuel) p cmds (redirect (CExec args.*1) (rs ++ concat args.*2)) ts.
Proof.
  intros Hn Hc Hf Hfuel. destruct fuel as [|fuel]; [lia|]. unfold parses. cbn [parseexec]. peek_step Hc p1 Hc1.
  assert (Hh : head_in "(" (flat_redirs rs ++ flat_args args ++ ts) = false).
  { destruct rs as [|[[] f] rs]; [|done..]. destruct args as [|[w rs] args]; [|done]. by apply (follow_not _ _ _ Hf). }
  rewrite Hh. unfold execcmd. unfold pbind at 1. rewrite new_cmd_ok. change (cmds ++ [EXEC _ _]) with (filling cmds [] []).
  destruct (parseredirs_ok rs fuel p1 (filling cmds [] []) (lenZ cmds + 1) (lenZ cmds + 1) [] _ Hc1 (args_head_redir _ _ Hf)) as (p2 & ret2 & t2 & E2 & Hc2 & Ht2 & Hle2).
  { rewrite flat_redirs_len in Hfuel. lia. } { constructor. pose proof (lenZ_nonneg cmds). lia. } { unfold filling. rewrite lenZ_app. unfold lenZ. simpl. lia. }
  unfold pbind at 1. rewrite E2. rewrite filling_app in *. cbn [app] in *.
  destruct (parseexec_loop_ok args fuel p2 cmds [] t2 ret2 rs [] ts Hc2 Hf) as (p' & ret' & l' & t' & E & Hc' & Hl' & HF & Ht & Hle); try done.
  { lia. }
  change (lenZ []) with 0 in E. unfold pbind at 1. rewrite E. unfold pbind at 1. rewrite set_arg_null by done.
  exists p', ret', (EXEC (padded l'.*1) (padded l'.*2) :: t'). split; [done|]. split; [done|]. eapply tower_shows; [exact Ht|].
  apply (shows_exec _ _ _ l'); [pose proof (lenZ_nonneg cmds); lia|apply filling_lookup|done|done].
Qed.

Lemma back_loop_ok bg : forall fuel p cmds cmd c ts, cur p (replicate bg (TSym 38) ++ ts) -> head_in "&" ts = false -> (bg < fuel)%nat -> shows word_at cmds cmd c ->
  parses (back_loop malloc_ok m es fuel cmd) p cmds (Nat.iter bg CBack c) ts.
Proof.
  induction bg as [|bg IH]; intros fuel p cmds cmd c ts Hc Hh Hf Hs; (destruct fuel as [|fuel]; [lia|]); unfold parses; cbn [back_loop replicate app] in *; peek_step Hc p1 Hc1.
  - rewrite Hh. exists p1, cmd, []. rewrite app_nil_r. done.
  - change (head_in "&" (TSym 38 :: replicate bg (TSym 38) ++ ts)) with true. cbv iota. token_step Hc1 q e p2 Hw Hc2.
    unfold backcmd. unfold pbind at 1. rewrite new_cmd_ok. destruct (shows_pos _ _ _ _ Hs).
    destruct (IH fuel p2 (cmds ++ [BACK cmd]) (lenZ cmds + 1) (CBack c) ts Hc2 Hh) as (p' & cmd' & l & E & Hc' & Hs'); [lia| |].
    { apply (shows_back _ _ _ cmd); [lia|apply lookup_new|by apply shows_prefix]. }
    exists p', cmd', (BACK cmd :: l). rewrite <- app_assoc in *. split; [done|]. split; [done|]. by rewrite Nat.iter_succ_r.
Qed.

(** The result of a part continues in the next one. *)
Lemma parses_bind r f p cmds c ts c' ts' : parses r p cmds c ts ->
  (forall p' cmd l, cur p' ts -> shows word_at (cmds ++ l) cmd c -> parses (f cmd) p' (cmds ++ l) c' ts') -> parses (pbind r f) p cmds c' ts'.
Proof.
  intros (p1 & cmd1 & l1 & E1 & Hc1 & Hs1) H. destruct (H p1 cmd1 l1 Hc1 Hs1) as (p2 & cmd2 & l2 & E2 & Hc2 & Hs2).
  exists p2, cmd2, (l1 ++ l2). unfold pbind. rewrite E1, app_assoc. done.
Qed.

Lemma parses_ret p cmds cmd c ts : cur p ts -> shows word_at cmds cmd c -> parses (pret cmd) p cmds c ts.
Proof. intros Hc Hs. exists p, cmd, []. by rewrite app_nil_r. Qed.

Lemma parses_peek toks f p cmds c ts ts' : cur p ts -> forallb (in_str symbols) (chars toks) = true ->
  (forall p', cur p' ts -> parses (f (head_in toks ts)) p' cmds c ts') -> parses (pbind (peek m es toks) f) p cmds c ts'.
Proof.
  intros Hc Hf H. destruct (peek_bind toks p ts cmds f Hc Hf) as (p1 & E & Hc1). destruct (H p1 Hc1) as (p2 & cmd & l & E2 & H2).
  exists p2, cmd, l. by rewrite E, E2.
Qed.

Lemma parses_token f p cmds c t ts ts' : cur p (t :: ts) -> (forall p' x, cur p' ts -> parses (f x) p' cmds c ts') -> parses (pbind (gettoken m es) f) p cmds c ts'.
Proof.
  intros Hc H. destruct (gettoken_bind p t ts cmds f Hc) as (q & e & p1 & E & _ & Hc1). destruct (H p1 (code t, q, e) Hc1) as (p2 & cmd & l & E2 & H2).
  exists p2, cmd, l. by rewrite E, E2.
Qed.

Lemma parses_pipe p cmds lhs c rhs d ts : cur p ts -> shows word_at cmds lhs c -> shows word_at cmds rhs d -> parses (pipecmd malloc_ok lhs rhs) p cmds (CPipe c d) ts.
Proof.
  intros Hc Hl Hr. exists p, (lenZ cmds + 1), [PIPE lhs rhs]. unfold pipecmd. rewrite new_cmd_ok. split; [done|]. split; [done|].
  destruct (shows_pos _ _ _ _ Hl), (shows_pos _ _ _ _ Hr). apply (shows_pipe _ _ _ lhs rhs); [lia|lia|apply lookup_new|by apply shows_prefix..].
Qed.

Lemma parses_list p cmds lhs c rhs d ts : cur p ts -> shows word_at cmds lhs c -> shows word_at cmds rhs d -> parses (listcmd malloc_ok lhs rhs) p cmds (CList c d) ts.
Proof.
  intros Hc Hl Hr. exists p, (lenZ cmds + 1), [LIST lhs rhs]. unfold listcmd. rewrite new_cmd_ok. split; [done|]. split; [done|].
  destruct (shows_pos _ _ _ _ Hl), (shows_pos _ _ _ _ Hr). apply (shows_list _ _ _ lhs rhs); [lia|lia|apply lookup_new|by apply shows_prefix..].
Qed.

Definition line_ok (l : line) : Prop := forall fuel p cmds ts, fits_line l -> cur p (flat_line l ++ ts) -> follow ")" ts ->
  (4 * length (flat_line l) + 4 <= fuel)%nat -> parses (parseline malloc_ok m es fuel) p cmds (denote_line l) ts.
Definition pline_ok (pl : pline) : Prop := forall fuel p cmds ts, fits_pline pl -> cur p (flat_pline pl ++ ts) -> follow ")&;" ts ->
  (4 * length (flat_pline pl) + 3 <= fuel)%nat -> parses (parsepipe malloc_ok m es fuel) p cmds (denote_pline pl) ts.
Definition simple_ok (e : simple) : Prop := forall fuel p cmds ts, fits_simple e -> cur p (flat_simple e ++ ts) -> follow "|)&;" ts ->
  (4 * length (flat_simple e) + 2 <= fuel)%nat -> parses (parseexec malloc_ok m es fuel) p cmds (denote_simple e) ts.

Lemma block_ok l rs : line_ok l -> simple_ok (Block l rs).
Proof.
  intros IH fuel p cmds ts Hfit Hc Hf Hfuel. cbn [flat_simple app length] in *. rewrite length_app in Hfuel. cbn [length] in Hfuel. rewrite flat_redirs_len in Hfuel.
  rewrite <- app_assoc in Hc. cbn [app] in Hc. destruct fuel as [|fuel]; [lia|]. cbn [parseexec]. eapply parses_peek; [exact Hc|done|]. intros p1 Hc1. cbn [head_in].
  change (in_str (chars "(") 40) with true. cbv iota. destruct fuel as [|fuel]; [lia|]. cbn [parseblock]. eapply parses_peek; [exact Hc1|done|]. intros p2 Hc2. cbn [head_in].
  change (in_str (chars "(") 40) with true. cbn [negb]. eapply parses_token; [exact Hc2|]. intros p3 _ Hc3. eapply parses_bind.
  { apply IH; [done|exact Hc3|right; by eexists _, _|lia]. }
  intros p4 cmd l4 Hc4 Hs. eapply parses_peek; [exact Hc4|done|]. intros p5 Hc5. cbn [head_in]. change (in_str (chars ")") 41) with true. cbn [negb].
  eapply parses_token; [exact Hc5|]. intros p6 _ Hc6. apply simple_redirs; [done|by apply (follow_not _ _ _ Hf)|lia|done].
Qed.

Lemma piped_ok e pl : simple_ok e -> pline_ok pl -> pline_ok (Piped e pl).
Proof.
  intros IHe IHp fuel p cmds ts [Hfe Hfp] Hc Hf Hfuel. cbn [flat_pline] in *. rewrite length_app in Hfuel. cbn [length] in Hfuel. rewrite <- app_assoc in Hc. cbn [app] in Hc.
  destruct fuel as [|fuel]; [lia|]. cbn [parsepipe]. eapply parses_bind; [apply IHe; [done|exact Hc|right; by eexists _, _|lia]|]. intros p1 cmd1 l1 Hc1 Hs1.
  eapply parses_peek; [exact Hc1|done|]. intros p2 Hc2. cbn [head_in]. change (in_str (chars "|") 124) with true. cbv iota.
  eapply parses_token; [exact Hc2|]. intros p3 _ Hc3. eapply parses_bind; [apply IHp; [done|exact Hc3|done|lia]|]. intros p4 cmd2 l2 Hc4 Hs2.
  apply parses_pipe; [done|by apply shows_prefix|done].
Qed.

Lemma single_ok e : simple_ok e -> pline_ok (Single e).
Proof.
  intros IHe fuel p cmds ts Hfe Hc Hf Hfuel. cbn [flat_pline] in *. destruct fuel as [|fuel]; [lia|]. cbn [parsepipe].
  eapply parses_bind; [apply IHe; [done|exact Hc|by apply (follow_weaken _ _ _ Hf)|lia]|]. intros p1 cmd1 l1 Hc1 Hs1.
  eapply parses_peek; [exact Hc1|done|]. intros p2 Hc2. rewrite (follow_not _ _ _ Hf) by done. by apply parses_ret.
Qed.

(** A pipeline and the [&]s after it. *)
Lemma pline_back_ok pl bg fuel p cmds ts : pline_ok pl -> fits_pline pl -> cur p (flat_pline pl ++ replicate bg (TSym 38) ++ ts) -> follow ");" ts ->
  (4 * length (flat_pline pl) + 3 <= fuel)%nat -> (bg < fuel)%nat ->
  parses (pbind (parsepipe malloc_ok m es fuel) (back_loop malloc_ok m es fuel)) p cmds (Nat.iter bg CBack (denote_pline pl)) ts.
Proof.
  intros IHp Hfit Hc Hf Hfuel Hbg. eapply parses_bind; [apply IHp; [done|exact Hc| |done]|].
  - destruct bg; [by apply (follow_weaken _ _ _ Hf)|]. right. by eexists _, _.
  - intros p1 cmd1 l1 Hc1 Hs1. apply back_loop_ok; [done|by apply (follow_not _ _ _ Hf)|done|done].
Qed.

Lemma pbind_assoc {A B C} (r : parser A) (f : A -> parser B) (g : B -> parser C) st : pbind (pbind r f) g st = pbind r (fun x => pbind (f x) g) st.
Proof. unfold pbind. by destruct (r st). Qed.

Lemma parses_ext r r' p cmds c ts : (forall st, r st = r' st) -> parses r p cmds c ts -> parses r' p cmds c ts.
Proof. intros E (p' & cmd & l & H). exists p', cmd, l. by rewrite <- E. Qed.

Lemma last_ok pl bg : pline_ok pl -> line_ok (Last pl bg).
Proof.
  intros IHp fuel p cmds ts Hfit Hc Hf Hfuel. cbn [flat_line] in *. rewrite length_app, length_replicate in Hfuel. rewrite <- app_assoc in Hc.
  destruct fuel as [|fuel]; [lia|]. cbn [parseline]. eapply parses_ext; [intros st; apply pbind_assoc|].
  eapply parses_bind; [apply pline_back_ok; [done|done|exact Hc|by apply (follow_weaken _ _ _ Hf)|lia|lia]|]. intros p1 cmd1 l1 Hc1 Hs1.
  eapply parses_peek; [exact Hc1|done|]. intros p2 Hc2. rewrite (follow_not _ _ _ Hf) by done. by apply parses_ret.
Qed.

Lemma seq_ok pl bg l : pline_ok pl -> line_ok l -> line_ok (Seq pl bg l).
Proof.
  intros IHp IHl fuel p cmds ts [Hfp Hfl] Hc Hf Hfuel. cbn [flat_line] in *. rewrite !length_app, length_replicate in Hfuel. cbn [length] in Hfuel.
  rewrite <- !app_assoc in Hc. cbn [app] in Hc.
  destruct fuel as [|fuel]; [lia|]. cbn [parseline]. eapply parses_ext; [intros st; apply pbind_assoc|].
  eapply parses_bind; [apply pline_back_ok; [done|done|exact Hc|right; by eexists _, _|lia|lia]|]. intros p1 cmd1 l1 Hc1 Hs1.
  eapply parses_peek; [exact Hc1|done|]. intros p2 Hc2. cbn [head_in]. change (in_str (chars ";") 59) with true. cbv iota.
  eapply parses_token; [exact Hc2|]. intros p3 _ Hc3. eapply parses_bind; [apply IHl; [done|exact Hc3|done|lia]|]. intros p4 cmd2 l2 Hc4 Hs2.
  apply parses_list; [done|by apply shows_prefix|done].
Qed.

Lemma simple_simple_ok rs args : simple_ok (Simple rs args).
Proof.
  intros fuel p cmds ts Hfit Hc Hf Hfuel. cbn [flat_simple] in *. rewrite length_app in Hfuel. rewrite <- app_assoc in Hc. by apply parseexec_simple.
Qed.

Lemma parseline_ok l : line_ok l.
Proof. revert l. apply (line_mut line_ok pline_ok simple_ok); eauto using last_ok, seq_ok, single_ok, piped_ok, block_ok, simple_simple_ok. Qed.

(** *** Every line *)

(** [r] panics, or it returns a command [c] with [ts] left for which [Q]. *)
Definition outcome (r : parser Z) (p : Z) (cmds : list scmd) (Q : command -> list token -> Prop) : Prop :=
  (exists msg, r (mkPstate p cmds) = PPanic msg) \/
  exists p' cmd l c ts, r (mkPstate p cmds) = POk cmd (mkPstate p' (cmds ++ l)) /\ cur p' ts /\ shows word_at (cmds ++ l) cmd c /\ Q c ts.

Lemma outcome_bind r f p cmds Q Q' : outcome r p cmds Q ->
  (forall p' cmd l c ts, cur p' ts -> shows word_at (cmds ++ l) cmd c -> Q c ts -> outcome (f cmd) p' (cmds ++ l) Q') -> outcome (pbind r f) p cmds Q'.
Proof.
  intros [[msg E]|(p1 & cmd & l & c & ts & E & Hc & Hs & HQ)] H; unfold outcome, pbind; rewrite E; [left; eauto|].
  destruct (H _ _ _ _ _ Hc Hs HQ) as [Hp|(p2 & cmd2 & l2 & c2 & ts2 & E2 & H2)]; [by left|]. right. exists p2, cmd2, (l ++ l2), c2, ts2. rewrite app_assoc. done.
Qed.

Lemma outcome_parses r p cmds c ts (Q : command -> list token -> Prop) : parses r p cmds c ts -> Q c ts -> outcome r p cmds Q.
Proof. intros (p' & cmd & l & E & Hc & Hs) HQ. right. by exists p', cmd, l, c, ts. Qed.

Lemma outcome_panic msg p cmds Q : outcome (panic msg) p cmds Q.
Proof. left. by eexists. Qed.

Lemma outcome_peek toks f p cmds ts Q : cur p ts -> forallb (in_str symbols) (chars toks) = true ->
  (forall p', cur p' ts -> outcome (f (head_in toks ts)) p' cmds Q) -> outcome (pbind (peek m es toks) f) p cmds Q.
Proof. intros Hc Hf H. destruct (peek_bind toks p ts cmds f Hc Hf) as (p1 & E & Hc1). unfold outcome. rewrite E. by apply H. Qed.

Lemma outcome_token f p cmds t ts Q : cur p (t :: ts) -> (forall p' x, cur p' ts -> outcome (f x) p' cmds Q) -> outcome (pbind (gettoken m es) f) p cmds Q.
Proof. intros Hc H. destruct (gettoken_bind p t ts cmds f Hc) as (q & e & p1 & E & _ & Hc1). unfold outcome. rewrite E. by apply H. Qed.

(** A token that [peek] finds. *)
Lemma head_in_one toks c ts : chars toks = [c] -> c <> 62 -> head_in toks ts = true -> exists ts', ts = TSym c :: ts'.
Proof.
  intros Et Hc. unfold head_in. rewrite Et. destruct ts as [|[d| |w] ts]; [done| | |done]; cbn [in_str existsb]; rewrite orb_false_r; intros E%Z.eqb_eq; subst; [by exists ts|done].
Qed.

Lemma head_in_redir ts : head_in "<>" ts = true -> exists k ts', ts = rtoken k :: ts'.
Proof.
  destruct ts as [|[c| |w] ts]; [done| |exists RAppend, ts; done|done]. cbn [head_in].
  intros (d & [<-|[<-|[]]] & ->%Z.eqb_eq)%existsb_exists; [by exists RIn, ts|by exists ROut, ts].
Qed.

Lemma sym_code p c ts : cur p (TSym c :: ts) -> (c =? tok_word) = false /\ (c =? 0) = false.
Proof.
  intros (w & _ & (v & w' & _ & _ & (w2 & _ & Hc & _) & _)%lexes_first). destruct Hc as [(d & Hd & ->%Z.eqb_eq)%existsb_exists|[-> _]]; [|done].
  repeat (destruct Hd as [<-|Hd]; [done|]). by destruct Hd.
Qed.

Lemma parseredirs_total fuel : forall p cmds cmd e rs0 ts, cur p ts -> (length ts < fuel)%nat -> tower word_at cmds e cmd rs0 -> cmd <= lenZ cmds ->
  (exists msg, parseredirs malloc_ok m es fuel cmd (mkPstate p cmds) = PPanic msg) \/
  exists rs p' cmd' l ts', ts = flat_redirs rs ++ ts' /\ parseredirs malloc_ok m es fuel cmd (mkPstate p cmds) = POk cmd' (mkPstate p' (cmds ++ l)) /\ cur p' ts' /\
    tower word_at (cmds ++ l) e cmd' (rs0 ++ rs) /\ cmd' <= lenZ (cmds ++ l).
Proof.
  induction fuel as [|fuel IH]; intros p cmds cmd e rs0 ts Hc Hf Ht Hle; [lia|]. cbn [parseredirs]. peek_step Hc p1 Hc1. destruct (head_in "<>" ts) eqn:Eh.
  - apply head_in_redir in Eh as (k & ts1 & ->). token_step Hc1 q1 e1 p2 Hw1 Hc2. destruct ts1 as [|t ts1].
    { destruct (gettoken_end m s0 es p2 cmds Hc2) as (q2 & e2 & p3 & E2 & _). unfold pbind at 1. rewrite E2. left. by eexists. }
    destruct t as [c| |f]; [| |]; token_step Hc2 q2 e2 p3 Hw2 Hc3.
    + destruct (sym_code _ _ _ Hc2) as [-> _]. left. by eexists.
    + left. by eexists.
    + change (tok_word =? tok_word) with true. cbn [negb]. set (r := REDIR cmd q2 e2 (rmode k) (rfd k)).
      rewrite redir_bind. fold r. destruct (IH p3 (cmds ++ [r]) (lenZ cmds + 1) e (rs0 ++ [(k, f)]) ts1 Hc3) as [Hp|(rs & p' & cmd' & l & ts' & -> & E & Hc' & Ht' & Hle')];
        [simpl in Hf; lia| | |by left|].
      * pose proof (tower_pos _ _ _ _ _ Ht). apply (tower_snoc _ _ _ _ cmd q2 e2); [by apply tower_prefix|lia|apply lookup_new|done].
      * rewrite lenZ_app. unfold lenZ. simpl. lia.
      * right. exists ((k, f) :: rs), p', cmd', ([r] ++ l), ts'. rewrite <- !app_assoc in *. done.
  - right. exists [], p1, cmd, [], ts. rewrite !app_nil_r. done.
Qed.

(** The loop panics, or it has read some arguments. *)
Definition args_read (c0 : list scmd) (l : list (Z * Z)) (rs0 : list redirection) (ws : list (list Z)) (ts : list token) (x : pres (Z * Z)) : Prop :=
  (exists msg, x = PPanic msg) \/
  exists args p' ret' l' t' ts', x = POk (ret', lenZ l') (mkPstate p' (filling c0 l' t')) /\ ts = flat_args args ++ ts' /\
    cur p' ts' /\ lenZ l' = lenZ l + lenZ args /\ lenZ l' < MAXARGS /\ Forall2 (fun '(q, e) w => word_at q e w) l' (ws ++ args.*1) /\
    tower word_at (filling c0 l' t') (lenZ c0 + 1) ret' (rs0 ++ concat args.*2).

Lemma parseexec_loop_total fuel : forall p c0 l t ret rs0 ws ts, cur p ts -> (length ts < fuel)%nat ->
  lenZ l < MAXARGS -> Forall2 (fun '(q, e) w => word_at q e w) l ws -> tower word_at (filling c0 l t) (lenZ c0 + 1) ret rs0 -> ret <= lenZ (filling c0 l t) ->
  args_read c0 l rs0 ws ts (parseexec_loop malloc_ok m es fuel (lenZ c0 + 1) ret (lenZ l) (mkPstate p (filling c0 l t))).
Proof.
  induction fuel as [|fuel IH]; intros p c0 l t ret rs0 ws ts Hc Hf Hn Hl Ht Hret; [lia|]. cbn [parseexec_loop]. peek_step Hc p1 Hc1.
  assert (Hstop : forall p', cur p' ts -> args_read c0 l rs0 ws ts (POk (ret, lenZ l) (mkPstate p' (filling c0 l t)))).
  { intros p' Hc'. right. exists [], p', ret, l, t, ts. cbn [fmap list_fmap concat]. rewrite !app_nil_r. change (lenZ []) with 0. rewrite Z.add_0_r. done. }
  destruct (head_in "|)&;" ts); [by apply Hstop|]. destruct ts as [|[c| |w] ts].
  - destruct (gettoken_end m s0 es p1 (filling c0 l t) Hc1) as (q & e & p2 & E & Hc2). unfold pbind at 1. rewrite E. by apply Hstop.
  - token_step Hc1 q e p2 Hw Hc2. destruct (sym_code _ _ _ Hc1) as [-> ->]. left. by eexists.
  - token_step Hc1 q e p2 Hw Hc2. left. by eexists.
  - token_step Hc1 q e p2 Hw Hc2. change (tok_word =? 0) with false. change (tok_word =? tok_word) with true. cbn [negb]. clear Hstop.
    unfold pbind at 1. rewrite set_arg_ok by lia. cbv zeta. destruct (Z.leb_spec MAXARGS (lenZ l + 1)); [left; by eexists|].
    destruct (parseredirs_total fuel p2 (filling c0 (l ++ [(q, e)]) t) ret (lenZ c0 + 1) rs0 ts Hc2) as [[msg E3]|(rs & p3 & ret3 & t3 & ts3 & -> & E3 & Hc3 & Ht3 & Hle3)].
    { simpl in Hf. lia. } { by eapply tower_exec. } { by rewrite (filling_len _ _ l). } { unfold pbind at 1. rewrite E3. left. by eexists. }
    unfold pbind at 1. rewrite E3. rewrite filling_app in *. replace (lenZ l + 1) with (lenZ (l ++ [(q, e)])) by (rewrite lenZ_app; done).
    destruct (IH p3 c0 (l ++ [(q, e)]) (t ++ t3) ret3 (rs0 ++ rs) (ws ++ [w]) ts3 Hc3) as [Hp|(args & p' & ret' & l' & t' & ts' & E & -> & Hc' & Hl' & Hn' & HF & Ht')]; try done.
    { cbn [length] in Hf. rewrite length_app in Hf. lia. } { rewrite lenZ_app. done. } { apply Forall2_app; [done|]. by constructor. } { by left. }
    right. exists ((w, rs) :: args), p', ret', l', t', ts'. cbn [fmap list_fmap concat fst snd]. rewrite <- !app_assoc in HF, Ht'. rewrite lenZ_cons.
    split; [done|]. split; [unfold flat_args; cbn [fmap list_fmap concat app]; by rewrite <- app_assoc|]. split; [done|]. split; [|done].
    rewrite lenZ_app in Hl'. change (lenZ [(q, e)]) with 1 in Hl'. lia.
Qed.

(** The part of [ts] that was read is the command, and [fit] holds of it. *)
Definition read_as {S} (flat : S -> list token) (den : S -> command) (fits : S -> Prop) (ts : list token) (c : command) (ts' : list token) : Prop :=
  exists x, ts = flat x ++ ts' /\ c = den x /\ fits x.
Definition line_total (fuel : nat) : Prop := forall p cmds ts, cur p ts -> (4 * length ts + 4 <= fuel)%nat ->
  outcome (parseline malloc_ok m es fuel) p cmds (read_as flat_line denote_line fits_line ts).
Definition pline_total (fuel : nat) : Prop := forall p cmds ts, cur p ts -> (4 * length ts + 3 <= fuel)%nat ->
  outcome (parsepipe malloc_ok m es fuel) p cmds (read_as flat_pline denote_pline fits_pline ts).
Definition simple_total (fuel : nat) : Prop := forall p cmds ts, cur p ts -> (4 * length ts + 2 <= fuel)%nat ->
  outcome (parseexec malloc_ok m es fuel) p cmds (read_as flat_simple denote_simple fits_simple ts).

Lemma redirs_outcome fuel p cmds cmd c ts : cur p ts -> (length ts < fuel)%nat -> shows word_at cmds cmd c ->
  outcome (parseredirs malloc_ok m es fuel cmd) p cmds (read_as flat_redirs (redirect c) (fun _ => True) ts).
Proof.
  intros Hc Hf Hs. destruct (shows_pos _ _ _ _ Hs).
  destruct (parseredirs_total fuel p cmds cmd cmd [] ts Hc Hf) as [Hp|(rs & p' & cmd' & l & ts' & -> & E & Hc' & Ht & _)]; [constructor; lia|lia|by left|].
  right. exists p', cmd', l, (redirect c rs), ts'. split; [done|]. split; [done|]. split; [eapply tower_shows; [exact Ht|by apply shows_prefix]|]. by exists rs.
Qed.

Lemma back_outcome fuel : forall p cmds cmd c ts, cur p ts -> (length ts < fuel)%nat -> shows word_at cmds cmd c ->
  outcome (back_loop malloc_ok m es fuel cmd) p cmds (read_as (fun bg => replicate bg (TSym 38)) (fun bg => Nat.iter bg CBack c) (fun _ => True) ts).
Proof.
  induction fuel as [|fuel IH]; intros p cmds cmd c ts Hc Hf Hs; [lia|]. cbn [back_loop]. eapply outcome_peek; [exact Hc|done|]. intros p1 Hc1. destruct (head_in "&" ts) eqn:Eh.
  - apply (head_in_one _ 38) in Eh as [ts' ->]; [|done|done]. eapply outcome_token; [exact Hc1|]. intros p2 _ Hc2. destruct (shows_pos _ _ _ _ Hs).
    eapply (outcome_bind _ _ _ _ (fun c' ts2 => c' = CBack c /\ ts2 = ts')).
    + eapply outcome_parses; [|by split]. exists p2, (lenZ cmds + 1), [BACK cmd]. unfold backcmd. rewrite new_cmd_ok. split; [done|]. split; [done|].
      apply (shows_back _ _ _ cmd); [lia|apply lookup_new|by apply shows_prefix].
    + intros p3 cmd3 l3 c3 ts3 Hc3 Hs3 [-> ->]. destruct (IH p3 (cmds ++ l3) cmd3 (CBack c) ts' Hc3) as [Hp|(p' & cmd' & l & c' & ts2 & E & Hc' & Hs' & bg & -> & -> & _)];
        [simpl in Hf; lia|done|by left|]. right. exists p', cmd', l, (Nat.iter bg CBack (CBack c)), ts2. split; [done|]. split; [done|]. split; [done|].
      exists (S bg). by rewrite Nat.iter_succ_r.
  - eapply outcome_parses; [by apply parses_ret|]. by exists 0%nat.
Qed.

Lemma exec_outcome fuel p cmds ts : cur p ts -> (length ts < fuel)%nat ->
  outcome (let* cmd := execcmd malloc_ok in let* ret := parseredirs malloc_ok m es fuel cmd in
           let* (ret, argc) := parseexec_loop malloc_ok m es fuel cmd ret 0 in do* set_arg cmd argc 0 0 in pret ret) p cmds
    (read_as flat_simple denote_simple fits_simple ts).
Proof.
  intros Hc Hf. unfold outcome, execcmd. unfold pbind at 1 5. rewrite new_cmd_ok. change (cmds ++ [EXEC _ _]) with (filling cmds [] []). pose proof (lenZ_nonneg cmds).
  destruct (parseredirs_total fuel p (filling cmds [] []) (lenZ cmds + 1) (lenZ cmds + 1) [] ts Hc Hf) as [[msg E2]|(rs & p2 & ret2 & t2 & ts2 & -> & E2 & Hc2 & Ht2 & Hle2)].
  { constructor. lia. } { unfold filling. rewrite lenZ_app. unfold lenZ. simpl. lia. } { left. exists msg. unfold pbind at 1. by rewrite E2. }
  unfold pbind at 1 4. rewrite E2. rewrite filling_app in *. cbn [app] in *.
  destruct (parseexec_loop_total fuel p2 cmds [] t2 ret2 rs [] ts2 Hc2) as [[msg E]|(args & p' & ret' & l' & t' & ts' & E & -> & Hc' & Hl & Hn & HF & Ht)]; try done.
  { rewrite length_app in Hf. lia. } { left. exists msg. change 0 with (lenZ (A := Z * Z) []). unfold pbind at 1. by rewrite E. }
  right. exists p', ret', (EXEC (padded l'.*1) (padded l'.*2) :: t'), (redirect (CExec args.*1) (rs ++ concat args.*2)), ts'.
  change 0 with (lenZ (A := Z * Z) []) at 1. unfold pbind at 1. rewrite E. unfold pbind at 1. rewrite set_arg_null by done. split; [done|]. split; [done|]. split.
  - eapply tower_shows; [exact Ht|]. apply (shows_exec _ _ _ l'); [lia|apply filling_lookup|done|done].
  - exists (Simple rs args). cbn [flat_simple denote_simple fits_simple]. rewrite <- app_assoc. split; [done|]. split; [done|]. change (lenZ []) with 0 in Hl. lia.
Qed.

Lemma simple_step fuel : (forall f, (f < fuel)%nat -> line_total f) -> simple_total fuel.
Proof.
  intros IH p cmds ts Hc Hf. destruct fuel as [|fuel]; [lia|]. cbn [parseexec]. eapply outcome_peek; [exact Hc|done|]. intros p1 Hc1.
  destruct (head_in "(" ts) eqn:Eh; [|apply exec_outcome; [done|lia]]. apply (head_in_one _ 40) in Eh as [ts1 ->]; [|done|done]. cbn [length] in Hf.
  destruct fuel as [|fuel]; [lia|]. cbn [parseblock]. eapply outcome_peek; [exact Hc1|done|]. intros p2 Hc2. cbn [head_in]. change (in_str (chars "(") 40) with true. cbn [negb].
  eapply outcome_token; [exact Hc2|]. intros p3 _ Hc3. eapply outcome_bind; [apply IH; [lia|exact Hc3|lia]|]. intros p4 cmd l c ts4 Hc4 Hs (x & -> & -> & Hfit).
  eapply outcome_peek; [exact Hc4|done|]. intros p5 Hc5. destruct (head_in ")" ts4) eqn:Eh; [|apply outcome_panic]. cbn [negb].
  apply (head_in_one _ 41) in Eh as [ts5 ->]; [|done|done]. eapply outcome_token; [exact Hc5|]. intros p6 _ Hc6. rewrite length_app in Hf. cbn [length] in Hf.
  destruct (redirs_outcome fuel p6 (cmds ++ l) cmd (denote_line x) ts5 Hc6) as [Hp|(p' & cmd' & l' & c' & ts' & E & Hc' & Hs' & rs & -> & -> & _)]; [lia|exact Hs|by left|].
  right. exists p', cmd', l', (redirect (denote_line x) rs), ts'. split; [done|]. split; [done|]. split; [done|]. exists (Block x rs). split; [|done].
  cbn [flat_simple app]. by rewrite <- app_assoc.
Qed.

Lemma pline_step fuel : (forall f, (f < fuel)%nat -> pline_total f /\ simple_total f) -> pline_total fuel.
Proof.
  intros IH p cmds ts Hc Hf. destruct fuel as [|fuel]; [lia|]. cbn [parsepipe]. eapply outcome_bind; [apply IH; [lia|exact Hc|lia]|].
  intros p1 cmd1 l1 c1 ts1 Hc1 Hs1 (e & -> & -> & Hfe). eapply outcome_peek; [exact Hc1|done|]. intros p2 Hc2. rewrite length_app in Hf. destruct (head_in "|" ts1) eqn:Eh.
  - apply (head_in_one _ 124) in Eh as [ts2 ->]; [|done|done]. cbn [length] in Hf. eapply outcome_token; [exact Hc2|]. intros p3 _ Hc3.
    eapply outcome_bind; [apply IH; [lia|exact Hc3|lia]|]. intros p4 cmd4 l4 c4 ts4 Hc4 Hs4 (x & -> & -> & Hfx).
    eapply outcome_parses; [apply parses_pipe; [exact Hc4|by apply shows_prefix|exact Hs4]|]. exists (Piped e x). cbn [flat_pline]. by rewrite <- app_assoc.
  - eapply outcome_parses; [by apply parses_ret|]. by exists (Single e).
Qed.

Lemma line_step fuel : (forall f, (f < fuel)%nat -> line_total f /\ pline_total f) -> line_total fuel.
Proof.
  intros IH p cmds ts Hc Hf. destruct fuel as [|fuel]; [lia|]. cbn [parseline]. eapply outcome_bind; [apply IH; [lia|exact Hc|lia]|].
  intros p1 cmd1 l1 c1 ts1 Hc1 Hs1 (x & -> & -> & Hfx). rewrite length_app in Hf. eapply outcome_bind; [apply back_outcome; [exact Hc1|lia|exact Hs1]|].
  intros p2 cmd2 l2 c2 ts2 Hc2 Hs2 (bg & -> & -> & _). rewrite length_app in Hf. eapply outcome_peek; [exact Hc2|done|]. intros p3 Hc3. destruct (head_in ";" ts2) eqn:Eh.
  - apply (head_in_one _ 59) in Eh as [ts3 ->]; [|done|done]. cbn [length] in Hf. eapply outcome_token; [exact Hc3|]. intros p4 _ Hc4.
    eapply outcome_bind; [apply IH; [lia|exact Hc4|lia]|]. intros p5 cmd5 l5 c5 ts5 Hc5 Hs5 (y & -> & -> & Hfy).
    eapply outcome_parses; [apply parses_list; [exact Hc5|by apply shows_prefix|exact Hs5]|]. exists (Seq x bg y). cbn [flat_line]. by rewrite <- !app_assoc.
  - eapply outcome_parses; [by apply parses_ret|]. exists (Last x bg). cbn [flat_line]. by rewrite <- app_assoc.
Qed.

Lemma parseline_total fuel : line_total fuel.
Proof.
  cut (line_total fuel /\ pline_total fuel /\ simple_total fuel); [tauto|]. induction (lt_wf fuel) as [fuel _ IH].
  split; [apply line_step|split; [apply pline_step|apply simple_step]]; intros f Hf; by destruct (IH f Hf) as (? & ? & ?).
Qed.

End Parse.

(** ** Lemmas: the strings *)

Section Nul.
Context (m0 : mem) (s0 es : Z) (cmds : list scmd) (Hs0 : 0 < s0).
Notation word_at := (word_at m0 s0 es).

(** Bytes of the line that are not part of a word may have become NUL. *)
Definition cutting (m : mem) : Prop := forall a, mget m a = mget m0 a \/ mget m a = 0 /\ plain_byte (mget m0 a) = false /\ s0 <= a <= es.
Definition keeps_nul (m m' : mem) : Prop := forall a, mget m a = 0 -> mget m' a = 0.
Definition cut_at (m : mem) (q e : Z) (w : list Z) : Prop := word_at q e w /\ mget m e = 0.

Lemma keeps_nul_trans m1 m2 m3 : keeps_nul m1 m2 -> keeps_nul m2 m3 -> keeps_nul m1 m3.
Proof. intros H1 H2 a Ha. by apply H2, H1. Qed.

Lemma cut_at_mono m m' q e w : keeps_nul m m' -> cut_at m q e w -> cut_at m' q e w.
Proof. intros Hk [Hw H0]. split; [done|by apply Hk]. Qed.

Lemma shows_mono (W W' : Z -> Z -> list Z -> Prop) p c : (forall q e w, W q e w -> W' q e w) -> shows W cmds p c -> shows W' cmds p c.
Proof.
  intros HW. induction 1 as [p l ws Hp E Hl HF|p sub q e k w c Hp E Hw Hs IH|p l r c d Hl Hr E Hs1 IH1 Hs2 IH2|p l r c d Hl Hr E Hs1 IH1 Hs2 IH2|p sub c Hp E Hs IH].
  - apply (shows_exec _ _ _ l); [done..|]. eapply Forall2_impl; [exact HF|]. intros [q e] w. apply HW.
  - exact (shows_redir _ _ _ _ _ _ _ _ _ Hp E (HW _ _ _ Hw) IH).
  - exact (shows_pipe _ _ _ _ _ _ _ Hl Hr E IH1 IH2).
  - exact (shows_list _ _ _ _ _ _ _ Hl Hr E IH1 IH2).
  - exact (shows_back _ _ _ _ _ Hp E IH).
Qed.

Lemma cut_end m q e w : cutting m -> word_at q e w -> cutting (mput m e 0) /\ keeps_nul m (mput m e 0) /\ cut_at (mput m e 0) q e w.
Proof.
  intros Hm Hw. split; [|split; [|split; [done|by rewrite mget_mput_eq]]].
  - intros a. destruct (decide (a = e)) as [->|Hne]; [|by rewrite mget_mput_ne].
    rewrite mget_mput_eq. right. destruct Hw as (H1 & _ & _ & _ & H5 & H6). split; [done|]. split; [done|lia].
  - intros a Ha. destruct (decide (a = e)) as [->|Hne]; [by rewrite mget_mput_eq|by rewrite mget_mput_ne].
Qed.

Lemma nul_args_ok x y l ws : Forall2 (fun '(q, e) w => word_at q e w) l ws -> forall m, cutting m ->
  let m' := nul_args m (l.*1 ++ 0 :: x) (l.*2 ++ y) in cutting m' /\ keeps_nul m m' /\ Forall2 (fun '(q, e) w => cut_at m' q e w) l ws.
Proof.
  induction 1 as [|[q e] w l ws Hw _ IH]; intros m Hm.
  - cbn [fmap list_fmap app nul_args]. destruct y; (split; [done|]); (split; [by intros a|constructor]).
  - cbn [fmap list_fmap app nul_args fst snd]. destruct (cut_end m q e w Hm Hw) as (H1 & H2 & H3). destruct (Z.eqb_spec q 0) as [->|_]; [destruct Hw as (Hq & _); lia|].
    destruct (IH _ H1) as (H4 & H5 & H6). split; [done|]. split; [by eapply keeps_nul_trans|]. constructor; [by eapply cut_at_mono|done].
Qed.

Lemma nulterminate_ok p c : shows word_at cmds p c -> forall fuel m, (Z.to_nat p < fuel)%nat -> cutting m ->
  exists m', nulterminate fuel cmds m p = Some m' /\ cutting m' /\ keeps_nul m m' /\ shows (cut_at m') cmds p c.
Proof.
  induction 1 as [p l ws Hp E Hl HF|p sub q e k w c Hp E Hw Hs IH|p l r c d Hl Hr E Hs1 IH1 Hs2 IH2|p l r c d Hl Hr E Hs1 IH1 Hs2 IH2|p sub c Hp E Hs IH];
    intros fuel m Hf Hm; (destruct fuel as [|fuel]; [lia|]); cbn [nulterminate]; (destruct (Z.eqb_spec p 0) as [|_]; [lia|]); rewrite E.
  - eexists. split; [done|]. assert (Ep : exists n, padded l.*1 = l.*1 ++ 0 :: replicate n 0).
    { unfold padded. destruct (Z.to_nat MAXARGS - length l.*1)%nat as [|n] eqn:En; [rewrite length_fmap in En; unfold lenZ in *; lia|by exists n]. }
    destruct Ep as [n Ep]. destruct (nul_args_ok (replicate n 0) (replicate (Z.to_nat MAXARGS - length l.*2) 0) l ws HF m Hm) as (H1 & H2 & H3).
    rewrite <- Ep in H1, H2, H3. split; [done|]. split; [done|]. by apply (shows_exec _ _ _ l).
  - destruct (IH fuel m) as (m1 & E1 & H1 & H2 & H3); [lia|done|]. rewrite E1. cbn [mbind option_bind]. destruct (cut_end m1 q e w H1 Hw) as (H4 & H5 & H6).
    eexists. split; [done|]. split; [done|]. split; [by eapply keeps_nul_trans|]. eapply shows_redir; [exact Hp|exact E|done|]. eapply shows_mono; [|exact H3]. eauto using cut_at_mono.
  - destruct (IH1 fuel m) as (m1 & E1 & H1 & H2 & H3); [lia|done|]. rewrite E1. cbn [mbind option_bind]. destruct (IH2 fuel m1) as (m2 & E2 & H4 & H5 & H6); [lia|done|].
    exists m2. split; [done|]. split; [done|]. split; [by eapply keeps_nul_trans|]. eapply shows_pipe; [exact Hl|exact Hr|exact E| |done]. eapply shows_mono; [|exact H3]. eauto using cut_at_mono.
  - destruct (IH1 fuel m) as (m1 & E1 & H1 & H2 & H3); [lia|done|]. rewrite E1. cbn [mbind option_bind]. destruct (IH2 fuel m1) as (m2 & E2 & H4 & H5 & H6); [lia|done|].
    exists m2. split; [done|]. split; [done|]. split; [by eapply keeps_nul_trans|]. eapply shows_list; [exact Hl|exact Hr|exact E| |done]. eapply shows_mono; [|exact H3]. eauto using cut_at_mono.
  - destruct (IH fuel m) as (m1 & E1 & H1 & H2 & H3); [lia|done|]. exists m1. split; [done|]. split; [done|]. split; [done|]. by eapply shows_back.
Qed.

(** A word that is cut off is a string. *)
Lemma cut_string m q e w : cutting m -> cut_at m q e w -> string_at m q w.
Proof.
  intros Hm ((Hq & Hp & Hl & -> & _ & _) & H0). split; [|split; [|done]].
  - rewrite <- Hl at 2. apply load_bytes_ext. intros x Hx. destruct (Hm x) as [->|(_ & Hb & _)]; [done|]. exfalso.
    assert (Hin : mget m0 x ∈ w); [|rewrite Forall_forall in Hp; specialize (Hp _ Hin); congruence].
    apply list_elem_of_lookup. exists (Z.to_nat (x - q)). rewrite <- Hl, lookup_load_bytes by lia. do 2 f_equal. lia.
  - eapply Forall_impl; [exact Hp|]. intros c Hc ->. done.
Qed.

End Nul.

(** ** The parser and its language *)

(** Every text is a sequence of tokens, of at least a byte each. *)
Lemma lexes_total n : forall w, (length w <= n)%nat -> exists ts, lexes w ts.
Proof.
  induction n as [|n IH]; intros w Hn; (destruct w as [|c w]; [exists []; constructor|]); [simpl in Hn; lia|]. simpl in Hn. destruct (is_white c) eqn:Ew.
  { destruct (IH w) as [ts Hts]; [lia|]. exists ts. by apply lex_white. }
  destruct (in_str (chars "|();&<") c) eqn:Eo.
  { destruct (IH w) as [ts Hts]; [lia|]. eexists. by apply lex_sym. }
  destruct (Z.eqb_spec c 62) as [->|Hne].
  - destruct (IH w) as [ts Hts]; [lia|]. destruct w as [|d w]; [eexists; by apply lex_gt|]. destruct (Z.eqb_spec 62 d) as [<-|Hd].
    + destruct (IH w) as [ts' Hts']; [simpl in Hn; lia|]. eexists. by apply lex_append.
    + eexists. apply lex_gt; [by apply Z.eqb_neq|done].
  - assert (Hp : is_plain c = true).
    { unfold is_plain. rewrite Ew. cbn [negb andb]. apply negb_true_iff. clear -Eo Hne. unfold in_str in *. apply not_true_is_false. intros (d & Hd & ->%Z.eqb_eq)%existsb_exists.
      repeat (destruct Hd as [<-|Hd]; [by vm_compute in Eo|]). by destruct Hd. }
    assert (Hv : exists v w', w = v ++ w' /\ Forall (fun c => is_plain c = true) v /\ ends_with is_plain w').
    { clear. induction w as [|d w (v & w' & -> & Hv & Hw)]; [by exists [], []|]. destruct (is_plain d) eqn:Ed; [exists (d :: v), w'|by exists [], (d :: v ++ w')].
      split; [done|]. split; [by constructor|done]. }
    destruct Hv as (v & w' & -> & Hv & Hw). destruct (IH w') as [ts Hts]; [rewrite length_app in Hn; lia|]. eexists. apply (lex_word c v w'); [by constructor|done|exact Hts].
Qed.

Lemma lexes_len w ts : lexes w ts -> (length ts <= length w)%nat.
Proof. induction 1; rewrite ?length_app; simpl; lia. Qed.

Lemma parse_fuel_ok w ts : lexes w ts -> (4 * length ts + 4 <= parse_fuel (lenZ w))%nat.
Proof. intros H%lexes_len. unfold parse_fuel, lenZ. lia. Qed.

Section Parsecmd.
Context (malloc_ok : nat -> bool) (maxlen : nat) (m : mem) (s : Z) (w : list Z).
Context (Hmalloc : forall k, malloc_ok k = true) (Hs : 0 < s) (Hw : string_at m s w) (Hmax : (length w < maxlen)%nat) (Hlen : lenZ w < 2 ^ 32).
Let es := s + lenZ w.

Lemma parsecmd_unfold : parsecmd malloc_ok maxlen m s =
  match parseline malloc_ok m es (parse_fuel (lenZ w)) (mkPstate s []) with
  | POk cmd st =>
      let s' := skip m es is_white (p_s st) in
      if negb (s' =? es) then PPanic "syntax" else
      match nulterminate (S (Z.to_nat cmd)) (p_cmds st) m cmd with
      | Some m => POk (cmd, m) (mkPstate s' (p_cmds st))
      | None => PFault
      end
  | PPanic msg => PPanic msg
  | PFault => PFault
  | PFuel => PFuel
  end.
Proof.
  unfold parsecmd. rewrite (strlen_ok maxlen m s 0 w) by (rewrite ?Z.add_0_r; done). rewrite Z.add_0_l, u32_small by (pose proof (lenZ_nonneg w); lia). fold es.
  destruct (parseline _ _ _ _ _) as [cmd st| | |]; [|done..]. done.
Qed.

Lemma line_start ts : lexes w ts -> cur m s es s ts.
Proof. intros Hl. exists w. split; [|done]. split; [lia|]. by split. Qed.

Lemma cur_at_end p ts : cur m s es p ts -> skip m es is_white p = es -> ts = [].
Proof.
  intros (v & Hr & Ht & _)%cur_first E. rewrite E in Hr. destruct v as [|c v]; [|apply rest_cons in Hr; lia]. destruct ts as [|[c| |u] ts]; [done|exfalso..]; cbn [token_first] in Ht.
  - by destruct Ht as (w' & ? & _).
  - by destruct Ht as (w' & ? & _).
  - destruct Ht as (w' & E' & Hne & _). by destruct u.
Qed.

(** The end of [parsecmd], when all tokens have been read. *)
Lemma parsecmd_finish cmd p l c : parseline malloc_ok m es (parse_fuel (lenZ w)) (mkPstate s []) = POk cmd (mkPstate p l) -> cur m s es p [] -> shows (word_at m s es) l cmd c ->
  exists m' st, parsecmd malloc_ok maxlen m s = POk (cmd, m') st /\ shows (fun q _ v => string_at m' q v) (p_cmds st) cmd c /\
    forall a, a < s \/ s + lenZ w < a -> mget m' a = mget m a.
Proof.
  intros E Hc Hsh. rewrite parsecmd_unfold, E. cbn [p_s p_cmds]. apply cur_first in Hc as (v & Hr & -> & _). apply rest_nil in Hr as [_ ->]. rewrite Z.eqb_refl. cbn [negb].
  destruct (nulterminate_ok m s es l Hs cmd c Hsh (S (Z.to_nat cmd)) m) as (m' & -> & Hm' & _ & Hsh'); [lia|by intros a; left|].
  eexists m', _. split; [done|]. cbn [p_cmds]. split.
  - eapply shows_mono; [|exact Hsh']. intros q e v Hv. by eapply cut_string.
  - intros a Ha. destruct (Hm' a) as [->|(_ & _ & Hr)]; [done|]. unfold es in *. lia.
Qed.

(** C8: [parsecmd] accepts exactly the language of the shell.  If the line is
    a text of a syntax tree, with any white space and with at most nine
    arguments for each command, it returns the command that the tree denotes,
    every argument and file name a string of its own, and changes nothing
    outside of the line.  For any other line it terminates with a syntax error. *)
Theorem parsecmd_decides :
  (forall t, fits_line t -> lexes w (flat_line t) -> exists cmd m' st, parsecmd malloc_ok maxlen m s = POk (cmd, m') st /\
    shows (fun q _ v => string_at m' q v) (p_cmds st) cmd (denote_line t) /\ forall a, a < s \/ s + lenZ w < a -> mget m' a = mget m a) /\
  ((forall t, fits_line t -> ~ lexes w (flat_line t)) -> exists msg, parsecmd malloc_ok maxlen m s = PPanic msg).
Proof.
  split.
  - intros t Hfit Hl. destruct (parseline_ok malloc_ok m s es Hmalloc t (parse_fuel (lenZ w)) s [] [] Hfit) as (p & cmd & l & E & Hc & Hsh).
    + rewrite app_nil_r. by apply line_start.
    + by left.
    + by apply parse_fuel_ok.
    + exists cmd. by apply (parsecmd_finish cmd p l).
  - intros Hno. destruct (lexes_total (length w) w ltac:(lia)) as [ts Hl].
    destruct (parseline_total malloc_ok m s es Hmalloc (parse_fuel (lenZ w)) s [] ts (line_start _ Hl) (parse_fuel_ok _ _ Hl)) as
      [[msg E]|(p & cmd & l & c & ts' & E & Hc & _ & t & -> & _ & Hfit)]; rewrite parsecmd_unfold, E; [by eexists|]. cbn [p_s p_cmds].
    destruct (Z.eqb_spec (skip m es is_white p) es) as [Ee|_]; [|by eexists]. rewrite (cur_at_end _ _ Hc Ee), app_nil_r in Hl. by destruct (Hno t).
Qed.

End Parsecmd.

(** [echo a | wc > f &] *)
Definition demo_line : list Z := chars "echo a |wc>f &".
Definition demo_tree : line :=
  Last (Piped (Simple [] [(chars "echo", []); (chars "a", [])]) (Single (Simple [] [(chars "wc", [(ROut, chars "f")])]))) 1.
Definition demo_text : mem := store_bytes ∅ 4096 demo_line.

Lemma demo_lexes : lexes demo_line (flat_line demo_tree).
Proof.
  unfold demo_line, demo_tree. cbn.
  apply (lex_word 101 [99; 104; 111]); [repeat constructor|reflexivity|]. apply lex_white; [reflexivity|].
  apply (lex_word 97 []); [repeat constructor|reflexivity|]. apply lex_white; [reflexivity|]. apply lex_sym; [reflexivity|].
  apply (lex_word 119 [99]); [repeat constructor|reflexivity|]. apply lex_gt; [reflexivity|].
  apply (lex_word 102 []); [repeat constructor|reflexivity|]. apply lex_white; [reflexivity|]. apply lex_sym; [reflexivity|]. apply lex_end.
Qed.

Lemma parsecmd_decides_witness : lexes demo_line (flat_line demo_tree) /\ exists cmd m' st, parsecmd (fun _ => true) 100 demo_text 4096 = POk (cmd, m') st /\
  shows (fun q _ v => string_at m' q v) (p_cmds st) cmd (denote_line demo_tree).
Proof.
  split; [exact demo_lexes|].
  assert (Hw : string_at demo_text 4096 demo_line) by (split; [vm_compute; reflexivity|]; split; [repeat constructor; discriminate|vm_compute; reflexivity]).
  destruct (parsecmd_decides (fun _ => true) 100 demo_text 4096 demo_line (fun _ => eq_refl) eq_refl Hw ltac:(vm_compute; lia) eq_refl) as [Hok _].
  destruct (Hok demo_tree) as (cmd & m' & st & E & Hs & _); [by vm_compute|exact demo_lexes|]. exists cmd, m', st. split; [exact E|exact Hs].
Defined.
